(* ===== verification/_CoqProject ===== *)
-Q . S2P
Prelude.v
ListH.v
CString.v
Printf.v
Bits.v
Splay.v
Binradix.v
Irq.v
Alloc.v
MmState.v
PageMan.v
Aspace.v
FdTable.v
Copy.v
VmaProofs.v
MmInv.v
MmOps.v
Cow.v
Fault.v
Snapshot.v
MmProps.v
Kernel.v
Sched.v
Port.v
Uport.v
Services.v
SchedProofs.v
UportProofs.v
Shell.v
Malloc.v
MallocProofs.v
Ioreq.v
Vga.v
Keyboard.v
Console.v
ConsoleProofs.v
Kbd.v
SataFs.v
SataProofs.v
Tarfs.v
TarfsProofs.v
SataDir.v
SataDirProofs.v
Vfs.v
VfsProofs.v
Rw.v
RwProofs.v
Cwd.v
CwdProofs.v
PageTable.v
PageTableProofs.v
PageFree.v
Exec.v
ExecProofs.v
Scanf.v
ScanfProofs.v
Env.v
BitField.v
Ahci.v
AhciSim.v
AhciProofs.v
Entry.v
IrqMm.v
IrqKernel.v
EntryProofs.v
Released.v
Munmap.v
Areas.v
MunmapProps.v
Exit.v
Boot.v
BootProofs.v
