(* ===== verification/Prelude.v ===== *)
(** * SadOS: a verification development

    SadOS is a small microkernel for x86-64 written in C: the kernel ([src/sys/])
    isolates processes, manages address spaces and passes messages; the console
    and the file systems are user programs ([src/bin/]) that serve ports.  This
    library models the kernel's own logic, and the parts of the C library and of
    the user programs that have logic of their own, as executable functions, and
    proves what they do.

    ** How the code is represented

    - A C integer of an unsigned [w]-bit type is a [Z] with the wrap-around
      written out ([u64], [u32], [u8], ...; [i64], [i32], [i8] for signed types).
    - A C function is a Rocq function.  Where it changes state it is in the monad
      [M S] below: [Done a s] is a normal return, [Panicked] a call of [panic()]
      or a failed assertion, [Faulted] an access the C code may not make (a freed
      or missing object, a null pointer, the wrong list).  Theorems about these
      functions show that they end in [Done] and say in which state.
    - An object that lives in an object pool is named by a [positive] that is
      never reused and is looked up in a [gmap]; an access to an object that is
      not there is [Faulted].  That an allocation is distinct from every live
      object is proved of the allocator ([Alloc.obj_pool_alloc_disjoint]).
    - Intrusive lists are Rocq lists in the kernel models; [ListH] proves that the
      operations of [include/sys/list.h] on rings of nodes implement them.
    - [splay.c] and [binradix.c] trees are inductive trees; their clients use the
      binary radix tree through the class [Binradix.RadixMap].
    - [vm_area]s, page tables: an address space is its sorted list of areas, the
      map of its page entries and the map [ptes] of its present 4k entries.  The
      hardware walk is the lookup in [ptes]; the bits of an entry are kept.  The walk
      itself, and the tables, are in [PageTable].

    ** The parts, bottom up

    - [Prelude]: integers, the monad, list lemmas.
    - [ListH] ([include/sys/list.h]), [CString] ([libc/string.c],
      [sys/lib/string.c]), [Printf] ([sys/printk.c], [libc/printf.c]): the
      libraries the rest is written with.
    - [Bits]: [include/bitops.h], [include/sys/err.h], page-table entries.
    - [Splay], [Binradix]: [sys/lib/splay.c], [sys/lib/binradix.c].
    - [Irq]: the nesting counter of [include/sys/interrupt.h], a class that every
      kernel state implements.
    - [Alloc]: [sys/mm/get_page.c] and [sys/mm/obj_pool.c].
    - [MmState], [PageMan], [Aspace], [Copy]: the memory manager, [sys/mm/]:
      managed pages with reference and snapshot counts ([page_man.c]), address
      spaces ([aspace.c]), data transfer, page faults and the memory system calls
      ([copy.c], [page_fault.c], [syscall.c]).  [VmaProofs] is about areas,
      [MmInv] the invariant, [MmOps], [Cow], [Fault], [Snapshot] what the
      operations do to it, [MmProps] the resulting theorems.
    - [FdTable]: [include/sys/ipc.h] and the descriptor sets of
      [include/uapi/port.h].
    - [Kernel], [Sched], [Port], [Uport], [Services]: tasks ([sys/sched.c]), the
      generic port calls ([sys/ipc/port.c]), ports served by user tasks
      ([sys/ipc/uport.c]), the kernel's own services ([sys/services/],
      [sys/interrupt.c]).  The state [kernel] contains the memory manager's;
      [Uport] and [Services] supply the operation tables that [Port] dispatches
      on.  [SchedProofs] and [UportProofs] are the theorems.
    - [PageTable], [PageTableProofs]: the tables in physical memory as the processor
      reads them, [sys/mm/paging.c] and [sys/mm/page_table.c], from [memory_init]
      on.  They justify the map [ptes] of the memory manager: [map_page] adds one
      page to what the processor finds, [unmap] takes one away.
    - [Kbd]: the kernel's keyboard driver, [sys/drivers/kbd.c].
    - [Malloc], [MallocProofs]: the heap of user programs, [libc/malloc.c], a buddy
      allocator over pages from [sendpage].
    - [Env]: [libc/env.c].  [Scanf], [ScanfProofs]: [libc/scanf.c].
    - [Exec], [ExecProofs]: starting a program, [libc/exec.c], [libc/elf/elf.c] and
      [crt/crt1.c].
    - [Shell]: the command-line parser of the shell, [bin/sbush/parse.c], and its
      growing strings, [bin/sbush/str.c].
    - [Ioreq]: the messages of the file protocol, [include/uapi/ioreq.h].
    - [Vga], [Keyboard], [Console], [ConsoleProofs]: the console server,
      [bin/console/main.c]: screen, scan codes, line buffers and readers.
    - [SataFs], [SataProofs], [SataDir], [SataDirProofs]: the disk file system,
      [bin/fs/fs.c]: bitmaps, inodes and blocks, then names and directories.
    - [BitField], [Ahci], [AhciSim], [AhciProofs]: bit fields of C structures and the disk driver under it, [bin/fs/ahci.c], against
      the class [Ahci.HbaLaws] of what the host controller is specified to do; [AhciSim] is
      a controller that does it.
    - [Tarfs], [TarfsProofs]: the tar file system, [bin/fs/tarfs.c].
    - [Vfs], [VfsProofs]: the file server, [bin/fs/vfs.c], on top of both file systems.
    - [Rw], [RwProofs], [Cwd], [CwdProofs]: a program's side of the file protocol,
      [libc/rw.c] and [libc/getcwd.c], against the class [Rw.Ports] of the system
      calls it uses; [RwProofs] instantiates it with the file server.
    - [Entry], [IrqMm], [IrqKernel], [EntryProofs]: how programs enter the kernel and
      leave it, [syscalls_init] of [sys/main.c], [sys/entry.s] and [sys/gp.c], over every
      system call of the model; [IrqMm] and [IrqKernel] follow the nesting counter
      through all of them.
    - [PageFree]: [walk_user_page_table] with [free_page_table], the end of the tables of
      an address space.
    - [Released]: which frames the page operations give back to the allocator.
    - [Munmap], [Areas], [MunmapProps]: removing a range from an address space,
      [munmap] and [destroy_as] of [sys/mm/], under the invariant that the page
      lists of the areas are exact ([Munmap.areas_ok]).
    - [Exit]: the end of a task, [sys_exit] of [sys/sched.c] through the scheduler and
      the end of its address space.
    - [Boot], [BootProofs]: descriptor tables, interrupt controller and timer,
      [sys/gdt.c], [sys/idt.c], [sys/i8259.c], [sys/apic.c], [sys/timer.c].
    ** What the theorems show

    - Memory: fork's snapshot is isolated from later writes of the original,
      page faults make the address usable and change no byte anybody sees,
      assigning, sharing, unsharing and dropping pages keep the invariant
      [MmInv.mm_inv] (counts agree with owners, page tables with entries, a page
      with snapshots is writable nowhere), areas stay sorted and disjoint.
    - Allocation: pages and objects handed out are disjoint from live ones.
    - Data structures: lists, splay and radix trees implement lists, ordered
      sequences and finite maps.
    - Tasks and messages: the run queue is consistent and served round robin;
      requests queue in order on established connections; a response reaches
      exactly the request it answers.
    - Libraries: formatted output renders its format, [itoa] round trips, string
      functions meet their specifications, overlap included.
    - Unmapping takes exactly its range out of the areas, the page tables and what is
      visible, splitting and trimming areas; it undoes a mapping.  It and the end of an
      address space give the allocator the frames of exactly the pages that nobody
      shows or holds any more, the latter also every page table of the user's half.
    - Every system call returns with interrupts enabled, those excepted that look for
      room in an address space and find none.
    - A task that exits hands over to the next one, and its address space, objects and
      place in the task table are gone.  After the boot code every vector leads to its
      stub and system calls switch between the right segments.
    - Page tables: after [memory_init] they are well formed and map the kernel's
      image, the memory behind it and the low memory; mapping and unmapping change
      the one page they are called for, through the entry that points back to the
      top table.
    - Programs: what [execvm] puts into a new address space, [__real_start] finds,
      except for the environment, which is lost; [putenv] sets one variable;
      [scanf] reads back what [printf] prints.
    - User space: [parse] returns the meaning of every line of the grammar of
      words, quotes, escapes and bars; [malloc] hands out blocks that overlap
      nothing in use and [free] takes them back, merging buddies; what is written
      to a file of the disk is read back and no other file changes.
    - Disk: through registers and command tables in shared memory the driver moves
      exactly the sectors that the file system asks for, one page at a time, on a
      controller that also takes the odd byte counts of its reads, which the
      specification excludes; a single disk at the first port, if that is not
      running, is found and started with cleared structures.
    - Console and files: the console refines a terminal, on the heap of [malloc], whatever its
      buffers hold from an earlier use;
      the tables of the tar file system are the tree of its archive; the file
      server refines a table of open files for any interleaving of its clients;
      a program that opens and reads a file through the C library, the messages
      and the server gets the bytes in the archive.
    - Where the code does not do what it means to, a lemma or an [Example] shows
      how ([UportProofs.wait_on_port_lost], [MallocProofs.malloc_4072],
      [SataProofs.inode_lost], [Shell.parse_no_newline], [ScanfProofs.no_sign],
      [ExecProofs.shared_page], [EntryProofs.sendpage_halts],
      [MunmapProps.empty_area_panics], [AhciProofs.probe_disk] and others), and the
      theorems state the condition under which it does.
    ** Bounds and fuel

    Loops over data that the model holds as a list or tree are structural.  The
    others have fuel: the length of the string plus one in [CString], 64 digits
    in [Printf] (an [unsigned long] in base 2), one more than the number of nodes
    in [ListH], more than the rest of the input in [Shell], the longest string plus one in [Exec], the number of steps of
    the counting loops in [Alloc], [Malloc] (13 lists) and [SataFs] (512 entries of
    a bitmap, the blocks of a file).  Loops that wait for the disk controller end after
    the number of reads that the controller is specified to need ([AhciProofs.issue_spec]).  The theorems state how much is enough and that the result is then there.

    ** Not modelled, and why

    - The loading of the first program, the serial line and the start of the text
      screen; instructions that only the processor sees, as the reload of segments.
    - The switch of stacks in [schedule] and the registers that the stubs save: a blocking
      system call is cut at its [schedule()] (see [Sched]).
    - Releasing memory in the file system, the file calls and the parser.
    - [execve] and [execvp], which read a file with the calls of [Rw] and hand it to
      [execvm]; [bin/init], [bin/ls] and the rest of [bin/sbush]: sequences of system calls.
    - [sys/tarfs.c], an older copy of the tar file system that nothing calls.
    - The pages behind the object pools of an address space, which [destroy_as] also
      gives back.
*)
From stdpp Require Export base tactics numbers list gmap strings.
From Stdlib Require Export ZArith Lia.

#[export] Set Default Goal Selector "!".

Declare Scope sados_scope.
Delimit Scope sados_scope with sados.
Open Scope Z_scope.

(** ** Machine integers

    A C object of an unsigned [w]-bit type is a [Z] in [0, 2^w); arithmetic is
    done in [Z] and wrapped back where the C code stores or computes at that
    width. *)
Definition wrap (w x : Z) : Z := x mod 2 ^ w.
Definition u64 (x : Z) : Z := wrap 64 x.
Definition u32 (x : Z) : Z := wrap 32 x.
Definition u16 (x : Z) : Z := wrap 16 x.
Definition u8 (x : Z) : Z := wrap 8 x.

(** Two's complement reading of a [w]-bit pattern. *)
Definition swrap (w x : Z) : Z := (x + 2 ^ (w - 1)) mod 2 ^ w - 2 ^ (w - 1).
Definition i64 (x : Z) : Z := swrap 64 x.
Definition i32 (x : Z) : Z := swrap 32 x.
Definition i8 (x : Z) : Z := swrap 8 x.
Lemma i32_small x : - 2 ^ 31 <= x < 2 ^ 31 -> i32 x = x.
Proof. intros H. unfold i32, swrap. change (32 - 1) with 31. rewrite Z.mod_small; lia. Qed.

Definition is_u64 (x : Z) : Prop := 0 <= x < 2 ^ 64.
#[export] Instance is_u64_dec x : Decision (is_u64 x).
Proof. unfold is_u64. apply _. Defined.

(** Shifts of a 64-bit operand: C leaves a shift by 64 or more, or by a
    negative amount, undefined; [None] stands for it. *)
Definition shl64 (x n : Z) : option Z :=
  if bool_decide (0 <= n < 64) then Some (u64 (Z.shiftl x n)) else None.
Definition shr64 (x n : Z) : option Z :=
  if bool_decide (0 <= n < 64) then Some (Z.shiftr x n) else None.

(** The characters of a string literal. *)
Definition chars (s : string) : list Z := (fun a => Z.of_N (Ascii.N_of_ascii a)) <$> String.list_ascii_of_string s.

(** ** Outcomes of kernel code

    [Done a s]: the code returned [a] leaving state [s]; [Panicked]: it ran
    into [panic(...)], which prints, disables interrupts and halts the
    processor; [Faulted]: it dereferenced a pointer that is NULL or does not
    point to a live object. *)
Inductive outcome (S A : Type) : Type :=
| Done (a : A) (s : S)
| Panicked (msg : string)
| Faulted.
Arguments Done {S A} _ _.
Arguments Panicked {S A} _.
Arguments Faulted {S A}.

Definition M (S A : Type) : Type := S -> outcome S A.

#[export] Instance M_ret S : MRet (M S) := fun A a s => Done a s.
#[export] Instance M_bind S : MBind (M S) := fun A B f m s =>
  match m s with
  | Done a s' => f a s'
  | Panicked msg => Panicked msg
  | Faulted => Faulted
  end.

Definition get {S} : M S S := fun s => Done s s.
Definition put {S} (s : S) : M S () := fun _ => Done () s.
Definition modify {S} (f : S -> S) : M S () := fun s => Done () (f s).
Definition gets {S A} (f : S -> A) : M S A := fun s => Done (f s) s.
Definition panic {S A} (msg : string) : M S A := fun _ => Panicked msg.
Definition fault {S A} : M S A := fun _ => Faulted.
(** Dereference: [None] is a NULL or dangling pointer. *)
Definition deref {S A} (o : option A) : M S A :=
  match o with Some a => mret a | None => fault end.
Definition when {S} (b : bool) (m : M S ()) : M S () := if b then m else mret ().

(** [list_for_each] and [list_for_each_safe] over a list fixed on entry. *)
Fixpoint forM_ {S A} (l : list A) (f : A -> M S ()) : M S () :=
  match l with
  | [] => mret ()
  | x :: l => f x ;; forM_ l f
  end.

(** ** Total-correctness triples

    [triple P m Q]: from a state satisfying [P], [m] returns (it neither
    panics nor faults) and its result and final state satisfy [Q]. *)
Definition triple {S A} (P : S -> Prop) (m : M S A) (Q : A -> S -> Prop) : Prop :=
  forall s, P s -> exists a s', m s = Done a s' /\ Q a s'.

Section triples.
Context {S : Type}.
Implicit Types P : S -> Prop.

Lemma triple_ret {A} (a : A) (Q : A -> S -> Prop) : triple (Q a) (mret a) Q.
Proof. intros s H. eexists _, _. split; [reflexivity|done]. Qed.

Lemma triple_bind {A B} P (m : M S A) (f : A -> M S B) R Q :
  triple P m R -> (forall a, triple (R a) (f a) Q) -> triple P (m ≫= f) Q.
Proof.
  intros Hm Hf s Hs. destruct (Hm s Hs) as (a & s1 & E & HR).
  destruct (Hf a s1 HR) as (b & s2 & E2 & HQ).
  exists b, s2. split; [|done]. unfold mbind, M_bind. by rewrite E.
Qed.

Lemma triple_conseq {A} P P' (m : M S A) (Q Q' : A -> S -> Prop) :
  triple P' m Q' -> (forall s, P s -> P' s) -> (forall a s, Q' a s -> Q a s) ->
  triple P m Q.
Proof.
  intros H HP HQ s Hs. destruct (H s (HP s Hs)) as (a & s' & E & HR). eauto 10.
Qed.

Lemma triple_forM {A} (l : list A) (f : A -> M S ()) (I : list A -> S -> Prop) :
  (forall x l', x ∈ l -> triple (I (x :: l')) (f x) (fun _ => I l')) ->
  triple (I l) (forM_ l f) (fun _ => I []).
Proof.
  assert (forall l2, (forall x, x ∈ l2 -> x ∈ l) ->
    (forall x l', x ∈ l -> triple (I (x :: l')) (f x) (fun _ => I l')) ->
    triple (I l2) (forM_ l2 f) (fun _ => I [])) as Hgen.
  { induction l2 as [|x l2 IH]; intros Hsub Hstep; simpl.
    - intros s Hs. exists (), s. by split.
    - eapply triple_bind.
      + apply Hstep. apply Hsub. set_solver.
      + intros []. apply IH; [|done]. set_solver. }
  intros Hstep. by apply Hgen.
Qed.

Lemma bind_Done {A B} (m : M S A) (f : A -> M S B) s b s' :
  (m ≫= f) s = Done b s' <-> exists a s1, m s = Done a s1 /\ f a s1 = Done b s'.
Proof.
  unfold mbind, M_bind. split.
  - destruct (m s) as [a s1| |] eqn:E; intros H; [|discriminate..]. eauto.
  - intros (a & s1 & -> & H). done.
Qed.

Lemma bind_eq {A B} (m : M S A) (f : A -> M S B) s a s1 :
  m s = Done a s1 -> (m ≫= f) s = f a s1.
Proof. unfold mbind, M_bind. by intros ->. Qed.
End triples.

Lemma gets_eq {S A} (f : S -> A) (s : S) : gets f s = Done (f s) s.
Proof. done. Qed.
Lemma get_eq {S} (s : S) : get s = Done s s.
Proof. done. Qed.
Lemma modify_eq {S} (f : S -> S) (s : S) : modify f s = Done () (f s).
Proof. done. Qed.
Lemma mret_eq {S A} (a : A) (s : S) : (mret a : M S A) s = Done a s.
Proof. done. Qed.
Lemma deref_eq {S A} (o : option A) (a : A) (s : S) : o = Some a -> deref o s = Done a s.
Proof. by intros ->. Qed.

(** ** Frames
    [frame f m]: whenever [m] returns, the part [f] of the state is what it was. *)
Definition frame {S A X} (f : S -> X) (m : M S A) : Prop := forall s a s', m s = Done a s' -> f s' = f s.

Section frames.
Context {S X : Type} (f : S -> X).
Lemma frame_ret {A} (a : A) : frame f (mret a).
Proof. by intros s b s' [= _ <-]. Qed.
Lemma frame_bind {A B} (m : M S A) (k : A -> M S B) : frame f m -> (forall a, frame f (k a)) -> frame f (m ≫= k).
Proof. intros Hm Hk s b s' (a & s1 & E1 & E2)%bind_Done. rewrite <- (Hm s a s1 E1). by apply (Hk a s1 b). Qed.
Lemma frame_get : frame f get.
Proof. by intros s b s' [= _ <-]. Qed.
Lemma frame_fault {A} : frame f (fault : M S A).
Proof. by intros s b s'. Qed.
Lemma frame_deref {A} (o : option A) : frame f (deref o).
Proof. destruct o; [apply frame_ret|apply frame_fault]. Qed.
Lemma frame_modify g : (forall s, f (g s) = f s) -> frame f (modify g).
Proof. intros Hg s b s' [= _ <-]. apply Hg. Qed.
(** Reading the state, to write one that differs elsewhere. *)
Lemma frame_get_put {A} (k : S -> M S A) : (forall s a s', k s s = Done a s' -> f s' = f s) -> frame f (get ≫= k).
Proof. intros Hk s a s' (s0 & s1 & [= <- <-] & E)%bind_Done. by apply (Hk s a). Qed.
Lemma frame_if {A} (b : bool) (m1 m2 : M S A) : frame f m1 -> frame f m2 -> frame f (if b then m1 else m2).
Proof. by destruct b. Qed.
Lemma frame_when (b : bool) m : frame f m -> frame f (when b m).
Proof. destruct b; [done|intros _; apply frame_ret]. Qed.
End frames.

Create HintDb frame.
#[export] Hint Resolve frame_ret frame_get frame_fault frame_deref : frame.
(** [framed]: split a program into its actions and find each in the database. *)
Ltac framed := repeat first
  [progress intros | solve [eauto with frame] | apply frame_bind | apply frame_if | apply frame_when | apply frame_modify; by split].

(** One step of a computation: [kstep L] runs its first action with the
    equation [L] and goes on with the rest. *)
Tactic Notation "kstep" uconstr(L) := cbv beta iota; erewrite bind_eq; [|eapply L; eauto].

(** ** Generic lemmas on bits of 64-bit words *)
Lemma wrap_small w x : 0 <= x < 2 ^ w -> wrap w x = x.
Proof. intros H. unfold wrap. by rewrite Z.mod_small. Qed.

Lemma u64_small x : is_u64 x -> u64 x = x.
Proof. apply wrap_small. Qed.

Lemma wrap_bound w x : 0 <= w -> 0 <= wrap w x < 2 ^ w.
Proof. intros. apply Z.mod_pos_bound. by apply Z.pow_pos_nonneg. Qed.

Lemma u64_bound x : is_u64 (u64 x).
Proof. by apply wrap_bound. Qed.

Lemma wrap_land w x : 0 <= w -> wrap w x = Z.land x (Z.ones w).
Proof. intros. unfold wrap. by rewrite Z.land_ones. Qed.

Lemma wrap_testbit w x i :
  0 <= w -> 0 <= i -> Z.testbit (wrap w x) i = (i <? w) && Z.testbit x i.
Proof.
  intros Hw Hi. rewrite wrap_land by done.
  rewrite Z.land_spec, Z.testbit_ones_nonneg by done.
  by rewrite andb_comm.
Qed.

Lemma is_u64_high_bit x i : is_u64 x -> 64 <= i -> Z.testbit x i = false.
Proof.
  intros Hx Hi. rewrite <- (u64_small x Hx). unfold u64.
  rewrite wrap_testbit by lia. by destruct (Z.ltb_spec i 64); [lia|].
Qed.

Lemma shiftr_eq_iff a b n :
  0 <= n ->
  Z.shiftr a n = Z.shiftr b n <-> forall i, n <= i -> Z.testbit a i = Z.testbit b i.
Proof.
  intros Hn. split.
  - intros H i Hi. replace i with ((i - n) + n) by lia.
    rewrite <- !Z.shiftr_spec by lia. by rewrite H.
  - intros H. apply Z.bits_inj'. intros i Hi.
    rewrite !Z.shiftr_spec by done. apply H. lia.
Qed.

Lemma shiftr_eq_mono a b n m :
  0 <= n <= m -> Z.shiftr a n = Z.shiftr b n -> Z.shiftr a m = Z.shiftr b m.
Proof.
  intros Hnm. rewrite !shiftr_eq_iff by lia. intros H i Hi. apply H. lia.
Qed.

Lemma shiftr_step a b n :
  0 <= n ->
  Z.shiftr a (n + 1) = Z.shiftr b (n + 1) -> Z.testbit a n = Z.testbit b n ->
  Z.shiftr a n = Z.shiftr b n.
Proof.
  intros Hn. rewrite !shiftr_eq_iff by lia. intros H Hb i Hi.
  destruct (decide (i = n)) as [->|]; [done|]. apply H. lia.
Qed.

(** ** Hint databases and tactics *)
Create HintDb sados.
Create Rewrite HintDb zbits.
#[export] Hint Resolve u64_bound : sados.
#[export] Hint Rewrite Z.land_spec Z.lor_spec Z.lxor_spec Z.lnot_spec : zbits.

(** Split every boolean [if] of the goal. *)
Ltac case_ifs :=
  repeat match goal with
  | |- context [if ?b then _ else _] =>
      lazymatch type of b with
      | bool => destruct b eqn:?
      | _ => destruct b
      end
  end.

(** Turn boolean comparisons in the context into propositions. *)
Ltac bool_to_prop :=
  repeat match goal with
  | H : (_ =? _) = true |- _ => apply Z.eqb_eq in H
  | H : (_ =? _) = false |- _ => apply Z.eqb_neq in H
  | H : (_ <? _) = true |- _ => apply Z.ltb_lt in H
  | H : (_ <? _) = false |- _ => apply Z.ltb_ge in H
  | H : (_ <=? _) = true |- _ => apply Z.leb_le in H
  | H : (_ <=? _) = false |- _ => apply Z.leb_gt in H
  | H : (_ && _)%bool = true |- _ => apply andb_true_iff in H as [? ?]
  | H : (_ || _)%bool = false |- _ => apply orb_false_iff in H as [? ?]
  | H : bool_decide _ = true |- _ => apply bool_decide_eq_true in H
  | H : bool_decide _ = false |- _ => apply bool_decide_eq_false in H
  | H : negb _ = true |- _ => apply negb_true_iff in H
  | H : negb _ = false |- _ => apply negb_false_iff in H
  end.

(** Case analysis on every integer comparison of the goal; contradictory cases
    are closed, the booleans of the others simplified. *)
Ltac zcases :=
  repeat match goal with
  | |- context [?a <=? ?b] => destruct (Z.leb_spec a b)
  | |- context [?a <? ?b] => destruct (Z.ltb_spec a b)
  | |- context [?a =? ?b] => destruct (Z.eqb_spec a b)
  end; try lia; simpl;
  rewrite ?andb_false_r, ?andb_true_r, ?orb_false_r, ?orb_true_r; try done.

(** Normal form of nested appends. *)
Ltac list_norm := simpl; repeat progress (rewrite <- ?app_assoc; simpl).

(** Membership in an explicit append or cons. *)
Ltac in_list := repeat rewrite ?elem_of_app, ?elem_of_cons, ?list_elem_of_singleton in *; tauto.
