(* ===== verification/ListH.v ===== *)
(** The intrusive doubly linked lists of [include/sys/list.h].

    The kernel models keep the lists it threads through its objects (the owners
    of a page, the pages of an area, the run queue, the queues of a port) as
    Coq lists; this file justifies that: a [struct list_head] and its nodes, in
    a store of [next]/[prev] pairs, form a ring that stands for a list, and each
    operation does to the ring what its counterpart does to the list.  The
    macros that go through [container_of] are these on the embedded nodes. *)
From S2P Require Import Prelude.

Notation nid := positive (only parsing).

Record list_node := mkLnode { next : nid; prev : nid }.
Notation store := (gmap positive list_node) (only parsing).
Notation Ln := (M store).

Definition get_node (n : nid) : Ln list_node := o ← gets (fun s : store => s !! n); deref o.
Definition put_node (n : nid) (v : list_node) : Ln () := get_node n;; modify (fun s : store => <[n := v]> s).
Definition set_next (n x : nid) : Ln () := v ← get_node n; put_node n (mkLnode x (prev v)).
Definition set_prev (n x : nid) : Ln () := v ← get_node n; put_node n (mkLnode (next v) x).

(** ** Operations ([LIST_DEBUG] is off) *)
Definition list_head_init (h : nid) : Ln () := set_prev h h;; set_next h h.
Definition list_node_init (n : nid) : Ln () := set_prev n n;; set_next n n.

Definition list_add_after_ (p n : nid) : Ln () :=
  v ← get_node p;
  set_next n (next v);;
  set_prev n p;;
  v ← get_node p;
  set_prev (next v) n;;
  set_next p n.
Definition list_add_ (h n : nid) : Ln () := list_add_after_ h n.

Definition list_add_before_ (p n : nid) : Ln () :=
  set_next n p;;
  v ← get_node p;
  set_prev n (prev v);;
  v ← get_node p;
  set_next (prev v) n;;
  set_prev p n.
Definition list_add_tail_ (h n : nid) : Ln () := list_add_before_ h n.

Definition list_empty_ (h : nid) : Ln bool := v ← get_node h; mret (bool_decide (next v = h)).

Definition list_del_ (n : nid) : Ln () :=
  v ← get_node n;
  set_prev (next v) (prev v);;
  v ← get_node n;
  set_next (prev v) (next v).
Definition list_del_init_ (n : nid) : Ln () := list_del_ n;; list_node_init n.
Definition list_del_from (h n : nid) : Ln () :=
  e ← list_empty_ h; if (e : bool) then panic "Empty list" else list_del_ n.

Definition list_swap_ (o n : nid) : Ln () :=
  v ← get_node o;
  put_node n v;;
  v ← get_node n;
  set_prev (next v) n;;
  v ← get_node n;
  set_next (prev v) n.

Definition list_top_ (h : nid) : Ln (option nid) :=
  e ← list_empty_ h; if (e : bool) then mret None else v ← get_node h; mret (Some (next v)).
Definition list_pop_ (h : nid) : Ln (option nid) :=
  e ← list_empty_ h;
  if (e : bool) then mret None else v ← get_node h; list_del_ (next v);; mret (Some (next v)).
Definition list_tail_ (h : nid) : Ln (option nid) :=
  e ← list_empty_ h; if (e : bool) then mret None else v ← get_node h; mret (Some (prev v)).

Definition list_append_list_ (to from : nid) : Ln () :=
  f ← get_node from;
  let from_tail := prev f in
  t ← get_node to;
  let to_tail := prev t in
  set_prev to from_tail;;
  set_next from_tail to;;
  set_next to_tail from;;
  set_prev from to_tail;;
  list_del_ from;;
  list_head_init from.

Definition list_prepend_list_ (to from : nid) : Ln () :=
  f ← get_node from;
  let from_tail := prev f in
  t ← get_node to;
  let to_head := next t in
  set_next to from;;
  set_prev from to;;
  set_prev to_head from_tail;;
  set_next from_tail to_head;;
  list_del_ from;;
  list_head_init from.

(** [list_entry_or_null], behind [list_next] and [list_prev]. *)
Definition list_entry_or_null (h n : nid) : option nid := if decide (n = h) then None else Some n.
Definition list_next (h i : nid) : Ln (option nid) := v ← get_node i; mret (list_entry_or_null h (next v)).
Definition list_prev (h i : nid) : Ln (option nid) := v ← get_node i; mret (list_entry_or_null h (prev v)).

(** [list_for_each_off_dir_] and its [safe] variant, in either direction: [body]
    runs on every node; the plain loop reads the link after the body, the safe
    one before it. *)
Fixpoint for_each_from (dir : list_node -> nid) (h i : nid) (body : nid -> Ln ()) (fuel : nat) : Ln () :=
  match fuel with
  | O => fault
  | S fuel =>
      if decide (i = h) then mret ()
      else body i;; v ← get_node i; for_each_from dir h (dir v) body fuel
  end.
Definition list_for_each_off_dir_ (dir : list_node -> nid) (h : nid) (body : nid -> Ln ()) (fuel : nat) : Ln () :=
  v ← get_node h; for_each_from dir h (dir v) body fuel.

Fixpoint for_each_safe_from (dir : list_node -> nid) (h i nxt : nid) (body : nid -> Ln ()) (fuel : nat) : Ln () :=
  match fuel with
  | O => fault
  | S fuel =>
      if decide (i = h) then mret ()
      else body i;; v ← get_node nxt; for_each_safe_from dir h nxt (dir v) body fuel
  end.
Definition list_for_each_safe_off_dir_ (dir : list_node -> nid) (h : nid) (body : nid -> Ln ()) (fuel : nat) : Ln () :=
  v ← get_node h; w ← get_node (dir v); for_each_safe_from dir h (dir v) (dir w) body fuel.

(** ** Rings *)
Definition nxt (s : store) (u : nid) : option nid := next <$> s !! u.
Definition prv (s : store) (u : nid) : option nid := prev <$> s !! u.

(** [x] and [y] are neighbours; from [x] through [l] to [y]. *)
Definition link (s : store) (x y : nid) : Prop := nxt s x = Some y /\ prv s y = Some x.
Fixpoint chain (s : store) (x : nid) (l : list nid) (y : nid) : Prop :=
  match l with [] => link s x y | z :: l => link s x z /\ chain s z l y end.

(** The list head [h] stands for the list [l]. *)
Definition ring (s : store) (h : nid) (l : list nid) : Prop := NoDup (h :: l) /\ chain s h l h.

Section ring.
Implicit Types s : store.

Definition to_next (n x : nid) s : store := alter (fun v => mkLnode x (prev v)) n s.
Definition to_prev (n x : nid) s : store := alter (fun v => mkLnode (next v) x) n s.

Lemma get_node_eq s n v : s !! n = Some v -> get_node n s = Done v s.
Proof. intros E. unfold get_node, gets, mbind, M_bind. by rewrite E. Qed.

Lemma put_node_eq s n v : is_Some (s !! n) -> put_node n v s = Done () (<[n := v]> s).
Proof. intros [w E]. unfold put_node. by kstep get_node_eq. Qed.

Lemma set_next_eq s n x : is_Some (s !! n) -> set_next n x s = Done () (to_next n x s).
Proof.
  intros [v E]. unfold set_next. kstep get_node_eq. rewrite put_node_eq by by eexists. f_equal.
  apply map_eq. intros u. unfold to_next. destruct (decide (u = n)) as [->|].
  - by rewrite lookup_insert_eq, lookup_alter_eq, E.
  - by rewrite lookup_insert_ne, lookup_alter_ne.
Qed.

Lemma set_prev_eq s n x : is_Some (s !! n) -> set_prev n x s = Done () (to_prev n x s).
Proof.
  intros [v E]. unfold set_prev. kstep get_node_eq. rewrite put_node_eq by by eexists. f_equal.
  apply map_eq. intros u. unfold to_prev. destruct (decide (u = n)) as [->|].
  - by rewrite lookup_insert_eq, lookup_alter_eq, E.
  - by rewrite lookup_insert_ne, lookup_alter_ne.
Qed.

Lemma some_to_next s n x u : is_Some (to_next n x s !! u) <-> is_Some (s !! u).
Proof. unfold to_next. by rewrite lookup_alter_is_Some. Qed.
Lemma some_to_prev s n x u : is_Some (to_prev n x s !! u) <-> is_Some (s !! u).
Proof. unfold to_prev. by rewrite lookup_alter_is_Some. Qed.

Lemma nxt_to_next s n x u : nxt (to_next n x s) u = if decide (u = n) then (fun _ => x) <$> s !! u else nxt s u.
Proof.
  unfold nxt, to_next. case_decide as H; [subst u; rewrite lookup_alter_eq; by destruct (s !! n)|by rewrite lookup_alter_ne].
Qed.
Lemma prv_to_prev s n x u : prv (to_prev n x s) u = if decide (u = n) then (fun _ => x) <$> s !! u else prv s u.
Proof.
  unfold prv, to_prev. case_decide as H; [subst u; rewrite lookup_alter_eq; by destruct (s !! n)|by rewrite lookup_alter_ne].
Qed.
Lemma prv_to_next s n x u : prv (to_next n x s) u = prv s u.
Proof.
  unfold prv, to_next. destruct (decide (u = n)) as [->|]; [rewrite lookup_alter_eq; by destruct (s !! n)|by rewrite lookup_alter_ne].
Qed.
Lemma nxt_to_prev s n x u : nxt (to_prev n x s) u = nxt s u.
Proof.
  unfold nxt, to_prev. destruct (decide (u = n)) as [->|]; [rewrite lookup_alter_eq; by destruct (s !! n)|by rewrite lookup_alter_ne].
Qed.

(** Reading a link of a known node. *)
Lemma get_link s n x y : nxt s n = Some x -> prv s n = Some y -> get_node n s = Done (mkLnode x y) s.
Proof.
  unfold nxt, prv. intros Hx Hy. apply get_node_eq. destruct (s !! n) as [[a b]|]; [|done]. cbn in *. congruence.
Qed.

Lemma nxt_some s n x : nxt s n = Some x -> is_Some (s !! n).
Proof. unfold nxt. by destruct (s !! n). Qed.
Lemma prv_some s n x : prv s n = Some x -> is_Some (s !! n).
Proof. unfold prv. by destruct (s !! n). Qed.

(** Joining [x] and [y]: the two writes every operation is made of. *)
Definition relink (x y : nid) s : store := to_prev y x (to_next x y s).

Lemma some_relink s x y u : is_Some (relink x y s !! u) <-> is_Some (s !! u).
Proof. unfold relink. by rewrite some_to_prev, some_to_next. Qed.

Lemma nxt_relink s x y u : is_Some (s !! x) -> nxt (relink x y s) u = if decide (u = x) then Some y else nxt s u.
Proof.
  intros [v Hx]. unfold relink. rewrite nxt_to_prev, nxt_to_next. case_decide as Hu; [subst u; by rewrite Hx|done].
Qed.
Lemma prv_relink s x y u : is_Some (s !! y) -> prv (relink x y s) u = if decide (u = y) then Some x else prv s u.
Proof.
  intros Hy. unfold relink. rewrite prv_to_prev. case_decide as Hu; [|apply prv_to_next].
  subst u. rewrite <- (some_to_next s x y) in Hy. by destruct Hy as [v ->].
Qed.

(** Two stores with the same links. *)
Definition same_links s s' : Prop := forall u, nxt s' u = nxt s u /\ prv s' u = prv s u.

Lemma chain_ext s s' l : forall x y,
  (forall u, u ∈ x :: l -> nxt s' u = nxt s u) -> (forall u, u ∈ l ++ [y] -> prv s' u = prv s u) ->
  chain s x l y -> chain s' x l y.
Proof.
  induction l as [|z l IH]; intros x y Hn Hp; simpl.
  - intros [H1 H2]. split; [rewrite Hn by set_solver|rewrite Hp by set_solver]; done.
  - intros [[H1 H2] Hc]. split.
    + split; [rewrite Hn by set_solver|rewrite Hp by set_solver]; done.
    + apply IH; [intros u Hu; apply Hn; set_solver|intros u Hu; apply Hp; set_solver|done].
Qed.

Lemma chain_app s l1 l2 x z y : chain s x (l1 ++ z :: l2) y <-> chain s x l1 z /\ chain s z l2 y.
Proof. revert x. induction l1 as [|w l1 IH]; intros x; simpl; [done|]. rewrite IH. tauto. Qed.

Lemma chain_some s l : forall x y u, chain s x l y -> u ∈ x :: l ++ [y] -> is_Some (s !! u).
Proof.
  induction l as [|z l IH]; intros x y u; simpl.
  - intros [H1 H2] [->|[->|Hu]%elem_of_cons]%elem_of_cons; [by eapply nxt_some|by eapply prv_some|by apply elem_of_nil in Hu].
  - intros [[H1 H2] Hc] [->|Hu]%elem_of_cons; [by eapply nxt_some|by eapply IH].
Qed.

(** The neighbours of a node of a ring. *)
Definition last_of (h : nid) (l : list nid) : nid := default h (last l).
Definition first_of (h : nid) (l : list nid) : nid := default h (head l).

Lemma chain_first s x l y : chain s x l y -> nxt s x = Some (first_of y l).
Proof. destruct l; simpl; [by intros [? _]|by intros [[? _] _]]. Qed.

Lemma last_of_cons h z l : last_of h (z :: l) = last_of z l.
Proof. unfold last_of. rewrite last_cons. by destruct (last l). Qed.

Lemma last_of_app h l z : last_of h (l ++ [z]) = z.
Proof. unfold last_of. by rewrite last_snoc. Qed.

Lemma chain_last s l : forall x y, chain s x l y -> prv s y = Some (last_of x l).
Proof.
  induction l as [|z l IH]; intros x y; simpl; [by intros [_ ?]|]. intros [_ Hc]. rewrite last_of_cons. by apply IH.
Qed.

Lemma last_of_in h l : last_of h l ∈ h :: l.
Proof.
  revert h. induction l as [|z l IH]; intros h; [by left|]. rewrite last_of_cons. right. apply IH.
Qed.
Lemma first_of_in h l : first_of h l ∈ l ++ [h].
Proof. destruct l; cbn; [by left|by left]. Qed.

(** Splitting a chain at its last link. *)
Lemma chain_snoc s l x y : chain s x l y -> nxt s (last_of x l) = Some y.
Proof.
  revert x. induction l as [|z l IH]; intros x; simpl; [by intros [? _]|]. intros [_ Hc]. rewrite last_of_cons. by apply IH.
Qed.

(** A chain whose end moves from [y] to [y']. *)
Lemma chain_retarget s s' l y y' : forall x,
  NoDup (x :: l) -> chain s x l y -> link s' (last_of x l) y' ->
  (forall u, u ∈ x :: l -> u <> last_of x l -> nxt s' u = nxt s u) -> (forall u, u ∈ l -> prv s' u = prv s u) ->
  chain s' x l y'.
Proof.
  induction l as [|z l IH]; intros x Hnd Hc Hl Hn Hp; simpl; [done|]. destruct Hc as [[H1 H2] Hc].
  apply NoDup_cons in Hnd as [Hx Hnd]. rewrite last_of_cons in *. split.
  - split; [|by rewrite Hp by set_solver]. rewrite Hn; [done|by left|]. intros ->. apply Hx. apply last_of_in.
  - apply IH; [done..| |].
    + intros u Hu. apply Hn. set_solver.
    + intros u Hu. apply Hp. set_solver.
Qed.

(** The two halves of a ring. *)
Lemma chain_split s h l1 l2 : chain s h (l1 ++ l2) h <->
  chain s h l1 (first_of h l2) /\ match l2 with [] => True | z :: l => chain s z l h end.
Proof.
  destruct l2 as [|z l]; cbn [first_of head default]; [rewrite app_nil_r; tauto|apply chain_app].
Qed.

Lemma chain_cons s x l y : chain s x l y <->
  link s x (first_of y l) /\ match l with [] => True | z :: l => chain s z l y end.
Proof. destruct l; simpl; tauto. Qed.

Lemma link_split s h l1 l2 : chain s h (l1 ++ l2) h -> link s (last_of h l1) (first_of h l2).
Proof. intros [Hc _]%chain_split. split; [by eapply chain_snoc|by eapply chain_last]. Qed.

(** [n] between [p] and its successor: the links that change. *)
Definition linked_in s s' (p n q : nid) : Prop :=
  (forall u, is_Some (s' !! u) <-> is_Some (s !! u))
  /\ (forall u, nxt s' u = if decide (u = p) then Some n else if decide (u = n) then Some q else nxt s u)
  /\ (forall u, prv s' u = if decide (u = q) then Some n else if decide (u = n) then Some p else prv s u).

Lemma ring_linked_in s s' h l1 l2 n :
  ring s h (l1 ++ l2) -> n ∉ h :: l1 ++ l2 -> linked_in s s' (last_of h l1) n (first_of h l2) -> ring s' h (l1 ++ n :: l2).
Proof.
  intros [Hnd Hc] Hn (_ & HN & HP). apply NoDup_cons in Hnd as [Hh Hnd].
  pose proof (last_of_in h l1) as Hp. pose proof (first_of_in h l2) as Hq. rewrite chain_split in Hc. destruct Hc as [C1 C2].
  split.
  - apply NoDup_cons. split; [set_solver|]. apply NoDup_app in Hnd as (N1 & N2 & N3). apply NoDup_app. split; [done|].
    split; [set_solver|]. apply NoDup_cons. set_solver.
  - apply chain_app. split.
    + apply (chain_retarget s s' l1 (first_of h l2) n); [|done|..].
      * apply NoDup_cons. split; [set_solver|]. by apply NoDup_app in Hnd as (? & _).
      * split; [rewrite HN, decide_True by done; done|]. rewrite HP. rewrite decide_False by set_solver. by rewrite decide_True.
      * intros u Hu Hne. rewrite HN, !decide_False by (done || set_solver). done.
      * intros u Hu. rewrite HP, !decide_False; [done|set_solver|].
        intros ->. apply NoDup_app in Hnd as (_ & N2 & _). destruct l2 as [|z l2]; [set_solver|]. apply (N2 z); set_solver.
    + apply chain_cons. split.
      * split; [|rewrite HP, decide_True by done; done]. rewrite HN, decide_False, decide_True by (done || set_solver). done.
      * destruct l2 as [|z l2]; [done|]. apply (chain_ext s); [..|done].
        -- intros u Hu. rewrite HN, !decide_False; [done|set_solver|]. intros ->.
           apply NoDup_app in Hnd as (_ & N2 & _). apply elem_of_cons in Hp as [Hp|Hp]; [rewrite Hp in Hu; set_solver|].
           by apply (N2 _ Hp).
        -- intros u Hu. rewrite HP. cbn. apply NoDup_app in Hnd as (_ & _ & N3). apply NoDup_cons in N3 as [N3 _].
           rewrite !decide_False; [done|set_solver|]. intros ->. set_solver.
Qed.

(** [n] taken out: its neighbours are joined. *)
Definition linked_out s s' (p q : nid) : Prop :=
  (forall u, is_Some (s' !! u) <-> is_Some (s !! u))
  /\ (forall u, nxt s' u = if decide (u = p) then Some q else nxt s u)
  /\ (forall u, prv s' u = if decide (u = q) then Some p else prv s u).

Lemma ring_linked_out s s' h l1 l2 n :
  ring s h (l1 ++ n :: l2) -> linked_out s s' (last_of h l1) (first_of h l2) -> ring s' h (l1 ++ l2).
Proof.
  intros [Hnd Hc] (_ & HN & HP). apply NoDup_cons in Hnd as [Hh Hnd].
  pose proof (last_of_in h l1) as Hp. pose proof (first_of_in h l2) as Hq. apply chain_app in Hc as [C1 C2].
  apply NoDup_app in Hnd as (N1 & N2 & N3). apply NoDup_cons in N3 as [N3 N4].
  split.
  - apply NoDup_cons. split; [set_solver|]. apply NoDup_app. split; [done|]. split; [set_solver|done].
  - apply chain_split. split.
    + apply (chain_retarget s s' l1 n); [|done|..].
      * apply NoDup_cons. split; [set_solver|done].
      * split; [rewrite HN, decide_True by done; done|]. by rewrite HP, decide_True.
      * intros u Hu Hne. by rewrite HN, decide_False.
      * intros u Hu. rewrite HP, decide_False; [done|]. intros ->. destruct l2; set_solver.
    + destruct l2 as [|z l2]; [done|]. destruct C2 as [_ C2]. apply (chain_ext s); [..|done].
      * intros u Hu. rewrite HN, decide_False; [done|]. intros ->. apply elem_of_cons in Hp as [Hp|Hp]; [rewrite Hp in Hu; set_solver|].
        apply (N2 _ Hp). set_solver.
      * intros u Hu. rewrite HP, decide_False; [done|]. cbn. intros ->. apply NoDup_cons in N4 as [N4 _]. set_solver.
Qed.
End ring.

(** ** The operations on rings *)
Section operations.
Implicit Types s : store.

Lemma get_next s n x : nxt s n = Some x -> exists v, get_node n s = Done v s /\ next v = x.
Proof. unfold nxt. intros (v & E & ->)%fmap_Some. exists v. split; [by apply get_node_eq|done]. Qed.
Lemma get_prev s n x : prv s n = Some x -> exists v, get_node n s = Done v s /\ prev v = x.
Proof. unfold prv. intros (v & E & ->)%fmap_Some. exists v. split; [by apply get_node_eq|done]. Qed.

Lemma nxt_set s n x u : is_Some (s !! n) -> nxt (to_next n x s) u = if decide (u = n) then Some x else nxt s u.
Proof. intros [v E]. rewrite nxt_to_next. case_decide as H; [subst u; by rewrite E|done]. Qed.
Lemma prv_set s n x u : is_Some (s !! n) -> prv (to_prev n x s) u = if decide (u = n) then Some x else prv s u.
Proof. intros [v E]. rewrite prv_to_prev. case_decide as H; [subst u; by rewrite E|done]. Qed.

Ltac somes := repeat first [rewrite some_to_next | rewrite some_to_prev]; done.
Ltac links := repeat first [rewrite nxt_set by somes | rewrite prv_set by somes | rewrite nxt_to_prev | rewrite prv_to_next].

Lemma list_add_after_run s p n q :
  nxt s p = Some q -> is_Some (s !! q) -> is_Some (s !! n) -> n <> p -> n <> q ->
  exists s', list_add_after_ p n s = Done () s' /\ linked_in s s' p n q.
Proof.
  intros Hpq Hq Hn Hnp Hnq. pose proof (nxt_some _ _ _ Hpq) as Hp. unfold list_add_after_.
  destruct (get_next s p q Hpq) as (v & E1 & Ev). erewrite bind_eq; [|exact E1]. rewrite Ev.
  erewrite bind_eq; [|by apply set_next_eq]. erewrite bind_eq; [|apply set_prev_eq; somes].
  destruct (get_next (to_prev n p (to_next n q s)) p q) as (w & E2 & Ew).
  { links. by rewrite decide_False. }
  erewrite bind_eq; [|exact E2]. rewrite Ew. erewrite bind_eq; [|apply set_prev_eq; somes]. rewrite set_next_eq by somes.
  eexists. split; [done|]. split_and!; intros u; [somes| |]; links; repeat case_decide; congruence.
Qed.

Lemma list_add_before_run s p n q :
  nxt s p = Some q -> prv s q = Some p -> is_Some (s !! n) -> n <> p -> n <> q ->
  exists s', list_add_before_ q n s = Done () s' /\ linked_in s s' p n q.
Proof.
  intros Hpq Hqp Hn Hnp Hnq. pose proof (nxt_some _ _ _ Hpq) as Hp. pose proof (prv_some _ _ _ Hqp) as Hq.
  unfold list_add_before_. erewrite bind_eq; [|by apply set_next_eq].
  destruct (get_prev (to_next n q s) q p) as (v & E1 & Ev); [by links|]. erewrite bind_eq; [|exact E1]. rewrite Ev.
  erewrite bind_eq; [|apply set_prev_eq; somes].
  destruct (get_prev (to_prev n p (to_next n q s)) q p) as (w & E2 & Ew).
  { links. by rewrite decide_False. }
  erewrite bind_eq; [|exact E2]. rewrite Ew. erewrite bind_eq; [|apply set_next_eq; somes]. rewrite set_prev_eq by somes.
  eexists. split; [done|]. split_and!; intros u; [somes| |]; links; repeat case_decide; congruence.
Qed.

Lemma list_del_run s p n q :
  link s p n -> link s n q -> n <> q -> exists s', list_del_ n s = Done () s' /\ linked_out s s' p q.
Proof.
  intros [Hpn Hnp] [Hnq Hqn] Hne. pose proof (nxt_some _ _ _ Hpn) as Hp. pose proof (prv_some _ _ _ Hqn) as Hq.
  unfold list_del_. erewrite bind_eq; [|by apply get_link]. cbn [next prev].
  erewrite bind_eq; [|by apply set_prev_eq].
  erewrite bind_eq; [|apply get_link; links; [done|by rewrite decide_False]]. cbn [next prev].
  rewrite set_next_eq by somes. eexists. split; [done|]. split_and!; intros u; [somes| |]; links; done.
Qed.

(** Two nodes of a ring with a third between them. *)
Lemma ring_links s h l1 n l2 : ring s h (l1 ++ n :: l2) ->
  link s (last_of h l1) n /\ link s n (first_of h l2) /\ n <> first_of h l2 /\ n <> last_of h l1.
Proof.
  intros [Hnd Hc]. pose proof Hc as Hc'. apply chain_app in Hc as [C1 C2].
  apply NoDup_cons in Hnd as [Hh Hnd]. apply NoDup_app in Hnd as (N1 & N2 & N3). apply NoDup_cons in N3 as [N3 _].
  split; [split; [by eapply chain_snoc|by eapply chain_last]|]. split; [by apply chain_cons in C2 as [? _]|].
  pose proof (last_of_in h l1) as Hp. pose proof (first_of_in h l2) as Hq. split; intros E; rewrite <- E in *; set_solver.
Qed.

Lemma ring_some s h l u : ring s h l -> u ∈ h :: l -> is_Some (s !! u).
Proof. intros [_ Hc] Hu. eapply chain_some; [exact Hc|]. set_solver. Qed.

(** A ring depends on its own nodes only. *)
Definition untouched (P : list nid) s s' : Prop := forall u, u ∉ P -> nxt s' u = nxt s u /\ prv s' u = prv s u.

Lemma ring_frame s s' P h l : untouched P s s' -> (forall u, u ∈ h :: l -> u ∉ P) -> ring s h l -> ring s' h l.
Proof.
  intros Hf Hd [Hnd Hc]. split; [done|]. apply (chain_ext s); [..|done]; intros u Hu; apply Hf, Hd; set_solver.
Qed.

Lemma linked_in_untouched s s' p n q P : linked_in s s' p n q -> p ∈ P -> n ∈ P -> q ∈ P -> untouched P s s'.
Proof. intros (_ & HN & HP) ? ? ? u Hu. rewrite HN, HP, !decide_False by congruence. done. Qed.
Lemma linked_out_untouched s s' p q P : linked_out s s' p q -> p ∈ P -> q ∈ P -> untouched P s s'.
Proof. intros (_ & HN & HP) ? ? u Hu. rewrite HN, HP, !decide_False by congruence. done. Qed.

(** [list_add_after] puts [n] behind the last node of [l1]. *)
Lemma list_add_after_ok s h l1 l2 n :
  ring s h (l1 ++ l2) -> n ∉ h :: l1 ++ l2 -> is_Some (s !! n) ->
  exists s', list_add_after_ (last_of h l1) n s = Done () s' /\ ring s' h (l1 ++ n :: l2)
    /\ (forall u, is_Some (s' !! u) <-> is_Some (s !! u)) /\ untouched (n :: h :: l1 ++ l2) s s'.
Proof.
  intros Hr Hn Hs. destruct (link_split s h l1 l2 (proj2 Hr)) as [L1 L2].
  pose proof (last_of_in h l1) as Hp. pose proof (first_of_in h l2) as Hq.
  destruct (list_add_after_run s (last_of h l1) n (first_of h l2)) as (s' & E & Hl); [done|by eapply prv_some|done|set_solver..|].
  exists s'. split; [done|]. split; [by apply (ring_linked_in s)|]. split; [by destruct Hl|].
  eapply linked_in_untouched; [done|set_solver..].
Qed.

Lemma list_add_before_ok s h l1 l2 n :
  ring s h (l1 ++ l2) -> n ∉ h :: l1 ++ l2 -> is_Some (s !! n) ->
  exists s', list_add_before_ (first_of h l2) n s = Done () s' /\ ring s' h (l1 ++ n :: l2)
    /\ (forall u, is_Some (s' !! u) <-> is_Some (s !! u)) /\ untouched (n :: h :: l1 ++ l2) s s'.
Proof.
  intros Hr Hn Hs. destruct (link_split s h l1 l2 (proj2 Hr)) as [L1 L2].
  pose proof (last_of_in h l1) as Hp. pose proof (first_of_in h l2) as Hq.
  destruct (list_add_before_run s (last_of h l1) n (first_of h l2)) as (s' & E & Hl); [done..|set_solver|set_solver|].
  exists s'. split; [done|]. split; [by apply (ring_linked_in s)|]. split; [by destruct Hl|].
  eapply linked_in_untouched; [done|set_solver..].
Qed.

Lemma list_del_ok s h l1 n l2 :
  ring s h (l1 ++ n :: l2) ->
  exists s', list_del_ n s = Done () s' /\ ring s' h (l1 ++ l2)
    /\ (forall u, is_Some (s' !! u) <-> is_Some (s !! u)) /\ untouched (h :: l1 ++ l2) s s'.
Proof.
  intros Hr. destruct (ring_links s h l1 n l2 Hr) as (L1 & L2 & N1 & N2).
  pose proof (last_of_in h l1) as Hp. pose proof (first_of_in h l2) as Hq.
  destruct (list_del_run s _ n _ L1 L2 N1) as (s' & E & Hl). exists s'. split; [done|].
  split; [by apply (ring_linked_out s s' h l1 l2 n)|]. split; [by destruct Hl|].
  eapply linked_out_untouched; [done|set_solver..].
Qed.

Lemma list_empty_ok s h l : ring s h l -> list_empty_ h s = Done (bool_decide (l = [])) s.
Proof.
  intros [Hnd Hc]. apply chain_first in Hc. destruct (get_next s h _ Hc) as (v & E & Ev). unfold list_empty_.
  erewrite bind_eq; [|exact E]. rewrite mret_eq, Ev. f_equal. apply bool_decide_ext.
  destruct l as [|z l]; cbn; [done|]. split; [|done]. intros ->. apply NoDup_cons in Hnd as [Hnd _]. set_solver.
Qed.

Lemma list_head_init_ok s h : is_Some (s !! h) ->
  exists s', list_head_init h s = Done () s' /\ ring s' h [] /\ (forall u, is_Some (s' !! u) <-> is_Some (s !! u))
    /\ untouched [h] s s'.
Proof.
  intros Hs. unfold list_head_init. erewrite bind_eq; [|by apply set_prev_eq]. rewrite set_next_eq by somes.
  eexists. split; [done|]. split; [|split; [intros u; somes|]].
  - split; [by apply NoDup_singleton|]. split; links; by rewrite decide_True.
  - intros u Hu. split; links; rewrite decide_False by set_solver; done.
Qed.

Lemma list_swap_ok s h l1 o l2 n :
  ring s h (l1 ++ o :: l2) -> n ∉ h :: l1 ++ o :: l2 -> is_Some (s !! n) ->
  exists s', list_swap_ o n s = Done () s' /\ ring s' h (l1 ++ n :: l2) /\ untouched (n :: h :: l1 ++ l2) s s'.
Proof.
  intros Hr Hn Hs. destruct (ring_links s h l1 o l2 Hr) as (L1 & L2 & N1 & N2).
  pose proof (last_of_in h l1) as Hp. pose proof (first_of_in h l2) as Hq.
  set (p := last_of h l1) in *. set (q := first_of h l2) in *.
  destruct (list_del_run s p o q L1 L2 N1) as (s0 & _ & Hout).
  pose proof (ring_linked_out s s0 h l1 l2 o Hr Hout) as Hr0.
  destruct L1 as [A1 A2], L2 as [B1 B2]. set (s1 := <[n := mkLnode q p]> s).
  assert (forall u, is_Some (s1 !! u) <-> is_Some (s !! u)) as Hd1.
  { intros u. unfold s1. destruct (decide (u = n)) as [->|]; [rewrite lookup_insert_eq; split; [done|by eexists]|by rewrite lookup_insert_ne]. }
  assert (forall u, nxt s1 u = if decide (u = n) then Some q else nxt s u) as Hn1.
  { intros u. unfold nxt, s1. case_decide as Hu; [subst u; by rewrite lookup_insert_eq|by rewrite lookup_insert_ne]. }
  assert (forall u, prv s1 u = if decide (u = n) then Some p else prv s u) as Hp1.
  { intros u. unfold prv, s1. case_decide as Hu; [subst u; by rewrite lookup_insert_eq|by rewrite lookup_insert_ne]. }
  assert (n <> p /\ n <> q) as [Np Nq] by (split; set_solver).
  assert (is_Some (s1 !! q)) as Sq by (apply Hd1; by eapply prv_some).
  assert (is_Some (s1 !! p)) as Sp by (apply Hd1; by eapply nxt_some).
  exists (to_next p n (to_prev q n s1)).
  assert (linked_in s0 (to_next p n (to_prev q n s1)) p n q) as Hin.
  { destruct Hout as (D0 & HN0 & HP0). split_and!; intros u; [somes || (repeat first [rewrite some_to_next | rewrite some_to_prev]; by rewrite Hd1, D0)| |];
      links; rewrite ?Hn1, ?Hp1, ?HN0, ?HP0; repeat case_decide; congruence. }
  split; [|split; [by apply (ring_linked_in s0); [|set_solver|]|]].
  - unfold list_swap_. erewrite bind_eq; [|by apply get_link]. erewrite bind_eq; [|by apply put_node_eq]. fold s1.
    erewrite bind_eq; [|apply get_link; [by rewrite Hn1, decide_True|by rewrite Hp1, decide_True]]. cbn [next prev].
    erewrite bind_eq; [|by apply set_prev_eq].
    erewrite bind_eq; [|apply get_link; links; [by rewrite Hn1, decide_True|by rewrite decide_False, Hp1, decide_True]].
    cbn [next prev]. rewrite set_next_eq by somes. done.
  - intros u Hu. destruct Hin as (_ & HN & HP), Hout as (_ & HN0 & HP0).
    rewrite HN, HP, HN0, HP0, !decide_False by set_solver. done.
Qed.

(** Joining two rings through the head of the second. *)
Lemma list_append_list_ok s t f lt lf :
  ring s t lt -> ring s f lf -> (forall u, u ∈ t :: lt -> u ∉ f :: lf) ->
  exists s', list_append_list_ t f s = Done () s' /\ ring s' t (lt ++ lf) /\ ring s' f []
    /\ untouched (t :: f :: lt ++ lf) s s'.
Proof.
  intros [Nt Ct] [Nf Cf] Hd. pose proof (last_of_in t lt) as Hlt. pose proof (last_of_in f lf) as Hlf.
  set (tt := last_of t lt) in *. set (ft := last_of f lf) in *.
  pose proof (chain_snoc _ _ _ _ Ct) as At. pose proof (chain_snoc _ _ _ _ Cf) as Af.
  pose proof (chain_last _ _ _ _ Ct) as Bt. pose proof (chain_last _ _ _ _ Cf) as Bf.
  fold tt in At, Bt. fold ft in Af, Bf.
  pose proof (nxt_some _ _ _ At) as Stt. pose proof (nxt_some _ _ _ Af) as Sft.
  pose proof (prv_some _ _ _ Bt) as St. pose proof (prv_some _ _ _ Bf) as Sf.
  assert (t <> f /\ tt <> ft /\ t <> ft /\ tt <> f) as (D1 & D2 & D3 & D4).
  { split_and!; intros E; [apply (Hd t)|apply (Hd tt)|apply (Hd t)|apply (Hd tt)]; rewrite ?E in *; set_solver. }
  set (s1 := to_prev f tt (to_next tt f (to_next ft t (to_prev t ft s)))).
  assert (forall u, nxt s1 u = if decide (u = tt) then Some f else if decide (u = ft) then Some t else nxt s u) as HN.
  { intros u. unfold s1. links. done. }
  assert (forall u, prv s1 u = if decide (u = f) then Some tt else if decide (u = t) then Some ft else prv s u) as HP.
  { intros u. unfold s1. links. done. }
  apply NoDup_cons in Nt as [Nt1 Nt2] . apply NoDup_cons in Nf as [Nf1 Nf2].
  assert (ring s1 t (lt ++ f :: lf)) as Hr1.
  { split.
    - apply NoDup_cons. split; [set_solver|]. apply NoDup_app. split; [done|]. split; [set_solver|]. by apply NoDup_cons.
    - apply chain_app. split; [apply (chain_retarget s s1 lt t f)|apply (chain_retarget s s1 lf f t)]; try done;
        try (by apply NoDup_cons).
      + split; [by rewrite HN, decide_True|by rewrite HP, decide_True].
      + intros u Hu Hne. rewrite HN, !decide_False; [done|set_solver|done].
      + intros u Hu. rewrite HP, !decide_False; [done|set_solver|set_solver].
      + split; [by rewrite HN, decide_False, decide_True|by rewrite HP, decide_False, decide_True].
      + intros u Hu Hne. rewrite HN, !decide_False; [done|done|set_solver].
      + intros u Hu. rewrite HP, !decide_False; [done|set_solver|set_solver]. }
  destruct (list_del_ok s1 t lt f lf Hr1) as (s2 & E2 & Hr2 & Hdom2 & Hu2).
  destruct (list_head_init_ok s2 f) as (s3 & E3 & Hr3 & _ & Hu3).
  { apply Hdom2. unfold s1. somes. }
  exists s3. split; [|split; [|split; [done|]]].
  - unfold list_append_list_. destruct (get_prev s f ft Bf) as (v & Ev & Pv). erewrite bind_eq; [|exact Ev].
    destruct (get_prev s t tt Bt) as (w & Ew & Pw). erewrite bind_eq; [|exact Ew]. cbv zeta. rewrite Pv, Pw.
    erewrite bind_eq; [|by apply set_prev_eq]. erewrite bind_eq; [|apply set_next_eq; somes].
    erewrite bind_eq; [|apply set_next_eq; somes]. erewrite bind_eq; [|apply set_prev_eq; somes]. fold s1.
    erewrite bind_eq; [exact E3|exact E2].
  - apply (ring_frame s2 s3 [f]); [done|set_solver|done].
  - intros u Hu. destruct (Hu3 u ltac:(set_solver)) as [-> ->]. destruct (Hu2 u ltac:(set_solver)) as [-> ->].
    rewrite HN, HP, !decide_False by set_solver. done.
Qed.

Lemma list_prepend_list_ok s t f lt lf :
  ring s t lt -> ring s f lf -> (forall u, u ∈ t :: lt -> u ∉ f :: lf) ->
  exists s', list_prepend_list_ t f s = Done () s' /\ ring s' t (lf ++ lt) /\ ring s' f []
    /\ untouched (t :: f :: lt ++ lf) s s'.
Proof.
  intros [Nt Ct] [Nf Cf] Hd. pose proof (first_of_in t lt) as Hth. pose proof (last_of_in f lf) as Hlf.
  pose proof (chain_first _ _ _ _ Ct) as At. pose proof (chain_snoc _ _ _ _ Cf) as Af.
  pose proof (chain_last _ _ _ _ Cf) as Bf. apply chain_cons in Ct as [[Ct1 Ct2] Ct].
  set (th := first_of t lt) in *. set (ft := last_of f lf) in *.
  pose proof (nxt_some _ _ _ At) as St. pose proof (nxt_some _ _ _ Af) as Sft. pose proof (prv_some _ _ _ Bf) as Sf.
  pose proof (prv_some _ _ _ Ct2) as Sth.
  assert (th ∈ t :: lt) as Hth' by (apply elem_of_app in Hth as [|]; set_solver).
  assert (t <> f /\ th <> ft /\ t <> ft /\ th <> f) as (D1 & D2 & D3 & D4).
  { split_and!; intros E; [apply (Hd t)|apply (Hd th)|apply (Hd t)|apply (Hd th)]; rewrite ?E in *; set_solver. }
  set (s1 := to_next ft th (to_prev th ft (to_prev f t (to_next t f s)))).
  assert (forall u, nxt s1 u = if decide (u = ft) then Some th else if decide (u = t) then Some f else nxt s u) as HN.
  { intros u. unfold s1. links. done. }
  assert (forall u, prv s1 u = if decide (u = th) then Some ft else if decide (u = f) then Some t else prv s u) as HP.
  { intros u. unfold s1. links. done. }
  apply NoDup_cons in Nt as [Nt1 Nt2]. apply NoDup_cons in Nf as [Nf1 Nf2].
  assert (ring s1 t ([] ++ f :: (lf ++ lt))) as Hr1.
  { split.
    - apply NoDup_cons. split; [set_solver|]. cbn. apply NoDup_cons. split; [set_solver|]. apply NoDup_app.
      split; [done|]. split; [set_solver|done].
    - split; [split; [by rewrite HN, decide_False, decide_True|by rewrite HP, decide_False, decide_True]|].
      assert (chain s1 f lf th) as C1.
      { apply (chain_retarget s s1 lf f th); [by apply NoDup_cons|done|..].
        + split; [by rewrite HN, decide_True|by rewrite HP, decide_True].
        + intros u Hu Hne. rewrite HN, !decide_False; [done|set_solver|done].
        + intros u Hu. rewrite HP, !decide_False; [done|set_solver|set_solver]. }
      unfold th in C1. destruct lt as [|z lt]; cbn in C1; [by rewrite app_nil_r|]. apply chain_app. split; [done|].
      apply (chain_ext s); [..|done]; intros u Hu.
      + rewrite HN, !decide_False; [done|set_solver|set_solver].
      + rewrite HP. change th with z. apply NoDup_cons in Nt2 as [Nt2 _].
        rewrite !decide_False; [done|set_solver|set_solver]. }
  destruct (list_del_ok s1 t [] f (lf ++ lt) Hr1) as (s2 & E2 & Hr2 & Hdom2 & Hu2).
  destruct (list_head_init_ok s2 f) as (s3 & E3 & Hr3 & _ & Hu3).
  { apply Hdom2. unfold s1. somes. }
  exists s3. split; [|split; [|split; [done|]]].
  - unfold list_prepend_list_. destruct (get_prev s f ft Bf) as (v & Ev & Pv). erewrite bind_eq; [|exact Ev].
    destruct (get_next s t th At) as (w & Ew & Pw). erewrite bind_eq; [|exact Ew]. cbv zeta. rewrite Pv, Pw.
    erewrite bind_eq; [|by apply set_next_eq]. erewrite bind_eq; [|apply set_prev_eq; somes].
    erewrite bind_eq; [|apply set_prev_eq; somes]. erewrite bind_eq; [|apply set_next_eq; somes]. fold s1.
    erewrite bind_eq; [exact E3|exact E2].
  - apply (ring_frame s2 s3 [f]); [done|set_solver|done].
  - intros u Hu. destruct (Hu3 u ltac:(set_solver)) as [-> ->]. destruct (Hu2 u ltac:(cbn; set_solver)) as [-> ->].
    rewrite HN, HP, !decide_False by set_solver. done.
Qed.

(** The traversals run the body on each node in order. *)
Lemma for_each_ok body h l2 : forall l1 s,
  ring s h (l1 ++ l2) ->
  (forall l n s, ring s h l -> n ∈ l -> exists s', body n s = Done () s' /\ ring s' h l) ->
  for_each_from next h (first_of h l2) body (S (length l2)) s = forM_ l2 body s.
Proof.
  induction l2 as [|n l2 IH]; intros l1 s Hr Hb; cbn [for_each_from first_of head default].
  - by rewrite decide_True.
  - rewrite decide_False. 2: { destruct Hr as [Hnd _]. apply NoDup_cons in Hnd as [Hnd _]. set_solver. }
    destruct (Hb (l1 ++ n :: l2) n s Hr ltac:(set_solver)) as (s1 & E1 & Hr1). cbn [forM_].
    rewrite (bind_eq _ _ _ _ _ E1), (bind_eq _ _ _ _ _ E1).
    destruct (ring_links s1 h l1 n l2 Hr1) as (_ & [L2 _] & _). destruct (get_next s1 n _ L2) as (v & Ev & Pv).
    erewrite bind_eq; [|exact Ev]. rewrite Pv. apply (IH (l1 ++ [n])); [by rewrite <- app_assoc|done].
Qed.

Lemma for_each_safe_ok body h l2 : forall l1 s,
  ring s h (l1 ++ l2) ->
  (forall l1 n l2 s, ring s h (l1 ++ n :: l2) -> exists s' l1', body n s = Done () s' /\ ring s' h (l1' ++ l2)) ->
  for_each_safe_from next h (first_of h l2) (first_of (first_of h l2) (tl l2 ++ [h])) body (S (length l2)) s
  = forM_ l2 body s.
Proof.
  induction l2 as [|n l2 IH]; intros l1 s Hr Hb; cbn [for_each_safe_from first_of head default].
  - by rewrite decide_True.
  - rewrite decide_False. 2: { destruct Hr as [Hnd _]. apply NoDup_cons in Hnd as [Hnd _]. set_solver. }
    destruct (Hb l1 n l2 s Hr) as (s1 & l1' & E1 & Hr1). cbn [forM_ tl].
    rewrite (bind_eq _ _ _ _ _ E1), (bind_eq _ _ _ _ _ E1).
    change (id n) with n. assert (first_of n (l2 ++ [h]) = first_of h l2) as -> by by destruct l2.
    assert (exists v, get_node (first_of h l2) s1 = Done v s1 /\ (l2 <> [] -> next v = first_of (first_of h l2) (tl l2 ++ [h])))
      as (v & Ev & Pv).
    { destruct l2 as [|z l2]; cbn [first_of head default].
      - destruct (ring_some s1 h _ h Hr1 ltac:(set_solver)) as [v Ev]. exists v. split; [by apply get_node_eq|done].
      - destruct (ring_links s1 h l1' z l2 Hr1) as (_ & [L2 _] & _). destruct (get_next s1 z _ L2) as (v & Ev & Pv).
        exists v. split; [done|]. intros _. rewrite Pv. by destruct l2. }
    erewrite bind_eq; [|exact Ev]. destruct l2 as [|z l2]; [cbn; by rewrite decide_True|].
    rewrite Pv by done. by apply (IH l1').
Qed.
End operations.

(** ** Refinement *)
(** What users of a list do to it, on the ring and on the list. *)
Inductive lop := LAdd (n : nid) | LAddTail (n : nid) | LDel (n : nid) | LDelInit (n : nid) | LSwap (o n : nid) | LPop.

Definition run_op (h : nid) (o : lop) : Ln () :=
  match o with
  | LAdd n => list_add_ h n
  | LAddTail n => list_add_tail_ h n
  | LDel n => list_del_from h n
  | LDelInit n => list_del_init_ n
  | LSwap o n => list_swap_ o n
  | LPop => list_pop_ h;; mret ()
  end.

Definition abs_op (h : nid) (l : list nid) (o : lop) : option (list nid) :=
  match o with
  | LAdd n => if decide (n ∈ h :: l) then None else Some (n :: l)
  | LAddTail n => if decide (n ∈ h :: l) then None else Some (l ++ [n])
  | LDel n | LDelInit n => if decide (n ∈ l) then Some (filter (fun u => u <> n) l) else None
  | LSwap o n =>
      if decide (o ∈ l /\ n ∉ h :: l) then Some ((fun u => if decide (u = o) then n else u) <$> l) else None
  | LPop => Some (tl l)
  end.

Fixpoint run_ops (h : nid) (ops : list lop) : Ln () :=
  match ops with [] => mret () | o :: ops => run_op h o;; run_ops h ops end.
Fixpoint abs_ops (h : nid) (l : list nid) (ops : list lop) : option (list nid) :=
  match ops with [] => Some l | o :: ops => l' ← abs_op h l o; abs_ops h l' ops end.

(** The node an operation brings in. *)
Definition op_node (o : lop) : option nid :=
  match o with LAdd n | LAddTail n | LSwap _ n => Some n | _ => None end.

Section refine.
Implicit Types s : store.

Lemma filter_middle (l1 l2 : list nid) n : NoDup (l1 ++ n :: l2) -> filter (fun u => u <> n) (l1 ++ n :: l2) = l1 ++ l2.
Proof.
  intros Hnd. apply NoDup_app in Hnd as (N1 & N2 & N3). apply NoDup_cons in N3 as [N3 _].
  assert (forall l : list nid, n ∉ l -> filter (fun u => u <> n) l = l) as Hid.
  { induction l as [|x l IH]; intros Hn; [done|]. rewrite filter_cons, decide_True by set_solver. f_equal. apply IH. set_solver. }
  rewrite filter_app, filter_cons, decide_False by (intros H; by apply H). rewrite !Hid; [done|done|].
  intros Hin. apply (N2 n Hin). by left.
Qed.

Lemma swap_middle (l1 l2 : list nid) o n : NoDup (l1 ++ o :: l2) ->
  (fun u => if decide (u = o) then n else u) <$> (l1 ++ o :: l2) = l1 ++ n :: l2.
Proof.
  intros Hnd. apply NoDup_app in Hnd as (N1 & N2 & N3). apply NoDup_cons in N3 as [N3 _].
  assert (forall l : list nid, o ∉ l -> (fun u => if decide (u = o) then n else u) <$> l = l) as Hid.
  { induction l as [|x l IH]; intros Hn; [done|]. cbn. rewrite decide_False by set_solver. f_equal. apply IH. set_solver. }
  rewrite fmap_app, fmap_cons, decide_True by done. rewrite !Hid; [done|done|].
  intros Hin. apply (N2 o Hin). by left.
Qed.

Lemma list_node_init_frame s h l n :
  is_Some (s !! n) -> n ∉ h :: l -> ring s h l ->
  exists s', list_node_init n s = Done () s' /\ ring s' h l /\ (forall u, is_Some (s' !! u) <-> is_Some (s !! u)).
Proof.
  intros Hs Hn Hr. destruct (list_head_init_ok s n Hs) as (s' & E & _ & Hd & Hu). exists s'. split; [exact E|].
  split; [|done]. apply (ring_frame s s' [n]); [done|set_solver|done].
Qed.

Lemma run_op_refines s h l o l' :
  ring s h l -> (forall n, op_node o = Some n -> is_Some (s !! n)) -> abs_op h l o = Some l' ->
  exists s', run_op h o s = Done () s' /\ ring s' h l' /\ (forall u, is_Some (s !! u) -> is_Some (s' !! u)).
Proof.
  intros Hr Hn Ha. destruct o as [n|n|n|n|o n|]; cbn in Ha.
  - case_decide as Hin; [done|]. injection Ha as <-.
    destruct (list_add_after_ok s h [] l n Hr Hin (Hn n eq_refl)) as (s' & E & Hr' & Hd & _).
    exists s'. split; [exact E|]. split; [done|]. intros u. by rewrite Hd.
  - case_decide as Hin; [done|]. injection Ha as <-. rewrite <- (app_nil_r l) in Hr, Hin.
    destruct (list_add_before_ok s h l [] n Hr Hin (Hn n eq_refl)) as (s' & E & Hr' & Hd & _).
    exists s'. split; [exact E|]. split; [done|]. intros u. by rewrite Hd.
  - case_decide as Hin; [|done]. injection Ha as <-. apply list_elem_of_split in Hin as (l1 & l2 & ->).
    destruct (list_del_ok s h l1 n l2 Hr) as (s' & E & Hr' & Hd & _). exists s'. split_and!.
    + cbn. unfold list_del_from. erewrite bind_eq; [|by apply list_empty_ok]. rewrite bool_decide_false; [exact E|].
      by destruct l1.
    + rewrite filter_middle; [done|]. destruct Hr as [Hnd _]. by apply NoDup_cons in Hnd as [_ ?].
    + intros u. by rewrite Hd.
  - case_decide as Hin; [|done]. injection Ha as <-. apply list_elem_of_split in Hin as (l1 & l2 & ->).
    pose proof (proj1 Hr) as Hnd. apply NoDup_cons in Hnd as [Hh Hnd].
    destruct (list_del_ok s h l1 n l2 Hr) as (s1 & E1 & Hr1 & Hd1 & _).
    destruct (list_node_init_frame s1 h (l1 ++ l2) n) as (s2 & E2 & Hr2 & Hd2); [|..|done|].
    + apply Hd1. apply (ring_some s h _ n Hr). set_solver.
    + apply NoDup_app in Hnd as (_ & N2 & N3). apply NoDup_cons in N3 as [N3 _].
      rewrite elem_of_cons, elem_of_app. intros [->|[H|H]]; [set_solver|by apply (N2 n H); left|done].
    + exists s2. split; [cbn; unfold list_del_init_; by erewrite bind_eq|]. split; [by rewrite filter_middle|].
      intros u Hu. by apply Hd2, Hd1.
  - case_decide as Hin; [|done]. injection Ha as <-. destruct Hin as [Hin Hnn].
    apply list_elem_of_split in Hin as (l1 & l2 & ->). destruct (list_swap_ok s h l1 o l2 n Hr Hnn (Hn n eq_refl)) as (s' & E & Hr' & Hu).
    exists s'. split; [exact E|]. split; [rewrite swap_middle; [done|]; destruct Hr as [Hnd _]; by apply NoDup_cons in Hnd as [_ ?]|].
    intros u Hs. destruct (decide (u ∈ n :: h :: l1 ++ l2)) as [Hin|Hin].
    + apply elem_of_cons in Hin as [->|Hin]; [|apply (ring_some s' h _ u Hr'); set_solver].
      apply (ring_some s' h _ n Hr'). set_solver.
    + destruct (Hu u Hin) as [H1 _]. unfold nxt in H1. destruct Hs as [v Hv]. rewrite Hv in H1. cbn in H1.
      by destruct (s' !! u).
  - injection Ha as <-. cbn. unfold list_pop_. destruct l as [|z l].
    + exists s. split; [|done]. erewrite bind_eq; [|erewrite bind_eq; [|by apply list_empty_ok]; by rewrite bool_decide_true]. done.
    + destruct (ring_links s h [] z l Hr) as ([L1 _] & _). destruct (get_next s h z L1) as (v & Ev & Pv).
      destruct (list_del_ok s h [] z l Hr) as (s' & E & Hr' & Hd & _). exists s'. split_and!; [|done|intros u; by rewrite Hd].
      erewrite bind_eq; [|erewrite bind_eq; [|by apply list_empty_ok]; rewrite bool_decide_false by done;
        erewrite bind_eq; [|exact Ev]; rewrite Pv; by erewrite bind_eq]. done.
Qed.

(** C15: Any sequence of insertions, removals and replacements on a list, each with
    nodes that are allocated and used as the list's comments ask, runs without
    touching a node that is not there, and leaves the ring of the list that the
    operations on Coq lists give. *)
Theorem list_ops_refine h ops : forall s l l',
  ring s h l -> (forall o n, o ∈ ops -> op_node o = Some n -> is_Some (s !! n)) -> abs_ops h l ops = Some l' ->
  exists s', run_ops h ops s = Done () s' /\ ring s' h l'.
Proof.
  induction ops as [|o ops IH]; intros s l l' Hr Hn Ha; cbn in Ha |- *.
  - injection Ha as <-. by exists s.
  - apply bind_Some in Ha as (l1 & H1 & H2).
    destruct (run_op_refines s h l o l1 Hr) as (s1 & E1 & Hr1 & Hd); [intros n; apply Hn; by left|done|].
    destruct (IH s1 l1 l' Hr1) as (s' & E' & Hr'); [|done|].
    + intros o' n Ho' Hon. apply Hd, (Hn o' n); [by right|done].
    + exists s'. split; [by erewrite bind_eq|done].
Qed.

(** [list_append_list] and [list_prepend_list] move all nodes of one list to the
    end, or the front, of another and leave the first one empty. *)
Theorem list_splice_correct s t f lt lf :
  ring s t lt -> ring s f lf -> (forall u, u ∈ t :: lt -> u ∉ f :: lf) ->
  (exists s', list_append_list_ t f s = Done () s' /\ ring s' t (lt ++ lf) /\ ring s' f []
     /\ untouched (t :: f :: lt ++ lf) s s')
  /\ (exists s', list_prepend_list_ t f s = Done () s' /\ ring s' t (lf ++ lt) /\ ring s' f []
     /\ untouched (t :: f :: lt ++ lf) s s').
Proof. intros. split; [by apply list_append_list_ok|by apply list_prepend_list_ok]. Qed.

(** C16: [list_for_each_safe] runs its body on every node of the list in order and
    ends, even if the body takes the node it is given off the list. *)
Theorem list_for_each_safe_correct body s h l :
  ring s h l ->
  (forall l1 n l2 s, ring s h (l1 ++ n :: l2) -> exists s' l1', body n s = Done () s' /\ ring s' h (l1' ++ l2)) ->
  list_for_each_safe_off_dir_ next h body (S (length l)) s = forM_ l body s
  /\ exists s' l', forM_ l body s = Done () s' /\ ring s' h l'.
Proof.
  intros Hr Hb. split.
  - unfold list_for_each_safe_off_dir_. pose proof (chain_first s h l h (proj2 Hr)) as Hf.
    destruct (get_next s h _ Hf) as (v & Ev & Pv). erewrite bind_eq; [|exact Ev]. rewrite Pv.
    assert (exists w, get_node (first_of h l) s = Done w s /\ (l <> [] -> next w = first_of (first_of h l) (tl l ++ [h])))
      as (w & Ew & Pw).
    { destruct l as [|z l]; cbn [first_of head default].
      - exists v. split; [exact Ev|done].
      - destruct (ring_links s h [] z l Hr) as (_ & [L2 _] & _). destruct (get_next s z _ L2) as (w & Ew & Pw).
        exists w. split; [exact Ew|]. intros _. rewrite Pw. by destruct l. }
    erewrite bind_eq; [|exact Ew]. destruct l as [|z l]; [cbn; by rewrite decide_True|].
    rewrite Pw by done. by apply (for_each_safe_ok body h (z :: l) []).
  - assert (forall l1, ring s h (l1 ++ l) -> exists s' l', forM_ l body s = Done () s' /\ ring s' h l') as Hgen.
    { clear Hr. revert s. induction l as [|n l IH]; intros s l1 Hr.
      - exists s, (l1 ++ []). done.
      - destruct (Hb l1 n l s Hr) as (s1 & l1' & E1 & Hr1). destruct (IH s1 l1' Hr1) as (s' & l' & E' & Hr').
        exists s', l'. split; [cbn; by erewrite bind_eq|done]. }
    by apply (Hgen []).
Qed.
End refine.

(** ** Witnesses *)
(** Heads 1 and 2 with lists 3, 4 and 5; node 6 is free. *)
Definition ex_store : store :=
  {[1%positive := mkLnode 3 4; 3%positive := mkLnode 4 1; 4%positive := mkLnode 1 3;
    2%positive := mkLnode 5 5; 5%positive := mkLnode 2 2; 6%positive := mkLnode 6 6]}.

Lemma ex_ring1 : ring ex_store 1 [3%positive; 4%positive].
Proof. split; [by apply (bool_decide_unpack _); vm_compute|repeat split]. Qed.
Lemma ex_ring2 : ring ex_store 2 [5%positive].
Proof. split; [by apply (bool_decide_unpack _); vm_compute|repeat split]. Qed.

Lemma list_ops_refine_witness :
  exists s', run_ops 1 [LAddTail 6; LDel 3; LSwap 6 3; LPop; LDelInit 3; LAdd 6] ex_store = Done () s' /\ ring s' 1 [6%positive].
Proof.
  apply (list_ops_refine 1 _ ex_store [3%positive; 4%positive]); [exact ex_ring1| |reflexivity].
  intros o n Ho Hn. repeat (apply elem_of_cons in Ho as [->|Ho]; [try done; injection Hn as <-; by eexists|]).
  by apply elem_of_nil in Ho.
Defined.

Lemma list_splice_correct_witness :
  (exists s', list_append_list_ 1 2 ex_store = Done () s' /\ ring s' 1 [3%positive; 4%positive; 5%positive] /\ ring s' 2 []
     /\ untouched [1%positive; 2%positive; 3%positive; 4%positive; 5%positive] ex_store s')
  /\ (exists s', list_prepend_list_ 1 2 ex_store = Done () s' /\ ring s' 1 [5%positive; 3%positive; 4%positive] /\ ring s' 2 []
     /\ untouched [1%positive; 2%positive; 3%positive; 4%positive; 5%positive] ex_store s').
Proof.
  apply (list_splice_correct ex_store 1 2 [3%positive; 4%positive] [5%positive] ex_ring1 ex_ring2).
  intros u Hu. repeat (apply elem_of_cons in Hu as [->|Hu]; [by apply (bool_decide_unpack _); vm_compute|]).
  by apply elem_of_nil in Hu.
Defined.

(** Emptying a list while walking it. *)
Lemma list_for_each_safe_correct_witness :
  list_for_each_safe_off_dir_ next 1 list_del_ 3 ex_store = forM_ [3%positive; 4%positive] list_del_ ex_store
  /\ exists s' l', forM_ [3%positive; 4%positive] list_del_ ex_store = Done () s' /\ ring s' 1 l'.
Proof.
  apply (list_for_each_safe_correct list_del_ ex_store 1 [3%positive; 4%positive] ex_ring1).
  intros l1 n l2 s Hr. destruct (list_del_ok s 1 l1 n l2 Hr) as (s' & E & Hr' & _). by exists s', l1.
Defined.
