(* ===== verification/CString.v ===== *)
(** The string functions of the C library ([libc/string.c]; the kernel's
    [sys/lib/string.c] is the same code).

    Memory is a function from addresses to bytes.  Addresses are integers that
    do not wrap: a C object never does.  The loops over a string take fuel, and
    each theorem gives an amount that is enough. *)
From S2P Require Import Prelude.

Definition memory : Type := Z -> Z.
Definition upd (m : memory) (a v : Z) : memory := fun x => if x =? a then v else m x.

(** ** Blocks *)
Fixpoint copy_forward (n : nat) (dst src : Z) (m : memory) : memory :=
  match n with O => m | S n => copy_forward n (dst + 1) (src + 1) (upd m dst (m src)) end.
Fixpoint copy_backward (n : nat) (dst src : Z) (m : memory) : memory :=
  match n with O => m | S n => copy_backward n (dst - 1) (src - 1) (upd m (dst - 1) (m (src - 1))) end.
Definition memcpy (dst0 src0 : Z) (s : nat) (m : memory) : memory :=
  if dst0 <? src0 then copy_forward s dst0 src0 m
  else copy_backward s (dst0 + Z.of_nat s) (src0 + Z.of_nat s) m.
Definition memmove (s1 s2 : Z) (n : nat) (m : memory) : memory := memcpy s1 s2 n m.
Definition bcopy (s1 s2 : Z) (n : nat) (m : memory) : memory := memcpy s2 s1 n m.

Fixpoint memset (dst v : Z) (s : nat) (m : memory) : memory :=
  match s with O => m | S s => memset (dst + 1) v s (upd m dst v) end.

(** ** Strings *)
(** [strchr]: [Some None] is NULL, [None] out of fuel. *)
Fixpoint strchr (fuel : nat) (in_ c : Z) (m : memory) : option (option Z) :=
  match fuel with
  | O => None
  | S fuel => if m in_ =? 0 then Some None else if m in_ =? c then Some (Some in_) else strchr fuel (in_ + 1) c m
  end.

Fixpoint strlen (fuel : nat) (in_ : Z) (m : memory) : option nat :=
  match fuel with
  | O => None
  | S fuel => if m in_ =? 0 then Some O else n ← strlen fuel (in_ + 1) m; Some (S n)
  end.

(** [char] is signed. *)
Fixpoint strncmp (a b : Z) (n : nat) (m : memory) : Z :=
  match n with
  | O => 0
  | S n => if i8 (m a) <? i8 (m b) then -1 else if i8 (m b) <? i8 (m a) then 1 else strncmp (a + 1) (b + 1) n m
  end.

Fixpoint strcmp (fuel : nat) (a b : Z) (m : memory) : option Z :=
  match fuel with
  | O => None
  | S fuel =>
      if negb (m a =? 0) || negb (m b =? 0) then
        if i8 (m a) <? i8 (m b) then Some (-1) else if i8 (m b) <? i8 (m a) then Some 1
        else strcmp fuel (a + 1) (b + 1) m
      else Some 0
  end.

(** The loop of [strncpy], which also writes the terminator behind it. *)
Fixpoint strncpy (dest source : Z) (count : nat) (m : memory) : memory :=
  match count with
  | O => upd m dest 0
  | S count =>
      let m1 := upd m dest (m source) in
      if m1 source =? 0 then upd m1 dest 0 else strncpy (dest + 1) (source + 1) count m1
  end.

Definition strcpy (fuel : nat) (dst src : Z) (m : memory) : option memory :=
  len ← strlen fuel src m; Some (memcpy dst src (S len) m).
Definition strcat (fuel : nat) (dst append : Z) (m : memory) : option memory :=
  ldst ← strlen fuel dst m; strcpy fuel (dst + Z.of_nat ldst) append m.
(** [new] is what [malloc] returned. *)
Definition strdup (fuel : nat) (new in_ : Z) (m : memory) : option memory :=
  len ← strlen fuel in_ m; Some (upd (memcpy new in_ len m) (new + Z.of_nat len) 0).

(** ** What the functions do *)
(** Little-endian fields of a structure. *)
Fixpoint get_le (n : nat) (b : memory) (off : Z) : Z :=
  match n with O => 0 | S n => b off + 256 * get_le n b (off + 1) end.
Fixpoint put_le (n : nat) (b : memory) (off v : Z) : memory :=
  match n with O => b | S n => put_le n (upd b off (v mod 256)) (off + 1) (v / 256) end.

(** The bytes [l] at address [a]; the string [l] at [a] with its terminator. *)
Fixpoint bytes_at (m : memory) (a : Z) (l : list Z) : Prop :=
  match l with [] => True | c :: l => m a = c /\ bytes_at m (a + 1) l end.
Definition string_at (m : memory) (a : Z) (l : list Z) : Prop :=
  bytes_at m a (l ++ [0]) /\ Forall (fun c => 0 < c < 256) l.

Lemma get_le_ext n b b' off : (forall x, off <= x < off + Z.of_nat n -> b x = b' x) -> get_le n b off = get_le n b' off.
Proof.
  revert off. induction n as [|n IH]; intros off Hb; [done|]. cbn. rewrite (Hb off) by lia. f_equal. f_equal. apply IH.
  intros x Hx. apply Hb. lia.
Qed.
Lemma put_le_out n b off v x : ~ off <= x < off + Z.of_nat n -> put_le n b off v x = b x.
Proof.
  revert b off v. induction n as [|n IH]; intros b off v Hx; [done|]. cbn. rewrite IH by lia. unfold upd.
  destruct (Z.eqb_spec x off); [lia|done].
Qed.
Lemma get_put_le n b off v : get_le n (put_le n b off v) off = v mod 256 ^ Z.of_nat n.
Proof.
  revert b off v. induction n as [|n IH]; intros b off v; [cbn; by rewrite Z.mod_1_r|]. cbn [get_le put_le].
  rewrite IH, put_le_out by lia. unfold upd. rewrite Z.eqb_refl.
  replace (256 ^ Z.of_nat (S n)) with (256 * 256 ^ Z.of_nat n) by (rewrite Nat2Z.inj_succ, Z.pow_succ_r by lia; done).
  rewrite Z.rem_mul_r by lia. done.
Qed.
Lemma get_put_le_ne n m b off off' v : off' + Z.of_nat n <= off \/ off + Z.of_nat m <= off' ->
  get_le n (put_le m b off v) off' = get_le n b off'.
Proof. intros. apply get_le_ext. intros x Hx. apply put_le_out. lia. Qed.

Lemma i32_le v : 0 <= v < 2 ^ 31 -> i32 (v mod 256 ^ Z.of_nat 4) = v.
Proof.
  intros Hv. change (256 ^ Z.of_nat 4) with (2 ^ 32). rewrite Z.mod_small by lia. unfold i32, swrap. rewrite Z.mod_small by lia. lia.
Qed.

Lemma bytes_at_app m a l1 l2 : bytes_at m a (l1 ++ l2) <-> bytes_at m a l1 /\ bytes_at m (a + Z.of_nat (length l1)) l2.
Proof.
  revert a. induction l1 as [|c l1 IH]; intros a; cbn [app bytes_at length].
  - rewrite Z.add_0_r. tauto.
  - rewrite IH. replace (a + 1 + Z.of_nat (length l1)) with (a + Z.of_nat (S (length l1))) by lia. tauto.
Qed.

Lemma bytes_at_ext m m' l : forall a a',
  (forall i, 0 <= i < Z.of_nat (length l) -> m' (a' + i) = m (a + i)) -> bytes_at m a l -> bytes_at m' a' l.
Proof.
  induction l as [|c l IH]; intros a a' H; cbn [bytes_at]; [done|]. intros [H1 H2]. split.
  - specialize (H 0). rewrite !Z.add_0_r in H. rewrite H; [done|cbn [length]; lia].
  - apply (IH (a + 1)); [|done]. intros i Hi. rewrite <- !Z.add_assoc. apply H. cbn [length]. lia.
Qed.

Lemma string_at_cons m a c l : string_at m a (c :: l) <-> m a = c /\ 0 < c < 256 /\ string_at m (a + 1) l.
Proof. unfold string_at. cbn. rewrite Forall_cons. tauto. Qed.
Lemma string_at_ext m m' a l : (forall x, a <= x <= a + Z.of_nat (length l) -> m' x = m x) -> string_at m a l -> string_at m' a l.
Proof.
  intros Hm [H1 H2]. split; [|done]. eapply bytes_at_ext; [|exact H1]. intros i Hi. apply Hm.
  rewrite length_app in Hi. cbn in Hi. lia.
Qed.
Lemma bytes_at_lookup m l : forall a i c, bytes_at m a l -> l !! i = Some c -> m (a + Z.of_nat i) = c.
Proof.
  induction l as [|x l IH]; intros a i c; [done|]. cbn [bytes_at]. intros [H1 H2]. destruct i as [|i]; cbn.
  - intros [= <-]. by rewrite Z.add_0_r.
  - intros Hi. rewrite <- (IH (a + 1) i c H2 Hi). f_equal. lia.
Qed.
Lemma bytes_at_intro m l : forall a, (forall i c, l !! i = Some c -> m (a + Z.of_nat i) = c) -> bytes_at m a l.
Proof.
  induction l as [|x l IH]; intros a H; cbn [bytes_at]; [done|]. split.
  - specialize (H 0%nat x eq_refl). by rewrite Z.add_0_r in H.
  - apply IH. intros i c Hi. specialize (H (S i) c Hi). rewrite <- H. f_equal. lia.
Qed.

Lemma copy_forward_spec n : forall dst src m x, dst <= src ->
  copy_forward n dst src m x = if (dst <=? x) && (x <? dst + Z.of_nat n) then m (src + (x - dst)) else m x.
Proof.
  induction n as [|n IH]; intros dst src m x Hd.
  - cbn [copy_forward]. destruct (Z.leb_spec dst x), (Z.ltb_spec x (dst + Z.of_nat 0)); cbn; (done || lia).
  - cbn [copy_forward]. rewrite IH by lia. unfold upd.
    destruct (Z.leb_spec (dst + 1) x), (Z.leb_spec dst x), (Z.ltb_spec x (dst + 1 + Z.of_nat n)),
      (Z.ltb_spec x (dst + Z.of_nat (S n))); cbn [andb]; try lia;
      repeat match goal with |- context[?a =? ?b] => destruct (Z.eqb_spec a b) end; try lia; f_equal; lia.
Qed.

Lemma copy_backward_spec n : forall dst src m x, src <= dst ->
  copy_backward n dst src m x = if (dst - Z.of_nat n <=? x) && (x <? dst) then m (src + (x - dst)) else m x.
Proof.
  induction n as [|n IH]; intros dst src m x Hd.
  - cbn [copy_backward]. destruct (Z.leb_spec (dst - Z.of_nat 0) x), (Z.ltb_spec x dst); cbn; (done || lia).
  - cbn [copy_backward]. rewrite IH by lia. unfold upd.
    destruct (Z.leb_spec (dst - 1 - Z.of_nat n) x), (Z.leb_spec (dst - Z.of_nat (S n)) x), (Z.ltb_spec x (dst - 1)),
      (Z.ltb_spec x dst); cbn [andb]; try lia;
      repeat match goal with |- context[?a =? ?b] => destruct (Z.eqb_spec a b) end; try lia; f_equal; lia.
Qed.

Lemma memcpy_spec dst src n m x :
  memcpy dst src n m x = if (dst <=? x) && (x <? dst + Z.of_nat n) then m (src + (x - dst)) else m x.
Proof.
  unfold memcpy. destruct (Z.ltb_spec dst src); [apply copy_forward_spec; lia|].
  rewrite copy_backward_spec by lia. replace (dst + Z.of_nat n - Z.of_nat n) with dst by lia.
  destruct (_ && _); [|done]. f_equal. lia.
Qed.

Lemma memset_spec n : forall dst v m x,
  memset dst v n m x = if (dst <=? x) && (x <? dst + Z.of_nat n) then v else m x.
Proof.
  induction n as [|n IH]; intros dst v m x; cbn [memset].
  - destruct (Z.leb_spec dst x), (Z.ltb_spec x (dst + Z.of_nat 0)); cbn; (done || lia).
  - rewrite IH. unfold upd. destruct (Z.leb_spec (dst + 1) x), (Z.leb_spec dst x), (Z.ltb_spec x (dst + 1 + Z.of_nat n)),
      (Z.ltb_spec x (dst + Z.of_nat (S n))); cbn [andb]; try lia; destruct (Z.eqb_spec x dst); (done || lia).
Qed.

Lemma strlen_spec m l : forall a fuel, string_at m a l -> (length l < fuel)%nat -> strlen fuel a m = Some (length l).
Proof.
  induction l as [|c l IH]; intros a [|fuel] Hs Hf; cbn [length] in Hf; try lia; cbn [strlen].
  - destruct Hs as [[-> _] _]. done.
  - apply string_at_cons in Hs as (-> & Hc & Hs). destruct (Z.eqb_spec c 0); [lia|]. rewrite (IH (a + 1)) by (done || lia). done.
Qed.

Lemma strcpy_spec m l dst src fuel :
  string_at m src l -> (length l < fuel)%nat ->
  strcpy fuel dst src m = Some (memcpy dst src (S (length l)) m) /\ string_at (memcpy dst src (S (length l)) m) dst l.
Proof.
  intros Hs Hf. unfold strcpy. rewrite (strlen_spec m l) by done. split; [done|]. destruct Hs as [Hb Hl]. split; [|done].
  apply (bytes_at_ext m _ _ src); [|done]. intros i Hi. rewrite length_app in Hi. cbn in Hi. rewrite memcpy_spec.
  replace ((dst <=? dst + i) && (dst + i <? dst + Z.of_nat (S (length l)))) with true; [f_equal; lia|].
  symmetry. apply andb_true_iff. rewrite Z.leb_le, Z.ltb_lt. lia.
Qed.

(** [memcpy] (and so [memmove] and [bcopy]) moves a block correctly whether or
    not source and destination overlap, and touches nothing else. *)
Theorem memcpy_correct m dst src n x :
  memmove dst src n m x = (if bool_decide (dst <= x < dst + Z.of_nat n) then m (src + (x - dst)) else m x)
  /\ bcopy src dst n m x = memmove dst src n m x.
Proof.
  split; [|done]. unfold memmove. rewrite memcpy_spec. case_bool_decide as H.
  - replace ((dst <=? x) && (x <? dst + Z.of_nat n)) with true; [done|]. symmetry. apply andb_true_iff.
    rewrite Z.leb_le, Z.ltb_lt. lia.
  - destruct (Z.leb_spec dst x), (Z.ltb_spec x (dst + Z.of_nat n)); cbn; (done || lia).
Qed.

(** The first difference decides; the terminators take part in it. *)
Definition before (l1 l2 : list Z) : Prop :=
  exists p c1 c2 r1 r2, l1 ++ [0] = p ++ c1 :: r1 /\ l2 ++ [0] = p ++ c2 :: r2 /\ i8 c1 < i8 c2.

Lemma i8_inj x y : 0 <= x < 256 -> 0 <= y < 256 -> i8 x = i8 y -> x = y.
Proof.
  intros Hx Hy. unfold i8, swrap. change (2 ^ (8 - 1)) with 128. change (2 ^ 8) with 256. intros E.
  assert ((x + 128) mod 256 = (y + 128) mod 256) as E' by lia.
  rewrite (Z.mod_eq (x + 128)), (Z.mod_eq (y + 128)) in E' by done.
  assert (0 <= (x + 128) / 256 <= 1 /\ 0 <= (y + 128) / 256 <= 1) as [Dx Dy].
  { split; split; try (apply Z.div_pos; lia); apply Z.lt_succ_r, Z.div_lt_upper_bound; lia. }
  lia.
Qed.

Lemma before_cons c l1 l2 : before (c :: l1) (c :: l2) <-> before l1 l2.
Proof.
  split.
  - intros ([|d p] & c1 & c2 & r1 & r2 & E1 & E2 & Hlt); cbn in *; [injection E1; injection E2; intros; subst; lia|].
    injection E1 as -> E1. injection E2 as E2. by exists p, c1, c2, r1, r2.
  - intros (p & c1 & c2 & r1 & r2 & E1 & E2 & Hlt). exists (c :: p), c1, c2, r1, r2. cbn. by rewrite E1, E2.
Qed.

Lemma before_hd a1 a2 l1 l2 : a1 <> a2 ->
  before l1 l2 -> (exists t1, l1 ++ [0] = a1 :: t1) -> (exists t2, l2 ++ [0] = a2 :: t2) -> i8 a1 < i8 a2.
Proof.
  intros Hne (p & c1 & c2 & r1 & r2 & E1 & E2 & Hlt) [t1 H1] [t2 H2]. rewrite E1 in H1. rewrite E2 in H2.
  destruct p as [|d p]; cbn in *; [by injection H1 as -> _; injection H2 as -> _|congruence].
Qed.

Lemma strcmp_spec m l1 : forall l2 a b fuel,
  string_at m a l1 -> string_at m b l2 -> (length l1 < fuel)%nat ->
  exists r, strcmp fuel a b m = Some r
  /\ ((r = 0 /\ l1 = l2) \/ (r = -1 /\ before l1 l2) \/ (r = 1 /\ before l2 l1)).
Proof.
  assert (forall c1 c2 t1 t2 (l1 l2 : list Z), l1 ++ [0] = c1 :: t1 -> l2 ++ [0] = c2 :: t2 -> i8 c1 < i8 c2 -> before l1 l2) as Hhd.
  { intros c1 c2 t1 t2 k1 k2 E1 E2 H. by exists [], c1, c2, t1, t2. }
  induction l1 as [|c1 l1 IH]; intros l2 a b [|fuel] H1 H2 Hf; cbn [length] in Hf; try lia; cbn [strcmp].
  - destruct H1 as [[Ha _] _]. rewrite Ha. change (i8 0) with 0. cbn [Z.eqb negb orb].
    destruct l2 as [|c2 l2].
    + destruct H2 as [[Hb _] _]. rewrite Hb. cbn. exists 0. auto.
    + apply string_at_cons in H2 as (Hb & Hc & _). rewrite Hb. destruct (Z.eqb_spec c2 0); [lia|]. cbn [negb].
      destruct (Z.ltb_spec 0 (i8 c2)); [exists (-1); split; [done|]; right; left; split; [done|]; by eapply (Hhd 0 c2)|].
      destruct (Z.ltb_spec (i8 c2) 0); [exists 1; split; [done|]; right; right; split; [done|]; by eapply (Hhd c2 0)|].
      exfalso. assert (c2 = 0); [|lia]. apply i8_inj; [lia..|]. change (i8 0) with 0. lia.
  - apply string_at_cons in H1 as (Ha & Hc1 & H1). rewrite Ha. destruct (Z.eqb_spec c1 0); [lia|]. cbn [negb orb].
    destruct l2 as [|c2 l2].
    + destruct H2 as [[Hb _] _]. rewrite Hb. change (i8 0) with 0.
      destruct (Z.ltb_spec (i8 c1) 0); [exists (-1); split; [done|]; right; left; split; [done|]; by eapply (Hhd c1 0)|].
      destruct (Z.ltb_spec 0 (i8 c1)); [exists 1; split; [done|]; right; right; split; [done|]; by eapply (Hhd 0 c1)|].
      exfalso. assert (c1 = 0); [|lia]. apply i8_inj; [lia..|]. change (i8 0) with 0. lia.
    + apply string_at_cons in H2 as (Hb & Hc2 & H2). rewrite Hb.
      destruct (Z.ltb_spec (i8 c1) (i8 c2)); [exists (-1); split; [done|]; right; left; split; [done|]; by eapply (Hhd c1 c2)|].
      destruct (Z.ltb_spec (i8 c2) (i8 c1)); [exists 1; split; [done|]; right; right; split; [done|]; by eapply (Hhd c2 c1)|].
      assert (c1 = c2) as -> by (apply i8_inj; lia).
      destruct (IH l2 (a + 1) (b + 1) fuel H1 H2) as (r & E & Hr); [lia|]. exists r. split; [done|].
      rewrite !before_cons. destruct Hr as [[-> ->]|[[-> Hr]|[-> Hr]]]; auto.
Qed.

(** [strcmp] on two strings ends and returns 0 exactly when they are equal, -1
    when the first comes before the second in the order of signed characters,
    1 when it comes after. *)
Theorem strcmp_correct m l1 l2 a b fuel :
  string_at m a l1 -> string_at m b l2 -> (length l1 < fuel)%nat ->
  exists r, strcmp fuel a b m = Some r /\ (r = 0 <-> l1 = l2) /\ (r = -1 <-> before l1 l2) /\ (r = 1 <-> before l2 l1).
Proof.
  intros H1 H2 Hf. destruct (strcmp_spec m l1 l2 a b fuel H1 H2 Hf) as (r & E & Hr). exists r. split; [done|].
  assert (forall k1 k2, before k1 k2 -> k1 <> k2) as Hirr.
  { intros k1 k2 (p & c1 & c2 & r1 & r2 & E1 & E2 & Hlt) ->. rewrite E1 in E2. apply app_inv_head in E2. injection E2 as -> _. lia. }
  assert (forall k1 k2, before k1 k2 -> before k2 k1 -> False) as Has.
  { intros k1. induction k1 as [|x k1 IH]; intros k2 B1 B2.
    - destruct k2 as [|y k2]; [by apply (Hirr [] [])|]. destruct (decide (0 = y)) as [<-|Hne].
      + destruct B1 as (p & c1 & c2 & r1 & r2 & E1 & E2 & Hlt). destruct p as [|d p]; cbn in *; [injection E1; injection E2; intros; subst; lia|].
        injection E1 as _ E1. by destruct p.
      + pose proof (before_hd 0 y [] (y :: k2) Hne B1 ltac:(by eexists) ltac:(by eexists)).
        pose proof (before_hd y 0 (y :: k2) [] (not_eq_sym Hne) B2 ltac:(by eexists) ltac:(by eexists)). lia.
    - destruct k2 as [|y k2].
      + destruct (decide (x = 0)) as [->|Hne].
        * destruct B1 as (p & c1 & c2 & r1 & r2 & E1 & E2 & Hlt). destruct p as [|d p]; cbn in *; [injection E1; injection E2; intros; subst; lia|].
          injection E2 as _ E2. by destruct p.
        * pose proof (before_hd x 0 (x :: k1) [] Hne B1 ltac:(by eexists) ltac:(by eexists)).
          pose proof (before_hd 0 x [] (x :: k1) (not_eq_sym Hne) B2 ltac:(by eexists) ltac:(by eexists)). lia.
      + destruct (decide (x = y)) as [->|Hne]; [rewrite before_cons in B1, B2; by apply (IH k2)|].
        pose proof (before_hd x y (x :: k1) (y :: k2) Hne B1 ltac:(by eexists) ltac:(by eexists)).
        pose proof (before_hd y x (y :: k2) (x :: k1) (not_eq_sym Hne) B2 ltac:(by eexists) ltac:(by eexists)). lia. }
  destruct Hr as [[-> ->]|[[-> Hr]|[-> Hr]]]; split_and!; split; intros H; try done; exfalso;
    first [by apply (Hirr _ _ H)|by subst l2; apply (Hirr _ _ Hr)|by apply (Has _ _ H Hr)].
Qed.

Lemma strcat_spec m l1 l2 dst src fuel :
  string_at m dst l1 -> string_at m src l2 -> (length l1 < fuel)%nat -> (length l2 < fuel)%nat ->
  exists m', strcat fuel dst src m = Some m' /\ string_at m' dst (l1 ++ l2)
    /\ forall x, ~ dst + Z.of_nat (length l1) <= x <= dst + Z.of_nat (length l1 + length l2) -> m' x = m x.
Proof.
  intros H1 H2 F1 F2. unfold strcat. rewrite (strlen_spec m l1) by done.
  destruct (strcpy_spec m l2 (dst + Z.of_nat (length l1)) src fuel H2 F2) as [E [Hb Hl2]]. cbn [mbind option_bind]. rewrite E.
  eexists. split; [done|]. destruct H1 as [Hb1 Hl1]. split.
  - split; [|by apply Forall_app]. rewrite <- app_assoc. apply bytes_at_app. split; [|done].
    apply bytes_at_app in Hb1 as [Hb1 _]. apply (bytes_at_ext m _ _ dst); [|done]. intros i Hi. rewrite memcpy_spec.
    destruct (Z.leb_spec (dst + Z.of_nat (length l1)) (dst + i)); [lia|done].
  - intros x Hx. rewrite memcpy_spec.
    destruct (Z.leb_spec (dst + Z.of_nat (length l1)) x), (Z.ltb_spec x (dst + Z.of_nat (length l1) + Z.of_nat (S (length l2))));
      cbn; (done || lia).
Qed.

(** [strncmp] compares [n] characters also behind the end of both strings:
    equal strings compare as different when what follows them differs. *)
Lemma strncmp_runs_on m l a b n :
  string_at m a l -> string_at m b l -> i8 (m (a + Z.of_nat (S (length l)))) < i8 (m (b + Z.of_nat (S (length l)))) ->
  (S (S (length l)) <= n)%nat -> strncmp a b n m = -1.
Proof.
  revert a b n. induction l as [|c l IH]; intros a b n H1 H2 Hlt Hn; (destruct n as [|n]; [cbn in Hn; lia|]); cbn [strncmp].
  - destruct H1 as [[-> _] _], H2 as [[-> _] _]. rewrite Z.ltb_irrefl. destruct n as [|n]; [cbn in Hn; lia|]. cbn [strncmp].
    cbn [length] in Hlt. change (Z.of_nat 1) with 1 in Hlt. apply Z.ltb_lt in Hlt. by rewrite Hlt.
  - apply string_at_cons in H1 as (-> & _ & H1). apply string_at_cons in H2 as (-> & _ & H2). rewrite Z.ltb_irrefl.
    apply IH; [done|done| |cbn in Hn |- *; lia].
    replace (a + 1 + Z.of_nat (S (length l))) with (a + Z.of_nat (S (length (c :: l)))) by (cbn [length]; lia).
    by replace (b + 1 + Z.of_nat (S (length l))) with (b + Z.of_nat (S (length (c :: l)))) by (cbn [length]; lia).
Qed.

(** ** Witnesses *)
(** The strings "ab" at 10 and "a" followed by byte 200 at 20. *)
Definition ex_memory : memory := fun x => if x =? 10 then 97 else if x =? 11 then 98 else if x =? 20 then 97 else if x =? 21 then 200 else 0.

Lemma strcmp_correct_witness :
  exists r, strcmp 3 10 20 ex_memory = Some r /\ (r = 0 <-> [97; 98] = [97; 200]) /\ (r = -1 <-> before [97; 98] [97; 200])
  /\ (r = 1 <-> before [97; 200] [97; 98]).
Proof.
  apply (strcmp_correct ex_memory [97; 98] [97; 200] 10 20 3); [| |cbn; lia]; (split; [by cbn|repeat constructor; lia]).
Defined.
