(* ===== verification/Printf.v ===== *)
(** Formatted output: [itoa] and [_printk] of [sys/printk.c] and [printf] of
    [libc/printf.c], whose [itoa] is the same code.

    A format is the list of its characters up to the terminator; the variadic
    arguments are a list of 64-bit values, [None] standing for a read past the
    last of them or past the end of the format. *)
From S2P Require Import Prelude CString.

(** ** [itoa] *)
(** The counting loop: how often [tmp] can be divided before it is 0. *)
Fixpoint ndigits (fuel : nat) (base tmp : Z) : Z :=
  match fuel with O => 0 | S fuel => if tmp =? 0 then 0 else 1 + ndigits fuel base (tmp / base) end.

(** ["0123456789abcdef"[d]] *)
Definition digit (d : Z) : Z := if d <? 10 then 48 + d else 87 + d.

(** The writing loop: the last digit goes to [str + n - 1]. *)
Fixpoint put_digits (fuel : nat) (base tmp str n : Z) (m : memory) : memory :=
  match fuel with
  | O => m
  | S fuel =>
      if tmp =? 0 then m
      else put_digits fuel base (tmp / base) str (n - 1) (upd m (str + (n - 1)) (digit (tmp mod base)))
  end.

(** [str = None] is the NULL that only asks for the length.  64 iterations
    exhaust any [unsigned long] in base 2 or more. *)
Definition itoa (a base : Z) (str : option Z) (width : Z) (sign : bool) (m : memory) : Z * memory :=
  let tmp := u64 (if sign then if 0 <? a then a else - a else a) in
  let n := ndigits 64 base tmp in
  if n =? 0 then
    let width := if width =? 0 then 1 else width in
    (width, match str with Some p => memset p 48 (Z.to_nat width) m | None => m end)
  else
    let neg := (a <? 0) && sign in
    let ret := (if n <? width then width else n) + (if neg then 1 else 0) in
    match str with
    | None => (ret, m)
    | Some p =>
        let '(p, m) := if neg then (p + 1, upd m p 45) else (p, m) in
        let pad := Z.to_nat (width - n) in
        (ret, put_digits 64 base tmp (p + Z.of_nat pad) n (memset p 48 pad m))
    end.

(** ** [_printk] *)
Definition va_int (x : Z) : Z := i32 x.

Definition null_string : list Z := [40; 110; 117; 108; 108; 41].
Fixpoint put_bytes (a : Z) (l : list Z) (m : memory) : memory :=
  match l with [] => m | c :: l => put_bytes (a + 1) l (upd m a c) end.

(** ['s']: [strcpy] to [pos], then [pos] moves by the length. *)
Definition put_string (fuel : nat) (pos str : Z) (m : memory) : option (Z * memory) :=
  if str =? 0 then Some (pos + 6, put_bytes pos (null_string ++ [0]) m)
  else
    m ← strcpy fuel pos str m;
    len ← strlen fuel str m;
    Some (pos + Z.of_nat len, m).

(** The loop over the format; [fuel] bounds the strings. *)
Fixpoint printk_loop (fuel : nat) (format : list Z) (val : list Z) (pos : Z) (m : memory) : option (Z * memory) :=
  match format with
  | [] => Some (pos, m)
  | c :: format =>
      if c =? 37 then
        match format with
        | [] => None
        | c :: format =>
            if c =? 100 then (* d *)
              match val with
              | [] => None
              | x :: val => let '(n, m) := itoa (va_int x) 10 (Some pos) 0 true m in printk_loop fuel format val (pos + n) m
              end
            else if c =? 120 then (* x *)
              match val with
              | [] => None
              | x :: val => let '(n, m) := itoa (va_int x) 16 (Some pos) 0 false m in printk_loop fuel format val (pos + n) m
              end
            else if c =? 112 then (* p *)
              match val with
              | [] => None
              | x :: val =>
                  let m := upd (upd m pos 48) (pos + 1) 120 in
                  let '(n, m) := itoa x 16 (Some (pos + 2)) 8 false m in printk_loop fuel format val (pos + 2 + n) m
              end
            else if c =? 115 then (* s *)
              match val with
              | [] => None
              | x :: val => '(pos, m) ← put_string fuel pos x m; printk_loop fuel format val pos m
              end
            else if c =? 99 then (* c *)
              match val with
              | [] => None
              | x :: val => printk_loop fuel format val (pos + 1) (upd m pos (u8 x))
              end
            else if c =? 37 then printk_loop fuel format val (pos + 1) (upd m pos 37)
            else printk_loop fuel format val pos m
        end
      else printk_loop fuel format val (pos + 1) (upd m pos c)
  end.

(** What [print_handler] gets: the buffer, terminated. *)
Definition printk_buf_size : Z := 8192.
Definition printk (fuel : nat) (printk_buf : Z) (format val : list Z) (m : memory) : option memory :=
  '(pos, m) ← printk_loop fuel format val printk_buf m; Some (upd m pos 0).

(** ** [printf] *)
(** The first loop: the length, or [inl] for an invalid format. *)
Fixpoint printf_len (fuel : nat) (format val : list Z) (len : Z) (m : memory) : option (unit + Z) :=
  match format with
  | [] => Some (inr len)
  | c :: format =>
      if c =? 37 then
        match format with
        | [] => Some (inl ())
        | c :: format =>
            if (c =? 100) || (c =? 120) then
              match val with
              | [] => None
              | x :: val =>
                  let n := if c =? 100 then (itoa (va_int x) 10 None 0 true m).1 else (itoa (va_int x) 16 None 0 false m).1 in
                  printf_len fuel format val (len + n) m
              end
            else if c =? 115 then
              match val with
              | [] => None
              | x :: val =>
                  if x =? 0 then printf_len fuel format val (len + 6) m
                  else n ← strlen fuel x m; printf_len fuel format val (len + Z.of_nat n) m
              end
            else if c =? 99 then match val with [] => None | x :: val => printf_len fuel format val (len + 1) m end
            else if c =? 37 then printf_len fuel format val (len + 1) m
            else Some (inl ())
        end
      else printf_len fuel format val (len + 1) m
  end.

(** The second loop. *)
Fixpoint printf_fill (fuel : nat) (format val : list Z) (pos : Z) (m : memory) : option (Z * memory) :=
  match format with
  | [] => Some (pos, m)
  | c :: format =>
      if c =? 37 then
        match format with
        | [] => None
        | c :: format =>
            if (c =? 100) || (c =? 120) then
              match val with
              | [] => None
              | x :: val =>
                  let '(n, m) := if c =? 100 then itoa (va_int x) 10 (Some pos) 0 true m
                                 else itoa (va_int x) 16 (Some pos) 0 false m in
                  printf_fill fuel format val (pos + n) m
              end
            else if c =? 115 then
              match val with
              | [] => None
              | x :: val => '(pos, m) ← put_string fuel pos x m; printf_fill fuel format val pos m
              end
            else if c =? 99 then
              match val with [] => None | x :: val => printf_fill fuel format val (pos + 1) (upd m pos (u8 x)) end
            else if c =? 37 then printf_fill fuel format val (pos + 1) (upd m pos 37)
            else printf_fill fuel format val pos m
        end
      else printf_fill fuel format val (pos + 1) (upd m pos c)
  end.

(** [res] is what [malloc(len)] returned; the result is the length and the
    memory from which [len] bytes at [res] are written out, 0 and nothing when
    the format is invalid. *)
Definition printf (fuel : nat) (res : Z) (format val : list Z) (m : memory) : option (Z * memory) :=
  r ← printf_len fuel format val 0 m;
  match r with
  | inl _ => Some (0, m)
  | inr len => '(_, m) ← printf_fill fuel format val res m; Some (i32 len, m)
  end.

(** ** Numerals *)
Fixpoint numeral (fuel : nat) (base x : Z) : list Z :=
  match fuel with O => [] | S fuel => if x =? 0 then [] else numeral fuel base (x / base) ++ [digit (x mod base)] end.

(** The number a digit character stands for, and a numeral. *)
Definition digit_value (c : Z) : Z := if c <? 58 then c - 48 else c - 87.
Definition numeral_value (base : Z) (l : list Z) : Z := foldl (fun acc c => acc * base + digit_value c) 0 l.

Lemma digit_value_digit d : 0 <= d < 16 -> digit_value (digit d) = d.
Proof.
  intros Hd. unfold digit_value, digit. destruct (Z.ltb_spec d 10).
  - destruct (Z.ltb_spec (48 + d) 58); lia.
  - destruct (Z.ltb_spec (87 + d) 58); lia.
Qed.

Lemma numeral_length fuel base x : Z.of_nat (length (numeral fuel base x)) = ndigits fuel base x.
Proof.
  revert x. induction fuel as [|fuel IH]; intros x; simpl; [done|]. destruct (Z.eqb_spec x 0); [done|].
  rewrite length_app. cbn [length]. rewrite <- IH. lia.
Qed.

(** The numeral says the number, has no leading zero and only digits. *)
Lemma numeral_correct fuel base x :
  2 <= base <= 16 -> 0 <= x < base ^ Z.of_nat fuel ->
  numeral_value base (numeral fuel base x) = x
  /\ (forall c l, numeral fuel base x = c :: l -> c <> 48)
  /\ Forall (fun c => exists d, 0 <= d < base /\ c = digit d) (numeral fuel base x).
Proof.
  intros Hb. revert x. induction fuel as [|fuel IH]; intros x Hx.
  - simpl. change (base ^ Z.of_nat 0) with 1 in Hx. split; [cbn; lia|]. split; [done|constructor].
  - simpl. destruct (Z.eqb_spec x 0) as [->|Hne]; [split_and!; [done|done|constructor]|].
    pose proof (Z.mod_pos_bound x base ltac:(lia)) as Hm.
    destruct (IH (x / base)) as (V & L & D).
    { split; [apply Z.div_pos; lia|]. apply Z.div_lt_upper_bound; [lia|]. rewrite Nat2Z.inj_succ, Z.pow_succ_r in Hx by lia. lia. }
    split; [|split].
    + unfold numeral_value in *. rewrite foldl_app, V. cbn. rewrite digit_value_digit by lia.
      rewrite (Z.div_mod x base) at 3 by lia. lia.
    + intros c l E. destruct (numeral fuel base (x / base)) as [|c' l'] eqn:En; cbn in E; [|injection E as <- _; by apply (L c' l')].
      injection E as <- _. unfold numeral_value in V. cbn in V. unfold digit.
      assert (x mod base <> 0); [|destruct (Z.ltb_spec (x mod base) 10); lia].
      intros E0. apply Hne. rewrite (Z.div_mod x base), <- V, E0 by lia. lia.
    + apply Forall_app. split; [done|]. apply Forall_singleton. by eexists.
Qed.

(** ** What is written *)
(** [l] at [a], nothing else changed except perhaps [extra] bytes behind it. *)
Definition wrote (extra : Z) (m m' : memory) (a : Z) (l : list Z) : Prop :=
  bytes_at m' a l /\ forall x, ~ a <= x < a + Z.of_nat (length l) + extra -> m' x = m x.

Lemma wrote_app e m m1 m2 a l1 l2 : 0 <= e -> wrote e m m1 a l1 -> wrote e m1 m2 (a + Z.of_nat (length l1)) l2 ->
  wrote e m m2 a (l1 ++ l2).
Proof.
  intros He [H1 F1] [H2 F2]. split.
  - apply bytes_at_app. split; [|done]. apply (bytes_at_ext m1 _ _ a); [|done]. intros i Hi. apply F2. lia.
  - intros x Hx. rewrite length_app in Hx. rewrite F2 by lia. apply F1. lia.
Qed.

Lemma wrote_weaken e e' m m' a l : e <= e' -> wrote e m m' a l -> wrote e' m m' a l.
Proof. intros He [H F]. split; [done|]. intros x Hx. apply F. lia. Qed.

Lemma wrote_one m a c : wrote 0 m (upd m a c) a [c].
Proof.
  split; [cbn; unfold upd; rewrite Z.eqb_refl; done|]. intros x Hx. cbn in Hx. unfold upd. destruct (Z.eqb_spec x a); [lia|done].
Qed.

Lemma wrote_nil m a : wrote 0 m m a [].
Proof. by split. Qed.

Lemma memset_wrote n m p v : wrote 0 m (memset p v n m) p (replicate n v).
Proof.
  split.
  - revert p m. induction n as [|n IH]; intros p m; cbn [replicate bytes_at memset]; [done|]. split; [|apply IH].
    rewrite memset_spec. destruct (Z.leb_spec (p + 1) p); [lia|]. cbn. unfold upd. by rewrite Z.eqb_refl.
  - intros x Hx. rewrite length_replicate in Hx. rewrite memset_spec.
    destruct (Z.leb_spec p x), (Z.ltb_spec x (p + Z.of_nat n)); cbn; (done || lia).
Qed.

Lemma put_digits_wrote base fuel : forall x str m,
  wrote 0 m (put_digits fuel base x str (ndigits fuel base x) m) str (numeral fuel base x).
Proof.
  induction fuel as [|fuel IH]; intros x str m; cbn [put_digits ndigits numeral]; [apply wrote_nil|].
  destruct (Z.eqb_spec x 0) as [|Hne]; [apply wrote_nil|].
  replace (1 + ndigits fuel base (x / base) - 1) with (ndigits fuel base (x / base)) by lia.
  set (n := ndigits fuel base (x / base)). set (d := digit (x mod base)).
  destruct (IH (x / base) str (upd m (str + n) d)) as [H F]. fold n in H, F. rewrite numeral_length in F. fold n in F. split.
  - apply bytes_at_app. split; [done|]. rewrite numeral_length. fold n. cbn. split; [|done].
    rewrite F by lia. unfold upd. by rewrite Z.eqb_refl.
  - pose proof (numeral_length fuel base (x / base)) as Hn. fold n in Hn. intros y Hy.
    rewrite length_app in Hy. cbn [length] in Hy.
    rewrite F by lia. unfold upd. destruct (Z.eqb_spec y (str + n)); [lia|done].
Qed.

Lemma put_bytes_wrote l : forall a m, wrote 0 m (put_bytes a l m) a l.
Proof.
  induction l as [|c l IH]; intros a m; cbn [put_bytes]; [apply wrote_nil|].
  change (c :: l) with ([c] ++ l). eapply wrote_app; [done|apply wrote_one|]. apply IH.
Qed.

(** The text of a number. *)
Definition number_text (a base width : Z) (sign : bool) : list Z :=
  let x := u64 (if sign then if 0 <? a then a else - a else a) in
  let n := ndigits 64 base x in
  if n =? 0 then replicate (Z.to_nat (if width =? 0 then 1 else width)) 48
  else (if (a <? 0) && sign then [45] else []) ++ replicate (Z.to_nat (width - n)) 48 ++ numeral 64 base x.

Lemma itoa_spec a base p width sign m :
  0 <= width ->
  exists m', itoa a base (Some p) width sign m = (Z.of_nat (length (number_text a base width sign)), m')
    /\ wrote 0 m m' p (number_text a base width sign)
    /\ itoa a base None width sign m = (Z.of_nat (length (number_text a base width sign)), m).
Proof.
  intros Hw. unfold itoa, number_text. set (x := u64 _). cbv zeta.
  destruct (Z.eqb_spec (ndigits 64 base x) 0) as [E0|E0].
  - eexists. rewrite length_replicate. split; [|split; [apply memset_wrote|]]; f_equal; destruct (Z.eqb_spec width 0); lia.
  - set (n := ndigits 64 base x) in *. assert (0 < n) as Hn.
    { pose proof (numeral_length 64 base x) as Hl. fold n in Hl. lia. }
    set (neg := (a <? 0) && sign).
    assert ((if n <? width then width else n) + (if neg then 1 else 0)
      = Z.of_nat (length ((if neg then [45] else []) ++ replicate (Z.to_nat (width - n)) 48 ++ numeral 64 base x))) as ->.
    { rewrite !length_app, length_replicate, !Nat2Z.inj_add, numeral_length. fold n.
      destruct (Z.ltb_spec n width), neg; cbn [length]; lia. }
    destruct neg; (eexists; split; [reflexivity|split; [|reflexivity]]).
    + eapply wrote_app; [done|apply wrote_one|]. eapply wrote_app; [done|apply memset_wrote|].
      rewrite length_replicate. apply put_digits_wrote.
    + cbn [app]. eapply wrote_app; [done|apply memset_wrote|]. rewrite length_replicate. apply put_digits_wrote.
Qed.

(** ** The text of a format *)
(** [str p]: the string at [p].  [kernel] chooses between the conversions of
    [_printk], which skips those it does not know, and of [printf], for which
    they are errors ([None] here). *)
Fixpoint render (kernel : bool) (str : Z -> option (list Z)) (format val : list Z) : option (list Z) :=
  match format with
  | [] => Some []
  | c :: format =>
      if c =? 37 then
        match format with
        | [] => None
        | c :: format =>
            let arg (text : Z -> option (list Z)) :=
              match val with
              | [] => None
              | x :: val => t ← text x; rest ← render kernel str format val; Some (t ++ rest)
              end in
            if c =? 100 then arg (fun x => Some (number_text (va_int x) 10 0 true))
            else if c =? 120 then arg (fun x => Some (number_text (va_int x) 16 0 false))
            else if (c =? 112) && kernel then arg (fun x => Some ([48; 120] ++ number_text x 16 8 false))
            else if c =? 115 then arg (fun x => if x =? 0 then Some null_string else str x)
            else if c =? 99 then arg (fun x => Some [u8 x])
            else if c =? 37 then rest ← render kernel str format val; Some (37 :: rest)
            else if kernel then render kernel str format val else None
        end
      else rest ← render kernel str format val; Some (c :: rest)
  end.

(** The strings the format may use: in memory, apart from the [n] bytes at
    [buf], and short enough for the fuel. *)
Definition strings_ok (fuel : nat) (str : Z -> option (list Z)) (buf n : Z) (m : memory) : Prop :=
  forall p l, str p = Some l -> p <> 0 /\ string_at m p l /\ (length l < fuel)%nat
    /\ (p + Z.of_nat (length l) < buf \/ buf + n <= p).

Lemma string_at_frame m m' a l :
  (forall x, a <= x <= a + Z.of_nat (length l) -> m' x = m x) -> string_at m a l -> string_at m' a l.
Proof.
  intros H [Hb Hl]. split; [|done]. apply (bytes_at_ext m _ _ a); [|done]. intros i Hi. rewrite length_app in Hi. cbn in Hi.
  apply H. lia.
Qed.

Lemma strings_ok_wrote e fuel str pos n m m' l :
  wrote e m m' pos l -> Z.of_nat (length l) + e <= n -> strings_ok fuel str pos n m ->
  strings_ok fuel str (pos + Z.of_nat (length l)) (n - Z.of_nat (length l)) m'.
Proof.
  intros [_ F] Hn Hs p t Hp. destruct (Hs p t Hp) as (H0 & H1 & H2 & H3). split_and!; [done| |done|lia].
  apply (string_at_frame m); [|done]. intros x Hx. apply F. lia.
Qed.

Lemma put_string_spec fuel str pos x m t n :
  strings_ok fuel str pos n m -> (if x =? 0 then Some null_string else str x) = Some t -> Z.of_nat (length t) + 1 <= n ->
  exists m', put_string fuel pos x m = Some (pos + Z.of_nat (length t), m') /\ wrote 1 m m' pos t.
Proof.
  intros Hs Ht Hn. unfold put_string. destruct (Z.eqb_spec x 0) as [->|Hx].
  - injection Ht as <-. eexists. split; [reflexivity|]. destruct (put_bytes_wrote (null_string ++ [0]) pos m) as [H F].
    split; [by apply bytes_at_app in H as [H _]|]. intros y Hy. apply F. rewrite length_app. cbn in Hy |- *. lia.
  - destruct (Hs x t Ht) as (_ & Hst & Hl & Hd). destruct (strcpy_spec m t pos x fuel Hst Hl) as [E [Hb Hf]].
    set (m1 := memcpy pos x (S (length t)) m) in *.
    assert (forall y, ~ pos <= y < pos + Z.of_nat (length t) + 1 -> m1 y = m y) as Hfr.
    { intros y Hy. unfold m1. rewrite memcpy_spec.
      destruct (Z.leb_spec pos y), (Z.ltb_spec y (pos + Z.of_nat (S (length t)))); cbn; (done || lia). }
    assert (strlen fuel x m1 = Some (length t)) as El.
    { apply strlen_spec; [|done]. apply (string_at_frame m); [|done]. intros y Hy. apply Hfr. lia. }
    exists m1. rewrite E. cbn [mbind option_bind]. rewrite El. split; [done|]. split; [by apply bytes_at_app in Hb as [Hb _]|done].
Qed.

(** One conversion: [t] is written, the rest follows. *)
Lemma wrote_then e m m1 m' pos t rest :
  0 <= e -> wrote e m m1 pos t -> wrote e m1 m' (pos + Z.of_nat (length t)) rest -> wrote e m m' pos (t ++ rest).
Proof. apply wrote_app. Qed.

Section loops.
Context (fuel : nat) (str : Z -> option (list Z)).

(** The goal of both loops, for any way [run] to go through a format. *)
Definition prints (run : Z -> memory -> option (Z * memory)) (out : list Z) : Prop :=
  forall pos m, strings_ok fuel str pos (Z.of_nat (length out) + 1) m ->
  exists m', run pos m = Some (pos + Z.of_nat (length out), m') /\ wrote 1 m m' pos out.

(** Text written at once, then the rest. *)
Lemma prints_then (run rest : Z -> memory -> option (Z * memory)) (t out : list Z) :
  (forall pos m, strings_ok fuel str pos (Z.of_nat (length t) + 1) m ->
     exists m', run pos m = rest (pos + Z.of_nat (length t)) m' /\ wrote 1 m m' pos t) ->
  prints rest out -> prints run (t ++ out).
Proof.
  intros Hrun Hrest pos m Hs. rewrite length_app, Nat2Z.inj_add in Hs |- *.
  destruct (Hrun pos m) as (m1 & E1 & W1).
  { intros p l Hp. destruct (Hs p l Hp) as (H0 & H1 & H2 & H3). split_and!; try done. lia. }
  destruct (Hrest (pos + Z.of_nat (length t)) m1) as (m' & E' & W').
  { destruct W1 as [_ F]. intros p l Hp. destruct (Hs p l Hp) as (H0 & H1 & H2 & H3). split_and!; [done| |done|lia].
    apply (string_at_frame m); [|done]. intros y Hy. apply F. lia. }
  exists m'. rewrite E1, E'. split; [do 2 f_equal; lia|]. by eapply wrote_app.
Qed.

Lemma number_step a base width sign (k : Z -> memory -> option (Z * memory)) pos m :
  0 <= width ->
  exists m', (let '(n, m) := itoa a base (Some pos) width sign m in k (pos + n) m)
    = k (pos + Z.of_nat (length (number_text a base width sign))) m'
  /\ wrote 1 m m' pos (number_text a base width sign).
Proof.
  intros Hw. destruct (itoa_spec a base pos width sign m Hw) as (m' & E & W & _). exists m'. rewrite E. split; [done|].
  by apply (wrote_weaken 0).
Qed.

Lemma char_step c (k : Z -> memory -> option (Z * memory)) pos m :
  exists m', k (pos + 1) (upd m pos c) = k (pos + Z.of_nat (length [c])) m' /\ wrote 1 m m' pos [c].
Proof. eexists. split; [reflexivity|]. apply (wrote_weaken 0); [lia|apply wrote_one]. Qed.

Lemma printk_loop_spec n : forall format val out, (length format <= n)%nat ->
  render true str format val = Some out -> prints (printk_loop fuel format val) out.
Proof.
  induction n as [|n IH]; intros format val out Hlen Hr; (destruct format as [|c format]; [|cbn [length] in Hlen; try lia]).
  1, 2: injection Hr as <-; intros pos m _; exists m; rewrite Z.add_0_r; split; [done|by apply (wrote_weaken 0)].
  cbn [render] in Hr. cbn [printk_loop]. destruct (c =? 37).
  2: { apply bind_Some in Hr as (rest & Hr & [= <-]). change (c :: rest) with ([c] ++ rest).
       eapply prints_then; [|apply (IH format val rest); [lia|done]]. intros. apply (char_step c (printk_loop fuel format val)). }
  destruct format as [|c' format]; [done|]. cbn [length] in Hlen. cbv zeta in Hr.
  assert (forall val text, render true str format val = Some text -> prints (printk_loop fuel format val) text) as Hk.
  { intros v t. apply IH. lia. }
  destruct (c' =? 100); [|destruct (c' =? 120); [|destruct (c' =? 112); [|destruct (c' =? 115); [|destruct (c' =? 99);
    [|destruct (c' =? 37)]]]]]; cbn [andb] in Hr; try (destruct val as [|x val]; [done|]);
    try (apply bind_Some in Hr as (t & Ht & (rest & Hr & [= <-])%bind_Some)).
  - injection Ht as <-. eapply prints_then; [|by apply Hk]. intros pos m _. by apply number_step.
  - injection Ht as <-. eapply prints_then; [|by apply Hk]. intros pos m _. by apply number_step.
  - injection Ht as <-. eapply prints_then; [|by apply Hk]. intros pos m _.
    destruct (number_step x 16 8 false (printk_loop fuel format val) (pos + 2) (upd (upd m pos 48) (pos + 1) 120)) as (m' & E & W); [lia|].
    exists m'. rewrite E. split; [f_equal; cbn [length app]; lia|].
    eapply (wrote_app 1 m (upd (upd m pos 48) (pos + 1) 120) m' pos [48; 120]); [lia| |exact W].
    apply (wrote_weaken 0); [lia|]. eapply (wrote_app 0 m _ _ pos [48] [120]); [lia|apply wrote_one|apply wrote_one].
  - eapply prints_then; [|by apply Hk]. intros pos m Hs. destruct (put_string_spec fuel str pos x m t _ Hs Ht) as (m' & E & W); [lia|].
    exists m'. by rewrite E.
  - injection Ht as <-. eapply prints_then; [|by apply Hk]. intros pos m _. apply (char_step (u8 x) (printk_loop fuel format val)).
  - apply bind_Some in Hr as (rest & Hr & [= <-]). change (37 :: rest) with ([37] ++ rest).
    eapply prints_then; [|by apply Hk]. intros pos m _. apply (char_step 37 (printk_loop fuel format val)).
  - by apply Hk.
Qed.
End loops.

(** *** [printf] *)
Section printf.
Context (fuel : nat) (str : Z -> option (list Z)).

Lemma printf_fill_spec n : forall format val out, (length format <= n)%nat ->
  render false str format val = Some out -> prints fuel str (printf_fill fuel format val) out.
Proof.
  induction n as [|n IH]; intros format val out Hlen Hr; (destruct format as [|c format]; [|cbn [length] in Hlen; try lia]).
  1, 2: injection Hr as <-; intros pos m _; exists m; rewrite Z.add_0_r; split; [done|by apply (wrote_weaken 0)].
  cbn [render] in Hr. cbn [printf_fill]. destruct (c =? 37).
  2: { apply bind_Some in Hr as (rest & Hr & [= <-]). change (c :: rest) with ([c] ++ rest).
       eapply prints_then; [|apply (IH format val rest); [lia|done]]. intros. apply (char_step c (printf_fill fuel format val)). }
  destruct format as [|c' format]; [done|]. cbn [length] in Hlen. cbv zeta in Hr.
  assert (forall val text, render false str format val = Some text -> prints fuel str (printf_fill fuel format val) text) as Hk.
  { intros v t. apply IH. lia. }
  rewrite andb_false_r in Hr.
  destruct (c' =? 100); [|destruct (c' =? 120); [|destruct (c' =? 115); [|destruct (c' =? 99); [|destruct (c' =? 37); [|done]]]]];
    cbn [orb]; try (destruct val as [|x val]; [done|]);
    try (apply bind_Some in Hr as (t & Ht & (rest & Hr & [= <-])%bind_Some)).
  - injection Ht as <-. eapply prints_then; [|by apply Hk]. intros pos m _. by apply number_step.
  - injection Ht as <-. eapply prints_then; [|by apply Hk]. intros pos m _. by apply number_step.
  - eapply prints_then; [|by apply Hk]. intros pos m Hs. destruct (put_string_spec fuel str pos x m t _ Hs Ht) as (m' & E & W); [lia|].
    exists m'. by rewrite E.
  - injection Ht as <-. eapply prints_then; [|by apply Hk]. intros pos m _. apply (char_step (u8 x) (printf_fill fuel format val)).
  - apply bind_Some in Hr as (rest & Hr & [= <-]). change (37 :: rest) with ([37] ++ rest).
    eapply prints_then; [|by apply Hk]. intros pos m _. apply (char_step 37 (printf_fill fuel format val)).
Qed.

Lemma printf_len_spec n : forall format val out len m, (length format <= n)%nat ->
  (forall p l, str p = Some l -> p <> 0 /\ string_at m p l /\ (length l < fuel)%nat) ->
  render false str format val = Some out -> printf_len fuel format val len m = Some (inr (len + Z.of_nat (length out))).
Proof.
  induction n as [|n IH]; intros format val out len m Hlen Hs Hr; (destruct format as [|c format]; [|cbn [length] in Hlen; try lia]).
  1, 2: injection Hr as <-; cbn; do 2 f_equal; lia.
  cbn [render] in Hr. cbn [printf_len].
  assert (forall val text len, (length format <= S n)%nat -> render false str (tl format) val = Some text ->
    printf_len fuel (tl format) val len m = Some (inr (len + Z.of_nat (length text)))) as Hk.
  { intros v t l0 Hf. apply IH; [destruct format; cbn in *; lia|done]. }
  destruct (c =? 37).
  2: { apply bind_Some in Hr as (rest & Hr & [= <-]). rewrite (IH format val rest) by (done || lia). do 2 f_equal. cbn [length]. lia. }
  destruct format as [|c' format]; [done|]. cbn [length tl] in Hlen, Hk. cbv zeta in Hr. rewrite andb_false_r in Hr.
  specialize (fun v t l => Hk v t l ltac:(lia)).
  destruct (c' =? 100); [|destruct (c' =? 120); [|destruct (c' =? 115); [|destruct (c' =? 99); [|destruct (c' =? 37); [|done]]]]];
    cbn [orb]; try (destruct val as [|x val]; [done|]);
    try (apply bind_Some in Hr as (t & Ht & (rest & Hr & [= <-])%bind_Some)); try rewrite length_app, Nat2Z.inj_add.
  - injection Ht as <-. destruct (itoa_spec (va_int x) 10 0 0 true m) as (_ & _ & _ & ->); [lia|]. cbn [fst].
    rewrite (Hk val rest) by done. do 2 f_equal. lia.
  - injection Ht as <-. destruct (itoa_spec (va_int x) 16 0 0 false m) as (_ & _ & _ & ->); [lia|]. cbn [fst].
    rewrite (Hk val rest) by done. do 2 f_equal. lia.
  - destruct (Z.eqb_spec x 0) as [->|Hx].
    + injection Ht as <-. rewrite (Hk val rest) by done. do 2 f_equal. cbn [length null_string]. lia.
    + destruct (Hs x t Ht) as (_ & Hst & Hl). rewrite (strlen_spec m t) by done. cbn [mbind option_bind].
      rewrite (Hk val rest) by done. do 2 f_equal. lia.
  - injection Ht as <-. rewrite (Hk val rest) by done. do 2 f_equal. cbn [length]. lia.
  - apply bind_Some in Hr as (rest & Hr & [= <-]). rewrite (Hk val rest) by done. do 2 f_equal. cbn [length]. lia.
Qed.

(** C17: [printf] on a valid format returns the length of the text, and the buffer it
    allocated for it holds the text; one byte behind the buffer may be
    overwritten (the terminator of a string). *)
Theorem printf_correct format val out res m :
  render false str format val = Some out -> Z.of_nat (length out) < 2 ^ 31 ->
  strings_ok fuel str res (Z.of_nat (length out) + 1) m ->
  exists m', printf fuel res format val m = Some (Z.of_nat (length out), m') /\ wrote 1 m m' res out.
Proof.
  intros Hr Hl Hs. unfold printf. rewrite (printf_len_spec (length format) format val out) by (done || (intros p l Hp; by destruct (Hs p l Hp) as (? & ? & ? & _))).
  cbn [mbind option_bind]. destruct (printf_fill_spec (length format) format val out (le_n _) Hr res m Hs) as (m' & E & W).
  rewrite E. exists m'. split; [|done]. cbn [mbind option_bind]. do 2 f_equal. rewrite Z.add_0_l. unfold i32, swrap. rewrite Z.mod_small by lia. lia.
Qed.
End printf.

(** [_printk] puts the text of the format, terminated, into its buffer and
    touches nothing else, as long as the text fits. *)
Theorem printk_correct fuel str buf format val out m :
  render true str format val = Some out -> Z.of_nat (length out) < printk_buf_size ->
  strings_ok fuel str buf printk_buf_size m ->
  exists m', printk fuel buf format val m = Some m' /\ bytes_at m' buf (out ++ [0])
    /\ forall x, ~ buf <= x < buf + printk_buf_size -> m' x = m x.
Proof.
  intros Hr Hl Hs. destruct (printk_loop_spec fuel str (length format) format val out (le_n _) Hr buf m) as (m1 & E & [H F]).
  { intros p l Hp. destruct (Hs p l Hp) as (H0 & H1 & H2 & H3). split_and!; try done. lia. }
  unfold printk. rewrite E. cbn [mbind option_bind]. eexists. split; [done|]. split.
  - apply bytes_at_app. split; [|cbn; unfold upd; by rewrite Z.eqb_refl].
    apply (bytes_at_ext m1 _ _ buf); [|done]. intros i Hi. unfold upd. destruct (Z.eqb_spec (buf + i) (buf + Z.of_nat (length out))); [lia|done].
  - intros x Hx. unfold upd. destruct (Z.eqb_spec x (buf + Z.of_nat (length out))); [lia|]. apply F. lia.
Qed.

(** The number a text says. *)
Definition text_value (base : Z) (l : list Z) : Z :=
  match l with 45 :: l => - numeral_value base l | l => numeral_value base l end.

Lemma numeral_value_zeros base k l : numeral_value base (replicate k 48 ++ l) = numeral_value base l.
Proof. unfold numeral_value. rewrite foldl_app. f_equal. induction k as [|k IH]; [done|]. cbn. exact IH. Qed.

(** [itoa] writes the number it is given: digits of the base, behind a minus for
    negative signed numbers, padded with zeros to the width; asked for the length
    only, it answers the same. *)
Theorem itoa_correct a base p width sign m :
  2 <= base <= 16 -> 0 <= width -> - 2 ^ 63 <= a < 2 ^ 63 ->
  let text := number_text a base width sign in
  exists m', itoa a base (Some p) width sign m = (Z.of_nat (length text), m') /\ wrote 0 m m' p text
    /\ itoa a base None width sign m = (Z.of_nat (length text), m)
    /\ width <= Z.of_nat (length text) /\ text_value base text = if sign then a else u64 a.
Proof.
  intros Hb Hw Ha text. destruct (itoa_spec a base p width sign m Hw) as (m' & E1 & W & E2). exists m'.
  split; [done|]. split; [done|]. split; [done|]. unfold text, number_text. cbv zeta.
  set (x := u64 (if sign then if 0 <? a then a else - a else a)).
  assert (0 <= x < base ^ Z.of_nat 64) as Hx.
  { pose proof (u64_bound (if sign then if 0 <? a then a else - a else a)) as Hu. unfold is_u64 in Hu. fold x in Hu.
    split; [lia|]. change (Z.of_nat 64) with 64. pose proof (Z.pow_le_mono_l 2 base 64). lia. }
  pose proof (numeral_length 64 base x) as Hn. set (n := ndigits 64 base x) in *.
  destruct (numeral_correct 64 base x Hb Hx) as (V & L & D).
  assert (sign = true -> x = Z.abs a) as Habs.
  { intros ->. unfold x. rewrite u64_small; [|unfold is_u64]; destruct (Z.ltb_spec 0 a); lia. }
  assert (sign = false -> x = u64 a) as Huns by (intros ->; done).
  destruct (Z.eqb_spec n 0) as [En|En].
  - assert (x = 0) as Hx0. { rewrite <- V. destruct (numeral 64 base x); [done|cbn [length] in Hn; lia]. }
    split; [rewrite length_replicate; destruct (Z.eqb_spec width 0); lia|].
    set (w := Z.to_nat (if width =? 0 then 1 else width)). pose proof (numeral_value_zeros base w []) as Hz. rewrite app_nil_r in Hz.
    assert (text_value base (replicate w 48) = 0) as ->; [clearbody w; destruct w; [done|exact Hz]|].
    destruct sign; [rewrite Habs in Hx0 by done; lia|]. by rewrite <- Huns.
  - split; [rewrite !length_app, length_replicate; lia|].
    assert (forall l, (forall c t, l = c :: t -> c <> 45) -> text_value base l = numeral_value base l) as Hpos.
    { intros l Hl. destruct l as [|c l]; [done|]. specialize (Hl c l eq_refl). cbn [text_value].
      destruct c as [|c|c]; try done. repeat (destruct c as [c|c|]; try done). }
    assert (forall c t, replicate (Z.to_nat (width - n)) 48 ++ numeral 64 base x = c :: t -> c <> 45) as Hd.
    { assert (Forall (fun c => c <> 45) (replicate (Z.to_nat (width - n)) 48 ++ numeral 64 base x)) as Hf.
      { apply Forall_app. split; [by apply Forall_replicate|]. eapply Forall_impl; [exact D|]. intros c (d & Hd & ->).
        unfold digit. destruct (Z.ltb_spec d 10); lia. }
      intros c t E. rewrite E in Hf. by apply Forall_cons in Hf as [? _]. }
    destruct sign; rewrite ?andb_true_r, ?andb_false_r.
    + destruct (Z.ltb_spec a 0).
      * cbn [app text_value]. rewrite numeral_value_zeros, V, Habs by done. lia.
      * cbn [app]. rewrite Hpos, numeral_value_zeros, V, Habs by done. lia.
    + cbn [app]. rewrite Hpos, numeral_value_zeros, V by done. by apply Huns.
Qed.

(** ** Witnesses *)
(** "%s=%d" with the string "ab" at 10 and -42. *)
Definition ex_format : list Z := [37; 115; 61; 37; 100].
Definition ex_args : list Z := [10; 2 ^ 64 - 42].
Definition ex_str (p : Z) : option (list Z) := if p =? 10 then Some [97; 98] else None.

Lemma ex_strings buf n : 13 <= buf -> strings_ok 3 ex_str buf n ex_memory.
Proof.
  intros Hb p l. unfold ex_str. destruct (Z.eqb_spec p 10) as [->|]; [|done]. intros [= <-].
  split; [done|]. split; [split; [by cbn|repeat constructor; lia]|]. cbn [length]. lia.
Qed.

Lemma printf_correct_witness :
  exists m', printf 3 1000 ex_format ex_args ex_memory = Some (6, m') /\ wrote 1 ex_memory m' 1000 [97; 98; 61; 45; 52; 50].
Proof.
  apply (printf_correct 3 ex_str ex_format ex_args [97; 98; 61; 45; 52; 50] 1000 ex_memory); [reflexivity|reflexivity|].
  apply ex_strings. lia.
Defined.

Lemma printk_correct_witness :
  exists m', printk 3 1000 ex_format ex_args ex_memory = Some m' /\ bytes_at m' 1000 ([97; 98; 61; 45; 52; 50] ++ [0])
    /\ forall x, ~ 1000 <= x < 1000 + printk_buf_size -> m' x = ex_memory x.
Proof.
  apply (printk_correct 3 ex_str 1000 ex_format ex_args [97; 98; 61; 45; 52; 50] ex_memory); [reflexivity|reflexivity|].
  apply ex_strings. lia.
Defined.

Lemma itoa_correct_witness :
  let text := number_text (-42) 10 0 true in
  exists m', itoa (-42) 10 (Some 1000) 0 true ex_memory = (Z.of_nat (length text), m') /\ wrote 0 ex_memory m' 1000 text
    /\ itoa (-42) 10 None 0 true ex_memory = (Z.of_nat (length text), ex_memory)
    /\ 0 <= Z.of_nat (length text) /\ text_value 10 text = -42.
Proof. apply (itoa_correct (-42) 10 1000 0 true ex_memory); lia. Defined.
