(* ===== verification/Bits.v ===== *)
(** Bit-level helpers of the kernel: the alignment macros of
    [include/bitops.h], the error-pointer macros of [include/sys/err.h] and the
    page-table-entry accessors of [include/sys/mm.h] and
    [sys/mm/paging.c:get_pte_addr]. *)
From S2P Require Import Prelude.

Definition PAGE_SIZE_BIT : Z := 12.
Definition BIT (n : Z) : Z := u64 (Z.shiftl 1 n).
Definition PAGE_SIZE : Z := BIT PAGE_SIZE_BIT.
Definition KERN_VMBASE : Z := 0xffff808000000000.
Definition USER_BASE : Z := 0x400000.
Definition USER_TOP : Z := 0x7ffffffffffff000.
Definition PTE_P : Z := BIT 0.
Definition PTE_W : Z := BIT 1.
Definition PTE_U : Z := BIT 2.

Definition GET_BIT (a n : Z) : Z := Z.land a (BIT n).
Definition ALIGN_UP (x n : Z) : Z :=
  Z.land (u64 (u64 (x + BIT n) - 1)) (u64 (Z.lnot (u64 (BIT n - 1)))).
Definition ALIGN (x n : Z) : Z := Z.land x (u64 (Z.lnot (u64 (BIT n - 1)))).
Definition IS_ALIGNED (x n : Z) : bool := Z.land x (u64 (BIT n - 1)) =? 0.

(** [ERR_PTR], [PTR_ERR] and [PTR_IS_ERR]: a pointer is its 64-bit pattern, and
    the macros read it as a [long]. *)
Definition ERR_PTR (x : Z) : Z := u64 x.
Definition PTR_ERR (p : Z) : Z := i64 p.
Definition PTR_IS_ERR (p : Z) : bool := - PTR_ERR p <? 0xfff.

Definition phys_to_virt (x : Z) : Z := u64 (x + KERN_VMBASE).

(** ** Page table entries *)
Definition PTE_BASE_MASK : Z := 0xffffffffff000.

Definition pte_set_base (pte base : Z) (type : Z) : Z :=
  let clr := Z.land pte (u64 (Z.lnot PTE_BASE_MASK)) in
  let sanitized_base := Z.land base (u64 (Z.lnot 0xfff)) in
  let sanitized_base :=
    if type =? 1 then Z.land sanitized_base (u64 (Z.lnot 0x1fffff))
    else if type =? 2 then Z.land sanitized_base (u64 (Z.lnot 0x3fffffff))
    else sanitized_base in
  let out := Z.lor clr sanitized_base in
  if type =? 0 then out else Z.lor out (Z.shiftl 1 7).

Definition pte_get_base (pte : Z) : Z := Z.land pte PTE_BASE_MASK.

Definition pte_set_flags (pte flags : Z) : Z := Z.lor pte (Z.land flags 0xfff).

(** The loop [for (i = 0; i < 4-level; i++) res |= 0x100ull<<(39-9*i)]. *)
Fixpoint self_prefix (n : nat) : Z :=
  match n with
  | O => 0
  | S n => Z.lor (self_prefix n) (u64 (Z.shiftl 0x100 (39 - 9 * Z.of_nat n)))
  end.

Definition get_pte_addr (addr level : Z) : Z :=
  let addr := Z.land addr 0xffffffffffff in
  let res := self_prefix (Z.to_nat (4 - level)) in
  let addr := Z.shiftr addr 12 in
  let addr := if level <? 3 then Z.shiftr addr (9 * (3 - level) - 3)
              else u64 (Z.shiftl addr 3) in
  let res := Z.lor res (Z.land addr (u64 (Z.lnot 7))) in
  Z.lor res 0xffff000000000000.

(** Index of the level-[k] table (0: PML4 .. 3: PT) in an address, as
    [ptable_get_entry_4k] computes it. *)
Definition pt_index (vaddr k : Z) : Z := Z.land (Z.shiftr vaddr (39 - k * 9)) 0x1ff.

(** ** Facts about the masks *)
Lemma BIT_pow n : 0 <= n < 64 -> BIT n = 2 ^ n.
Proof.
  intros Hn. unfold BIT. rewrite Z.shiftl_1_l. apply u64_small.
  split; [by apply Z.pow_nonneg|apply Z.pow_lt_mono_r; lia].
Qed.

Lemma BIT_ones n : 0 <= n < 64 -> u64 (BIT n - 1) = Z.ones n.
Proof.
  intros Hn. rewrite BIT_pow by done. rewrite Z.ones_equiv, <- Z.sub_1_r.
  apply u64_small. split.
  - assert (0 < 2 ^ n) by (apply Z.pow_pos_nonneg; lia). lia.
  - assert (2 ^ n < 2 ^ 64) by (apply Z.pow_lt_mono_r; lia). lia.
Qed.

(** [~((1<<n)-1)] at 64 bits: ones from bit [n] up to bit 63. *)
Lemma not_ones_testbit n i :
  0 <= n <= 64 -> 0 <= i ->
  Z.testbit (u64 (Z.lnot (Z.ones n))) i = (n <=? i) && (i <? 64).
Proof.
  intros Hn Hi. unfold u64. rewrite wrap_testbit by lia.
  rewrite Z.lnot_spec, Z.testbit_ones_nonneg by lia.
  destruct (Z.ltb_spec i 64), (Z.ltb_spec i n), (Z.leb_spec n i); simpl; lia.
Qed.

Lemma land_not_ones x n :
  is_u64 x -> 0 <= n <= 64 ->
  Z.land x (u64 (Z.lnot (Z.ones n))) = Z.ldiff x (Z.ones n).
Proof.
  intros Hx Hn. apply Z.bits_inj'. intros i Hi.
  rewrite Z.land_spec, Z.ldiff_spec, not_ones_testbit by lia.
  rewrite Z.testbit_ones_nonneg by lia.
  destruct (Z.leb_spec n i), (Z.ltb_spec i n), (Z.ltb_spec i 64); simpl; try lia;
    rewrite ?andb_false_r, ?andb_true_r; try done.
  rewrite is_u64_high_bit; [done|done|lia].
Qed.

Lemma ldiff_ones x n : 0 <= n -> Z.ldiff x (Z.ones n) = x - x mod 2 ^ n.
Proof.
  intros Hn. rewrite Z.ldiff_ones_r, Z.shiftl_mul_pow2, Z.shiftr_div_pow2 by done.
  pose proof (Z.div_mod x (2 ^ n)). 
  assert (0 < 2 ^ n) by (apply Z.pow_pos_nonneg; lia). lia.
Qed.

Lemma ALIGN_eq x n : is_u64 x -> 0 <= n < 64 -> ALIGN x n = x - x mod 2 ^ n.
Proof.
  intros Hx Hn. unfold ALIGN. rewrite BIT_ones by done.
  rewrite land_not_ones by (done || lia). apply ldiff_ones. lia.
Qed.

Lemma ALIGN_bounds x n :
  is_u64 x -> 0 <= n < 64 -> ALIGN x n <= x < ALIGN x n + 2 ^ n /\ is_u64 (ALIGN x n).
Proof.
  intros Hx Hn. rewrite ALIGN_eq by done.
  assert (0 < 2 ^ n) by (apply Z.pow_pos_nonneg; lia).
  pose proof (Z.mod_pos_bound x (2 ^ n)).
  pose proof (Z.mod_le x (2 ^ n)). unfold is_u64 in *. lia.
Qed.

Lemma IS_ALIGNED_iff x n :
  0 <= n < 64 -> IS_ALIGNED x n = true <-> x mod 2 ^ n = 0.
Proof.
  intros Hn. unfold IS_ALIGNED. rewrite BIT_ones by done.
  rewrite Z.land_ones by lia. apply Z.eqb_eq.
Qed.

Lemma ALIGN_aligned x n : is_u64 x -> 0 <= n < 64 -> IS_ALIGNED (ALIGN x n) n = true.
Proof.
  intros Hx Hn. apply IS_ALIGNED_iff; [done|]. rewrite ALIGN_eq by done.
  assert (0 < 2 ^ n) by (apply Z.pow_pos_nonneg; lia).
  rewrite Zminus_mod_idemp_r. by rewrite Z.sub_diag.
Qed.

Lemma ALIGN_UP_eq x n :
  is_u64 x -> 0 <= n < 64 -> x + 2 ^ n <= 2 ^ 64 ->
  ALIGN_UP x n = (x + 2 ^ n - 1) - (x + 2 ^ n - 1) mod 2 ^ n.
Proof.
  intros Hx Hn Hov. unfold ALIGN_UP. rewrite BIT_ones, BIT_pow by done.
  assert (0 < 2 ^ n) by (apply Z.pow_pos_nonneg; lia).
  assert (u64 (u64 (x + 2 ^ n) - 1) = x + 2 ^ n - 1) as ->.
  { unfold u64, wrap. rewrite Zminus_mod_idemp_l.
    rewrite Z.mod_small; unfold is_u64 in *; lia. }
  unfold is_u64 in *. rewrite land_not_ones by (unfold is_u64; lia).
  apply ldiff_ones. lia.
Qed.

(** ** Error pointers *)
Lemma i64_cases p : is_u64 p -> i64 p = if p <? 2 ^ 63 then p else p - 2 ^ 64.
Proof.
  intros Hp. unfold i64, swrap, is_u64 in *. change (64 - 1) with 63.
  destruct (Z.ltb_spec p (2 ^ 63)).
  - rewrite Z.mod_small; lia.
  - replace (p + 2 ^ 63) with (p - 2 ^ 63 + 1 * 2 ^ 64) by lia.
    rewrite Z.mod_add by lia. rewrite Z.mod_small; lia.
Qed.

Lemma PTR_IS_ERR_iff p :
  is_u64 p -> PTR_IS_ERR p = true <-> p < 2 ^ 63 \/ 2 ^ 64 - 0xfff < p.
Proof.
  intros Hp. unfold PTR_IS_ERR, PTR_ERR. rewrite Z.ltb_lt, i64_cases by done.
  unfold is_u64 in Hp. destruct (Z.ltb_spec p (2 ^ 63)); lia.
Qed.

Lemma PTR_ERR_ERR_PTR e : - 2 ^ 63 <= e < 0 -> PTR_ERR (ERR_PTR e) = e.
Proof.
  intros He. unfold PTR_ERR, ERR_PTR. rewrite i64_cases by apply u64_bound.
  assert (u64 e = e + 2 ^ 64) as ->.
  { unfold u64, wrap. rewrite <- (Z.mod_add e 1) by lia. rewrite Z.mod_small; lia. }
  destruct (Z.ltb_spec (e + 2 ^ 64) (2 ^ 63)); lia.
Qed.

(** ** Page table entries *)
Lemma PTE_BASE_MASK_testbit i :
  0 <= i -> Z.testbit PTE_BASE_MASK i = (12 <=? i) && (i <? 52).
Proof.
  intros Hi. change PTE_BASE_MASK with (Z.shiftl (Z.ones 40) 12).
  rewrite Z.shiftl_spec by done.
  destruct (Z.leb_spec 12 i); simpl.
  - rewrite Z.testbit_ones_nonneg by lia.
    destruct (Z.ltb_spec (i - 12) 40), (Z.ltb_spec i 52); lia.
  - by rewrite Z.testbit_neg_r by lia.
Qed.

Lemma base_lor_small x c : 0 <= c < 4096 -> pte_get_base (Z.lor x c) = pte_get_base x.
Proof.
  intros Hc. apply Z.bits_inj'. intros i Hi. unfold pte_get_base. rewrite !Z.land_spec, Z.lor_spec, PTE_BASE_MASK_testbit by lia.
  destruct (Z.leb_spec 12 i); simpl; [|by rewrite !andb_false_r].
  assert (Z.testbit c i = false) as ->; [|by rewrite orb_false_r].
  rewrite <- (wrap_small 12 c) by done. rewrite wrap_testbit by lia. by destruct (Z.ltb_spec i 12); [lia|].
Qed.

(** Number of low bits a base address loses for each page size. *)
Definition pte_low_bits (type : Z) : Z :=
  if type =? 1 then 21 else if type =? 2 then 30 else 12.

Lemma pte_set_base_testbit pte base type i :
  0 <= i < 64 ->
  Z.testbit (pte_set_base pte base type) i =
    (negb ((12 <=? i) && (i <? 52)) && Z.testbit pte i)
    || ((pte_low_bits type <=? i) && Z.testbit base i)
    || (negb (type =? 0) && (i =? 7)).
Proof.
  intros Hi. unfold pte_set_base, pte_low_bits.
  assert (forall n, 0 <= n <= 64 ->
            Z.testbit (u64 (Z.lnot (Z.ones n))) i = (n <=? i)) as Hm.
  { intros n Hn. rewrite not_ones_testbit by lia.
    destruct (Z.ltb_spec i 64); [by rewrite andb_true_r|lia]. }
  assert (Z.testbit (u64 (Z.lnot PTE_BASE_MASK)) i = negb ((12 <=? i) && (i <? 52))) as Hc.
  { unfold u64. rewrite wrap_testbit, Z.lnot_spec, PTE_BASE_MASK_testbit by lia.
    by destruct (Z.ltb_spec i 64); [|lia]. }
  change 0xfff with (Z.ones 12). change 0x1fffff with (Z.ones 21).
  change 0x3fffffff with (Z.ones 30).
  assert (Z.testbit (Z.shiftl 1 7) i = (i =? 7)) as H7.
  { rewrite Z.shiftl_1_l, Z.pow2_bits_eqb by lia. apply Z.eqb_sym. }
  destruct (Z.eqb_spec type 0) as [->|H0]; simpl.
  { rewrite Z.lor_spec, !Z.land_spec, Hc, Hm by lia.
    rewrite orb_false_r. f_equal; apply andb_comm. }
  destruct (Z.eqb_spec type 1) as [->|H1]; simpl.
  { rewrite !Z.lor_spec, !Z.land_spec, Hc, !Hm, H7 by lia.
    destruct (Z.leb_spec 12 i), (Z.leb_spec 21 i); try lia; simpl;
    rewrite ?andb_true_r, ?andb_false_r; f_equal; f_equal; apply andb_comm. }
  destruct (Z.eqb_spec type 2) as [->|H2]; simpl.
  { rewrite !Z.lor_spec, !Z.land_spec, Hc, !Hm, H7 by lia.
    destruct (Z.leb_spec 12 i), (Z.leb_spec 30 i); try lia; simpl;
    rewrite ?andb_true_r, ?andb_false_r; f_equal; f_equal; apply andb_comm. }
  rewrite !Z.lor_spec, !Z.land_spec, Hc, !Hm, H7 by lia.
  f_equal. f_equal; apply andb_comm.
Qed.

Lemma pte_base_high base i : 0 <= base < 2 ^ 52 -> 52 <= i -> Z.testbit base i = false.
Proof.
  intros Hb Hi. rewrite <- (wrap_small 52 base Hb).
  rewrite wrap_testbit by lia. by destruct (Z.ltb_spec i 52); [lia|].
Qed.

(** reading back the base written into an entry gives the base rounded
    down to the page size, for all three page sizes. *)
Theorem pte_base_roundtrip (pte base type : Z)
  (Hpte : is_u64 pte) (Hbase : 0 <= base < 2 ^ 52) (Htype : 0 <= type <= 2) :
  pte_get_base (pte_set_base pte base type) = base - base mod 2 ^ pte_low_bits type
  /\ (forall i, i < 12 -> i <> 7 ->
       Z.testbit (pte_set_base pte base type) i = Z.testbit pte i)
  /\ (forall i, 52 <= i < 64 ->
       Z.testbit (pte_set_base pte base type) i = Z.testbit pte i).
Proof.
  assert (12 <= pte_low_bits type <= 30).
  { unfold pte_low_bits. case_ifs; lia. }
  split_and!.
  - rewrite <- ldiff_ones by lia. apply Z.bits_inj'. intros i Hi.
    unfold pte_get_base. rewrite Z.land_spec, PTE_BASE_MASK_testbit by lia.
    rewrite Z.ldiff_spec, Z.testbit_ones_nonneg by lia.
    destruct (decide (i < 52)).
    + rewrite pte_set_base_testbit by lia. zcases.
    + rewrite (pte_base_high base) by lia. zcases.
  - intros i Hi Hi7. destruct (decide (i < 0)).
    { by rewrite !Z.testbit_neg_r by lia. }
    rewrite pte_set_base_testbit by lia.
    zcases.
  - intros i Hi. rewrite pte_set_base_testbit by lia.
    rewrite (pte_base_high base) by lia.
    zcases.
Qed.

Lemma pte_base_roundtrip_witness :
  is_u64 0x8000000000000003
  /\ pte_get_base (pte_set_base 0x8000000000000003 0x12345678 1) = 0x12200000.
Proof.
  split; [by vm_compute|].
  refine (proj1 (pte_base_roundtrip 0x8000000000000003 0x12345678 1 _ _ _)); by vm_compute.
Defined.

(** ** The self-mapping slot *)
Lemma self_prefix_testbit n i :
  (n <= 4)%nat -> 0 <= i ->
  Z.testbit (self_prefix n) i =
    existsb (fun k => i =? 47 - 9 * Z.of_nat k) (seq 0 n).
Proof.
  intros Hn Hi. induction n as [|n IH]; cbn [self_prefix].
  - by rewrite Z.testbit_0_l.
  - rewrite Z.lor_spec, IH by lia. rewrite seq_S, existsb_app. simpl.
    f_equal. rewrite orb_false_r.
    rewrite u64_small.
    + change 0x100 with (2 ^ 8). rewrite Z.shiftl_mul_pow2, <- Z.pow_add_r by lia.
      rewrite Z.pow2_bits_eqb by lia.
      destruct (Z.eqb_spec (8 + (39 - 9 * Z.of_nat n)) i),
        (Z.eqb_spec i (47 - 9 * Z.of_nat n)); lia.
    + change 0x100 with (2 ^ 8). rewrite Z.shiftl_mul_pow2, <- Z.pow_add_r by lia.
      split; [by apply Z.pow_nonneg|apply Z.pow_lt_mono_r; lia].
Qed.

Lemma land_ones_testbit x n i :
  0 <= n -> 0 <= i -> Z.testbit (Z.land x (Z.ones n)) i = Z.testbit x i && (i <? n).
Proof. intros. by rewrite Z.land_spec, Z.testbit_ones_nonneg. Qed.

(** Bits of the entry address: the self-mapping prefix in bits 12..47, the
    shifted page-table path below, sign extension above. *)
Lemma get_pte_addr_testbit addr level i :
  0 <= level <= 3 -> 0 <= i < 64 ->
  Z.testbit (get_pte_addr addr level) i =
    existsb (fun k => i =? 47 - 9 * Z.of_nat k) (seq 0 (Z.to_nat (4 - level)))
    || ((3 <=? i) && (i <? 12 + 9 * level)
        && Z.testbit addr (i + 36 - 9 * level))
    || (48 <=? i).
Proof.
  intros Hl Hi. unfold get_pte_addr.
  change 0xffff000000000000 with (Z.shiftl (Z.ones 16) 48).
  change 0xffffffffffff with (Z.ones 48). change 7 with (Z.ones 3).
  rewrite !Z.lor_spec, self_prefix_testbit by lia.
  rewrite Z.land_spec, not_ones_testbit by lia.
  f_equal; [f_equal|].
  - destruct (Z.ltb_spec level 3).
    + rewrite !Z.shiftr_spec by lia. rewrite land_ones_testbit by lia.
      replace (i + (9 * (3 - level) - 3) + 12) with (i + 36 - 9 * level) by lia.
      zcases. all: by rewrite andb_comm.
    + assert (level = 3) as -> by lia. unfold u64.
      destruct (Z.leb_spec 3 i); [|by rewrite andb_false_r].
      rewrite wrap_testbit, Z.shiftl_spec, Z.shiftr_spec, land_ones_testbit by lia.
      replace (i - 3 + 12) with (i + 36 - 9 * 3) by lia. zcases.
  - rewrite Z.shiftl_spec by lia. destruct (Z.leb_spec 48 i).
    + rewrite Z.testbit_ones_nonneg by lia. zcases.
    + by rewrite Z.testbit_neg_r by lia.
Qed.

Lemma pt_index_testbit v k i :
  0 <= k <= 3 -> 0 <= i ->
  Z.testbit (pt_index v k) i = (i <? 9) && Z.testbit v (i + (39 - k * 9)).
Proof.
  intros Hk Hi. unfold pt_index. change 0x1ff with (Z.ones 9).
  rewrite land_ones_testbit, Z.shiftr_spec by lia. by rewrite andb_comm.
Qed.

Lemma self_index_testbit i : 0 <= i -> Z.testbit 256 i = (i =? 8).
Proof. intros. change 256 with (2 ^ 8). rewrite Z.pow2_bits_eqb by lia. apply Z.eqb_sym. Qed.

Ltac level_cases level :=
  let H := fresh in
  assert (level = 0 \/ level = 1 \/ level = 2 \/ level = 3) as H by lia;
  destruct H as [H | [H | [H | H]]]; subst level.

(** the address [get_pte_addr] builds goes through the self-mapping slot 256
    [4-level] times and then follows the page-table path of [addr]; its offset
    inside the page is eight times the index of the level-[level] entry, so the
    address names exactly that entry. *)
Theorem get_pte_addr_path (addr level : Z) (Hl : 0 <= level <= 3) :
  (forall k, 0 <= k < 4 - level -> pt_index (get_pte_addr addr level) k = 256)
  /\ (forall k, 4 - level <= k <= 3 ->
        pt_index (get_pte_addr addr level) k = pt_index addr (k - (4 - level)))
  /\ Z.land (get_pte_addr addr level) 0xfff = 8 * pt_index addr level.
Proof.
  split_and!.
  - intros k Hk. apply Z.bits_inj'. intros i Hi.
    rewrite pt_index_testbit, self_index_testbit by lia.
    destruct (Z.ltb_spec i 9); simpl; [|zcases].
    rewrite get_pte_addr_testbit by lia.
    level_cases level; level_cases k; try lia; simpl; zcases.
  - intros k Hk. apply Z.bits_inj'. intros i Hi.
    rewrite !pt_index_testbit by lia.
    destruct (Z.ltb_spec i 9); simpl; [|done].
    rewrite get_pte_addr_testbit by lia.
    level_cases level; level_cases k; try lia; simpl; zcases; f_equal; lia.
  - apply Z.bits_inj'. intros i Hi.
    change 0xfff with (Z.ones 12). rewrite land_ones_testbit by lia.
    rewrite (Z.mul_comm 8). change 8 with (2 ^ 3).
    rewrite Z.mul_pow2_bits by lia.
    destruct (Z.ltb_spec i 3).
    { rewrite (Z.testbit_neg_r _ (i - 3)) by lia. rewrite get_pte_addr_testbit by lia.
      level_cases level; simpl; zcases. }
    rewrite pt_index_testbit by lia.
    destruct (Z.ltb_spec i 12); [|zcases].
    rewrite get_pte_addr_testbit by lia.
    level_cases level; simpl; zcases; f_equal; lia.
Qed.

Lemma get_pte_addr_path_witness :
  pt_index (get_pte_addr 0x7fff12345000 3) 0 = 256
  /\ Z.land (get_pte_addr 0x7fff12345000 3) 0xfff = 8 * pt_index 0x7fff12345000 3.
Proof.
  destruct (get_pte_addr_path 0x7fff12345000 3) as (H1 & _ & H3); [lia|].
  split; [by apply H1|exact H3].
Defined.
