(* ===== verification/Splay.v ===== *)
(** The top-down splay tree of [sys/lib/splay.c].

    A tree of [struct splay_node] is the inductive [tree] ([Leaf] is NULL).
    [splay] keeps two chains of nodes hanging off [tmp_root]: [l], the nodes
    smaller than the key, extended on the right, and [r], the larger ones,
    extended on the left.  A chain is a list of its nodes with the open child
    left out, the node the C variable points at first. *)
From stdpp Require Import sorting.
From S2P Require Import Prelude.

Inductive tree (A : Type) : Type :=
| Leaf
| Node (left : tree A) (data : A) (right : tree A).
Arguments Leaf {A}.
Arguments Node {A} _ _ _.

Fixpoint inorder {A} (t : tree A) : list A :=
  match t with
  | Leaf => []
  | Node l d r => inorder l ++ d :: inorder r
  end.

(** What the callers promise of their comparison function: it orders the data
    up to the equality "compares 0". *)
Class SplayCmp {A : Type} (cmp : A -> A -> Z) : Prop := {
  cmp_refl x : cmp x x = 0;
  cmp_antisym x y : cmp x y < 0 <-> 0 < cmp y x;
  cmp_lt_trans x y z : cmp x y < 0 -> cmp y z < 0 -> cmp x z < 0;
  cmp_eq_l x y z : cmp x y = 0 -> cmp y z < 0 -> cmp x z < 0;
  cmp_eq_r x y z : cmp x y < 0 -> cmp y z = 0 -> cmp x z < 0;
}.

Section splay.
Context {A : Type} (cmp : A -> A -> Z).

(** The nodes of the left chain [l]: each keeps its left child and data. *)
Definition lchain : Type := list (tree A * A).
(** The nodes of the right chain [r]: each keeps its data and right child. *)
Definition rchain : Type := list (A * tree A).

(** [l->right = x] followed by reading [tmp_root.right]. *)
Fixpoint close_l (l : lchain) (x : tree A) : tree A :=
  match l with
  | [] => x
  | (ll, d) :: l => close_l l (Node ll d x)
  end.

(** [r->left = x] followed by reading [tmp_root.left]. *)
Fixpoint close_r (r : rchain) (x : tree A) : tree A :=
  match r with
  | [] => x
  | (d, rr) :: r => close_r r (Node x d rr)
  end.

(** The four assignments after the loop. *)
Definition assemble (l : lchain) (r : rchain) (tl : tree A) (d : A) (tr : tree A) : tree A :=
  Node (close_l l tl) d (close_r r tr).

(** The loop of [splay], [t] being the current node. *)
Fixpoint splay_loop (data : A) (t : tree A) (l : lchain) (r : rchain) : tree A :=
  match t with
  | Leaf => Leaf
  | Node tl d tr =>
      if cmp data d <? 0 then
        match tl with
        | Leaf => assemble l r tl d tr
        | Node tll tld tlr =>
            if cmp data tld <? 0 then
              (* rotate right *)
              match tll with
              | Leaf => assemble l r tll tld (Node tlr d tr)
              | Node _ _ _ => splay_loop data tll l ((tld, Node tlr d tr) :: r)
              end
            else splay_loop data tl l ((d, tr) :: r)
        end
      else if 0 <? cmp data d then
        match tr with
        | Leaf => assemble l r tl d tr
        | Node trl trd trr =>
            if 0 <? cmp data trd then
              (* rotate left *)
              match trr with
              | Leaf => assemble l r (Node tl d trl) trd trr
              | Node _ _ _ => splay_loop data trr ((Node tl d trl, trd) :: l) r
              end
            else splay_loop data tr ((tl, d) :: l) r
        end
      else assemble l r tl d tr
  end.

Definition splay (data : A) (t : tree A) : tree A := splay_loop data t [] [].

(** The operations return the [void *] result ([None] is NULL) and the new
    [s->root]. *)
Definition splay_insert (root : tree A) (data : A) : option A * tree A :=
  match root with
  | Leaf => (None, Node Leaf data Leaf)
  | Node _ _ _ =>
      match splay data root with
      | Leaf => (None, Leaf)
      | Node l d r as t =>
          if cmp data d =? 0 then (Some d, t)
          else if cmp data d <? 0 then (None, Node l data (Node Leaf d r))
          else if 0 <? cmp data d then (None, Node (Node l d Leaf) data r)
          else (None, t)
      end
  end.

Definition splay_delete (root : tree A) (data : A) : option A * tree A :=
  match root with
  | Leaf => (None, root)
  | Node _ _ _ =>
      match splay data root with
      | Leaf => (None, Leaf)
      | Node l d r as t =>
          if cmp data d =? 0 then
            match l with
            | Leaf => (Some d, r)
            | Node _ _ _ =>
                match splay data l with
                | Leaf => (Some d, Leaf)
                | Node ll ld lr => (Some d, Node ll ld r)
                end
            end
          else (None, t)
      end
  end.

Definition splay_prev (root : tree A) (data : A) : option A * tree A :=
  match root with
  | Leaf => (None, root)
  | Node _ _ _ =>
      match splay data root with
      | Leaf => (None, Leaf)
      | Node l d r as t =>
          if 0 <=? cmp data d then
            match l with
            | Leaf => (None, t)
            | Node _ _ _ =>
                match splay data l with
                | Leaf => (None, Node Leaf d r)
                | Node ll ld lr => (Some ld, Node (Node ll ld lr) d r)
                end
            end
          else (Some d, t)
      end
  end.

Definition splay_next (root : tree A) (data : A) : option A * tree A :=
  match root with
  | Leaf => (None, root)
  | Node _ _ _ =>
      match splay data root with
      | Leaf => (None, Leaf)
      | Node l d r as t =>
          if cmp data d <=? 0 then
            match r with
            | Leaf => (None, t)
            | Node _ _ _ =>
                match splay data r with
                | Leaf => (None, Node l d Leaf)
                | Node rl rd rr => (Some rd, Node l d (Node rl rd rr))
                end
            end
          else (Some d, t)
      end
  end.

Definition splay_find (root : tree A) (data : A) : option A * tree A :=
  match root with
  | Leaf => (None, root)
  | Node _ _ _ =>
      match splay data root with
      | Leaf => (None, Leaf)
      | Node l d r as t => if cmp data d =? 0 then (Some d, t) else (None, t)
      end
  end.

(** [splay_new]: the root of a fresh [struct splay]. *)
Definition splay_new : tree A := Leaf.
End splay.

(** ** Correctness *)
Section splay_facts.
Context {A : Type} (cmp : A -> A -> Z) `{!SplayCmp cmp}.

Definition lt (x y : A) : Prop := cmp x y < 0.
Definition ordered (t : tree A) : Prop := StronglySorted lt (inorder t).

Definition nodes_l (l : lchain) : list A :=
  foldr (fun n acc => acc ++ inorder n.1 ++ [n.2]) [] l.
Definition nodes_r (r : rchain) : list A :=
  foldr (fun n acc => n.1 :: inorder n.2 ++ acc) [] r.

Lemma inorder_close_l l x : inorder (close_l l x) = nodes_l l ++ inorder x.
Proof.
  revert x. induction l as [|[ll d] l IH]; intros x; simpl; [done|].
  rewrite IH. simpl. by rewrite <- !app_assoc.
Qed.

Lemma inorder_close_r r x : inorder (close_r r x) = inorder x ++ nodes_r r.
Proof.
  revert x. induction r as [|[d rr] r IH]; intros x; simpl; [by rewrite app_nil_r|].
  rewrite IH. simpl. by rewrite <- !app_assoc.
Qed.

(** Where the node [splay] leaves at the root stands with respect to the key:
    it matches, or no node lies strictly between it and the key. *)
Definition root_near (data : A) (t : tree A) : Prop :=
  match t with
  | Leaf => False
  | Node l d r =>
      cmp data d = 0
      \/ (lt data d /\ Forall (fun x => lt x data) (inorder l))
      \/ (lt d data /\ Forall (lt data) (inorder r))
  end.

Fixpoint tree_size (t : tree A) : nat :=
  match t with Leaf => O | Node l _ r => S (tree_size l + tree_size r) end.

Lemma cmp_pos x y : 0 < cmp x y -> lt y x.
Proof. intros H. by apply cmp_antisym. Qed.

Lemma ordered_node l d r :
  ordered (Node l d r) ->
  ordered l /\ ordered r /\ Forall (fun x => lt x d) (inorder l) /\ Forall (lt d) (inorder r).
Proof.
  unfold ordered. simpl. intros H. split_and!.
  - by eapply StronglySorted_app_1_l.
  - apply StronglySorted_app_1_r, StronglySorted_inv in H. tauto.
  - apply Forall_forall. intros x Hx. eapply (StronglySorted_app_1_elem_of _ _ _ x d); eauto.
    apply elem_of_cons; by left.
  - apply StronglySorted_app_1_r, StronglySorted_inv in H. tauto.
Qed.

Lemma ordered_eq t t' : inorder t = inorder t' -> ordered t -> ordered t'.
Proof. unfold ordered. by intros ->. Qed.

Lemma lt_trans x y z : lt x y -> lt y z -> lt x z.
Proof. apply cmp_lt_trans. Qed.

Lemma lt_irrefl x : ~ lt x x.
Proof. unfold lt. rewrite cmp_refl. lia. Qed.

Lemma Forall_lt_trans x y l : lt x y -> Forall (lt y) l -> Forall (lt x) l.
Proof. intros Hxy Hl. eapply Forall_impl; [exact Hl|]. intros z. by apply lt_trans. Qed.

Lemma Forall_gt_trans x y l :
  lt x y -> Forall (fun z => lt z x) l -> Forall (fun z => lt z y) l.
Proof. intros Hxy Hl. eapply Forall_impl; [exact Hl|]. intros z Hz. by apply (lt_trans z x y). Qed.

(** One lemma carries the loop: contents, and position of the final root. *)
Lemma splay_loop_spec data n t l r :
  (tree_size t <= n)%nat -> t <> Leaf -> ordered t ->
  Forall (fun x => lt x data) (nodes_l l) -> Forall (lt data) (nodes_r r) ->
  inorder (splay_loop cmp data t l r) = nodes_l l ++ inorder t ++ nodes_r r
  /\ root_near data (splay_loop cmp data t l r).
Proof.
  revert t l r. induction n as [|n IH]; intros t l r Hn Ht Ho Hl Hr.
  { destruct t; simpl in *; [done|lia]. }
  destruct t as [|tl d tr]; [done|].
  pose proof (ordered_node _ _ _ Ho) as (Hol & Hor & Hlt & Hgt).
  assert (forall tl' d' tr',
    inorder (assemble l r tl' d' tr') = nodes_l l ++ (inorder tl' ++ d' :: inorder tr') ++ nodes_r r)
    as Hasm.
  { intros. unfold assemble. simpl.
    rewrite inorder_close_l, inorder_close_r, <- !app_assoc. done. }
  simpl in Hn. simpl splay_loop.
  destruct (Z.ltb_spec (cmp data d) 0) as [Hc|Hc].
  - destruct tl as [|tll tld tlr].
    { split; [by rewrite Hasm|]. right. left. split; [done|].
      by rewrite inorder_close_l, app_nil_r. }
    pose proof (ordered_node _ _ _ Hol) as (Holl & _ & Hltl & Hgtl).
    simpl in Hlt. apply Forall_app in Hlt as [_ Hlt]. apply Forall_cons in Hlt as [Htd Hlt].
    destruct (Z.ltb_spec (cmp data tld) 0) as [Hc2|Hc2].
    + assert (Forall (lt data) (nodes_r ((tld, Node tlr d tr) :: r))) as Hr'.
      { simpl. constructor; [done|]. rewrite <- app_assoc. apply Forall_app.
        split; [eauto using Forall_lt_trans|]. constructor; [done|].
        apply Forall_app. split; [eauto using Forall_lt_trans|done]. }
      destruct tll as [|a b c] eqn:E.
      * split; [rewrite Hasm; by list_norm|].
        right. left. split; [done|]. by rewrite inorder_close_l, app_nil_r.
      * rewrite <- E in *. destruct (IH tll l ((tld, Node tlr d tr) :: r)) as [H1 H2]; auto.
        { rewrite E in Hn |- *. simpl in *. lia. } { by rewrite E. }
        split; [|done]. rewrite H1. by list_norm.
    + destruct (IH (Node tll tld tlr) l ((d, tr) :: r)) as [H1 H2]; auto.
      { simpl in *. lia. }
      { simpl. constructor; [done|]. apply Forall_app. split; [|done].
        eauto using Forall_lt_trans. }
      split; [|done]. rewrite H1. by list_norm.
  - destruct (Z.ltb_spec 0 (cmp data d)) as [Hc1|Hc1]; [|split].
    + pose proof (cmp_pos _ _ Hc1) as Hc1'.
      destruct tr as [|trl trd trr].
      { split; [by rewrite Hasm|]. right. right. split; [done|].
        by rewrite inorder_close_r. }
      pose proof (ordered_node _ _ _ Hor) as (_ & Horr & Hltr & Hgtr).
      simpl in Hgt. apply Forall_app in Hgt as [Hgt Hgt2].
      apply Forall_cons in Hgt2 as [Htd Hgt2].
      destruct (Z.ltb_spec 0 (cmp data trd)) as [Hc2|Hc2].
      * pose proof (cmp_pos _ _ Hc2) as Hc2'.
        assert (Forall (fun x => lt x data) (nodes_l ((Node tl d trl, trd) :: l))) as Hl'.
        { simpl. apply Forall_app. split; [done|]. apply Forall_app.
          split; [|by constructor]. apply Forall_app. split; [eauto using Forall_gt_trans|].
          constructor; [done|]. eauto using Forall_gt_trans. }
        destruct trr as [|a b c] eqn:E.
        -- split; [rewrite Hasm; by list_norm|].
           right. right. split; [done|]. by rewrite inorder_close_r.
        -- rewrite <- E in *. destruct (IH trr ((Node tl d trl, trd) :: l) r) as [H1 H2]; auto.
           { rewrite E in Hn |- *. simpl in *. lia. } { by rewrite E. }
           split; [|done]. rewrite H1. by list_norm.
      * destruct (IH (Node trl trd trr) ((tl, d) :: l) r) as [H1 H2]; auto.
        { simpl in *. lia. }
        { simpl. apply Forall_app. split; [done|]. apply Forall_app.
          split; [|by constructor]. eauto using Forall_gt_trans. }
        split; [|done]. rewrite H1. by list_norm.
    + by rewrite Hasm.
    + left. lia.
Qed.

Lemma splay_spec data t :
  ordered t -> t <> Leaf ->
  exists l d r, splay cmp data t = Node l d r
    /\ inorder t = inorder l ++ d :: inorder r
    /\ ordered (Node l d r) /\ root_near data (Node l d r).
Proof.
  intros Ho Ht.
  destruct (splay_loop_spec data (tree_size t) t [] []) as [H1 H2]; try done.
  fold (splay cmp data t) in *. simpl in H1. rewrite app_nil_r in H1.
  destruct (splay cmp data t) as [|l d r] eqn:E; [done|].
  exists l, d, r. split_and!; [done|by rewrite <- H1| |done].
  unfold ordered in *. by rewrite H1.
Qed.

(** If every node is below the key, the root has no right child. *)
Lemma splay_below data t :
  ordered t -> t <> Leaf -> Forall (fun x => lt x data) (inorder t) ->
  exists l d, splay cmp data t = Node l d Leaf /\ inorder t = inorder l ++ [d].
Proof.
  intros Ho Ht Hall.
  destruct (splay_spec data t Ho Ht) as (l & d & r & E & Hin & Ho' & Hnear).
  rewrite Hin in Hall. apply Forall_app in Hall as [Hl Hall].
  apply Forall_cons in Hall as [Hd Hr].
  assert (inorder r = []) as Hnil.
  { destruct Hnear as [Hn|[[Hn _]|[_ Hn]]].
    - unfold lt in Hd. pose proof (cmp_eq_l _ _ _ Hn Hd). rewrite cmp_refl in H. lia.
    - unfold lt in *. pose proof (cmp_lt_trans _ _ _ Hn Hd). rewrite cmp_refl in H. lia.
    - destruct (inorder r) as [|x xs]; [done|].
      apply Forall_cons in Hr as [Hr _]. apply Forall_cons in Hn as [Hn _].
      unfold lt in *. pose proof (cmp_lt_trans _ _ _ Hr Hn). rewrite cmp_refl in H. lia. }
  destruct r as [|rl rd rr]; [|simpl in Hnil; by destruct (inorder rl)].
  exists l, d. by rewrite E, Hin.
Qed.

Lemma splay_above data t :
  ordered t -> t <> Leaf -> Forall (lt data) (inorder t) ->
  exists d r, splay cmp data t = Node Leaf d r /\ inorder t = d :: inorder r.
Proof.
  intros Ho Ht Hall.
  destruct (splay_spec data t Ho Ht) as (l & d & r & E & Hin & Ho' & Hnear).
  rewrite Hin in Hall. apply Forall_app in Hall as [Hl Hall].
  apply Forall_cons in Hall as [Hd Hr].
  assert (inorder l = []) as Hnil.
  { destruct Hnear as [Hn|[[_ Hn]|[Hn _]]].
    - unfold lt in Hd. lia.
    - destruct (inorder l) as [|x xs]; [done|].
      apply Forall_cons in Hl as [Hl _]. apply Forall_cons in Hn as [Hn _].
      unfold lt in *. pose proof (cmp_lt_trans _ _ _ Hl Hn). rewrite cmp_refl in H. lia.
    - unfold lt in *. pose proof (cmp_lt_trans _ _ _ Hn Hd). rewrite cmp_refl in H. lia. }
  destruct l as [|rl rd rr]; [|simpl in Hnil; by destruct (inorder rl)].
  exists d, r. by rewrite E, Hin.
Qed.

Lemma ordered_below_root l d r data :
  ordered (Node l d r) -> cmp data d = 0 ->
  Forall (fun x => lt x data) (inorder l) /\ Forall (lt data) (inorder r).
Proof.
  intros (_ & _ & Hl & Hr)%ordered_node He. split.
  - eapply Forall_impl; [exact Hl|]. intros x Hx.
    apply (cmp_eq_r x d data); [done|].
    destruct (Z.lt_trichotomy (cmp d data) 0) as [H|[H|H]]; [|done|].
    + apply cmp_antisym in H. lia.
    + apply cmp_antisym in H. lia.
  - eapply Forall_impl; [exact Hr|]. intros x Hx. by apply (cmp_eq_l data d x).
Qed.

Lemma ordered_cut l1 l2 data :
  StronglySorted lt (l1 ++ l2) -> Forall (fun x => lt x data) l1 -> Forall (lt data) l2 ->
  StronglySorted lt (l1 ++ data :: l2).
Proof.
  intros H H1 H2. induction l1 as [|x l1 IH]; simpl in *.
  - by constructor.
  - apply StronglySorted_inv in H as [H Hx]. apply Forall_cons in H1 as [H1 H1'].
    constructor; [by apply IH|]. apply Forall_app in Hx as [Hx1 Hx2].
    apply Forall_app; split; [done|]. constructor; [done|]. done.
Qed.

Lemma ordered_drop l1 x l2 : StronglySorted lt (l1 ++ x :: l2) -> StronglySorted lt (l1 ++ l2).
Proof.
  induction l1 as [|y l1 IH]; simpl; intros H; apply StronglySorted_inv in H as [H Hx]; [done|].
  constructor; [by apply IH|]. rewrite Forall_app, Forall_cons in Hx.
  apply Forall_app. tauto.
Qed.

(** What the operations promise, on the in-order contents. *)
Definition inserted (data : A) (before after : list A) (ret : option A) : Prop :=
  match ret with
  | Some e => cmp data e = 0 /\ e ∈ before /\ after = before
  | None => (exists l1 l2, before = l1 ++ l2 /\ after = l1 ++ data :: l2)
            /\ Forall (fun x => cmp data x <> 0) before
  end.

Definition deleted (data : A) (before after : list A) (ret : option A) : Prop :=
  match ret with
  | Some e => cmp data e = 0 /\ exists l1 l2, before = l1 ++ e :: l2 /\ after = l1 ++ l2
  | None => Forall (fun x => cmp data x <> 0) before /\ after = before
  end.

(** The greatest element below [data], resp. the least above it. *)
Definition is_prev (data : A) (els : list A) (ret : option A) : Prop :=
  match ret with
  | Some p => p ∈ els /\ lt p data /\ Forall (fun x => lt x data -> x = p \/ lt x p) els
  | None => Forall (fun x => ~ lt x data) els
  end.
Definition is_next (data : A) (els : list A) (ret : option A) : Prop :=
  match ret with
  | Some p => p ∈ els /\ lt data p /\ Forall (fun x => lt data x -> x = p \/ lt p x) els
  | None => Forall (fun x => ~ lt data x) els
  end.
Lemma leaf_case (t : tree A) :
  t = Leaf \/ (t <> Leaf /\ forall B (x y : B), match t with Leaf => x | Node _ _ _ => y end = y).
Proof. destruct t; [by left|by right]. Qed.

Definition present (data : A) (els : list A) : Prop := Exists (fun x => cmp data x = 0) els.

Lemma below_not_eq data l : Forall (fun x => lt x data) l -> Forall (fun x => cmp data x <> 0) l.
Proof.
  intros H. eapply Forall_impl; [exact H|]. intros x Hx He.
  apply cmp_antisym in Hx. lia.
Qed.

Lemma above_not_eq data l : Forall (lt data) l -> Forall (fun x => cmp data x <> 0) l.
Proof. intros H. eapply Forall_impl; [exact H|]. unfold lt. intros x Hx. lia. Qed.

(** When the key differs from the root, every node is on its proper side. *)
Lemma splay_absent data l d r :
  ordered (Node l d r) -> root_near data (Node l d r) -> cmp data d <> 0 ->
  Forall (fun x => cmp data x <> 0) (inorder (Node l d r)) /\
  ((lt data d /\ Forall (fun x => lt x data) (inorder l) /\ Forall (lt data) (inorder r))
   \/ (lt d data /\ Forall (fun x => lt x data) (inorder l) /\ Forall (lt data) (inorder r))).
Proof.
  intros (_ & _ & Hl & Hr)%ordered_node [Hn|[[Hn Hn2]|[Hn Hn2]]] He; [done| |]; simpl.
  - assert (Forall (lt data) (inorder r)) by eauto using Forall_lt_trans.
    split; [|by left]. apply Forall_app; split; [by apply below_not_eq|].
    constructor; [done|]. by apply above_not_eq.
  - assert (Forall (fun x => lt x data) (inorder l)) by eauto using Forall_gt_trans.
    split; [|by right]. apply Forall_app; split; [by apply below_not_eq|].
    constructor; [done|]. by apply above_not_eq.
Qed.

(** [splay_insert] adds the key in order when no equal element is present,
    and otherwise returns the equal element and leaves the contents alone. *)
Theorem splay_insert_correct (root : tree A) (data : A) (Ho : ordered root) :
  let res := splay_insert cmp root data in
  ordered res.2 /\ inserted data (inorder root) (inorder res.2) res.1.
Proof.
  intros res. subst res. unfold splay_insert.
  destruct (leaf_case root) as [->|[Hne0 ->]].
  { simpl. split; [by repeat constructor|]. split; [by exists [], []|done]. }
  destruct (splay_spec data root) as (l & d & r & -> & Hin & Ho' & Hn); [done|done|].
  destruct (Z.eqb_spec (cmp data d) 0) as [He|He]; simpl.
  { split; [done|]. rewrite Hin. in_list. }
  destruct (splay_absent data l d r Ho' Hn He) as [Hne Hc].
  simpl in Hne. rewrite <- Hin in Hne.
  destruct Hc as [(Hc & Hl & Hr)|(Hc & Hl & Hr)]; unfold lt in Hc.
  - destruct (Z.ltb_spec (cmp data d) 0); [|lia]. unfold ordered in *. simpl in *. split.
    + by apply ordered_cut; [| |constructor].
    + split; [exists (inorder l), (d :: inorder r); by rewrite Hin|done].
  - apply cmp_antisym in Hc. destruct (Z.ltb_spec (cmp data d) 0); [lia|].
    destruct (Z.ltb_spec 0 (cmp data d)); [|lia]. unfold ordered in *. simpl in *. split.
    + apply ordered_cut; [by list_norm| |done]. apply Forall_app. split; [done|].
      constructor; [by apply cmp_antisym|done].
    + split; [|done]. exists (inorder l ++ [d]), (inorder r).
      rewrite Hin. by list_norm.
Qed.

(** [splay_delete] removes exactly the element equal to the key and returns
    it; without one it returns NULL and leaves the contents alone. *)
Theorem splay_delete_correct (root : tree A) (data : A) (Ho : ordered root) :
  let res := splay_delete cmp root data in
  ordered res.2 /\ deleted data (inorder root) (inorder res.2) res.1.
Proof.
  intros res. subst res. unfold splay_delete.
  destruct (leaf_case root) as [->|[Hne0 ->]]; [done|].
  destruct (splay_spec data root) as (l & d & r & -> & Hin & Ho' & Hn); [done|done|].
  destruct (Z.eqb_spec (cmp data d) 0) as [He|He].
  - destruct (ordered_below_root l d r data Ho' He) as [Hl Hr].
    pose proof (ordered_node _ _ _ Ho') as (Hol & Hor & _ & _).
    destruct (leaf_case l) as [->|[Hnl ->]].
    + simpl in *. split; [done|]. split; [done|]. exists [], (inorder r). by rewrite Hin.
    + destruct (splay_below data l) as (ll & ld & -> & Hll); [done|done|done|].
      assert (inorder (Node ll ld r) = inorder l ++ inorder r) as Hres.
      { simpl. rewrite Hll. by list_norm. }
      cbn [fst snd]. unfold ordered, deleted. rewrite Hres. split.
      * apply (ordered_drop _ d). done.
      * split; [done|]. exists (inorder l), (inorder r). by rewrite Hin.
  - simpl. split; [done|]. rewrite Hin. split; [|done].
    apply (splay_absent data l d r Ho' Hn He).
Qed.

(** [splay_find] returns an element equal to the key exactly when there is
    one, and never changes the contents. *)
Theorem splay_find_correct (root : tree A) (data : A) (Ho : ordered root) :
  let res := splay_find cmp root data in
  ordered res.2 /\ inorder res.2 = inorder root
  /\ match res.1 with
     | Some e => cmp data e = 0 /\ e ∈ inorder root
     | None => ~ present data (inorder root)
     end.
Proof.
  intros res. subst res. unfold splay_find, present.
  destruct (leaf_case root) as [->|[Hne0 ->]].
  { simpl. split_and!; [done..|]. intros H. by apply Exists_nil in H. }
  destruct (splay_spec data root) as (l & d & r & -> & Hin & Ho' & Hn); [done|done|].
  destruct (Z.eqb_spec (cmp data d) 0) as [He|He]; cbn [fst snd].
  - split_and!; [done|by rewrite Hin|done|]. rewrite Hin. in_list.
  - split_and!; [done|by rewrite Hin|]. rewrite Hin.
    rewrite <- Forall_Exists_neg. apply (splay_absent data l d r Ho' Hn He).
Qed.

Lemma splay_present_root data root l d r :
  ordered root -> present data (inorder root) ->
  splay cmp data root = Node l d r -> inorder root = inorder l ++ d :: inorder r ->
  ordered (Node l d r) -> root_near data (Node l d r) -> cmp data d = 0.
Proof.
  intros Ho Hp E Hin Ho' Hn. destruct (decide (cmp data d = 0)) as [|He]; [done|].
  destruct (splay_absent data l d r Ho' Hn He) as [Hne _].
  rewrite Hin in Hp. unfold present in Hp. exfalso.
  apply Exists_exists in Hp as (x & Hx & Hx0).
  rewrite Forall_forall in Hne. by apply (Hne x).
Qed.

(** for a key that is present, [splay_prev] returns its predecessor and
    keeps the contents. *)
Theorem splay_prev_present (root : tree A) (data : A)
  (Ho : ordered root) (Hp : present data (inorder root)) :
  let res := splay_prev cmp root data in
  ordered res.2 /\ inorder res.2 = inorder root /\ is_prev data (inorder root) res.1.
Proof.
  intros res. subst res. unfold splay_prev.
  destruct (leaf_case root) as [->|[Hne0 ->]]; [by apply Exists_nil in Hp|].
  destruct (splay_spec data root) as (l & d & r & E & Hin & Ho' & Hn); [done|done|].
  pose proof (splay_present_root data root l d r Ho Hp E Hin Ho' Hn) as He.
  rewrite E, He. simpl Z.leb. cbv iota.
  destruct (ordered_below_root l d r data Ho' He) as [Hl Hr].
  pose proof (ordered_node _ _ _ Ho') as (Hol & Hor & _ & _).
  assert (forall x, x ∈ d :: inorder r -> ~ lt x data) as Hno.
  { intros x Hx Hlt. apply elem_of_cons in Hx as [->|Hx].
    - apply cmp_antisym in Hlt. lia.
    - rewrite Forall_forall in Hr. apply (lt_irrefl x).
      eapply lt_trans; [exact Hlt|by apply Hr]. }
  destruct (leaf_case l) as [->|[Hnl ->]].
  - simpl in *. split_and!; [done|by rewrite Hin|]. rewrite Hin. by apply Forall_forall.
  - destruct (splay_below data l) as (ll & ld & -> & Hll); [done|done|done|].
    cbn [fst snd]. assert (inorder (Node (Node ll ld Leaf) d r) = inorder root) as Hres.
    { rewrite Hin, Hll. by list_norm. }
    split_and!; [by apply (ordered_eq root)|done|]. simpl. split_and!.
    + rewrite Hin, Hll. in_list.
    + rewrite Forall_forall in Hl. apply Hl. rewrite Hll. in_list.
    + rewrite Hin. apply Forall_forall. intros x Hx Hlt.
      apply elem_of_app in Hx as [Hx|Hx]; [|by destruct (Hno x Hx)].
      unfold ordered in Hol. rewrite Hll in Hx, Hol.
      apply elem_of_app in Hx as [Hx|Hx%list_elem_of_singleton]; [right|by left].
      apply (StronglySorted_app_1_elem_of _ _ _ x ld Hol); [done|].
      by apply list_elem_of_singleton.
Qed.

(** for a key that is present, [splay_next] returns its successor and keeps
    the contents. *)
Theorem splay_next_present (root : tree A) (data : A)
  (Ho : ordered root) (Hp : present data (inorder root)) :
  let res := splay_next cmp root data in
  ordered res.2 /\ inorder res.2 = inorder root /\ is_next data (inorder root) res.1.
Proof.
  intros res. subst res. unfold splay_next.
  destruct (leaf_case root) as [->|[Hne0 ->]]; [by apply Exists_nil in Hp|].
  destruct (splay_spec data root) as (l & d & r & E & Hin & Ho' & Hn); [done|done|].
  pose proof (splay_present_root data root l d r Ho Hp E Hin Ho' Hn) as He.
  rewrite E, He. simpl Z.leb. cbv iota.
  destruct (ordered_below_root l d r data Ho' He) as [Hl Hr].
  pose proof (ordered_node _ _ _ Ho') as (Hol & Hor & _ & _).
  assert (forall x, x ∈ inorder l ++ [d] -> ~ lt data x) as Hno.
  { intros x Hx Hlt. apply elem_of_app in Hx as [Hx|Hx%list_elem_of_singleton].
    - rewrite Forall_forall in Hl. apply (lt_irrefl x).
      eapply lt_trans; [by apply Hl|exact Hlt].
    - subst x. unfold lt in Hlt. lia. }
  assert (inorder root = (inorder l ++ [d]) ++ inorder r) as Hin2.
  { rewrite Hin. by list_norm. }
  destruct (leaf_case r) as [->|[Hnl ->]].
  - cbn [fst snd]. split_and!; [done|by rewrite Hin|]. rewrite Hin2. simpl.
    rewrite app_nil_r. by apply Forall_forall.
  - destruct (splay_above data r) as (rd & rr & -> & Hrr); [done|done|done|].
    cbn [fst snd]. assert (inorder (Node l d (Node Leaf rd rr)) = inorder root) as Hres.
    { rewrite Hin, Hrr. by list_norm. }
    split_and!; [by apply (ordered_eq root)|done|]. simpl. split_and!.
    + rewrite Hin, Hrr. in_list.
    + rewrite Forall_forall in Hr. apply Hr. rewrite Hrr. in_list.
    + rewrite Hin2. apply Forall_forall. intros x Hx Hlt.
      apply elem_of_app in Hx as [Hx|Hx]; [by destruct (Hno x Hx)|].
      unfold ordered in Hor. rewrite Hrr in Hx, Hor.
      apply StronglySorted_inv in Hor as [_ Hor].
      apply elem_of_cons in Hx as [->|Hx]; [by left|right].
      rewrite Forall_forall in Hor. by apply Hor.
Qed.

(** for a key that is absent from a non-empty tree, [splay_prev] never
    returns the predecessor the comment above it promises: the test on the
    root is the wrong way round, so it returns an element above the key, or
    skips the root that is the predecessor. *)
Theorem splay_prev_absent_wrong (root : tree A) (data : A)
  (Ho : ordered root) (Hne : root <> Leaf) (Ha : ~ present data (inorder root)) :
  ~ is_prev data (inorder root) (splay_prev cmp root data).1.
Proof.
  unfold splay_prev. destruct (leaf_case root) as [->|[_ ->]]; [done|].
  destruct (splay_spec data root) as (l & d & r & E & Hin & Ho' & Hn); [done|done|].
  rewrite E. assert (cmp data d <> 0) as He.
  { intros He. apply Ha, Exists_exists. exists d. split; [rewrite Hin; in_list|done]. }
  pose proof (ordered_node _ _ _ Ho') as (Hol & Hor & Hld & _).
  destruct (splay_absent data l d r Ho' Hn He) as [_ [(Hc & Hl & Hr)|(Hc & Hl & Hr)]].
  - unfold lt in Hc. destruct (Z.leb_spec 0 (cmp data d)); [lia|]. cbn [fst snd].
    intros (_ & H2 & _). apply (lt_irrefl d). eapply lt_trans; [exact H2|done].
  - pose proof Hc as Hc'. apply cmp_antisym in Hc'.
    destruct (Z.leb_spec 0 (cmp data d)); [|lia].
    destruct (leaf_case l) as [->|[Hnl ->]].
    + cbn [fst snd]. intros H1. rewrite Hin in H1. simpl in H1.
      apply Forall_cons in H1 as [H1 _]. done.
    + destruct (splay_below data l) as (ll & ld & -> & Hll); [done|done|done|].
      cbn [fst snd]. intros (_ & _ & H3). rewrite Hin, Forall_app, Forall_cons in H3.
      destruct H3 as (_ & H3 & _).
      assert (lt ld d) as Hlt.
      { rewrite Forall_forall in Hld. apply Hld. rewrite Hll. in_list. }
      destruct (H3 Hc) as [->|H4]; [by apply (lt_irrefl ld)|].
      apply (lt_irrefl d). by eapply lt_trans.
Qed.
End splay_facts.

(** ** Concrete trees *)
Definition cmp_int (x y : Z) : Z := if x <? y then -1 else if y <? x then 1 else 0.

#[export] Instance cmp_int_ok : SplayCmp cmp_int.
Proof.
  split; unfold cmp_int; intros; repeat match goal with
    | |- context [?a <? ?b] => destruct (Z.ltb_spec a b)
    | H : context [?a <? ?b] |- _ => destruct (Z.ltb_spec a b)
    end; lia.
Qed.

Definition tree_of (l : list Z) : tree Z :=
  foldl (fun t x => (splay_insert cmp_int t x).2) splay_new l.

Ltac solve_ordered := repeat constructor; vm_compute; reflexivity.

Lemma tree_of_ordered : ordered cmp_int (tree_of [5; 1; 9; 3; 7]).
Proof. unfold ordered. vm_compute. repeat constructor. Defined.

Lemma splay_insert_correct_witness :
  ordered cmp_int (tree_of [5; 1; 9; 3; 7])
  /\ inserted cmp_int 4 [1; 3; 5; 7; 9] [1; 3; 4; 5; 7; 9] None.
Proof.
  split; [exact tree_of_ordered|].
  exact (proj2 (splay_insert_correct cmp_int (tree_of [5; 1; 9; 3; 7]) 4 tree_of_ordered)).
Defined.

Lemma splay_delete_correct_witness :
  deleted cmp_int 5 [1; 3; 5; 7; 9] [1; 3; 7; 9] (Some 5).
Proof.
  exact (proj2 (splay_delete_correct cmp_int (tree_of [5; 1; 9; 3; 7]) 5 tree_of_ordered)).
Defined.

Lemma splay_find_correct_witness : cmp_int 3 3 = 0 /\ 3 ∈ [1; 3; 5; 7; 9].
Proof.
  exact (proj2 (proj2 (splay_find_correct cmp_int (tree_of [5; 1; 9; 3; 7]) 3 tree_of_ordered))).
Defined.

Lemma splay_prev_present_witness : is_prev cmp_int 7 [1; 3; 5; 7; 9] (Some 5).
Proof.
  refine (proj2 (proj2 (splay_prev_present cmp_int (tree_of [5; 1; 9; 3; 7]) 7 tree_of_ordered _))).
  vm_compute. do 3 right. left. reflexivity.
Defined.

Lemma splay_next_present_witness : is_next cmp_int 7 [1; 3; 5; 7; 9] (Some 9).
Proof.
  refine (proj2 (proj2 (splay_next_present cmp_int (tree_of [5; 1; 9; 3; 7]) 7 tree_of_ordered _))).
  vm_compute. apply Exists_cons_tl, Exists_cons_tl, Exists_cons_tl, Exists_cons_hd. reflexivity.
Defined.

(** Asking for the predecessor of 6 in {1,3,5,7,9} gives 7 or 3, never 5. *)
Lemma splay_prev_absent_wrong_witness :
  (splay_prev cmp_int (tree_of [5; 1; 9; 3; 7]) 6).1 <> Some 5
  /\ ~ is_prev cmp_int 6 [1; 3; 5; 7; 9] (splay_prev cmp_int (tree_of [5; 1; 9; 3; 7]) 6).1.
Proof.
  split; [by vm_compute|].
  apply (splay_prev_absent_wrong cmp_int (tree_of [5; 1; 9; 3; 7]) 6 tree_of_ordered).
  - by vm_compute.
  - vm_compute. intros H. repeat (apply Exists_cons in H as [H|H]; [discriminate H|]).
    by apply Exists_nil in H.
Defined.
