(* ===== verification/Binradix.v ===== *)
(** The fixed-length binary radix tree of [sys/lib/binradix.c], the map from
    64-bit addresses to pages and page entries that the memory manager uses.

    [node] is [struct binradix_node]; [Null] is the NULL pointer.  [part] is a
    whole 64-bit key of which only the [len] bits from the current offset down
    are looked at. *)
From stdpp Require Import sorting.
From S2P Require Import Prelude.

Inductive node (V : Type) : Type :=
| Null
| Node (next0 next1 : node V) (data : option V) (part len : Z).
Arguments Null {V}.
Arguments Node {V} _ _ _ _ _.

(** [hibit]: the number of leading zeros of a non-zero 64-bit word. *)
Definition hibit (x : Z) : Z := 63 - Z.log2 x.

(** [bincmp]: the differing bits of [a] and [b] among the [nbit] bits from bit
    [off] down.  The shift by [off-nbit+1] has a defined amount only when
    [nbit <= off+1]; the callers keep it so. *)
Definition bincmp (a b off nbit : Z) : Z :=
  let x := Z.lxor a b in
  let x := Z.land x (u64 (u64 (Z.shiftl 2 off) - 1)) in
  if off - nbit <? 63 then
    Z.land x (u64 (Z.lnot (u64 (u64 (Z.shiftl 1 (off - nbit + 1)) - 1))))
  else 0.

Definition bineq (a b off nbit : Z) : bool :=
  if nbit =? 0 then true else bincmp a b off nbit =? 0.

Section binradix.
Context {V : Type}.
Implicit Types t : node V.

(** The loop of [binradix_find]; [key_off] is a [uint8_t]. *)
Fixpoint find_loop t (key key_off : Z) : option V :=
  match t with
  | Null => None
  | Node n0 n1 data part len =>
      if bineq part key key_off len then
        if len <=? key_off then
          let key_off := u8 (key_off - len) in
          if Z.testbit key key_off then find_loop n1 key key_off
          else find_loop n0 key key_off
        else data
      else None
  end.
Definition binradix_find (root : node V) (key : Z) : option V := find_loop root key 63.

(** The loop of [binradix_insert]: the returned pointer and the updated node,
    or [None] where the C code has no defined behaviour ([key_off_s] shifted by
    64, when the key sits in a leaf hanging directly off the root). *)
Fixpoint insert_loop t (key : Z) (data : V) (key_off_s key_off : Z) : option (option V * node V) :=
  match t with
  | Null => Some (None, Null)
  | Node n0 n1 d part len =>
      let x := bincmp part key (u8 key_off) len in
      if negb (x =? 0) then
        let hb := 63 - hibit x in
        let len' := key_off - hb in
        s ← shr64 key_off_s len';
        let bit := negb (Z.land key s =? 0) in
        (* split the node *)
        let old := Node n0 n1 d part (u8 (len - len')) in
        let new := Node Null Null (Some data) key (u8 (hb + 1)) in
        Some (None, if bit then Node old new None part (u8 len')
                    else Node new old None part (u8 len'))
      else
        s ← shr64 key_off_s len;
        let key_off := key_off - len in
        let bit := negb (Z.land key s =? 0) in
        if s =? 0 then Some (d, t)
        else
          match (if bit then n1 else n0) with
          | Null =>
              let new := Node Null Null (Some data) key (u8 (key_off + 1)) in
              Some (None, if bit then Node n0 new d part len else Node new n1 d part len)
          | Node _ _ _ _ _ =>
              if bit then
                '(ret, n) ← insert_loop n1 key data s key_off; Some (ret, Node n0 n d part len)
              else
                '(ret, n) ← insert_loop n0 key data s key_off; Some (ret, Node n n1 d part len)
          end
  end.
Definition binradix_insert (root : node V) (key : Z) (data : V) : option (option V * node V) :=
  insert_loop root key data (2 ^ 63) 63.

Definition node_parts t : Z * Z :=
  match t with Null => (0, 0) | Node _ _ _ part len => (part, len) end.

(** What [binradix_delete] does once [now] is found under [parent], the child
    taken at bit [key_off]: unlink it and, unless [parent] is the root, merge
    the parent with the other child.  [None]: a NULL sibling is dereferenced. *)
Definition unlink_merge (is_root : bool) (parent : node V) (bit : bool) (key_off : Z)
  : option (node V) :=
  match parent with
  | Null => None
  | Node p0 p1 pd ppart plen =>
      if is_root then Some (if bit then Node p0 Null pd ppart plen else Node Null p1 pd ppart plen)
      else
        match (if bit then p0 else p1) with
        | Null => None
        | Node m0 m1 md mpart mlen =>
            let mask := u64 (u64 (Z.shiftl 2 key_off) - 1) in
            let part := Z.land ppart (u64 (Z.lnot mask)) in
            let part := Z.lor part (Z.land mpart mask) in
            Some (Node m0 m1 md part (u8 (plen + mlen)))
        end
  end.

(** [binradix_delete] below a [parent] whose bits match: [key_off] is the bit
    that selects the child.  [Some (ret, parent')] or [None] when the code
    dereferences NULL (the loop ran off the tree with [now == NULL]). *)
Fixpoint delete_loop (is_root : bool) (parent : node V) (key key_off : Z)
  : option (option V * node V) :=
  match parent with
  | Null => None
  | Node p0 p1 pd ppart plen =>
      let bit := Z.testbit key key_off in
      let step now :=
        match now with
        | Null => None
        | Node _ _ d part len =>
            if bineq part key key_off len then
              if key_off <? len then
                p ← unlink_merge is_root parent bit key_off; Some (d, p)
              else
                '(ret, now') ← delete_loop false now key (key_off - len);
                Some (ret, if bit then Node p0 now' pd ppart plen else Node now' p1 pd ppart plen)
            else Some (None, parent)
        end in
      if bit then step p1 else step p0
  end.
Definition binradix_delete (root : node V) (key : Z) : option (option V * node V) :=
  delete_loop true root key 63.

(** [binradix_new]; the [data] field of the root holds the object pool and its
    [part] is never compared (its [len] is 0). *)
Definition binradix_new : node V := Node Null Null None 0 0.

(** [_binradix_for_each] and [binradix_for_each], as the sequence of [data]
    pointers handed to the visitor. *)
Fixpoint visits t : list V :=
  match t with
  | Null => []
  | Node n0 n1 (Some d) _ _ => [d]
  | Node n0 n1 None _ _ => visits n0 ++ visits n1
  end.
Definition binradix_for_each {S : Type} (root : node V) (d : S) (v : V -> S -> S) : S :=
  match root with
  | Null => d
  | Node n0 n1 _ _ _ => foldl (fun s x => v x s) d (visits n0 ++ visits n1)
  end.
End binradix.

Definition ins {V} (root : node V) (key : Z) (v : V) : node V :=
  match binradix_insert root key v with Some (_, t) => t | None => root end.

Example ex_find :
  let t := ins (ins (ins binradix_new 0x1000 1) 0x2000 2) 0xffff808000000000 3 in
  (binradix_find t 0x1000, binradix_find t 0x2000, binradix_find t 0xffff808000000000,
   binradix_find t 0x3000)
  = (Some 1, Some 2, Some 3, None).
Proof. reflexivity. Qed.
Example ex_delete :
  (t ← binradix_delete (ins (ins (ins binradix_new 0x1000 1) 0x2000 2) 0x3000 3) 0x2000;
   Some (t.1, binradix_find t.2 0x1000, binradix_find t.2 0x2000, binradix_find t.2 0x3000))
  = Some (Some 2, Some 1, None, Some 3).
Proof. reflexivity. Qed.

(** ** Comparing bit ranges *)
Lemma shifted_mask k : 0 <= k <= 64 -> u64 (u64 (2 ^ k) - 1) = Z.ones k.
Proof.
  intros Hk. rewrite Z.ones_equiv, <- Z.sub_1_r.
  assert (0 < 2 ^ k) by (apply Z.pow_pos_nonneg; lia).
  destruct (decide (k = 64)) as [->|]; [done|].
  assert (2 ^ k < 2 ^ 64) by (apply Z.pow_lt_mono_r; lia).
  rewrite !u64_small; unfold is_u64; try lia.
  rewrite u64_small; unfold is_u64; lia.
Qed.

Lemma mask_low off : 0 <= off <= 63 -> u64 (u64 (Z.shiftl 2 off) - 1) = Z.ones (off + 1).
Proof.
  intros H. rewrite Z.shiftl_mul_pow2 by lia.
  replace (2 * 2 ^ off) with (2 ^ (off + 1)) by (rewrite Z.pow_add_r by lia; lia).
  apply shifted_mask. lia.
Qed.

Lemma bincmp_testbit a b off nbit i :
  is_u64 a -> is_u64 b -> 0 <= off <= 63 -> 0 <= nbit <= off + 1 -> off - nbit < 63 ->
  0 <= i ->
  Z.testbit (bincmp a b off nbit) i =
    xorb (Z.testbit a i) (Z.testbit b i) && (off - nbit <? i) && (i <=? off).
Proof.
  intros Ha Hb Ho Hn Hlt Hi. unfold bincmp.
  destruct (Z.ltb_spec (off - nbit) 63); [|lia].
  rewrite mask_low, Z.shiftl_1_l, shifted_mask by lia.
  rewrite !Z.land_spec, Z.lxor_spec, Z.testbit_ones_nonneg by lia.
  unfold u64 at 1. rewrite wrap_testbit, Z.lnot_spec, Z.testbit_ones_nonneg by lia.
  zcases.
Qed.

Section bincmp_facts.
Context (a b off nbit : Z).
Context (Ha : is_u64 a) (Hb : is_u64 b) (Ho : 0 <= off <= 63) (Hn : 1 <= nbit <= off + 1).
Context (Hpre : Z.shiftr a (off + 1) = Z.shiftr b (off + 1)).

Lemma bincmp_zero_iff :
  bincmp a b off nbit = 0 <-> Z.shiftr a (off - nbit + 1) = Z.shiftr b (off - nbit + 1).
Proof using All.
  rewrite shiftr_eq_iff by lia. rewrite shiftr_eq_iff in Hpre by lia. split.
  - intros H i Hi. destruct (decide (i <= off)); [|apply Hpre; lia].
    assert (Z.testbit (bincmp a b off nbit) i = false) as Hf.
    { rewrite H. apply Z.testbit_0_l. }
    rewrite bincmp_testbit in Hf by (done || lia).
    destruct (Z.ltb_spec (off - nbit) i), (Z.leb_spec i off); try lia.
    rewrite !andb_true_r in Hf. by apply xorb_eq.
  - intros H. apply Z.bits_inj'. intros i Hi. rewrite Z.testbit_0_l.
    rewrite bincmp_testbit by (done || lia).
    destruct (Z.ltb_spec (off - nbit) i); [|by rewrite andb_false_r].
    rewrite (H i) by lia. by rewrite xorb_nilpotent.
Qed.

Lemma bincmp_nonzero :
  bincmp a b off nbit <> 0 ->
  let hb := 63 - hibit (bincmp a b off nbit) in
  off - nbit < hb <= off
  /\ Z.shiftr a (hb + 1) = Z.shiftr b (hb + 1)
  /\ Z.testbit a hb = negb (Z.testbit b hb).
Proof using All.
  intros Hx hb. assert (hb = Z.log2 (bincmp a b off nbit)) as Hhb.
  { unfold hb, hibit. lia. }
  set (x := bincmp a b off nbit) in *.
  assert (0 < x) as Hpos.
  { assert (0 <= x); [|lia]. unfold x, bincmp. destruct (_ <? _); [|done].
    apply Z.land_nonneg. right. apply u64_bound. }
  pose proof (Z.bit_log2 x Hpos) as Hbit. rewrite <- Hhb in Hbit.
  assert (0 <= hb) by (rewrite Hhb; apply Z.log2_nonneg).
  unfold x in Hbit. rewrite bincmp_testbit in Hbit by (done || lia).
  apply andb_true_iff in Hbit as [Hbit H2]. apply andb_true_iff in Hbit as [Hbit H1].
  bool_to_prop. split_and!; [lia|lia| |].
  - rewrite shiftr_eq_iff by lia. intros i Hi.
    destruct (decide (i <= off)).
    + pose proof (Z.bits_above_log2 x i) as Hz.
      unfold x at 3 in Hz. rewrite bincmp_testbit in Hz by (done || lia).
      assert (xorb (Z.testbit a i) (Z.testbit b i) && (off - nbit <? i) && (i <=? off) = false)
        as Hf by (apply Hz; lia).
      destruct (Z.ltb_spec (off - nbit) i), (Z.leb_spec i off); try lia.
      rewrite !andb_true_r in Hf. by apply xorb_eq.
    + rewrite shiftr_eq_iff in Hpre by lia. apply Hpre. lia.
  - by destruct (Z.testbit a hb), (Z.testbit b hb).
Qed.
End bincmp_facts.

(** ** Well-formed trees and the map they stand for *)
Fixpoint to_map {V} (t : node V) : gmap Z V :=
  match t with
  | Null => ∅
  | Node _ _ (Some d) part _ => {[part := d]}
  | Node n0 n1 None _ _ => to_map n0 ∪ to_map n1
  end.

(** [wf pre off t]: [t] covers the keys whose bits above [off] read [pre]. *)
Inductive wf {V} : Z -> Z -> node V -> Prop :=
| wf_leaf pre off d part :
    is_u64 part -> 0 <= off <= 63 -> Z.shiftr part (off + 1) = pre ->
    wf pre off (Node Null Null (Some d) part (off + 1))
| wf_inner pre off n0 n1 part len :
    is_u64 part -> 0 <= off <= 63 -> Z.shiftr part (off + 1) = pre -> 1 <= len <= off ->
    wf (Z.shiftr part (off - len + 1)) (off - len) n0 ->
    wf (Z.shiftr part (off - len + 1)) (off - len) n1 ->
    Z.testbit (node_parts n0).1 (off - len) = false ->
    Z.testbit (node_parts n1).1 (off - len) = true ->
    wf pre off (Node n0 n1 None part len).

Definition child_ok {V} (b : bool) (t : node V) : Prop :=
  t = Null \/ (wf 0 63 t /\ Z.testbit (node_parts t).1 63 = b).
Definition wf_root {V} (t : node V) : Prop :=
  match t with
  | Node n0 n1 None part 0 => child_ok false n0 /\ child_ok true n1
  | _ => False
  end.

Section facts.
Context {V : Type}.
Implicit Types t : node V.
Implicit Types v : V.

Lemma wf_keys pre off t k v :
  wf pre off t -> to_map t !! k = Some v ->
  is_u64 k /\ Z.shiftr k off = Z.shiftr (node_parts t).1 off /\ Z.shiftr k (off + 1) = pre.
Proof.
  intros Hwf. revert k v.
  induction Hwf as [pre off d part Hp Ho Hpre|pre off n0 n1 part len Hp Ho Hpre Hlen H0 IH0 H1 IH1 B0 B1];
    intros k v; simpl.
  - intros [-> _]%lookup_singleton_Some. done.
  - intros Hl. assert (is_u64 k /\ Z.shiftr k (off - len + 1) = Z.shiftr part (off - len + 1)) as [Hk Hs].
    { apply lookup_union_Some_raw in Hl as [Hl|[_ Hl]];
        [destruct (IH0 k v Hl) as (? & _ & ?)|destruct (IH1 k v Hl) as (? & _ & ?)]; done. }
    split_and!; [done| |rewrite <- Hpre];
      apply (shiftr_eq_mono _ _ (off - len + 1)); (done || lia).
Qed.

Lemma wf_key_bit pre off t k v :
  wf pre off t -> 0 <= off -> to_map t !! k = Some v ->
  Z.testbit k off = Z.testbit (node_parts t).1 off.
Proof.
  intros Hwf Ho Hl. destruct (wf_keys _ _ _ _ _ Hwf Hl) as (_ & Hs & _).
  rewrite shiftr_eq_iff in Hs by done. apply Hs. lia.
Qed.

Lemma wf_off pre off t : wf pre off t -> 0 <= off <= 63.
Proof. by destruct 1. Qed.

Lemma wf_nonnull pre off t : wf pre off t -> t <> Null.
Proof. by destruct 1. Qed.

(** Looking a key up in the union of two children, by its selecting bit. *)
Lemma children_lookup pre off (n0 n1 : node V) key :
  wf pre off n0 -> wf pre off n1 ->
  Z.testbit (node_parts n0).1 off = false -> Z.testbit (node_parts n1).1 off = true ->
  (to_map n0 ∪ to_map n1) !! key
  = if Z.testbit key off then to_map n1 !! key else to_map n0 !! key.
Proof.
  intros H0 H1 B0 B1. pose proof (wf_off _ _ _ H0).
  destruct (Z.testbit key off) eqn:E.
  - apply lookup_union_r. destruct (to_map n0 !! key) eqn:E0; [|done].
    pose proof (wf_key_bit _ _ _ _ _ H0 ltac:(lia) E0). congruence.
  - apply lookup_union_l. destruct (to_map n1 !! key) eqn:E1; [|done].
    pose proof (wf_key_bit _ _ _ _ _ H1 ltac:(lia) E1). congruence.
Qed.

Lemma child_none pre off t (key : Z) :
  wf pre off t -> Z.testbit (node_parts t).1 off <> Z.testbit key off -> to_map t !! key = None.
Proof.
  intros H Hb. destruct (to_map t !! key) eqn:E; [|done]. pose proof (wf_off _ _ _ H).
  pose proof (wf_key_bit _ _ _ _ _ H ltac:(lia) E). congruence.
Qed.

Lemma bineq_iff a b off nbit :
  is_u64 a -> is_u64 b -> 0 <= off <= 63 -> 1 <= nbit <= off + 1 ->
  Z.shiftr a (off + 1) = Z.shiftr b (off + 1) ->
  bineq a b off nbit = true <-> Z.shiftr a (off - nbit + 1) = Z.shiftr b (off - nbit + 1).
Proof.
  intros. unfold bineq. destruct (Z.eqb_spec nbit 0); [lia|].
  rewrite Z.eqb_eq. by apply bincmp_zero_iff.
Qed.

Lemma u8_off x : 0 <= x <= 64 -> u8 x = x.
Proof. intros. apply wrap_small. lia. Qed.

Lemma find_loop_spec pre off t key :
  wf pre off t -> is_u64 key -> Z.shiftr key (off + 1) = pre ->
  find_loop t key off = to_map t !! key.
Proof.
  intros Hwf Hk.
  induction Hwf as [pre off d part Hp Ho Hpre|pre off n0 n1 part len Hp Ho Hpre Hlen H0 IH0 H1 IH1 B0 B1];
    intros Hkp; simpl.
  - destruct (bineq part key off (off + 1)) eqn:E.
    + apply bineq_iff in E; [|done|done|done|lia|congruence].
      replace (off - (off + 1) + 1) with 0 in E by lia. rewrite !Z.shiftr_0_r in E. subst part.
      destruct (Z.leb_spec (off + 1) off); [lia|]. by rewrite lookup_singleton_eq.
    + rewrite lookup_singleton_ne; [done|]. intros ->.
      assert (bineq key key off (off + 1) = true); [|congruence].
      apply bineq_iff; (done || lia).
  - destruct (bineq part key off len) eqn:E.
    + apply bineq_iff in E; [|done|done|done|lia|congruence].
      destruct (Z.leb_spec len off); [|lia].
      rewrite u8_off by lia. rewrite (children_lookup _ _ _ _ _ H0 H1) by done.
      destruct (Z.testbit key (off - len)); [by apply IH1|by apply IH0].
    + symmetry. destruct ((to_map n0 ∪ to_map n1) !! key) as [v|] eqn:Em; [|done].
      assert (bineq part key off len = true); [|congruence].
      apply bineq_iff; try done; [lia|congruence|]. symmetry.
      apply lookup_union_Some_raw in Em as [Em|[_ Em]];
        [apply (wf_keys _ _ _ _ _ H0 Em)|apply (wf_keys _ _ _ _ _ H1 Em)].
Qed.

Lemma shr64_pow a n : 0 <= n < 64 -> n <= a -> shr64 (2 ^ a) n = Some (2 ^ (a - n)).
Proof.
  intros Hn Ha. unfold shr64. rewrite bool_decide_eq_true_2 by done.
  f_equal. rewrite Z.shiftr_div_pow2 by lia.
  rewrite <- Z.pow_sub_r by lia. done.
Qed.

Lemma land_pow_bit key n : 0 <= n -> negb (Z.land key (2 ^ n) =? 0) = Z.testbit key n.
Proof.
  intros Hn. destruct (Z.testbit key n) eqn:E.
  - apply negb_true_iff, Z.eqb_neq. intros H.
    assert (Z.testbit (Z.land key (2 ^ n)) n = false) as Hf by (by rewrite H, Z.testbit_0_l).
    rewrite Z.land_spec, E, Z.pow2_bits_true in Hf by done. done.
  - apply negb_false_iff, Z.eqb_eq. apply Z.bits_inj'. intros i Hi.
    rewrite Z.land_spec, Z.testbit_0_l, Z.pow2_bits_eqb by done.
    destruct (Z.eqb_spec n i) as [<-|]; [by rewrite E|by rewrite andb_false_r].
Qed.

Lemma pow_nonzero n : 0 <= n -> (2 ^ n =? 0) = false.
Proof. intros Hn. apply Z.eqb_neq. by apply Z.pow_nonzero. Qed.

(** Splitting [t] at bit [hb] below its offset leaves a node for [hb]. *)
Lemma wf_split pre off (n0 n1 : node V) d part len hb :
  wf pre off (Node n0 n1 d part len) -> off - len < hb < off -> 0 <= hb ->
  wf (Z.shiftr part (hb + 1)) hb (Node n0 n1 d part (len - (off - hb))).
Proof.
  intros Hwf Hhb H0. inversion Hwf; subst.
  - replace (off + 1 - (off - hb)) with (hb + 1) by lia. constructor; (done || lia).
  - replace (off - len) with (hb - (len - (off - hb))) in * by lia.
    constructor; (done || lia).
Qed.

Lemma to_map_split (n0 n1 : node V) (d : option V) part len len' :
  to_map (Node n0 n1 d part len) = to_map (Node n0 n1 d part len').
Proof. done. Qed.

Lemma bincmp_u64_off off : 0 <= off <= 63 -> u8 off = off.
Proof. intros. apply u8_off. lia. Qed.

Lemma insert_split pre off (n0 n1 : node V) (d : option V) part len key v hb :
  wf pre off (Node n0 n1 d part len) -> is_u64 key ->
  off - len < hb < off -> 0 <= hb ->
  Z.shiftr part (hb + 1) = Z.shiftr key (hb + 1) ->
  Z.testbit part hb = negb (Z.testbit key hb) ->
  to_map (Node n0 n1 d part len) !! key = None ->
  let old := Node n0 n1 d part (len - (off - hb)) in
  let new := Node Null Null (Some v) key (hb + 1) in
  let t' := if Z.testbit key hb then Node old new None part (off - hb)
            else Node new old None part (off - hb) in
  wf pre off t' /\ to_map t' = <[key := v]> (to_map (Node n0 n1 d part len)).
Proof.
  intros Hwf Hk Hhb H0 Hsh Hbit Hnone old new t'.
  assert (is_u64 part /\ 0 <= off <= 63 /\ Z.shiftr part (off + 1) = pre) as (Hp & Ho & Hpre).
  { by inversion Hwf. }
  assert (wf (Z.shiftr part (hb + 1)) hb old) as Hold by (by eapply wf_split).
  assert (wf (Z.shiftr part (hb + 1)) hb new) as Hnew.
  { constructor; [done|lia|done]. }
  assert (off - (off - hb) = hb) as Hoff by lia.
  assert (to_map old = to_map (Node n0 n1 d part len)) as Hm by done.
  assert (to_map new = {[key := v]}) as Hm' by done.
  subst t'. destruct (Z.testbit key hb) eqn:E; simpl in Hbit.
  - split; [apply wf_inner; rewrite ?Hoff; (done || lia)|].
    simpl to_map at 1. rewrite insert_union_singleton_r by done. by rewrite <- Hm.
  - split; [apply wf_inner; rewrite ?Hoff; (done || lia)|].
    simpl to_map at 1. rewrite insert_union_singleton_l. by rewrite <- Hm.
Qed.

(** A key that differs from [t] inside the bits [t] covers splits it. *)
Lemma insert_loop_split pre off (n0 n1 : node V) d part len key v :
  wf pre off (Node n0 n1 d part len) -> is_u64 key ->
  Z.shiftr key off = Z.shiftr part off -> 1 <= len <= off + 1 ->
  to_map (Node n0 n1 d part len) !! key = None -> bincmp part key off len <> 0 ->
  exists t', insert_loop (Node n0 n1 d part len) key v (2 ^ off) off = Some (None, t')
  /\ wf pre off t' /\ to_map t' = <[key := v]> (to_map (Node n0 n1 d part len))
  /\ (node_parts t').1 = part.
Proof.
  intros Hwf Hk Hs Hlen Hnone E.
  assert (is_u64 part /\ 0 <= off <= 63) as (Hp & Ho) by (by inversion Hwf).
  pose proof E as E'.
  apply bincmp_nonzero in E as (Hhb & Hsh & Hbit); [|done|done|done|done|].
  2:{ symmetry. apply (shiftr_eq_mono _ _ off); [lia|done]. }
  set (hb := 63 - hibit (bincmp part key off len)) in *.
  assert (hb <> off).
  { intros Heq. rewrite shiftr_eq_iff in Hs by lia. rewrite Heq, Hs in Hbit by lia.
    by destruct (Z.testbit part off). }
  destruct (insert_split pre off n0 n1 d part len key v hb Hwf) as [Hw Hm]; try (done || lia).
  cbn [insert_loop]. rewrite bincmp_u64_off by done.
  destruct (Z.eqb_spec (bincmp part key off len) 0) as [|_]; [done|]. simpl negb. cbv iota zeta.
  fold hb. rewrite shr64_pow by lia. replace (off - (off - hb)) with hb by lia. simpl.
  rewrite land_pow_bit, !u8_off by lia.
  eexists. split; [reflexivity|]. split_and!; [exact Hw|exact Hm|].
  by destruct (Z.testbit key hb).
Qed.

(** Inserting a fresh key below the root: [key] enters at offset [off] and
    agrees with the node down to and including that bit. *)
Lemma insert_loop_fresh pre off t key v :
  wf pre off t -> is_u64 key -> Z.shiftr key off = Z.shiftr (node_parts t).1 off ->
  to_map t !! key = None ->
  exists t', insert_loop t key v (2 ^ off) off = Some (None, t')
    /\ wf pre off t' /\ to_map t' = <[key := v]> (to_map t)
    /\ (node_parts t').1 = (node_parts t).1.
Proof.
  intros Hwf Hk.
  induction Hwf as [pre off d part Hp Ho Hpre|pre off n0 n1 part len Hp Ho Hpre Hlen H0 IH0 H1 IH1 B0 B1];
    intros Hs Hnone; simpl in Hs.
  - assert (bincmp part key off (off + 1) <> 0) as E.
    { intros E. apply bincmp_zero_iff in E; [|done|done|done|lia|].
      - replace (off - (off + 1) + 1) with 0 in E by lia. rewrite !Z.shiftr_0_r in E. subst part.
        simpl in Hnone. by rewrite lookup_singleton_eq in Hnone.
      - symmetry. apply (shiftr_eq_mono _ _ off); [lia|done]. }
    apply (insert_loop_split pre); [by constructor|done|done|lia|done|done].
  - pose proof (wf_inner pre off n0 n1 part len Hp Ho Hpre Hlen H0 H1 B0 B1) as Hwf.
    destruct (decide (bincmp part key off len = 0)) as [E|E].
    2:{ apply (insert_loop_split pre); (done || lia). }
    assert (Z.shiftr part (off - len + 1) = Z.shiftr key (off - len + 1)) as Hsh.
    { apply bincmp_zero_iff in E; [done|done|done|done|lia|].
      symmetry. apply (shiftr_eq_mono _ _ off); [lia|done]. }
    cbn [insert_loop]. rewrite bincmp_u64_off by done. rewrite E. simpl negb. cbv iota zeta.
    rewrite shr64_pow by lia. cbn [mbind option_bind]. rewrite land_pow_bit, pow_nonzero by lia.
    assert (forall n : node V, wf (Z.shiftr part (off - len + 1)) (off - len) n ->
      Z.testbit (node_parts n).1 (off - len) = Z.testbit key (off - len) ->
      Z.shiftr key (off - len) = Z.shiftr (node_parts n).1 (off - len)) as Hcs.
    { intros n Hn Hb. apply shiftr_step; [lia| |done].
      assert (is_u64 (node_parts n).1 /\ Z.shiftr (node_parts n).1 (off - len + 1) = Z.shiftr part (off - len + 1)) as [_ ->].
      { by inversion Hn. } done. }
    simpl in Hnone. rewrite (children_lookup _ _ _ _ _ H0 H1) in Hnone by done.
    destruct (Z.testbit key (off - len)) eqn:Eb.
    + destruct (IH1 (Hcs n1 H1 B1) Hnone) as (n1' & Hr & Hw' & Hm' & Hp').
      destruct n1 as [|x1 x2 x3 x4 x5]; [by inversion H1|]. rewrite Hr. cbn.
      eexists. split; [reflexivity|].
      split_and!; [apply wf_inner; try done; by rewrite Hp'| |done].
      cbn [to_map]. rewrite Hm'. symmetry. apply insert_union_r.
      eapply child_none; [exact H0|]. by rewrite B0, Eb.
    + destruct (IH0 (Hcs n0 H0 B0) Hnone) as (n0' & Hr & Hw' & Hm' & Hp').
      destruct n0 as [|x1 x2 x3 x4 x5]; [by inversion H0|]. rewrite Hr. cbn.
      eexists. split; [reflexivity|].
      split_and!; [apply wf_inner; try done; by rewrite Hp'| |done].
      cbn [to_map]. by rewrite Hm', insert_union_l.
Qed.

(** Inserting a key that is already there. *)
Lemma insert_loop_present pre off t key v old :
  wf pre off t -> is_u64 key -> to_map t !! key = Some old ->
  insert_loop t key v (2 ^ off) off
  = if bool_decide (off = 63 /\ (node_parts t).2 = 64) then None else Some (Some old, t).
Proof.
  intros Hwf Hk. revert old.
  induction Hwf as [pre off d part Hp Ho Hpre|pre off n0 n1 part len Hp Ho Hpre Hlen H0 IH0 H1 IH1 B0 B1];
    intros old Hold.
  - simpl in Hold. apply lookup_singleton_Some in Hold as [-> ->].
    assert (bincmp key key off (off + 1) = 0) as E by (apply bincmp_zero_iff; (done || lia)).
    cbn [insert_loop]. rewrite bincmp_u64_off, E by done. simpl negb. cbv iota zeta.
    case_bool_decide as Hc; simpl in Hc.
    + destruct Hc as [-> _]. done.
    + rewrite Z.add_comm. unfold shr64. rewrite bool_decide_eq_true_2 by lia.
      cbn [mbind option_bind]. rewrite Z.shiftr_div_pow2, Z.div_small; [done| |lia].
      split; [by apply Z.pow_nonneg|apply Z.pow_lt_mono_r; lia].
  - pose proof (wf_inner pre off n0 n1 part len Hp Ho Hpre Hlen H0 H1 B0 B1) as Hwf.
    destruct (wf_keys _ _ _ _ _ Hwf Hold) as (_ & Hs & _). simpl in Hs.
    simpl in Hold. rewrite (children_lookup _ _ _ _ _ H0 H1) in Hold by done.
    rewrite bool_decide_eq_false_2 by (simpl; lia).
    assert (bincmp part key off len = 0) as E.
    { apply bincmp_zero_iff; [done|done|done|lia| |].
      - symmetry. apply (shiftr_eq_mono _ _ off); [lia|done].
      - symmetry. destruct (Z.testbit key (off - len));
          [apply (wf_keys _ _ _ _ _ H1 Hold)|apply (wf_keys _ _ _ _ _ H0 Hold)]. }
    cbn [insert_loop]. rewrite bincmp_u64_off by done. rewrite E. simpl negb. cbv iota zeta.
    rewrite shr64_pow by lia. cbn [mbind option_bind]. rewrite land_pow_bit, pow_nonzero by lia.
    destruct (Z.testbit key (off - len)) eqn:Eb.
    + specialize (IH1 old Hold). rewrite bool_decide_eq_false_2 in IH1 by lia.
      destruct n1 as [|x1 x2 x3 x4 x5]; [by inversion H1|]. by rewrite IH1.
    + specialize (IH0 old Hold). rewrite bool_decide_eq_false_2 in IH0 by lia.
      destruct n0 as [|x1 x2 x3 x4 x5]; [by inversion H0|]. by rewrite IH0.
Qed.

(** ** Deletion *)
Lemma merge_part p q k :
  0 <= k < 64 -> is_u64 p -> is_u64 q -> Z.shiftr p (k + 1) = Z.shiftr q (k + 1) ->
  Z.lor (Z.land p (u64 (Z.lnot (Z.ones (k + 1))))) (Z.land q (Z.ones (k + 1))) = q.
Proof.
  intros Hk Hp Hq Hs. rewrite shiftr_eq_iff in Hs by lia.
  apply Z.bits_inj'. intros i Hi. rewrite Z.lor_spec, !Z.land_spec.
  unfold u64. rewrite wrap_testbit, Z.lnot_spec, Z.testbit_ones_nonneg by lia.
  destruct (Z.ltb_spec i (k + 1)); simpl.
  - by rewrite !andb_false_r, andb_true_r.
  - rewrite (Hs i) by lia. destruct (Z.ltb_spec i 64); rewrite ?andb_true_r, ?andb_false_r, ?orb_false_r; [done|].
    by rewrite is_u64_high_bit.
Qed.

(** Merging a non-root parent with the child that stays. *)
Lemma wf_merge pre off part len (m0 m1 : node V) (md : option V) mpart mlen :
  is_u64 part -> 0 <= off <= 63 -> Z.shiftr part (off + 1) = pre -> 1 <= len <= off ->
  wf (Z.shiftr part (off - len + 1)) (off - len) (Node m0 m1 md mpart mlen) ->
  wf pre off (Node m0 m1 md mpart (len + mlen)) /\ Z.testbit mpart off = Z.testbit part off.
Proof.
  intros Hp Ho Hpre Hlen Hm.
  assert (is_u64 mpart /\ Z.shiftr mpart (off - len + 1) = Z.shiftr part (off - len + 1)) as [Hmp Hs].
  { by inversion Hm. }
  split; [|rewrite shiftr_eq_iff in Hs by lia; apply Hs; lia].
  assert (Z.shiftr mpart (off + 1) = pre) as Hmpre.
  { rewrite <- Hpre. apply (shiftr_eq_mono _ _ (off - len + 1)); [lia|done]. }
  inversion Hm; subst.
  - replace (len + (off - len + 1)) with (off + 1) by lia. by constructor.
  - replace (off - len - mlen) with (off - (len + mlen)) in * by lia.
    constructor; (done || lia).
Qed.

Definition delete_ok (pre off : Z) t (key : Z) (v : V) (res : option (option V * node V)) : Prop :=
  exists t', res = Some (Some v, t') /\ wf pre off t' /\ to_map t' = delete key (to_map t)
    /\ Z.testbit (node_parts t').1 off = Z.testbit (node_parts t).1 off.

Lemma delete_union_key (m0 m1 : gmap Z V) key :
  delete key (m0 ∪ m1) = delete key m0 ∪ delete key m1.
Proof. apply delete_union. Qed.

Lemma unlink_merge_spec pre off (n0 n1 : node V) part len key v (b : bool) :
  is_u64 part -> 0 <= off <= 63 -> Z.shiftr part (off + 1) = pre -> 1 <= len <= off ->
  wf (Z.shiftr part (off - len + 1)) (off - len) n0 ->
  wf (Z.shiftr part (off - len + 1)) (off - len) n1 ->
  to_map (if b then n1 else n0) = {[key := v]} ->
  to_map (if b then n0 else n1) !! key = None ->
  exists p, unlink_merge false (Node n0 n1 None part len) b (off - len) = Some p
    /\ wf pre off p /\ to_map p = delete key (to_map n0 ∪ to_map n1)
    /\ Z.testbit (node_parts p).1 off = Z.testbit part off.
Proof.
  intros Hp Ho Hpre Hlen H0 H1 Hkey Hother.
  assert (wf (Z.shiftr part (off - len + 1)) (off - len) (if b then n0 else n1)) as Hm by (by destruct b).
  assert (delete key (to_map n0 ∪ to_map n1) = to_map (if b then n0 else n1)) as Hdel.
  { rewrite delete_union_key. destruct b; rewrite Hkey, delete_singleton_eq;
      rewrite ?(left_id_L ∅ (∪)), ?(right_id_L ∅ (∪)); by apply delete_id. }
  rewrite Hdel. unfold unlink_merge.
  destruct (if b then n0 else n1) as [|m0 m1 md mpart mlen] eqn:Em; [by inversion Hm|].
  assert (is_u64 mpart /\ Z.shiftr mpart (off - len + 1) = Z.shiftr part (off - len + 1)
          /\ 1 <= mlen <= off - len + 1) as (Hmp & Hs & Hml).
  { inversion Hm; subst; (split; [done|split; [done|lia]]). }
  rewrite mask_low, merge_part by (done || lia). rewrite u8_off by lia.
  destruct (wf_merge pre off part len m0 m1 md mpart mlen) as [Hw Hb]; try done.
  eexists. split; [reflexivity|]. done.
Qed.

(** A node on the path to a key that is present: the key's leaf, or an inner
    node whose bits match it. *)
Lemma present_cases pre off t key v :
  wf pre off t -> is_u64 key -> to_map t !! key = Some v ->
  (t = Node Null Null (Some v) key (off + 1) /\ bineq key key off (off + 1) = true)
  \/ (exists n0 n1 p len, t = Node n0 n1 None p len /\ 1 <= len <= off
        /\ bineq p key off len = true).
Proof.
  intros Hwf Hk Hl. destruct (wf_keys _ _ _ _ _ Hwf Hl) as (_ & _ & Hpre).
  destruct Hwf as [pre off d part Hp Ho Hpre'|pre off n0 n1 part len Hp Ho Hpre' Hlen H0 H1 B0 B1].
  - cbn [to_map] in Hl. apply lookup_singleton_Some in Hl as [-> ->]. left. split; [done|].
    apply bineq_iff; (done || lia).
  - right. exists n0, n1, part, len. split; [done|]. split; [done|].
    apply bineq_iff; try done; [lia|congruence|]. symmetry.
    cbn [to_map] in Hl. rewrite (children_lookup _ _ _ _ _ H0 H1) in Hl by done.
    destruct (Z.testbit key (off - len));
      [apply (wf_keys _ _ _ _ _ H1 Hl)|apply (wf_keys _ _ _ _ _ H0 Hl)].
Qed.

Definition inner_off (t : node V) (off : Z) : Z := off - (node_parts t).2.

Lemma delete_loop_present pre off t key v :
  wf pre off t -> is_u64 key -> (node_parts t).2 <= off -> to_map t !! key = Some v ->
  delete_ok pre off t key v (delete_loop false t key (inner_off t off)).
Proof.
  intros Hwf Hk.
  induction Hwf as [pre off d part Hp Ho Hpre|pre off n0 n1 part len Hp Ho Hpre Hlen H0 IH0 H1 IH1 B0 B1];
    unfold inner_off; cbn [node_parts fst snd]; intros Hle Hl; [lia|].
  cbn [to_map] in Hl. rewrite (children_lookup _ _ _ _ _ H0 H1) in Hl by done.
  cbn [delete_loop]. unfold delete_ok.
  assert (forall n : node V, wf (Z.shiftr part (off - len + 1)) (off - len) n ->
    Z.testbit (node_parts n).1 (off - len) <> Z.testbit key (off - len) -> to_map n !! key = None) as Hno.
  { intros n Hn Hb. by eapply child_none. }
  destruct (Z.testbit key (off - len)) eqn:Eb.
  - assert (to_map n0 !! key = None) as Hn0 by (apply Hno; [done|by rewrite B0]).
    destruct (present_cases _ _ _ _ _ H1 Hk Hl) as [[En Hbq]|(x0 & x1 & p & l & En & Hll & Hbq)];
      rewrite En, Hbq.
    + destruct (Z.ltb_spec (off - len) (off - len + 1)); [|lia].
      destruct (unlink_merge_spec pre off n0 n1 part len key v true) as (q & Hq & Hw & Hm & Hb);
        try done; [by rewrite En|].
      rewrite <- En, Hq. eexists. split; [reflexivity|]. done.
    + destruct (Z.ltb_spec (off - len) l); [lia|].
      rewrite En in IH1. destruct IH1 as (t' & Hr & Hw & Hm & Hb); [cbn; lia|by rewrite <- En|].
      unfold inner_off in Hr. cbn [node_parts snd] in Hr. rewrite Hr. cbn.
      eexists. split; [reflexivity|]. split_and!; [| |done].
      * rewrite <- En in Hb. apply wf_inner; (done || by rewrite Hb).
      * cbn [to_map]. rewrite Hm, delete_union_key. by rewrite (delete_id (to_map n0)).
  - assert (to_map n1 !! key = None) as Hn1 by (apply Hno; [done|by rewrite B1]).
    destruct (present_cases _ _ _ _ _ H0 Hk Hl) as [[En Hbq]|(x0 & x1 & p & l & En & Hll & Hbq)];
      rewrite En, Hbq.
    + destruct (Z.ltb_spec (off - len) (off - len + 1)); [|lia].
      destruct (unlink_merge_spec pre off n0 n1 part len key v false) as (q & Hq & Hw & Hm & Hb);
        try done; [by rewrite En|].
      rewrite <- En, Hq. eexists. split; [reflexivity|]. done.
    + destruct (Z.ltb_spec (off - len) l); [lia|].
      rewrite En in IH0. destruct IH0 as (t' & Hr & Hw & Hm & Hb); [cbn; lia|by rewrite <- En|].
      unfold inner_off in Hr. cbn [node_parts snd] in Hr. rewrite Hr. cbn.
      eexists. split; [reflexivity|]. split_and!; [| |done].
      * rewrite <- En in Hb. apply wf_inner; (done || by rewrite Hb).
      * cbn [to_map]. rewrite Hm, delete_union_key. by rewrite (delete_id (to_map n1)).
Qed.

(** A key that is absent below a node stops the walk with nothing changed. *)
Lemma delete_loop_absent pre off t key :
  wf pre off t -> is_u64 key -> (node_parts t).2 <= off -> to_map t !! key = None ->
  Z.shiftr key (inner_off t off + 1) = Z.shiftr (node_parts t).1 (inner_off t off + 1) ->
  delete_loop false t key (inner_off t off) = Some (None, t).
Proof.
  intros Hwf Hk.
  induction Hwf as [pre off d part Hp Ho Hpre|pre off n0 n1 part len Hp Ho Hpre Hlen H0 IH0 H1 IH1 B0 B1];
    unfold inner_off; cbn [node_parts fst snd]; intros Hle Hl Hs; [lia|].
  cbn [to_map] in Hl. rewrite (children_lookup _ _ _ _ _ H0 H1) in Hl by done.
  cbn [delete_loop].
  assert (forall n : node V, wf (Z.shiftr part (off - len + 1)) (off - len) n ->
    to_map n !! key = None ->
    ((node_parts n).2 <= off - len -> to_map n !! key = None ->
      Z.shiftr key (inner_off n (off - len) + 1) = Z.shiftr (node_parts n).1 (inner_off n (off - len) + 1) ->
      delete_loop false n key (inner_off n (off - len)) = Some (None, n)) ->
    exists x0 x1 d p l, n = Node x0 x1 d p l /\
      (bineq p key (off - len) l = false \/
       (bineq p key (off - len) l = true /\ l <= off - len
        /\ delete_loop false n key (off - len - l) = Some (None, n)))) as Hstep.
  { intros n Hn Hnl IH.
    destruct n as [|x0 x1 d p l]; [by inversion Hn|]. exists x0, x1, d, p, l. split; [done|].
    destruct (bineq p key (off - len) l) eqn:Eb; [right|by left].
    assert (is_u64 p /\ Z.shiftr p (off - len + 1) = Z.shiftr part (off - len + 1)
            /\ 1 <= l <= off - len + 1) as (Hpp & Hps & Hpl).
    { inversion Hn; subst; (split; [done|split; [done|lia]]). }
    apply bineq_iff in Eb; [|done|done|lia|lia|congruence].
    inversion Hn; subst.
    - exfalso. replace (off - len - (off - len + 1) + 1) with 0 in Eb by lia.
      rewrite !Z.shiftr_0_r in Eb. subst p. cbn in Hnl. by rewrite lookup_singleton_eq in Hnl.
    - split; [done|]. split; [lia|]. apply IH; [cbn; lia|done|]. by symmetry. }
  destruct (Z.testbit key (off - len)) eqn:Eb.
  - destruct (Hstep n1 H1 Hl IH1) as (x0 & x1 & d & p & l & En & [Hb|(Hb & Hll & Hr)]);
      rewrite En, Hb; [done|]. destruct (Z.ltb_spec (off - len) l); [lia|].
    rewrite <- En, Hr. done.
  - destruct (Hstep n0 H0 Hl IH0) as (x0 & x1 & d & p & l & En & [Hb|(Hb & Hll & Hr)]);
      rewrite En, Hb; [done|]. destruct (Z.ltb_spec (off - len) l); [lia|].
    rewrite <- En, Hr. done.
Qed.
(** ** The whole tree, entered at its root *)
Lemma root_inv t :
  wf_root t -> exists n0 n1 part, t = Node n0 n1 None part 0 /\ child_ok false n0 /\ child_ok true n1.
Proof.
  destruct t as [|n0 n1 [d|] part len]; try done.
  destruct len; try done. intros [? ?]. by eexists _, _, _.
Qed.

Lemma child_lookup_none b t (key : Z) :
  child_ok b t -> Z.testbit key 63 = negb b -> to_map t !! key = None.
Proof.
  intros [->|[Hw Hb]] E; [done|]. eapply (child_none _ 63); [done|].
  rewrite Hb, E. by destruct b.
Qed.

Lemma root_lookup (n0 n1 : node V) (key : Z) :
  child_ok false n0 -> child_ok true n1 ->
  (to_map n0 ∪ to_map n1) !! key
  = to_map (if Z.testbit key 63 then n1 else n0) !! key.
Proof.
  intros H0 H1. destruct (Z.testbit key 63) eqn:E.
  - apply lookup_union_r. by apply (child_lookup_none false).
  - apply lookup_union_l. by apply (child_lookup_none true).
Qed.

Lemma shiftr_u64_64 key : is_u64 key -> Z.shiftr key 64 = 0.
Proof. intros. rewrite Z.shiftr_div_pow2 by lia. by apply Z.div_small. Qed.

Lemma shiftr_u64_63 (a b : Z) :
  is_u64 a -> is_u64 b -> Z.testbit a 63 = Z.testbit b 63 -> Z.shiftr a 63 = Z.shiftr b 63.
Proof. intros Ha Hb E. apply shiftr_step; [lia| |done]. by rewrite !shiftr_u64_64. Qed.

Lemma wf_is_u64 pre off t : wf pre off t -> is_u64 (node_parts t).1.
Proof. by destruct 1. Qed.

Lemma wf_null_map pre off t : wf pre off t -> exists k v, to_map t !! k = Some v.
Proof.
  induction 1 as [pre off d part Hp Ho Hpre|pre off n0 n1 part len Hp Ho Hpre Hlen H0 IH0 H1 IH1 B0 B1].
  - exists part, d. apply lookup_singleton_eq.
  - destruct IH0 as (k & v & E). exists k, v. cbn [to_map]. by apply lookup_union_Some_l.
Qed.

Lemma bincmp_root a b : bincmp a b (u8 63) 0 = 0.
Proof. done. Qed.

Lemma wf_new : wf_root (V:=V) binradix_new.
Proof. split; by left. Qed.

(** Where the root's child for [key] is replaced. *)
Lemma wf_root_set (n0 n1 n : node V) part (b : bool) :
  child_ok false n0 -> child_ok true n1 -> child_ok b n ->
  wf_root (if b then Node n0 n None part 0 else Node n n1 None part 0).
Proof. intros. by destruct b. Qed.

Definition root_child t (key : Z) : node V :=
  match t with Null => Null | Node n0 n1 _ _ _ => if Z.testbit key 63 then n1 else n0 end.

Lemma insert_root_eq (n0 n1 : node V) part key v :
  binradix_insert (Node n0 n1 None part 0) key v =
  let bit := Z.testbit key 63 in
  match (if bit then n1 else n0) with
  | Null => let new := Node Null Null (Some v) key 64 in
            Some (None, if bit then Node n0 new None part 0 else Node new n1 None part 0)
  | Node _ _ _ _ _ as c =>
      '(ret, n) ← insert_loop c key v (2 ^ 63) 63;
      Some (ret, if bit then Node n0 n None part 0 else Node n n1 None part 0)
  end.
Proof.
  unfold binradix_insert. cbn [insert_loop]. rewrite bincmp_root. simpl negb. cbv iota zeta.
  rewrite shr64_pow by lia. replace (63 - 0) with 63 by lia. cbn [mbind option_bind].
  rewrite land_pow_bit, pow_nonzero by lia.
  destruct (Z.testbit key 63); [destruct n1|destruct n0]; done.
Qed.

Lemma insert_fresh t (key : Z) v :
  wf_root t -> is_u64 key -> to_map t !! key = None ->
  exists t', binradix_insert t key v = Some (None, t') /\ wf_root t'
    /\ to_map t' = <[key := v]> (to_map t).
Proof.
  intros Hw Hk Hn. destruct (root_inv t Hw) as (n0 & n1 & part & -> & H0 & H1).
  rewrite insert_root_eq. cbn [to_map] in *. rewrite root_lookup in Hn by done. cbv zeta.
  assert (exists n, match (if Z.testbit key 63 then n1 else n0) with
      | Null => n = Node Null Null (Some v) key 64
      | Node _ _ _ _ _ as c => insert_loop c key v (2 ^ 63) 63 = Some (None, n)
      end /\ child_ok (Z.testbit key 63) n
      /\ to_map n = <[key := v]> (to_map (if Z.testbit key 63 then n1 else n0)))
    as (n & Hr & Hc & Hm).
  { assert (child_ok (Z.testbit key 63) (if Z.testbit key 63 then n1 else n0)) as Hok
      by (by destruct (Z.testbit key 63)).
    destruct (if Z.testbit key 63 then n1 else n0) as [|x0 x1 x2 x3 x4] eqn:Ec.
    - eexists. split; [reflexivity|]. split; [right|done].
      split; [apply (wf_leaf 0 63); [done|lia|by apply shiftr_u64_64]|done].
    - destruct Hok as [|[Hok Hb]]; [done|].
      destruct (insert_loop_fresh 0 63 (Node x0 x1 x2 x3 x4) key v) as (n & Hr & Hwn & Hmn & Hp);
        try done.
      { apply shiftr_u64_63; [done|by eapply wf_is_u64|done]. }
      exists n. split; [done|]. split; [right; by rewrite Hp|done]. }
  destruct (Z.testbit key 63) eqn:Eb.
  - exists (Node n0 n None part 0). split; [|split; [done|]].
    + destruct n1; [by subst n|by rewrite Hr].
    + cbn [to_map]. rewrite Hm. symmetry. apply insert_union_r. by apply (child_lookup_none false).
  - exists (Node n n1 None part 0). split; [|split; [done|]].
    + destruct n0; [by subst n|by rewrite Hr].
    + cbn [to_map]. by rewrite Hm, insert_union_l.
Qed.

Lemma insert_present t (key : Z) v old :
  wf_root t -> is_u64 key -> to_map t !! key = Some old ->
  binradix_insert t key v
  = if bool_decide ((node_parts (root_child t key)).2 = 64) then None else Some (Some old, t).
Proof.
  intros Hw Hk Ho. destruct (root_inv t Hw) as (n0 & n1 & part & -> & H0 & H1).
  rewrite insert_root_eq. cbn [to_map] in *. rewrite root_lookup in Ho by done.
  cbv zeta. cbn [root_child].
  assert (child_ok (Z.testbit key 63) (if Z.testbit key 63 then n1 else n0)) as Hok
    by (by destruct (Z.testbit key 63)).
  destruct Hok as [E|[Hok Hb]]; [by rewrite E in Ho|].
  pose proof (insert_loop_present 0 63 _ key v old Hok Hk Ho) as Hr.
  rewrite (bool_decide_ext _ ((node_parts (if Z.testbit key 63 then n1 else n0)).2 = 64)) in Hr by tauto.
  destruct (Z.testbit key 63).
  - destruct n1; [by inversion Hok|]. rewrite Hr. by case_bool_decide.
  - destruct n0; [by inversion Hok|]. rewrite Hr. by case_bool_decide.
Qed.

(** A step of [binradix_delete] taken from the root. *)
Lemma delete_child t (key : Z) :
  wf 0 63 t -> is_u64 key -> Z.testbit (node_parts t).1 63 = Z.testbit key 63 ->
  (node_parts t).2 <= 63 ->
  match to_map t !! key with
  | Some v => exists t', delete_loop false t key (63 - (node_parts t).2) = Some (Some v, t')
      /\ wf 0 63 t' /\ to_map t' = delete key (to_map t)
      /\ Z.testbit (node_parts t').1 63 = Z.testbit (node_parts t).1 63
  | None => bineq (node_parts t).1 key 63 (node_parts t).2 = true ->
      delete_loop false t key (63 - (node_parts t).2) = Some (None, t)
  end.
Proof.
  intros Hw Hk Hb Hl. destruct (to_map t !! key) as [v|] eqn:E.
  - by apply (delete_loop_present 0 63).
  - intros Hq. apply (delete_loop_absent 0 63); try done.
    pose proof (wf_is_u64 _ _ _ Hw).
    assert (1 <= (node_parts t).2 <= 64).
    { inversion Hw; simpl; lia. }
    apply bineq_iff in Hq; [|done|done|lia|lia|by rewrite !shiftr_u64_64].
    by symmetry.
Qed.

Lemma delete_root_eq (n0 n1 : node V) part key :
  binradix_delete (Node n0 n1 None part 0) key =
  let bit := Z.testbit key 63 in
  match (if bit then n1 else n0) with
  | Null => None
  | Node _ _ d cpart len as c =>
      if bineq cpart key 63 len then
        if 63 <? len then
          Some (d, if bit then Node n0 Null None part 0 else Node Null n1 None part 0)
        else
          '(ret, n) ← delete_loop false c key (63 - len);
          Some (ret, if bit then Node n0 n None part 0 else Node n n1 None part 0)
      else Some (None, Node n0 n1 None part 0)
  end.
Proof.
  unfold binradix_delete. cbn [delete_loop unlink_merge]. cbv zeta.
  destruct (Z.testbit key 63); [destruct n1|destruct n0]; try done; by repeat case_match.
Qed.

Lemma wf_leaf_iff t : wf 0 63 t -> 63 < (node_parts t).2 ->
  exists d part, t = Node Null Null (Some d) part 64 /\ is_u64 part.
Proof. inversion 1; simpl; intros; [by eexists _, _|lia]. Qed.

Lemma bineq_full a b : is_u64 a -> is_u64 b -> bineq a b 63 64 = true <-> a = b.
Proof.
  intros Ha Hb. rewrite bineq_iff; [|done|done|lia|lia|by rewrite !shiftr_u64_64].
  replace (63 - 64 + 1) with 0 by lia. by rewrite !Z.shiftr_0_r.
Qed.

Lemma delete_present t (key : Z) v :
  wf_root t -> is_u64 key -> to_map t !! key = Some v ->
  exists t', binradix_delete t key = Some (Some v, t') /\ wf_root t'
    /\ to_map t' = delete key (to_map t).
Proof.
  intros Hw Hk Hv. destruct (root_inv t Hw) as (n0 & n1 & part & -> & H0 & H1).
  rewrite delete_root_eq. cbn [to_map] in *. rewrite root_lookup in Hv by done. cbv zeta.
  set (c := if Z.testbit key 63 then n1 else n0) in *.
  assert (child_ok (Z.testbit key 63) c) as Hok by (unfold c; by destruct (Z.testbit key 63)).
  assert (exists n, match c with
      | Null => None
      | Node _ _ d cpart len => if bineq cpart key 63 len then
          if 63 <? len then Some (d, Null) else delete_loop false c key (63 - len)
        else None
      end = Some (Some v, n) /\ child_ok (Z.testbit key 63) n /\ to_map n = delete key (to_map c))
    as (n & Hr & Hcn & Hm).
  { destruct Hok as [E|[Hok Hb]]; [by rewrite E in Hv|].
    destruct (present_cases 0 63 _ _ _ Hok Hk Hv) as [[E Hq]|(x0 & x1 & p & l & E & Hl & Hq)].
    - rewrite E, Hq. exists Null. split; [done|]. split; [by left|].
      cbn [to_map]. by rewrite delete_singleton_eq.
    - pose proof (delete_child c key Hok Hk Hb) as Hd. rewrite Hv, E in Hd.
      destruct Hd as (n & Hr & Hwn & Hmn & Hbn); [simpl; lia|].
      exists n. rewrite E, Hq. destruct (Z.ltb_spec 63 l); [lia|].
      split; [done|]. split; [|done]. right. split; [done|]. rewrite Hbn. by rewrite <- E. }
  exists (if Z.testbit key 63 then Node n0 n None part 0 else Node n n1 None part 0).
  split; [|split].
  - destruct c; [done|]. destruct (bineq _ _ _ _); [|done]. destruct (_ <? _).
    + by simplify_eq.
    + by rewrite Hr.
  - by destruct (Z.testbit key 63).
  - rewrite delete_union_key. unfold c in Hm. destruct (Z.testbit key 63) eqn:Eb; cbn [to_map]; rewrite Hm.
    + by rewrite (delete_id (to_map n0)) by (by apply (child_lookup_none false)).
    + by rewrite (delete_id (to_map n1)) by (by apply (child_lookup_none true)).
Qed.

Lemma delete_absent t (key : Z) :
  wf_root t -> is_u64 key -> to_map t !! key = None ->
  binradix_delete t key = match root_child t key with Null => None | _ => Some (None, t) end.
Proof.
  intros Hw Hk Hv. destruct (root_inv t Hw) as (n0 & n1 & part & -> & H0 & H1).
  rewrite delete_root_eq. cbn [to_map] in *. rewrite root_lookup in Hv by done. cbv zeta.
  cbn [root_child]. set (c := if Z.testbit key 63 then n1 else n0) in *.
  assert (child_ok (Z.testbit key 63) c) as Hok by (unfold c; by destruct (Z.testbit key 63)).
  assert ((if Z.testbit key 63 then Node n0 c None part 0 else Node c n1 None part 0)
    = Node n0 n1 None part 0) as Hsame by (unfold c; by destruct (Z.testbit key 63)).
  destruct Hok as [->|[Hok Hb]]; [done|]. clearbody c.
  destruct c as [|x0 x1 d p l]; [done|].
  destruct (bineq p key 63 l) eqn:Hq; [|done].
  destruct (Z.ltb_spec 63 l) as [Hl|Hl].
  - exfalso. destruct (wf_leaf_iff _ Hok Hl) as (d' & p' & [= -> -> -> -> ->] & Hp').
    apply bineq_full in Hq as ->; [|done|done]. cbn in Hv. by rewrite lookup_singleton_eq in Hv.
  - pose proof (delete_child _ key Hok Hk Hb Hl) as Hd. rewrite Hv in Hd.
    cbn [node_parts fst snd] in Hd. rewrite (Hd Hq). cbn. cbn in Hsame. by destruct (Z.testbit key 63); rewrite Hsame.
Qed.

(** ** The order of the visits *)
Fixpoint entries t : list (Z * V) :=
  match t with
  | Null => []
  | Node n0 n1 (Some d) part _ => [(part, d)]
  | Node n0 n1 None _ _ => entries n0 ++ entries n1
  end.

Lemma visits_entries t : visits t = (entries t).*2.
Proof. induction t as [|n0 IH0 n1 IH1 [d|] part len]; [done|done|]. cbn. by rewrite fmap_app, IH0, IH1. Qed.

Lemma entries_map pre off t k v : wf pre off t -> (k, v) ∈ entries t <-> to_map t !! k = Some v.
Proof.
  intros Hwf.
  induction Hwf as [pre off d part Hp Ho Hpre|pre off n0 n1 part len Hp Ho Hpre Hlen H0 IH0 H1 IH1 B0 B1]; cbn.
  - rewrite list_elem_of_singleton, lookup_singleton_Some. split; [by intros [= -> ->]|by intros [-> ->]].
  - rewrite elem_of_app, IH0, IH1, lookup_union_Some; [done|].
    apply map_disjoint_spec. intros k' v0 v1 E0 E1.
    apply (wf_key_bit _ _ _ _ _ H0) in E0; [|lia]. apply (wf_key_bit _ _ _ _ _ H1) in E1; [|lia]. congruence.
Qed.

(** Keys that agree above a bit are ordered by that bit. *)
Lemma bit_lt (a b n : Z) :
  0 <= n -> 0 <= a -> 0 <= b -> Z.shiftr a (n + 1) = Z.shiftr b (n + 1) ->
  Z.testbit a n = false -> Z.testbit b n = true -> a < b.
Proof.
  intros Hn Ha Hb Hs Ea Eb.
  assert (forall x, Z.shiftr x n = 2 * Z.shiftr x (n + 1) + Z.b2z (Z.testbit x n)) as Hx.
  { intros x. rewrite <- Z.shiftr_shiftr by lia. rewrite <- (Z.add_0_l n) at 3.
    rewrite <- Z.shiftr_spec by lia. rewrite <- Z.div2_spec. apply Z.div2_odd. }
  pose proof (Hx a) as Hxa. pose proof (Hx b) as Hxb. rewrite Ea in Hxa. rewrite Eb in Hxb.
  rewrite !(Z.shiftr_div_pow2 _ n) in * by lia. simpl in *.
  assert (0 < 2 ^ n) by (by apply Z.pow_pos_nonneg).
  pose proof (Z.div_mod a (2 ^ n)). pose proof (Z.div_mod b (2 ^ n)).
  pose proof (Z.mod_pos_bound a (2 ^ n)). pose proof (Z.mod_pos_bound b (2 ^ n)). nia.
Qed.

Lemma sorted_app (l1 l2 : list Z) :
  StronglySorted Z.lt l1 -> StronglySorted Z.lt l2 ->
  (forall a b, a ∈ l1 -> b ∈ l2 -> a < b) -> StronglySorted Z.lt (l1 ++ l2).
Proof.
  intros H1 H2 H. induction H1 as [|x l1 H1 IH Hx]; simpl; [done|].
  constructor; [apply IH; set_solver|]. apply Forall_app. split; [done|].
  apply Forall_forall. intros b Hb. apply H; [set_solver|done].
Qed.

Lemma entries_sorted pre off t : wf pre off t -> StronglySorted Z.lt (entries t).*1.
Proof.
  intros Hwf.
  induction Hwf as [pre off d part Hp Ho Hpre|pre off n0 n1 part len Hp Ho Hpre Hlen H0 IH0 H1 IH1 B0 B1]; cbn.
  - by repeat constructor.
  - rewrite fmap_app. apply sorted_app; [done|done|]. intros a b Ha Hb.
    apply list_elem_of_fmap in Ha as ([a' va] & -> & Ha). apply list_elem_of_fmap in Hb as ([b' vb] & -> & Hb).
    apply (entries_map _ _ _ _ _ H0) in Ha. apply (entries_map _ _ _ _ _ H1) in Hb. simpl.
    pose proof (wf_keys _ _ _ _ _ H0 Ha) as (Hka & _ & Hsa).
    pose proof (wf_keys _ _ _ _ _ H1 Hb) as (Hkb & _ & Hsb).
    apply (wf_key_bit _ _ _ _ _ H0) in Ha; [|lia]. apply (wf_key_bit _ _ _ _ _ H1) in Hb; [|lia].
    unfold is_u64 in *. apply (bit_lt _ _ (off - len)); (lia || congruence).
Qed.

Lemma child_entries b t :
  child_ok b t -> StronglySorted Z.lt (entries t).*1 /\
  (forall k v, (k, v) ∈ entries t <-> to_map t !! k = Some v) /\
  (forall k v, (k, v) ∈ entries t -> is_u64 k /\ Z.testbit k 63 = b).
Proof.
  intros [->|[Hw Hb]].
  - split; [constructor|]. split; [|by intros k v ?%elem_of_nil].
    intros k v. cbn. by rewrite lookup_empty, elem_of_nil.
  - split; [by eapply entries_sorted|]. split; [intros; by eapply entries_map|].
    intros k v H. apply (entries_map _ _ _ _ _ Hw) in H.
    split; [by apply (wf_keys _ _ _ _ _ Hw H)|].
    rewrite (wf_key_bit _ _ _ _ _ Hw ltac:(lia) H). done.
Qed.

Lemma root_entries t :
  wf_root t -> StronglySorted Z.lt (entries t).*1 /\
  forall k v, (k, v) ∈ entries t <-> to_map t !! k = Some v.
Proof.
  intros Hw. destruct (root_inv t Hw) as (n0 & n1 & part & -> & H0 & H1).
  destruct (child_entries _ _ H0) as (S0 & E0 & B0), (child_entries _ _ H1) as (S1 & E1 & B1).
  cbn. split.
  - rewrite fmap_app. apply sorted_app; [done|done|]. intros a b Ha Hb.
    apply list_elem_of_fmap in Ha as ([a' va] & -> & Ha). apply list_elem_of_fmap in Hb as ([b' vb] & -> & Hb).
    simpl. destruct (B0 _ _ Ha) as [? ?], (B1 _ _ Hb) as [? ?]. unfold is_u64 in *.
    apply (bit_lt _ _ 63); try (lia || done). by rewrite !shiftr_u64_64.
  - intros k v. rewrite elem_of_app, E0, E1, root_lookup by done.
    destruct (Z.testbit k 63) eqn:Ek; split.
    + intros [H|H]; [|done]. apply E0, B0 in H as [_ ?]. congruence.
    + auto.
    + intros [H|H]; [done|]. apply E1, B1 in H as [_ ?]. congruence.
    + auto.
Qed.
End facts.

(** ** What the tree promises to its clients

    A [RadixMap] is a map from 64-bit keys with the contract of
    [binradix_find], [binradix_insert] and [binradix_delete]: inserting needs a
    fresh key and deleting a present one, the two cases in which the code is
    defined whatever the shape of the tree. *)
Class RadixMap (R V : Type) := {
  r_map : R -> gmap Z V;
  r_ok : R -> Prop;
  r_new : R;
  r_find : R -> Z -> option V;
  r_insert : R -> Z -> V -> option (option V * R);
  r_delete : R -> Z -> option (option V * R);
  r_visit : R -> list V;
  r_new_ok : r_ok r_new /\ r_map r_new = ∅;
  r_find_spec r k : r_ok r -> is_u64 k -> r_find r k = r_map r !! k;
  r_insert_spec r k v : r_ok r -> is_u64 k -> r_map r !! k = None ->
    exists r', r_insert r k v = Some (None, r') /\ r_ok r' /\ r_map r' = <[k := v]> (r_map r);
  r_delete_spec r k v : r_ok r -> is_u64 k -> r_map r !! k = Some v ->
    exists r', r_delete r k = Some (Some v, r') /\ r_ok r' /\ r_map r' = delete k (r_map r);
  r_visit_spec r : r_ok r -> r_visit r ≡ₚ (map_to_list (r_map r)).*2;
}.

Lemma find_wf {V} (t : node V) key : wf_root t -> is_u64 key -> binradix_find t key = to_map t !! key.
Proof.
  intros Hw Hk. destruct (root_inv t Hw) as (n0 & n1 & part & -> & H0 & H1).
  unfold binradix_find. cbn [find_loop to_map]. replace (bineq part key 63 0) with true by done.
  simpl (0 <=? 63). cbv iota zeta. replace (u8 (63 - 0)) with 63 by done.
  rewrite root_lookup by done.
  assert (forall b (n : node V), child_ok b n -> find_loop n key 63 = to_map n !! key) as Hc.
  { intros b n [->|[Hn _]]; [done|]. apply (find_loop_spec 0); [done|done|by apply shiftr_u64_64]. }
  destruct (Z.testbit key 63); [by apply (Hc true)|by apply (Hc false)].
Qed.

(** The data the visitor of [binradix_for_each] is called on, in order. *)
Definition visited {V} (t : node V) : list V := binradix_for_each t [] (fun x s => s ++ [x]).

Lemma foldl_snoc {V} (l acc : list V) : foldl (fun s x => s ++ [x]) acc l = acc ++ l.
Proof.
  revert acc. induction l as [|x l IH]; intros acc; simpl; [by rewrite app_nil_r|].
  by rewrite IH, <- app_assoc.
Qed.

Lemma for_each_entries {V S} (t : node V) (d : S) (v : V -> S -> S) :
  wf_root t -> binradix_for_each t d v = foldl (fun s x => v x s) d (entries t).*2.
Proof.
  intros Hw. destruct (root_inv t Hw) as (n0 & n1 & part & -> & _).
  cbn. by rewrite fmap_app, !visits_entries.
Qed.

Lemma entries_permutation {V} (t : node V) : wf_root t -> entries t ≡ₚ map_to_list (to_map t).
Proof.
  intros Hw. destruct (root_entries t Hw) as [Hs He].
  apply NoDup_Permutation; [|apply NoDup_map_to_list|].
  - apply (NoDup_fmap_1 fst). clear He Hw. induction Hs as [|a l Hs IH Ha]; constructor; [|done].
    intros Hin. rewrite Forall_forall in Ha. apply Ha in Hin. lia.
  - intros [k x]. by rewrite He, elem_of_map_to_list.
Qed.

Lemma visited_spec {V} (t : node V) : wf_root t -> visited t ≡ₚ (map_to_list (to_map t)).*2.
Proof.
  intros Hw. unfold visited. rewrite for_each_entries, foldl_snoc by done. simpl.
  by rewrite entries_permutation.
Qed.

#[export] Instance binradix_map V : RadixMap (node V) V := {
  r_map := to_map; r_ok := wf_root; r_new := binradix_new;
  r_find := binradix_find; r_insert := binradix_insert; r_delete := binradix_delete; r_visit := visited;
  r_new_ok := conj wf_new (left_id_L ∅ (∪) ∅);
  r_find_spec := find_wf; r_insert_spec := insert_fresh; r_delete_spec := delete_present; r_visit_spec := visited_spec;
}.

(** Finite maps themselves are the reference implementation. *)
#[export] Program Instance gmap_radix V : RadixMap (gmap Z V) V := {
  r_map m := m; r_ok _ := True; r_new := ∅;
  r_find m k := m !! k;
  r_insert m k v := match m !! k with
                    | Some old => Some (Some old, m)
                    | None => Some (None, <[k := v]> m)
                    end;
  r_delete m k := match m !! k with Some v => Some (Some v, delete k m) | None => None end;
  r_visit m := (map_to_list m).*2;
}.
Solve Obligations with (intros; try done; simplify_option_eq; eauto 10).

(** A client that knows only the interface: a batch of fresh, distinct keys is
    stored by inserting them one after the other. *)
Fixpoint r_inserts `{RadixMap R V} (r : R) (l : list (Z * V)) : option R :=
  match l with
  | [] => Some r
  | (k, v) :: l => '(_, r') ← r_insert r k v; r_inserts r' l
  end.

Section client.
Context `{RM : RadixMap R V}.

Lemma r_inserts_spec (l : list (Z * V)) (r : R) :
  r_ok r -> NoDup l.*1 -> Forall (fun kv => is_u64 kv.1 /\ r_map r !! kv.1 = None) l ->
  exists r', r_inserts r l = Some r' /\ r_ok r' /\ r_map r' = list_to_map l ∪ r_map r.
Proof.
  revert r. induction l as [|[k v] l IH]; intros r Hok Hnd Hl; simpl.
  - exists r. by rewrite (left_id_L ∅ (∪)).
  - apply Forall_cons in Hl as [[Hk Hn] Hl]. apply NoDup_cons in Hnd as [Hnk Hnd].
    destruct (r_insert_spec r k v Hok Hk Hn) as (r1 & E & Hok1 & Hm1). rewrite E. simpl.
    destruct (IH r1) as (r' & E' & Hok' & Hm'); [done|done| |].
    + apply Forall_forall. intros [k' v'] Hin. rewrite Forall_forall in Hl. apply Hl in Hin as Hin'.
      rewrite Hm1, lookup_insert_ne; [done|]. intros ->. apply Hnk.
      apply list_elem_of_fmap. by exists (k', v').
    + exists r'. split; [done|]. split; [done|]. rewrite Hm', Hm1.
      rewrite <- insert_union_r; [by rewrite insert_union_l|].
      by apply not_elem_of_list_to_map_1.
Qed.
End client.

(** ** Theorems *)
(** [binradix_find] on a well-formed tree is lookup in the map of its leaves:
    a present key gives its data, an absent one NULL. *)
Theorem binradix_find_correct {V} (t : node V) key :
  wf_root t -> is_u64 key -> binradix_find t key = to_map t !! key.
Proof. apply find_wf. Qed.

(** C10: [binradix_insert] of a fresh key returns NULL, keeps the tree well formed
    and adds exactly that key; of a present key it returns the data already
    there and changes nothing, except when the key's leaf hangs directly off
    the root, where the code shifts a 64-bit word by 64. *)
Theorem binradix_insert_correct {V} (t : node V) key v :
  wf_root t -> is_u64 key ->
  match to_map t !! key with
  | None => exists t', binradix_insert t key v = Some (None, t') /\ wf_root t'
              /\ to_map t' = <[key := v]> (to_map t)
  | Some old => binradix_insert t key v =
      if bool_decide ((node_parts (root_child t key)).2 = 64) then None else Some (Some old, t)
  end.
Proof.
  intros Hw Hk. destruct (to_map t !! key) eqn:E; [by apply insert_present|by apply insert_fresh].
Qed.

(** C11: [binradix_delete] of a present key returns its data and removes exactly that
    key, keeping the tree well formed; of an absent key it returns NULL and
    changes nothing, except when the root has no child on the key's side,
    where the code reads through a NULL pointer. *)
Theorem binradix_delete_correct {V} (t : node V) key :
  wf_root t -> is_u64 key ->
  match to_map t !! key with
  | Some v => exists t', binradix_delete t key = Some (Some v, t') /\ wf_root t'
                /\ to_map t' = delete key (to_map t)
  | None => binradix_delete t key =
      match root_child t key with Null => None | _ => Some (None, t) end
  end.
Proof.
  intros Hw Hk. destruct (to_map t !! key) eqn:E; [by apply delete_present|by apply delete_absent].
Qed.

(** [binradix_for_each] calls the visitor exactly once per key, in increasing
    order of the keys, whatever the visitor does to its own data. *)
Theorem binradix_for_each_ordered {V S} (t : node V) (d : S) (v : V -> S -> S) :
  wf_root t ->
  exists l, StronglySorted Z.lt l.*1 /\ l ≡ₚ map_to_list (to_map t)
    /\ binradix_for_each t d v = foldl (fun s x => v x s) d l.*2.
Proof.
  intros Hw. exists (entries t). split; [apply (root_entries t Hw)|].
  split; [by apply entries_permutation|by apply for_each_entries].
Qed.

(** the radix tree satisfies its client interface: loading any batch of
    distinct keys into an empty tree succeeds and every key is then found,
    no other key is. *)
Theorem binradix_batch {V} (l : list (Z * V)) key :
  NoDup l.*1 -> Forall (fun kv => is_u64 kv.1) l -> is_u64 key ->
  exists t, r_inserts (binradix_new (V:=V)) l = Some t
    /\ binradix_find t key = (list_to_map l : gmap Z V) !! key.
Proof.
  intros Hnd Hl Hk. destruct (r_inserts_spec l (binradix_new (V:=V))) as (t & E & Hok & Hm).
  - apply wf_new.
  - done.
  - apply (Forall_impl _ _ _ Hl). intros kv ?. done.
  - exists t. split; [done|]. rewrite find_wf by done.
    change (to_map t) with (r_map t). rewrite Hm.
    change (r_map (binradix_new (V:=V))) with (∅ ∪ ∅ : gmap Z V).
    by rewrite !(right_id_L ∅ (∪)).
Qed.

(** ** Witnesses *)
Definition ex_tree : node Z := ins (ins (ins binradix_new 0x1000 1) 0x2000 2) 0xffff808000000000 3.

Lemma ex_tree_wf : wf_root ex_tree.
Proof.
  assert (forall t k (v : Z), wf_root t -> is_u64 k -> binradix_find t k = None -> wf_root (ins t k v)) as H.
  { intros t k v Hw Hk Hn. rewrite find_wf in Hn by done.
    destruct (insert_fresh t k v Hw Hk Hn) as (t' & E & Hw' & _). unfold ins. by rewrite E. }
  unfold ex_tree. repeat (apply H; [|by compute|by vm_compute]). apply wf_new.
Qed.

Lemma binradix_find_correct_witness :
  binradix_find ex_tree 0x2000 = to_map ex_tree !! 0x2000 /\ binradix_find ex_tree 0x2000 = Some 2.
Proof.
  split; [|by vm_compute]. apply (binradix_find_correct ex_tree 0x2000); [apply ex_tree_wf|by compute].
Defined.

Lemma binradix_insert_correct_witness :
  match to_map ex_tree !! 0x3000 with
  | None => exists t', binradix_insert ex_tree 0x3000 4 = Some (None, t') /\ wf_root t'
              /\ to_map t' = <[0x3000 := 4]> (to_map ex_tree)
  | Some old => binradix_insert ex_tree 0x3000 4 =
      if bool_decide ((node_parts (root_child ex_tree 0x3000)).2 = 64) then None else Some (Some old, ex_tree)
  end /\ binradix_insert ex_tree 0xffff808000000000 4 = None
      /\ binradix_insert ex_tree 0x1000 4 = Some (Some 1, ex_tree).
Proof.
  split; [apply (binradix_insert_correct ex_tree 0x3000 4); [apply ex_tree_wf|by compute]|].
  by vm_compute.
Defined.

Lemma binradix_delete_correct_witness :
  match to_map ex_tree !! 0x2000 with
  | Some v => exists t', binradix_delete ex_tree 0x2000 = Some (Some v, t') /\ wf_root t'
                /\ to_map t' = delete 0x2000 (to_map ex_tree)
  | None => binradix_delete ex_tree 0x2000 =
      match root_child ex_tree 0x2000 with Null => None | _ => Some (None, ex_tree) end
  end /\ binradix_delete (binradix_new (V:=Z)) 5 = None.
Proof.
  split; [apply (binradix_delete_correct ex_tree 0x2000); [apply ex_tree_wf|by compute]|].
  by vm_compute.
Defined.

Lemma binradix_for_each_ordered_witness :
  (exists l, StronglySorted Z.lt l.*1 /\ l ≡ₚ map_to_list (to_map ex_tree)
    /\ binradix_for_each ex_tree [] (fun x s => s ++ [x]) = foldl (fun s x => s ++ [x]) [] l.*2)
  /\ binradix_for_each ex_tree [] (fun x s => s ++ [x]) = [1; 2; 3].
Proof.
  split; [|by vm_compute].
  apply (binradix_for_each_ordered ex_tree [] (fun x s => s ++ [x]) ex_tree_wf).
Defined.

Lemma binradix_batch_witness :
  exists t, r_inserts (binradix_new (V:=Z)) [(7, 1); (9, 2)] = Some t
    /\ binradix_find t 9 = (list_to_map [(7, 1); (9, 2)] : gmap Z Z) !! 9.
Proof.
  apply (binradix_batch [(7, 1); (9, 2)] 9); [|by repeat constructor|by compute].
  apply NoDup_cons. split; [by rewrite list_elem_of_singleton|apply NoDup_singleton].
Defined.
