(* ===== verification/Irq.v ===== *)
(** The nesting counter of [include/sys/interrupt.h].

    Every kernel state that code under [sys/] threads has the global
    [interrupt_disabled] in it; [HasIrq] says where.  The processor's interrupt
    flag is [cli]/[sti]: interrupts are delivered only while the counter is 0. *)
From S2P Require Import Prelude.

Class HasIrq (S : Type) := {
  irq : S -> Z;
  set_irq : Z -> S -> S;
  irq_set_irq n s : irq (set_irq n s) = n;
  set_irq_irq s : set_irq (irq s) s = s;
  set_irq_twice m n s : set_irq m (set_irq n s) = set_irq m s;
}.

Section irq.
Context {S : Type} `{!HasIrq S}.

Definition disable_interrupts : M S () := fun s =>
  if negb (irq s =? 0) then Done () (set_irq (irq s + 1) s)
  else Done () (set_irq 1 s).

Definition enable_interrupts : M S () := fun s =>
  if irq s =? 0 then Panicked "Invalid call to enable interrupt"
  else Done () (set_irq (irq s - 1) s).

Lemma disable_eq s : disable_interrupts s = Done () (set_irq (irq s + 1) s).
Proof.
  unfold disable_interrupts. destruct (Z.eqb_spec (irq s) 0) as [->|]; done.
Qed.

Lemma enable_eq s : irq s <> 0 -> enable_interrupts s = Done () (set_irq (irq s - 1) s).
Proof. intros. unfold enable_interrupts. by destruct (Z.eqb_spec (irq s) 0). Qed.

(** A critical section around code that leaves the counter alone. *)
Definition locked {A} (m : M S A) : M S A :=
  disable_interrupts;; a ← m; enable_interrupts;; mret a.

Lemma locked_Done {A} (m : M S A) s a s' :
  0 <= irq s -> m (set_irq (irq s + 1) s) = Done a s' -> irq s' = irq s + 1 ->
  locked m s = Done a (set_irq (irq s) s').
Proof.
  intros Hs Hm Hi. unfold locked, mbind, M_bind. rewrite disable_eq, Hm.
  rewrite enable_eq by lia. rewrite Hi. by replace (irq s + 1 - 1) with (irq s) by lia.
Qed.
End irq.

(** [balanced m]: whenever [m] returns, the counter is what it was. *)
Definition balanced {S} `{!HasIrq S} {A} (m : M S A) : Prop :=
  forall s a s', 0 <= irq s -> m s = Done a s' -> irq s' = irq s.
(** [irq_shift d m]: the net effect of [m] on the counter is [d]. *)
Definition irq_shift {S} `{!HasIrq S} {A} (d : Z) (m : M S A) : Prop :=
  forall s a s', 0 <= irq s -> m s = Done a s' -> irq s' = irq s + d /\ 0 <= irq s'.

Section balance.
Context {S : Type} `{!HasIrq S}.

Lemma balanced_shift {A} (m : M S A) : irq_shift 0 m -> balanced m.
Proof. intros Hm s a s' Hs E. destruct (Hm s a s' Hs E). lia. Qed.
Lemma shift_balanced {A} (m : M S A) : balanced m -> irq_shift 0 m.
Proof. intros Hm s a s' Hs E. rewrite (Hm s a s' Hs E). lia. Qed.

Lemma shift_ret {A} (a : A) : irq_shift 0 (mret a : M S A).
Proof. intros s b s' Hs [= -> ->]. lia. Qed.
Lemma shift_panic {A} d msg : irq_shift d (panic msg : M S A).
Proof. intros s b s' Hs. discriminate. Qed.
Lemma shift_fault {A} d : irq_shift d (fault : M S A).
Proof. intros s b s' Hs. discriminate. Qed.
Lemma shift_deref {A} (o : option A) : irq_shift 0 (deref o : M S A).
Proof. destruct o; [apply shift_ret|apply shift_fault]. Qed.
Lemma shift_gets {A} (f : S -> A) : irq_shift 0 (gets f).
Proof. intros s b s' Hs [= <- <-]. lia. Qed.
Lemma shift_get : irq_shift 0 (get : M S S).
Proof. intros s b s' Hs [= <- <-]. lia. Qed.
Lemma shift_modify (f : S -> S) : (forall s, irq (f s) = irq s) -> irq_shift 0 (modify f).
Proof. intros Hf s b s' Hs [= <- <-]. rewrite Hf. lia. Qed.
Lemma shift_disable : irq_shift 1 disable_interrupts.
Proof. intros s b s' Hs. rewrite disable_eq. intros [= <- <-]. rewrite irq_set_irq. lia. Qed.
Lemma shift_enable : irq_shift (-1) enable_interrupts.
Proof.
  intros s b s' Hs. unfold enable_interrupts. destruct (Z.eqb_spec (irq s) 0); [discriminate|].
  intros [= <- <-]. rewrite irq_set_irq. lia.
Qed.

Lemma shift_bind {A B} d1 d (m : M S A) (f : A -> M S B) :
  irq_shift d1 m -> (forall a, irq_shift (d - d1) (f a)) -> irq_shift d (m ≫= f).
Proof.
  intros Hm Hf s b s' Hs Hb. apply bind_Done in Hb as (a & s1 & E1 & E2).
  destruct (Hm s a s1 Hs E1) as [H1 H1']. destruct (Hf a s1 b s' H1' E2). lia.
Qed.
Lemma shift_bind0 {A B} d (m : M S A) (f : A -> M S B) :
  irq_shift 0 m -> (forall a, irq_shift d (f a)) -> irq_shift d (m ≫= f).
Proof. intros Hm Hf. apply (shift_bind 0); [done|]. by replace (d - 0) with d by lia. Qed.
Lemma shift_bind_disable {B} d (f : () -> M S B) :
  (forall a, irq_shift (d - 1) (f a)) -> irq_shift d (disable_interrupts ≫= f).
Proof. intros. apply (shift_bind 1); [apply shift_disable|done]. Qed.
Lemma shift_bind_enable {B} d (f : () -> M S B) :
  (forall a, irq_shift (d + 1) (f a)) -> irq_shift d (enable_interrupts ≫= f).
Proof.
  intros. apply (shift_bind (-1)); [apply shift_enable|]. by replace (d - -1) with (d + 1) by lia.
Qed.
Lemma shift_eq {A} d d' (m : M S A) : irq_shift d m -> d = d' -> irq_shift d' m.
Proof. by intros ? <-. Qed.
Lemma shift_forM {A} (l : list A) (f : A -> M S ()) :
  (forall x, irq_shift 0 (f x)) -> irq_shift 0 (forM_ l f).
Proof.
  intros Hf. induction l as [|x l IH]; simpl; [apply shift_ret|].
  apply shift_bind0; [apply Hf|]. intros []. apply IH.
Qed.
End balance.

(** Proves [irq_shift d m] by walking through [m]: every [disable_interrupts]
    and [enable_interrupts] is counted, every branch must come out even. *)
Ltac irq_step :=
  lazymatch goal with
  | |- irq_shift _ (disable_interrupts ≫= _) => apply shift_bind_disable; intros []
  | |- irq_shift _ (enable_interrupts ≫= _) => apply shift_bind_enable; intros []
  | |- irq_shift _ (_ ≫= _) => apply shift_bind0; [|intros ?]
  | |- irq_shift _ disable_interrupts => eapply shift_eq; [apply shift_disable|lia]
  | |- irq_shift _ enable_interrupts => eapply shift_eq; [apply shift_enable|lia]
  | |- irq_shift _ (mret _) => eapply shift_eq; [apply shift_ret|lia]
  | |- irq_shift _ (panic _) => apply shift_panic
  | |- irq_shift _ fault => apply shift_fault
  | |- irq_shift _ (deref _) => apply shift_deref
  | |- irq_shift _ (gets _) => apply shift_gets
  | |- irq_shift _ get => apply shift_get
  | |- irq_shift _ (modify _) => apply shift_modify; intros ?; try reflexivity
  | |- irq_shift _ (when ?b _) => unfold when
  | |- irq_shift _ (forM_ _ _) => apply shift_forM; intros ?
  | |- irq_shift _ (match ?x with _ => _ end) => destruct x
  | |- irq_shift _ (if ?x then _ else _) => destruct x
  | |- irq_shift _ (let _ := _ in _) => cbv zeta
  end.
Create HintDb irqdb.
Ltac irq_solve := repeat (irq_step || (eapply shift_eq; [solve [eauto 3 with irqdb nocore]|lia])).
