(* ===== verification/Alloc.v ===== *)
(** The kernel's two allocators: pages ([sys/mm/get_page.c]) and fixed-size
    objects carved out of them ([sys/mm/obj_pool.c]).

    [mem] is the state of both files.  A free page or a free object holds only
    the link to the next one, so the intrusive lists [head], [free_list] and
    [page_head] are lists of addresses.  A pool is named by where its
    [struct obj_pool] lives: the static [meta_obj_pool], or an address that
    [meta_obj_pool] handed out. *)
From S2P Require Import Prelude Bits Irq.

Inductive pool_ref : Type := Meta | At (addr : Z).
#[export] Instance pool_ref_eq_dec : EqDecision pool_ref.
Proof. solve_decision. Defined.

Record pool := mkPool {
  free_page : Z;
  free_list : list Z;
  page_head : list Z;
  obj_size : Z;
  page_free : Z;
}.

(** [struct memory_range] with its own address, which is freed when the range
    is used up. *)
Record memory_range := mkRange { mr_addr : Z; mr_base : Z; mr_length : Z }.

Record mem := mkMem {
  interrupt_disabled : Z;
  head : list Z;
  usable_head : list memory_range;
  mrng_pool : pool_ref;
  early_get_page : bool;
  meta_obj_pool : pool;
  pools : gmap Z pool;
}.

#[export] Program Instance mem_irq : HasIrq mem := {
  irq := interrupt_disabled;
  set_irq n m := mkMem n (head m) (usable_head m) (mrng_pool m) (early_get_page m)
                       (meta_obj_pool m) (pools m);
}.
Solve Obligations with (by intros; try destruct s).

Definition set_head (h : list Z) (m : mem) : mem :=
  mkMem (interrupt_disabled m) h (usable_head m) (mrng_pool m) (early_get_page m) (meta_obj_pool m) (pools m).
Definition set_usable (u : list memory_range) (m : mem) : mem :=
  mkMem (interrupt_disabled m) (head m) u (mrng_pool m) (early_get_page m) (meta_obj_pool m) (pools m).
Definition set_mrng (r : pool_ref) (m : mem) : mem :=
  mkMem (interrupt_disabled m) (head m) (usable_head m) r (early_get_page m) (meta_obj_pool m) (pools m).
Definition set_early (b : bool) (m : mem) : mem :=
  mkMem (interrupt_disabled m) (head m) (usable_head m) (mrng_pool m) b (meta_obj_pool m) (pools m).

Definition pool_at (m : mem) (r : pool_ref) : option pool :=
  match r with Meta => Some (meta_obj_pool m) | At a => pools m !! a end.
Definition set_pool (r : pool_ref) (p : pool) (m : mem) : mem :=
  match r with
  | Meta => mkMem (interrupt_disabled m) (head m) (usable_head m) (mrng_pool m) (early_get_page m) p (pools m)
  | At a => mkMem (interrupt_disabled m) (head m) (usable_head m) (mrng_pool m) (early_get_page m)
                  (meta_obj_pool m) (<[a := p]> (pools m))
  end.
Definition drop_pool (r : pool_ref) (m : mem) : mem :=
  match r with
  | Meta => m
  | At a => mkMem (interrupt_disabled m) (head m) (usable_head m) (mrng_pool m) (early_get_page m)
                  (meta_obj_pool m) (delete a (pools m))
  end.

Definition get_pool (r : pool_ref) : M mem pool := o ← gets (fun m => pool_at m r); deref o.
Definition put_pool (r : pool_ref) (p : pool) : M mem () := modify (set_pool r p).

Definition sizeof_free_obj : Z := 8.
Definition sizeof_page_hdr : Z := 8.
Definition sizeof_obj_pool : Z := 40.
Definition sizeof_memory_range : Z := 24.

(** ** [sys/mm/obj_pool.c], the part below the page allocator *)
Definition with_free_list (l : list Z) (p : pool) : pool :=
  mkPool (free_page p) l (page_head p) (obj_size p) (page_free p).

Definition obj_pool_free (r : pool_ref) (obj : Z) : M mem () :=
  obp ← get_pool r;
  let tmp_aligned := ALIGN obj PAGE_SIZE_BIT in
  if negb (u64 (obj - tmp_aligned - sizeof_page_hdr) mod obj_size obp =? 0) then
    panic "Invalid object free"
  else put_pool r (with_free_list (obj :: free_list obp) obp).

Definition obj_pool_size_eq (r : pool_ref) (size : Z) : M mem bool :=
  obp ← get_pool r; mret (obj_size obp =? size).

(** ** [sys/mm/get_page.c] *)
Definition get_phys_page_locked : M mem Z :=
  m ← get;
  if early_get_page m then panic "Early get phys page"
  else
    match head m with
    | ret :: rest => modify (set_head rest);; mret (u64 (ret - KERN_VMBASE))
    | [] =>
        match usable_head m with
        | [] => fault
        | mr :: n =>
            let begin := mr_base mr in
            (if mr_length mr =? PAGE_SIZE then
               obj_pool_free (mrng_pool m) (mr_addr mr);; modify (set_usable n)
             else
               modify (set_usable (mkRange (mr_addr mr) (u64 (begin + PAGE_SIZE))
                                           (u64 (mr_length mr - PAGE_SIZE)) :: n)));;
            mret begin
        end
    end.

Definition get_phys_page : M mem Z := locked get_phys_page_locked.

Definition get_page : M mem Z :=
  disable_interrupts;;
  m ← get;
  match head m with
  | ret :: rest => modify (set_head rest);; enable_interrupts;; mret ret
  | [] =>
      p ← get_phys_page_locked;
      enable_interrupts;;
      mret (u64 (p + KERN_VMBASE))
  end.

Definition drop_page (pg : Z) : M mem () :=
  disable_interrupts;;
  if negb (Z.land pg 0xfff =? 0) then panic "Dropping invalid page"
  else modify (fun m => set_head (pg :: head m) m);; enable_interrupts.

(** ** [sys/mm/obj_pool.c] on top of the page allocator *)
Definition obj_pool_alloc (r : pool_ref) : M mem Z :=
  obp ← get_pool r;
  match free_list obp with
  | ret :: rest => put_pool r (with_free_list rest obp);; mret ret
  | [] =>
      obp ← (if page_free obp <? obj_size obp then
               page ← get_page;
               obp ← get_pool r;
               mret (mkPool page (free_list obp) (page :: page_head obp) (obj_size obp) (PAGE_SIZE - sizeof_page_hdr))
             else mret obp);
      let ret := u64 (free_page obp + PAGE_SIZE - page_free obp) in
      put_pool r (mkPool (free_page obp) (free_list obp) (page_head obp) (obj_size obp)
                         (u16 (page_free obp - obj_size obp)));;
      mret ret
  end.

Definition obj_pool_create (size : Z) : M mem pool_ref :=
  if (size <? sizeof_free_obj) || (PAGE_SIZE <? size) then panic "Invalid object size"
  else
    obp ← locked (obj_pool_alloc Meta);
    put_pool (At obp) (mkPool 0 [] [] size 0);;
    mret (At obp).

Definition obj_pool_destroy (r : pool_ref) : M mem () :=
  obp ← get_pool r;
  forM_ (page_head obp) drop_page;;
  match r with
  | Meta => fault
  | At a => modify (drop_pool r);; locked (obj_pool_free Meta a)
  end.

(** ** [page_allocator_init] *)
(** What one E820 entry of type 1 contributes: the parts of it outside the
    reserved range [rm] (kernel image and boot page tables), in the order they
    are pushed on [usable_head]. *)
Definition carve (rm_base rm_length base length : Z) : list (Z * Z) :=
  let rmend := u64 (rm_base + rm_length) in
  let end_ := u64 (base + length) in
  if (base <? rmend) && (rm_base <? end_) then
    if (end_ <=? rmend) && (rm_base <=? base) then []
    else if end_ <=? rmend then [(base, u64 (rm_base - base))]
    else (if base <? rm_base then [(base, u64 (rm_base - base))] else [])
         ++ [(rmend, u64 (end_ - rmend))]
  else [(base, length)].

Definition push_range (r : Z * Z) : M mem () :=
  m ← get;
  mr ← obj_pool_alloc (mrng_pool m);
  modify (fun m => set_usable (mkRange mr r.1 r.2 :: usable_head m) m).

Definition page_allocator_init (extra_page count : Z) (smap : list (Z * Z * Z)) (rm_base rm_length : Z)
  : M mem () :=
  if count <? 4 then panic "Not enough memory"
  else
    forM_ (seqZ 0 count) (fun i => modify (fun m => set_head (u64 (extra_page + i * 0x1000) :: head m) m));;
    r ← obj_pool_create sizeof_memory_range;
    modify (set_mrng r);;
    forM_ smap (fun '(base, length, type) =>
      if negb (type =? 1) then mret ()
      else forM_ (carve rm_base rm_length base length) push_range);;
    modify (set_early false).

(** [for (i = a; i < b; i += step)] with [i] an [int]: the values [i] takes. *)
Fixpoint for_range (fuel : nat) (i b step : Z) : list Z :=
  match fuel with
  | O => []
  | S fuel => if i <? b then i :: for_range fuel (i32 (i + step)) b step else []
  end.
Definition for_int (a b step : Z) : list Z := for_range (Z.to_nat ((b - a) / step + 1)) a b step.

(** The [map_page] calls for one usable range: address and page size (0: 4k,
    1: 2M).  [begin], [end], [end2], [end3] and [i] are [int]s. *)
Definition map_calls (mr : memory_range) : list (Z * Z) :=
  let begin := i32 (ALIGN_UP (mr_base mr) PAGE_SIZE_BIT) in
  let end_ := i32 (ALIGN (u64 (mr_base mr + mr_length mr)) PAGE_SIZE_BIT) in
  let end2 := i32 (ALIGN_UP (u64 begin) (PAGE_SIZE_BIT + 9)) in
  let end3 := i32 (ALIGN (u64 (mr_base mr + mr_length mr)) (PAGE_SIZE_BIT + 9)) in
  ((fun i => (u64 i, 0)) <$> for_int begin (Z.min end_ end2) PAGE_SIZE)
  ++ ((fun i => (u64 i, 1)) <$> for_int end2 end3 (512 * PAGE_SIZE))
  ++ ((fun i => (u64 i, 0)) <$> for_int end3 end_ PAGE_SIZE).

Example init_ex :
  let m0 := mkMem 0 [] [] Meta true (mkPool 0 [] [] 40 0) ∅ in
  match page_allocator_init (KERN_VMBASE + 0x210000) 6 [(0x100000, 0x7f00000, 1)] 0x200000 0x20000 m0 with
  | Done _ m => (length (head m), (fun r => (mr_base r, mr_length r)) <$> usable_head m, early_get_page m,
                 interrupt_disabled m)
  | _ => (O, [], true, -1)
  end = (4%nat, [(0x220000, 0x7de0000); (0x100000, 0x100000)], false, 0).
Proof. vm_compute. reflexivity. Qed.

(** ** The invariant *)
Definition vpage (pg : Z) : Prop :=
  KERN_VMBASE <= pg /\ pg + 4096 <= 2 ^ 64 /\ pg mod 4096 = 0.

Definition range_ok (r : memory_range) : Prop :=
  0 <= mr_base r /\ 0 < mr_length r /\ mr_base r mod 4096 = 0 /\ mr_length r mod 4096 = 0
  /\ KERN_VMBASE + mr_base r + mr_length r <= 2 ^ 64.

(** The virtual addresses of the pages of a range. *)
Definition range_pages (r : memory_range) : list Z :=
  (fun i => KERN_VMBASE + mr_base r + 4096 * i) <$> seqZ 0 (mr_length r / 4096).
Definition free_pages (m : mem) : list Z := head m ++ concat (range_pages <$> usable_head m).

(** [a] is the address of an object carved out of one of the pool's pages. *)
Definition slot (p : pool) (a : Z) : Prop :=
  exists pg k, pg ∈ page_head p /\ 0 <= k /\ a = pg + 8 + k * obj_size p
    /\ a + obj_size p <= pg + 4096
    /\ (pg = free_page p -> a + obj_size p <= pg + 4096 - page_free p).

Record pool_ok (p : pool) (live : list Z) : Prop := {
  po_size : 8 <= obj_size p <= 4088;
  po_free : 0 <= page_free p <= 4088;
  po_head : match page_head p with
            | [] => page_free p = 0
            | pg :: _ => free_page p = pg /\ exists k, 0 <= k /\ 4088 - page_free p = k * obj_size p
            end;
  po_nodup : NoDup (free_list p ++ live);
  po_slots : Forall (slot p) (free_list p ++ live);
}.

(** The objects of pool [r] in use: those of the range pool are the elements of
    [usable_head]. *)
Definition live_of (m : mem) (live : pool_ref -> list Z) (r : pool_ref) : list Z :=
  if decide (r = mrng_pool m) then mr_addr <$> usable_head m else live r.

(** [own]: the pages handed out and not dropped; [live r]: the objects of pool
    [r] handed out and not freed. *)
Record mem_ok (m : mem) (own : gset Z) (live : pool_ref -> list Z) : Prop := {
  mo_irq : 0 <= interrupt_disabled m;
  mo_early : early_get_page m = false;
  mo_nodup : NoDup (free_pages m);
  mo_pages : Forall vpage (free_pages m);
  mo_ranges : Forall range_ok (usable_head m);
  mo_own : forall pg, pg ∈ own -> vpage pg /\ pg ∉ free_pages m;
  mo_pools : forall r p, pool_at m r = Some p ->
    pool_ok p (live_of m live r) /\ NoDup (page_head p) /\ forall pg, pg ∈ page_head p -> pg ∈ own;
  mo_disj : forall r1 r2 p1 p2 pg, pool_at m r1 = Some p1 -> pool_at m r2 = Some p2 ->
    pg ∈ page_head p1 -> pg ∈ page_head p2 -> r1 = r2;
  mo_meta : obj_size (meta_obj_pool m) = 40 /\ Meta <> mrng_pool m;
  mo_at : forall a, is_Some (pools m !! a) -> a ∈ live Meta;
  mo_mrng : is_Some (pool_at m (mrng_pool m));
}.

Definition upd_live (live : pool_ref -> list Z) (r : pool_ref) (l : list Z) : pool_ref -> list Z :=
  fun r' => if decide (r' = r) then l else live r'.

Lemma PAGE_SIZE_eq : PAGE_SIZE = 4096.
Proof. done. Qed.

(** ** Pools *)
Lemma pool_ok_perm p l1 l2 : l1 ≡ₚ l2 -> pool_ok p l1 -> pool_ok p l2.
Proof.
  intros E [H1 H2 H3 H4 H5]. split; try done.
  - by rewrite <- E.
  - by rewrite <- E.
Qed.

Lemma pool_ok_shift p l l1 l2 :
  free_list p ++ l1 ≡ₚ l ++ l2 -> pool_ok p l1 -> pool_ok (with_free_list l p) l2.
Proof.
  intros E [H1 H2 H3 H4 H5]. rewrite E in H4, H5. by split.
Qed.

Lemma pool_ok_pop p a rest live :
  free_list p = a :: rest -> pool_ok p live -> pool_ok (with_free_list rest p) (a :: live).
Proof. intros E. apply pool_ok_shift. rewrite E. apply Permutation_middle. Qed.

Lemma pool_ok_push p a live :
  pool_ok p (a :: live) -> pool_ok (with_free_list (a :: free_list p) p) live.
Proof. apply pool_ok_shift. symmetry. apply Permutation_middle. Qed.

Lemma slot_page_bound p a pg k :
  8 <= obj_size p -> 0 <= k -> a = pg + 8 + k * obj_size p -> a + obj_size p <= pg + 4096 ->
  pg + 8 <= a < pg + 4096.
Proof. nia. Qed.

(** Objects in different pages never meet. *)
Lemma page_apart pg1 pg2 a1 a2 :
  vpage pg1 -> vpage pg2 -> pg1 <> pg2 ->
  pg1 <= a1 < pg1 + 4096 -> pg2 <= a2 < pg2 + 4096 -> a1 <> a2.
Proof.
  intros (_ & _ & H1) (_ & _ & H2) Hne Ha Hb ->.
  apply Z.mod_divide in H1 as [q1 ->]; [|done]. apply Z.mod_divide in H2 as [q2 ->]; [|done]. lia.
Qed.

Lemma page_apart_le pg1 pg2 :
  vpage pg1 -> vpage pg2 -> pg1 <> pg2 -> pg1 + 4096 <= pg2 \/ pg2 + 4096 <= pg1.
Proof.
  intros (_ & _ & H1) (_ & _ & H2) Hne.
  apply Z.mod_divide in H1 as [q1 ->]; [|done]. apply Z.mod_divide in H2 as [q2 ->]; [|done]. lia.
Qed.

Lemma pool_ok_newpage p pg live :
  pool_ok p live -> pg ∉ page_head p ->
  pool_ok (mkPool pg (free_list p) (pg :: page_head p) (obj_size p) 4088) live.
Proof.
  intros [H1 H2 H3 H4 H5] Hpg. split; cbn; try (done || lia).
  - split; [done|]. exists 0. lia.
  - apply (Forall_impl _ _ _ H5). intros a (pg' & k & Hin & Hk & Ha & Hb & Hc).
    exists pg', k. cbn. split_and!; try done; [set_solver|]. intros ->. done.
Qed.

(** Carving the next object out of the current page. *)
Lemma pool_ok_carve p live pg l :
  pool_ok p live -> page_head p = pg :: l -> obj_size p <= page_free p ->
  (forall q, q ∈ page_head p -> vpage q) ->
  let ret := pg + 4096 - page_free p in
  pool_ok (mkPool (free_page p) (free_list p) (page_head p) (obj_size p) (page_free p - obj_size p))
          (ret :: live)
  /\ pg + 8 <= ret /\ ret + obj_size p <= pg + 4096.
Proof.
  intros [H1 H2 H3 H4 H5] Hh Hsz Hv ret. rewrite Hh in H3. destruct H3 as [Hfp (k0 & Hk0 & Hk)].
  assert (forall a, slot p a -> a <> ret) as Hnew.
  { intros a (pg' & k & Hin & Hk' & Ha & Hb & Hc) ->. subst ret.
    destruct (decide (pg' = pg)) as [->|Hne]; [specialize (Hc (eq_sym Hfp)); lia|].
    apply (page_apart pg' pg (pg + 4096 - page_free p) (pg + 4096 - page_free p));
      try done; [by apply Hv|apply Hv; rewrite Hh; set_solver|nia|lia]. }
  split; [|lia]. split; cbn; try (done || lia).
  - rewrite Hh. split; [done|]. exists (k0 + 1). lia.
  - rewrite <- Permutation_middle. apply NoDup_cons. split; [|done].
    intros Hin. rewrite Forall_forall in H5. by apply (Hnew ret (H5 _ Hin)).
  - rewrite <- Permutation_middle. apply Forall_cons. split.
    + exists pg, k0. cbn. rewrite Hh. split_and!; [set_solver|lia|lia|lia|lia].
    + apply (Forall_impl _ _ _ H5). intros a (pg' & k & Hin & Hk' & Ha & Hb & Hc).
      exists pg', k. cbn. split_and!; try done. intros Hq. specialize (Hc Hq). lia.
Qed.

(** Two objects of a pool do not overlap. *)
Lemma slots_disjoint p a b :
  8 <= obj_size p -> (forall q, q ∈ page_head p -> vpage q) ->
  slot p a -> slot p b -> a <> b -> a + obj_size p <= b \/ b + obj_size p <= a.
Proof.
  intros Hs Hv (pg1 & k1 & Hi1 & Hk1 & Ha1 & Hb1 & _) (pg2 & k2 & Hi2 & Hk2 & Ha2 & Hb2 & _) Hne.
  destruct (decide (pg1 = pg2)) as [->|Hp].
  - destruct (Z.lt_trichotomy k1 k2) as [?|[->|?]]; [left; nia|by subst|right; nia].
  - destruct (page_apart_le pg1 pg2 (Hv _ Hi1) (Hv _ Hi2) Hp); [left|right]; nia.
Qed.

(** The check of [obj_pool_free] accepts every object of the pool. *)
Lemma slot_check p a :
  8 <= obj_size p -> (forall q, q ∈ page_head p -> vpage q) -> slot p a ->
  u64 (a - ALIGN a PAGE_SIZE_BIT - sizeof_page_hdr) mod obj_size p = 0.
Proof.
  intros Hs Hv (pg & k & Hi & Hk & Ha & Hb & _). destruct (Hv pg Hi) as (Hlo & Hhi & Hm).
  assert (ALIGN a PAGE_SIZE_BIT = pg) as ->.
  { rewrite ALIGN_eq; [|unfold is_u64, KERN_VMBASE in *; nia|done].
    change (2 ^ PAGE_SIZE_BIT) with 4096.
    apply Z.mod_divide in Hm as [q ->]; [|done].
    rewrite Ha. rewrite <- (Z.mod_unique (q * 4096 + 8 + k * obj_size p) 4096 q (8 + k * obj_size p)); nia. }
  unfold sizeof_page_hdr. rewrite u64_small by (unfold is_u64, KERN_VMBASE in *; nia).
  replace (a - pg - 8) with (k * obj_size p) by lia. apply Z.mod_mul. lia.
Qed.

(** ** Taking and returning pages *)
Lemma set_irq_ok m own live n : 0 <= n -> mem_ok m own live -> mem_ok (set_irq n m) own live.
Proof. intros Hn []. by constructor. Qed.

Lemma range_pages_eq a b l :
  4096 <= l -> l mod 4096 = 0 -> l < 2 ^ 64 -> is_u64 (b + 4096) ->
  range_pages (mkRange a b l)
  = (KERN_VMBASE + b) :: range_pages (mkRange a (u64 (b + PAGE_SIZE)) (u64 (l - PAGE_SIZE))).
Proof.
  intros Hl Hm Hu Hb. rewrite PAGE_SIZE_eq. unfold range_pages. cbn [mr_base mr_length].
  rewrite !u64_small by (done || unfold is_u64; lia).
  apply Z.mod_divide in Hm as [q ->]; [|done].
  replace (q * 4096 - 4096) with ((q - 1) * 4096) by lia. rewrite !Z.div_mul by done.
  rewrite (seqZ_cons 0 q) by lia. rewrite fmap_cons. f_equal; [lia|].
  replace (Z.pred q) with (q - 1) by lia.
  replace (seqZ (Z.succ 0) (q - 1)) with (Z.add 1 <$> seqZ 0 (q - 1)) by apply (fmap_add_seqZ 1 0).
  rewrite <- list_fmap_compose. apply list_fmap_ext.
  intros i x _. cbn. lia.
Qed.

Lemma range_pages_one a b : range_pages (mkRange a b PAGE_SIZE) = [KERN_VMBASE + b].
Proof.
  unfold range_pages. cbn [mr_length mr_base].
  replace (seqZ 0 (PAGE_SIZE / 4096)) with [0] by done. cbn [fmap list_fmap].
  by rewrite Z.mul_0_r, Z.add_0_r.
Qed.

(** Handing out a page that is free: the rest of the invariant. *)
Lemma mem_ok_take m m' own live pg :
  mem_ok m own live -> free_pages m ≡ₚ pg :: free_pages m' ->
  0 <= interrupt_disabled m' -> early_get_page m' = false -> Forall range_ok (usable_head m') ->
  (forall r p', pool_at m' r = Some p' -> exists p, pool_at m r = Some p /\ page_head p = page_head p'
     /\ pool_ok p' (live_of m' live r)) ->
  obj_size (meta_obj_pool m') = 40 -> mrng_pool m' = mrng_pool m ->
  (forall a, is_Some (pools m' !! a) <-> is_Some (pools m !! a)) ->
  mem_ok m' ({[pg]} ∪ own) live /\ pg ∉ own /\ vpage pg.
Proof.
  intros [Hirq He Hnd Hp Hr Ho Hpl Hd Hmeta Hat Hmr] Hperm Hi' He' Hr' Hpools Hsz Hmrng Hdom.
  rewrite Hperm in Hnd, Hp. apply NoDup_cons in Hnd as [Hpg Hnd]. apply Forall_cons in Hp as [Hvp Hp].
  assert (pg ∉ own) as Hno.
  { intros Hin. apply Ho in Hin as [_ Hin]. rewrite Hperm in Hin. set_solver. }
  split; [|done]. constructor; try done.
  - intros q [->%elem_of_singleton|Hq]%elem_of_union; [done|].
    apply Ho in Hq as [Hv Hq]. rewrite Hperm in Hq. set_solver.
  - intros r p' Hr1. destruct (Hpools _ _ Hr1) as (p & Hp1 & Hph & Hok).
    destruct (Hpl _ _ Hp1) as (_ & Hnd' & Hin'). rewrite <- Hph. set_solver.
  - intros r1 r2 p1 p2 q H1 H2 Hq1 Hq2.
    destruct (Hpools _ _ H1) as (p1' & Hp1 & Hph1 & _). destruct (Hpools _ _ H2) as (p2' & Hp2 & Hph2 & _).
    apply (Hd r1 r2 p1' p2' q); congruence.
  - split; [done|]. rewrite Hmrng. apply Hmeta.
  - intros a Ha. apply Hat. by apply Hdom.
  - rewrite Hmrng. destruct Hmr as [p Hmr]. destruct (mrng_pool m) as [|a] eqn:E; [by eexists|].
    cbn in *. apply Hdom. by eexists.
Qed.

Lemma get_pool_eq m r p : pool_at m r = Some p -> get_pool r m = Done p m.
Proof. intros E. unfold get_pool, gets, mbind, M_bind. by rewrite E. Qed.

Lemma obj_pool_free_eq m r p a :
  pool_at m r = Some p -> 8 <= obj_size p -> (forall q, q ∈ page_head p -> vpage q) -> slot p a ->
  obj_pool_free r a m = Done () (set_pool r (with_free_list (a :: free_list p) p) m).
Proof.
  intros E Hs Hv Hsl. unfold obj_pool_free, mbind, M_bind. rewrite (get_pool_eq _ _ _ E).
  rewrite slot_check by done. done.
Qed.

Lemma pool_at_set m r p r' :
  is_Some (pool_at m r) -> pool_at (set_pool r p m) r' = if decide (r' = r) then Some p else pool_at m r'.
Proof.
  intros _. destruct r as [|a], r' as [|b]; cbn; try done; repeat case_decide; simplify_eq; try done.
  - by rewrite lookup_insert_eq.
  - rewrite lookup_insert_ne; [done|congruence].
Qed.

Lemma pool_dom_set m r p a :
  is_Some (pool_at m r) -> is_Some (pools (set_pool r p m) !! a) <-> is_Some (pools m !! a).
Proof.
  intros Hr. destruct r as [|b]; [done|]. cbn in *. destruct (decide (a = b)) as [->|Hne].
  - rewrite lookup_insert_eq. split; [done|by eexists].
  - by rewrite lookup_insert_ne by done.
Qed.

Lemma set_pool_frame m r p :
  free_pages (set_pool r p m) = free_pages m /\ usable_head (set_pool r p m) = usable_head m
  /\ interrupt_disabled (set_pool r p m) = interrupt_disabled m
  /\ early_get_page (set_pool r p m) = early_get_page m /\ mrng_pool (set_pool r p m) = mrng_pool m.
Proof. by destruct r. Qed.

(** Only the free list of pool [r] may differ. *)
Definition same_pools_but (r : pool_ref) (m m' : mem) : Prop :=
  (forall r', r' <> r -> pool_at m' r' = pool_at m r')
  /\ forall r' p', pool_at m' r' = Some p' -> exists p, pool_at m r' = Some p /\ page_head p' = page_head p.

(** Taking the first page of a range that is longer than one page, or the last
    page of one. *)
Lemma get_phys_page_locked_ok m own live pg rest :
  mem_ok m own live -> free_pages m = pg :: rest ->
  exists m', get_phys_page_locked m = Done (u64 (pg - KERN_VMBASE)) m'
    /\ free_pages m' = rest /\ mem_ok m' ({[pg]} ∪ own) live
    /\ interrupt_disabled m' = interrupt_disabled m /\ same_pools_but (mrng_pool m) m m'
    /\ mrng_pool m' = mrng_pool m.
Proof.
  intros Hok E. pose proof Hok as [Hirq He Hnd Hp Hr Ho Hpl Hd Hmeta Hat Hmr].
  unfold get_phys_page_locked, get, mbind, M_bind. rewrite He. cbn.
  destruct (head m) as [|x h] eqn:Eh.
  2:{ unfold free_pages in E. rewrite Eh in E. injection E as <- <-.
      eexists. split; [reflexivity|]. split; [done|].
      split; [|split; [done|split; [split; [done|eauto]|done]]]. eapply (mem_ok_take m); try done.
      - unfold free_pages. by rewrite Eh.
      - intros r p' Hp'. exists p'. split; [done|]. split; [done|]. apply (Hpl r p' Hp').
      - apply Hmeta. }
  destruct (usable_head m) as [|mr n] eqn:Eu.
  { unfold free_pages in E. by rewrite Eh, Eu in E. }
  apply Forall_cons in Hr as [(R1 & R2 & R3 & R4 & R5) Hr]. destruct mr as [ma mb ml]. cbn in *.
  unfold free_pages in E. rewrite Eh, Eu in E. cbn [app fmap list_fmap concat] in E.
  assert (u64 (KERN_VMBASE + mb - KERN_VMBASE) = mb) as Hmb.
  { replace (KERN_VMBASE + mb - KERN_VMBASE) with mb by lia.
    apply u64_small. unfold is_u64, KERN_VMBASE in *. lia. }
  destruct (Z.eqb_spec ml PAGE_SIZE) as [->|Hne].
  - rewrite range_pages_one in E. injection E as <- E. cbn.
    destruct Hmr as [p Hmr]. destruct (Hpl _ _ Hmr) as (Hpok & Hpnd & Hpown).
    unfold live_of in Hpok. rewrite decide_True, Eu in Hpok by done. cbn in Hpok.
    rewrite (obj_pool_free_eq _ _ p); [|done|apply Hpok|intros q Hq; by apply Ho, Hpown|].
    2:{ destruct Hpok as [_ _ _ _ Hs]. rewrite <- Permutation_middle in Hs.
        by apply Forall_cons in Hs as [? _]. }
    apply pool_ok_push in Hpok. rewrite Hmb. eexists. split; [reflexivity|].
    set (p' := with_free_list (ma :: free_list p) p) in *.
    destruct (set_pool_frame m (mrng_pool m) p') as (F1 & F2 & F3 & F4 & F5).
    assert (forall r, pool_at (set_usable n (set_pool (mrng_pool m) p' m)) r
       = if decide (r = mrng_pool m) then Some p' else pool_at m r) as Hat'.
    { intros r. rewrite <- (pool_at_set m) by by eexists. by destruct r. }
    assert (free_pages (set_usable n (set_pool (mrng_pool m) p' m)) = rest) as Hfp.
    { unfold free_pages. cbn. replace (head (set_pool (mrng_pool m) p' m)) with (head m) by by destruct (mrng_pool m).
      by rewrite Eh. }
    split; [done|]. split; [|split; [done|split; [|done]]].
    + eapply (mem_ok_take m); cbn -[set_pool free_pages]; try done.
      * rewrite Hfp. unfold free_pages. rewrite Eh, Eu.
        cbn [app fmap list_fmap concat]. by rewrite range_pages_one, <- E.
      * by rewrite F3.
      * by rewrite F4.
      * intros r q Hq. rewrite Hat' in Hq. case_decide as Hdec.
        -- injection Hq as <-. exists p. subst r. split; [done|]. split; [done|].
           unfold live_of. cbn -[set_pool]. rewrite F5. by rewrite decide_True.
        -- exists q. split; [done|]. split; [done|]. destruct (Hpl r q Hq) as (Hq' & _).
           unfold live_of in *. cbn -[set_pool]. rewrite F5. by rewrite decide_False in *.
      * destruct (mrng_pool m); [by destruct Hmeta|apply Hmeta].
      * intros a. apply (pool_dom_set m). by eexists.
    + split; [intros r' Hr'; rewrite Hat'; by rewrite decide_False|].
      intros r' q Hq. rewrite Hat' in Hq. case_decide as Hdec; [|by eauto]. injection Hq as <-. subst r'. by exists p.
  - assert (4096 <= ml).
    { apply Z.mod_divide in R4 as [q ->]; [|done]. rewrite PAGE_SIZE_eq in Hne. lia. }
    assert (4096 < ml) by (rewrite PAGE_SIZE_eq in Hne; lia).
    rewrite (range_pages_eq ma mb ml) in E by (done || (unfold is_u64, KERN_VMBASE in *; lia)).
    injection E as <- E. rewrite Hmb. eexists. split; [reflexivity|].
    split; [|split; [|split; [done|split; [split; [done|by eauto]|done]]]].
    + unfold free_pages. cbn. by rewrite Eh.
    + eapply (mem_ok_take m); try done.
      * unfold free_pages. cbn [head usable_head set_usable]. rewrite Eh, Eu.
        cbn [app fmap list_fmap concat]. rewrite (range_pages_eq ma mb ml)
          by (done || (unfold is_u64, KERN_VMBASE in *; lia)). done.
      * cbn. apply Forall_cons. split; [|done]. rewrite PAGE_SIZE_eq.
        unfold range_ok. cbn [mr_base mr_length].
        rewrite !u64_small by (unfold is_u64, KERN_VMBASE in *; lia).
        split_and!; try lia.
        -- rewrite <- (Z.mul_1_l 4096) at 1. by rewrite Z.mod_add.
        -- apply Z.mod_divide in R4 as [q ->]; [|done].
           replace (q * 4096 - 4096) with ((q - 1) * 4096) by lia. by apply Z.mod_mul.
      * intros r p' Hp'. exists p'. split; [done|]. split; [done|].
        destruct (Hpl r p' Hp') as (Hq' & _). unfold live_of in *. cbn [mrng_pool usable_head set_usable].
        rewrite Eu in Hq'. done.
      * apply Hmeta.
Qed.

Lemma u64_add_sub pg : vpage pg -> u64 (u64 (pg - KERN_VMBASE) + KERN_VMBASE) = pg.
Proof.
  intros (Hl & Hh & _). rewrite (u64_small (pg - KERN_VMBASE)) by (unfold is_u64, KERN_VMBASE in *; lia).
  rewrite u64_small by (unfold is_u64, KERN_VMBASE in *; lia). lia.
Qed.

Lemma get_page_ok m own live pg rest :
  mem_ok m own live -> free_pages m = pg :: rest ->
  exists m', get_page m = Done pg m' /\ free_pages m' = rest
    /\ mem_ok m' ({[pg]} ∪ own) live /\ pg ∉ own /\ vpage pg
    /\ interrupt_disabled m' = interrupt_disabled m
    /\ same_pools_but (mrng_pool m) m m' /\ mrng_pool m' = mrng_pool m.
Proof.
  intros Hok E. pose proof (mo_irq _ _ _ Hok) as Hirq.
  assert (vpage pg /\ pg ∉ own) as [Hv Hno].
  { destruct Hok as [_ _ _ Hp _ Ho _ _ _ _ _]. rewrite E in Hp, Ho. apply Forall_cons in Hp as [Hv _].
    split; [done|]. intros Hin. apply Ho in Hin as [_ Hin]. set_solver. }
  assert (0 <= irq m + 1) as Hirq1 by (change (0 <= interrupt_disabled m + 1); lia).
  pose proof (set_irq_ok m own live (irq m + 1) Hirq1 Hok) as Hok1.
  destruct (get_phys_page_locked_ok _ own live pg rest Hok1 E)
    as (m1 & Hg & Hf & Hok2 & Hi & Hs & Hm).
  assert (forall m0, interrupt_disabled m0 = interrupt_disabled m + 1 ->
    enable_interrupts m0 = Done () (set_irq (interrupt_disabled m) m0)) as Hen.
  { intros m0 H0. rewrite enable_eq by (cbn; lia). cbn. rewrite H0.
    by replace (interrupt_disabled m + 1 - 1) with (interrupt_disabled m) by lia. }
  assert (get_page m = Done pg (set_irq (interrupt_disabled m) m1)) as Hr.
  { unfold get_page, mbind, M_bind. rewrite disable_eq. unfold get. cbv beta iota.
    change (head (set_irq (irq m + 1) m)) with (head m).
    destruct (head m) as [|x h] eqn:Eh.
    - rewrite Hg. cbv beta iota. rewrite Hen by done. cbv beta iota. by rewrite u64_add_sub.
    - unfold get_phys_page_locked, get, mbind, M_bind in Hg.
      rewrite (mo_early _ _ _ Hok1) in Hg. cbv beta iota in Hg.
      change (head (set_irq (irq m + 1) m)) with (head m) in Hg. rewrite Eh in Hg.
      unfold free_pages in E. rewrite Eh in E. injection E as -> _.
      unfold modify in *. assert (set_head h (set_irq (irq m + 1) m) = m1) as -> by (by injection Hg).
      cbv beta iota. by rewrite Hen. }
  exists (set_irq (interrupt_disabled m) m1). split_and!; try done.
  by apply set_irq_ok.
Qed.

Lemma get_page_oom m own live :
  mem_ok m own live -> free_pages m = [] -> get_page m = Faulted.
Proof.
  intros Hok E. unfold free_pages in E. apply app_eq_nil in E as [Eh Eu].
  assert (usable_head m = []) as Hu.
  { destruct (usable_head m) as [|[ma mb ml] n] eqn:E'; [done|]. exfalso.
    pose proof (mo_ranges _ _ _ Hok) as Hr. rewrite E' in Hr. apply Forall_cons in Hr as [(R1 & R2 & R3 & R4 & R5) _].
    cbn in *. apply app_eq_nil in Eu as [Eu _]. unfold range_pages in Eu. cbn in Eu.
    apply fmap_nil_inv in Eu. apply Z.mod_divide in R4 as [q ->]; [|done].
    rewrite Z.div_mul in Eu by done. rewrite seqZ_cons in Eu by lia. done. }
  unfold get_page, mbind, M_bind. rewrite disable_eq. unfold get. cbn. rewrite Eh.
  unfold get_phys_page_locked, get, mbind, M_bind. cbn.
  rewrite (mo_early _ _ _ Hok). cbn. by rewrite ?Eh, Hu.
Qed.

Lemma page_low_bits pg : pg mod 4096 = 0 -> Z.land pg 0xfff = 0.
Proof. intros H. change 0xfff with (Z.ones 12). by rewrite Z.land_ones. Qed.

Lemma drop_page_eq m pg :
  0 <= interrupt_disabled m -> pg mod 4096 = 0 ->
  drop_page pg m = Done () (set_head (pg :: head m) m).
Proof.
  intros Hi Hm. unfold drop_page, mbind, M_bind. rewrite disable_eq, page_low_bits by done. cbn.
  unfold enable_interrupts. cbn. destruct (Z.eqb_spec (interrupt_disabled m + 1) 0); [lia|].
  unfold set_head. cbn. by replace (interrupt_disabled m + 1 - 1) with (interrupt_disabled m) by lia.
Qed.

(** [pg] belongs to no pool. *)
Definition loose (m : mem) (pg : Z) : Prop := forall r p, pool_at m r = Some p -> pg ∉ page_head p.

Lemma drop_page_ok m own live pg :
  mem_ok m own live -> pg ∈ own -> loose m pg ->
  drop_page pg m = Done () (set_head (pg :: head m) m)
  /\ mem_ok (set_head (pg :: head m) m) (own ∖ {[pg]}) live.
Proof.
  intros Hok Hin Hl. pose proof Hok as [Hirq He Hnd Hp Hr Ho Hpl Hd Hmeta Hat Hmr].
  destruct (Ho pg Hin) as [Hv Hnf]. split.
  - apply drop_page_eq; [done|]. apply Hv.
  - constructor; try done.
    + change (free_pages (set_head (pg :: head m) m)) with (pg :: free_pages m). by apply NoDup_cons.
    + change (free_pages (set_head (pg :: head m) m)) with (pg :: free_pages m). by apply Forall_cons.
    + change (free_pages (set_head (pg :: head m) m)) with (pg :: free_pages m).
      intros q Hq. apply elem_of_difference in Hq as [Hq Hne]. apply Ho in Hq as [? ?]. set_solver.
    + intros r p Hrp. change (pool_at m r = Some p) in Hrp.
      destruct (Hpl r p Hrp) as (H1 & H2 & H3). split; [done|]. split; [done|].
      intros q Hq. specialize (H3 q Hq). specialize (Hl r p Hrp). set_solver.
Qed.

(** Changing one pool, with the objects of it in use. *)
Lemma mem_ok_set_pool m own live r p p' l :
  mem_ok m own live -> pool_at m r = Some p -> r <> mrng_pool m ->
  pool_ok p' l -> page_head p' = page_head p -> obj_size p' = obj_size p ->
  (r = Meta -> forall a, is_Some (pools m !! a) -> a ∈ l) ->
  mem_ok (set_pool r p' m) own (upd_live live r l).
Proof.
  intros [Hirq He Hnd Hp Hr Ho Hpl Hd Hmeta Hat Hmr] Hrp Hne Hpok Hph Hsz Hl.
  assert (is_Some (pool_at m r)) as Hs by by eexists.
  destruct (set_pool_frame m r p') as (F1 & F2 & F3 & F4 & F5).
  constructor; rewrite ?F1, ?F2, ?F3, ?F4, ?F5; try done.
  - intros r' q Hq. rewrite pool_at_set in Hq by done. case_decide as Hdec.
    + injection Hq as <-. subst r'. destruct (Hpl r p Hrp) as (_ & H2 & H3).
      rewrite Hph. split; [|done]. unfold live_of. rewrite F5. rewrite decide_False by done.
      unfold upd_live. by rewrite decide_True.
    + destruct (Hpl r' q Hq) as (H1 & H2). split; [|done].
      unfold live_of, upd_live in *. rewrite F5, F2. by rewrite (decide_False (P := r' = r)).
  - intros r1 r2 p1 p2 pg H1 H2. rewrite !pool_at_set in H1, H2 by done.
    intros Hq1 Hq2. assert (forall r' q, (if decide (r' = r) then Some p' else pool_at m r') = Some q ->
      pg ∈ page_head q -> exists q', pool_at m r' = Some q' /\ pg ∈ page_head q') as Hx.
    { clear H1 H2. intros r' q. case_decide as Hdec; [intros [= <-]; subst r'; rewrite Hph|]; eauto. }
    destruct (Hx _ _ H1 Hq1) as (? & ? & ?), (Hx _ _ H2 Hq2) as (? & ? & ?). by eapply Hd.
  - split; [|apply Hmeta]. destruct r; [|apply Hmeta]. cbn. injection Hrp as <-.
    rewrite Hsz. apply Hmeta.
  - intros a. rewrite pool_dom_set by done. unfold upd_live. case_decide as Hdec; [|by apply Hat].
    by apply Hl.
  - rewrite pool_at_set by done. case_decide; [by eexists|done].
Qed.

(** ** Objects *)
Lemma set_pool_twice r p p' m : set_pool r p (set_pool r p' m) = set_pool r p m.
Proof. destruct r as [|a]; [done|]. cbn. by rewrite insert_insert_eq. Qed.

(** A page that was just handed out goes to pool [r]. *)
Lemma mem_ok_add_page m own live r p pg :
  mem_ok m own live -> pool_at m r = Some p -> r <> mrng_pool m -> pg ∈ own -> loose m pg ->
  mem_ok (set_pool r (mkPool pg (free_list p) (pg :: page_head p) (obj_size p) 4088) m) own live.
Proof.
  intros [Hirq He Hnd Hp Hr Ho Hpl Hd Hmeta Hat Hmr] Hrp Hne Hin Hl.
  assert (is_Some (pool_at m r)) as Hs by by eexists.
  set (p' := mkPool pg (free_list p) (pg :: page_head p) (obj_size p) 4088).
  destruct (set_pool_frame m r p') as (F1 & F2 & F3 & F4 & F5).
  constructor; rewrite ?F1, ?F2, ?F3, ?F4, ?F5; try done.
  - intros r' q Hq. rewrite pool_at_set in Hq by done.
    assert (live_of (set_pool r p' m) live r' = live_of m live r') as ->.
    { unfold live_of. by rewrite F5, F2. }
    case_decide as Hdec; [|by apply Hpl].
    injection Hq as <-. subst r'. destruct (Hpl r p Hrp) as (H1 & H2 & H3).
    split; [apply pool_ok_newpage; [done|by apply (Hl r)]|]. cbn. split.
    + apply NoDup_cons. split; [by apply (Hl r)|done].
    + intros q [->|Hq]%elem_of_cons; [done|by apply H3].
  - intros r1 r2 p1 p2 q H1 H2 Hq1 Hq2. rewrite !pool_at_set in H1, H2 by done.
    destruct (decide (r1 = r)) as [->|], (decide (r2 = r)) as [->|]; simplify_eq; try done.
    + cbn in Hq1. apply elem_of_cons in Hq1 as [->|Hq1]; [by destruct (Hl r2 p2 H2)|by eapply Hd].
    + cbn in Hq2. apply elem_of_cons in Hq2 as [->|Hq2]; [by destruct (Hl r1 p1 H1)|by eapply Hd].
    + by eapply Hd.
  - split; [|apply Hmeta]. destruct r; [|apply Hmeta]. cbn. injection Hrp as <-. apply Hmeta.
  - intros a Ha. apply Hat. by apply pool_dom_set in Ha.
  - rewrite pool_at_set by done. case_decide; [by eexists|done].
Qed.

(** [obj_pool_alloc]'s step to a page with room for the object. *)
Definition refill (r : pool_ref) (obp : pool) : M mem pool :=
  if page_free obp <? obj_size obp then
    page ← get_page;
    obp ← get_pool r;
    mret (mkPool page (free_list obp) (page :: page_head obp) (obj_size obp) (PAGE_SIZE - sizeof_page_hdr))
  else mret obp.

Lemma refill_ok m own live r p :
  mem_ok m own live -> pool_at m r = Some p -> r <> mrng_pool m ->
  (obj_size p <= page_free p \/ free_pages m <> []) ->
  exists m1 own1 p1, refill r p m = Done p1 m1
    /\ mem_ok (set_pool r p1 m1) own1 live /\ own ⊆ own1
    /\ obj_size p1 = obj_size p /\ free_list p1 = free_list p /\ is_Some (pool_at m1 r)
    /\ obj_size p1 <= page_free p1
    /\ interrupt_disabled m1 = interrupt_disabled m /\ mrng_pool m1 = mrng_pool m
    /\ (forall b, is_Some (pools m1 !! b) -> is_Some (pools m !! b)).
Proof.
  intros Hok Hrp Hne Hsp. pose proof (mo_pools _ _ _ Hok r p Hrp) as (Hpok & _ & Hpown).
  unfold refill. destruct (Z.ltb_spec (page_free p) (obj_size p)) as [Hlt|Hge].
  - destruct Hsp as [?|Hfree]; [lia|]. destruct (free_pages m) as [|pg rest] eqn:E; [done|].
    destruct (get_page_ok m own live pg rest Hok E) as (m1 & Hg & Hf & Hok1 & Hno & Hv & Hi & [Hsame Hph] & Hm).
    assert (pool_at m1 r = Some p) as Hrp1 by (by rewrite Hsame).
    unfold mbind, M_bind. rewrite Hg. rewrite (get_pool_eq _ _ _ Hrp1).
    eexists m1, _, _. split; [reflexivity|]. cbn -[set_pool].
    split_and!; [|by apply union_subseteq_r|done|done|by eexists| |done|done|].
    + rewrite PAGE_SIZE_eq. unfold sizeof_page_hdr.
      apply mem_ok_add_page; [done|done|by rewrite Hm|set_solver|].
      intros r' p' Hr'. destruct (Hph _ _ Hr') as (q & Hq & ->).
      intros Hin. apply Hno. by apply (mo_pools _ _ _ Hok r' q).
    + rewrite PAGE_SIZE_eq. unfold sizeof_page_hdr. destruct Hpok; lia.
    + intros b [x Hb]. destruct (Hph (At b) x Hb) as (q & Hq & _). by eexists.
  - exists m, own, p. split; [done|]. split_and!; [|done|done|done|by eexists|done|done|done|done].
    assert (set_pool r p m = m) as ->; [|done].
    destruct r; cbn in *; [injection Hrp as <-; by destruct m|]. rewrite insert_id by done. by destruct m.
Qed.

(** What one allocation from pool [r] yields. *)
Definition alloc_post (m : mem) (own : gset Z) live (r : pool_ref) (p : pool) (a : Z) (m' : mem) : Prop :=
  exists own', mem_ok m' own' (upd_live live r (a :: live r)) /\ own ⊆ own'
    /\ a ∉ live r
    /\ (exists p', pool_at m' r = Some p' /\ slot p' a /\ obj_size p' = obj_size p)
    /\ interrupt_disabled m' = interrupt_disabled m /\ mrng_pool m' = mrng_pool m
    /\ (forall b, is_Some (pools m' !! b) -> is_Some (pools m !! b)).

Lemma alloc_set_pool m own live r p p' a :
  mem_ok m own live -> pool_at m r = Some p -> r <> mrng_pool m ->
  pool_ok p' (a :: live r) -> page_head p' = page_head p -> obj_size p' = obj_size p ->
  alloc_post m own live r p a (set_pool r p' m).
Proof.
  intros Hok Hrp Hne Hpok Hph Hsz. exists own.
  destruct (set_pool_frame m r p') as (F1 & F2 & F3 & F4 & F5).
  split; [|split_and!; try done].
  - eapply mem_ok_set_pool; try done. intros -> b Hb. apply elem_of_cons. right. by apply (mo_at _ _ _ Hok).
  - pose proof (po_nodup _ _ Hpok) as Hnd. rewrite <- Permutation_middle in Hnd.
    apply NoDup_cons in Hnd as [Ha _]. set_solver.
  - exists p'. rewrite pool_at_set by by eexists. rewrite decide_True by done. split_and!; try done.
    pose proof (po_slots _ _ Hpok) as Hs. rewrite <- Permutation_middle in Hs. by apply Forall_cons in Hs as [? _].
  - intros b. rewrite pool_dom_set by (by eexists). done.
Qed.

Lemma obj_pool_alloc_ok m own live r p :
  mem_ok m own live -> pool_at m r = Some p -> r <> mrng_pool m ->
  (free_list p <> [] \/ obj_size p <= page_free p \/ free_pages m <> []) ->
  exists a m', obj_pool_alloc r m = Done a m' /\ alloc_post m own live r p a m'.
Proof.
  intros Hok Hrp Hne Hspace. pose proof (mo_pools _ _ _ Hok r p Hrp) as (Hpok & _ & _).
  unfold live_of in Hpok. rewrite decide_False in Hpok by done.
  unfold obj_pool_alloc, mbind, M_bind. rewrite (get_pool_eq _ _ _ Hrp).
  destruct (free_list p) as [|a rest] eqn:Ef.
  2:{ exists a. eexists. split; [reflexivity|].
      apply alloc_set_pool; try done. by apply pool_ok_pop. }
  destruct (refill_ok m own live r p) as (m1 & own1 & p1 & Hr & Hok1 & Hown & Hsz & Hfl & Hs1 & Hfree & Hi & Hm & Hdom);
    try done; [by destruct Hspace|].
  unfold refill, mbind, M_bind in Hr. rewrite Hr. clear Hr. cbv zeta.
  assert (pool_at (set_pool r p1 m1) r = Some p1) as Hp1.
  { rewrite pool_at_set by done. by rewrite decide_True. }
  destruct (set_pool_frame m1 r p1) as (F1 & F2 & F3 & F4 & F5).
  pose proof (mo_pools _ _ _ Hok1 r p1 Hp1) as (Hpok1 & _ & Hpown1).
  unfold live_of in Hpok1. rewrite F5, Hm, decide_False in Hpok1 by done.
  assert (exists pg l, page_head p1 = pg :: l /\ free_page p1 = pg) as (pg & l & Hhd & Hfp).
  { pose proof (po_head _ _ Hpok1) as Hh. destruct (page_head p1) as [|pg l].
    - destruct Hpok; lia.
    - destruct Hh. by exists pg, l. }
  assert (forall q, q ∈ page_head p1 -> vpage q) as Hv by (intros q Hq; by apply (mo_own _ _ _ Hok1), Hpown1).
  destruct (pool_ok_carve p1 (live r) pg l Hpok1 Hhd Hfree Hv) as (Hpok2 & Hlo & Hhi).
  assert (vpage pg) as (V1 & V2 & V3) by (apply Hv; rewrite Hhd; set_solver).
  pose proof (po_size _ _ Hpok1). pose proof (po_free _ _ Hpok1).
  rewrite Hfp, PAGE_SIZE_eq, u64_small by (unfold is_u64, KERN_VMBASE in *; lia).
  unfold u16. rewrite wrap_small by lia.
  eexists _, _. split; [reflexivity|].
  destruct (alloc_set_pool (set_pool r p1 m1) own1 live r p1 _ (pg + 4096 - page_free p1)
    Hok1 Hp1 ltac:(by rewrite F5, Hm) Hpok2 eq_refl eq_refl) as (own2 & A1 & A2 & A3 & A4 & A5 & A6 & A7).
  rewrite set_pool_twice, Hfp in *. exists own2. rewrite Hsz in *.
  split_and!; try done; [set_solver|congruence|congruence|].
  intros b Hb. apply Hdom. by eapply pool_dom_set, A7.
Qed.

Lemma obj_pool_free_ok m own live r p a l :
  mem_ok m own live -> pool_at m r = Some p -> r <> mrng_pool m -> live r ≡ₚ a :: l ->
  (r = Meta -> pools m !! a = None) ->
  obj_pool_free r a m = Done () (set_pool r (with_free_list (a :: free_list p) p) m)
  /\ mem_ok (set_pool r (with_free_list (a :: free_list p) p) m) own (upd_live live r l).
Proof.
  intros Hok Hrp Hne Hl Hmeta. pose proof (mo_pools _ _ _ Hok r p Hrp) as (Hpok & _ & Hpown).
  unfold live_of in Hpok. rewrite decide_False in Hpok by done. apply (pool_ok_perm _ _ _ Hl) in Hpok.
  assert (slot p a) as Hs.
  { pose proof (po_slots _ _ Hpok) as Hs. rewrite <- Permutation_middle in Hs. by apply Forall_cons in Hs as [? _]. }
  split.
  - apply obj_pool_free_eq; [done|apply Hpok| |done].
    intros q Hq. by apply (mo_own _ _ _ Hok), Hpown.
  - apply (mem_ok_set_pool m own live r p); try done; [by apply pool_ok_push|].
    intros -> b Hb. pose proof (mo_at _ _ _ Hok b Hb) as Hin. rewrite Hl in Hin.
    apply elem_of_cons in Hin as [->|Hin]; [|done]. rewrite (Hmeta eq_refl) in Hb. by destruct Hb.
Qed.

(** A fresh, empty pool at an address [meta_obj_pool] has just handed out. *)
Lemma mem_ok_new_pool m own live a size :
  mem_ok m own live -> a ∈ live Meta -> pools m !! a = None -> 8 <= size <= 4088 ->
  mem_ok (set_pool (At a) (mkPool 0 [] [] size 0) m) own (upd_live live (At a) []).
Proof.
  intros [Hirq He Hnd Hp Hr Ho Hpl Hd Hmeta Hat Hmr] Hin Hnone Hsz.
  assert (At a <> mrng_pool m) as Hne.
  { intros E. rewrite <- E in Hmr. cbn in Hmr. rewrite Hnone in Hmr. by destruct Hmr. }
  assert (forall r, pool_at (set_pool (At a) (mkPool 0 [] [] size 0) m) r
    = if decide (r = At a) then Some (mkPool 0 [] [] size 0) else pool_at m r) as Hset.
  { intros r. destruct r as [|b]; cbn; [by rewrite decide_False|].
    destruct (decide (At b = At a)) as [[= ->]|Hab]; [by rewrite lookup_insert_eq|].
    rewrite lookup_insert_ne; [done|congruence]. }
  constructor; try done.
  - intros r p Hrp. rewrite Hset in Hrp. unfold live_of, upd_live.
    change (mrng_pool (set_pool (At a) (mkPool 0 [] [] size 0) m)) with (mrng_pool m).
    case_decide as Hdec.
    + injection Hrp as <-. subst r. rewrite (decide_False (P := At a = mrng_pool m)) by done.
      cbn. split; [|split; [constructor|set_solver]].
      split; cbn; try (done || lia); constructor.
    + specialize (Hpl r p Hrp). unfold live_of in Hpl.
      change (usable_head (set_pool (At a) (mkPool 0 [] [] size 0) m)) with (usable_head m).
      done.
  - intros r1 r2 p1 p2 q H1 H2 Hq1 Hq2. rewrite Hset in H1, H2.
    destruct (decide (r1 = At a)); [simplify_eq; by apply elem_of_nil in Hq1|].
    destruct (decide (r2 = At a)); [simplify_eq; by apply elem_of_nil in Hq2|]. by eapply Hd.
  - intros b [x Hb]. cbn in Hb. unfold upd_live. rewrite decide_False by done.
    destruct (decide (b = a)) as [->|Hba]; [done|]. rewrite lookup_insert_ne in Hb by done. apply Hat. by eexists.
  - change (mrng_pool (set_pool (At a) (mkPool 0 [] [] size 0) m)) with (mrng_pool m).
    rewrite Hset. by rewrite decide_False.
Qed.

Lemma drop_pages_eq l m :
  0 <= interrupt_disabled m -> (forall pg, pg ∈ l -> pg mod 4096 = 0) ->
  forM_ l drop_page m = Done () (set_head (rev l ++ head m) m).
Proof.
  revert m. induction l as [|pg l IH]; intros m Hi Hl; cbn [forM_ rev app]; [by destruct m|].
  unfold mbind, M_bind. rewrite drop_page_eq by (done || (apply Hl; set_solver)).
  rewrite IH by (done || (intros; apply Hl; set_solver)). f_equal. unfold set_head. cbn. f_equal.
  by rewrite <- app_assoc.
Qed.

(** The pages of a pool go back on the free list and the pool disappears. *)
Lemma mem_ok_drop_pool m own live a p :
  mem_ok m own live -> pools m !! a = Some p -> At a <> mrng_pool m ->
  mem_ok (drop_pool (At a) (set_head (rev (page_head p) ++ head m) m))
         (own ∖ list_to_set (page_head p)) live.
Proof.
  intros [Hirq He Hnd Hp Hr Ho Hpl Hd Hmeta Hat Hmr] Ha Hne.
  destruct (Hpl (At a) p Ha) as (Hpok & Hpnd & Hpown).
  set (m' := drop_pool (At a) (set_head (rev (page_head p) ++ head m) m)).
  assert (free_pages m' = rev (page_head p) ++ free_pages m) as Hfree.
  { unfold free_pages. cbn. by rewrite <- app_assoc. }
  assert (forall r q, pool_at m' r = Some q -> r <> At a /\ pool_at m r = Some q) as Hin.
  { intros r q Hq. destruct r as [|b]; cbn in Hq; [done|].
    apply lookup_delete_Some in Hq as [Hab Hq]. split; [congruence|done]. }
  constructor; rewrite ?Hfree; try done.
  - apply NoDup_app. split; [|split; [|done]].
    + by rewrite Permutation_rev in Hpnd.
    + intros q Hq. rewrite <- Permutation_rev in Hq. by apply Ho, Hpown.
  - apply Forall_app. split; [|done]. apply Forall_forall. intros q Hq.
    rewrite <- Permutation_rev in Hq. by apply Ho, Hpown.
  - intros q Hq. apply elem_of_difference in Hq as [Hq Hno]. split; [by apply Ho|].
    rewrite elem_of_app, <- Permutation_rev. intros [Hq'|Hq'].
    + apply Hno. by apply elem_of_list_to_set.
    + by apply (Ho q Hq).
  - intros r q Hq. apply Hin in Hq as [Hra Hq]. destruct (Hpl r q Hq) as (H1 & H2 & H3).
    split; [done|]. split; [done|]. intros x Hx. apply elem_of_difference. split; [by apply H3|].
    intros Hx'. apply elem_of_list_to_set in Hx'. apply Hra. by eapply Hd.
  - intros r1 r2 p1 p2 q H1 H2. apply Hin in H1 as [_ H1], H2 as [_ H2]. by eapply Hd.
  - intros b [x Hb]. cbn in Hb. apply lookup_delete_Some in Hb as [_ Hb]. apply Hat. by eexists.
  - destruct Hmr as [q Hq]. change (mrng_pool m') with (mrng_pool m).
    destruct (mrng_pool m) as [|b]; cbn in *; [by eexists|].
    rewrite lookup_delete_ne by congruence. by eexists.
Qed.

Definition has_room (m : mem) (p : pool) : Prop :=
  free_list p <> [] \/ obj_size p <= page_free p \/ free_pages m <> [].

Lemma obj_pool_create_ok m own live size :
  mem_ok m own live -> has_room m (meta_obj_pool m) -> 8 <= size <= 4088 ->
  exists a m' own', obj_pool_create size m = Done (At a) m'
    /\ mem_ok m' own' (upd_live (upd_live live Meta (a :: live Meta)) (At a) [])
    /\ pools m !! a = None /\ pools m' !! a = Some (mkPool 0 [] [] size 0)
    /\ own ⊆ own' /\ interrupt_disabled m' = interrupt_disabled m.
Proof.
  intros Hok Hroom Hsz. destruct (mo_meta _ _ _ Hok) as [Hm40 Hmne].
  pose proof (mo_irq _ _ _ Hok) as Hirq.
  assert (0 <= irq m + 1) as Hirq1 by (change (0 <= interrupt_disabled m + 1); lia).
  pose proof (set_irq_ok m own live (irq m + 1) Hirq1 Hok) as Hok1.
  destruct (obj_pool_alloc_ok _ own live Meta (meta_obj_pool m) Hok1 eq_refl Hmne Hroom)
    as (a & m1 & Ha & own1 & Hok2 & Hown & Hfresh & _ & Hi & Hmr & Hdom).
  assert (pools m !! a = None) as Hnone.
  { destruct (pools m !! a) eqn:E; [|done]. exfalso. apply Hfresh, (mo_at _ _ _ Hok). by eexists. }
  assert (locked (obj_pool_alloc Meta) m = Done a (set_irq (irq m) m1)) as Hl by by apply locked_Done.
  pose proof (set_irq_ok m1 own1 _ (irq m) Hirq Hok2) as Hok3.
  assert (pools (set_irq (irq m) m1) !! a = None) as Hnone1.
  { destruct (pools m1 !! a) eqn:E; [|done]. destruct (Hdom a) as [x Hx]; [by eexists|].
    cbn in Hx. congruence. }
  unfold obj_pool_create. unfold sizeof_free_obj. rewrite PAGE_SIZE_eq.
  destruct (Z.ltb_spec size 8); [lia|]. destruct (Z.ltb_spec 4096 size); [lia|]. cbn [orb].
  unfold mbind, M_bind. rewrite Hl. unfold put_pool, modify.
  eexists a, _, own1. split; [reflexivity|].
  split; [|split_and!; try done; cbn; by rewrite lookup_insert_eq].
  apply mem_ok_new_pool; try done. unfold upd_live. rewrite decide_True by done. set_solver.
Qed.

Lemma obj_pool_destroy_ok m own live a p l :
  mem_ok m own live -> pools m !! a = Some p -> At a <> mrng_pool m -> live Meta ≡ₚ a :: l ->
  exists m', obj_pool_destroy (At a) m = Done () m'
    /\ mem_ok m' (own ∖ list_to_set (page_head p)) (upd_live live Meta l)
    /\ pools m' !! a = None /\ head m' = rev (page_head p) ++ head m
    /\ interrupt_disabled m' = interrupt_disabled m.
Proof.
  intros Hok Ha Hne Hl. pose proof (mo_irq _ _ _ Hok) as Hirq.
  destruct (mo_pools _ _ _ Hok (At a) p Ha) as (Hpok & _ & Hpown).
  unfold obj_pool_destroy, mbind, M_bind. rewrite (get_pool_eq _ _ p) by done.
  rewrite drop_pages_eq by (done || (intros q Hq; by apply (mo_own _ _ _ Hok), Hpown)).
  unfold modify. pose proof (mem_ok_drop_pool m own live a p Hok Ha Hne) as Hok1.
  set (m1 := drop_pool (At a) (set_head (rev (page_head p) ++ head m) m)) in *.
  assert (0 <= irq m1 + 1) as Hirq1 by (change (0 <= interrupt_disabled m + 1); lia).
  pose proof (set_irq_ok m1 _ live (irq m1 + 1) Hirq1 Hok1) as Hok2.
  destruct (mo_meta _ _ _ Hok) as [_ Hmne].
  destruct (obj_pool_free_ok _ _ live Meta (meta_obj_pool m) a l Hok2 eq_refl Hmne Hl) as [Hf Hok3].
  { intros _. cbn. by rewrite lookup_delete_eq. }
  assert (0 <= irq m1) as Hirq0 by exact Hirq.
  rewrite (locked_Done (obj_pool_free Meta a) m1 () _ Hirq0 Hf eq_refl).
  eexists. split; [reflexivity|]. split; [by apply set_irq_ok|].
  split_and!; try done. cbn. by rewrite lookup_delete_eq.
Qed.

(** ** The direct map of physical memory *)
Definition covers (x : Z) (c : Z * Z) : bool :=
  (c.1 <=? x) && (x <? c.1 + (if c.2 =? 1 then 512 * 4096 else 4096)).
Definition times_covered (x : Z) (l : list (Z * Z)) : nat := length (filter (fun c => covers x c = true) l).

Lemma times_covered_app x l1 l2 :
  times_covered x (l1 ++ l2) = (times_covered x l1 + times_covered x l2)%nat.
Proof. unfold times_covered. by rewrite filter_app, length_app. Qed.

Lemma for_range_covered x sz step n fuel a :
  step = (if sz =? 1 then 512 * 4096 else 4096) ->
  (n <= fuel)%nat -> 0 <= a -> a + Z.of_nat n * step < 2 ^ 31 ->
  times_covered x ((fun i => (u64 i, sz)) <$> for_range fuel a (a + Z.of_nat n * step) step)
  = if (a <=? x) && (x <? a + Z.of_nat n * step) then 1%nat else 0%nat.
Proof.
  intros Hst. assert (4096 <= step) as Hst'.
  { rewrite Hst. destruct (sz =? 1); lia. }
  revert fuel a. induction n as [|n IH]; intros fuel a Hf Ha Hb.
  - replace (a + Z.of_nat 0 * step) with a by lia. destruct fuel as [|fuel]; cbn [for_range];
      rewrite ?Z.ltb_irrefl; cbn; zcases.
  - destruct fuel as [|fuel]; [lia|]. cbn [for_range].
    destruct (Z.ltb_spec a (a + Z.of_nat (Datatypes.S n) * step)); [|nia].
    rewrite i32_small by nia. rewrite fmap_cons.
    replace (a + Z.of_nat (Datatypes.S n) * step) with ((a + step) + Z.of_nat n * step) by lia.
    unfold times_covered. rewrite filter_cons.
    specialize (IH fuel (a + step)). unfold times_covered in IH.
    assert (covers x (u64 a, sz) = (a <=? x) && (x <? a + step)) as ->.
    { unfold covers. cbn [fst snd]. rewrite <- Hst. rewrite u64_small by (unfold is_u64; nia). done. }
    destruct (decide _) as [Hc|Hc].
    + cbn [length]. rewrite IH by (lia || nia). bool_to_prop. zcases; nia.
    + rewrite IH by (lia || nia). revert Hc. zcases; intros; try (done || nia).
Qed.

Lemma for_int_covered x sz step a b :
  step = (if sz =? 1 then 512 * 4096 else 4096) -> 0 <= a -> b < 2 ^ 31 ->
  (step | b - a) ->
  times_covered x ((fun i => (u64 i, sz)) <$> for_int a b step)
  = if (a <=? x) && (x <? b) then 1%nat else 0%nat.
Proof.
  intros Hst Ha Hb [q Hq]. assert (4096 <= step) by (rewrite Hst; destruct (sz =? 1); lia).
  unfold for_int. destruct (Z.le_gt_cases a b).
  - assert (b = a + Z.of_nat (Z.to_nat q) * step) as Hb' by nia.
    assert ((b - a) / step = q) as Hd by (rewrite Hq; apply Z.div_mul; lia). rewrite Hd.
    rewrite Hb'. apply for_range_covered; [done|lia|done|lia].
  - assert (for_range (Z.to_nat ((b - a) / step + 1)) a b step = []) as ->.
    { destruct (Z.to_nat _); cbn; [done|]. by destruct (Z.ltb_spec a b); [lia|]. }
    cbn. zcases.
Qed.

Definition up (x k : Z) : Z := (x + 2 ^ k - 1) - (x + 2 ^ k - 1) mod 2 ^ k.
Definition down (x k : Z) : Z := x - x mod 2 ^ k.

Lemma up_spec x k : 0 <= k -> x <= up x k < x + 2 ^ k /\ (2 ^ k | up x k).
Proof.
  intros Hk. assert (0 < 2 ^ k) by (by apply Z.pow_pos_nonneg). unfold up.
  pose proof (Z.mod_pos_bound (x + 2 ^ k - 1) (2 ^ k)). split; [lia|].
  apply Z.mod_divide; [lia|]. rewrite Zminus_mod_idemp_r, Z.sub_diag. by apply Z.mod_0_l; lia.
Qed.
Lemma down_spec x k : 0 <= k -> down x k <= x < down x k + 2 ^ k /\ (2 ^ k | down x k).
Proof.
  intros Hk. assert (0 < 2 ^ k) by (by apply Z.pow_pos_nonneg). unfold down.
  pose proof (Z.mod_pos_bound x (2 ^ k)). split; [lia|].
  apply Z.mod_divide; [lia|]. rewrite Zminus_mod_idemp_r, Z.sub_diag. by apply Z.mod_0_l; lia.
Qed.

(** The bounds under which no [int] of [map_calls] overflows. *)
Definition low_range (mr : memory_range) : Prop :=
  0 <= mr_base mr /\ 0 <= mr_length mr /\ mr_base mr + mr_length mr < 2 ^ 31 - 2 ^ 22.

Lemma map_calls_eq mr :
  low_range mr ->
  let begin := up (mr_base mr) 12 in let end_ := down (mr_base mr + mr_length mr) 12 in
  let end2 := up begin 21 in let end3 := down (mr_base mr + mr_length mr) 21 in
  map_calls mr =
    ((fun i => (u64 i, 0)) <$> for_int begin (Z.min end_ end2) 4096)
    ++ ((fun i => (u64 i, 1)) <$> for_int end2 end3 (512 * 4096))
    ++ ((fun i => (u64 i, 0)) <$> for_int end3 end_ 4096).
Proof.
  intros (Hb & Hl & He). cbv zeta. unfold map_calls, PAGE_SIZE_BIT. rewrite PAGE_SIZE_eq.
  assert (forall x, is_u64 x <-> 0 <= x < 2 ^ 64) as Hu by done.
  rewrite (u64_small (mr_base mr + mr_length mr)) by (apply Hu; lia).
  change (12 + 9) with 21. rewrite !ALIGN_eq by (apply Hu || idtac; lia).
  rewrite (ALIGN_UP_eq (mr_base mr) 12) by (apply Hu || idtac; lia).
  fold (up (mr_base mr) 12) (down (mr_base mr + mr_length mr) 12) (down (mr_base mr + mr_length mr) 21).
  destruct (up_spec (mr_base mr) 12 ltac:(lia)) as [[? ?] _].
  destruct (down_spec (mr_base mr + mr_length mr) 12 ltac:(lia)) as [[? ?] _].
  destruct (down_spec (mr_base mr + mr_length mr) 21 ltac:(lia)) as [[? ?] _].
  change (2 ^ 12) with 4096 in *. change (2 ^ 21) with 2097152 in *. change (2 ^ 22) with 4194304 in *.
  change (2 ^ 31) with 2147483648 in *. change (2 ^ 64) with 18446744073709551616 in *.
  rewrite (i32_small (up _ _)) by lia. rewrite (i32_small (down _ 12)) by lia.
  rewrite (i32_small (down _ 21)) by lia.
  rewrite (u64_small (up _ _)) by (apply Hu; lia).
  rewrite (ALIGN_UP_eq (up _ _) 21) by (try apply Hu; lia).
  fold (up (up (mr_base mr) 12) 21). destruct (up_spec (up (mr_base mr) 12) 21 ltac:(lia)) as [[? ?] _].
  change (2 ^ 21) with 2097152 in *.
  rewrite (i32_small (up (up _ _) _)) by lia. done.
Qed.

Lemma in_fmap_for_int (a b step sz : Z) :
  0 < step -> a < b -> (u64 a, sz) ∈ ((fun i => (u64 i, sz)) <$> for_int a b step).
Proof.
  intros Hs Hab. apply list_elem_of_fmap. exists a. split; [done|]. unfold for_int.
  assert (0 <= (b - a) / step) by (apply Z.div_pos; lia).
  replace (Z.to_nat ((b - a) / step + 1)) with (Datatypes.S (Z.to_nat ((b - a) / step))) by lia.
  cbn [for_range]. destruct (Z.ltb_spec a b); [|lia]. set_solver.
Qed.

(** ** Theorems *)
(** C12: [get_page] hands out the first free page, which nobody holds, and keeps the
    allocator's invariant; with no page left it dereferences NULL. *)
Theorem get_page_fresh m own live :
  mem_ok m own live ->
  match free_pages m with
  | [] => get_page m = Faulted
  | pg :: rest => exists m', get_page m = Done pg m' /\ free_pages m' = rest
      /\ mem_ok m' ({[pg]} ∪ own) live /\ pg ∉ own /\ vpage pg
      /\ interrupt_disabled m' = interrupt_disabled m
  end.
Proof.
  intros Hok. destruct (free_pages m) as [|pg rest] eqn:E.
  - by eapply get_page_oom.
  - destruct (get_page_ok m own live pg rest Hok E) as (m' & H1 & H2 & H3 & H4 & H5 & H6 & _). eauto 10.
Qed.

(** a page given back with [drop_page] stays within the invariant and is the
    very next one [get_page] returns. *)
Theorem drop_page_reuse m own live pg :
  mem_ok m own live -> pg ∈ own -> loose m pg ->
  exists m1 m2, drop_page pg m = Done () m1 /\ mem_ok m1 (own ∖ {[pg]}) live
    /\ get_page m1 = Done pg m2 /\ mem_ok m2 ({[pg]} ∪ own ∖ {[pg]}) live /\ free_pages m2 = free_pages m.
Proof.
  intros Hok Hin Hl. destruct (drop_page_ok m own live pg Hok Hin Hl) as [E Hok1].
  destruct (get_page_ok _ _ live pg (free_pages m) Hok1) as (m2 & H1 & H2 & H3 & _); [done|].
  eexists _, m2. eauto 10.
Qed.

(** C13: [obj_pool_alloc] returns an object that lies within one page of its pool and
    overlaps no object in use, of this pool or of any other. *)
Theorem obj_pool_alloc_disjoint m own live r p :
  mem_ok m own live -> pool_at m r = Some p -> r <> mrng_pool m -> has_room m p ->
  exists a m' own', obj_pool_alloc r m = Done a m'
    /\ mem_ok m' own' (upd_live live r (a :: live r)) /\ own ⊆ own'
    /\ interrupt_disabled m' = interrupt_disabled m
    /\ forall r2 p2 b, pool_at m' r2 = Some p2 -> b ∈ live_of m' live r2 ->
         a + obj_size p <= b \/ b + obj_size p2 <= a.
Proof.
  intros Hok Hrp Hne Hroom.
  destruct (obj_pool_alloc_ok m own live r p Hok Hrp Hne Hroom)
    as (a & m' & Ha & own' & Hok' & Hown & Hfresh & (p' & Hp' & Hsl & Hsz) & Hi & Hmr & _).
  exists a, m', own'. split_and!; try done. intros r2 p2 b Hp2 Hb.
  assert (forall r p q, pool_at m' r = Some p -> q ∈ page_head p -> vpage q) as Hv.
  { intros r0 p0 q H0 Hq. apply (mo_own _ _ _ Hok'). by eapply (mo_pools _ _ _ Hok'). }
  destruct (mo_pools _ _ _ Hok' r2 p2 Hp2) as (Hpok2 & _).
  assert (slot p2 b) as Hsl2.
  { pose proof (po_slots _ _ Hpok2) as Hs. rewrite Forall_forall in Hs. apply Hs.
    apply elem_of_app. right. unfold live_of, upd_live in *. repeat case_decide; subst; try done. set_solver. }
  pose proof (mo_pools _ _ _ Hok' r p' Hp') as (Hpok' & _).
  destruct (decide (r2 = r)) as [->|Hr].
  - assert (p2 = p') as -> by congruence. rewrite <- Hsz.
    apply (slots_disjoint p'); try done; [apply Hpok'|intros q Hq; by eapply Hv|].
    intros ->. apply Hfresh. unfold live_of in Hb. by rewrite Hmr, decide_False in Hb by done.
  - destruct Hsl as (pg1 & k1 & Hi1 & Hk1 & Ha1 & Hb1 & _), Hsl2 as (pg2 & k2 & Hi2 & Hk2 & Ha2 & Hb2 & _).
    assert (pg1 <> pg2) as Hpg by (intros ->; apply Hr; by eapply (mo_disj _ _ _ Hok')).
    destruct (page_apart_le pg1 pg2 (Hv _ _ _ Hp' Hi1) (Hv _ _ _ Hp2 Hi2) Hpg);
      [left; destruct Hpok2; nia|right; destruct Hpok'; nia].
Qed.

(** [obj_pool_free] accepts every object in use, never panicking, and the next
    allocation from the pool returns that object again. *)
Theorem obj_pool_free_reuse m own live r p a l :
  mem_ok m own live -> pool_at m r = Some p -> r <> mrng_pool m -> live r ≡ₚ a :: l ->
  (r = Meta -> pools m !! a = None) ->
  exists m1 m2, obj_pool_free r a m = Done () m1 /\ mem_ok m1 own (upd_live live r l)
    /\ obj_pool_alloc r m1 = Done a m2.
Proof.
  intros Hok Hrp Hne Hl Hmeta. destruct (obj_pool_free_ok m own live r p a l) as [E Hok1]; try done.
  eexists _, _. split; [exact E|]. split; [exact Hok1|].
  unfold obj_pool_alloc, mbind, M_bind.
  rewrite (get_pool_eq _ _ (with_free_list (a :: free_list p) p)); [reflexivity|].
  rewrite pool_at_set by by eexists. by rewrite decide_True.
Qed.

(** [obj_pool_create] panics outside [8, 4096]; up to 4088 it returns a new
    empty pool, interrupts as before; [obj_pool_destroy] then gives back the
    pool's pages and its descriptor. *)
Theorem obj_pool_create_destroy m own live size :
  mem_ok m own live -> has_room m (meta_obj_pool m) ->
  (size < 8 \/ 4096 < size -> obj_pool_create size m = Panicked "Invalid object size")
  /\ (8 <= size <= 4088 -> exists a m1 m2 own1, obj_pool_create size m = Done (At a) m1
      /\ pools m !! a = None /\ pools m1 !! a = Some (mkPool 0 [] [] size 0)
      /\ interrupt_disabled m1 = interrupt_disabled m /\ own ⊆ own1
      /\ mem_ok m1 own1 (upd_live (upd_live live Meta (a :: live Meta)) (At a) [])
      /\ obj_pool_destroy (At a) m1 = Done () m2 /\ pools m2 !! a = None
      /\ exists own2 live2, mem_ok m2 own2 live2 /\ live2 Meta = live Meta).
Proof.
  intros Hok Hroom. split.
  - intros Hs. unfold obj_pool_create, sizeof_free_obj. rewrite PAGE_SIZE_eq.
    destruct (Z.ltb_spec size 8); [done|]. by destruct (Z.ltb_spec 4096 size); [|lia].
  - intros Hs. destruct (obj_pool_create_ok m own live size Hok Hroom Hs)
      as (a & m1 & own1 & Hc & Hok1 & Hn & Ha & Hown & Hi).
    destruct (obj_pool_destroy_ok m1 own1 _ a _ (live Meta) Hok1 Ha) as (m2 & Hd & Hok2 & Hn2 & _).
    + intros E. pose proof (mo_mrng _ _ _ Hok) as [q Hq].
      assert (mrng_pool m1 = mrng_pool m) as Hm.
      { revert Hc. unfold obj_pool_create. destruct (_ || _); [discriminate|].
        unfold mbind, M_bind, locked, mbind, M_bind. rewrite disable_eq.
        destruct (obj_pool_alloc_ok (set_irq (irq m + 1) m) own live Meta (meta_obj_pool m))
          as (a0 & m0 & -> & _ & _ & _ & _ & _ & Hi0 & Hm0 & _); try done.
        - apply set_irq_ok; [|done]. pose proof (mo_irq _ _ _ Hok). change (0 <= interrupt_disabled m + 1). lia.
        - apply (mo_meta _ _ _ Hok).
        - unfold enable_interrupts. destruct (_ =? 0); [discriminate|].
          intros [= _ <-]. cbn. by rewrite Hm0. }
      rewrite Hm in E. rewrite <- E in Hq. cbn in Hq. congruence.
    + unfold upd_live. by rewrite decide_False, decide_True by done.
    + exists a, m1, m2, own1. split_and!; try done. eexists _, _. split; [exact Hok2|].
      unfold upd_live. by rewrite decide_True.
Qed.

(** sizes 4089 to 4096 pass the check of [obj_pool_create], but no page has room
    for such an object behind its header: the first allocation returns an
    object that runs past the end of its page. *)
Theorem obj_pool_oversize m m1 r pg rest size :
  obj_pool_create size m = Done r m1 -> 4088 < size <= 4096 ->
  head m1 = pg :: rest -> vpage pg -> 0 <= interrupt_disabled m1 ->
  exists m2, obj_pool_alloc r m1 = Done (pg + 8) m2 /\ pg + 4096 < (pg + 8) + size.
Proof.
  intros Hc Hs Hh (V1 & V2 & V3) Hi.
  assert (exists a, r = At a /\ pools m1 !! a = Some (mkPool 0 [] [] size 0)) as (a & -> & Ha).
  { revert Hc. unfold obj_pool_create. destruct (_ || _); [discriminate|]. intros Hc.
    apply bind_Done in Hc as (a & m0 & _ & Hc). injection Hc as <- <-.
    exists a. split; [done|]. cbn. apply lookup_insert_eq. }
  assert (get_page m1 = Done pg (set_head rest m1)) as Hg.
  { unfold get_page, mbind, M_bind. rewrite disable_eq. unfold get. cbn -[enable_interrupts].
    rewrite Hh. unfold modify, enable_interrupts. cbn.
    destruct (Z.eqb_spec (interrupt_disabled m1 + 1) 0); [lia|].
    unfold mret, M_ret, set_head. cbn. f_equal. f_equal. lia. }
  unfold obj_pool_alloc, mbind, M_bind. rewrite (get_pool_eq m1 (At a) _ Ha). cbn [free_list page_free obj_size].
  destruct (Z.ltb_spec 0 size); [|lia]. rewrite Hg.
  rewrite (get_pool_eq (set_head rest m1) (At a) (mkPool 0 [] [] size 0)) by done.
  unfold mret, M_ret. cbn [free_list page_free obj_size page_head free_page].
  rewrite PAGE_SIZE_eq. unfold sizeof_page_hdr.
  rewrite u64_small by (unfold is_u64, KERN_VMBASE in *; lia).
  replace (pg + 4096 - (4096 - 8)) with (pg + 8) by lia.
  eexists. split; [reflexivity|lia].
Qed.

(** the parts of an E820 entry that [page_allocator_init] makes usable are exactly
    its addresses outside the reserved range. *)
Theorem carve_exact rm_base rm_length base length x :
  0 <= rm_base -> 0 < rm_length -> rm_base + rm_length < 2 ^ 64 ->
  0 <= base -> 0 < length -> base + length < 2 ^ 64 ->
  Exists (fun r => r.1 <= x < r.1 + r.2) (carve rm_base rm_length base length)
  <-> base <= x < base + length /\ ~ rm_base <= x < rm_base + rm_length.
Proof.
  intros H1 H2 H3 H4 H5 H6. unfold carve.
  rewrite (u64_small (rm_base + rm_length)), (u64_small (base + length)) by (unfold is_u64; lia).
  repeat match goal with
  | |- context [?a <? ?b] => destruct (Z.ltb_spec a b)
  | |- context [?a <=? ?b] => destruct (Z.leb_spec a b)
  end; cbn [andb app]; rewrite ?Exists_cons, ?Exists_nil; cbn [fst snd];
    rewrite ?u64_small by (unfold is_u64; lia); lia.
Qed.

(** for a usable range with a 2M boundary inside, the [map_page] calls of
    [page_allocator_init] cover every whole page of the range exactly once and
    nothing else. *)
Theorem map_calls_exact mr x :
  low_range mr -> up (up (mr_base mr) 12) 21 <= down (mr_base mr + mr_length mr) 21 ->
  times_covered x (map_calls mr)
  = if (up (mr_base mr) 12 <=? x) && (x <? down (mr_base mr + mr_length mr) 12) then 1%nat else 0%nat.
Proof.
  intros Hlow Hbig. rewrite map_calls_eq by done. cbv zeta. destruct Hlow as (Hb & Hl & He).
  set (e := mr_base mr + mr_length mr) in *.
  destruct (up_spec (mr_base mr) 12 ltac:(lia)) as [[? ?] Hd1].
  destruct (down_spec e 12 ltac:(lia)) as [[? ?] Hd2].
  destruct (up_spec (up (mr_base mr) 12) 21 ltac:(lia)) as [[? ?] [q1 Hd3]].
  destruct (down_spec e 21 ltac:(lia)) as [[? ?] [q2 Hd4]].
  assert (down e 21 <= down e 12) as Hle.
  { destruct Hd2 as [q0 Hd2]. change (2 ^ 12) with 4096 in *. change (2 ^ 21) with (512 * 4096) in *. lia. }
  assert (forall k, (4096 | k * 2 ^ 21)) as Hdiv.
  { intros k. exists (k * 512). change (2 ^ 21) with (512 * 4096). lia. }
  change (2 ^ 12) with 4096 in *.
  rewrite Z.min_r by lia. rewrite !times_covered_app.
  rewrite !for_int_covered; try done; try lia.
  - repeat match goal with
    | |- context [?a <? ?b] => destruct (Z.ltb_spec a b)
    | |- context [?a <=? ?b] => destruct (Z.leb_spec a b)
    end; cbn [andb Nat.add]; done || lia.
  - apply Z.divide_sub_r; [done|]. rewrite Hd4. apply Hdiv.
  - exists (q2 - q1). rewrite Hd3, Hd4. change (2 ^ 21) with (512 * 4096). lia.
  - apply Z.divide_sub_r; [|done]. rewrite Hd3. apply Hdiv.
Qed.

(** for a usable range that contains no 2M boundary the last loop starts below the
    range: it maps a page that does not belong to it. *)
Theorem map_calls_small_range mr :
  low_range mr -> down (mr_base mr + mr_length mr) 21 < mr_base mr ->
  mr_base mr < down (mr_base mr + mr_length mr) 12 ->
  exists a, (a, 0) ∈ map_calls mr /\ a < mr_base mr.
Proof.
  intros Hlow H1 H2. rewrite map_calls_eq by done. cbv zeta. destruct Hlow as (Hb & Hl & He).
  exists (down (mr_base mr + mr_length mr) 21).
  assert (0 <= down (mr_base mr + mr_length mr) 21) as Hpos.
  { unfold down. pose proof (Z.mod_le (mr_base mr + mr_length mr) (2 ^ 21) ltac:(lia) ltac:(lia)). lia. }
  split; [|done]. apply elem_of_app. right. apply elem_of_app. right.
  rewrite <- (u64_small (down (mr_base mr + mr_length mr) 21)) at 1 by (unfold is_u64; lia).
  apply in_fmap_for_int; lia.
Qed.

(** a usable range whose length is not a whole number of pages is not handed out
    correctly: once less than a page is left, [get_phys_page] returns that
    fragment and the 64-bit length wraps around. *)
Theorem get_phys_page_fragment m r rest :
  0 <= interrupt_disabled m -> early_get_page m = false -> head m = [] ->
  usable_head m = r :: rest -> 0 < mr_length r < 4096 ->
  exists m', get_phys_page m = Done (mr_base r) m'
    /\ exists r', usable_head m' = r' :: rest /\ mr_length r' = 2 ^ 64 - 4096 + mr_length r.
Proof.
  intros Hi He Hh Hu Hr. unfold get_phys_page.
  assert (get_phys_page_locked (set_irq (irq m + 1) m) = Done (mr_base r)
    (set_usable (mkRange (mr_addr r) (u64 (mr_base r + PAGE_SIZE)) (u64 (mr_length r - PAGE_SIZE)) :: rest)
       (set_irq (irq m + 1) m))) as E.
  { unfold get_phys_page_locked, get, mbind, M_bind. cbn -[u64 PAGE_SIZE]. rewrite He. cbn -[u64 PAGE_SIZE].
    rewrite Hh, Hu. rewrite PAGE_SIZE_eq. destruct (Z.eqb_spec (mr_length r) 4096); [lia|]. done. }
  assert (0 <= irq m) as Hi' by exact Hi.
  rewrite (locked_Done _ m _ _ Hi' E eq_refl). eexists. split; [reflexivity|].
  eexists. split; [reflexivity|]. cbn [mr_length]. rewrite PAGE_SIZE_eq. unfold u64, wrap.
  symmetry. apply (Z.mod_unique _ _ (-1)); lia.
Qed.

(** ** Witnesses *)
Definition ex_page (k : Z) : Z := KERN_VMBASE + 0x1000 * k.
Definition ex_mrng : Z := ex_page 1 + 8.
(** Three free pages; the descriptor of the range pool is the only object. *)
Definition ex_mem : mem :=
  mkMem 0 [ex_page 2; ex_page 3; ex_page 4] [] (At ex_mrng) false
        (mkPool (ex_page 1) [] [ex_page 1] 40 4048) {[ex_mrng := mkPool 0 [] [] 24 0]}.
Definition ex_live (r : pool_ref) : list Z := match r with Meta => [ex_mrng] | At _ => [] end.

Lemma ex_page_ok k : 0 <= k < 100 -> vpage (ex_page k).
Proof.
  intros Hk. unfold vpage, ex_page, KERN_VMBASE. split_and!; [lia|lia|].
  apply Z.mod_divide; [done|]. exists (0xffff808000000 + k). lia.
Qed.

Lemma ex_mem_ok : mem_ok ex_mem {[ex_page 1]} ex_live.
Proof.
  assert (forall r p, pool_at ex_mem r = Some p ->
    (r = Meta /\ p = mkPool (ex_page 1) [] [ex_page 1] 40 4048)
    \/ (r = At ex_mrng /\ p = mkPool 0 [] [] 24 0)) as Hcase.
  { intros [|a] p; cbn; [intros [= <-]; by left|].
    intros [<- <-]%lookup_singleton_Some. by right. }
  constructor; try done.
  - cbn. repeat (apply NoDup_cons; split; [intros H; repeat (apply elem_of_cons in H as [H|H]);
      [by vm_compute in H..|by apply elem_of_nil in H]|]). constructor.
  - cbn. repeat (apply Forall_cons; split; [apply ex_page_ok; lia|]). constructor.
  - intros pg ->%elem_of_singleton. split; [by apply ex_page_ok|]. cbn. intros H.
    repeat (apply elem_of_cons in H as [H|H]; [by vm_compute in H|]). by apply elem_of_nil in H.
  - intros r p Hrp. apply Hcase in Hrp as [[-> ->]|[-> ->]].
    + split; [|split; [apply NoDup_singleton|intros pg; cbn; set_solver]].
      split; cbn; try (done || lia).
      * split; [done|]. exists 1. lia.
      * unfold live_of. cbn. apply NoDup_singleton.
      * unfold live_of. cbn. apply Forall_singleton. exists (ex_page 1), 0. cbn.
        split_and!; [set_solver|lia|done|done|done].
    + split; [|split; [constructor|cbn; set_solver]].
      split; cbn; try (done || lia); unfold live_of; cbn; constructor.
  - intros r1 r2 p1 p2 pg H1 H2 Hq1 Hq2.
    apply Hcase in H1 as [[-> ->]|[-> ->]]; apply Hcase in H2 as [[-> ->]|[-> ->]]; try done;
      by apply elem_of_nil in Hq2 || by apply elem_of_nil in Hq1.
  - intros a [p Ha]. cbn in Ha. apply lookup_singleton_Some in Ha as [<- _]. cbn. set_solver.
Qed.

Lemma get_page_fresh_witness :
  match free_pages ex_mem with
  | [] => get_page ex_mem = Faulted
  | pg :: rest => exists m', get_page ex_mem = Done pg m' /\ free_pages m' = rest
      /\ mem_ok m' ({[pg]} ∪ {[ex_page 1]}) ex_live /\ pg ∉ ({[ex_page 1]} : gset Z) /\ vpage pg
      /\ interrupt_disabled m' = interrupt_disabled ex_mem
  end /\ free_pages ex_mem = [ex_page 2; ex_page 3; ex_page 4].
Proof. split; [exact (get_page_fresh ex_mem _ _ ex_mem_ok)|reflexivity]. Defined.

(** The page [get_page] took from [ex_mem], given back. *)
Lemma drop_page_reuse_witness :
  exists m own, mem_ok m own ex_live /\ ex_page 2 ∈ own /\ loose m (ex_page 2)
  /\ exists m1 m2, drop_page (ex_page 2) m = Done () m1 /\ mem_ok m1 (own ∖ {[ex_page 2]}) ex_live
    /\ get_page m1 = Done (ex_page 2) m2 /\ mem_ok m2 ({[ex_page 2]} ∪ own ∖ {[ex_page 2]}) ex_live
    /\ free_pages m2 = free_pages m.
Proof.
  destruct (get_page_ok ex_mem _ ex_live (ex_page 2) [ex_page 3; ex_page 4] ex_mem_ok eq_refl)
    as (m & _ & _ & Hok & Hno & _ & _ & [_ Hph] & _).
  assert (loose m (ex_page 2)) as Hl.
  { intros r p Hp Hin. destruct (Hph r p Hp) as (q & Hq & E). rewrite E in Hin.
    apply Hno. by apply (mo_pools _ _ _ ex_mem_ok r q). }
  assert (ex_page 2 ∈ ({[ex_page 2]} ∪ {[ex_page 1]} : gset Z)) as Hin by set_solver.
  eexists m, _. split; [exact Hok|]. split; [exact Hin|]. split; [exact Hl|].
  exact (drop_page_reuse m _ ex_live (ex_page 2) Hok Hin Hl).
Defined.

Lemma obj_pool_alloc_disjoint_witness :
  exists a m' own', obj_pool_alloc Meta ex_mem = Done a m'
    /\ mem_ok m' own' (upd_live ex_live Meta (a :: ex_live Meta)) /\ {[ex_page 1]} ⊆ own'
    /\ interrupt_disabled m' = interrupt_disabled ex_mem
    /\ forall r2 p2 b, pool_at m' r2 = Some p2 -> b ∈ live_of m' ex_live r2 ->
         a + 40 <= b \/ b + obj_size p2 <= a.
Proof.
  apply (obj_pool_alloc_disjoint ex_mem {[ex_page 1]} ex_live Meta
           (mkPool (ex_page 1) [] [ex_page 1] 40 4048) ex_mem_ok); [reflexivity|by vm_compute|].
  right. left. cbn. lia.
Defined.

Lemma obj_pool_free_reuse_witness :
  exists m own live a l, live Meta ≡ₚ a :: l /\ exists m1 m2, obj_pool_free Meta a m = Done () m1
    /\ mem_ok m1 own (upd_live live Meta l) /\ obj_pool_alloc Meta m1 = Done a m2.
Proof.
  destruct (obj_pool_alloc_ok ex_mem _ ex_live Meta (mkPool (ex_page 1) [] [ex_page 1] 40 4048)
    ex_mem_ok eq_refl) as (a & m & _ & own & Hok & _ & Hno & (p & Hp & _) & _ & Hm & Hd);
    [by vm_compute|right; left; cbn; lia|].
  assert (upd_live ex_live Meta (a :: ex_live Meta) Meta ≡ₚ a :: ex_live Meta) as Hl by reflexivity.
  exists m, own, (upd_live ex_live Meta (a :: ex_live Meta)), a, (ex_live Meta).
  split; [exact Hl|].
  refine (obj_pool_free_reuse m own _ Meta p a _ Hok Hp _ Hl _).
  - rewrite Hm. by vm_compute.
  - intros _. destruct (pools m !! a) eqn:E; [|done]. exfalso. apply Hno.
    apply (mo_at _ _ _ ex_mem_ok), Hd. by eexists.
Defined.

Lemma obj_pool_create_destroy_witness :
  (5 < 8 \/ 4096 < 5 -> obj_pool_create 5 ex_mem = Panicked "Invalid object size")
  /\ (8 <= 5 <= 4088 -> exists a m1 m2 own1, obj_pool_create 5 ex_mem = Done (At a) m1
      /\ pools ex_mem !! a = None /\ pools m1 !! a = Some (mkPool 0 [] [] 5 0)
      /\ interrupt_disabled m1 = interrupt_disabled ex_mem /\ {[ex_page 1]} ⊆ own1
      /\ mem_ok m1 own1 (upd_live (upd_live ex_live Meta (a :: ex_live Meta)) (At a) [])
      /\ obj_pool_destroy (At a) m1 = Done () m2 /\ pools m2 !! a = None
      /\ exists own2 live2, mem_ok m2 own2 live2 /\ live2 Meta = ex_live Meta).
Proof.
  apply (obj_pool_create_destroy ex_mem {[ex_page 1]} ex_live 5 ex_mem_ok). right. left. cbn. lia.
Defined.

(** A pool of 4096-byte objects in [ex_mem]. *)
Definition ex_big : mem :=
  match obj_pool_create 4096 ex_mem with Done _ m => m | _ => ex_mem end.

Lemma obj_pool_oversize_witness :
  obj_pool_create 4096 ex_mem = Done (At (ex_page 1 + 48)) ex_big
  /\ exists m2, obj_pool_alloc (At (ex_page 1 + 48)) ex_big = Done (ex_page 2 + 8) m2
      /\ ex_page 2 + 4096 < (ex_page 2 + 8) + 4096.
Proof.
  assert (obj_pool_create 4096 ex_mem = Done (At (ex_page 1 + 48)) ex_big) as E by (vm_compute; reflexivity).
  split; [exact E|].
  refine (obj_pool_oversize ex_mem ex_big _ (ex_page 2) [ex_page 3; ex_page 4] 4096 E _ _ _ _);
    [lia|vm_compute; reflexivity|by apply ex_page_ok|by vm_compute].
Defined.

Lemma carve_exact_witness :
  Exists (fun r => r.1 <= 0x100000 < r.1 + r.2) (carve 0x200000 0x20000 0x100000 0x7f00000)
  <-> 0x100000 <= 0x100000 < 0x100000 + 0x7f00000 /\ ~ 0x200000 <= 0x100000 < 0x200000 + 0x20000.
Proof. apply carve_exact; lia. Defined.

Lemma map_calls_exact_witness :
  times_covered 0x345000 (map_calls (mkRange 0 0x100000 0x7f00000))
  = if (up 0x100000 12 <=? 0x345000) && (0x345000 <? down (0x100000 + 0x7f00000) 12) then 1%nat else 0%nat.
Proof.
  apply (map_calls_exact (mkRange 0 0x100000 0x7f00000) 0x345000); [unfold low_range; cbn; lia|].
  by vm_compute.
Defined.

Lemma map_calls_small_range_witness :
  exists a, (a, 0) ∈ map_calls (mkRange 0 0x100000 0x80000) /\ a < 0x100000.
Proof.
  apply (map_calls_small_range (mkRange 0 0x100000 0x80000));
    [unfold low_range; cbn; lia|by vm_compute|by vm_compute].
Defined.

Lemma get_phys_page_fragment_witness :
  let m := mkMem 0 [] [mkRange 0 0x7000 0x800] Meta false (mkPool 0 [] [] 40 0) ∅ in
  exists m', get_phys_page m = Done 0x7000 m'
    /\ exists r', usable_head m' = [r'] /\ mr_length r' = 2 ^ 64 - 4096 + 0x800.
Proof.
  apply (get_phys_page_fragment (mkMem 0 [] [mkRange 0 0x7000 0x800] Meta false (mkPool 0 [] [] 40 0) ∅)
    (mkRange 0 0x7000 0x800) []); cbn; (done || lia).
Defined.
