(* ===== verification/MmState.v ===== *)
(** The state of the memory manager ([sys/mm/]) and its accessors.

    [struct page], [struct page_entry] and [struct address_space] live in object
    pools; an object is named by a [positive] that is never reused (that
    allocation yields an object distinct from every live one is
    [Alloc.obj_pool_alloc_disjoint]).  Reading an object that is not there is
    [Faulted].  Pages come from [Alloc.get_page], on the allocator's own state.

    The two radix trees ([vaddr_map], [phys_pages]) are used through the
    interface [Binradix.RadixMap].  The page tables of an address space are the
    map [ptes] from page addresses to their present 4k entries: every user of
    [ptable_get_entry_4k] treats a missing table and a non-present entry
    alike. *)
From S2P Require Import Prelude Bits Irq Binradix Alloc.

Definition PF_SHARED : Z := 1.
Definition PF_SNAPSHOT : Z := 2.
Definition PF_HARDWARE : Z := 4.
Definition VMA_RW : Z := 1.
Definition VMA_HW : Z := 2.
Definition EINVAL : Z := 22.
Definition ENOMEM : Z := 12.
Definition EFAULT : Z := 14.
Definition EBADF : Z := 9.
Definition EMFILE : Z := 24.

Notation id := positive (only parsing).

(** [flag f x]: the C test [x & f]. *)
Definition flag (f x : Z) : bool := negb (Z.land x f =? 0).

Record page := mkPage {
  phys_addr : Z;
  page_size : Z;
  ref_count : Z;
  snap_count : Z;
  owner : list id;
}.

Record page_entry := mkEntry {
  pe_p : id;
  pe_as : id;
  pe_vaddr : Z;
  pe_flags : Z;
}.

(** [vma_id] is the address of the [struct vm_area]; [next]/[prev] are the
    order of the list [vma] of the address space. *)
Record vm_area := mkVma {
  vma_id : id;
  vma_flags : Z;
  vma_page_size : Z;
  vma_begin : Z;
  vma_length : Z;
  vma_pages : list id;
}.

Record address_space (R : Type) := mkAs {
  vaddr_map : R;
  vma : list vm_area;
  low_addr : Z;
  high_addr : Z;
  as_flags : Z;
  ptes : gmap Z Z;
}.
Arguments mkAs {R}.
Arguments vaddr_map {R}.
Arguments vma {R}.
Arguments low_addr {R}.
Arguments high_addr {R}.
Arguments as_flags {R}.
Arguments ptes {R}.

(** [phys]: the bytes of physical memory. *)
Record mm (R : Type) := mkMm {
  alloc : mem;
  phys : Z -> Z;
  next_id : id;
  pgs : gmap id page;
  phys_pages : R;
  entries : gmap id page_entry;
  spaces : gmap id (address_space R);
  current_as : id;
  zero_page : id;
}.
Arguments mkMm {R}.
Arguments alloc {R}.
Arguments phys {R}.
Arguments next_id {R}.
Arguments pgs {R}.
Arguments phys_pages {R}.
Arguments entries {R}.
Arguments spaces {R}.
Arguments current_as {R}.
Arguments zero_page {R}.

Section state.
Context {R : Type}.
Implicit Types s : mm R.

Definition set_alloc (a : mem) s : mm R :=
  mkMm a (phys s) (next_id s) (pgs s) (phys_pages s) (entries s) (spaces s) (current_as s) (zero_page s).
Definition set_phys (f : Z -> Z) s : mm R :=
  mkMm (alloc s) f (next_id s) (pgs s) (phys_pages s) (entries s) (spaces s) (current_as s) (zero_page s).
Definition set_next (n : id) s : mm R :=
  mkMm (alloc s) (phys s) n (pgs s) (phys_pages s) (entries s) (spaces s) (current_as s) (zero_page s).
Definition set_pgs (g : gmap id page) s : mm R :=
  mkMm (alloc s) (phys s) (next_id s) g (phys_pages s) (entries s) (spaces s) (current_as s) (zero_page s).
Definition set_phys_pages (r : R) s : mm R :=
  mkMm (alloc s) (phys s) (next_id s) (pgs s) r (entries s) (spaces s) (current_as s) (zero_page s).
Definition set_entries (g : gmap id page_entry) s : mm R :=
  mkMm (alloc s) (phys s) (next_id s) (pgs s) (phys_pages s) g (spaces s) (current_as s) (zero_page s).
Definition set_spaces (g : gmap id (address_space R)) s : mm R :=
  mkMm (alloc s) (phys s) (next_id s) (pgs s) (phys_pages s) (entries s) g (current_as s) (zero_page s).
Definition set_current_as (a : id) s : mm R :=
  mkMm (alloc s) (phys s) (next_id s) (pgs s) (phys_pages s) (entries s) (spaces s) a (zero_page s).

#[export] Program Instance mm_irq : HasIrq (mm R) := {
  irq s := interrupt_disabled (alloc s);
  set_irq n s := set_alloc (set_irq n (alloc s)) s;
}.
Solve Obligations with (intros; try done; destruct s as [[]]; done).

(** Code of [Alloc] run on the allocator inside [mm]. *)
Definition lift {A} (m : M mem A) : M (mm R) A := fun s =>
  match m (alloc s) with
  | Done a m' => Done a (set_alloc m' s)
  | Panicked msg => Panicked msg
  | Faulted => Faulted
  end.
Definition get_page : M (mm R) Z := lift Alloc.get_page.
Definition drop_page (pg : Z) : M (mm R) () := lift (Alloc.drop_page pg).

(** A fresh object from one of the pools. *)
Definition new_id : M (mm R) id := i ← gets next_id; modify (set_next (Pos.succ i));; mret i.

Definition get_pg (i : id) : M (mm R) page := o ← gets (fun s => pgs s !! i); deref o.
Definition put_pg (i : id) (p : page) : M (mm R) () := modify (fun s => set_pgs (<[i := p]> (pgs s)) s).
Definition get_pe (i : id) : M (mm R) page_entry := o ← gets (fun s => entries s !! i); deref o.
Definition put_pe (i : id) (e : page_entry) : M (mm R) () :=
  modify (fun s => set_entries (<[i := e]> (entries s)) s).
Definition get_as (i : id) : M (mm R) (address_space R) := o ← gets (fun s => spaces s !! i); deref o.
Definition put_as (i : id) (a : address_space R) : M (mm R) () :=
  modify (fun s => set_spaces (<[i := a]> (spaces s)) s).

Definition with_ref (n : Z) (p : page) : page :=
  mkPage (phys_addr p) (page_size p) n (snap_count p) (owner p).
Definition with_snap (n : Z) (p : page) : page :=
  mkPage (phys_addr p) (page_size p) (ref_count p) n (owner p).
Definition with_owner (l : list id) (p : page) : page :=
  mkPage (phys_addr p) (page_size p) (ref_count p) (snap_count p) l.
Definition with_p (i : id) (e : page_entry) : page_entry :=
  mkEntry i (pe_as e) (pe_vaddr e) (pe_flags e).
Definition with_flags (f : Z) (e : page_entry) : page_entry :=
  mkEntry (pe_p e) (pe_as e) (pe_vaddr e) f.
Definition with_pages (l : list id) (v : vm_area) : vm_area :=
  mkVma (vma_id v) (vma_flags v) (vma_page_size v) (vma_begin v) (vma_length v) l.
Definition with_bounds (b l : Z) (v : vm_area) : vm_area :=
  mkVma (vma_id v) (vma_flags v) (vma_page_size v) b l (vma_pages v).
Definition with_map (r : R) (a : address_space R) : address_space R :=
  mkAs r (vma a) (low_addr a) (high_addr a) (as_flags a) (ptes a).
Definition with_vma (l : list vm_area) (a : address_space R) : address_space R :=
  mkAs (vaddr_map a) l (low_addr a) (high_addr a) (as_flags a) (ptes a).
Definition with_ptes (t : gmap Z Z) (a : address_space R) : address_space R :=
  mkAs (vaddr_map a) (vma a) (low_addr a) (high_addr a) (as_flags a) t.

(** ** Page table entries *)
(** [ptable_get_entry_4k] on a user address: the entry, if present. *)
Definition get_pte (a : id) (vaddr : Z) : M (mm R) (option Z) :=
  if GET_BIT vaddr 63 =? 0 then sp ← get_as a; mret (ptes sp !! vaddr)
  else panic "Trying to lookup kernel address in user space page table".
Definition set_pte (a : id) (vaddr entry : Z) : M (mm R) () :=
  sp ← get_as a; put_as a (with_ptes (<[vaddr := entry]> (ptes sp)) sp).
Definition clear_pte (a : id) (vaddr : Z) : M (mm R) () :=
  sp ← get_as a; put_as a (with_ptes (delete vaddr (ptes sp)) sp).

(** [unmap] works on the current address space. *)
Definition unmap (vaddr : Z) : M (mm R) () := c ← gets current_as; clear_pte c vaddr.
Definition map_page (addr vaddr pgsize flags : Z) : M (mm R) () :=
  c ← gets current_as;
  sp ← get_as c;
  match ptes sp !! vaddr with
  | Some _ => panic "mapping an already mapped page"
  | None => set_pte c vaddr (Z.lor (pte_set_flags (pte_set_base 0 addr pgsize) flags) PTE_P)
  end.
(** [unmap_maybe_current]: both branches clear the entry of [as]. *)
Definition unmap_maybe_current (a : id) (vaddr : Z) : M (mm R) () :=
  c ← gets current_as;
  if decide (a = c) then unmap vaddr
  else o ← get_pte a vaddr; match o with Some _ => clear_pte a vaddr | None => mret () end.

(** ** Bytes *)
Definition memset_phys (addr v n : Z) : M (mm R) () :=
  modify (fun s => set_phys (fun x => if (addr <=? x) && (x <? addr + n) then v else phys s x) s).
Definition memcpy_phys (dst src n : Z) : M (mm R) () :=
  modify (fun s => set_phys (fun x => if (dst <=? x) && (x <? dst + n) then phys s (src + (x - dst))
                                      else phys s x) s).
Definition read_bytes (addr : Z) (n : nat) : M (mm R) (list Z) :=
  gets (fun s => (fun i => phys s (addr + Z.of_nat i)) <$> seq 0 n).
Definition write_bytes (addr : Z) (l : list Z) : M (mm R) () :=
  modify (fun s => set_phys (fun x => if (addr <=? x) && (x <? addr + Z.of_nat (length l))
                                      then default 0 (l !! Z.to_nat (x - addr)) else phys s x) s).
Definition virt_to_phys (v : Z) : Z := u64 (v - KERN_VMBASE).
End state.
