(* ===== verification/PageMan.v ===== *)
(** Physical pages and their owners: [sys/mm/page_man.c]. *)
From S2P Require Import Prelude Bits Irq Binradix Alloc MmState.

Section page_man.
Context {R : Type} `{!RadixMap R id}.
Notation Mm := (M (mm R)).

Definition manage_phys_page_locked (addr : Z) : Mm (Z + id) :=
  if negb (IS_ALIGNED addr PAGE_SIZE_BIT) then mret (inl (-1))
  else
    s ← get;
    match r_find (phys_pages s) addr with
    | Some i =>
        p ← get_pg i;
        put_pg i (with_ref (u64 (ref_count p + 1)) p);;
        mret (inr i)
    | None =>
        i ← new_id;
        put_pg i (mkPage addr 0 1 0 []);;
        s ← get;
        '(_, r) ← deref (r_insert (phys_pages s) addr i);
        modify (set_phys_pages r);;
        mret (inr i)
    end.

Definition manage_phys_page (addr : Z) : Mm (Z + id) := locked (manage_phys_page_locked addr).
Definition manage_page (addr : Z) : Mm (Z + id) := manage_phys_page (u64 (addr - KERN_VMBASE)).

(** The callers use the result as a page pointer without checking it. *)
Definition page_ptr (r : Z + id) : Mm id := match r with inl _ => fault | inr i => mret i end.

Definition page_unref (i : id) (hw : bool) : Mm bool :=
  p ← get_pg i;
  let p := with_ref (u64 (ref_count p - 1)) p in
  put_pg i p;;
  if ref_count p =? 0 then
    s ← get;
    '(_, r) ← deref (r_delete (phys_pages s) (phys_addr p));
    modify (set_phys_pages r);;
    (if negb hw then drop_page (phys_to_virt (phys_addr p)) else mret ());;
    modify (fun s => set_pgs (delete i (pgs s)) s);;
    mret true
  else mret false.

(** The loop that gives the owners of a page their write permission back. *)
Definition restore_write (check : bool) (l : list id) : Mm () :=
  forM_ l (fun o =>
    e ← get_pe o;
    if check && negb (flag PF_SHARED (pe_flags e)) then panic "snap_count == 0 but has snapshot"
    else
      pte ← get_pte (pe_as e) (pe_vaddr e);
      match pte with
      | Some entry => set_pte (pe_as e) (pe_vaddr e) (Z.lor entry PTE_W)
      | None => mret ()
      end).

Definition page_entry_unref (pe : id) : Mm () :=
  disable_interrupts;;
  e ← get_pe pe;
  (if flag PF_SNAPSHOT (pe_flags e) then
     p ← get_pg (pe_p e);
     let p := with_snap (u64 (snap_count p - 1)) p in
     put_pg (pe_p e) p;;
     if snap_count p =? 0 then restore_write true (owner p) else mret ()
   else mret ());;
  page_unref (pe_p e) (flag PF_HARDWARE (pe_flags e));;
  enable_interrupts.

Definition share_page (i : id) : Mm () :=
  disable_interrupts;;
  p ← get_pg i;
  forM_ (owner p) (fun o =>
    e ← get_pe o;
    if flag PF_HARDWARE (pe_flags e) then panic "Sharing PF_HARDWARE page"
    else
      pte ← get_pte (pe_as e) (pe_vaddr e);
      match pte with
      | Some entry =>
          if flag PTE_W entry
          then set_pte (pe_as e) (pe_vaddr e) (Z.land entry (u64 (Z.lnot PTE_W)))
          else mret ()
      | None => mret ()
      end);;
  enable_interrupts.

(** [list_del(&pe->owner_of)]: the node is on the owner list of page [i]. *)
Definition owner_del (i pe : id) : Mm () :=
  p ← get_pg i; put_pg i (with_owner (filter (fun o => o <> pe) (owner p)) p).
Definition owner_add (i pe : id) : Mm () :=
  p ← get_pg i; put_pg i (with_owner (pe :: owner p) p).

(** One shared owner of the old page moves to the new one. *)
Definition move_owner (oldp newp oi : id) : Mm () :=
  e ← get_pe oi;
  if negb (flag PF_SHARED (pe_flags e)) then mret ()
  else
    owner_del oldp oi;;
    p ← get_pg oldp; put_pg oldp (with_ref (u64 (ref_count p - 1)) p);;
    owner_add newp oi;;
    put_pe oi (with_p newp e);;
    p ← get_pg newp; put_pg newp (with_ref (u64 (ref_count p + 1)) p);;
    pte ← get_pte (pe_as e) (pe_vaddr e);
    match pte with Some _ => clear_pte (pe_as e) (pe_vaddr e) | None => mret () end.

Definition unshare_page (pe : id) : Mm () :=
  e ← get_pe pe;
  c ← gets current_as;
  if bool_decide (pe_as e <> c) then panic "Unsharing page from un-current as"
  else
    disable_interrupts;;
    if flag PF_HARDWARE (pe_flags e) then panic "Unsharing PF_HARDWARE page??"
    else
      p0 ← get_pg (pe_p e);
      if snap_count p0 =? 0 then
        disable_interrupts;;
        restore_write false (owner p0);;
        enable_interrupts
      else if (snap_count p0 =? ref_count p0) && (ref_count p0 =? 1) then
        put_pg (pe_p e) (with_snap 0 p0);;
        unmap (pe_vaddr e);;
        enable_interrupts
      else
        page ← get_page;
        if ref_count p0 =? 1 then panic "Trying to unshare a page with 1 user"
        else
          memcpy_phys (virt_to_phys page) (phys_addr p0) PAGE_SIZE;;
          r ← manage_page page;
          p ← page_ptr r;
          let oldp := pe_p e in
          owner_del oldp pe;;
          (if flag PF_SHARED (pe_flags e) then
             old ← get_pg oldp;
             forM_ (owner old) (move_owner oldp p)
           else
             put_pe pe (with_flags PF_SHARED e);;
             old ← get_pg oldp;
             let old := with_snap (u64 (snap_count old - 1)) old in
             put_pg oldp old;;
             if snap_count old =? 0 then restore_write true (owner old) else mret ());;
          e ← get_pe pe;
          put_pe pe (with_p p e);;
          owner_add p pe;;
          unmap (pe_vaddr e);;
          page_unref oldp false;;
          enable_interrupts.

(** [page_man_init]'s tree; the object pool is implicit. *)
Definition page_man_init : Mm () := modify (set_phys_pages r_new).

(** [page_entry_new] leaves [p] and [flags] to its caller, who sets them next:
    they are arguments here. *)
Definition page_entry_new (a : id) (vaddr : Z) (p : id) (flags : Z) : Mm id :=
  i ← new_id; put_pe i (mkEntry p a vaddr flags);; mret i.
End page_man.
