(* ===== verification/Aspace.v ===== *)
(** Address spaces: [sys/mm/aspace.c].

    A [struct vm_area *] is the pair of its address space and its [vma_id]; the
    functions that return a pointer or an [ERR_PTR] return a sum. *)
From S2P Require Import Prelude Bits Irq Binradix Alloc MmState PageMan.

Definition vma_flags_to_page_flags (vmaf : Z) : Z :=
  Z.lor (if flag VMA_RW vmaf then PTE_W else 0) PTE_U.

Definition vma_end (v : vm_area) : Z := u64 (vma_begin v + vma_length v).
Definition vma_get_base (v : vm_area) : Z := vma_begin v.

(** The loop of [aspace_add_vma]: the list with [v] linked in, or [None] on an
    overlap. *)
Fixpoint add_vma (v : vm_area) (l : list vm_area) : option (list vm_area) :=
  match l with
  | [] => Some [v]
  | now :: next =>
      if vma_end v <=? vma_begin now then Some (v :: now :: next)
      else if (vma_begin v <? vma_end now) && (vma_begin now <? vma_end v) then None
      else l' ← add_vma v next; Some (now :: l')
  end.

(** [vma_find_by_vaddr] on the list; [None] is NULL. *)
Fixpoint find_vma (l : list vm_area) (addr : Z) : option vm_area :=
  match l with
  | [] => None
  | now :: next =>
      if addr <? vma_begin now then None
      else if addr <? vma_end now then Some now
      else find_vma next addr
  end.

(** The loop of [insert_vma_to_any]: where the hole starts, the areas before it
    and those after. *)
Fixpoint find_hole (l : list vm_area) (now_addr len : Z) : Z * list vm_area * list vm_area :=
  match l with
  | [] => (now_addr, [], [])
  | now :: next =>
      if u64 (now_addr + len) <=? vma_begin now then (now_addr, [], l)
      else let '(a, pre, post) := find_hole next (vma_end now) len in (a, now :: pre, post)
  end.

(** The loop of [validate_range], from the area [vma_find_by_vaddr] returned and
    its successors. *)
Fixpoint validate_loop (l : list vm_area) (base len : Z) : Z :=
  match l with
  | [] => 1
  | v :: next =>
      if base <? vma_begin v then 1
      else
        let tmp := vma_end v in
        if len <=? u64 (tmp - base) then 0
        else
          let len := u64 (len - u64 (tmp - base)) in
          if 0 <? len then validate_loop next tmp len else 0
  end.
Fixpoint vmas_from (l : list vm_area) (addr : Z) : list vm_area :=
  match l with
  | [] => []
  | now :: next =>
      if addr <? vma_begin now then []
      else if addr <? vma_end now then l
      else vmas_from next addr
  end.

Section aspace.
Context {R : Type} `{!RadixMap R id}.
(** What a fresh object holds in the fields the code does not initialise. *)
Context (junk : Z).
Notation Mm := (M (mm R)).

(** [list_del(&pe->siblings)]: off the page list of the area it is on. *)
Definition sibling_del (a pe : id) : Mm () :=
  sp ← get_as a;
  put_as a (with_vma ((fun v => with_pages (filter (fun o => o <> pe) (vma_pages v)) v) <$> vma sp) sp).
Definition sibling_add (a v pe : id) : Mm () :=
  sp ← get_as a;
  put_as a (with_vma ((fun x => if decide (vma_id x = v) then with_pages (pe :: vma_pages x) x else x)
                      <$> vma sp) sp).

Definition unassign_page (pe : id) : Mm () :=
  disable_interrupts;;
  e ← get_pe pe;
  sp ← get_as (pe_as e);
  '(_, r) ← deref (r_delete (vaddr_map sp) (pe_vaddr e));
  put_as (pe_as e) (with_map r sp);;
  owner_del (pe_p e) pe;;
  sibling_del (pe_as e) pe;;
  enable_interrupts;;
  unmap_maybe_current (pe_as e) (pe_vaddr e);;
  page_entry_unref pe;;
  modify (fun s => set_entries (delete pe (entries s)) s).

Definition aspace_add_vma (a : id) (v : vm_area) : Mm Z :=
  disable_interrupts;;
  sp ← get_as a;
  match add_vma v (vma sp) with
  | None => enable_interrupts;; mret (-1)
  | Some l => put_as a (with_vma l sp);; enable_interrupts;; mret 0
  end.

(** [aspace_new] with [aspace_init]; the page taken for the pml4 is [get_page]'s. *)
Definition aspace_new (flags : Z) : Mm id :=
  a ← new_id;
  pml4 ← get_page;
  memset_phys (virt_to_phys pml4) 0 PAGE_SIZE;;
  put_as a (mkAs r_new [] USER_BASE USER_TOP flags ∅);;
  mret a.

Definition vma_find_by_vaddr (a : id) (addr : Z) : Mm (option vm_area) :=
  sp ← get_as a; mret (find_vma (vma sp) addr).

Definition get_allocated_page (a : id) (vaddr : Z) : Mm (option id) :=
  sp ← get_as a; mret (r_find (vaddr_map sp) vaddr).

Definition address_space_map (vaddr : Z) : Mm Z :=
  if negb (IS_ALIGNED vaddr PAGE_SIZE_BIT) then mret (-2)
  else
    c ← gets current_as;
    o ← vma_find_by_vaddr c vaddr;
    match o with
    | None => mret (-1)
    | Some cvma =>
        o ← get_allocated_page c vaddr;
        match o with
        | None => mret 0
        | Some pe =>
            e ← get_pe pe;
            p ← get_pg (pe_p e);
            let flags := vma_flags_to_page_flags (vma_flags cvma) in
            p ← (if (snap_count p =? 1) && (ref_count p =? 1) then
                   put_pg (pe_p e) (with_snap 0 p);;
                   if negb (flag PF_SNAPSHOT (pe_flags e))
                   then panic "Has snap_count but not snapshot holder"
                   else put_pe pe (with_flags PF_SHARED e);; mret (with_snap 0 p)
                 else mret p);
            let flags := if 0 <? snap_count p then Z.land flags (u64 (Z.lnot PTE_W)) else flags in
            map_page (phys_addr p) vaddr (vma_page_size cvma) flags;;
            mret 1
        end
    end.

Definition address_space_assign_page_no_addr_check
  (a p : id) (vaddr : Z) (v : id) (flags : Z) : Mm () :=
  if Z.land flags (Z.lor PF_SHARED PF_SNAPSHOT) =? Z.lor PF_SHARED PF_SNAPSHOT then
    panic "Insert page with invalid flags, a page can't be both shared and snapshot"
  else if Z.land flags (Z.lor PF_HARDWARE PF_SNAPSHOT) =? Z.lor PF_HARDWARE PF_SNAPSHOT then
    panic "Insert page with invalid flags, a page can't be both hardware and snapshot"
  else
    disable_interrupts;;
    o ← get_allocated_page a vaddr;
    match o with Some pe => unassign_page pe | None => mret () end;;
    pe ← page_entry_new a vaddr p flags;
    pg ← get_pg p;
    put_pg p (with_ref (u64 (ref_count pg + 1)) pg);;
    owner_add p pe;;
    sibling_add a v pe;;
    sp ← get_as a;
    '(_, r) ← deref (r_insert (vaddr_map sp) vaddr pe);
    put_as a (with_map r sp);;
    (if flag PF_SNAPSHOT flags then
       pg ← get_pg p;
       if ref_count pg =? 0 then panic "Invalid snapshot"
       else
         put_pg p (with_snap (u64 (snap_count pg + 1)) pg);;
         if u64 (snap_count pg + 1) =? 1 then share_page p else mret ()
     else mret ());;
    enable_interrupts.

Definition in_vma (v : vm_area) (vaddr : Z) : bool :=
  negb ((vaddr <? vma_begin v) || (vma_end v <=? vaddr)).

Definition address_space_assign_page_with_vma (a : id) (v : vm_area) (p : id) (vaddr flags : Z) : Mm Z :=
  if negb (IS_ALIGNED vaddr PAGE_SIZE_BIT) then mret (-1)
  else if negb (in_vma v vaddr) then mret (-2)
  else address_space_assign_page_no_addr_check a p vaddr (vma_id v) flags;; mret 0.

(** [vma_find_by_vaddr] returns NULL, never an [ERR_PTR]: [PTR_IS_ERR(NULL)] holds and
    [PTR_ERR(NULL)] is 0. *)
Definition address_space_assign_page (a p : id) (vaddr flags : Z) : Mm Z :=
  if negb (IS_ALIGNED vaddr PAGE_SIZE_BIT) then mret (-1)
  else
    o ← locked (vma_find_by_vaddr a vaddr);
    match o with
    | None => mret (PTR_ERR 0)
    | Some v => address_space_assign_page_no_addr_check a p vaddr (vma_id v) flags;; mret 0
    end.

Definition address_space_assign_addr (a : id) (addr vaddr flags : Z) : Mm Z :=
  if negb (IS_ALIGNED vaddr PAGE_SIZE_BIT) then mret (-1)
  else
    o ← locked (vma_find_by_vaddr a vaddr);
    match o with
    | None => mret (PTR_ERR 0)
    | Some v =>
        r ← manage_phys_page addr;
        p ← page_ptr r;
        address_space_assign_page_no_addr_check a p vaddr (vma_id v) flags;;
        page_unref p false;;
        mret 0
    end.

Definition address_space_assign_addr_with_vma (a : id) (v : vm_area) (addr vaddr flags : Z) : Mm Z :=
  if negb (IS_ALIGNED vaddr PAGE_SIZE_BIT) then mret (-1)
  else if negb (in_vma v vaddr) then mret (-2)
  else
    r ← manage_phys_page addr;
    p ← page_ptr r;
    address_space_assign_page_no_addr_check a p vaddr (vma_id v) flags;;
    page_unref p false;;
    mret 0.

(** The checking loop of [address_space_assign_addr_range]; [None] is the NULL
    dereference of [nvma]. *)
Fixpoint range_check (l : list vm_area) (tmp_len : Z) : option Z :=
  match l with
  | [] => None
  | tvma :: next =>
      if vma_length tvma <? tmp_len then
        if negb (flag VMA_HW (vma_flags tvma)) then Some (-4)
        else
          match next with
          | [] => None
          | nvma :: _ =>
              if negb (vma_begin nvma =? vma_end tvma) then Some (-3)
              else range_check next (u64 (tmp_len - vma_length tvma))
          end
      else Some 0
  end.

(** The mapping loop: [i] pages done out of [n], [l] the areas from [cvma] on. *)
Fixpoint assign_loop (a : id) (l : list vm_area) (addr vaddr i offset : Z) (n : nat) : Mm Z :=
  match n with
  | O => enable_interrupts;; mret 0
  | S n =>
      cvma ← deref (hd_error l);
      let '(l, offset) := if u64 (vma_length cvma + offset) <=? i
                          then (tl l, u64 (offset + vma_length cvma)) else (l, offset) in
      cvma ← deref (hd_error l);
      ret ← address_space_assign_addr_with_vma a cvma (u64 (addr + i)) (u64 (vaddr + i))
              (Z.lor PF_SHARED PF_HARDWARE);
      if negb (ret =? 0) then mret ret
      else assign_loop a l addr vaddr (i + PAGE_SIZE) offset n
  end.

(** [i] is an [int]; ranges of 2G and more are outside the model. *)
Definition address_space_assign_addr_range (a : id) (addr vaddr len : Z) : Mm Z :=
  if negb (IS_ALIGNED addr PAGE_SIZE_BIT) || negb (IS_ALIGNED vaddr PAGE_SIZE_BIT)
     || negb (IS_ALIGNED len PAGE_SIZE_BIT) then mret (-2)
  else
    disable_interrupts;;
    sp ← get_as a;
    let l := vmas_from (vma sp) vaddr in
    match l with
    | [] => mret (-1)
    | _ :: _ =>
        r ← deref (range_check l len);
        if negb (r =? 0) then mret r
        else assign_loop a l addr vaddr 0 0 (Z.to_nat (len / PAGE_SIZE))
    end.

Definition insert_vma_to_vaddr (a : id) (vaddr len flags : Z) : Mm (Z + vm_area) :=
  v ← locked new_id;
  if negb (Z.land vaddr 0xfff =? 0) then mret (inl (-2))
  else
    sp ← get_as a;
    if (vaddr <? low_addr sp) || (high_addr sp <? vaddr) then mret (inl (-3))
    else
      let v := mkVma v flags 0 vaddr len [] in
      ret ← aspace_add_vma a v;
      if ret <? 0 then mret (inl ret) else mret (inr v).

Definition insert_vma_to_any (a : id) (len flags : Z) : Mm (Z + vm_area) :=
  disable_interrupts;;
  sp ← get_as a;
  let '(now_addr, pre, post) := find_hole (vma sp) (low_addr sp) len in
  if bool_decide (post = []) && (high_addr sp <? u64 (now_addr + len)) then mret (inl (-1))
  else
    v ← new_id;
    let nvma := mkVma v flags 0 now_addr len [] in
    put_as a (with_vma (pre ++ nvma :: post) sp);;
    enable_interrupts;;
    mret (inr nvma).

(** Replaces (or, with [[]], unlinks) the area with the given [vma_id]. *)
Definition vma_replace (a v : id) (l : list vm_area) : Mm () :=
  sp ← get_as a;
  put_as a (with_vma (flat_map (fun x => if decide (vma_id x = v) then l else [x]) (vma sp)) sp).

(** The loop of [remove_vma_range] over the areas [l] still ahead. *)
Fixpoint remove_loop (a : id) (l : list vm_area) (base len : Z) : Mm () :=
  match l with
  | [] => mret ()
  | now :: next =>
      let now_end := vma_end now in
      let rend := u64 (base + len) in
      if now_end <=? base then remove_loop a next base len
      else if rend <=? vma_begin now then mret ()
      else if (base <=? vma_begin now) && (now_end <=? rend) then
        vma_replace a (vma_id now) [];;
        forM_ (vma_pages now) unassign_page;;
        remove_loop a next base len
      else if (vma_begin now <? base) && (rend <? now_end) then
        n ← new_id;
        let old := with_bounds (vma_begin now) (u64 (base - vma_begin now)) now in
        let nvma := mkVma n junk junk rend (u64 (now_end - rend)) [] in
        vma_replace a (vma_id now) [old; nvma];;
        forM_ (vma_pages now) (fun pei =>
          e ← get_pe pei;
          if rend <=? pe_vaddr e then sibling_del a pei;; sibling_add a n pei
          else if base <=? pe_vaddr e then unassign_page pei else mret ())
      else
        vma_replace a (vma_id now)
          [if vma_begin now <? base then with_bounds (vma_begin now) (u64 (base - vma_begin now)) now
           else with_bounds rend (u64 (now_end - rend)) now];;
        forM_ (vma_pages now) (fun pei =>
          e ← get_pe pei;
          if (pe_vaddr e <? base) || (rend <=? pe_vaddr e) then mret () else unassign_page pei);;
        remove_loop a next base len
  end.

Definition remove_vma_range (a : id) (base len : Z) : Mm () :=
  if negb (IS_ALIGNED base PAGE_SIZE_BIT) || negb (IS_ALIGNED len PAGE_SIZE_BIT) then
    panic "Unaligned address"
  else sp ← get_as a; remove_loop a (vma sp) base len.

(** [destroy_as].  Of the page tables this model has the present entries only: the walk
    over the tables of the user's half, which gives the tables back, leaves none of
    them.  The walk itself is [PageFree.destroy_tables].  The pages of the two pools of
    the address space are not modelled. *)
Definition destroy_as (a : id) : Mm () :=
  sp ← get_as a;
  remove_vma_range a (low_addr sp) (u64 (high_addr sp - low_addr sp));;
  sp ← get_as a;
  match vma sp with
  | [] => put_as a (with_ptes ∅ sp)
  | _ :: _ => panic "Not all vma removed"
  end.

Definition validate_range (base len : Z) : Mm Z :=
  c ← gets current_as;
  sp ← get_as c;
  mret (validate_loop (vmas_from (vma sp) base) base len).
End aspace.
