(* ===== verification/FdTable.v ===== *)
(** Descriptor tables ([include/sys/ipc.h]) and descriptor sets
    ([include/uapi/port.h]). *)
From S2P Require Import Prelude Bits.

(** ** [struct fdtable]: the page's worth of [file] slots *)
Definition sizeof_fdtable : Z := 16.
Definition max_fds : nat := Z.to_nat ((PAGE_SIZE - sizeof_fdtable) / 8).
Notation fdtable A := (list (option A)).
Definition fdtable_new {A} : fdtable A := replicate max_fds None.

(** The loop of [fdtable_insert] from slot [i]; [None] is the result -1. *)
Fixpoint insert_from {A} (i : nat) (file : fdtable A) (d : A) : option (nat * fdtable A) :=
  match file with
  | [] => None
  | Some x :: file => '(n, file') ← insert_from (S i) file d; Some (n, Some x :: file')
  | None :: file => Some (i, Some d :: file)
  end.
Definition fdtable_insert {A} (fds : fdtable A) (d : A) : Z * fdtable A :=
  match insert_from 0 fds d with
  | Some (n, fds') => (Z.of_nat n, fds')
  | None => (-1, fds)
  end.

(** [fds->file[fd]] for a checked descriptor; out of bounds is [None]. *)
Definition slot {A} (fds : fdtable A) (fd : Z) : option (option A) :=
  if fd <? 0 then None else fds !! Z.to_nat fd.
Definition set_slot {A} (fds : fdtable A) (fd : Z) (d : option A) : fdtable A :=
  <[Z.to_nat fd := d]> fds.

(** ** [struct fd_set] *)
Record fd_set := mkFdSet { nfds : Z; bitmask : list Z }.

(** [1<<n] is an [int]: bit 31 is the sign bit and is spread over bits 31 to 63
    when the result is widened; a shift by 32 or more has no value. *)
Definition int_bit (n : Z) : option Z :=
  if n <? 32 then Some (u64 (i32 (Z.shiftl 1 n))) else None.

Definition fd_set_set (fds : fd_set) (fd : Z) : option fd_set :=
  if (fd <? 0) || (512 <=? fd) then Some fds
  else
    b ← int_bit (fd mod 64);
    let w := Z.to_nat (fd / 64) in
    x ← bitmask fds !! w;
    Some (mkFdSet (if nfds fds <=? fd then fd + 1 else nfds fds) (<[w := Z.lor x b]> (bitmask fds))).

Definition fd_is_set (fds : fd_set) (fd : Z) : bool :=
  if (fd <? 0) || (nfds fds <=? fd) then false
  else match bitmask fds !! Z.to_nat (fd / 64) with
       | Some x => Z.land (Z.shiftr x (fd mod 64)) 1 =? 1
       | None => false
       end.

Definition fd_zero : fd_set := mkFdSet 0 (replicate 8 0).

Definition fd_clear (fds : fd_set) (fd : Z) : option fd_set :=
  if (fd <? 0) || (nfds fds <=? fd) then Some fds
  else
    b ← int_bit (fd mod 64);
    let w := Z.to_nat (fd / 64) in
    x ← bitmask fds !! w;
    Some (mkFdSet (if fd =? nfds fds - 1 then nfds fds - 1 else nfds fds)
                  (<[w := Z.land x (u64 (Z.lnot b))]> (bitmask fds))).

(** The loop of [fd_set_empty], at word [i] of [l]. *)
Fixpoint empty_from (n i ans : Z) (l : list Z) : bool :=
  match l with
  | [] => ans =? 0
  | x :: l => if n <=? i * 64 then ans =? 0 else empty_from n (i + 1) (Z.lor ans x) l
  end.
Definition fd_set_empty (fds : fd_set) : bool := empty_from (nfds fds) 0 0 (bitmask fds).

(** ** Facts *)
Lemma insert_from_Some {A} (file : fdtable A) d i n file' :
  insert_from i file d = Some (n, file') ->
  (i <= n)%nat /\ file !! (n - i)%nat = Some None /\ file' = <[(n - i)%nat := Some d]> file
  /\ forall j, (j < n - i)%nat -> exists x, file !! j = Some (Some x).
Proof.
  revert i n file'. induction file as [|[x|] file IH]; intros i n file' H; simpl in H; [done| |].
  - destruct (insert_from (S i) file d) as [[n0 file0]|] eqn:E; [|done]. simpl in H. simplify_eq.
    destruct (IH _ _ _ E) as (Hle & Hl & -> & Hb).
    replace (n - i)%nat with (S (n - S i)) by lia. split_and!; [lia|done|done|].
    intros [|j] Hj; [by eexists|]. apply Hb. lia.
  - simplify_eq. rewrite Nat.sub_diag. split_and!; [lia|done|done|lia].
Qed.

Lemma insert_from_None {A} (file : fdtable A) d i :
  insert_from i file d = None <-> forall j y, file !! j = Some y -> is_Some y.
Proof.
  revert i. induction file as [|[x|] file IH]; intros i; simpl.
  - split; [done|done].
  - destruct (insert_from (S i) file d) as [[n0 file0]|] eqn:E; simpl; split.
    + done.
    + intros H. assert (insert_from (S i) file d = None); [|congruence].
      apply IH. intros j y Hy. by apply (H (S j)).
    + intros _ [|j] y Hy; simpl in Hy; [by simplify_eq|]. by eapply (proj1 (IH (S i)) E j).
    + done.
  - split; [done|]. intros H. destruct (H O None eq_refl). done.
Qed.

(** [fdtable_insert] stores the object in the lowest free slot and touches no
    other; it returns -1, changing nothing, exactly when no slot is free. *)
Theorem fdtable_insert_lowest {A} (fds : fdtable A) d :
  match fdtable_insert fds d with
  | (fd, fds') =>
      (fd = -1 /\ fds' = fds /\ forall j y, fds !! j = Some y -> is_Some y)
      \/ (0 <= fd < Z.of_nat (length fds) /\ slot fds fd = Some None /\ slot fds' fd = Some (Some d)
          /\ (forall j, j <> fd -> slot fds' j = slot fds j)
          /\ (forall j, 0 <= j < fd -> exists x, slot fds j = Some (Some x)))
  end.
Proof.
  unfold fdtable_insert. destruct (insert_from 0 fds d) as [[n fds']|] eqn:E.
  - right. destruct (insert_from_Some _ _ _ _ _ E) as (_ & Hl & -> & Hb).
    rewrite Nat.sub_0_r in *. pose proof (lookup_lt_Some _ _ _ Hl). unfold slot.
    destruct (Z.ltb_spec (Z.of_nat n) 0); [lia|]. rewrite Nat2Z.id.
    split_and!; [lia|lia|done|by rewrite list_lookup_insert_eq| |].
    + intros j Hj. destruct (Z.ltb_spec j 0); [done|]. rewrite list_lookup_insert_ne; [done|lia].
    + intros j Hj. destruct (Z.ltb_spec j 0); [lia|]. apply Hb. lia.
  - left. split; [done|]. split; [done|]. by apply (insert_from_None fds d 0).
Qed.

Lemma int_bit_low n : 0 <= n < 31 -> int_bit n = Some (2 ^ n).
Proof.
  intros Hn. unfold int_bit. destruct (Z.ltb_spec n 32); [|lia]. f_equal.
  rewrite Z.shiftl_1_l. assert (0 < 2 ^ n < 2 ^ 31) as Hp.
  { split; [apply Z.pow_pos_nonneg; lia|apply Z.pow_lt_mono_r; lia]. }
  unfold i32, swrap. change (32 - 1) with 31. rewrite Z.mod_small by lia.
  rewrite u64_small; unfold is_u64; lia.
Qed.

Lemma shift_land_testbit x n : 0 <= n -> (Z.land (Z.shiftr x n) 1 =? 1) = Z.testbit x n.
Proof.
  intros Hn. change 1 with (Z.ones 1). rewrite Z.land_ones by lia. change (2 ^ 1) with 2.
  rewrite <- Z.bit0_mod, Z.shiftr_spec by lia. rewrite Z.add_0_l. by destruct (Z.testbit x n).
Qed.

Definition fd_set_wf (fds : fd_set) : Prop :=
  length (bitmask fds) = 8%nat /\ 0 <= nfds fds <= 512 /\ Forall is_u64 (bitmask fds)
  /\ forall fd x, nfds fds <= fd < 512 -> bitmask fds !! Z.to_nat (fd / 64) = Some x ->
       Z.testbit x (fd mod 64) = false.

Lemma fd_is_set_testbit fds fd :
  0 <= fd < nfds fds -> fd_is_set fds fd
  = match bitmask fds !! Z.to_nat (fd / 64) with Some x => Z.testbit x (fd mod 64) | None => false end.
Proof.
  intros Hfd. unfold fd_is_set. destruct (Z.ltb_spec fd 0); [lia|]. destruct (Z.leb_spec (nfds fds) fd); [lia|].
  simpl. destruct (_ !! _); [|done]. apply shift_land_testbit. apply Z.mod_pos_bound. lia.
Qed.

Lemma word_same fd fd' :
  0 <= fd -> 0 <= fd' -> fd <> fd' -> Z.to_nat (fd / 64) = Z.to_nat (fd' / 64) -> fd mod 64 <> fd' mod 64.
Proof.
  intros H1 H2 Hne Hw Hm. assert (0 <= fd / 64 /\ 0 <= fd' / 64) as [? ?] by (split; apply Z.div_pos; lia).
  pose proof (Z.div_mod fd 64). pose proof (Z.div_mod fd' 64). lia.
Qed.

(** C14: for descriptors whose number modulo 64 is at most 30, [fd_set_set] makes
    [fd_is_set] true for that descriptor and changes no other answer. *)
Theorem fd_set_set_correct fds fd :
  fd_set_wf fds -> 0 <= fd < 512 -> fd mod 64 < 31 ->
  exists fds', fd_set_set fds fd = Some fds' /\ fd_is_set fds' fd = true
    /\ forall j, 0 <= j < 512 -> j <> fd -> fd_is_set fds' j = fd_is_set fds j.
Proof.
  intros (Hlen & Hn & Hu & Hz) Hfd Hlow. pose proof (Z.mod_pos_bound fd 64 ltac:(lia)).
  unfold fd_set_set. destruct (Z.ltb_spec fd 0); [lia|]. destruct (Z.leb_spec 512 fd); [lia|]. simpl.
  rewrite int_bit_low by lia. simpl.
  assert (is_Some (bitmask fds !! Z.to_nat (fd / 64))) as [x Hx].
  { apply lookup_lt_is_Some. assert (fd / 64 < 8) by (apply Z.div_lt_upper_bound; lia).
    assert (0 <= fd / 64) by (apply Z.div_pos; lia). lia. }
  rewrite Hx. simpl. eexists. split; [reflexivity|].
  assert (length (bitmask fds) = length (bitmask fds)) as _ by done.
  assert (Z.to_nat (fd / 64) < length (bitmask fds))%nat by (by eapply lookup_lt_Some).
  split.
  - rewrite fd_is_set_testbit by (simpl; destruct (Z.leb_spec (nfds fds) fd); lia). simpl.
    rewrite list_lookup_insert_eq by done. rewrite Z.lor_spec, Z.pow2_bits_true by lia. apply orb_true_r.
  - intros j Hj Hne.
    assert (forall y, bitmask fds !! Z.to_nat (j / 64) = Some y ->
      match <[Z.to_nat (fd / 64):=Z.lor x (2 ^ (fd mod 64))]> (bitmask fds) !! Z.to_nat (j / 64) with
      | Some z => Z.testbit z (j mod 64) | None => false end = Z.testbit y (j mod 64)) as Hbit.
    { intros y Hy. pose proof (Z.mod_pos_bound j 64 ltac:(lia)).
      destruct (decide (Z.to_nat (fd / 64) = Z.to_nat (j / 64))) as [E|E].
      - rewrite <- E, list_lookup_insert_eq by done. rewrite <- E, Hx in Hy. simplify_eq.
        rewrite Z.lor_spec, Z.pow2_bits_false, orb_false_r; [done|]. apply word_same; lia.
      - by rewrite list_lookup_insert_ne, Hy by done. }
    assert (is_Some (bitmask fds !! Z.to_nat (j / 64))) as [y Hy].
    { apply lookup_lt_is_Some. assert (j / 64 < 8) by (apply Z.div_lt_upper_bound; lia).
      assert (0 <= j / 64) by (apply Z.div_pos; lia). lia. }
    specialize (Hbit y Hy). destruct (Z.lt_ge_cases j (nfds fds)).
    + rewrite !fd_is_set_testbit by (simpl; destruct (Z.leb_spec (nfds fds) fd); lia). simpl. by rewrite Hbit, Hy.
    + assert (fd_is_set fds j = false) as ->.
      { unfold fd_is_set. destruct (Z.ltb_spec j 0); [done|]. by destruct (Z.leb_spec (nfds fds) j); [|lia]. }
      destruct (Z.lt_ge_cases j (if nfds fds <=? fd then fd + 1 else nfds fds)).
      * rewrite fd_is_set_testbit by (simpl; lia). simpl. rewrite Hbit. apply (Hz j); [lia|done].
      * unfold fd_is_set. simpl. destruct (Z.ltb_spec j 0); [done|].
        by destruct (Z.leb_spec (if nfds fds <=? fd then fd + 1 else nfds fds) j); [|lia].
Qed.

(** adding descriptor 31 (or any 31 modulo 64) to a set also marks every later
    descriptor of the same word that is below [nfds]. *)
Theorem fd_set_set_sign_bit fds fd j :
  fd_set_wf fds -> 0 <= fd < 512 -> fd mod 64 = 31 -> fd < j < nfds fds -> j / 64 = fd / 64 ->
  exists fds', fd_set_set fds fd = Some fds' /\ fd_is_set fds' j = true.
Proof.
  intros (Hlen & Hn & Hu & Hz) Hfd Hm Hj Hw.
  unfold fd_set_set. destruct (Z.ltb_spec fd 0); [lia|]. destruct (Z.leb_spec 512 fd); [lia|]. simpl.
  rewrite Hm. change (int_bit 31) with (Some (2 ^ 64 - 2 ^ 31)). simpl.
  assert (is_Some (bitmask fds !! Z.to_nat (fd / 64))) as [x Hx].
  { apply lookup_lt_is_Some. assert (fd / 64 < 8) by (apply Z.div_lt_upper_bound; lia).
    assert (0 <= fd / 64) by (apply Z.div_pos; lia). lia. }
  rewrite Hx. simpl. eexists. split; [reflexivity|].
  assert (Z.to_nat (fd / 64) < length (bitmask fds))%nat by (by eapply lookup_lt_Some).
  rewrite fd_is_set_testbit by (simpl; destruct (Z.leb_spec (nfds fds) fd); lia). simpl.
  rewrite Hw, list_lookup_insert_eq by done. rewrite Z.lor_spec.
  assert (31 <= j mod 64 < 64) as Hjm.
  { pose proof (Z.mod_pos_bound j 64 ltac:(lia)). pose proof (Z.div_mod fd 64). pose proof (Z.div_mod j 64). lia. }
  change (Z.testbit (2 ^ 64 - 2 ^ 31) (j mod 64)) with (Z.testbit (Z.shiftl (Z.ones 33) 31) (j mod 64)).
  rewrite Z.shiftl_spec, Z.testbit_ones_nonneg by lia. destruct (Z.ltb_spec (j mod 64 - 31) 33); [|lia].
  apply orb_true_r.
Qed.

Lemma fd_set_set_correct_witness :
  exists fds', fd_set_set fd_zero 5 = Some fds' /\ fd_is_set fds' 5 = true
    /\ forall j, 0 <= j < 512 -> j <> 5 -> fd_is_set fds' j = fd_is_set fd_zero j.
Proof.
  apply (fd_set_set_correct fd_zero 5); [|lia|by vm_compute].
  split; [done|]. split; [simpl; lia|]. split; [by repeat constructor|].
  intros fd x Hfd Hx. apply list_elem_of_lookup_2 in Hx. repeat (apply elem_of_cons in Hx as [->|Hx];
    [apply Z.testbit_0_l|]). by apply elem_of_nil in Hx.
Defined.

Lemma fd_set_set_sign_bit_witness :
  let fds := mkFdSet 41 [2 ^ 40; 0; 0; 0; 0; 0; 0; 0] in
  exists fds', fd_set_set fds 31 = Some fds' /\ fd_is_set fds' 35 = true.
Proof.
  apply (fd_set_set_sign_bit (mkFdSet 41 [2 ^ 40; 0; 0; 0; 0; 0; 0; 0]) 31 35); [|lia|done|simpl; lia|done].
  split; [done|]. split; [simpl; lia|]. split; [by repeat constructor|].
  intros fd x Hfd Hx. simpl in Hfd. destruct (decide (fd < 64)) as [Hlt|Hge].
  - rewrite Z.div_small in Hx by lia. simpl in Hx. simplify_eq. rewrite Z.mod_small by lia.
    apply (Z.pow2_bits_false 40). lia.
  - assert (x = 0) as ->; [|apply Z.testbit_0_l].
    assert (1 <= fd / 64) by (apply Z.div_le_lower_bound; lia).
    destruct (Z.to_nat (fd / 64)) as [|n] eqn:E; [lia|]. simpl in Hx.
    apply list_elem_of_lookup_2 in Hx. repeat (apply elem_of_cons in Hx as [->|Hx]; [done|]).
    by apply elem_of_nil in Hx.
Defined.
