(* ===== verification/Copy.v ===== *)
(** Moving data and pages between address spaces: [sys/mm/copy.c], the page
    fault handler of [sys/mm/page_fault.c] and the system calls of
    [sys/mm/syscall.c]. *)
From S2P Require Import Prelude Bits Irq Binradix Alloc MmState PageMan Aspace FdTable.

(** [struct page_list] and [struct page_list_head]: built once by
    [map_from_user], read and freed by its receiver. *)
Record page_list := mkPl { pl_p : option id; pl_flags : Z }.
Record page_list_head := mkPlh { start_offset : Z; npage : Z; ph : list page_list }.

Section copy.
Context {R : Type} `{!RadixMap R id}.
Context (junk : Z).
Notation Mm := (M (mm R)).

(** A page with a private copy of [n] bytes at offset [off] of the page mapped
    at [src_page] (zeroes where nothing is mapped). *)
Definition copied_page (src_page off n : Z) : Mm page_list :=
  c ← gets current_as;
  page ← get_page;
  memset_phys (virt_to_phys page) 0 PAGE_SIZE;;
  pe ← get_allocated_page c src_page;
  match pe with
  | Some pe =>
      e ← get_pe pe; p ← get_pg (pe_p e);
      memcpy_phys (virt_to_phys page + off) (phys_addr p + off) n
  | None => mret ()
  end;;
  r ← manage_page page;
  p ← page_ptr r;
  mret (mkPl (Some p) PF_SHARED).

(** The loop over the whole pages: [n] of them from [i]. *)
Fixpoint snap_pages (i : Z) (n : nat) : Mm (list page_list) :=
  match n with
  | O => mret []
  | S n =>
      c ← gets current_as;
      pe ← get_allocated_page c i;
      pl ← match pe with
           | Some pe =>
               e ← get_pe pe; p ← get_pg (pe_p e);
               put_pg (pe_p e) (with_snap (u64 (snap_count p + 1)) (with_ref (u64 (ref_count p + 1)) p));;
               mret (mkPl (Some (pe_p e)) PF_SNAPSHOT)
           | None => mret (mkPl None junk)
           end;
      l ← snap_pages (u64 (i + PAGE_SIZE)) n;
      mret (pl :: l)
  end.

Definition map_from_user (buf len : Z) : Mm (Z + page_list_head) :=
  disable_interrupts;;
  v ← validate_range buf len;
  if negb (v =? 0) then enable_interrupts;; mret (inl (- EINVAL))
  else
    let abuf := ALIGN buf PAGE_SIZE_BIT in
    let off := u64 (buf - abuf) in
    let end_ := u64 (buf + len) in
    first ← (if negb (abuf =? buf) then
               let plen := u64 (PAGE_SIZE - off) in
               pl ← copied_page abuf off (if len <? plen then len else plen);
               mret [pl]
             else mret []);
    if negb (abuf =? buf) && (end_ <=? u64 (abuf + PAGE_SIZE)) then
      enable_interrupts;; mret (inr (mkPlh off 1 first))
    else
      let aend := ALIGN end_ PAGE_SIZE_BIT in
      mid ← snap_pages (u64 (abuf + PAGE_SIZE)) (Z.to_nat ((aend - u64 (abuf + PAGE_SIZE)) / PAGE_SIZE));
      last ← (if negb (end_ =? aend) then pl ← copied_page aend 0 (u64 (end_ - aend)); mret [pl]
              else mret []);
      enable_interrupts;;
      let l := first ++ mid ++ last in
      mret (inr (mkPlh off (Z.of_nat (length l)) l)).

Fixpoint map_list (a : id) (v : vm_area) (l : list page_list) (vaddr : Z) : Mm () :=
  match l with
  | [] => mret ()
  | pl :: l =>
      match pl_p pl with
      | Some p => address_space_assign_page_with_vma a v p vaddr PF_SNAPSHOT;; mret ()
      | None => mret ()
      end;;
      map_list a v l (u64 (vaddr + PAGE_SIZE))
  end.

Definition map_to_user_as (a : id) (plh : page_list_head) (vaddr : Z) : Mm Z :=
  if negb (IS_ALIGNED vaddr PAGE_SIZE_BIT) then panic "Unaligned"
  else
    let len := u64 (PAGE_SIZE * npage plh) in
    r ← (if negb (vaddr =? 0) then insert_vma_to_vaddr a vaddr len VMA_RW
         else insert_vma_to_any a len VMA_RW);
    match r with
    | inl _ => mret (u64 (- ENOMEM))
    | inr v => map_list a v (ph plh) (vma_begin v);; mret (vma_begin v)
    end.
Definition map_to_user (plh : page_list_head) (vaddr : Z) : Mm Z :=
  c ← gets current_as; map_to_user_as c plh vaddr.

Definition page_list_free (plh : page_list_head) : Mm () :=
  forM_ (ph plh) (fun pl =>
    (if pl_flags pl =? PF_SNAPSHOT then
       i ← deref (pl_p pl); p ← get_pg i; put_pg i (with_snap (u64 (snap_count p - 1)) p)
     else mret ());;
    i ← deref (pl_p pl);
    page_unref i false;;
    mret ()).

(** The physical address of the current task's page at [aaddr], made writable by
    the kernel: allocated when there is none, unshared when it has snapshots. *)
Definition writable_page (aaddr : Z) : Mm Z :=
  c ← gets current_as;
  pe ← get_allocated_page c aaddr;
  match pe with
  | None =>
      page ← get_page;
      memset_phys (virt_to_phys page) 0 PAGE_SIZE;;
      r ← manage_page page;
      p ← page_ptr r;
      address_space_assign_page c p aaddr PF_SHARED;;
      page_unref p false;;
      mret (virt_to_phys page)
  | Some pe =>
      e ← get_pe pe; p ← get_pg (pe_p e);
      (if 0 <? snap_count p then unshare_page pe else mret ());;
      e ← get_pe pe; p ← get_pg (pe_p e);
      mret (phys_addr p)
  end.

Definition copy_to_user_simple (src : list Z) (buf : Z) : Mm Z :=
  let len := Z.of_nat (length src) in
  if 4096 <? len then panic "Please use copy_to_user()"
  else
    disable_interrupts;;
    v ← validate_range buf len;
    if negb (v =? 0) then enable_interrupts;; mret (-1)
    else
      let aaddr := ALIGN buf PAGE_SIZE_BIT in
      let split := u64 (aaddr + PAGE_SIZE) <? u64 (buf + len) in
      let leftover := if split then u64 (buf + len - aaddr - PAGE_SIZE) else 0 in
      let len := if split then u64 (aaddr + PAGE_SIZE - buf) else len in
      page ← writable_page aaddr;
      write_bytes (page + (buf - aaddr)) (take (Z.to_nat len) src);;
      (if negb (leftover =? 0) then
         page ← writable_page (u64 (aaddr + PAGE_SIZE));
         write_bytes page (take (Z.to_nat leftover) (drop (Z.to_nat len) src))
       else mret ());;
      enable_interrupts;;
      mret 0.

(** The bytes at [addr], zeroes where no page is mapped. *)
Definition read_user_page (aaddr off : Z) (n : nat) : Mm (list Z) :=
  c ← gets current_as;
  pe ← get_allocated_page c aaddr;
  match pe with
  | Some pe => e ← get_pe pe; p ← get_pg (pe_p e); read_bytes (phys_addr p + off) n
  | None => mret (replicate n 0)
  end.

Definition copy_from_user_simple (src : Z) (len : Z) : Mm (Z * list Z) :=
  if 4096 <? len then panic "Please use copy_from_user()"
  else
    disable_interrupts;;
    v ← validate_range src len;
    if negb (v =? 0) then enable_interrupts;; mret (-1, replicate (Z.to_nat len) 0)
    else
      let aaddr := ALIGN src PAGE_SIZE_BIT in
      let split := u64 (aaddr + PAGE_SIZE) <? u64 (src + len) in
      let leftover := if split then u64 (src + len - aaddr - PAGE_SIZE) else 0 in
      let len := if split then u64 (aaddr + PAGE_SIZE - src) else len in
      d1 ← read_user_page aaddr (src - aaddr) (Z.to_nat len);
      d2 ← (if negb (leftover =? 0) then read_user_page (u64 (aaddr + PAGE_SIZE)) 0 (Z.to_nat leftover)
            else mret []);
      enable_interrupts;;
      mret (0, d1 ++ d2).

(** ** [page_fault_handler] *)
(** The result with, when the task is killed, the exit code given to
    [kill_current].  [vaddr] is the content of CR2. *)
Definition page_fault_handler (err vaddr : Z) : Mm (Z * option Z) :=
  if GET_BIT err 2 =? 0 then panic "Page fault in the kernel"
  else
    let page := ALIGN vaddr PAGE_SIZE_BIT in
    disable_interrupts;;
    c ← gets current_as;
    o ← vma_find_by_vaddr c vaddr;
    match o with
    | None => mret (1, Some 1)
    | Some v =>
        o ← get_allocated_page c page;
        pe ← match o with
             | Some pe => mret pe
             | None =>
                 z ← gets zero_page;
                 address_space_assign_page c z page PF_SNAPSHOT;;
                 o ← get_allocated_page c page;
                 match o with
                 | Some pe => mret pe
                 | None => panic "Can't get back the page we just inserted"
                 end
             end;
        let write := negb (Z.land err PTE_W =? 0) in
        (* [!vma->vma_flags & VMA_RW] is [(!vma->vma_flags) & VMA_RW] *)
        if write && (vma_flags v =? 0) then mret (1, Some 1)
        else
          (if write then
             e ← get_pe pe; p ← get_pg (pe_p e);
             if 0 <? snap_count p then unshare_page pe else mret ()
           else mret ());;
          address_space_map page;;
          enable_interrupts;;
          mret (0, None)
    end.

(** [page_fault_init]: the shared zero page. *)
Definition page_fault_init : Mm () :=
  pg ← lift get_phys_page;
  r ← manage_phys_page pg;
  z ← page_ptr r;
  modify (fun s => mkMm (alloc s) (phys s) (next_id s) (pgs s) (phys_pages s) (entries s) (spaces s)
                        (current_as s) z);;
  p ← get_pg z;
  memset_phys (phys_addr p) 0 PAGE_SIZE.

(** ** System calls; [astable] is the address-space table of the current task *)
Definition AS_SNAPSHOT : Z := 1.

Definition as_snapshot (new_as : id) : Mm () :=
  c ← gets current_as;
  sp ← get_as c;
  forM_ (vma sp) (fun v =>
    if flag VMA_HW (vma_flags v) then mret ()
    else insert_vma_to_vaddr new_as (vma_begin v) (vma_length v) (vma_flags v);; mret ());;
  sp ← get_as c;
  forM_ (r_visit (vaddr_map sp)) (fun pe =>
    e ← get_pe pe;
    if flag PF_HARDWARE (pe_flags e) then mret ()
    else address_space_assign_page new_as (pe_p e) (pe_vaddr e) PF_SNAPSHOT;; mret ()).

Definition asnew (astable : fdtable id) (flags : Z) : Mm (Z * fdtable id) :=
  disable_interrupts;;
  new_as ← aspace_new 0;
  let '(fd, astable') := fdtable_insert astable new_as in
  if fd <? 0 then
    destroy_as junk new_as;; enable_interrupts;; mret (- EMFILE, astable)
  else
    (if flag AS_SNAPSHOT flags then as_snapshot new_as else mret ());;
    enable_interrupts;;
    mret (fd, astable').

Definition asdestroy (astable : fdtable id) (a : Z) : Mm (Z * fdtable id) :=
  disable_interrupts;;
  if (a <=? 0) || (Z.of_nat max_fds <=? a) then enable_interrupts;; mret (- EBADF, astable)
  else
    o ← deref (slot astable a);
    match o with
    | None => enable_interrupts;; mret (- EBADF, astable)
    | Some i =>
        destroy_as junk i;;
        enable_interrupts;;
        mret (0, set_slot astable a None)
    end.

Fixpoint send_pages (dst_as : id) (vaddr dst : Z) (n : nat) : Mm () :=
  match n with
  | O => mret ()
  | S n =>
      c ← gets current_as;
      o ← get_allocated_page c vaddr;
      match o with
      | Some pe => e ← get_pe pe; address_space_assign_page dst_as (pe_p e) dst PF_SNAPSHOT;; mret ()
      | None => mret ()
      end;;
      send_pages dst_as (u64 (vaddr + PAGE_SIZE)) (u64 (dst + PAGE_SIZE)) n
  end.

(** [as > max_fds] lets the index [max_fds] through: the slot after the table. *)
Definition sendpage (astable : fdtable id) (a vaddr dst len : Z) : Mm Z :=
  disable_interrupts;;
  if (a <? 0) || (Z.of_nat max_fds <? a) then enable_interrupts;; mret (- EBADF)
  else
    o ← deref (slot astable a);
    match o with
    | None => enable_interrupts;; mret (- EBADF)
    | Some i =>
        if negb (IS_ALIGNED vaddr PAGE_SIZE_BIT) || negb (IS_ALIGNED len PAGE_SIZE_BIT) then
          enable_interrupts;; mret (- EINVAL)
        else
          bad ← (if negb (vaddr =? 0) then v ← validate_range vaddr PAGE_SIZE; mret (negb (v =? 0))
                 else mret false);
          if bad : bool then enable_interrupts;; mret (- EINVAL)
          else
            r ← (if negb (dst =? 0) then insert_vma_to_vaddr i dst len VMA_RW
                 else insert_vma_to_any i len VMA_RW);
            match r with
            | inl _ => enable_interrupts;; mret (- ENOMEM)
            | inr v =>
                (if negb (vaddr =? 0) then send_pages i vaddr (vma_begin v) (Z.to_nat (len / PAGE_SIZE))
                 else mret ());;
                enable_interrupts;;
                mret (vma_begin v)
            end
    end.

Definition munmap (base len : Z) : Mm Z :=
  if negb (IS_ALIGNED base PAGE_SIZE_BIT) || negb (IS_ALIGNED len PAGE_SIZE_BIT) then mret (- EINVAL)
  else c ← gets current_as; remove_vma_range junk c base len;; mret 0.

Definition get_physical (vaddr : Z) : Mm Z :=
  let avaddr := ALIGN vaddr PAGE_SIZE_BIT in
  disable_interrupts;;
  c ← gets current_as;
  o ← get_allocated_page c avaddr;
  match o with
  | None => enable_interrupts;; mret 0
  | Some pe =>
      e ← get_pe pe;
      if flag PF_SNAPSHOT (pe_flags e) then enable_interrupts;; mret 0
      else enable_interrupts;; p ← get_pg (pe_p e); mret (phys_addr p)
  end.
End copy.
