(* ===== verification/VmaProofs.v ===== *)
(** The list of areas of an address space: it stays sorted and disjoint, and
    searching, inserting and removing do what their callers rely on. *)
From S2P Require Import Prelude Bits Irq Binradix Alloc MmState PageMan Aspace.

Definition v_end (v : vm_area) : Z := vma_begin v + vma_length v.
Definition v_covers (x : Z) (v : vm_area) : Prop := vma_begin v <= x < v_end v.

(** The areas of [l] lie above [lo], one after the other, inside the 64-bit
    address space. *)
Fixpoint vmas_ok (lo : Z) (l : list vm_area) : Prop :=
  match l with
  | [] => True
  | v :: l => lo <= vma_begin v /\ 0 <= vma_length v /\ v_end v < 2 ^ 64 /\ vmas_ok (v_end v) l
  end.

Lemma vmas_ok_le lo lo' l : lo' <= lo -> vmas_ok lo l -> vmas_ok lo' l.
Proof. destruct l; [done|]. simpl. intros ? (? & ?). split; [lia|done]. Qed.

Lemma vmas_ok_in lo l v :
  0 <= lo -> vmas_ok lo l -> v ∈ l ->
  lo <= vma_begin v /\ 0 <= vma_length v /\ v_end v < 2 ^ 64 /\ vma_end v = v_end v.
Proof.
  revert lo. induction l as [|x l IH]; intros lo Hlo Hok Hin; [by apply elem_of_nil in Hin|].
  destruct Hok as (H1 & H2 & H3 & H4). apply elem_of_cons in Hin as [->|Hin].
  - split_and!; try done. unfold vma_end. apply u64_small. unfold is_u64, v_end in *. lia.
  - destruct (IH (v_end x)) as (? & ?); try done; unfold v_end in *; [lia|]. split; [lia|done].
Qed.

Lemma vmas_ok_end lo l v : 0 <= lo -> vmas_ok lo (v :: l) -> vma_end v = v_end v.
Proof. intros Hlo H. apply (vmas_ok_in lo (v :: l) v); [done|done|set_solver]. Qed.

Lemma vmas_ok_tail lo l v : 0 <= lo -> vmas_ok lo (v :: l) -> 0 <= v_end v /\ vmas_ok (v_end v) l.
Proof. intros Hlo (? & ? & ? & ?). unfold v_end in *. split; [lia|done]. Qed.

Definition overlaps (v w : vm_area) : Prop := vma_begin v < v_end w /\ vma_begin w < v_end v.

Lemma add_vma_spec lo v l :
  0 <= lo -> vmas_ok lo l -> vmas_ok lo [v] ->
  match add_vma v l with
  | Some l' => vmas_ok lo l' /\ l' ≡ₚ v :: l
  | None => exists w, w ∈ l /\ overlaps v w
  end.
Proof.
  revert lo. induction l as [|now next IH]; intros lo Hlo Hok Hv; simpl.
  - done.
  - rewrite (vmas_ok_end lo [] v) by done. rewrite (vmas_ok_end lo next now) by done.
    destruct (vmas_ok_tail _ _ _ Hlo Hok) as [Hlo' Hnext].
    destruct Hv as (V1 & V2 & V3 & _). destruct Hok as (N1 & N2 & N3 & _).
    destruct (Z.leb_spec (v_end v) (vma_begin now)); [simpl; done|].
    destruct (Z.ltb_spec (vma_begin v) (v_end now)), (Z.ltb_spec (vma_begin now) (v_end v)); simpl; try lia.
    + exists now. split; [set_solver|done].
    + specialize (IH (v_end now) Hlo' Hnext). destruct (add_vma v next) as [l'|]; simpl.
      * destruct IH as [Ha Hb]; [simpl; done|]. split; [simpl; done|]. rewrite Hb. constructor.
      * destruct IH as (w & Hw & Ho); [simpl; done|]. exists w. split; [set_solver|done].
Qed.

Lemma find_vma_spec lo l addr :
  0 <= lo -> vmas_ok lo l ->
  match find_vma l addr with
  | Some v => v ∈ l /\ v_covers addr v
  | None => forall v, v ∈ l -> ~ v_covers addr v
  end.
Proof.
  revert lo. induction l as [|now next IH]; intros lo Hlo Hok; simpl.
  - intros v Hv. by apply elem_of_nil in Hv.
  - rewrite (vmas_ok_end lo next now) by done.
    destruct (vmas_ok_tail _ _ _ Hlo Hok) as [Hlo' Hnext].
    destruct (Z.ltb_spec addr (vma_begin now)).
    + intros v [->|Hv]%elem_of_cons; unfold v_covers; [lia|].
      destruct (vmas_ok_in _ _ v Hlo' Hnext Hv) as (? & _). destruct Hok as (? & ? & ? & _).
      unfold v_end in *. lia.
    + destruct (Z.ltb_spec addr (v_end now)).
      * split; [set_solver|]. unfold v_covers. lia.
      * specialize (IH _ Hlo' Hnext). destruct (find_vma next addr).
        -- destruct IH. split; [set_solver|done].
        -- intros v [->|Hv]%elem_of_cons; [unfold v_covers; lia|by apply IH].
Qed.

(** [vmas_from] is the tail of the list at what [find_vma] finds. *)
Lemma vmas_from_find l addr :
  hd_error (vmas_from l addr) = find_vma l addr /\ exists pre, l = pre ++ vmas_from l addr \/ vmas_from l addr = [].
Proof.
  induction l as [|now next [IH1 [pre IH2]]]; simpl; [split; [done|]; exists []; by left|].
  destruct (_ <? _); [split; [done|]; exists []; by right|].
  destruct (_ <? _); [split; [done|]; exists []; by left|].
  split; [done|]. destruct IH2 as [IH2|IH2]; [|exists []; by right].
  exists (now :: pre). left. simpl. by rewrite <- IH2.
Qed.

Lemma vmas_from_ok lo l addr : 0 <= lo -> vmas_ok lo l -> vmas_from l addr <> [] ->
  (exists lo', 0 <= lo' /\ vmas_ok lo' (vmas_from l addr))
  /\ (forall x, addr <= x -> Exists (v_covers x) l <-> Exists (v_covers x) (vmas_from l addr)).
Proof.
  revert lo. induction l as [|now next IH]; intros lo Hlo Hok; simpl; [done|].
  rewrite (vmas_ok_end lo next now) by done.
  destruct (vmas_ok_tail _ _ _ Hlo Hok) as [Hlo' Hnext].
  destruct (Z.ltb_spec addr (vma_begin now)); [done|].
  destruct (Z.ltb_spec addr (v_end now)); intros Hne.
  - split; [by exists lo|done].
  - destruct (IH _ Hlo' Hnext Hne) as [H1 H2]. split; [done|].
    intros x Hx. rewrite Exists_cons, <- (H2 x Hx). unfold v_covers at 1. split; [|tauto].
    intros [?|?]; [lia|done].
Qed.

(** The hole [insert_vma_to_any] picks: after the areas [pre], before [post]. *)
Lemma find_hole_spec lo len l a pre post :
  0 <= lo -> 0 <= len -> lo + len < 2 ^ 64 -> vmas_ok lo l ->
  Forall (fun v => v_end v + len < 2 ^ 64) l ->
  find_hole l lo len = (a, pre, post) ->
  l = pre ++ post /\ lo <= a /\ a + len < 2 ^ 64
  /\ (forall nv, vma_begin nv = a -> vma_length nv = len ->
       (post = [] \/ a + len <= match post with w :: _ => vma_begin w | [] => 0 end) ->
       vmas_ok lo (pre ++ nv :: post))
  /\ (post <> [] -> a + len <= match post with w :: _ => vma_begin w | [] => 0 end)
  /\ (forall b, lo <= b -> 0 < len -> (forall v, v ∈ l -> b + len <= vma_begin v \/ v_end v <= b) ->
       a <= b).
Proof.
  revert lo a pre post. induction l as [|now next IH]; intros lo a pre post Hlo Hlen Hu Hok Hf E; simpl in E.
  - injection E as <- <- <-. split_and!; try done.
    intros nv <- <- _. simpl. split_and!; try done.
  - apply Forall_cons in Hf as [Hf0 Hf]. rewrite u64_small in E by (unfold is_u64; lia).
    pose proof Hok as (N1 & N2 & N3 & Hnext). rewrite (vmas_ok_end lo next now) in E by done.
    destruct (Z.leb_spec (lo + len) (vma_begin now)) as [Hle|Hgt].
    + injection E as <- <- <-. split_and!; try done.
      intros nv <- <- _. simpl. split_and!; try (done || lia); unfold v_end in *; lia.
    + destruct (find_hole next (v_end now) len) as [[a0 pre0] post0] eqn:E0. injection E as <- <- <-.
      destruct (IH (v_end now) a0 pre0 post0) as (-> & H1 & H2 & H3 & H4 & H5);
        try done; [unfold v_end in *; lia|].
      split_and!; try done; [unfold v_end in *; lia| |].
      * intros nv Hb Hl Hp. simpl. split_and!; try done. by apply H3.
      * intros b Hb Hpos Hfree. apply H5; [|done|].
        -- destruct (Hfree now ltac:(set_solver)); [lia|done].
        -- intros v Hv. apply Hfree. set_solver.
Qed.

(** [validate_loop] answers whether the range is mapped without a gap. *)
Lemma validate_loop_spec lo l base len :
  0 <= lo -> vmas_ok lo l -> 0 <= base -> 0 < len < 2 ^ 64 -> base + len <= 2 ^ 64 ->
  match l with v :: _ => base <= v_end v | [] => True end ->
  validate_loop l base len = 0 <-> forall x, base <= x < base + len -> Exists (v_covers x) l.
Proof.
  revert lo base len. induction l as [|v next IH]; intros lo base len Hlo Hok Hb Hlen Hu Hhd.
  - simpl. split; [done|]. intros H. specialize (H base ltac:(lia)). by apply Exists_nil in H.
  - pose proof Hok as (N1 & N2 & N3 & Hnext).
    assert (forall x, x < v_end v -> ~ Exists (v_covers x) next) as Hlow.
    { intros x Hx (w & Hw & Hc)%Exists_exists.
      destruct (vmas_ok_in (v_end v) next w) as (? & _); try done; unfold v_covers, v_end in *; lia. }
    cbn [validate_loop]. rewrite (vmas_ok_end lo next v) by done. cbv zeta.
    destruct (Z.ltb_spec base (vma_begin v)) as [Hlt|Hge].
    + split; [done|]. intros H. specialize (H base ltac:(lia)). exfalso.
      apply Exists_cons in H as [H|H]; [unfold v_covers in H; lia|].
      apply (Hlow base); [unfold v_end; lia|done].
    + rewrite u64_small by (unfold is_u64; lia).
      destruct (Z.leb_spec len (v_end v - base)).
      * split; [|done]. intros _ x Hx. apply Exists_cons. left. unfold v_covers. lia.
      * rewrite u64_small by (unfold is_u64; lia). destruct (Z.ltb_spec 0 (len - (v_end v - base))); [|lia].
        rewrite (IH (v_end v)); try done; try (unfold v_end in *; lia).
        2:{ destruct next as [|w next']; [done|]. destruct Hnext as (? & ? & _). unfold v_end in *. lia. }
        split; intros Hall x Hx.
        -- rewrite Exists_cons. destruct (Z.lt_ge_cases x (v_end v)); [left; unfold v_covers; lia|].
           right. apply Hall. lia.
        -- specialize (Hall x ltac:(lia)). apply Exists_cons in Hall as [Hc|Hc]; [|done].
           unfold v_covers in Hc. lia.
Qed.

(** ** The functions on the state *)
Section vma_props.
Context {R : Type} `{!RadixMap R id}.
Implicit Types s : mm R.

(** Address space [a] of [s] has the well-formed area list of [sp]. *)
Definition as_ok s (a : id) (sp : address_space R) : Prop :=
  spaces s !! a = Some sp /\ 0 <= low_addr sp /\ vmas_ok (low_addr sp) (vma sp).

Lemma vma_get_as_eq s a sp : spaces s !! a = Some sp -> get_as a s = Done sp s.
Proof. intros E. unfold get_as, gets, mbind, M_bind. by rewrite E. Qed.

Definition space_of s (a : id) : option (list vm_area) := vma <$> spaces s !! a.

Lemma aspace_add_vma_eq s a sp v :
  as_ok s a sp -> 0 <= irq s ->
  aspace_add_vma a v s =
    match add_vma v (vma sp) with
    | Some l => Done 0 (set_spaces (<[a := with_vma l sp]> (spaces s)) s)
    | None => Done (-1) s
    end.
Proof.
  intros (E & _) Hi. unfold aspace_add_vma, mbind, M_bind. rewrite disable_eq.
  rewrite (vma_get_as_eq _ a sp) by done.
  assert (forall s', irq s' = irq s + 1 -> enable_interrupts s' = Done () (set_irq (irq s) s')) as He.
  { intros s' Es. rewrite enable_eq by lia. rewrite Es. by replace (irq s + 1 - 1) with (irq s) by lia. }
  destruct (add_vma v (vma sp)).
  - unfold put_as, modify. rewrite He by done. unfold mret, M_ret. f_equal.
    destruct s as [[]]. done.
  - rewrite He by done. unfold mret, M_ret. f_equal. by rewrite set_irq_twice, set_irq_irq.
Qed.

Lemma mm_new_id_locked s :
  0 <= irq s -> locked new_id s = Done (next_id s) (set_next (Pos.succ (next_id s)) s).
Proof.
  intros Hi. rewrite (locked_Done new_id s (next_id s) (set_next (Pos.succ (next_id s)) (set_irq (irq s + 1) s)));
    [|done|done|done]. f_equal. by destruct s as [[]].
Qed.

(** The low twelve bits. *)
Lemma land_fff x : 0 <= x -> Z.land x 0xfff = x mod 4096.
Proof. intros. change 0xfff with (Z.ones 12). by rewrite Z.land_ones. Qed.

(** [insert_vma_to_vaddr] accepts a page-aligned address between [low_addr] and
    [high_addr] exactly when no area overlaps the new one; the list stays sorted
    and disjoint and gains just the new area.  Every refusal leaves the address
    space as it was, with interrupts as before. *)
Theorem insert_vma_to_vaddr_correct s a sp vaddr len flags :
  as_ok s a sp -> 0 <= irq s -> 0 <= vaddr -> 0 <= len -> vaddr + len < 2 ^ 64 ->
  exists r s', insert_vma_to_vaddr a vaddr len flags s = Done r s' /\ irq s' = irq s
  /\ match r with
     | inr v => vaddr mod 4096 = 0 /\ low_addr sp <= vaddr <= high_addr sp
         /\ v = mkVma (next_id s) flags 0 vaddr len []
         /\ exists l, as_ok s' a (with_vma l sp) /\ l ≡ₚ v :: vma sp
     | inl e => spaces s' = spaces s /\
         ((e = -2 /\ vaddr mod 4096 <> 0) \/ (e = -3 /\ ~ low_addr sp <= vaddr <= high_addr sp)
          \/ (e = -1 /\ exists w, w ∈ vma sp /\ overlaps (mkVma (next_id s) flags 0 vaddr len []) w))
     end.
Proof.
  intros Hok Hi Hv Hl Hu. pose proof Hok as (E & Hlow & Hvm).
  unfold insert_vma_to_vaddr. unfold mbind at 1, M_bind at 1. rewrite mm_new_id_locked by done.
  rewrite land_fff by done. set (s1 := set_next (Pos.succ (next_id s)) s).
  destruct (Z.eqb_spec (vaddr mod 4096) 0) as [Ha|Ha]; cbn [negb].
  2:{ eexists (inl (-2)), s1. split_and!; try done. by left. }
  unfold mbind at 1, M_bind at 1. rewrite (vma_get_as_eq s1 a sp) by done.
  destruct (Z.ltb_spec vaddr (low_addr sp)); [eexists (inl (-3)), s1; split_and!; try done; right; left; split; [done|lia]|].
  destruct (Z.ltb_spec (high_addr sp) vaddr); [eexists (inl (-3)), s1; split_and!; try done; right; left; split; [done|lia]|].
  cbn [orb]. unfold mbind, M_bind.
  set (v := mkVma (next_id s) flags 0 vaddr len []).
  rewrite (aspace_add_vma_eq s1 a sp) by done.
  pose proof (add_vma_spec (low_addr sp) v (vma sp) Hlow Hvm) as Hadd.
  destruct (add_vma v (vma sp)) as [l|].
  - destruct Hadd as [Hl1 Hl2]; [simpl; unfold v_end; simpl; lia|].
    eexists (inr v), _. split; [reflexivity|]. split_and!; try done.
    exists l. split; [|done]. split; [cbn; apply lookup_insert_eq|done].
  - eexists (inl (-1)), s1. split; [reflexivity|]. split_and!; try done. right. right.
    split; [done|]. apply Hadd. simpl. unfold v_end. simpl. lia.
Qed.

(** [insert_vma_to_any] finds the lowest free range of the given length: the new
    area overlaps nothing and lies in the user range; it fails, with nothing
    changed, only when no range of that length is free below [high_addr]; the
    failure returns with interrupts still disabled. *)
Theorem insert_vma_to_any_correct s a sp len flags :
  as_ok s a sp -> 0 <= irq s -> 0 < len -> low_addr sp + len < 2 ^ 64 ->
  Forall (fun v => v_end v + len < 2 ^ 64) (vma sp) -> Forall (fun v => v_end v <= high_addr sp) (vma sp) ->
  exists r s', insert_vma_to_any a len flags s = Done r s'
  /\ match r with
     | inr v => irq s' = irq s /\ low_addr sp <= vma_begin v /\ v_end v <= high_addr sp
         /\ vma_length v = len /\ vma_flags v = flags
         /\ (exists l, as_ok s' a (with_vma l sp) /\ l ≡ₚ v :: vma sp)
         /\ forall b, low_addr sp <= b ->
              (forall w, w ∈ vma sp -> b + len <= vma_begin w \/ v_end w <= b) -> vma_begin v <= b
     | inl e => e = -1 /\ spaces s' = spaces s /\ irq s' = irq s + 1
         /\ forall b, low_addr sp <= b -> b + len <= high_addr sp ->
              exists w, w ∈ vma sp /\ vma_begin w < b + len /\ b < v_end w
     end.
Proof.
  intros Hok Hi Hl Hu Hf Hh. pose proof Hok as (E & Hlow & Hvm).
  unfold insert_vma_to_any. unfold mbind, M_bind. rewrite disable_eq.
  rewrite (vma_get_as_eq _ a sp) by done.
  destruct (find_hole (vma sp) (low_addr sp) len) as [[b pre] post] eqn:Eh.
  destruct (find_hole_spec (low_addr sp) len (vma sp) b pre post) as (Hsplit & Hb & Hbu & Hins & Hpost & Hmin);
    try done; [lia|].
  rewrite u64_small by (unfold is_u64; lia).
  assert (post <> [] -> b + len <= high_addr sp) as Hin.
  { intros Hne. specialize (Hpost Hne). destruct post as [|w post]; [done|].
    rewrite Forall_forall in Hh. assert (w ∈ vma sp) as Hw by (rewrite Hsplit; set_solver).
    specialize (Hh w Hw). destruct (vmas_ok_in _ _ w Hlow Hvm Hw) as (_ & ? & _). unfold v_end in *. lia. }
  destruct (bool_decide (post = []) && (high_addr sp <? b + len)) eqn:Efail.
  - bool_to_prop. eexists (inl (-1)), _. split; [reflexivity|]. split_and!; try done.
    intros c Hc Hch. destruct (decide (Exists (fun w => vma_begin w < c + len /\ c < v_end w) (vma sp))) as [Hx|Hx].
    + apply Exists_exists in Hx as (w & ? & ? & ?). eauto.
    + exfalso. assert (b <= c); [|lia]. apply Hmin; [done|done|].
      intros w Hw. destruct (Z.le_gt_cases (c + len) (vma_begin w)); [by left|].
      destruct (Z.le_gt_cases (v_end w) c); [by right|]. exfalso. apply Hx, Exists_exists. eauto.
  - unfold new_id, gets, modify, put_as, mret, M_ret, mbind, M_bind. cbn -[set_irq enable_interrupts].
    rewrite enable_eq by (cbn in *; lia).
    eexists (inr _), _. split; [reflexivity|]. cbn [vma_begin vma_length vma_flags]. unfold v_end at 1.
    cbn [vma_begin vma_length]. split_and!; try done.
    + cbn. cbn in Hi. lia.
    + apply andb_false_iff in Efail as [Hp|Hp]; bool_to_prop; [by apply Hin|done].
    + eexists. split; [split; [cbn; apply lookup_insert_eq|split; [done|]]|].
      * cbn [vma with_vma low_addr]. apply Hins; [done|done|].
        destruct post; [by left|right]. by apply Hpost.
      * cbn [vma with_vma]. rewrite Hsplit. by rewrite Permutation_middle.
    + intros c Hc Hfree. by apply Hmin.
Qed.

(** [vma_find_by_vaddr] returns the area that contains the address, and NULL only
    when none does. *)
Theorem vma_find_correct s a sp addr :
  as_ok s a sp ->
  exists o, vma_find_by_vaddr a addr s = Done o s
  /\ match o with
     | Some v => v ∈ vma sp /\ v_covers addr v
     | None => forall v, v ∈ vma sp -> ~ v_covers addr v
     end.
Proof.
  intros (E & Hlow & Hvm). unfold vma_find_by_vaddr, mbind, M_bind. rewrite (vma_get_as_eq _ a sp) by done.
  eexists. split; [reflexivity|]. by apply (find_vma_spec (low_addr sp)).
Qed.

(** [validate_range] answers 0 for a non-empty range exactly when every address
    of it lies in an area of the current address space. *)
Theorem validate_range_correct s sp base len :
  as_ok s (current_as s) sp -> 0 <= base -> 0 < len < 2 ^ 64 -> base + len <= 2 ^ 64 ->
  exists r, validate_range base len s = Done r s
  /\ (r = 0 <-> forall x, base <= x < base + len -> Exists (v_covers x) (vma sp)).
Proof.
  intros (E & Hlow & Hvm) Hb Hl Hu. unfold validate_range, gets, mbind, M_bind.
  rewrite (vma_get_as_eq _ _ sp) by done. eexists. split; [reflexivity|].
  destruct (vmas_from_find (vma sp) base) as [Hhd _]. pose proof (find_vma_spec _ _ base Hlow Hvm) as Hfind.
  destruct (vmas_from (vma sp) base) as [|v l] eqn:Ev.
  - rewrite <- Hhd in Hfind. simpl. split; [done|]. intros Hall. exfalso.
    destruct (proj1 (Exists_exists _ _) (Hall base ltac:(lia))) as (w & Hw & Hc). by apply (Hfind w Hw).
  - rewrite <- Hhd in Hfind. simpl in Hfind. destruct Hfind as [_ Hc].
    destruct (vmas_from_ok (low_addr sp) (vma sp) base) as [(lo' & Hlo' & Hok') Hcov]; try done; [by rewrite Ev|].
    rewrite Ev in *. rewrite (validate_loop_spec lo') by (done || (unfold v_covers in Hc; lia)).
    split; intros H x Hx; apply (Hcov x ltac:(lia)), H; lia.
Qed.
End vma_props.

(** ** Witnesses *)
Definition ex_areas : list vm_area :=
  [mkVma 5 VMA_RW 0 0x400000 0x2000 []; mkVma 6 VMA_RW 0 0x402000 0x1000 []; mkVma 7 0 0 0x500000 0x1000 []].
Definition ex_space : address_space (gmap Z id) := mkAs ∅ ex_areas USER_BASE USER_TOP 0 ∅.
Definition ex_mm : mm (gmap Z id) :=
  mkMm ex_mem (fun _ => 0) 10 ∅ ∅ ∅ {[1%positive := ex_space]} 1 1.

Lemma ex_as_ok : as_ok ex_mm 1 ex_space.
Proof. split; [reflexivity|]. split; [done|]. cbn. unfold v_end, USER_BASE. cbn. lia. Qed.

Lemma insert_vma_to_vaddr_correct_witness :
  exists r s', insert_vma_to_vaddr 1 0x404000 0x1000 VMA_RW ex_mm = Done r s' /\ irq s' = irq ex_mm
  /\ match r with
     | inr v => 0x404000 mod 4096 = 0 /\ low_addr ex_space <= 0x404000 <= high_addr ex_space
         /\ v = mkVma (next_id ex_mm) VMA_RW 0 0x404000 0x1000 []
         /\ exists l, as_ok s' 1 (with_vma l ex_space) /\ l ≡ₚ v :: vma ex_space
     | inl e => spaces s' = spaces ex_mm /\
         ((e = -2 /\ 0x404000 mod 4096 <> 0) \/ (e = -3 /\ ~ low_addr ex_space <= 0x404000 <= high_addr ex_space)
          \/ (e = -1 /\ exists w, w ∈ vma ex_space
               /\ overlaps (mkVma (next_id ex_mm) VMA_RW 0 0x404000 0x1000 []) w))
     end.
Proof.
  refine (insert_vma_to_vaddr_correct ex_mm 1 ex_space 0x404000 0x1000 VMA_RW ex_as_ok _ _ _ _);
    [cbn; lia|lia|lia|lia].
Defined.

Lemma insert_vma_to_any_correct_witness :
  (exists r s', insert_vma_to_any 1 0x5000 VMA_RW ex_mm = Done r s'
  /\ match r with
     | inr v => irq s' = irq ex_mm /\ low_addr ex_space <= vma_begin v /\ v_end v <= high_addr ex_space
         /\ vma_length v = 0x5000 /\ vma_flags v = VMA_RW
         /\ (exists l, as_ok s' 1 (with_vma l ex_space) /\ l ≡ₚ v :: vma ex_space)
         /\ forall b, low_addr ex_space <= b ->
              (forall w, w ∈ vma ex_space -> b + 0x5000 <= vma_begin w \/ v_end w <= b) -> vma_begin v <= b
     | inl e => e = -1 /\ spaces s' = spaces ex_mm /\ irq s' = irq ex_mm + 1
         /\ forall b, low_addr ex_space <= b -> b + 0x5000 <= high_addr ex_space ->
              exists w, w ∈ vma ex_space /\ vma_begin w < b + 0x5000 /\ b < v_end w
     end)
  /\ match insert_vma_to_any 1 0x5000 VMA_RW ex_mm with
     | Done (inr v) _ => vma_begin v = 0x403000 | _ => False end.
Proof.
  split; [|reflexivity].
  refine (insert_vma_to_any_correct ex_mm 1 ex_space 0x5000 VMA_RW ex_as_ok _ _ _ _ _);
    [cbn; lia|lia|cbn; unfold USER_BASE; lia| |];
    unfold ex_space, ex_areas, v_end; cbn; repeat constructor; cbn; unfold USER_TOP; lia.
Defined.

Lemma vma_find_correct_witness :
  exists o, vma_find_by_vaddr 1 0x401234 ex_mm = Done o ex_mm
  /\ match o with
     | Some v => v ∈ vma ex_space /\ v_covers 0x401234 v
     | None => forall v, v ∈ vma ex_space -> ~ v_covers 0x401234 v
     end.
Proof. exact (vma_find_correct ex_mm 1 ex_space 0x401234 ex_as_ok). Defined.

Lemma validate_range_correct_witness :
  (exists r, validate_range 0x401ff0 0x20 ex_mm = Done r ex_mm
  /\ (r = 0 <-> forall x, 0x401ff0 <= x < 0x401ff0 + 0x20 -> Exists (v_covers x) (vma ex_space)))
  /\ validate_range 0x401ff0 0x20 ex_mm = Done 0 ex_mm /\ validate_range 0x402ff0 0x20 ex_mm = Done 1 ex_mm.
Proof.
  split; [|split; reflexivity].
  refine (validate_range_correct ex_mm ex_space 0x401ff0 0x20 ex_as_ok _ _ _); lia.
Defined.
