(* ===== verification/MmInv.v ===== *)
(** The invariant of the memory manager: entries, owner lists, reference counts,
    page tables and the allocator agree, and a page with snapshots is mapped
    writable nowhere (the guarantee stated in [sys/mm/page_man.c]). *)
From S2P Require Import Prelude Bits Irq Binradix Alloc MmState PageMan Aspace.

(** ** Running memory-manager code *)
Section run.
Context {R : Type} `{!RadixMap R id}.
Implicit Types s : mm R.

Lemma get_pg_eq s i p : pgs s !! i = Some p -> get_pg i s = Done p s.
Proof. intros E. unfold get_pg, mbind, M_bind, gets. by rewrite E. Qed.
Lemma get_pe_eq s i e : entries s !! i = Some e -> get_pe i s = Done e s.
Proof. intros E. unfold get_pe, mbind, M_bind, gets. by rewrite E. Qed.
Lemma get_as_eq s a sp : spaces s !! a = Some sp -> get_as a s = Done sp s.
Proof. intros E. unfold get_as, mbind, M_bind, gets. by rewrite E. Qed.
Lemma put_pg_eq s i p : put_pg i p s = Done () (set_pgs (<[i := p]> (pgs s)) s).
Proof. done. Qed.
Lemma put_pe_eq s i e : put_pe i e s = Done () (set_entries (<[i := e]> (entries s)) s).
Proof. done. Qed.
Lemma put_as_eq s a sp : put_as a sp s = Done () (set_spaces (<[a := sp]> (spaces s)) s).
Proof. done. Qed.
Lemma new_id_eq s : new_id s = Done (next_id s) (set_next (Pos.succ (next_id s)) s).
Proof. done. Qed.

(** ** Changing page table entries everywhere at once *)
(** [Φ a v x] is what becomes of the entry [x] of address space [a] at [v]. *)
Definition pmap (Φ : id -> Z -> Z -> option Z) (m : gmap id (address_space R)) : gmap id (address_space R) :=
  map_imap (fun a sp => Some (with_ptes (map_imap (Φ a) (ptes sp)) sp)) m.

Lemma pmap_lookup Φ m a : pmap Φ m !! a = (fun sp => with_ptes (map_imap (Φ a) (ptes sp)) sp) <$> m !! a.
Proof. unfold pmap. rewrite map_lookup_imap. by destruct (m !! a). Qed.

Lemma pmap_Some Φ m a sp :
  pmap Φ m !! a = Some sp <-> exists sp0, m !! a = Some sp0 /\ sp = with_ptes (map_imap (Φ a) (ptes sp0)) sp0.
Proof. rewrite pmap_lookup, fmap_Some. done. Qed.

Lemma with_ptes_ext t t' (sp : address_space R) : t = t' -> with_ptes t sp = with_ptes t' sp.
Proof. by intros ->. Qed.
Lemma with_ptes_id (sp : address_space R) : with_ptes (ptes sp) sp = sp.
Proof. by destruct sp. Qed.

Lemma pmap_ext Φ Ψ m :
  (forall a v x sp, m !! a = Some sp -> ptes sp !! v = Some x -> Φ a v x = Ψ a v x) -> pmap Φ m = pmap Ψ m.
Proof.
  intros H. apply map_eq. intros a. rewrite !pmap_lookup. destruct (m !! a) as [sp|] eqn:E; [|done]. simpl.
  f_equal. apply with_ptes_ext, map_imap_ext. intros v. destruct (ptes sp !! v) as [x|] eqn:Ex; [|done].
  simpl. f_equal. by apply (H a v x sp).
Qed.

Lemma pmap_id m : pmap (fun _ _ x => Some x) m = m.
Proof.
  apply map_eq. intros a. rewrite pmap_lookup. destruct (m !! a) as [sp|]; [|done]. simpl. f_equal.
  rewrite <- (with_ptes_id sp) at 3. apply with_ptes_ext, map_eq. intros v. rewrite map_lookup_imap.
  by destruct (ptes sp !! v).
Qed.

Lemma pmap_pmap Φ Ψ m : pmap Ψ (pmap Φ m) = pmap (fun a v x => Φ a v x ≫= Ψ a v) m.
Proof.
  apply map_eq. intros a. rewrite !pmap_lookup. destruct (m !! a) as [sp|]; [|done]. simpl. f_equal.
  destruct sp. unfold with_ptes. cbn. f_equal. apply map_eq. intros v. rewrite !map_lookup_imap.
  by destruct (_ !! v).
Qed.

(** What [Φ] does at one place only. *)
Definition at_place (a : id) (v : Z) (f : Z -> option Z) (a' : id) (v' x : Z) : option Z :=
  if decide (a' = a /\ v' = v) then f x else Some x.

Lemma pmap_place a v f m sp :
  m !! a = Some sp ->
  pmap (at_place a v f) m =
    <[a := with_ptes (match ptes sp !! v ≫= f with Some x => <[v := x]> (ptes sp) | None => delete v (ptes sp) end) sp]> m.
Proof.
  intros E. apply map_eq. intros a'. rewrite pmap_lookup. destruct (decide (a' = a)) as [->|Hne].
  - rewrite lookup_insert_eq, E. simpl. f_equal. apply with_ptes_ext, map_eq. intros v'. rewrite map_lookup_imap.
    unfold at_place. destruct (decide (v' = v)) as [->|].
    + destruct (ptes sp !! v) as [x|] eqn:Ex; simpl.
      * rewrite decide_True by done. destruct (f x); [by rewrite lookup_insert_eq|by rewrite lookup_delete_eq].
      * by rewrite lookup_delete_eq.
    + assert (forall t : option Z, (match t with Some x => <[v := x]> (ptes sp) | None => delete v (ptes sp) end) !! v'
        = ptes sp !! v') as ->.
      { intros [x|]; [by rewrite lookup_insert_ne|by rewrite lookup_delete_ne]. }
      destruct (ptes sp !! v') as [x|]; simpl; [|done]. rewrite decide_False; [done|]. by intros [_ ?].
  - rewrite lookup_insert_ne by done. destruct (m !! a') as [sp'|]; [|done]. simpl. f_equal.
    rewrite <- (with_ptes_id sp') at 3. apply with_ptes_ext, map_eq. intros v'. rewrite map_lookup_imap.
    destruct (ptes sp' !! v'); simpl; [|done]. unfold at_place. rewrite decide_False; [done|]. by intros [? _].
Qed.

(** ** The page table primitives *)
Definition user_page (v : Z) : Prop := 0 <= v < 2 ^ 63 /\ v mod 4096 = 0.

Lemma user_bit v : user_page v -> GET_BIT v 63 =? 0 = true.
Proof.
  intros [Hv _]. apply Z.eqb_eq. unfold GET_BIT. rewrite BIT_pow by lia. apply Z.bits_inj'. intros i Hi.
  rewrite Z.land_spec, Z.pow2_bits_eqb, Z.testbit_0_l by lia. destruct (Z.eqb_spec 63 i) as [<-|].
  - rewrite <- (wrap_small 63 v) by done. rewrite wrap_testbit by lia. done.
  - apply andb_false_r.
Qed.

Lemma get_pte_eq s a v sp :
  user_page v -> spaces s !! a = Some sp -> get_pte a v s = Done (ptes sp !! v) s.
Proof. intros Hv Ha. unfold get_pte. rewrite user_bit by done. kstep get_as_eq. done. Qed.

(** Updating the entry of an address if it is present. *)
Lemma pte_update_eq s a v sp (f : Z -> Z) :
  user_page v -> spaces s !! a = Some sp ->
  (pte ← get_pte a v; match pte with Some x => set_pte a v (f x) | None => mret () end) s
  = Done () (set_spaces (pmap (at_place a v (fun x => Some (f x))) (spaces s)) s).
Proof.
  intros Hv Ha. kstep get_pte_eq. rewrite (pmap_place _ _ _ _ sp) by done.
  destruct (ptes sp !! v) as [x|] eqn:Ex; simpl.
  - unfold set_pte. kstep get_as_eq. done.
  - rewrite delete_id, with_ptes_id, insert_id by done. by destruct s.
Qed.

Lemma clear_pte_eq s a v sp :
  spaces s !! a = Some sp ->
  clear_pte a v s = Done () (set_spaces (pmap (at_place a v (fun _ => None)) (spaces s)) s).
Proof.
  intros Ha. unfold clear_pte. kstep get_as_eq. rewrite (pmap_place _ _ _ _ sp) by done.
  by destruct (ptes sp !! v).
Qed.

Lemma clear_maybe_eq s a v sp :
  user_page v -> spaces s !! a = Some sp ->
  (pte ← get_pte a v; match pte with Some _ => clear_pte a v | None => mret () end) s
  = Done () (set_spaces (pmap (at_place a v (fun _ => None)) (spaces s)) s).
Proof.
  intros Hv Ha. kstep get_pte_eq. destruct (ptes sp !! v) as [x|] eqn:Ex.
  - by eapply clear_pte_eq.
  - rewrite (pmap_place _ _ _ _ sp), Ex by done. simpl.
    rewrite delete_id, with_ptes_id, insert_id by done. by destruct s.
Qed.

Lemma unmap_maybe_eq s a v sp :
  user_page v -> spaces s !! a = Some sp ->
  unmap_maybe_current a v s = Done () (set_spaces (pmap (at_place a v (fun _ => None)) (spaces s)) s).
Proof.
  intros Hv Ha. unfold unmap_maybe_current. kstep gets_eq. destruct (decide _) as [->|].
  - unfold unmap. kstep gets_eq. by eapply clear_pte_eq.
  - by eapply clear_maybe_eq.
Qed.

(** ** Loops over the owners of a page *)
Definition owned (E : gmap id page_entry) (l : list id) (a : id) (v : Z) : bool :=
  existsb (fun o => match E !! o with
                    | Some e => bool_decide (pe_as e = a /\ pe_vaddr e = v)
                    | None => false
                    end) l.
Definition at_owners (E : gmap id page_entry) (l : list id) (f : Z -> Z) (a : id) (v x : Z) : option Z :=
  Some (if owned E l a v then f x else x).

Lemma owned_iff E l a v :
  owned E l a v = true <-> exists o e, o ∈ l /\ E !! o = Some e /\ pe_as e = a /\ pe_vaddr e = v.
Proof.
  unfold owned. rewrite existsb_exists. split.
  - intros (o & Ho & Hb). destruct (E !! o) as [e|] eqn:Ee; [|done]. apply bool_decide_eq_true in Hb as [<- <-].
    exists o, e. by rewrite list_elem_of_In.
  - intros (o & e & Ho & Ee & <- & <-). exists o. rewrite <- list_elem_of_In. split; [done|]. rewrite Ee.
    by apply bool_decide_eq_true.
Qed.

Definition has_entry s (o : id) : Prop :=
  exists e, entries s !! o = Some e /\ user_page (pe_vaddr e) /\ is_Some (spaces s !! pe_as e).

Lemma owners_loop (body : id -> M (mm R) ()) (f : Z -> Z) l E :
  (forall x, f (f x) = f x) ->
  (forall o e s, o ∈ l -> E !! o = Some e -> entries s = E -> has_entry s o ->
     body o s = Done () (set_spaces (pmap (at_place (pe_as e) (pe_vaddr e) (fun x => Some (f x))) (spaces s)) s)) ->
  forall s, entries s = E -> (forall o, o ∈ l -> has_entry s o) ->
  forM_ l body s = Done () (set_spaces (pmap (at_owners E l f) (spaces s)) s).
Proof.
  intros Hf. induction l as [|o l IH]; intros Hb s HE Hl; simpl.
  - rewrite (pmap_ext _ (fun _ _ x => Some x)) by done. rewrite pmap_id. by destruct s.
  - destruct (Hl o) as (e & Ee & Hu & Hs); [set_solver|]. rewrite HE in Ee.
    erewrite bind_eq; [|eapply Hb; [set_solver|exact Ee|done|apply Hl; set_solver]].
    rewrite IH; [|intros; apply Hb; [set_solver|done..]|done|].
    + unfold set_spaces. cbn. rewrite pmap_pmap. do 2 f_equal. apply pmap_ext. intros a v x sp _ _.
      unfold at_place, at_owners, owned. simpl. rewrite Ee. case_decide as Hd.
      * rewrite bool_decide_eq_true_2 by (destruct Hd; by subst). simpl. destruct (existsb _ _); by rewrite ?Hf.
      * rewrite bool_decide_eq_false_2; [done|]. intros [? ?]. by apply Hd.
    + intros o' Ho'. destruct (Hl o') as (e' & ? & ? & Hs'); [set_solver|]. exists e'. split; [done|].
      split; [done|]. cbn. rewrite pmap_lookup. destruct Hs' as [sp' ->]. by eexists.
Qed.

Definition set_w (x : Z) : Z := Z.lor x PTE_W.
Definition clear_w (x : Z) : Z := if flag PTE_W x then Z.land x (u64 (Z.lnot PTE_W)) else x.

Lemma set_w_idem x : set_w (set_w x) = set_w x.
Proof. unfold set_w. by rewrite <- Z.lor_assoc, Z.lor_diag. Qed.
Lemma clear_w_flag x : flag PTE_W (clear_w x) = false.
Proof.
  unfold clear_w. destruct (flag PTE_W x) eqn:E; [|done]. unfold flag. rewrite <- Z.land_assoc.
  replace (Z.land _ PTE_W) with 0 by (vm_compute; reflexivity). by rewrite Z.land_0_r.
Qed.
Lemma clear_w_idem x : clear_w (clear_w x) = clear_w x.
Proof. unfold clear_w at 1. by rewrite clear_w_flag. Qed.

Lemma restore_write_eq (check : bool) l s :
  (forall o, o ∈ l -> has_entry s o) ->
  (check = true -> forall o e, o ∈ l -> entries s !! o = Some e -> flag PF_SHARED (pe_flags e) = true) ->
  restore_write check l s = Done () (set_spaces (pmap (at_owners (entries s) l set_w) (spaces s)) s).
Proof.
  intros Hl Hc. unfold restore_write. apply owners_loop; [apply set_w_idem| |done..].
  intros o e s' Ho Ee E' (e' & Ee' & Hu & [sp Hs]). rewrite E', Ee in Ee'. injection Ee' as <-. rewrite <- E' in Ee.
  kstep (get_pe_eq s' o e).
  assert (check && negb (flag PF_SHARED (pe_flags e)) = false) as ->.
  { destruct check; [|done]. rewrite (Hc eq_refl o e); [done|done|by rewrite <- E']. }
  by rewrite (pte_update_eq _ _ _ sp set_w).
Qed.

Lemma share_page_eq i p s :
  0 <= irq s -> pgs s !! i = Some p -> (forall o, o ∈ owner p -> has_entry s o) ->
  (forall o e, o ∈ owner p -> entries s !! o = Some e -> flag PF_HARDWARE (pe_flags e) = false) ->
  share_page i s = Done () (set_spaces (pmap (at_owners (entries s) (owner p) clear_w) (spaces s)) s).
Proof.
  intros Hi Hp Hl Hh. unfold share_page. kstep disable_eq. kstep get_pg_eq.
  assert (forall o, o ∈ owner p -> has_entry (set_irq (irq s + 1) s) o) as Hl' by done.
  erewrite bind_eq; [|apply (owners_loop _ clear_w (owner p) (entries s) clear_w_idem); [|done|exact Hl']].
  - rewrite enable_eq by (cbn; cbn in Hi; lia). cbn. f_equal. destruct s as [[]]. cbn. unfold set_alloc, set_spaces. cbn.
    do 2 f_equal. lia.
  - intros o e s' Ho Ee E' (e' & Ee' & Hu & [sp Hs]). rewrite E', Ee in Ee'. injection Ee' as <-. rewrite <- E' in Ee.
    kstep (get_pe_eq s' o e). rewrite (Hh o e) by (done || by rewrite <- E').
    kstep get_pte_eq. rewrite (pmap_place _ _ _ _ sp) by done.
    destruct (ptes sp !! pe_vaddr e) as [x|] eqn:Ex; simpl.
    + unfold clear_w. destruct (flag PTE_W x).
      * unfold set_pte. kstep get_as_eq. done.
      * rewrite (insert_id (ptes sp)), with_ptes_id, insert_id by done. by destruct s'.
    + rewrite delete_id, with_ptes_id, insert_id by done. by destruct s'.
Qed.
End run.

(** ** The invariant *)
Definition frame (x : Z) : Prop := 0 <= x /\ x mod 4096 = 0 /\ KERN_VMBASE + x + 4096 <= 2 ^ 64.
(** The kernel's virtual address of a frame. *)
Definition pv (p : page) : Z := KERN_VMBASE + phys_addr p.

(** Device pages, the set [hwp], are owned by hardware entries only, other pages
    by shared owners and snapshots. *)
Definition kind_ok (hwp : gset id) (e : page_entry) : Prop :=
  if decide (pe_p e ∈ hwp) then pe_flags e = Z.lor PF_SHARED PF_HARDWARE
  else pe_flags e = PF_SHARED \/ pe_flags e = PF_SNAPSHOT.

Definition is_snap (E : gmap id page_entry) (o : id) : bool :=
  match E !! o with Some e => flag PF_SNAPSHOT (pe_flags e) | None => false end.
Definition nsnaps (E : gmap id page_entry) (l : list id) : Z :=
  Z.of_nat (length (filter (fun o => is_snap E o = true) l)).

(** One more, or [d] more, at [i]. *)
Definition bump (f : id -> Z) (i : id) (d : Z) : id -> Z := fun j => if decide (j = i) then f j + d else f j.

Section inv.
Context {R : Type} `{!RadixMap R id}.

(** [ext i], [es i]: references to page [i] held outside the entries (page
    lists, kernel variables, an operation in progress) and how many of those
    count as snapshots; [lm], [lo]: entries an operation has taken out of their
    map or off their owner list.  The state is given by the allocator [al], map
    and page table of each address space [C], the tree [ph] of managed frames,
    the entries [E], the pages [G] and the next fresh name [n]. *)
Record inv (hwp : gset id) (ext es : id -> Z) (lm lo : gset id) (al : mem) (C : gmap id (R * gmap Z Z))
  (ph : R) (E : gmap id page_entry) (G : gmap id page) (n : id) : Prop := {
  i_maps : forall a r t, C !! a = Some (r, t) -> r_ok r;
  i_ph : r_ok ph;
  i_entry : forall pe e, E !! pe = Some e ->
    user_page (pe_vaddr e) /\ kind_ok hwp e /\ is_Some (C !! pe_as e);
  i_in_map : forall a r t v pe, C !! a = Some (r, t) ->
    r_map r !! v = Some pe <-> pe ∉ lm /\ exists e, E !! pe = Some e /\ pe_as e = a /\ pe_vaddr e = v;
  i_owner : forall i p pe, G !! i = Some p ->
    pe ∈ owner p <-> pe ∉ lo /\ exists e, E !! pe = Some e /\ pe_p e = i;
  i_haspage : forall pe e, E !! pe = Some e -> pe ∉ lo -> is_Some (G !! pe_p e);
  i_page : forall i p, G !! i = Some p ->
    NoDup (owner p) /\ frame (phys_addr p) /\ r_map ph !! phys_addr p = Some i
    /\ ref_count p = Z.of_nat (length (owner p)) + ext i /\ 0 < ref_count p < 2 ^ 64
    /\ snap_count p = nsnaps E (owner p) + es i /\ 0 <= es i <= ext i;
  i_phys : forall x i, r_map ph !! x = Some i -> exists p, G !! i = Some p /\ phys_addr p = x;
  i_pte : forall a r t v x, C !! a = Some (r, t) -> t !! v = Some x ->
    exists pe e p, pe ∉ lm /\ E !! pe = Some e /\ pe_as e = a /\ pe_vaddr e = v /\ G !! pe_p e = Some p
      /\ pte_get_base x = phys_addr p /\ (0 < snap_count p -> flag PTE_W x = false);
  i_next : forall i, (n <= i)%positive -> E !! i = None /\ G !! i = None /\ i ∉ hwp /\ ext i = 0 /\ es i = 0;
  i_mem : exists own live, mem_ok al own live /\ forall i p, G !! i = Some p ->
    if decide (i ∈ hwp) then pv p ∉ free_pages al else pv p ∈ own /\ loose al (pv p);
}.

Definition core (sp : address_space R) : R * gmap Z Z := (vaddr_map sp, ptes sp).
Definition cores (s : mm R) : gmap id (R * gmap Z Z) := core <$> spaces s.
Definition mm_inv hwp ext es lm lo (s : mm R) : Prop :=
  inv hwp ext es lm lo (alloc s) (cores s) (phys_pages s) (entries s) (pgs s) (next_id s).
(** Between operations: nothing is in transit. *)
Definition mm_ok hwp ext (s : mm R) : Prop := mm_inv hwp ext (fun _ => 0) ∅ ∅ s.

(** *** Counting snapshots *)
Lemma nsnaps_bound E l : 0 <= nsnaps E l <= Z.of_nat (length l).
Proof. unfold nsnaps. pose proof (length_filter (fun o => is_snap E o = true) l). lia. Qed.

Lemma nsnaps_perm E l l' : l ≡ₚ l' -> nsnaps E l = nsnaps E l'.
Proof. intros H. unfold nsnaps. by rewrite H. Qed.

Lemma nsnaps_cons E o l : nsnaps E (o :: l) = (if is_snap E o then 1 else 0) + nsnaps E l.
Proof. unfold nsnaps. rewrite filter_cons. destruct (is_snap E o); simpl; lia. Qed.

Lemma nsnaps_ext E E' l : (forall o, o ∈ l -> is_snap E o = is_snap E' o) -> nsnaps E l = nsnaps E' l.
Proof.
  induction l as [|o l IH]; intros H; [done|]. rewrite !nsnaps_cons, (H o) by set_solver.
  rewrite IH; [done|]. set_solver.
Qed.

Lemma filter_out (o : id) l : o ∈ l -> NoDup l -> l ≡ₚ o :: filter (fun x => x <> o) l.
Proof.
  intros Hin Hnd. apply NoDup_Permutation; [done| |].
  - apply NoDup_cons. split; [|by apply NoDup_filter]. rewrite list_elem_of_filter. tauto.
  - intros x. rewrite elem_of_cons, list_elem_of_filter. destruct (decide (x = o)) as [->|]; tauto.
Qed.

Lemma is_snap_insert_ne E o o' e : o <> o' -> is_snap (<[o' := e]> E) o = is_snap E o.
Proof. intros H. unfold is_snap. by rewrite lookup_insert_ne. Qed.
Lemma is_snap_insert E o e : is_snap (<[o := e]> E) o = flag PF_SNAPSHOT (pe_flags e).
Proof. unfold is_snap. by rewrite lookup_insert_eq. Qed.
Lemma is_snap_Some E o e : E !! o = Some e -> is_snap E o = flag PF_SNAPSHOT (pe_flags e).
Proof. unfold is_snap. by intros ->. Qed.
Lemma is_snap_delete_ne E o o' : o <> o' -> is_snap (delete o' E) o = is_snap E o.
Proof. intros H. unfold is_snap. by rewrite lookup_delete_ne. Qed.

Lemma bump_eq f i d : bump f i d i = f i + d.
Proof. unfold bump. by rewrite decide_True. Qed.
Lemma bump_ne f i j d : j <> i -> bump f i d j = f j.
Proof. intros H. unfold bump. by rewrite decide_False. Qed.

Lemma bump_0 f i d j : d = 0 -> bump f i d j = f j.
Proof. intros ->. unfold bump. case_decide; lia. Qed.

Lemma inv_fns hwp ext es lm lo al C ph E G n ext' es' lm' lo' :
  inv hwp ext es lm lo al C ph E G n -> (forall i, ext' i = ext i) -> (forall i, es' i = es i) ->
  lm' = lm -> lo' = lo -> inv hwp ext' es' lm' lo' al C ph E G n.
Proof.
  intros [] He Hs -> ->. constructor; try done.
  - intros i p Hp. rewrite He, Hs. eauto.
  - intros i Hi. rewrite He, Hs. eauto.
Qed.

Section steps.
Context (hwp : gset id) (ext es : id -> Z) (lm lo : gset id) (al : mem) (C : gmap id (R * gmap Z Z))
  (ph : R) (E : gmap id page_entry) (G : gmap id page) (n : id).
Context (HI : inv hwp ext es lm lo al C ph E G n).

(** *** Pages *)
(** Counting references and snapshots of a page held outside the entries. *)
Lemma inv_count i p p' dr ds :
  G !! i = Some p -> phys_addr p' = phys_addr p -> owner p' = owner p ->
  ref_count p' = ref_count p + dr -> snap_count p' = snap_count p + ds ->
  0 < ref_count p' < 2 ^ 64 -> 0 <= es i + ds <= ext i + dr ->
  (snap_count p <= 0 -> 0 < snap_count p' -> forall a r t v x, C !! a = Some (r, t) -> t !! v = Some x ->
     pte_get_base x = phys_addr p -> flag PTE_W x = false) ->
  inv hwp (bump ext i dr) (bump es i ds) lm lo al C ph E (<[i := p']> G) n.
Proof.
  destruct HI as [I1 I2 I3 I4 I5 I6 I7 I8 I9 I10 I11]. intros Hp Ea Eo Er Es Hr Hs Hro.
  pose proof (I7 _ _ Hp) as (P1 & P2 & P3 & P4 & P5 & P6 & P7).
  constructor; try done.
  - intros j q pe [[<- <-]|[? Hq]]%lookup_insert_Some; [rewrite Eo; by apply (I5 i p)|by apply I5].
  - intros pe e He Hlo. destruct (decide (pe_p e = i)) as [->|]; [by rewrite lookup_insert_eq; eexists|].
    rewrite lookup_insert_ne by done. eauto.
  - intros j q [[<- <-]|[Hne Hq]]%lookup_insert_Some.
    + rewrite Ea, Eo, !bump_eq. split_and!; try done; lia.
    + rewrite !bump_ne by done. eauto.
  - intros x j (q & Hq & <-)%I8. destruct (decide (j = i)) as [->|].
    + simplify_eq. exists p'. by rewrite lookup_insert_eq.
    + exists q. by rewrite lookup_insert_ne.
  - intros a r t v x Ha Hx. destruct (I9 a r t v x Ha Hx) as (pe & e & q & ? & ? & ? & ? & Hq & Hb & Hf).
    destruct (decide (pe_p e = i)) as [Ei|].
    + rewrite Ei in Hq. simplify_eq. exists pe, e, p'. rewrite lookup_insert_eq, Ea. split_and!; try done.
      intros Hpos. destruct (decide (0 < snap_count p)) as [|]; [auto|]. eapply Hro; eauto; lia.
    + exists pe, e, q. split_and!; try done. by rewrite lookup_insert_ne.
  - intros j Hj. destruct (I10 j Hj) as (? & Hn & ? & ? & ?).
    assert (j <> i) by congruence. rewrite lookup_insert_ne, !bump_ne by done. done.
  - destruct I11 as (own & live & Hm & Hf). exists own, live. split; [done|].
    intros j q [[<- <-]|[? Hq]]%lookup_insert_Some; [unfold pv; rewrite Ea; by apply (Hf i p)|by apply Hf].
Qed.

(** A page nobody refers to any more. *)
Lemma inv_free i p al' ph' :
  G !! i = Some p -> owner p = [] -> ext i = 1 -> es i = 0 ->
  (forall pe e, E !! pe = Some e -> pe_p e = i -> pe ∈ lm) ->
  r_ok (ph' : R) -> r_map ph' = delete (phys_addr p) (r_map ph) ->
  (if decide (i ∈ hwp) then al' = al else Alloc.drop_page (pv p) al = Done () al') ->
  inv hwp (bump ext i (-1)) es lm lo al' C ph' E (delete i G) n.
Proof.
  destruct HI as [I1 I2 I3 I4 I5 I6 I7 I8 I9 I10 I11]. intros Hp Ho Hx Hs Hlm Hok Hph Hal.
  assert (forall j q, G !! j = Some q -> j <> i -> phys_addr q <> phys_addr p) as Hinj.
  { intros j q Hq Hne E0. destruct (I7 _ _ Hq) as (_ & _ & Hj & _), (I7 _ _ Hp) as (_ & _ & Hi & _). congruence. }
  constructor; try done.
  - intros j q pe [? Hq]%lookup_delete_Some. by apply I5.
  - intros pe e He Hlo. destruct (decide (pe_p e = i)) as [Ei|]; [|rewrite lookup_delete_ne by done; eauto].
    exfalso. assert (pe ∈ owner p) as Hin by (apply (I5 i p); eauto). rewrite Ho in Hin. by apply elem_of_nil in Hin.
  - intros j q [Hne Hq]%lookup_delete_Some. rewrite bump_ne by done. rewrite Hph, lookup_delete_ne by (apply not_eq_sym; eauto).
    eauto.
  - intros x j Hj. rewrite Hph in Hj. apply lookup_delete_Some in Hj as [Hne (q & Hq & <-)%I8].
    exists q. split; [|done]. rewrite lookup_delete_ne; [done|]. by intros <-; simplify_eq.
  - intros a r t v x Ha Hv. destruct (I9 a r t v x Ha Hv) as (pe & e & q & Hpe & He & ? & ? & Hq & ? & ?).
    exists pe, e, q. split_and!; try done. rewrite lookup_delete_ne; [done|]. intros ->. by apply Hpe, (Hlm pe e).
  - intros j Hj. destruct (I10 j Hj) as (? & Hn & ? & ? & ?). assert (j <> i) by congruence.
    rewrite lookup_delete_ne, bump_ne by done. done.
  - destruct I11 as (own & live & Hm & Hf). pose proof (Hf i p Hp) as Hfi. case_decide as Hhw.
    + subst al'. exists own, live. split; [done|]. intros j q [_ Hq]%lookup_delete_Some. by apply Hf.
    + destruct Hfi as [Hown Hl]. destruct (drop_page_ok al own live (pv p) Hm Hown Hl) as [Ed Hok'].
      rewrite Ed in Hal. injection Hal as <-. exists (own ∖ {[pv p]}), live. split; [done|].
      intros j q [Hne Hq]%lookup_delete_Some. specialize (Hf j q Hq).
      assert (pv q <> pv p) as Hpv by (unfold pv; specialize (Hinj j q Hq); lia).
      case_decide; [|destruct Hf; split; [set_solver|done]].
      change (free_pages _) with (pv p :: free_pages al). set_solver.
Qed.

(** The next free frame is not managed. *)
Lemma inv_fresh_frame pg rest :
  free_pages al = pg :: rest ->
  frame (pg - KERN_VMBASE) /\ r_map ph !! (pg - KERN_VMBASE) = None /\ forall j q, G !! j = Some q -> pv q <> pg.
Proof.
  destruct HI as [I1 I2 I3 I4 I5 I6 I7 I8 I9 I10 I11]. intros Hfree. destruct I11 as (own & live & Hm & Hf).
  assert (vpage pg /\ pg ∉ own) as [(V1 & V2 & V3) Hno].
  { destruct Hm as [_ _ _ Hv _ Ho _ _ _ _ _]. rewrite Hfree in Hv, Ho. apply Forall_cons in Hv as [Hv _].
    split; [done|]. intros Hin. apply Ho in Hin as [_ Hin]. set_solver. }
  assert (forall j q, G !! j = Some q -> pv q <> pg) as Hne.
  { intros j q Hq Epg. specialize (Hf j q Hq). case_decide.
    - rewrite Hfree, Epg in Hf. set_solver.
    - rewrite Epg in Hf. by destruct Hf. }
  split; [|split; [|done]].
  - unfold frame, KERN_VMBASE in *. split; [lia|]. split; [|lia]. rewrite Zminus_mod, V3. done.
  - destruct (r_map ph !! (pg - KERN_VMBASE)) as [j|] eqn:Ej; [|done]. exfalso.
    apply I8 in Ej as (q & Hq & Hpq). apply (Hne j q Hq). unfold pv. lia.
Qed.

(** A frame from the allocator becomes a managed page. *)
Lemma inv_new_page pg rest al' ph' :
  free_pages al = pg :: rest -> Alloc.get_page al = Done pg al' ->
  r_ok ph' -> r_map ph' = <[pg - KERN_VMBASE := n]> (r_map ph) ->
  inv hwp (bump ext n 1) es lm lo al' C ph' E (<[n := mkPage (pg - KERN_VMBASE) 0 1 0 []]> G) (Pos.succ n).
Proof.
  intros Hfree Hget Hok Hph. destruct (inv_fresh_frame pg rest Hfree) as (Hfr & Hfresh & Hne).
  destruct HI as [I1 I2 I3 I4 I5 I6 I7 I8 I9 I10 I11]. destruct I11 as (own & live & Hm & Hf).
  destruct (get_page_ok al own live pg rest Hm Hfree) as (m1 & E1 & Hr & Hm1 & Hno & Hv & Hirq & [_ Hpool] & _).
  rewrite Hget in E1. injection E1 as <-.
  destruct (I10 n) as (N1 & N2 & N3 & N4 & N5); [lia|].
  assert (forall pe e p, E !! pe = Some e -> G !! pe_p e = Some p -> pe_p e <> n) as Hnp by congruence.
  constructor; try done.
  - intros j q pe [[<- <-]|[? Hq]]%lookup_insert_Some; [|by apply I5]. cbn. split; [intros Hin; by apply elem_of_nil in Hin|].
    intros (Hlo & e & He & Epe). destruct (I6 pe e He Hlo) as [q Hq]. congruence.
  - intros pe e He Hlo. destruct (I6 pe e He Hlo) as [q Hq]. rewrite lookup_insert_ne by congruence. by eexists.
  - intros j q [[<- <-]|[Hjn Hq]]%lookup_insert_Some.
    + cbn. rewrite bump_eq, Hph, lookup_insert_eq, N4, N5. split_and!; try done; [constructor|by apply Hfr..].
    + rewrite bump_ne by done. destruct (I7 j q Hq) as (? & ? & Hmap & ?). split_and!; try done; try tauto.
      rewrite Hph, lookup_insert_ne; [done|]. specialize (Hne j q Hq). unfold pv in Hne. lia.
  - intros x j Hj. rewrite Hph in Hj. apply lookup_insert_Some in Hj as [[<- <-]|[Hxn Hj]].
    + eexists. by rewrite lookup_insert_eq.
    + apply I8 in Hj as (q & Hq & <-). exists q. rewrite lookup_insert_ne by congruence. done.
  - intros a r t v x Ha Hx. destruct (I9 a r t v x Ha Hx) as (pe & e & q & ? & ? & ? & ? & Hq & ? & ?).
    exists pe, e, q. split_and!; try done. by rewrite lookup_insert_ne by congruence.
  - intros j Hj. destruct (I10 j) as (? & ? & ? & ? & ?); [lia|].
    rewrite lookup_insert_ne, bump_ne by lia. done.
  - exists ({[pg]} ∪ own), live. split; [done|]. intros j q [[<- <-]|[Hjn Hq]]%lookup_insert_Some.
    + rewrite decide_False by done. unfold pv. cbn. replace (KERN_VMBASE + (pg - KERN_VMBASE)) with pg by lia.
      split; [set_solver|]. intros r p Hrp Hin. destruct (Hpool r p Hrp) as (p0 & Hp0 & Eh). rewrite Eh in Hin.
      apply Hno. by eapply (mo_pools _ _ _ Hm).
    + specialize (Hf j q Hq). case_decide.
      * rewrite Hr. rewrite Hfree in Hf. set_solver.
      * destruct Hf as [Ho Hl]. split; [set_solver|]. intros r p Hrp Hin.
        destruct (Hpool r p Hrp) as (p0 & Hp0 & Eh). rewrite Eh in Hin. by apply (Hl r p0).
Qed.
(** *** Entries *)
Lemma inv_unlink_owner pe e p :
  E !! pe = Some e -> pe ∉ lo -> G !! pe_p e = Some p ->
  inv hwp (bump ext (pe_p e) 1) (bump es (pe_p e) (if is_snap E pe then 1 else 0)) lm ({[pe]} ∪ lo) al C ph E
    (<[pe_p e := with_owner (filter (fun o => o <> pe) (owner p)) p]> G) n.
Proof.
  destruct HI as [I1 I2 I3 I4 I5 I6 I7 I8 I9 I10 I11]. intros He Hlo Hp.
  pose proof (I7 _ _ Hp) as (P1 & P2 & P3 & P4 & P5 & P6 & P7).
  assert (pe ∈ owner p) as Hin by (apply (I5 _ _ pe Hp); eauto).
  pose proof (filter_out pe (owner p) Hin P1) as Hperm.
  constructor; try done.
  - intros j q o [[<- <-]|[Hj Hq]]%lookup_insert_Some.
    + cbn. rewrite list_elem_of_filter, (I5 _ _ o Hp). set_solver.
    + rewrite (I5 j q o Hq). split; [|set_solver]. intros (Ho & e' & He' & Ej). split; [|eauto].
      apply not_elem_of_union. split; [|done]. intros ->%elem_of_singleton. congruence.
  - intros o e' He' Ho. destruct (I6 o e' He') as [q Hq]; [set_solver|].
    destruct (decide (pe_p e' = pe_p e)) as [->|]; [by rewrite lookup_insert_eq; eexists|].
    rewrite lookup_insert_ne by done. by eexists.
  - intros j q [[<- <-]|[Hj Hq]]%lookup_insert_Some.
    + cbn. rewrite !bump_eq. rewrite Hperm in P4. rewrite (nsnaps_perm _ _ _ Hperm), nsnaps_cons in P6.
      cbn [length] in P4. split_and!; try done; try (destruct (is_snap E pe); lia).
      by apply NoDup_filter.
    + rewrite !bump_ne by done. eauto.
  - intros x j (q & Hq & <-)%I8. destruct (decide (j = pe_p e)) as [->|].
    + simplify_eq. eexists. by rewrite lookup_insert_eq.
    + exists q. by rewrite lookup_insert_ne.
  - intros a r t v x Ha Hx. destruct (I9 a r t v x Ha Hx) as (o & e' & q & ? & ? & ? & ? & Hq & ? & ?).
    destruct (decide (pe_p e' = pe_p e)) as [Ei|].
    + rewrite Ei in Hq. simplify_eq. eexists o, e', _. rewrite Ei, lookup_insert_eq. split_and!; done.
    + exists o, e', q. split_and!; try done. by rewrite lookup_insert_ne.
  - intros j Hj. destruct (I10 j Hj) as (? & Hn & ? & ? & ?). assert (j <> pe_p e) by congruence.
    rewrite lookup_insert_ne, !bump_ne by done. done.
  - destruct I11 as (own & live & Hm & Hf). exists own, live. split; [done|].
    intros j q [[<- <-]|[? Hq]]%lookup_insert_Some; [by apply (Hf _ p)|by apply Hf].
Qed.

Lemma inv_link_owner pe e p :
  E !! pe = Some e -> pe ∈ lo -> G !! pe_p e = Some p ->
  0 <= es (pe_p e) - (if is_snap E pe then 1 else 0) <= ext (pe_p e) - 1 ->
  inv hwp (bump ext (pe_p e) (-1)) (bump es (pe_p e) (- (if is_snap E pe then 1 else 0))) lm (lo ∖ {[pe]}) al C ph E
    (<[pe_p e := with_owner (pe :: owner p) p]> G) n.
Proof.
  destruct HI as [I1 I2 I3 I4 I5 I6 I7 I8 I9 I10 I11]. intros He Hlo Hp Hb.
  pose proof (I7 _ _ Hp) as (P1 & P2 & P3 & P4 & P5 & P6 & P7).
  assert (pe ∉ owner p) as Hin by (rewrite (I5 _ _ pe Hp); tauto).
  constructor; try done.
  - intros j q o [[<- <-]|[Hj Hq]]%lookup_insert_Some.
    + cbn. rewrite elem_of_cons, (I5 _ _ o Hp). destruct (decide (o = pe)) as [->|]; [|set_solver].
      split; [|by left]. intros _. split; [set_solver|eauto].
    + rewrite (I5 j q o Hq). split; [set_solver|]. intros (Ho & e' & He' & Ej). split; [|eauto].
      intros Hol. apply Ho, elem_of_difference. split; [done|]. intros ->%elem_of_singleton. congruence.
  - intros o e' He' Ho. destruct (decide (pe_p e' = pe_p e)) as [->|]; [by rewrite lookup_insert_eq; eexists|].
    rewrite lookup_insert_ne by done. apply (I6 o e' He'). intros Hol. apply Ho, elem_of_difference.
    split; [done|]. intros ->%elem_of_singleton. congruence.
  - intros j q [[<- <-]|[Hj Hq]]%lookup_insert_Some.
    + cbn. rewrite !bump_eq, nsnaps_cons. split_and!; try done; try lia. by apply NoDup_cons.
    + rewrite !bump_ne by done. eauto.
  - intros x j (q & Hq & <-)%I8. destruct (decide (j = pe_p e)) as [->|].
    + simplify_eq. eexists. by rewrite lookup_insert_eq.
    + exists q. by rewrite lookup_insert_ne.
  - intros a r t v x Ha Hx. destruct (I9 a r t v x Ha Hx) as (o & e' & q & ? & ? & ? & ? & Hq & ? & ?).
    destruct (decide (pe_p e' = pe_p e)) as [Ei|].
    + rewrite Ei in Hq. simplify_eq. eexists o, e', _. rewrite Ei, lookup_insert_eq. split_and!; done.
    + exists o, e', q. split_and!; try done. by rewrite lookup_insert_ne.
  - intros j Hj. destruct (I10 j Hj) as (? & Hn & ? & ? & ?). assert (j <> pe_p e) by congruence.
    rewrite lookup_insert_ne, !bump_ne by done. done.
  - destruct I11 as (own & live & Hm & Hf). exists own, live. split; [done|].
    intros j q [[<- <-]|[? Hq]]%lookup_insert_Some; [by apply (Hf _ p)|by apply Hf].
Qed.

(** An entry off the owner lists may change its page and its flags, the page
    only while the page table does not show the old one. *)
Lemma inv_retarget pe e e' :
  E !! pe = Some e -> pe ∈ lo -> pe_as e' = pe_as e -> pe_vaddr e' = pe_vaddr e -> kind_ok hwp e' ->
  (pe_p e' = pe_p e \/ forall r t, C !! pe_as e = Some (r, t) -> t !! pe_vaddr e = None) ->
  inv hwp ext es lm lo al C ph (<[pe := e']> E) G n.
Proof.
  destruct HI as [I1 I2 I3 I4 I5 I6 I7 I8 I9 I10 I11]. intros He Hlo Has Hva Hk Hpt.
  assert (forall j q o, G !! j = Some q -> o ∈ owner q -> o <> pe) as Hno.
  { intros j q o Hq Ho ->. apply (I5 j q pe Hq) in Ho as [? _]. done. }
  constructor; try done.
  - intros o x [[<- <-]|[Ho Hx]]%lookup_insert_Some; [|eauto]. destruct (I3 pe e He) as (? & ? & ?).
    rewrite Hva, Has. done.
  - intros a r t v o Ha. rewrite (I4 a r t v o Ha). split; intros (Hom & x & Hx & Hxa & Hxv); (split; [done|]).
    + destruct (decide (o = pe)) as [->|]; [|exists x; by rewrite lookup_insert_ne].
      rewrite lookup_insert_eq. simplify_eq. eauto.
    + apply lookup_insert_Some in Hx as [[<- <-]|[_ Hx]]; [|eauto]. exists e. rewrite <- Has, <- Hva. done.
  - intros j q o Hq. rewrite (I5 j q o Hq). split; intros (Hol & x & Hx & Ej); (split; [done|]); exists x.
    + rewrite lookup_insert_ne; [done|]. by intros <-.
    + by rewrite lookup_insert_ne in Hx by (by intros <-).
  - intros o x Hx Hol. rewrite lookup_insert_ne in Hx by (by intros <-). eauto.
  - intros j q Hq. destruct (I7 j q Hq) as (? & ? & ? & ? & ? & Hs & ?). split_and!; try done; try tauto.
    rewrite Hs. f_equal. apply nsnaps_ext. intros o Ho. symmetry. apply is_snap_insert_ne. eauto.
  - intros a r t v x Ha Hx. destruct (I9 a r t v x Ha Hx) as (o & y & q & Hol & Hy & <- & <- & Hq & ? & ?).
    destruct (decide (o = pe)) as [->|].
    + rewrite He in Hy. injection Hy as <-. exists pe, e', q. rewrite lookup_insert_eq. split_and!; try done.
      destruct Hpt as [->|Hpt]; [done|]. specialize (Hpt r t Ha). congruence.
    + exists o, y, q. split_and!; try done. by rewrite lookup_insert_ne.
  - intros j Hj. destruct (I10 j Hj) as (Hn & ? & ? & ? & ?). rewrite lookup_insert_ne by congruence. done.
Qed.

(** A new entry starts outside its map and off its owner list. *)
Lemma inv_new_entry e :
  user_page (pe_vaddr e) -> kind_ok hwp e -> is_Some (C !! pe_as e) ->
  inv hwp ext es ({[n]} ∪ lm) ({[n]} ∪ lo) al C ph (<[n := e]> E) G (Pos.succ n).
Proof.
  destruct HI as [I1 I2 I3 I4 I5 I6 I7 I8 I9 I10 I11]. intros Hu Hk Hc.
  destruct (I10 n) as (N1 & N2 & N3 & N4 & N5); [lia|].
  assert (forall o x, E !! o = Some x -> o <> n) as Hne by congruence.
  assert (forall o x, (<[n := e]> E) !! o = Some x -> o ∉ ({[n]} : gset id) -> E !! o = Some x) as Hold.
  { intros o x Hx Hon. rewrite lookup_insert_ne in Hx; [done|]. intros <-. set_solver. }
  constructor; try done.
  - intros o x [[<- <-]|[Ho Hx]]%lookup_insert_Some; eauto.
  - intros a r t v o Ha. rewrite (I4 a r t v o Ha). split; intros (Hom & x & Hx & Hxa & Hxv).
    + specialize (Hne o x Hx). split; [set_solver|]. exists x. by rewrite lookup_insert_ne.
    + split; [set_solver|]. exists x. split; [|done]. apply Hold; [done|set_solver].
  - intros j q o Hq. rewrite (I5 j q o Hq). split; intros (Hol & x & Hx & Ej).
    + specialize (Hne o x Hx). split; [set_solver|]. exists x. by rewrite lookup_insert_ne.
    + split; [set_solver|]. exists x. split; [|done]. apply Hold; [done|set_solver].
  - intros o x Hx Hol. apply (I6 o x); [apply Hold; [done|set_solver]|set_solver].
  - intros j q Hq. destruct (I7 j q Hq) as (? & ? & ? & ? & ? & Hs & ?). split_and!; try done; try tauto.
    rewrite Hs. f_equal. apply nsnaps_ext. intros o Ho. symmetry. apply is_snap_insert_ne.
    apply (I5 j q o Hq) in Ho as (_ & x & Hx & _). eauto.
  - intros a r t v x Ha Hx. destruct (I9 a r t v x Ha Hx) as (o & y & q & Hol & Hy & ? & ? & ? & ? & ?).
    specialize (Hne o y Hy). exists o, y, q. split_and!; try done; [set_solver|]. by rewrite lookup_insert_ne.
  - intros j Hj. destruct (I10 j) as (? & ? & ? & ? & ?); [lia|]. rewrite lookup_insert_ne by lia. done.
Qed.

Lemma inv_forget pe :
  pe ∈ lm -> pe ∈ lo -> inv hwp ext es (lm ∖ {[pe]}) (lo ∖ {[pe]}) al C ph (delete pe E) G n.
Proof.
  destruct HI as [I1 I2 I3 I4 I5 I6 I7 I8 I9 I10 I11]. intros Hlm Hlo.
  constructor; try done.
  - intros o x [_ Hx]%lookup_delete_Some. eauto.
  - intros a r t v o Ha. rewrite (I4 a r t v o Ha). split; intros (Hom & x & Hx & Hxa & Hxv).
    + split; [set_solver|]. exists x. rewrite lookup_delete_ne; [done|]. by intros <-.
    + apply lookup_delete_Some in Hx as [Hne Hx]. split; [set_solver|eauto].
  - intros j q o Hq. rewrite (I5 j q o Hq). split; intros (Hol & x & Hx & Ej).
    + split; [set_solver|]. exists x. rewrite lookup_delete_ne; [done|]. by intros <-.
    + apply lookup_delete_Some in Hx as [Hne Hx]. split; [set_solver|eauto].
  - intros o x [Hne Hx]%lookup_delete_Some Hol. apply (I6 o x Hx). set_solver.
  - intros j q Hq. destruct (I7 j q Hq) as (? & ? & ? & ? & ? & Hs & ?). split_and!; try done; try tauto.
    rewrite Hs. f_equal. apply nsnaps_ext. intros o Ho. symmetry. apply is_snap_delete_ne.
    intros ->. by apply (I5 j q pe Hq) in Ho as (? & _).
  - intros a r t v x Ha Hx. destruct (I9 a r t v x Ha Hx) as (o & y & q & Hol & Hy & ? & ? & ? & ? & ?).
    exists o, y, q. split_and!; try done; [set_solver|]. rewrite lookup_delete_ne; [done|]. by intros <-.
  - intros j Hj. destruct (I10 j Hj) as (Hn & ? & ? & ? & ?). split; [|done]. apply lookup_delete_None. by right.
Qed.
(** *** Maps and page tables *)
Lemma inv_unlink_map pe e r t r' :
  E !! pe = Some e -> pe ∉ lm -> C !! pe_as e = Some (r, t) ->
  r_ok (r' : R) -> r_map r' = delete (pe_vaddr e) (r_map r) ->
  inv hwp ext es ({[pe]} ∪ lm) lo al (<[pe_as e := (r', delete (pe_vaddr e) t)]> C) ph E G n.
Proof.
  destruct HI as [I1 I2 I3 I4 I5 I6 I7 I8 I9 I10 I11]. intros He Hlm Hc Hok Hr.
  assert (r_map r !! pe_vaddr e = Some pe) as Hpe by (apply (I4 _ _ _ _ _ Hc); eauto).
  constructor; try done.
  - intros a q u [[<- [= <- <-]]|[_ Ha]]%lookup_insert_Some; [done|eauto].
  - intros o x Hx. destruct (I3 o x Hx) as (? & ? & Hs). split; [done|]. split; [done|].
    apply lookup_insert_is_Some. destruct (decide (pe_as e = pe_as x)); auto.
  - intros a q u v o [[<- [= <- <-]]|[Hne Ha]]%lookup_insert_Some.
    + rewrite Hr. destruct (decide (v = pe_vaddr e)) as [->|Hv].
      * rewrite lookup_delete_eq. split; [done|]. intros (Ho & x & Hx & Hxa & Hxv). exfalso.
        assert (r_map r !! pe_vaddr e = Some o) by (apply (I4 _ _ _ _ _ Hc); split; [set_solver|eauto]).
        set_solver.
      * rewrite lookup_delete_ne by done. rewrite (I4 _ _ _ _ _ Hc). split; intros (Ho & x & Hx & Hxa & Hxv).
        -- split; [|eauto]. apply not_elem_of_union. split; [|done]. intros ->%elem_of_singleton. congruence.
        -- split; [set_solver|eauto].
    + rewrite (I4 _ _ _ _ _ Ha). split; intros (Ho & x & Hx & Hxa & Hxv); (split; [|eauto]).
      * apply not_elem_of_union. split; [|done]. intros ->%elem_of_singleton. congruence.
      * set_solver.
  - intros a q u v x Ha Hx. assert (exists u', C !! a = Some (if decide (a = pe_as e) then r else q, u')
      /\ u' !! v = Some x /\ (a = pe_as e -> v <> pe_vaddr e)) as (u' & Ha' & Hx' & Hv).
    { apply lookup_insert_Some in Ha as [[<- [= <- <-]]|[Hne Ha]].
      - apply lookup_delete_Some in Hx as [? Hx]. rewrite decide_True by done. eauto.
      - rewrite decide_False by done. exists u. split_and!; [done|done|]. intros ->. done. }
    destruct (I9 a _ u' v x Ha' Hx') as (o & y & p & Hol & Hy & Hya & Hyv & ? & ? & ?).
    exists o, y, p. split_and!; try done. apply not_elem_of_union. split; [|done].
    intros ->%elem_of_singleton. rewrite He in Hy. injection Hy as <-. by apply Hv.
Qed.

Lemma inv_link_map pe e r t r' :
  E !! pe = Some e -> pe ∈ lm -> C !! pe_as e = Some (r, t) -> r_map r !! pe_vaddr e = None ->
  r_ok (r' : R) -> r_map r' = <[pe_vaddr e := pe]> (r_map r) ->
  inv hwp ext es (lm ∖ {[pe]}) lo al (<[pe_as e := (r', t)]> C) ph E G n.
Proof.
  destruct HI as [I1 I2 I3 I4 I5 I6 I7 I8 I9 I10 I11]. intros He Hlm Hc Hno Hok Hr.
  constructor; try done.
  - intros a q u [[<- [= <- <-]]|[_ Ha]]%lookup_insert_Some; [done|eauto].
  - intros o x Hx. destruct (I3 o x Hx) as (? & ? & Hs). split; [done|]. split; [done|].
    apply lookup_insert_is_Some. destruct (decide (pe_as e = pe_as x)); auto.
  - intros a q u v o [[<- [= <- <-]]|[Hne Ha]]%lookup_insert_Some.
    + rewrite Hr. destruct (decide (v = pe_vaddr e)) as [->|Hv].
      * rewrite lookup_insert_eq. split; [intros [= <-]; split; [set_solver|eauto]|].
        intros (Ho & x & Hx & Hxa & Hxv). destruct (decide (o = pe)) as [->|Hop]; [done|]. exfalso.
        assert (r_map r !! pe_vaddr e = Some o) by (apply (I4 _ _ _ _ _ Hc); split; [set_solver|eauto]).
        congruence.
      * rewrite lookup_insert_ne by done. rewrite (I4 _ _ _ _ _ Hc). split; intros (Ho & x & Hx & Hxa & Hxv).
        -- split; [set_solver|eauto].
        -- split; [|eauto]. intros Hol. apply Ho, elem_of_difference. split; [done|].
           intros ->%elem_of_singleton. congruence.
    + rewrite (I4 _ _ _ _ _ Ha). split; intros (Ho & x & Hx & Hxa & Hxv); (split; [|eauto]); [set_solver|].
      intros Hol. apply Ho, elem_of_difference. split; [done|]. intros ->%elem_of_singleton. congruence.
  - intros a q u v x Ha Hx. assert (exists q', C !! a = Some (q', u)) as [q' Ha'].
    { apply lookup_insert_Some in Ha as [[<- [= <- <-]]|[Hne Ha]]; eauto. }
    destruct (I9 a _ u v x Ha' Hx) as (o & y & p & Hol & ?). exists o, y, p. split; [set_solver|done].
Qed.

Definition cmap (Φ : id -> Z -> Z -> option Z) (C : gmap id (R * gmap Z Z)) : gmap id (R * gmap Z Z) :=
  map_imap (fun a rt => Some (rt.1, map_imap (Φ a) rt.2)) C.

Lemma cmap_lookup Φ a : cmap Φ C !! a = (fun rt => (rt.1, map_imap (Φ a) rt.2)) <$> C !! a.
Proof. unfold cmap. rewrite map_lookup_imap. by destruct (C !! a). Qed.

(** Changing entries of the page tables: never the frame, and write permission
    only where the page has no snapshots. *)
Lemma inv_cmap Φ :
  (forall a r t v x y, C !! a = Some (r, t) -> t !! v = Some x -> Φ a v x = Some y ->
     pte_get_base y = pte_get_base x
     /\ (flag PTE_W y = true -> flag PTE_W x = true \/ forall pe e p, E !! pe = Some e -> pe_as e = a ->
          pe_vaddr e = v -> pe ∉ lm -> G !! pe_p e = Some p -> snap_count p <= 0)) ->
  inv hwp ext es lm lo al (cmap Φ C) ph E G n.
Proof.
  destruct HI as [I1 I2 I3 I4 I5 I6 I7 I8 I9 I10 I11]. intros HΦ.
  assert (forall a r t', cmap Φ C !! a = Some (r, t') -> exists t, C !! a = Some (r, t) /\ t' = map_imap (Φ a) t) as Hc.
  { intros a r t'. rewrite cmap_lookup. intros ([r0 t] & Ha & [= -> ->])%fmap_Some. eauto. }
  constructor; try done.
  - intros a r t (u & Ha & _)%Hc. eauto.
  - intros o x Hx. destruct (I3 o x Hx) as (? & ? & [rt Hs]). split; [done|]. split; [done|].
    rewrite cmap_lookup, Hs. by eexists.
  - intros a r t v o (u & Ha & _)%Hc. by apply (I4 a r u v o).
  - intros a r t v y (u & Ha & ->)%Hc Hy. rewrite map_lookup_imap in Hy. apply bind_Some in Hy as (x & Hx & HΦx).
    destruct (HΦ a r u v x y Ha Hx HΦx) as [Hb Hf].
    destruct (I9 a r u v x Ha Hx) as (o & e & p & Hol & He & Hea & Hev & Hp & Hbx & Hs).
    exists o, e, p. rewrite Hb. split_and!; try done. intros Hpos. destruct (flag PTE_W y); [|done].
    destruct (Hf eq_refl) as [Hw|Hno]; [by rewrite Hs in Hw|]. specialize (Hno o e p He Hea Hev Hol Hp). lia.
Qed.

(** A new entry in a page table. *)
Lemma inv_map_pte pe e p r t x :
  E !! pe = Some e -> pe ∉ lm -> C !! pe_as e = Some (r, t) -> G !! pe_p e = Some p ->
  pte_get_base x = phys_addr p -> (0 < snap_count p -> flag PTE_W x = false) ->
  inv hwp ext es lm lo al (<[pe_as e := (r, <[pe_vaddr e := x]> t)]> C) ph E G n.
Proof.
  destruct HI as [I1 I2 I3 I4 I5 I6 I7 I8 I9 I10 I11]. intros He Hlm Hc Hp Hb Hw.
  constructor; try done.
  - intros a q u [[<- [= <- <-]]|[_ Ha]]%lookup_insert_Some; eauto.
  - intros o y Hy. destruct (I3 o y Hy) as (? & ? & Hs). split; [done|]. split; [done|].
    apply lookup_insert_is_Some. destruct (decide (pe_as e = pe_as y)); auto.
  - intros a q u v o [[<- [= <- <-]]|[_ Ha]]%lookup_insert_Some; eauto.
  - intros a q u v y [[<- [= <- <-]]|[_ Ha]]%lookup_insert_Some Hy; [|eauto].
    apply lookup_insert_Some in Hy as [[<- <-]|[_ Hy]]; [|eauto]. by exists pe, e, p.
Qed.
End steps.
End inv.
