(* ===== verification/MmOps.v ===== *)
(** What the page operations of [sys/mm/page_man.c] and [sys/mm/aspace.c] do to
    the invariant of [MmInv]. *)
From S2P Require Import Prelude Bits Irq Binradix Alloc MmState PageMan Aspace MmInv.

Section ops.
Context {R : Type} `{!RadixMap R id}.
Implicit Types s : mm R.

(** ** Components of the state *)
Lemma mm_eq s1 s2 :
  alloc s1 = alloc s2 -> phys s1 = phys s2 -> next_id s1 = next_id s2 -> pgs s1 = pgs s2 ->
  phys_pages s1 = phys_pages s2 -> entries s1 = entries s2 -> spaces s1 = spaces s2 ->
  current_as s1 = current_as s2 -> zero_page s1 = zero_page s2 -> s1 = s2.
Proof. destruct s1, s2. cbn. intros. by subst. Qed.

Lemma irq_back (m : mem) : set_irq (irq m + 1 - 1) (set_irq (irq m + 1) m) = m.
Proof. rewrite set_irq_twice. replace (irq m + 1 - 1) with (irq m) by lia. apply set_irq_irq. Qed.

Lemma cores_lookup s a sp : spaces s !! a = Some sp -> cores s !! a = Some (core sp).
Proof. intros E. unfold cores. by rewrite lookup_fmap, E. Qed.
Lemma cores_Some s a r t : cores s !! a = Some (r, t) -> exists sp, spaces s !! a = Some sp /\ core sp = (r, t).
Proof. unfold cores. rewrite lookup_fmap. intros (sp & H & ?)%fmap_Some. eauto. Qed.
Lemma cores_insert s a sp : cores (set_spaces (<[a := sp]> (spaces s)) s) = <[a := core sp]> (cores s).
Proof. unfold cores. cbn. apply fmap_insert. Qed.
Lemma core_pmap Φ (m : gmap id (address_space R)) : core <$> pmap Φ m = cmap Φ (core <$> m).
Proof.
  apply map_eq. intros a. rewrite cmap_lookup, !lookup_fmap, pmap_lookup. by destruct (m !! a).
Qed.
Lemma cores_pmap s Φ : cores (set_spaces (pmap Φ (spaces s)) s) = cmap Φ (cores s).
Proof.
  apply map_eq. intros a. unfold cores. cbn. rewrite cmap_lookup, !lookup_fmap, pmap_lookup.
  by destruct (spaces s !! a).
Qed.

(** Address spaces without their page tables. *)
Definition strip (m : gmap id (address_space R)) : gmap id (address_space R) := with_ptes ∅ <$> m.
Lemma strip_pmap Φ m : strip (pmap Φ m) = strip m.
Proof.
  apply map_eq. intros a. unfold strip. rewrite !lookup_fmap, pmap_lookup. by destruct (m !! a).
Qed.
Lemma strip_insert a sp m : strip (<[a := sp]> m) = <[a := with_ptes ∅ sp]> (strip m).
Proof. apply fmap_insert. Qed.

(** What no page operation touches but to write bytes. *)
Definition keeps s s' : Prop :=
  current_as s' = current_as s /\ zero_page s' = zero_page s /\ irq s' = irq s.
Lemma keeps_refl s : keeps s s.
Proof. done. Qed.
Lemma keeps_trans s1 s2 s3 : keeps s1 s2 -> keeps s2 s3 -> keeps s1 s3.
Proof. intros (? & ? & ?) (? & ? & ?). split_and!; congruence. Qed.

(** ** Page table entries *)
Lemma testbit_W i : 0 <= i -> Z.testbit PTE_W i = (i =? 1).
Proof.
  intros Hi. unfold PTE_W. rewrite BIT_pow by lia. rewrite Z.pow2_bits_eqb by lia. apply Z.eqb_sym.
Qed.
Lemma set_w_base x : pte_get_base (set_w x) = pte_get_base x.
Proof.
  apply Z.bits_inj'. intros i Hi. unfold pte_get_base, set_w.
  rewrite !Z.land_spec, Z.lor_spec, PTE_BASE_MASK_testbit, testbit_W by lia. zcases.
Qed.
Lemma clear_w_base x : pte_get_base (clear_w x) = pte_get_base x.
Proof.
  unfold clear_w. destruct (flag PTE_W x); [|done].
  apply Z.bits_inj'. intros i Hi. unfold pte_get_base, u64.
  rewrite !Z.land_spec, wrap_testbit, Z.lnot_spec, PTE_BASE_MASK_testbit, testbit_W by lia. zcases.
Qed.

(** ** Consequences of the invariant *)
Section facts.
Context (hwp : gset id) (ext es : id -> Z) (lm lo : gset id) (s : mm R).
Context (HI : mm_inv hwp ext es lm lo s).

Lemma inv_irq : 0 <= irq s.
Proof. destruct (i_mem _ _ _ _ _ _ _ _ _ _ _ HI) as (own & live & Hm & _). by destruct Hm. Qed.

Lemma inv_has_entry pe e : entries s !! pe = Some e -> has_entry s pe.
Proof.
  intros He. destruct (i_entry _ _ _ _ _ _ _ _ _ _ _ HI pe e He) as (Hu & _ & [[r t] Hc]).
  apply cores_Some in Hc as (sp & Hs & _). exists e. by split_and!.
Qed.

Lemma inv_owner_entry i p o : pgs s !! i = Some p -> o ∈ owner p -> exists e, entries s !! o = Some e /\ pe_p e = i /\ o ∉ lo.
Proof.
  intros Hp Ho. apply (i_owner _ _ _ _ _ _ _ _ _ _ _ HI i p o Hp) in Ho as (? & e & ? & ?). eauto.
Qed.

Lemma inv_has_owner i p o : pgs s !! i = Some p -> o ∈ owner p -> has_entry s o.
Proof. intros Hp Ho. destruct (inv_owner_entry i p o Hp Ho) as (e & He & _). by eapply inv_has_entry. Qed.

Lemma inv_hw pe e : entries s !! pe = Some e -> flag PF_HARDWARE (pe_flags e) = bool_decide (pe_p e ∈ hwp).
Proof.
  intros He. destruct (i_entry _ _ _ _ _ _ _ _ _ _ _ HI pe e He) as (_ & Hk & _). unfold kind_ok in Hk.
  case_decide; [rewrite bool_decide_eq_true_2 by done; by rewrite Hk|].
  rewrite bool_decide_eq_false_2 by done. by destruct Hk as [-> | ->].
Qed.

Lemma inv_shared pe e : entries s !! pe = Some e -> flag PF_SHARED (pe_flags e) = negb (flag PF_SNAPSHOT (pe_flags e)).
Proof.
  intros He. destruct (i_entry _ _ _ _ _ _ _ _ _ _ _ HI pe e He) as (_ & Hk & _). unfold kind_ok in Hk.
  case_decide; [by rewrite Hk|]. by destruct Hk as [-> | ->].
Qed.

(** With no snapshot among them, all owners of a page are shared. *)
Lemma inv_all_shared l : nsnaps (entries s) l <= 0 ->
  forall o e, o ∈ l -> entries s !! o = Some e -> flag PF_SHARED (pe_flags e) = true.
Proof.
  intros H o e Ho He. rewrite (inv_shared o e He). rewrite <- (is_snap_Some _ _ _ He).
  destruct (is_snap (entries s) o) eqn:Es; [|done]. exfalso.
  unfold nsnaps in H. assert (o ∈ filter (fun o => is_snap (entries s) o = true) l) as Hin by by apply list_elem_of_filter.
  destruct (filter _ l); [by apply elem_of_nil in Hin|simpl in H; lia].
Qed.
End facts.

Lemma inv_set_irq hwp ext es lm lo s n :
  0 <= n -> mm_inv hwp ext es lm lo s -> mm_inv hwp ext es lm lo (set_irq n s).
Proof.
  intros Hn [I1 I2 I3 I4 I5 I6 I7 I8 I9 I10 I11]. constructor; try done.
  destruct I11 as (own & live & Hm & Hf). exists own, live. split; [|done]. by apply set_irq_ok.
Qed.

(** ** [page_unref] *)
Lemma page_unref_ok hwp ext es lm lo s i p hw :
  mm_inv hwp ext es lm lo s -> pgs s !! i = Some p -> 1 <= ext i -> es i <= ext i - 1 -> lo ⊆ lm ->
  (ref_count p = 1 -> hw = bool_decide (i ∈ hwp)) ->
  exists s', page_unref i hw s = Done (ref_count p =? 1) s' /\ mm_inv hwp (bump ext i (-1)) es lm lo s'
    /\ keeps s s' /\ phys s' = phys s /\ next_id s' = next_id s /\ entries s' = entries s /\ spaces s' = spaces s
    /\ pgs s' = (if ref_count p =? 1 then delete i (pgs s)
                 else <[i := with_ref (ref_count p - 1) p]> (pgs s)).
Proof.
  intros HI Hp Hext Hes Hsub Hhw. destruct (i_page _ _ _ _ _ _ _ _ _ _ _ HI i p Hp) as (P1 & P2 & P3 & P4 & P5 & P6 & P7).
  unfold page_unref. kstep get_pg_eq. rewrite (u64_small (ref_count p - 1)) by (unfold is_u64; lia).
  kstep put_pg_eq. cbn [ref_count with_ref].
  destruct (Z.eqb_spec (ref_count p) 1) as [E1|E1].
  - destruct (Z.eqb_spec (ref_count p - 1) 0) as [_|]; [|lia]. kstep get_eq. cbn [phys_pages set_pgs phys_addr with_ref].
    assert (owner p = []) as Ho by (destruct (owner p); [done|cbn in P4; lia]).
    destruct (r_delete_spec (phys_pages s) (phys_addr p) i (i_ph _ _ _ _ _ _ _ _ _ _ _ HI)) as (ph' & Ed & Hok & Hph);
      [unfold is_u64, frame, KERN_VMBASE in *; lia|done|].
    kstep deref_eq. cbn [fst snd]. kstep modify_eq.
    assert (forall pe e, entries s !! pe = Some e -> pe_p e = i -> pe ∈ lm) as Hlm.
    { intros pe e Hpe Ei. destruct (decide (pe ∈ lo)) as [|Hn]; [set_solver|]. exfalso.
      assert (pe ∈ owner p) as Hin by (apply (i_owner _ _ _ _ _ _ _ _ _ _ _ HI i p pe Hp); eauto).
      rewrite Ho in Hin. by apply elem_of_nil in Hin. }
    assert (exists al', (if decide (i ∈ hwp) then al' = alloc s else Alloc.drop_page (pv p) (alloc s) = Done () al')
      /\ interrupt_disabled al' = interrupt_disabled (alloc s)
      /\ forall s0, alloc s0 = alloc s -> (if negb hw then drop_page (phys_to_virt (phys_addr p)) else mret ()) s0
           = Done () (set_alloc al' s0)) as (al' & Hal & Hirq & Hrun).
    { rewrite (Hhw E1). destruct (decide (i ∈ hwp)).
      - exists (alloc s). rewrite bool_decide_eq_true_2 by done. split_and!; [done..|]. intros s0 Es0. cbn.
        rewrite <- Es0. by destruct s0.
      - destruct (i_mem _ _ _ _ _ _ _ _ _ _ _ HI) as (own & live & Hm & Hf). specialize (Hf i p Hp).
        rewrite decide_False in Hf by done. destruct (drop_page_ok _ own live (pv p) Hm) as [Edr _]; [apply Hf..|].
        eexists. split; [exact Edr|]. split; [done|]. intros s0 Es0. rewrite bool_decide_eq_false_2 by done. cbn [negb].
        unfold drop_page, lift. replace (phys_to_virt (phys_addr p)) with (pv p).
        + by rewrite Es0, Edr.
        + unfold phys_to_virt, pv. rewrite u64_small; [lia|]. unfold is_u64, frame, KERN_VMBASE in *. lia. }
    erewrite bind_eq; [|by apply Hrun]. kstep modify_eq. eexists. split; [reflexivity|].
    split; [|by split_and!; try done; cbn; rewrite delete_insert_eq].
    unfold mm_inv. cbn. rewrite delete_insert_eq. apply (inv_free _ _ _ _ _ _ _ _ _ _ _ HI i p); try done; lia.
  - destruct (Z.eqb_spec (ref_count p - 1) 0); [lia|]. eexists. split; [reflexivity|]. split; [|done].
    eapply inv_fns; [apply (inv_count _ _ _ _ _ _ _ _ _ _ _ HI i p _ (-1) 0 Hp); cbn; (done || lia)|done| |done..].
    intros j. symmetry. by apply bump_0.
Qed.

(** ** [page_entry_unref] *)
Definition snap_bit (e : page_entry) : Z := if flag PF_SNAPSHOT (pe_flags e) then 1 else 0.

Lemma bump_bump f i d d' j : bump (bump f i d) i d' j = bump f i (d + d') j.
Proof. unfold bump. case_decide; lia. Qed.

(** Giving the owners of a page without snapshots their write permission. *)
Lemma inv_restore hwp ext es lm lo s i p :
  mm_inv hwp ext es lm lo s -> pgs s !! i = Some p -> snap_count p <= 0 -> lm ⊆ lo ->
  mm_inv hwp ext es lm lo (set_spaces (pmap (at_owners (entries s) (owner p) set_w) (spaces s)) s).
Proof.
  intros HI Hp Hs Hsub. unfold mm_inv. rewrite cores_pmap. apply (inv_cmap _ _ _ _ _ _ _ _ _ _ _ HI).
  intros a r t v x y Ha Hx [= <-]. destruct (owned _ _ a v) eqn:Eo; [|by auto].
  split; [apply set_w_base|]. intros _. right. intros pe e q He Hea Hev Hlm Hq.
  apply owned_iff in Eo as (o & e' & Ho & He' & Hoa & Hov).
  destruct (inv_owner_entry _ _ _ _ _ _ HI i p o Hp Ho) as (e'' & He'' & Ei & Hno).
  rewrite He' in He''. injection He'' as <-.
  assert (r_map r !! v = Some o /\ r_map r !! v = Some pe) as [H1 H2].
  { split; apply (i_in_map _ _ _ _ _ _ _ _ _ _ _ HI a r t v _ Ha); (split; [|by eauto]); [set_solver|done]. }
  assert (o = pe) as -> by congruence. simplify_eq. done.
Qed.

Lemma page_entry_unref_ok hwp ext es lm lo s pe e p :
  mm_inv hwp ext es lm lo s -> entries s !! pe = Some e -> pgs s !! pe_p e = Some p -> lm = lo ->
  snap_bit e <= es (pe_p e) -> 1 <= ext (pe_p e) -> es (pe_p e) - snap_bit e <= ext (pe_p e) - 1 ->
  (snap_bit e = es (pe_p e)) ->
  exists s', page_entry_unref pe s = Done () s'
    /\ mm_inv hwp (bump ext (pe_p e) (-1)) (bump es (pe_p e) (- snap_bit e)) lm lo s'
    /\ keeps s s' /\ phys s' = phys s /\ next_id s' = next_id s /\ entries s' = entries s
    /\ strip (spaces s') = strip (spaces s)
    /\ pgs s' = (if ref_count p =? 1 then delete (pe_p e) (pgs s)
                 else <[pe_p e := mkPage (phys_addr p) (page_size p) (ref_count p - 1)
                          (snap_count p - snap_bit e) (owner p)]> (pgs s)).
Proof.
  intros HI He Hp Hlmo Hsb Hext Hse Hlast. pose proof (inv_irq _ _ _ _ _ _ HI) as Hirq.
  destruct (i_page _ _ _ _ _ _ _ _ _ _ _ HI _ p Hp) as (P1 & P2 & P3 & P4 & P5 & P6 & P7).
  pose proof (nsnaps_bound (entries s) (owner p)) as Hnb.
  set (i := pe_p e) in *. set (p1 := with_snap (snap_count p - snap_bit e) p).
  assert (exists s1, (if flag PF_SNAPSHOT (pe_flags e) then
     p ← get_pg i; let p := with_snap (u64 (snap_count p - 1)) p in put_pg i p;;
     if snap_count p =? 0 then restore_write true (owner p) else mret () else mret ()) (set_irq (irq s + 1) s)
     = Done () s1 /\ mm_inv hwp ext (bump es i (- snap_bit e)) lm lo s1 /\ pgs s1 = <[i := p1]> (pgs s)
     /\ irq s1 = irq s + 1 /\ current_as s1 = current_as s /\ zero_page s1 = zero_page s /\ phys s1 = phys s
     /\ next_id s1 = next_id s /\ entries s1 = entries s /\ strip (spaces s1) = strip (spaces s))
    as (s1 & Hrun & HI1 & Hpg & K1 & K2 & K3 & K4 & K5 & K6 & K7).
  { assert (mm_inv hwp ext es lm lo (set_irq (irq s + 1) s)) as HI0 by (apply inv_set_irq; [lia|done]).
    unfold snap_bit in *. destruct (flag PF_SNAPSHOT (pe_flags e)) eqn:Efl.
    - kstep get_pg_eq. rewrite (u64_small (snap_count p - 1)) by (unfold is_u64; lia).
      kstep put_pg_eq. cbn [snap_count with_snap].
      set (s2 := set_pgs _ _).
      assert (mm_inv hwp ext (bump es i (-1)) lm lo s2) as HI2.
      { eapply inv_fns; [apply (inv_count _ _ _ _ _ _ _ _ _ _ _ HI0 i p p1 0 (-1)); cbn; (done || lia)|..]; [|done..].
        intros j. symmetry. by apply bump_0. }
      destruct (Z.eqb_spec (snap_count p - 1) 0) as [Ez|].
      + rewrite restore_write_eq.
        * eexists. split; [reflexivity|]. split; [|split_and!; try done; apply strip_pmap].
          apply (inv_restore _ _ _ _ _ s2 i p1 HI2); [cbn; by rewrite lookup_insert_eq|cbn; lia|set_solver].
        * intros o Ho. by apply (inv_has_owner _ _ _ _ _ _ HI0 i p o).
        * intros _. apply (inv_all_shared _ _ _ _ _ _ HI0). cbn. lia.
      + eexists. split; [reflexivity|]. done.
    - eexists. split; [reflexivity|]. split; [|split; [|done]].
      + eapply inv_fns; [exact HI0|done| |done..]. intros j. by apply bump_0.
      + cbn. rewrite insert_id; [done|]. rewrite Hp. unfold p1. destruct p. unfold with_snap. cbn. do 2 f_equal. lia. }
  unfold page_entry_unref. kstep disable_eq. kstep (get_pe_eq (set_irq (irq s + 1) s) pe e).
  erewrite bind_eq; [|exact Hrun].
  assert (pgs s1 !! i = Some p1) as Hp1 by (rewrite Hpg; apply lookup_insert_eq).
  destruct (page_unref_ok _ _ _ _ _ s1 i p1 (flag PF_HARDWARE (pe_flags e)) HI1 Hp1)
    as (s2 & E2 & HI2 & (F1 & F2 & F3) & F4 & F5 & F6 & F7 & F8); [done|rewrite bump_eq; lia|by subst| |].
  { intros _. by apply (inv_hw _ _ _ _ _ _ HI pe e). }
  erewrite bind_eq; [|exact E2]. assert (irq s2 = irq s + 1) as Hi2 by congruence.
  rewrite enable_eq by lia. rewrite Hi2. replace (irq s + 1 - 1) with (irq s) by lia.
  eexists. split; [reflexivity|]. split; [|split; [split_and!; cbn; congruence|]].
  - by apply inv_set_irq.
  - cbn. rewrite F4, F5, F6, F7, F8, Hpg. cbn. destruct (ref_count p =? 1); split_and!; try done.
    + by rewrite delete_insert_eq.
    + by rewrite insert_insert_eq.
Qed.

(** ** [unassign_page] *)
Lemma pmap_clear a v (m : gmap id (address_space R)) sp :
  m !! a = Some sp -> pmap (at_place a v (fun _ => None)) m = <[a := with_ptes (delete v (ptes sp)) sp]> m.
Proof. intros E. rewrite (pmap_place _ _ _ _ sp) by done. by destruct (ptes sp !! v). Qed.

(** The areas once [pe] has left their page lists. *)
Definition drop_sibling (pe : id) (l : list vm_area) : list vm_area :=
  (fun v => with_pages (filter (fun o => o <> pe) (vma_pages v)) v) <$> l.

(** The page once its owner [pe], with entry [e], is gone. *)
Definition unowned (pe : id) (e : page_entry) (p : page) : page :=
  mkPage (phys_addr p) (page_size p) (ref_count p - 1) (snap_count p - snap_bit e)
    (filter (fun o => o <> pe) (owner p)).

Lemma unassign_page_ok hwp ext s pe e p sp :
  mm_ok hwp ext s -> entries s !! pe = Some e -> pgs s !! pe_p e = Some p -> spaces s !! pe_as e = Some sp ->
  exists s' r', unassign_page pe s = Done () s' /\ mm_ok hwp ext s'
    /\ keeps s s' /\ phys s' = phys s /\ next_id s' = next_id s /\ entries s' = delete pe (entries s)
    /\ r_ok r' /\ r_map r' = delete (pe_vaddr e) (r_map (vaddr_map sp))
    /\ strip (spaces s') = <[pe_as e := with_ptes ∅ (with_vma (drop_sibling pe (vma sp)) (with_map r' sp))]> (strip (spaces s))
    /\ pgs s' = (if ref_count p =? 1 then delete (pe_p e) (pgs s) else <[pe_p e := unowned pe e p]> (pgs s)).
Proof.
  intros HI He Hp Hsp. pose proof (inv_irq _ _ _ _ _ _ HI) as Hirq.
  destruct (i_entry _ _ _ _ _ _ _ _ _ _ _ HI pe e He) as (Hu & _ & _).
  pose proof (cores_lookup _ _ _ Hsp) as Hc. set (a := pe_as e) in *. set (v := pe_vaddr e) in *. set (i := pe_p e) in *.
  destruct (r_delete_spec (vaddr_map sp) v pe) as (r' & Ed & Hok & Hr').
  { by apply (i_maps _ _ _ _ _ _ _ _ _ _ _ HI _ _ _ Hc). }
  { destruct Hu as [Hu _]. unfold is_u64. lia. }
  { apply (i_in_map _ _ _ _ _ _ _ _ _ _ _ HI _ _ _ _ _ Hc). split; [set_solver|eauto]. }
  set (p1 := with_owner (filter (fun o => o <> pe) (owner p)) p).
  set (sp1 := with_vma (drop_sibling pe (vma sp)) (with_map r' sp)).
  set (s1 := set_spaces (<[a := with_ptes (delete v (ptes sp)) sp1]> (spaces s)) (set_pgs (<[i := p1]> (pgs s)) s)).
  assert (mm_inv hwp (bump ext i 1) (bump (fun _ => 0) i (snap_bit e)) {[pe]} {[pe]} s1) as HI1.
  { pose proof (inv_unlink_owner _ _ _ _ _ _ _ _ _ _ _ HI pe e p He ltac:(set_solver) Hp) as H1.
    rewrite (is_snap_Some _ _ _ He) in H1.
    pose proof (inv_unlink_map _ _ _ _ _ _ _ _ _ _ _ H1 pe e (vaddr_map sp) (ptes sp) r' He ltac:(set_solver) Hc Hok Hr') as H2.
    eapply inv_fns; [|done|done| |].
    - unfold mm_inv. cbn -[core]. unfold cores. cbn -[core]. rewrite fmap_insert. exact H2.
    - set_solver.
    - set_solver. }
  destruct (page_entry_unref_ok _ _ _ _ _ s1 pe e p1 HI1) as (s2 & E2 & HI2 & K & F1 & F2 & F3 & F4 & F5);
    [done|apply lookup_insert_eq|done|rewrite bump_eq; lia|..].
  { rewrite bump_eq. destruct (i_page _ _ _ _ _ _ _ _ _ _ _ HI i p Hp) as (_ & _ & _ & _ & _ & _ & Hx).
    cbn in Hx. fold i. lia. }
  { rewrite !bump_eq. destruct (i_page _ _ _ _ _ _ _ _ _ _ _ HI i p Hp) as (_ & _ & _ & _ & _ & _ & Hx).
    cbn in Hx. fold i. lia. }
  { rewrite bump_eq. lia. }
  exists (set_entries (delete pe (entries s2)) s2), r'. split.
  { unfold unassign_page. kstep disable_eq. kstep (get_pe_eq _ pe e). kstep (get_as_eq _ a sp).
    kstep deref_eq. cbn [fst snd]. kstep put_as_eq.
    erewrite bind_eq; [|unfold owner_del; kstep (get_pg_eq _ i p); apply put_pg_eq].
    erewrite bind_eq; [|unfold sibling_del; kstep (get_as_eq _ a (with_map r' sp)); [apply put_as_eq|apply lookup_insert_eq]].
    erewrite bind_eq; [|apply enable_eq; cbn in Hirq |- *; lia].
    erewrite bind_eq; [|eapply unmap_maybe_eq; [exact Hu|cbn; apply lookup_insert_eq]].
    match goal with |- (page_entry_unref pe ≫= _) ?x = _ => replace x with s1 end.
    - erewrite bind_eq; [|exact E2]. done.
    - unfold s1. cbn. rewrite (pmap_clear _ _ _ sp1) by (rewrite insert_insert_eq; apply lookup_insert_eq).
      rewrite !insert_insert_eq. destruct s as [[]]. cbn in *. unfold set_spaces, set_pgs, set_alloc. cbn. f_equal.
      by replace (_ + 1 - 1) with interrupt_disabled by lia. }
  assert (forall j, bump (bump ext i 1) i (-1) j = ext j) as He1 by (intros j; unfold bump; case_decide; lia).
  split; [|split_and!; try done].
  - pose proof (inv_forget _ _ _ _ _ _ _ _ _ _ _ HI2 pe ltac:(set_solver) ltac:(set_solver)) as H3.
    eapply inv_fns; [exact H3|intros j; by rewrite He1| |set_solver|set_solver].
    intros j. change (pe_p e) with i. unfold bump. case_decide; cbn; lia.
  - cbn. by rewrite F3.
  - etrans; [exact F4|]. etrans; [apply strip_insert|]. done.
  - cbn. rewrite F5. cbn. destruct (_ =? 1); [by rewrite delete_insert_eq|by rewrite insert_insert_eq].
Qed.

(** ** [address_space_assign_page_no_addr_check] *)
Lemma cmap_ext Φ Ψ (C : gmap id (R * gmap Z Z)) :
  (forall a r t v x, C !! a = Some (r, t) -> t !! v = Some x -> Φ a v x = Ψ a v x) -> cmap Φ C = cmap Ψ C.
Proof.
  intros H. apply map_eq. intros a. rewrite !cmap_lookup. destruct (C !! a) as [[r t]|] eqn:E; [|done].
  cbn. do 2 f_equal. apply map_imap_ext. intros v. destruct (t !! v) as [x|] eqn:Ex; [|done].
  simpl. f_equal. by apply (H a r t v x).
Qed.

Lemma cmap_id (C : gmap id (R * gmap Z Z)) : cmap (fun _ _ x => Some x) C = C.
Proof.
  apply map_eq. intros a. rewrite cmap_lookup. destruct (C !! a) as [[r t]|]; [|done]. cbn. do 2 f_equal.
  apply map_eq. intros v. rewrite map_lookup_imap. by destruct (t !! v).
Qed.

Lemma cmap_insert Φ a r t (C : gmap id (R * gmap Z Z)) :
  cmap Φ (<[a := (r, t)]> C) = <[a := (r, map_imap (Φ a) t)]> (cmap Φ C).
Proof.
  apply map_eq. intros b. rewrite cmap_lookup. destruct (decide (b = a)) as [->|].
  - by rewrite !lookup_insert_eq.
  - by rewrite !lookup_insert_ne, cmap_lookup.
Qed.

(** Which entries change when page [i] gets its first snapshot. *)
Definition share_map (E : gmap id page_entry) (p : page) (sn : Z) : id -> Z -> Z -> option Z :=
  if (sn =? 1) && (snap_count p =? 0) then at_owners E (owner p) clear_w else fun _ _ x => Some x.

Lemma share_inv hwp ext es lm s i p sn :
  mm_inv hwp ext es lm ∅ s -> pgs s !! i = Some p -> sn = 0 \/ sn = 1 ->
  inv hwp ext es lm ∅ (alloc s) (cmap (share_map (entries s) p sn) (cores s)) (phys_pages s) (entries s) (pgs s) (next_id s)
  /\ (snap_count p <= 0 -> 0 < snap_count p + sn -> forall a r t v x,
        cmap (share_map (entries s) p sn) (cores s) !! a = Some (r, t) -> t !! v = Some x ->
        pte_get_base x = phys_addr p -> flag PTE_W x = false).
Proof.
  intros HI Hp Hsn. destruct (i_page _ _ _ _ _ _ _ _ _ _ _ HI i p Hp) as (P1 & P2 & P3 & P4 & P5 & P6 & P7).
  pose proof (nsnaps_bound (entries s) (owner p)). unfold share_map.
  destruct ((sn =? 1) && (snap_count p =? 0)) eqn:Ec.
  - split.
    + apply (inv_cmap _ _ _ _ _ _ _ _ _ _ _ HI). intros a r t v x y _ _ [= <-].
      destruct (owned _ _ a v); [|by auto]. split; [apply clear_w_base|]. by rewrite clear_w_flag.
    + intros _ _ a r t v y. rewrite cmap_lookup. intros ([r0 t0] & Ha & [= -> ->])%fmap_Some Hy Hb.
      rewrite map_lookup_imap in Hy. apply bind_Some in Hy as (x & Hx & [= <-]).
      destruct (owned _ _ a v) eqn:Eo; [apply clear_w_flag|]. exfalso.
      destruct (i_pte _ _ _ _ _ _ _ _ _ _ _ HI a r0 t0 v x Ha Hx) as (pe & e & q & Hlm & He & Hea & Hev & Hq & Hbx & _).
      destruct (i_page _ _ _ _ _ _ _ _ _ _ _ HI _ q Hq) as (_ & _ & Hm & _).
      assert (pe_p e = i) as Ei by congruence.
      assert (owned (entries s) (owner p) a v = true); [|congruence].
      apply owned_iff. exists pe, e. split; [|done].
      apply (i_owner _ _ _ _ _ _ _ _ _ _ _ HI i p pe Hp). split; [set_solver|eauto].
  - rewrite cmap_id. split; [done|]. intros H1 H2. exfalso. apply andb_false_iff in Ec as [Ec|Ec].
    + apply Z.eqb_neq in Ec. destruct Hsn; lia.
    + apply Z.eqb_neq in Ec. lia.
Qed.

(** The areas once [pe] is on the page list of area [v]. *)
Definition add_sibling (v pe : id) (l : list vm_area) : list vm_area :=
  (fun x => if decide (vma_id x = v) then with_pages (pe :: vma_pages x) x else x) <$> l.

(** The page once it has the new owner [pe]. *)
Definition newly_owned (pe : id) (flags : Z) (p : page) : page :=
  mkPage (phys_addr p) (page_size p) (ref_count p + 1)
    (snap_count p + if flag PF_SNAPSHOT flags then 1 else 0) (pe :: owner p).

(** The code after the entry that was there has been unassigned. *)
Definition assign_tail (a p : id) (vaddr : Z) (v : id) (flags : Z) : M (mm R) () :=
  pe ← page_entry_new a vaddr p flags;
  pg ← get_pg p;
  put_pg p (with_ref (u64 (ref_count pg + 1)) pg);;
  owner_add p pe;;
  sibling_add a v pe;;
  sp ← get_as a;
  '(_, r) ← deref (r_insert (vaddr_map sp) vaddr pe);
  put_as a (with_map r sp);;
  (if flag PF_SNAPSHOT flags then
     pg ← get_pg p;
     if ref_count pg =? 0 then panic "Invalid snapshot"
     else
       put_pg p (with_snap (u64 (snap_count pg + 1)) pg);;
       if u64 (snap_count pg + 1) =? 1 then share_page p else mret ()
   else mret ());;
  enable_interrupts.

(** The page table entry of [a] at [v]. *)
Definition mapped s (a : id) (v : Z) : option Z := sp ← spaces s !! a; ptes sp !! v.

(** What [assign_tail] leaves behind. *)
Definition assigned (a i : id) (vaddr : Z) (v : id) (flags : Z) (p : page) (sp : address_space R) s s' : Prop :=
  keeps s s' /\ alloc s' = alloc s /\ mapped s' a vaddr = None /\ phys s' = phys s /\ next_id s' = Pos.succ (next_id s)
  /\ entries s' = <[next_id s := mkEntry i a vaddr flags]> (entries s)
  /\ pgs s' = <[i := newly_owned (next_id s) flags p]> (pgs s)
  /\ exists r', r_ok r' /\ r_map r' = <[vaddr := next_id s]> (r_map (vaddr_map sp))
  /\ strip (spaces s') =
       <[a := with_ptes ∅ (with_map r' (with_vma (add_sibling v (next_id s) (vma sp)) sp))]> (strip (spaces s)).

Section assign.
Context (hwp : gset id) (ext : id -> Z) (s : mm R) (a i : id) (vaddr : Z) (v : id) (flags : Z) (p : page)
  (sp : address_space R).
Context (HI : mm_ok hwp ext s) (Hp : pgs s !! i = Some p) (Hsp : spaces s !! a = Some sp) (Hu : user_page vaddr)
  (Hk : kind_ok hwp (mkEntry i a vaddr flags)) (Hr : ref_count p + 1 < 2 ^ 64)
  (Hnone : r_map (vaddr_map sp) !! vaddr = None).
Notation n := (next_id s).
Notation e := (mkEntry i a vaddr flags).
Notation sn := (if flag PF_SNAPSHOT flags then 1 else 0).

Lemma assign_insert : exists r', r_insert (vaddr_map sp) vaddr n = Some (None, r') /\ r_ok r'
  /\ r_map r' = <[vaddr := n]> (r_map (vaddr_map sp)).
Proof.
  pose proof (cores_lookup _ _ _ Hsp) as Hc. apply r_insert_spec; [|destruct Hu; unfold is_u64; lia|done].
  by apply (i_maps _ _ _ _ _ _ _ _ _ _ _ HI _ _ _ Hc).
Qed.

(** No page table shows the address before something is assigned to it. *)
Lemma assign_no_pte : ptes sp !! vaddr = None.
Proof.
  destruct (ptes sp !! vaddr) as [x|] eqn:Ex; [|done]. exfalso. pose proof (cores_lookup _ _ _ Hsp) as Hc.
  destruct (i_pte _ _ _ _ _ _ _ _ _ _ _ HI a _ _ vaddr x Hc Ex) as (pe & e' & q & ? & He & Hea & Hev & _).
  assert (r_map (vaddr_map sp) !! vaddr = Some pe); [|congruence].
  apply (i_in_map _ _ _ _ _ _ _ _ _ _ _ HI _ _ _ _ _ Hc). eauto.
Qed.

Lemma assign_inv r' :
  r_ok r' -> r_map r' = <[vaddr := n]> (r_map (vaddr_map sp)) ->
  inv hwp ext (fun _ => 0) ∅ ∅ (alloc s)
    (<[a := (r', map_imap (share_map (entries s) p sn a) (ptes sp))]> (cmap (share_map (entries s) p sn) (cores s)))
    (phys_pages s) (<[n := e]> (entries s)) (<[i := newly_owned n flags p]> (pgs s)) (Pos.succ n).
Proof.
  intros Hok Hr'. pose proof (cores_lookup _ _ _ Hsp) as Hc.
  destruct (i_page _ _ _ _ _ _ _ _ _ _ _ HI i p Hp) as (P1 & P2 & P3 & P4 & P5 & P6 & P7). cbn in P6, P7.
  assert (sn = 0 \/ sn = 1) as Hsn by (destruct (flag PF_SNAPSHOT flags); auto).
  destruct (share_inv hwp ext _ ∅ s i p sn HI Hp Hsn) as [H1 Hro].
  pose proof (inv_count _ _ _ _ _ _ _ _ _ _ _ H1 i p
    (mkPage (phys_addr p) (page_size p) (ref_count p + 1) (snap_count p + sn) (owner p)) 1 sn Hp) as H2.
  cbn in H2. specialize (H2 eq_refl eq_refl eq_refl eq_refl ltac:(lia) ltac:(lia) Hro).
  pose proof (inv_new_entry _ _ _ _ _ _ _ _ _ _ _ H2 e Hu Hk) as H3.
  assert (cmap (share_map (entries s) p sn) (cores s) !! a
    = Some (vaddr_map sp, map_imap (share_map (entries s) p sn a) (ptes sp))) as Hca.
  { rewrite cmap_lookup, Hc. done. }
  specialize (H3 ltac:(cbn; rewrite Hca; by eexists)).
  assert ((<[n := e]> (entries s)) !! n = Some e) as Hn by apply lookup_insert_eq.
  pose proof (inv_link_map _ _ _ _ _ _ _ _ _ _ _ H3 n e _ _ r' Hn ltac:(set_solver) Hca Hnone Hok Hr') as H4.
  pose proof (inv_link_owner _ _ _ _ _ _ _ _ _ _ _ H4 n e _ Hn ltac:(set_solver) ltac:(apply lookup_insert_eq)) as H5.
  rewrite is_snap_insert in H5. cbn [pe_p pe_flags] in H5. rewrite !bump_eq in H5.
  specialize (H5 ltac:(cbn; lia)). rewrite insert_insert_eq in H5.
  eapply inv_fns; [exact H5| | |set_solver|set_solver]; intros j; unfold bump; case_decide; cbn; lia.
Qed.

(** Sharing with the new owner included changes the same entries. *)
Lemma assign_share_map sp1 :
  ptes sp1 = ptes sp ->
  pmap (share_map (<[n := e]> (entries s)) (with_owner (n :: owner p) (with_ref (ref_count p + 1) p)) sn)
    (<[a := sp1]> (spaces s))
  = pmap (share_map (entries s) p sn) (<[a := sp1]> (spaces s)).
Proof.
  intros Hpt. apply pmap_ext. intros b w x sp' Hb Hx. unfold share_map. cbn [snap_count with_owner with_ref].
  destruct (_ && _); [|done]. unfold at_owners, owned. cbn [owner with_owner existsb]. rewrite lookup_insert_eq. cbn.
  assert (bool_decide (a = b /\ vaddr = w) = false) as ->.
  { apply bool_decide_eq_false_2. intros [<- <-]. rewrite lookup_insert_eq in Hb. injection Hb as <-.
    rewrite Hpt, assign_no_pte in Hx. done. }
  cbn. do 2 f_equal. assert (forall l, n ∉ l -> existsb (fun o => match <[n := e]> (entries s) !! o with
    | Some e0 => bool_decide (pe_as e0 = b /\ pe_vaddr e0 = w) | None => false end) l = existsb (fun o =>
    match entries s !! o with Some e0 => bool_decide (pe_as e0 = b /\ pe_vaddr e0 = w) | None => false end) l) as Hl.
  { induction l as [|o l IH]; intros Hn; [done|]. apply not_elem_of_cons in Hn as [? ?]. cbn.
    rewrite lookup_insert_ne by done. by rewrite IH. }
  rewrite Hl; [done|]. intros Hn. destruct (inv_owner_entry _ _ _ _ _ _ HI i p n Hp Hn) as (e' & He' & _).
  destruct (i_next _ _ _ _ _ _ _ _ _ _ _ HI n) as (Hno & _); [lia|]. congruence.
Qed.
End assign.

(** Counting the snapshot, and taking write permission away from all owners at
    the first one. *)
Lemma assign_share_eq s i p0 flags :
  0 <= irq s -> pgs s !! i = Some p0 -> 0 < ref_count p0 -> 0 <= snap_count p0 -> snap_count p0 + 1 < 2 ^ 64 ->
  (forall o, o ∈ owner p0 -> has_entry s o) ->
  (flag PF_SNAPSHOT flags = true -> forall o e, o ∈ owner p0 -> entries s !! o = Some e ->
     flag PF_HARDWARE (pe_flags e) = false) ->
  (if flag PF_SNAPSHOT flags then
     pg ← get_pg i;
     if ref_count pg =? 0 then panic "Invalid snapshot"
     else
       put_pg i (with_snap (u64 (snap_count pg + 1)) pg);;
       if u64 (snap_count pg + 1) =? 1 then share_page i else mret ()
   else mret ()) s
  = Done () (set_spaces (pmap (share_map (entries s) p0 (if flag PF_SNAPSHOT flags then 1 else 0)) (spaces s))
       (set_pgs (<[i := with_snap (snap_count p0 + if flag PF_SNAPSHOT flags then 1 else 0) p0]> (pgs s)) s)).
Proof.
  intros Hirq Hp Href Hsn Hmax Hent Hhw. unfold share_map. destruct (flag PF_SNAPSHOT flags).
  - kstep (get_pg_eq _ i p0). destruct (Z.eqb_spec (ref_count p0) 0); [lia|].
    rewrite (u64_small (snap_count p0 + 1)) by (unfold is_u64; lia). kstep put_pg_eq. cbn [Z.eqb Pos.eqb andb].
    destruct (Z.eqb_spec (snap_count p0) 0) as [E0|E0], (Z.eqb_spec (snap_count p0 + 1) 1); try lia.
    + rewrite (share_page_eq _ (with_snap (snap_count p0 + 1) p0)); [done|done|apply lookup_insert_eq| |].
      * intros o Ho. by apply Hent.
      * intros o e' Ho. by apply Hhw.
    + rewrite pmap_id. done.
  - cbn [Z.eqb andb]. rewrite pmap_id, Z.add_0_r. rewrite insert_id.
    + by destruct s.
    + rewrite Hp. by destruct p0.
Qed.

Lemma assign_tail_ok hwp ext s a i vaddr v flags p sp :
  mm_ok hwp ext s -> pgs s !! i = Some p -> spaces s !! a = Some sp -> user_page vaddr ->
  kind_ok hwp (mkEntry i a vaddr flags) -> ref_count p + 1 < 2 ^ 64 -> r_map (vaddr_map sp) !! vaddr = None ->
  exists s', assign_tail a i vaddr v flags (set_irq (irq s + 1) s) = Done () s' /\ mm_ok hwp ext s'
    /\ assigned a i vaddr v flags p sp s s'.
Proof.
  intros HI Hp Hsp Hu Hk Hr Hnone. pose proof (inv_irq _ _ _ _ _ _ HI) as Hirq.
  destruct (i_page _ _ _ _ _ _ _ _ _ _ _ HI i p Hp) as (P1 & P2 & P3 & P4 & P5 & P6 & P7). cbn in P6, P7.
  pose proof (nsnaps_bound (entries s) (owner p)) as Hnb.
  destruct (assign_insert hwp ext s a vaddr sp HI Hsp Hu Hnone) as (r' & Ein & Hok & Hr').
  pose proof (assign_inv hwp ext s a i vaddr flags p sp HI Hp Hsp Hu Hk Hr Hnone r' Hok Hr') as Hfin.
  pose proof (assign_no_pte hwp ext s a vaddr sp HI Hsp Hnone) as Hnp.
  set (n := next_id s) in *. set (e := mkEntry i a vaddr flags) in *.
  set (sp1 := with_map r' (with_vma (add_sibling v n (vma sp)) sp)).
  set (Φ := share_map (entries s) p (if flag PF_SNAPSHOT flags then 1 else 0)) in *.
  set (s' := set_spaces (pmap Φ (<[a := sp1]> (spaces s))) (set_pgs (<[i := newly_owned n flags p]> (pgs s))
    (set_entries (<[n := e]> (entries s)) (set_next (Pos.succ n) s)))).
  exists s'. split; [|split; [|split_and!; try done]].
  - unfold assign_tail. set (s0 := set_irq (irq s + 1) s).
    set (s1 := set_pgs (<[i := with_owner (n :: owner p) (with_ref (ref_count p + 1) p)]> (pgs s))
      (set_entries (<[n := e]> (entries s)) (set_next (Pos.succ n) s0))).
    set (s2 := set_spaces (<[a := sp1]> (spaces s)) s1).
    erewrite bind_eq; [|unfold page_entry_new; kstep new_id_eq; kstep put_pe_eq; apply mret_eq].
    kstep (get_pg_eq _ i p). rewrite (u64_small (ref_count p + 1)) by (unfold is_u64; lia). kstep put_pg_eq.
    erewrite bind_eq; [|unfold owner_add; kstep (get_pg_eq _ i (with_ref (ref_count p + 1) p));
      [apply put_pg_eq|apply lookup_insert_eq]].
    erewrite bind_eq; [|unfold sibling_add; kstep (get_as_eq _ a sp); apply put_as_eq].
    kstep get_as_eq; [|apply lookup_insert_eq]. kstep deref_eq. cbn [fst snd]. kstep put_as_eq.
    match goal with |- (_ ≫= _) ?x = _ => replace x with s2 end.
    + assert (forall o, o ∈ n :: owner p -> has_entry s2 o) as Hent.
      { assert (forall b, is_Some (spaces s !! b) -> is_Some (<[a := sp1]> (spaces s) !! b)) as Hsome.
        { intros b Hb. apply lookup_insert_is_Some. destruct (decide (a = b)); auto. }
        intros o [->|Ho]%elem_of_cons.
        - exists e. split; [apply lookup_insert_eq|]. split; [done|]. apply Hsome. cbn. rewrite Hsp. by eexists.
        - destruct (inv_has_owner _ _ _ _ _ _ HI i p o Hp Ho) as (e' & He' & ? & Hs'). exists e'.
          split; [|split; [done|by apply Hsome]]. cbn. rewrite lookup_insert_ne; [done|]. intros <-.
          destruct (i_next _ _ _ _ _ _ _ _ _ _ _ HI n) as (Hno & _); [lia|]. congruence. }
      erewrite bind_eq; [|apply (assign_share_eq s2 i (with_owner (n :: owner p) (with_ref (ref_count p + 1) p)));
        [cbn; cbn in Hirq; lia|apply lookup_insert_eq|cbn; lia..|exact Hent|]].
      * rewrite enable_eq; [|cbn; cbn in Hirq; lia]. f_equal. unfold s', Φ.
        rewrite <- (assign_share_map hwp ext s a i vaddr flags p sp HI Hp Hsp Hnone sp1 eq_refl).
        clear -Hirq. apply mm_eq; try reflexivity; [apply irq_back|]. cbn. by rewrite insert_insert_eq.
      * intros Hsnap o e' Ho He'. unfold kind_ok in Hk. cbn in Hk.
        case_decide as Hi; [by rewrite Hk in Hsnap|]. apply elem_of_cons in Ho as [->|Ho].
        { cbn in He'. rewrite lookup_insert_eq in He'. injection He' as <-. cbn. by destruct Hk as [-> | ->]. }
        destruct (inv_owner_entry _ _ _ _ _ _ HI i p o Hp Ho) as (e2 & He2 & Ei & _).
        cbn in He'. rewrite lookup_insert_ne in He'.
        { rewrite (inv_hw _ _ _ _ _ _ HI o e' He'). assert (e' = e2) as -> by congruence.
          rewrite Ei. by apply bool_decide_eq_false_2. }
        intros <-. destruct (i_next _ _ _ _ _ _ _ _ _ _ _ HI n) as (Hno & _); [lia|]. congruence.
    + unfold s2, s1. cbn. rewrite insert_insert_eq. unfold set_spaces, set_pgs. cbn. f_equal. by rewrite insert_insert_eq.
  - unfold mm_ok, mm_inv, s', cores. cbn [spaces set_spaces]. rewrite core_pmap, fmap_insert.
    change (core sp1) with (r', ptes sp). rewrite cmap_insert. exact Hfin.
  - unfold mapped, s'. cbn [spaces set_spaces]. rewrite pmap_lookup, lookup_insert_eq. cbn. by rewrite map_lookup_imap, Hnp.
  - exists r'. split; [done|]. split; [done|]. cbn. rewrite strip_pmap, strip_insert. done.
Qed.

(** ** What an address space shows *)
(** The page at [v] of address space [a] and the flags of its entry. *)
Definition view s (a : id) (v : Z) : option (id * Z) :=
  sp ← spaces s !! a; pe ← r_map (vaddr_map sp) !! v; e ← entries s !! pe; Some (pe_p e, pe_flags e).

Definition set_view (a : id) (v : Z) (o : option (id * Z)) (f : id -> Z -> option (id * Z)) (b : id) (w : Z) :
  option (id * Z) := if decide (b = a /\ w = v) then o else f b w.

Lemma view_strip s a v : view s a v =
  (sp ← strip (spaces s) !! a; pe ← r_map (vaddr_map sp) !! v; e ← entries s !! pe; Some (pe_p e, pe_flags e)).
Proof. unfold view, strip. rewrite lookup_fmap. by destruct (spaces s !! a). Qed.

Lemma view_entry hwp ext es lm lo s a v x :
  mm_inv hwp ext es lm lo s -> view s a v = Some x ->
  exists sp pe e, spaces s !! a = Some sp /\ r_map (vaddr_map sp) !! v = Some pe /\ entries s !! pe = Some e
    /\ pe_as e = a /\ pe_vaddr e = v /\ x = (pe_p e, pe_flags e) /\ pe ∉ lm.
Proof.
  intros HI (sp & Hsp & (pe & Hpe & (e & He & [= <-])%bind_Some)%bind_Some)%bind_Some.
  exists sp, pe, e. pose proof (cores_lookup _ _ _ Hsp) as Hc.
  apply (i_in_map _ _ _ _ _ _ _ _ _ _ _ HI a _ _ v pe Hc) in Hpe as Hl.
  destruct Hl as (? & e' & ? & ? & ?). simplify_eq. done.
Qed.

Lemma unassign_view hwp ext s s' pe e sp r' :
  mm_ok hwp ext s -> entries s !! pe = Some e -> spaces s !! pe_as e = Some sp ->
  entries s' = delete pe (entries s) -> r_map r' = delete (pe_vaddr e) (r_map (vaddr_map sp)) ->
  strip (spaces s') = <[pe_as e := with_ptes ∅ (with_vma (drop_sibling pe (vma sp)) (with_map r' sp))]> (strip (spaces s)) ->
  forall b w, view s' b w = set_view (pe_as e) (pe_vaddr e) None (view s) b w.
Proof.
  intros HI He Hsp HE Hr Hst b w. rewrite !view_strip, Hst, HE. unfold set_view. rewrite view_strip.
  assert (forall c sp0 w0 o, strip (spaces s) !! c = Some sp0 -> r_map (vaddr_map sp0) !! w0 = Some o ->
    ~ (c = pe_as e /\ w0 = pe_vaddr e) -> delete pe (entries s) !! o = entries s !! o) as Hdel.
  { intros c sp0 w0 o Hc Ho Hne. unfold strip in Hc. rewrite lookup_fmap in Hc. apply fmap_Some in Hc as (sp1 & Hsp1 & ->).
    rewrite lookup_delete_ne; [done|]. intros <-. pose proof (cores_lookup _ _ _ Hsp1) as Hcc.
    apply (i_in_map _ _ _ _ _ _ _ _ _ _ _ HI c _ _ w0 pe Hcc) in Ho as (_ & e' & He' & <- & <-).
    simplify_eq. by apply Hne. }
  destruct (decide (b = pe_as e)) as [->|Hb].
  - rewrite lookup_insert_eq. cbn. rewrite Hr. unfold strip in *. rewrite lookup_fmap, Hsp in *. cbn in *.
    destruct (decide (w = pe_vaddr e)) as [->|Hw].
    + rewrite lookup_delete_eq, decide_True by done. done.
    + rewrite lookup_delete_ne, decide_False by (done || by intros [_ ?]).
      destruct (r_map (vaddr_map sp) !! w) as [o|] eqn:Eo; [|done]. cbn.
      rewrite (Hdel (pe_as e) (with_ptes ∅ sp) w o); [done|by rewrite lookup_fmap, Hsp|done|by intros [_ ?]].
  - rewrite lookup_insert_ne, decide_False by (done || by intros [? _]).
    destruct (strip (spaces s) !! b) as [sp0|] eqn:Es; [|done]. cbn.
    destruct (r_map (vaddr_map sp0) !! w) as [o|] eqn:Eo; [|done]. cbn.
    rewrite (Hdel b sp0 w o); [done..|]. by intros [? _].
Qed.

Lemma assigned_view hwp ext s s' a i vaddr v flags p sp :
  mm_ok hwp ext s -> spaces s !! a = Some sp -> assigned a i vaddr v flags p sp s s' ->
  forall b w, view s' b w = set_view a vaddr (Some (i, flags)) (view s) b w.
Proof.
  intros HI Hsp (_ & _ & _ & _ & _ & HE & _ & r' & _ & Hr & Hst) b w. rewrite !view_strip, Hst, HE. unfold set_view.
  rewrite view_strip.
  assert (forall o e, entries s !! o = Some e -> o <> next_id s) as Hnew.
  { intros o e He ->. destruct (i_next _ _ _ _ _ _ _ _ _ _ _ HI (next_id s)) as (Hno & _); [lia|]. congruence. }
  assert (forall c sp0 w0 o, strip (spaces s) !! c = Some sp0 -> r_map (vaddr_map sp0) !! w0 = Some o ->
    <[next_id s := mkEntry i a vaddr flags]> (entries s) !! o = entries s !! o) as Hins.
  { intros c sp0 w0 o Hc Ho. unfold strip in Hc. rewrite lookup_fmap in Hc. apply fmap_Some in Hc as (sp1 & Hsp1 & ->).
    pose proof (cores_lookup _ _ _ Hsp1) as Hcc.
    apply (i_in_map _ _ _ _ _ _ _ _ _ _ _ HI c _ _ w0 o Hcc) in Ho as (_ & e' & He' & _).
    rewrite lookup_insert_ne; [done|]. intros Eo. by apply (Hnew o e'). }
  destruct (decide (b = a)) as [->|Hb].
  - rewrite lookup_insert_eq. cbn. rewrite Hr. destruct (decide (w = vaddr)) as [->|Hw].
    + rewrite lookup_insert_eq, decide_True by done. cbn. rewrite lookup_insert_eq. done.
    + rewrite lookup_insert_ne, decide_False by (done || by intros [_ ?]).
      unfold strip. rewrite lookup_fmap, Hsp. cbn.
      destruct (r_map (vaddr_map sp) !! w) as [o|] eqn:Eo; [|done]. cbn.
      rewrite (Hins a (with_ptes ∅ sp) w o); [done| |done]. unfold strip. by rewrite lookup_fmap, Hsp.
  - rewrite lookup_insert_ne, decide_False by (done || by intros [? _]).
    destruct (strip (spaces s) !! b) as [sp0|] eqn:Es; [|done]. cbn.
    destruct (r_map (vaddr_map sp0) !! w) as [o|] eqn:Eo; [|done]. cbn. by rewrite (Hins b sp0 w o).
Qed.

(** The areas of an address space without their page lists. *)
Definition shape (v : vm_area) : id * Z * Z * Z * Z :=
  (vma_id v, vma_flags v, vma_page_size v, vma_begin v, vma_length v).
Definition layout s (b : id) : option (list (id * Z * Z * Z * Z)) := (fun sp => shape <$> vma sp) <$> spaces s !! b.

Lemma layout_strip s b : layout s b = (fun sp => shape <$> vma sp) <$> strip (spaces s) !! b.
Proof. unfold layout, strip. rewrite lookup_fmap. by destruct (spaces s !! b). Qed.

Lemma shape_map (f : vm_area -> vm_area) (l : list vm_area) : (forall v, shape (f v) = shape v) -> shape <$> (f <$> l) = shape <$> l.
Proof. intros Hf. rewrite <- list_fmap_compose. apply list_fmap_ext. intros i v _. apply Hf. Qed.

Lemma layout_insert s s' a sp sp' b :
  spaces s !! a = Some sp -> strip (spaces s') = <[a := sp']> (strip (spaces s)) ->
  shape <$> vma sp' = shape <$> vma sp -> layout s' b = layout s b.
Proof.
  intros Ha Hst Hsh. rewrite !layout_strip, Hst. destruct (decide (b = a)) as [->|].
  - rewrite lookup_insert_eq. unfold strip. rewrite lookup_fmap, Ha. cbn. by rewrite Hsh.
  - by rewrite lookup_insert_ne.
Qed.

Lemma shape_drop pe (l : list vm_area) : shape <$> drop_sibling pe l = shape <$> l.
Proof. by apply shape_map. Qed.
Lemma shape_add v pe (l : list vm_area) : shape <$> add_sibling v pe l = shape <$> l.
Proof. apply shape_map. intros x. by case_decide. Qed.

Lemma strip_is_Some m b : is_Some (strip m !! b) <-> is_Some (m !! b).
Proof. unfold strip. rewrite lookup_fmap. apply fmap_is_Some. Qed.

Lemma strip_insert_is_Some (m : gmap id (address_space R)) a x b :
  is_Some (m !! a) -> is_Some (<[a := x]> (strip m) !! b) <-> is_Some (m !! b).
Proof.
  intros Ha. destruct (decide (b = a)) as [->|].
  - rewrite lookup_insert_eq. split; [done|by eexists].
  - rewrite lookup_insert_ne by done. apply strip_is_Some.
Qed.

Lemma get_allocated_eq hwp ext es lm lo s a sp v :
  mm_inv hwp ext es lm lo s -> spaces s !! a = Some sp -> user_page v ->
  get_allocated_page a v s = Done (r_map (vaddr_map sp) !! v) s.
Proof.
  intros HI Hsp Hu. unfold get_allocated_page. kstep get_as_eq. rewrite r_find_spec; [done| |].
  - by apply (i_maps _ _ _ _ _ _ _ _ _ _ _ HI a _ _ (cores_lookup _ _ _ Hsp)).
  - destruct Hu. unfold is_u64. lia.
Qed.

(** Pages keep their frames. *)
Definition same_frames s s' : Prop :=
  forall x p', pgs s' !! x = Some p' -> exists p, pgs s !! x = Some p /\ phys_addr p' = phys_addr p.

(** ** What is seen in memory *)
(** The byte at offset [k] of the page at [w] of address space [b]. *)
Definition byte s (b : id) (w k : Z) : option Z :=
  x ← view s b w; p ← pgs s !! x.1; Some (phys s (phys_addr p + k)).

Lemma byte_view hwp ext hwp' ext' s s' b w k :
  mm_ok hwp ext s -> mm_ok hwp' ext' s' -> phys s' = phys s -> same_frames s s' -> view s' b w = view s b w ->
  byte s' b w k = byte s b w k.
Proof.
  intros HI HI' Hph Hfr Hv. unfold byte. rewrite Hv. destruct (view s b w) as [[i f]|] eqn:Ev; [|done]. cbn.
  destruct (view_entry _ _ _ _ _ s' b w _ HI' Hv) as (sp & o & e & _ & _ & He & _ & _ & [= -> _] & _).
  destruct (i_haspage _ _ _ _ _ _ _ _ _ _ _ HI' o e He) as [q' Hq']; [set_solver|].
  destruct (Hfr _ _ Hq') as (q & Hq & Ha). rewrite Hq', Hq. cbn. by rewrite Ha, Hph.
Qed.

(** Making room: what was at the address is gone, page [i] is still there. *)
Lemma assign_room hwp ext s a i vaddr p sp :
  mm_ok hwp ext s -> pgs s !! i = Some p -> spaces s !! a = Some sp -> user_page vaddr ->
  (view s a vaddr = None \/ 1 <= ext i) ->
  exists s1 p1 sp1, (o ← get_allocated_page a vaddr; match o with Some pe => unassign_page pe | None => mret () end)
      (set_irq (irq s + 1) s) = Done () (set_irq (irq s1 + 1) s1)
    /\ mm_ok hwp ext s1 /\ keeps s s1 /\ phys s1 = phys s /\ spaces s1 !! a = Some sp1
    /\ r_map (vaddr_map sp1) !! vaddr = None /\ pgs s1 !! i = Some p1 /\ phys_addr p1 = phys_addr p
    /\ ref_count p1 <= ref_count p
    /\ (forall b w, view s1 b w = set_view a vaddr None (view s) b w)
    /\ (forall b, is_Some (spaces s1 !! b) <-> is_Some (spaces s !! b)) /\ (forall b, layout s1 b = layout s b)
    /\ same_frames s s1 /\ (view s a vaddr = None -> s1 = s /\ p1 = p /\ sp1 = sp).
Proof.
  intros HI Hp Hsp Hu Hroom. pose proof (inv_irq _ _ _ _ _ _ HI) as Hirq. set (s0 := set_irq (irq s + 1) s).
  assert (mm_ok hwp ext s0) as HI0 by (apply inv_set_irq; [lia|done]).
  pose proof (get_allocated_eq _ _ _ _ _ s0 a sp vaddr HI0 Hsp Hu) as Eget.
  erewrite bind_eq; [|exact Eget]. destruct (r_map (vaddr_map sp) !! vaddr) as [pe|] eqn:Epe.
  - pose proof (proj1 (i_in_map _ _ _ _ _ _ _ _ _ _ _ HI a _ _ vaddr pe (cores_lookup _ _ _ Hsp)) Epe)
      as (_ & e & He & Hea & Hev).
    destruct (i_haspage _ _ _ _ _ _ _ _ _ _ _ HI pe e He) as [q Hq]; [set_solver|].
    destruct (unassign_page_ok hwp ext s0 pe e q sp HI0 He Hq) as (s2 & r' & E2 & HI2 & (K1 & K2 & K3) & F1 & F2 & F3 & F4 & F5 & F6 & F7);
      [by rewrite Hea|].
    pose proof (unassign_view hwp ext s0 s2 pe e sp r' HI0 He) as Hview. rewrite Hea in Hview.
    specialize (Hview Hsp F3 F5 ltac:(rewrite <- Hea; exact F6)). rewrite Hev in Hview. rewrite Hea in F6.
    assert (exists p1, pgs s2 !! i = Some p1 /\ phys_addr p1 = phys_addr p /\ ref_count p1 <= ref_count p)
      as (p1 & Hp1 & Ha1 & Hr1).
    { rewrite F7. cbn [pgs s0 set_irq mm_irq set_alloc]. destruct (decide (i = pe_p e)) as [->|Hne].
      - rewrite Hp in Hq. injection Hq as <-. destruct (i_page _ _ _ _ _ _ _ _ _ _ _ HI _ p Hp) as (_ & _ & _ & Hrc & _).
        assert (ref_count p <> 1) as H1.
        { destruct Hroom as [Hno|Hx].
          - exfalso. unfold view in Hno. rewrite Hsp in Hno. cbn in Hno. rewrite Epe in Hno. cbn in Hno.
            rewrite He in Hno. done.
          - assert (pe ∈ owner p) as Hin by (apply (i_owner _ _ _ _ _ _ _ _ _ _ _ HI _ p pe Hp); split; [set_solver|eauto]).
            destruct (owner p); [by apply elem_of_nil in Hin|]. cbn in Hrc. lia. }
        destruct (Z.eqb_spec (ref_count p) 1); [done|]. eexists. split; [apply lookup_insert_eq|]. cbn. split; [done|lia].
      - exists p. split; [|split; [done|lia]]. destruct (_ =? 1); [by rewrite lookup_delete_ne|by rewrite lookup_insert_ne]. }
    assert (is_Some (spaces s2 !! a)) as [sp2 Hsp2].
    { apply strip_is_Some. rewrite F6. rewrite lookup_insert_eq. by eexists. }
    assert (r_map (vaddr_map sp2) !! vaddr = None) as Hno2.
    { assert (strip (spaces s2) !! a = Some (with_ptes ∅ sp2)) as E by (unfold strip; by rewrite lookup_fmap, Hsp2).
      rewrite F6, lookup_insert_eq in E. apply (f_equal (fmap vaddr_map)) in E. injection E as <-.
      rewrite F5, Hev. apply lookup_delete_eq. }
    exists (set_irq (irq s) s2), p1, sp2. split.
    { rewrite E2. f_equal. rewrite irq_set_irq, set_irq_twice. rewrite <- (set_irq_irq s2) at 1. by rewrite K3. }
    split; [by apply inv_set_irq|]. split; [by split_and!; cbn|]. split; [done|]. split; [done|]. split; [done|].
    split; [done|]. split; [done|]. split; [done|]. split; [done|]. split.
    + intros b. change (is_Some (spaces s2 !! b) <-> is_Some (spaces s !! b)). rewrite <- strip_is_Some, F6.
      apply (strip_insert_is_Some (spaces s)). by eexists.
    + split; [intros b; apply (layout_insert s _ a sp _ b Hsp F6); apply shape_drop|].
      split; [|intros Hno; exfalso; unfold view in Hno; rewrite Hsp in Hno; cbn in Hno; rewrite Epe in Hno; cbn in Hno;
        by rewrite He in Hno].
      intros x q' Hx. change (pgs s2 !! x = Some q') in Hx. rewrite F7 in Hx. cbn in Hx. destruct (_ =? 1).
      * apply lookup_delete_Some in Hx as [_ Hx]. eauto.
      * apply lookup_insert_Some in Hx as [[<- <-]|[_ Hx]]; eauto.
  - exists s, p, sp. split; [done|]. split; [done|]. split; [apply keeps_refl|]. split_and!; try done.
    2: { intros x q Hx. eauto. }
    intros b w. unfold set_view. case_decide as Hd; [|done]. destruct Hd as [-> ->]. unfold view. rewrite Hsp. cbn. by rewrite Epe.
Qed.

(** Assigning page [i], which the caller holds or which the address does not show. *)
Lemma assign_page_ok hwp ext s a i vaddr v flags p :
  mm_ok hwp ext s -> pgs s !! i = Some p -> is_Some (spaces s !! a) -> user_page vaddr ->
  kind_ok hwp (mkEntry i a vaddr flags) -> ref_count p + 1 < 2 ^ 64 ->
  (view s a vaddr = None \/ 1 <= ext i) ->
  exists s', address_space_assign_page_no_addr_check a i vaddr v flags s = Done () s' /\ mm_ok hwp ext s'
    /\ keeps s s' /\ phys s' = phys s
    /\ (forall b w, view s' b w = set_view a vaddr (Some (i, flags)) (view s) b w)
    /\ (forall b, is_Some (spaces s' !! b) <-> is_Some (spaces s !! b))
    /\ (exists p', pgs s' !! i = Some p' /\ phys_addr p' = phys_addr p)
    /\ (forall b, layout s' b = layout s b) /\ same_frames s s' /\ (view s a vaddr = None -> alloc s' = alloc s
          /\ next_id s' = Pos.succ (next_id s) /\ entries s' = <[next_id s := mkEntry i a vaddr flags]> (entries s)
          /\ pgs s' = <[i := newly_owned (next_id s) flags p]> (pgs s))
    /\ mapped s' a vaddr = None.
Proof.
  intros HI Hp [sp Hsp] Hu Hk Hr Hroom.
  destruct (assign_room hwp ext s a i vaddr p sp HI Hp Hsp Hu Hroom)
    as (s1 & p1 & sp1 & E1 & HI1 & K1 & F1 & Hsp1 & Hno1 & Hp1 & Ha1 & Hr1 & Hv1 & Hdom1 & Hlay1 & Hfr1 & Hal1).
  destruct (assign_tail_ok hwp ext s1 a i vaddr v flags p1 sp1) as (s2 & E2 & HI2 & Has); try done; [lia|].
  pose proof (assigned_view hwp ext s1 s2 a i vaddr v flags p1 sp1 HI1 Hsp1 Has) as Hv2.
  destruct Has as (K2 & A2 & M2 & F2 & F3 & F4 & F5 & r' & _ & _ & F6).
  assert (Z.land flags (Z.lor PF_SHARED PF_SNAPSHOT) =? Z.lor PF_SHARED PF_SNAPSHOT = false
    /\ Z.land flags (Z.lor PF_HARDWARE PF_SNAPSHOT) =? Z.lor PF_HARDWARE PF_SNAPSHOT = false) as [C1 C2].
  { unfold kind_ok in Hk. cbn in Hk. case_decide; [by rewrite Hk|]. by destruct Hk as [-> | ->]. }
  exists s2. split.
  { unfold address_space_assign_page_no_addr_check. rewrite C1, C2. kstep disable_eq.
    revert E1. unfold mbind, M_bind. destruct (get_allocated_page a vaddr (set_irq (irq s + 1) s)) as [o s0| |]; [|done..].
    intros E1. rewrite E1. exact E2. }
  split; [done|]. split; [by eapply keeps_trans|]. split; [by rewrite F2|]. split; [|split; [|split]].
  - intros b w. rewrite Hv2. unfold set_view. case_decide as Hd; [done|]. rewrite Hv1. unfold set_view. by rewrite decide_False.
  - intros b. rewrite <- Hdom1, <- strip_is_Some, F6. apply strip_insert_is_Some. by eexists.
  - rewrite F5. eexists. split; [apply lookup_insert_eq|done].
  - split; [intros b; rewrite <- Hlay1; apply (layout_insert s1 s2 a sp1 _ b Hsp1 F6), shape_add|].
    split; [|split; [intros Hno; destruct (Hal1 Hno) as (-> & -> & ->); by split_and!|done]].
    intros x q' Hx. rewrite F5 in Hx. destruct (decide (x = i)) as [->|Hne].
    + rewrite lookup_insert_eq in Hx. injection Hx as <-. exists p. done.
    + rewrite lookup_insert_ne in Hx by done. by apply Hfr1.
Qed.
End ops.
