(* ===== verification/Cow.v ===== *)
(** Copy on write: [unshare_page] gives its entry a private copy without changing
    what anybody sees. *)
From S2P Require Import Prelude Bits Irq Binradix Alloc MmState PageMan Aspace Copy VmaProofs MmInv MmOps.

Section cow.
Context {R : Type} `{!RadixMap R id}.
Implicit Types s : mm R.

(** ** A new page *)
Lemma manage_fresh s x ph' :
  0 <= irq s -> frame x -> r_ok (phys_pages s) -> r_map (phys_pages s) !! x = None ->
  r_insert (phys_pages s) x (next_id s) = Some (None, ph') ->
  manage_page (KERN_VMBASE + x) s = Done (inr (next_id s))
    (set_phys_pages ph' (set_pgs (<[next_id s := mkPage x 0 1 0 []]> (pgs s)) (set_next (Pos.succ (next_id s)) s))).
Proof.
  intros Hirq (Hx0 & Hxm & Hx) Hok Hno Ein.
  assert (is_u64 x) as Hu by (unfold is_u64, KERN_VMBASE in *; lia). unfold manage_page, manage_phys_page.
  replace (KERN_VMBASE + x - KERN_VMBASE) with x by lia. rewrite u64_small by done.
  set (s' := set_phys_pages ph' (set_pgs (<[next_id s := mkPage x 0 1 0 []]> (pgs s)) (set_next (Pos.succ (next_id s)) s))).
  rewrite (locked_Done _ s (inr (next_id s)) (set_irq (irq s + 1) s') Hirq).
  - f_equal. rewrite set_irq_twice. exact (set_irq_irq s').
  - unfold manage_phys_page_locked. rewrite (proj2 (IS_ALIGNED_iff x PAGE_SIZE_BIT ltac:(unfold PAGE_SIZE_BIT; lia))) by done.
    cbn [negb]. kstep get_eq. cbn [phys_pages set_irq mm_irq set_alloc]. rewrite r_find_spec, Hno by done.
    kstep new_id_eq. kstep put_pg_eq. kstep get_eq. kstep deref_eq. cbn [fst snd]. done.
  - done.
Qed.

Lemma get_page_lift s pg al' :
  Alloc.get_page (alloc s) = Done pg al' -> MmState.get_page s = Done pg (set_alloc al' s).
Proof. intros E. unfold MmState.get_page, lift. by rewrite E. Qed.

Lemma frame_u64 x : frame x -> is_u64 x.
Proof. unfold frame, is_u64, KERN_VMBASE. lia. Qed.

(** ** [move_owner] *)
(** Entry [o] leaves page [i] for page [j]. *)
Lemma move_owner_ok hwp ext es lo s i j o e pi pj :
  mm_inv hwp ext es ∅ lo s -> entries s !! o = Some e -> pe_p e = i -> o ∉ lo -> i <> j -> i ∉ hwp -> j ∉ hwp ->
  pgs s !! i = Some pi -> pgs s !! j = Some pj -> 1 <= ext i -> 1 <= ext j -> ref_count pj + 1 < 2 ^ 64 ->
  flag PF_SHARED (pe_flags e) = true ->
  exists s', move_owner i j o s = Done () s' /\ mm_inv hwp ext es ∅ lo s' /\ keeps s s' /\ phys s' = phys s
    /\ next_id s' = next_id s /\ alloc s' = alloc s /\ entries s' = <[o := with_p j e]> (entries s)
    /\ strip (spaces s') = strip (spaces s)
    /\ pgs s' = <[j := mkPage (phys_addr pj) (page_size pj) (ref_count pj + 1) (snap_count pj) (o :: owner pj)]>
         (<[i := mkPage (phys_addr pi) (page_size pi) (ref_count pi - 1) (snap_count pi)
                  (filter (fun x => x <> o) (owner pi))]> (pgs s)).
Proof.
  intros HI He Hi Hlo Hij Hih Hjh Hpi Hpj Hxi Hxj Hrj Hsh.
  destruct (i_page _ _ _ _ _ _ _ _ _ _ _ HI i pi Hpi) as (P1 & P2 & P3 & P4 & P5 & P6 & P7).
  destruct (i_page _ _ _ _ _ _ _ _ _ _ _ HI j pj Hpj) as (Q1 & Q2 & Q3 & Q4 & Q5 & Q6 & Q7).
  destruct (i_entry _ _ _ _ _ _ _ _ _ _ _ HI o e He) as (Hu & Hk & Hc).
  destruct Hc as [[r t] Hc]. destruct (cores_Some _ _ _ _ Hc) as (sp & Hsp & _).
  assert (is_snap (entries s) o = false) as Hns.
  { rewrite (is_snap_Some _ _ _ He). pose proof (inv_shared _ _ _ _ _ _ HI o e He) as E. rewrite Hsh in E.
    by destruct (flag PF_SNAPSHOT (pe_flags e)). }
  set (pi' := mkPage (phys_addr pi) (page_size pi) (ref_count pi - 1) (snap_count pi) (filter (fun x => x <> o) (owner pi))).
  set (pj' := mkPage (phys_addr pj) (page_size pj) (ref_count pj + 1) (snap_count pj) (o :: owner pj)).
  set (s' := set_spaces (pmap (at_place (pe_as e) (pe_vaddr e) (fun _ => None)) (spaces s))
    (set_pgs (<[j := pj']> (<[i := pi']> (pgs s))) (set_entries (<[o := with_p j e]> (entries s)) s))).
  exists s'. split; [|split; [|split_and!; try done; apply strip_pmap]].
  - unfold move_owner. kstep (get_pe_eq _ o e). rewrite Hsh. cbn [negb].
    erewrite bind_eq; [|unfold owner_del; kstep (get_pg_eq _ i pi); apply put_pg_eq].
    kstep get_pg_eq; [|apply lookup_insert_eq]. kstep put_pg_eq.
    erewrite bind_eq; [|unfold owner_add; kstep (get_pg_eq _ j pj);
      [apply put_pg_eq|cbn; by rewrite !lookup_insert_ne]].
    kstep put_pe_eq. kstep get_pg_eq; [|cbn; apply lookup_insert_eq]. kstep put_pg_eq.
    erewrite (clear_maybe_eq _ _ _ sp); [|exact Hu|exact Hsp]. f_equal. apply mm_eq; try reflexivity. cbn.
    rewrite !insert_insert_eq. rewrite (u64_small (ref_count pi - 1)), (u64_small (ref_count pj + 1)) by (unfold is_u64; lia).
    done.
  - pose proof (inv_unlink_owner _ _ _ _ _ _ _ _ _ _ _ HI o e pi He Hlo ltac:(by rewrite Hi)) as H1.
    rewrite Hns, Hi in H1.
    assert (snap_count pi = nsnaps (entries s) (filter (fun x => x <> o) (owner pi)) + es i) as Hsn.
    { assert (o ∈ owner pi) as Hin by (apply (i_owner _ _ _ _ _ _ _ _ _ _ _ HI i pi o Hpi); eauto).
      rewrite P6, (nsnaps_perm _ _ _ (filter_out o (owner pi) Hin P1)), nsnaps_cons, Hns. lia. }
    pose proof (inv_count _ _ _ _ _ _ _ _ _ _ _ H1 i (with_owner (filter (fun x => x <> o) (owner pi)) pi) pi' (-1) 0
      ltac:(apply lookup_insert_eq) eq_refl eq_refl) as H2. cbn in H2. rewrite !bump_eq in H2.
    assert (1 <= Z.of_nat (length (owner pi))) as Hlen.
    { assert (o ∈ owner pi) as Hin by (apply (i_owner _ _ _ _ _ _ _ _ _ _ _ HI i pi o Hpi); eauto).
      destruct (owner pi); [by apply elem_of_nil in Hin|cbn; lia]. }
    specialize (H2 ltac:(lia) ltac:(lia) ltac:(lia) ltac:(lia) ltac:(lia)). rewrite insert_insert_eq in H2.
    pose proof (inv_count _ _ _ _ _ _ _ _ _ _ _ H2 j pj (mkPage (phys_addr pj) (page_size pj) (ref_count pj + 1)
      (snap_count pj) (owner pj)) 1 0 ltac:(by rewrite lookup_insert_ne) eq_refl eq_refl eq_refl) as H3.
    cbn in H3. rewrite !(bump_ne _ i j) in H3 by done.
    specialize (H3 ltac:(lia) ltac:(lia) ltac:(lia) ltac:(lia)).
    assert (inv hwp (bump (bump (bump ext i 1) i (-1)) j 1) (bump (bump (bump es i 0) i 0) j 0) ∅ ({[o]} ∪ lo)
      (alloc s) (cmap (at_place (pe_as e) (pe_vaddr e) (fun _ => None)) (cores s)) (phys_pages s) (entries s)
      (<[j := mkPage (phys_addr pj) (page_size pj) (ref_count pj + 1) (snap_count pj) (owner pj)]> (<[i := pi']> (pgs s)))
      (next_id s)) as H4.
    { apply (inv_cmap _ _ _ _ _ _ _ _ _ _ _ H3). intros a q u v x y _ _. unfold at_place. case_decide; [done|].
      intros [= <-]. auto. }
    pose proof (inv_retarget _ _ _ _ _ _ _ _ _ _ _ H4 o e (with_p j e) He ltac:(set_solver) eq_refl eq_refl) as H5.
    assert (kind_ok hwp (with_p j e)) as Hk'.
    { unfold kind_ok in *. cbn. rewrite decide_False in Hk by (by rewrite Hi). by rewrite decide_False. }
    specialize (H5 Hk'). assert (forall q u, cmap (at_place (pe_as e) (pe_vaddr e) (fun _ => None)) (cores s) !! pe_as e
      = Some (q, u) -> u !! pe_vaddr e = None) as Hcl.
    { intros q u. rewrite cmap_lookup, Hc. intros [= <- <-]. rewrite map_lookup_imap. destruct (t !! pe_vaddr e); [|done].
      cbn. unfold at_place. by rewrite decide_True. }
    specialize (H5 (or_intror Hcl)).
    pose proof (inv_link_owner _ _ _ _ _ _ _ _ _ _ _ H5 o (with_p j e)
      (mkPage (phys_addr pj) (page_size pj) (ref_count pj + 1) (snap_count pj) (owner pj))
      ltac:(apply lookup_insert_eq) ltac:(set_solver) ltac:(apply lookup_insert_eq)) as H6.
    cbn [pe_p with_p] in H6. rewrite is_snap_insert in H6. cbn [pe_flags with_p] in H6.
    rewrite <- (is_snap_Some _ _ _ He), Hns, !bump_eq, !(bump_ne _ i j) in H6 by done. specialize (H6 ltac:(lia)).
    rewrite insert_insert_eq in H6. unfold mm_inv, s', cores. cbn [spaces set_spaces]. rewrite core_pmap.
    eapply inv_fns; [exact H6|intros x; unfold bump; repeat case_decide; lia..|done|set_solver].
Qed.

(** The shared entries of [l] now belong to page [j]. *)
Definition moved (j : id) (l : list id) (E : gmap id page_entry) : gmap id page_entry :=
  map_imap (fun o e => Some (if decide (o ∈ l) then if flag PF_SHARED (pe_flags e) then with_p j e else e else e)) E.

Lemma moved_lookup j l E o :
  moved j l E !! o = (fun e => if decide (o ∈ l) then if flag PF_SHARED (pe_flags e) then with_p j e else e else e) <$> E !! o.
Proof. unfold moved. rewrite map_lookup_imap. by destruct (E !! o). Qed.

Lemma moved_nil j E : moved j [] E = E.
Proof.
  apply map_eq. intros o. rewrite moved_lookup. destruct (E !! o); [|done]. cbn. rewrite decide_False; [done|].
  apply not_elem_of_nil.
Qed.

Lemma moved_cons j o l E e :
  E !! o = Some e -> o ∉ l ->
  moved j l (if flag PF_SHARED (pe_flags e) then <[o := with_p j e]> E else E) = moved j (o :: l) E.
Proof.
  intros He Ho. apply map_eq. intros x. rewrite !moved_lookup. destruct (decide (x = o)) as [->|Hx].
  - rewrite He. cbn. rewrite (decide_True (P := o ∈ o :: l)) by set_solver.
    destruct (flag PF_SHARED (pe_flags e)); [rewrite lookup_insert_eq|rewrite He]; cbn; by rewrite decide_False.
  - assert ((if flag PF_SHARED (pe_flags e) then <[o := with_p j e]> E else E) !! x = E !! x) as ->.
    { destruct (flag _ _); [by rewrite lookup_insert_ne|done]. }
    destruct (E !! x) as [e'|]; [|done]. cbn. f_equal.
    destruct (decide (x ∈ l)); [rewrite decide_True by set_solver|rewrite decide_False by set_solver]; done.
Qed.

(** Pages by their frames and snapshots only, [i] and [j] apart. *)
Definition moves_pages (i j : id) s s' : Prop :=
  (forall x, x <> i -> x <> j -> pgs s' !! x = pgs s !! x)
  /\ (forall x p, pgs s !! x = Some p -> exists p', pgs s' !! x = Some p' /\ phys_addr p' = phys_addr p
        /\ snap_count p' = snap_count p).

Lemma move_owners_ok hwp ext es lo i j l s pj :
  mm_inv hwp ext es ∅ lo s -> NoDup l -> (forall o, o ∈ l -> exists e, entries s !! o = Some e /\ pe_p e = i /\ o ∉ lo) ->
  i <> j -> i ∉ hwp -> j ∉ hwp -> is_Some (pgs s !! i) -> pgs s !! j = Some pj -> 1 <= ext i -> 1 <= ext j ->
  ref_count pj + Z.of_nat (length l) < 2 ^ 64 ->
  exists s', forM_ l (move_owner i j) s = Done () s' /\ mm_inv hwp ext es ∅ lo s' /\ keeps s s' /\ phys s' = phys s
    /\ next_id s' = next_id s /\ alloc s' = alloc s /\ strip (spaces s') = strip (spaces s)
    /\ entries s' = moved j l (entries s) /\ moves_pages i j s s'.
Proof.
  revert s pj. induction l as [|o l IH]; intros s pj HI Hnd Hl Hij Hih Hjh Hpi Hpj Hxi Hxj Hr; simpl.
  - exists s. rewrite moved_nil. split_and!; try done. split; [done|]. eauto.
  - apply NoDup_cons in Hnd as [Ho Hnd]. destruct (Hl o) as (e & He & Ei & Hlo); [set_solver|].
    destruct Hpi as [pi Hpi]. cbn [length] in Hr.
    assert (exists s1 pj1, move_owner i j o s = Done () s1 /\ mm_inv hwp ext es ∅ lo s1 /\ keeps s s1 /\ phys s1 = phys s
      /\ next_id s1 = next_id s /\ alloc s1 = alloc s /\ strip (spaces s1) = strip (spaces s)
      /\ entries s1 = (if flag PF_SHARED (pe_flags e) then <[o := with_p j e]> (entries s) else entries s)
      /\ moves_pages i j s s1 /\ is_Some (pgs s1 !! i) /\ pgs s1 !! j = Some pj1 /\ ref_count pj1 <= ref_count pj + 1)
      as (s1 & pj1 & E1 & HI1 & K1 & F1 & F2 & F3 & F4 & F5 & [F6 F7] & F8 & F9 & F10).
    { destruct (flag PF_SHARED (pe_flags e)) eqn:Esh.
      - destruct (move_owner_ok hwp ext es lo s i j o e pi pj) as (s1 & ? & ? & ? & ? & ? & ? & ? & ? & Hpg); try done; [lia|].
        eexists s1, _. split_and!; try done.
        + split; [intros x ? ?; rewrite Hpg; by rewrite !lookup_insert_ne|]. intros x p Hx. rewrite Hpg.
          destruct (decide (x = j)) as [->|]; [rewrite lookup_insert_eq; eexists; split; [done|]; by simplify_eq|].
          rewrite lookup_insert_ne by done.
          destruct (decide (x = i)) as [->|]; [rewrite lookup_insert_eq; eexists; split; [done|]; by simplify_eq|].
          rewrite lookup_insert_ne by done. eauto.
        + rewrite Hpg, lookup_insert_ne, lookup_insert_eq by done. by eexists.
        + rewrite Hpg. apply lookup_insert_eq.
        + done.
      - exists s, pj. split; [|split_and!; try done; try lia; split; [done|intros x p Hx; by exists p]].
        unfold move_owner. kstep (get_pe_eq _ o e). by rewrite Esh. }
    destruct (IH s1 pj1 HI1 Hnd) as (s2 & E2 & HI2 & K2 & G1 & G2 & G3 & G4 & G5 & [G6 G7]); try done; [|lia|].
    + intros o' Ho'. destruct (Hl o') as (e' & He' & ? & ?); [set_solver|]. exists e'. split; [|done].
      rewrite F5. destruct (flag _ _); [rewrite lookup_insert_ne by (by intros <-)|]; done.
    + exists s2. split; [by erewrite bind_eq|]. split; [done|]. split; [by eapply keeps_trans|].
      split_and!; try congruence.
      * rewrite G5, F5. by apply moved_cons.
      * split; [intros x ? ?; by rewrite G6, F6|]. intros x p Hx. destruct (F7 x p Hx) as (p1 & Hp1 & ? & ?).
        destruct (G7 x p1 Hp1) as (p2 & ? & ? & ?). exists p2. split_and!; congruence.
Qed.

(** ** [unshare_page] *)
(** The state once the copy is made and [pe] is off the old page's owner list. *)
Definition copied s (pe i : id) (p0 : page) (x : Z) (al' : mem) (ph' : R) : mm R :=
  set_pgs (<[i := with_owner (filter (fun o => o <> pe) (owner p0)) p0]> (<[next_id s := mkPage x 0 1 0 []]> (pgs s)))
    (set_phys_pages ph' (set_next (Pos.succ (next_id s))
      (set_phys (fun y => if (x <=? y) && (y <? x + PAGE_SIZE) then phys s (phys_addr p0 + (y - x)) else phys s y)
        (set_alloc al' s)))).

Lemma inv_set_alloc_irq m hwp ext es lm lo al C (ph : R) E G n :
  0 <= m -> inv hwp ext es lm lo al C ph E G n -> inv hwp ext es lm lo (set_irq m al) C ph E G n.
Proof.
  intros Hm [I1 I2 I3 I4 I5 I6 I7 I8 I9 I10 I11]. constructor; try done.
  destruct I11 as (own & live & Hok & Hf). exists own, live. split; [|done]. by apply set_irq_ok.
Qed.

Lemma virt_to_phys_frame pg : frame (pg - KERN_VMBASE) -> virt_to_phys pg = pg - KERN_VMBASE.
Proof. intros Hf. unfold virt_to_phys. by apply u64_small, frame_u64. Qed.

Lemma copied_ok hwp ext s pe e p0 pg rest :
  mm_ok hwp ext s -> entries s !! pe = Some e -> pgs s !! pe_p e = Some p0 -> free_pages (alloc s) = pg :: rest ->
  exists al' ph', Alloc.get_page (set_irq (irq s + 1) (alloc s)) = Done pg al' /\ frame (pg - KERN_VMBASE)
    /\ r_map (phys_pages s) !! (pg - KERN_VMBASE) = None
    /\ irq (set_alloc al' s) = irq s + 1
    /\ (forall s1, irq s1 = irq s + 1 -> phys_pages s1 = phys_pages s -> next_id s1 = next_id s ->
         manage_page pg s1 = Done (inr (next_id s)) (set_phys_pages ph'
           (set_pgs (<[next_id s := mkPage (pg - KERN_VMBASE) 0 1 0 []]> (pgs s1)) (set_next (Pos.succ (next_id s)) s1))))
    /\ mm_inv hwp (bump (bump ext (next_id s) 1) (pe_p e) 1) (bump (fun _ => 0) (pe_p e) (snap_bit e)) ∅ {[pe]}
         (copied s pe (pe_p e) p0 (pg - KERN_VMBASE) al' ph').
Proof.
  intros HI He Hp0 Hfree. pose proof (inv_irq _ _ _ _ _ _ HI) as Hirq.
  assert (0 <= irq s + 1) as Hirq1 by lia. pose proof (inv_set_alloc_irq _ _ _ _ _ _ _ _ _ _ _ _ Hirq1 HI) as HI1.
  destruct (i_mem _ _ _ _ _ _ _ _ _ _ _ HI1) as (own & live & Hm & _).
  destruct (get_page_ok _ own live pg rest Hm Hfree) as (al' & Eg & _ & _ & _ & _ & Hi' & _).
  destruct (inv_fresh_frame _ _ _ _ _ _ _ _ _ _ _ HI pg rest Hfree) as (Hfr & Hno & _).
  pose proof (i_ph _ _ _ _ _ _ _ _ _ _ _ HI) as Hok.
  destruct (r_insert_spec (phys_pages s) (pg - KERN_VMBASE) (next_id s) Hok (frame_u64 _ Hfr) Hno) as (ph' & Ein & Hok' & Hph).
  exists al', ph'. split; [done|]. split; [done|]. split; [done|]. split; [exact Hi'|]. split.
  - intros s1 Hi1 Hpp1 Hn1. rewrite <- Hn1. replace pg with (KERN_VMBASE + (pg - KERN_VMBASE)) at 1 by lia.
    apply manage_fresh; [lia|done|by rewrite Hpp1..|by rewrite Hpp1, Hn1].
  - pose proof (inv_new_page _ _ _ _ _ _ _ _ _ _ _ HI1 pg rest al' ph' Hfree Eg Hok' Hph) as H1.
    assert (pe_p e <> next_id s) as Hne.
    { intros En. destruct (i_next _ _ _ _ _ _ _ _ _ _ _ HI (next_id s)) as (_ & Hno' & _); [lia|]. congruence. }
    pose proof (inv_unlink_owner _ _ _ _ _ _ _ _ _ _ _ H1 pe e p0 He ltac:(set_solver)
      ltac:(by rewrite lookup_insert_ne)) as H2. rewrite (is_snap_Some _ _ _ He) in H2.
    rewrite (right_id_L ∅ (∪)) in H2. exact H2.
Qed.

Lemma mapped_clear s' a v m :
  spaces s' = pmap (at_place a v (fun _ => None)) m -> mapped s' a v = None.
Proof.
  intros E. unfold mapped. rewrite E, pmap_lookup. destruct (m !! a) as [sp|]; [|done]. cbn.
  rewrite map_lookup_imap. destruct (ptes sp !! v); [|done]. cbn. unfold at_place. by rewrite decide_True.
Qed.

(** The owners that move along with [pe], or the old page's snapshot count. *)
Definition unshare_branch (pe i n : id) (e : page_entry) : M (mm R) () :=
  if flag PF_SHARED (pe_flags e) then
    old ← get_pg i; forM_ (owner old) (move_owner i n)
  else
    put_pe pe (with_flags PF_SHARED e);;
    old ← get_pg i;
    let old := with_snap (u64 (snap_count old - 1)) old in
    put_pg i old;;
    if snap_count old =? 0 then restore_write true (owner old) else mret ().

Definition branch_entries (pe n : id) (e : page_entry) (l : list id) (E : gmap id page_entry) : gmap id page_entry :=
  if flag PF_SHARED (pe_flags e) then moved n l E else <[pe := with_flags PF_SHARED e]> E.

Lemma unshare_branch_ok hwp ext s pe e n p np :
  mm_inv hwp ext (bump (fun _ => 0) (pe_p e) (snap_bit e)) ∅ {[pe]} s -> entries s !! pe = Some e ->
  pe_p e ∉ hwp -> n ∉ hwp -> pe_p e <> n -> pgs s !! pe_p e = Some p -> pgs s !! n = Some np ->
  owner np = [] -> ref_count np = 1 -> snap_count np = 0 -> 1 <= ext (pe_p e) -> 1 <= ext n ->
  exists s', unshare_branch pe (pe_p e) n e s = Done () s' /\ mm_inv hwp ext (fun _ => 0) ∅ {[pe]} s'
    /\ keeps s s' /\ phys s' = phys s /\ next_id s' = next_id s /\ alloc s' = alloc s
    /\ strip (spaces s') = strip (spaces s)
    /\ entries s' = branch_entries pe n e (owner p) (entries s)
    /\ same_frames s s' /\ (exists np', pgs s' !! n = Some np' /\ phys_addr np' = phys_addr np /\ snap_count np' = 0)
    /\ is_Some (pgs s' !! pe_p e).
Proof.
  intros HI He Hih Hnh Hin Hp Hnp Hno Hnr Hns Hxi Hxn. set (i := pe_p e) in *.
  destruct (i_page _ _ _ _ _ _ _ _ _ _ _ HI i p Hp) as (P1 & P2 & P3 & P4 & P5 & P6 & P7). rewrite bump_eq in P6, P7.
  pose proof (nsnaps_bound (entries s) (owner p)) as Hnb.
  pose proof (inv_shared _ _ _ _ _ _ HI pe e He) as Hsh. unfold unshare_branch, branch_entries, snap_bit in *.
  destruct (flag PF_SHARED (pe_flags e)) eqn:Es.
  - destruct (flag PF_SNAPSHOT (pe_flags e)); [done|]. kstep (get_pg_eq _ i p).
    assert (mm_inv hwp ext (fun _ => 0) ∅ {[pe]} s) as HI'.
    { eapply inv_fns; [exact HI|done| |done|done]. intros j. symmetry. by apply bump_0. }
    destruct (move_owners_ok hwp ext (fun _ => 0) {[pe]} i n (owner p) s np) as
      (s1 & E1 & HI1 & K1 & F1 & F2 & F3 & F4 & F5 & F6 & F7); try done; [|lia|].
    { intros o Ho. by apply (inv_owner_entry _ _ _ _ _ _ HI i p o). }
    exists s1. split_and!; try done.
    + intros x p' Hx. destruct (decide (x = i)) as [->|]; [|destruct (decide (x = n)) as [->|]].
      * destruct (F7 i p Hp) as (q & Hq & ? & _). simplify_eq. eauto.
      * destruct (F7 n np Hnp) as (q & Hq & ? & _). simplify_eq. eauto.
      * exists p'. rewrite <- F6 by done. done.
    + destruct (F7 n np Hnp) as (q & Hq & ? & ?). exists q. split_and!; congruence.
    + destruct (F7 i p Hp) as (q & Hq & _). by eexists.
  - destruct (flag PF_SNAPSHOT (pe_flags e)) eqn:Esn; [|done].
    kstep put_pe_eq. kstep (get_pg_eq _ i p). rewrite (u64_small (snap_count p - 1)) by (unfold is_u64; lia).
    kstep put_pg_eq. cbn [snap_count with_snap]. set (p1 := with_snap (snap_count p - 1) p).
    set (s1 := set_pgs (<[i := p1]> (pgs s)) (set_entries (<[pe := with_flags PF_SHARED e]> (entries s)) s)).
    assert (mm_inv hwp ext (fun _ => 0) ∅ {[pe]} s1) as HI1.
    { assert (kind_ok hwp (with_flags PF_SHARED e)) as Hk.
      { unfold kind_ok. cbn. rewrite decide_False by done. by left. }
      pose proof (inv_retarget _ _ _ _ _ _ _ _ _ _ _ HI pe e (with_flags PF_SHARED e) He ltac:(set_solver) eq_refl eq_refl Hk
        ltac:(by left)) as H1.
      pose proof (inv_count _ _ _ _ _ _ _ _ _ _ _ H1 i p p1 0 (-1) Hp eq_refl eq_refl) as H2.
      cbn in H2. rewrite bump_eq in H2. specialize (H2 ltac:(lia) ltac:(lia) ltac:(lia) ltac:(lia) ltac:(lia)).
      eapply inv_fns; [exact H2|..]; [| |done|done]; intros j; unfold bump; repeat case_decide; cbn; lia. }
    assert (pgs s1 !! i = Some p1) as Hp1 by apply lookup_insert_eq.
    assert (forall Φ, let s' := set_spaces (pmap Φ (spaces s)) s1 in
      same_frames s s' /\ (exists np', pgs s' !! n = Some np' /\ phys_addr np' = phys_addr np /\ snap_count np' = 0)
      /\ is_Some (pgs s' !! i)) as Hrest.
    { intros Φ. cbv zeta. split; [|split].
      - intros x q Hx. cbn in Hx. apply lookup_insert_Some in Hx as [[<- <-]|[_ Hx]]; eauto.
      - exists np. cbn. by rewrite lookup_insert_ne.
      - cbn. rewrite lookup_insert_eq. by eexists. }
    destruct (Z.eqb_spec (snap_count p - 1) 0) as [Ez|].
    + rewrite restore_write_eq.
      * eexists. split; [reflexivity|]. split; [by apply (inv_restore _ _ _ _ _ s1 i p1); [..|cbn; lia|set_solver]|].
        destruct (Hrest (at_owners (entries s1) (owner p) set_w)) as (? & ? & ?). split_and!; try done. apply strip_pmap.
      * intros o Ho. by apply (inv_has_owner _ _ _ _ _ _ HI1 i p1 o).
      * intros _. apply (inv_all_shared _ _ _ _ _ _ HI1). destruct (i_page _ _ _ _ _ _ _ _ _ _ _ HI1 i p1 Hp1) as (_ & _ & _ & _ & _ & Hs1 & _).
        cbn in Hs1. cbn. lia.
    + eexists. split; [reflexivity|]. split; [done|]. destruct (Hrest (fun _ _ x => Some x)) as (? & ? & ?).
      split_and!; done.
Qed.

Definition unshare_tail (pe i n : id) : M (mm R) () :=
  e ← get_pe pe;
  put_pe pe (with_p n e);;
  owner_add n pe;;
  unmap (pe_vaddr e);;
  page_unref i false;;
  enable_interrupts.

Lemma unshare_tail_ok hwp ext s pe e n np :
  mm_inv hwp ext (fun _ => 0) ∅ {[pe]} s -> entries s !! pe = Some e -> pe_as e = current_as s ->
  pe_flags e = PF_SHARED -> pe_p e ∉ hwp -> n ∉ hwp -> pe_p e <> n -> is_Some (pgs s !! pe_p e) -> pgs s !! n = Some np ->
  1 <= ext (pe_p e) -> 1 <= ext n -> 0 < irq s ->
  exists s', unshare_tail pe (pe_p e) n s = Done () s'
    /\ mm_ok hwp (bump (bump ext n (-1)) (pe_p e) (-1)) s'
    /\ current_as s' = current_as s /\ zero_page s' = zero_page s /\ irq s' = irq s - 1 /\ phys s' = phys s
    /\ strip (spaces s') = strip (spaces s) /\ entries s' = <[pe := with_p n e]> (entries s)
    /\ same_frames s s'
    /\ (exists np', pgs s' !! n = Some np' /\ phys_addr np' = phys_addr np /\ snap_count np' = snap_count np)
    /\ mapped s' (current_as s) (pe_vaddr e) = None.
Proof.
  intros HI He Hcur Hfl Hih Hnh Hin [p Hp] Hnp Hxi Hxn Hirq. set (i := pe_p e) in *.
  destruct (i_entry _ _ _ _ _ _ _ _ _ _ _ HI pe e He) as (Hu & _ & [[r t] Hc]).
  destruct (cores_Some _ _ _ _ Hc) as (sp & Hsp & _).
  set (s1 := set_spaces (pmap (at_place (current_as s) (pe_vaddr e) (fun _ => None)) (spaces s))
    (set_pgs (<[n := with_owner (pe :: owner np) np]> (pgs s)) (set_entries (<[pe := with_p n e]> (entries s)) s))).
  assert (mm_inv hwp (bump ext n (-1)) (fun _ => 0) ∅ ∅ s1) as HI1.
  { assert (inv hwp ext (fun _ => 0) ∅ {[pe]} (alloc s) (cmap (at_place (pe_as e) (pe_vaddr e) (fun _ => None)) (cores s))
      (phys_pages s) (entries s) (pgs s) (next_id s)) as H1.
    { apply (inv_cmap _ _ _ _ _ _ _ _ _ _ _ HI). intros a q u v x y _ _. unfold at_place. case_decide; [done|].
      intros [= <-]. auto. }
    assert (kind_ok hwp (with_p n e)) as Hk.
    { unfold kind_ok. cbn. rewrite decide_False by done. by left. }
    assert (forall q u, cmap (at_place (pe_as e) (pe_vaddr e) (fun _ => None)) (cores s) !! pe_as e
      = Some (q, u) -> u !! pe_vaddr e = None) as Hcl.
    { intros q u. rewrite cmap_lookup, Hc. intros [= <- <-]. rewrite map_lookup_imap. destruct (t !! pe_vaddr e); [|done].
      cbn. unfold at_place. by rewrite decide_True. }
    pose proof (inv_retarget _ _ _ _ _ _ _ _ _ _ _ H1 pe e (with_p n e) He ltac:(set_solver) eq_refl eq_refl Hk
      (or_intror Hcl)) as H2.
    pose proof (inv_link_owner _ _ _ _ _ _ _ _ _ _ _ H2 pe (with_p n e) np ltac:(apply lookup_insert_eq) ltac:(set_solver) Hnp) as H3.
    rewrite is_snap_insert in H3. cbn [pe_p pe_flags with_p] in H3. rewrite Hfl in H3.
    change (flag PF_SNAPSHOT PF_SHARED) with false in H3. specialize (H3 ltac:(cbn; lia)).
    unfold mm_inv, s1, cores. cbn [spaces set_spaces]. rewrite core_pmap, <- Hcur.
    eapply inv_fns; [exact H3|done| |done|set_solver]. intros j. symmetry. by apply bump_0. }
  assert (pgs s1 !! i = Some p) as Hp1 by (cbn; by rewrite lookup_insert_ne).
  destruct (page_unref_ok _ _ _ _ _ s1 i p false HI1 Hp1) as (s2 & E2 & HI2 & (K1 & K2 & K3) & F1 & F2 & F3 & F4 & F5);
    [rewrite bump_ne by done; lia|cbn; rewrite bump_ne by done; lia|done|intros _; symmetry; by apply bool_decide_eq_false_2|].
  exists (set_irq (irq s2 - 1) s2). split; [|split].
  - unfold unshare_tail. kstep (get_pe_eq _ pe e). kstep put_pe_eq.
    erewrite bind_eq; [|unfold owner_add; kstep (get_pg_eq _ n np); apply put_pg_eq].
    erewrite bind_eq; [|unfold unmap; kstep gets_eq; eapply clear_pte_eq; cbn; rewrite <- Hcur; exact Hsp].
    erewrite bind_eq; [|exact E2]. apply enable_eq. rewrite K3. cbn. cbn in Hirq. lia.
  - apply inv_set_irq; [|exact HI2]. rewrite K3. cbn. cbn in Hirq. lia.
  - split_and!; try done.
    + rewrite irq_set_irq, K3. done.
    + etrans; [exact (f_equal strip F4)|]. apply strip_pmap.
    + intros x q Hx. change (pgs s2 !! x = Some q) in Hx. rewrite F5 in Hx. cbn in Hx. destruct (ref_count p =? 1).
      * apply lookup_delete_Some in Hx as [_ Hx]. apply lookup_insert_Some in Hx as [[<- <-]|[_ Hx]]; eauto.
      * apply lookup_insert_Some in Hx as [[<- <-]|[_ Hx]]; [eauto|].
        apply lookup_insert_Some in Hx as [[<- <-]|[_ Hx]]; eauto.
    + exists (with_owner (pe :: owner np) np). split; [|done]. change (pgs s2 !! n = Some (with_owner (pe :: owner np) np)).
      rewrite F5. cbn. destruct (ref_count p =? 1).
      * by rewrite lookup_delete_ne, lookup_insert_eq.
      * by rewrite lookup_insert_ne, lookup_insert_eq.
    + eapply mapped_clear. exact F4.
Qed.

(** ** What is seen in memory *)
(** Each entry keeps its page or moves to [n], the copy of [i]. *)
Definition retargets s s' (i n : id) : Prop :=
  strip (spaces s') = strip (spaces s)
  /\ (forall o e, entries s !! o = Some e -> exists e', entries s' !! o = Some e'
        /\ (e' = e \/ (pe_p e = i /\ pe_p e' = n))).

Lemma retargets_view s s' i n b w :
  retargets s s' i n ->
  view s' b w = view s b w \/ (exists f f', view s b w = Some (i, f) /\ view s' b w = Some (n, f'))
  \/ (view s b w = None).
Proof.
  intros [Hst HE]. rewrite !view_strip, Hst.
  destruct (strip (spaces s) !! b) as [sp|]; [|by auto]. cbn.
  destruct (r_map (vaddr_map sp) !! w) as [o|]; [|by auto]. cbn.
  destruct (entries s !! o) as [e|] eqn:He; [|by auto]. cbn.
  destruct (HE o e He) as (e' & -> & [-> | [<- <-]]); cbn; [by auto|]. right. left. eauto.
Qed.

Lemma frames_apart x y k :
  frame x -> frame y -> x <> y -> 0 <= k < 4096 -> (x <=? y + k) && (y + k <? x + PAGE_SIZE) = false.
Proof.
  intros (_ & Hx & _) (_ & Hy & _) Hne Hk. change PAGE_SIZE with 4096.
  apply Z.mod_divide in Hx as [cx ->]; [|done]. apply Z.mod_divide in Hy as [cy ->]; [|done].
  destruct (Z.leb_spec (cx * 4096) (cy * 4096 + k)), (Z.ltb_spec (cy * 4096 + k) (cx * 4096 + 4096)); try done.
  exfalso. apply Hne. f_equal. lia.
Qed.

(** Copying page [i] to the fresh frame of [n] before its entries move there
    hides the move from everybody. *)
Lemma retargets_bytes hwp ext s s' i n p0 np x :
  mm_ok hwp ext s -> mm_ok hwp ext s' -> pgs s !! i = Some p0 -> frame x ->
  (forall j q, pgs s !! j = Some q -> phys_addr q <> x) ->
  pgs s' !! n = Some np -> phys_addr np = x ->
  (forall j q, j <> n -> pgs s' !! j = Some q -> exists q0, pgs s !! j = Some q0 /\ phys_addr q = phys_addr q0) ->
  pgs s !! n = None ->
  phys s' = (fun y => if (x <=? y) && (y <? x + PAGE_SIZE) then phys s (phys_addr p0 + (y - x)) else phys s y) ->
  retargets s s' i n ->
  forall b w k, 0 <= k < 4096 -> byte s' b w k = byte s b w k.
Proof.
  intros HI HI' Hp0 Hx Hnew Hn Ha Hold Hfresh Hph Hre b w k Hk. unfold byte. rewrite Hph.
  assert (forall j q f, view s b w = Some (j, f) -> pgs s !! j = Some q -> frame (phys_addr q)) as Hfr.
  { intros j q f _ Hq. by destruct (i_page _ _ _ _ _ _ _ _ _ _ _ HI j q Hq) as (_ & ? & _). }
  assert (view s b w = None -> view s' b w = None) as Hnone.
  { destruct Hre as [Hst HE]. rewrite !view_strip, Hst. intros Hv.
    destruct (strip (spaces s) !! b) as [sp|] eqn:Es; [|done]. cbn in *.
    destruct (r_map (vaddr_map sp) !! w) as [o|] eqn:Eo; [|done]. cbn in *.
    destruct (entries s !! o) as [e|] eqn:Ee; [done|]. exfalso.
    unfold strip in Es. rewrite lookup_fmap in Es. apply fmap_Some in Es as (sp1 & Hsp1 & ->).
    apply (i_in_map _ _ _ _ _ _ _ _ _ _ _ HI b _ _ w o (cores_lookup _ _ _ Hsp1)) in Eo as (_ & e & He & _). congruence. }
  destruct (retargets_view s s' i n b w Hre) as [Hv|[(f & f' & Hv & Hv')|Hv]].
  - rewrite Hv. destruct (view s b w) as [[j f]|] eqn:Ev; [|done]. cbn.
    destruct (view_entry _ _ _ _ _ s b w (j, f) HI Ev) as (sp & o & e & _ & _ & He & _ & _ & [= -> ->] & _).
    destruct (i_haspage _ _ _ _ _ _ _ _ _ _ _ HI o e He) as [q Hq]; [set_solver|].
    destruct (view_entry _ _ _ _ _ s' b w _ HI' Hv) as (sp' & o' & e' & _ & _ & He' & _ & _ & [= Ej _] & _).
    destruct (i_haspage _ _ _ _ _ _ _ _ _ _ _ HI' o' e' He') as [q' Hq']; [set_solver|]. rewrite <- Ej in Hq'.
    destruct (Hold (pe_p e) q') as (q0 & Hq0 & Haq); [congruence|done|]. rewrite Hq', Hq. cbn.
    rewrite Hq in Hq0. injection Hq0 as <-. rewrite Haq, frames_apart; [done|done| |by apply not_eq_sym, (Hnew (pe_p e))|done].
    by apply (Hfr (pe_p e) q (pe_flags e)).
  - rewrite Hv, Hv'. cbn. rewrite Hn, Hp0. cbn. rewrite Ha. f_equal.
    assert ((x <=? x + k) && (x + k <? x + PAGE_SIZE) = true) as ->.
    { change PAGE_SIZE with 4096. destruct (Z.leb_spec x (x + k)), (Z.ltb_spec (x + k) (x + 4096)); lia. }
    f_equal. lia.
  - by rewrite Hv, Hnone.
Qed.

(** What [unshare_page] achieves for its entry [e]. *)
Definition unshared hwp ext s (e : page_entry) s' (n : id) : Prop :=
  mm_ok hwp ext s' /\ keeps s s' /\ (forall b, is_Some (spaces s' !! b) <-> is_Some (spaces s !! b))
  /\ (forall b w k, 0 <= k < 4096 -> byte s' b w k = byte s b w k)
  /\ view s' (pe_as e) (pe_vaddr e) = Some (n, PF_SHARED)
  /\ pgs s !! n = None /\ (exists np, pgs s' !! n = Some np /\ snap_count np = 0)
  /\ strip (spaces s') = strip (spaces s) /\ mapped s' (pe_as e) (pe_vaddr e) = None
  /\ (forall b w f, view s' b w = Some (n, f) ->
        (b = pe_as e /\ w = pe_vaddr e)
        \/ (flag PF_SHARED (pe_flags e) = true /\ view s b w = Some (pe_p e, f) /\ flag PF_SHARED f = true)).

(** The entries after [unshare_page]. *)
Definition unshared_entries (pe n : id) (e : page_entry) (l : list id) (E : gmap id page_entry) : gmap id page_entry :=
  <[pe := with_p n (with_flags PF_SHARED e)]> (branch_entries pe n e l E).

Lemma unshared_entries_ne pe n e l E o :
  o <> pe -> unshared_entries pe n e l E !! o =
    (fun e' => if decide (o ∈ l) then if flag PF_SHARED (pe_flags e) && flag PF_SHARED (pe_flags e') then with_p n e' else e' else e')
    <$> E !! o.
Proof.
  intros Hne. unfold unshared_entries, branch_entries. rewrite lookup_insert_ne by done.
  destruct (flag PF_SHARED (pe_flags e)); cbn [andb].
  - apply moved_lookup.
  - rewrite lookup_insert_ne by done. destruct (E !! o); [|done]. cbn. by destruct (decide (o ∈ l)).
Qed.

Lemma unshared_retargets s s' pe e n p0 :
  (forall o, o ∈ owner p0 -> exists e', entries s !! o = Some e' /\ pe_p e' = pe_p e) -> entries s !! pe = Some e ->
  strip (spaces s') = strip (spaces s) ->
  entries s' = unshared_entries pe n e (filter (fun o => o <> pe) (owner p0)) (entries s) ->
  retargets s s' (pe_p e) n.
Proof.
  intros Hown He Hst HE. split; [done|]. intros o e' He'. rewrite HE. destruct (decide (o = pe)) as [->|Hne].
  - unfold unshared_entries. rewrite lookup_insert_eq. simplify_eq. eauto 10.
  - rewrite unshared_entries_ne, He' by done. cbn. eexists. split; [done|].
    destruct (decide (o ∈ _)) as [Hin|]; [|by left]. destruct (_ && _); [|by left]. right. split; [|done].
    apply list_elem_of_filter in Hin as [_ Hin]. destruct (Hown o Hin) as (e2 & ? & ?). congruence.
Qed.

Lemma unshared_view hwp ext s s' pe e n p0 b w f :
  mm_ok hwp ext s -> pgs s !! pe_p e = Some p0 -> pgs s !! n = None -> entries s !! pe = Some e ->
  strip (spaces s') = strip (spaces s) ->
  entries s' = unshared_entries pe n e (filter (fun o => o <> pe) (owner p0)) (entries s) ->
  view s' b w = Some (n, f) ->
  (b = pe_as e /\ w = pe_vaddr e)
  \/ (flag PF_SHARED (pe_flags e) = true /\ view s b w = Some (pe_p e, f) /\ flag PF_SHARED f = true).
Proof.
  intros HI Hp0 Hn He Hst HE. rewrite !view_strip, Hst, HE.
  destruct (strip (spaces s) !! b) as [sp|] eqn:Es; [|done]. cbn.
  destruct (r_map (vaddr_map sp) !! w) as [o|] eqn:Eo; [|done]. cbn.
  unfold strip in Es. rewrite lookup_fmap in Es. apply fmap_Some in Es as (sp1 & Hsp1 & ->).
  apply (i_in_map _ _ _ _ _ _ _ _ _ _ _ HI b _ _ w o (cores_lookup _ _ _ Hsp1)) in Eo as (_ & e' & He' & Hb & Hw).
  destruct (decide (o = pe)) as [->|Hne]; [simplify_eq; by left|]. rewrite unshared_entries_ne, He' by done. cbn.
  destruct (i_haspage _ _ _ _ _ _ _ _ _ _ _ HI o e' He') as [q Hq]; [set_solver|].
  destruct (decide (o ∈ _)) as [Hin|]; [|intros [= <- <-]; congruence].
  destruct (flag PF_SHARED (pe_flags e)); [|intros [= <- <-]; congruence].
  destruct (flag PF_SHARED (pe_flags e')) eqn:Ef; [|intros [= <- <-]; congruence]. intros [= <-]. right.
  apply list_elem_of_filter in Hin as [_ Hin].
  destruct (inv_owner_entry _ _ _ _ _ _ HI _ p0 o Hp0 Hin) as (e2 & He2 & Ep & _).
  rewrite He' in He2. injection He2 as <-. by rewrite Ep.
Qed.

Lemma unshare_page_ok hwp ext s pe e p0 :
  mm_ok hwp ext s -> entries s !! pe = Some e -> pe_as e = current_as s -> pe_p e ∉ hwp -> pgs s !! pe_p e = Some p0 ->
  0 < snap_count p0 -> 2 <= ref_count p0 -> free_pages (alloc s) <> [] ->
  exists s' n, unshare_page pe s = Done () s' /\ unshared hwp ext s e s' n.
Proof.
  intros HI He Hcur Hih Hp0 Hsn Href Hfree. pose proof (inv_irq _ _ _ _ _ _ HI) as Hirq.
  destruct (free_pages (alloc s)) as [|pg rest] eqn:Ef; [done|]. clear Hfree.
  destruct (inv_fresh_frame _ _ _ _ _ _ _ _ _ _ _ HI pg rest Ef) as (_ & _ & Hnew).
  destruct (i_next _ _ _ _ _ _ _ _ _ _ _ HI (next_id s)) as (N1 & N2 & N3 & N4 & N5); [lia|].
  destruct (copied_ok hwp ext s pe e p0 pg rest HI He Hp0 Ef) as (al' & ph' & Eg & Hfr & _ & Hi' & Eman & HI3).
  set (n := next_id s) in *. set (x := pg - KERN_VMBASE) in *. set (i := pe_p e) in *.
  set (s3 := copied s pe i p0 x al' ph') in *.
  assert (i <> n) as Hin by congruence.
  destruct (unshare_branch_ok hwp _ s3 pe e n (with_owner (filter (fun o => o <> pe) (owner p0)) p0)
    (mkPage x 0 1 0 []) HI3 He) as (s4 & E4 & HI4 & (K1 & K2 & K3) & F1 & F2 & F3 & F4 & F5 & F6 & F7 & F8); try done.
  { apply lookup_insert_eq. } { cbn. rewrite lookup_insert_ne by done. apply lookup_insert_eq. }
  { fold i. rewrite bump_eq, bump_ne by done.
    pose proof (i_page _ _ _ _ _ _ _ _ _ _ _ HI i p0 Hp0) as (_ & _ & _ & _ & _ & _ & Hx). cbn in Hx. lia. }
  { rewrite bump_ne, bump_eq by done. lia. }
  cbn [owner with_owner] in F5. destruct F7 as (np & Hnp & Hna & Hns).
  destruct (i_entry _ _ _ _ _ _ _ _ _ _ _ HI pe e He) as (Hu & Hk & _).
  assert (entries s4 !! pe = Some (with_flags PF_SHARED e)) as He4.
  { rewrite F5. unfold branch_entries. destruct (flag PF_SHARED (pe_flags e)) eqn:Es; [|apply lookup_insert_eq].
    rewrite moved_lookup. cbn. rewrite He. cbn. rewrite decide_False by (rewrite list_elem_of_filter; tauto). f_equal.
    unfold kind_ok in Hk. rewrite decide_False in Hk by done. destruct e as [e1 e2 e3 fl]. cbn in *. unfold with_flags. cbn.
    destruct Hk as [->| ->]; done. }
  assert (1 <= bump (bump ext n 1) i 1 i /\ 1 <= bump (bump ext n 1) i 1 n) as [X1 X2].
  { rewrite bump_eq, (bump_ne _ i n), bump_eq, bump_ne by done.
    pose proof (i_page _ _ _ _ _ _ _ _ _ _ _ HI i p0 Hp0) as (_ & _ & _ & _ & _ & _ & Hx). cbn in Hx. lia. }
  assert (irq s4 = irq s + 1) as Hirq4 by (rewrite K3; exact Hi').
  destruct (unshare_tail_ok hwp _ s4 pe (with_flags PF_SHARED e) n np HI4 He4) as
    (s5 & E5 & HI5 & G1 & G2 & G3 & G4 & G5 & G6 & G7 & (np5 & Hnp5 & Ha5 & Hs5) & Hmapd); try done; [by rewrite K1|lia|].
  assert (strip (spaces s5) = strip (spaces s)) as Hst by (rewrite G5, F4; done).
  assert (entries s5 = unshared_entries pe n e (filter (fun o => o <> pe) (owner p0)) (entries s)) as HE5
    by (rewrite G6, F5; done).
  assert (mm_ok hwp ext s5) as HI5'.
  { eapply inv_fns; [exact HI5|..]; try done. intros j. cbn. change (pe_p e) with i. unfold bump. repeat case_decide; lia. }
  assert (retargets s s5 i n) as Hre.
  { apply (unshared_retargets s s5 pe e n p0); try done. intros o Ho.
    destruct (inv_owner_entry _ _ _ _ _ _ HI i p0 o Hp0 Ho) as (e2 & ? & ? & _). eauto. }
  exists s5, n. split; [|unfold unshared; split_and!; try done].
  - unfold unshare_page. kstep (get_pe_eq _ pe e). kstep gets_eq. rewrite bool_decide_eq_false_2 by (intros Hno; by apply Hno).
    kstep disable_eq. rewrite (inv_hw _ _ _ _ _ _ HI pe e He). rewrite bool_decide_eq_false_2 by done.
    kstep (get_pg_eq _ i p0). destruct (Z.eqb_spec (snap_count p0) 0); [lia|].
    destruct (Z.eqb_spec (ref_count p0) 1) as [|_]; [lia|]. rewrite andb_false_r.
    kstep (get_page_lift _ pg al'). destruct (Z.eqb_spec (ref_count p0) 1) as [|_]; [lia|].
    unfold memcpy_phys. kstep modify_eq.
    erewrite bind_eq; [|apply Eman; [exact Hi'|done|done]]. kstep mret_eq.
    erewrite bind_eq; [|unfold owner_del; kstep (get_pg_eq _ i p0);
      [apply put_pg_eq|cbn; rewrite lookup_insert_ne by done; exact Hp0]].
    match goal with |- (_ ≫= _) ?y = _ => replace y with s3 end.
    + change ((unshare_branch pe i n e ≫= fun _ => unshare_tail pe i n) s3 = Done () s5).
      erewrite bind_eq; [|exact E4]. exact E5.
    + unfold s3, copied. apply mm_eq; try reflexivity. cbn. by rewrite virt_to_phys_frame.
  - by split_and!; [rewrite G1, K1|rewrite G2, K2|rewrite G3, Hirq4; lia].
  - intros b. rewrite <- strip_is_Some, Hst. apply strip_is_Some.
  - apply (retargets_bytes hwp ext s s5 i n p0 np5 x); try done.
    + intros j q Hq Eq. apply (Hnew j q Hq). unfold pv. rewrite Eq. unfold x. lia.
    + rewrite Ha5, Hna. done.
    + intros j q Hj Hq. destruct (G7 j q Hq) as (q4 & Hq4 & Ea4). destruct (F6 j q4 Hq4) as (q3 & Hq3 & Ea3).
      cbn in Hq3. apply lookup_insert_Some in Hq3 as [[<- <-]|[_ Hq3]].
      * exists p0. split; [done|]. by rewrite Ea4, Ea3.
      * rewrite lookup_insert_ne in Hq3 by done. exists q3. split; [done|]. by rewrite Ea4.
    + rewrite G4, F1. done.
  - rewrite view_strip, Hst, HE5. unfold strip. rewrite lookup_fmap.
    destruct (i_entry _ _ _ _ _ _ _ _ _ _ _ HI pe e He) as (_ & _ & [[r t] Hc]).
    destruct (cores_Some _ _ _ _ Hc) as (sp & Hsp & Hcore). rewrite Hsp. cbn.
    assert (r_map (vaddr_map sp) !! pe_vaddr e = Some pe) as ->.
    { apply (i_in_map _ _ _ _ _ _ _ _ _ _ _ HI (pe_as e) _ (ptes sp)); [by apply cores_lookup|].
      split; [set_solver|eauto]. }
    cbn. unfold unshared_entries. by rewrite lookup_insert_eq.
  - exists np5. split; [done|]. by rewrite Hs5.
  - rewrite Hcur. cbn in Hmapd. by rewrite K1 in Hmapd.
  - intros b w f Hv. by apply (unshared_view hwp ext s s5 pe e n p0).
Qed.
End cow.
