(* ===== verification/Fault.v ===== *)
(** Mapping pages on demand: [address_space_map] and the page fault handler. *)
From S2P Require Import Prelude Bits Irq Binradix Alloc MmState PageMan Aspace Copy VmaProofs MmInv MmOps Cow.

Section fault.
Context {R : Type} `{!RadixMap R id}.
Implicit Types s : mm R.

(** ** The entry [map_page] builds *)
Lemma set_base_frame x : frame x -> pte_set_base 0 x 0 = x.
Proof.
  intros (Hx & Hm & Hb). apply Z.bits_inj'. intros i Hi.
  assert (is_u64 x) as Hu by (unfold is_u64, KERN_VMBASE in *; lia).
  destruct (Z.ltb_spec i 64).
  - rewrite pte_set_base_testbit by lia. unfold pte_low_bits. simpl. rewrite Z.testbit_0_l, andb_false_r, orb_false_r. simpl.
    destruct (Z.leb_spec 12 i); [done|]. change 4096 with (2 ^ 12) in Hm. rewrite <- Z.land_ones in Hm by lia.
    assert (Z.testbit (Z.land x (Z.ones 12)) i = false) as Hz by (rewrite Hm; apply Z.testbit_0_l).
    rewrite Z.land_spec, Z.testbit_ones_nonneg in Hz by lia. destruct (Z.ltb_spec i 12); [|lia].
    by rewrite andb_true_r in Hz.
  - rewrite (is_u64_high_bit x) by done. unfold pte_set_base. simpl (0 =? 0).
    cbv iota zeta. change (0 =? 1) with false. change (0 =? 2) with false. cbv iota.
    by rewrite !Z.lor_spec, !Z.land_spec, Z.testbit_0_l, (is_u64_high_bit x) by done.
Qed.

Definition new_pte (x flags : Z) : Z := Z.lor (pte_set_flags (pte_set_base 0 x 0) flags) PTE_P.

Lemma new_pte_base x flags : frame x -> pte_get_base (new_pte x flags) = x.
Proof.
  intros Hx. unfold new_pte, pte_set_flags. rewrite base_lor_small by (vm_compute; split; congruence).
  rewrite base_lor_small.
  - rewrite set_base_frame by done. apply Z.bits_inj'. intros i Hi. unfold pte_get_base.
    rewrite Z.land_spec, PTE_BASE_MASK_testbit by lia. destruct Hx as (Hx & Hm & Hb).
    destruct (Z.leb_spec 12 i), (Z.ltb_spec i 52); simpl; rewrite ?andb_true_r, ?andb_false_r; try done; symmetry.
    + rewrite <- (wrap_small 52 x) by (unfold KERN_VMBASE in Hb; lia). rewrite wrap_testbit by lia.
      by destruct (Z.ltb_spec i 52); [lia|].
    + change 4096 with (2 ^ 12) in Hm. rewrite <- Z.land_ones in Hm by lia.
      assert (Z.testbit (Z.land x (Z.ones 12)) i = false) as Hz by (rewrite Hm; apply Z.testbit_0_l).
      rewrite Z.land_spec, Z.testbit_ones_nonneg in Hz by lia. destruct (Z.ltb_spec i 12); [|lia].
      by rewrite andb_true_r in Hz.
    + rewrite <- (wrap_small 52 x) by (unfold KERN_VMBASE in Hb; lia). rewrite wrap_testbit by lia.
      by destruct (Z.ltb_spec i 52); [lia|].
  - change 0xfff with (Z.ones 12). rewrite Z.land_ones by lia. apply Z.mod_pos_bound. done.
Qed.

Lemma flag_lor f x y : flag f (Z.lor x y) = flag f x || flag f y.
Proof.
  unfold flag. rewrite Z.land_lor_distr_l. destruct (Z.eqb_spec (Z.lor (Z.land x f) (Z.land y f)) 0) as [E|E].
  - apply Z.lor_eq_0_iff in E as [-> ->]. done.
  - destruct (Z.eqb_spec (Z.land x f) 0) as [E1|], (Z.eqb_spec (Z.land y f) 0) as [E2|]; try done.
    by rewrite E1, E2 in E.
Qed.

Lemma frame_flag x f : frame x -> 0 <= f < 4096 -> flag f x = false.
Proof.
  intros (_ & Hm & _) Hf. unfold flag. apply negb_false_iff, Z.eqb_eq. apply Z.bits_inj'. intros i Hi.
  rewrite Z.land_spec, Z.testbit_0_l. destruct (Z.ltb_spec i 12).
  - change 4096 with (2 ^ 12) in Hm. rewrite <- Z.land_ones in Hm by lia.
    assert (Z.testbit (Z.land x (Z.ones 12)) i = false) as Hz by (rewrite Hm; apply Z.testbit_0_l).
    rewrite Z.land_spec, Z.testbit_ones_nonneg in Hz by lia. destruct (Z.ltb_spec i 12); [|lia].
    rewrite andb_true_r in Hz. by rewrite Hz.
  - assert (Z.testbit f i = false) as ->; [|apply andb_false_r].
    rewrite <- (wrap_small 12 f) by done. rewrite wrap_testbit by lia. by destruct (Z.ltb_spec i 12); [lia|].
Qed.

Lemma new_pte_W x flags : frame x -> flags = 4 \/ flags = 6 -> flag PTE_W (new_pte x flags) = flag PTE_W flags.
Proof.
  intros Hx Hf. unfold new_pte, pte_set_flags. rewrite !flag_lor, set_base_frame, frame_flag by (done || (vm_compute; split; congruence)).
  by destruct Hf as [-> | ->].
Qed.

(** The flags an area and the snapshots of a page allow. *)
Definition map_flags (v : vm_area) (snaps : Z) : Z :=
  if 0 <? snaps then Z.land (vma_flags_to_page_flags (vma_flags v)) (u64 (Z.lnot PTE_W))
  else vma_flags_to_page_flags (vma_flags v).

Lemma map_flags_cases v n : (map_flags v n = 4 \/ map_flags v n = 6)
  /\ flag PTE_W (map_flags v n) = flag VMA_RW (vma_flags v) && negb (0 <? n).
Proof.
  unfold map_flags, vma_flags_to_page_flags. destruct (flag VMA_RW (vma_flags v)), (0 <? n);
    (split; [vm_compute; tauto|vm_compute; reflexivity]).
Qed.

(** ** [address_space_map] *)
(** The entry's flags and the snapshot count once a last snapshot owns its page. *)
Definition adopt (p : page) : bool := (snap_count p =? 1) && (ref_count p =? 1).

Lemma adopt_inv hwp ext s pe e p :
  mm_ok hwp ext s -> entries s !! pe = Some e -> pgs s !! pe_p e = Some p -> adopt p = true ->
  flag PF_SNAPSHOT (pe_flags e) = true
  /\ mm_ok hwp ext (set_entries (<[pe := with_flags PF_SHARED e]> (entries s)) (set_pgs (<[pe_p e := with_snap 0 p]> (pgs s)) s)).
Proof.
  intros HI He Hp Ha. unfold adopt in Ha. apply andb_true_iff in Ha as [Hs Hr].
  apply Z.eqb_eq in Hs. apply Z.eqb_eq in Hr. set (i := pe_p e) in *.
  destruct (i_page _ _ _ _ _ _ _ _ _ _ _ HI i p Hp) as (P1 & P2 & P3 & P4 & P5 & P6 & P7). cbn in P6, P7.
  assert (pe ∈ owner p) as Hin by (apply (i_owner _ _ _ _ _ _ _ _ _ _ _ HI i p pe Hp); split; [set_solver|eauto]).
  destruct (owner p) as [|o [|o2 l]] eqn:Eo; [by apply elem_of_nil in Hin| |cbn in P4; lia].
  apply list_elem_of_singleton in Hin as <-. cbn [length] in P4.
  assert (flag PF_SNAPSHOT (pe_flags e) = true) as Hsn.
  { rewrite <- (is_snap_Some _ _ _ He). rewrite nsnaps_cons in P6.
    destruct (is_snap (entries s) pe); [done|]. change (nsnaps (entries s) []) with 0 in P6. lia. }
  split; [done|].
  pose proof (inv_unlink_owner _ _ _ _ _ _ _ _ _ _ _ HI pe e p He ltac:(set_solver) Hp) as H1.
  rewrite (is_snap_Some _ _ _ He), Hsn, Eo in H1.
  assert (i ∉ hwp) as Hih.
  { pose proof (inv_shared _ _ _ _ _ _ HI pe e He) as E1. rewrite Hsn in E1. intros Hh.
    destruct (i_entry _ _ _ _ _ _ _ _ _ _ _ HI pe e He) as (_ & Hk & _). unfold kind_ok in Hk.
    rewrite decide_True in Hk by done. by rewrite Hk in E1. }
  assert (kind_ok hwp (with_flags PF_SHARED e)) as Hk.
  { unfold kind_ok. cbn. rewrite decide_False by done. by left. }
  pose proof (inv_retarget _ _ _ _ _ _ _ _ _ _ _ H1 pe e (with_flags PF_SHARED e) He ltac:(set_solver) eq_refl eq_refl Hk
    ltac:(by left)) as H2.
  set (p1 := with_owner (filter (fun o => o <> pe) [pe]) p) in *.
  pose proof (inv_count _ _ _ _ _ _ _ _ _ _ _ H2 i p1 (with_snap 0 p1) 0 (-1) ltac:(apply lookup_insert_eq) eq_refl eq_refl) as H3.
  cbn [ref_count snap_count with_snap p1 with_owner] in H3. fold i in H3. rewrite !bump_eq in H3.
  specialize (H3 ltac:(lia) ltac:(lia) ltac:(lia) ltac:(lia) ltac:(lia)). rewrite insert_insert_eq in H3.
  pose proof (inv_link_owner _ _ _ _ _ _ _ _ _ _ _ H3 pe (with_flags PF_SHARED e) (with_snap 0 p1)
    ltac:(apply lookup_insert_eq) ltac:(set_solver) ltac:(apply lookup_insert_eq)) as H4.
  rewrite is_snap_insert in H4. cbn [pe_flags pe_p with_flags] in H4. change (flag PF_SNAPSHOT PF_SHARED) with false in H4.
  fold i in H4. rewrite !bump_eq in H4. specialize (H4 ltac:(cbn; lia)). rewrite insert_insert_eq in H4.
  assert (with_owner (pe :: owner (with_snap 0 p1)) (with_snap 0 p1) = with_snap 0 p) as Ep.
  { unfold p1. rewrite filter_cons_False by auto. unfold with_snap, with_owner. cbn. by rewrite Eo. }
  rewrite Ep in H4. eapply inv_fns; [exact H4| | |done|set_solver]; intros j; unfold bump; repeat case_decide; cbn; lia.
Qed.

(** Views and bytes depend on the entries' pages only. *)
Lemma byte_ext s s' b w k :
  strip (spaces s') = strip (spaces s) -> phys s' = phys s ->
  (forall o, pe_p <$> entries s' !! o = pe_p <$> entries s !! o) ->
  (forall i, phys_addr <$> pgs s' !! i = phys_addr <$> pgs s !! i) ->
  byte s' b w k = byte s b w k.
Proof.
  intros Hst Hph HE HG. unfold byte. rewrite Hph, !view_strip, Hst.
  destruct (strip (spaces s) !! b) as [sp|]; [|done]. cbn.
  destruct (r_map (vaddr_map sp) !! w) as [o|]; [|done]. cbn. specialize (HE o).
  destruct (entries s' !! o) as [e'|], (entries s !! o) as [e|]; try done. cbn in *. injection HE as ->.
  specialize (HG (pe_p e)). destruct (pgs s' !! pe_p e), (pgs s !! pe_p e); try done. cbn in *. by injection HG as ->.
Qed.

(** [address_space_map] on a page that is assigned but not in the page table. *)
Lemma address_space_map_ok hwp ext s sp vaddr v pe e p :
  mm_ok hwp ext s -> spaces s !! current_as s = Some sp -> user_page vaddr -> find_vma (vma sp) vaddr = Some v ->
  vma_page_size v = 0 -> r_map (vaddr_map sp) !! vaddr = Some pe -> entries s !! pe = Some e ->
  pgs s !! pe_p e = Some p -> ptes sp !! vaddr = None ->
  exists s' p' f, address_space_map vaddr s = Done 1 s' /\ mm_ok hwp ext s' /\ keeps s s'
    /\ strip (spaces s') = strip (spaces s) /\ (forall b w k, byte s' b w k = byte s b w k)
    /\ view s' (current_as s) vaddr = Some (pe_p e, f) /\ f = (if adopt p then PF_SHARED else pe_flags e)
    /\ pgs s' !! pe_p e = Some p' /\ phys_addr p' = phys_addr p /\ snap_count p' = (if adopt p then 0 else snap_count p)
    /\ mapped s' (current_as s) vaddr = Some (new_pte (phys_addr p) (map_flags v (snap_count p')))
    /\ (forall b w, ~ (b = current_as s /\ w = vaddr) -> view s' b w = view s b w).
Proof.
  intros HI Hsp Hu Hv Hsz Hpe He Hp Hpt. pose proof (cores_lookup _ _ _ Hsp) as Hc.
  pose proof (proj1 (i_in_map _ _ _ _ _ _ _ _ _ _ _ HI _ _ _ vaddr pe Hc) Hpe) as (_ & e1 & He1 & Hea & Hev).
  rewrite He in He1. injection He1 as <-.
  destruct (i_page _ _ _ _ _ _ _ _ _ _ _ HI _ p Hp) as (_ & Hfr & _ & _ & _ & _ & _).
  set (s1 := if adopt p then set_entries (<[pe := with_flags PF_SHARED e]> (entries s))
    (set_pgs (<[pe_p e := with_snap 0 p]> (pgs s)) s) else s).
  set (p' := if adopt p then with_snap 0 p else p). set (f := if adopt p then PF_SHARED else pe_flags e).
  assert (mm_ok hwp ext s1 /\ entries s1 !! pe = Some (with_flags f e) /\ pgs s1 !! pe_p e = Some p'
    /\ spaces s1 = spaces s /\ current_as s1 = current_as s /\ zero_page s1 = zero_page s /\ irq s1 = irq s /\ phys s1 = phys s
    /\ (forall o, pe_p <$> entries s1 !! o = pe_p <$> entries s !! o)
    /\ (forall i, phys_addr <$> pgs s1 !! i = phys_addr <$> pgs s !! i))
    as (HI1 & He1 & Hp1 & S1 & S2 & S3 & S4 & S5 & S6 & S7).
  { unfold s1, p', f. destruct (adopt p) eqn:Ea.
    - destruct (adopt_inv hwp ext s pe e p HI He Hp Ea) as [_ HI1]. split; [done|]. cbn. rewrite !lookup_insert_eq.
      split_and!; try done; intros o.
      + destruct (decide (o = pe)) as [->|]; [by rewrite lookup_insert_eq, He|by rewrite lookup_insert_ne].
      + destruct (decide (o = pe_p e)) as [->|]; [by rewrite lookup_insert_eq, Hp|by rewrite lookup_insert_ne].
    - split; [done|]. rewrite He, Hp. destruct e. done. }
  set (x := new_pte (phys_addr p) (map_flags v (snap_count p'))).
  set (s2 := set_spaces (<[current_as s := with_ptes (<[vaddr := x]> (ptes sp)) sp]> (spaces s1)) s1).
  assert (phys_addr p' = phys_addr p) as Hpa by (unfold p'; by destruct (adopt p)).
  assert (pte_get_base x = phys_addr p' /\ (0 < snap_count p' -> flag PTE_W x = false)) as [Hxb Hxw].
  { unfold x. destruct (map_flags_cases v (snap_count p')) as [Hm Hw]. split; [by rewrite new_pte_base|].
    intros Hpos. rewrite new_pte_W, Hw by done. destruct (Z.ltb_spec 0 (snap_count p')); [|lia]. by rewrite andb_false_r. }
  exists s2, p', f. split.
  { unfold address_space_map. rewrite (proj2 (IS_ALIGNED_iff vaddr PAGE_SIZE_BIT ltac:(unfold PAGE_SIZE_BIT; lia))) by apply Hu.
    cbn [negb]. kstep gets_eq. erewrite bind_eq; [|unfold vma_find_by_vaddr; kstep get_as_eq; rewrite Hv; apply mret_eq].
    cbv beta iota. erewrite bind_eq; [|by eapply get_allocated_eq]. rewrite Hpe. kstep (get_pe_eq _ pe e). kstep (get_pg_eq _ (pe_p e) p).
    assert (forall {B} (g : page -> M (mm R) B), ((if (snap_count p =? 1) && (ref_count p =? 1) then
      put_pg (pe_p e) (with_snap 0 p);;
      if negb (flag PF_SNAPSHOT (pe_flags e)) then panic "Has snap_count but not snapshot holder"
      else put_pe pe (with_flags PF_SHARED e);; mret (with_snap 0 p) else mret p) ≫= g) s = g p' s1) as Hadopt.
    { intros B g. fold (adopt p). unfold s1, p'. destruct (adopt p) eqn:Ea; [|by kstep mret_eq].
      destruct (adopt_inv hwp ext s pe e p HI He Hp Ea) as [Hsn _].
      erewrite bind_eq; [reflexivity|]. kstep put_pg_eq. rewrite Hsn. cbn [negb]. kstep put_pe_eq. done. }
    cbv zeta. rewrite Hadopt. rewrite Hsz.
    erewrite bind_eq; [apply mret_eq|]. unfold map_page. kstep gets_eq.
    kstep (get_as_eq _ (current_as s1) sp); [|by rewrite S1, S2]. rewrite Hpt. unfold set_pte.
    kstep (get_as_eq _ (current_as s1) sp); [|by rewrite S1, S2]. unfold put_as, modify. rewrite S2. f_equal.
    unfold s2, x, new_pte, map_flags. by rewrite Hpa. }
  split.
  { pose proof (inv_map_pte _ _ _ _ _ _ _ _ _ _ _ HI1 pe (with_flags f e) p' (vaddr_map sp) (ptes sp) x He1 ltac:(set_solver)) as H1.
    cbn [pe_as pe_p pe_vaddr with_flags] in H1. rewrite Hea, Hev in H1. unfold cores in H1. rewrite S1 in H1.
    specialize (H1 Hc Hp1 Hxb Hxw). unfold mm_ok, mm_inv, s2, cores. cbn. rewrite S1, fmap_insert. exact H1. }
  assert (strip (spaces s2) = strip (spaces s)) as Hst.
  { unfold s2. cbn [spaces set_spaces]. rewrite strip_insert, S1. apply insert_id. unfold strip. by rewrite lookup_fmap, Hsp. }
  split; [split_and!; done|]. split; [done|]. split; [|split; [|split_and!; try done]].
  - intros b w k. by apply byte_ext.
  - rewrite view_strip, Hst. unfold strip. rewrite lookup_fmap, Hsp. cbn. rewrite Hpe. cbn. by rewrite He1.
  - unfold p'. by destruct (adopt p).
  - unfold mapped, s2. cbn [spaces set_spaces]. rewrite lookup_insert_eq. cbn. apply lookup_insert_eq.
  - intros b w Hne. rewrite !view_strip, Hst. destruct (strip (spaces s) !! b) as [sp0|] eqn:Es; [|done]. cbn.
    destruct (r_map (vaddr_map sp0) !! w) as [o|] eqn:Eo; [|done]. cbn.
    change (entries s2) with (entries s1). assert (entries s1 !! o = entries s !! o) as ->; [|done].
    unfold s1. destruct (adopt p); [|done]. cbn. rewrite lookup_insert_ne; [done|]. intros <-.
    unfold strip in Es. rewrite lookup_fmap in Es. apply fmap_Some in Es as (sp2 & Hsp2 & ->).
    apply (i_in_map _ _ _ _ _ _ _ _ _ _ _ HI b _ _ w pe (cores_lookup _ _ _ Hsp2)) in Eo as (_ & e2 & He2 & <- & <-).
    simplify_eq. by apply Hne.
Qed.

(** ** Looking up areas *)
Definition vma_aligned (v : vm_area) : Prop := vma_begin v mod 4096 = 0 /\ vma_length v mod 4096 = 0.

Lemma vma_end_aligned v : vma_aligned v -> vma_end v mod 4096 = 0.
Proof.
  intros [H1 H2]. unfold vma_end, u64, wrap. change (2 ^ 64) with (4096 * 2 ^ 52).
  rewrite Z.rem_mul_r, Z.mul_comm, Z.mod_add, Z.mod_mod by done. rewrite Z.add_mod, H1, H2 by done. done.
Qed.

Lemma find_vma_align l vaddr : is_u64 vaddr -> Forall vma_aligned l ->
  find_vma l (ALIGN vaddr PAGE_SIZE_BIT) = find_vma l vaddr.
Proof.
  intros Hv Hl. rewrite ALIGN_eq by (done || unfold PAGE_SIZE_BIT; lia). change (2 ^ PAGE_SIZE_BIT) with 4096.
  assert (forall x, x mod 4096 = 0 -> (vaddr - vaddr mod 4096 <? x) = (vaddr <? x)) as Hlt.
  { intros x Hx. pose proof (Z.div_mod x 4096). pose proof (Z.div_mod vaddr 4096). pose proof (Z.mod_pos_bound vaddr 4096).
    destruct (Z.ltb_spec (vaddr - vaddr mod 4096) x), (Z.ltb_spec vaddr x); lia. }
  induction Hl as [|x l Hx Hl IH]; [done|]. simpl. rewrite !Hlt by (by apply vma_end_aligned || apply Hx).
  by rewrite IH.
Qed.

Lemma find_vma_shape l l' addr : shape <$> l = shape <$> l' -> shape <$> find_vma l addr = shape <$> find_vma l' addr.
Proof.
  revert l'. induction l as [|x l IH]; intros [|x' l'] H; try done. simpl in *. injection H as H1 H2 H3 H4 H5 Hl.
  unfold vma_end. rewrite H4, H5. destruct (_ <? _); [done|]. destruct (_ <? _); [|by apply IH].
  simpl. unfold shape. by rewrite H1, H2, H3, H4, H5.
Qed.

Lemma snapshot_counts hwp ext s pe e p :
  mm_ok hwp ext s -> entries s !! pe = Some e -> pgs s !! pe_p e = Some p ->
  1 + ext (pe_p e) <= ref_count p /\ (flag PF_SNAPSHOT (pe_flags e) = true -> 1 <= snap_count p).
Proof.
  intros HI He Hp. destruct (i_page _ _ _ _ _ _ _ _ _ _ _ HI _ p Hp) as (_ & _ & _ & P4 & _ & P6 & _).
  assert (pe ∈ owner p) as Hin by (apply (i_owner _ _ _ _ _ _ _ _ _ _ _ HI _ p pe Hp); split; [set_solver|eauto]).
  split; [destruct (owner p); [by apply elem_of_nil in Hin|]; cbn in P4; lia|].
  intros Hs. rewrite <- (is_snap_Some _ _ _ He) in Hs. rewrite P6. unfold nsnaps.
  assert (pe ∈ filter (fun o => is_snap (entries s) o = true) (owner p)) as Hf by by apply list_elem_of_filter.
  destruct (filter _ _); [by apply elem_of_nil in Hf|]. cbn. lia.
Qed.

(** The entry of an address something is assigned to. *)
Lemma view_page hwp ext s sp a w i f :
  mm_ok hwp ext s -> view s a w = Some (i, f) -> spaces s !! a = Some sp ->
  exists pe e p, r_map (vaddr_map sp) !! w = Some pe /\ entries s !! pe = Some e /\ pe_as e = a /\ pe_vaddr e = w
    /\ pe_p e = i /\ pe_flags e = f /\ pgs s !! i = Some p.
Proof.
  intros HI Hv Hsp. destruct (view_entry _ _ _ _ _ s a w _ HI Hv) as (sp' & pe & e & Hsp' & Hr & He & Ha & Hw & [= -> ->] & _).
  rewrite Hsp in Hsp'. injection Hsp' as <-. destruct (i_haspage _ _ _ _ _ _ _ _ _ _ _ HI pe e He) as [p Hp]; [set_solver|].
  exists pe, e, p. done.
Qed.

Lemma layout_find s s' a sp sp' w v :
  layout s' a = layout s a -> spaces s !! a = Some sp -> spaces s' !! a = Some sp' -> find_vma (vma sp) w = Some v ->
  exists v', find_vma (vma sp') w = Some v' /\ shape v' = shape v.
Proof.
  unfold layout. intros Hl Ha Ha' Hf. rewrite Ha, Ha' in Hl. cbn in Hl. injection Hl as Hl. pose proof (find_vma_shape _ _ w Hl) as E.
  rewrite Hf in E. destruct (find_vma (vma sp') w) as [v'|]; [|done]. cbn in E. exists v'. split; [done|]. congruence.
Qed.

Lemma locked_find hwp ext s a sp w :
  mm_ok hwp ext s -> spaces s !! a = Some sp -> locked (vma_find_by_vaddr a w) s = Done (find_vma (vma sp) w) s.
Proof.
  intros HI Hsp. pose proof (inv_irq _ _ _ _ _ _ HI).
  rewrite (locked_Done _ s (find_vma (vma sp) w) (set_irq (irq s + 1) s));
    [by rewrite set_irq_twice, set_irq_irq|done| |by rewrite irq_set_irq].
  unfold vma_find_by_vaddr. by kstep get_as_eq.
Qed.

(** Only what is assigned is mapped. *)
Lemma unshown_unmapped hwp ext s a w : mm_ok hwp ext s -> view s a w = None -> mapped s a w = None.
Proof.
  intros HI Hv. unfold mapped. destruct (spaces s !! a) as [sp|] eqn:Hsp; [|done]. cbn.
  destruct (ptes sp !! w) as [x|] eqn:Hx; [|done]. exfalso. pose proof (cores_lookup _ _ _ Hsp) as Hc.
  destruct (i_pte _ _ _ _ _ _ _ _ _ _ _ HI a _ _ w x Hc Hx) as (pe & e & p & Hlm & He & Ha & Hw & _).
  unfold view in Hv. rewrite Hsp in Hv. cbn in Hv.
  rewrite (proj2 (i_in_map _ _ _ _ _ _ _ _ _ _ _ HI a _ _ w pe Hc)) in Hv by eauto. cbn in Hv. by rewrite He in Hv.
Qed.

(** The first half of the handler: an address inside an area gets the zero page
    as a snapshot if nothing is assigned to it. *)
Definition fault_fill (c : id) (page : Z) : M (mm R) id :=
  o ← get_allocated_page c page;
  match o with
  | Some pe => mret pe
  | None =>
      z ← gets zero_page;
      address_space_assign_page c z page PF_SNAPSHOT;;
      o ← get_allocated_page c page;
      match o with
      | Some pe => mret pe
      | None => panic "Can't get back the page we just inserted"
      end
  end.

(** What the faulting address shows before the write: its page, or the zero page. *)
Definition fill_view s (c : id) (page : Z) : id * Z := default (zero_page s, PF_SNAPSHOT) (view s c page).

Lemma fault_fill_ok hwp ext s sp page v zp :
  mm_ok hwp ext s -> spaces s !! current_as s = Some sp -> user_page page -> find_vma (vma sp) page = Some v ->
  pgs s !! zero_page s = Some zp -> zero_page s ∉ hwp -> 1 <= ext (zero_page s) -> ref_count zp + 1 < 2 ^ 64 ->
  exists s1 sp1 v1 pe e p1, fault_fill (current_as s) page s = Done pe s1 /\ mm_ok hwp ext s1 /\ keeps s s1
    /\ phys s1 = phys s /\ alloc s1 = alloc s /\ same_frames s s1
    /\ (forall b w, view s1 b w = set_view (current_as s) page (Some (fill_view s (current_as s) page)) (view s) b w)
    /\ spaces s1 !! current_as s = Some sp1 /\ r_map (vaddr_map sp1) !! page = Some pe
    /\ find_vma (vma sp1) page = Some v1 /\ shape v1 = shape v
    /\ entries s1 !! pe = Some e /\ pe_as e = current_as s /\ pe_vaddr e = page
    /\ (pe_p e, pe_flags e) = fill_view s (current_as s) page /\ pgs s1 !! pe_p e = Some p1
    /\ (view s (current_as s) page = None -> ptes sp1 !! page = None)
    /\ (view s (current_as s) page <> None -> s1 = s).
Proof.
  intros HI Hsp Hu Hf Hz Hzh Hze Hzr. pose proof (inv_irq _ _ _ _ _ _ HI) as Hirq. set (c := current_as s) in *.
  unfold fault_fill, fill_view.
  destruct (view s c page) as [[i f]|] eqn:Ev.
  - destruct (view_page hwp ext s sp c page i f HI Ev Hsp) as (pe & e & p & Hr & He & Ha & Hw & Hi & Hfl & Hp).
    exists s, sp, v, pe, e, p. split; [erewrite bind_eq; [|by eapply get_allocated_eq]; by rewrite Hr|].
    split; [done|]. split; [apply keeps_refl|]. split_and!; try done.
    + intros x q Hq. eauto.
    + intros b w. unfold set_view. case_decide as Hd; [|done]. by destruct Hd as [-> ->].
    + cbn. congruence.
    + by rewrite Hi.
  - assert (r_map (vaddr_map sp) !! page = None) as Hno.
    { destruct (r_map (vaddr_map sp) !! page) as [o|] eqn:Eo; [|done]. exfalso. unfold view in Ev. rewrite Hsp in Ev. cbn in Ev.
      rewrite Eo in Ev. cbn in Ev.
      apply (i_in_map _ _ _ _ _ _ _ _ _ _ _ HI c _ _ page o (cores_lookup _ _ _ Hsp)) in Eo as (_ & e & He & _).
      by rewrite He in Ev. }
    destruct (assign_page_ok hwp ext s c (zero_page s) page (vma_id v) PF_SNAPSHOT zp HI Hz) as
      (s1 & E1 & HI1 & K & F1 & Hv1 & Hdom & (p1 & Hp1 & Hpa) & Hlay & Hfr & Hal & Hmp); try done; [|by left|].
    { unfold kind_ok. cbn. rewrite decide_False by done. by right. }
    destruct (proj2 (Hdom c)) as [sp1 Hsp1]; [by eexists|].
    destruct (layout_find s s1 c sp sp1 page v (Hlay c) Hsp Hsp1 Hf) as (v1 & Hf1 & Hsh).
    assert (view s1 c page = Some (zero_page s, PF_SNAPSHOT)) as Ev1 by (rewrite Hv1; unfold set_view; by rewrite decide_True).
    destruct (view_page hwp ext s1 sp1 c page _ _ HI1 Ev1 Hsp1) as (pe & e & p & Hr & He & Ha & Hw & Hi & Hfl & Hp).
    exists s1, sp1, v1, pe, e, p. split.
    { pose proof (locked_find hwp ext s c sp page HI Hsp) as Efind. rewrite Hf in Efind.
      erewrite bind_eq; [|by eapply get_allocated_eq]. rewrite Hno. kstep gets_eq.
      erewrite bind_eq; [|unfold address_space_assign_page;
        rewrite (proj2 (IS_ALIGNED_iff page PAGE_SIZE_BIT ltac:(unfold PAGE_SIZE_BIT; lia))) by apply Hu; cbn [negb];
        erewrite bind_eq; [|exact Efind]; cbv beta iota; erewrite bind_eq; [apply mret_eq|exact E1]].
      erewrite bind_eq; [|by eapply get_allocated_eq]. by rewrite Hr. }
    split_and!; try done; [by destruct Hal|cbn; congruence|by rewrite Hi|intros _].
    unfold mapped in Hmp. by rewrite Hsp1 in Hmp.
Qed.

(** ** The page fault handler *)
(** The current task faults at [vaddr], which lies in its area [v]; the kernel
    holds the zero page [zp]. *)
Record fault_at hwp ext s (vaddr : Z) (v : vm_area) (sp : address_space R) (zp : page) : Prop := {
  f_ok : mm_ok hwp ext s;
  f_space : spaces s !! current_as s = Some sp;
  f_aligned : Forall vma_aligned (vma sp);
  f_user : 0 <= vaddr < 2 ^ 63;
  f_area : find_vma (vma sp) vaddr = Some v;
  f_size : vma_page_size v = 0;
  f_zero : pgs s !! zero_page s = Some zp;
  f_zero_soft : zero_page s ∉ hwp;
  f_zero_held : 1 <= ext (zero_page s);
  f_zero_refs : ref_count zp + 1 < 2 ^ 64;
}.

Lemma fault_page vaddr : 0 <= vaddr < 2 ^ 63 -> user_page (ALIGN vaddr PAGE_SIZE_BIT).
Proof.
  intros H. unfold user_page. rewrite ALIGN_eq by (unfold is_u64, PAGE_SIZE_BIT; lia).
  change (2 ^ PAGE_SIZE_BIT) with 4096. pose proof (Z.mod_pos_bound vaddr 4096). pose proof (Z.div_mod vaddr 4096).
  split; [lia|]. rewrite Zminus_mod_idemp_r, Z.sub_diag. done.
Qed.

(** The second half of the handler for a write: a page with snapshots is unshared. *)
Definition fault_write (pe : id) : M (mm R) () :=
  e ← get_pe pe; p ← get_pg (pe_p e); if 0 <? snap_count p then unshare_page pe else mret ().

Lemma fault_found hwp ext s vaddr v sp zp err (k : id -> M (mm R) (Z * option Z)) :
  fault_at hwp ext s vaddr v sp zp -> GET_BIT err 2 <> 0 ->
  (forall pe, k pe = if negb (Z.land err PTE_W =? 0) && (vma_flags v =? 0) then mret (1, Some 1)
    else (if negb (Z.land err PTE_W =? 0) then fault_write pe else mret ());;
      address_space_map (ALIGN vaddr PAGE_SIZE_BIT);; enable_interrupts;; mret (0, None)) ->
  page_fault_handler err vaddr s
  = (fault_fill (current_as s) (ALIGN vaddr PAGE_SIZE_BIT) ≫= k) (set_irq (irq s + 1) s).
Proof.
  intros [HI Hsp Hal Hu Hv Hsz Hz Hzh Hze Hzr] Herr Hk. unfold page_fault_handler.
  destruct (Z.eqb_spec (GET_BIT err 2) 0); [done|]. kstep disable_eq. kstep gets_eq.
  erewrite bind_eq; [|unfold vma_find_by_vaddr; kstep get_as_eq; rewrite Hv; apply mret_eq]. cbv beta iota.
  unfold fault_fill, mbind, M_bind. cbn [current_as set_irq mm_irq set_alloc].
  destruct (get_allocated_page _ _ _) as [[pe|] s1| |]; [|destruct (gets zero_page s1) as [z s2| |];
    [destruct (address_space_assign_page _ _ _ _ _) as [x s3| |];
      [destruct (get_allocated_page _ _ s3) as [[pe|] s4| |]|..]|..]|..]; try done; cbn; by rewrite Hk.
Qed.

Lemma soft_shared hwp ext s a w i f :
  mm_ok hwp ext s -> view s a w = Some (i, f) -> i ∉ hwp -> flag PF_SHARED f = true -> f = PF_SHARED.
Proof.
  intros HI Hv Hi Hf. destruct (view_entry _ _ _ _ _ s a w _ HI Hv) as (sp & pe & e & _ & _ & He & _ & _ & [= -> ->] & _).
  destruct (i_entry _ _ _ _ _ _ _ _ _ _ _ HI pe e He) as (_ & Hk & _). unfold kind_ok in Hk.
  rewrite decide_False in Hk by done. destruct Hk as [->|E]; [done|]. by rewrite E in Hf.
Qed.

Lemma fault_write_ok hwp ext s pe e p :
  mm_ok hwp ext s -> entries s !! pe = Some e -> pe_as e = current_as s -> pe_p e ∉ hwp -> pgs s !! pe_p e = Some p ->
  (0 < snap_count p /\ 2 <= ref_count p /\ free_pages (alloc s) <> [])
  \/ (snap_count p = 0 /\ mapped s (current_as s) (pe_vaddr e) = None) ->
  exists s' n np, fault_write pe s = Done () s' /\ mm_ok hwp ext s' /\ keeps s s' /\ strip (spaces s') = strip (spaces s)
    /\ (forall b w k, 0 <= k < 4096 -> byte s' b w k = byte s b w k)
    /\ view s' (current_as s) (pe_vaddr e) = Some (n, PF_SHARED) /\ pgs s' !! n = Some np /\ snap_count np = 0
    /\ mapped s' (current_as s) (pe_vaddr e) = None
    /\ (forall b w f, view s' b w = Some (n, f) ->
          (b = current_as s /\ w = pe_vaddr e) \/ (view s b w = Some (pe_p e, PF_SHARED) /\ f = PF_SHARED)).
Proof.
  intros HI He Hcur Hih Hp Hcase. unfold fault_write. kstep (get_pe_eq _ pe e). kstep (get_pg_eq _ (pe_p e) p).
  destruct Hcase as [(Hs & Hr & Hf)|[Hs Hm]].
  - destruct (Z.ltb_spec 0 (snap_count p)); [|lia].
    destruct (unshare_page_ok hwp ext s pe e p HI He Hcur Hih Hp Hs Hr Hf)
      as (s' & n & E & HI' & K & _ & Hb & Hv & _ & (np & Hnp & Hsn) & Hst & Hmp & Hpriv).
    rewrite Hcur in Hv, Hmp. exists s', n, np. split_and!; try done.
    intros b w f Hbw. destruct (Hpriv b w f Hbw) as [[-> ->]|(_ & Hold & Hfl)]; [by left|]. right.
    rewrite Hold. assert (f = PF_SHARED) as ->; [by apply (soft_shared hwp ext s b w (pe_p e))|done].
  - destruct (Z.ltb_spec 0 (snap_count p)); [lia|].
    assert (view s (current_as s) (pe_vaddr e) = Some (pe_p e, pe_flags e)) as Hv.
    { destruct (i_entry _ _ _ _ _ _ _ _ _ _ _ HI pe e He) as (_ & _ & [[r t] Hc]).
      destruct (cores_Some _ _ _ _ Hc) as (sp & Hsp & _). rewrite Hcur in Hsp. unfold view. rewrite Hsp. cbn.
      assert (r_map (vaddr_map sp) !! pe_vaddr e = Some pe) as ->.
      { apply (i_in_map _ _ _ _ _ _ _ _ _ _ _ HI (current_as s) _ (ptes sp)); [by apply cores_lookup|].
        split; [set_solver|eauto]. }
      cbn. by rewrite He. }
    assert (forall b w f, view s b w = Some (pe_p e, f) -> f = PF_SHARED) as Hall.
    { intros b w f Hbw. destruct (view_entry _ _ _ _ _ s b w _ HI Hbw) as (sp & o & e' & _ & _ & He' & _ & _ & [= Ei ->] & _).
      rewrite Ei in Hp. destruct (snapshot_counts hwp ext s o e' p HI He' Hp) as [_ Hc].
      apply (soft_shared hwp ext s b w (pe_p e)); [done..|]. rewrite (inv_shared _ _ _ _ _ _ HI o e' He').
      destruct (flag PF_SNAPSHOT (pe_flags e')); [|done]. by specialize (Hc eq_refl); lia. }
    rewrite mret_eq. exists s, (pe_p e), p. split_and!; try done.
    + by rewrite Hv, (Hall _ _ _ Hv).
    + intros b w f Hbw. right. by rewrite Hbw, (Hall _ _ _ Hbw).
Qed.

(** What the faulting page reads as: its bytes, or those of the zero page. *)
Definition fill_byte s (c : id) (page k : Z) : option Z :=
  q ← pgs s !! (fill_view s c page).1; Some (phys s (phys_addr q + k)).

Lemma fill_bytes hwp ext s s1 c page :
  mm_ok hwp ext s -> mm_ok hwp ext s1 -> phys s1 = phys s -> same_frames s s1 ->
  (forall b w, view s1 b w = set_view c page (Some (fill_view s c page)) (view s) b w) ->
  (forall b w k, ~ (b = c /\ w = page) -> byte s1 b w k = byte s b w k)
  /\ (forall k, byte s1 c page k = fill_byte s c page k).
Proof.
  intros HI HI1 Hph Hfr Hv. split.
  - intros b w k Hne. apply (byte_view hwp ext hwp ext); [done..|]. rewrite Hv. unfold set_view. by rewrite decide_False.
  - intros k. unfold byte, fill_byte. specialize (Hv c page). unfold set_view in Hv. rewrite decide_True in Hv by done.
    rewrite Hv. cbn. destruct (fill_view s c page) as [i f] eqn:Ef. cbn.
    destruct (view_entry _ _ _ _ _ s1 c page _ HI1 Hv) as (sp & o & e & _ & _ & He & _ & _ & [= -> _] & _).
    destruct (i_haspage _ _ _ _ _ _ _ _ _ _ _ HI1 o e He) as [q Hq]; [set_solver|].
    destruct (Hfr _ _ Hq) as (q0 & Hq0 & Ha). rewrite Hq, Hq0. cbn. by rewrite Ha, Hph.
Qed.

Lemma strip_space s s' a sp :
  strip (spaces s') = strip (spaces s) -> spaces s !! a = Some sp ->
  exists sp', spaces s' !! a = Some sp' /\ vma sp' = vma sp /\ vaddr_map sp' = vaddr_map sp.
Proof.
  intros Hst Hsp. assert (strip (spaces s') !! a = Some (with_ptes ∅ sp)) as E by (rewrite Hst; unfold strip; by rewrite lookup_fmap, Hsp).
  unfold strip in E. rewrite lookup_fmap in E. apply fmap_Some in E as (sp' & Hsp' & Ew). exists sp'. split; [done|].
  destruct sp, sp'. unfold with_ptes in Ew. cbn in *. injection Ew as -> -> _ _ _. done.
Qed.

(** Whether a write can be served: there is a copy to make and a frame for it,
    or nothing to copy and no entry in the way. *)
Definition can_write (hwp : gset id) s (page : Z) : Prop :=
  match view s (current_as s) page with
  | None => free_pages (alloc s) <> []
  | Some (i, _) => i ∉ hwp /\ exists p, pgs s !! i = Some p
      /\ ((0 < snap_count p /\ 2 <= ref_count p /\ free_pages (alloc s) <> [])
          \/ (snap_count p = 0 /\ mapped s (current_as s) page = None))
  end.

(** A write fault ends with the address mapped writable to a page of its own:
    it shows the bytes it showed before, and so does every other address. *)
Definition write_served hwp ext s (page : Z) s' : Prop :=
  exists n np x, mm_ok hwp ext s' /\ keeps s s' /\ view s' (current_as s) page = Some (n, PF_SHARED)
    /\ pgs s' !! n = Some np /\ snap_count np = 0
    /\ mapped s' (current_as s) page = Some x /\ pte_get_base x = phys_addr np /\ flag PTE_W x = true
    /\ (forall k, 0 <= k < 4096 -> byte s' (current_as s) page k = fill_byte s (current_as s) page k)
    /\ (forall b w k, 0 <= k < 4096 -> ~ (b = current_as s /\ w = page) -> byte s' b w k = byte s b w k)
    /\ (forall b w f, view s' b w = Some (n, f) -> ~ (b = current_as s /\ w = page) ->
          f = PF_SHARED /\ view s b w = Some ((fill_view s (current_as s) page).1, PF_SHARED)).

Lemma write_fault_ok hwp ext s vaddr v sp zp err :
  fault_at hwp ext s vaddr v sp zp -> GET_BIT err 2 <> 0 -> Z.land err PTE_W <> 0 ->
  flag VMA_RW (vma_flags v) = true -> can_write hwp s (ALIGN vaddr PAGE_SIZE_BIT) ->
  exists s', page_fault_handler err vaddr s = Done (0, None) s' /\ write_served hwp ext s (ALIGN vaddr PAGE_SIZE_BIT) s'.
Proof.
  intros F Herr Hw Hrw Hcan. pose proof F as [HI Hsp Hal Hu Hv Hsz Hz Hzh Hze Hzr].
  pose proof (fault_page vaddr Hu) as Hpg. pose proof (inv_irq _ _ _ _ _ _ HI) as Hirq.
  rewrite <- find_vma_align in Hv by (done || unfold is_u64; lia).
  erewrite fault_found; [|done|done|intros; reflexivity].
  set (page := ALIGN vaddr PAGE_SIZE_BIT) in *. set (c := current_as s) in *. set (s0 := set_irq (irq s + 1) s).
  assert (mm_ok hwp ext s0) as HI0 by (apply inv_set_irq; [lia|done]).
  destruct (fault_fill_ok hwp ext s0 sp page v zp HI0 Hsp Hpg Hv Hz Hzh Hze Hzr)
    as (s1 & sp1 & v1 & pe & e & p1 & E1 & HI1 & (K1 & K2 & K3) & F1 & F2 & Hfr & Hv1 & Hsp1 & Hr1 & Hf1 & Hsh & He1 & Hea & Hev
        & Hfill & Hp1 & Hnew & Hold).
  change (current_as s0) with c in *. change (fill_view s0 c page) with (fill_view s c page) in *.
  destruct (fill_bytes hwp ext s0 s1 c page HI0 HI1 F1 Hfr Hv1) as [Hb1 Hb2].
  assert (pe_p e ∉ hwp /\ ((0 < snap_count p1 /\ 2 <= ref_count p1 /\ free_pages (alloc s1) <> [])
     \/ (snap_count p1 = 0 /\ mapped s1 (current_as s1) (pe_vaddr e) = None))) as [Hsoft Hcase].
  { unfold can_write in Hcan. fold c in Hcan. unfold fill_view in Hfill. rewrite K1, Hev. change (current_as s0) with c.
    change (view s0 c page) with (view s c page) in *. destruct (view s c page) as [[i f]|] eqn:Ev.
    - cbn in Hfill. injection Hfill as Ei _. rewrite (Hold ltac:(done)) in *. rewrite Ei in *.
      destruct Hcan as (Hi & p & Hp & Hc). change (pgs s0) with (pgs s) in Hp1. rewrite Hp in Hp1. by injection Hp1 as ->.
    - cbn in Hfill. injection Hfill as Ei Efl. rewrite Ei. split; [done|]. left.
      destruct (snapshot_counts hwp ext s1 pe e p1 HI1 He1 Hp1) as [H1 H2]. rewrite Ei in H1.
      rewrite Efl in H2. specialize (H2 eq_refl). split; [lia|]. split; [lia|]. rewrite F2. exact Hcan. }
  destruct (fault_write_ok hwp ext s1 pe e p1 HI1 He1 ltac:(by rewrite Hea, K1) Hsoft Hp1 Hcase)
    as (s2 & n & np & E2 & HI2 & (L1 & L2 & L3) & Hst & Hb3 & Hv2 & Hnp & Hsn & Hmp & Hpriv).
  rewrite K1, Hev in Hv2, Hmp. change (current_as s0) with c in *.
  destruct (strip_space s1 s2 c sp1 Hst Hsp1) as (sp2 & Hsp2 & Hvma & _).
  destruct (view_page hwp ext s2 sp2 c page _ _ HI2 Hv2 Hsp2) as (o & e2 & np' & Hr2 & He2 & Ha2 & Hw2 & Hp2 & Hfl2 & Hnp').
  rewrite Hnp in Hnp'. injection Hnp' as <-. rewrite <- Hp2 in Hnp.
  destruct (address_space_map_ok hwp ext s2 sp2 page v1 o e2 np HI2) as
    (s3 & p3 & f3 & E3 & HI3 & (M1 & M2 & M3) & Hst3 & Hb4 & Hv3 & Ef3 & Hp3 & Ha3 & Hs3 & Hm3 & Hv4); try done.
  { by rewrite L1, K1. } { by rewrite Hvma. } { unfold shape in Hsh. by injection Hsh as _ _ -> _ _. }
  { unfold mapped in Hmp. by rewrite Hsp2 in Hmp. }
  assert (adopt np = false) as Had by (unfold adopt; by rewrite Hsn).
  rewrite Had in *. rewrite Hsn in Hs3. rewrite L1, K1 in Hv3, Hm3. change (current_as s0) with c in *.
  assert (irq s3 = irq s + 1) as Hi3 by (rewrite M3, L3, K3; apply irq_set_irq).
  exists (set_irq (irq s) s3). split.
  { erewrite bind_eq; [|exact E1]. cbv beta. destruct (Z.eqb_spec (Z.land err PTE_W) 0); [done|]. cbn [negb andb].
    destruct (Z.eqb_spec (vma_flags v) 0) as [E0|]; [by rewrite E0 in Hrw|].
    erewrite bind_eq; [|exact E2]. erewrite bind_eq; [|exact E3]. erewrite bind_eq; [|apply enable_eq; lia].
    rewrite mret_eq. do 2 f_equal. lia. }
  destruct (i_page _ _ _ _ _ _ _ _ _ _ _ HI2 _ np Hnp) as (_ & Hframe & _).
  destruct (map_flags_cases v1 (snap_count p3)) as [Hmf Hmw]. rewrite Hs3 in *.
  exists n, p3, (new_pte (phys_addr np) (map_flags v1 0)). rewrite Hp2 in *. rewrite Ef3, Hfl2 in *.
  assert (forall b w k, 0 <= k < 4096 -> byte s3 b w k = byte s1 b w k) as Hb5.
  { intros b w k Hk. by rewrite Hb4, Hb3. }
  split_and!; try done.
  - by apply inv_set_irq.
  - split_and!; cbn; [by rewrite M1, L1, K1|by rewrite M2, L2, K2|done].
  - by rewrite new_pte_base, Ha3.
  - rewrite new_pte_W, Hmw by done. unfold shape in Hsh. injection Hsh as _ -> _ _ _. by rewrite Hrw.
  - intros k Hk. etrans; [exact (Hb5 c page k Hk)|]. apply Hb2.
  - intros b w k Hk Hne. etrans; [exact (Hb5 b w k Hk)|]. by apply Hb1.
  - intros b w f Hbw Hne. change (view s3 b w = Some (n, f)) in Hbw. rewrite Hv4 in Hbw by (by rewrite L1, K1).
    destruct (Hpriv b w f Hbw) as [[-> ->]|[Hold2 ->]]; [by destruct Hne; rewrite K1|]. split; [done|].
    rewrite Hv1 in Hold2. unfold set_view in Hold2. rewrite decide_False in Hold2 by done.
    change (view s b w = Some ((fill_view s c page).1, PF_SHARED)). rewrite <- Hfill. exact Hold2.
Qed.

(** A read fault maps the page the address shows; the entry is writable only
    when no snapshot of the page is left. *)
Definition read_served hwp ext s (page : Z) s' : Prop :=
  exists np x, mm_ok hwp ext s' /\ keeps s s' /\ pgs s' !! (fill_view s (current_as s) page).1 = Some np
    /\ (exists f, view s' (current_as s) page = Some ((fill_view s (current_as s) page).1, f))
    /\ mapped s' (current_as s) page = Some x /\ pte_get_base x = phys_addr np
    /\ (flag PTE_W x = true -> snap_count np = 0)
    /\ (forall k, byte s' (current_as s) page k = fill_byte s (current_as s) page k)
    /\ (forall b w k, ~ (b = current_as s /\ w = page) -> byte s' b w k = byte s b w k).

Lemma read_fault_ok hwp ext s vaddr v sp zp err :
  fault_at hwp ext s vaddr v sp zp -> GET_BIT err 2 <> 0 -> Z.land err PTE_W = 0 ->
  mapped s (current_as s) (ALIGN vaddr PAGE_SIZE_BIT) = None ->
  exists s', page_fault_handler err vaddr s = Done (0, None) s' /\ read_served hwp ext s (ALIGN vaddr PAGE_SIZE_BIT) s'.
Proof.
  intros F Herr Hw Hno. pose proof F as [HI Hsp Hal Hu Hv Hsz Hz Hzh Hze Hzr].
  pose proof (fault_page vaddr Hu) as Hpg. pose proof (inv_irq _ _ _ _ _ _ HI) as Hirq.
  rewrite <- find_vma_align in Hv by (done || unfold is_u64; lia).
  erewrite fault_found; [|done|done|intros; reflexivity].
  set (page := ALIGN vaddr PAGE_SIZE_BIT) in *. set (c := current_as s) in *. set (s0 := set_irq (irq s + 1) s).
  assert (mm_ok hwp ext s0) as HI0 by (apply inv_set_irq; [lia|done]).
  destruct (fault_fill_ok hwp ext s0 sp page v zp HI0 Hsp Hpg Hv Hz Hzh Hze Hzr)
    as (s1 & sp1 & v1 & pe & e & p1 & E1 & HI1 & (K1 & K2 & K3) & F1 & F2 & Hfr & Hv1 & Hsp1 & Hr1 & Hf1 & Hsh & He1 & Hea & Hev
        & Hfill & Hp1 & Hnew & Hold).
  change (current_as s0) with c in *. change (fill_view s0 c page) with (fill_view s c page) in *.
  destruct (fill_bytes hwp ext s0 s1 c page HI0 HI1 F1 Hfr Hv1) as [Hb1 Hb2].
  assert (ptes sp1 !! page = None) as Hpt.
  { change (view s0 c page) with (view s c page) in *. destruct (view s c page) as [o|] eqn:Ev; [|by apply Hnew].
    rewrite (Hold ltac:(done)) in Hsp1. change (spaces s0) with (spaces s) in Hsp1. unfold mapped in Hno.
    by rewrite Hsp1 in Hno. }
  destruct (address_space_map_ok hwp ext s1 sp1 page v1 pe e p1 HI1) as
    (s3 & p3 & f3 & E3 & HI3 & (M1 & M2 & M3) & Hst3 & Hb4 & Hv3 & Ef3 & Hp3 & Ha3 & Hs3 & Hm3 & Hv4); try done.
  { by rewrite K1. } { unfold shape in Hsh. by injection Hsh as _ _ -> _ _. }
  rewrite K1 in Hv3, Hm3. change (current_as s0) with c in *.
  assert (irq s3 = irq s + 1) as Hi3 by (rewrite M3, K3; apply irq_set_irq).
  destruct (i_page _ _ _ _ _ _ _ _ _ _ _ HI1 _ p1 Hp1) as (_ & Hframe & _).
  destruct (i_page _ _ _ _ _ _ _ _ _ _ _ HI3 _ p3 Hp3) as (_ & _ & _ & _ & _ & Hns & _).
  pose proof (nsnaps_bound (entries s3) (owner p3)). cbn in Hns.
  destruct (map_flags_cases v1 (snap_count p3)) as [Hmf Hmw].
  exists (set_irq (irq s) s3). split.
  { erewrite bind_eq; [|exact E1]. cbv beta. rewrite Hw. cbn [Z.eqb negb andb]. kstep mret_eq.
    erewrite bind_eq; [|exact E3]. erewrite bind_eq; [|apply enable_eq; lia]. rewrite mret_eq. do 2 f_equal. lia. }
  exists p3, (new_pte (phys_addr p1) (map_flags v1 (snap_count p3))). unfold read_served. fold c.
  rewrite <- Hfill. cbn [fst]. split_and!; try done.
  - by apply inv_set_irq.
  - split_and!; cbn; [by rewrite M1, K1|by rewrite M2, K2|done].
  - by exists f3.
  - by rewrite new_pte_base, Ha3.
  - rewrite new_pte_W, Hmw by done. intros Hwt. apply andb_true_iff in Hwt as [_ Hwt].
    destruct (Z.ltb_spec 0 (snap_count p3)); [done|lia].
  - intros k. etrans; [exact (Hb4 c page k)|]. apply Hb2.
  - intros b w k Hne. etrans; [exact (Hb4 b w k)|]. by apply Hb1.
Qed.
End fault.
