(* ===== verification/Snapshot.v ===== *)
(** Snapshots of the current address space: [as_snapshot] of
    [sys/mm/syscall.c], on which fork is built. *)
From S2P Require Import Prelude Bits Irq Binradix Alloc MmState PageMan Aspace Copy VmaProofs MmInv MmOps Cow Fault.

Section snapshot.
Context {R : Type} `{!RadixMap R id}.
Implicit Types s : mm R.

(** ** Copying the areas *)
Lemma inv_next_id hwp ext s n : (next_id s <= n)%positive -> mm_ok hwp ext s -> mm_ok hwp ext (set_next n s).
Proof.
  intros Hn [I1 I2 I3 I4 I5 I6 I7 I8 I9 I10 I11]. constructor; try done. intros i Hi. apply I10. cbn in Hi. lia.
Qed.

Lemma inv_set_areas hwp ext s a sp l :
  spaces s !! a = Some sp -> mm_ok hwp ext s -> mm_ok hwp ext (set_spaces (<[a := with_vma l sp]> (spaces s)) s).
Proof.
  intros Hsp HI. unfold mm_ok, mm_inv, cores in *. cbn [spaces set_spaces alloc phys_pages entries pgs next_id].
  rewrite fmap_insert. change (core (with_vma l sp)) with (core sp). rewrite insert_id; [exact HI|].
  rewrite lookup_fmap, Hsp. done.
Qed.

Definition same_area (v w : vm_area) : Prop :=
  vma_begin v = vma_begin w /\ vma_length v = vma_length w /\ vma_flags v = vma_flags w /\ vma_page_size v = 0.

Definition copy_area (new : id) (v : vm_area) : M (mm R) () :=
  if flag VMA_HW (vma_flags v) then mret ()
  else insert_vma_to_vaddr new (vma_begin v) (vma_length v) (vma_flags v);; mret ().

Definition soft_area (v : vm_area) : Prop := flag VMA_HW (vma_flags v) = false.

Lemma copy_area_ok s new spn v :
  0 <= irq s -> as_ok s new spn -> soft_area v -> vma_begin v mod 4096 = 0 -> low_addr spn <= vma_begin v <= high_addr spn ->
  0 <= vma_length v -> v_end v < 2 ^ 64 -> (forall w, w ∈ vma spn -> ~ overlaps v w) ->
  exists l nv, copy_area new v s
    = Done () (set_spaces (<[new := with_vma l spn]> (spaces s)) (set_next (Pos.succ (next_id s)) s))
    /\ vmas_ok (low_addr spn) l /\ l ≡ₚ nv :: vma spn /\ same_area nv v.
Proof.
  intros Hirq Hok Hs Hm Hb Hl He Hno. pose proof Hok as (E & Hlow & Hvm). unfold copy_area. rewrite Hs.
  set (nv := mkVma (next_id s) (vma_flags v) 0 (vma_begin v) (vma_length v) []). set (s1 := set_next (Pos.succ (next_id s)) s).
  pose proof (add_vma_spec (low_addr spn) nv (vma spn) Hlow Hvm) as Hadd.
  destruct (add_vma nv (vma spn)) as [l|] eqn:Ea.
  2: { destruct Hadd as (w & Hw & Ho); [unfold v_end in *; simpl; unfold v_end; simpl; lia|]. by destruct (Hno w Hw). }
  destruct Hadd as [H1 H2]; [unfold v_end in *; simpl; unfold v_end; simpl; lia|]. exists l, nv.
  split; [|done]. unfold insert_vma_to_vaddr.
  erewrite bind_eq; [done|]. erewrite bind_eq; [|by apply mm_new_id_locked].
  rewrite land_fff by lia. destruct (Z.eqb_spec (vma_begin v mod 4096) 0); [|done]. cbn [negb].
  kstep (get_as_eq s1 new spn). destruct (Z.ltb_spec (vma_begin v) (low_addr spn)); [lia|].
  destruct (Z.ltb_spec (high_addr spn) (vma_begin v)); [lia|]. cbn [orb].
  erewrite bind_eq; [|fold nv; rewrite (aspace_add_vma_eq s1 new spn) by done; rewrite Ea; reflexivity]. done.
Qed.

Lemma copy_areas_ok hwp ext new l : forall s spn lo,
  mm_ok hwp ext s -> as_ok s new spn -> 0 <= lo -> vmas_ok lo l ->
  (forall v, v ∈ l -> soft_area v -> vma_begin v mod 4096 = 0 /\ low_addr spn <= vma_begin v <= high_addr spn) ->
  (forall v w, v ∈ l -> soft_area v -> w ∈ vma spn -> ~ overlaps v w) ->
  exists s' l', forM_ l (copy_area new) s = Done () s' /\ mm_ok hwp ext s' /\ keeps s s' /\ phys s' = phys s
    /\ alloc s' = alloc s /\ entries s' = entries s /\ pgs s' = pgs s
    /\ spaces s' = <[new := with_vma l' spn]> (spaces s) /\ (next_id s <= next_id s')%positive
    /\ Z.pos (next_id s') <= Z.pos (next_id s) + Z.of_nat (length l)
    /\ vmas_ok (low_addr spn) l' /\ (forall w, w ∈ vma spn -> w ∈ l')
    /\ (forall v, v ∈ l -> soft_area v -> exists w, w ∈ l' /\ same_area w v).
Proof.
  induction l as [|v l IH]; intros s spn lo HI Hok Hlo Hl Hb Hno.
  - exists s, (vma spn). pose proof Hok as (E & Hlow & Hvm). split_and!; try done.
    + rewrite insert_id; [done|]. rewrite E. by destruct spn.
    + intros v Hv. by apply elem_of_nil in Hv.
  - pose proof (inv_irq _ _ _ _ _ _ HI) as Hirq. destruct (vmas_ok_tail _ _ _ Hlo Hl) as [Hlo' Hl'].
    cbn [forM_]. destruct (flag VMA_HW (vma_flags v)) eqn:Ehw.
    + assert (copy_area new v s = Done () s) as E0 by (unfold copy_area; by rewrite Ehw). erewrite bind_eq; [|exact E0].
      destruct (IH s spn (v_end v) HI Hok Hlo' Hl') as (s' & l' & E & HI' & K & F1 & F2 & F3 & F4 & F5 & F6 & F7 & F8 & F9 & F10);
        [intros; apply Hb; [set_solver|done]|intros; apply Hno; [set_solver|done..]|].
      exists s', l'. split_and!; try done; [cbn [length]; lia|].
      intros w [->|Hw]%elem_of_cons Hs; [unfold soft_area in Hs; congruence|by apply F10].
    + destruct (Hb v ltac:(set_solver) Ehw) as [Hm Hr]. destruct (vmas_ok_in lo (v :: l) v Hlo Hl ltac:(set_solver)) as (_ & V2 & V3 & _).
      destruct (copy_area_ok s new spn v Hirq Hok Ehw Hm Hr V2 V3) as (l1 & nv & E1 & Hl1 & Hp1 & Hnv);
        [intros w Hw; apply Hno; [set_solver|done..]|].
      set (s1 := set_spaces _ _) in E1. pose proof Hok as (E0 & Hlow & Hvm).
      assert (mm_ok hwp ext s1) as HI1.
      { apply (inv_set_areas hwp ext (set_next (Pos.succ (next_id s)) s)); [done|]. apply inv_next_id; [lia|done]. }
      destruct (IH s1 (with_vma l1 spn) (v_end v) HI1) as
        (s' & l' & E & HI' & K & F1 & F2 & F3 & F4 & F5 & F6 & F7 & F8 & F9 & F10); try done.
      * split_and!; try done. cbn. apply lookup_insert_eq.
      * intros w Hw. apply Hb. set_solver.
      * intros w x Hw Hs Hx. cbn in Hx. rewrite Hp1 in Hx. apply elem_of_cons in Hx as [->|Hx]; [|by apply Hno; [set_solver|..]].
        destruct (vmas_ok_in (v_end v) l w Hlo' Hl' Hw) as (W1 & _). destruct Hnv as (N1 & N2 & _ & _).
        unfold overlaps, v_end in *. lia.
      * exists s', l'. cbn [next_id s1 set_spaces set_next] in *. split_and!; try done.
        -- erewrite bind_eq; [|exact E1]. exact E.
        -- rewrite F5. cbn. by rewrite insert_insert_eq.
        -- lia.
        -- cbn [length]. lia.
        -- intros w Hw. apply F9. cbn. rewrite Hp1. set_solver.
        -- intros w [->|Hw]%elem_of_cons Hs; [|by apply F10]. exists nv. split; [|done]. apply F9. cbn. rewrite Hp1. set_solver.
Qed.

(** ** Copying the entries *)
(** A page has at most one owner per entry ever made. *)
Lemma owners_bound hwp ext s i p :
  mm_ok hwp ext s -> pgs s !! i = Some p -> Z.of_nat (length (owner p)) < Z.pos (next_id s).
Proof.
  intros HI Hp. destruct (i_page _ _ _ _ _ _ _ _ _ _ _ HI i p Hp) as (Hnd & _).
  assert (Pos.to_nat <$> owner p ⊆+ seq 1 (pred (Pos.to_nat (next_id s)))) as Hsub.
  { apply NoDup_submseteq; [by apply NoDup_fmap_2; [apply _|]|]. intros k (o & -> & Ho)%list_elem_of_fmap.
    destruct (inv_owner_entry _ _ _ _ _ _ HI i p o Hp Ho) as (e & He & _).
    apply elem_of_seq. destruct (decide (next_id s <= o)%positive) as [Hle|]; [|lia].
    destruct (i_next _ _ _ _ _ _ _ _ _ _ _ HI o Hle) as [Hno _]. congruence. }
  apply submseteq_length in Hsub. rewrite length_fmap, length_seq in Hsub. lia.
Qed.

Definition soft_entry s (c pe : id) (e : page_entry) : Prop :=
  entries s !! pe = Some e /\ pe_as e = c /\ flag PF_HARDWARE (pe_flags e) = false.

Definition copy_page (new pe : id) : M (mm R) () :=
  e ← get_pe pe;
  if flag PF_HARDWARE (pe_flags e) then mret ()
  else address_space_assign_page new (pe_p e) (pe_vaddr e) PF_SNAPSHOT;; mret ().

Lemma soft_not_device hwp ext s pe e :
  mm_ok hwp ext s -> entries s !! pe = Some e -> flag PF_HARDWARE (pe_flags e) = false -> pe_p e ∉ hwp.
Proof.
  intros HI He Hf Hin. rewrite (inv_hw _ _ _ _ _ _ HI pe e He) in Hf. by rewrite bool_decide_eq_true_2 in Hf.
Qed.

Lemma copy_page_ok hwp ext s c new pe e spn v :
  mm_ok hwp ext s -> soft_entry s c pe e -> spaces s !! new = Some spn -> view s new (pe_vaddr e) = None ->
  find_vma (vma spn) (pe_vaddr e) = Some v -> Z.pos (next_id s) + ext (pe_p e) + 1 < 2 ^ 64 ->
  exists s' p, copy_page new pe s = Done () s' /\ mm_ok hwp ext s' /\ keeps s s' /\ phys s' = phys s /\ alloc s' = alloc s
    /\ next_id s' = Pos.succ (next_id s) /\ entries s' = <[next_id s := mkEntry (pe_p e) new (pe_vaddr e) PF_SNAPSHOT]> (entries s)
    /\ pgs s !! pe_p e = Some p /\ pgs s' = <[pe_p e := newly_owned (next_id s) PF_SNAPSHOT p]> (pgs s)
    /\ (forall b w, view s' b w = set_view new (pe_vaddr e) (Some (pe_p e, PF_SNAPSHOT)) (view s) b w)
    /\ (forall b, layout s' b = layout s b) /\ (forall b, is_Some (spaces s' !! b) <-> is_Some (spaces s !! b)).
Proof.
  intros HI (He & Hc & Hf) Hsp Hno Hv Hbound.
  destruct (i_haspage _ _ _ _ _ _ _ _ _ _ _ HI pe e He) as [p Hp]; [set_solver|].
  destruct (i_entry _ _ _ _ _ _ _ _ _ _ _ HI pe e He) as (Hu & _ & _).
  pose proof (owners_bound hwp ext s _ p HI Hp) as Hob.
  destruct (i_page _ _ _ _ _ _ _ _ _ _ _ HI _ p Hp) as (_ & _ & _ & Hrc & _).
  pose proof (soft_not_device hwp ext s pe e HI He Hf) as Hsoft.
  destruct (assign_page_ok hwp ext s new (pe_p e) (pe_vaddr e) (vma_id v) PF_SNAPSHOT p HI Hp) as
    (s' & E & HI' & K & F & Hview & Hdom & _ & Hlay & _ & Hfresh & _); try done; [|lia|by left|].
  { unfold kind_ok. cbn. rewrite decide_False by done. by right. }
  destruct (Hfresh Hno) as (A1 & A2 & A3 & A4). exists s', p. split_and!; try done.
  unfold copy_page. kstep (get_pe_eq s pe e). rewrite Hf. erewrite bind_eq; [apply mret_eq|].
  unfold address_space_assign_page.
  rewrite (proj2 (IS_ALIGNED_iff (pe_vaddr e) PAGE_SIZE_BIT ltac:(unfold PAGE_SIZE_BIT; lia))) by apply Hu. cbn [negb].
  erewrite bind_eq; [|by eapply locked_find]. rewrite Hv. erewrite bind_eq; [apply mret_eq|exact E].
Qed.

(** What the loop over entries [l] of address space [c] leaves in [new]. *)
Lemma copy_pages_ok hwp ext c new l : forall s spn,
  c <> new -> mm_ok hwp ext s -> NoDup l -> spaces s !! new = Some spn -> is_Some (spaces s !! c) ->
  (forall pe, pe ∈ l -> exists e, entries s !! pe = Some e /\ pe_as e = c) ->
  (forall pe e, pe ∈ l -> soft_entry s c pe e -> view s new (pe_vaddr e) = None /\ is_Some (find_vma (vma spn) (pe_vaddr e))) ->
  (forall i, Z.pos (next_id s) + Z.of_nat (length l) + ext i < 2 ^ 64) ->
  exists s', forM_ l (copy_page new) s = Done () s' /\ mm_ok hwp ext s' /\ keeps s s' /\ phys s' = phys s /\ alloc s' = alloc s
    /\ (forall b, layout s' b = layout s b) /\ (forall o e, entries s !! o = Some e -> entries s' !! o = Some e)
    /\ (forall i p, pgs s !! i = Some p -> exists p', pgs s' !! i = Some p' /\ phys_addr p' = phys_addr p)
    /\ Z.pos (next_id s') <= Z.pos (next_id s) + Z.of_nat (length l)
    /\ (forall b, is_Some (spaces s' !! b) <-> is_Some (spaces s !! b))
    /\ (forall b w, (b = new -> forall pe e, pe ∈ l -> soft_entry s c pe e -> pe_vaddr e <> w) -> view s' b w = view s b w)
    /\ (forall pe e, pe ∈ l -> soft_entry s c pe e -> view s' new (pe_vaddr e) = Some (pe_p e, PF_SNAPSHOT)).
Proof.
  induction l as [|pe l IH]; intros s spn Hcn HI Hnd Hsp Hspc Hl Hfree Hbound.
  - exists s. split_and!; try done; [eauto|]. intros pe e Hpe. by apply elem_of_nil in Hpe.
  - apply NoDup_cons in Hnd as [Hpe Hnd]. destruct (Hl pe ltac:(set_solver)) as (e & He & Hc). cbn [forM_].
    destruct (flag PF_HARDWARE (pe_flags e)) eqn:Ehw.
    + assert (copy_page new pe s = Done () s) as E0 by (unfold copy_page; kstep (get_pe_eq s pe e); by rewrite Ehw).
      assert (forall e', soft_entry s c pe e' -> False) as Hnot by (intros e' (E' & _ & E''); simplify_eq; congruence).
      destruct (IH s spn) as (s' & E & HI' & K & F1 & F2 & F3 & F4 & F5 & F6 & F7 & F8 & F9); try done.
      * intros o Ho. apply Hl. set_solver.
      * intros o x Ho. apply Hfree. set_solver.
      * intros i. specialize (Hbound i). cbn [length] in Hbound. lia.
      * exists s'. split_and!; try done; [by erewrite bind_eq|cbn [length]; lia|..].
        -- intros b w Hw. apply F8. intros Hb o x Ho. apply Hw; [done|set_solver].
        -- intros o x [->|Ho]%elem_of_cons Hx; [by destruct (Hnot x)|by apply (F9 o x)].
    + assert (soft_entry s c pe e) as Hsoft by done. destruct (Hfree pe e ltac:(set_solver) Hsoft) as (Hno & v & Hv).
      destruct (copy_page_ok hwp ext s c new pe e spn v HI Hsoft Hsp Hno Hv) as
        (s1 & p & E1 & HI1 & (K1 & K2 & K3) & F1 & F2 & F3 & F4 & Hp & F5 & Hv1 & Hlay & Hdom).
      { specialize (Hbound (pe_p e)). cbn [length] in Hbound. lia. }
      assert (forall o x, entries s !! o = Some x -> o <> next_id s) as Hold.
      { intros o x Ho ->. destruct (i_next _ _ _ _ _ _ _ _ _ _ _ HI (next_id s)) as [Hn _]; [lia|]. congruence. }
      assert (forall o, o ∈ l -> entries s1 !! o = entries s !! o) as Hsame.
      { intros o Ho. destruct (Hl o ltac:(set_solver)) as (x & Hx & _). rewrite F4, lookup_insert_ne; [done|].
        apply not_eq_sym. by apply (Hold o x). }
      destruct (proj2 (Hdom new)) as [spn1 Hsp1]; [by eexists|].
      assert (forall o x, o ∈ l -> soft_entry s c o x -> pe_vaddr x <> pe_vaddr e) as Hdist.
      { intros o x Ho (Hx & Hxc & _) Ev. destruct Hspc as [spc Hspc]. apply Hpe.
        assert (r_map (vaddr_map spc) !! pe_vaddr e = Some pe /\ r_map (vaddr_map spc) !! pe_vaddr e = Some o) as [M1 M2].
        { split; apply (i_in_map _ _ _ _ _ _ _ _ _ _ _ HI c _ _ _ _ (cores_lookup _ _ _ Hspc)); (split; [set_solver|eauto]). }
        congruence. }
      destruct (IH s1 spn1) as (s' & E & HI' & (L1 & L2 & L3) & G1 & G2 & G3 & G4 & G5 & G6 & G7 & G8 & G9); try done.
      * by apply Hdom.
      * intros o Ho. rewrite Hsame by done. apply Hl. set_solver.
      * intros o x Ho (Hx & Hxc & Hxf). rewrite Hsame in Hx by done. destruct (Hfree o x ltac:(set_solver)) as (Hno' & v' & Hv'); [done|].
        split.
        -- rewrite Hv1. unfold set_view. rewrite decide_False; [done|]. intros [_ ?]. by apply (Hdist o x).
        -- destruct (layout_find s s1 new spn spn1 _ v' (Hlay new) Hsp Hsp1 Hv') as (v1 & -> & _). by eexists.
      * intros i. rewrite F3. specialize (Hbound i). cbn [length] in Hbound. lia.
      * assert (forall o x, o ∈ l -> soft_entry s1 c o x <-> soft_entry s c o x) as Hse.
        { intros o x Ho. unfold soft_entry. by rewrite Hsame. }
        exists s'. split_and!; try done.
        -- erewrite bind_eq; [|exact E1]. exact E.
        -- by split_and!; [rewrite L1|rewrite L2|rewrite L3].
        -- by rewrite G1.
        -- by rewrite G2.
        -- intros b. by rewrite G3.
        -- intros o x Ho. apply G4. rewrite F4, lookup_insert_ne; [done|]. apply not_eq_sym. by apply (Hold o x).
        -- intros i q Hq. destruct (decide (i = pe_p e)) as [->|Hne].
           ++ destruct (G5 (pe_p e) (newly_owned (next_id s) PF_SNAPSHOT p)) as (q' & Hq' & Ha).
              { rewrite F5. apply lookup_insert_eq. } exists q'. split; [done|]. rewrite Ha. by simplify_eq.
           ++ apply G5. by rewrite F5, lookup_insert_ne.
        -- cbn [length]. lia.
        -- intros b. rewrite G7. apply Hdom.
        -- intros b w Hw. rewrite G8.
           ++ rewrite Hv1. unfold set_view. rewrite decide_False; [done|]. intros [-> ->].
              by apply (Hw eq_refl pe e ltac:(set_solver)).
           ++ intros Hb o x Ho Hx. apply (Hw Hb o x); [set_solver|]. by apply Hse.
        -- intros o x [->|Ho]%elem_of_cons Hx.
           ++ destruct Hx as (Hx & _). rewrite He in Hx. injection Hx as <-. rewrite G8.
              ** rewrite Hv1. unfold set_view. by rewrite decide_True.
              ** intros _ o x Ho Hx. apply (Hdist o x Ho). by apply Hse.
           ++ apply (G9 o x); [done|]. by apply Hse.
Qed.

(** ** [as_snapshot] *)
(** The current address space is to be copied into the fresh address space [new]. *)
Record snap_ready hwp ext s (new : id) (sp spn : address_space R) : Prop := {
  n_ok : mm_ok hwp ext s;
  n_cur : spaces s !! current_as s = Some sp;
  n_new : spaces s !! new = Some spn;
  n_ne : current_as s <> new;
  n_fresh : vma spn = [] /\ r_map (vaddr_map spn) = ∅;
  n_low : 0 <= low_addr spn;
  n_areas : vmas_ok 0 (vma sp);
  n_bounds : forall v, v ∈ vma sp -> soft_area v -> vma_begin v mod 4096 = 0 /\ low_addr spn <= vma_begin v <= high_addr spn;
  n_inside : forall w i f, view s (current_as s) w = Some (i, f) -> flag PF_HARDWARE f = false ->
    exists v, v ∈ vma sp /\ soft_area v /\ v_covers w v;
  n_room : forall i, Z.pos (next_id s) + Z.of_nat (length (vma sp)) + Z.of_nat (length (r_visit (vaddr_map sp))) + ext i + 1 < 2 ^ 64;
}.

(** What a snapshot shows where its original shows [o]. *)
Definition child_view (o : option (id * Z)) : option (id * Z) :=
  '(i, f) ← o; if flag PF_HARDWARE f then None else Some (i, PF_SNAPSHOT).

Definition snapshot_taken hwp ext s (new : id) (sp : address_space R) s' : Prop :=
  mm_ok hwp ext s' /\ keeps s s' /\ phys s' = phys s /\ alloc s' = alloc s
  /\ (forall b, b <> new -> layout s' b = layout s b)
  /\ (forall i p, pgs s !! i = Some p -> exists p', pgs s' !! i = Some p' /\ phys_addr p' = phys_addr p)
  /\ Z.pos (next_id s') <= Z.pos (next_id s) + Z.of_nat (length (vma sp)) + Z.of_nat (length (r_visit (vaddr_map sp)))
  /\ (forall b w, b <> new -> view s' b w = view s b w)
  /\ (forall w, view s' new w = child_view (view s (current_as s) w))
  /\ (exists l, layout s' new = Some l /\ forall v, v ∈ vma sp -> soft_area v ->
        exists n, (n, vma_flags v, 0, vma_begin v, vma_length v) ∈ l).

Lemma values_NoDup hwp ext s a sp :
  mm_ok hwp ext s -> spaces s !! a = Some sp ->
  NoDup (r_visit (vaddr_map sp)) /\ forall pe, pe ∈ r_visit (vaddr_map sp) <-> exists w, r_map (vaddr_map sp) !! w = Some pe.
Proof.
  intros HI Hsp. pose proof (cores_lookup _ _ _ Hsp) as Hc.
  pose proof (r_visit_spec (vaddr_map sp) (i_maps _ _ _ _ _ _ _ _ _ _ _ HI a _ _ Hc)) as Hp. rewrite Hp. split.
  - apply NoDup_fmap_2_strong; [|apply NoDup_map_to_list].
    intros [w x] [w' x'] H1 H2 E. cbn in E. subst x'. apply elem_of_map_to_list in H1, H2. f_equal.
    apply (i_in_map _ _ _ _ _ _ _ _ _ _ _ HI a _ _ _ _ Hc) in H1 as (_ & e1 & He1 & _ & <-).
    apply (i_in_map _ _ _ _ _ _ _ _ _ _ _ HI a _ _ _ _ Hc) in H2 as (_ & e2 & He2 & _ & <-). congruence.
  - intros pe. rewrite Hp, list_elem_of_fmap. split.
    + intros ([w x] & -> & Hx). apply elem_of_map_to_list in Hx. eauto.
    + intros [w Hw]. exists (w, pe). split; [done|]. by apply elem_of_map_to_list.
Qed.

(** The entries of an address space and what it shows. *)
Lemma view_iff hwp ext s a sp w i f :
  mm_ok hwp ext s -> spaces s !! a = Some sp ->
  view s a w = Some (i, f) <-> exists pe e, pe ∈ r_visit (vaddr_map sp) /\ entries s !! pe = Some e /\ pe_as e = a
    /\ pe_vaddr e = w /\ pe_p e = i /\ pe_flags e = f.
Proof.
  intros HI Hsp. pose proof (cores_lookup _ _ _ Hsp) as Hc. destruct (values_NoDup hwp ext s a sp HI Hsp) as [_ Hv]. split.
  - intros Hw. destruct (view_page hwp ext s sp a w i f HI Hw Hsp) as (pe & e & p & Hr & He & Ha & Hvw & Hi & Hf & _).
    exists pe, e. split; [apply Hv; eauto|done].
  - intros (pe & e & _ & He & Ha & Hw & <- & <-). unfold view. rewrite Hsp. cbn.
    rewrite (proj2 (i_in_map _ _ _ _ _ _ _ _ _ _ _ HI a _ _ w pe Hc)) by (split; [set_solver|eauto]). cbn. by rewrite He.
Qed.

Lemma as_snapshot_ok hwp ext s new sp spn :
  snap_ready hwp ext s new sp spn ->
  exists s', as_snapshot new s = Done () s' /\ snapshot_taken hwp ext s new sp s'.
Proof.
  intros [HI Hsp Hspn Hne [Hva Hmp] Hlow Hareas Hb Hin Hroom]. set (c := current_as s) in *.
  destruct (copy_areas_ok hwp ext new (vma sp) s spn 0 HI) as
    (s1 & l' & E1 & HI1 & (K1 & K2 & K3) & F1 & F2 & F3 & F4 & F5 & F6 & F7 & F8 & _ & F10); try done.
  { split; [done|]. split; [done|]. by rewrite Hva. }
  { intros v w _ _ Hw. rewrite Hva in Hw. by apply elem_of_nil in Hw. }
  assert (spaces s1 !! c = Some sp) as Hsp1 by (rewrite F5; by rewrite lookup_insert_ne).
  assert (spaces s1 !! new = Some (with_vma l' spn)) as Hspn1 by (rewrite F5; apply lookup_insert_eq).
  assert (forall b w, view s1 b w = view s b w) as Hv1.
  { intros b w. unfold view. rewrite F5, F3. destruct (decide (b = new)) as [->|]; [|by rewrite lookup_insert_ne].
    by rewrite lookup_insert_eq, Hspn. }
  assert (forall w, view s new w = None) as Hvn by (intros w; unfold view; rewrite Hspn; cbn; by rewrite Hmp, lookup_empty).
  destruct (values_NoDup hwp ext s1 c sp HI1 Hsp1) as [Hnd Hval].
  destruct (copy_pages_ok hwp ext c new (r_visit (vaddr_map sp)) s1 (with_vma l' spn)) as
    (s2 & E2 & HI2 & (L1 & L2 & L3) & G1 & G2 & G3 & G4 & G5 & G6 & G7 & G8 & G9); try done.
  { intros pe [w Hw]%Hval. apply (i_in_map _ _ _ _ _ _ _ _ _ _ _ HI1 c _ _ _ _ (cores_lookup _ _ _ Hsp1)) in Hw
      as (_ & e & He & Ha & _). eauto. }
  { intros pe e Hpe (He & Ha & Hf). split; [by rewrite Hv1|].
    destruct (Hin (pe_vaddr e) (pe_p e) (pe_flags e)) as (v & Hv & Hs & Hc); [|done|].
    - apply (view_iff hwp ext s c sp); [done..|]. exists pe, e. rewrite F3 in He. done.
    - destruct (F10 v Hv Hs) as (w & Hw & (W1 & W2 & _)). cbn.
      pose proof (find_vma_spec _ l' (pe_vaddr e) Hlow F8) as Hf'. destruct (find_vma l' (pe_vaddr e)); [by eexists|].
      exfalso. apply (Hf' w Hw). unfold v_covers, v_end in *. by rewrite W1, W2. }
  { intros i. specialize (Hroom i). lia. }
  exists s2. split.
  { unfold as_snapshot. kstep gets_eq. kstep (get_as_eq s c sp). erewrite bind_eq; [|exact E1]. kstep (get_as_eq s1 c sp). exact E2. }
  split; [done|]. split; [split_and!; congruence|]. split_and!; [congruence|congruence|..].
  - intros b Hbn. rewrite G3. unfold layout. rewrite F5. by rewrite lookup_insert_ne.
  - intros i p Hp. apply G5. by rewrite F4.
  - lia.
  - intros b w Hbn. by rewrite G8, Hv1.
  - intros w. change (current_as s) with c. destruct (view s c w) as [[i f]|] eqn:Ev; cbn.
    + pose proof Ev as Ev'. rewrite <- Hv1 in Ev'. apply (view_iff hwp ext s1 c sp) in Ev' as (pe & e & Hpe & He & Ha & Hw & Hi & Hf); [|done..].
      destruct (flag PF_HARDWARE f) eqn:Eh.
      * rewrite G8, Hv1; [apply Hvn|]. intros _ o x Ho (Hx & Hxa & Hxf) Exw.
        assert (view s1 c w = Some (pe_p x, pe_flags x)) as E by (apply (view_iff hwp ext s1 c sp); [done..|]; exists o, x; done).
        rewrite Hv1, Ev in E. injection E as _ ->. congruence.
      * rewrite <- Hw, <- Hi. apply (G9 pe e); [done|]. split_and!; [done..|congruence].
    + rewrite G8, Hv1; [apply Hvn|]. intros _ o x Ho (Hx & Hxa & Hxf) Exw.
      assert (view s1 c w = Some (pe_p x, pe_flags x)) as E by (apply (view_iff hwp ext s1 c sp); [done..|]; exists o, x; done).
      rewrite Hv1, Ev in E. done.
  - exists (shape <$> l'). split; [rewrite G3; unfold layout; by rewrite Hspn1|].
    intros v Hv Hs. destruct (F10 v Hv Hs) as (w & Hw & (W1 & W2 & W3 & W4)). exists (vma_id w).
    apply list_elem_of_fmap. exists w. split; [|done]. unfold shape. by rewrite W1, W2, W3, W4.
Qed.

(** ** Isolation *)
(** The byte a snapshot shows at [w + j]. *)
Definition child_byte s (w j : Z) : option Z :=
  '(_, f) ← view s (current_as s) w; if flag PF_HARDWARE f then None else byte s (current_as s) w j.

Lemma snapshot_bytes hwp ext s new sp s' w j :
  mm_ok hwp ext s -> snapshot_taken hwp ext s new sp s' -> byte s' new w j = child_byte s w j.
Proof.
  intros HI (_ & _ & Hph & _ & _ & Hpg & _ & _ & Hv & _). unfold byte, child_byte. rewrite Hv, Hph. unfold byte.
  destruct (view s (current_as s) w) as [[i f]|] eqn:Ev; [|done]. cbn. destruct (flag PF_HARDWARE f); [done|]. cbn.
  destruct (view_entry _ _ _ _ _ s _ w _ HI Ev) as (sp' & o & e & _ & _ & He & _ & _ & [= -> _] & _).
  destruct (i_haspage _ _ _ _ _ _ _ _ _ _ _ HI o e He) as [q Hq]; [set_solver|].
  destruct (Hpg _ _ Hq) as (q' & Hq' & Ha). rewrite Hq, Hq'. cbn. by rewrite Ha.
Qed.

Lemma aligned_shape l l' : shape <$> l = shape <$> l' -> Forall vma_aligned l' -> Forall vma_aligned l.
Proof.
  intros E H. apply Forall_forall. intros v Hv. apply (list_elem_of_fmap_2 shape) in Hv. rewrite E in Hv.
  apply list_elem_of_fmap in Hv as (v' & Es & Hv'). rewrite Forall_forall in H. specialize (H v' Hv').
  unfold shape in Es. injection Es as _ _ _ Eb El. unfold vma_aligned in *. by rewrite Eb, El.
Qed.

(** The fault that could happen before the snapshot can happen after it. *)
Lemma snapshot_fault hwp ext s new sp spn s' vaddr v zp :
  snap_ready hwp ext s new sp spn -> snapshot_taken hwp ext s new sp s' -> fault_at hwp ext s vaddr v sp zp ->
  exists v' sp' zp', fault_at hwp ext s' vaddr v' sp' zp' /\ vma_flags v' = vma_flags v.
Proof.
  intros N (HI' & (K1 & K2 & K3) & Hph & Hal & Hlay & Hpg & Hnx & Hvo & Hvn & _) F. destruct F as [HI Hsp Hall Hu Hv Hsz Hz Hzh Hze Hzr].
  pose proof (n_ne _ _ _ _ _ _ N) as Hne. pose proof (Hlay (current_as s) Hne) as Hl. unfold layout in Hl. rewrite Hsp in Hl.
  cbn in Hl. destruct (spaces s' !! current_as s) as [sp'|] eqn:Hsp'; [|done]. cbn in Hl.
  destruct (layout_find s s' (current_as s) sp sp' vaddr v (Hlay _ Hne) Hsp Hsp' Hv) as (v' & Hv' & Hsh).
  unfold shape in Hsh. injection Hsh as _ Hfl Hps _ _. destruct (Hpg _ _ Hz) as (zp' & Hz' & _).
  exists v', sp', zp'. split; [|done]. constructor; rewrite ?K1, ?K2; try done.
  - apply (aligned_shape _ (vma sp)); [|done]. congruence.
  - by rewrite Hps.
  - pose proof (owners_bound hwp ext s' _ zp' HI' Hz'). pose proof (n_room _ _ _ _ _ _ N (zero_page s)).
    destruct (i_page _ _ _ _ _ _ _ _ _ _ _ HI' _ zp' Hz') as (_ & _ & _ & Hrc & _). lia.
Qed.

(** After a snapshot every page of the original can be written to. *)
Lemma snapshot_can_write hwp ext s new sp spn s' w :
  snap_ready hwp ext s new sp spn -> snapshot_taken hwp ext s new sp s' -> free_pages (alloc s) <> [] ->
  (forall i f, view s (current_as s) w = Some (i, f) -> flag PF_HARDWARE f = false) -> can_write hwp s' w.
Proof.
  intros N (HI' & (K1 & K2 & K3) & Hph & Hal & Hlay & Hpg & Hnx & Hvo & Hvn & _) Hf Hsoft.
  pose proof (n_ne _ _ _ _ _ _ N) as Hne. unfold can_write. rewrite K1, Hal, Hvo by done.
  destruct (view s (current_as s) w) as [[i f]|] eqn:Ev; [|done]. specialize (Hsoft i f eq_refl). specialize (Hvn w).
  rewrite Ev in Hvn. cbn in Hvn. rewrite Hsoft in Hvn. pose proof (Hvo (current_as s) w Hne) as Hv1. rewrite Ev in Hv1.
  destruct (view_entry _ _ _ _ _ s' _ w _ HI' Hv1) as (sp1 & o1 & e1 & _ & _ & He1 & Ha1 & _ & [= -> ->] & _).
  destruct (view_entry _ _ _ _ _ s' _ w _ HI' Hvn) as (sp2 & o2 & e2 & _ & _ & He2 & Ha2 & _ & [= Ei Ef] & _).
  split; [by apply (soft_not_device hwp ext s' o1 e1)|].
  destruct (i_haspage _ _ _ _ _ _ _ _ _ _ _ HI' o1 e1 He1) as [p Hp]; [set_solver|]. exists p. split; [done|]. left.
  rewrite Ei in Hp. destruct (snapshot_counts hwp ext s' o2 e2 p HI' He2 Hp) as [_ Hs].
  split; [by rewrite <- Ef in Hs; specialize (Hs eq_refl); lia|]. split; [|done].
  destruct (i_page _ _ _ _ _ _ _ _ _ _ _ HI' _ p Hp) as (_ & _ & _ & Hrc & _ & _ & Hx). cbn in Hx.
  assert (o1 ∈ owner p /\ o2 ∈ owner p) as [O1 O2].
  { split; apply (i_owner _ _ _ _ _ _ _ _ _ _ _ HI' _ p _ Hp); (split; [set_solver|eauto]). }
  destruct (owner p) as [|x [|y l]]; [by apply elem_of_nil in O1| |cbn in Hrc; lia].
  apply list_elem_of_singleton in O1 as ->. apply list_elem_of_singleton in O2 as ->. congruence.
Qed.

(** A store through a writable entry of one page leaves other pages alone. *)
Definition store (x k v : Z) s : mm R := set_phys (fun y => if y =? pte_get_base x + k then v else phys s y) s.

Lemma store_elsewhere hwp ext s n np x k v b w j :
  mm_ok hwp ext s -> pgs s !! n = Some np -> pte_get_base x = phys_addr np -> 0 <= k < 4096 -> 0 <= j < 4096 ->
  (forall f, view s b w <> Some (n, f)) -> byte (store x k v s) b w j = byte s b w j.
Proof.
  intros HI Hn Hx Hk Hj Hv. unfold byte. change (view (store x k v s) b w) with (view s b w).
  destruct (view s b w) as [[i f]|] eqn:Ev; [|done]. cbn. destruct (pgs s !! i) as [q|] eqn:Hq; [|done]. cbn. f_equal. rewrite Hx.
  destruct (i_page _ _ _ _ _ _ _ _ _ _ _ HI i q Hq) as (_ & (_ & M1 & _) & R1 & _).
  destruct (i_page _ _ _ _ _ _ _ _ _ _ _ HI n np Hn) as (_ & (_ & M2 & _) & R2 & _).
  destruct (Z.eqb_spec (phys_addr q + j) (phys_addr np + k)) as [E|]; [|done]. exfalso.
  apply Z.mod_divide in M1 as [c1 C1]; [|done]. apply Z.mod_divide in M2 as [c2 C2]; [|done].
  assert (phys_addr q = phys_addr np) as Ep by lia. rewrite Ep in R1. apply (Hv f). congruence.
Qed.
End snapshot.
