(* ===== verification/MmProps.v ===== *)
(** What the memory manager promises: assigning and unassigning pages,
    unsharing, page faults and snapshots of address spaces, with concrete states
    they apply to. *)
From S2P Require Import Prelude Bits Irq Binradix Alloc MmState PageMan Aspace Copy VmaProofs MmInv MmOps Cow Fault Snapshot.

Section props.
Context {R : Type} `{!RadixMap R id}.
Implicit Types s : mm R.

(** [address_space_assign_page] returns -1 on an address that is not page
    aligned and 0, without assigning anything, outside every area; else the
    address, and no other, shows page [i], and every other address shows the
    bytes it showed. *)
Theorem assign_page_correct hwp ext s a sp i p vaddr flags :
  mm_ok hwp ext s -> spaces s !! a = Some sp -> pgs s !! i = Some p -> 0 <= vaddr < 2 ^ 63 ->
  kind_ok hwp (mkEntry i a vaddr flags) -> ref_count p + 1 < 2 ^ 64 -> (view s a vaddr = None \/ 1 <= ext i) ->
  exists r s', address_space_assign_page a i vaddr flags s = Done r s'
  /\ (vaddr mod 4096 <> 0 -> r = -1 /\ s' = s)
  /\ (vaddr mod 4096 = 0 -> r = 0 /\ match find_vma (vma sp) vaddr with
      | None => s' = s
      | Some _ => mm_ok hwp ext s' /\ keeps s s' /\ (forall b, layout s' b = layout s b)
          /\ (forall b w, view s' b w = set_view a vaddr (Some (i, flags)) (view s) b w)
          /\ (forall k, byte s' a vaddr k = Some (phys s (phys_addr p + k)))
          /\ forall b w k, ~ (b = a /\ w = vaddr) -> byte s' b w k = byte s b w k
      end).
Proof.
  intros HI Hsp Hp Hv Hk Hr Hroom. unfold address_space_assign_page.
  destruct (IS_ALIGNED vaddr PAGE_SIZE_BIT) eqn:Eal; cbn [negb].
  - apply IS_ALIGNED_iff in Eal; [|unfold PAGE_SIZE_BIT; lia]. change (2 ^ PAGE_SIZE_BIT) with 4096 in Eal.
    erewrite bind_eq; [|by eapply locked_find].
    destruct (find_vma (vma sp) vaddr) as [v|] eqn:Ef; [|by exists 0, s].
    destruct (assign_page_ok hwp ext s a i vaddr (vma_id v) flags p) as
      (s' & E & HI' & K & F & Hv' & _ & (p' & Hp' & Hpa) & Hlay & Hfr & _ & _); try done.
    exists 0, s'. split; [erewrite bind_eq; [apply mret_eq|exact E]|]. split; [done|]. intros _. split; [done|].
    split_and!; try done.
    + intros k. unfold byte. rewrite Hv'. unfold set_view. rewrite decide_True by done. cbn. rewrite Hp'. cbn.
      by rewrite Hpa, F.
    + intros b w k Hne. apply (byte_view hwp ext hwp ext); try done. rewrite Hv'. unfold set_view. by rewrite decide_False.
  - exists (-1), s. split; [done|]. split; [done|]. intros Hz. exfalso.
    rewrite (proj2 (IS_ALIGNED_iff vaddr PAGE_SIZE_BIT ltac:(unfold PAGE_SIZE_BIT; lia))) in Eal by done. done.
Qed.

(** [unassign_page] on an entry: its address shows nothing any more and is not
    mapped, every other address shows the bytes it showed, the entry is freed,
    and the page is freed with its last reference. *)
Theorem unassign_page_correct hwp ext s pe e p :
  mm_ok hwp ext s -> entries s !! pe = Some e -> pgs s !! pe_p e = Some p ->
  exists s', unassign_page pe s = Done () s' /\ mm_ok hwp ext s' /\ keeps s s' /\ entries s' = delete pe (entries s)
    /\ (forall b, layout s' b = layout s b)
    /\ (forall b w, view s' b w = set_view (pe_as e) (pe_vaddr e) None (view s) b w)
    /\ mapped s' (pe_as e) (pe_vaddr e) = None
    /\ (forall b w k, ~ (b = pe_as e /\ w = pe_vaddr e) -> byte s' b w k = byte s b w k)
    /\ (is_Some (pgs s' !! pe_p e) <-> ref_count p <> 1).
Proof.
  intros HI He Hp. destruct (i_entry _ _ _ _ _ _ _ _ _ _ _ HI pe e He) as (_ & _ & [[r t] Hc]).
  destruct (cores_Some _ _ _ _ Hc) as (sp & Hsp & _).
  destruct (unassign_page_ok hwp ext s pe e p sp HI He Hp Hsp) as
    (s' & r' & E & HI' & K & F1 & F2 & F3 & F4 & F5 & F6 & F7).
  pose proof (unassign_view hwp ext s s' pe e sp r' HI He Hsp F3 F5 F6) as Hview.
  exists s'. split_and!; try done.
  - intros b. by apply (layout_insert s s' (pe_as e) sp _ b Hsp F6), shape_drop.
  - apply (unshown_unmapped hwp ext s'); [done|]. rewrite Hview. unfold set_view. by rewrite decide_True.
  - intros b w k Hne. apply (byte_view hwp ext hwp ext); try done.
    + intros x q Hq. rewrite F7 in Hq. destruct (_ =? 1).
      * apply lookup_delete_Some in Hq as [_ Hq]. eauto.
      * apply lookup_insert_Some in Hq as [[<- <-]|[_ Hq]]; eauto.
    + rewrite Hview. unfold set_view. by rewrite decide_False.
  - rewrite F7. destruct (Z.eqb_spec (ref_count p) 1) as [E1|E1].
    + rewrite lookup_delete_eq. split; [by intros [? ?]|done].
    + rewrite lookup_insert_eq. split; [done|by eexists].
Qed.

(** C9: [unshare_page] on an entry of the current address space whose page has
    snapshots and other users: the entry gets a page without snapshots, nobody
    sees different bytes, and the other users of that page are shared owners of
    the old one. *)
Theorem unshare_page_private hwp ext s pe e p0 :
  mm_ok hwp ext s -> entries s !! pe = Some e -> pe_as e = current_as s -> pe_p e ∉ hwp -> pgs s !! pe_p e = Some p0 ->
  0 < snap_count p0 -> 2 <= ref_count p0 -> free_pages (alloc s) <> [] ->
  exists s' n, unshare_page pe s = Done () s' /\ unshared hwp ext s e s' n.
Proof. apply unshare_page_ok. Qed.


(** A read fault is served: the address is mapped to the page it shows (the
    zero page if nothing is assigned to it), writable only if no snapshot of
    that page is left. *)
Theorem read_fault_correct hwp ext s vaddr v sp zp err :
  fault_at hwp ext s vaddr v sp zp -> GET_BIT err 2 <> 0 -> Z.land err PTE_W = 0 ->
  mapped s (current_as s) (ALIGN vaddr PAGE_SIZE_BIT) = None ->
  exists s', page_fault_handler err vaddr s = Done (0, None) s' /\ read_served hwp ext s (ALIGN vaddr PAGE_SIZE_BIT) s'.
Proof. apply read_fault_ok. Qed.

(** C3: [as_snapshot], on which fork is built: the new address space shows the pages
    of the current one, all as snapshots, except those of devices; it has a copy
    of every area that is not a device's; no other address space shows anything
    else than before. *)
Theorem as_snapshot_correct hwp ext s new sp spn :
  snap_ready hwp ext s new sp spn ->
  exists s', as_snapshot new s = Done () s' /\ snapshot_taken hwp ext s new sp s'.
Proof. apply as_snapshot_ok. Qed.

(** C1: After [as_snapshot], a write of the original to any of its writable
    addresses faults and is served, and the store that follows, whatever it
    writes, is not seen by the snapshot: it keeps showing the bytes the original
    showed when it was taken. *)
Theorem snapshot_isolation hwp ext s new sp spn vaddr v zp err :
  snap_ready hwp ext s new sp spn -> fault_at hwp ext s vaddr v sp zp -> flag VMA_RW (vma_flags v) = true ->
  free_pages (alloc s) <> [] -> GET_BIT err 2 <> 0 -> Z.land err PTE_W <> 0 ->
  (forall i f, view s (current_as s) (ALIGN vaddr PAGE_SIZE_BIT) = Some (i, f) -> flag PF_HARDWARE f = false) ->
  exists s1 s2 x, as_snapshot new s = Done () s1 /\ page_fault_handler err vaddr s1 = Done (0, None) s2
  /\ mapped s2 (current_as s) (ALIGN vaddr PAGE_SIZE_BIT) = Some x /\ flag PTE_W x = true
  /\ forall k b w j, 0 <= k < 4096 -> 0 <= j < 4096 -> byte (store x k b s2) new w j = child_byte s w j.
Proof.
  intros N F Hrw Hfree Herr Hw Hsoft. pose proof (n_ok _ _ _ _ _ _ N) as HI. pose proof (n_ne _ _ _ _ _ _ N) as Hne.
  destruct (as_snapshot_ok hwp ext s new sp spn N) as (s1 & E1 & T). pose proof T as (HI1 & (K1 & _) & _ & _ & _ & _ & _ & _ & Hvn & _).
  destruct (snapshot_fault hwp ext s new sp spn s1 vaddr v zp N T F) as (v1 & sp1 & zp1 & F1 & Hfl).
  destruct (write_fault_ok hwp ext s1 vaddr v1 sp1 zp1 err F1 Herr Hw) as (s2 & E2 & n & np & x & W1 & W2 & W3 & W4 & W5 & W6 & W7 & W8 & W9 & W10 & W11);
    [by rewrite Hfl|by apply (snapshot_can_write hwp ext s new sp spn)|]. rewrite K1 in *.
  exists s1, s2, x. split_and!; try done. intros k b w j Hk Hj.
  rewrite (store_elsewhere hwp ext s2 n np); try done.
  - rewrite W10; [by apply (snapshot_bytes hwp ext s new sp)|done|]. intros [? _]. congruence.
  - intros f Hf. destruct (W11 new w f Hf) as [_ Hold]; [intros [? _]; congruence|]. rewrite Hvn in Hold.
    destruct (view s (current_as s) w) as [[i g]|]; [|done]. cbn in Hold. by destruct (flag PF_HARDWARE g).
Qed.
End props.

(** ** Witnesses *)
Lemma inv_start {R : Type} `{!RadixMap R id} al own live (C : gmap id (R * gmap Z Z)) ph n :
  mem_ok al own live -> r_ok ph -> r_map ph = ∅ ->
  (forall a r t, C !! a = Some (r, t) -> r_ok r /\ r_map r = ∅ /\ t = ∅) ->
  inv ∅ (fun _ => 0) (fun _ => 0) ∅ ∅ al C ph ∅ ∅ n.
Proof.
  intros Hm Hph Hmp HC. constructor; try done.
  - intros a r t Ha. by destruct (HC a r t Ha).
  - intros a r t v pe Ha. destruct (HC a r t Ha) as (_ & -> & _). rewrite lookup_empty. split; [done|].
    intros (_ & e & He & _). done.
  - intros x i. by rewrite Hmp, lookup_empty.
  - intros a r t v x Ha. destruct (HC a r t Ha) as (_ & _ & ->). by rewrite lookup_empty.
  - exists own, live. split; [done|]. intros i p. by rewrite lookup_empty.
Qed.

(** Address space 1 is current and has one writable area and one that is not;
    address space 2 is empty; page 3 is the zero page. *)
Definition ex_vmas : list vm_area := [mkVma 5 VMA_RW 0 0x400000 0x2000 []; mkVma 6 0 0 0x500000 0x1000 []].
Definition ex_cur : address_space (gmap Z id) := mkAs ∅ ex_vmas USER_BASE USER_TOP 0 ∅.
Definition ex_empty : address_space (gmap Z id) := mkAs ∅ [] USER_BASE USER_TOP 0 ∅.
Definition ex_booted : mm (gmap Z id) :=
  mkMm ex_mem (fun x => x mod 256) 10 ∅ ∅ ∅ {[1%positive := ex_cur; 2%positive := ex_empty]} 1 10.
Definition ex_ext : id -> Z := bump (fun _ => 0) 10 1.
Definition ex_zero : page := mkPage 0x2000 0 1 0 [].
Definition ex_alloc : mem :=
  mkMem 0 [ex_page 3; ex_page 4] [] (At ex_mrng) false
        (mkPool (ex_page 1) [] [ex_page 1] 40 4048) {[ex_mrng := mkPool 0 [] [] 24 0]}.
Definition ex_ready : mm (gmap Z id) :=
  mkMm ex_alloc (fun x => x mod 256) 11 {[10%positive := ex_zero]} {[0x2000 := 10%positive]} ∅
    {[1%positive := ex_cur; 2%positive := ex_empty]} 1 10.

Lemma ex_ready_ok : mm_ok ∅ ex_ext ex_ready.
Proof.
  assert (mm_ok ∅ (fun _ => 0) ex_booted) as H0.
  { apply (inv_start _ _ _ _ _ _ ex_mem_ok); [done|done|]. intros a r t Ha. unfold cores in Ha. rewrite lookup_fmap in Ha.
    apply fmap_Some in Ha as (sp & Hsp & [= -> ->]). cbn in Hsp.
    apply lookup_insert_Some in Hsp as [[_ <-]|[_ Hsp]]; [done|]. by apply lookup_singleton_Some in Hsp as [_ <-]. }
  apply (inv_new_page _ _ _ _ _ _ _ _ _ _ _ H0 (ex_page 2) [ex_page 3; ex_page 4] ex_alloc {[0x2000 := 10%positive]});
    [done|by vm_compute|done|done].
Qed.

Lemma ex_fault : fault_at ∅ ex_ext ex_ready 0x400123 (mkVma 5 VMA_RW 0 0x400000 0x2000 []) ex_cur ex_zero.
Proof.
  constructor; try done; [apply ex_ready_ok|]. repeat constructor.
Qed.

Lemma assign_page_correct_witness :
  exists r s', address_space_assign_page 1 10 0x400000 PF_SHARED ex_ready = Done r s'
  /\ (0x400000 mod 4096 <> 0 -> r = -1 /\ s' = ex_ready)
  /\ (0x400000 mod 4096 = 0 -> r = 0 /\ match find_vma (vma ex_cur) 0x400000 with
      | None => s' = ex_ready
      | Some _ => mm_ok ∅ ex_ext s' /\ keeps ex_ready s' /\ (forall b, layout s' b = layout ex_ready b)
          /\ (forall b w, view s' b w = set_view 1 0x400000 (Some (10%positive, PF_SHARED)) (view ex_ready) b w)
          /\ (forall k, byte s' 1 0x400000 k = Some (phys ex_ready (phys_addr ex_zero + k)))
          /\ forall b w k, ~ (b = 1%positive /\ w = 0x400000) -> byte s' b w k = byte ex_ready b w k
      end).
Proof.
  apply (assign_page_correct ∅ ex_ext ex_ready 1 ex_cur 10 ex_zero 0x400000 PF_SHARED ex_ready_ok);
    [reflexivity|reflexivity|lia| |reflexivity|left; reflexivity].
  left. reflexivity.
Defined.

(** The zero page assigned as a snapshot to 0x400000. *)
Definition ex_shown : mm (gmap Z id) :=
  match address_space_assign_page_no_addr_check 1 10 0x400000 5 PF_SNAPSHOT ex_ready with
  | Done _ s => s | _ => ex_ready end.
Definition ex_entry : page_entry := mkEntry 10 1 0x400000 PF_SNAPSHOT.
Definition ex_shared : page := mkPage 0x2000 0 2 1 [11%positive].

Lemma ex_shown_ok : mm_ok ∅ ex_ext ex_shown
  /\ forall b w, view ex_shown b w = set_view 1 0x400000 (Some (10%positive, PF_SNAPSHOT)) (view ex_ready) b w.
Proof.
  destruct (assign_page_ok ∅ ex_ext ex_ready 1 10 0x400000 5 PF_SNAPSHOT ex_zero ex_ready_ok) as (s & E & HI & _ & _ & Hv & _);
    [done|by eexists|done|by right|done|by left|].
  unfold ex_shown. by rewrite E.
Qed.

Lemma unassign_page_correct_witness :
  exists s', unassign_page 11 ex_shown = Done () s' /\ mm_ok ∅ ex_ext s' /\ keeps ex_shown s'
    /\ entries s' = delete 11%positive (entries ex_shown) /\ (forall b, layout s' b = layout ex_shown b)
    /\ (forall b w, view s' b w = set_view 1 0x400000 None (view ex_shown) b w)
    /\ mapped s' 1 0x400000 = None
    /\ (forall b w k, ~ (b = 1%positive /\ w = 0x400000) -> byte s' b w k = byte ex_shown b w k)
    /\ (is_Some (pgs s' !! 10%positive) <-> ref_count ex_shared <> 1).
Proof.
  apply (unassign_page_correct ∅ ex_ext ex_shown 11 ex_entry ex_shared (proj1 ex_shown_ok)); by vm_compute.
Defined.

Lemma unshare_page_private_witness :
  exists s' n, unshare_page 11 ex_shown = Done () s' /\ unshared ∅ ex_ext ex_shown ex_entry s' n.
Proof.
  apply (unshare_page_private ∅ ex_ext ex_shown 11 ex_entry ex_shared (proj1 ex_shown_ok)); by vm_compute.
Defined.


Lemma read_fault_correct_witness :
  exists s', page_fault_handler 4 0x400123 ex_ready = Done (0, None) s' /\ read_served ∅ ex_ext ex_ready 0x400000 s'.
Proof.
  apply (read_fault_correct ∅ ex_ext ex_ready 0x400123 _ ex_cur ex_zero 4 ex_fault); by vm_compute.
Defined.

(** Address space 1 as it is in [ex_shown]. *)
Definition ex_parent : address_space (gmap Z id) :=
  mkAs {[0x400000 := 11%positive]}
    [mkVma 5 VMA_RW 0 0x400000 0x2000 [11%positive]; mkVma 6 0 0 0x500000 0x1000 []] USER_BASE USER_TOP 0 ∅.

Lemma ex_snap_ready : snap_ready ∅ ex_ext ex_shown 2 ex_parent ex_empty.
Proof.
  destruct ex_shown_ok as [HI Hv]. constructor; try done.
  - intros v Hin _. apply elem_of_cons in Hin as [->|Hin]; [split_and!; by vm_compute|].
    apply list_elem_of_singleton in Hin as ->. split_and!; by vm_compute.
  - intros w i f. change (current_as ex_shown) with 1%positive. rewrite Hv. unfold set_view. case_decide as Hd.
    + intros [= <- <-] _. destruct Hd as [_ ->]. eexists. split; [by left|]. split; [done|]. by vm_compute.
    + intros (sp & _ & (pe & Hpe & (e & He & _)%bind_Some)%bind_Some)%bind_Some. done.
  - intros i. unfold ex_ext, bump. cbn. case_decide; by vm_compute.
Qed.

Lemma ex_shown_fault :
  fault_at ∅ ex_ext ex_shown 0x400123 (mkVma 5 VMA_RW 0 0x400000 0x2000 [11%positive]) ex_parent ex_shared.
Proof.
  constructor; try done; [apply ex_shown_ok|]. repeat constructor.
Qed.

Lemma as_snapshot_correct_witness :
  exists s', as_snapshot 2 ex_shown = Done () s' /\ snapshot_taken ∅ ex_ext ex_shown 2 ex_parent s'.
Proof. exact (as_snapshot_correct ∅ ex_ext ex_shown 2 ex_parent ex_empty ex_snap_ready). Defined.

Lemma snapshot_isolation_witness :
  exists s1 s2 x, as_snapshot 2 ex_shown = Done () s1 /\ page_fault_handler 6 0x400123 s1 = Done (0, None) s2
  /\ mapped s2 1 0x400000 = Some x /\ flag PTE_W x = true
  /\ forall k b w j, 0 <= k < 4096 -> 0 <= j < 4096 -> byte (store x k b s2) 2 w j = child_byte ex_shown w j.
Proof.
  apply (snapshot_isolation ∅ ex_ext ex_shown 2 ex_parent ex_empty 0x400123 _ ex_shared 6 ex_snap_ready ex_shown_fault);
    [by vm_compute..|].
  intros i f E. vm_compute in E. injection E as _ <-. reflexivity.
Defined.
