(* ===== verification/Kernel.v ===== *)
(** The state of tasks and of inter-process communication ([sys/sched.c],
    [sys/ipc/], [sys/services/]).

    Requests, ports, cookies and messages live in the [file_pool] of a task; an
    object is named by a [positive] that is never reused and [heap] maps the
    live ones, each with the task whose pool holds it.  Destroying a pool frees
    all its objects; using a freed object is [Faulted].  The intrusive list
    nodes are represented by the lists they are on: [next_req] of a request by
    [up_clients] or [int_wait_list], [tasks] of a task by [runq] or
    [port_wait_list].  Linking a node that is linked already, or unlinking one
    that is not, corrupts the C lists and is [Faulted]. *)
From S2P Require Import Prelude Bits Irq Binradix Alloc MmState PageMan Aspace FdTable Copy.

Definition ENOENT : Z := 2.
Definition EAGAIN : Z := 11.
Definition EBUSY : Z := 16.
Definition EPIPE : Z := 32.
Definition MAX_PORT : Z := 4096.

Inductive rtype : Type := REQ_COOKIE | REQ_REQUEST | REQ_PORT | REQ_PORT_REQ | REQ_PORT_COOKIE.
Inductive rstate : Type := REQ_SERVER | REQ_PENDING | REQ_ESTABLISHED | REQ_CLOSED.
#[export] Instance rtype_eq_dec : EqDecision rtype.
Proof. solve_decision. Defined.
#[export] Instance rstate_eq_dec : EqDecision rstate.
Proof. solve_decision. Defined.

(** Which [struct req_ops] and [struct port_ops] a request or port points to. *)
Inductive ops : Type := UportServer | UportClient | IntOps | PortioOps | MemOps | BdaOps | TarfsOps.
Inductive pops : Type := UportPops | IntPops | PortioPops | MemPops | BdaPops | TarfsPops.
#[export] Instance ops_eq_dec : EqDecision ops.
Proof. solve_decision. Defined.

(** The [void *data] of a request: NULL, a pointer to an object, an integer, or
    the memory service's [struct mem_data]. *)
Inductive rdata : Type := DNull | DPtr (i : id) | DInt (z : Z) | DMem (buf len : Z).

Record request := mkReq {
  rq_type : rtype;
  rq_state : rstate;
  rq_owner : id;
  rq_ops : option ops;
  rq_data : rdata;
  waited_rw : Z;
}.

Record uport := mkUport { up_incoming : list id; up_port_number : Z }.
Record uport_req := mkUreq { ur_clients : list id; ur_incoming : list id }.
(** The response: NULL, [(void * )1], or a page list. *)
Inductive reply : Type := NoReply | EmptyReply | Reply (plh : page_list_head).
Record uport_cookie := mkCookie { ck_client : option id; ck_response : reply; ck_owner : id }.
Record message := mkMsg { ms_plh : option page_list_head; ms_client : id }.

Inductive obj : Type :=
| OReq (r : request)
| OUport (u : uport)
| OUreq (u : uport_req)
| OCookie (c : uport_cookie)
| OMsg (m : message).

Inductive task_state : Type := TASK_RUNNABLE | TASK_RUNNING | TASK_WAITING | TASK_ZOMBIE.
#[export] Instance task_state_eq_dec : EqDecision task_state.
Proof. solve_decision. Defined.

Record task := mkTask {
  t_state : task_state;
  t_fds : fdtable id;
  t_astable : fdtable id;
  t_as : option id;
  t_pid : Z;
  t_parent : option id;
  t_children : list id;
  t_priority : Z;
  t_exit_code : Z;
  t_ti : list Z;
}.

Record kernel (R : Type) := mkK {
  k_mm : mm R;
  k_tasks : gmap id task;
  k_heap : gmap id (id * obj);
  k_next : id;
  current : id;
  idle_task : id;
  runq : list id;
  to_kill : option id;
  pids : gmap Z id;
  port : gmap Z pops;
  uport_tab : gmap Z id;
  port_wait_list : gmap Z (list id);
  int_wait_list : gmap Z (list id);
  free_range : list (Z * Z);
}.
Arguments mkK {R}.
Arguments k_mm {R}.
Arguments k_tasks {R}.
Arguments k_heap {R}.
Arguments k_next {R}.
Arguments current {R}.
Arguments idle_task {R}.
Arguments runq {R}.
Arguments to_kill {R}.
Arguments pids {R}.
Arguments port {R}.
Arguments uport_tab {R}.
Arguments port_wait_list {R}.
Arguments int_wait_list {R}.
Arguments free_range {R}.

Section kernel.
Context {R : Type}.
Implicit Types k : kernel R.

Definition set_mm (m : mm R) k : kernel R :=
  mkK m (k_tasks k) (k_heap k) (k_next k) (current k) (idle_task k) (runq k) (to_kill k) (pids k)
      (port k) (uport_tab k) (port_wait_list k) (int_wait_list k) (free_range k).
Definition set_tasks (t : gmap id task) k : kernel R :=
  mkK (k_mm k) t (k_heap k) (k_next k) (current k) (idle_task k) (runq k) (to_kill k) (pids k)
      (port k) (uport_tab k) (port_wait_list k) (int_wait_list k) (free_range k).
Definition set_heap (h : gmap id (id * obj)) k : kernel R :=
  mkK (k_mm k) (k_tasks k) h (k_next k) (current k) (idle_task k) (runq k) (to_kill k) (pids k)
      (port k) (uport_tab k) (port_wait_list k) (int_wait_list k) (free_range k).
Definition set_knext (n : id) k : kernel R :=
  mkK (k_mm k) (k_tasks k) (k_heap k) n (current k) (idle_task k) (runq k) (to_kill k) (pids k)
      (port k) (uport_tab k) (port_wait_list k) (int_wait_list k) (free_range k).
Definition set_current (c : id) k : kernel R :=
  mkK (k_mm k) (k_tasks k) (k_heap k) (k_next k) c (idle_task k) (runq k) (to_kill k) (pids k)
      (port k) (uport_tab k) (port_wait_list k) (int_wait_list k) (free_range k).
Definition set_runq (l : list id) k : kernel R :=
  mkK (k_mm k) (k_tasks k) (k_heap k) (k_next k) (current k) (idle_task k) l (to_kill k) (pids k)
      (port k) (uport_tab k) (port_wait_list k) (int_wait_list k) (free_range k).
Definition set_to_kill (o : option id) k : kernel R :=
  mkK (k_mm k) (k_tasks k) (k_heap k) (k_next k) (current k) (idle_task k) (runq k) o (pids k)
      (port k) (uport_tab k) (port_wait_list k) (int_wait_list k) (free_range k).
Definition set_pids (p : gmap Z id) k : kernel R :=
  mkK (k_mm k) (k_tasks k) (k_heap k) (k_next k) (current k) (idle_task k) (runq k) (to_kill k) p
      (port k) (uport_tab k) (port_wait_list k) (int_wait_list k) (free_range k).
Definition set_port (p : gmap Z pops) k : kernel R :=
  mkK (k_mm k) (k_tasks k) (k_heap k) (k_next k) (current k) (idle_task k) (runq k) (to_kill k) (pids k)
      p (uport_tab k) (port_wait_list k) (int_wait_list k) (free_range k).
Definition set_uport (p : gmap Z id) k : kernel R :=
  mkK (k_mm k) (k_tasks k) (k_heap k) (k_next k) (current k) (idle_task k) (runq k) (to_kill k) (pids k)
      (port k) p (port_wait_list k) (int_wait_list k) (free_range k).
Definition set_port_wait (p : gmap Z (list id)) k : kernel R :=
  mkK (k_mm k) (k_tasks k) (k_heap k) (k_next k) (current k) (idle_task k) (runq k) (to_kill k) (pids k)
      (port k) (uport_tab k) p (int_wait_list k) (free_range k).
Definition set_int_wait (p : gmap Z (list id)) k : kernel R :=
  mkK (k_mm k) (k_tasks k) (k_heap k) (k_next k) (current k) (idle_task k) (runq k) (to_kill k) (pids k)
      (port k) (uport_tab k) (port_wait_list k) p (free_range k).
Definition set_free_range (l : list (Z * Z)) k : kernel R :=
  mkK (k_mm k) (k_tasks k) (k_heap k) (k_next k) (current k) (idle_task k) (runq k) (to_kill k) (pids k)
      (port k) (uport_tab k) (port_wait_list k) (int_wait_list k) l.

#[export] Program Instance kernel_irq : HasIrq (kernel R) := {
  irq k := irq (k_mm k);
  set_irq n k := set_mm (set_irq n (k_mm k)) k;
}.
Solve Obligations with (intros; try done; destruct s as [[[]]]; done).

(** Memory-manager code run on the kernel's [mm]. *)
Definition mm_lift {A} (m : M (mm R) A) : M (kernel R) A := fun k =>
  match m (k_mm k) with
  | Done a s => Done a (set_mm s k)
  | Panicked msg => Panicked msg
  | Faulted => Faulted
  end.

Definition get_task (t : id) : M (kernel R) task := o ← gets (fun k => k_tasks k !! t); deref o.
Definition put_task (t : id) (x : task) : M (kernel R) () := modify (fun k => set_tasks (<[t := x]> (k_tasks k)) k).
Definition get_current : M (kernel R) task := c ← gets current; get_task c.
Definition put_current (x : task) : M (kernel R) () := c ← gets current; put_task c x.

Definition with_state (st : task_state) (t : task) : task :=
  mkTask st (t_fds t) (t_astable t) (t_as t) (t_pid t) (t_parent t) (t_children t) (t_priority t) (t_exit_code t) (t_ti t).
Definition with_fds (f : fdtable id) (t : task) : task :=
  mkTask (t_state t) f (t_astable t) (t_as t) (t_pid t) (t_parent t) (t_children t) (t_priority t) (t_exit_code t) (t_ti t).
Definition with_astable (f : fdtable id) (t : task) : task :=
  mkTask (t_state t) (t_fds t) f (t_as t) (t_pid t) (t_parent t) (t_children t) (t_priority t) (t_exit_code t) (t_ti t).
Definition with_parent (p : option id) (t : task) : task :=
  mkTask (t_state t) (t_fds t) (t_astable t) (t_as t) (t_pid t) p (t_children t) (t_priority t) (t_exit_code t) (t_ti t).
Definition with_children (l : list id) (t : task) : task :=
  mkTask (t_state t) (t_fds t) (t_astable t) (t_as t) (t_pid t) (t_parent t) l (t_priority t) (t_exit_code t) (t_ti t).

(** ** Objects of the file pools *)
Definition new_obj (pool : id) (o : obj) : M (kernel R) id :=
  get_task pool;;
  i ← gets k_next;
  modify (fun k => set_heap (<[i := (pool, o)]> (k_heap k)) (set_knext (Pos.succ i) k));;
  mret i.
(** [obj_pool_free(t->file_pool, i)]. *)
Definition free_obj (pool i : id) : M (kernel R) () :=
  get_task pool;;
  o ← gets (fun k => k_heap k !! i);
  deref o;;
  modify (fun k => set_heap (delete i (k_heap k)) k).
Definition get_obj (i : id) : M (kernel R) (id * obj) := o ← gets (fun k => k_heap k !! i); deref o.
Definition put_obj (i : id) (o : obj) : M (kernel R) () :=
  '(pool, _) ← get_obj i; modify (fun k => set_heap (<[i := (pool, o)]> (k_heap k)) k).

Definition get_req (i : id) : M (kernel R) request :=
  '(_, o) ← get_obj i; match o with OReq r => mret r | _ => fault end.
Definition put_req (i : id) (r : request) : M (kernel R) () := put_obj i (OReq r).
Definition get_uport (i : id) : M (kernel R) uport :=
  '(_, o) ← get_obj i; match o with OUport u => mret u | _ => fault end.
Definition get_ureq (i : id) : M (kernel R) uport_req :=
  '(_, o) ← get_obj i; match o with OUreq u => mret u | _ => fault end.
Definition get_cookie (i : id) : M (kernel R) uport_cookie :=
  '(_, o) ← get_obj i; match o with OCookie c => mret c | _ => fault end.
Definition get_msg (i : id) : M (kernel R) message :=
  '(_, o) ← get_obj i; match o with OMsg m => mret m | _ => fault end.
Definition ptr (d : rdata) : M (kernel R) id := match d with DPtr i => mret i | _ => fault end.

Definition with_type (t : rtype) (r : request) : request :=
  mkReq t (rq_state r) (rq_owner r) (rq_ops r) (rq_data r) (waited_rw r).
Definition with_rstate (s : rstate) (r : request) : request :=
  mkReq (rq_type r) s (rq_owner r) (rq_ops r) (rq_data r) (waited_rw r).
Definition with_ops (o : ops) (r : request) : request :=
  mkReq (rq_type r) (rq_state r) (rq_owner r) (Some o) (rq_data r) (waited_rw r).
Definition with_data (d : rdata) (r : request) : request :=
  mkReq (rq_type r) (rq_state r) (rq_owner r) (rq_ops r) d (waited_rw r).
Definition with_waited (w : Z) (r : request) : request :=
  mkReq (rq_type r) (rq_state r) (rq_owner r) (rq_ops r) (rq_data r) w.

(** [list_del(&req->next_req)]. *)
Definition on_list (i : id) (l : list id) : bool := bool_decide (i ∈ l).
Definition unlink (i : id) (l : list id) : list id := filter (fun j => j <> i) l.
Definition unlink_obj (i : id) (o : id * obj) : id * obj :=
  match o with
  | (pool, OUreq u) => (pool, OUreq (mkUreq (unlink i (ur_clients u)) (ur_incoming u)))
  | _ => o
  end.
Definition obj_links (i : id) (o : id * obj) : bool :=
  match o with (_, OUreq u) => on_list i (ur_clients u) | _ => false end.
Definition req_linked (i : id) k : bool :=
  existsb (fun o => obj_links i o.2) (map_to_list (k_heap k))
  || existsb (fun l => on_list i l.2) (map_to_list (int_wait_list k)).
Definition req_unlink (i : id) : M (kernel R) () :=
  b ← gets (req_linked i);
  if b : bool then
    modify (fun k => set_heap (unlink_obj i <$> k_heap k)
                       (set_int_wait (unlink i <$> int_wait_list k) k))
  else fault.

(** ** Waking up *)
(** [list_add(&runq, &t->tasks)], [list_add_tail]: the node must be free. *)
Definition task_linked (t : id) k : bool :=
  on_list t (runq k) || existsb (fun l => on_list t l.2) (map_to_list (port_wait_list k)).
Definition runq_add (t : id) : M (kernel R) () :=
  b ← gets (task_linked t);
  if b : bool then fault else modify (fun k => set_runq (t :: runq k) k).
Definition runq_add_tail (t : id) : M (kernel R) () :=
  b ← gets (task_linked t);
  if b : bool then fault else modify (fun k => set_runq (runq k ++ [t]) k).

Definition wake_up (t : id) : M (kernel R) () :=
  x ← get_task t;
  if decide (t_state x = TASK_WAITING) then
    put_task t (with_state TASK_RUNNABLE x);; runq_add t
  else mret ().

Definition set_task_state (st : task_state) : M (kernel R) () :=
  x ← get_current; put_current (with_state st x).

(** ** Structures in user memory *)
Fixpoint le_bytes (n : nat) (x : Z) : list Z :=
  match n with O => [] | S n => x mod 256 :: le_bytes n (x / 256) end.
Fixpoint le_num (l : list Z) : Z := match l with [] => 0 | b :: l => b + 256 * le_num l end.
Definition field (off n : nat) (l : list Z) : Z := le_num (take n (drop off l)).

Definition enc_response (len buf : Z) : list Z := le_bytes 8 (u64 len) ++ le_bytes 8 (u64 buf).
Definition enc_urequest (len buf pid : Z) : list Z :=
  le_bytes 8 (u64 len) ++ le_bytes 8 (u64 buf) ++ le_bytes 4 (u32 pid) ++ replicate 4 0.
Definition sizeof_fd_set : Z := 72.
Definition enc_fd_set (f : fd_set) : list Z :=
  le_bytes 4 (u32 (nfds f)) ++ replicate 4 0 ++ concat (le_bytes 8 <$> bitmask f).
Definition dec_fd_set (l : list Z) : fd_set :=
  mkFdSet (i32 (field 0 4 l)) ((fun i => field (8 + 8 * i) 8 l) <$> seq 0 8).
End kernel.

Notation K R := (M (kernel R)).

(** The two halves of [struct req_ops] and [struct port_ops] dispatch. *)
Record req_ops (R : Type) := mkOps {
  op_request : option (id -> id -> Z -> Z -> K R Z);
  op_get_response : option (id -> K R (Z * (Z * Z)));
  op_drop : option (id -> K R ());
  op_dup : option (id -> id -> K R Z);
  op_available : option (id -> Z -> K R bool);
}.
Arguments mkOps {R}.
Arguments op_request {R}.
Arguments op_get_response {R}.
Arguments op_drop {R}.
Arguments op_dup {R}.
Arguments op_available {R}.
