(* ===== verification/Sched.v ===== *)
(** The scheduler and the life of tasks: [sys/sched.c].

    [schedule] switches stacks in the middle: what follows [switch_to] runs when
    the next task, having been switched away from earlier, is resumed.  On the
    global state the whole is one step, after which [current] is the next task;
    the continuation of the caller is suspended.  A system call that blocks is
    therefore cut at its [schedule()] ([Port.wait_on_check] and
    [Uport.wait_on_port_check]). *)
From S2P Require Import Prelude Bits Irq Binradix Alloc MmState PageMan Aspace FdTable Copy Kernel.

Section sched.
Context {R : Type} `{!RadixMap R id}.
Context (junk : Z).
Context (rjunk : request).
Context (rops : ops -> req_ops R).
Notation Kn := (K R).

Definition pool_destroy (t : id) : Kn () :=
  modify (fun k => set_heap (filter (fun o => o.2.1 <> t) (k_heap k)) k).

Definition kill_process (t : id) : Kn () :=
  c ← gets current;
  if decide (t = c) then panic "Trying to kill current processs"
  else
    x ← get_task t;
    a ← deref (t_as x);
    mm_lift (destroy_as junk a);;
    pool_destroy t;;
    forM_ (t_children x) (fun child => y ← get_task child; put_task child (with_parent None y));;
    put_task t (with_children [] x);;
    match t_parent x with
    | None =>
        modify (fun k => set_pids (delete (t_pid x) (pids k)) k);;
        modify (fun k => set_tasks (delete t (k_tasks k)) k)
    | Some _ => mret ()
    end.

Definition after_switch : Kn () :=
  set_task_state TASK_RUNNING;;
  o ← gets to_kill;
  match o with
  | Some t => kill_process t;; modify (set_to_kill None)
  | None => mret ()
  end;;
  enable_interrupts.

(** [load_cr3] and the assignment to [current] in [switch_to]. *)
Definition switch_to (next : id) : Kn () :=
  x ← get_task next;
  match t_as x with
  | Some a => modify (fun k => set_mm (set_current_as a (k_mm k)) k)
  | None => mret ()
  end;;
  modify (set_current next).

(** The head of [runq], taken off it, or the idle task. *)
Definition pick_next : Kn id :=
  k ← get;
  match runq k with
  | next :: rest => modify (set_runq rest);; mret next
  | [] => mret (idle_task k)
  end.

Definition schedule : Kn () :=
  k ← get;
  if negb (irq k =? 0) then panic "schedule() called with disabled interrupt"
  else match to_kill k with
  | Some _ => panic "Why is to_kill set????"
  | None =>
      disable_interrupts;;
      x ← get_current;
      (if decide (t_state x = TASK_RUNNING) then
         put_current (with_state TASK_RUNNABLE x);; runq_add_tail (current k)
       else mret ());;
      next ← pick_next;
      x ← get_current;
      (if decide (t_state x = TASK_ZOMBIE) then modify (set_to_kill (Some (current k))) else mret ());;
      switch_to next;;
      after_switch
  end.

(** [int_reschedule]: the handler resets the nesting counter before it calls
    [schedule]. *)
Definition int_reschedule : Kn () := modify (set_irq 0);; schedule.

Definition kill_current (exit_code : Z) : Kn () :=
  x ← get_current;
  put_current (mkTask TASK_ZOMBIE (t_fds x) (t_astable x) (t_as x) (t_pid x) (t_parent x) (t_children x)
                      (t_priority x) exit_code (t_ti x)).
Definition sys_exit (code : Z) : Kn () := kill_current code;; schedule.

(** [available_task_slot]: the lowest free process id. *)
Definition NPID : Z := 32767.
Fixpoint free_slot (n : nat) (i : Z) (p : gmap Z id) : Z :=
  match n with
  | O => -1
  | S n => match p !! i with None => i | Some _ => free_slot n (i + 1) p end
  end.
Definition available_task_slot : Kn Z := gets (fun k => free_slot (Z.to_nat NPID) 0 (pids k)).

(** [new_process], without the forged kernel stack: the task's registers are
    [t_ti].  Fields the code leaves unset are set by its callers. *)
Definition new_process (a : id) (ti : list Z) : Kn id :=
  t ← gets k_next;
  modify (fun k => set_knext (Pos.succ t) k);;
  put_task t (mkTask TASK_RUNNABLE fdtable_new (set_slot fdtable_new 0 (Some a)) (Some a) 0 None []
                     0 0 ti);;
  mret t.

Definition CT_SELF : Z := 1.
Definition sizeof_thread_info : Z := 128.
(** [ti->r11 |= BIT(9)]: [r11] is the fifth word. *)
Definition set_if_flag (ti : list Z) : list Z := <[33%nat := Z.lor (default 0 (ti !! 33%nat)) 2]> ti.

(** The loop of [create_task] over the descriptors of the parent, from slot
    [i]. *)
Fixpoint copy_fds (ntask : id) (file : fdtable id) (i : nat) : Kn () :=
  match file with
  | [] => mret ()
  | None :: file => copy_fds ntask file (S i)
  | Some old :: file =>
      req ← get_req old;
      (if decide (rq_type req = REQ_COOKIE) then mret ()
       else
         o ← deref (rq_ops req);
         match op_dup (rops o) with
         | None => mret ()
         | Some dup =>
             n ← new_obj ntask (OReq (mkReq (rq_type req) (rq_state rjunk) ntask (rq_ops rjunk) (rq_data rjunk) 0));
             ret ← dup old n;
             if negb (ret =? 0) then free_obj ntask n
             else x ← get_task ntask; put_task ntask (with_fds (<[i := Some n]> (t_fds x)) x)
         end);;
      copy_fds ntask file (S i)
  end.

Definition create_task (a buf flags : Z) : Kn Z :=
  x ← get_current;
  if (a <=? 0) || (Z.of_nat max_fds <? a) then mret (- EBADF)
  else
    o ← deref (slot (t_astable x) a);
    match o with
    | None => mret (- EBADF)
    | Some new_as =>
        disable_interrupts;;
        '(r, ti) ← mm_lift (copy_from_user_simple buf sizeof_thread_info);
        if negb (r =? 0) then enable_interrupts;; mret (- EINVAL)
        else if flag CT_SELF flags then
          cur_as ← deref (t_as x);
          mm_lift (destroy_as junk cur_as);;
          put_current (mkTask (t_state x) (t_fds x)
            (set_slot (set_slot (t_astable x) a None) 0 (Some new_as)) (Some new_as) (t_pid x)
            (t_parent x) (t_children x) (t_priority x) (t_exit_code x) (set_if_flag ti));;
          modify (fun k => set_mm (set_current_as new_as (k_mm k)) k);;
          enable_interrupts;;
          mret 0
        else
          pid ← available_task_slot;
          if pid <? 0 then enable_interrupts;; mret (- ENOMEM)
          else
            put_current (with_astable (set_slot (t_astable x) a None) x);;
            ntask ← new_process new_as (set_if_flag ti);
            copy_fds ntask (t_fds x) 0;;
            c ← gets current;
            y ← get_task ntask;
            put_task ntask (mkTask TASK_RUNNABLE (t_fds y) (t_astable y) (t_as y) pid (Some c)
                                   (t_children y) (t_priority x) (t_exit_code y) (t_ti y));;
            modify (fun k => set_pids (<[pid := ntask]> (pids k)) k);;
            runq_add ntask;;
            x ← get_current;
            put_current (with_children (ntask :: t_children x) x);;
            enable_interrupts;;
            mret pid
    end.

Definition getpid : Kn Z := x ← get_current; mret (t_pid x).
Definition getppid : Kn Z :=
  disable_interrupts;;
  x ← get_current;
  ret ← match t_parent x with
        | Some p => y ← get_task p; mret (t_pid y)
        | None => mret 0
        end;
  enable_interrupts;;
  mret ret.

Definition get_thread_info (buf : Z) : Kn Z :=
  x ← get_current; mm_lift (copy_to_user_simple (t_ti x) buf);; mret 0.
End sched.
