(* ===== verification/Port.v ===== *)
(** The generic port system calls: [sys/ipc/port.c].

    What a request or a port does is behind the operation tables [rops] and
    [connect]; this file is the client of that interface, [Services] supplies
    the implementations. *)
From S2P Require Import Prelude Bits Irq Binradix Alloc MmState PageMan Aspace FdTable Copy Kernel Sched.

Section port.
Context {R : Type} `{!RadixMap R id}.
(** What fresh memory holds in fields the code leaves unset. *)
Context (zjunk : Z) (junk : request).
Context (rops : ops -> req_ops R).
Context (connect : pops -> Z -> id -> Z -> Z -> K R Z).
Notation Kn := (K R).

(** [port[n]]: the index is not checked by the callers. *)
Definition port_at (n : Z) : Kn (option pops) :=
  if (n <? 0) || (MAX_PORT <=? n) then fault else gets (fun k => port k !! n).

Definition file_pool : Kn id := gets current.

(** [current->fds->file[fd]], NULL included; slot [max_fds] is out of the table. *)
Definition cur_slot (fd : Z) : Kn (option id) := x ← get_current; deref (slot (t_fds x) fd).
Definition set_cur_slot (fd : Z) (o : option id) : Kn () :=
  x ← get_current; put_current (with_fds (set_slot (t_fds x) fd o) x).
(** [fd < 0 || fd > max_fds || !file[fd]], as [request], [get_response] and [close]
    test it: the object, or nothing. *)
Definition lookup_fd (fd : Z) : Kn (option id) :=
  if (fd <? 0) || (Z.of_nat max_fds <? fd) then mret None else cur_slot fd.
(** [fd < 0 || fd >= max_fds || !file[fd]]. *)
Definition lookup_fd_strict (fd : Z) : Kn (option id) :=
  if (fd <? 0) || (Z.of_nat max_fds <=? fd) then mret None else cur_slot fd.

(** A request object of the current task with its type, in a descriptor slot. *)
Definition new_request (t : rtype) : Kn id :=
  c ← gets current;
  new_obj c (OReq (mkReq t (rq_state junk) c (rq_ops junk) (rq_data junk) 0)).
Definition insert_fd (r : id) : Kn Z :=
  x ← get_current;
  let '(fd, fds) := fdtable_insert (t_fds x) r in
  put_current (with_fds fds x);; mret fd.

Definition port_connect (port_number len buf : Z) : Kn Z :=
  p ← port_at port_number;
  match p with
  | None => mret (- ENOENT)
  | Some p =>
      disable_interrupts;;
      bad ← (if negb (buf =? 0) || negb (len =? 0)
             then r ← mm_lift (validate_range buf len); mret (negb (r =? 0)) else mret false);
      if bad : bool then enable_interrupts;; mret (- EINVAL)
      else
        req ← new_request REQ_REQUEST;
        fd ← insert_fd req;
        c ← file_pool;
        if fd <? 0 then free_obj c req;; enable_interrupts;; mret (- EMFILE)
        else
          enable_interrupts;;
          ret ← connect p port_number req len buf;
          if negb (ret =? 0) then free_obj c req;; set_cur_slot fd None;; mret ret
          else mret fd
  end.

Definition sys_request (rd len buf : Z) : Kn Z :=
  disable_interrupts;;
  o ← lookup_fd rd;
  match o with
  | None => enable_interrupts;; mret (- EINVAL)
  | Some ri =>
      req ← get_req ri;
      if decide (rq_type req = REQ_REQUEST) then
        ro ← deref (rq_ops req);
        match op_request (rops ro) with
        | None => enable_interrupts;; mret (- EBADF)
        | Some op =>
            bad ← (if negb (len =? 0) || negb (buf =? 0)
                   then r ← mm_lift (validate_range buf len); mret (negb (r =? 0)) else mret false);
            if bad : bool then enable_interrupts;; mret (- EFAULT)
            else
              reqc ← new_request REQ_COOKIE;
              fd ← insert_fd reqc;
              c ← file_pool;
              if fd <? 0 then free_obj c reqc;; enable_interrupts;; mret (- EMFILE)
              else
                ret ← op ri reqc len buf;
                if negb (ret =? 0) then
                  free_obj c ri;; set_cur_slot fd None;; enable_interrupts;; mret ret
                else enable_interrupts;; mret fd
        end
      else enable_interrupts;; mret (- EBADF)
  end.

Definition sizeof_response : Z := 16.

Definition get_response (cookie res : Z) : Kn Z :=
  disable_interrupts;;
  v ← mm_lift (validate_range res sizeof_response);
  if negb (v =? 0) then enable_interrupts;; mret (- EFAULT)
  else
    o ← lookup_fd cookie;
    match o with
    | None => enable_interrupts;; mret (- EBADF)
    | Some ri =>
        req ← get_req ri;
        ro ← deref (rq_ops req);
        match op_get_response (rops ro) with
        | None => enable_interrupts;; mret (- EBADF)
        | Some op =>
            '(ret, (len, buf)) ← op ri;
            if negb (ret =? 0) then enable_interrupts;; mret ret
            else
              req ← get_req ri;
              (if decide (rq_type req = REQ_COOKIE) then
                 set_cur_slot cookie None;; c ← file_pool; free_obj c ri
               else mret ());;
              ret ← mm_lift (copy_to_user_simple (enc_response len buf) res);
              enable_interrupts;;
              mret ret
        end
    end.

Definition close (fd : Z) : Kn Z :=
  o ← lookup_fd fd;
  match o with
  | None => mret (- EBADF)
  | Some ri =>
      req ← get_req ri;
      set_cur_slot fd None;;
      ro ← deref (rq_ops req);
      match op_drop (rops ro) with Some drop => drop ri | None => mret () end;;
      c ← file_pool;
      free_obj c ri;;
      mret 0
  end.

(** [register_port]; every [port_ops] of the kernel has a [connect]. *)
Definition register_port (n : Z) (p : pops) : Kn Z :=
  o ← port_at n;
  match o with
  | Some _ => mret (- EBUSY)
  | None => modify (fun k => set_port (<[n := p]> (port k)) k);; mret 0
  end.
Definition deregister_port (n : Z) : Kn () :=
  port_at n;; modify (fun k => set_port (delete n (port k)) k).

(** ** [wait_on] *)
(** The loop of [fds_check] over the descriptors [i] .. [i+n-1]: 0 with the set
    of available descriptors, or an error. *)
Fixpoint fds_check_loop (rw : Z) (fds : fd_set) (i : Z) (n : nat) : Kn (Z * fd_set) :=
  match n with
  | O => mret (0, fds)
  | S n =>
      if nfds fds <=? i then mret (0, fds)
      else if negb (fd_is_set fds i) then fds_check_loop rw fds (i + 1) n
      else
        o ← cur_slot i;
        match o with
        | None => mret (- EBADF, fds)
        | Some ri =>
            req ← get_req ri;
            ro ← deref (rq_ops req);
            match op_available (rops ro) with
            | None => mret (- EBADF, fds)
            | Some av =>
                b ← av ri rw;
                fds' ← (if b : bool then mret fds else deref (fd_clear fds i));
                req ← get_req ri;
                put_req ri (with_waited (Z.lor (waited_rw req) rw) req);;
                fds_check_loop rw fds' (i + 1) n
            end
        end
  end.
Definition fds_check (rw : Z) (fds : fd_set) : Kn (Z * fd_set) :=
  fds_check_loop rw fds 0 (Z.to_nat (nfds fds)).

(** The loop that clears [waited_rw] of every descriptor of a set. *)
Fixpoint clear_waited (fds : fd_set) (i : Z) (n : nat) : Kn () :=
  match n with
  | O => mret ()
  | S n =>
      (if fd_is_set fds i then
         o ← cur_slot i;
         match o with
         | Some ri => req ← get_req ri; put_req ri (with_waited 0 req)
         | None => mret ()
         end
       else mret ());;
      clear_waited fds (i + 1) n
  end.

(** Reading one of the two sets; [inl] is the error returned. *)
Definition read_fds (buf : Z) : Kn (Z + fd_set) :=
  if buf =? 0 then mret (inr fd_zero)
  else
    '(r, l) ← mm_lift (copy_from_user_simple buf sizeof_fd_set);
    if negb (r =? 0) then mret (inl (- EFAULT))
    else
      let f := dec_fd_set l in
      (* [nfds] is an [int], compared as a 64-bit unsigned *)
      if Z.of_nat max_fds <? u64 (nfds f) then mret (inl (- EINVAL)) else mret (inr f).

(** What a finished wait returns: the loop's [ret], the two sets as checked. *)
Definition wait_on_finish (rbuf wbuf : Z) (rfds wfds : fd_set) (ret : Z) (rfds2 wfds2 : fd_set) : Kn Z :=
  clear_waited rfds 0 (Z.to_nat (nfds rfds));;
  clear_waited wfds 0 (Z.to_nat (nfds wfds));;
  ret ← (if negb (rbuf =? 0) && (ret =? 0) then
           r ← mm_lift (copy_to_user_simple (enc_fd_set rfds2) rbuf);
           mret (if r =? 0 then r else - EFAULT)
         else mret ret);
  ret ← (if negb (wbuf =? 0) && (ret =? 0) then
           r ← mm_lift (copy_to_user_simple (enc_fd_set wfds2) wbuf);
           mret (if r =? 0 then r else - EFAULT)
         else mret ret);
  enable_interrupts;;
  mret ret.

(** One turn of the loop of [wait_on]: the result when the wait is over, or
    nothing when the task has gone to sleep in [schedule]; when it is resumed it
    continues with [disable_interrupts] and the next turn. *)
Definition wait_on_check (rbuf wbuf : Z) (rfds wfds : fd_set) : Kn (option Z) :=
  '(ret, rfds2) ← fds_check 1 rfds;
  if negb (ret =? 0) then
    set_task_state TASK_RUNNING;; r ← wait_on_finish rbuf wbuf rfds wfds ret rfds2 wfds; mret (Some r)
  else
    '(ret, wfds2) ← fds_check 2 wfds;
    if negb (ret =? 0) || negb (fd_set_empty rfds2) || negb (fd_set_empty wfds2) then
      set_task_state TASK_RUNNING;; r ← wait_on_finish rbuf wbuf rfds wfds ret rfds2 wfds2; mret (Some r)
    else
      set_task_state TASK_WAITING;;
      enable_interrupts;;
      schedule zjunk;;
      mret None.

Definition wait_on_resume (rbuf wbuf : Z) (rfds wfds : fd_set) : Kn (option Z) :=
  disable_interrupts;; wait_on_check rbuf wbuf rfds wfds.

Definition wait_on (rbuf wbuf timeout : Z) : Kn (option Z) :=
  disable_interrupts;;
  r ← read_fds rbuf;
  match r with
  | inl e => enable_interrupts;; mret (Some e)
  | inr rfds =>
      w ← read_fds wbuf;
      match w with
      | inl e => enable_interrupts;; mret (Some e)
      | inr wfds => set_task_state TASK_WAITING;; wait_on_check rbuf wbuf rfds wfds
      end
  end.

Definition dup0 (old_fd new_fd : Z) : Kn Z :=
  o ← lookup_fd_strict old_fd;
  match o with
  | None => mret (- EBADF)
  | Some ri =>
      if (0 <=? new_fd) && (Z.of_nat max_fds <=? new_fd) then mret (- EBADF)
      else
        busy ← (if 0 <=? new_fd then o ← cur_slot new_fd; mret (bool_decide (is_Some o)) else mret false);
        if busy : bool then mret (- EBUSY)
        else
          req ← get_req ri;
          c ← file_pool;
          n ← new_request (rq_type req);
          fd ← (if new_fd <? 0 then insert_fd n else set_cur_slot new_fd (Some n);; mret new_fd);
          if fd <? 0 then free_obj c n;; mret (- EMFILE)
          else
            ro ← deref (rq_ops req);
            ret ← match op_dup (rops ro) with Some dup => dup ri n | None => mret 0 end;
            if negb (ret =? 0) then set_cur_slot fd None;; free_obj c n;; mret ret
            else mret fd
  end.
End port.
