(* ===== verification/Uport.v ===== *)
(** Ports served by user tasks: [sys/ipc/uport.c]. *)
From S2P Require Import Prelude Bits Irq Binradix Alloc MmState PageMan Aspace FdTable Copy Kernel Sched Port.

Section uport.
Context {R : Type} `{!RadixMap R id}.
Context (zjunk : Z) (junk : request).
Notation Kn := (K R).

(** The slot [uport[n]] of a port that has been opened. *)
Definition uport_at (n : Z) : Kn id := o ← gets (fun k => uport_tab k !! n); deref o.

(** ** [wait_on_port] *)
Definition port_list (n : Z) (k : kernel R) : list id := default [] (port_wait_list k !! n).

(** One turn of the loop: the result, or nothing when the task went to sleep. *)
Definition wait_on_port_check (n : Z) : Kn (option Z) :=
  p ← port_at n;
  match p with
  | Some _ => enable_interrupts;; mret (Some 0)
  | None =>
      c ← gets current;
      b ← gets (task_linked c);
      (if b : bool then fault
       else modify (fun k => set_port_wait (<[n := c :: port_list n k]> (port_wait_list k)) k));;
      enable_interrupts;;
      schedule zjunk;;
      mret None
  end.
Definition wait_on_port_resume (n : Z) : Kn (option Z) := disable_interrupts;; wait_on_port_check n.
Definition wait_on_port (n : Z) : Kn (option Z) :=
  disable_interrupts;; set_task_state TASK_WAITING;; wait_on_port_check n.

(** ** [open_port] *)
Definition open_port (n : Z) : Kn Z :=
  disable_interrupts;;
  ret ← register_port n UportPops;
  if ret <? 0 then enable_interrupts;; mret ret
  else
    c ← gets current;
    req ← new_obj c (OReq junk);
    ret ← insert_fd req;
    if ret <? 0 then free_obj c req;; enable_interrupts;; mret (- EMFILE)
    else
      up ← new_obj c (OUport (mkUport [] n));
      r ← get_req req;
      put_req req (mkReq REQ_PORT (rq_state r) c (Some UportServer) (DPtr up) (waited_rw r));;
      modify (fun k => set_uport (<[n := req]> (uport_tab k)) k);;
      register_port n UportPops;;
      l ← gets (port_list n);
      forM_ l (fun t =>
        modify (fun k => set_port_wait (<[n := unlink t (port_list n k)]> (port_wait_list k)) k);;
        wake_up t);;
      enable_interrupts;;
      mret ret.

(** ** Serving requests *)
(** The message at the head of the queue of a port or of a connection: [inl] is
    the early return of [pop_request] ([None]: every client is gone). *)
Definition incoming_top (req : request) : Kn (option Z + id) :=
  p ← ptr (rq_data req);
  if decide (rq_type req = REQ_PORT) then
    up ← get_uport p;
    mret match up_incoming up with [] => inl (Some (- EAGAIN)) | m :: _ => inr m end
  else
    u ← get_ureq p;
    mret match ur_incoming u with
         | m :: _ => inr m
         | [] => match ur_clients u with [] => inl None | _ :: _ => inl (Some (- EAGAIN)) end
         end.

(** [list_del(&msg->next)]: off the queue it is on. *)
Definition unlink_msg (m : id) (o : id * obj) : id * obj :=
  match o with
  | (pool, OUreq u) => (pool, OUreq (mkUreq (ur_clients u) (unlink m (ur_incoming u))))
  | (pool, OUport u) => (pool, OUport (mkUport (unlink m (up_incoming u)) (up_port_number u)))
  | _ => o
  end.
Definition msg_links (m : id) (o : id * obj) : bool :=
  match o with
  | (_, OUreq u) => on_list m (ur_incoming u)
  | (_, OUport u) => on_list m (up_incoming u)
  | _ => false
  end.
Definition msg_unlink (m : id) : Kn () :=
  b ← gets (fun k => existsb (fun o => msg_links m o.2) (map_to_list (k_heap k)));
  if b : bool then modify (fun k => set_heap (unlink_msg m <$> k_heap k) k) else fault.

(** Mapping a message's pages: the user buffer and its length, or an error. *)
Definition map_plh (o : option page_list_head) : M (mm R) (Z + Z * Z) :=
  match o with
  | None => mret (inr (0, 0))
  | Some plh =>
      v ← map_to_user plh 0;
      let vaddr := u64 (v + start_offset plh) in
      if i64 vaddr <? 0 then mret (inl (i64 vaddr))
      else mret (inr (vaddr, u64 (npage plh * PAGE_SIZE)))
  end.

Definition free_plh (o : option page_list_head) : Kn () :=
  mm_lift (match o with Some plh => page_list_free plh | None => mret () end).

(** The server's new request [sreq] becomes a connection (from a port) or a
    cookie (from a connection) for the client's request [creq]. *)
Definition establish (from_port : bool) (sreq creq : id) : Kn () :=
  c ← gets current;
  d ← (if from_port then
         u ← new_obj c (OUreq (mkUreq [creq] [])); mret (DPtr u, REQ_PORT_REQ, DPtr sreq)
       else
         ck ← new_obj c (OCookie (mkCookie (Some creq) NoReply c)); mret (DPtr ck, REQ_PORT_COOKIE, DPtr ck));
  let '(sdata, stype, cdata) := d in
  s ← get_req sreq;
  put_req sreq (mkReq stype (rq_state s) c (Some UportServer) sdata 0);;
  q ← get_req creq;
  put_req creq (with_rstate REQ_ESTABLISHED (with_data cdata q));;
  if flag 2 (waited_rw q) then wake_up (rq_owner q) else mret ().

Definition pop_request (rd buf : Z) : Kn Z :=
  disable_interrupts;;
  o ← lookup_fd rd;
  match o with
  | None => enable_interrupts;; mret (- EBADF)
  | Some ri =>
      req ← get_req ri;
      if negb (bool_decide (rq_type req = REQ_PORT) || bool_decide (rq_type req = REQ_PORT_REQ)) then
        enable_interrupts;; mret (- EBADF)
      else
        top ← incoming_top req;
        match top with
        | inl (Some e) => enable_interrupts;; mret e
        | inl None =>
            r ← mm_lift (copy_to_user_simple (enc_urequest 0 0 (-1)) buf);
            enable_interrupts;;
            mret (if r <? 0 then - EFAULT else 0)
        | inr m =>
            c ← gets current;
            sreq ← new_obj c (OReq junk);
            fd ← insert_fd sreq;
            if fd <? 0 then enable_interrupts;; mret (- EMFILE)
            else
              msg ← get_msg m;
              mapped ← mm_lift (map_plh (ms_plh msg));
              match mapped with
              | inl e => enable_interrupts;; mret e
              | inr (vaddr, len) =>
                  creq ← get_req (ms_client msg);
                  ctask ← get_task (rq_owner creq);
                  r ← mm_lift (copy_to_user_simple (enc_urequest len vaddr (t_pid ctask)) buf);
                  if negb (r =? 0) then
                    a ← mm_lift (gets current_as);
                    mm_lift (remove_vma_range zjunk a vaddr len);;
                    enable_interrupts;; mret (- EFAULT)
                  else
                    msg_unlink m;;
                    free_plh (ms_plh msg);;
                    free_obj (rq_owner creq) m;;
                    establish (bool_decide (rq_type req = REQ_PORT)) sreq (ms_client msg);;
                    enable_interrupts;;
                    mret fd
              end
        end
  end.

Definition respond (fd len buf : Z) : Kn Z :=
  disable_interrupts;;
  o ← lookup_fd_strict fd;
  match o with
  | None => enable_interrupts;; mret (- EBADF)
  | Some ri =>
      req ← get_req ri;
      if negb (bool_decide (rq_type req = REQ_PORT_COOKIE)) then enable_interrupts;; mret (- EBADF)
      else
        p ← ptr (rq_data req);
        ck ← get_cookie p;
        match ck_client ck with
        | None => enable_interrupts;; mret (- EPIPE)
        | Some cl =>
            q ← get_req cl;
            if negb (bool_decide (rq_type q = REQ_COOKIE)) then panic "Wrong type for client_req"
            else
              r ← mm_lift (map_from_user zjunk buf len);
              match r with
              | inl _ => enable_interrupts;; mret (- EFAULT)
              | inr plh =>
                  set_cur_slot fd None;;
                  c ← gets current;
                  free_obj c ri;;
                  put_obj p (OCookie (mkCookie (ck_client ck) (Reply plh) (ck_owner ck)));;
                  (if flag 1 (waited_rw q) then wake_up (rq_owner q) else mret ());;
                  enable_interrupts;;
                  (* [ret] still holds -EFAULT *)
                  mret (- EFAULT)
              end
        end
  end.

(** ** Operations of the client side *)
(** The pages of the caller's buffer; [inl]: the buffer is not mapped. *)
Definition take_buffer (len buf : Z) : Kn (Z + option page_list_head) :=
  if negb (buf =? 0) || negb (len =? 0) then
    r ← mm_lift (map_from_user zjunk buf len);
    mret match r with inl e => inl e | inr plh => inr (Some plh) end
  else mret (inr None).

Definition uport_connect (n : Z) (req : id) (len buf : Z) : Kn Z :=
  b ← take_buffer len buf;
  match b with
  | inl _ => mret (- EFAULT)
  | inr plh =>
      c ← gets current;
      msg ← new_obj c (OMsg (mkMsg plh req));
      server ← uport_at n;
      s ← get_req server;
      p ← ptr (rq_data s);
      up ← get_uport p;
      r ← get_req req;
      put_req req (mkReq (rq_type r) REQ_PENDING (rq_owner r) (Some UportClient) DNull (waited_rw r));;
      put_obj p (OUport (mkUport (up_incoming up ++ [msg]) (up_port_number up)));;
      (if flag 1 (waited_rw s) then wake_up (rq_owner s) else mret ());;
      mret 0
  end.

Definition uport_request (req reqc : id) (len buf : Z) : Kn Z :=
  r ← get_req req;
  if decide (rq_state r = REQ_CLOSED) then mret (- EPIPE)
  else if decide (rq_state r = REQ_PENDING) then mret (- EAGAIN)
  else
    match rq_data r with
    | DNull => panic "connection established but sreq not set"
    | d =>
        sreq ← ptr d;
        b ← take_buffer len buf;
        match b with
        | inl _ => mret (- EFAULT)
        | inr plh =>
            c ← gets current;
            msg ← new_obj c (OMsg (mkMsg plh reqc));
            rc ← get_req reqc;
            put_req reqc (mkReq (rq_type rc) REQ_PENDING (rq_owner rc) (Some UportClient) (DPtr msg) (waited_rw rc));;
            s ← get_req sreq;
            p ← ptr (rq_data s);
            u ← get_ureq p;
            put_obj p (OUreq (mkUreq (ur_clients u) (ur_incoming u ++ [msg])));;
            (if flag 1 (waited_rw s) then wake_up (rq_owner s) else mret ());;
            mret 0
        end
    end.

Definition uport_get_response (req : id) : Kn (Z * (Z * Z)) :=
  r ← get_req req;
  if negb (bool_decide (rq_type r = REQ_COOKIE)) then mret (- EBADF, (0, 0))
  else if decide (rq_state r = REQ_CLOSED) then mret (0, (0, 0))
  else if decide (rq_state r = REQ_PENDING) then mret (- EAGAIN, (0, 0))
  else
    p ← ptr (rq_data r);
    ck ← get_cookie p;
    match ck_response ck with
    | NoReply => mret (- EAGAIN, (0, 0))
    | EmptyReply => fault
    | Reply plh =>
        v ← mm_lift (map_to_user plh 0);
        if i64 v <? 0 then mret (- ENOMEM, (0, 0))
        else
          mm_lift (page_list_free plh);;
          free_obj (ck_owner ck) p;;
          mret (0, (u64 (npage plh * PAGE_SIZE), u64 (v + start_offset plh)))
    end.

Definition uport_dup (old new : id) : Kn Z :=
  o ← get_req old;
  if negb (bool_decide (rq_type o = REQ_REQUEST)) then mret (- EBADF)
  else if negb (bool_decide (rq_state o = REQ_ESTABLISHED)) then mret (- EAGAIN)
  else
    n ← get_req new;
    put_req new (mkReq (rq_type n) (rq_state o) (rq_owner n) (rq_ops o) (rq_data o) (waited_rw n));;
    sreq ← ptr (rq_data o);
    s ← get_req sreq;
    p ← ptr (rq_data s);
    u ← get_ureq p;
    put_obj p (OUreq (mkUreq (new :: ur_clients u) (ur_incoming u)));;
    mret 0.

Definition uport_user_close (req : id) : Kn () :=
  r ← get_req req;
  if decide (rq_state r = REQ_PENDING) then
    m ← ptr (rq_data r);
    msg ← get_msg m;
    msg_unlink m;;
    free_plh (ms_plh msg);;
    q ← get_req (ms_client msg);
    free_obj (rq_owner q) m
  else
    match rq_type r with
    | REQ_REQUEST => req_unlink req
    | REQ_COOKIE =>
        p ← ptr (rq_data r);
        ck ← get_cookie p;
        match ck_response ck with
        | NoReply => put_obj p (OCookie (mkCookie None NoReply (ck_owner ck)))
        | EmptyReply => fault
        | Reply plh => mm_lift (page_list_free plh);; free_obj (ck_owner ck) p
        end
    | _ => panic "user_close on wrong request"
    end.

Definition has_reply (r : reply) : bool := match r with NoReply => false | _ => true end.

Definition uport_user_available (req : id) (rw : Z) : Kn bool :=
  r ← get_req req;
  if decide (rq_state r = REQ_CLOSED) then mret true
  else
    match rq_type r with
    | REQ_REQUEST => mret ((rw =? 2) && bool_decide (rq_state r = REQ_ESTABLISHED))
    | REQ_COOKIE =>
        if rw =? 2 then mret false
        else if decide (rq_state r = REQ_PENDING) then mret false
        else p ← ptr (rq_data r); ck ← get_cookie p; mret (has_reply (ck_response ck))
    | _ => panic "user_available() on wrong type"
    end.

(** ** Operations of the server side *)
Definition uport_server_available (req : id) (rw : Z) : Kn bool :=
  r ← get_req req;
  if rw =? 2 then
    if negb (bool_decide (rq_type r = REQ_PORT_COOKIE)) then mret false
    else
      p ← ptr (rq_data r);
      ck ← get_cookie p;
      if has_reply (ck_response ck) then panic "response already sent but cookie is still here" else mret true
  else
    match rq_type r with
    | REQ_PORT_COOKIE => mret false
    | REQ_PORT => p ← ptr (rq_data r); up ← get_uport p; mret (negb (bool_decide (up_incoming up = [])))
    | REQ_PORT_REQ => p ← ptr (rq_data r); u ← get_ureq p; mret (negb (bool_decide (ur_incoming u = [])))
    | _ => panic "server_available() on wrong req"
    end.

(** Closing a client's request from the server's side. *)
Definition close_client (cl : id) : Kn () :=
  q ← get_req cl;
  put_req cl (with_rstate REQ_CLOSED q);;
  if negb (waited_rw q =? 0) then wake_up (rq_owner q) else mret ().

Definition uport_server_close (req : id) : Kn () :=
  r ← get_req req;
  c ← gets current;
  match rq_type r with
  | REQ_PORT =>
      p ← ptr (rq_data r);
      up ← get_uport p;
      forM_ (up_incoming up) (fun m =>
        msg ← get_msg m;
        free_plh (ms_plh msg);;
        q ← get_req (ms_client msg);
        close_client (ms_client msg);;
        free_obj (rq_owner q) m);;
      deregister_port (up_port_number up);;
      modify (fun k => set_uport (delete (up_port_number up) (uport_tab k)) k);;
      free_obj c p
  | REQ_PORT_REQ =>
      p ← ptr (rq_data r);
      u ← get_ureq p;
      forM_ (ur_clients u) (fun ri =>
        q ← get_req ri;
        put_req ri (with_rstate REQ_CLOSED q);;
        req_unlink ri;;
        if negb (waited_rw q =? 0) then wake_up (rq_owner q) else mret ());;
      forM_ (ur_incoming u) (fun m =>
        msg ← get_msg m;
        free_plh (ms_plh msg);;
        q ← get_req (ms_client msg);
        free_obj (rq_owner q) m);;
      free_obj c p
  | REQ_PORT_COOKIE =>
      p ← ptr (rq_data r);
      ck ← get_cookie p;
      match ck_client ck with Some cl => close_client cl | None => mret () end;;
      (if has_reply (ck_response ck) then panic "cookie already has a response, but it's still in fdtable"
       else mret ());;
      free_obj c p
  | _ => panic "server_close called on wrong type"
  end.

Definition uport_server_rops : req_ops R :=
  mkOps None None (Some uport_server_close) None (Some uport_server_available).
Definition uport_client_rops : req_ops R :=
  mkOps (Some uport_request) (Some uport_get_response) (Some uport_user_close) (Some uport_dup)
        (Some uport_user_available).
End uport.
