(* ===== verification/Services.v ===== *)
(** The ports the kernel serves itself ([sys/services/]) and the interrupt tables
    ([sys/interrupt.c]); the tables of operations that [Port] dispatches on. *)
From S2P Require Import Prelude Bits Irq Binradix Alloc MmState PageMan Aspace FdTable Copy Kernel Sched Port Uport.

(** ** [sys/interrupt.c] *)
(** [htable] and [eoitable]; a handler is named by a number. *)
Record int_tables := mkTables { htable : list (option Z); eoitable : list (option Z) }.
Definition no_handlers : int_tables := mkTables (replicate 224 None) (replicate 256 None).

Definition int_register_eoi (vector fn : Z) : M int_tables Z :=
  t ← get;
  if 255 <? vector then mret (-1)
  else
    o ← deref (eoitable t !! Z.to_nat vector);
    match o with
    | Some _ => mret (-1)
    | None => put (mkTables (htable t) (<[Z.to_nat vector := Some fn]> (eoitable t)));; mret 0
    end.
Definition int_register_handler (vector fn : Z) : M int_tables Z :=
  t ← get;
  if vector <? 32 then mret (-1)
  else
    o ← deref (htable t !! Z.to_nat (vector - 32));
    match o with
    | Some _ => mret (-1)
    | None => put (mkTables (<[Z.to_nat (vector - 32) := Some fn]> (htable t)) (eoitable t));; mret 0
    end.
(** It clears slot [vector], not [vector-32]. *)
Definition int_deregister_handler (vector : Z) : M int_tables () :=
  t ← get;
  if vector <? 32 then mret ()
  else
    deref (htable t !! Z.to_nat vector);;
    put (mkTables (<[Z.to_nat vector := None]> (htable t)) (eoitable t)).

(** ** Ranges of physical memory handed to drivers: [is_range_reserved] and
    [insert_range] of [sys/mm/paging.c] on the list [free_range] *)
Fixpoint is_range_reserved (l : list (Z * Z)) (base len : Z) : bool :=
  match l with
  | [] => true
  | (b, n) :: l =>
      let end_ := u64 (base + len) in
      if (b <? end_) && (base <? u64 (b + n)) then false
      else if end_ <=? b then true
      else is_range_reserved l base len
  end.
Fixpoint range_add (l : list (Z * Z)) (base len : Z) : list (Z * Z) :=
  match l with
  | [] => [(base, len)]
  | (b, n) :: l' => if u64 (base + len) <=? b then (base, len) :: l else (b, n) :: range_add l' base len
  end.

Section services.
Context {R : Type} `{!RadixMap R id}.
Context (zjunk : Z) (junk : request).
Notation Kn := (K R).

Definition insert_range (base len : Z) : Kn Z :=
  l ← gets free_range;
  if negb (is_range_reserved l base len) then mret (-1)
  else modify (set_free_range (range_add l base len));; mret 0.

(** [int_handler]; [call] runs the registered handlers. *)
Definition int_handler (t : int_tables) (call : Z -> Z -> Kn Z) (vector : Z) : Kn Z :=
  fn ← deref (htable t !! Z.to_nat (vector - 32));
  ret ← match fn with Some fn => call fn vector | None => mret 0 end;
  l ← gets (fun k => default [] (int_wait_list k !! vector));
  forM_ l (fun ri =>
    r ← get_req ri;
    (if flag 1 (waited_rw r) then wake_up (rq_owner r) else mret ());;
    r ← get_req ri;
    put_req ri (with_data (match rq_data r with DInt x => DInt (Z.lor x 256) | d => d end) r));;
  e ← deref (eoitable t !! Z.to_nat vector);
  match e with Some fn => call fn vector;; mret () | None => mret () end;;
  mret ret.

(** ** Waiting for interrupts: [sys/services/int.c] *)
(** [list_add(&int_wait_list[n], &req->next_req)]. *)
Definition int_wait_add (n : Z) (req : id) : Kn () :=
  modify (fun k => set_int_wait (<[n := req :: default [] (int_wait_list k !! n)]> (int_wait_list k)) k).

Definition int_port_connect (_ : Z) (req : id) (len buf : Z) : Kn Z :=
  if negb (len =? 4) then mret (- EINVAL)
  else
    '(ret, l) ← mm_lift (copy_from_user_simple buf 4);
    if negb (ret =? 0) then mret (- EFAULT)
    else
      let n := i32 (le_num l) in
      if (n <? 33) || (255 <? n) then mret (- EINVAL)
      else
        r ← get_req req;
        put_req req (with_ops IntOps (with_data (DInt n) r));;
        int_wait_add n req;;
        mret 0.

Definition dint (d : rdata) : Kn Z := match d with DInt x => mret x | _ => fault end.

Definition int_port_available (req : id) (rw : Z) : Kn bool :=
  if rw =? 2 then mret false
  else
    r ← get_req req;
    x ← dint (rq_data r);
    put_req req (with_data (DInt (Z.land x 255)) r);;
    mret (flag 256 x).

Definition int_port_dup (old new : id) : Kn Z :=
  o ← get_req old;
  x ← dint (rq_data o);
  let n := Z.land x 255 in
  r ← get_req new;
  put_req new (with_ops IntOps (with_data (DInt n) r));;
  int_wait_add n new;;
  mret 0.

Definition int_port_drop (req : id) : Kn () := req_unlink req.

(** ** I/O ports: [sys/services/portio.c] *)
(** The [in] and [out] instructions: port, width in bytes and data. *)
Context (hw_in : Z -> Z -> Kn Z) (hw_out : Z -> Z -> Z -> Kn ()).

Definition portio_connect (_ : Z) (req : id) (len buf : Z) : Kn Z :=
  r ← get_req req; put_req req (with_ops PortioOps (with_data DNull r));; mret 0.

Definition portio_request (_ reqc : id) (len buf : Z) : Kn Z :=
  if negb (len =? 8) then mret (- EINVAL)
  else
    '(ret, l) ← mm_lift (copy_from_user_simple buf 8);
    if negb (ret =? 0) then mret (- EFAULT)
    else
      let data := field 0 4 l in let pt := field 4 2 l in
      let type := field 6 1 l in let n := field 7 1 l in
      r ← get_req reqc;
      put_req reqc (with_ops PortioOps r);;
      if type =? 1 then
        (if n =? 1 then hw_out pt 1 (u8 data) else if n =? 4 then hw_out pt 4 data else mret ());;
        r ← get_req reqc;
        put_req reqc (with_data (DInt (-1)) r);;
        mret 0
      else if type =? 2 then
        x ← (if n =? 1 then hw_in pt 1 else hw_in pt 4);
        r ← get_req reqc;
        put_req reqc (with_data (DInt x) r);;
        mret 0
      else mret (- EINVAL).

Definition portio_get_response (req : id) : Kn (Z * (Z * Z)) :=
  r ← get_req req;
  if negb (bool_decide (rq_type r = REQ_COOKIE)) then mret (- EBADF, (zjunk, zjunk))
  else
    x ← dint (rq_data r);
    if x <? 0 then mret (- EINVAL, (zjunk, zjunk)) else mret (0, (zjunk, x)).

(** ** Physical memory: [sys/services/mem.c] *)
Definition sizeof_mem_req : Z := 24.

(** The range is [ALIGN_UP(len)] of the request's own size, not of [mreq.len]. *)
Definition mem_port_request (reqc : id) (len buf : Z) : Kn Z :=
  if negb (len =? sizeof_mem_req) then mret (- EINVAL)
  else if buf =? 0 then mret (- EINVAL)
  else
    disable_interrupts;;
    '(ret, l) ← mm_lift (copy_from_user_simple buf sizeof_mem_req);
    if negb (ret =? 0) then enable_interrupts;; mret ret
    else
      let phys := field 0 8 l in let dest := field 8 8 l in
      if negb (IS_ALIGNED phys PAGE_SIZE_BIT) then enable_interrupts;; mret (- EINVAL)
      else
        let alen := ALIGN_UP len PAGE_SIZE_BIT in
        a ← mm_lift (gets current_as);
        v ← mm_lift (if negb (dest =? 0) then insert_vma_to_vaddr a dest alen (Z.lor VMA_RW VMA_HW)
                     else insert_vma_to_any a alen (Z.lor VMA_RW VMA_HW));
        match v with
        | inl _ => enable_interrupts;; mret (- ENOMEM)
        | inr v =>
            r ← insert_range phys alen;
            if r <? 0 then
              mm_lift (vma_replace a (vma_id v) []);;
              enable_interrupts;; mret (- EINVAL)
            else
              r ← mm_lift (address_space_assign_addr_range a phys (vma_begin v) alen);
              if r <? 0 then panic "Impossible error"
              else
                q ← get_req reqc;
                put_req reqc (with_ops MemOps (with_data (DMem (vma_begin v) alen) q));;
                enable_interrupts;;
                mret 0
        end.
Definition mem_port_connect (_ : Z) (req : id) (len buf : Z) : Kn Z := mem_port_request req len buf.

Definition mem_port_get_response (req : id) : Kn (Z * (Z * Z)) :=
  disable_interrupts;;
  r ← get_req req;
  put_req req (with_data DNull r);;
  enable_interrupts;;
  match rq_data r with
  | DNull => mret (- ENOMEM, (zjunk, zjunk))
  | DMem buf len => mret (0, (len, buf))
  | _ => fault
  end.
Definition mem_port_close (req : id) : Kn () :=
  r ← get_req req;
  match rq_data r with DNull | DMem _ _ => mret () | _ => fault end.

(** ** The BIOS data area and the boot archive: [sys/services/bda.c], [tarfs.c] *)
(** [manage_phys_page], [address_space_assign_page] as a snapshot and [page_unref] of one page. *)
Definition show_page (a : id) (paddr vaddr flags : Z) : M (mm R) () :=
  r ← manage_phys_page paddr;
  p ← page_ptr r;
  address_space_assign_page a p vaddr flags;;
  page_unref p false;;
  mret ().
Fixpoint show_pages (a : id) (paddr vaddr : Z) (n : nat) : M (mm R) () :=
  match n with
  | O => mret ()
  | S n => show_page a paddr vaddr PF_SNAPSHOT;; show_pages a (paddr + PAGE_SIZE) (u64 (vaddr + PAGE_SIZE)) n
  end.
Fixpoint manage_pages (paddr : Z) (n : nat) : M (mm R) () :=
  match n with
  | O => mret ()
  | S n => manage_phys_page paddr;; manage_pages (paddr + PAGE_SIZE) n
  end.
(** The area of [insert_vma_to_any], dereferenced unchecked. *)
Definition vma_ptr (r : Z + vm_area) : M (mm R) vm_area := match r with inl _ => fault | inr v => mret v end.

Definition bda_port_init : Kn () := register_port 3 BdaPops;; mm_lift (manage_pages 0 16).
Definition bda_port_connect (_ : Z) (req : id) (len buf : Z) : Kn Z :=
  r ← get_req req; put_req req (with_ops BdaOps (with_data DNull r));; mret 0.
Definition bda_port_get_response (_ : id) : Kn (Z * (Z * Z)) :=
  mm_lift (
    let len := PAGE_SIZE * 16 in
    a ← gets current_as;
    r ← insert_vma_to_any a len VMA_RW;
    v ← vma_ptr r;
    show_pages a 0 (vma_begin v) 16;;
    mret (0, (len, vma_begin v))).

(** The linker's bounds of the archive and the offset of kernel addresses. *)
Context (tar_start tar_end physoffset : Z).

Definition tar_pages : nat := Z.to_nat ((ALIGN tar_end PAGE_SIZE_BIT - ALIGN_UP tar_start PAGE_SIZE_BIT) / PAGE_SIZE).
(** [map_page] of the archive into the direct map is left out: the model's
    physical memory needs no mapping. *)
Definition tarfs_port_init : Kn () :=
  register_port 2 TarfsPops;;
  mm_lift (manage_pages (ALIGN_UP tar_start PAGE_SIZE_BIT - physoffset) tar_pages).
Definition tarfs_port_connect (_ : Z) (req : id) (len buf : Z) : Kn Z :=
  r ← get_req req; put_req req (with_ops TarfsOps (with_data DNull r));; mret 0.

(** A page of its own for a partial page of the archive: [n] bytes from [src] at
    offset [off]. *)
Definition show_partial (a : id) (src off n vaddr : Z) : M (mm R) () :=
  page ← get_page;
  memset_phys (virt_to_phys page) 0 PAGE_SIZE;;
  memcpy_phys (virt_to_phys page + off) (src - physoffset) n;;
  r ← manage_page page;
  p ← page_ptr r;
  address_space_assign_page a p vaddr PF_SHARED;;
  page_unref p false;;
  mret ().

Definition tarfs_port_get_response (_ : id) : Kn (Z * (Z * Z)) :=
  mm_lift (
    let astart := ALIGN_UP tar_start PAGE_SIZE_BIT in
    let aend := ALIGN tar_end PAGE_SIZE_BIT in
    let ustart := ALIGN tar_start PAGE_SIZE_BIT in
    let len := u64 (ALIGN_UP tar_end PAGE_SIZE_BIT - ustart) in
    a ← gets current_as;
    r ← insert_vma_to_any a len VMA_RW;
    v ← vma_ptr r;
    let vaddr := vma_begin v in
    (if negb (astart =? tar_start) then
       show_partial a tar_start (tar_start - ustart) (astart - tar_start) vaddr else mret ());;
    let vaddr := if negb (astart =? tar_start) then u64 (vaddr + PAGE_SIZE) else vaddr in
    show_pages a (astart - physoffset) vaddr tar_pages;;
    let vaddr := u64 (vaddr + PAGE_SIZE * Z.of_nat tar_pages) in
    (if negb (aend =? tar_end) then show_partial a aend 0 (tar_end - aend) vaddr else mret ());;
    mret (0, (u64 (tar_end - tar_start), u64 (vma_begin v + (tar_start - ustart))))).

(** ** Initialisation and dispatch *)
Definition int_port_init : Kn () := register_port 10 IntPops;; mret ().
Definition portio_init : Kn () := register_port 4 PortioPops;; mret ().
Definition mem_service_init : Kn () := register_port 1 MemPops;; mret ().

Definition kernel_rops (o : ops) : req_ops R :=
  match o with
  | UportServer => uport_server_rops
  | UportClient => uport_client_rops zjunk
  | IntOps => mkOps None None (Some int_port_drop) (Some int_port_dup) (Some int_port_available)
  | PortioOps => mkOps (Some portio_request) (Some portio_get_response) None None None
  | MemOps => mkOps (Some (fun _ => mem_port_request)) (Some mem_port_get_response) (Some mem_port_close) None None
  | BdaOps => mkOps None (Some bda_port_get_response) None None None
  | TarfsOps => mkOps None (Some tarfs_port_get_response) None None None
  end.

Definition kernel_connect (p : pops) : Z -> id -> Z -> Z -> Kn Z :=
  match p with
  | UportPops => uport_connect zjunk
  | IntPops => int_port_connect
  | PortioPops => portio_connect
  | MemPops => mem_port_connect
  | BdaPops => bda_port_connect
  | TarfsPops => tarfs_port_connect
  end.
End services.
