(* ===== verification/SchedProofs.v ===== *)
(** The scheduler keeps the run queue consistent and is fair. *)
From S2P Require Import Prelude Bits Irq Binradix Alloc MmState PageMan Aspace FdTable Copy Kernel Sched VmaProofs.

Section sched.
Context {R : Type} `{!RadixMap R id}.
Context (junk : Z).
Implicit Types k : kernel R.

Definition state_of k (t : id) : option task_state := t_state <$> k_tasks k !! t.

(** Between two calls of [schedule]: the run queue holds exactly the runnable
    tasks (the idle task need not be queued), each once; the running task is
    not queued, and no queued task is also asleep on a port. *)
Record sched_ok k : Prop := {
  so_irq : irq k = 0;
  so_kill : to_kill k = None;
  so_nodup : NoDup (runq k);
  so_runq : forall t, t ∈ runq k -> state_of k t = Some TASK_RUNNABLE;
  so_runnable : forall t, state_of k t = Some TASK_RUNNABLE -> t ∈ runq k \/ t = idle_task k;
  so_current : is_Some (state_of k (current k)) /\ current k ∉ runq k;
  so_idle : state_of k (idle_task k) = Some TASK_RUNNABLE
            \/ (state_of k (idle_task k) = Some TASK_RUNNING /\ idle_task k = current k);
  so_port : forall n l t, port_wait_list k !! n = Some l -> t ∈ l -> state_of k t = Some TASK_WAITING;
}.

Lemma get_task_eq k t x : k_tasks k !! t = Some x -> get_task t k = Done x k.
Proof. intros E. unfold get_task, gets, mbind, M_bind. by rewrite E. Qed.

Lemma get_current_eq k x : k_tasks k !! current k = Some x -> get_current k = Done x k.
Proof. intros E. unfold get_current, gets, mbind, M_bind. by rewrite (get_task_eq _ _ x). Qed.

Lemma state_of_task k t st : state_of k t = Some st -> exists x, k_tasks k !! t = Some x /\ t_state x = st.
Proof. unfold state_of. intros (x & E & ->)%fmap_Some. eauto. Qed.

Lemma state_of_insert k t x t' :
  state_of (set_tasks (<[t := x]> (k_tasks k)) k) t' = if decide (t' = t) then Some (t_state x) else state_of k t'.
Proof.
  unfold state_of. cbn. case_decide as E; [subst; by rewrite lookup_insert_eq|by rewrite lookup_insert_ne].
Qed.

Lemma existsb_false {A} (f : A -> bool) l : (forall x, x ∈ l -> f x = false) -> existsb f l = false.
Proof.
  induction l as [|x l IH]; intros H; [done|]. simpl. rewrite H by set_solver. apply IH. set_solver.
Qed.

Lemma task_linked_false k t :
  t ∉ runq k -> (forall n l, port_wait_list k !! n = Some l -> t ∉ l) -> task_linked t k = false.
Proof.
  intros H1 H2. unfold task_linked, on_list. rewrite bool_decide_eq_false_2 by done. simpl.
  apply existsb_false. intros [n l] Hin. simpl. apply bool_decide_eq_false_2.
  apply elem_of_map_to_list in Hin. by eapply H2.
Qed.

(** The queue [schedule] picks from: the current task goes to its end. *)
Definition queue k (x : task) : list id :=
  runq k ++ (if decide (t_state x = TASK_RUNNING) then [current k] else []).

(** The address space of [y] becomes the current one, if it has one. *)
Definition switch_mm (y : task) (s : mm R) : mm R := match t_as y with Some b => set_current_as b s | None => s end.

(** [k'] is the state after the switch to [next]. *)
Definition switched k k' (next : id) (rest : list id) : Prop :=
  current k' = next /\ runq k' = rest /\ irq k' = 0 /\ to_kill k' = None
  /\ state_of k' next = Some TASK_RUNNING
  /\ (forall t, t <> next -> t <> current k -> k_tasks k' !! t = k_tasks k !! t)
  /\ (current k <> next -> exists x, k_tasks k !! current k = Some x /\ state_of k' (current k)
        = Some (if decide (t_state x = TASK_RUNNING) then TASK_RUNNABLE else t_state x))
  /\ idle_task k' = idle_task k /\ port_wait_list k' = port_wait_list k /\ k_heap k' = k_heap k
  /\ dom (k_tasks k') = dom (k_tasks k)
  /\ exists y, k_tasks k !! next = Some y /\ k_mm k' = set_irq 0 (switch_mm y (k_mm k)).

Lemma finish_switch k k1 x1 next rest :
  irq k1 = 1 -> to_kill k1 = None -> runq k1 = rest -> current k1 = current k ->
  k_tasks k1 = <[current k := x1]> (k_tasks k) -> is_Some (k_tasks k !! current k) ->
  is_Some (k_tasks k !! next) ->
  idle_task k1 = idle_task k -> port_wait_list k1 = port_wait_list k -> k_heap k1 = k_heap k ->
  (exists x, k_tasks k !! current k = Some x /\ t_state x1
      = (if decide (t_state x = TASK_RUNNING) then TASK_RUNNABLE else t_state x) /\ t_as x1 = t_as x) ->
  k_mm k1 = set_irq 1 (k_mm k) ->
  exists k', (switch_to next;; after_switch junk) k1 = Done () k' /\ switched k k' next rest.
Proof.
  intros Hi Hk Hr Hc Ht Hcur Hnext Hidle Hport Hheap (x & Hx & Hst & Has) Hmm.
  assert (exists y y0, k_tasks k1 !! next = Some y /\ k_tasks k !! next = Some y0 /\ t_as y = t_as y0)
    as (y & y0 & Hy & Hy0 & Hyas).
  { rewrite Ht. destruct (decide (next = current k)) as [->|]; [rewrite lookup_insert_eq; eauto 6|].
    rewrite lookup_insert_ne by done. destruct Hnext; eauto. }
  set (k2 := set_current next match t_as y with
                              | Some a => set_mm (set_current_as a (k_mm k1)) k1
                              | None => k1 end).
  assert (switch_to next k1 = Done () k2) as E1.
  { unfold switch_to, mbind, M_bind. rewrite (get_task_eq _ _ y) by done.
    unfold k2. by destruct (t_as y). }
  assert (k_tasks k2 = k_tasks k1 /\ current k2 = next /\ to_kill k2 = None /\ irq k2 = 1
    /\ runq k2 = rest /\ idle_task k2 = idle_task k /\ port_wait_list k2 = port_wait_list k
    /\ k_heap k2 = k_heap k /\ k_mm k2 = set_irq 1 (switch_mm y0 (k_mm k))) as (T2 & C2 & K2 & I2 & R2 & D2 & P2 & H2 & M2).
  { unfold k2, switch_mm. rewrite <- Hyas. split_and!; try by destruct (t_as y). by destruct (t_as y); cbn; rewrite Hmm. }
  clearbody k2.
  unfold mbind at 1, M_bind at 1. rewrite E1. unfold after_switch, set_task_state.
  unfold mbind, M_bind. rewrite (get_current_eq k2 y) by (by rewrite T2, C2).
  unfold put_current, gets, mbind, M_bind, put_task, modify. cbn [to_kill set_tasks].
  rewrite K2. unfold mret, M_ret. rewrite enable_eq by (cbn; cbn in I2; lia).
  eexists. split; [reflexivity|]. unfold switched. cbn -[state_of]. rewrite C2, R2, K2, D2, P2, H2, T2, Ht.
  split_and!; try done.
  - cbn in I2. by rewrite I2.
  - unfold state_of. cbn. by rewrite ?C2, lookup_insert_eq.
  - intros t H1 H3. by rewrite !lookup_insert_ne.
  - intros Hne. exists x. split; [done|]. unfold state_of. cbn. rewrite ?T2, ?Ht, ?C2.
    rewrite lookup_insert_ne by done. rewrite lookup_insert_eq. cbn. by rewrite Hst.
  - rewrite dom_insert_lookup_L; [apply dom_insert_lookup_L; done|]. rewrite <- Ht. by eexists.
  - exists y0. split; [done|]. change (interrupt_disabled (alloc (k_mm k2))) with (irq k2). rewrite I2, M2. reflexivity.
Qed.

(** One call of [schedule] when the current task goes on running or sleeps. *)
Lemma schedule_step k x :
  sched_ok k -> k_tasks k !! current k = Some x -> t_state x = TASK_RUNNING \/ t_state x = TASK_WAITING ->
  exists k', schedule junk k = Done () k'
    /\ match queue k x with
       | next :: rest => switched k k' next rest
       | [] => switched k k' (idle_task k) []
       end.
Proof.
  intros [Hi Hk Hnd Hrq Hrun [Hcs Hc] Hid Hp] Hx Hst.
  unfold schedule. unfold mbind at 1, M_bind at 1. unfold get at 1. rewrite Hi, Hk. cbn [Z.eqb negb].
  unfold mbind at 1, M_bind at 1. rewrite disable_eq, Hi. change (0 + 1) with 1.
  set (k0 := set_irq 1 k). unfold mbind at 1, M_bind at 1. rewrite (get_current_eq k0 x) by done.
  assert (forall t, t ∈ queue k x -> is_Some (k_tasks k !! t)) as Hex.
  { intros t. unfold queue. rewrite elem_of_app. intros [Ht|Ht].
    - apply Hrq, state_of_task in Ht as (y & ? & _). by eexists.
    - case_decide; [|by apply elem_of_nil in Ht]. apply list_elem_of_singleton in Ht as ->. by eexists. }
  assert (is_Some (k_tasks k !! idle_task k)) as Hidx.
  { destruct Hid as [Hid|[Hid _]]; apply state_of_task in Hid as (y & ? & _); by eexists. }
  set (x1 := if decide (t_state x = TASK_RUNNING) then with_state TASK_RUNNABLE x else x).
  assert (exists k1, (if decide (t_state x = TASK_RUNNING) then
         put_current (with_state TASK_RUNNABLE x);; runq_add_tail (current k)
       else mret ()) k0 = Done () k1
     /\ irq k1 = 1 /\ to_kill k1 = None /\ runq k1 = queue k x /\ current k1 = current k
     /\ k_tasks k1 = <[current k := x1]> (k_tasks k) /\ idle_task k1 = idle_task k
     /\ port_wait_list k1 = port_wait_list k /\ k_heap k1 = k_heap k /\ k_mm k1 = set_irq 1 (k_mm k))
    as (k1 & E1 & I1 & K1 & R1 & C1 & T1 & D1 & P1 & H1 & M1).
  { unfold queue, x1. case_decide as Hdec.
    - unfold put_current, gets, put_task, modify, runq_add_tail, mbind, M_bind, gets.
      rewrite task_linked_false; [eexists; split; [reflexivity|]; done|done|].
      cbn. intros n l Hl Hin. specialize (Hp n l (current k) Hl Hin).
      unfold state_of in Hp. rewrite Hx in Hp. cbn in Hp. congruence.
    - eexists. split; [reflexivity|]. split_and!; try done; [by rewrite app_nil_r|].
      cbn. symmetry. by apply insert_id. }
  unfold mbind at 1, M_bind at 1. rewrite E1. clear E1.
  assert (t_state x1 <> TASK_ZOMBIE /\ k_tasks k1 !! current k1 = Some x1) as [Hz Hx1].
  { split; [|rewrite T1, C1; apply lookup_insert_eq]. unfold x1. case_decide; [done|]. by destruct Hst as [->| ->]. }
  assert (forall next rest k2, irq k2 = 1 -> to_kill k2 = None -> runq k2 = rest -> current k2 = current k ->
    k_tasks k2 = k_tasks k1 -> idle_task k2 = idle_task k -> port_wait_list k2 = port_wait_list k ->
    k_heap k2 = k_heap k -> k_mm k2 = set_irq 1 (k_mm k) -> is_Some (k_tasks k !! next) ->
    exists k', (x2 ← get_current;
      (if decide (t_state x2 = TASK_ZOMBIE) then modify (set_to_kill (Some (current k))) else mret ());;
      switch_to next;; after_switch junk) k2 = Done () k' /\ switched k k' next rest) as Hfin.
  { intros next rest k2 I2 K2 R2 C2 T2 D2 P2 H2 M2 Hn. unfold mbind at 1, M_bind at 1.
    rewrite (get_current_eq k2 x1) by (by rewrite T2, C2, <- C1, Hx1).
    rewrite decide_False by done. unfold mbind at 1, M_bind at 1. unfold mret at 1, M_ret at 1.
    apply (finish_switch k k2 x1); try done.
    - by rewrite T2.
    - exists x. split; [done|]. unfold x1. by case_decide. }
  unfold pick_next. unfold mbind at 1, M_bind at 1. unfold mbind at 1, M_bind at 1. unfold get at 1. rewrite R1.
  destruct (queue k x) as [|next rest] eqn:Eq.
  - unfold mret at 1, M_ret at 1. rewrite D1. by apply Hfin.
  - unfold mbind at 1, M_bind at 1. unfold modify at 1. unfold mret at 1, M_ret at 1.
    apply Hfin; try done. apply Hex. set_solver.
Qed.

Lemma switched_state k k' next rest t :
  switched k k' next rest -> t <> next -> t <> current k -> state_of k' t = state_of k t.
Proof. intros (_ & _ & _ & _ & _ & H & _) H1 H2. unfold state_of. by rewrite H. Qed.

(** What [schedule] picked: the head of the queue or, when that is empty, the idle task. *)
Definition picked k x (next : id) (rest : list id) : Prop :=
  queue k x = next :: rest \/ (queue k x = [] /\ next = idle_task k /\ rest = []).

Lemma picked_NoDup k x next rest : sched_ok k -> picked k x next rest -> NoDup (queue k x).
Proof.
  intros Hok _. unfold queue. apply NoDup_app. split; [apply Hok|].
  case_decide; [|split; [set_solver|constructor]]. split; [|apply NoDup_singleton].
  intros t Ht ->%list_elem_of_singleton. by apply (so_current _ Hok).
Qed.

Lemma switched_ok k k' x next rest :
  sched_ok k -> k_tasks k !! current k = Some x -> t_state x = TASK_RUNNING \/ t_state x = TASK_WAITING ->
  picked k x next rest -> switched k k' next rest -> sched_ok k'.
Proof.
  intros Hok Hx Hst Hpick Hsw. pose proof (picked_NoDup _ _ _ _ Hok Hpick) as Hqnd.
  pose proof Hsw as (C & Rq & I & K & Sn & T & Sc & D & P & _).
  assert (forall t, t ∈ queue k x -> t = current k \/ state_of k t = Some TASK_RUNNABLE) as Hq.
  { intros t. unfold queue. rewrite elem_of_app. intros [Ht|Ht]; [right; by apply (so_runq _ Hok)|].
    case_decide; [|by apply elem_of_nil in Ht]. apply list_elem_of_singleton in Ht. by left. }
  assert (NoDup rest /\ next ∉ rest /\ (forall t, t ∈ rest -> t ∈ queue k x)) as (Hnd & Hnr & Hsub).
  { destruct Hpick as [Hp|(Hp & _ & ->)]; [|split; [constructor|set_solver]].
    rewrite Hp in Hqnd |- *. apply NoDup_cons in Hqnd as [? ?]. set_solver. }
  assert (forall t, t ∈ rest -> state_of k' t = Some TASK_RUNNABLE) as Hrest.
  { intros t Ht. assert (t <> next) by (intros ->; done).
    destruct (decide (t = current k)) as [->|Hne].
    - destruct Sc as (y & Hy & ->); [congruence|]. assert (y = x) as -> by congruence.
      specialize (Hsub _ Ht). unfold queue in Hsub. apply elem_of_app in Hsub as [Hsub|Hsub].
      + by apply (so_current _ Hok) in Hsub.
      + case_decide; [done|by apply elem_of_nil in Hsub].
    - rewrite (switched_state k k' next rest) by done. destruct (Hq t (Hsub t Ht)); done. }
  constructor; rewrite ?C, ?Rq, ?I, ?K, ?D, ?P; try done.
  - intros t Ht. destruct (decide (t = next)) as [->|Hne]; [congruence|].
    assert (t ∈ queue k x \/ t = idle_task k) as [Hin| ->]; [| |by right].
    + destruct (decide (t = current k)) as [->|Hnc].
      * left. destruct Sc as (y & Hy & Ey); [congruence|]. assert (y = x) as -> by congruence.
        rewrite Ey in Ht. unfold queue. case_decide as Hd; [set_solver|]. destruct Hst; congruence.
      * rewrite (switched_state k k' next rest) in Ht by done.
        destruct (so_runnable _ Hok t Ht) as [?|?]; [left; unfold queue; set_solver|by right].
    + destruct Hpick as [Hp|(Hp & _)]; rewrite Hp in Hin; [|by apply elem_of_nil in Hin].
      apply elem_of_cons in Hin as [->|?]; [done|by left].
  - destruct (decide (idle_task k = next)) as [->|Hne]; [by right|]. left.
    destruct (so_idle _ Hok) as [Hid|[Hid Hic]].
    + destruct (decide (idle_task k = current k)) as [Hic|Hnc].
      * unfold state_of in Hid. rewrite Hic, Hx in Hid. cbn in Hid. destruct Hst; congruence.
      * by rewrite (switched_state k k' next rest).
    + rewrite Hic in *. destruct Sc as (y & Hy & ->); [done|]. unfold state_of in Hid.
      rewrite Hy in Hid. cbn in Hid. injection Hid as ->. by rewrite decide_True.
  - intros n l t Hl Ht. pose proof (so_port _ Hok n l t Hl Ht) as Hw.
    assert (t <> next) as Hne.
    { intros ->. destruct Hpick as [Hp|(_ & -> & _)].
      - destruct (Hq next) as [->|Hr]; [rewrite Hp; set_solver| |congruence].
        unfold state_of in Hw. rewrite Hx in Hw. cbn in Hw.
        assert (current k ∈ queue k x) as Hin by (rewrite Hp; set_solver).
        unfold queue in Hin. apply elem_of_app in Hin as [Hin|Hin]; [by apply (so_current _ Hok) in Hin|].
        case_decide as Hd; [congruence|by apply elem_of_nil in Hin].
      - destruct (so_idle _ Hok) as [Hid|[Hid _]]; congruence. }
    destruct (decide (t = current k)) as [->|Hnc].
    + destruct Sc as (y & Hy & ->); [congruence|]. assert (y = x) as -> by congruence.
      unfold state_of in Hw. rewrite Hx in Hw. cbn in Hw. case_decide; congruence.
    + by rewrite (switched_state k k' next rest).
Qed.

Lemma schedule_ok k x :
  sched_ok k -> k_tasks k !! current k = Some x -> t_state x = TASK_RUNNING \/ t_state x = TASK_WAITING ->
  exists k' next rest, schedule junk k = Done () k' /\ picked k x next rest /\ switched k k' next rest
    /\ sched_ok k'.
Proof.
  intros Hok Hx Hst. destruct (schedule_step k x Hok Hx Hst) as (k' & E & Hq).
  destruct (queue k x) as [|next rest] eqn:Eq.
  - exists k', (idle_task k), []. assert (picked k x (idle_task k) []) by (by right).
    split_and!; try done. by eapply switched_ok.
  - exists k', next, rest. assert (picked k x next rest) by (by left).
    split_and!; try done. by eapply switched_ok.
Qed.

(** [n] calls of [schedule], every task running on when it is its turn. *)
Fixpoint schedules (n : nat) : K R () :=
  match n with O => mret () | S n => schedule junk;; schedules n end.

Lemma round_robin_gen i k t :
  sched_ok k -> state_of k (current k) = Some TASK_RUNNING -> runq k !! i = Some t ->
  exists k', schedules (S i) k = Done () k' /\ sched_ok k' /\ current k' = t
    /\ state_of k' t = Some TASK_RUNNING.
Proof.
  revert k. induction i as [|i IH]; intros k Hok Hcur Hi.
  - apply state_of_task in Hcur as (x & Hx & Hst). destruct (runq k) as [|t' l] eqn:Er; [done|].
    injection Hi as ->. destruct (schedule_ok k x Hok Hx (or_introl Hst)) as (k' & next & rest & E & Hp & Hsw & Hok').
    assert (queue k x = t :: l ++ [current k]) as Hq by (unfold queue; by rewrite Er, decide_True).
    destruct Hp as [Hp|[Hp _]]; [|congruence]. rewrite Hq in Hp. injection Hp as <- <-.
    exists k'. split; [|split; [done|]]; [cbn; unfold mbind, M_bind; by rewrite E|].
    by destruct Hsw as (? & _ & _ & _ & ? & _).
  - apply state_of_task in Hcur as (x & Hx & Hst). destruct (runq k) as [|t' l] eqn:Er; [done|].
    destruct (schedule_ok k x Hok Hx (or_introl Hst)) as (k' & next & rest & E & Hp & Hsw & Hok').
    assert (queue k x = t' :: l ++ [current k]) as Hq by (unfold queue; by rewrite Er, decide_True).
    destruct Hp as [Hp|[Hp _]]; [|congruence]. rewrite Hq in Hp. injection Hp as <- <-.
    destruct Hsw as (C & Rq & _ & _ & Sn & _).
    destruct (IH k') as (k2 & E2 & H2); [done|by rewrite C| |].
    + rewrite Rq. simpl in Hi. by apply lookup_app_l_Some.
    + exists k2. split; [|done]. change (schedules (S (S i))) with (schedule junk;; schedules (S i)).
      unfold mbind, M_bind. by rewrite E.
Qed.

Definition woken_up (t : id) (x : task) k : kernel R :=
  set_runq (t :: runq k) (set_tasks (<[t := with_state TASK_RUNNABLE x]> (k_tasks k)) k).
Lemma wake_up_waiting k t x :
  k_tasks k !! t = Some x -> t_state x = TASK_WAITING -> t ∉ runq k ->
  (forall n l, port_wait_list k !! n = Some l -> t ∉ l) -> wake_up t k = Done () (woken_up t x k).
Proof.
  intros Hx Hst Hr Hp. unfold wake_up, mbind, M_bind. rewrite (get_task_eq _ _ x) by done.
  rewrite decide_True by done. unfold put_task, modify, runq_add, mbind, M_bind, gets.
  by rewrite task_linked_false.
Qed.
Lemma waiting_not_queued k t x : sched_ok k -> k_tasks k !! t = Some x -> t_state x = TASK_WAITING -> t ∉ runq k.
Proof.
  intros Hok Hx Hst Hin. apply (so_runq _ Hok), state_of_task in Hin as (y & Hy & Hs). congruence.
Qed.

Lemma wake_up_ok k t x :
  sched_ok k -> k_tasks k !! t = Some x -> t_state x = TASK_WAITING -> t <> current k ->
  (forall n l, port_wait_list k !! n = Some l -> t ∉ l) ->
  sched_ok (woken_up t x k).
Proof.
  intros Hok Hx Hst Hne Hp. unfold woken_up.
  assert (forall t', state_of (set_runq (t :: runq k) (set_tasks (<[t := with_state TASK_RUNNABLE x]> (k_tasks k)) k)) t'
    = if decide (t' = t) then Some TASK_RUNNABLE else state_of k t') as Hs.
  { intros t'. unfold state_of. cbn. case_decide as E; [subst; by rewrite lookup_insert_eq|by rewrite lookup_insert_ne]. }
  assert (state_of k t = Some TASK_WAITING) as Hw by (unfold state_of; rewrite Hx; cbn; by rewrite Hst).
  destruct Hok as [Hi Hk Hnd Hrq Hrun [Hcs Hc] Hid Hpw].
  assert (t ∉ runq k) as Hnr by (intros Hin; specialize (Hrq t Hin); congruence).
  constructor; cbn -[state_of]; try done.
  - by apply NoDup_cons.
  - intros t' Ht. rewrite Hs. case_decide as E; [done|]. apply Hrq. by apply elem_of_cons in Ht as [->|?].
  - intros t' Ht. rewrite Hs in Ht. case_decide as E; [left; subst; set_solver|].
    destruct (Hrun t' Ht); [left; set_solver|by right].
  - rewrite Hs. case_decide as E; [by subst|]. split; [done|set_solver].
  - rewrite Hs. case_decide as E; [by left|]. destruct Hid as [?|[? ?]]; [by left|by right].
  - intros n l t' Hl Ht. rewrite Hs. case_decide as E; [subst; by destruct (Hp n l Hl)|by eapply Hpw].
Qed.

(** C7: [schedule] returns, keeps the run queue consistent, and switches to the
    task at the head of the queue (the one that just ran goes to its end), or to
    the idle task when nobody is runnable; interrupts are enabled afterwards. *)
Theorem schedule_correct k x :
  sched_ok k -> k_tasks k !! current k = Some x -> t_state x = TASK_RUNNING \/ t_state x = TASK_WAITING ->
  exists k', schedule junk k = Done () k' /\ sched_ok k'
    /\ runq k' = tl (queue k x) /\ state_of k' (current k') = Some TASK_RUNNING
    /\ current k' = match queue k x with next :: _ => next | [] => idle_task k end.
Proof.
  intros Hok Hx Hst. destruct (schedule_ok k x Hok Hx Hst) as (k' & next & rest & E & Hp & Hsw & Hok').
  destruct Hsw as (C & Rq & _ & _ & Sn & _). exists k'. rewrite C, Rq.
  destruct Hp as [Hp|(Hp & -> & ->)]; rewrite Hp; done.
Qed.

(** C8: the scheduler is fair: as long as no task sleeps or is woken, the task at
    position [i] of the run queue runs after [i+1] calls of [schedule]. *)
Theorem schedule_round_robin i k t :
  sched_ok k -> state_of k (current k) = Some TASK_RUNNING -> runq k !! i = Some t ->
  exists k', schedules (S i) k = Done () k' /\ sched_ok k' /\ current k' = t
    /\ state_of k' t = Some TASK_RUNNING.
Proof. apply round_robin_gen. Qed.

(** no wake-up is lost: waking a sleeping task makes it runnable, and the next
    call of [schedule] runs it. *)
Theorem wake_up_runs k t x y :
  sched_ok k -> k_tasks k !! t = Some x -> t_state x = TASK_WAITING -> t <> current k ->
  (forall n l, port_wait_list k !! n = Some l -> t ∉ l) ->
  k_tasks k !! current k = Some y -> t_state y = TASK_RUNNING \/ t_state y = TASK_WAITING ->
  exists k1 k2, wake_up t k = Done () k1 /\ sched_ok k1 /\ schedule junk k1 = Done () k2
    /\ sched_ok k2 /\ current k2 = t.
Proof.
  intros Hok Hx Hst Hne Hp Hy Hys. pose proof (wake_up_ok k t x Hok Hx Hst Hne Hp) as Hok1.
  rewrite (wake_up_waiting k t x Hx Hst (waiting_not_queued k t x Hok Hx Hst) Hp).
  set (k1 := woken_up t x k) in *.
  assert (k_tasks k1 !! current k1 = Some y) as Hy1 by (cbn; by rewrite lookup_insert_ne).
  destruct (schedule_ok k1 y Hok1 Hy1 Hys) as (k2 & next & rest & E & Hpk & Hsw & Hok2).
  exists k1, k2. split_and!; try done. destruct Hsw as (-> & _).
  destruct Hpk as [Hpk|[Hpk _]]; unfold queue in Hpk; cbn in Hpk; congruence.
Qed.
End sched.

(** ** Witnesses *)
Definition ex_task (st : task_state) (pid : Z) : task :=
  mkTask st fdtable_new fdtable_new (Some 1%positive) pid None [] 0 0 [].
(** The idle task 1, the running task 2, 3 and 4 queued, 5 asleep. *)
Definition ex_kernel : kernel (gmap Z id) :=
  mkK ex_mm
    {[1%positive := ex_task TASK_RUNNABLE 0; 2%positive := ex_task TASK_RUNNING 1;
      3%positive := ex_task TASK_RUNNABLE 2; 4%positive := ex_task TASK_RUNNABLE 3;
      5%positive := ex_task TASK_WAITING 4]}
    ∅ 10 2 1 [3%positive; 4%positive] None
    {[0 := 1%positive; 1 := 2%positive; 2 := 3%positive; 3 := 4%positive; 4 := 5%positive]} ∅ ∅ ∅ ∅ [].

Lemma ex_state t st :
  state_of ex_kernel t = Some st ->
  (t = 1%positive /\ st = TASK_RUNNABLE) \/ (t = 2%positive /\ st = TASK_RUNNING)
  \/ (t = 3%positive /\ st = TASK_RUNNABLE) \/ (t = 4%positive /\ st = TASK_RUNNABLE)
  \/ (t = 5%positive /\ st = TASK_WAITING).
Proof.
  unfold state_of. intros (x & Hx & ->)%fmap_Some. cbn [k_tasks ex_kernel] in Hx.
  repeat (apply lookup_insert_Some in Hx as [[<- <-]|[_ Hx]]; [cbn; tauto|]).
  by apply lookup_empty_Some in Hx || (apply lookup_singleton_Some in Hx as [<- <-]; cbn; tauto).
Qed.

Lemma ex_sched_ok : sched_ok ex_kernel.
Proof.
  constructor; try done.
  - cbn. apply NoDup_cons. split; [by rewrite list_elem_of_singleton|apply NoDup_singleton].
  - intros t Ht. cbn in Ht. apply elem_of_cons in Ht as [->|Ht]; [done|].
    by apply list_elem_of_singleton in Ht as ->.
  - intros t Ht. apply ex_state in Ht as [[-> _]|[[_ ?]|[[-> _]|[[-> _]|[_ ?]]]]]; try done.
    + by right.
    + left. cbn. set_solver.
    + left. cbn. set_solver.
  - split; [by eexists|]. cbn. intros Hin. apply elem_of_cons in Hin as [?|Hin]; [done|].
    by apply list_elem_of_singleton in Hin.
  - by left.
Qed.

Lemma schedule_correct_witness :
  exists k', schedule 0 ex_kernel = Done () k' /\ sched_ok k'
    /\ runq k' = tl (queue ex_kernel (ex_task TASK_RUNNING 1)) /\ state_of k' (current k') = Some TASK_RUNNING
    /\ current k' = match queue ex_kernel (ex_task TASK_RUNNING 1) with next :: _ => next
                    | [] => idle_task ex_kernel end.
Proof.
  apply (schedule_correct 0 ex_kernel (ex_task TASK_RUNNING 1) ex_sched_ok); [reflexivity|by left].
Defined.

Lemma schedule_round_robin_witness :
  exists k', schedules 0 2 ex_kernel = Done () k' /\ sched_ok k' /\ current k' = 4%positive
    /\ state_of k' 4 = Some TASK_RUNNING.
Proof. apply (schedule_round_robin 0 1 ex_kernel 4 ex_sched_ok); reflexivity. Defined.

Lemma wake_up_runs_witness :
  exists k1 k2, wake_up 5 ex_kernel = Done () k1 /\ sched_ok k1 /\ schedule 0 k1 = Done () k2
    /\ sched_ok k2 /\ current k2 = 5%positive.
Proof.
  refine (wake_up_runs 0 ex_kernel 5 (ex_task TASK_WAITING 4) (ex_task TASK_RUNNING 1) ex_sched_ok
            _ _ _ _ _ _); try reflexivity; [done|done|by left].
Defined.
