(* ===== verification/UportProofs.v ===== *)
(** User-served ports: requests queue up in order, replies go back to the
    request they answer. *)
From S2P Require Import Prelude Bits Irq Binradix Alloc MmState PageMan Aspace FdTable Copy Kernel Sched Port Uport VmaProofs SchedProofs.

(** ** Running kernel code *)
Section run.
Context {R : Type} `{!RadixMap R id}.
Implicit Types k : kernel R.

Lemma get_obj_eq k i o : k_heap k !! i = Some o -> get_obj i k = Done o k.
Proof. intros E. unfold get_obj, gets, mbind, M_bind. by rewrite E. Qed.
Lemma get_req_eq k i pool r : k_heap k !! i = Some (pool, OReq r) -> get_req i k = Done r k.
Proof. intros E. unfold get_req, mbind, M_bind. by rewrite (get_obj_eq _ _ _ E). Qed.
Lemma get_uport_eq k i pool u : k_heap k !! i = Some (pool, OUport u) -> get_uport i k = Done u k.
Proof. intros E. unfold get_uport, mbind, M_bind. by rewrite (get_obj_eq _ _ _ E). Qed.
Lemma get_ureq_eq k i pool u : k_heap k !! i = Some (pool, OUreq u) -> get_ureq i k = Done u k.
Proof. intros E. unfold get_ureq, mbind, M_bind. by rewrite (get_obj_eq _ _ _ E). Qed.
Lemma get_cookie_eq k i pool c : k_heap k !! i = Some (pool, OCookie c) -> get_cookie i k = Done c k.
Proof. intros E. unfold get_cookie, mbind, M_bind. by rewrite (get_obj_eq _ _ _ E). Qed.
Lemma get_msg_eq k i pool m : k_heap k !! i = Some (pool, OMsg m) -> get_msg i k = Done m k.
Proof. intros E. unfold get_msg, mbind, M_bind. by rewrite (get_obj_eq _ _ _ E). Qed.
Lemma put_obj_eq k i pool o o' :
  k_heap k !! i = Some (pool, o) -> put_obj i o' k = Done () (set_heap (<[i := (pool, o')]> (k_heap k)) k).
Proof. intros E. unfold put_obj, mbind, M_bind. by rewrite (get_obj_eq _ _ _ E). Qed.
Lemma put_req_eq k i pool o r' :
  k_heap k !! i = Some (pool, o) -> put_req i r' k = Done () (set_heap (<[i := (pool, OReq r')]> (k_heap k)) k).
Proof. apply put_obj_eq. Qed.
Lemma new_obj_eq k pool x o :
  k_tasks k !! pool = Some x ->
  new_obj pool o k = Done (k_next k)
    (set_heap (<[k_next k := (pool, o)]> (k_heap k)) (set_knext (Pos.succ (k_next k)) k)).
Proof. intros E. unfold new_obj, mbind, M_bind. by rewrite (get_task_eq _ _ _ E). Qed.
Lemma free_obj_eq k pool x i o :
  k_tasks k !! pool = Some x -> k_heap k !! i = Some o ->
  free_obj pool i k = Done () (set_heap (delete i (k_heap k)) k).
Proof. intros E Eo. unfold free_obj, gets, mbind, M_bind. rewrite (get_task_eq _ _ _ E). by rewrite Eo. Qed.
End run.

Section uport.
Context {R : Type} `{!RadixMap R id}.
Context (zjunk : Z) (junk : request).
Implicit Types k : kernel R.

(** Names above [k_next] are unused. *)
Definition heap_ok k : Prop := forall i, (k_next k <= i)%positive -> k_heap k !! i = None.

Lemma heap_fresh k i o : heap_ok k -> k_heap k !! i = Some o -> i <> k_next k.
Proof. intros Hok E ->. rewrite Hok in E by lia. done. Qed.

(** Who is woken: the owner of a request somebody waits on with one of the bits [b]. *)
Definition woken k (b : Z) (r : request) (k' : kernel R) : Prop :=
  (if flag b (waited_rw r) then wake_up (rq_owner r) else mret ()) k = Done () k'.

Lemma wake_frame k t k' :
  wake_up t k = Done () k' ->
  k_heap k' = k_heap k /\ current k' = current k /\ k_mm k' = k_mm k /\ k_next k' = k_next k
  /\ uport_tab k' = uport_tab k /\ forall t' x, k_tasks k !! t' = Some x ->
       exists x', k_tasks k' !! t' = Some x' /\ t_fds x' = t_fds x /\ t_pid x' = t_pid x.
Proof.
  unfold wake_up. intros (x & k1 & E1 & E)%bind_Done.
  unfold get_task in E1. apply bind_Done in E1 as (o & k2 & [= <- <-] & E1).
  destruct (k_tasks k !! t) as [y|] eqn:Hy; [|done]. injection E1 as <- <-.
  destruct (decide _).
  - apply bind_Done in E as ([] & k1 & [= <-] & E). unfold runq_add in E.
    apply bind_Done in E as (b & k2 & [= <- <-] & E). destruct (task_linked _ _); [done|].
    injection E as <-. split_and!; try done. intros t' x' Hx'. cbn.
    destruct (decide (t' = t)) as [->|]; [rewrite lookup_insert_eq; rewrite Hy in Hx'; simplify_eq; eauto|].
    rewrite lookup_insert_ne by done. eauto.
  - injection E as <-. split_and!; try done. eauto.
Qed.

Lemma woken_frame k b r k' :
  woken k b r k' ->
  k_heap k' = k_heap k /\ current k' = current k /\ k_mm k' = k_mm k /\ k_next k' = k_next k
  /\ uport_tab k' = uport_tab k /\ forall t' x, k_tasks k !! t' = Some x ->
       exists x', k_tasks k' !! t' = Some x' /\ t_fds x' = t_fds x /\ t_pid x' = t_pid x.
Proof.
  unfold woken. destruct (flag _ _); [apply wake_frame|]. intros [= <-]. split_and!; try done. eauto.
Qed.

Lemma take_buffer_frame len buf k o k0 : take_buffer zjunk len buf k = Done o k0 ->
  k_heap k0 = k_heap k /\ k_tasks k0 = k_tasks k /\ current k0 = current k /\ k_next k0 = k_next k.
Proof.
  unfold take_buffer. destruct (_ || _).
  - intros (y & k1 & E & [= _ <-])%bind_Done. unfold mm_lift in E. destruct (map_from_user _ _ _ _); [|done..].
    by injection E as _ <-.
  - intros [= _ <-]. done.
Qed.

(** C4: [uport_request] on a closed connection fails with EPIPE and on one the server
    has not yet accepted with EAGAIN, changing nothing; on an established one it
    appends the request to the end of the server's queue, marks it pending and
    wakes the server if it waits for reading. *)
Theorem uport_request_queues k req reqc len buf rpool r :
  k_heap k !! req = Some (rpool, OReq r) ->
  (rq_state r = REQ_CLOSED -> uport_request zjunk req reqc len buf k = Done (- EPIPE) k)
  /\ (rq_state r = REQ_PENDING -> uport_request zjunk req reqc len buf k = Done (- EAGAIN) k)
  /\ (rq_state r = REQ_ESTABLISHED -> forall cpool rc sreq spool s upr upool u x k0 plh,
      heap_ok k -> k_heap k !! reqc = Some (cpool, OReq rc) ->
      rq_data r = DPtr sreq -> k_heap k !! sreq = Some (spool, OReq s) -> rq_data s = DPtr upr ->
      k_heap k !! upr = Some (upool, OUreq u) -> k_tasks k !! current k = Some x -> reqc <> sreq ->
      take_buffer zjunk len buf k = Done (inr plh) k0 ->
      let msg := k_next k in
      let rc' := mkReq (rq_type rc) REQ_PENDING (rq_owner rc) (Some UportClient) (DPtr msg) (waited_rw rc) in
      let k1 := set_heap (<[upr := (upool, OUreq (mkUreq (ur_clients u) (ur_incoming u ++ [msg])))]>
                  (<[reqc := (cpool, OReq rc')]> (<[msg := (current k, OMsg (mkMsg plh reqc))]> (k_heap k))))
                (set_knext (Pos.succ msg) k0) in
      forall k', woken k1 1 s k' -> uport_request zjunk req reqc len buf k = Done 0 k').
Proof.
  intros Hr. unfold uport_request. split; [|split].
  - intros E. kstep get_req_eq. by rewrite decide_True.
  - intros E. kstep get_req_eq. rewrite decide_False by congruence. by rewrite decide_True.
  - intros E cpool rc sreq spool s upr upool u x k0 plh Hok Hrc Hd Hs Hsd Hu Hx Hne Hbuf. cbv zeta. intros k' Hw.
    destruct (take_buffer_frame _ _ _ _ _ Hbuf) as (F1 & F2 & F3 & F4). kstep get_req_eq.
    rewrite decide_False by congruence. rewrite decide_False by congruence. rewrite Hd.
    cbv beta iota; erewrite bind_eq; [|reflexivity]. cbv beta iota; erewrite bind_eq; [|exact Hbuf].
    cbv beta iota; erewrite bind_eq; [|apply gets_eq]. cbv beta iota; erewrite bind_eq; [|eapply new_obj_eq; rewrite F2, F3; exact Hx].
    set (k1 := set_heap _ _).
    assert (forall i o, k_heap k !! i = Some o -> k_heap k1 !! i = Some o) as Hkeep.
    { intros i o Hi. cbn. rewrite F1, F4, lookup_insert_ne; [done|]. symmetry. by eapply heap_fresh. }
    cbv beta iota; erewrite bind_eq; [|eapply get_req_eq, Hkeep, Hrc].
    cbv beta iota; erewrite bind_eq; [|eapply put_req_eq, Hkeep, Hrc].
    cbv beta iota; erewrite bind_eq; [|eapply get_req_eq; cbn -[k1]; rewrite lookup_insert_ne by done; apply Hkeep, Hs].
    rewrite Hsd. cbv beta iota; erewrite bind_eq; [|reflexivity].
    assert (reqc <> upr) as Hne2 by (intros ->; congruence).
    assert (k_heap (set_heap (<[reqc:=(cpool, OReq (mkReq (rq_type rc) REQ_PENDING (rq_owner rc) (Some UportClient)
      (DPtr (k_next k0)) (waited_rw rc)))]> (k_heap k1)) k1) !! upr = Some (upool, OUreq u)) as Hupr.
    { cbn -[k1]. rewrite lookup_insert_ne by done. apply Hkeep, Hu. }
    cbv beta iota; erewrite bind_eq; [|eapply get_ureq_eq, Hupr].
    cbv beta iota; erewrite bind_eq; [|eapply put_obj_eq, Hupr].
    unfold woken in Hw. subst k1. unfold set_heap, set_knext in *. cbn [k_heap k_next k_mm k_tasks current idle_task runq
      to_kill pids port uport_tab port_wait_list int_wait_list free_range] in *. rewrite F1, F3, F4 in *.
    erewrite bind_eq; [apply mret_eq|]. exact Hw.
Qed.

(** ** Serving *)
Lemma mm_lift_eq {A} (m : M (mm R) A) k a s :
  m (k_mm k) = Done a s -> mm_lift m k = Done a (set_mm s k).
Proof. intros E. unfold mm_lift. by rewrite E. Qed.

Lemma kernel_disable k : disable_interrupts k = Done () (set_mm (set_irq (irq k + 1) (k_mm k)) k).
Proof. by rewrite disable_eq. Qed.

Lemma lookup_fd_eq k x fd o :
  k_tasks k !! current k = Some x -> 0 <= fd < Z.of_nat max_fds -> slot (t_fds x) fd = Some o ->
  lookup_fd fd k = Done o k /\ lookup_fd_strict fd k = Done o k.
Proof.
  intros Hx Hfd Hs. assert (cur_slot fd k = Done o k) as Hc.
  { unfold cur_slot, mbind, M_bind. rewrite (get_current_eq k x) by done. by rewrite Hs. }
  unfold lookup_fd, lookup_fd_strict.
  destruct (Z.ltb_spec fd 0); [lia|]. destruct (Z.ltb_spec (Z.of_nat max_fds) fd); [lia|].
  destruct (Z.leb_spec (Z.of_nat max_fds) fd); [lia|]. cbn [orb]. by rewrite Hc.
Qed.

Lemma insert_fd_eq k x r fd fds :
  k_tasks k !! current k = Some x -> fdtable_insert (t_fds x) r = (fd, fds) ->
  insert_fd r k = Done fd (set_tasks (<[current k := with_fds fds x]> (k_tasks k)) k).
Proof.
  intros Hx E. unfold insert_fd, mbind, M_bind. rewrite (get_current_eq k x) by done. by rewrite E.
Qed.

Lemma msg_unlink_eq k m i pool u :
  k_heap k !! i = Some (pool, OUreq u) -> m ∈ ur_incoming u ->
  msg_unlink m k = Done () (set_heap (unlink_msg m <$> k_heap k) k).
Proof.
  intros E Hin. unfold msg_unlink, gets, mbind, M_bind.
  assert (existsb (fun o => msg_links m o.2) (map_to_list (k_heap k)) = true) as ->; [|done].
  apply existsb_exists. exists (i, (pool, OUreq u)). split.
  - apply list_elem_of_In. by apply elem_of_map_to_list.
  - cbn. by apply bool_decide_eq_true_2.
Qed.

Lemma unlink_not_in (m : id) l : m ∉ l -> unlink m l = l.
Proof.
  unfold unlink. induction l as [|x l IH]; intros H; [done|]. apply not_elem_of_cons in H as [H1 H2].
  rewrite filter_cons_True by congruence. by rewrite IH.
Qed.
Lemma unlink_head (m : id) l : m ∉ l -> unlink m (m :: l) = l.
Proof. intros H. unfold unlink. rewrite filter_cons_False by auto. by apply unlink_not_in. Qed.

Lemma unlink_msg_other m o : msg_links m o = false -> unlink_msg m o = o.
Proof.
  destruct o as [pool [r|[l n]|[c l]|c|g]]; try done; intros H%bool_decide_eq_false;
    unfold unlink_msg; cbn [up_incoming ur_incoming]; by rewrite unlink_not_in.
Qed.

(** What has been set up when a request has been popped from a connection:
    server request [sreq], cookie [ck], for the client's request [creq]. *)
Definition serving k (sreq ck creq : id) : Prop :=
  (exists pool s, k_heap k !! sreq = Some (pool, OReq s) /\ rq_type s = REQ_PORT_COOKIE
     /\ rq_data s = DPtr ck /\ rq_ops s = Some UportServer)
  /\ k_heap k !! ck = Some (current k, OCookie (mkCookie (Some creq) NoReply (current k)))
  /\ (exists pool q, k_heap k !! creq = Some (pool, OReq q) /\ rq_state q = REQ_ESTABLISHED
        /\ rq_data q = DPtr ck).

(** [k] with the descriptors [fds] for its task, the objects [h], two of them new, and
    the memory [s]; nothing else is different. *)
Definition pop_state k (x : task) (fds : fdtable id) (h : gmap id (id * obj)) (s : mm R) : kernel R :=
  mkK s (<[current k := with_fds fds x]> (k_tasks k)) h (Pos.succ (Pos.succ (k_next k))) (current k) (idle_task k)
    (runq k) (to_kill k) (pids k) (port k) (uport_tab k) (port_wait_list k) (int_wait_list k) (free_range k).

(** C5: [pop_request] on a connection takes the oldest queued request: the message
    leaves the queue and its memory, a new cookie in a new descriptor ties the
    server to exactly the client request that sent it, and that request becomes
    established; the client is woken if it waits for writing.  No other object, task
    or queue changes. *)
Theorem pop_request_oldest k rd buf x ri rpool req upr upool u m rest mpool plh creq cpool q y fd fds
  vaddr len s1 s2 s3 :
  heap_ok k -> k_tasks k !! current k = Some x -> 0 <= rd < Z.of_nat max_fds ->
  slot (t_fds x) rd = Some (Some ri) -> k_heap k !! ri = Some (rpool, OReq req) ->
  rq_type req = REQ_PORT_REQ -> rq_data req = DPtr upr -> k_heap k !! upr = Some (upool, OUreq u) ->
  ur_incoming u = m :: rest -> m ∉ rest -> k_heap k !! m = Some (mpool, OMsg (mkMsg plh creq)) ->
  (forall i o, k_heap k !! i = Some o -> i <> upr -> msg_links m o = false) ->
  k_heap k !! creq = Some (cpool, OReq q) -> k_tasks k !! rq_owner q = Some y ->
  fdtable_insert (t_fds x) (k_next k) = (fd, fds) -> 0 <= fd ->
  map_plh plh (set_irq (irq k + 1) (k_mm k)) = Done (inr (vaddr, len)) s1 ->
  copy_to_user_simple (enc_urequest len vaddr (t_pid y)) buf s1 = Done 0 s2 ->
  (match plh with Some p => page_list_free p | None => mret () end) s2 = Done () s3 ->
  exists h, let k1 := pop_state k x fds h s3 in
    serving k1 (k_next k) (Pos.succ (k_next k)) creq
    /\ h !! creq = Some (cpool, OReq (with_rstate REQ_ESTABLISHED (with_data (DPtr (Pos.succ (k_next k))) q)))
    /\ h !! upr = Some (upool, OUreq (mkUreq (ur_clients u) rest)) /\ h !! m = None
    /\ (forall i, i ∉ [k_next k; Pos.succ (k_next k); creq; upr; m] -> h !! i = k_heap k !! i)
    /\ forall k2, woken k1 2 q k2 -> irq s3 = irq k + 1 -> 0 <= irq k ->
         pop_request zjunk junk rd buf k = Done fd (set_irq (irq k) k2).
Proof.
  intros Hok Hx Hrd Hslot Hri Htype Hdata Hupr Hinc Hnotin Hm Hlinks Hcreq Hy Hfd Hfd0 Hmap Hcopy Hfree.
  set (sreq := k_next k) in *. set (ck := Pos.succ sreq).
  assert (forall i o, k_heap k !! i = Some o -> i <> sreq /\ i <> ck) as Hold.
  { intros i o E. split; intros ->; rewrite (Hok _) in E by (unfold ck, sreq; lia); done. }
  destruct (Hold _ _ Hri) as [? ?], (Hold _ _ Hupr) as [? ?], (Hold _ _ Hm) as [? ?], (Hold _ _ Hcreq) as [? ?].
  assert (creq <> m) by congruence. assert (upr <> m) by congruence. assert (creq <> upr) by congruence.
  unfold pop_request. set (k0 := set_mm (set_irq (irq k + 1) (k_mm k)) k).
  set (hp1 := <[sreq := (current k, OReq junk)]> (k_heap k)).
  set (T1 := <[current k := with_fds fds x]> (k_tasks k)).
  set (hp2 := delete m (unlink_msg m <$> hp1)).
  set (cookie := mkCookie (Some creq) NoReply (current k)).
  set (s' := mkReq REQ_PORT_COOKIE (rq_state junk) (current k) (Some UportServer) (DPtr ck) 0).
  set (q' := with_rstate REQ_ESTABLISHED (with_data (DPtr ck) q)).
  set (hp3 := <[sreq := (current k, OReq s')]> (<[ck := (current k, OCookie cookie)]> hp2)).
  set (hp4 := <[creq := (cpool, OReq q')]> hp3).
  set (st := fun (h : gmap id (id * obj)) (s : mm R) (n : id) => mkK s T1 h n (current k) (idle_task k) (runq k) (to_kill k) (pids k) (port k)
    (uport_tab k) (port_wait_list k) (int_wait_list k) (free_range k)).
  assert (forall i o, k_heap k !! i = Some o -> hp1 !! i = Some o) as L1.
  { intros i o E. unfold hp1. rewrite lookup_insert_ne; [done|]. by destruct (Hold _ _ E). }
  assert (forall i o, i <> m -> hp1 !! i = Some o -> hp2 !! i = Some (unlink_msg m o)) as L2.
  { intros i o Hne E. unfold hp2. rewrite lookup_delete_ne, lookup_fmap, E by done. done. }
  assert (exists y', T1 !! rq_owner q = Some y' /\ t_pid y' = t_pid y) as (y' & Hy' & Hpid).
  { unfold T1. destruct (decide (rq_owner q = current k)) as [E|].
    - rewrite E, lookup_insert_eq. rewrite E, Hx in Hy. injection Hy as <-. eauto.
    - rewrite lookup_insert_ne by done. eauto. }
  assert (T1 !! current k = Some (with_fds fds x)) as HT1 by apply lookup_insert_eq.
  exists hp4. cbv zeta. change (pop_state k x fds hp4 s3) with (st hp4 s3 (Pos.succ ck)).
  split; [|split; [|split; [|split; [|split]]]].
  - split; [|split].
    + exists (current k), s'. cbn. unfold hp4, hp3. rewrite lookup_insert_ne by congruence.
      rewrite lookup_insert_eq. done.
    + cbn. unfold hp4, hp3. rewrite lookup_insert_ne by congruence.
      rewrite lookup_insert_ne by (unfold ck, sreq; lia). by rewrite lookup_insert_eq.
    + exists cpool, q'. cbn. unfold hp4. rewrite lookup_insert_eq. done.
  - unfold hp4. by rewrite lookup_insert_eq.
  - cbn. unfold hp4, hp3. rewrite !lookup_insert_ne by congruence.
    rewrite (L2 upr _ ltac:(done) (L1 _ _ Hupr)). cbn. by rewrite Hinc, unlink_head.
  - cbn. unfold hp4, hp3. rewrite !lookup_insert_ne by congruence. unfold hp2. by rewrite lookup_delete_eq.
  - intros i Hi. rewrite !not_elem_of_cons in Hi. destruct Hi as (? & ? & ? & Hiu & ? & _).
    unfold hp4, hp3, hp2, hp1. rewrite !lookup_insert_ne, lookup_delete_ne, lookup_fmap, lookup_insert_ne by congruence.
    destruct (k_heap k !! i) as [o|] eqn:Ei; [|done]. cbn. f_equal. apply unlink_msg_other. by apply (Hlinks i).
  - intros k2 Hw Hirq Hpos.
    kstep kernel_disable. fold k0.
    kstep (proj1 (lookup_fd_eq k0 x rd (Some ri) Hx Hrd Hslot)).
    kstep get_req_eq. rewrite Htype. rewrite (bool_decide_eq_false_2 (REQ_PORT_REQ = REQ_PORT)) by done.
    rewrite bool_decide_eq_true_2 by done. cbn [orb negb].
    assert (incoming_top req k0 = Done (inr m) k0) as Etop.
    { unfold incoming_top. rewrite Hdata. kstep mret_eq. rewrite Htype.
      rewrite decide_False by done. kstep get_ureq_eq. by rewrite Hinc. }
    cbv beta iota; erewrite bind_eq; [|exact Etop]. kstep gets_eq.
    kstep (new_obj_eq k0 (current k) x).
    kstep (insert_fd_eq _ x sreq fd fds).
    destruct (Z.ltb_spec fd 0); [lia|]. change (k_next k0) with sreq.
    change (set_tasks _ _) with (st hp1 (set_irq (irq k + 1) (k_mm k)) ck).
    cbv beta iota; erewrite bind_eq; [|eapply get_msg_eq, L1, Hm]. cbn [ms_plh ms_client].
    cbv beta iota; erewrite bind_eq; [|eapply mm_lift_eq; cbn; exact Hmap]. cbv beta iota.
    cbv beta iota; erewrite bind_eq; [|eapply get_req_eq, L1, Hcreq].
    cbv beta iota; erewrite bind_eq; [|eapply get_task_eq, Hy'].
    cbv beta iota; erewrite bind_eq; [|eapply mm_lift_eq; cbn; rewrite Hpid; exact Hcopy]. cbn [Z.eqb negb].
    cbv beta iota; erewrite bind_eq; [|eapply msg_unlink_eq; [apply L1, Hupr|rewrite Hinc; set_solver]].
    cbv beta iota; erewrite bind_eq; [|unfold free_plh; eapply mm_lift_eq; cbn; exact Hfree].
    cbv beta iota; erewrite bind_eq; [|eapply free_obj_eq; [exact Hy'|cbn; rewrite lookup_fmap, (L1 _ _ Hm); done]].
    change (set_heap _ _) with (st hp2 s3 ck).
    assert (hp2 !! sreq = Some (current k, OReq junk)) as Ls.
    { apply (L2 sreq (current k, OReq junk)); [congruence|]. apply lookup_insert_eq. }
    assert (hp2 !! creq = Some (cpool, OReq q)) as Lc by (by apply (L2 creq (cpool, OReq q)), L1).
    assert (establish false sreq creq (st hp2 s3 ck) = Done () k2) as Hest.
    { unfold establish. kstep gets_eq.
      cbv beta iota; erewrite bind_eq; [|erewrite bind_eq; [reflexivity|eapply new_obj_eq, HT1]].
      cbv beta iota. change (k_next (st hp2 s3 ck)) with ck. change (current (st hp2 s3 ck)) with (current k).
      change (set_heap _ _) with (st (<[ck := (current k, OCookie cookie)]> hp2) s3 (Pos.succ ck)).
      cbv beta iota; erewrite bind_eq; [|eapply get_req_eq; cbn;
        rewrite lookup_insert_ne by (unfold ck, sreq; lia); exact Ls].
      cbv beta iota; erewrite bind_eq; [|eapply put_req_eq; cbn;
        rewrite lookup_insert_ne by (unfold ck, sreq; lia); exact Ls].
      change (set_heap _ _) with (st hp3 s3 (Pos.succ ck)).
      assert (hp3 !! creq = Some (cpool, OReq q)) as Lc3.
      { unfold hp3. by rewrite !lookup_insert_ne by congruence. }
      cbv beta iota; erewrite bind_eq; [|eapply get_req_eq; exact Lc3].
      cbv beta iota; erewrite bind_eq; [|eapply put_req_eq; exact Lc3].
      exact Hw. }
    cbv beta iota; erewrite bind_eq; [|exact Hest].
    destruct (woken_frame _ _ _ _ Hw) as (_ & _ & Hmm & _).
    assert (irq k2 = irq k + 1) as Hi2 by (change (irq (k_mm k2) = irq k + 1); by rewrite Hmm).
    cbv beta iota; erewrite bind_eq; [|apply enable_eq; lia].
    rewrite Hi2. by replace (irq k + 1 - 1) with (irq k) by lia.
Qed.

Lemma free_obj_other k pool x i o j o' :
  k_tasks k !! pool = Some x -> k_heap k !! i = Some o -> j <> i -> k_heap k !! j = Some o' ->
  exists k', free_obj pool i k = Done () k' /\ k_heap k' !! j = Some o'.
Proof.
  intros Hx Ho Hne Hj. eexists. split; [by eapply free_obj_eq|]. cbn. by rewrite lookup_delete_ne.
Qed.

(** The state after [respond] has stored the reply [plh] in cookie [p]. *)
Definition responded k (fd : Z) (x : task) (ri p pool : id) (cl : option id) (plh : page_list_head) (ow : id)
  (s1 : mm R) : kernel R :=
  set_heap (<[p := (pool, OCookie (mkCookie cl (Reply plh) ow))]> (delete ri (k_heap k)))
    (set_tasks (<[current k := with_fds (set_slot (t_fds x) fd None) x]> (k_tasks k)) (set_mm s1 k)).

(** [respond], when the client sleeps until it can read: it is woken up. *)
Lemma respond_ok k fd len buf x ri rpool req p ppool cl ow cpool q plh s1 k2 :
  k_tasks k !! current k = Some x -> 0 <= fd < Z.of_nat max_fds -> slot (t_fds x) fd = Some (Some ri) ->
  k_heap k !! ri = Some (rpool, OReq req) -> rq_type req = REQ_PORT_COOKIE -> rq_data req = DPtr p ->
  k_heap k !! p = Some (ppool, OCookie (mkCookie (Some cl) NoReply ow)) ->
  k_heap k !! cl = Some (cpool, OReq q) -> rq_type q = REQ_COOKIE -> 0 <= irq k -> irq s1 = irq k + 1 ->
  map_from_user zjunk buf len (set_irq (irq k + 1) (k_mm k)) = Done (inr plh) s1 ->
  woken (responded k fd x ri p ppool (Some cl) plh ow s1) 1 q k2 ->
  respond zjunk fd len buf k = Done (- EFAULT) (set_irq (irq k) k2).
Proof.
  intros Hx Hfd Hslot Hri Htype Hdata Hp Hcl Hqt Hpos Hirq Hmap Hw.
  assert (p <> ri) by congruence. destruct (woken_frame _ _ _ _ Hw) as (_ & _ & Fm & _ & _ & _).
  unfold respond. set (k0 := set_mm (set_irq (irq k + 1) (k_mm k)) k).
  kstep kernel_disable. fold k0. kstep (proj2 (lookup_fd_eq k0 x fd (Some ri) Hx Hfd Hslot)).
  kstep get_req_eq. rewrite Htype, bool_decide_eq_true_2 by done. cbn [negb].
  rewrite Hdata. kstep mret_eq. kstep get_cookie_eq. cbn [ck_client].
  kstep get_req_eq. rewrite Hqt, bool_decide_eq_true_2 by done. cbn [negb].
  cbv beta iota; erewrite bind_eq; [|eapply mm_lift_eq; cbn; exact Hmap].
  assert (set_cur_slot fd None (set_mm s1 k0)
    = Done () (set_tasks (<[current k := with_fds (set_slot (t_fds x) fd None) x]> (k_tasks k)) (set_mm s1 k0))) as Es.
  { unfold set_cur_slot. kstep get_current_eq. done. }
  cbv beta iota; erewrite bind_eq; [|exact Es]. kstep gets_eq.
  cbv beta iota; erewrite bind_eq; [|eapply free_obj_eq; [cbn; apply lookup_insert_eq|exact Hri]].
  cbv beta iota; erewrite bind_eq; [|eapply put_obj_eq; cbn; rewrite lookup_delete_ne by done; exact Hp].
  cbv beta iota; erewrite bind_eq; [|exact Hw].
  assert (irq k2 = irq k + 1) as Hi2 by (change (irq (k_mm k2) = irq k + 1); rewrite Fm; exact Hirq).
  cbv beta iota; erewrite bind_eq; [|apply enable_eq; lia].
  rewrite Hi2. by replace (irq k + 1 - 1) with (irq k) by lia.
Qed.

(** [uport_get_response] of a request whose reply has come. *)
Lemma get_response_ok k cl cpool q p ppool plh ow y v s2 s3 :
  k_heap k !! cl = Some (cpool, OReq q) -> rq_type q = REQ_COOKIE -> rq_state q = REQ_ESTABLISHED ->
  rq_data q = DPtr p -> k_heap k !! p = Some (ppool, OCookie (mkCookie (Some cl) (Reply plh) ow)) ->
  map_to_user plh 0 (k_mm k) = Done v s2 -> 0 <= i64 v -> page_list_free plh s2 = Done () s3 ->
  k_tasks k !! ow = Some y ->
  exists k', uport_get_response cl k = Done (0, (u64 (npage plh * PAGE_SIZE), u64 (v + start_offset plh))) k'
    /\ k_heap k' = delete p (k_heap k) /\ k_mm k' = s3.
Proof.
  intros Hcl Hqt Hqs Hqd Hp Hmu Hv Hfree Hy. eexists. split.
  - unfold uport_get_response. kstep get_req_eq. rewrite Hqt, bool_decide_eq_true_2 by done. cbn [negb].
    rewrite decide_False by congruence. rewrite decide_False by congruence. rewrite Hqd.
    kstep mret_eq. kstep get_cookie_eq. cbn [ck_response ck_owner].
    cbv beta iota; erewrite bind_eq; [|eapply mm_lift_eq; exact Hmu].
    destruct (Z.ltb_spec (i64 v) 0); [lia|].
    cbv beta iota; erewrite bind_eq; [|eapply mm_lift_eq; cbn; exact Hfree].
    cbv beta iota; erewrite bind_eq; [reflexivity|eapply free_obj_eq; [exact Hy|exact Hp]].
  - done.
Qed.

(** The descriptor tables do not matter to the scheduler. *)
Lemma sched_ok_fds k x fds h s : sched_ok k -> k_tasks k !! current k = Some x -> irq s = 0 ->
  sched_ok (set_heap h (set_tasks (<[current k := with_fds fds x]> (k_tasks k)) (set_mm s k))).
Proof.
  intros [Hi Hk Hnd Hrq Hrun Hc Hid Hp] Hx Hs. set (k1 := set_heap _ _).
  assert (forall t, state_of k1 t = state_of k t) as Hst.
  { intros t. unfold state_of, k1. cbn. destruct (decide (t = current k)) as [->|].
    - by rewrite lookup_insert_eq, Hx.
    - by rewrite lookup_insert_ne. }
  constructor; try done.
  - intros t Ht. rewrite Hst. by apply Hrq.
  - intros t. rewrite Hst. apply Hrun.
  - by rewrite Hst.
  - by rewrite Hst.
  - intros n l t Hl Ht. rewrite Hst. by apply (Hp n l).
Qed.


(** waiting for a port that is already open returns at once but leaves the caller
    marked as sleeping: at the next reschedule it is neither running, nor
    queued, nor on the port's waiting list, so nothing will run it again. *)
Theorem wait_on_port_lost k n x p :
  sched_ok k -> 0 <= n < MAX_PORT -> port k !! n = Some p -> k_tasks k !! current k = Some x ->
  t_state x = TASK_RUNNING -> current k <> idle_task k ->
  exists k1 k2, wait_on_port zjunk n k = Done (Some 0) k1 /\ schedule zjunk k1 = Done () k2
    /\ state_of k2 (current k) = Some TASK_WAITING /\ current k2 <> current k
    /\ current k ∉ runq k2 /\ forall m l, port_wait_list k2 !! m = Some l -> current k ∉ l.
Proof.
  intros Hok Hn Hp Hx Hst Hidle. pose proof Hok as [Hi Hk Hnd Hrq Hrun [Hcs Hc] Hid Hpw].
  set (k1 := set_tasks (<[current k := with_state TASK_WAITING x]> (k_tasks k)) k).
  assert (wait_on_port zjunk n k = Done (Some 0) k1) as E1.
  { unfold wait_on_port. kstep kernel_disable. unfold set_task_state.
    cbv beta iota; erewrite bind_eq; [|erewrite bind_eq; [reflexivity|apply (get_current_eq _ x); exact Hx]].
    unfold wait_on_port_check. cbv beta iota.
    erewrite bind_eq; [|unfold port_at; destruct (Z.ltb_spec n 0); [lia|];
      destruct (Z.leb_spec MAX_PORT n); [lia|]; reflexivity].
    cbn [port set_tasks set_mm]. rewrite Hp. cbv beta iota.
    erewrite bind_eq; [|apply enable_eq; cbn; cbn in Hi; rewrite Hi; done].
    unfold mret, M_ret. f_equal. unfold k1. destruct k as [[[]]]. cbn in *. by rewrite Hi. }
  assert (forall t, state_of k1 t = if decide (t = current k) then Some TASK_WAITING else state_of k t) as Hs1.
  { intros t. unfold k1. by rewrite state_of_insert. }
  assert (sched_ok k1) as Hok1.
  { constructor; try done.
    - intros t Ht. rewrite Hs1. rewrite decide_False; [by apply Hrq|]. by intros ->.
    - intros t Ht. rewrite Hs1 in Ht. case_decide; [done|]. by apply Hrun.
    - rewrite Hs1, decide_True by done. done.
    - left. change (idle_task k1) with (idle_task k). rewrite Hs1, decide_False by done.
      destruct Hid as [Hid|[_ Hid]]; [exact Hid|congruence].
    - intros m l t Hm Ht. rewrite Hs1. case_decide; [done|]. by eapply Hpw. }
  assert (k_tasks k1 !! current k1 = Some (with_state TASK_WAITING x)) as Hx1 by apply lookup_insert_eq.
  destruct (schedule_ok zjunk k1 _ Hok1 Hx1) as (k2 & next & rest & E2 & Hpick & Hsw & Hok2); [by right|].
  exists k1, k2. split; [done|]. split; [done|].
  assert (next <> current k) as Hne.
  { destruct Hpick as [Hq|(_ & -> & _)]; [|done]. intros ->. apply Hc.
    unfold queue in Hq. cbn in Hq. rewrite app_nil_r in Hq. rewrite Hq. set_solver. }
  pose proof Hsw as (C & Rq & _ & _ & _ & _ & Sc & _ & P & _).
  destruct Sc as (z & Hz & Es); [done|]. rewrite Hx1 in Hz. injection Hz as <-. cbn in Es.
  split; [exact Es|]. split; [by rewrite C|]. split.
  - rewrite Rq. destruct Hpick as [Hq|(_ & _ & ->)]; [|set_solver]. unfold queue in Hq. cbn in Hq.
    rewrite app_nil_r in Hq. intros Hin. apply Hc. rewrite Hq. set_solver.
  - rewrite P. intros m l Hl Hin. specialize (Hpw m l (current k) Hl Hin).
    unfold state_of in Hpw. rewrite Hx in Hpw. cbn in Hpw. congruence.
Qed.
End uport.

(** ** Witnesses *)
(** Task 2 serves connection 20 through slot 0; client task 3 owns the
    connection 22 and the cookie request 23 whose message 24 is queued. *)
Definition ex_conn : request := mkReq REQ_REQUEST REQ_ESTABLISHED 3 (Some UportClient) (DPtr 20) 0.
Definition ex_serv : request := mkReq REQ_PORT_REQ REQ_SERVER 2 (Some UportServer) (DPtr 21) 1.
Definition ex_cookie_req : request := mkReq REQ_COOKIE REQ_PENDING 3 (Some UportClient) (DPtr 24) 0.
Definition ex_heap : gmap id (id * obj) :=
  {[20%positive := (2%positive, OReq ex_serv); 21%positive := (2%positive, OUreq (mkUreq [22%positive] [24%positive]));
    22%positive := (3%positive, OReq ex_conn); 23%positive := (3%positive, OReq ex_cookie_req);
    24%positive := (3%positive, OMsg (mkMsg None 23))]}.
Definition ex_fds : fdtable id := set_slot fdtable_new 0 (Some 20%positive).
Definition ex_server_task : task := with_fds ex_fds (ex_task TASK_RUNNING 1).
Definition ex_ipc : kernel (gmap Z id) :=
  set_knext 30 (set_heap ex_heap (set_tasks (<[2%positive := ex_server_task]> (k_tasks ex_kernel)) ex_kernel)).

Lemma ex_heap_ok : heap_ok ex_ipc.
Proof.
  intros i Hi. change (30 <= i)%positive in Hi. change (ex_heap !! i = None).
  unfold ex_heap. rewrite !lookup_insert_ne by lia. rewrite lookup_singleton_ne by lia. done.
Qed.

Definition state_after {S A} (m : M S A) (s : S) : S := match m s with Done _ s' => s' | _ => s end.
Definition value_of {S A} (m : M S A) (s : S) : option A := match m s with Done a _ => Some a | _ => None end.
Lemma done_after {S A} (m : M S A) (s : S) (a : A) : value_of m s = Some a -> m s = Done a (state_after m s).
Proof. unfold value_of, state_after. destruct (m s); by intros [= ->]. Qed.

Definition ex_client : kernel (gmap Z id) := set_current 3 ex_ipc.
Lemma uport_request_queues_witness :
  exists k', uport_request 0 22 23 0 0 ex_client = Done 0 k'
    /\ k_heap k' !! 21%positive = Some (2%positive, OUreq (mkUreq [22%positive] [24; 30]%positive)).
Proof.
  destruct (uport_request_queues 0 ex_client 22 23 0 0 3 ex_conn) as (_ & _ & H); [reflexivity|].
  eexists. split; [|shelve].
  apply (H eq_refl 3 ex_cookie_req 20 2 ex_serv 21 2 (mkUreq [22%positive] [24%positive]) (ex_task TASK_RUNNABLE 2)
    ex_client None ex_heap_ok)%positive; try reflexivity; done.
  Unshelve. reflexivity.
Defined.

Definition ex_pop_mm1 : mm (gmap Z id) := set_irq 1 ex_mm.
Definition ex_pop_mm2 : mm (gmap Z id) :=
  state_after (copy_to_user_simple (enc_urequest 0 0 2) 0x400100) ex_pop_mm1.
Lemma pop_request_oldest_witness :
  exists h, let k1 := pop_state ex_ipc ex_server_task (set_slot ex_fds 1 (Some 30%positive)) h ex_pop_mm2 in
    serving k1 30 31 23 /\ h !! 24%positive = None /\ h !! 22%positive = Some (3%positive, OReq ex_conn)
    /\ pop_request 0 ex_conn 0 0x400100 ex_ipc = Done 1 (set_irq 0 k1).
Proof.
  assert (copy_to_user_simple (enc_urequest 0 0 2) 0x400100 ex_pop_mm1 = Done 0 ex_pop_mm2) as Hcopy.
  { refine (done_after (copy_to_user_simple (enc_urequest 0 0 2) 0x400100) ex_pop_mm1 0 _). vm_compute. reflexivity. }
  assert (irq ex_pop_mm2 = 1) as Hirq by (vm_compute; reflexivity).
  destruct (pop_request_oldest 0 ex_conn ex_ipc 0 0x400100 ex_server_task 20 2 ex_serv 21 2
    (mkUreq [22%positive] [24%positive]) 24 [] 3 None 23 3 ex_cookie_req (ex_task TASK_RUNNABLE 2) 1
    (set_slot ex_fds 1 (Some 30%positive)) 0 0 ex_pop_mm1 ex_pop_mm2 ex_pop_mm2)
    as (h & Hs & Hc & Hu & Hm & Ho & H);
    [exact ex_heap_ok|reflexivity|by vm_compute|reflexivity|reflexivity|reflexivity|reflexivity|reflexivity|reflexivity|by apply not_elem_of_nil|reflexivity
    | |reflexivity|reflexivity|vm_compute; reflexivity|lia|reflexivity|exact Hcopy|reflexivity|].
  - intros i o Hi Hne. change (ex_heap !! i = Some o) in Hi. unfold ex_heap in Hi.
    rewrite !lookup_insert_Some, lookup_singleton_Some in Hi.
    destruct Hi as [[<- <-]|[_ [[<- <-]|[_ [[<- <-]|[_ [[<- <-]|[_ [<- <-]]]]]]]]];
      first [reflexivity|by destruct Hne].
  - exists h. split; [exact Hs|]. split; [exact Hm|]. split.
    + rewrite Ho; [reflexivity|]. change (k_next ex_ipc) with 30%positive. rewrite !not_elem_of_cons.
      split_and!; [discriminate..|apply not_elem_of_nil].
    + apply H; [reflexivity|exact Hirq|by vm_compute].
Defined.

(** Task 2 answers the request 23 of task 3 with 16 bytes of one page: slot 1
    holds its cookie request 25, the cookie is 26.  Task 3, which has an address
    space of its own, sleeps until it can read. *)
Definition ex_mm_two : mm (gmap Z id) :=
  set_spaces (<[2%positive := mkAs ∅ [] USER_BASE USER_TOP 0 ∅]> (spaces ex_mm)) ex_mm.
Definition ex_server : task := with_fds (set_slot fdtable_new 1 (Some 25%positive)) (ex_task TASK_RUNNING 1).
Definition ex_sleeper : task := mkTask TASK_WAITING fdtable_new fdtable_new (Some 2%positive) 2 None [] 0 0 [].
Definition ex_served : kernel (gmap Z id) :=
  mkK ex_mm_two {[1%positive := ex_task TASK_RUNNABLE 0; 2%positive := ex_server; 3%positive := ex_sleeper]}
   {[25%positive := (2%positive, OReq (mkReq REQ_PORT_COOKIE REQ_SERVER 2 (Some UportServer) (DPtr 26) 0));
    26%positive := (2%positive, OCookie (mkCookie (Some 23%positive) NoReply 2));
    23%positive := (3%positive, OReq (mkReq REQ_COOKIE REQ_ESTABLISHED 3 (Some UportClient) (DPtr 26) 1))]}
   30 2 1 [] None {[0 := 1%positive; 1 := 2%positive; 2 := 3%positive]} ∅ ∅ ∅ ∅ [].
Definition ex_reply : page_list_head := mkPlh 16 1 [mkPl (Some 10%positive) 1].
Definition ex_sent : mm (gmap Z id) := state_after (map_from_user 0 0x400010 16) (set_irq 1 ex_mm_two).
Definition ex_mapped : mm (gmap Z id) := state_after (map_to_user ex_reply 0) (set_current_as 2 (set_irq 0 ex_sent)).
Definition ex_freed : mm (gmap Z id) := state_after (page_list_free ex_reply) ex_mapped.

Lemma ex_served_ok : sched_ok ex_served.
Proof.
  assert (forall t st, state_of ex_served t = Some st ->
    (t = 1%positive /\ st = TASK_RUNNABLE) \/ (t = 2%positive /\ st = TASK_RUNNING) \/ (t = 3%positive /\ st = TASK_WAITING)) as Hs.
  { intros t st (y & Hy & <-)%state_of_task. cbn in Hy. rewrite !lookup_insert_Some, lookup_singleton_Some in Hy. naive_solver. }
  constructor; try done.
  - constructor.
  - intros t Ht. by apply elem_of_nil in Ht.
  - intros t Ht. destruct (Hs _ _ Ht) as [[-> _]|[[_ ?]|[_ ?]]]; [by right|done..].
  - split; [by eexists|apply not_elem_of_nil].
  - by left.
Qed.


Lemma wait_on_port_lost_witness :
  exists k1 k2, wait_on_port 0 7 (set_port {[7 := UportPops]} ex_kernel) = Done (Some 0) k1
    /\ schedule 0 k1 = Done () k2
    /\ state_of k2 2 = Some TASK_WAITING /\ current k2 <> 2%positive
    /\ 2%positive ∉ runq k2 /\ forall m l, port_wait_list k2 !! m = Some l -> 2%positive ∉ l.
Proof.
  apply (wait_on_port_lost 0 (set_port {[7 := UportPops]} ex_kernel) 7 (ex_task TASK_RUNNING 1) UportPops);
    [|by vm_compute|reflexivity..|done].
  destruct ex_sched_ok as [H1 H2 H3 H4 H5 H6 H7 H8]. by constructor.
Defined.
