(* ===== verification/Shell.v ===== *)
(** The command-line parser of the shell: [bin/sbush/parse.c] on the growing
    strings of [bin/sbush/str.c].

    Characters are signed ([char]).  The input is the list of the characters that
    [getchar()] has still to deliver; at its end [getchar()] returns -1.  The
    linked lists of a [struct cmd] are lists; [nowp] and [nowa] are the last
    pipe and the last argument. *)
From S2P Require Import Prelude.

Section shell.
(** What [malloc] leaves in a fresh byte. *)
Context (junk : Z).

(** ** Growing strings *)
(** A [struct str]: a [str_block] is the list of the [len] characters in use;
    [tail] is the last block. *)
Record str := mkStr { s_len : Z; s_blocks : list (list Z) }.
Definition str_new : str := mkStr 0 [].

Definition append (s : str) (c : Z) : str :=
  mkStr (s_len s + 1)
    match last (s_blocks s) with
    | None => [[c]]
    | Some b =>
        if decide (length b = 128%nat) then s_blocks s ++ [[c]]
        else removelast (s_blocks s) ++ [b ++ [c]]
    end.

(** The buffer of [len + 1] bytes: the blocks one after the other, then the
    terminator at [len]. *)
Definition dump (s : str) : list Z :=
  let n := Z.to_nat (s_len s) in
  let res := concat (s_blocks s) ++ replicate (n + 1 - length (concat (s_blocks s))) junk in
  <[n := 0]> res.

(** ** Commands *)
Record pipe_part := mkPipe { argc : Z; argv : list (option (list Z)) }.
Record cmd := mkCmd { npipe : Z; pipes : list pipe_part }.
Definition pipe_part_new : pipe_part := mkPipe 0 [].

(** [*nowpp = pipe_part_new(); ret->npipe++] *)
Definition new_pipe (ret : cmd) : cmd := mkCmd (npipe ret + 1) (pipes ret ++ [pipe_part_new]).

(** [*nowap = argv_part_new(); nowp->argc++]; [None]: [nowp] is NULL. *)
Definition new_arg (ret : cmd) : option cmd :=
  p ← last (pipes ret);
  Some (mkCmd (npipe ret) (removelast (pipes ret) ++ [mkPipe (argc p + 1) (argv p ++ [None])])).

(** [dump(w, &nowa->str)]; [None]: [nowa] is NULL. *)
Definition end_arg (w : str) (ret : cmd) : option cmd :=
  p ← last (pipes ret);
  _ ← last (argv p);
  Some (mkCmd (npipe ret) (removelast (pipes ret) ++ [mkPipe (argc p) (removelast (argv p) ++ [Some (dump w)])])).

(** ** The parser *)
Definition getchar (inp : list Z) : Z * list Z :=
  match inp with [] => (-1, []) | c :: inp => (c, inp) end.

(** How the body of the loop or the loop itself goes on: with the variables
    [state], [w], [*ret] and the input; by returning NULL on a syntax error; or
    through a NULL pointer. *)
Inductive next :=
| Go (state : Z) (w : str) (ret : cmd) (inp : list Z)
| Syntax_error (inp : list Z)
| Crash.

(** The quotes and [default] begin with the same two steps: a pipe
    when there is none yet, an argument when between arguments. *)
Definition begin_arg (state : Z) (ret : cmd) : option cmd :=
  let '(state, ret) := if state =? 0 then (1, new_pipe ret) else (state, ret) in
  if state =? 1 then new_arg ret else Some ret.

Definition word_char (state p : Z) (w : str) (ret : cmd) (inp : list Z) : next :=
  match begin_arg state ret with
  | None => Crash
  | Some ret => Go 2 (append w p) ret inp
  end.

(** [switch (p)] *)
Definition switch (state p : Z) (w : str) (ret : cmd) (inp : list Z) : next :=
  if p =? 10 then (* '\n' *)
    if state =? 2 then match end_arg w ret with None => Crash | Some ret => Go 5 w ret inp end
    else Go 5 w ret inp
  else if p =? 32 then (* ' ' *)
    if (state =? 1) || (state =? 0) then Go state w ret inp
    else if state =? 2 then match end_arg w ret with None => Crash | Some ret => Go 1 str_new ret inp end
    else Go state w ret inp
  else if (p =? 39) || (p =? 34) then (* quotes *)
    match begin_arg state ret with
    | None => Crash
    | Some ret => Go (if p =? 39 then 4 else 3) w ret inp
    end
  else if p =? 124 then (* '|' *)
    if state =? 2 then match end_arg w ret with None => Crash | Some ret => Go 1 str_new (new_pipe ret) inp end
    else Go 1 w (new_pipe ret) inp
  else if p =? 92 then (* '\\' *)
    let '(p, inp) := getchar inp in
    if p <? 0 then Syntax_error inp
    else if p =? 10 then Go state w ret inp
    else word_char state p w ret inp
  else word_char state p w ret inp.

(** The body of the loop in states 3 and 4, inside quotes; [inl] is the [break]
    on a negative character, as at the end of the input. *)
Definition in_quotes (state p : Z) (w : str) (inp : list Z) : list Z + (Z * str * list Z) :=
  let exp := if state =? 3 then 34 else 39 in
  if p =? exp then inr (2, w, inp)
  else
    let '(p, escape, inp) := if p =? 92 then let '(p, inp) := getchar inp in (p, true, inp) else (p, false, inp) in
    if p <? 0 then inl inp
    else inr (state, if negb (p =? 10) || negb escape then append w p else w, inp).

(** [while (p)]; [None]: not finished. *)
Fixpoint parse_loop (fuel : nat) (state p : Z) (w : str) (ret : cmd) (inp : list Z) : option next :=
  match fuel with
  | O => None
  | S fuel =>
      if p =? 0 then Some (Go state w ret inp)
      else if (state =? 3) || (state =? 4) then
        match in_quotes state p w inp with
        | inl inp => Some (Go state w ret inp)
        | inr (state, w, inp) => let '(p, inp) := getchar inp in parse_loop fuel state p w ret inp
        end
      else
        match switch state p w ret inp with
        | Go state w ret inp =>
            if state =? 5 then Some (Go state w ret inp)
            else let '(p, inp) := getchar inp in parse_loop fuel state p w ret inp
        | e => Some e
        end
  end.

(** What [parse()] returns. *)
Inductive parsed := Command (c : cmd) | NULL | Segfault.

Definition parse (fuel : nat) (inp : list Z) : option (parsed * list Z) :=
  let '(p, inp) := getchar inp in
  if p <? 0 then Some (NULL, inp)
  else
    r ← parse_loop fuel 0 p str_new (mkCmd 0 []) inp;
    match r with
    | Go state w ret inp => Some (if (state =? 3) || (state =? 4) then NULL else Command ret, inp)
    | Syntax_error inp => Some (NULL, inp)
    | Crash => Some (Segfault, [])
    end.
End shell.

(** ** Strings hold what is appended to them *)
Section strings.
Context (junk : Z).

Definition str_ok (s : str) (l : list Z) : Prop :=
  s_len s = Z.of_nat (length l) /\ concat (s_blocks s) = l /\ Forall (fun b => (0 < length b <= 128)%nat) (s_blocks s).

Lemma str_new_ok : str_ok str_new [].
Proof. by split_and!. Qed.

Lemma removelast_of_last {A} (l : list A) x : last l = Some x -> l = removelast l ++ [x].
Proof.
  intros H. destruct l as [|y l']; [done|]. apply last_Some in H as [l1 E]. rewrite E.
  by rewrite removelast_last.
Qed.

Lemma append_ok s l c : str_ok s l -> str_ok (append s c) (l ++ [c]).
Proof.
  intros (Hl & Hc & Hf). unfold append. split; [cbn [s_len]; rewrite Hl, length_app; cbn [length]; lia|]. cbn.
  destruct (last (s_blocks s)) as [b|] eqn:E.
  - pose proof (removelast_of_last _ _ E) as Eb. set (bs := removelast (s_blocks s)) in *.
    rewrite Eb in Hc, Hf. rewrite concat_app in Hc. cbn in Hc. rewrite app_nil_r in Hc.
    case_decide; split.
    + rewrite Eb, !concat_app. cbn. rewrite !app_nil_r. by rewrite Hc.
    + rewrite Eb. apply Forall_app. split; [done|]. repeat constructor.
    + rewrite concat_app. cbn. rewrite app_nil_r, app_assoc. by rewrite Hc.
    + apply Forall_app in Hf as [Hf1 Hf2]. apply Forall_cons in Hf2 as [Hb _]. apply Forall_app. split; [done|].
      apply Forall_singleton. rewrite length_app. cbn. lia.
  - apply last_None in E. rewrite E in Hc. cbn in Hc. subst l. split; [done|]. repeat constructor.
Qed.

Lemma dump_ok s l : str_ok s l -> dump junk s = l ++ [0].
Proof.
  intros (Hl & Hc & _). unfold dump. rewrite Hc, Hl, Nat2Z.id. replace (length l + 1 - length l)%nat with 1%nat by lia.
  rewrite insert_app_r_alt by reflexivity. by rewrite Nat.sub_diag.
Qed.
End strings.

(** ** The language of command lines *)
(** Inside quotes: a character standing for itself, one behind a backslash, a
    line continuation. *)
Inductive qchar := QChar (c : Z) | QEscaped (c : Z) | QCont.
(** A word is made of plain characters, characters behind a backslash, line
    continuations and quoted parts. *)
Inductive frag := Bare (c : Z) | Escaped (c : Z) | Cont | Quoted (double : bool) (l : list qchar).
Definition quote_of (double : bool) : Z := if double then 34 else 39.

Definition render_q (x : qchar) : list Z :=
  match x with QChar c => [c] | QEscaped c => [92; c] | QCont => [92; 10] end.
Definition mean_q (x : qchar) : list Z := match x with QChar c | QEscaped c => [c] | QCont => [] end.
Definition render_frag (f : frag) : list Z :=
  match f with
  | Bare c => [c]
  | Escaped c => [92; c]
  | Cont => [92; 10]
  | Quoted d l => quote_of d :: (l ≫= render_q) ++ [quote_of d]
  end.
Definition mean_frag (f : frag) : list Z :=
  match f with Bare c | Escaped c => [c] | Cont => [] | Quoted _ l => l ≫= mean_q end.

(** A word has a first part, not a continuation. *)
Definition word : Type := frag * list frag.
Definition render_word (w : word) : list Z := render_frag (w.1) ++ (w.2 ≫= render_frag).
Definition mean_word (w : word) : list Z := mean_frag (w.1) ++ (w.2 ≫= mean_frag).

(** Between words: spaces ([true]) and line continuations. *)
Definition gap : Type := list bool.
Definition render_gap (g : gap) : list Z := g ≫= (fun b : bool => if b then [32] else [92; 10]).
(** A stage of a pipe: words, each behind a gap, and a gap at the end. *)
Definition stage : Type := list (gap * word) * gap.
Definition render_words (ws : list (gap * word)) : list Z := ws ≫= (fun gw => render_gap gw.1 ++ render_word gw.2).
Definition render_stage (st : stage) : list Z := render_words st.1 ++ render_gap st.2.
Definition mean_arg (gw : gap * word) : option (list Z) := Some (mean_word gw.2 ++ [0]).
Definition mean_stage (st : stage) : pipe_part := mkPipe (Z.of_nat (length st.1)) (mean_arg <$> st.1).
(** A line: one stage or several with bars between them. *)
Definition line : Type := stage * list stage.
Definition render_line (l : line) : list Z := render_stage l.1 ++ (l.2 ≫= (fun st => 124 :: render_stage st)).
Definition mean_line (l : line) : cmd :=
  match l with
  | (([], _), []) => mkCmd 0 []
  | (st, sts) => mkCmd (1 + Z.of_nat (length sts)) (mean_stage <$> st :: sts)
  end.

Definition char_ok (c : Z) : Prop := 0 < c < 128.
Definition qchar_ok (d : bool) (x : qchar) : Prop :=
  match x with QChar c => char_ok c /\ c <> quote_of d /\ c <> 92 | QEscaped c => char_ok c /\ c <> 10 | QCont => True end.
Definition frag_ok (f : frag) : Prop :=
  match f with
  | Bare c => char_ok c /\ c ∉ [10; 32; 34; 39; 92; 124]
  | Escaped c => char_ok c /\ c <> 10
  | Cont => True
  | Quoted d l => Forall (qchar_ok d) l
  end.
Definition word_ok (w : word) : Prop := frag_ok w.1 /\ w.1 <> Cont /\ Forall frag_ok w.2.
(** Words need a space between them. *)
Definition stage_ok (st : stage) : Prop :=
  Forall (fun gw => word_ok gw.2) st.1 /\ Forall (fun gw => true ∈ gw.1) (tail st.1).
Definition line_ok (l : line) : Prop :=
  stage_ok l.1 /\ Forall stage_ok l.2 /\ (l.2 <> [] -> l.1.1 <> []).

(** ** The parser understands it *)
Section spec.
Context (junk : Z).

Definition run (fuel : nat) (state : Z) (w : str) (ret : cmd) (l : list Z) : option next :=
  let '(p, inp) := getchar l in parse_loop junk fuel state p w ret inp.

(** Where the parser is: at the start of the line, between words, in a word of
    which [text] is read, in a quoted part of it; [ps] are the stages before,
    [args] the words of this stage before. *)
Inductive conf :=
| CStart
| CGap (ps : list pipe_part) (args : list (option (list Z)))
| CWord (ps : list pipe_part) (args : list (option (list Z))) (text : list Z)
| CQuote (double : bool) (ps : list pipe_part) (args : list (option (list Z))) (text : list Z).

Definition stages (ps : list pipe_part) (args : list (option (list Z))) : cmd :=
  mkCmd (1 + Z.of_nat (length ps)) (ps ++ [mkPipe (Z.of_nat (length args)) args]).

Definition repr (c : conf) (state : Z) (w : str) (ret : cmd) : Prop :=
  match c with
  | CStart => state = 0 /\ str_ok w [] /\ ret = mkCmd 0 []
  | CGap ps args => state = 1 /\ str_ok w [] /\ ret = stages ps args
  | CWord ps args text => state = 2 /\ str_ok w text /\ ret = stages ps (args ++ [None])
  | CQuote d ps args text => state = (if d then 3 else 4) /\ str_ok w text /\ ret = stages ps (args ++ [None])
  end.

(** From one configuration and input to another, whatever fuel is left as long
    as it is more than the input. *)
Definition goes (c : conf) (l : list Z) (c' : conf) (l' : list Z) : Prop :=
  forall state w ret fuel, repr c state w ret -> (length l < fuel)%nat ->
  exists state' w' ret' fuel', repr c' state' w' ret' /\ (length l' < fuel')%nat
    /\ run fuel state w ret l = run fuel' state' w' ret' l'.

Lemma goes_refl c l : goes c l c l.
Proof. intros state w ret fuel Hr Hf. by exists state, w, ret, fuel. Qed.
Lemma goes_trans c1 l1 c2 l2 c3 l3 : goes c1 l1 c2 l2 -> goes c2 l2 c3 l3 -> goes c1 l1 c3 l3.
Proof.
  intros H1 H2 state w ret fuel Hr Hf. destruct (H1 state w ret fuel Hr Hf) as (s2 & w2 & r2 & f2 & Hr2 & Hf2 & ->).
  by apply H2.
Qed.

(** Beginning a word. *)
Definition opened (c : conf) : option (list pipe_part * list (option (list Z)) * list Z) :=
  match c with
  | CStart => Some ([], [], [])
  | CGap ps args => Some (ps, args, [])
  | CWord ps args text => Some (ps, args, text)
  | CQuote _ _ _ _ => None
  end.
(** Ending it. *)
Definition closed (c : conf) : option (list pipe_part * list (option (list Z))) :=
  match c with
  | CGap ps args => Some (ps, args)
  | CWord ps args text => Some (ps, args ++ [Some (text ++ [0])])
  | _ => None
  end.

Lemma new_arg_stages ps args : new_arg (stages ps args) = Some (stages ps (args ++ [None])).
Proof.
  unfold new_arg, stages. cbn. rewrite last_snoc. cbn. rewrite removelast_last. do 3 f_equal. rewrite length_app. cbn.
  do 2 f_equal. lia.
Qed.
Lemma end_arg_stages w ps args text : str_ok w text ->
  end_arg junk w (stages ps (args ++ [None])) = Some (stages ps (args ++ [Some (text ++ [0])])).
Proof.
  intros Hw. unfold end_arg, stages. cbn. rewrite last_snoc. cbn. rewrite last_snoc. cbn.
  rewrite !removelast_last, (dump_ok junk w text Hw), !length_app. done.
Qed.
Lemma new_pipe_stages ps args :
  new_pipe (stages ps args) = stages (ps ++ [mkPipe (Z.of_nat (length args)) args]) [].
Proof. unfold new_pipe, stages. cbn. f_equal. rewrite length_app. cbn. lia. Qed.

Lemma begin_arg_ok c ps args text state w ret : repr c state w ret -> opened c = Some (ps, args, text) ->
  begin_arg state ret = Some (stages ps (args ++ [None])) /\ str_ok w text /\ 0 <= state <= 2.
Proof.
  intros Hr Ho. destruct c; cbn in Ho; simplify_eq; destruct Hr as (-> & Hw & ->); (split; [|split; [done|lia]]); unfold begin_arg; cbn.
  - apply (new_arg_stages [] []).
  - apply new_arg_stages.
  - done.
Qed.

(** One round outside quotes. *)
Lemma run_switch fuel state p w ret l : p <> 0 -> 0 <= state <= 2 ->
  run (S fuel) state w ret (p :: l) =
  match switch junk state p w ret l with
  | Go state w ret inp => if state =? 5 then Some (Go state w ret inp) else run fuel state w ret inp
  | e => Some e
  end.
Proof.
  intros Hp Hs. unfold run at 1. cbn [getchar parse_loop]. rewrite (proj2 (Z.eqb_neq p 0) Hp).
  rewrite (proj2 (Z.eqb_neq state 3)), (proj2 (Z.eqb_neq state 4)) by lia. cbn [orb].
  destruct (switch junk state p w ret l); [|done..]. destruct (state0 =? 5); [done|]. unfold run. done.
Qed.

(** One round inside. *)
Lemma run_quoted fuel (d : bool) p w ret l : p <> 0 ->
  run (S fuel) (if d then 3 else 4) w ret (p :: l) =
  match in_quotes (if d then 3 else 4) p w l with
  | inl inp => Some (Go (if d then 3 else 4) w ret inp)
  | inr (state, w, inp) => run fuel state w ret inp
  end.
Proof.
  intros Hp. unfold run at 1. cbn [getchar parse_loop]. rewrite (proj2 (Z.eqb_neq p 0) Hp).
  replace (((if d then 3 else 4) =? 3) || ((if d then 3 else 4) =? 4)) with true by (by destruct d).
  destruct (in_quotes (if d then 3 else 4) p w l) as [?|[[? ?] ?]]; done.
Qed.

Ltac eqb_off := repeat match goal with |- context [?a =? ?b] => rewrite (proj2 (Z.eqb_neq a b)) by (assumption || lia) end.

Lemma goes_plain c ps args text x l : char_ok x -> x ∉ [10; 32; 34; 39; 92; 124] -> opened c = Some (ps, args, text) ->
  goes c (x :: l) (CWord ps args (text ++ [x])) l.
Proof.
  intros Hx Hn Ho state w ret [|fuel] Hr Hf; cbn [length] in Hf; [lia|]. unfold char_ok in Hx.
  destruct (begin_arg_ok c ps args text state w ret Hr Ho) as (Hb & Hw & Hs).
  exists 2, (append w x), (stages ps (args ++ [None])), fuel. split; [by split_and!; [|apply append_ok|]|]. split; [lia|].
  rewrite run_switch by lia. unfold switch. rewrite !not_elem_of_cons in Hn. destruct Hn as (H1 & H2 & H3 & H4 & H5 & H6 & _).
  eqb_off. cbn [orb]. unfold word_char. by rewrite Hb.
Qed.

Lemma goes_escaped c ps args text x l : char_ok x -> x <> 10 -> opened c = Some (ps, args, text) ->
  goes c (92 :: x :: l) (CWord ps args (text ++ [x])) l.
Proof.
  intros Hx Hn Ho state w ret [|fuel] Hr Hf; cbn [length] in Hf; [lia|]. unfold char_ok in Hx.
  destruct (begin_arg_ok c ps args text state w ret Hr Ho) as (Hb & Hw & Hs).
  exists 2, (append w x), (stages ps (args ++ [None])), fuel. split; [by split_and!; [|apply append_ok|]|]. split; [lia|].
  rewrite run_switch by lia. unfold switch. cbn [Z.eqb Pos.eqb orb getchar].
  rewrite (proj2 (Z.ltb_ge x 0)) by lia. eqb_off. unfold word_char. by rewrite Hb.
Qed.

Lemma goes_open_quote c ps args text d l : opened c = Some (ps, args, text) ->
  goes c (quote_of d :: l) (CQuote d ps args text) l.
Proof.
  intros Ho state w ret [|fuel] Hr Hf; cbn [length] in Hf; [lia|].
  destruct (begin_arg_ok c ps args text state w ret Hr Ho) as (Hb & Hw & Hs).
  exists (if d then 3 else 4), w, (stages ps (args ++ [None])), fuel. split; [done|]. split; [lia|].
  rewrite run_switch by (by destruct d). unfold switch. destruct d; cbn; by rewrite Hb.
Qed.

(** Continuations change nothing. *)
Lemma goes_cont c l : (forall d ps args text, c <> CQuote d ps args text) -> goes c (92 :: 10 :: l) c l.
Proof.
  intros Hc state w ret [|fuel] Hr Hf; cbn [length] in Hf; [lia|].
  assert (0 <= state <= 2) as Hs by (destruct c; [destruct Hr as [-> _]; lia..|by destruct (Hc double ps args text)]).
  exists state, w, ret, fuel. split; [done|]. split; [lia|]. rewrite run_switch by lia. unfold switch. cbn.
  by rewrite (proj2 (Z.eqb_neq state 5)) by lia.
Qed.

Definition spaced (c : conf) : conf := match closed c with Some (ps, args) => CGap ps args | None => c end.
Lemma goes_space c l : (forall d ps args text, c <> CQuote d ps args text) -> goes c (32 :: l) (spaced c) l.
Proof.
  intros Hc state w ret [|fuel] Hr Hf; cbn [length] in Hf; [lia|].
  destruct c as [|ps args|ps args text|d ps args text]; [..|by destruct (Hc d ps args text)]; destruct Hr as (-> & Hw & ->).
  1-2: eexists _, w, _, fuel; (split; [by split_and!|]); (split; [lia|]); by rewrite run_switch by lia.
  eexists 1, str_new, _, fuel. split; [by split_and!; [|apply str_new_ok|]|]. split; [lia|].
  rewrite run_switch by lia. unfold switch. cbn [Z.eqb Pos.eqb orb].
    by rewrite (end_arg_stages _ _ _ text Hw).
Qed.

Lemma goes_bar c ps args l : closed c = Some (ps, args) ->
  goes c (124 :: l) (CGap (ps ++ [mkPipe (Z.of_nat (length args)) args]) []) l.
Proof.
  intros Hc state w ret [|fuel] Hr Hf; cbn [length] in Hf; [lia|].
  destruct c as [|ps' args'|ps' args' text|]; cbn in Hc; simplify_eq; destruct Hr as (-> & Hw & ->).
  - exists 1, w, (new_pipe (stages ps args)), fuel. rewrite new_pipe_stages. split; [by split_and!|]. split; [lia|].
    by rewrite run_switch, <- new_pipe_stages by lia.
  - eexists 1, str_new, _, fuel. split; [split_and!; [done|apply str_new_ok|apply new_pipe_stages]|]. split; [lia|].
    rewrite run_switch by lia. unfold switch. cbn [Z.eqb Pos.eqb orb].
    by rewrite (end_arg_stages _ _ _ text Hw).
Qed.

(** The end of the line. *)
Definition finished (c : conf) : cmd :=
  match closed c with Some (ps, args) => stages ps args | None => mkCmd 0 [] end.
Lemma run_newline c state w ret fuel l : (forall d ps args text, c <> CQuote d ps args text) ->
  repr c state w ret -> (0 < fuel)%nat -> run fuel state w ret (10 :: l) = Some (Go 5 w (finished c) l).
Proof.
  intros Hc Hr Hf. destruct fuel as [|fuel]; [lia|].
  destruct c as [|ps args|ps args text|d ps args text]; [..|by destruct (Hc d ps args text)]; destruct Hr as (-> & Hw & ->);
    rewrite run_switch by lia; unfold switch; cbn [Z.eqb Pos.eqb]; [done..|].
    by rewrite (end_arg_stages _ _ _ text Hw).
Qed.

(** Quoted characters. *)
Lemma goes_quoted d ps args text x l : qchar_ok d x ->
  goes (CQuote d ps args text) (render_q x ++ l) (CQuote d ps args (text ++ mean_q x)) l.
Proof.
  intros Hx state w ret [|fuel] Hr Hf; cbn [length] in Hf; [lia|]. destruct Hr as (-> & Hw & ->).
  assert (forall c, char_ok c -> c <> 0 /\ (c <? 0) = false) as Hok by (unfold char_ok; intros c ?; rewrite Z.ltb_ge; lia).
  assert ((if (if d then 3 else 4) =? 3 then 34 else 39) = quote_of d) as Hq by (by destruct d).
  assert (92 <> quote_of d) as Hb by (by destruct d). assert ((92 =? quote_of d) = false) as Hb' by (by apply Z.eqb_neq).
  destruct x as [c|c|]; cbn [render_q app length] in Hf |- *.
  - destruct Hx as (Hc & H1 & H2). destruct (Hok c Hc) as [H0 Hn].
    eexists (if d then 3 else 4), _, _, fuel. split; [split_and!; [done|apply (append_ok _ _ c Hw)|done]|]. split; [lia|]. rewrite run_quoted by done.
    unfold in_quotes. rewrite Hq. eqb_off. by rewrite Hn, orb_true_r.
  - destruct Hx as (Hc & H1). destruct (Hok c Hc) as [H0 Hn].
    eexists (if d then 3 else 4), _, _, fuel. split; [split_and!; [done|apply (append_ok _ _ c Hw)|done]|]. split; [lia|]. rewrite run_quoted by done.
    unfold in_quotes. rewrite Hq, Hb'. cbn [Z.eqb Pos.eqb getchar]. rewrite Hn. by eqb_off.
  - eexists (if d then 3 else 4), _, _, fuel. split; [split_and!; [done|cbn [mean_q]; rewrite app_nil_r; exact Hw|done]|]. split; [lia|]. rewrite run_quoted by done.
    unfold in_quotes. rewrite Hq, Hb'. done.
Qed.

Lemma goes_quoteds d ps args xs : forall text l, Forall (qchar_ok d) xs ->
  goes (CQuote d ps args text) ((xs ≫= render_q) ++ l) (CQuote d ps args (text ++ (xs ≫= mean_q))) l.
Proof.
  induction xs as [|x xs IH]; intros text l Hx; cbn.
  - rewrite app_nil_r. apply goes_refl.
  - apply Forall_cons in Hx as [H1 H2]. rewrite <- app_assoc. eapply goes_trans; [by apply goes_quoted|].
    rewrite app_assoc. by apply IH.
Qed.

Lemma goes_close_quote d ps args text l : goes (CQuote d ps args text) (quote_of d :: l) (CWord ps args text) l.
Proof.
  intros state w ret [|fuel] Hr Hf; cbn [length] in Hf; [lia|]. destruct Hr as (-> & Hw & ->).
  exists 2, w, (stages ps (args ++ [None])), fuel. split; [done|]. split; [lia|].
  rewrite run_quoted by (by destruct d). unfold in_quotes. by destruct d.
Qed.

(** Words, gaps, stages, lines. *)
Lemma goes_frag c ps args text f l : frag_ok f -> f <> Cont -> opened c = Some (ps, args, text) ->
  goes c (render_frag f ++ l) (CWord ps args (text ++ mean_frag f)) l.
Proof.
  intros Hf Hn Ho. destruct f as [x|x| |d xs]; [..|done|]; cbn [render_frag mean_frag app].
  - destruct Hf. by apply goes_plain.
  - destruct Hf. by apply goes_escaped.
  - eapply goes_trans; [by apply (goes_open_quote c ps args text)|]. rewrite <- app_assoc.
    eapply goes_trans; [by apply goes_quoteds|]. apply goes_close_quote.
Qed.

Lemma goes_frags ps args fs : forall text l, Forall frag_ok fs ->
  goes (CWord ps args text) ((fs ≫= render_frag) ++ l) (CWord ps args (text ++ (fs ≫= mean_frag))) l.
Proof.
  induction fs as [|f fs IH]; intros text l Hf; cbn [mbind list_bind].
  - rewrite app_nil_r. apply goes_refl.
  - apply Forall_cons in Hf as [H1 H2]. rewrite <- app_assoc, (app_assoc text). eapply goes_trans; [|by apply IH].
    destruct f as [x|x| |d xs]; [by apply goes_frag..| |by apply goes_frag].
    cbn [mean_frag]. rewrite app_nil_r. by apply goes_cont.
Qed.

Lemma goes_word c ps args w l : word_ok w -> opened c = Some (ps, args, []) ->
  goes c (render_word w ++ l) (CWord ps args (mean_word w)) l.
Proof.
  intros (H1 & H2 & H3) Ho. unfold render_word, mean_word. rewrite <- app_assoc.
  eapply goes_trans; [by apply (goes_frag c ps args [])|]. by apply goes_frags.
Qed.

Definition outside (c : conf) : Prop := forall d ps args text, c <> CQuote d ps args text.
Lemma spaced_idem c : spaced (spaced c) = spaced c.
Proof. by destruct c. Qed.
Lemma spaced_closed c : closed (spaced c) = closed c.
Proof. by destruct c. Qed.
Lemma spaced_outside c : outside c -> outside (spaced c).
Proof. destruct c; intros H; [done..|by edestruct H]. Qed.

Lemma goes_gap g : forall c l, outside c ->
  goes c (render_gap g ++ l) (if bool_decide (true ∈ g) then spaced c else c) l.
Proof.
  induction g as [|b g IH]; intros c l Hc; [apply goes_refl|]. unfold render_gap. cbn. fold (render_gap g).
  destruct b; cbn.
  - rewrite bool_decide_true by (by left). eapply goes_trans; [by apply goes_space|].
    eapply goes_trans; [by apply IH, spaced_outside|]. rewrite spaced_idem. case_bool_decide; apply goes_refl.
  - eapply goes_trans; [by apply goes_cont|]. eapply goes_trans; [by apply IH|].
    replace (bool_decide (true ∈ false :: g)) with (bool_decide (true ∈ g)); [apply goes_refl|].
    apply bool_decide_ext. rewrite elem_of_cons. naive_solver.
Qed.

(** What a part of a stage does when there is something before it. *)
Definition reads (c : conf) (l : list Z) (args : list (option (list Z))) (ps : list pipe_part) : Prop :=
  forall rest, exists c', goes c (l ++ rest) c' rest /\ outside c' /\ closed c' = Some (ps, args).

Lemma reads_gap c g ps args : outside c -> closed c = Some (ps, args) -> reads c (render_gap g) args ps.
Proof.
  intros Hc Hcl rest. eexists. split; [by apply goes_gap|]. case_bool_decide; [|done].
  split; [by apply spaced_outside|by rewrite spaced_closed].
Qed.

Lemma goes_gap_word c gw ps args l : word_ok gw.2 -> outside c ->
  (true ∈ gw.1 /\ closed c = Some (ps, args)) \/ c = CGap ps args \/ (c = CStart /\ ps = [] /\ args = []) ->
  goes c (render_gap gw.1 ++ render_word gw.2 ++ l) (CWord ps args (mean_word gw.2)) l.
Proof.
  intros Hw Hc Hcase. eapply goes_trans; [by apply goes_gap|]. apply goes_word; [done|].
  destruct Hcase as [[Hin Hcl]|[->|(-> & -> & ->)]].
  - rewrite bool_decide_true by done. unfold spaced. by rewrite Hcl.
  - by case_bool_decide.
  - by case_bool_decide.
Qed.

Lemma reads_words ws : forall c ps args, outside c -> closed c = Some (ps, args) ->
  Forall (fun gw => word_ok gw.2) ws -> Forall (fun gw => true ∈ gw.1) ws ->
  reads c (render_words ws) (args ++ (mean_arg <$> ws)) ps.
Proof.
  induction ws as [|gw ws IH]; intros c ps args Hc Hcl Hw Hg rest.
  - exists c. rewrite app_nil_r. split; [apply goes_refl|done].
  - apply Forall_cons in Hw as [Hw1 Hw2]. apply Forall_cons in Hg as [Hg1 Hg2].
    destruct (IH (CWord ps args (mean_word gw.2)) ps (args ++ [mean_arg gw]) ltac:(done) eq_refl Hw2 Hg2 rest) as (c' & Hgo & Hc' & Hcl').
    exists c'. split_and!; [|done|rewrite Hcl', <- app_assoc; done].
    unfold render_words. cbn [mbind list_bind]. rewrite <- !app_assoc. eapply goes_trans; [|exact Hgo].
    apply goes_gap_word; auto.
Qed.

(** A stage, from its beginning. *)
Lemma reads_stage c st ps : stage_ok st -> c = CGap ps [] \/ (c = CStart /\ ps = [] /\ st.1 <> []) ->
  reads c (render_stage st) (mean_arg <$> st.1) ps.
Proof.
  intros [Hw Hg] Hc rest. destruct st as [[|gw ws] g]; cbn [fst snd tail] in *.
  - destruct Hc as [->|(_ & _ & ?)]; [|done]. unfold render_stage. cbn. by apply (reads_gap (CGap ps []) g ps []).
  - apply Forall_cons in Hw as [Hw1 Hw2].
    destruct (reads_words ws (CWord ps [] (mean_word gw.2)) ps [mean_arg gw] ltac:(done) eq_refl Hw2 Hg (render_gap g ++ rest))
      as (c1 & G1 & O1 & C1).
    destruct (reads_gap c1 g ps _ O1 C1 rest) as (c2 & G2 & O2 & C2). exists c2. split_and!; [|done|done].
    unfold render_stage, render_words. cbn [mbind list_bind fst snd]. rewrite <- !app_assoc.
    eapply goes_trans; [|eapply goes_trans; [exact G1|exact G2]].
    apply goes_gap_word; [done|by destruct Hc as [->|[-> _]]|]. destruct Hc as [->|(-> & -> & _)]; auto.
Qed.

Lemma reads_bars sts : forall c ps args, outside c -> closed c = Some (ps, args) -> Forall stage_ok sts -> forall rest,
  exists c', goes c ((sts ≫= (fun st => 124 :: render_stage st)) ++ rest) c' rest /\ outside c'
    /\ finished c' = mkCmd (1 + Z.of_nat (length ps + length sts))
         (ps ++ [mkPipe (Z.of_nat (length args)) args] ++ (mean_stage <$> sts)).
Proof.
  induction sts as [|st sts IH]; intros c ps args Hc Hcl Hs rest.
  - exists c. split; [apply goes_refl|]. split; [done|]. unfold finished. rewrite Hcl. unfold stages. do 2 f_equal. cbn. lia.
  - apply Forall_cons in Hs as [Hs1 Hs2]. set (ps' := ps ++ [mkPipe (Z.of_nat (length args)) args]).
    destruct (reads_stage (CGap ps' []) st ps' Hs1 (or_introl eq_refl) ((sts ≫= (fun st => 124 :: render_stage st)) ++ rest))
      as (c1 & G1 & O1 & C1).
    destruct (IH c1 ps' _ O1 C1 Hs2 rest) as (c2 & G2 & O2 & F2). exists c2. split_and!; [|done|].
    + cbn [mbind list_bind app]. eapply goes_trans; [by apply (goes_bar c ps args)|]. rewrite <- app_assoc.
      eapply goes_trans; [exact G1|exact G2].
    + rewrite F2. unfold ps'. rewrite length_app, length_fmap, <- app_assoc. cbn. f_equal. lia.
Qed.

Lemma line_goes l rest : line_ok l ->
  exists c, goes CStart (render_line l ++ rest) c rest /\ outside c /\ finished c = mean_line l.
Proof.
  destruct l as [[ws g] sts]. intros (Hs & Hr & Hne). cbn [fst snd] in *. unfold render_line. cbn [fst snd]. rewrite <- app_assoc.
  destruct ws as [|gw ws].
  - destruct sts as [|st sts]; [|by destruct Hne]. exists CStart. split_and!; [|done|done].
    unfold render_stage. cbn. pose proof (goes_gap g CStart rest ltac:(done)) as G. by destruct (bool_decide (true ∈ g)).
  - destruct (reads_stage CStart (gw :: ws, g) [] Hs) with (rest := (sts ≫= (fun st => 124 :: render_stage st)) ++ rest)
      as (c1 & G1 & O1 & C1); [by right|].
    destruct (reads_bars sts c1 [] _ O1 C1 Hr rest) as (c2 & G2 & O2 & F2). exists c2.
    split_and!; [by eapply goes_trans|done|]. rewrite F2. cbn. by rewrite length_fmap.
Qed.

Lemma parse_run fuel p inp : 0 <= p -> parse junk fuel (p :: inp) =
  (r ← run fuel 0 str_new (mkCmd 0 []) (p :: inp);
   match r with
   | Go state w ret inp => Some (if (state =? 3) || (state =? 4) then NULL else Command ret, inp)
   | Syntax_error inp => Some (NULL, inp)
   | Crash => Some (Segfault, [])
   end).
Proof. intros Hp. unfold parse, run. cbn [getchar]. by rewrite (proj2 (Z.ltb_ge p 0)). Qed.

(** More fuel does no harm. *)
Lemma run_mono f1 : forall f2 state w ret l r, (f1 <= f2)%nat -> run f1 state w ret l = Some r -> run f2 state w ret l = Some r.
Proof.
  induction f1 as [|f1 IH]; intros [|f2] state w ret l r Hf; [by destruct l..|lia|]. assert (f1 <= f2)%nat as Hle by lia.
  unfold run. destruct (getchar l) as [p inp]. cbn [parse_loop]. destruct (p =? 0); [done|].
  destruct ((state =? 3) || (state =? 4)).
  - destruct (in_quotes state p w inp) as [?|[[s1 w1] l1]]; [done|]. by apply (IH f2 s1 w1 ret l1 r).
  - destruct (switch junk state p w ret inp) as [s1 w1 r1 l1|?|]; [|done..]. destruct (s1 =? 5); [done|].
    by apply (IH f2 s1 w1 r1 l1 r).
Qed.

(** The input goes on forever as far as the loop outside quotes can tell. *)
Lemma run_eof fuel : forall c state w ret, outside c -> repr c state w ret -> run fuel state w ret [] = None.
Proof.
  induction fuel as [|fuel IH]; intros c state w ret Hc Hr; [done|].
  assert (exists ps args text, opened c = Some (ps, args, text)) as (ps & args & text & Ho).
  { destruct c; [by eexists _, _, _..|by edestruct Hc]. }
  destruct (begin_arg_ok c ps args text state w ret Hr Ho) as (Hb & Hw & Hs).
  unfold run. cbn [getchar parse_loop]. change (-1 =? 0) with false. cbv match.
  rewrite (proj2 (Z.eqb_neq state 3)), (proj2 (Z.eqb_neq state 4)) by lia. cbn [orb].
  unfold switch. cbn [Z.eqb orb]. unfold word_char. rewrite Hb. cbn [Z.eqb Pos.eqb getchar].
  apply (IH (CWord ps args (text ++ [-1])) 2 (append w (-1)) (stages ps (args ++ [None]))); [done|].
  split_and!; [done|by apply append_ok|done].
Qed.
End spec.

(** All characters of a rendered line are positive, so that the first is not
    taken for the end of the input. *)
Lemma bind_pos {A} (f : A -> list Z) (l : list A) (P : A -> Prop) :
  (forall x, P x -> Forall (Z.lt 0) (f x)) -> Forall P l -> Forall (Z.lt 0) (l ≫= f).
Proof.
  intros Hf. induction 1 as [|x l Hx _ IH]; [by constructor|]. cbn. apply Forall_app. split; [by apply Hf|done].
Qed.
Lemma render_frag_pos f : frag_ok f -> Forall (Z.lt 0) (render_frag f).
Proof.
  destruct f as [c|c| |d xs]; cbn; unfold char_ok.
  - intros [? _]. repeat constructor; lia.
  - intros [? _]. repeat constructor; lia.
  - intros _. repeat constructor; lia.
  - intros Hx. constructor; [by destruct d|]. apply Forall_app. split; [|by repeat constructor; destruct d].
    eapply bind_pos; [|exact Hx]. intros [c|c|]; cbn; unfold char_ok; intros; repeat constructor; lia.
Qed.
Lemma render_stage_pos st : stage_ok st -> Forall (Z.lt 0) (render_stage st).
Proof.
  intros [Hw _]. assert (forall g, Forall (Z.lt 0) (render_gap g)) as Hg.
  { intros g. apply (bind_pos _ g (fun _ => True)); [|by apply Forall_true]. intros [] _; by repeat constructor. }
  apply Forall_app. split; [|done]. eapply bind_pos; [|exact Hw]. intros [g w] (H1 & _ & H2). cbn in *.
  apply Forall_app. split; [done|]. apply Forall_app. split; [by apply render_frag_pos|].
  eapply bind_pos; [|exact H2]. apply render_frag_pos.
Qed.
Lemma render_line_pos l : line_ok l -> Forall (Z.lt 0) (render_line l).
Proof.
  intros (H1 & H2 & _). apply Forall_app. split; [by apply render_stage_pos|]. eapply bind_pos; [|exact H2].
  intros st Hst. constructor; [lia|by apply render_stage_pos].
Qed.

Lemma goes_parse junk l rest c fuel : goes junk CStart (render_line l ++ rest) c rest -> line_ok l ->
  (exists x t, rest = x :: t /\ 0 <= x) -> (length (render_line l ++ rest) < fuel)%nat ->
  exists state w ret fuel', repr c state w ret /\ (length rest < fuel')%nat /\
  parse junk fuel (render_line l ++ rest) =
    (r ← run junk fuel' state w ret rest;
     match r with
     | Go state w ret inp => Some (if (state =? 3) || (state =? 4) then NULL else Command ret, inp)
     | Syntax_error inp => Some (NULL, inp)
     | Crash => Some (Segfault, [])
     end).
Proof.
  intros Hgo Hl (x & t & -> & Hx) Hf.
  assert (exists y u, render_line l ++ x :: t = y :: u /\ 0 <= y) as (y & u & E & Hy).
  { pose proof (render_line_pos l Hl) as Hp. destruct (render_line l) as [|y u]; [by exists x, t|].
    apply Forall_cons in Hp as [? _]. exists y, (u ++ x :: t). split; [done|lia]. }
  destruct (Hgo 0 str_new (mkCmd 0 []) fuel) as (state & w & ret & fuel' & Hr & Hf' & E'); [by split_and!; [|apply str_new_ok|]|done|].
  exists state, w, ret, fuel'. split; [done|]. split; [done|]. rewrite E, parse_run, <- E, E' by done. done.
Qed.

(** C22: [parse] on a line of words, built from plain, escaped and quoted parts, and
    separated by spaces, line continuations and bars, returns the command with
    the words the parts say, terminated, and their numbers, and leaves what
    follows the line unread. *)
Theorem parse_correct junk l rest fuel :
  line_ok l -> (length (render_line l ++ 10%Z :: rest) < fuel)%nat ->
  parse junk fuel (render_line l ++ 10 :: rest) = Some (Command (mean_line l), rest).
Proof.
  intros Hl Hf. destruct (line_goes junk l (10 :: rest) Hl) as (c & Hgo & Hc & Hfin).
  destruct (goes_parse junk l (10 :: rest) c fuel Hgo Hl) as (state & w & ret & fuel' & Hr & Hf' & ->); [by exists 10, rest|done|].
  rewrite (run_newline junk c) by (done || lia). cbn. by rewrite Hfin.
Qed.

(** [parse] on a line whose last quote is not closed reports a syntax error:
    it returns NULL. *)
Theorem parse_unclosed junk l d xs fuel :
  line_ok l -> Forall (qchar_ok d) xs ->
  (length (render_line l ++ quote_of d :: (xs ≫= render_q)) < fuel)%nat ->
  parse junk fuel (render_line l ++ quote_of d :: (xs ≫= render_q)) = Some (NULL, []).
Proof.
  intros Hl Hx Hf. set (rest := quote_of d :: (xs ≫= render_q)) in *.
  destruct (line_goes junk l rest Hl) as (c & Hgo & Hc & Hfin).
  assert (exists ps args text, opened c = Some (ps, args, text)) as (ps & args & text & Ho).
  { destruct c; [by eexists _, _, _..|by edestruct Hc]. }
  destruct (goes_parse junk l rest c fuel Hgo Hl) as (state & w & ret & fuel' & Hr & Hf' & ->);
    [exists (quote_of d), (xs ≫= render_q); split; [done|by destruct d]|done|].
  assert (goes junk c rest (CQuote d ps args (text ++ (xs ≫= mean_q))) []) as G.
  { eapply goes_trans; [by apply (goes_open_quote junk c ps args text)|].
    pose proof (goes_quoteds junk d ps args xs text [] Hx) as G. by rewrite app_nil_r in G. }
  destruct (G state w ret fuel' Hr Hf') as (s2 & w2 & r2 & [|f2] & (-> & _ & ->) & Hf2 & ->); [cbn in Hf2; lia|].
  destruct d; done.
Qed.

(** Without a newline outside quotes the parser never returns. *)
Theorem parse_no_newline junk l fuel : line_ok l -> render_line l <> [] -> parse junk fuel (render_line l) = None.
Proof.
  intros Hl Hne. pose proof (render_line_pos l Hl) as Hp. destruct (line_goes junk l [] Hl) as (c & Hgo & Hc & Hfin).
  rewrite app_nil_r in Hgo. destruct (render_line l) as [|y u] eqn:E; [done|]. apply Forall_cons in Hp as [Hy _].
  rewrite parse_run by lia. enough (run junk fuel 0 str_new (mkCmd 0 []) (y :: u) = None) as -> by done.
  destruct (run junk fuel 0 str_new (mkCmd 0 []) (y :: u)) as [r|] eqn:Er; [|done]. exfalso.
  set (big := S (fuel + length (y :: u))). apply (run_mono junk fuel big) in Er; [|lia].
  destruct (Hgo 0 str_new (mkCmd 0 []) big) as (state & w & ret & fuel' & Hr & _ & E'); [by split_and!; [|apply str_new_ok|]|lia|].
  rewrite E', (run_eof junk fuel' c) in Er by done. done.
Qed.

(** ** Witnesses *)
(** [ls "a b"\x|cat ] *)
Definition ex_line : line :=
  (([([], (Bare 108, [Bare 115])); ([true], (Quoted true [QChar 97; QChar 32; QEscaped 34], [Escaped 120]))], []),
   [([([true], (Bare 99, [Cont; Bare 97; Bare 116]))], [true])]).

Lemma ex_line_ok : line_ok ex_line.
Proof.
  split_and!; [split; repeat constructor; cbn; unfold char_ok; try lia; try (intros H; set_solver)| |done].
  constructor; [|done]. split; repeat constructor; cbn; unfold char_ok; try lia; intros H; set_solver.
Qed.

Example ex_mean : mean_line ex_line = mkCmd 2
  [mkPipe 2 [Some [108; 115; 0]; Some [97; 32; 34; 120; 0]]; mkPipe 1 [Some [99; 97; 116; 0]]].
Proof. reflexivity. Qed.

Lemma parse_correct_witness :
  parse 7 40 (render_line ex_line ++ 10 :: [97]) = Some (Command (mean_line ex_line), [97]).
Proof. apply (parse_correct 7 ex_line [97] 40); [exact ex_line_ok|cbn; lia]. Defined.

Lemma parse_unclosed_witness :
  parse 7 40 (render_line ex_line ++ quote_of false :: ([QChar 97; QChar 10] ≫= render_q)) = Some (NULL, []).
Proof.
  apply (parse_unclosed 7 ex_line false [QChar 97; QChar 10] 40); [exact ex_line_ok| |cbn; lia].
  repeat constructor; cbn; unfold char_ok; lia.
Defined.
