(* ===== verification/Malloc.v ===== *)
(** The heap of user programs: [libc/malloc.c], a buddy allocator over pages that
    [sendpage] maps.

    The heap is seen at the granularity of headers: a [struct _hdr] takes 24
    bytes and a block 32 or more, so headers are at multiples of 32; [hdrs] has an
    entry for each such address that is mapped.  [maps] are the addresses that the
    [sendpage] calls to come return, 0 for a failure. *)
From S2P Require Import Prelude Bits.

(** What a [struct _hdr **prev] points at: nothing, an element of [_free], the
    [next] of a header. *)
Inductive place := Nowhere | Slot (i : Z) | Field (a : Z).
#[export] Instance place_eq_dec : EqDecision place.
Proof. solve_decision. Defined.

Record hdr := mkHdr { h_next : Z; h_prev : place; h_flags : Z }.
Record heap := mkHeap { free_ : list Z; hdrs : gmap Z hdr; maps : list Z }.
Definition sizeof_hdr : Z := 24.
Definition HUGE_ : Z := 16.
Definition FREE_ : Z := 32.

(** ** Access *)
Definition get_hdr (a : Z) : M heap hdr := o ← gets (fun s => hdrs s !! a); deref o.
Definition upd_hdr (f : hdr -> hdr) (a : Z) : M heap () :=
  h ← get_hdr a; modify (fun s => mkHeap (free_ s) (<[a := f h]> (hdrs s)) (maps s)).
Definition set_next (a v : Z) : M heap () := upd_hdr (fun h => mkHdr v (h_prev h) (h_flags h)) a.
Definition set_prev (a : Z) (p : place) : M heap () := upd_hdr (fun h => mkHdr (h_next h) p (h_flags h)) a.
Definition set_flags (a v : Z) : M heap () := upd_hdr (fun h => mkHdr (h_next h) (h_prev h) v) a.

Definition slot_ok (i : Z) : bool := (0 <=? i) && (i <? 13).
Definition get_free (i : Z) : M heap Z :=
  if slot_ok i then o ← gets (fun s => free_ s !! Z.to_nat i); deref o else fault.
Definition set_free (i v : Z) : M heap () :=
  if slot_ok i then modify (fun s => mkHeap (<[Z.to_nat i := v]> (free_ s)) (hdrs s) (maps s)) else fault.

(** [*p = v] *)
Definition store (p : place) (v : Z) : M heap () :=
  match p with Nowhere => fault | Slot i => set_free i v | Field a => set_next a v end.

(** ** System calls *)
Definition headers_of (x len : Z) : list Z := (fun i => x + 32 * Z.of_nat i) <$> seq 0 (Z.to_nat (len / 32)).
(** Fresh pages are zero. *)
Definition hdr_zero : hdr := mkHdr 0 Nowhere 0.
Definition map_in (x len : Z) (m : gmap Z hdr) : gmap Z hdr := foldr (fun a m => <[a := hdr_zero]> m) m (headers_of x len).
Definition map_out (x len : Z) (m : gmap Z hdr) : gmap Z hdr := foldr (fun a m => delete a m) m (headers_of x len).
Definition sendpage (len : Z) : M heap Z := fun s =>
  match maps s with
  | [] => Done 0 s
  | x :: xs => Done x (mkHeap (free_ s) (if x =? 0 then hdrs s else map_in x len (hdrs s)) xs)
  end.
Definition munmap (x len : Z) : M heap () := modify (fun s => mkHeap (free_ s) (map_out x len (hdrs s)) (maps s)).

(** ** The allocator *)
Definition clear_free : M heap () := modify (fun s => mkHeap (replicate 13 0) (hdrs s) (maps s)).

(** The result and the new value of [*s]. *)
Definition alloc_new (s : Z) : M heap (Z * Z) :=
  let s := ALIGN_UP s 12 in x ← sendpage s; mret (x, s).

Definition split (index : Z) : M heap () :=
  if index <? 5 then mret ()
  else
    tmp ← get_free index;
    let tmp2 := tmp + Z.shiftl 1 (index - 1) in
    h ← get_hdr tmp;
    set_free index (h_next h);;
    when (negb (h_next h =? 0)) (set_prev (h_next h) (Slot index));;
    set_next tmp tmp2;;
    set_prev tmp2 (Field tmp);;
    x ← get_free (index - 1);
    set_next tmp2 x;;
    when (negb (x =? 0)) (set_prev x (Field tmp2));;
    set_free (index - 1) tmp;;
    set_prev tmp (Slot (index - 1));;
    set_flags tmp2 (Z.lor FREE_ (index - 1));;
    set_flags tmp (Z.lor FREE_ (index - 1)).

Definition insert (order x : Z) : M heap () :=
  set_flags x (Z.lor order FREE_);;
  set_prev x (Slot order);;
  h ← get_free order;
  set_next x h;;
  set_free order x;;
  h ← get_hdr x;
  when (negb (h_next h =? 0)) (set_prev (h_next h) (Field x)).

(** [while (xorder < 13 && !_free[xorder]) xorder++] *)
Fixpoint first_free (fuel : nat) (xorder : Z) : M heap Z :=
  match fuel with
  | O => mret xorder
  | S fuel =>
      if xorder <? 13 then x ← get_free xorder; if x =? 0 then first_free fuel (xorder + 1) else mret xorder
      else mret xorder
  end.

(** [n] rounds of [split(xorder); xorder--]. *)
Fixpoint split_down (n : nat) (xorder : Z) : M heap () :=
  match n with O => mret () | S n => split xorder;; split_down n (xorder - 1) end.

(** [64 - __builtin_clzl(x)], undefined for 0. *)
Definition bit_length (x : Z) : M heap Z := if x =? 0 then fault else mret (Z.log2 x + 1).

(** Taking the first block of a list. *)
Definition take_block (order : Z) : M heap Z :=
  x ← get_free order;
  h ← get_hdr x;
  set_flags x (Z.land (h_flags h) (Z.lnot FREE_));;
  set_free order (h_next h);;
  when (negb (h_next h =? 0)) (set_prev (h_next h) (Slot order));;
  set_prev x Nowhere;;
  set_next x 0;;
  mret (x + sizeof_hdr).

Definition malloc (s : Z) : M heap Z :=
  let newsize := u64 (s + sizeof_hdr) in
  if 0x1000 <? newsize then
    '(x, newsize) ← alloc_new newsize;
    if x =? 0 then mret 0
    else
      set_flags x HUGE_;;
      set_next x newsize;;
      mret (x + sizeof_hdr)
  else
    order ← bit_length newsize;
    xorder ← first_free 13 order;
    if 13 <=? xorder then
      '(x, _) ← alloc_new 0x1000;
      if x =? 0 then mret 0
      else insert 12 x;; split_down (Z.to_nat (12 - order)) 12;; take_block order
    else
      split_down (Z.to_nat (xorder - order)) xorder;; take_block order.

Definition free (ptr : Z) : M heap () :=
  if ptr =? 0 then mret ()
  else
    let x := ptr - sizeof_hdr in
    h ← get_hdr x;
    if negb (Z.land (h_flags h) HUGE_ =? 0) then munmap x (h_next h)
    else if 12 <? h_flags h then mret ()
    else
      let buddy := Z.lxor x (Z.shiftl 1 (h_flags h)) in
      b ← get_hdr buddy;
      if h_flags b =? Z.lor FREE_ (h_flags h) then
        store (h_prev b) (h_next b);;
        b ← get_hdr buddy;
        when (negb (h_next b =? 0)) (set_prev (h_next b) (h_prev b));;
        insert (h_flags h + 1) (if buddy <? x then buddy else x)
      else insert (h_flags h) x.

(** Two 100-byte blocks out of a page, and back: the second is merged with its
    buddy. *)
Example malloc_ex :
  let s := mkHeap (replicate 13 0) ∅ [0x10000] in
  match (p ← malloc 100; q ← malloc 100; free q;; free p;; mret (p, q)) s with
  | Done (p, q) s =>
      p = 0x10018 /\ q = 0x10098 /\ free_ s = [0; 0; 0; 0; 0; 0; 0; 0; 0x10000; 0x10200; 0x10400; 0x10800; 0]
  | _ => False
  end.
Proof. vm_compute. done. Qed.

(** ** The state by field *)
Definition nx (s : heap) (a : Z) : option Z := h_next <$> hdrs s !! a.
Definition pv (s : heap) (a : Z) : option place := h_prev <$> hdrs s !! a.
Definition fl (s : heap) (a : Z) : option Z := h_flags <$> hdrs s !! a.
Definition sl (s : heap) (i : Z) : option Z := free_ s !! Z.to_nat i.
Definition has (s : heap) (a : Z) : Prop := is_Some (hdrs s !! a).

Definition put_hdr (f : hdr -> hdr) (a : Z) (s : heap) : heap := mkHeap (free_ s) (alter f a (hdrs s)) (maps s).
Definition put_next (a v : Z) : heap -> heap := put_hdr (fun h => mkHdr v (h_prev h) (h_flags h)) a.
Definition put_prev (a : Z) (p : place) : heap -> heap := put_hdr (fun h => mkHdr (h_next h) p (h_flags h)) a.
Definition put_flags (a v : Z) : heap -> heap := put_hdr (fun h => mkHdr (h_next h) (h_prev h) v) a.
Definition put_slot (i v : Z) (s : heap) : heap := mkHeap (<[Z.to_nat i := v]> (free_ s)) (hdrs s) (maps s).
Definition put_place (p : place) (v : Z) (s : heap) : heap :=
  match p with Nowhere => s | Slot i => put_slot i v s | Field a => put_next a v s end.

Lemma has_put f a b s : has (put_hdr f a s) b <-> has s b.
Proof. unfold has, put_hdr. cbn. rewrite lookup_alter. case_decide; [subst; by rewrite fmap_is_Some|done]. Qed.
Lemma has_slot i v s b : has (put_slot i v s) b <-> has s b.
Proof. done. Qed.

Lemma upd_hdr_eq f a s : has s a -> upd_hdr f a s = Done () (put_hdr f a s).
Proof.
  intros [h Hh]. unfold upd_hdr, get_hdr. erewrite bind_eq; [|erewrite bind_eq; [|apply gets_eq]; by rewrite Hh].
  rewrite modify_eq. unfold put_hdr. do 2 f_equal. apply map_eq. intros i. rewrite lookup_insert, lookup_alter.
  case_decide; [subst; by rewrite Hh|done].
Qed.
Lemma get_hdr_eq a h s : hdrs s !! a = Some h -> get_hdr a s = Done h s.
Proof. intros Hh. unfold get_hdr. erewrite bind_eq; [|apply gets_eq]. by rewrite Hh. Qed.
Lemma slot_ok_true i : 0 <= i < 13 -> slot_ok i = true.
Proof. intros. unfold slot_ok. apply andb_true_iff. rewrite Z.leb_le, Z.ltb_lt. lia. Qed.
Lemma get_free_eq i v s : 0 <= i < 13 -> sl s i = Some v -> get_free i s = Done v s.
Proof. intros Hi Hv. unfold get_free. rewrite slot_ok_true by done. erewrite bind_eq; [|apply gets_eq]. fold (sl s i). by rewrite Hv. Qed.
Lemma set_free_eq i v s : 0 <= i < 13 -> set_free i v s = Done () (put_slot i v s).
Proof. intros Hi. unfold set_free. by rewrite slot_ok_true by done. Qed.

Lemma nx_put f a b s : nx (put_hdr f a s) b = if decide (a = b) then (fun h => h_next (f h)) <$> hdrs s !! b else nx s b.
Proof. unfold nx, put_hdr. cbn. rewrite lookup_alter. case_decide; [subst; by rewrite <- option_fmap_compose|done]. Qed.
Lemma pv_put f a b s : pv (put_hdr f a s) b = if decide (a = b) then (fun h => h_prev (f h)) <$> hdrs s !! b else pv s b.
Proof. unfold pv, put_hdr. cbn. rewrite lookup_alter. case_decide; [subst; by rewrite <- option_fmap_compose|done]. Qed.
Lemma fl_put f a b s : fl (put_hdr f a s) b = if decide (a = b) then (fun h => h_flags (f h)) <$> hdrs s !! b else fl s b.
Proof. unfold fl, put_hdr. cbn. rewrite lookup_alter. case_decide; [subst; by rewrite <- option_fmap_compose|done]. Qed.

Section fields.
Context (s : heap) (a b v : Z) (p : place) (i j : Z).
Lemma nx_next : nx (put_next a v s) b = if decide (a = b) then (fun _ => v) <$> nx s b else nx s b.
Proof. unfold put_next. rewrite nx_put. case_decide; [|done]. unfold nx. by destruct (hdrs s !! b). Qed.
Lemma nx_prev : nx (put_prev a p s) b = nx s b.
Proof. unfold put_prev. rewrite nx_put. case_decide; [|done]. unfold nx. by destruct (hdrs s !! b). Qed.
Lemma nx_flags : nx (put_flags a v s) b = nx s b.
Proof. unfold put_flags. rewrite nx_put. case_decide; [|done]. unfold nx. by destruct (hdrs s !! b). Qed.
Lemma nx_slot : nx (put_slot i v s) b = nx s b.
Proof. done. Qed.
Lemma pv_next : pv (put_next a v s) b = pv s b.
Proof. unfold put_next. rewrite pv_put. case_decide; [|done]. unfold pv. by destruct (hdrs s !! b). Qed.
Lemma pv_prev : pv (put_prev a p s) b = if decide (a = b) then (fun _ => p) <$> pv s b else pv s b.
Proof. unfold put_prev. rewrite pv_put. case_decide; [|done]. unfold pv. by destruct (hdrs s !! b). Qed.
Lemma pv_flags : pv (put_flags a v s) b = pv s b.
Proof. unfold put_flags. rewrite pv_put. case_decide; [|done]. unfold pv. by destruct (hdrs s !! b). Qed.
Lemma pv_slot : pv (put_slot i v s) b = pv s b.
Proof. done. Qed.
Lemma fl_next : fl (put_next a v s) b = fl s b.
Proof. unfold put_next. rewrite fl_put. case_decide; [|done]. unfold fl. by destruct (hdrs s !! b). Qed.
Lemma fl_prev : fl (put_prev a p s) b = fl s b.
Proof. unfold put_prev. rewrite fl_put. case_decide; [|done]. unfold fl. by destruct (hdrs s !! b). Qed.
Lemma fl_flags : fl (put_flags a v s) b = if decide (a = b) then (fun _ => v) <$> fl s b else fl s b.
Proof. unfold put_flags. rewrite fl_put. case_decide; [|done]. unfold fl. by destruct (hdrs s !! b). Qed.
Lemma fl_slot : fl (put_slot i v s) b = fl s b.
Proof. done. Qed.
Lemma sl_hdr f : sl (put_hdr f a s) j = sl s j.
Proof. done. Qed.
Lemma sl_slot : 0 <= i < 13 -> 0 <= j -> length (free_ s) = 13%nat -> sl (put_slot i v s) j = if decide (i = j) then Some v else sl s j.
Proof.
  intros Hi Hj Hl. unfold sl, put_slot. cbn. rewrite list_lookup_insert. repeat case_decide; try done; lia.
Qed.
End fields.
Lemma sl_next s a v j : sl (put_next a v s) j = sl s j.
Proof. done. Qed.
Lemma sl_prev s a p j : sl (put_prev a p s) j = sl s j.
Proof. done. Qed.
Lemma sl_flags s a v j : sl (put_flags a v s) j = sl s j.
Proof. done. Qed.
Lemma len_slot i v s : length (free_ (put_slot i v s)) = length (free_ s).
Proof. apply length_insert. Qed.
Lemma len_put f a s : length (free_ (put_hdr f a s)) = length (free_ s).
Proof. done. Qed.

Ltac fields := repeat first [rewrite nx_next | rewrite nx_prev | rewrite nx_flags | rewrite nx_slot
  | rewrite pv_next | rewrite pv_prev | rewrite pv_flags | rewrite pv_slot
  | rewrite fl_next | rewrite fl_prev | rewrite fl_flags | rewrite fl_slot
  | rewrite sl_next | rewrite sl_prev | rewrite sl_flags].

Ltac hases := unfold put_next, put_prev, put_flags; repeat first [rewrite has_put | rewrite has_slot].

(** ** Free lists *)
(** What a place holds. *)
Definition val (s : heap) (p : place) : option Z :=
  match p with Nowhere => None | Slot i => sl s i | Field a => nx s a end.
(** From the place [p] on, the list [l]. *)
Fixpoint dll (s : heap) (p : place) (l : list Z) : Prop :=
  match l with
  | [] => val s p = Some 0
  | a :: l => val s p = Some a /\ pv s a = Some p /\ dll s (Field a) l
  end.

Lemma dll_ext s s' p l : dll s p l -> val s' p = val s p ->
  (forall a, a ∈ l -> nx s' a = nx s a /\ pv s' a = pv s a) -> dll s' p l.
Proof.
  revert p. induction l as [|a l IH]; intros p Hd Hp Hl; cbn in *; [congruence|].
  destruct Hd as (H1 & H2 & H3). destruct (Hl a) as [N P]; [by left|]. split_and!; [congruence..|].
  apply IH; [done|exact N|]. intros b Hb. apply Hl. by right.
Qed.

Lemma dll_has s p l a : dll s p l -> a ∈ l -> has s a.
Proof.
  revert p. induction l as [|b l IH]; intros p Hd Ha; [by apply not_elem_of_nil in Ha|].
  destruct Hd as (H1 & H2 & H3). apply elem_of_cons in Ha as [->|Ha]; [|by eapply IH].
  unfold pv in H2. unfold has. by destruct (hdrs s !! b).
Qed.

(** [insert]. *)
Definition push (o x : Z) (s : heap) : heap :=
  let y := default 0 (sl s o) in
  let s := put_slot o x (put_next x y (put_prev x (Slot o) (put_flags x (Z.lor o FREE_) s))) in
  if y =? 0 then s else put_prev y (Field x) s.

Lemma has_push o x s a : has (push o x s) a <-> has s a.
Proof. unfold push. destruct (_ =? 0); by hases. Qed.
Lemma maps_push o x s : maps (push o x s) = maps s.
Proof. unfold push. by destruct (_ =? 0). Qed.
Lemma len_push o x s : length (free_ (push o x s)) = length (free_ s).
Proof. unfold push. destruct (_ =? 0); unfold put_prev, put_next, put_flags; by rewrite ?len_put, ?len_slot, ?len_put. Qed.
Lemma fl_push o x s a : has s x -> fl (push o x s) a = if decide (x = a) then Some (Z.lor o FREE_) else fl s a.
Proof.
  intros [h Hx]. unfold push. destruct (_ =? 0); fields; (destruct (decide (x = a)) as [->|]; [|done]); unfold fl; by rewrite Hx.
Qed.

Lemma nx_is_Some s a : has s a -> exists v, nx s a = Some v.
Proof. unfold has, nx. intros [h ->]. by eexists. Qed.
Lemma pv_is_Some s a : has s a -> exists v, pv s a = Some v.
Proof. unfold has, pv. intros [h ->]. by eexists. Qed.

Lemma insert_eq o x s y : 0 <= o < 13 -> length (free_ s) = 13%nat -> has s x -> sl s o = Some y ->
  (y <> 0 -> has s y) -> insert o x s = Done () (push o x s).
Proof.
  intros Ho Hl Hx Hy Hhy. unfold insert, push. rewrite Hy. change (default 0 (Some y)) with y.
  set (s1 := put_flags x (Z.lor o FREE_) s). set (s2 := put_prev x (Slot o) s1). set (s3 := put_next x y s2).
  assert (has s1 x /\ has s2 x /\ has s3 x) as (H1 & H2 & H3) by (unfold s3, s2, s1; split_and!; hases; done).
  erewrite bind_eq; [|unfold set_flags; by rewrite upd_hdr_eq]. change (put_hdr _ x s) with s1.
  erewrite bind_eq; [|unfold set_prev; by rewrite upd_hdr_eq]. change (put_hdr _ x s1) with s2.
  erewrite bind_eq; [|apply (get_free_eq o y s2 Ho); unfold s2, s1; by fields].
  erewrite bind_eq; [|unfold set_next; by rewrite upd_hdr_eq]. change (put_hdr _ x s2) with s3.
  erewrite bind_eq; [|by apply set_free_eq].
  destruct H3 as [h Hh]. erewrite bind_eq; [|by apply get_hdr_eq].
  assert (h_next h = y) as ->.
  { assert (nx s3 x = Some y) as E.
    { unfold s3. fields. rewrite decide_True by done. destruct (nx_is_Some s2 x H2) as [v ->]. done. }
    unfold nx in E. rewrite Hh in E. by injection E. }
  destruct (Z.eqb_spec y 0) as [E0|E0]; cbn [negb when]; [done|]. unfold set_prev. rewrite upd_hdr_eq; [done|].
  unfold s3, s2, s1. hases. by apply Hhy.
Qed.

Lemma dll_head s o l : dll s (Slot o) l -> 0 ∉ l -> sl s o = Some (default 0 (head l)) /\ (default 0 (head l) = 0 -> l = []).
Proof.
  destruct l as [|a l]; cbn; [intros H _; by split|]. intros (H & _) H0. split; [exact H|]. intros ->. destruct H0. by left.
Qed.

Lemma dll_push s o x l : dll s (Slot o) l -> 0 <= o < 13 -> length (free_ s) = 13%nat -> has s x ->
  NoDup (x :: l) -> 0 ∉ l -> dll (push o x s) (Slot o) (x :: l).
Proof.
  intros Hd Ho Hl Hx Hnd H0. destruct (dll_head s o l Hd H0) as [E _]. unfold push. rewrite E. change (default 0 (Some (default 0 (head l)))) with (default 0 (head l)).
  destruct (pv_is_Some s x Hx) as [p Hp]. destruct (nx_is_Some s x Hx) as [v Hv].
  apply NoDup_cons in Hnd as [Hxl Hnd]. destruct l as [|y l].
  - change (default 0 (head [])) with 0. cbn [Z.eqb dll]. unfold val. fields. rewrite sl_slot, !decide_True by (done || lia). by rewrite Hp, Hv.
  - change (default 0 (head (y :: l))) with y. rewrite not_elem_of_cons in H0, Hxl. apply NoDup_cons in Hnd as [Hyl Hnd]. rewrite (proj2 (Z.eqb_neq y 0)) by (by destruct H0).
    destruct Hd as (_ & H2 & H3). cbn [dll]. unfold val at 1 2. fields.
    rewrite sl_slot by (done || lia). rewrite Hp, Hv, H2.
    split_and!; [repeat case_decide; (done || naive_solver)..|]. apply (dll_ext s); [done|..].
    + cbn. fields. by rewrite decide_False by naive_solver.
    + intros b Hb. fields. rewrite !decide_False; [done|..]; set_solver.
Qed.

(** A list elsewhere does not notice. *)
Lemma dll_push_other s o x l p l' : dll s (Slot o) l -> 0 <= o < 13 -> length (free_ s) = 13%nat -> 0 ∉ l ->
  dll s p l' -> (forall i, p = Slot i -> 0 <= i /\ i <> o) -> (forall a, p = Field a -> a <> x) ->
  (forall a, a ∈ l' -> a <> x /\ a ∉ l) -> dll (push o x s) p l'.
Proof.
  intros Hd Ho Hl H0 Hd' Hs Hf Hl'. destruct (dll_head s o l Hd H0) as [E Hnil]. unfold push. rewrite E. change (default 0 (Some (default 0 (head l)))) with (default 0 (head l)).
  apply (dll_ext s); [done|..].
  - destruct p as [|i|a]; cbn.
    + done.
    + destruct (Hs i eq_refl). destruct (_ =? 0); fields; rewrite sl_slot by done; by rewrite decide_False by congruence.
    + destruct (_ =? 0); fields; by rewrite decide_False by (intros ->; by destruct (Hf a)).
  - intros a Ha. destruct (Hl' a Ha) as [H1 H2]. destruct (Z.eqb_spec (default 0 (head l)) 0) as [E0|E0]; fields;
      repeat (case_decide; [exfalso|]); try done; subst; (done || destruct l; [done|]; destruct H2; by left).
Qed.

(** Taking an element off its list. *)
Definition unlink (x : Z) (s : heap) : heap :=
  let n := default 0 (nx s x) in
  let p := default Nowhere (pv s x) in
  let s := put_place p n s in
  if n =? 0 then s else put_prev n p s.

Lemma has_unlink x s a : has (unlink x s) a <-> has s a.
Proof. unfold unlink, put_place. destruct (default Nowhere (pv s x)), (_ =? 0); by hases. Qed.
Lemma maps_unlink x s : maps (unlink x s) = maps s.
Proof. unfold unlink, put_place. by destruct (default Nowhere (pv s x)), (_ =? 0). Qed.
Lemma len_unlink x s : length (free_ (unlink x s)) = length (free_ s).
Proof.
  unfold unlink, put_place. destruct (default Nowhere (pv s x)), (_ =? 0); unfold put_prev, put_next; by rewrite ?len_put, ?len_slot.
Qed.
Lemma fl_unlink x s a : fl (unlink x s) a = fl s a.
Proof. unfold unlink, put_place. destruct (default Nowhere (pv s x)), (_ =? 0); by fields. Qed.

Definition pred (p : place) (l : list Z) : place := match last l with None => p | Some b => Field b end.

Lemma pred_cons p a l : pred p (a :: l) = pred (Field a) l.
Proof. unfold pred. rewrite last_cons. by destruct (last l). Qed.
Lemma pred_field p l a : pred p l = Field a -> p = Field a \/ a ∈ l.
Proof.
  unfold pred. destruct (last l) as [b|] eqn:E; [|auto]. intros [= ->]. right.
  apply last_Some in E as [l' ->]. set_solver.
Qed.

Lemma dll_at s l1 x l2 : forall p, dll s p (l1 ++ x :: l2) ->
  pv s x = Some (pred p l1) /\ nx s x = Some (default 0 (head l2)) /\ val s (pred p l1) = Some x.
Proof.
  induction l1 as [|a l1 IH]; intros p Hd; cbn [app dll] in Hd.
  - destruct Hd as (H1 & H2 & H3). split_and!; [done| |done]. destruct l2; [exact H3|apply H3].
  - destruct Hd as (_ & _ & H3). rewrite pred_cons. by apply IH.
Qed.

(** The places whose content a removal changes, and the element behind. *)
Lemma val_unlink s x p n q : pv s x = Some p -> nx s x = Some n ->
  match q with Slot i => 0 <= i | _ => True end -> (forall i, p = Slot i -> 0 <= i < 13) -> length (free_ s) = 13%nat ->
  is_Some (val s p) ->
  val (unlink x s) q = if decide (q = p) then Some n else val s q.
Proof.
  intros Hp Hn Hq Hi Hl Hv. unfold unlink. rewrite Hp, Hn. change (default Nowhere (Some p)) with p. change (default 0 (Some n)) with n.
  assert (val (if n =? 0 then put_place p n s else put_prev n p (put_place p n s)) q = val (put_place p n s) q) as ->.
  { destruct (n =? 0); [done|]. destruct q; cbn; by fields. }
  destruct Hv as [v Hv].
  destruct p as [|i|a], q as [|j|b]; cbn [put_place val] in *; fields; rewrite ?sl_slot by auto; repeat case_decide; try congruence.
  subst. by rewrite Hv.
Qed.
Lemma pv_unlink s x p n a : pv s x = Some p -> nx s x = Some n -> a <> n -> pv (unlink x s) a = pv s a.
Proof.
  intros Hp Hn Ha. unfold unlink. rewrite Hp, Hn. change (default Nowhere (Some p)) with p. change (default 0 (Some n)) with n.
  destruct (n =? 0), p; cbn [put_place]; fields; try done; by rewrite decide_False by done.
Qed.
Lemma pv_unlink_next s x p n : pv s x = Some p -> nx s x = Some n -> n <> 0 -> has s n -> pv (unlink x s) n = Some p.
Proof.
  intros Hp Hn H0 Hh. unfold unlink. rewrite Hp, Hn. change (default Nowhere (Some p)) with p. change (default 0 (Some n)) with n.
  rewrite (proj2 (Z.eqb_neq n 0)) by done. destruct (pv_is_Some s n Hh) as [v Hv].
  destruct p; cbn [put_place]; fields; rewrite decide_True, Hv by done; done.
Qed.

(** The list from a place before the element on, given where the element is. *)
Lemma dll_unlink_gen s x pl l1 l2 : pv s x = Some pl -> nx s x = Some (default 0 (head l2)) -> is_Some (val s pl) ->
  (forall i, pl = Slot i -> 0 <= i < 13) -> length (free_ s) = 13%nat ->
  0 ∉ l1 ++ x :: l2 -> NoDup (l1 ++ x :: l2) ->
  forall p, dll s p (l1 ++ x :: l2) -> pl = pred p l1 ->
  match p with Slot i => 0 <= i | Field a => a ∉ l1 ++ x :: l2 | Nowhere => True end ->
  dll (unlink x s) p (l1 ++ l2).
Proof.
  intros Hp Hn Hv Hi Hl. induction l1 as [|a l1 IH]; intros H0 Hnd p Hd Hpl Hpp.
  - cbn [app] in *. destruct Hd as (H1 & H2 & H3). unfold pred in Hpl. cbn in Hpl. subst pl.
    assert (val (unlink x s) p = Some (default 0 (head l2))) as Ev.
    { rewrite (val_unlink s x p _ p Hp Hn) by (done || by destruct p). by rewrite decide_True. }
    destruct l2 as [|z l2]; [exact Ev|]. destruct H3 as (H4 & H5 & H6). cbn [dll]. split_and!; [exact Ev|..].
    + apply (pv_unlink_next s x p z Hp Hn); [set_solver|]. eapply (dll_has s (Field x) (z :: l2)); [done|by left].
    + apply NoDup_cons in Hnd as [Hx Hnd]. apply NoDup_cons in Hnd as [Hz Hnd]. apply (dll_ext s); [done|..].
      * rewrite (val_unlink s x p _ _ Hp Hn) by done. apply decide_False. intros <-. set_solver.
      * intros b Hb. split; [|apply (pv_unlink s x p _ b Hp Hn); cbn; set_solver].
        change (nx (unlink x s) b) with (val (unlink x s) (Field b)). rewrite (val_unlink s x p _ _ Hp Hn) by done.
        apply decide_False. intros <-. set_solver.
  - cbn [app] in *. destruct Hd as (H1 & H2 & H3). rewrite pred_cons in Hpl. apply NoDup_cons in Hnd as [Ha Hnd].
    assert (forall b, pl = Field b -> b = a \/ b ∈ l1) as Hpf by (intros b E; rewrite E in Hpl; symmetry in Hpl; apply pred_field in Hpl as [[=]|]; auto).
    cbn [dll]. split_and!.
    + rewrite (val_unlink s x pl _ _ Hp Hn) by (done || by destruct p). rewrite decide_False; [exact H1|].
      intros <-. destruct p as [|i|b]; [by destruct Hv|..].
      * unfold pred in Hpl. by destruct (last l1).
      * apply Hpp. destruct (Hpf b eq_refl) as [->|]; set_solver.
    + rewrite (pv_unlink s x pl _ a Hp Hn); [exact H2|]. destruct l2; cbn; set_solver.
    + apply IH; [set_solver|done|exact H3|done|exact Ha].
Qed.

Lemma dll_unlink s o l1 x l2 : dll s (Slot o) (l1 ++ x :: l2) -> 0 <= o < 13 -> length (free_ s) = 13%nat ->
  0 ∉ l1 ++ x :: l2 -> NoDup (l1 ++ x :: l2) -> dll (unlink x s) (Slot o) (l1 ++ l2).
Proof.
  intros Hd Ho Hl H0 Hnd. destruct (dll_at s l1 x l2 (Slot o) Hd) as (Hp & Hn & Hv).
  apply (dll_unlink_gen s x (pred (Slot o) l1)); try done; [|lia].
  intros i Hi. unfold pred in Hi. destruct (last l1); [done|]. by injection Hi as <-.
Qed.

Lemma dll_unlink_other s o l1 x l2 o' l' : dll s (Slot o) (l1 ++ x :: l2) -> 0 <= o < 13 -> length (free_ s) = 13%nat ->
  0 ∉ l' -> dll s (Slot o') l' -> 0 <= o' -> o' <> o -> (forall a, a ∈ l' -> a ∉ l1 ++ x :: l2) ->
  dll (unlink x s) (Slot o') l'.
Proof.
  intros Hd Ho Hl H0 Hd' Ho' Hne Hl'. destruct (dll_at s l1 x l2 (Slot o) Hd) as (Hp & Hn & Hv).
  assert (forall i, pred (Slot o) l1 = Slot i -> 0 <= i < 13) as Hi.
  { intros i Hi. unfold pred in Hi. destruct (last l1); [done|]. by injection Hi as <-. }
  assert (forall q, match q with Slot i => 0 <= i | _ => True end ->
    val (unlink x s) q = if decide (q = pred (Slot o) l1) then Some (default 0 (head l2)) else val s q) as Hq
    by (intros q Hq; by apply val_unlink).
  apply (dll_ext s); [done|..].
  - rewrite Hq by done. apply decide_False. unfold pred. destruct (last l1); congruence.
  - intros a Ha. split.
    + change (nx (unlink x s) a) with (val (unlink x s) (Field a)). rewrite Hq by done. apply decide_False. intros E.
      symmetry in E. apply pred_field in E as [|E]; [done|]. apply (Hl' a Ha). set_solver.
    + apply (pv_unlink s x _ _ a Hp Hn). intros ->. destruct l2 as [|z l2]; [by cbn in Ha|]. apply (Hl' z Ha). set_solver.
Qed.
