(* ===== verification/MallocProofs.v ===== *)
(** The heap of [Malloc] hands out disjoint blocks and takes them back: its pages
    stay tiled by aligned blocks, and the free lists hold exactly the free ones. *)
From S2P Require Import Prelude Bits Malloc.

(** ** The lists together *)
Definition lists_ok (s : heap) (L : Z -> list Z) : Prop :=
  length (free_ s) = 13%nat
  /\ (forall o, 0 <= o < 13 -> dll s (Slot o) (L o) /\ NoDup (L o) /\ 0 ∉ L o)
  /\ (forall o o' a, 0 <= o < 13 -> 0 <= o' < 13 -> a ∈ L o -> a ∈ L o' -> o = o').
Definition upd_list (L : Z -> list Z) (o : Z) (l : list Z) : Z -> list Z := fun o' => if decide (o' = o) then l else L o'.

Lemma upd_list_eq L o l : upd_list L o l o = l.
Proof. unfold upd_list. by rewrite decide_True. Qed.
Lemma upd_list_ne L o l o' : o' <> o -> upd_list L o l o' = L o'.
Proof. intros. unfold upd_list. by rewrite decide_False. Qed.

Lemma lists_push s L o x : lists_ok s L -> 0 <= o < 13 -> x <> 0 -> has s x -> (forall o', 0 <= o' < 13 -> x ∉ L o') ->
  lists_ok (push o x s) (upd_list L o (x :: L o)).
Proof.
  intros (Hl & Hd & Hx) Ho H0 Hh Hn. destruct (Hd o Ho) as (D & N & Z0). split_and!.
  - by rewrite len_push.
  - intros o' Ho'. destruct (decide (o' = o)) as [->|Hne].
    + rewrite upd_list_eq. split_and!.
      * apply dll_push; try done. apply NoDup_cons. auto.
      * apply NoDup_cons. auto.
      * rewrite not_elem_of_cons. auto.
    + rewrite upd_list_ne by done. destruct (Hd o' Ho') as (D' & N' & Z0'). split_and!; [|done..].
      apply (dll_push_other s o x (L o)); try done.
      * intros i [= <-]. lia.
      * intros a Ha. split; [intros ->; by apply (Hn o' Ho')|]. intros Ha'. by destruct Hne; apply (Hx o' o a).
  - intros o1 o2 a H1 H2. unfold upd_list. repeat case_decide; subst; [done|..]; rewrite ?elem_of_cons.
    + intros [->|?] ?; [by destruct (Hn o2 H2)|by eapply Hx].
    + intros ? [->|?]; [by destruct (Hn o1 H1)|by eapply Hx].
    + by eapply Hx.
Qed.

Lemma lists_unlink s L o l1 x l2 : lists_ok s L -> 0 <= o < 13 -> L o = l1 ++ x :: l2 ->
  lists_ok (unlink x s) (upd_list L o (l1 ++ l2)).
Proof.
  intros (Hl & Hd & Hx) Ho E. destruct (Hd o Ho) as (D & N & Z0). rewrite E in D, N, Z0. split_and!.
  - by rewrite len_unlink.
  - intros o' Ho'. destruct (decide (o' = o)) as [->|Hne].
    + rewrite upd_list_eq. split_and!.
      * by apply dll_unlink.
      * by apply NoDup_app in N as (N1 & N2 & [N3 N4]%NoDup_cons); apply NoDup_app; split_and!; [|set_solver|].
      * set_solver.
    + rewrite upd_list_ne by done. destruct (Hd o' Ho') as (D' & N' & Z0'). split_and!; [|done..].
      apply (dll_unlink_other s o l1 x l2); try done; [lia|]. intros a Ha Ha'. destruct Hne. apply (Hx o' o a Ho' Ho Ha). by rewrite E.
  - intros o1 o2 a H1 H2. unfold upd_list. repeat case_decide; subst; [done|..]; intros A1 A2; eapply Hx; eauto; rewrite E; set_solver.
Qed.

(** Nothing but the fields of the lists' elements and the slots matters. *)
Lemma lists_frame s s' L : lists_ok s L -> free_ s' = free_ s ->
  (forall o a, 0 <= o < 13 -> a ∈ L o -> nx s' a = nx s a /\ pv s' a = pv s a) -> lists_ok s' L.
Proof.
  intros (Hl & Hd & Hx) Hf Ha. split_and!; [by rewrite Hf| |done]. intros o Ho. destruct (Hd o Ho) as (D & N & Z0).
  split_and!; [|done..]. apply (dll_ext s); [done|cbn; unfold sl; by rewrite Hf|]. intros a. by apply Ha.
Qed.

(** ** Blocks *)
(** Every block with its order and whether it is free. *)
Notation blocks := (gmap Z (Z * bool)) (only parsing).

Definition free_lists (s : heap) (B : blocks) : Prop :=
  exists L, lists_ok s L /\ forall o a, 0 <= o < 13 -> a ∈ L o <-> B !! a = Some (o, true).

Lemma free_lists_ext s B B' : (forall a o, 0 <= o < 13 -> B !! a = Some (o, true) <-> B' !! a = Some (o, true)) ->
  free_lists s B -> free_lists s B'.
Proof. intros He (L & HL & HB). exists L. split; [done|]. intros o a Ho. rewrite HB by done. by apply He. Qed.

Lemma free_lists_push s B o a : free_lists s B -> 0 <= o < 13 -> a <> 0 -> has s a -> (forall o', B !! a <> Some (o', true)) ->
  free_lists (push o a s) (<[a := (o, true)]> B).
Proof.
  intros (L & HL & HB) Ho H0 Hh Hn. exists (upd_list L o (a :: L o)). split.
  - apply lists_push; try done. intros o' Ho' Ha. apply (Hn o'). by apply HB.
  - intros o' b Ho'. rewrite lookup_insert. unfold upd_list. case_decide as E1; [subst o'; rewrite elem_of_cons|]; case_decide as E2.
    + subst b. naive_solver.
    + rewrite HB by done. naive_solver.
    + subst b. rewrite HB by done. split; [intros H; by destruct (Hn o')|intros [= H]; congruence].
    + by apply HB.
Qed.

Lemma free_lists_unlink s B o a : free_lists s B -> 0 <= o < 13 -> B !! a = Some (o, true) -> free_lists (unlink a s) (delete a B).
Proof.
  intros (L & HL & HB) Ho Ha. destruct (list_elem_of_split (L o) a) as (l1 & l2 & E); [by apply HB|].
  exists (upd_list L o (l1 ++ l2)). split; [by apply lists_unlink|].
  assert (a ∉ l1 ++ l2) as Hna.
  { destruct HL as (_ & Hd & _). destruct (Hd o Ho) as (_ & N & _). rewrite E in N.
    apply NoDup_app in N as (_ & N1 & [N2 _]%NoDup_cons). rewrite elem_of_app. intros [?|?]; [|done]. apply (N1 a); set_solver. }
  intros o' b Ho'. rewrite lookup_delete. unfold upd_list. case_decide as E1; [subst o'|]; case_decide as E2.
  - subst b. split; [done|discriminate].
  - rewrite <- HB, E, !elem_of_app, elem_of_cons by done. naive_solver.
  - subst b. rewrite HB, Ha by done. split; [intros [= <-]; congruence|discriminate].
  - by apply HB.
Qed.

Lemma free_lists_frame s s' B : free_lists s B -> free_ s' = free_ s ->
  (forall a o, B !! a = Some (o, true) -> nx s' a = nx s a /\ pv s' a = pv s a) -> free_lists s' B.
Proof.
  intros (L & HL & HB) Hf Ha. exists L. split; [|done]. apply (lists_frame s); [done..|].
  intros o a Ho Hin. apply (Ha a o). by apply HB.
Qed.

Lemma free_lists_len s B : free_lists s B -> length (free_ s) = 13%nat.
Proof. by intros (L & (Hl & _) & _). Qed.

(** The head of a list. *)
Lemma free_lists_head s B o : free_lists s B -> 0 <= o < 13 ->
  exists y, sl s o = Some y
    /\ (y <> 0 -> B !! y = Some (o, true) /\ pv s y = Some (Slot o) /\ has s y
         /\ exists n, nx s y = Some n /\ (n <> 0 -> B !! n = Some (o, true) /\ n <> y /\ has s n))
    /\ (y = 0 -> forall a, B !! a <> Some (o, true)).
Proof.
  intros (L & (Hl & Hd & _) & HB) Ho. destruct (Hd o Ho) as (D & N & Z0). destruct (dll_head s o (L o) D Z0) as [E Hnil].
  exists (default 0 (head (L o))). split; [done|]. split.
  - intros Hy. destruct (L o) as [|y l] eqn:EL; [done|]. change (default 0 (head (y :: l))) with y.
    split; [apply HB; [done|rewrite EL; by left]|]. split; [apply D|]. split; [eapply dll_has; [exact D|by left]|].
    destruct (dll_at s [] y l (Slot o) D) as (_ & Hn & _). exists (default 0 (head l)). split; [done|]. intros Hn0.
    destruct l as [|n l]; [done|]. change (default 0 (head (n :: l))) with n. split; [apply HB; [done|rewrite EL; set_solver]|].
    split; [|eapply dll_has; [exact D|set_solver]]. intros ->. apply NoDup_cons in N as [N _]. set_solver.
  - intros Hy a Ha. apply Hnil in Hy. apply HB in Ha; [|done]. rewrite Hy in Ha. by apply not_elem_of_nil in Ha.
Qed.

Lemma free_lists_unlink_nx s B o x a : free_lists s B -> 0 <= o < 13 -> B !! x = Some (o, true) ->
  (forall o', B !! a <> Some (o', true)) -> nx (unlink x s) a = nx s a.
Proof.
  intros (L & (Hl & Hd & _) & HB) Ho Hx Ha. destruct (list_elem_of_split (L o) x) as (l1 & l2 & E); [by apply HB|].
  destruct (Hd o Ho) as (D & N & Z0). rewrite E in D. destruct (dll_at s l1 x l2 (Slot o) D) as (Hp & Hn & Hv).
  change (val (unlink x s) (Field a) = val s (Field a)). rewrite (val_unlink s x _ _ _ Hp Hn); [|done| |done|done].
  - apply decide_False. intros Ef. symmetry in Ef. apply pred_field in Ef as [|Hin]; [done|].
    apply (Ha o). apply HB; [done|]. rewrite E. set_solver.
  - intros i Hi. unfold pred in Hi. destruct (last l1); [done|]. by injection Hi as <-.
Qed.

(** ** Tiling *)
(** Aligned blocks, no two of which overlap, and which fill the pages they are
    in. *)
Record tiling (B : blocks) : Prop := {
  t_ok : forall a o f, B !! a = Some (o, f) -> 5 <= o <= 12 /\ 0 < a /\ (2 ^ o | a);
  t_disj : forall a o f a' o' f', B !! a = Some (o, f) -> B !! a' = Some (o', f') -> a <> a' ->
    a + 2 ^ o <= a' \/ a' + 2 ^ o' <= a;
  t_cover : forall a o f x, B !! a = Some (o, f) -> x / 4096 = a / 4096 ->
    exists a' o' f', B !! a' = Some (o', f') /\ a' <= x < a' + 2 ^ o'
}.

Lemma pow_pos n : 0 <= n -> 0 < 2 ^ n.
Proof. intros. by apply Z.pow_pos_nonneg. Qed.
Lemma pow_S n : 0 <= n -> 2 ^ (n + 1) = 2 * 2 ^ n.
Proof. intros. rewrite Z.add_1_r. by apply Z.pow_succ_r. Qed.
Lemma pow_div m n : 0 <= m <= n -> (2 ^ m | 2 ^ n).
Proof. intros. exists (2 ^ (n - m)). rewrite <- Z.pow_add_r by lia. f_equal. lia. Qed.

(** Being inside an aligned block is having the same quotient. *)
Lemma in_block a o x : 0 <= o -> (2 ^ o | a) -> a <= x < a + 2 ^ o <-> x / 2 ^ o = a / 2 ^ o.
Proof.
  intros Ho [k ->]. pose proof (pow_pos o Ho). rewrite Z.div_mul by lia. split.
  - intros Hx. symmetry. apply (Z.div_unique x (2 ^ o) k (x - k * 2 ^ o)); lia.
  - intros <-. pose proof (Z.div_mod x (2 ^ o)). pose proof (Z.mod_pos_bound x (2 ^ o)). lia.
Qed.
Lemma div_up m n x y : 0 <= m <= n -> x / 2 ^ m = y / 2 ^ m -> x / 2 ^ n = y / 2 ^ n.
Proof.
  intros H E. replace (2 ^ n) with (2 ^ m * 2 ^ (n - m)) by (rewrite <- Z.pow_add_r by lia; f_equal; lia).
  pose proof (pow_pos m). pose proof (pow_pos (n - m)). rewrite <- !Z.div_div by lia. by rewrite E.
Qed.
Lemma block_page a o x : 0 <= o <= 12 -> (2 ^ o | a) -> a <= x < a + 2 ^ o -> x / 4096 = a / 4096.
Proof. intros Ho Ha Hx. change 4096 with (2 ^ 12). apply (div_up o); [lia|]. apply in_block; [lia|done..]. Qed.

Lemma tiling_flag B a o f f' : tiling B -> B !! a = Some (o, f) -> tiling (<[a := (o, f')]> B).
Proof.
  intros HB Ha. assert (forall b o1 f1, <[a := (o, f')]> B !! b = Some (o1, f1) -> exists f2, B !! b = Some (o1, f2)) as Hi.
  { intros b o1 f1. rewrite lookup_insert. case_decide; [intros [= <- <-]; subst; eauto|eauto]. }
  split.
  - intros b o1 f1 Hb. destruct (Hi b o1 f1 Hb) as [f2 H2]. by apply (t_ok B HB b o1 f2).
  - intros b o1 f1 c o2 f2 Hb Hc. destruct (Hi _ _ _ Hb) as [f3 H3]. destruct (Hi _ _ _ Hc) as [f4 H4]. by eapply t_disj.
  - intros b o1 f1 x Hb Hx. destruct (Hi _ _ _ Hb) as [f3 H3]. destruct (t_cover B HB _ _ _ _ H3 Hx) as (c & o2 & f2 & Hc & Hin).
    destruct (decide (a = c)) as [<-|Hne].
    + exists a, o, f'. rewrite lookup_insert_eq. split; [done|]. congruence.
    + exists c, o2, f2. by rewrite lookup_insert_ne.
Qed.

Lemma tiling_split B a o f : tiling B -> B !! a = Some (o, f) -> 6 <= o ->
  tiling (<[a := (o - 1, f)]> (<[a + 2 ^ (o - 1) := (o - 1, f)]> B)).
Proof.
  intros HB Ha Ho. destruct (t_ok B HB a o f Ha) as (Ho' & H0 & Hd). set (h := 2 ^ (o - 1)).
  assert (2 ^ o = 2 * h) as Eh by (unfold h; rewrite <- pow_S by lia; f_equal; lia).
  assert (0 < h) as Hh by (apply pow_pos; lia).
  assert ((h | a)) as Hha by (etrans; [|exact Hd]; apply pow_div; lia).
  assert (forall b o1 f1, <[a := (o - 1, f)]> (<[a + h := (o - 1, f)]> B) !! b = Some (o1, f1) ->
    ((b = a \/ b = a + h) /\ o1 = o - 1) \/ (B !! b = Some (o1, f1) /\ b <> a)) as Hi.
  { intros b o1 f1. rewrite !lookup_insert. repeat case_decide; [intros [= <- <-]; auto..|]. auto. }
  split.
  - intros b o1 f1 Hb. destruct (Hi b o1 f1 Hb) as [[Hb' ->]|[Hb' _]]; [|by eapply t_ok].
    split; [lia|]. split; [lia|]. fold h. destruct Hb' as [->| ->]; [done|]. apply Z.divide_add_r; [done|apply Z.divide_refl].
  - intros b o1 f1 c o2 f2 Hb Hc Hne. destruct (Hi b o1 f1 Hb) as [[Hb' ->]|[Hb' Hba]], (Hi c o2 f2 Hc) as [[Hc' ->]|[Hc' Hca]]; fold h.
    + lia.
    + pose proof (t_disj B HB a o f c o2 f2 Ha Hc' ltac:(auto)). lia.
    + pose proof (t_disj B HB a o f b o1 f1 Ha Hb' ltac:(auto)). lia.
    + by eapply t_disj.
  - intros b o1 f1 x Hb Hx.
    assert (exists b' o' f', B !! b' = Some (o', f') /\ x / 4096 = b' / 4096) as (b' & o' & f' & Hb' & Hx').
    { destruct (Hi b o1 f1 Hb) as [[Hb' ->]|[Hb' Hba]]; [|by eauto 10]. exists a, o, f. split; [done|]. rewrite Hx.
      destruct Hb' as [->| ->]; [done|]. eapply block_page; [|exact Hd|]; lia. }
    destruct (t_cover B HB _ _ _ _ Hb' Hx') as (c & o2 & f2 & Hc & Hin). destruct (decide (a = c)) as [<-|Hne].
    + assert (o2 = o) as -> by congruence. destruct (decide (x < a + h)).
      * exists a, (o - 1), f. rewrite lookup_insert_eq. split; [done|]. fold h. lia.
      * exists (a + h), (o - 1), f. rewrite lookup_insert_ne, lookup_insert_eq by lia. split; [done|]. fold h. lia.
    + exists c, o2, f2. split; [|done]. rewrite !lookup_insert_ne; [done| |done]. intros <-.
      pose proof (t_disj B HB a o f _ _ _ Ha Hc ltac:(lia)). pose proof (pow_pos o2). pose proof (t_ok B HB _ _ _ Hc). lia.
Qed.

Lemma tiling_merge B a o f1 f2 f : tiling B -> B !! a = Some (o, f1) -> B !! (a + 2 ^ o) = Some (o, f2) ->
  (2 ^ (o + 1) | a) -> o < 12 -> tiling (<[a := (o + 1, f)]> (delete (a + 2 ^ o) B)).
Proof.
  intros HB Ha Hb Hd Ho. destruct (t_ok B HB a o f1 Ha) as (Ho' & H0 & _). set (h := 2 ^ o) in *.
  assert (2 ^ (o + 1) = 2 * h) as Eh by (by apply pow_S; lia). assert (0 < h) as Hh by (apply pow_pos; lia).
  assert (forall b o1 f3, <[a := (o + 1, f)]> (delete (a + h) B) !! b = Some (o1, f3) ->
    (b = a /\ o1 = o + 1) \/ (B !! b = Some (o1, f3) /\ b <> a /\ b <> a + h)) as Hi.
  { intros b o1 f3. rewrite lookup_insert, lookup_delete. repeat case_decide; [intros [= <- <-]; auto|discriminate|auto]. }
  split.
  - intros b o1 f3 Hb'. destruct (Hi _ _ _ Hb') as [[-> ->]|[? _]]; [split; [lia|done]|by eapply t_ok].
  - intros b o1 f3 c o2 f4 H1 H2 Hne. destruct (Hi _ _ _ H1) as [[-> ->]|(? & ? & ?)], (Hi _ _ _ H2) as [[-> ->]|(? & ? & ?)]; try done.
    + pose proof (t_disj B HB a o f1 c o2 f4 Ha ltac:(done) ltac:(auto)).
      pose proof (t_disj B HB (a + h) o f2 c o2 f4 Hb ltac:(done) ltac:(auto)). unfold h in *. lia.
    + pose proof (t_disj B HB a o f1 b o1 f3 Ha ltac:(done) ltac:(auto)).
      pose proof (t_disj B HB (a + h) o f2 b o1 f3 Hb ltac:(done) ltac:(auto)). unfold h in *. lia.
    + by eapply t_disj.
  - intros b o1 f3 x H1 Hx.
    assert (exists b' o' f', B !! b' = Some (o', f') /\ x / 4096 = b' / 4096) as (b' & o' & f' & Hb' & Hx').
    { destruct (Hi _ _ _ H1) as [[-> ->]|(? & ? & ?)]; eauto 10. }
    destruct (t_cover B HB _ _ _ _ Hb' Hx') as (c & o2 & f4 & Hc & Hin).
    destruct (decide (c = a)) as [->|Hca]; [|destruct (decide (c = a + h)) as [->|Hch]].
    + exists a, (o + 1), f. rewrite lookup_insert_eq. split; [done|]. assert (o2 = o) as -> by congruence. fold h in Hin. lia.
    + exists a, (o + 1), f. rewrite lookup_insert_eq. split; [done|]. assert (o2 = o) as -> by congruence. fold h in Hin. lia.
    + exists c, o2, f4. rewrite lookup_insert_ne, lookup_delete_ne by done. done.
Qed.

Lemma tiling_page B x f : tiling B -> 0 < x -> (4096 | x) ->
  (forall a o f, B !! a = Some (o, f) -> a + 2 ^ o <= x \/ x + 4096 <= a) -> tiling (<[x := (12, f)]> B).
Proof.
  intros HB H0 Hx Hfar. assert (forall y, x <= y < x + 4096 <-> y / 4096 = x / 4096) as Hp.
  { intros y. change 4096 with (2 ^ 12). apply in_block; [lia|exact Hx]. }
  split.
  - intros a o f'. rewrite lookup_insert. case_decide; [intros [= <- <-]; subst; split; [lia|done]|apply t_ok; done].
  - intros a o f1 b o2 f2. rewrite !lookup_insert. repeat case_decide; subst; try done.
    + intros [= <- <-] Hb _. change (2 ^ 12) with 4096. pose proof (Hfar b o2 f2 Hb). lia.
    + intros Ha [= <- <-] _. change (2 ^ 12) with 4096. pose proof (Hfar a o f1 Ha). lia.
    + by eapply t_disj.
  - intros a o f1 y Ha Hy. rewrite lookup_insert in Ha. case_decide.
    + subst. exists a, 12, f. rewrite lookup_insert_eq. split; [done|]. change (2 ^ 12) with 4096. by apply Hp.
    + destruct (t_cover B HB _ _ _ _ Ha Hy) as (c & o2 & f2 & Hc & Hin). exists c, o2, f2. split; [|done].
      rewrite lookup_insert_ne; [done|]. intros <-. destruct (Hfar x o2 f2 Hc); pose proof (t_ok B HB _ _ _ Hc); pose proof (pow_pos o2); lia.
Qed.

(** The buddy of a block that is not a whole page starts a block that is no
    larger. *)
Lemma lxor_buddy a o : 0 <= o -> (2 ^ o | a) ->
  Z.lxor a (2 ^ o) = (if Z.even (a / 2 ^ o) then a + 2 ^ o else a - 2 ^ o).
Proof.
  intros Ho [k ->]. pose proof (pow_pos o Ho). rewrite Z.div_mul by lia.
  rewrite <- !Z.shiftl_mul_pow2 by lia. replace (2 ^ o) with (Z.shiftl 1 o) by (rewrite Z.shiftl_mul_pow2 by lia; lia).
  rewrite <- Z.shiftl_lxor, !Z.shiftl_mul_pow2 by lia.
  assert (k = 2 * (k / 2) + (if Z.even k then 0 else 1)) as Ek by (rewrite <- Zmod_even; apply Z.div_mod; lia).
  set (q := k / 2) in *. clearbody q.
  assert (2 * q + 1 = Z.lxor (2 * q) 1) as Eq.
  { apply Z.add_nocarry_lxor, Z.bits_inj_0. intros n. rewrite Z.land_spec.
    destruct (decide (n = 0)) as [->|]; [by rewrite Z.testbit_even_0|]. destruct (decide (n < 0)); [by rewrite Z.testbit_neg_r|].
    rewrite (Z.bits_above_log2 1); [apply andb_false_r|lia|cbn; lia]. }
  destruct (Z.even k); subst k.
  - rewrite Z.add_0_r, <- Eq. lia.
  - rewrite Eq, Z.lxor_assoc, Z.lxor_nilpotent, Z.lxor_0_r, <- Eq. lia.
Qed.

Definition buddy_of (a o : Z) : Z := Z.lxor a (2 ^ o).
Lemma buddy_cases a o : 0 <= o -> (2 ^ o | a) ->
  (buddy_of a o = a + 2 ^ o /\ (2 ^ (o + 1) | a)) \/ (buddy_of a o = a - 2 ^ o /\ (2 ^ (o + 1) | buddy_of a o)).
Proof.
  intros Ho Ha. unfold buddy_of. rewrite lxor_buddy by done. pose proof (pow_pos o Ho). destruct Ha as [k ->].
  rewrite Z.div_mul by lia. destruct (Z.even k) eqn:E; [left|right]; (split; [done|]).
  - apply Z.even_spec in E as [q ->]. exists q. rewrite pow_S by lia. lia.
  - rewrite <- Z.negb_odd, negb_false_iff in E. apply Z.odd_spec in E as [q ->]. exists q. rewrite pow_S by lia. lia.
Qed.

Lemma tiling_buddy B a o f : tiling B -> B !! a = Some (o, f) -> o < 12 ->
  exists o' f', B !! buddy_of a o = Some (o', f') /\ o' <= o.
Proof.
  intros HB Ha Ho. destruct (t_ok B HB a o f Ha) as (Ho' & H0 & Hd). set (b := buddy_of a o).
  assert ((2 ^ o | b) /\ b / 2 ^ (o + 1) = a / 2 ^ (o + 1) /\ b <> a) as (Hb & Hq & Hne).
  { pose proof (pow_pos o ltac:(lia)) as Hp. pose proof (pow_S o ltac:(lia)) as E.
    destruct (buddy_cases a o ltac:(lia) Hd) as [[Eb Hb]|[Eb Hb]]; fold b in Eb, Hb.
    - split_and!; [rewrite Eb; by apply Z.divide_add_r, Z.divide_refl| |lia]. apply in_block; [lia|done|lia].
    - split_and!; [rewrite Eb; by apply Z.divide_sub_r, Z.divide_refl| |lia]. symmetry. apply in_block; [lia|done|lia]. }
  destruct (t_cover B HB a o f b Ha) as (c & o' & f' & Hc & Hin).
  { change 4096 with (2 ^ 12). by apply (div_up (o + 1)); [lia|]. }
  destruct (t_ok B HB c o' f' Hc) as (Ho2 & _ & Hdc). destruct (decide (o' <= o)).
  - exists o', f'. split; [|done]. replace b with c; [done|].
    assert ((2 ^ o' | b)) as [k Hk] by (etrans; [|exact Hb]; apply pow_div; lia). destruct Hdc as [k' Hk'].
    pose proof (pow_pos o' ltac:(lia)). assert (k = k') by nia. congruence.
  - exfalso. apply in_block in Hin; [|lia|done]. apply (div_up (o + 1) o') in Hq; [|lia].
    assert (c <= a < c + 2 ^ o') as Hac by (apply in_block; [lia|done|by rewrite <- Hq]).
    destruct (decide (c = a)) as [->|Hca]; [assert (o' = o) by congruence; lia|].
    pose proof (t_disj B HB c o' f' a o f Hc Ha Hca). pose proof (pow_pos o). lia.
Qed.

(** ** Operations *)
(** Taking the head of a list, as [split] and [malloc] do. *)
Lemma pop_eq s o n x : 0 <= o < 13 -> pv s x = Some (Slot o) -> nx s x = Some n -> (n <> 0 -> has s n) ->
  (set_free o n;; when (negb (n =? 0)) (set_prev n (Slot o))) s = Done () (unlink x s).
Proof.
  intros Ho Hp Hn Hh. unfold unlink. rewrite Hp, Hn. change (default Nowhere (Some (Slot o))) with (Slot o). change (default 0 (Some n)) with n.
  cbn [put_place]. erewrite bind_eq; [|by apply set_free_eq]. destruct (Z.eqb_spec n 0); cbn [negb when]; [done|].
  unfold set_prev. rewrite upd_hdr_eq; [done|]. by apply Hh.
Qed.

Lemma heap_ext s s' : free_ s = free_ s' -> maps s = maps s' ->
  (forall a, nx s a = nx s' a /\ pv s a = pv s' a /\ fl s a = fl s' a) -> s = s'.
Proof.
  destruct s as [F H m], s' as [F' H' m']. cbn. intros -> -> Ha. f_equal. apply map_eq. intros a.
  destruct (Ha a) as (H1 & H2 & H3). unfold nx, pv, fl in *. cbn in *.
  destruct (H !! a) as [[]|], (H' !! a) as [[]|]; cbn in *; congruence.
Qed.

Lemma sl_push s o x o' : 0 <= o < 13 -> 0 <= o' -> length (free_ s) = 13%nat ->
  sl (push o x s) o' = if decide (o = o') then Some x else sl s o'.
Proof. intros Ho Ho' Hl. unfold push. destruct (_ =? 0); fields; by rewrite sl_slot; fields. Qed.

Lemma nx_push s o x a : a <> x -> nx (push o x s) a = nx s a.
Proof. intros Ha. unfold push. destruct (_ =? 0); fields; by rewrite decide_False. Qed.

Lemma unlink_slot s x o n : pv s x = Some (Slot o) -> nx s x = Some n ->
  unlink x s = if n =? 0 then put_slot o n s else put_prev n (Slot o) (put_slot o n s).
Proof. intros Hp Hn. unfold unlink. by rewrite Hp, Hn. Qed.
Lemma push_head s x o y : sl s o = Some y ->
  push o x s = (let s := put_slot o x (put_next x y (put_prev x (Slot o) (put_flags x (Z.lor o FREE_) s))) in
    if y =? 0 then s else put_prev y (Field x) s).
Proof. intros Hy. unfold push. by rewrite Hy. Qed.

(** [split] is taking a block and inserting its halves. *)
Lemma split_eq s i tmp n y : 5 <= i < 13 -> length (free_ s) = 13%nat -> sl s i = Some tmp -> sl s (i - 1) = Some y ->
  pv s tmp = Some (Slot i) -> nx s tmp = Some n -> (n <> 0 -> has s n) -> (y <> 0 -> has s y) ->
  has s tmp -> has s (tmp + 2 ^ (i - 1)) -> NoDup [tmp; tmp + 2 ^ (i - 1)] ->
  n ∉ [tmp; tmp + 2 ^ (i - 1)] -> y ∉ [tmp; tmp + 2 ^ (i - 1)] -> tmp + 2 ^ (i - 1) <> 0 -> (n = y -> n = 0) ->
  split i s = Done () (push (i - 1) tmp (push (i - 1) (tmp + 2 ^ (i - 1)) (unlink tmp s))).
Proof.
  intros Hi Hl Htmp Hy Hp Hn Hhn Hhy Ht Ht2 Hnd Hn2 Hy2 H20 Hny. unfold split. rewrite (proj2 (Z.ltb_ge i 5)) by lia.
  erewrite bind_eq; [|apply (get_free_eq i tmp); [lia|done]]. rewrite Z.shiftl_mul_pow2, Z.mul_1_l by lia.
  set (tmp2 := tmp + 2 ^ (i - 1)) in *. destruct Ht as [h Hh]. erewrite bind_eq; [|by apply get_hdr_eq].
  assert (h_next h = n) as -> by (unfold nx in Hn; rewrite Hh in Hn; by injection Hn).
  pose proof (pop_eq s i n tmp ltac:(lia) Hp Hn Hhn) as Epop.
  assert (has (unlink tmp s) tmp) as Ht by (apply has_unlink; by eexists).
  set (s1 := unlink tmp s) in *.
  assert (forall (k : M heap ()), (set_free i n;; when (negb (n =? 0)) (set_prev n (Slot i));; k) s = k s1) as Epop'.
  { intros k. apply bind_Done in Epop as ([] & s0 & E1 & E2). erewrite bind_eq; [|exact E1]. by erewrite bind_eq. }
  rewrite Epop'. clear Epop'.
  assert (has s1 tmp2) as Ht2' by (by apply has_unlink).
  assert (sl s1 (i - 1) = Some y) as Hy'.
  { unfold s1. rewrite (unlink_slot s tmp i n) by done. rewrite <- Hy. destruct (n =? 0); fields; rewrite sl_slot by (done || lia); apply decide_False; lia. }
  assert (length (free_ s1) = 13%nat) as Hl1 by (unfold s1; by rewrite len_unlink).
  assert (y <> 0 -> has s1 y) as Hhy1 by (intros ?; apply has_unlink; auto).
  clearbody s1. clear Epop Hh h Hp Hn Hhn Hhy Hy Htmp Ht2 Hl s.
  apply NoDup_cons in Hnd as [Hne _]. rewrite list_elem_of_singleton in Hne. rewrite !not_elem_of_cons in Hy2. destruct Hy2 as (Hy1 & Hy2 & _).
  clearbody tmp2.
  (* the links of the halves, then the old head of the list they go to *)
  set (s2 := put_next tmp2 y (put_prev tmp2 (Field tmp) (put_next tmp tmp2 s1))).
  set (s3 := if y =? 0 then s2 else put_prev y (Field tmp2) s2).
  set (fs := Z.lor FREE_ (i - 1)).
  assert (forall a, has s3 a <-> has s1 a) as Hh3 by (intros a; unfold s3, s2; destruct (y =? 0); by hases).
  erewrite bind_eq; [|unfold set_next; by rewrite upd_hdr_eq]. erewrite bind_eq; [|unfold set_prev; rewrite upd_hdr_eq; [done|by hases]].
  erewrite bind_eq; [|apply (get_free_eq (i - 1) y); [lia|exact Hy']].
  erewrite bind_eq; [|unfold set_next; rewrite upd_hdr_eq; [done|by hases]]. fold (put_next tmp tmp2 s1).
  fold (put_prev tmp2 (Field tmp) (put_next tmp tmp2 s1)). fold (put_next tmp2 y (put_prev tmp2 (Field tmp) (put_next tmp tmp2 s1))). fold s2.
  erewrite bind_eq; [|instantiate (1 := s3); instantiate (1 := ()); unfold s3; destruct (Z.eqb_spec y 0); cbn [negb when]; [done|];
    unfold set_prev; rewrite upd_hdr_eq; [done|unfold s2; hases; by apply Hhy1]].
  erewrite bind_eq; [|apply set_free_eq; lia].
  erewrite bind_eq; [|unfold set_prev; rewrite upd_hdr_eq; [done|by hases; apply Hh3]].
  erewrite bind_eq; [|unfold set_flags; rewrite upd_hdr_eq; [done|by hases; apply Hh3]].
  unfold set_flags. rewrite upd_hdr_eq by (hases; by apply Hh3). f_equal.
  assert (has s1 tmp) as Ht1 by done. destruct (nx_is_Some s1 tmp Ht1) as [v1 N1], (nx_is_Some s1 tmp2 Ht2') as [v2 N2].
  destruct (pv_is_Some s1 tmp Ht1) as [p1 P1], (pv_is_Some s1 tmp2 Ht2') as [p2 P2].
  assert (sl (push (i - 1) tmp2 s1) (i - 1) = Some tmp2) as Ep by (rewrite sl_push by (done || lia); by rewrite decide_True).
  rewrite (push_head _ tmp (i - 1) tmp2 Ep), (push_head s1 tmp2 (i - 1) y Hy'), (proj2 (Z.eqb_neq tmp2 0)) by done.
  fold (put_prev tmp (Slot (i - 1)) (put_slot (i - 1) tmp s3)).
  fold (put_flags tmp2 fs (put_prev tmp (Slot (i - 1)) (put_slot (i - 1) tmp s3))).
  fold (put_flags tmp fs (put_flags tmp2 fs (put_prev tmp (Slot (i - 1)) (put_slot (i - 1) tmp s3)))).
  replace (Z.lor (i - 1) FREE_) with fs by apply Z.lor_comm. unfold s3, s2. apply heap_ext.
  - destruct (y =? 0); cbn; by rewrite list_insert_insert_eq.
  - by destruct (y =? 0).
  - intros a. clearbody fs. destruct (Z.eqb_spec y 0); fields; (split_and!; repeat case_decide; subst; try done; try congruence; by rewrite P2).
Qed.

(** ** The heap *)
Definition mark (o : Z) (f : bool) : Z := if f then Z.lor o FREE_ else o.

(** [B]: the blocks of the pages; [G]: the mappings of the large requests, with
    their lengths. *)
Record heap_ok (B : blocks) (G : gmap Z Z) (s : heap) : Prop := {
  h_lists : free_lists s B;
  h_tiling : tiling B;
  h_marks : forall a o f, B !! a = Some (o, f) -> fl s a = Some (mark o f);
  h_room : forall a o f x, B !! a = Some (o, f) -> a <= x < a + 2 ^ o -> (32 | x) -> has s x;
  h_huge : forall a n, G !! a = Some n -> fl s a = Some HUGE_ /\ nx s a = Some n /\ 0 < a /\ (4096 | a) /\ 0 < n /\ (4096 | n);
  h_far : forall a n b o f, G !! a = Some n -> B !! b = Some (o, f) -> b + 2 ^ o <= a \/ a + n <= b;
  h_apart : forall a n a' n', G !! a = Some n -> G !! a' = Some n' -> a <> a' -> a + n <= a' \/ a' + n' <= a
}.

(** The blocks in use, with their sizes, header included. *)
Definition live (B : blocks) (G : gmap Z Z) (a n : Z) : Prop :=
  (exists o, B !! a = Some (o, false) /\ n = 2 ^ o) \/ G !! a = Some n.
Definition same_live (B B' : blocks) : Prop := forall a o, B' !! a = Some (o, false) <-> B !! a = Some (o, false).
(** The pages that are cut into blocks. *)
Definition on_page (B : blocks) (y : Z) : Prop := exists a o f, B !! a = Some (o, f) /\ a / 4096 = y.
Definition pages_in (B B' : blocks) : Prop := forall y, on_page B' y -> on_page B y.
Lemma pages_refl B : pages_in B B.
Proof. by intros y. Qed.
Lemma pages_trans B1 B2 B3 : pages_in B1 B2 -> pages_in B2 B3 -> pages_in B1 B3.
Proof. intros H1 H2 y H. by apply H1, H2. Qed.
Lemma pages_delete B x : pages_in B (delete x B).
Proof. intros y (b & ob & fb & Hb & Hy). apply lookup_delete_Some in Hb as [_ Hb]. by exists b, ob, fb. Qed.
Lemma pages_insert B B' a o f o' f' : pages_in B B' -> B !! a = Some (o, f) -> pages_in B (<[a := (o', f')]> B').
Proof.
  intros H Ha y (b & ob & fb & Hb & Hy). rewrite lookup_insert in Hb. case_decide.
  - subst b. by exists a, o, f.
  - apply H. by exists b, ob, fb.
Qed.

Lemma order_cases o : 5 <= o <= 12 -> o ∈ [5; 6; 7; 8; 9; 10; 11; 12].
Proof. intros. repeat (rewrite elem_of_cons). lia. Qed.
Lemma mark_inj o f o' f' : 5 <= o <= 12 -> 5 <= o' <= 12 -> mark o f = mark o' f' -> o = o' /\ f = f'.
Proof.
  intros H1%order_cases H2%order_cases. repeat (rewrite elem_of_cons in H1, H2). rewrite elem_of_nil in H1, H2.
  destruct H1 as [->|[->|[->|[->|[->|[->|[->|[->|[]]]]]]]]], H2 as [->|[->|[->|[->|[->|[->|[->|[->|[]]]]]]]]], f, f'; cbn;
    (done || discriminate).
Qed.
Lemma unmark o : 5 <= o <= 12 -> Z.land (mark o true) (Z.lnot FREE_) = o.
Proof.
  intros H1%order_cases. repeat (rewrite elem_of_cons in H1). rewrite elem_of_nil in H1.
  by destruct H1 as [->|[->|[->|[->|[->|[->|[->|[->|[]]]]]]]]].
Qed.
Lemma not_huge o : 5 <= o <= 12 -> Z.land o HUGE_ = 0.
Proof.
  intros H1%order_cases. repeat (rewrite elem_of_cons in H1). rewrite elem_of_nil in H1.
  by destruct H1 as [->|[->|[->|[->|[->|[->|[->|[->|[]]]]]]]]].
Qed.

Lemma block_aligned a o : 5 <= o -> (2 ^ o | a) -> (32 | a).
Proof. intros. etrans; [|done]. change 32 with (2 ^ 5). apply pow_div. lia. Qed.

Section ok.
Context (B : blocks) (G : gmap Z Z) (s : heap).
Hypothesis (HOK : heap_ok B G s).

Lemma ok_order a o f : B !! a = Some (o, f) -> 5 <= o <= 12 /\ 0 < a /\ (2 ^ o | a).
Proof. apply (t_ok B (h_tiling _ _ _ HOK)). Qed.
Lemma ok_has a o f : B !! a = Some (o, f) -> has s a.
Proof.
  intros Ha. destruct (ok_order a o f Ha) as (Ho & H0 & Hd). apply (h_room _ _ _ HOK a o f a Ha); [|by eapply block_aligned; [|exact Hd]; lia].
  pose proof (pow_pos o). lia.
Qed.
Lemma ok_not_huge a o f n : B !! a = Some (o, f) -> G !! a = Some n -> False.
Proof.
  intros Ha Hn. pose proof (h_far _ _ _ HOK a n a o f Hn Ha). destruct (ok_order a o f Ha) as (Ho & _). pose proof (pow_pos o).
  destruct (h_huge _ _ _ HOK a n Hn) as (_ & _ & _ & _ & Hpos & _). lia.
Qed.

(** The second half of a block is no block of its own. *)
Lemma half_not_block a o f h : B !! a = Some (o, f) -> 0 < h < 2 ^ o -> B !! (a + h) = None.
Proof.
  intros Ha Hh. destruct (B !! (a + h)) as [[o' f']|] eqn:E; [|done]. exfalso.
  pose proof (t_disj B (h_tiling _ _ _ HOK) a o f _ _ _ Ha E ltac:(lia)). destruct (ok_order _ _ _ E). pose proof (pow_pos o'). lia.
Qed.

(** What [split] does, and to which block. *)
Lemma split_run i : 6 <= i <= 12 -> sl s i <> Some 0 ->
  let h := 2 ^ (i - 1) in
  exists a, B !! a = Some (i, true) /\ B !! (a + h) = None /\ 0 < h /\ 2 ^ i = 2 * h /\ has s a /\ has s (a + h)
    /\ split i s = Done () (push (i - 1) a (push (i - 1) (a + h) (unlink a s))).
Proof.
  intros Hi Hne h. destruct (free_lists_head s B i (h_lists _ _ _ HOK) ltac:(lia)) as (a & Ea & Ha & _).
  destruct Ha as (Ha & Hpa & Hha & n & Hn & Hnn); [congruence|]. destruct (ok_order a i true Ha) as (Ho & Ha0 & Hd).
  destruct (free_lists_head s B (i - 1) (h_lists _ _ _ HOK) ltac:(lia)) as (y & Ey & Hy & _).
  assert (0 < h) as Hh by (apply pow_pos; lia).
  assert (2 ^ i = 2 * h) as Eh by (unfold h; rewrite <- pow_S by lia; f_equal; lia).
  assert (B !! (a + h) = None) as H2 by (apply (half_not_block a i true); [done|lia]).
  assert (has s (a + h)) as Hh2.
  { apply (h_room _ _ _ HOK a i true); [done|lia|]. apply (block_aligned _ (i - 1)); [lia|].
    apply Z.divide_add_r; [etrans; [|exact Hd]; apply pow_div; lia|apply Z.divide_refl]. }
  assert (y <> 0 -> y <> a /\ y <> a + h /\ has s y) as Hy'.
  { intros Hy0. destruct (Hy Hy0) as (Hby & _ & ? & _). split_and!; [intros ->; rewrite Ha in Hby; injection Hby; lia|intros ->; congruence|done]. }
  assert (n <> 0 -> n <> a /\ n <> a + h /\ has s n) as Hn'.
  { intros Hn0. destruct (Hnn Hn0) as (Hbn & ? & ?). split_and!; [done|intros ->; congruence|done]. }
  exists a. split_and!; try done.
  apply (split_eq s i a n y); try done; try lia; try (intros H0; apply Hn' in H0 as (_ & _ & ?); done);
    try (intros H0; apply Hy' in H0 as (_ & _ & ?); done).
  - by apply (free_lists_len s B), HOK.
  - apply NoDup_cons. split; [rewrite list_elem_of_singleton; fold h; lia|apply NoDup_singleton].
  - rewrite !not_elem_of_cons. fold h. destruct (decide (n = 0)) as [->|Hn0]; [split_and!; [lia..|apply not_elem_of_nil]|].
    destruct (Hn' Hn0) as (? & ? & _). split_and!; [done..|apply not_elem_of_nil].
  - rewrite !not_elem_of_cons. fold h. destruct (decide (y = 0)) as [->|Hy0]; [split_and!; [lia..|apply not_elem_of_nil]|].
    destruct (Hy' Hy0) as (? & ? & _). split_and!; [done..|apply not_elem_of_nil].
  - intros ->. destruct (decide (y = 0)) as [|Hy0]; [done|]. destruct (Hnn Hy0) as (Hb1 & _). destruct (Hy Hy0) as (Hb2 & _).
    rewrite Hb1 in Hb2. injection Hb2. lia.
Qed.

Lemma split_ok i : 6 <= i <= 12 -> sl s i <> Some 0 ->
  exists s' B', split i s = Done () s' /\ heap_ok B' G s' /\ same_live B B' /\ sl s' (i - 1) <> Some 0 /\ maps s' = maps s /\ pages_in B B'.
Proof.
  intros Hi Hne. destruct (split_run i Hi Hne) as (a & Ha & H2 & Hh & Eh & Hha & Hh2 & E). set (h := 2 ^ (i - 1)) in *.
  destruct (ok_order a i true Ha) as (Ho & Ha0 & Hd).
  exists (push (i - 1) a (push (i - 1) (a + h) (unlink a s))), (<[a := (i - 1, true)]> (<[a + h := (i - 1, true)]> B)).
  assert (has (unlink a s) (a + h)) as Hu2 by (by apply has_unlink).
  assert (has (push (i - 1) (a + h) (unlink a s)) a) as Hp1 by (by apply has_push, has_unlink).
  assert (length (free_ (unlink a s)) = 13%nat) as Hlen by (rewrite len_unlink; by apply (free_lists_len s B), HOK).
  split; [exact E|]. split_and!.
  - split.
    + apply (free_lists_ext _ (<[a := (i - 1, true)]> (<[a + h := (i - 1, true)]> (delete a B)))).
      { intros b o _. rewrite !lookup_insert, lookup_delete. repeat case_decide; naive_solver. }
      apply free_lists_push; [|lia..|done|].
      * apply free_lists_push; [|lia..|done|].
        { apply (free_lists_unlink s B i); [apply HOK|lia|done]. }
        intros o'. rewrite lookup_delete_ne by lia. by rewrite H2.
      * intros o'. rewrite lookup_insert_ne, lookup_delete_eq by lia. done.
    + apply (tiling_split B a i true); [apply HOK|done|lia].
    + intros b o f. rewrite !fl_push, fl_unlink by done. rewrite !lookup_insert.
      repeat case_decide; [intros [= <- <-]; done..|]. apply HOK.
    + intros b o f x Hb Hx Hx32. rewrite !has_push, has_unlink. rewrite !lookup_insert in Hb. repeat case_decide.
      * injection Hb as <- <-. apply (h_room _ _ _ HOK a i true); [done|fold h in Hx; lia|done].
      * injection Hb as <- <-. apply (h_room _ _ _ HOK a i true); [done|fold h in Hx; lia|done].
      * by apply (h_room _ _ _ HOK b o f).
    + intros b m Hb. destruct (h_huge _ _ _ HOK b m Hb) as (F1 & F2 & F3).
      assert (b <> a) as Hba by (intros ->; by apply (ok_not_huge a i true m)).
      assert (b <> a + h) as Hbh.
      { intros ->. pose proof (h_far _ _ _ HOK _ m a i true Hb Ha). lia. }
      rewrite !fl_push, fl_unlink, !decide_False by done. split; [done|]. split; [|done].
      rewrite !nx_push by done. rewrite <- F2. apply (free_lists_unlink_nx s B i); [apply HOK|lia|done|].
      intros o' Hbo. by apply (ok_not_huge b o' true m).
    + intros b m c o f Hb. rewrite !lookup_insert. repeat case_decide.
      * intros [= <- <-]. subst c. fold h. pose proof (h_far _ _ _ HOK b m a i true Hb Ha). lia.
      * intros [= <- <-]. subst c. fold h. pose proof (h_far _ _ _ HOK b m a i true Hb Ha). lia.
      * by apply HOK.
    + apply HOK.
  - intros b o. rewrite !lookup_insert. repeat case_decide; subst; [|naive_solver..]. rewrite Ha. naive_solver.
  - rewrite sl_push by (lia || by rewrite len_push). rewrite decide_True by done. intros [= ?]. lia.
  - by rewrite !maps_push, maps_unlink.
  - apply (pages_insert B _ a i true); [|done]. intros y (b & ob & fb & Hb & Hy). rewrite lookup_insert in Hb.
    case_decide; [|by exists b, ob, fb]. injection Hb as <- <-. subst b. exists a, i, true. split; [done|].
    rewrite <- Hy. symmetry. apply (block_page a i); [lia|done|]. fold h in H2 |- *. lia.
Qed.
End ok.

Lemma same_live_refl B : same_live B B.
Proof. done. Qed.
Lemma same_live_trans B1 B2 B3 : same_live B1 B2 -> same_live B2 B3 -> same_live B1 B3.
Proof. intros H1 H2 a o. by rewrite (H2 a o). Qed.

Lemma split_down_ok n : forall B G s i, heap_ok B G s -> Z.of_nat n + 5 <= i <= 12 -> sl s i <> Some 0 ->
  exists s' B', split_down n i s = Done () s' /\ heap_ok B' G s' /\ same_live B B' /\ sl s' (i - Z.of_nat n) <> Some 0
    /\ maps s' = maps s /\ pages_in B B'.
Proof.
  induction n as [|n IH]; intros B G s i Hok Hi Hne.
  - exists s, B. rewrite Z.sub_0_r. split_and!; [done..|apply same_live_refl|done|done|apply pages_refl].
  - destruct (split_ok B G s Hok i ltac:(lia) Hne) as (s1 & B1 & E1 & Hok1 & L1 & N1 & M1 & P1).
    destruct (IH B1 G s1 (i - 1) Hok1 ltac:(lia) N1) as (s' & B' & E' & Hok' & L' & N' & M' & P').
    exists s', B'. split; [cbn; by erewrite bind_eq|]. split; [done|]. split; [by eapply same_live_trans|].
    split; [by replace (i - Z.of_nat (S n)) with (i - 1 - Z.of_nat n) by lia|]. split; [congruence|by eapply pages_trans].
Qed.

(** What the list operations leave alone of a mapping of its own. *)
Lemma huge_frame B G s s' : heap_ok B G s ->
  (forall a n, G !! a = Some n -> (forall o f, B !! a <> Some (o, f)) -> fl s' a = fl s a /\ nx s' a = nx s a) ->
  forall a n, G !! a = Some n -> fl s' a = Some HUGE_ /\ nx s' a = Some n /\ 0 < a /\ (4096 | a) /\ 0 < n /\ (4096 | n).
Proof.
  intros Hok Hs a n Hn. destruct (Hs a n Hn) as [-> ->]; [|by apply (h_huge B G s Hok)].
  intros o f Ha. by apply (ok_not_huge B G s Hok a o f n).
Qed.

(** Changing who uses a block changes nothing for the mappings. *)
Lemma far_flag B G s a o f f' : heap_ok B G s -> B !! a = Some (o, f) ->
  forall b m c o' f2, G !! b = Some m -> <[a := (o, f')]> B !! c = Some (o', f2) -> c + 2 ^ o' <= b \/ b + m <= c.
Proof.
  intros Hok Ha b m c o' f2 Hb. rewrite lookup_insert. case_decide; [|by apply (h_far B G s Hok)].
  intros [= <- <-]. subst c. by apply (h_far B G s Hok b m a o f).
Qed.

(** Taking the first block of a list that has one. *)
Lemma take_block_ok B G s o : heap_ok B G s -> 5 <= o <= 12 -> sl s o <> Some 0 ->
  exists a s', take_block o s = Done (a + sizeof_hdr) s' /\ B !! a = Some (o, true) /\ heap_ok (<[a := (o, false)]> B) G s'
    /\ maps s' = maps s.
Proof.
  intros Hok Ho Hne. destruct (free_lists_head s B o (h_lists _ _ _ Hok) ltac:(lia)) as (a & Ea & Ha & _).
  destruct Ha as (Ha & Hpa & Hha & n & Hn & Hnn); [congruence|].
  assert (fl s a = Some (mark o true)) as Hfl by (by apply (h_marks B G s Hok)).
  set (s1 := put_flags a o s). set (s2 := unlink a s1). set (s3 := put_prev a Nowhere s2). set (s4 := put_next a 0 s3).
  assert (forall x, has s4 x <-> has s x) as Hh4 by (intros x; unfold s4, s3; hases; unfold s2; rewrite has_unlink; unfold s1; by hases).
  exists a, s4. split; [|split; [done|split; [|unfold s4, s3, s2, s1; cbn; by rewrite maps_unlink]]].
  - unfold take_block. destruct Hha as [h Hh]. erewrite bind_eq; [|apply (get_free_eq o a); [lia|done]].
    erewrite bind_eq; [|by apply get_hdr_eq].
    assert (h_flags h = mark o true /\ h_next h = n) as [-> ->] by (unfold fl, nx in *; rewrite Hh in *; naive_solver).
    rewrite unmark by done. erewrite bind_eq; [|unfold set_flags; rewrite upd_hdr_eq; [done|by eexists]]. fold (put_flags a o s). fold s1.
    assert (pv s1 a = Some (Slot o) /\ nx s1 a = Some n) as [Hp1 Hn1] by (unfold s1; by fields).
    assert (n <> 0 -> has s1 n) as Hn1' by (intros H0; unfold s1; hases; by apply Hnn).
    pose proof (pop_eq s1 o n a ltac:(lia) Hp1 Hn1 Hn1') as Epop. apply bind_Done in Epop as ([] & s0 & E1 & E2).
    erewrite bind_eq; [|exact E1]. erewrite bind_eq; [|exact E2]. fold s2.
    assert (has s2 a) as H2 by (unfold s2; rewrite has_unlink; unfold s1; hases; by eexists).
    erewrite bind_eq; [|unfold set_prev; rewrite upd_hdr_eq; [done|done]]. fold (put_prev a Nowhere s2). fold s3.
    erewrite bind_eq; [|unfold set_next; rewrite upd_hdr_eq; [done|unfold s3; by hases]]. done.
  - assert (free_lists s1 B) as HL1 by (apply (free_lists_frame s); [apply Hok|done|]; intros; unfold s1; by fields).
    split.
    + apply (free_lists_ext _ (delete a B)).
      { intros b o' _. rewrite lookup_insert, lookup_delete. case_decide; naive_solver. }
      apply (free_lists_frame s2); [apply (free_lists_unlink s1 B o a); [done|lia|done]|done|].
      intros b o' Hb. assert (a <> b) as Hab by (intros <-; by rewrite lookup_delete_eq in Hb). unfold s4, s3. fields.
      by rewrite !decide_False by done.
    + apply (tiling_flag B a o true); [apply Hok|done].
    + intros b o' f. unfold s4, s3. fields. unfold s2. rewrite fl_unlink. unfold s1. fields. rewrite lookup_insert. case_decide.
      * intros [= <- <-]. subst b. by rewrite Hfl.
      * by apply (h_marks B G s Hok).
    + intros b o' f x Hb. rewrite Hh4. rewrite lookup_insert in Hb. case_decide; [injection Hb as <- <-; subst b|]; by apply (h_room B G s Hok _ _ _ _ ltac:(done)).
    + apply (huge_frame B G s); [done|]. intros b m Hb Hnb. assert (a <> b) as Hab by (intros <-; by eapply Hnb).
      unfold s4, s3. fields. rewrite decide_False by done. unfold s2. rewrite fl_unlink. unfold s1. fields. rewrite decide_False by done. split; [done|].
      transitivity (nx s1 b); [|unfold s1; by fields]. apply (free_lists_unlink_nx s1 B o); [done|lia|done|]. intros o'. apply Hnb.
    + by apply (far_flag B G s a o true).
    + apply Hok.
Qed.

(** Putting a block into a list. *)
Lemma insert_run s B o a : free_lists s B -> 0 <= o < 13 -> has s a -> insert o a s = Done () (push o a s).
Proof.
  intros HL Ho Ha. destruct (free_lists_head s B o HL Ho) as (y & Ey & Hy & _).
  apply (insert_eq o a s y); try done; [by eapply free_lists_len|]. intros H0. by apply Hy.
Qed.

Lemma push_ok B G s o a : heap_ok B G s -> B !! a = Some (o, false) ->
  insert o a s = Done () (push o a s) /\ heap_ok (<[a := (o, true)]> B) G (push o a s).
Proof.
  intros Hok Ha. destruct (ok_order B G s Hok a o false Ha) as (Ho & H0 & Hd).
  pose proof (ok_has B G s Hok a o false Ha) as Hh. split; [apply (insert_run s B); [apply Hok|lia|done]|]. split.
  - apply free_lists_push; [apply Hok|lia..|done|]. intros o'. by rewrite Ha.
  - by apply (tiling_flag B a o false); [apply Hok|].
  - intros b o' f. rewrite fl_push by done. rewrite lookup_insert. case_decide; [intros [= <- <-]; done|by apply (h_marks B G s Hok)].
  - intros b o' f x Hb. rewrite has_push. rewrite lookup_insert in Hb.
    case_decide; [injection Hb as <- <-; subst b|]; by apply (h_room B G s Hok _ _ _ _ ltac:(done)).
  - apply (huge_frame B G s); [done|]. intros b m Hb Hnb. assert (a <> b) as Hab by (intros <-; by eapply Hnb).
    rewrite fl_push, decide_False, nx_push by done. done.
  - by apply (far_flag B G s a o false).
  - apply Hok.
Qed.

(** The links of a free block. *)
Lemma free_lists_links s B o x : free_lists s B -> 0 <= o < 13 -> B !! x = Some (o, true) ->
  exists p n, pv s x = Some p /\ nx s x = Some n /\ (n <> 0 -> has s n)
    /\ match p with Nowhere => False | Slot i => 0 <= i < 13 | Field c => has s c /\ c <> x end.
Proof.
  intros (L & (Hl & Hd & _) & HB) Ho Hx. destruct (list_elem_of_split (L o) x) as (l1 & l2 & E); [by apply HB|].
  destruct (Hd o Ho) as (D & N & Z0). rewrite E in D, N. destruct (dll_at s l1 x l2 (Slot o) D) as (Hp & Hn & Hv).
  exists (pred (Slot o) l1), (default 0 (head l2)). split_and!; [done..| |].
  - intros Hn0. destruct l2 as [|n l2]; [done|]. eapply dll_has; [exact D|]. apply elem_of_app. right. right. by left.
  - unfold pred. destruct (last l1) as [c|] eqn:Ec; [|done]. apply last_Some in Ec as [l1' ->]. split.
    + eapply dll_has; [exact D|set_solver].
    + intros ->. apply NoDup_app in N as (_ & N & _). apply (N x); set_solver.
Qed.

(** Taking a block out of the middle of its list, as [free] does. *)
Lemma unlink_eq s B o x (k : M heap ()) : free_lists s B -> 0 <= o < 13 -> B !! x = Some (o, true) ->
  (b ← get_hdr x; store (h_prev b) (h_next b);; b ← get_hdr x; when (negb (h_next b =? 0)) (set_prev (h_next b) (h_prev b));; k) s
  = k (unlink x s).
Proof.
  intros HL Ho Hx. destruct (free_lists_links s B o x HL Ho Hx) as (p & n & Hp & Hn & Hhn & Hpl).
  assert (exists h, hdrs s !! x = Some h /\ h_prev h = p /\ h_next h = n) as (h & Hh & Ep & En).
  { unfold pv, nx in *. destruct (hdrs s !! x) as [h|]; [|done]. exists h. naive_solver. }
  erewrite bind_eq; [|by apply get_hdr_eq]. rewrite Ep, En.
  assert (store p n s = Done () (put_place p n s)) as Es.
  { destruct p as [|i|c]; [done|by apply set_free_eq|]. cbn [store]. unfold set_next. rewrite upd_hdr_eq by apply Hpl. done. }
  erewrite bind_eq; [|exact Es]. set (s1 := put_place p n s) in *.
  assert (hdrs s1 !! x = Some h) as Hh1.
  { destruct p as [|i|c]; [done..|]. unfold s1. cbn. by rewrite lookup_alter_ne by naive_solver. }
  erewrite bind_eq; [|by apply get_hdr_eq]. rewrite Ep, En.
  assert (unlink x s = if n =? 0 then s1 else put_prev n p s1) as -> by (unfold unlink; by rewrite Hp, Hn).
  destruct (Z.eqb_spec n 0); cbn [negb when]; [done|]. erewrite bind_eq; [done|]. unfold set_prev. rewrite upd_hdr_eq; [done|].
  unfold s1, put_place. destruct p; hases; by apply Hhn.
Qed.

(** Joining a freed block [a] with its free buddy [b]. *)
Lemma merge_ok B G s o a b : heap_ok B G s -> o < 12 -> B !! a = Some (o, false) -> b = buddy_of a o -> B !! b = Some (o, true) ->
  let low := if b <? a then b else a in
  insert (o + 1) low (unlink b s) = Done () (push (o + 1) low (unlink b s))
  /\ heap_ok (<[low := (o + 1, true)]> (delete (low + 2 ^ o) B)) G (push (o + 1) low (unlink b s)).
Proof.
  intros Hok Ho12 Ha Eb Hb low. destruct (ok_order B G s Hok a o false Ha) as (Ho & H0 & Hd).
  pose proof (pow_pos o ltac:(lia)) as Hpow.
  assert (exists f1 f2, B !! low = Some (o, f1) /\ B !! (low + 2 ^ o) = Some (o, f2) /\ (2 ^ (o + 1) | low)
    /\ ((low = a /\ low + 2 ^ o = b) \/ (low = b /\ low + 2 ^ o = a))) as (f1 & f2 & Hl & Hh & Hdl & Hcase).
  { unfold low. destruct (buddy_cases a o ltac:(lia) Hd) as [[E D]|[E D]]; rewrite <- Eb in E; try rewrite <- Eb in D.
    - rewrite (proj2 (Z.ltb_ge b a)) by lia. exists false, true. rewrite <- E. split_and!; auto.
    - rewrite (proj2 (Z.ltb_lt b a)) by lia. exists true, false. replace (b + 2 ^ o) with a by lia. split_and!; auto. }
  clearbody low. destruct (ok_order B G s Hok low o f1 Hl) as (_ & Hl0 & _).
  pose proof (ok_has B G s Hok low o f1 Hl) as Hhl.
  pose proof (free_lists_unlink s B o b (h_lists _ _ _ Hok) ltac:(lia) Hb) as HLu.
  assert (has (unlink b s) low) as Hul by (by apply has_unlink).
  split; [apply (insert_run _ (delete b B)); [done|lia|done]|]. split.
  - apply (free_lists_ext _ (<[low := (o + 1, true)]> (delete b B))).
    { intros c o' _. rewrite !lookup_insert. case_decide as Hc; [done|]. destruct Hcase as [[E1 E]|[E1 E]]; rewrite E; [done|].
      rewrite lookup_delete_ne by congruence. rewrite lookup_delete. case_decide as Hac; [|done]. rewrite <- Hac, Ha. by split. }
    apply free_lists_push; [done|lia..|done|]. intros o'. rewrite lookup_delete. case_decide; [done|].
    destruct Hcase as [[-> _]|[-> _]]; [|done]. by rewrite Ha.
  - by apply (tiling_merge B low o f1 f2); [apply Hok|..].
  - intros c o' f. rewrite fl_push, fl_unlink by done. rewrite lookup_insert, lookup_delete.
    repeat case_decide; [intros [= <- <-]; done|done|by apply (h_marks B G s Hok)].
  - intros c o' f x Hc Hx. rewrite has_push, has_unlink. rewrite lookup_insert, lookup_delete in Hc. repeat case_decide; [|done|].
    + injection Hc as <- <-. subst c. rewrite pow_S in Hx by lia. destruct (decide (x < low + 2 ^ o)).
      * apply (h_room B G s Hok low o f1); [done|lia].
      * apply (h_room B G s Hok (low + 2 ^ o) o f2); [done|lia].
    + by apply (h_room B G s Hok c o' f).
  - apply (huge_frame B G s); [done|]. intros c m Hc Hnc. assert (low <> c) as Hlc by (intros <-; by eapply Hnc).
    rewrite fl_push, decide_False, fl_unlink, nx_push by done. split; [done|].
    apply (free_lists_unlink_nx s B o); [apply Hok|lia|done|]. intros o'. apply Hnc.
  - intros c m d o' f Hc. rewrite lookup_insert, lookup_delete. repeat case_decide; [|done|by apply (h_far B G s Hok)].
    intros [= <- <-]. subst d. rewrite pow_S by lia.
    pose proof (h_far B G s Hok c m low o f1 Hc Hl). pose proof (h_far B G s Hok c m _ o f2 Hc Hh).
    destruct (h_huge B G s Hok c m Hc) as (_ & _ & _ & (k & ->) & Hm & _). destruct Hdl as [j ->]. lia.
  - apply Hok.
Qed.

(** ** Mappings *)
Lemma headers_of_spec x n a : (32 | x) -> (32 | n) -> a ∈ headers_of x n <-> x <= a < x + n /\ (32 | a).
Proof.
  intros [kx ->] [kn ->]. unfold headers_of. rewrite list_elem_of_fmap. rewrite Z.div_mul by lia. split.
  - intros (i & -> & Hi). apply elem_of_seq in Hi. split; [lia|]. exists (kx + Z.of_nat i). lia.
  - intros [Hx [k ->]]. exists (Z.to_nat (k - kx)). split; [lia|]. apply elem_of_seq. lia.
Qed.
Lemma map_in_lookup x n m a : map_in x n m !! a = if bool_decide (a ∈ headers_of x n) then Some hdr_zero else m !! a.
Proof.
  unfold map_in. induction (headers_of x n) as [|b l IH]; cbn; [done|]. rewrite lookup_insert. destruct (decide (b = a)) as [->|Hb].
  - by rewrite bool_decide_true by (rewrite elem_of_cons; auto).
  - rewrite IH. destruct (bool_decide_reflect (a ∈ l)) as [Hl|Hl].
    + by rewrite bool_decide_true by (rewrite elem_of_cons; auto).
    + rewrite bool_decide_false; [done|]. rewrite elem_of_cons. naive_solver.
Qed.
Lemma map_out_lookup x n m a : map_out x n m !! a = if bool_decide (a ∈ headers_of x n) then None else m !! a.
Proof.
  unfold map_out. induction (headers_of x n) as [|b l IH]; cbn; [done|]. rewrite lookup_delete. destruct (decide (b = a)) as [->|Hb].
  - by rewrite bool_decide_true by (rewrite elem_of_cons; auto).
  - rewrite IH. destruct (bool_decide_reflect (a ∈ l)) as [Hl|Hl].
    + by rewrite bool_decide_true by (rewrite elem_of_cons; auto).
    + rewrite bool_decide_false; [done|]. rewrite elem_of_cons. naive_solver.
Qed.

(** [x] to [x + n] overlaps nothing in use. *)
Definition clear (B : blocks) (G : gmap Z Z) (x n : Z) : Prop :=
  0 < x /\ (4096 | x) /\ 0 < n /\ (4096 | n)
  /\ (forall b o f, B !! b = Some (o, f) -> b + 2 ^ o <= x \/ x + n <= b)
  /\ (forall b m, G !! b = Some m -> b + m <= x \/ x + n <= b).
(** What [sendpage] does: it fails, or maps fresh pages. *)
Definition sendpage_ok (B : blocks) (G : gmap Z Z) (s : heap) (n : Z) : Prop :=
  match maps s with [] => True | x :: _ => x = 0 \/ clear B G x n end.

(** The headers of the blocks are all that counts. *)
Lemma heap_ok_frame B G s s' : heap_ok B G s -> free_ s' = free_ s ->
  (forall a, (exists o f, B !! a = Some (o, f)) \/ is_Some (G !! a) -> hdrs s' !! a = hdrs s !! a) ->
  (forall a o f x, B !! a = Some (o, f) -> a <= x < a + 2 ^ o -> (32 | x) -> has s x -> has s' x) -> heap_ok B G s'.
Proof.
  intros Hok Hf Hh Hr. assert (forall a, (exists o f, B !! a = Some (o, f)) \/ is_Some (G !! a) ->
    nx s' a = nx s a /\ pv s' a = pv s a /\ fl s' a = fl s a) as He.
  { intros a Ha. unfold nx, pv, fl. by rewrite (Hh a Ha). }
  split; try apply Hok.
  - apply (free_lists_frame s); [apply Hok|done|]. intros a o Ha. destruct (He a) as (? & ? & _); [eauto|done].
  - intros a o f Ha. destruct (He a) as (_ & _ & ->); [eauto|]. by apply (h_marks B G s Hok).
  - intros a o f x Ha Hx H32. apply (Hr a o f x Ha Hx H32). by apply (h_room B G s Hok a o f).
  - intros a n Ha. destruct (He a) as (-> & _ & ->); [eauto|]. by apply (h_huge B G s Hok).
Qed.

Lemma clear_outside B G s x n a : heap_ok B G s -> clear B G x n ->
  (exists o f, B !! a = Some (o, f)) \/ is_Some (G !! a) -> a ∉ headers_of x n.
Proof.
  intros Hok (Hx0 & Hx & Hn0 & Hn & HB & HG) Ha Hin. assert ((32 | 4096)) as H32 by (by exists 128).
  apply headers_of_spec in Hin; [|by etrans..]. destruct Hin as [Hin _]. destruct Ha as [(o & f & Ha)|[m Ha]].
  - pose proof (HB a o f Ha). destruct (ok_order B G s Hok a o f Ha). pose proof (pow_pos o). lia.
  - pose proof (HG a m Ha). pose proof (h_huge B G s Hok a m Ha). lia.
Qed.

Lemma sendpage_maps B G s x n : heap_ok B G s -> clear B G x n -> forall xs, maps s = x :: xs ->
  exists s', sendpage n s = Done x s' /\ heap_ok B G s' /\ maps s' = xs /\ (forall a, x <= a < x + n -> (32 | a) -> has s' a).
Proof.
  intros Hok Hc xs Hm. exists (mkHeap (free_ s) (map_in x n (hdrs s)) xs). unfold sendpage. rewrite Hm.
  pose proof Hc as (Hx0 & Hx & Hn0 & Hn & _ & _). rewrite (proj2 (Z.eqb_neq x 0)) by lia. split; [done|].
  assert ((32 | 4096)) as H32 by (by exists 128). split; [|split; [done|]].
  - apply (heap_ok_frame B G s); [done|done|..].
    + intros a Ha. cbn. rewrite map_in_lookup, bool_decide_false; [done|]. by apply (clear_outside B G s).
    + intros a o f y Ha Hy Hy32 Hhas. unfold has in *. cbn. rewrite map_in_lookup. by case_bool_decide.
  - intros a Ha Ha32. unfold has. cbn. rewrite map_in_lookup, bool_decide_true; [by eexists|].
    assert ((32 | x) /\ (32 | n)) as [Hx32 Hn32] by (split; (etrans; [exact H32|done])). by apply headers_of_spec.
Qed.

(** A fresh page becomes a free block. *)
Lemma page_ok B G s x : heap_ok B G s -> clear B G x 4096 -> (forall a, x <= a < x + 4096 -> (32 | a) -> has s a) ->
  insert 12 x s = Done () (push 12 x s) /\ heap_ok (<[x := (12, true)]> B) G (push 12 x s).
Proof.
  intros Hok Hc Hr. assert (B !! x = None) as Hnx.
  { destruct (B !! x) as [[o f]|] eqn:E; [|done]. exfalso. destruct Hc as (_ & _ & _ & _ & HB & _).
    pose proof (HB x o f E). destruct (ok_order B G s Hok x o f E). pose proof (pow_pos o). lia. }
  pose proof Hc as (Hx0 & Hx & _ & _ & HB & HG).
  assert (has s x) as Hhx by (apply Hr; [lia|etrans; [|exact Hx]; by exists 128]).
  split; [apply (insert_run s B); [apply Hok|lia|done]|]. split.
  - apply free_lists_push; [apply Hok|lia..|done|]. intros o'. by rewrite Hnx.
  - apply tiling_page; [apply Hok|done..].
  - intros b o f. rewrite fl_push by done. rewrite lookup_insert. case_decide; [intros [= <- <-]; done|by apply (h_marks B G s Hok)].
  - intros b o f y Hb. rewrite has_push. rewrite lookup_insert in Hb. case_decide; [injection Hb as <- <-; subst b; apply Hr|].
    by apply (h_room B G s Hok b o f).
  - intros b m Hb. assert (b <> x) as Hne.
    { intros ->. pose proof (HG x m Hb). pose proof (h_huge B G s Hok x m Hb). lia. }
    rewrite fl_push by done. rewrite decide_False, nx_push by congruence. by apply (h_huge B G s Hok).
  - intros b m c o f Hb. rewrite lookup_insert. case_decide; [|by apply (h_far B G s Hok)].
    intros [= <- <-]. subst c. change (2 ^ 12) with 4096. pose proof (HG b m Hb). lia.
  - apply Hok.
Qed.

(** ** The theorems *)
Lemma first_free_ok s B fuel : free_lists s B -> forall o, 0 <= o -> 13 - o <= Z.of_nat fuel ->
  exists xo, first_free fuel o s = Done xo s /\ o <= xo /\ (xo < 13 -> sl s xo <> Some 0).
Proof.
  intros HL. induction fuel as [|fuel IH]; intros o Ho Hf; cbn [first_free].
  - exists o. split_and!; [done|lia|lia].
  - destruct (Z.ltb_spec o 13); [|exists o; split_and!; [done|lia|lia]].
    destruct (free_lists_head s B o HL) as (y & Ey & _); [lia|]. erewrite bind_eq; [|apply (get_free_eq o y); [lia|done]].
    destruct (Z.eqb_spec y 0) as [->|H0].
    + destruct (IH (o + 1)) as (xo & E & Hle & Hxo); [lia..|]. exists xo. split_and!; [done|lia|done].
    + exists o. split_and!; [done|lia|]. intros _. congruence.
Qed.

Lemma bit_length_ok x (s : heap) : 24 <= x < 4096 ->
  bit_length x s = Done (Z.log2 x + 1) s /\ 5 <= Z.log2 x + 1 <= 12 /\ x < 2 ^ (Z.log2 x + 1).
Proof.
  intros Hx. unfold bit_length. rewrite (proj2 (Z.eqb_neq x 0)) by lia. split; [done|].
  destruct (Z.log2_spec x ltac:(lia)) as [H1 H2]. rewrite Z.add_1_r. split; [|done].
  pose proof (Z.log2_le_mono 24 x ltac:(lia)) as L1. pose proof (Z.log2_le_mono x 4095 ltac:(lia)) as L2.
  change (Z.log2 24) with 4 in L1. change (Z.log2 4095) with 11 in L2. lia.
Qed.

Lemma live_disjoint B G s a n a' n' : heap_ok B G s -> live B G a n -> live B G a' n' -> a <> a' -> a + n <= a' \/ a' + n' <= a.
Proof.
  intros Hok [(o & Ha & ->)|Ha] [(o' & Ha' & ->)|Ha'] Hne.
  - by eapply (t_disj B (h_tiling _ _ _ Hok)).
  - pose proof (h_far B G s Hok _ _ _ _ _ Ha' Ha). lia.
  - pose proof (h_far B G s Hok _ _ _ _ _ Ha Ha'). lia.
  - by apply (h_apart B G s Hok).
Qed.

(** What a request gets. *)
Definition granted (B B' : blocks) (G G' : gmap Z Z) (p need : Z) : Prop :=
  exists n, need <= n /\ 0 < p - sizeof_hdr
    /\ (forall a m, live B' G' a m <-> live B G a m \/ (a = p - sizeof_hdr /\ m = n))
    /\ (forall a m, live B G a m -> a + m <= p - sizeof_hdr \/ p - sizeof_hdr + n <= a).

(** A block of order [o] changes hands. *)
Definition allocated (B B' : blocks) (p o : Z) : Prop :=
  B' !! (p - sizeof_hdr) = Some (o, false) /\ (forall o', B !! (p - sizeof_hdr) <> Some (o', false))
  /\ forall b o', b <> p - sizeof_hdr -> B' !! b = Some (o', false) <-> B !! b = Some (o', false).

(** The end of a small request: a block is there and is taken. *)
Lemma take_granted B B1 G s1 o need : heap_ok B1 G s1 -> 5 <= o <= 12 -> sl s1 o <> Some 0 -> same_live B B1 -> need <= 2 ^ o ->
  exists p s' B', take_block o s1 = Done p s' /\ heap_ok B' G s' /\ granted B B' G G p need
    /\ allocated B B' p o /\ pages_in B1 B' /\ maps s' = maps s1.
Proof.
  intros Hok Ho Hne HL Hneed. destruct (take_block_ok B1 G s1 o Hok Ho Hne) as (a & s' & E & Ha & Hok' & Hmaps).
  exists (a + sizeof_hdr), s', (<[a := (o, false)]> B1). split; [done|]. split; [done|].
  split; [|split; [|split; [apply (pages_insert B1 B1 a o true); [apply pages_refl|done]|done]]];
    replace (a + sizeof_hdr - sizeof_hdr) with a by lia.
  2:{ unfold allocated. replace (a + sizeof_hdr - sizeof_hdr) with a by lia. rewrite lookup_insert_eq. split; [done|]. split.
      - intros o' Hb%HL. congruence.
      - intros b o' Hb. rewrite lookup_insert_ne by done. apply HL. }
  destruct (ok_order B1 G s1 Hok a o true Ha) as (_ & Ha0 & _). exists (2 ^ o). replace (a + sizeof_hdr - sizeof_hdr) with a by lia.
  assert (live (<[a := (o, false)]> B1) G a (2 ^ o)) as Hla by (left; exists o; by rewrite lookup_insert_eq).
  assert (forall b m, live B G b m -> b <> a /\ live (<[a := (o, false)]> B1) G b m) as Hlb.
  { intros b m [(o' & Hb & ->)|Hb].
    - apply HL in Hb. assert (b <> a) as Hba by (intros ->; congruence). split; [done|]. left. exists o'. by rewrite lookup_insert_ne.
    - split; [|by right]. intros ->. by apply (ok_not_huge B1 G s1 Hok a o true m). }
  split_and!; [done|done| |].
  - intros b m. split; [|intros [Hb|[-> ->]]; [by apply Hlb|done]]. intros [(o' & Hb & ->)|Hb]; [|by left; right].
    rewrite lookup_insert in Hb. case_decide as E1; [injection Hb as <-; by right|]. left. left. exists o'. split; [by apply HL|done].
  - intros b m Hb. destruct (Hlb b m Hb) as [Hba Hb']. pose proof (live_disjoint _ _ _ _ _ _ _ Hok' Hb' Hla Hba). lia.
Qed.

(** Out of memory: [sendpage] fails. *)
Definition no_memory (s : heap) : Prop := match maps s with [] => True | x :: _ => x = 0 end.
Lemma sendpage_fails B G s n : heap_ok B G s -> no_memory s -> exists s', sendpage n s = Done 0 s' /\ heap_ok B G s' /\ maps s' = tail (maps s).
Proof.
  intros Hok Hm. unfold no_memory in Hm. unfold sendpage. destruct (maps s) as [|x xs] eqn:Em; [by exists s|]. subst x.
  eexists. split; [done|]. split; [by apply (heap_ok_frame B G s)|done].
Qed.

(** The pages to come are distinct and overlap nothing in use. *)
Definition pages_ok (B : blocks) (G : gmap Z Z) (s : heap) : Prop :=
  NoDup (filter (fun x => x <> 0) (maps s)) /\ forall x, x ∈ maps s -> x = 0 \/ clear B G x 4096.
Lemma pages_sendpage B G s : pages_ok B G s -> sendpage_ok B G s 4096.
Proof. intros [_ H]. unfold sendpage_ok. destruct (maps s) as [|x xs]; [done|]. apply H. by left. Qed.

Lemma clear_on_page B G s x : heap_ok B G s -> clear B G x 4096 -> ~ on_page B (x / 4096).
Proof.
  intros Hok (_ & [k Hk] & _ & _ & HB & _) (b & o & f & Hb & Hy). destruct (ok_order B G s Hok b o f Hb) as (Ho & Hb0 & Hd).
  pose proof (HB b o f Hb). pose proof (block_page b o b). pose proof (pow_pos o ltac:(lia)).
  subst x. rewrite Z.div_mul in Hy by lia. pose proof (Z.div_mod b 4096 ltac:(lia)). pose proof (Z.mod_pos_bound b 4096 ltac:(lia)).
  assert ((b + 2 ^ o - 1) / 4096 = b / 4096) as E by (apply (block_page b o); [lia|done|lia]).
  pose proof (Z.div_mod (b + 2 ^ o - 1) 4096 ltac:(lia)). pose proof (Z.mod_pos_bound (b + 2 ^ o - 1) 4096 ltac:(lia)). lia.
Qed.
Lemma clear_off_page B B' G s' x : heap_ok B' G s' -> clear B G x 4096 -> ~ on_page B' (x / 4096) -> clear B' G x 4096.
Proof.
  intros Hok (H0 & Hx & H1 & H2 & _ & HG) Hno. split_and!; [done..| |done]. intros b o f Hb.
  destruct (ok_order B' G s' Hok b o f Hb) as (Ho & Hb0 & Hd). pose proof (pow_pos o ltac:(lia)).
  assert ((b + 2 ^ o - 1) / 4096 = b / 4096) as E by (apply (block_page b o); [lia|done|lia]).
  assert (b / 4096 <> x / 4096) as Hne by (intros Hy; apply Hno; by exists b, o, f). destruct Hx as [k ->].
  rewrite Z.div_mul in Hne by lia. pose proof (Z.div_mod b 4096 ltac:(lia)). pose proof (Z.mod_pos_bound b 4096 ltac:(lia)).
  pose proof (Z.div_mod (b + 2 ^ o - 1) 4096 ltac:(lia)). pose proof (Z.mod_pos_bound (b + 2 ^ o - 1) 4096 ltac:(lia)). lia.
Qed.
Lemma pages_same B B' G s s' : heap_ok B G s -> heap_ok B' G s' -> pages_in B B' -> maps s' = maps s -> pages_ok B G s -> pages_ok B' G s'.
Proof.
  intros Hok Hok' HP Hm [Hnd Hc]. split; rewrite Hm; [done|]. intros x Hx. destruct (Hc x Hx) as [|Hcx]; [by left|right].
  apply (clear_off_page B B' G s'); [done..|]. intros Hy. by apply (clear_on_page B G s x Hok Hcx), HP.
Qed.
Lemma pages_taken B B' G s s' x xs : heap_ok B G s -> heap_ok B' G s' -> maps s = x :: xs -> maps s' = xs ->
  (forall y, on_page B' y -> on_page B y \/ y = x / 4096) -> clear B G x 4096 -> pages_ok B G s -> pages_ok B' G s'.
Proof.
  intros Hok Hok' Hm Hm' HP (H0 & Hx & _) [Hnd Hc]. rewrite Hm, filter_cons_True in Hnd by lia. apply NoDup_cons in Hnd as [Hnx Hnd].
  split; rewrite Hm'; [done|]. intros x' Hx'. destruct (Hc x') as [|Hcx]; [rewrite Hm; by right|by left|].
  destruct (decide (x' = 0)); [by left|right]. apply (clear_off_page B B' G s'); [done..|]. intros [Hy|Hy]%HP.
  - by apply (clear_on_page B G s x' Hok Hcx).
  - apply Hnx. apply list_elem_of_filter. split; [lia|]. replace x with x'; [done|].
    destruct Hcx as (_ & [k' ->] & _), Hx as [k ->]. rewrite !Z.div_mul in Hy by lia. by subst.
Qed.
Lemma pages_failed B G s s' : pages_ok B G s -> maps s' = tail (maps s) -> pages_ok B G s'.
Proof.
  intros [Hnd Hc] Hm. unfold pages_ok. rewrite Hm. destruct (maps s) as [|x xs]; [done|]. cbn [tail]. split; [|intros y Hy; apply Hc; by right].
  rewrite filter_cons in Hnd. case_decide; [by apply NoDup_cons in Hnd as [_ ?]|done].
Qed.

(** A request that finds no block cuts up a fresh page. *)
Lemma fresh_page_ok B G s x xs o : heap_ok B G s -> maps s = x :: xs -> clear B G x 4096 -> 5 <= o <= 12 ->
  exists s1 s3 B3, sendpage 4096 s = Done x s1 /\ insert 12 x s1 = Done () (push 12 x s1)
    /\ split_down (Z.to_nat (12 - o)) 12 (push 12 x s1) = Done () s3 /\ heap_ok B3 G s3 /\ same_live B B3 /\ sl s3 o <> Some 0
    /\ (forall y, on_page B3 y -> on_page B y \/ y = x / 4096) /\ maps s3 = xs.
Proof.
  intros Hok Hm Hc Ho. destruct (sendpage_maps B G s x 4096 Hok Hc xs Hm) as (s1 & Es & Hok1 & Hm1 & Hr1).
  destruct (page_ok B G s1 x Hok1 Hc Hr1) as [Ei Hok2]. set (s2 := push 12 x s1) in *.
  assert (sl s2 12 <> Some 0) as Hn2.
  { unfold s2. rewrite sl_push; [|lia..|by apply (free_lists_len s1 B), Hok1]. rewrite decide_True by done.
    destruct Hc. intros [= ?]. lia. }
  destruct (split_down_ok (Z.to_nat (12 - o)) _ G s2 12 Hok2 ltac:(lia) Hn2) as (s3 & B3 & E3 & Hok3 & HL3 & Hn3 & HM3 & HP3).
  replace (12 - Z.of_nat (Z.to_nat (12 - o))) with o in Hn3 by lia. exists s1, s3, B3. split_and!; try done.
  - eapply same_live_trans; [|exact HL3]. intros a o'. rewrite lookup_insert. case_decide as Ea; [|done]. subst a. split; [done|].
    intros Hb. destruct Hc as (_ & _ & _ & _ & HB & _). pose proof (HB x o' false Hb). pose proof (ok_order B G s Hok x o' false Hb).
    pose proof (pow_pos o'). lia.
  - intros y (b & ob & fb & Hb & Hy)%HP3. rewrite lookup_insert in Hb. case_decide; [subst b; by right|left; by exists b, ob, fb].
  - rewrite HM3. unfold s2. by rewrite maps_push.
Qed.

Lemma malloc_small B G s sz : heap_ok B G s -> 0 <= sz -> sz + sizeof_hdr < 4096 -> sendpage_ok B G s 4096 ->
  exists p s' B', malloc sz s = Done p s' /\ heap_ok B' G s' /\ (pages_ok B G s -> pages_ok B' G s')
    /\ (maps s' = maps s \/ maps s' = tail (maps s))
    /\ ((p = 0 /\ no_memory s /\ B' = B)
        \/ granted B B' G G p (sz + sizeof_hdr) /\ allocated B B' p (Z.log2 (sz + sizeof_hdr) + 1)).
Proof.
  intros Hok H0 Hsz Hsp. unfold sizeof_hdr in Hsz. unfold malloc. rewrite u64_small by (unfold is_u64, sizeof_hdr; lia). unfold sizeof_hdr.
  rewrite (proj2 (Z.ltb_ge 4096 (sz + 24))) by lia.
  destruct (bit_length_ok (sz + 24) s ltac:(lia)) as (E & Ho & Hlt). set (o := Z.log2 (sz + 24) + 1) in *. erewrite bind_eq; [|exact E].
  destruct (first_free_ok s B 13 (h_lists _ _ _ Hok) o) as (xo & Ex & Hle & Hxo); [lia..|]. erewrite bind_eq; [|exact Ex].
  destruct (Z.leb_spec 13 xo) as [Hx|Hx].
  - unfold alloc_new. change (ALIGN_UP 4096 12) with 4096.
    assert (no_memory s \/ exists x xs, maps s = x :: xs /\ clear B G x 4096) as [Hm|(x & xs & Hm & Hc)].
    { unfold sendpage_ok, no_memory in *. destruct (maps s); [by left|]. destruct Hsp; [by left|right; eauto]. }
    + destruct (sendpage_fails B G s 4096 Hok Hm) as (s' & Es & Hok' & Hms). exists 0, s', B.
      erewrite bind_eq; [|by erewrite bind_eq; [|exact Es]]. split; [done|]. split; [done|].
      split; [intros Hp; by apply (pages_failed B G s)|]. split; [by right|by left].
    + destruct (fresh_page_ok B G s x xs o Hok Hm Hc Ho) as (s1 & s3 & B3 & Es & Ei & E3 & Hok3 & HL3 & Hn3 & HP3 & HM3).
      erewrite bind_eq; [|by erewrite bind_eq; [|exact Es]]. cbv beta iota.
      rewrite (proj2 (Z.eqb_neq x 0)) by (destruct Hc; lia). erewrite bind_eq; [|exact Ei]. erewrite bind_eq; [|exact E3].
      destruct (take_granted B B3 G s3 o (sz + 24) Hok3 Ho Hn3 HL3 ltac:(lia)) as (p & s' & B' & Et & Hok' & Hg & Ha & HP & HM).
      exists p, s', B'. split; [done|]. split; [done|]. split; [|split; [right; rewrite Hm; cbn; congruence|by right]].
      apply (pages_taken B B' G s s' x xs); [done..|congruence| |done]. intros y Hy. by apply HP3, HP.
  - destruct (split_down_ok (Z.to_nat (xo - o)) B G s xo Hok ltac:(lia) (Hxo Hx)) as (s3 & B3 & E3 & Hok3 & HL3 & Hn3 & HM3 & HP3).
    erewrite bind_eq; [|exact E3]. replace (xo - Z.of_nat (Z.to_nat (xo - o))) with o in Hn3 by lia.
    destruct (take_granted B B3 G s3 o (sz + 24) Hok3 Ho Hn3 HL3 ltac:(lia)) as (p & s' & B' & Et & Hok' & Hg & Ha & HP & HM).
    exists p, s', B'. split; [done|]. split; [done|]. split; [|split; [left; congruence|by right]].
    apply (pages_same B B' G s s'); [done..|by eapply pages_trans|congruence].
Qed.

Lemma align_page x : 0 < x < 2 ^ 63 -> x <= ALIGN_UP x 12 < 2 ^ 64 /\ (4096 | ALIGN_UP x 12).
Proof.
  intros Hx. rewrite ALIGN_UP_eq by (unfold is_u64; lia). change (2 ^ 12) with 4096.
  pose proof (Z.div_mod (x + 4096 - 1) 4096 ltac:(lia)) as E. pose proof (Z.mod_pos_bound (x + 4096 - 1) 4096 ltac:(lia)).
  split; [lia|]. exists ((x + 4096 - 1) / 4096). lia.
Qed.

Lemma malloc_large B G s sz : heap_ok B G s -> 4096 < sz + sizeof_hdr < 2 ^ 63 ->
  sendpage_ok B G s (ALIGN_UP (sz + sizeof_hdr) 12) ->
  exists p s' G', malloc sz s = Done p s' /\ heap_ok B G' s'
    /\ ((p = 0 /\ no_memory s /\ G' = G) \/ granted B B G G' p (sz + sizeof_hdr)).
Proof.
  intros Hok Hsz Hsp. unfold malloc. rewrite u64_small by (unfold is_u64; lia). unfold alloc_new.
  rewrite (proj2 (Z.ltb_lt 4096 (sz + sizeof_hdr))) by lia.
  destruct (align_page (sz + sizeof_hdr) ltac:(lia)) as [Hn Hn4]. set (n := ALIGN_UP (sz + sizeof_hdr) 12) in *.
  assert (no_memory s \/ exists x xs, maps s = x :: xs /\ clear B G x n) as [Hm|(x & xs & Hm & Hc)].
  { unfold sendpage_ok, no_memory in *. destruct (maps s); [by left|]. destruct Hsp; [by left|right; eauto]. }
  - destruct (sendpage_fails B G s n Hok Hm) as (s' & Es & Hok' & _). exists 0, s', G.
    erewrite bind_eq; [|by erewrite bind_eq; [|exact Es]]. split; [done|]. split; [done|]. by left.
  - destruct (sendpage_maps B G s x n Hok Hc xs Hm) as (s1 & Es & Hok1 & _ & Hr1). pose proof Hc as (Hx0 & Hx & _ & _ & HB & HG).
    erewrite bind_eq; [|by erewrite bind_eq; [|exact Es]]. cbv beta iota. rewrite (proj2 (Z.eqb_neq x 0)) by lia.
    assert (has s1 x) as Hhx by (apply Hr1; [lia|etrans; [|exact Hx]; by exists 128]).
    erewrite bind_eq; [|unfold set_flags; by rewrite upd_hdr_eq]. fold (put_flags x HUGE_ s1).
    erewrite bind_eq; [|unfold set_next; rewrite upd_hdr_eq; [done|by hases]]. fold (put_next x n (put_flags x HUGE_ s1)).
    set (s2 := put_next x n (put_flags x HUGE_ s1)).
    assert (forall a, a <> x -> hdrs s2 !! a = hdrs s1 !! a) as Hsame.
    { intros a Ha. unfold s2. cbn. by rewrite !lookup_alter_ne by done. }
    assert (forall a o f, B !! a = Some (o, f) -> a <> x) as Hbx.
    { intros a o f Ha ->. pose proof (HB x o f Ha). destruct (ok_order B G s Hok x o f Ha). pose proof (pow_pos o). lia. }
    assert (forall a m, G !! a = Some m -> a <> x) as Hgx.
    { intros a m Ha ->. pose proof (HG x m Ha). destruct (h_huge B G s Hok x m Ha) as (_ & _ & _ & _ & ? & _). lia. }
    assert (heap_ok B G s2) as Hok2.
    { apply (heap_ok_frame B G s1); [done|done|..].
      - intros a [(o & f & Ha)|[m Ha]]; apply Hsame; eauto.
      - intros a o f y _ _ _ Hy. unfold s2. by hases. }
    exists (x + sizeof_hdr), s2, (<[x := n]> G). split; [done|]. split; [split; try apply Hok2|].
    + intros a m Ha. rewrite lookup_insert in Ha. case_decide; [injection Ha as <-; subst a|by apply (h_huge B G s2 Hok2)].
      destruct Hhx as [h Hh]. unfold s2. fields. rewrite !decide_True by done. unfold fl, nx. rewrite Hh. split_and!; (done || lia).
    + intros a m b o f Ha Hb. rewrite lookup_insert in Ha. case_decide; [injection Ha as <-; subst a|by apply (h_far B G s2 Hok2 a m b o f)].
      by eapply HB.
    + intros a m a' m'. rewrite !lookup_insert. repeat case_decide; subst; [done|..].
      * intros [= <-] Ha' _. pose proof (HG a' m' Ha'). lia.
      * intros Ha [= <-] _. pose proof (HG a m Ha). lia.
      * by apply (h_apart B G s2 Hok2).
    + right. exists n. replace (x + sizeof_hdr - sizeof_hdr) with x by lia. split_and!; [lia|lia| |].
      * intros a m. unfold live. rewrite lookup_insert. case_decide; [subst a|naive_solver]. split.
        -- intros [(o & Ha & _)|[= <-]]; [|by right]. by destruct (Hbx x o false).
        -- intros [[(o & Ha & _)|Ha]|[_ ->]]; [by destruct (Hbx x o false)|by destruct (Hgx x m)|by right].
      * intros a m [(o & Ha & ->)|Ha]; [pose proof (HB a o false Ha)|pose proof (HG a m Ha)]; lia.
Qed.

(** The blocks after the block [a] of order [o] was freed: it is joined with its buddy
    if that is a free block of the same order, once, and is a free block otherwise. *)
Definition freed_block (B : blocks) (a o : Z) : blocks :=
  let b := buddy_of a o in
  if decide (B !! b = Some (o, true)) then <[Z.min a b := (o + 1, true)]> (delete (Z.min a b + 2 ^ o) B) else <[a := (o, true)]> B.

Lemma free_small B G s a o : heap_ok B G s -> B !! a = Some (o, false) -> o < 12 ->
  exists s' B', free (a + sizeof_hdr) s = Done () s' /\ heap_ok B' G s' /\ B' = freed_block B a o
    /\ (forall b o', B' !! b = Some (o', false) <-> B !! b = Some (o', false) /\ b <> a)
    /\ pages_in B B' /\ maps s' = maps s.
Proof.
  intros Hok Ha Ho12. destruct (ok_order B G s Hok a o false Ha) as (Ho & H0 & Hd).
  pose proof (h_marks B G s Hok a o false Ha) as Hfl. destruct (ok_has B G s Hok a o false Ha) as [h Hh].
  assert (h_flags h = o) as Ef by (unfold fl in Hfl; rewrite Hh in Hfl; by injection Hfl).
  unfold free. rewrite (proj2 (Z.eqb_neq (a + sizeof_hdr) 0)) by (unfold sizeof_hdr; lia). cbv zeta.
  replace (a + sizeof_hdr - sizeof_hdr) with a by lia. erewrite bind_eq; [|by apply get_hdr_eq]. rewrite Ef.
  rewrite (not_huge o Ho). cbn [Z.eqb negb]. rewrite (proj2 (Z.ltb_ge 12 o)) by lia.
  rewrite Z.shiftl_mul_pow2, Z.mul_1_l by lia. fold (buddy_of a o). set (b := buddy_of a o).
  destruct (tiling_buddy B a o false (h_tiling _ _ _ Hok) Ha Ho12) as (o' & f' & Hb & Ho'). fold b in Hb.
  destruct (ok_order B G s Hok b o' f' Hb) as (Hoo & _). destruct (ok_has B G s Hok b o' f' Hb) as [hb Hhb].
  pose proof (h_marks B G s Hok b o' f' Hb) as Hflb. unfold fl in Hflb. rewrite Hhb in Hflb. injection Hflb as Efb.
  erewrite bind_eq; [|by apply get_hdr_eq]. rewrite Efb, Z.lor_comm. change (Z.lor o FREE_) with (mark o true).
  destruct (Z.eqb_spec (mark o' f') (mark o true)) as [Em|Em].
  - apply mark_inj in Em as [-> ->]; [|done..].
    destruct (merge_ok B G s o a b Hok Ho12 Ha eq_refl Hb) as [Ei Hok'].
    pose proof (unlink_eq s B o b (insert (o + 1) (if b <? a then b else a)) (h_lists _ _ _ Hok) ltac:(lia) Hb) as Eu.
    erewrite bind_eq in Eu by (by apply get_hdr_eq). rewrite Eu, Ei. eexists _, _. split; [done|]. split; [exact Hok'|].
    split.
    { unfold freed_block. cbv zeta. fold b. rewrite decide_True by done. destruct (Z.ltb_spec b a); [by rewrite Z.min_r by lia|by rewrite Z.min_l by lia]. }
    assert (b <> a) as Hba by (intros E; rewrite E in Hb; congruence).
    split; [|split; [destruct (b <? a); (eapply pages_insert; [apply pages_delete|eassumption])|by rewrite maps_push, maps_unlink]].
    intros c o'. rewrite lookup_insert, lookup_delete. pose proof (pow_pos o).
    destruct (buddy_cases a o ltac:(lia) Hd) as [[E _]|[E _]]; fold b in E.
    + rewrite (proj2 (Z.ltb_ge b a)) by lia. rewrite <- E. repeat case_decide; naive_solver.
    + rewrite (proj2 (Z.ltb_lt b a)) by lia. replace (b + 2 ^ o) with a by lia. repeat case_decide; naive_solver.
  - destruct (push_ok B G s o a Hok Ha) as [E Hok']. eexists _, _. split; [exact E|]. split; [exact Hok'|].
    split; [unfold freed_block; cbv zeta; fold b; rewrite decide_False; [done|]; rewrite Hb; congruence|].
    split; [|split; [apply (pages_insert B B a o false); [apply pages_refl|done]|by rewrite maps_push]].
    intros c o1. rewrite lookup_insert. case_decide; naive_solver.
Qed.

Lemma free_large B G s a n : heap_ok B G s -> G !! a = Some n ->
  exists s', free (a + sizeof_hdr) s = Done () s' /\ heap_ok B (delete a G) s' /\ hdrs s' = map_out a n (hdrs s).
Proof.
  intros Hok Ha. destruct (h_huge B G s Hok a n Ha) as (Hfl & Hnx & H0 & Ha4 & Hn0 & Hn4).
  assert (exists h, hdrs s !! a = Some h /\ h_flags h = HUGE_ /\ h_next h = n) as (h & Hh & Ef & En).
  { unfold fl, nx in *. destruct (hdrs s !! a) as [h|]; [|done]. exists h. naive_solver. }
  unfold free. rewrite (proj2 (Z.eqb_neq (a + sizeof_hdr) 0)) by (unfold sizeof_hdr; lia). cbv zeta.
  replace (a + sizeof_hdr - sizeof_hdr) with a by lia. erewrite bind_eq; [|by apply get_hdr_eq]. rewrite Ef, En. change (negb (Z.land HUGE_ HUGE_ =? 0)) with true.
  unfold munmap. cbv iota. rewrite modify_eq. eexists. split; [done|]. assert ((32 | 4096)) as H32 by (by exists 128).
  assert (heap_ok B (delete a G) s) as Hok1.
  { split; try apply Hok.
    - intros b m Hb. rewrite lookup_delete in Hb. case_decide; [done|]. by apply (h_huge B G s Hok).
    - intros b m c o f Hb. rewrite lookup_delete in Hb. case_decide; [done|]. by apply (h_far B G s Hok).
    - intros b m c k Hb Hc. rewrite lookup_delete in Hb, Hc. repeat case_decide; [done..|]. by apply (h_apart B G s Hok). }
  assert (forall x, x ∈ headers_of a n -> a <= x < a + n) as Hin.
  { intros x Hx. apply headers_of_spec in Hx as [? _]; [done|by etrans..]. }
  split; [|done]. apply (heap_ok_frame B (delete a G) s); [done|done|..].
  - intros b Hb. cbn. rewrite map_out_lookup, bool_decide_false; [done|]. intros Hx%Hin. destruct Hb as [(o & f & Hb)|[m Hb]].
    + pose proof (h_far B G s Hok a n b o f Ha Hb). destruct (ok_order B G s Hok b o f Hb). pose proof (pow_pos o). lia.
    + rewrite lookup_delete in Hb. case_decide; [done|]. pose proof (h_apart B G s Hok a n b m Ha Hb ltac:(done)).
      destruct (h_huge B G s Hok b m Hb) as (_ & _ & _ & _ & ? & _). lia.
  - intros b o f x Hb Hx _ Hhas. unfold has in *. cbn. rewrite map_out_lookup, bool_decide_false; [done|]. intros Hx'%Hin.
    pose proof (h_far B G s Hok a n b o f Ha Hb). lia.
Qed.

(** The heap before the first request. *)
Lemma clear_free_ok s : clear_free s = Done () (mkHeap (replicate 13 0) (hdrs s) (maps s))
  /\ heap_ok ∅ ∅ (mkHeap (replicate 13 0) (hdrs s) (maps s)).
Proof.
  split; [done|]. split; try (intros *; rewrite lookup_empty; done).
  - exists (fun _ => []). split; [|intros o a _; rewrite lookup_empty; split; [by intros ?%not_elem_of_nil|done]].
    split_and!; [done| |by intros * _ _ ?%not_elem_of_nil]. intros o Ho.
    split_and!; [|constructor|apply not_elem_of_nil]. change (replicate 13 0 !! Z.to_nat o = Some 0). apply lookup_replicate. split; [done|lia].
  - split; intros *; rewrite lookup_empty; done.
Qed.

(** C18: [malloc] returns NULL only when [sendpage] fails.  Otherwise it returns a
    pointer behind a header to a block that is large enough for the request and
    overlaps no block or mapping in use; nothing else changes hands and the
    heap stays well formed, whatever the program writes into its blocks.  (A
    request of 4072 bytes is the exception, see [malloc_4072].) *)
Theorem malloc_correct B G s sz :
  heap_ok B G s -> 0 <= sz < 2 ^ 62 -> sz + sizeof_hdr <> 4096 ->
  sendpage_ok B G s (if sz + sizeof_hdr <? 4096 then 4096 else ALIGN_UP (sz + sizeof_hdr) 12) ->
  exists p s' B' G', malloc sz s = Done p s' /\ heap_ok B' G' s'
    /\ ((p = 0 /\ no_memory s /\ B' = B /\ G' = G) \/ granted B B' G G' p (sz + sizeof_hdr)).
Proof.
  intros Hok Hsz Hne Hsp. destruct (Z.ltb_spec (sz + sizeof_hdr) 4096) as [Hlt|Hge].
  - destruct (malloc_small B G s sz Hok ltac:(lia) Hlt Hsp) as (p & s' & B' & E & Hok' & _ & _ & Hc). exists p, s', B', G.
    split; [done|]. split; [done|]. destruct Hc as [(? & ? & ?)|[? _]]; auto.
  - destruct (malloc_large B G s sz Hok) as (p & s' & G' & E & Hok' & Hc); [unfold sizeof_hdr in *; lia|done|].
    exists p, s', B, G'. split; [done|]. split; [done|]. destruct Hc as [(? & ? & ?)|?]; auto.
Qed.

(** What [free] makes of the blocks [B] and the mappings [G]. *)
Definition freed (B : blocks) (G : gmap Z Z) (a : Z) : blocks * gmap Z Z :=
  match B !! a with Some (o, _) => (freed_block B a o, G) | None => (B, delete a G) end.

(** C19: [free] of a pointer that [malloc] returned takes that block, and nothing
    else, out of use, and keeps the heap well formed.  A block is joined with its
    buddy when that is free and of the same order, once, and goes on the list of
    the next order; otherwise it goes on the list of its own.  A large block
    is unmapped, all of it and no other address.  (For a block that is a
    whole page the code looks at the neighbouring page, see [free_page].) *)
Theorem free_correct B G s a n :
  heap_ok B G s -> live B G a n -> B !! a <> Some (12, false) ->
  exists s', free (a + sizeof_hdr) s = Done () s' /\ heap_ok (freed B G a).1 (freed B G a).2 s'
    /\ (forall b m, live (freed B G a).1 (freed B G a).2 b m <-> live B G b m /\ b <> a)
    /\ (G !! a = Some n -> forall x, has s' x <-> has s x /\ ~ ((32 | x) /\ a <= x < a + n)).
Proof.
  intros Hok [(o & Ha & ->)|Ha] H12.
  - assert (o < 12) as Ho by (destruct (ok_order B G s Hok a o false Ha) as (Ho & _); destruct (decide (o = 12)); [congruence|lia]).
    destruct (free_small B G s a o Hok Ha Ho) as (s' & B' & E & Hok' & -> & HL & _). exists s'. unfold freed. rewrite Ha. cbn [fst snd].
    split; [done|]. split; [done|]. split; [|intros Hg; exfalso; by eapply (ok_not_huge B G s)].
    intros b m. unfold live. setoid_rewrite HL. split; [|naive_solver]. intros [(o' & (Hb & Hne) & ->)|Hb]; [naive_solver|].
    split; [by right|]. intros ->. by apply (ok_not_huge B G s Hok a o false m).
  - destruct (free_large B G s a n Hok Ha) as (s' & E & Hok' & Hh). exists s'.
    assert (B !! a = None) as Hn by (destruct (B !! a) as [[o f]|] eqn:Hb; [|done]; exfalso; by eapply (ok_not_huge B G s)).
    unfold freed. rewrite Hn. cbn [fst snd]. split; [done|]. split; [done|]. split.
    + intros b m. unfold live. rewrite lookup_delete. case_decide as Hab.
      * subst b. split; [|by intros [_ ?]]. intros [(o & Hb & _)|?]; [|done]. congruence.
      * split; [|naive_solver]. intros H. split; [done|congruence].
    + intros _ x. unfold has. rewrite Hh, map_out_lookup. destruct (h_huge B G s Hok a n Ha) as (_ & _ & _ & Ha4 & _ & Hn4).
      assert ((32 | 4096)) as H32 by (by exists 128). pose proof (headers_of_spec a n x ltac:(by etrans) ltac:(by etrans)) as Hs.
      case_bool_decide as Hx; [|naive_solver]. split; [by intros [? ?]|]. intros [_ Hno]. destruct Hno. naive_solver.
Qed.

(** *** Two mistakes *)
(** A request that needs exactly a page reads behind the end of [_free]. *)
Example malloc_4072 : malloc 4072 (mkHeap (replicate 13 0) ∅ [0x10000]) = Faulted.
Proof. vm_compute. done. Qed.
(** Freeing a block that is a whole page reads the page next to it. *)
Example free_page : (p ← malloc 3000; free p) (mkHeap (replicate 13 0) ∅ [0x10000]) = Faulted.
Proof. vm_compute. done. Qed.

(** ** Witnesses *)
Definition ex_empty : heap := mkHeap (replicate 13 0) ∅ [0x10000].

Lemma malloc_correct_witness : exists p s' B' G', malloc 100 ex_empty = Done p s' /\ heap_ok B' G' s'
  /\ ((p = 0 /\ no_memory ex_empty /\ B' = ∅ /\ G' = ∅) \/ granted ∅ B' ∅ G' p (100 + sizeof_hdr)).
Proof.
  apply (malloc_correct ∅ ∅ ex_empty 100); [apply (clear_free_ok ex_empty)|lia|done|]. right. split_and!; [lia|by exists 16|done|by exists 1|..];
    intros *; rewrite lookup_empty; done.
Defined.

(** Half a page in use, the other half free. *)
Definition ex_half : heap :=
  mkHeap (<[11%nat := 0x10800]> (replicate 13 0))
    (<[0x10000 := mkHdr 0 Nowhere 11]> (<[0x10800 := mkHdr 0 (Slot 11) 43]> (map_in 0x10000 4096 ∅))) [].
Definition ex_blocks : gmap Z (Z * bool) := {[0x10000 := (11, false); 0x10800 := (11, true)]}.

Lemma ex_blocks_Some a o f : ex_blocks !! a = Some (o, f) -> o = 11 /\ ((a = 0x10000 /\ f = false) \/ (a = 0x10800 /\ f = true)).
Proof.
  unfold ex_blocks. rewrite lookup_insert. case_decide; [intros [= <- <-]; auto|]. rewrite lookup_singleton_Some. naive_solver.
Qed.

Lemma ex_half_ok : heap_ok ex_blocks ∅ ex_half.
Proof.
  split; try (intros *; rewrite lookup_empty; done).
  - exists (fun o => if decide (o = 11) then [0x10800] else []). split; [split_and!; [done|..]|].
    + intros o Ho. case_decide as E; [subst o; split_and!; [done|apply NoDup_singleton|set_solver]|].
      split_and!; [|constructor|set_solver]. change (<[11%nat := 0x10800]> (replicate 13 0) !! Z.to_nat o = Some 0).
      rewrite list_lookup_insert_ne by lia. apply lookup_replicate. split; [done|lia].
    + intros o o' a _ _. repeat case_decide; set_solver.
    + intros o a Ho. split.
      * case_decide; [|set_solver]. subst o. intros ->%list_elem_of_singleton. done.
      * intros [-> [[_ [=]]|[-> _]]]%ex_blocks_Some. rewrite decide_True by done. by left.
  - split.
    + intros a o f [-> Ha]%ex_blocks_Some. split; [lia|]. destruct Ha as [[-> _]|[-> _]]; (split; [lia|]); [by exists 32|by exists 33].
    + intros a o f a' o' f' [-> Ha]%ex_blocks_Some [-> Ha']%ex_blocks_Some Hne. change (2 ^ 11) with 2048. lia.
    + intros a o f x [-> Ha]%ex_blocks_Some Hx. assert (x / 4096 = 16) as Hq by (rewrite Hx; by destruct Ha as [[-> _]|[-> _]]).
      pose proof (Z.div_mod x 4096 ltac:(lia)). pose proof (Z.mod_pos_bound x 4096 ltac:(lia)). change (2 ^ 11) with 2048.
      destruct (decide (x < 0x10800)); [exists 0x10000, 11, false|exists 0x10800, 11, true]; (split; [done|]); change (2 ^ 11) with 2048; lia.
  - intros a o f [-> [[-> ->]|[-> ->]]]%ex_blocks_Some; done.
  - intros a o f x [-> Ha]%ex_blocks_Some Hx H32. change (2 ^ 11) with 2048 in Hx. unfold has, ex_half. cbn [hdrs].
    rewrite !lookup_insert. repeat case_decide; [by eexists..|]. rewrite map_in_lookup, bool_decide_true; [by eexists|].
    apply headers_of_spec; [by exists 2048|by exists 128|]. split; [lia|done].
Qed.

Lemma free_correct_witness : exists s', free (0x10000 + sizeof_hdr) ex_half = Done () s' /\ heap_ok {[0x10000 := (12, true)]} ∅ s'.
Proof.
  destruct (free_correct ex_blocks ∅ ex_half 0x10000 2048) as (s' & E & Hok & _); [exact ex_half_ok|left; by exists 11|done|].
  exists s'. split; [exact E|]. assert ((freed ex_blocks ∅ 0x10000) = ({[0x10000 := (12, true)]}, ∅)) as Ef by (vm_compute; reflexivity).
  by rewrite Ef in Hok.
Defined.
