(* ===== verification/Ioreq.v ===== *)
(** Messages of the file protocol, [include/uapi/ioreq.h]: what clients send to the
    file server and what it answers.

    A message is the list of its bytes, an object that is sent a memory.  Fields
    are little endian; a field that is not inside a message is [None]. *)
From S2P Require Import Prelude CString.

Definition ENOENT : Z := 2.
Definition EBADF : Z := 9.
Definition EINVAL : Z := 22.
Definition IO_READ : Z := 0.
Definition IO_WRITE : Z := 1.
Definition IO_OPEN : Z := 2.
Definition IO_OPENDIR : Z := 3.
Definition IO_READDIR : Z := 4.
Definition IO_LSEEK : Z := 5.
Definition sizeof_io_req : Z := 16.
Definition sizeof_io_res : Z := 16.

(** ** [struct io_req] and what follows it *)
Fixpoint le_bytes (n : nat) (v : Z) : list Z :=
  match n with O => [] | S n => v mod 256 :: le_bytes n (v / 256) end.
Definition io_req (type flags len : Z) : list Z := le_bytes 4 type ++ le_bytes 4 flags ++ le_bytes 8 len.
(** A field of the message. *)
Definition field (n : nat) (msg : list Z) (off : nat) : option Z :=
  if (off + n <=? length msg)%nat then Some (get_le n (fun x => default 0 (msg !! Z.to_nat x)) (Z.of_nat off)) else None.
(** An [int]. *)
Definition int_field (msg : list Z) (off : nat) : option Z := i32 <$> field 4 msg off.
(** The string behind the header, which must be terminated. *)
Fixpoint text_of (l : list Z) : option (list Z) :=
  match l with [] => None | c :: l => if c =? 0 then Some [] else s ← text_of l; Some (c :: s) end.

(** ** [struct io_res] *)
Definition io_res (obj : memory) (err len : Z) : memory := put_le 8 (put_le 4 obj 0 err) 8 len.
Definition err_of (obj : memory) : Z := i32 (get_le 4 obj 0).
Definition len_of (obj : memory) : Z := get_le 8 obj 8.

(** ** Structures *)
Lemma err_set obj err : 0 <= err < 2 ^ 31 -> err_of (put_le 4 obj 0 err) = err.
Proof. intros. unfold err_of. rewrite get_put_le. by apply i32_le. Qed.
Lemma err_io obj err len : 0 <= err < 2 ^ 31 -> err_of (io_res obj err len) = err.
Proof. intros. unfold io_res, err_of. rewrite get_put_le_ne by lia. by apply err_set. Qed.
Lemma len_io obj err len : 0 <= len < 2 ^ 64 -> len_of (io_res obj err len) = len.
Proof. intros. unfold io_res, len_of. rewrite get_put_le. change (256 ^ Z.of_nat 8) with (2 ^ 64). by apply Z.mod_small. Qed.
Lemma io_text obj err len x : 16 <= x -> io_res obj err len x = obj x.
Proof. intros. unfold io_res. by rewrite !put_le_out by lia. Qed.

(** ** Fields of a message *)
Lemma length_le_bytes n : forall v, length (le_bytes n v) = n.
Proof. induction n as [|n IH]; intros v; cbn; [done|by rewrite IH]. Qed.
Lemma get_le_bytes n m : forall off v, bytes_at m off (le_bytes n v) -> get_le n m off = v mod 256 ^ Z.of_nat n.
Proof.
  induction n as [|n IH]; intros off v; cbn [le_bytes bytes_at get_le]; [intros _; by rewrite Z.mod_1_r|]. intros [-> H]. rewrite (IH _ _ H).
  replace (256 ^ Z.of_nat (S n)) with (256 * 256 ^ Z.of_nat n) by (rewrite Nat2Z.inj_succ, Z.pow_succ_r by lia; done).
  by rewrite Z.rem_mul_r by lia.
Qed.
Lemma list_bytes_at l1 l2 l3 : bytes_at (fun x => default 0 ((l1 ++ l2 ++ l3) !! Z.to_nat x)) (Z.of_nat (length l1)) l2.
Proof.
  apply bytes_at_intro. intros i c Hi. replace (Z.to_nat (Z.of_nat (length l1) + Z.of_nat i)) with (length l1 + i)%nat by lia.
  rewrite lookup_app_r by lia. replace (length l1 + i - length l1)%nat with i by lia. by rewrite (lookup_app_l_Some _ _ _ _ Hi).
Qed.
Lemma field_at n l1 v l3 : field n (l1 ++ le_bytes n v ++ l3) (length l1) = Some (v mod 256 ^ Z.of_nat n).
Proof.
  unfold field. rewrite !length_app, length_le_bytes. rewrite (proj2 (Nat.leb_le _ _)) by lia. f_equal. apply get_le_bytes. apply list_bytes_at.
Qed.

Section io_req.
Context (type flags len : Z) (text : list Z).
Hypothesis Ht : 0 <= type < 2 ^ 32.
Lemma req_type : field 4 (io_req type flags len ++ text) 0 = Some type.
Proof.
  unfold io_req. rewrite <- app_assoc. pose proof (field_at 4 [] type ((le_bytes 4 flags ++ le_bytes 8 len) ++ text)) as H. cbn [length app] in H.
  rewrite H. f_equal. change (256 ^ Z.of_nat 4) with (2 ^ 32). by apply Z.mod_small.
Qed.
Lemma req_flags : field 4 (io_req type flags len ++ text) 4 = Some (u32 flags).
Proof.
  unfold io_req. rewrite <- !app_assoc. pose proof (field_at 4 (le_bytes 4 type) flags (le_bytes 8 len ++ text)) as H. rewrite length_le_bytes in H. exact H.
Qed.
Lemma req_len : field 8 (io_req type flags len ++ text) 8 = Some (u64 len).
Proof.
  unfold io_req. rewrite (app_assoc (le_bytes 4 type)), <- app_assoc.
  pose proof (field_at 8 (le_bytes 4 type ++ le_bytes 4 flags) len text) as H. rewrite length_app, !length_le_bytes in H. exact H.
Qed.
Lemma length_io_req : length (io_req type flags len) = 16%nat.
Proof. unfold io_req. by rewrite !length_app, !length_le_bytes. Qed.
Lemma req_text : drop 16 (io_req type flags len ++ text) = text.
Proof. rewrite <- length_io_req. apply drop_app_length. Qed.
End io_req.
Lemma text_of_string l rest : Forall (fun c => 0 < c < 256) l -> text_of (l ++ 0 :: rest) = Some l.
Proof.
  induction l as [|c l IH]; intros Hz; [done|]. apply Forall_cons in Hz as [Hc Hz]. cbn. rewrite (proj2 (Z.eqb_neq c 0)) by lia. by rewrite (IH Hz).
Qed.
