(* ===== verification/Vga.v ===== *)
(** The screen of the console server ([bin/console/main.c]: [set_cursor],
    [blit], [line_feed], [vga_puts]).

    [vbase] is the page that the memory service maps for the text screen, two
    bytes a cell; writing outside of it is [Faulted].  [ports] are the bytes
    written to ports, in order: [outb] sends them to the port service. *)
From S2P Require Import Prelude.

Definition R_ : Z := 25.
Definition C_ : Z := 80.
Definition VBUF_SIZE : Z := 4096.

Record vga := mkVga {
  video_port : Z;
  pos_x : Z;
  pos_y : Z;
  voff : Z;
  vbase : list Z;
  buffer : list Z;
  offset : Z;
  ports : list (Z * Z);
}.

Definition set_pos (x y : Z) (v : vga) : vga :=
  mkVga (video_port v) x y (voff v) (vbase v) (buffer v) (offset v) (ports v).
Definition set_screen (o : Z) (l : list Z) (v : vga) : vga :=
  mkVga (video_port v) (pos_x v) (pos_y v) o l (buffer v) (offset v) (ports v).
Definition set_ring (o : Z) (l : list Z) (v : vga) : vga :=
  mkVga (video_port v) (pos_x v) (pos_y v) (voff v) (vbase v) l o (ports v).

Definition outb (p b : Z) : M vga () :=
  modify (fun v => mkVga (video_port v) (pos_x v) (pos_y v) (voff v) (vbase v) (buffer v) (offset v) (ports v ++ [(u16 p, u8 b)])).

Definition set_cursor : M vga () :=
  v ← get;
  let pos := u16 (pos_x v * C_ + pos_y v) in
  outb (video_port v) 0x0f;;
  outb (video_port v + 1) (Z.land pos 0xff);;
  outb (video_port v) 0x0e;;
  outb (video_port v + 1) (Z.land (Z.shiftr pos 8) 0xff).

Definition in_page (a : Z) : bool := (0 <=? a) && (a <? 4096).
(** [*(v++) = b] on the screen. *)
Definition put_screen (b : Z) : M vga () :=
  v ← get;
  if in_page (voff v) then put (set_screen (voff v + 1) (<[Z.to_nat (voff v) := b]> (vbase v)) v) else fault.
(** [buffer[offset] = b; offset = (offset+1)%VBUF_SIZE] *)
Definition put_ring (b : Z) : M vga () :=
  v ← get;
  if in_page (offset v) then put (set_ring ((offset v + 1) mod VBUF_SIZE) (<[Z.to_nat (offset v) := b]> (buffer v)) v) else fault.
(** A character and its colour in the ring and on the screen, [pos_y++]. *)
Definition put_cell (c : Z) : M vga () :=
  put_ring c;; put_ring 0x07;; put_screen c;; put_screen 0x07;;
  modify (fun v => set_pos (pos_x v) (u8 (pos_y v + 1)) v).

(** [while (start != offset) { *(v++) = buffer[start]; start = (start+1)%VBUF_SIZE; }] *)
Fixpoint copy_ring (fuel : nat) (start : Z) : M vga () :=
  v ← get;
  if start =? offset v then mret ()
  else
    match fuel with
    | O => fault
    | S fuel =>
        b ← deref (if in_page start then buffer v !! Z.to_nat start else None);
        put_screen b;; copy_ring fuel ((start + 1) mod VBUF_SIZE)
    end.

(** [while (v-vbase <= R*C*2) { *(v++) = 0; *(v++) = 0x07; }] *)
Fixpoint clear_rest (fuel : nat) : M vga () :=
  v ← get;
  if voff v <=? R_ * C_ * 2 then
    match fuel with O => fault | S fuel => put_screen 0;; put_screen 0x07;; clear_rest fuel end
  else mret ().

(** The local variable [v] is the [voff] of the two loops; the code sets [voff]
    between them. *)
Definition blit : M vga () :=
  v ← get;
  let start := offset v - (pos_y v + (pos_x v - 1) * C_) * 2 in
  let start := if start <? 0 then start + VBUF_SIZE else start in
  put (set_screen 0 (vbase v) v);;
  copy_ring 4096 start;;
  v ← get;
  let new := voff v in
  clear_rest 2048;;
  modify (fun v => set_screen new (vbase v) v).

(** [while (pos_y < C)], filling the line. *)
Fixpoint fill_line (fuel : nat) : M vga () :=
  v ← get;
  if pos_y v <? C_ then match fuel with O => fault | S fuel => put_cell 0;; fill_line fuel end
  else mret ().

Definition line_feed : M vga () :=
  fill_line 80;;
  modify (fun v => set_pos (u8 (pos_x v + 1)) 0 v);;
  v ← get;
  when (R_ <=? pos_x v) (modify (fun v => set_pos (R_ - 1) (pos_y v) v);; blit);;
  set_cursor.

(** The string [str] with its terminator, followed by anything. *)
Fixpoint puts (str : list Z) (c : Z) : M vga Z :=
  match str with
  | [] => fault
  | a :: str =>
      if a =? 0 then mret c
      else
        (if a =? 10 then line_feed
         else put_cell a;; v ← get; when (C_ <=? pos_y v) line_feed);;
        puts str (c + 1)
  end.
Definition vga_puts (str : list Z) : M vga Z := c ← puts str 0; set_cursor;; mret c.

(** ** What the screen shows *)
(** The terminal as a sequence of cells: a newline fills the line. *)
Definition pad (S : list Z) : list Z := S ++ replicate (80 - length S mod 80) 0.
Definition term_put (S : list Z) (c : Z) : list Z := if c =? 10 then pad S else S ++ [c].
Definition term_puts (S s : list Z) : list Z := foldl term_put S s.

(** Cell [q] of a block of cells holds [c], in white. *)
Definition cell (l : list Z) (q : nat) (c : Z) : Prop := l !! (2 * q)%nat = Some c /\ l !! (2 * q + 1)%nat = Some 7.
(** The first line on the screen when the cursor is in line [r]. *)
Definition top (r : nat) : nat := if (r <? 25)%nat then 0%nat else (r - 23)%nat.

(** The cells [S] have been written, up to column [k] of line [r]. *)
Record shown (S : list Z) (r k : nat) (v : vga) : Prop := {
  sh_len : length S = (80 * r + k)%nat;
  sh_col : (k <= 80)%nat;
  sh_vbase : length (vbase v) = 4096%nat;
  sh_buffer : length (buffer v) = 4096%nat;
  sh_offset : offset v = 2 * Z.of_nat (length S mod 2048);
  sh_row : pos_x v = Z.of_nat (r `min` 24);
  sh_y : pos_y v = Z.of_nat k;
  sh_voff : voff v = 2 * Z.of_nat (length S - 80 * top r);
  sh_ring : forall i c, S !! i = Some c -> (length S <= i + 2048)%nat -> cell (buffer v) (i mod 2048) c;
  sh_screen : forall i c, S !! i = Some c -> (80 * top r <= i)%nat -> cell (vbase v) (i - 80 * top r) c;
  sh_blank : (25 <= r)%nat -> forall j, (length S - 80 * top r <= j < 2000)%nat -> cell (vbase v) j 0
}.
(** Between two calls: the line is not full. *)
Definition screen_ok (S : list Z) (v : vga) : Prop := shown S (length S / 80) (length S mod 80) v.
Definition cursor_at (v : vga) : list (Z * Z) :=
  let pos := pos_x v * 80 + pos_y v in
  [(u16 (video_port v), 0x0f); (u16 (video_port v + 1), pos mod 256); (u16 (video_port v), 0x0e); (u16 (video_port v + 1), pos / 256)].

#[local] Arguments Nat.modulo : simpl never.
#[local] Arguments Nat.div : simpl never.
#[local] Arguments Nat.mul : simpl never.

(** ** Cells *)
Definition write_cell (q : nat) (c : Z) (l : list Z) : list Z := <[(2 * q + 1)%nat := 7]> (<[(2 * q)%nat := c]> l).
Lemma length_write q c l : length (write_cell q c l) = length l.
Proof. unfold write_cell. by rewrite !length_insert. Qed.
Lemma cell_write q c l : (2 * q + 1 < length l)%nat -> cell (write_cell q c l) q c.
Proof.
  intros H. unfold write_cell. split.
  - rewrite list_lookup_insert_ne by lia. apply list_lookup_insert_eq. lia.
  - apply list_lookup_insert_eq. rewrite length_insert. lia.
Qed.
Lemma cell_write_ne q c l j d : j <> q -> cell l j d -> cell (write_cell q c l) j d.
Proof. intros H [H1 H2]. unfold write_cell. split; rewrite !list_lookup_insert_ne by lia; done. Qed.

Lemma in_page_true a : 0 <= a < 4096 -> in_page a = true.
Proof. intros. unfold in_page. rewrite andb_true_iff, Z.leb_le, Z.ltb_lt. lia. Qed.

Lemma put_screen_eq b v : 0 <= voff v < 4096 ->
  put_screen b v = Done () (set_screen (voff v + 1) (<[Z.to_nat (voff v) := b]> (vbase v)) v).
Proof. intros H. unfold put_screen. erewrite bind_eq; [|apply get_eq]. by rewrite in_page_true. Qed.
Lemma put_ring_eq b v : 0 <= offset v < 4096 ->
  put_ring b v = Done () (set_ring ((offset v + 1) mod 4096) (<[Z.to_nat (offset v) := b]> (buffer v)) v).
Proof. intros H. unfold put_ring. erewrite bind_eq; [|apply get_eq]. by rewrite in_page_true. Qed.

(** Two bytes on the screen. *)
Lemma put_screen_cell c v q (k : M vga ()) : (q < 2048)%nat -> voff v = 2 * Z.of_nat q ->
  (put_screen c;; put_screen 7;; k) v = k (set_screen (2 * Z.of_nat (q + 1)) (write_cell q c (vbase v)) v).
Proof.
  intros Hq Hv. erewrite bind_eq; [|apply put_screen_eq; lia]. erewrite bind_eq; [|apply put_screen_eq; cbn; lia].
  unfold write_cell. f_equal. unfold set_screen. cbn. rewrite Hv. f_equal; [lia|]. f_equal; [lia|]. f_equal. lia.
Qed.

Lemma ring_next m : (2 * Z.of_nat m + 1 + 1) mod 4096 = 2 * Z.of_nat ((m + 1) mod 2048).
Proof.
  rewrite Nat2Z.inj_mod. change 4096 with (2 * 2048). replace (2 * Z.of_nat m + 1 + 1) with (2 * Z.of_nat (m + 1)) by lia.
  by rewrite Z.mul_mod_distr_l.
Qed.

Lemma put_cell_eq c v q m k : (q < 2048)%nat -> voff v = 2 * Z.of_nat q -> (m < 2048)%nat -> offset v = 2 * Z.of_nat m ->
  pos_y v = Z.of_nat k -> (k < 255)%nat ->
  put_cell c v = Done () (mkVga (video_port v) (pos_x v) (Z.of_nat (k + 1)) (2 * Z.of_nat (q + 1)) (write_cell q c (vbase v))
    (write_cell m c (buffer v)) (2 * Z.of_nat ((m + 1) mod 2048)) (ports v)).
Proof.
  intros Hq Hv Hm Ho Hk Hk5. unfold put_cell. rewrite <- ring_next.
  erewrite bind_eq; [|apply put_ring_eq; lia]. erewrite bind_eq; [|apply put_ring_eq; cbn; rewrite Z.mod_small; lia].
  erewrite (put_screen_cell c _ q); [|done|done]. unfold write_cell, set_screen, set_ring, modify, set_pos. cbn. rewrite Ho, Hk.
  rewrite (Z.mod_small (2 * Z.of_nat m + 1) 4096) by lia. do 2 f_equal.
  - unfold u8. rewrite wrap_small; lia.
  - f_equal; [lia|]. f_equal. lia.
Qed.

Lemma top_spec r : (top r <= r)%nat /\ ((r < 25)%nat -> top r = 0%nat) /\ ((25 <= r)%nat -> top r = (r - 23)%nat).
Proof. unfold top. destruct (Nat.ltb_spec r 25); lia. Qed.

(** The state but for the screen. *)
Definition same_ports (v v' : vga) : Prop := video_port v' = video_port v /\ ports v' = ports v.

Lemma put_cell_ok S r k c v : shown S r k v -> (k < 80)%nat ->
  exists v', put_cell c v = Done () v' /\ shown (S ++ [c]) r (k + 1) v' /\ same_ports v v'.
Proof.
  intros [HL Hk Hv Hb Ho Hx Hy Hvo HR HS HB] Hk80. destruct (top_spec r) as (T1 & T2 & T3).
  set (q := (length S - 80 * top r)%nat) in *. assert (q <= 1920 + 79 /\ 80 * top r + q = length S)%nat as [Hq Hq2].
  { unfold q. destruct (decide (r < 25)%nat); lia. }
  pose proof (Nat.mod_upper_bound (length S) 2048 ltac:(lia)) as Hm. set (m := (length S mod 2048)%nat) in *.
  eexists. split; [apply (put_cell_eq c v q m k); (done || lia)|]. split; [|done].
  assert (length (S ++ [c]) = length S + 1)%nat as HL' by (by rewrite length_app).
  split; cbn; rewrite ?length_write, ?HL'; try (done || lia).
  - unfold m. by rewrite Nat.Div0.add_mod_idemp_l.
  - intros i d Hi HiL. apply lookup_app_Some in Hi as [Hi|[Hi1 Hi2]].
    + pose proof (lookup_lt_Some _ _ _ Hi). apply cell_write_ne; [|apply HR; [done|lia]].
      unfold m. intros E. pose proof (Nat.div_mod_eq i 2048). pose proof (Nat.div_mod_eq (length S) 2048).
      assert (i / 2048 = length S / 2048)%nat by nia. lia.
    + apply list_lookup_singleton_Some in Hi2 as [Hi2 <-]. replace i with (length S) by lia. apply cell_write. fold m. lia.
  - intros i d Hi Hit. apply lookup_app_Some in Hi as [Hi|[Hi1 Hi2]].
    + pose proof (lookup_lt_Some _ _ _ Hi). apply cell_write_ne; [lia|by apply HS].
    + apply list_lookup_singleton_Some in Hi2 as [Hi2 <-]. replace (i - 80 * top r)%nat with q by lia. apply cell_write. lia.
  - intros Hr j Hj. apply cell_write_ne; [lia|]. apply HB; lia.
Qed.

(** ** Scrolling *)
Lemma copy_ring_ok S n : forall q f v, length (vbase v) = 4096%nat ->
  offset v = 2 * Z.of_nat (length S mod 2048) -> (n < 2048)%nat -> (n <= length S)%nat ->
  (forall i c, S !! i = Some c -> (length S <= i + n)%nat -> cell (buffer v) (i mod 2048) c) ->
  voff v = 2 * Z.of_nat q -> (q + n <= 2048)%nat ->
  exists vb, copy_ring (2 * n + f) (2 * Z.of_nat ((length S - n) mod 2048)) v = Done () (set_screen (2 * Z.of_nat (q + n)) vb v)
    /\ length vb = 4096%nat
    /\ (forall i c, S !! i = Some c -> (length S <= i + n)%nat -> cell vb (q + (i + n - length S)) c)
    /\ (forall j c, (j < q)%nat -> cell (vbase v) j c -> cell vb j c).
Proof.
  induction n as [|n IH]; intros q f v Hl Ho Hn HnL Hring Hv Hq.
  - exists (vbase v). split_and!; [|done| |done].
    + replace (2 * 0 + f)%nat with f by lia. rewrite Nat.sub_0_r, <- Ho. replace (q + 0)%nat with q by lia. rewrite <- Hv.
      destruct f; cbn [copy_ring]; (erewrite bind_eq; [|apply get_eq]); rewrite Z.eqb_refl; by destruct v.
    + intros i c Hi HL. pose proof (lookup_lt_Some _ _ _ Hi). lia.
  - set (i0 := (length S - Datatypes.S n)%nat). set (m := (i0 mod 2048)%nat).
    pose proof (Nat.mod_upper_bound i0 2048 ltac:(lia)) as Hm. fold m in Hm.
    assert (m <> length S mod 2048)%nat as Hne.
    { unfold m. intros E. pose proof (Nat.div_mod_eq i0 2048). pose proof (Nat.div_mod_eq (length S) 2048).
      assert (i0 / 2048 = length S / 2048)%nat by nia. lia. }
    destruct (lookup_lt_is_Some_2 S i0 ltac:(lia)) as [c Hc]. destruct (Hring i0 c Hc ltac:(lia)) as [Hc1 Hc2]. fold m in Hc1, Hc2.
    set (v1 := set_screen (2 * Z.of_nat (q + 1)) (write_cell q c (vbase v)) v).
    destruct (IH (q + 1)%nat f v1) as (vb & E & Hvl & Hnew & Hold); try (done || lia).
    { cbn. by rewrite length_write. }
    { intros i d Hi HL. apply Hring; [done|lia]. }
    exists vb. split; [|split; [done|split]].
    + replace (2 * Datatypes.S n + f)%nat with (Datatypes.S (Datatypes.S (2 * n + f))) by lia. cbn [copy_ring].
      erewrite bind_eq; [|apply get_eq]. rewrite (proj2 (Z.eqb_neq (2 * Z.of_nat m) (offset v))) by lia.
      erewrite bind_eq; [|rewrite in_page_true by lia; apply deref_eq; by replace (Z.to_nat (2 * Z.of_nat m)) with (2 * m)%nat by lia].
      erewrite bind_eq; [|apply put_screen_eq; lia].
      replace ((2 * Z.of_nat m + 1) mod VBUF_SIZE) with (2 * Z.of_nat m + 1) by (symmetry; apply Z.mod_small; unfold VBUF_SIZE; lia).
      erewrite bind_eq; [|apply get_eq]. cbn [offset set_screen]. rewrite (proj2 (Z.eqb_neq (2 * Z.of_nat m + 1) (offset v))) by lia.
      erewrite bind_eq; [|cbn [buffer set_screen]; rewrite in_page_true by lia; apply deref_eq;
        by replace (Z.to_nat (2 * Z.of_nat m + 1)) with (2 * m + 1)%nat by lia].
      erewrite bind_eq; [|apply put_screen_eq; cbn; lia].
      match goal with |- copy_ring _ _ ?s = _ => replace s with v1 end.
      2:{ unfold v1, set_screen, write_cell. cbn. rewrite Hv. f_equal; [lia|]. f_equal; [lia|]. f_equal. lia. }
      replace ((2 * Z.of_nat m + 1 + 1) mod VBUF_SIZE) with (2 * Z.of_nat ((length S - n) mod 2048)).
      * rewrite E. unfold v1, set_screen. cbn. do 2 f_equal. lia.
      * unfold VBUF_SIZE. change 4096 with (2 * 2048). replace (2 * Z.of_nat m + 1 + 1) with (2 * Z.of_nat (m + 1)) by lia.
        rewrite Z.mul_mod_distr_l by lia. f_equal. rewrite Nat2Z.inj_mod. change (Z.of_nat 2048) with 2048.
        unfold m. rewrite Nat2Z.inj_add, Nat2Z.inj_mod. change (Z.of_nat 2048) with 2048. rewrite Z.add_mod_idemp_l by lia. f_equal. lia.
    + intros i d Hi HL. destruct (decide (i = i0)) as [->|Hi0].
      * assert (d = c) as -> by congruence. replace (q + (i0 + Datatypes.S n - length S))%nat with q by lia.
        apply Hold; [lia|]. apply cell_write. cbn. lia.
      * replace (q + (i + Datatypes.S n - length S))%nat with (q + 1 + (i + n - length S))%nat by lia. apply Hnew; [done|lia].
    + intros j d Hj Hd. apply Hold; [lia|]. cbn. apply cell_write_ne; [lia|done].
Qed.

Lemma clear_rest_ok n : forall q v, length (vbase v) = 4096%nat -> voff v = 2 * Z.of_nat q -> (q + n = 2001)%nat ->
  exists vb, clear_rest n v = Done () (set_screen 4002 vb v) /\ length vb = 4096%nat
    /\ (forall j, (q <= j < 2001)%nat -> cell vb j 0) /\ (forall j c, (j < q)%nat -> cell (vbase v) j c -> cell vb j c).
Proof.
  induction n as [|n IH]; intros q v Hl Hv Hq; cbn [clear_rest]; (erewrite bind_eq; [|apply get_eq]); change (R_ * C_ * 2) with 4000.
  - rewrite (proj2 (Z.leb_gt (voff v) 4000)) by lia. exists (vbase v). split_and!; [|done|lia|done].
    replace 4002 with (voff v) by lia. by destruct v.
  - rewrite (proj2 (Z.leb_le (voff v) 4000)) by lia. erewrite (put_screen_cell 0 v q); [|lia|done].
    set (v1 := set_screen (2 * Z.of_nat (q + 1)) (write_cell q 0 (vbase v)) v).
    destruct (IH (q + 1)%nat v1) as (vb & E & Hvl & Hnew & Hold); [cbn; by rewrite length_write|done|lia|].
    exists vb. split_and!; [done|done|..].
    + intros j Hj. destruct (decide (j = q)) as [->|]; [|apply Hnew; lia]. apply Hold; [lia|]. apply cell_write. lia.
    + intros j c Hj Hc. apply Hold; [lia|]. apply cell_write_ne; [lia|done].
Qed.

Lemma clear_rest_mono n v s v' : clear_rest n v = Done s v' -> forall m, (n <= m)%nat -> clear_rest m v = Done s v'.
Proof.
  revert v. induction n as [|n IH]; intros v E m Hm; cbn [clear_rest] in E.
  - erewrite bind_eq in E by apply get_eq. destruct m; cbn [clear_rest]; (erewrite bind_eq; [|apply get_eq]);
      destruct (voff v <=? R_ * C_ * 2); done.
  - destruct m as [|m]; [lia|]. cbn [clear_rest] in *. erewrite bind_eq in E by apply get_eq. erewrite bind_eq; [|apply get_eq].
    destruct (voff v <=? R_ * C_ * 2); [|done]. apply bind_Done in E as ([] & v1 & E1 & E). apply bind_Done in E as ([] & v2 & E2 & E).
    erewrite bind_eq; [|exact E1]. erewrite bind_eq; [|exact E2]. apply (IH v2 E). lia.
Qed.

Lemma blit_ok S r v : length S = (80 * r)%nat -> (25 <= r)%nat -> pos_x v = 24 -> pos_y v = 0 ->
  length (vbase v) = 4096%nat -> length (buffer v) = 4096%nat -> offset v = 2 * Z.of_nat (length S mod 2048) ->
  (forall i c, S !! i = Some c -> (length S <= i + 2048)%nat -> cell (buffer v) (i mod 2048) c) ->
  exists v', blit v = Done () v' /\ shown S r 0 v' /\ same_ports v v'.
Proof.
  intros HL Hr Hx Hy Hv Hb Ho HR. unfold blit. erewrite bind_eq; [|apply get_eq]. cbv zeta. rewrite Hx, Hy. unfold VBUF_SIZE, C_.
  set (start := if _ <? 0 then _ else _). assert (start = 2 * Z.of_nat ((length S - 1840) mod 2048)) as ->.
  { unfold start. rewrite Ho. rewrite !Nat2Z.inj_mod. change (Z.of_nat 2048) with 2048. rewrite Nat2Z.inj_sub by lia. change (Z.of_nat 1840) with 1840.
    pose proof (Z.mod_pos_bound (Z.of_nat (length S)) 2048 ltac:(lia)). pose proof (Z.div_mod (Z.of_nat (length S)) 2048 ltac:(lia)) as Ed.
    set (a := Z.of_nat (length S) mod 2048) in *. set (b := Z.of_nat (length S) / 2048) in *.
    destruct (Z.ltb_spec (2 * a - (0 + (24 - 1) * 80) * 2) 0).
    - replace (Z.of_nat (length S) - 1840) with (a + 208 + (b - 1) * 2048) by lia. rewrite Z.mod_add, Z.mod_small by lia. lia.
    - replace (Z.of_nat (length S) - 1840) with (a - 1840 + b * 2048) by lia. rewrite Z.mod_add, Z.mod_small by lia. lia. }
  erewrite bind_eq; [|done]. set (v0 := set_screen 0 (vbase v) v).
  destruct (copy_ring_ok S 1840 0 416 v0) as (vb & E & Hvb & Hnew & _); try (done || lia).
  { intros i c Hi Hc. apply HR; [done|lia]. }
  erewrite bind_eq; [|exact E]. erewrite bind_eq; [|apply get_eq]. cbn [voff set_screen].
  destruct (clear_rest_ok 161 1840 (set_screen (2 * Z.of_nat (0 + 1840)) vb v0)) as (vb2 & E2 & Hvb2 & Hz & Hk); [done..|].
  erewrite bind_eq; [|exact (clear_rest_mono _ _ _ _ E2 2048 ltac:(lia))]. rewrite modify_eq. eexists. split; [reflexivity|]. split; [|by split].
  destruct (top_spec r) as (_ & _ & Ht). split; cbn; rewrite ?Ht by lia; try lia; try assumption.
  - intros i c Hi Hit. apply Hk; [pose proof (lookup_lt_Some _ _ _ Hi); lia|].
    replace (i - 80 * (r - 23))%nat with (0 + (i + 1840 - length S))%nat by lia. apply Hnew; [done|lia].
  - intros _ j Hj. apply Hz. lia.
Qed.

Lemma fill_line_ok n : forall S r k v, shown S r k v -> (k + n = 80)%nat ->
  exists v', fill_line n v = Done () v' /\ shown (S ++ replicate n 0) r 80 v' /\ same_ports v v'.
Proof.
  induction n as [|n IH]; intros S r k v Hs Hk; cbn [fill_line]; (erewrite bind_eq; [|apply get_eq]); rewrite (sh_y S r k v Hs).
  - rewrite (proj2 (Z.ltb_ge _ _)) by (unfold C_; lia). exists v. rewrite app_nil_r. by replace 80%nat with k by lia.
  - rewrite (proj2 (Z.ltb_lt _ _)) by (unfold C_; lia). destruct (put_cell_ok S r k 0 v Hs ltac:(lia)) as (v1 & E1 & Hs1 & P1 & Q1).
    destruct (IH _ _ _ _ Hs1 ltac:(lia)) as (v' & E' & Hs' & P' & Q'). exists v'.
    erewrite bind_eq; [|exact E1]. split; [done|]. rewrite <- app_assoc in Hs'. split; [done|]. split; congruence.
Qed.
Lemma fill_line_mono n v s v' : fill_line n v = Done s v' -> forall m, (n <= m)%nat -> fill_line m v = Done s v'.
Proof.
  revert v. induction n as [|n IH]; intros v E m Hm; cbn [fill_line] in E; erewrite bind_eq in E by apply get_eq.
  - destruct m; cbn [fill_line]; (erewrite bind_eq; [|apply get_eq]); by destruct (pos_y v <? C_).
  - destruct m as [|m]; [lia|]. cbn [fill_line]. erewrite bind_eq; [|apply get_eq].
    destruct (pos_y v <? C_); [|done]. apply bind_Done in E as ([] & v1 & E1 & E). erewrite bind_eq; [|exact E1]. apply (IH v1 E). lia.
Qed.

(** Writing the cursor changes the ports only. *)
Definition out (l : list (Z * Z)) (v : vga) : vga :=
  mkVga (video_port v) (pos_x v) (pos_y v) (voff v) (vbase v) (buffer v) (offset v) (ports v ++ l).
Lemma shown_out S r k l v : shown S r k v -> shown S r k (out l v).
Proof. intros []. by split. Qed.
Lemma set_cursor_eq v : 0 <= pos_x v < 25 -> 0 <= pos_y v <= 80 -> set_cursor v = Done () (out (cursor_at v) v).
Proof.
  intros Hx Hy. unfold set_cursor. erewrite bind_eq; [|apply get_eq]. cbv zeta. unfold outb.
  erewrite bind_eq; [|apply modify_eq]. erewrite bind_eq; [|apply modify_eq]. erewrite bind_eq; [|apply modify_eq].
  rewrite modify_eq. unfold out, cursor_at. cbn -[Z.land Z.shiftr u8 u16]. rewrite <- !app_assoc. cbn [app]. unfold C_.
  set (p := pos_x v * 80 + pos_y v). assert (0 <= p < 2 ^ 16) as Hp by lia. rewrite !(wrap_small 16 p : _ -> u16 p = p) by done.
  pose proof (Z.mod_pos_bound p 256 ltac:(lia)). pose proof (Z.div_lt_upper_bound p 256 256 ltac:(lia) ltac:(lia)).
  pose proof (Z.div_pos p 256 ltac:(lia) ltac:(lia)).
  change 255 with (Z.ones 8). rewrite !Z.land_ones, Z.shiftr_div_pow2 by lia. change (2 ^ 8) with 256.
  assert (forall x, 0 <= x < 256 -> u8 x = x) as Hu by (intros; apply wrap_small; done).
  rewrite (Z.mod_small (p / 256)) by lia. by rewrite !Hu by lia.
Qed.
Lemma shown_cursor S r k v : shown S r k v -> set_cursor v = Done () (out (cursor_at v) v).
Proof. intros Hs. apply set_cursor_eq; [rewrite (sh_row S r k v Hs); lia|rewrite (sh_y S r k v Hs)]. pose proof (sh_col S r k v Hs). lia. Qed.

(** The ports are only appended to. *)
Definition more_ports (v v' : vga) : Prop := video_port v' = video_port v /\ ports v `prefix_of` ports v'.
Lemma more_refl v v' : same_ports v v' -> more_ports v v'.
Proof. intros [H1 H2]. split; [done|]. by rewrite H2. Qed.
Lemma more_out l v : more_ports v (out l v).
Proof. split; [done|]. by exists l. Qed.
Lemma more_trans v1 v2 v3 : more_ports v1 v2 -> more_ports v2 v3 -> more_ports v1 v3.
Proof. intros [H1 H2] [H3 H4]. split; [congruence|by etrans]. Qed.

Lemma line_feed_ok S r k v : shown S r k v ->
  exists v', line_feed v = Done () v' /\ shown (S ++ replicate (80 - k) 0) (r + 1) 0 v' /\ more_ports v v'.
Proof.
  intros Hs. pose proof (sh_col S r k v Hs) as Hk. destruct (fill_line_ok (80 - k) S r k v Hs ltac:(lia)) as (v1 & E1 & Hs1 & P1).
  set (T := S ++ replicate (80 - k) 0) in *. unfold line_feed. erewrite bind_eq; [|exact (fill_line_mono _ _ _ _ E1 80 ltac:(lia))].
  erewrite bind_eq; [|apply modify_eq]. erewrite bind_eq; [|apply get_eq].
  destruct Hs1 as [HL Hc Hv Hb Ho Hx Hy Hvo HR HS HB]. destruct (top_spec r) as (T1 & T2 & T3). destruct (top_spec (r + 1)) as (_ & U2 & U3).
  set (v2 := set_pos (u8 (pos_x v1 + 1)) 0 v1).
  assert (pos_x v2 = Z.of_nat (r `min` 24) + 1) as Hx2 by (cbn; rewrite Hx; apply wrap_small; lia).
  assert (exists v3, when (R_ <=? pos_x v2) (modify (fun v => set_pos (R_ - 1) (pos_y v) v);; blit) v2 = Done () v3
    /\ shown T (r + 1) 0 v3 /\ same_ports v2 v3) as (v3 & E3 & Hs3 & P3).
  { destruct (Z.leb_spec R_ (pos_x v2)) as [Hr|Hr]; cbn [when]; unfold R_ in Hr.
    - erewrite bind_eq; [|apply modify_eq]. destruct (blit_ok T (r + 1) (set_pos (R_ - 1) (pos_y v2) v2)) as (v3 & E3 & Hs3 & P3); try (done || lia).
      exists v3. auto.
    - exists v2. split; [done|]. split; [|done]. split; try (done || lia).
      + change (voff v1 = 2 * Z.of_nat (length T - 80 * top (r + 1))). rewrite U2, Hvo, T2 by lia. done.
      + intros i c Hi _. rewrite U2 by lia. rewrite T2 in HS by lia. apply HS; [done|lia]. }
  erewrite bind_eq; [|exact E3]. eexists. split; [apply (shown_cursor _ _ _ _ Hs3)|]. split; [by apply shown_out|].
  eapply more_trans; [|apply more_out]. apply more_refl. destruct P1, P3. split; (etrans; [eassumption|done]).
Qed.

Lemma shown_full S r k v : shown S r k v -> (k < 80)%nat -> screen_ok S v.
Proof.
  intros Hs Hk. unfold screen_ok. pose proof (sh_len S r k v Hs) as HL.
  assert (length S / 80 = r)%nat as -> by (symmetry; apply (Nat.div_unique _ 80 r k); lia).
  by assert (length S mod 80 = k)%nat as -> by (symmetry; apply (Nat.mod_unique _ 80 r k); lia).
Qed.

(** One character. *)
Lemma put_ok S v a : screen_ok S v -> exists v',
  (if a =? 10 then line_feed else put_cell a;; v ← get; when (C_ <=? pos_y v) line_feed) v = Done () v'
  /\ screen_ok (term_put S a) v' /\ more_ports v v'.
Proof.
  intros Hs. unfold screen_ok in Hs. set (r := (length S / 80)%nat) in *. pose proof (Nat.mod_upper_bound (length S) 80 ltac:(lia)) as Hk.
  unfold term_put, pad. set (k := (length S mod 80)%nat) in *. destruct (a =? 10).
  - destruct (line_feed_ok S r k v Hs) as (v' & E & Hs' & P). exists v'. split; [done|]. split; [|done]. apply (shown_full _ (r + 1) 0); [done|lia].
  - destruct (put_cell_ok S r k a v Hs Hk) as (v1 & E1 & Hs1 & P1). erewrite bind_eq; [|exact E1]. erewrite bind_eq; [|apply get_eq].
    rewrite (sh_y _ _ _ _ Hs1). destruct (Z.leb_spec C_ (Z.of_nat (k + 1))) as [H|H]; unfold C_ in H; cbn [when].
    + destruct (line_feed_ok _ _ _ _ Hs1) as (v' & E & Hs' & P). exists v'. split; [done|].
      split; [|eapply more_trans; [by apply more_refl|done]]. replace (80 - (k + 1))%nat with 0%nat in Hs' by lia.
      rewrite app_nil_r in Hs'. apply (shown_full _ (r + 1) 0); [done|lia].
    + exists v1. split; [done|]. split; [|by apply more_refl]. apply (shown_full _ r (k + 1)); [done|lia].
Qed.

Lemma puts_ok s : forall S v rest n, screen_ok S v -> Forall (fun a => a <> 0) s ->
  exists v', puts (s ++ 0 :: rest) n v = Done (n + Z.of_nat (length s)) v' /\ screen_ok (term_puts S s) v' /\ more_ports v v'.
Proof.
  induction s as [|a s IH]; intros S v rest n Hs Hz; cbn [app puts length].
  - exists v. split; [rewrite Z.add_0_r; done|]. split; [done|]. by apply more_refl.
  - apply Forall_cons in Hz as [Ha Hz]. rewrite (proj2 (Z.eqb_neq a 0)) by done.
    destruct (put_ok S v a Hs) as (v1 & E1 & Hs1 & P1). erewrite bind_eq; [|exact E1].
    destruct (IH _ v1 rest (n + 1) Hs1 Hz) as (v' & E & Hs' & P). exists v'.
    split; [rewrite E; f_equal; lia|]. split; [done|]. by eapply more_trans.
Qed.

Lemma vga_puts_ok S v s rest :
  screen_ok S v -> Forall (fun a => a <> 0) s ->
  exists v', vga_puts (s ++ 0 :: rest) v = Done (Z.of_nat (length s)) v' /\ screen_ok (term_puts S s) v'
    /\ more_ports v v' /\ exists l, ports v' = l ++ cursor_at v'.
Proof.
  intros Hs Hz. destruct (puts_ok s S v rest 0 Hs Hz) as (v1 & E & Hs1 & P). unfold vga_puts. erewrite bind_eq; [|exact E].
  erewrite bind_eq; [|apply (shown_cursor _ _ _ _ Hs1)]. eexists. split; [done|]. split; [by apply shown_out|].
  split; [eapply more_trans; [exact P|apply more_out]|]. by exists (ports v1).
Qed.

(** [vga_puts] writes a string as a terminal does: afterwards the cells of
    the text with the string appended, newlines filling their line, are in place
    -- all of them until the screen is full, from then on the last 23 full lines
    and the line of the cursor, the rest blank.  It returns the length of the
    string, never writes outside the screen, and ends by setting the cursor. *)
Theorem vga_puts_correct S v s rest :
  screen_ok S v -> Forall (fun a => a <> 0) s ->
  exists v', vga_puts (s ++ 0 :: rest) v = Done (Z.of_nat (length s)) v' /\ screen_ok (term_puts S s) v'
    /\ more_ports v v' /\ exists l, ports v' = l ++ cursor_at v'.
Proof. apply vga_puts_ok. Qed.

(** Where the cursor is shown: once the screen has scrolled it is a line below the
    line that is written. *)
Lemma cursor_line S v : screen_ok S v ->
  pos_x v = Z.of_nat ((length S / 80) `min` 24) /\ voff v / 160 = Z.of_nat (length S / 80 - top (length S / 80)).
Proof.
  intros Hs. split; [apply Hs|]. rewrite (sh_voff _ _ _ _ Hs). pose proof (Nat.div_mod_eq (length S) 80) as Ed.
  pose proof (Nat.mod_upper_bound (length S) 80 ltac:(lia)). set (r := (length S / 80)%nat) in *.
  destruct (top_spec r) as (Ht & _). symmetry. apply (Z.div_unique_pos _ 160 _ (2 * Z.of_nat (length S mod 80))); lia.
Qed.

(** The blank screen at the start. *)
Definition vga_init : vga := mkVga 0x3d4 0 0 0 (replicate (Z.to_nat 4096) 0) (replicate (Z.to_nat 4096) 0) 0 [].
Lemma vga_init_ok : screen_ok [] vga_init.
Proof.
  split; try done; try (intros i c H; by rewrite lookup_nil in H).
  - change (0 <= 80)%nat. lia.
  - intros H. exfalso. change (25 <= 0)%nat in H. lia.
Qed.

Lemma vga_puts_correct_witness : exists v', vga_puts ([104; 105; 10; 33] ++ [0]) vga_init = Done 4 v'
  /\ screen_ok (term_puts [] [104; 105; 10; 33]) v' /\ more_ports vga_init v' /\ exists l, ports v' = l ++ cursor_at v'.
Proof. apply (vga_puts_correct [] vga_init [104; 105; 10; 33] []); [exact vga_init_ok|by repeat constructor]. Defined.
