(* ===== verification/Keyboard.v ===== *)
(** The scan-code decoder, which the console server ([bin/console/main.c]) and the
    kernel's own keyboard driver ([sys/drivers/kbd.c]) share as text.

    What the two do with a key differs; [KeyOps] is what the decoder calls.  The
    decoder is proved once, for every such client. *)
From S2P Require Import Prelude Bits.

Inductive kstate := IDLE | E0_WAIT | E1_WAIT1 | E1_WAIT2.
#[export] Instance kstate_eq_dec : EqDecision kstate.
Proof. solve_decision. Defined.
Definition LCTRL_DOWN : Z := 1.
Definition RCTRL_DOWN : Z := 2.
Definition LSHIFT_DOWN : Z := 4.
Definition RSHIFT_DOWN : Z := 8.
Definition CAPS_LOCK : Z := 16.

Class KeyOps (S : Type) := {
  state : S -> kstate;
  state2 : S -> Z;
  set_state : kstate -> S -> S;
  set_state2 : Z -> S -> S;
  rctrl_hook : M S ();
  caps_hook : M S ();
  do_key : Z -> Z -> M S ();
  do_control_key : Z -> Z -> M S ()
}.

Definition key_map : list Z :=
  [0; 27] ++ chars "1234567890-=" ++ [127; 9] ++ chars "qwertyuiop[]" ++ [13; 0] ++ chars "asdfghjkl;'`" ++ [0; 92]
  ++ chars "zxcvbnm,./" ++ [0; 42; 0; 32] ++ replicate 16 0 ++ [45; 0; 0; 0; 43] ++ replicate 7 0 ++ [60] ++ replicate 10 0.
Definition shift_map : list Z :=
  [0; 27] ++ chars "!@#$%^&*()_+" ++ [127; 9] ++ chars "QWERTYUIOP{}" ++ [13; 0] ++ chars "ASDFGHJKL:" ++ [34; 126; 48; 124]
  ++ chars "ZXCVBNM<>?" ++ [0; 42; 0; 32] ++ replicate 16 0 ++ [45; 0; 0; 0; 43] ++ replicate 7 0 ++ [62] ++ replicate 10 0.

Definition is_letter (c : Z) : bool := ((97 <=? c) && (c <=? 122)) || ((65 <=? c) && (c <=? 90)).
(** The character of a key: the beginning of [do_key].  Reading behind the end of
    a table is [Faulted]; 0 is not printable. *)
Definition key_char {S} (st2 symbol : Z) : M S Z :=
  c ← deref (key_map !! Z.to_nat symbol);
  c ← (if negb (Z.land st2 12 =? 0) then deref (shift_map !! Z.to_nat symbol) else mret c);
  mret (if is_letter c && negb (Z.land st2 CAPS_LOCK =? 0) then Z.lxor c 32 else c).

Section decoder.
Context {S : Type} `{KeyOps S}.

Definition modifier (mask up : Z) : M S () :=
  modify (fun s => set_state2 (if negb (up =? 0) then Z.land (state2 s) (Z.lnot mask) else Z.lor (state2 s) mask) s).
Definition rctrl (up : Z) : M S () := modifier RCTRL_DOWN up;; rctrl_hook.
Definition lctrl (up : Z) : M S () := modifier LCTRL_DOWN up.
Definition rshift (up : Z) : M S () := modifier RSHIFT_DOWN up.
Definition lshift (up : Z) : M S () := modifier LSHIFT_DOWN up.
Definition caps (up : Z) : M S () :=
  if negb (up =? 0) then mret () else modify (fun s => set_state2 (Z.lxor (state2 s) CAPS_LOCK) s);; caps_hook.

Definition state_transition (symbol : Z) : M S () :=
  s ← get;
  match state s with
  | E1_WAIT1 => modify (set_state E1_WAIT2)
  | E1_WAIT2 => modify (set_state IDLE)
  | E0_WAIT =>
      let up := Z.land symbol 0x80 in
      let symbol := Z.land symbol 0x7f in
      when (symbol =? 0x1d) (rctrl up);;
      modify (set_state IDLE)
  | IDLE =>
      let up := Z.land symbol 0x80 in
      if symbol =? 0xe0 then modify (set_state E0_WAIT)
      else if symbol =? 0xe1 then modify (set_state E1_WAIT1)
      else if (0x3b <=? symbol) && (symbol <=? 0x58) then do_control_key (Z.land symbol 0x7f) up
      else
        let symbol := Z.land symbol 0x7f in
        if symbol =? 0x2a then lshift up
        else if symbol =? 0x36 then rshift up
        else if symbol =? 0x1d then lctrl up
        else if symbol =? 0x3a then caps up
        else if (symbol =? 0x0e) || (symbol =? 0x1c) || (symbol =? 0x0f) || (symbol =? 0x1) then do_control_key symbol up
        else do_key symbol up
  end.

Fixpoint transitions (l : list Z) : M S () :=
  match l with [] => mret () | c :: l => state_transition c;; transitions l end.
End decoder.

Lemma key_map_length : length key_map = 97%nat /\ length shift_map = 97%nat.
Proof. done. Qed.

(** ** Key events *)
(** [k]: a one-byte code; [Ext k]: one behind 0xe0; [Pause]: the three-byte code. *)
Inductive event := Key (k : Z) (up : bool) | Ext (k : Z) (up : bool) | Pause (a b : Z).
Definition up_bit (up : bool) : Z := if up then 0x80 else 0.
Definition encode (e : event) : list Z :=
  match e with
  | Key k up => [k + up_bit up]
  | Ext k up => [0xe0; k + up_bit up]
  | Pause a b => [0xe1; a; b]
  end.
(** 0xe0 and 0xe1 are no release codes. *)
Definition valid (e : event) : Prop :=
  match e with Key k up => 0 <= k < 0x80 /\ (up = true -> k <> 0x60 /\ k <> 0x61) | Ext k _ => 0 <= k < 0x80 | Pause _ _ => True end.

(** The codes below 128, one by one. *)
Lemma codes_ind (P : Z -> Prop) `{forall k, Decision (P k)} : Forall P (Z.of_nat <$> seq 0 128) -> forall k, 0 <= k < 0x80 -> P k.
Proof.
  rewrite Forall_forall. intros HP k Hk. apply HP. apply list_elem_of_fmap. exists (Z.to_nat k). split; [lia|]. apply elem_of_seq. lia.
Qed.
Lemma land_code k up : 0 <= k < 0x80 -> Z.land (k + up_bit up) 0x80 = up_bit up /\ Z.land (k + up_bit up) 0x7f = k.
Proof. revert k. apply codes_ind; [apply _|]. destruct up; apply (bool_decide_unpack _); vm_compute; done. Qed.

(** What the clients promise: the decoder's state is theirs to keep, not to use. *)
Definition after {S} (f : S -> S) (o : outcome S ()) : outcome S () :=
  match o with Done a s => Done a (f s) | Panicked msg => Panicked msg | Faulted => Faulted end.
Class KeyLaws (S : Type) `{KeyOps S} := {
  state_set k s : state (set_state k s) = k;
  set_state_set k k' s : set_state k (set_state k' s) = set_state k s;
  set_state_id s : set_state (state s) s = s;
  state2_set k s : state2 (set_state k s) = state2 s;
  set2_set k m s : set_state2 m (set_state k s) = set_state k (set_state2 m s);
  state_set2 m s : state (set_state2 m s) = state s;
  state2_set2 m s : state2 (set_state2 m s) = m;
  rctrl_set k s : rctrl_hook (set_state k s) = after (set_state k) (rctrl_hook s);
  rctrl_keeps s s' : rctrl_hook s = Done () s' -> state s' = state s /\ state2 s' = state2 s;
  caps_keeps s s' : caps_hook s = Done () s' -> state s' = state s /\ state2 s' = state2 s;
  key_keeps k u s s' : do_key k u s = Done () s' -> state s' = state s /\ state2 s' = state2 s;
  control_keeps k u s s' : do_control_key k u s = Done () s' -> state s' = state s /\ state2 s' = state2 s
}.

Section events.
Context {S : Type} `{KeyLaws S}.

(** What the decoder does with a key. *)
Definition handle (e : event) : M S () :=
  match e with
  | Key k up =>
      let u := up_bit up in
      if negb up && (0x3b <=? k) && (k <=? 0x58) then do_control_key k u
      else if k =? 0x2a then lshift u
      else if k =? 0x36 then rshift u
      else if k =? 0x1d then lctrl u
      else if k =? 0x3a then caps u
      else if (k =? 0x0e) || (k =? 0x1c) || (k =? 0x0f) || (k =? 0x1) then do_control_key k u
      else do_key k u
  | Ext k up => when (k =? 0x1d) (rctrl (up_bit up))
  | Pause _ _ => mret ()
  end.
Fixpoint handle_all (l : list event) : M S () :=
  match l with [] => mret () | e :: l => handle e;; handle_all l end.

(** The modifiers after an event. *)
Definition set_mod (mask : Z) (up : bool) (m : Z) : Z := if up then Z.land m (Z.lnot mask) else Z.lor m mask.
Definition mod_step (m : Z) (e : event) : Z :=
  match e with
  | Key k up =>
      if k =? 0x2a then set_mod LSHIFT_DOWN up m
      else if k =? 0x36 then set_mod RSHIFT_DOWN up m
      else if k =? 0x1d then set_mod LCTRL_DOWN up m
      else if k =? 0x3a then if up then m else Z.lxor m CAPS_LOCK
      else m
  | Ext k up => if k =? 0x1d then set_mod RCTRL_DOWN up m else m
  | Pause _ _ => m
  end.

Lemma transitions_app l1 l2 s : transitions (l1 ++ l2) s = (transitions l1;; transitions l2) s.
Proof.
  revert s. induction l1 as [|c l1 IH]; intros s; [done|]. cbn [app transitions]. unfold mbind, M_bind in *.
  destruct (state_transition c s) as [[] s1| |]; [apply IH|done..].
Qed.

Lemma decode_key k up s : valid (Key k up) -> state s = IDLE -> state_transition (k + up_bit up) s = handle (Key k up) s.
Proof.
  intros [Hk Hup] Hs. destruct (land_code k up Hk) as [E1 E2]. unfold state_transition. erewrite bind_eq; [|apply get_eq].
  rewrite Hs, E1, E2. cbv zeta. unfold handle.
  assert (k + up_bit up <> 0xe0 /\ k + up_bit up <> 0xe1) as [N1 N2] by (destruct up; unfold up_bit in *; [destruct (Hup eq_refl)|]; lia).
  rewrite !(proj2 (Z.eqb_neq _ _)) by done.
  assert ((0x3b <=? k + up_bit up) && (k + up_bit up <=? 0x58) = negb up && (0x3b <=? k) && (k <=? 0x58)) as ->.
  { destruct up; unfold up_bit; [|by rewrite Z.add_0_r]. cbn [negb andb]. apply andb_false_iff. right. apply Z.leb_gt. lia. }
  done.
Qed.

(** One byte of a longer sequence. *)
Lemma transition_eq c s : state_transition c s =
  match state s with
  | E1_WAIT1 => Done () (set_state E1_WAIT2 s)
  | E1_WAIT2 => Done () (set_state IDLE s)
  | E0_WAIT => (when (Z.land c 0x7f =? 0x1d) (rctrl (Z.land c 0x80));; modify (set_state IDLE)) s
  | IDLE => state_transition c s
  end.
Proof. unfold state_transition. erewrite bind_eq; [|apply get_eq]. by destruct (state s). Qed.
Lemma transition_prefix c k s : state s = IDLE -> (c, k) ∈ [(0xe0, E0_WAIT); (0xe1, E1_WAIT1)] ->
  state_transition c s = Done () (set_state k s).
Proof.
  intros Hs Hc. unfold state_transition. erewrite bind_eq; [|apply get_eq]. rewrite Hs.
  apply elem_of_cons in Hc as [[= -> ->]|[= -> ->]%list_elem_of_singleton]; done.
Qed.

Lemma rctrl_set_state k up s : rctrl up (set_state k s) = after (set_state k) (rctrl up s).
Proof. unfold rctrl, modifier. do 2 (erewrite bind_eq; [|apply modify_eq]). rewrite state2_set, set2_set. apply rctrl_set. Qed.
Lemma rctrl_keeps_all up s s' : rctrl (up_bit up) s = Done () s' -> state s' = state s /\ state2 s' = set_mod RCTRL_DOWN up (state2 s).
Proof.
  unfold rctrl, modifier. erewrite bind_eq; [|apply modify_eq]. intros [-> ->]%rctrl_keeps. rewrite state_set2, state2_set2.
  by destruct up.
Qed.

Lemma decode_ext k up s : 0 <= k < 0x80 -> state s = IDLE -> transitions [0xe0; k + up_bit up] s = handle (Ext k up) s.
Proof.
  intros Hk Hs. destruct (land_code k up Hk) as [E1 E2]. cbn [transitions]. erewrite bind_eq; [|apply (transition_prefix _ E0_WAIT); [done|by left]].
  unfold mbind at 1, M_bind. rewrite transition_eq, state_set, E1, E2. cbn [handle].
  destruct (k =? 0x1d); cbn [when].
  - unfold mbind, M_bind. rewrite rctrl_set_state. destruct (rctrl (up_bit up) s) as [[] s1| |] eqn:E; cbn; [|done..].
    apply rctrl_keeps_all in E as [E _]. unfold modify, mret, M_ret. by rewrite set_state_set, <- Hs, <- E, set_state_id.
  - transitivity (Done () (set_state IDLE (set_state E0_WAIT s))); [reflexivity|]. unfold mret, M_ret. by rewrite set_state_set, <- Hs, set_state_id.
Qed.
Lemma decode_pause a b s : state s = IDLE -> transitions [0xe1; a; b] s = handle (Pause a b) s.
Proof.
  intros Hs. cbn [transitions]. erewrite bind_eq; [|apply (transition_prefix _ E1_WAIT1); [done|by right; left]].
  erewrite bind_eq; [|rewrite transition_eq, state_set; reflexivity]. erewrite bind_eq; [|rewrite transition_eq, state_set; reflexivity].
  cbn [handle]. unfold mret, M_ret. by rewrite !set_state_set, <- Hs, set_state_id.
Qed.
Lemma decode e s : valid e -> state s = IDLE -> transitions (encode e) s = handle e s.
Proof.
  intros He Hs. destruct e as [k up|k up|a b]; cbn [encode].
  - cbn [transitions]. unfold mbind, M_bind. rewrite decode_key by done. by destruct (handle _ s) as [[] | |].
  - by apply decode_ext.
  - by apply decode_pause.
Qed.

Lemma modifier_keeps mask up s s' : modifier mask (up_bit up) s = Done () s' -> state s' = state s /\ state2 s' = set_mod mask up (state2 s).
Proof. unfold modifier. rewrite modify_eq. intros [= <-]. rewrite state_set2, state2_set2. by destruct up. Qed.
Lemma caps_keeps_all up s s' : caps (up_bit up) s = Done () s' ->
  state s' = state s /\ state2 s' = if up then state2 s else Z.lxor (state2 s) CAPS_LOCK.
Proof.
  unfold caps. destruct up; cbn [up_bit Z.eqb negb]; [by intros [= <-]|]. erewrite bind_eq; [|apply modify_eq].
  intros [-> ->]%caps_keeps. by rewrite state_set2, state2_set2.
Qed.
Lemma handle_keeps e s s' : handle e s = Done () s' -> state s' = state s /\ state2 s' = mod_step (state2 s) e.
Proof.
  destruct e as [k up|k up|a b]; cbn [handle mod_step]; [|destruct (k =? 0x1d); [apply rctrl_keeps_all|by intros [= <-]]|by intros [= <-]].
  destruct (negb up && (0x3b <=? k) && (k <=? 0x58)) eqn:E.
  - intros Hd%control_keeps. bool_to_prop. rewrite !(proj2 (Z.eqb_neq _ _)) by lia. done.
  - destruct (k =? 0x2a); [apply modifier_keeps|]. destruct (k =? 0x36); [apply modifier_keeps|].
    destruct (k =? 0x1d); [apply modifier_keeps|]. destruct (k =? 0x3a); [apply caps_keeps_all|].
    destruct (_ || _); [apply control_keeps|apply key_keeps].
Qed.

Lemma decode_all evs : forall s, Forall valid evs -> state s = IDLE ->
  transitions (concat (encode <$> evs)) s = handle_all evs s
  /\ forall s', handle_all evs s = Done () s' -> state s' = IDLE /\ state2 s' = foldl mod_step (state2 s) evs.
Proof.
  induction evs as [|e evs IH]; intros s Hv Hs; [split; [done|by intros s' [= <-]]|]. apply Forall_cons in Hv as [He Hv].
  cbn [fmap list_fmap concat handle_all foldl]. rewrite transitions_app. unfold mbind, M_bind. rewrite (decode e s He Hs).
  destruct (handle e s) as [[] s1| |] eqn:E; [|by split..]. apply handle_keeps in E as [E1 E2]. rewrite <- E2.
  apply IH; [done|congruence].
Qed.
End events.

(** The modifiers are what the keys last did. *)
Definition mod_event (e : event) : option (Z * bool) :=
  match e with
  | Key k up => if k =? 0x2a then Some (2, negb up) else if k =? 0x36 then Some (3, negb up)
      else if k =? 0x1d then Some (0, negb up) else None
  | Ext k up => if k =? 0x1d then Some (1, negb up) else None
  | Pause _ _ => None
  end.
Definition down (i : Z) (b : bool) (e : event) : bool :=
  match mod_event e with Some (j, d) => if j =? i then d else b | None => b end.

Lemma set_mod_testbit i j up m : 0 <= i -> 0 <= j -> Z.testbit (set_mod (2 ^ j) up m) i = if j =? i then negb up else Z.testbit m i.
Proof.
  intros Hi Hj. unfold set_mod. destruct up; autorewrite with zbits; try done.
  - rewrite Z.pow2_bits_eqb by done. destruct (j =? i); [by rewrite andb_false_r|by rewrite andb_true_r].
  - rewrite Z.pow2_bits_eqb by done. destruct (j =? i); [by rewrite orb_true_r|by rewrite orb_false_r].
Qed.
Lemma mod_step_down i m e : 0 <= i < 4 -> Z.testbit (mod_step m e) i = down i (Z.testbit m i) e.
Proof.
  intros Hi. unfold down, mod_event. destruct e as [k up|k up|a b]; cbn [mod_step]; [| |done].
  - destruct (k =? 0x2a); [apply (set_mod_testbit i 2); lia|]. destruct (k =? 0x36); [apply (set_mod_testbit i 3); lia|].
    destruct (k =? 0x1d); [apply (set_mod_testbit i 0); lia|]. destruct (k =? 0x3a); [|done]. destruct up; [done|].
    change CAPS_LOCK with (2 ^ 4). rewrite Z.lxor_spec, Z.pow2_bits_eqb by lia. rewrite (proj2 (Z.eqb_neq 4 i)) by lia. apply xorb_false_r.
  - destruct (k =? 0x1d); [apply (set_mod_testbit i 1); lia|done].
Qed.
Lemma mods_down i evs : 0 <= i < 4 -> forall m, Z.testbit (foldl mod_step m evs) i = foldl (down i) (Z.testbit m i) evs.
Proof. intros Hi. induction evs as [|e evs IH]; intros m; [done|]. cbn [foldl]. by rewrite IH, mod_step_down. Qed.

(** C24: for every client that keeps the interface, the bytes of a sequence of key
    events have the effect of the events one after the other: a code behind 0xe0
    is only ever the right control key, the codes of the pause key do nothing, and
    no byte of a longer code is taken for a key.  Afterwards each modifier bit
    says whether its key was last pressed or released. *)
Theorem keyboard_decodes {S} `{KeyLaws S} (evs : list event) (s : S) :
  Forall valid evs -> state s = IDLE ->
  transitions (concat (encode <$> evs)) s = handle_all evs s
  /\ forall s', handle_all evs s = Done () s' -> state s' = IDLE
     /\ forall i, 0 <= i < 4 -> Z.testbit (state2 s') i = foldl (down i) (Z.testbit (state2 s) i) evs.
Proof.
  intros Hv Hs. destruct (decode_all evs s Hv Hs) as [E Hk]. split; [done|]. intros s' Hs'. destruct (Hk s' Hs') as [H1 H2].
  split; [done|]. intros i Hi. rewrite H2. by apply mods_down.
Qed.
