(* ===== verification/Console.v ===== *)
(** The console server, [bin/console/main.c]: keyboard input gathered into lines,
    lines handed to readers, output to the screen.

    [line_buffer] and the elements of [readable_lines] are pointers into the heap
    of [Malloc]; [bufs] has the bytes of the line buffers in use, and [garbage] what the
    buffers that [malloc] is going to return hold: any bytes, [malloc] does not clear
    a block, and those of freed lines and responses come back in it.  Accesses outside a buffer, and
    [free] of anything but the start of one, are [Faulted].  [ins] are the bytes
    that [inb] will read, 0 after the last of them; [sent] what the server does to
    its clients and to its address space. *)
From S2P Require Import Prelude Bits Ioreq Malloc Vga Keyboard.

Definition EIO : Z := 5.

Inductive action :=
| Respond (fd err len : Z) (data : list Z)
| Munmap (base len : Z).

Record console := mkConsole {
  scr : vga;
  c_state : kstate;
  c_state2 : Z;
  line_buffer : Z;
  lbend : Z;
  readable_lines : list Z;
  rl_off : Z;
  rlh : Z;
  rlt : Z;
  pending_read : list Z;
  pending_read_len : list Z;
  ph : Z;
  pt : Z;
  control_pid : Z;
  hp : heap;
  bufs : gmap Z (list Z);
  garbage : list (list Z);
  ins : list Z;
  sent : list action;
}.

(** ** Fields *)
Definition set_scr (v : vga) (s : console) : console :=
  mkConsole v (c_state s) (c_state2 s) (line_buffer s) (lbend s) (readable_lines s) (rl_off s) (rlh s) (rlt s)
    (pending_read s) (pending_read_len s) (ph s) (pt s) (control_pid s) (hp s) (bufs s) (garbage s) (ins s) (sent s).
Definition set_kbd (k : kstate) (m : Z) (s : console) : console :=
  mkConsole (scr s) k m (line_buffer s) (lbend s) (readable_lines s) (rl_off s) (rlh s) (rlt s)
    (pending_read s) (pending_read_len s) (ph s) (pt s) (control_pid s) (hp s) (bufs s) (garbage s) (ins s) (sent s).
Definition set_line (p e : Z) (s : console) : console :=
  mkConsole (scr s) (c_state s) (c_state2 s) p e (readable_lines s) (rl_off s) (rlh s) (rlt s)
    (pending_read s) (pending_read_len s) (ph s) (pt s) (control_pid s) (hp s) (bufs s) (garbage s) (ins s) (sent s).
Definition set_lines (l : list Z) (o h t : Z) (s : console) : console :=
  mkConsole (scr s) (c_state s) (c_state2 s) (line_buffer s) (lbend s) l o h t
    (pending_read s) (pending_read_len s) (ph s) (pt s) (control_pid s) (hp s) (bufs s) (garbage s) (ins s) (sent s).
Definition set_pending (l l2 : list Z) (h t : Z) (s : console) : console :=
  mkConsole (scr s) (c_state s) (c_state2 s) (line_buffer s) (lbend s) (readable_lines s) (rl_off s) (rlh s) (rlt s)
    l l2 h t (control_pid s) (hp s) (bufs s) (garbage s) (ins s) (sent s).
Definition set_control (p : Z) (s : console) : console :=
  mkConsole (scr s) (c_state s) (c_state2 s) (line_buffer s) (lbend s) (readable_lines s) (rl_off s) (rlh s) (rlt s)
    (pending_read s) (pending_read_len s) (ph s) (pt s) p (hp s) (bufs s) (garbage s) (ins s) (sent s).
Definition set_mem (h : heap) (b : gmap Z (list Z)) (g : list (list Z)) (s : console) : console :=
  mkConsole (scr s) (c_state s) (c_state2 s) (line_buffer s) (lbend s) (readable_lines s) (rl_off s) (rlh s) (rlt s)
    (pending_read s) (pending_read_len s) (ph s) (pt s) (control_pid s) h b g (ins s) (sent s).
Definition set_io (i : list Z) (o : list action) (s : console) : console :=
  mkConsole (scr s) (c_state s) (c_state2 s) (line_buffer s) (lbend s) (readable_lines s) (rl_off s) (rlh s) (rlt s)
    (pending_read s) (pending_read_len s) (ph s) (pt s) (control_pid s) (hp s) (bufs s) (garbage s) i o.

Definition on_screen {A} (m : M vga A) : M console A := fun s =>
  match m (scr s) with Done a v => Done a (set_scr v s) | Panicked msg => Panicked msg | Faulted => Faulted end.
Definition on_heap {A} (m : M heap A) : M console A := fun s =>
  match m (hp s) with Done a h => Done a (set_mem h (bufs s) (garbage s) s) | Panicked msg => Panicked msg | Faulted => Faulted end.

(** ** Memory and ports *)
Definition inb (port : Z) : M console Z := fun s =>
  Done (default 0 (head (ins s))) (set_io (tail (ins s)) (sent s) s).
Definition send (a : action) : M console () := modify (fun s => set_io (ins s) (sent s ++ [a]) s).

(** [malloc(1024)] for a line: the bytes are whatever the block holds. *)
Definition new_line : M console Z :=
  p ← on_heap (malloc 1024);
  if p =? 0 then mret 0
  else modify (fun s => set_mem (hp s) (<[p := default (replicate 1024 0) (head (garbage s))]> (bufs s)) (tail (garbage s)) s);; mret p.
(** The block goes back to the heap, bytes and all. *)
Definition free_line (p : Z) : M console () :=
  s ← get;
  match bufs s !! p with
  | None => fault
  | Some _ => on_heap (free p);; modify (fun s => set_mem (hp s) (delete p (bufs s)) (garbage s) s)
  end.
(** [line_buffer[lbend++] = b] *)
Definition put_char (b : Z) : M console () :=
  s ← get;
  l ← deref (bufs s !! line_buffer s);
  if (0 <=? lbend s) && (lbend s <? Z.of_nat (length l)) then
    put (set_line (line_buffer s) (lbend s + 1) (set_mem (hp s) (<[line_buffer s := <[Z.to_nat (lbend s) := b]> l]> (bufs s)) (garbage s) s))
  else fault.
(** [line_buffer[lbend] = 0] *)
Definition end_line : M console () := put_char 0;; modify (fun s => set_line (line_buffer s) (lbend s - 1) s).

(** The string that starts at [l], which must be terminated. *)
Fixpoint string_of (l : list Z) : option (list Z) :=
  match l with [] => None | c :: l => if c =? 0 then Some [] else s ← string_of l; Some (c :: s) end.
(** [strncpy] to fresh memory: the bytes written. *)
Fixpoint strncpy_out (src : list Z) (count : nat) : list Z :=
  match count, src with S n, c :: l => if c =? 0 then [0] else c :: strncpy_out l n | _, _ => [0] end.
Definition nth_ (l : list Z) (i : Z) : M console Z := if i <? 0 then fault else deref (l !! Z.to_nat i).

(** ** Keys *)
Definition con_do_key (symbol up : Z) : M console () :=
  if negb (up =? 0) then mret ()
  else
    s ← get;
    c ← key_char (c_state2 s) symbol;
    if c =? 0 then mret ()
    else if negb (Z.land (c_state2 s) 3 =? 0) then mret ()
    else if 1023 <=? lbend s then mret ()
    else put_char c;; end_line;; on_screen (vga_puts [c; 0]);; mret ().

Definition enter : M console () :=
  s ← get;
  if Z.land (rlt s + 1) 1023 =? rlh s then mret ()
  else
    when (lbend s <? 1024) (put_char 10);;
    modify (fun s => set_lines (<[Z.to_nat (rlt s) := line_buffer s]> (readable_lines s)) (rl_off s) (rlh s) (Z.land (rlt s + 1) 1023) s);;
    p ← new_line;
    modify (set_line p 0);;
    on_screen line_feed.

Definition con_do_control_key (symbol up : Z) : M console () :=
  if negb (up =? 0) then mret ()
  else if (0x3B <=? symbol) && (symbol <? 0x44) then mret ()
  else if symbol =? 0x1c then enter
  else if symbol =? 0x0f then s ← get; when (lbend s <? 1024) (put_char 9)
  else mret ().

#[export] Instance console_keys : KeyOps console := {
  state := c_state; state2 := c_state2;
  set_state k s := set_kbd k (c_state2 s) s; set_state2 m s := set_kbd (c_state s) m s;
  rctrl_hook := mret (); caps_hook := mret ();
  do_key := con_do_key; do_control_key := con_do_control_key
}.

Fixpoint kbd_loop (fuel : nat) (x : Z) : M console () :=
  if Z.land x 1 =? 0 then mret ()
  else
    match fuel with
    | O => fault
    | S fuel => c ← inb 0x60; x ← inb 0x64; state_transition c;; kbd_loop fuel x
    end.
Definition handle_kbd : M console () :=
  s ← get;
  x ← inb 0x64; kbd_loop (length (ins s)) x.

(** ** Readers *)
Definition send_result (fd len : Z) : M console () :=
  s ← get;
  p ← nth_ (readable_lines s) (rlh s);
  b ← deref (bufs s !! p);
  str ← deref (string_of (drop (Z.to_nat (rl_off s)) b));
  let src := p + rl_off s in
  let n := Z.of_nat (length str) in
  '(len, need_free) ← (if n <=? u64 len then
      modify (fun s => set_lines (readable_lines s) 0 (Z.land (rlh s + 1) 1023) (rlt s) s);; mret (n, true)
    else modify (fun s => set_lines (readable_lines s) (rl_off s + len) (rlh s) (rlt s) s);; mret (len, false));
  rx ← on_heap (malloc (sizeof_io_res + len + 1));
  if rx =? 0 then fault
  else
    when need_free (free_line src);;
    send (Respond fd 0 len (strncpy_out (drop (Z.to_nat (rl_off s)) b) (Z.to_nat len)));;
    on_heap (free rx).

(** [while(rlt != rlh && pt != ph)] *)
Fixpoint drain (fuel : nat) : M console () :=
  s ← get;
  if negb (rlt s =? rlh s) && negb (pt s =? ph s) then
    match fuel with
    | O => fault
    | S fuel =>
        rh ← nth_ (pending_read s) (ph s);
        rlen ← nth_ (pending_read_len s) (ph s);
        modify (fun s => set_pending (pending_read s) (pending_read_len s) (Z.land (ph s + 1) 1023) (pt s) s);;
        send_result rh rlen;;
        drain fuel
    end
  else mret ().

(** A request: the handle and the process it came from, its [struct io_req], the
    bytes behind it, where it was mapped. *)
Record io_request := mkIo { q_handle : Z; q_pid : Z; q_type : Z; q_len : Z; q_text : list Z; q_buf : Z; q_size : Z }.

Definition handle_request (q : io_request) : M console () :=
  s ← get;
  (if q_type q =? IO_READ then
     if negb (q_pid q =? control_pid s) then send (Respond (q_handle q) EIO 0 [])
     else if rlt s =? rlh s then
       modify (fun s => set_pending (<[Z.to_nat (pt s) := q_handle q]> (pending_read s))
         (<[Z.to_nat (pt s) := i32 (q_len q)]> (pending_read_len s)) (ph s) (Z.land (pt s + 1) 1023) s)
     else send_result (q_handle q) (i32 (q_len q))
   else if q_type q =? IO_WRITE then
     on_screen (vga_puts (q_text q));;
     str ← deref (string_of (q_text q));
     send (Respond (q_handle q) 0 (Z.of_nat (length str)) [])
   else if q_type q =? 3 then
     modify (set_control (q_pid q));;
     on_screen (vga_puts (chars "Request to switch foreground task" ++ [0]));;
     on_screen line_feed
   else mret ());;
  send (Munmap (ALIGN (q_buf q) 12) (q_size q)).

(** The body of the main loop: [kbd] and [req] are what [wait_on] reports ready. *)
Definition serve (kbd : bool) (req : option io_request) : M console () :=
  when kbd handle_kbd;;
  drain 1024;;
  match req with Some q => handle_request q | None => mret () end.

(** ** Start *)
Fixpoint kbd_wait (bit : Z) (fuel : nat) : M console () :=
  x ← inb 0x64;
  if Z.land x bit =? 0 then match fuel with O => fault | S fuel => kbd_wait bit fuel end else mret ().
Definition kbd_wait_output : M console () := s ← get; kbd_wait 1 (length (ins s)).
Definition kbd_wait_input : M console () := s ← get; kbd_wait 2 (length (ins s)).
(** Turning on the interrupt of the keyboard, and the first line buffer. *)
Definition enable_kbd : M console () :=
  on_screen (outb 0x64 0x20);;
  kbd_wait_output;;
  x ← inb 0x60;
  when (Z.land x 1 =? 0)
    (on_screen (outb 0x64 0x60);; kbd_wait_input;; on_screen (outb 0x60 (Z.lor x 1)));;
  p ← new_line;
  modify (fun s => set_line p (lbend s) s).
