(* ===== verification/ConsoleProofs.v ===== *)
(** The console server refines a terminal: typed keys gather into a line, complete
    lines queue up, readers queue up, and each reader gets the oldest line or the
    beginning of it.

    A line is a buffer from the heap, and what an earlier use left in it is still
    there: [t_left] are the bytes behind the line being typed, [t_heap] those of the
    buffers to come.  Nothing is assumed of either.  [tty] is the specification, [sim] the relation to the state of the server.  The
    heap of the server is the one of [MallocProofs]; [sim n] says that [n] more
    pages can be had. *)
From S2P Require Import Prelude Bits Malloc MallocProofs Ioreq Vga Keyboard Console.

(** ** The terminal *)
Record tty := mkTty {
  t_mods : Z;
  t_text : list Z;
  t_line : list Z;
  t_lines : list (list Z);
  t_off : nat;
  t_wait : list (Z * Z);
  t_pid : Z;
  t_sent : list action;
  t_left : list Z;
  t_heap : list (list Z);
}.

(** [None]: the terminal is not meant for this. *)
Definition char_of (m k : Z) : option Z :=
  c ← key_map !! Z.to_nat k;
  c ← (if negb (Z.land m 12 =? 0) then shift_map !! Z.to_nat k else Some c);
  Some (if is_letter c && negb (Z.land m CAPS_LOCK =? 0) then Z.lxor c 32 else c).
Definition t_key (k : Z) (t : tty) : option tty :=
  c ← char_of (t_mods t) k;
  if (c =? 0) || negb (Z.land (t_mods t) 3 =? 0) || (1023 <=? Z.of_nat (length (t_line t))) then Some t
  else Some (mkTty (t_mods t) (term_put (t_text t) c) (t_line t ++ [c]) (t_lines t) (t_off t) (t_wait t) (t_pid t) (t_sent t) (<[0%nat := 0]> (tail (t_left t))) (t_heap t)).
(** Enter ends a line with a newline, and not with a 0: what is left in the buffer behind it,
    up to a 0, belongs to the line.  The terminal is not meant for a buffer without one. *)
Definition t_enter (t : tty) : option tty :=
  if decide (length (t_lines t) = 1023%nat) then Some t
  else
    left ← string_of (tail (t_left t));
    Some (mkTty (t_mods t) (term_put (t_text t) 10) [] (t_lines t ++ [(t_line t ++ [10]) ++ left]) (t_off t) (t_wait t) (t_pid t) (t_sent t)
      (default (replicate 1024 0) (head (t_heap t))) (tail (t_heap t))).
Definition t_tab (t : tty) : option tty :=
  if decide (length (t_line t) = 1024%nat) then Some t
  else Some (mkTty (t_mods t) (t_text t) (t_line t ++ [9]) (t_lines t) (t_off t) (t_wait t) (t_pid t) (t_sent t) (tail (t_left t)) (t_heap t)).

Definition with_mods (m : Z) (t : tty) : tty :=
  mkTty m (t_text t) (t_line t) (t_lines t) (t_off t) (t_wait t) (t_pid t) (t_sent t) (t_left t) (t_heap t).
Definition t_event (t : tty) (e : event) : option tty :=
  match e with
  | Key k false =>
      if (k =? 0x2a) || (k =? 0x36) || (k =? 0x1d) || (k =? 0x3a) then Some (with_mods (mod_step (t_mods t) e) t)
      else if k =? 0x1c then t_enter t
      else if k =? 0x0f then t_tab t
      else if (k =? 0x0e) || (k =? 0x1) || ((0x3b <=? k) && (k <=? 0x58)) then Some t
      else t_key k t
  | _ => Some (with_mods (mod_step (t_mods t) e) t)
  end.
Fixpoint t_events (evs : list event) (t : tty) : option tty :=
  match evs with [] => Some t | e :: evs => t ← t_event t e; t_events evs t end.

(** A reader gets the oldest line, or the first [n] bytes of it; the server cannot
    finish a line of which a part was read before. *)
Definition t_send (fd n : Z) (t : tty) : option tty :=
  match t_lines t with
  | [] => None
  | l :: ls =>
      let rest := drop (t_off t) l in
      let answer d := t_sent t ++ [Respond fd 0 (Z.of_nat (length d)) (d ++ [0])] in
      if Z.of_nat (length rest) <=? u64 n then
        if decide (t_off t = 0%nat) then
          Some (mkTty (t_mods t) (t_text t) (t_line t) ls 0 (t_wait t) (t_pid t) (answer rest) (t_left t) (t_heap t))
        else None
      else
        Some (mkTty (t_mods t) (t_text t) (t_line t) (l :: ls) (t_off t + Z.to_nat n) (t_wait t) (t_pid t)
          (answer (take (Z.to_nat n) rest)) (t_left t) (t_heap t))
  end.
Definition with_wait (w : list (Z * Z)) (t : tty) : tty :=
  mkTty (t_mods t) (t_text t) (t_line t) (t_lines t) (t_off t) w (t_pid t) (t_sent t) (t_left t) (t_heap t).
Fixpoint t_drain (w : list (Z * Z)) (t : tty) : option tty :=
  match w with
  | [] => Some (with_wait [] t)
  | (fd, n) :: w' =>
      match t_lines t with [] => Some (with_wait w t) | _ => t ← t_send fd n (with_wait w' t); t_drain w' t end
  end.
Definition t_out (a : action) (t : tty) : tty :=
  mkTty (t_mods t) (t_text t) (t_line t) (t_lines t) (t_off t) (t_wait t) (t_pid t) (t_sent t ++ [a]) (t_left t) (t_heap t).
Definition t_print (s : list Z) (t : tty) : tty :=
  mkTty (t_mods t) (term_puts (t_text t) s) (t_line t) (t_lines t) (t_off t) (t_wait t) (t_pid t) (t_sent t) (t_left t) (t_heap t).
Definition t_request (q : io_request) (t : tty) : option tty :=
  t ← (if q_type q =? IO_READ then
         if negb (q_pid q =? t_pid t) then Some (t_out (Respond (q_handle q) EIO 0 []) t)
         else match t_lines t with
              | [] => if decide (length (t_wait t) < 1023)%nat then Some (with_wait (t_wait t ++ [(q_handle q, i32 (q_len q))]) t) else None
              | _ => t_send (q_handle q) (i32 (q_len q)) t
              end
       else if q_type q =? IO_WRITE then
         str ← string_of (q_text q);
         Some (t_out (Respond (q_handle q) 0 (Z.of_nat (length str)) []) (t_print str t))
       else if q_type q =? 3 then
         let t := t_print (chars "Request to switch foreground task" ++ [10]) t in
         Some (mkTty (t_mods t) (t_text t) (t_line t) (t_lines t) (t_off t) (t_wait t) (q_pid q) (t_sent t) (t_left t) (t_heap t))
       else Some t);
  Some (t_out (Munmap (ALIGN (q_buf q) 12) (q_size q)) t).

(** ** Rings of 1024 *)
Definition ring (l : list Z) (h t : Z) (q : list Z) : Prop :=
  length l = 1024%nat /\ 0 <= h < 1024 /\ (length q < 1024)%nat /\ t = (h + Z.of_nat (length q)) mod 1024
  /\ forall i x, q !! i = Some x -> l !! Z.to_nat ((h + Z.of_nat i) mod 1024) = Some x.

Lemma land_1023 x : Z.land x 1023 = x mod 1024.
Proof. change 1023 with (Z.ones 10). by rewrite Z.land_ones. Qed.

Section ring.
Context (l : list Z) (h t : Z) (q : list Z) (Hr : ring l h t q).
Lemma ring_empty : t = h <-> q = [].
Proof.
  destruct Hr as (_ & Hh & Hq & -> & _). split; intros E.
  - destruct q as [|x q']; [done|]. exfalso. pose proof (Z.div_mod (h + Z.of_nat (length (x :: q'))) 1024 ltac:(lia)) as Ed.
    rewrite E in Ed. cbn [length] in *. nia.
  - subst q. cbn. rewrite Z.add_0_r. by apply Z.mod_small.
Qed.
Lemma ring_full : Z.land (t + 1) 1023 = h <-> length q = 1023%nat.
Proof.
  destruct Hr as (_ & Hh & Hq & -> & _). rewrite land_1023, Z.add_mod_idemp_l by lia. split; intros E.
  - pose proof (Z.div_mod (h + Z.of_nat (length q) + 1) 1024 ltac:(lia)) as Ed. rewrite E in Ed. nia.
  - rewrite E. replace (h + Z.of_nat 1023 + 1) with (h + 1 * 1024) by lia. rewrite Z.mod_add by lia. by apply Z.mod_small.
Qed.
Lemma ring_head x q' : q = x :: q' -> l !! Z.to_nat h = Some x.
Proof. intros ->. destruct Hr as (_ & Hh & _ & _ & Hl). specialize (Hl 0%nat x eq_refl). by rewrite Z.add_0_r, Z.mod_small in Hl. Qed.
Lemma ring_bounds : 0 <= h < 1024 /\ 0 <= t < 1024.
Proof. destruct Hr as (_ & Hh & _ & -> & _). split; [done|]. by apply Z.mod_pos_bound. Qed.
Lemma ring_push x : length q <> 1023%nat -> ring (<[Z.to_nat t := x]> l) h (Z.land (t + 1) 1023) (q ++ [x]).
Proof.
  intros Hf. destruct Hr as (Hl & Hh & Hq & Ht & Hi). rewrite land_1023. unfold ring. rewrite length_insert, length_app. cbn [length].
  split_and!; try (done || lia).
  - rewrite Ht, Z.add_mod_idemp_l by lia. f_equal. lia.
  - intros i y Hy. apply lookup_app_Some in Hy as [Hy|[Hy1 Hy2]].
    + pose proof (lookup_lt_Some _ _ _ Hy). rewrite list_lookup_insert_ne; [by apply Hi|]. intros E.
      apply Z2Nat.inj in E; [|rewrite Ht; by apply Z.mod_pos_bound..|by apply Z.mod_pos_bound].
      pose proof (Z.div_mod (h + Z.of_nat (length q)) 1024 ltac:(lia)). pose proof (Z.div_mod (h + Z.of_nat i) 1024 ltac:(lia)). nia.
    + apply list_lookup_singleton_Some in Hy2 as [Hy2 ->]. replace i with (length q) by lia. rewrite <- Ht.
      apply list_lookup_insert_eq. pose proof ring_bounds. lia.
Qed.
Lemma ring_pop x q' : q = x :: q' -> ring l (Z.land (h + 1) 1023) t q'.
Proof.
  intros ->. destruct Hr as (Hl & Hh & Hq & Ht & Hi). rewrite land_1023. cbn [length] in *. unfold ring. split_and!; try (done || lia).
  - by apply Z.mod_pos_bound.
  - by apply Z.mod_pos_bound.
  - rewrite Ht, Z.add_mod_idemp_l by lia. f_equal. lia.
  - intros i y Hy. rewrite Z.add_mod_idemp_l by lia. replace (h + 1 + Z.of_nat i) with (h + Z.of_nat (S i)) by lia. by apply Hi.
Qed.
End ring.

(** ** The heap *)
(** [n] pages can be had; [l] are pointers in use with the orders of their blocks. *)
Definition heap_sim (n : nat) (l : list (Z * Z)) (h : heap) : Prop :=
  exists B, heap_ok B ∅ h /\ pages_ok B ∅ h /\ 0 ∉ maps h /\ (n <= length (maps h))%nat /\ NoDup l.*1
    /\ forall p o, (p, o) ∈ l -> B !! (p - sizeof_hdr) = Some (o, false) /\ o < 12.

Lemma heap_sim_le n m l h : heap_sim n l h -> (m <= n)%nat -> heap_sim m l h.
Proof. intros (B & H1 & H2 & H3 & H4 & H5) Hm. exists B. split_and!; (done || lia || apply H5). Qed.
Lemma heap_sim_perm n l l' h : heap_sim n l h -> l ≡ₚ l' -> heap_sim n l' h.
Proof.
  intros (B & H1 & H2 & H3 & H4 & H5 & H6) HP. exists B. split_and!; try done; [by rewrite <- HP|].
  intros p o Hp. apply H6. by rewrite HP.
Qed.

Lemma malloc_sim n l h sz : heap_sim (S n) l h -> 0 <= sz < 2000 ->
  exists p h' o, malloc sz h = Done p h' /\ p <> 0 /\ p ∉ l.*1 /\ heap_sim n ((p, o) :: l) h'.
Proof.
  intros (B & Hok & Hpg & H0 & Hn & Hnd & Hl) Hsz.
  destruct (malloc_small B ∅ h sz Hok) as (p & h' & B' & E & Hok' & Hpg' & Hm & Hc); [lia|unfold sizeof_hdr; lia|by apply (pages_sendpage B ∅ h)|].
  exists p, h', (Z.log2 (sz + sizeof_hdr) + 1). split; [done|]. destruct Hc as [(_ & Hno & _)|[(k & _ & Hp & _) (Ha1 & Ha2 & Ha3)]].
  { exfalso. unfold no_memory in Hno. destruct (maps h) as [|x xs]; [cbn in Hn; lia|]. apply H0. subst x. by left. }
  assert (p ∉ l.*1) as Hpl.
  { intros [[q o] [-> Hq]]%list_elem_of_fmap. cbn in *. destruct (Hl q o Hq) as [Hq' _]. by apply (Ha2 o). }
  split; [unfold sizeof_hdr in Hp; lia|]. split; [done|]. exists B'. split_and!; [done|by apply Hpg'|..].
  - destruct Hm as [->| ->]; [done|]. destruct (maps h); [done|]. cbn. intros ?. apply H0. by right.
  - destruct Hm as [->| ->]; [lia|]. destruct (maps h); cbn in *; lia.
  - cbn. by apply NoDup_cons.
  - intros q o [[= -> ->]|Hq]%elem_of_cons.
    + split; [done|]. pose proof (Z.log2_le_mono (sz + sizeof_hdr) 2047 ltac:(unfold sizeof_hdr; lia)). change (Z.log2 2047) with 10 in *. lia.
    + destruct (Hl q o Hq) as [Hq' Ho]. split; [|done]. apply Ha3; [|done]. intros Eq. apply (Ha2 o). by rewrite <- Eq.
Qed.

Lemma free_sim n l h p o : heap_sim n ((p, o) :: l) h -> exists h', free p h = Done () h' /\ heap_sim n l h'.
Proof.
  intros (B & Hok & Hpg & H0 & Hn & Hnd & Hl). destruct (Hl p o ltac:(by left)) as [Hp Ho].
  destruct (free_small B ∅ h _ o Hok Hp Ho) as (h' & B' & E & Hok' & _ & HB & HP & Hm).
  exists h'. split; [by replace (p - sizeof_hdr + sizeof_hdr) with p in E by lia|]. exists B'. rewrite Hm.
  cbn in Hnd. apply NoDup_cons in Hnd as [Hpl Hnd]. split_and!; try done; [by eapply (pages_same B B' ∅ h)|].
  intros q o' Hq. destruct (Hl q o' ltac:(by right)) as [Hq' Ho']. split; [|done]. apply HB. split; [done|].
  intros Eq. assert (q = p) as -> by lia. apply Hpl. apply list_elem_of_fmap. by exists (p, o').
Qed.

(** ** The server and the terminal *)
Definition zeros (n : nat) : list Z := replicate n 0.
#[local] Notation BUF := (Z.to_nat 1024).

(** Each pointer is to a buffer that holds the line. *)
Definition hold (b : gmap Z (list Z)) (ptrs : list Z) (lines : list (list Z)) : Prop :=
  Forall2 (fun q l => exists x, b !! q = Some x /\ string_of x = Some l /\ (length l < BUF)%nat) ptrs lines.
Lemma hold_ext b b' ptrs lines : hold b ptrs lines -> (forall q, q ∈ ptrs -> b' !! q = b !! q) -> hold b' ptrs lines.
Proof.
  intros Hh. induction Hh as [|q l ptrs lines (x & Hx & Hs & Hl) _ IH]; intros He; constructor.
  - exists x. split_and!; [rewrite He; [done|by left]|done..].
  - apply IH. intros r Hr. apply He. by right.
Qed.

(** The pointers in use, the buffer being filled with what is in it, and the
    complete lines. *)
Record mem_sim (n : nat) (p : Z) (line left : list Z) (ptrs : list Z) (lines : list (list Z))
    (h : heap) (b : gmap Z (list Z)) (g : list (list Z)) : Prop := {
  m_heap : exists l, l.*1 = p :: ptrs /\ heap_sim n l h;
  m_line : b !! p = Some (line ++ left);
  m_room : (length line + length left = BUF)%nat;
  m_lines : hold b ptrs lines;
  m_fresh : Forall (fun x => length x = BUF) g
}.

Definition is_int (x : Z) : Prop := -2 ^ 31 <= x < 2 ^ 31.
Record sim (n : nat) (t : tty) (s : console) : Prop := {
  s_screen : screen_ok (t_text t) (scr s);
  s_state : c_state s = IDLE;
  s_mods : c_state2 s = t_mods t;
  s_end : lbend s = Z.of_nat (length (t_line t));
  s_chars : Forall (fun c => c <> 0) (t_line t);
  s_mem : exists ptrs, ring (readable_lines s) (rlh s) (rlt s) ptrs
    /\ mem_sim n (line_buffer s) (t_line t) (t_left t) ptrs (t_lines t) (hp s) (bufs s) (garbage s);
  s_off : rl_off s = Z.of_nat (t_off t);
  s_part : match t_lines t with [] => t_off t = 0%nat | l :: _ => (t_off t <= length l)%nat end;
  s_wait : ring (pending_read s) (ph s) (pt s) (t_wait t).*1;
  s_wait_len : ring (pending_read_len s) (ph s) (pt s) (t_wait t).*2;
  s_int : Forall (fun w => is_int w.2) (t_wait t);
  s_pid : control_pid s = t_pid t;
  s_sent : sent s = t_sent t;
  s_heap : garbage s = t_heap t
}.

Lemma mem_sim_le n m p line left ptrs lines h b g : mem_sim n p line left ptrs lines h b g -> (m <= n)%nat -> mem_sim m p line left ptrs lines h b g.
Proof. intros [(l & E & Hl) ? ? ? ?] Hm. split; try done. exists l. split; [done|by eapply heap_sim_le]. Qed.
Lemma sim_le n m t s : sim n t s -> (m <= n)%nat -> sim m t s.
Proof.
  intros [] Hm. split; try done. destruct s_mem0 as (ptrs & Hr & Hmem). exists ptrs. split; [done|by eapply mem_sim_le].
Qed.
Lemma mem_NoDup n p line left ptrs lines h b g : mem_sim n p line left ptrs lines h b g -> p ∉ ptrs /\ NoDup ptrs.
Proof. intros [(l & E & B & _ & _ & _ & _ & Hnd & _) _ _ _ _]. rewrite E in Hnd. by apply NoDup_cons in Hnd. Qed.

(** *** The buffer being filled *)
Lemma insert_left (line left : list Z) c : (0 < length left)%nat -> <[length line := c]> (line ++ left) = (line ++ [c]) ++ tail left.
Proof. destruct left as [|x left]; cbn [length]; [lia|]. intros _. rewrite <- app_assoc, insert_app_r_alt by lia. by rewrite Nat.sub_diag. Qed.

Lemma put_char_eq c s b : bufs s !! line_buffer s = Some b -> 0 <= lbend s < Z.of_nat (length b) ->
  put_char c s = Done () (set_line (line_buffer s) (lbend s + 1)
    (set_mem (hp s) (<[line_buffer s := <[Z.to_nat (lbend s) := c]> b]> (bufs s)) (garbage s) s)).
Proof.
  intros Hb Hl. unfold put_char. erewrite bind_eq; [|apply get_eq]. erewrite bind_eq; [|by apply deref_eq].
  rewrite (proj2 (Z.leb_le 0 (lbend s))), (proj2 (Z.ltb_lt _ _)) by lia. done.
Qed.

Lemma mem_put n p line left ptrs lines h b g line' left' : mem_sim n p line left ptrs lines h b g -> (length line' + length left' = BUF)%nat ->
  mem_sim n p line' left' ptrs lines h (<[p := line' ++ left']> b) g.
Proof.
  intros Hm Hl. destruct (mem_NoDup _ _ _ _ _ _ _ _ _ Hm) as [Hp _]. destruct Hm. split; try done.
  - by rewrite lookup_insert_eq.
  - eapply hold_ext; [done|]. intros q Hq. apply lookup_insert_ne. by intros ->.
Qed.

(** A character, or a tab. *)
Definition put_state (c : Z) (t : tty) (s : console) : console :=
  set_line (line_buffer s) (lbend s + 1) (set_mem (hp s) (<[line_buffer s := (t_line t ++ [c]) ++ tail (t_left t)]> (bufs s)) (garbage s) s).
Definition t_put (c : Z) (t : tty) : tty :=
  mkTty (t_mods t) (t_text t) (t_line t ++ [c]) (t_lines t) (t_off t) (t_wait t) (t_pid t) (t_sent t) (tail (t_left t)) (t_heap t).
Lemma put_char_sim n t s c : sim n t s -> c <> 0 -> (length (t_line t) < BUF)%nat ->
  put_char c s = Done () (put_state c t s) /\ sim n (t_put c t) (put_state c t s).
Proof.
  intros Hs Hc Hl. destruct (s_mem n t s Hs) as (ptrs & Hr & Hm). pose proof (m_room _ _ _ _ _ _ _ _ _ Hm) as Hroom. split.
  - erewrite put_char_eq; [|apply Hm|rewrite length_app, (s_end n t s Hs); lia].
    unfold put_state. do 3 f_equal. rewrite (s_end n t s Hs), Nat2Z.id. by rewrite insert_left by lia.
  - unfold put_state. destruct Hs. split; cbn -[screen_ok]; try done.
    + rewrite length_app. cbn [length]. lia.
    + apply Forall_app. split; [done|by constructor].
    + exists ptrs. split; [done|]. eapply mem_put; [done|]. rewrite length_app, length_tl. cbn [length]. lia.
Qed.

Lemma on_screen_eq {A} (m : M vga A) s a v : m (scr s) = Done a v -> on_screen m s = Done a (set_scr v s).
Proof. unfold on_screen. by intros ->. Qed.
Lemma sim_screen n t s v x : sim n t s -> screen_ok x v ->
  sim n (mkTty (t_mods t) x (t_line t) (t_lines t) (t_off t) (t_wait t) (t_pid t) (t_sent t) (t_left t) (t_heap t)) (set_scr v s).
Proof. intros [] Hv. by split. Qed.

Definition t_ended (t : tty) : tty :=
  mkTty (t_mods t) (t_text t) (t_line t) (t_lines t) (t_off t) (t_wait t) (t_pid t) (t_sent t) (<[0%nat := 0]> (t_left t)) (t_heap t).
Lemma end_line_sim n t s : sim n t s -> (length (t_line t) < BUF)%nat -> exists s', end_line s = Done () s' /\ scr s' = scr s /\ sim n (t_ended t) s'.
Proof.
  intros Hs Hl. destruct (s_mem n t s Hs) as (ptrs & Hr & Hm). pose proof (m_room _ _ _ _ _ _ _ _ _ Hm) as Hroom.
  unfold end_line. erewrite bind_eq; [|eapply put_char_eq; [apply Hm|rewrite length_app, (s_end n t s Hs); lia]].
  rewrite modify_eq. eexists. split; [done|]. split; [done|]. rewrite (s_end n t s Hs), Nat2Z.id.
  assert (<[length (t_line t) := 0]> (t_line t ++ t_left t) = t_line t ++ <[0%nat := 0]> (t_left t)) as -> by (rewrite insert_app_r_alt by lia; by rewrite Nat.sub_diag).
  destruct Hs. split; cbn -[screen_ok]; try done; [lia|].
  exists ptrs. split; [done|]. eapply mem_put; [done|]. by rewrite length_insert.
Qed.

Lemma string_of_app line left : Forall (fun c => c <> 0) line -> string_of (line ++ left) = (fun l => line ++ l) <$> string_of left.
Proof.
  intros Hl. induction Hl as [|c line Hc _ IH]; cbn [app string_of]; [by destruct (string_of left)|].
  rewrite (proj2 (Z.eqb_neq c 0)), IH by done. by destruct (string_of left).
Qed.
Lemma string_of_length b : forall l, string_of b = Some l -> (length l < length b)%nat.
Proof.
  induction b as [|c b IH]; intros l E; [done|]. cbn in E. destruct (c =? 0); [injection E as <-; cbn; lia|].
  apply bind_Some in E as (l' & E & [= <-]). apply IH in E. cbn. lia.
Qed.

(** *** Keys *)
Lemma key_char_eq m k c s : char_of m k = Some c -> key_char m k s = Done c (s : console).
Proof.
  unfold char_of, key_char. intros (c1 & E1 & E)%bind_Some. erewrite bind_eq; [|by apply deref_eq].
  destruct (negb (Z.land m 12 =? 0)).
  - apply bind_Some in E as (c2 & E2 & [= <-]). erewrite bind_eq; [|by apply deref_eq]. done.
  - injection E as <-. by erewrite bind_eq; [|apply mret_eq].
Qed.

Lemma do_key_sim n k t t' s : sim n t s -> t_key k t = Some t' -> exists s', con_do_key k 0 s = Done () s' /\ sim n t' s'.
Proof.
  intros Hs (c & Ec & E)%bind_Some. unfold con_do_key. cbn [Z.eqb negb]. erewrite bind_eq; [|apply get_eq].
  rewrite (s_mods n t s Hs), (s_end n t s Hs). erewrite bind_eq; [|by apply key_char_eq].
  destruct (Z.eqb_spec c 0) as [|Hc]; [injection E as <-; eauto|].
  destruct (negb (Z.land (t_mods t) 3 =? 0)); [injection E as <-; eauto|]. cbn [orb] in E.
  destruct (Z.leb_spec 1023 (Z.of_nat (length (t_line t)))) as [|Hl]; [injection E as <-; eauto|]. injection E as <-.
  destruct (put_char_sim n t s c Hs Hc ltac:(lia)) as [E1 Hs1]. erewrite bind_eq; [|exact E1].
  destruct (end_line_sim _ _ _ Hs1) as (s2 & E2 & Escr & Hs2); [cbn; rewrite length_app; cbn; lia|]. erewrite bind_eq; [|exact E2].
  destruct (vga_puts_ok (t_text t) (scr s2) [c] []) as (v & Ev & Hv & _); [rewrite Escr; apply Hs|by constructor|].
  erewrite bind_eq; [|apply (on_screen_eq _ _ _ _ Ev)]. eexists. split; [done|]. by apply (sim_screen _ _ _ v _ Hs2).
Qed.

Lemma tab_sim n t t' s : sim n t s -> t_tab t = Some t' ->
  exists s', (s ← get; when (lbend s <? 1024) (put_char 9)) s = Done () s' /\ sim n t' s'.
Proof.
  intros Hs E. destruct (s_mem n t s Hs) as (ptrs & _ & Hm). pose proof (m_room _ _ _ _ _ _ _ _ _ Hm).
  erewrite bind_eq; [|apply get_eq]. rewrite (s_end n t s Hs). unfold t_tab in E. case_decide.
  - injection E as <-. rewrite (proj2 (Z.ltb_ge _ _)) by lia. exists s. by split.
  - injection E as <-. rewrite (proj2 (Z.ltb_lt _ _)) by lia. eexists. apply (put_char_sim n t s 9 Hs); lia.
Qed.

(** What the next buffer holds. *)
Definition fresh (g : list (list Z)) : list Z := default (replicate 1024 0) (head g).
Lemma new_line_eq n l s : heap_sim (S n) l (hp s) -> Forall (fun x => length x = BUF) (garbage s) ->
  exists p o h, new_line s = Done p (set_mem h (<[p := fresh (garbage s)]> (bufs s)) (tail (garbage s)) s) /\ p ∉ l.*1
    /\ heap_sim n ((p, o) :: l) h /\ length (fresh (garbage s)) = BUF /\ Forall (fun x => length x = BUF) (tail (garbage s)).
Proof.
  intros Hh Hg. destruct (malloc_sim n l (hp s) 1024 Hh ltac:(lia)) as (p & h & o & E & Hp & Hpl & Hh').
  exists p, o, h. unfold new_line. erewrite bind_eq; [|unfold on_heap; by rewrite E].
  rewrite (proj2 (Z.eqb_neq p 0)) by done. erewrite bind_eq; [|apply modify_eq]. split_and!; try done.
  - unfold fresh. destruct Hg as [|g gs Hl Hg]; [apply length_replicate|done].
  - by destruct Hg.
Qed.

(** The finished line is queued and a new buffer taken. *)
Lemma mem_enter n p line left ptrs lines h b g q o l h' x g' text : mem_sim (S n) p line left ptrs lines h b g ->
  string_of (line ++ left) = Some text -> q ∉ p :: ptrs ->
  l.*1 = p :: ptrs -> heap_sim n ((q, o) :: l) h' -> length x = BUF -> Forall (fun x => length x = BUF) g' ->
  mem_sim n q [] x (ptrs ++ [p]) (lines ++ [text]) h' (<[q := x]> b) g'.
Proof.
  intros [_ Hline Hroom Hlines Hfresh] Hz Hq El Hh Hx Hg. rewrite not_elem_of_cons in Hq. split; [| |done| |done].
  - destruct l as [|[p0 o0] l]; [done|]. cbn in El. injection El as -> El. exists ((q, o) :: l ++ [(p, o0)]).
    split; [cbn; rewrite fmap_app, El; done|]. eapply heap_sim_perm; [exact Hh|].
    constructor. apply Permutation_cons_append.
  - by rewrite lookup_insert_eq.
  - apply Forall2_app.
    + eapply hold_ext; [done|]. intros r Hr. apply lookup_insert_ne. intros ->. naive_solver.
    + constructor; [|constructor]. eexists. split; [rewrite lookup_insert_ne by naive_solver; exact Hline|].
      split; [done|]. apply string_of_length in Hz. rewrite length_app in Hz. lia.
Qed.

Lemma enter_sim n t t' s : sim (S n) t s -> t_enter t = Some t' -> exists s', enter s = Done () s' /\ sim n t' s'.
Proof.
  intros Hs E. destruct (s_mem _ t s Hs) as (ptrs & Hr & Hm). pose proof (Forall2_length _ _ _ (m_lines _ _ _ _ _ _ _ _ _ Hm)) as Hlen.
  pose proof (m_room _ _ _ _ _ _ _ _ _ Hm) as Hroom.
  unfold enter. erewrite bind_eq; [|apply get_eq]. unfold t_enter in E. case_decide as Hf.
  { injection E as <-. rewrite (proj2 (Z.eqb_eq _ _)) by (apply (ring_full _ _ _ _ Hr); congruence).
    exists s. split; [done|]. eapply sim_le; [done|lia]. }
  rewrite (proj2 (Z.eqb_neq _ _)) by (rewrite (ring_full _ _ _ _ Hr); congruence). apply bind_Some in E as (left & El & [= <-]).
  assert (0 < length (t_left t))%nat as Hleft by (destruct (t_left t); [done|cbn; lia]).
  rewrite (s_end _ t s Hs), (proj2 (Z.ltb_lt _ _)) by lia. cbn [when].
  erewrite bind_eq; [|apply (put_char_sim _ t s 10 Hs); lia]. erewrite bind_eq; [|apply modify_eq].
  apply (mem_put _ _ _ _ _ _ _ _ _ (t_line t ++ [10]) (tail (t_left t))) in Hm; [|rewrite length_app, length_tl; cbn; lia].
  destruct (m_heap _ _ _ _ _ _ _ _ _ Hm) as (l & Elp & Hh).
  set (s1 := set_lines _ _ _ _ _). destruct (new_line_eq n l s1 Hh (m_fresh _ _ _ _ _ _ _ _ _ Hm)) as (q & o & h & En & Hq & Hh' & Hx & Hg).
  erewrite bind_eq; [|exact En]. erewrite bind_eq; [|apply modify_eq].
  destruct (put_ok (t_text t) (scr s) 10 ltac:(apply Hs)) as (v & Ev & Hv & _). cbn [Z.eqb Pos.eqb] in Ev.
  eexists. split; [by apply on_screen_eq|].
  assert (Forall (fun c => c <> 0) (t_line t ++ [10])) as Hz by (apply Forall_app; split; [apply Hs|by constructor]).
  assert (string_of ((t_line t ++ [10]) ++ tail (t_left t)) = Some ((t_line t ++ [10]) ++ left)) as Htext by (rewrite string_of_app by done; by rewrite El).
  assert (ring (<[Z.to_nat (rlt s) := line_buffer s]> (readable_lines s)) (rlh s) (Z.land (rlt s + 1) 1023) (ptrs ++ [line_buffer s])) as Hr'
    by (apply (ring_push _ _ _ _ Hr); congruence).
  pose proof (s_heap _ _ _ Hs) as Hgb. change (garbage s1) with (garbage s) in *. rewrite Hgb in Hx, Hg |- *.
  destruct Hs. split; cbn -[screen_ok]; try done.
  - exists (ptrs ++ [line_buffer s]). split; [done|]. eapply mem_enter; try done. by rewrite <- Elp.
  - destruct (t_lines t); [cbn [app]; lia|done].
Qed.

(** A buffer that is used for the first time holds zeros: the line is what was typed. *)
Lemma first_use t k t' : t_left t = zeros k -> t_enter t = Some t' -> length (t_lines t) <> 1023%nat -> t_lines t' = t_lines t ++ [t_line t ++ [10]].
Proof.
  unfold t_enter. intros -> E Hl. rewrite decide_False in E by done. apply bind_Some in E as (left & E & [= <-]). cbn. f_equal.
  destruct k as [|[|k]]; [done..|]. cbn in E. injection E as <-. by rewrite app_nil_r.
Qed.

(** *** Key events *)
(** What a key does leaves the decoder's state and the input alone. *)
Definition kbd_part (s : console) : kstate * Z * list Z := (c_state s, c_state2 s, ins s).
Lemma frame_screen {A} (m : M vga A) : frame kbd_part (on_screen m).
Proof. intros s a s'. unfold on_screen. destruct (m (scr s)); by intros [= _ <-]. Qed.
Lemma frame_heap {A} (m : M heap A) : frame kbd_part (on_heap m).
Proof. intros s a s'. unfold on_heap. destruct (m (hp s)); by intros [= _ <-]. Qed.
Lemma frame_put_char c : frame kbd_part (put_char c).
Proof.
  apply frame_get_put. intros s a s' (l & s2 & E & E2)%bind_Done. destruct (bufs s !! line_buffer s); [injection E as -> ->|done].
  destruct (_ && _); [by injection E2 as _ <-|done].
Qed.
#[local] Hint Resolve frame_screen frame_heap frame_put_char : frame.

Lemma frame_do_key k u : frame kbd_part (con_do_key k u).
Proof. unfold con_do_key, key_char, end_line. framed. Qed.
Lemma frame_do_control_key k u : frame kbd_part (con_do_control_key k u).
Proof. unfold con_do_control_key, enter, new_line. framed. Qed.

#[export] Instance console_laws : KeyLaws console.
Proof.
  split; try done; try (by intros s; destruct s).
  - by intros s s' [= <-].
  - by intros s s' [= <-].
  - intros k u s s' E. by injection (frame_do_key k u s () s' E).
  - intros k u s s' E. by injection (frame_do_control_key k u s () s' E).
Qed.

Lemma with_mods_id t : with_mods (t_mods t) t = t.
Proof. by destruct t. Qed.
Lemma modifier_sim n mask up t s : sim n t s ->
  exists s', modifier mask (up_bit up) s = Done () s' /\ sim n (with_mods (set_mod mask up (t_mods t)) t) s'.
Proof.
  intros Hs. unfold modifier. rewrite modify_eq. eexists. split; [done|]. rewrite <- (s_mods n t s Hs).
  destruct Hs. split; try done. by destruct up.
Qed.
Lemma caps_sim n t s : sim n t s -> exists s', caps 0 s = Done () s' /\ sim n (with_mods (Z.lxor (t_mods t) CAPS_LOCK) t) s'.
Proof.
  intros Hs. unfold caps. cbn [Z.eqb negb]. erewrite bind_eq; [|apply modify_eq]. eexists. split; [done|].
  rewrite <- (s_mods n t s Hs). destruct Hs. by split.
Qed.

Lemma release_sim n k t s : sim n t s -> exists s', handle (Key k true) s = Done () s' /\ sim n (with_mods (mod_step (t_mods t) (Key k true)) t) s'.
Proof.
  intros Hs. cbn [handle negb andb mod_step]. destruct (k =? 0x2a); [by apply modifier_sim|]. destruct (k =? 0x36); [by apply modifier_sim|].
  destruct (k =? 0x1d); [by apply modifier_sim|]. exists s. destruct (k =? 0x3a); [by rewrite with_mods_id|].
  rewrite with_mods_id. by destruct (_ || _).
Qed.

Lemma press_sim n k t t' s : sim (S n) t s -> t_event t (Key k false) = Some t' ->
  exists s', handle (Key k false) s = Done () s' /\ sim n t' s'.
Proof.
  intros Hs E. assert (sim n t s) as Hsn by (eapply sim_le; [done|lia]). cbn [handle negb andb t_event mod_step up_bit] in *.
  destruct (Z.eqb_spec k 0x2a) as [->|]; [injection E as <-; by apply (modifier_sim n _ false)|].
  destruct (Z.eqb_spec k 0x36) as [->|]; [injection E as <-; by apply (modifier_sim n _ false)|].
  destruct (Z.eqb_spec k 0x1d) as [->|]; [injection E as <-; by apply (modifier_sim n _ false)|].
  destruct (Z.eqb_spec k 0x3a) as [->|]; [injection E as <-; by apply caps_sim|].
  destruct (Z.eqb_spec k 0x1c) as [->|]; [by eapply enter_sim|].
  destruct (Z.eqb_spec k 0x0f) as [->|]; [by eapply tab_sim|]. cbn [orb] in E.
  destruct ((0x3b <=? k) && (k <=? 0x58)) eqn:Er.
  - rewrite orb_true_r in E. injection E as <-. exists s. split; [|done]. unfold do_control_key, console_keys, con_do_control_key.
    cbn [Z.eqb negb]. destruct ((59 <=? k) && (k <? 68)); [reflexivity|]. rewrite !(proj2 (Z.eqb_neq _ _)) by lia. reflexivity.
  - rewrite orb_false_r in E. destruct (Z.eqb_spec k 0x0e) as [->|]; [injection E as <-; by exists s|].
    destruct (Z.eqb_spec k 0x1) as [->|]; [injection E as <-; by exists s|]. cbn [orb] in *. by apply (do_key_sim n k t).
Qed.

Lemma handle_sim n e t t' s : sim (S n) t s -> t_event t e = Some t' -> exists s', handle e s = Done () s' /\ sim n t' s'.
Proof.
  intros Hs E. assert (sim n t s) as Hsn by (eapply sim_le; [done|lia]). destruct e as [k [|]|k up|a b].
  - injection E as <-. by apply release_sim.
  - by eapply press_sim.
  - injection E as <-. cbn [handle mod_step]. destruct (k =? 0x1d); cbn [when]; [|exists s; by rewrite with_mods_id].
    destruct (modifier_sim n RCTRL_DOWN up t s Hsn) as (s' & E' & Hs'). exists s'. split; [|done]. unfold rctrl. by erewrite bind_eq; [|exact E'].
  - injection E as <-. exists s. cbn [mod_step]. by rewrite with_mods_id.
Qed.

Lemma events_sim evs : forall n t t' s, sim (length evs + n) t s -> t_events evs t = Some t' ->
  exists s', handle_all evs s = Done () s' /\ sim n t' s'.
Proof.
  induction evs as [|e evs IH]; intros n t t' s Hs E; [injection E as <-; by exists s|]. cbn [t_events handle_all length] in *.
  apply bind_Some in E as (t1 & E1 & E). destruct (handle_sim (length evs + n) e t t1 s Hs E1) as (s1 & Eh & Hs1).
  erewrite bind_eq; [|exact Eh]. by eapply IH.
Qed.

(** *** Keyboard input *)
Lemma modifier_ins mask up (s s' : console) : modifier mask up s = Done () s' -> ins s' = ins s.
Proof. unfold modifier. rewrite modify_eq. by intros [= <-]. Qed.
Lemma caps_ins up (s s' : console) : caps up s = Done () s' -> ins s' = ins s.
Proof. unfold caps. destruct (negb _); [by intros [= <-]|]. erewrite bind_eq; [|apply modify_eq]. by intros [= <-]. Qed.
Lemma handle_ins e (s s' : console) : handle e s = Done () s' -> ins s' = ins s.
Proof.
  assert (forall m : M console (), frame kbd_part m -> m s = Done () s' -> ins s' = ins s) as Hf by (intros m Hm E; by injection (Hm s () s' E)).
  destruct e as [k up|k up|a b]; cbn [handle].
  - destruct (_ && _); [apply Hf, frame_do_control_key|]. destruct (_ =? _); [apply modifier_ins|]. destruct (_ =? _); [apply modifier_ins|].
    destruct (_ =? _); [apply modifier_ins|]. destruct (_ =? _); [apply caps_ins|].
    destruct (_ || _); [apply Hf, frame_do_control_key|apply Hf, frame_do_key].
  - destruct (_ =? _); cbn [when]; [|by intros [= <-]]. unfold rctrl. intros ([] & s1 & E & [= <-])%bind_Done. by eapply modifier_ins.
  - by intros [= <-].
Qed.

(** What the controller delivers: a status, then codes each with the status read
    after it; the lowest bit says whether a code is there. *)
Fixpoint keyed (x : Z) (l : list (Z * Z)) : Prop :=
  match l with [] => Z.land x 1 = 0 | (_, st) :: l => Z.land x 1 <> 0 /\ keyed st l end.
Definition stream (l : list (Z * Z)) : list Z := concat ((fun '(c, st) => [c; st]) <$> l).

Definition set_ins (i : list Z) (s : console) : console := set_io i (sent s) s.
Lemma sim_ins n t s i : sim n t s -> sim n t (set_ins i s).
Proof. intros []. by split. Qed.
Lemma kbd_step fuel x c st rest s : Z.land x 1 <> 0 -> ins s = c :: st :: rest ->
  kbd_loop (S fuel) x s = (state_transition c;; kbd_loop fuel st) (set_ins rest s).
Proof. intros Hx Hi. cbn [kbd_loop]. rewrite (proj2 (Z.eqb_neq _ _)) by done. unfold inb, mbind, M_bind. cbn. by rewrite Hi. Qed.

(** One event, from any status. *)
Lemma kbd_event e l l2 fuel x rest s : valid e -> c_state s = IDLE -> l.*1 = encode e -> keyed x (l ++ l2) ->
  ins s = stream (l ++ l2) ++ rest ->
  exists x', keyed x' l2 /\ kbd_loop (length l + fuel) x s = (handle e;; kbd_loop fuel x') (set_ins (stream l2 ++ rest) s).
Proof.
  intros He Hs El Hk Hi. set (s' := set_ins (stream l2 ++ rest) s). assert (state s' = IDLE) as Hs' by done.
  pose proof (decode e s' He Hs') as Hd. destruct e as [k up|k up|a b]; cbn [encode] in *.
  - destruct l as [|[c st] [|]]; try discriminate El. injection El as ->. destruct Hk as [Hx Hk]. exists st. split; [done|].
    change (length _ + fuel)%nat with (S fuel). rewrite (kbd_step fuel x _ st (stream l2 ++ rest) s Hx Hi). change (set_ins _ s) with s'.
    unfold mbind, M_bind. by rewrite decode_key.
  - destruct l as [|[c st] [|[c2 st2] [|]]]; try discriminate El. injection El as -> ->. destruct Hk as (Hx & Hx2 & Hk). exists st2. split; [done|].
    change (length _ + fuel)%nat with (S (S fuel)). rewrite (kbd_step (S fuel) x _ st (_ :: st2 :: stream l2 ++ rest) s Hx Hi).
    erewrite bind_eq; [|apply (transition_prefix _ E0_WAIT); [done|by left]].
    erewrite kbd_step; [|done|reflexivity]. change (set_ins _ (set_state _ _)) with (set_state E0_WAIT s').
    unfold mbind, M_bind. rewrite <- decode_ext by (exact He || done). cbn [transitions]. unfold mbind, M_bind.
    rewrite (transition_prefix _ E0_WAIT s') by (done || by left). by destruct (state_transition _ (set_state E0_WAIT s')).
  - destruct l as [|[c st] [|[c2 st2] [|[c3 st3] [|]]]]; try discriminate El. injection El as -> -> ->.
    destruct Hk as (Hx & Hx2 & Hx3 & Hk). exists st3. split; [done|].
    change (length _ + fuel)%nat with (S (S (S fuel))). rewrite (kbd_step (S (S fuel)) x _ st (_ :: st2 :: _ :: st3 :: stream l2 ++ rest) s Hx Hi).
    erewrite bind_eq; [|apply (transition_prefix _ E1_WAIT1); [done|by right; left]].
    erewrite kbd_step; [|done|reflexivity]. erewrite bind_eq; [|rewrite transition_eq; reflexivity].
    erewrite kbd_step; [|done|reflexivity]. erewrite bind_eq; [|rewrite transition_eq; reflexivity].
    change (set_state IDLE _) with (set_state IDLE s'). cbn [handle]. by rewrite <- Hs', set_state_id.
Qed.

Lemma kbd_loop_sim evs : forall n l fuel x rest t t' s, sim (length evs + n) t s -> Forall valid evs ->
  l.*1 = concat (encode <$> evs) -> keyed x l -> ins s = stream l ++ rest -> t_events evs t = Some t' -> (length l <= fuel)%nat ->
  exists s', kbd_loop fuel x s = Done () s' /\ sim n t' s'.
Proof.
  induction evs as [|e evs IH]; intros n l fuel x rest t t' s Hs Hv El Hk Hi E Hf.
  - apply fmap_nil_inv in El as ->. injection E as <-. exists s. split; [|done]. cbn in Hk. destruct fuel; cbn [kbd_loop]; by rewrite Hk.
  - apply Forall_cons in Hv as [He Hv]. cbn [fmap list_fmap concat t_events length] in *. apply bind_Some in E as (t1 & E1 & E).
    apply fmap_app_inv in El as (l1 & l2 & El1 & El2 & ->). rewrite length_app in Hf.
    destruct (kbd_event e l1 l2 (fuel - length l1) x rest s He (s_state _ _ _ Hs) (eq_sym El1) Hk Hi) as (x' & Hk' & Er).
    replace (length l1 + (fuel - length l1))%nat with fuel in Er by lia. rewrite Er.
    destruct (handle_sim (length evs + n) e t t1 _ (sim_ins _ _ _ (stream l2 ++ rest) Hs) E1) as (s1 & Eh & Hs1). erewrite bind_eq; [|exact Eh].
    apply (IH n l2 _ x' rest t1); try done; [|lia]. by rewrite (handle_ins _ _ _ Eh).
Qed.

Lemma handle_kbd_sim evs n l x rest t t' s : sim (length evs + n) t s -> Forall valid evs ->
  l.*1 = concat (encode <$> evs) -> keyed x l -> ins s = x :: stream l ++ rest -> t_events evs t = Some t' ->
  exists s', handle_kbd s = Done () s' /\ sim n t' s'.
Proof.
  intros Hs Hv El Hk Hi E. unfold handle_kbd. erewrite bind_eq; [|apply get_eq]. rewrite Hi.
  erewrite bind_eq; [|unfold inb; rewrite Hi; reflexivity]. apply (kbd_loop_sim evs n l _ x rest t); try done.
  - by apply sim_ins.
  - cbn [length]. rewrite length_app. assert (length (stream l) = 2 * length l)%nat as ->; [|lia].
    clear. induction l as [|[c st] l IH]; [done|]. unfold stream in *. cbn [fmap list_fmap concat length app]. rewrite IH. lia.
Qed.

(** *** Readers *)
Lemma string_of_drop k : forall b l, string_of b = Some l -> (k <= length l)%nat -> string_of (drop k b) = Some (drop k l).
Proof.
  induction k as [|k IH]; intros b l E Hk; [done|]. destruct b as [|c b]; [done|]. cbn in E. destruct (c =? 0); [injection E as <-; cbn in Hk; lia|].
  apply bind_Some in E as (l' & E & [= <-]). cbn in *. apply IH; [done|lia].
Qed.
Lemma strncpy_out_take b : forall l k, string_of b = Some l -> (k <= length l)%nat -> strncpy_out b k = take k l ++ [0].
Proof.
  induction b as [|c b IH]; intros l k E Hk; [done|]. cbn in E. destruct (Z.eqb_spec c 0) as [->|Hc].
  - injection E as <-. cbn in Hk. by destruct k; [|lia].
  - apply bind_Some in E as (l' & E & [= <-]). destruct k as [|k]; [done|]. cbn [strncpy_out length take app] in *.
    rewrite (proj2 (Z.eqb_neq c 0)) by done. f_equal. apply IH; [done|lia].
Qed.
Lemma u64_int n m : is_int n -> u64 n < m -> m <= 2 ^ 31 -> 0 <= n /\ u64 n = n.
Proof.
  intros Hn Hu Hm. unfold is_int in Hn. assert (0 <= n) as H0.
  { destruct (decide (0 <= n)); [done|]. exfalso. unfold u64, wrap in Hu. rewrite <- (Z.mod_add n 1 (2 ^ 64)) in Hu by lia.
    rewrite Z.mod_small in Hu by lia. lia. }
  split; [done|]. apply u64_small. unfold is_u64. lia.
Qed.

Lemma nth_eq l i x (s : console) : 0 <= i -> l !! Z.to_nat i = Some x -> nth_ l i s = Done x s.
Proof. intros Hi Hx. unfold nth_. rewrite (proj2 (Z.ltb_ge i 0)) by done. by apply deref_eq. Qed.
Lemma on_heap_eq {A} (m : M heap A) s a h : m (hp s) = Done a h -> on_heap m s = Done a (set_mem h (bufs s) (garbage s) s).
Proof. unfold on_heap. by intros ->. Qed.

(** The line of a reader is released. *)
Lemma mem_pop n p line left q ptrs l lines h b g h' o ls : mem_sim n p line left (q :: ptrs) (l :: lines) h b g ->
  ls.*1 = p :: ptrs -> heap_sim o ls h' -> mem_sim o p line left ptrs lines h' (delete q b) g.
Proof.
  intros Hm El Hh. destruct (mem_NoDup _ _ _ _ _ _ _ _ _ Hm) as [Hp Hnd]. apply not_elem_of_cons in Hp as [Hpq Hp].
  apply NoDup_cons in Hnd as [Hq Hnd]. destruct Hm. split; try done.
  - by exists ls.
  - by rewrite lookup_delete_ne by done.
  - inversion m_lines0 as [|? ? ? ? _ Hl]. subst. eapply hold_ext; [exact Hl|]. intros r Hr. apply lookup_delete_ne. by intros ->.
Qed.
Lemma mem_heap n p line left ptrs lines h b g h' o ls : mem_sim n p line left ptrs lines h b g ->
  ls.*1 = p :: ptrs -> heap_sim o ls h' -> mem_sim o p line left ptrs lines h' b g.
Proof. intros [] El Hh. split; try done. by exists ls. Qed.

(** The end of [send_result]: the memory of the response comes and goes, the line
    goes if it is finished. *)
Lemma send_tail n lb q o1 o2 ls k (nf : bool) a s :
  heap_sim (S n) ((lb, o1) :: (q, o2) :: ls) (hp s) -> is_Some (bufs s !! q) -> 0 <= k < 2000 ->
  exists h, (rx ← on_heap (malloc k); if rx =? 0 then fault else when nf (free_line q);; send a;; on_heap (free rx)) s
    = Done () (set_io (ins s) (sent s ++ [a]) (set_mem h (if nf then delete q (bufs s) else bufs s) (garbage s) s))
    /\ heap_sim n (if nf then (lb, o1) :: ls else (lb, o1) :: (q, o2) :: ls) h.
Proof.
  intros Hh [x Hx] Hk. destruct (malloc_sim n _ (hp s) k Hh Hk) as (rx & h1 & o3 & Em & Hrx & _ & Hh1).
  erewrite bind_eq; [|by apply on_heap_eq]. rewrite (proj2 (Z.eqb_neq rx 0)) by done. destruct nf; cbn [when].
  - apply (heap_sim_perm _ _ ((q, o2) :: (rx, o3) :: (lb, o1) :: ls)) in Hh1; [|etrans; [apply perm_skip, perm_swap|apply perm_swap]].
    destruct (free_sim _ _ _ _ _ Hh1) as (h2 & Ef & Hh2). destruct (free_sim _ _ _ _ _ Hh2) as (h3 & Ef3 & Hh3).
    erewrite bind_eq; [|unfold free_line; erewrite bind_eq; [|apply get_eq]; cbn [bufs set_mem]; rewrite Hx;
      erewrite bind_eq; [|by apply on_heap_eq]; apply modify_eq].
    erewrite bind_eq; [|apply modify_eq]. exists h3. split; [etrans; [apply on_heap_eq; exact Ef3|reflexivity]|done].
  - destruct (free_sim _ _ _ _ _ Hh1) as (h2 & Ef & Hh2). erewrite bind_eq; [|apply mret_eq].
    erewrite bind_eq; [|apply modify_eq]. exists h2. split; [etrans; [apply on_heap_eq; exact Ef|reflexivity]|done].
Qed.

(** Reading the first line: where it is and what is left of it. *)
Lemma first_line n t s l lines : sim n t s -> t_lines t = l :: lines ->
  exists q ptrs x o1 o2 ls, ring (readable_lines s) (rlh s) (rlt s) (q :: ptrs)
    /\ mem_sim n (line_buffer s) (t_line t) (t_left t) (q :: ptrs) (l :: lines) (hp s) (bufs s) (garbage s)
    /\ ls.*1 = ptrs /\ heap_sim n ((line_buffer s, o1) :: (q, o2) :: ls) (hp s)
    /\ bufs s !! q = Some x /\ string_of x = Some l /\ (length l < BUF)%nat.
Proof.
  intros Hs El. destruct (s_mem _ t s Hs) as (ptrs & Hr & Hm). rewrite El in Hm.
  pose proof (m_lines _ _ _ _ _ _ _ _ _ Hm) as Hl. inversion Hl as [|q ? ptrs' ? (x & Hx & Hsx & Hlen) Hl' E1 E2]. subst ptrs. clear Hl.
  destruct (m_heap _ _ _ _ _ _ _ _ _ Hm) as (ls & Els & Hh). destruct ls as [|[p0 o1] [|[q0 o2] ls]]; try discriminate Els.
  cbn in Els. injection Els as E3 E4 Els. subst p0 q0. by exists q, ptrs', x, o1, o2, ls.
Qed.

Lemma send_result_sim n fd len t t' s : sim (S n) t s -> is_int len -> t_send fd len t = Some t' ->
  exists s', send_result fd len s = Done () s' /\ sim n t' s'.
Proof.
  intros Hs Hint E. unfold t_send in E. destruct (t_lines t) as [|l lines] eqn:El; [done|].
  destruct (first_line _ t s l lines Hs El) as (q & ptrs & x & o1 & o2 & ls & Hr & Hm & Els & Hh & Hx & Hsx & Hlen).
  pose proof (s_part _ _ _ Hs) as Hpart. rewrite El in Hpart. pose proof (ring_bounds _ _ _ _ Hr) as [Hb _].
  unfold send_result. erewrite bind_eq; [|apply get_eq]. erewrite bind_eq; [|apply nth_eq; [lia|by eapply (ring_head _ _ _ _ Hr)]].
  erewrite bind_eq; [|by apply deref_eq]. rewrite (s_off _ t s Hs), Nat2Z.id.
  pose proof (string_of_drop (t_off t) x l Hsx Hpart) as Hd. erewrite bind_eq; [|by apply deref_eq]. cbv zeta.
  set (rest := drop (t_off t) l) in *. assert (length rest = length l - t_off t)%nat as Hrest by apply length_drop.
  destruct (Z.leb_spec (Z.of_nat (length rest)) (u64 len)) as [Hle|Hlt].
  - case_decide as Hoff; [|done]. injection E as <-. rewrite Hoff, Z.add_0_r in *.
    erewrite bind_eq; [|by erewrite bind_eq; [|apply modify_eq]]. cbv beta iota.
    set (s1 := set_lines _ _ _ _ _). rewrite Nat2Z.id, (strncpy_out_take _ _ _ Hd), firstn_all by done.
    destruct (send_tail n _ q o1 o2 ls (sizeof_io_res + Z.of_nat (length rest) + 1) true (Respond fd 0 (Z.of_nat (length rest)) (rest ++ [0])) s1 Hh)
      as (h & Et & Hh'); [by eexists|unfold sizeof_io_res; lia|]. eexists. split; [exact Et|].
    pose proof (ring_pop _ _ _ _ Hr q ptrs eq_refl) as Hr'. apply (mem_pop _ _ _ _ _ _ _ _ _ _ _ _ n _ ltac:(exact Hm)) in Hh'; [|cbn; by rewrite Els].
    destruct Hs. split; cbn -[screen_ok]; try done; [by exists ptrs|by destruct lines; [|lia]|by rewrite s_sent0].
  - injection E as <-. destruct (u64_int len (Z.of_nat (length rest)) Hint Hlt ltac:(lia)) as [H0 Hu]. rewrite Hu in Hlt.
    erewrite bind_eq; [|by erewrite bind_eq; [|apply modify_eq]]. cbv beta iota.
    set (s1 := set_lines _ _ _ _ _). rewrite (strncpy_out_take _ _ _ Hd) by lia.
    assert (Z.of_nat (length (take (Z.to_nat len) rest)) = len) as Hlt' by (rewrite length_take; lia). rewrite Hlt'.
    destruct (send_tail n _ q o1 o2 ls (sizeof_io_res + len + 1) false (Respond fd 0 len (take (Z.to_nat len) rest ++ [0])) s1 Hh)
      as (h & Et & Hh'); [by eexists|unfold sizeof_io_res; lia|]. eexists. split; [exact Et|].
    apply (mem_heap _ _ _ _ _ _ _ _ _ _ n _ ltac:(exact Hm)) in Hh'; [|cbn; by rewrite Els].
    destruct Hs. split; cbn -[screen_ok]; try done; [by exists (q :: ptrs)|lia|lia|by rewrite s_sent0].
Qed.

Lemma lines_ptrs n t s : sim n t s -> rlt s = rlh s <-> t_lines t = [].
Proof.
  intros Hs. destruct (s_mem _ t s Hs) as (ptrs & Hr & Hm). rewrite (ring_empty _ _ _ _ Hr).
  pose proof (Forall2_length _ _ _ (m_lines _ _ _ _ _ _ _ _ _ Hm)) as Hl. split; intros E; rewrite E in Hl; cbn in Hl.
  - by destruct (t_lines t).
  - by destruct ptrs.
Qed.
Lemma t_send_keeps fd n t t' : t_send fd n t = Some t' -> t_wait t' = t_wait t.
Proof. unfold t_send. destruct (t_lines t); [done|]. repeat case_match; by intros [= <-]. Qed.

Lemma drain_sim w : forall n fuel t t' s, sim (length w + n) t s -> t_wait t = w -> t_drain w t = Some t' -> (length w <= fuel)%nat ->
  exists s', drain fuel s = Done () s' /\ sim n t' s' /\ (t_lines t' = [] \/ t_wait t' = []).
Proof.
  induction w as [|[fd len] w IH]; intros n fuel t t' s Hs Hw E Hf; pose proof (s_wait _ _ _ Hs) as Hr; rewrite Hw in Hr; cbn [t_drain] in E.
  - injection E as <-. exists s. assert (with_wait [] t = t) as -> by (rewrite <- Hw; by destruct t).
    split; [|auto]. pose proof (proj2 (ring_empty _ _ _ _ Hr) eq_refl) as Eq.
    destruct fuel; cbn [drain]; (erewrite bind_eq; [|apply get_eq]); rewrite Eq, (proj2 (Z.eqb_eq (ph s) (ph s))) by done; by rewrite andb_false_r.
  - assert (pt s <> ph s) as Hne by (by intros Eq%(ring_empty _ _ _ _ Hr)). destruct fuel as [|fuel]; [cbn in Hf; lia|].
    cbn [drain]. erewrite bind_eq; [|apply get_eq]. rewrite (proj2 (Z.eqb_neq (pt s) (ph s))) by done.
    destruct (t_lines t) as [|l lines] eqn:El.
    + injection E as <-. pose proof (proj2 (lines_ptrs _ _ _ Hs) El) as Eq. rewrite Eq, Z.eqb_refl. exists s.
      assert (with_wait ((fd, len) :: w) t = t) as -> by (rewrite <- Hw; by destruct t). split; [done|]. split; [eapply sim_le; [done|lia]|auto].
    + assert (rlt s <> rlh s) as Hne' by (intros Eq%(lines_ptrs _ _ _ Hs); congruence). rewrite (proj2 (Z.eqb_neq _ _)) by done. cbn [negb andb].
      apply bind_Some in E as (t1 & E1 & E). pose proof (ring_bounds _ _ _ _ Hr) as [Hb _].
      pose proof (s_wait_len _ _ _ Hs) as Hr2. rewrite Hw in Hr2. pose proof (s_int _ _ _ Hs) as Hint. rewrite Hw in Hint. apply Forall_cons in Hint as [Hi Hint].
      erewrite bind_eq; [|apply nth_eq; [lia|by eapply (ring_head _ _ _ _ Hr)]].
      erewrite bind_eq; [|apply nth_eq; [lia|by eapply (ring_head _ _ _ _ Hr2)]]. erewrite bind_eq; [|apply modify_eq].
      set (s1 := set_pending _ _ _ _ s). assert (sim (S (length w + n)) (with_wait w t) s1) as Hs1.
      { pose proof (ring_pop _ _ _ _ Hr _ _ eq_refl). pose proof (ring_pop _ _ _ _ Hr2 _ _ eq_refl). destruct Hs. by split. }
      destruct (send_result_sim _ fd len _ _ _ Hs1 Hi E1) as (s2 & Es & Hs2). erewrite bind_eq; [|exact Es].
      apply (IH n fuel t1); try done; [by apply t_send_keeps in E1|cbn in Hf; lia].
Qed.

Lemma i32_int x : is_int (i32 x).
Proof. unfold is_int, i32, swrap. pose proof (Z.mod_pos_bound (x + 2 ^ (32 - 1)) (2 ^ 32) ltac:(lia)). lia. Qed.
Lemma string_of_split b l : string_of b = Some l -> exists rest, b = l ++ 0 :: rest /\ Forall (fun c => c <> 0) l.
Proof.
  revert l. induction b as [|c b IH]; intros l E; [done|]. cbn in E. destruct (Z.eqb_spec c 0) as [->|Hc].
  - injection E as <-. by exists b.
  - apply bind_Some in E as (l' & E & [= <-]). destruct (IH l' E) as (rest & -> & Hl). exists rest. split; [done|by constructor].
Qed.

Lemma out_sim n a t s : sim n t s -> exists s', send a s = Done () s' /\ sim n (t_out a t) s'.
Proof. intros Hs. eexists. split; [apply modify_eq|]. destruct Hs. split; try done. cbn. by rewrite s_sent0. Qed.
Lemma print_sim n b str t s : sim n t s -> string_of b = Some str ->
  exists s' c, on_screen (vga_puts b) s = Done c s' /\ sim n (t_print str t) s'.
Proof.
  intros Hs Hb. destruct (string_of_split b str Hb) as (rest & -> & Hz).
  destruct (vga_puts_ok (t_text t) (scr s) str rest (s_screen _ _ _ Hs) Hz) as (v & Ev & Hv & _).
  eexists _, _. split; [by apply on_screen_eq|]. by apply (sim_screen n t s v).
Qed.
Lemma feed_sim n t s : sim n t s -> exists s', on_screen line_feed s = Done () s' /\ sim n (t_print [10] t) s'.
Proof.
  intros Hs. destruct (put_ok (t_text t) (scr s) 10 (s_screen _ _ _ Hs)) as (v & Ev & Hv & _). eexists. split; [by apply on_screen_eq|].
  by apply (sim_screen n t s v).
Qed.
Lemma t_print_app l1 l2 t : t_print l2 (t_print l1 t) = t_print (l1 ++ l2) t.
Proof. unfold t_print, term_puts. cbn. by rewrite foldl_app. Qed.

Lemma request_sim n q t t' s : sim (S n) t s -> (t_lines t = [] \/ t_wait t = []) -> t_request q t = Some t' ->
  exists s', handle_request q s = Done () s' /\ sim n t' s' /\ (t_lines t' = [] \/ t_wait t' = []).
Proof.
  intros Hs Hor (t1 & E1 & [= <-])%bind_Some. assert (sim n t s) as Hsn by (eapply sim_le; [done|lia]).
  unfold handle_request. erewrite bind_eq; [|apply get_eq].
  match goal with |- context [mbind _ ?m s] => assert (exists s1, m s = Done () s1 /\ sim n t1 s1 /\ (t_lines t1 = [] \/ t_wait t1 = [])) as (s1 & Em & Hs1 & Hor1) end.
  2:{ erewrite bind_eq; [|exact Em]. destruct (out_sim n (Munmap (ALIGN (q_buf q) 12) (q_size q)) t1 s1 Hs1) as (s' & E' & Hs'). by exists s'. }
  destruct (q_type q =? IO_READ).
  - rewrite (s_pid _ _ _ Hs). destruct (negb _).
    { injection E1 as <-. destruct (out_sim n (Respond (q_handle q) EIO 0 []) t s Hsn) as (s1 & E & Hs1). by exists s1. }
    destruct (t_lines t) as [|l lines] eqn:El.
    + rewrite (proj2 (Z.eqb_eq _ _)) by (by apply (lines_ptrs _ _ _ Hs)). case_decide as Hw; [|done]. injection E1 as <-. rewrite modify_eq.
      eexists. split; [done|]. split; [|by left].
      pose proof (ring_push _ _ _ _ (s_wait _ _ _ Hs) (q_handle q)) as Hr1. pose proof (ring_push _ _ _ _ (s_wait_len _ _ _ Hs) (i32 (q_len q))) as Hr2.
      rewrite length_fmap in Hr1, Hr2. specialize (Hr1 ltac:(lia)). specialize (Hr2 ltac:(lia)).
      destruct Hsn. split; cbn -[screen_ok]; rewrite ?fmap_app; try done. apply Forall_app. split; [done|]. constructor; [apply i32_int|done].
    + rewrite (proj2 (Z.eqb_neq _ _)) by (intros Eq%(lines_ptrs _ _ _ Hs); congruence).
      destruct (send_result_sim n (q_handle q) _ t t1 s Hs (i32_int (q_len q)) E1) as (s1 & E & Hs1). exists s1. split; [done|]. split; [done|].
      right. apply t_send_keeps in E1. rewrite E1. by destruct Hor.
  - destruct (q_type q =? IO_WRITE).
    { apply bind_Some in E1 as (str & Estr & [= <-]). destruct (print_sim n _ str t s Hsn Estr) as (s1 & c & E & Hs1).
      destruct (out_sim n (Respond (q_handle q) 0 (Z.of_nat (length str)) []) _ s1 Hs1) as (s2 & E2 & Hs2). exists s2.
      erewrite bind_eq; [|exact E]. erewrite bind_eq; [|by apply deref_eq]. done. }
    destruct (q_type q =? 3); [|injection E1 as <-; exists s; done]. injection E1 as <-. erewrite bind_eq; [|apply modify_eq].
    set (t2 := mkTty (t_mods t) (t_text t) (t_line t) (t_lines t) (t_off t) (t_wait t) (q_pid q) (t_sent t) (t_left t) (t_heap t)).
    assert (sim n t2 (set_control (q_pid q) s)) as Hs2 by (destruct Hsn; by split).
    destruct (print_sim n (chars "Request to switch foreground task" ++ [0]) (chars "Request to switch foreground task") t2 _ Hs2 eq_refl) as (s3 & c & E3 & Hs3).
    erewrite bind_eq; [|exact E3]. destruct (feed_sim _ _ _ Hs3) as (s4 & E4 & Hs4). exists s4. rewrite t_print_app in Hs4. done.
Qed.

(** ** The theorem *)
(** The main loop with the keyboard ready: everything typed, then the readers. *)
Definition t_serve (evs : list event) (q : option io_request) (t : tty) : option tty :=
  t ← t_events evs t;
  t ← t_drain (t_wait t) t;
  match q with Some q => t_request q t | None => Some t end.

Lemma t_event_wait t e t' : t_event t e = Some t' -> t_wait t' = t_wait t.
Proof.
  unfold t_event, t_enter, t_tab, t_key. repeat case_match; try (intros [= <-]; done); try done.
  - by intros (c & _ & [= <-])%bind_Some.
  - intros (c & _ & E)%bind_Some. revert E. case_match; by intros [= <-].
Qed.
Lemma t_events_wait evs : forall t t', t_events evs t = Some t' -> t_wait t' = t_wait t.
Proof.
  induction evs as [|e evs IH]; intros t t' E; [by injection E as <-|]. cbn in E. apply bind_Some in E as (t1 & E1 & E).
  apply t_event_wait in E1. rewrite <- E1. by apply IH.
Qed.
Lemma wait_room n t s : sim n t s -> (length (t_wait t) < 1024)%nat.
Proof. intros Hs. destruct (s_wait _ _ _ Hs) as (_ & _ & Hl & _). by rewrite length_fmap in Hl. Qed.


(** ** The start *)
Definition tty_init (g : list (list Z)) : tty := mkTty 0 [] [] [] 0 [] 1 [] (fresh g) (tail g).
(** The variables of a fresh process, with the pages that it can have. *)
Definition console_boot (pages : list Z) (g : list (list Z)) (i : list Z) : console :=
  mkConsole vga_init IDLE 0 0 0 (zeros BUF) 0 0 0 (zeros BUF) (zeros BUF) 0 0 1
    (mkHeap (replicate 13 0) ∅ pages) ∅ g i [].

Lemma ring_init : ring (zeros BUF) 0 0 [].
Proof. unfold ring, zeros. split_and!; try done; cbn; lia. Qed.
Lemma start_sim n pages g i : NoDup pages -> Forall (fun x => 0 < x /\ (4096 | x)) pages -> (n < length pages)%nat -> Forall (fun x => length x = BUF) g ->
  exists s, (p ← new_line; modify (fun s => set_line p (lbend s) s)) (console_boot pages g i) = Done () s /\ sim n (tty_init g) s /\ ins s = i.
Proof.
  intros Hnd Hp Hn Hg0. set (s0 := console_boot pages g i). rewrite Forall_forall in Hp.
  assert (heap_sim (S n) [] (hp s0)) as Hh.
  { exists ∅. destruct (clear_free_ok (hp s0)) as [_ Hok]. split_and!; [exact Hok| |intros H; by destruct (Hp 0 H)|done|constructor|by intros p o ?%not_elem_of_nil].
    split; [by apply NoDup_filter|]. intros x Hx. right. destruct (Hp x Hx). split_and!; [done|done|lia|by exists 1|..]; intros *; by rewrite lookup_empty. }
  destruct (new_line_eq n [] s0 Hh Hg0) as (p & o & h & E & _ & Hh' & Hx & Hg).
  erewrite bind_eq; [|exact E]. eexists. split; [apply modify_eq|]. split; [|done].
  split; cbn -[screen_ok]; try done; [exact vga_init_ok| |apply ring_init|apply ring_init].
  exists []. split; [apply ring_init|]. split; [by exists [(p, o)]|by rewrite lookup_insert_eq|done|constructor|done].
Qed.

(** Shift, H, Enter, and a reader: "H" and the newline, and what an older line, "hello",
    left in the buffer behind them. *)
Definition ex_reader (len : Z) : io_request := mkIo 7 1 IO_READ len [] 0x5010 100.
Definition ex_old : list Z := chars "hello" ++ [10] ++ zeros 1018.

(** *** Mistakes *)
Definition ex_start (g : list (list Z)) (i : list Z) : M console () := fun _ =>
  (p ← new_line; modify (fun s => set_line p (lbend s) s)) (console_boot [0x10000; 0x20000; 0x30000] g i).
Definition ex_keys : list Z := [1; 0x23; 1; 0x17; 1; 0x1c; 0].
Definition answers (o : outcome console ()) : option (list action) := match o with Done _ s => Some (sent s) | _ => None end.
(** Enter overwrites the terminator and sets no other: with a buffer that was used
    before, the rest of an older line follows. *)
Example old_line_follows :
  let old := chars "hello" ++ [10] ++ zeros 1018 in
  answers ((ex_start [old] ex_keys;; serve true (Some (ex_reader 100))) (console_boot [] [] []))
  = Some [Respond 7 0 6 (chars "hi" ++ [10] ++ chars "lo" ++ [10; 0]); Munmap 0x5000 100].
Proof. vm_compute. done. Qed.
(** The second reader of a line frees a pointer into its middle. *)
Example second_reader_faults :
  (ex_start [] ex_keys;; serve true (Some (ex_reader 1));; serve false (Some (ex_reader 100))) (console_boot [] [] []) = Faulted.
Proof. vm_compute. done. Qed.
(** A line of 1023 characters has no room for its terminator. *)
Example full_line_faults :
  (ex_start [] (concat (replicate 1023 [1; 0x23]) ++ [1; 0x1c; 0]);; serve true (Some (ex_reader 100))) (console_boot [] [] []) = Faulted.
Proof. vm_compute. done. Qed.
(** A code behind the end of the tables. *)
Example code_out_of_table : (ex_start [] [1; 0x65; 0];; serve true None) (console_boot [] [] []) = Faulted.
Proof. vm_compute. done. Qed.
