(* ===== verification/Kbd.v ===== *)
(** The kernel's keyboard driver ([sys/drivers/kbd.c]), which shows each key in the
    corner of the screen, with [vga_puts_at] of [sys/drivers/vga_text.c].

    The decoder is the one of [Keyboard]; here are the handlers it calls and the
    start of the controller.  [k_in] are the bytes that [inb] reads, 0 after the
    last; a wait that would never end is [Faulted]. *)
From S2P Require Import Prelude Keyboard Vga.

Record kbdrv := mkKbd {
  k_state : kstate;
  k_state2 : Z;
  ptsetup : Z;
  k_vbase : list Z;
  k_in : list Z;
  k_out : list (Z * Z);
  k_handlers : list Z;
  k_irq_off : Z;
  k_log : list string;
}.
Definition kset (k : kstate) (m : Z) (s : kbdrv) : kbdrv :=
  mkKbd k m (ptsetup s) (k_vbase s) (k_in s) (k_out s) (k_handlers s) (k_irq_off s) (k_log s).
Definition kset_screen (v : list Z) (s : kbdrv) : kbdrv :=
  mkKbd (k_state s) (k_state2 s) (ptsetup s) v (k_in s) (k_out s) (k_handlers s) (k_irq_off s) (k_log s).
Definition kset_ptsetup (p : Z) (s : kbdrv) : kbdrv :=
  mkKbd (k_state s) (k_state2 s) p (k_vbase s) (k_in s) (k_out s) (k_handlers s) (k_irq_off s) (k_log s).
Definition kset_io (i : list Z) (o : list (Z * Z)) (s : kbdrv) : kbdrv :=
  mkKbd (k_state s) (k_state2 s) (ptsetup s) (k_vbase s) i o (k_handlers s) (k_irq_off s) (k_log s).
Definition kset_env (h : list Z) (q : Z) (l : list string) (s : kbdrv) : kbdrv :=
  mkKbd (k_state s) (k_state2 s) (ptsetup s) (k_vbase s) (k_in s) (k_out s) h q l.

Definition kinb (port : Z) : M kbdrv Z := fun s => Done (default 0 (head (k_in s))) (kset_io (tail (k_in s)) (k_out s) s).
Definition koutb (port b : Z) : M kbdrv () := modify (fun s => kset_io (k_in s) (k_out s ++ [(port, b)]) s).
Definition kprintk (msg : string) : M kbdrv () := modify (fun s => kset_env (k_handlers s) (k_irq_off s) (k_log s ++ [msg]) s).

(** ** The display *)
Definition poke (a b : Z) : M kbdrv () :=
  s ← get; if in_page a then put (kset_screen (<[Z.to_nat a := b]> (k_vbase s)) s) else fault.
Fixpoint puts_at (str : list Z) (v color : Z) : M kbdrv () :=
  match str with
  | [] => mret ()
  | a :: str => poke v a;; poke (v + 1) color;; if R_ * C_ * 2 <=? v + 2 then mret () else puts_at str (v + 2) color
  end.
Definition vga_puts_at (str : list Z) (x y color : Z) : M kbdrv () := puts_at str ((x * C_ + y) * 2) color.
Definition KBD_DISPLAY_COLOR : Z := 0x70.
Definition press : M kbdrv () := vga_puts_at (chars "Pressing ") 23 67 KBD_DISPLAY_COLOR.
Definition release : M kbdrv () := vga_puts_at (chars "Released ") 23 67 KBD_DISPLAY_COLOR.

(** ** Handlers *)
Definition kbd_do_key (symbol up : Z) : M kbdrv () :=
  if negb (up =? 0) then release
  else
    vga_puts_at (chars "   ") 23 77 0x0;;
    s ← get;
    c ← key_char (k_state2 s) symbol;
    if c =? 0 then mret ()
    else
      when (negb (Z.land (k_state2 s) 3 =? 0)) (vga_puts_at (chars "^") 23 78 KBD_DISPLAY_COLOR);;
      vga_puts_at [c] 23 79 KBD_DISPLAY_COLOR;;
      press.
Definition kbd_do_control_key (symbol up : Z) : M kbdrv () :=
  if negb (up =? 0) then release
  else
    vga_puts_at (chars "   ") 23 77 0x0;;
    (if (0x3B <=? symbol) && (symbol <? 0x44) then
       vga_puts_at (chars "F") 23 78 KBD_DISPLAY_COLOR;;
       vga_puts_at [symbol - 0x3a + 48] 23 79 KBD_DISPLAY_COLOR
     else if symbol =? 0x0e then vga_puts_at (chars "^H") 23 78 KBD_DISPLAY_COLOR
     else if symbol =? 0x1c then vga_puts_at (chars "^M") 23 78 KBD_DISPLAY_COLOR
     else if symbol =? 0x0f then vga_puts_at (chars "^I") 23 78 KBD_DISPLAY_COLOR
     else if symbol =? 0x01 then vga_puts_at (chars "^[") 23 78 KBD_DISPLAY_COLOR
     else if symbol =? 0x44 then vga_puts_at (chars "F10") 23 77 KBD_DISPLAY_COLOR
     else mret ());;
    press.
(** [rctrl] also tells the scheduler's demonstration to start. *)
Definition kbd_rctrl : M kbdrv () := s ← get; when (ptsetup s =? 0) (modify (kset_ptsetup 1)).
(** The end of [caps]. *)
Definition kbd_caps : M kbdrv () :=
  s ← get;
  if negb (Z.land (k_state2 s) CAPS_LOCK =? 0) then vga_puts_at (chars "CAPS") 22 76 0x4f else vga_puts_at (chars "    ") 22 76 0x0.

#[export] Instance kbd_keys : KeyOps kbdrv := {
  state := k_state; state2 := k_state2;
  set_state k s := kset k (k_state2 s) s; set_state2 m s := kset (k_state s) m s;
  rctrl_hook := kbd_rctrl; caps_hook := kbd_caps;
  do_key := kbd_do_key; do_control_key := kbd_do_control_key
}.

Definition kbd_state_transition : Z -> M kbdrv () := state_transition.
Fixpoint kbd_drain (fuel : nat) (x : Z) : M kbdrv () :=
  if Z.land x 1 =? 0 then mret ()
  else match fuel with O => fault | S fuel => c ← kinb 0x60; x ← kinb 0x64; kbd_state_transition c;; kbd_drain fuel x end.
Definition kbd_handler (v : Z) : M kbdrv Z :=
  s ← get; x ← kinb 0x64; kbd_drain (length (k_in s)) x;; mret 0.

(** ** The controller *)
Fixpoint kwait (bit : Z) (fuel : nat) : M kbdrv () :=
  x ← kinb 0x64;
  if Z.land x bit =? 0 then match fuel with O => fault | S fuel => kwait bit fuel end else mret ().
Definition kwait_output : M kbdrv () := s ← get; kwait 1 (length (k_in s)).
Definition kwait_input : M kbdrv () := s ← get; kwait 2 (length (k_in s)).
(** [while(kstatus&1) x = inb(0x60);]: the status is not read again. *)
Definition empty_buffer (kstatus : Z) : M kbdrv () := if Z.land kstatus 1 =? 0 then mret () else fault.
Definition irq (d : Z) : M kbdrv () := modify (fun s => kset_env (k_handlers s) (k_irq_off s + d) (k_log s) s).
Definition kbd_init : M kbdrv () :=
  irq 1;;
  kstatus ← kinb 0x64;
  empty_buffer kstatus;;
  koutb 0x64 0xAA;; kwait_output;;
  x ← kinb 0x60;
  if negb (x =? 0x55) then kprintk "PS/2 Controller malfunctioning"
  else
    koutb 0x64 0xAB;; kwait_output;;
    x ← kinb 0x60;
    if negb (x =? 0) then kprintk "First PS/2 port malfunctioning"
    else
      koutb 0x64 0x20;; kwait_output;;
      x ← kinb 0x60;
      when (Z.land x 1 =? 0)
        (kprintk "Enabling first PS/2 port interrupt";; koutb 0x64 0x60;; kwait_input;; koutb 0x60 (Z.lor x 1));;
      modify (fun s => kset_env (k_handlers s ++ [33]) (k_irq_off s) (k_log s) s);;
      koutb 0x64 0xAE;;
      irq (-1).

(** ** The display stays on the screen *)
Lemma poke_eq a b s : 0 <= a < 4096 -> poke a b s = Done () (kset_screen (<[Z.to_nat a := b]> (k_vbase s)) s).
Proof. intros Ha. unfold poke. erewrite bind_eq; [|apply get_eq]. by rewrite in_page_true. Qed.
Lemma puts_at_ok str : forall i color s, 0 <= i < 2000 -> length (k_vbase s) = 4096%nat ->
  exists vb, puts_at str (2 * i) color s = Done () (kset_screen vb s) /\ length vb = 4096%nat.
Proof.
  induction str as [|a str IH]; intros i color s Hi Hl; cbn [puts_at].
  - exists (k_vbase s). split; [by destruct s|done].
  - erewrite bind_eq; [|apply poke_eq; lia]. erewrite bind_eq; [|apply poke_eq; lia].
    set (s1 := kset_screen (<[Z.to_nat (2 * i + 1) := color]> _) _).
    assert (length (k_vbase s1) = 4096%nat) as Hl1 by (cbn; by rewrite !length_insert).
    destruct (Z.leb_spec (R_ * C_ * 2) (2 * i + 2)) as [|Hlt]; [by exists (k_vbase s1)|]. unfold R_, C_ in Hlt.
    destruct (IH (i + 1) color s1 ltac:(lia) Hl1) as (vb & E & Hvb). exists vb. split; [|done].
    replace (2 * i + 2) with (2 * (i + 1)) by lia. by rewrite E.
Qed.
Lemma vga_puts_at_ok str x y color s : 0 <= x < 25 -> 0 <= y < 80 -> length (k_vbase s) = 4096%nat ->
  exists vb, vga_puts_at str x y color s = Done () (kset_screen vb s) /\ length vb = 4096%nat.
Proof. intros Hx Hy Hl. unfold vga_puts_at. rewrite Z.mul_comm. apply puts_at_ok; [unfold C_; lia|done]. Qed.

(** ** The handlers keep the decoder's interface *)
Definition decoder_part (s : kbdrv) : kstate * Z := (k_state s, k_state2 s).
Lemma frame_poke a b : frame decoder_part (poke a b).
Proof. apply frame_get_put. intros s x s'. destruct (in_page a); [by intros [= _ <-]|done]. Qed.
#[local] Hint Resolve frame_poke : frame.
Lemma frame_puts_at str color : forall v, frame decoder_part (puts_at str v color).
Proof. induction str as [|a str IH]; intros v; cbn [puts_at]; framed. Qed.
#[local] Hint Resolve frame_puts_at : frame.
Lemma frame_vga_puts_at str x y color : frame decoder_part (vga_puts_at str x y color).
Proof. apply frame_puts_at. Qed.
#[local] Hint Resolve frame_vga_puts_at : frame.
Lemma frame_kbd_do_key k u : frame decoder_part (kbd_do_key k u).
Proof. unfold kbd_do_key, key_char, press, release. framed. Qed.
Lemma frame_kbd_do_control_key k u : frame decoder_part (kbd_do_control_key k u).
Proof. unfold kbd_do_control_key, press, release. framed. Qed.
Lemma frame_kbd_rctrl : frame decoder_part kbd_rctrl.
Proof. unfold kbd_rctrl. framed. Qed.
Lemma frame_kbd_caps : frame decoder_part kbd_caps.
Proof. unfold kbd_caps. framed. Qed.

#[export] Instance kbd_laws : KeyLaws kbdrv.
Proof.
  split; try done; try (by intros s; destruct s).
  - intros k s. cbn -[k_state]. unfold kbd_rctrl. do 2 (erewrite bind_eq; [|apply get_eq]). cbn. by destruct (ptsetup s =? 0).
  - intros s s' E. by injection (frame_kbd_rctrl s () s' E).
  - intros s s' E. by injection (frame_kbd_caps s () s' E).
  - intros k u s s' E. by injection (frame_kbd_do_key k u s () s' E).
  - intros k u s s' E. by injection (frame_kbd_do_control_key k u s () s' E).
Qed.

(** Shift and H; the right control key is let go. *)
Example kbd_ex :
  let s := mkKbd IDLE 0 0 (replicate (Z.to_nat 4096) 0) [0x2a; 0x23; 0xe0; 0x9d] [] [] 0 [] in
  match kbd_drain 2 1 (kset_io [0x2a; 1; 0x23; 0] [] s) with
  | Done _ s => k_state2 s = 4 /\ k_vbase s !! Z.to_nat ((23 * 80 + 79) * 2) = Some 72
  | _ => False
  end.
Proof. vm_compute. done. Qed.

Lemma keyboard_decodes_witness :
  let s := mkKbd IDLE 0 0 (replicate (Z.to_nat 4096) 0) [] [] [] 0 [] in
  let evs := [Key 0x2a false; Ext 0x1d false; Pause 0x1d 0x45; Key 0x2a true] in
  transitions (concat (encode <$> evs)) s = handle_all evs s
  /\ forall s', handle_all evs s = Done () s' -> state s' = IDLE
     /\ forall i, 0 <= i < 4 -> Z.testbit (state2 s') i = foldl (down i) (Z.testbit (state2 s) i) evs.
Proof. apply keyboard_decodes; [repeat constructor; (done || lia)|done]. Defined.
