(* ===== verification/SataFs.v ===== *)
(** The block layer of the disk file system: [bin/fs/fs.c].

    A sector, the common buffer, a buffer of the client and a structure are
    functions from offsets to bytes.  [read_sata] and [write_sata] transfer one
    sector between the disk and the first 512 bytes of [common_buf], which is a
    page; [AhciProofs] shows that the driver does that.  The bitmaps are
    read anew by every function that uses them, so that the global arrays are
    values here.  The [int]s of this file stay far from 2^31. *)
From S2P Require Import Prelude CString.

Record fsys := mkFs { disk : Z -> memory; common_buf : memory }.

Definition BLOCK_SIZE : Z := 512.
Definition INODE_BITMAP_START_INDEX : Z := 1.
Definition DATA_BITMAP_START_INDEX : Z := 2.
Definition DENTRY_BITMAP_START_INDEX : Z := 3.
Definition INODE_START_INDEX : Z := 4.
Definition DENTRY_START_INDEX : Z := 14.
Definition DATA_START_INDEX : Z := 34.

(** ** Bytes *)
(** [memcpy] between different objects; a negative length is a huge [size_t]. *)
Definition copy_block (dst src : memory) (d s n : Z) : memory :=
  fun x => if (d <=? x) && (x <? d + n) then src (s + (x - d)) else dst x.

(** ** [struct inode] of [include/vfs.h] *)
Definition sizeof_inode : Z := 144.
Definition inode_id (b : memory) : Z := i32 (get_le 4 b 0).
Definition file_len (b : memory) : Z := i32 (get_le 4 b 4).
Definition block_count (b : memory) : Z := i32 (get_le 4 b 8).
(** [int *i_data[15]], a block number in each. *)
Definition i_data (b : memory) (k : Z) : Z := get_le 8 b (16 + 8 * k).
Definition set_inode_id (b : memory) (v : Z) : memory := put_le 4 b 0 v.
Definition set_file_len (b : memory) (v : Z) : memory := put_le 4 b 4 v.
Definition set_block_count (b : memory) (v : Z) : memory := put_le 4 b 8 v.
Definition set_i_data (b : memory) (k v : Z) : memory := put_le 8 b (16 + 8 * k) v.
Definition set_flags (b : memory) (v : Z) : memory := put_le 2 b 136 v.
Definition sizeof_dentry : Z := 304.

(** ** Sectors *)
Definition read_sata (startl : Z) : M fsys () :=
  modify (fun s => mkFs (disk s) (copy_block (common_buf s) (disk s startl) 0 0 BLOCK_SIZE)).
Definition write_sata (startl : Z) : M fsys () :=
  modify (fun s => mkFs (fun i => if i =? startl then copy_block (disk s i) (common_buf s) 0 0 BLOCK_SIZE else disk s i) (common_buf s)).
Definition buf_write (src : memory) (d n : Z) : M fsys () :=
  modify (fun s => mkFs (disk s) (copy_block (common_buf s) src d 0 n)).

(** ** Bitmaps *)
Definition read_bitmap (sector : Z) : M fsys memory := read_sata sector;; gets common_buf.
Definition read_inode_bitmap : M fsys memory := read_bitmap INODE_BITMAP_START_INDEX.
Definition read_data_bitmap : M fsys memory := read_bitmap DATA_BITMAP_START_INDEX.
Definition read_dentry_bitmap : M fsys memory := read_bitmap DENTRY_BITMAP_START_INDEX.

(** The first 0 of [n] entries from [i] on, or -1. *)
Fixpoint first_zero (n : nat) (bitmap : memory) (i : Z) : Z :=
  match n with O => -1 | S n => if bitmap i =? 0 then i else first_zero n bitmap (i + 1) end.
Definition get_free_inode : M fsys Z := b ← read_inode_bitmap; mret (first_zero 512 b 0).
Definition get_free_dentry : M fsys Z := b ← read_dentry_bitmap; mret (first_zero 512 b 0).
Definition get_free_data : M fsys Z := b ← read_data_bitmap; mret (first_zero 512 b 0).

(** The arrays have [BLOCK_SIZE + 2] elements. *)
Definition set_bitmap (sector id : Z) : M fsys () :=
  b ← read_bitmap sector;
  if (0 <=? id) && (id <? BLOCK_SIZE + 2) then buf_write (upd b id 1) 0 BLOCK_SIZE;; write_sata sector else fault.
Definition set_inode_bitmap (inode_id : Z) : M fsys () := set_bitmap INODE_BITMAP_START_INDEX inode_id.
Definition set_data_bitmap (data_id : Z) : M fsys () := set_bitmap DATA_BITMAP_START_INDEX data_id.
Definition set_dentry_bitmap (dentry_id : Z) : M fsys () := set_bitmap DENTRY_BITMAP_START_INDEX dentry_id.

(** ** Inodes and directory entries *)
(** A structure of [size] bytes, [per] to a sector, from sector [start] on. *)
Definition get_struct (start per size index : Z) : M fsys memory :=
  read_sata (start + Z.quot index per);;
  b ← gets common_buf;
  mret (fun x => b (size * Z.rem index per + x)).
Definition put_struct (start per size index : Z) (b : memory) : M fsys () :=
  read_sata (start + Z.quot index per);;
  buf_write b (size * Z.rem index per) size;;
  write_sata (start + Z.quot index per).

Definition get_inode (inode_index : Z) : M fsys memory := get_struct INODE_START_INDEX 4 sizeof_inode inode_index.
Definition write_inode (inode_index : Z) (b : memory) : M fsys () := put_struct INODE_START_INDEX 4 sizeof_inode inode_index b.
Definition get_dentry (inode_index : Z) : M fsys memory := get_struct DENTRY_START_INDEX 2 sizeof_dentry inode_index.
Definition write_dentry (inode_index : Z) (b : memory) : M fsys () := put_struct DENTRY_START_INDEX 2 sizeof_dentry inode_index b.

Fixpoint clear_i_data (n : nat) (b : memory) (i : Z) : memory :=
  match n with O => b | S n => clear_i_data n (set_i_data b i 0) (i + 1) end.
(** Changes the structure in [common_buf], then writes the sector. *)
Definition build_inode (id flags : Z) : M fsys () :=
  set_inode_bitmap id;;
  let sector := INODE_START_INDEX + Z.quot id 4 in
  let off := sizeof_inode * Z.rem id 4 in
  read_sata sector;;
  b ← gets common_buf;
  let inode := set_flags (clear_i_data 13 (set_block_count (set_file_len (set_inode_id (fun x => b (off + x)) id) 0) 0) 0) flags in
  buf_write inode off sizeof_inode;;
  write_sata sector.

(** ** Data blocks *)
Definition get_data (data_index : Z) (buf : memory) (buf_ptr offset count : Z) : M fsys memory :=
  read_sata (u32 (DATA_START_INDEX + data_index));;
  b ← gets common_buf;
  if count <? 0 then fault else mret (copy_block buf b buf_ptr offset count).
Definition write_data (data_index : Z) (buf : memory) (buf_ptr offset count : Z) : M fsys () :=
  read_sata (u32 (DATA_START_INDEX + data_index));;
  (if count <? 0 then fault else buf_write (fun x => buf (buf_ptr + x)) offset count);;
  write_sata (u32 (DATA_START_INDEX + data_index)).

(** ** Files *)
(** What the wrappers use of [struct file]. *)
Record file := mkFile { f_inode : Z; f_pos : Z }.

Definition block_of (inode : memory) (k : Z) : M fsys Z :=
  if (0 <=? k) && (k <? 15) then mret (i_data inode k) else fault.

(** [n] whole blocks from the [i]-th on. *)
Fixpoint get_blocks (n : nat) (inode : memory) (i : Z) (buf : memory) (buf_ptr : Z) : M fsys (memory * Z) :=
  match n with
  | O => mret (buf, buf_ptr)
  | S n =>
      d ← block_of inode i;
      buf ← get_data d buf buf_ptr 0 BLOCK_SIZE;
      get_blocks n inode (i + 1) buf (buf_ptr + BLOCK_SIZE)
  end.
Fixpoint write_blocks (n : nat) (inode : memory) (i : Z) (buf : memory) (buf_ptr : Z) : M fsys Z :=
  match n with
  | O => mret buf_ptr
  | S n =>
      d ← block_of inode i;
      write_data d buf buf_ptr 0 BLOCK_SIZE;;
      write_blocks n inode (i + 1) buf (buf_ptr + BLOCK_SIZE)
  end.

(** The result, the file and the buffer afterwards. *)
Definition read_sata_wrapper (fd : file) (buf : memory) (count : Z) : M fsys (Z * file * memory) :=
  cur_inode ← get_inode (f_inode fd);
  if f_pos fd =? file_len cur_inode then mret (0, fd, buf)
  else
    let count := if file_len cur_inode <=? f_pos fd + count then file_len cur_inode - f_pos fd else count in
    let first_block_index := Z.quot (f_pos fd) BLOCK_SIZE in
    let last_block_index := Z.quot (f_pos fd + count) BLOCK_SIZE in
    let off := Z.rem (f_pos fd) BLOCK_SIZE in
    d ← block_of cur_inode first_block_index;
    if first_block_index =? last_block_index then
      buf ← get_data d buf 0 off count;
      mret (count, mkFile (f_inode fd) (f_pos fd + count), buf)
    else
      buf ← get_data d buf 0 off (BLOCK_SIZE - off);
      '(buf, buf_ptr) ← get_blocks (Z.to_nat (last_block_index - 1 - first_block_index)) cur_inode (first_block_index + 1) buf (BLOCK_SIZE - off);
      d ← block_of cur_inode last_block_index;
      buf ← get_data d buf buf_ptr 0 (Z.rem (f_pos fd + count) BLOCK_SIZE);
      mret (count, mkFile (f_inode fd) (f_pos fd + count), buf).

Definition ENOSPC : Z := 28.
(** [while (new_block_count > 0)], [n] rounds; [inl] is the return on a full
    disk. *)
Fixpoint alloc_blocks (n : nat) (cur_inode : memory) : M fsys (Z + memory) :=
  match n with
  | O => mret (inr cur_inode)
  | S n =>
      data_index ← get_free_data;
      set_data_bitmap data_index;;
      if data_index =? -1 then mret (inl (- ENOSPC))
      else
        let k := block_count cur_inode in
        if (0 <=? k) && (k <? 15) then alloc_blocks n (set_i_data (set_block_count cur_inode (k + 1)) k data_index) else fault
  end.

Definition write_sata_wrapper (fd : file) (buf : memory) (count : Z) : M fsys (Z * file) :=
  cur_inode ← get_inode (f_inode fd);
  let first_block_index := Z.quot (f_pos fd) BLOCK_SIZE in
  let cur_last_block_index := block_count cur_inode - 1 in
  let last_block_index := Z.quot (f_pos fd + count) BLOCK_SIZE in
  let off := Z.rem (f_pos fd) BLOCK_SIZE in
  r ← alloc_blocks (Z.to_nat (last_block_index - cur_last_block_index)) cur_inode;
  match r with
  | inl err => mret (err, fd)
  | inr cur_inode =>
      d ← block_of cur_inode first_block_index;
      (if first_block_index =? last_block_index then write_data d buf 0 off count
       else
         write_data d buf 0 off (BLOCK_SIZE - off);;
         buf_ptr ← write_blocks (Z.to_nat (last_block_index - 1 - first_block_index)) cur_inode (first_block_index + 1) buf (BLOCK_SIZE - off);
         d ← block_of cur_inode last_block_index;
         write_data d buf buf_ptr 0 (Z.rem (f_pos fd + count) BLOCK_SIZE));;
      let f_pos' := f_pos fd + count in
      let cur_inode := if file_len cur_inode <=? f_pos' then set_file_len cur_inode f_pos' else cur_inode in
      write_inode (f_inode fd) cur_inode;;
      get_inode (f_inode fd);;
      mret (count, mkFile (f_inode fd) f_pos')
  end.

(** [my_lseek] of [bin/fs/vfs.c].  SEEK_END follows [fd -> inode], which in this
    file system is the number of an inode and no pointer. *)
Definition SEEK_SET : Z := 0.
Definition SEEK_CUR : Z := 1.
Definition SEEK_END : Z := 2.
Definition my_lseek (fd : file) (offset whence : Z) : M fsys (Z * file) :=
  if whence =? SEEK_END then fault
  else
    let pos := i32 (if whence =? SEEK_SET then offset else if whence =? SEEK_CUR then f_pos fd + offset else f_pos fd) in
    mret (pos, mkFile (f_inode fd) pos).

(** ** Bytes *)
Lemma blit_in dst src d s n x : d <= x < d + n -> copy_block dst src d s n x = src (s + (x - d)).
Proof. intros. unfold copy_block. by rewrite (proj2 (andb_true_iff _ _)) by (rewrite Z.leb_le, Z.ltb_lt; lia). Qed.
Lemma blit_out dst src d s n x : ~ d <= x < d + n -> copy_block dst src d s n x = dst x.
Proof.
  intros. unfold copy_block. destruct (Z.leb_spec d x), (Z.ltb_spec x (d + n)); cbn [andb]; (done || lia).
Qed.

(** ** Fields *)
Section fields.
Context (b : memory).
Lemma bc_set v : 0 <= v < 2 ^ 31 -> block_count (set_block_count b v) = v.
Proof. intros. unfold block_count, set_block_count. rewrite get_put_le. by apply i32_le. Qed.
Lemma fl_set v : 0 <= v < 2 ^ 31 -> file_len (set_file_len b v) = v.
Proof. intros. unfold file_len, set_file_len. rewrite get_put_le. by apply i32_le. Qed.
Lemma bc_set_fl v : block_count (set_file_len b v) = block_count b.
Proof. unfold block_count, set_file_len. rewrite get_put_le_ne; [done|lia]. Qed.
Lemma fl_set_bc v : file_len (set_block_count b v) = file_len b.
Proof. unfold file_len, set_block_count. rewrite get_put_le_ne; [done|lia]. Qed.
Lemma bc_set_data k v : 0 <= k -> block_count (set_i_data b k v) = block_count b.
Proof. intros. unfold block_count, set_i_data. rewrite get_put_le_ne; [done|lia]. Qed.
Lemma fl_set_data k v : 0 <= k -> file_len (set_i_data b k v) = file_len b.
Proof. intros. unfold file_len, set_i_data. rewrite get_put_le_ne; [done|lia]. Qed.
Lemma data_set k v : 0 <= v < 2 ^ 64 -> i_data (set_i_data b k v) k = v.
Proof. intros. unfold i_data, set_i_data. rewrite get_put_le. change (256 ^ Z.of_nat 8) with (2 ^ 64). by apply Z.mod_small. Qed.
Lemma data_set_ne k k' v : k <> k' -> i_data (set_i_data b k v) k' = i_data b k'.
Proof. intros. unfold i_data, set_i_data. rewrite get_put_le_ne; [done|lia]. Qed.
Lemma data_set_bc k v : 0 <= k -> i_data (set_block_count b v) k = i_data b k.
Proof. intros. unfold i_data, set_block_count. rewrite get_put_le_ne; [done|lia]. Qed.
Lemma data_set_fl k v : 0 <= k -> i_data (set_file_len b v) k = i_data b k.
Proof. intros. unfold i_data, set_file_len. rewrite get_put_le_ne; [done|lia]. Qed.

(** The fields are in the 144 bytes of the structure. *)
Context (b' : memory) (Hb : forall x, 0 <= x < sizeof_inode -> b x = b' x).
Lemma bc_ext : block_count b = block_count b'.
Proof. unfold block_count. f_equal. apply get_le_ext. intros x Hx. apply Hb. unfold sizeof_inode. lia. Qed.
Lemma fl_ext : file_len b = file_len b'.
Proof. unfold file_len. f_equal. apply get_le_ext. intros x Hx. apply Hb. unfold sizeof_inode. lia. Qed.
Lemma data_ext k : 0 <= k < 15 -> i_data b k = i_data b' k.
Proof. intros Hk. unfold i_data. apply get_le_ext. intros x Hx. apply Hb. unfold sizeof_inode. lia. Qed.
End fields.

(** ** Sectors *)
Lemma read_sata_eq n s : exists s', read_sata n s = Done () s' /\ disk s' = disk s
  /\ (forall i, 0 <= i < 512 -> common_buf s' i = disk s n i) /\ (forall i, 512 <= i -> common_buf s' i = common_buf s i).
Proof.
  eexists. split; [apply modify_eq|]. split; [done|]. cbn. split; intros i Hi.
  - rewrite blit_in by (unfold BLOCK_SIZE; lia). f_equal. lia.
  - apply blit_out. unfold BLOCK_SIZE. lia.
Qed.
Lemma write_sata_eq n s : exists s', write_sata n s = Done () s' /\ common_buf s' = common_buf s
  /\ forall m i, 0 <= i < 512 -> disk s' m i = if m =? n then common_buf s i else disk s m i.
Proof.
  eexists. split; [apply modify_eq|]. split; [done|]. cbn. intros m i Hi. destruct (Z.eqb_spec m n) as [->|]; [|done].
  rewrite blit_in by (unfold BLOCK_SIZE; lia). f_equal. lia.
Qed.
Lemma buf_write_eq src d n s : exists s', buf_write src d n s = Done () s' /\ disk s' = disk s
  /\ forall i, common_buf s' i = copy_block (common_buf s) src d 0 n i.
Proof. eexists. split; [apply modify_eq|]. done. Qed.

Lemma read_bitmap_eq n s : exists b s', read_bitmap n s = Done b s' /\ disk s' = disk s
  /\ forall i, 0 <= i < 512 -> b i = disk s n i.
Proof.
  destruct (read_sata_eq n s) as (s' & E & D & B & _). exists (common_buf s'), s'. split; [|done].
  unfold read_bitmap. by erewrite bind_eq.
Qed.

Lemma set_bitmap_eq n id s : 0 <= id < 512 -> exists s', set_bitmap n id s = Done () s'
  /\ forall m i, 0 <= i < 512 -> disk s' m i = if (m =? n) && (i =? id) then 1 else disk s m i.
Proof.
  intros Hid. destruct (read_bitmap_eq n s) as (b & s1 & E1 & D1 & B1).
  destruct (buf_write_eq (upd b id 1) 0 BLOCK_SIZE s1) as (s2 & E2 & D2 & B2). destruct (write_sata_eq n s2) as (s3 & E3 & _ & D3).
  exists s3. split.
  - unfold set_bitmap. erewrite bind_eq; [|exact E1].
    rewrite (proj2 (andb_true_iff _ _)) by (rewrite Z.leb_le, Z.ltb_lt; unfold BLOCK_SIZE; lia). erewrite bind_eq; [|exact E2]. exact E3.
  - intros m i Hi. rewrite D3 by done. destruct (Z.eqb_spec m n) as [->|]; cbn [andb]; [|by rewrite D2, D1].
    rewrite B2, blit_in by (unfold BLOCK_SIZE; lia). unfold upd. replace (0 + (i - 0)) with i by lia.
    destruct (i =? id); [done|]. by apply B1.
Qed.

Lemma first_zero_ok n bm : forall i, first_zero n bm i = -1 /\ (forall j, i <= j < i + Z.of_nat n -> bm j <> 0)
  \/ i <= first_zero n bm i < i + Z.of_nat n /\ bm (first_zero n bm i) = 0.
Proof.
  induction n as [|n IH]; intros i; cbn [first_zero]; [left; split; [done|lia]|].
  destruct (Z.eqb_spec (bm i) 0); [right; split; [lia|done]|].
  destruct (IH (i + 1)) as [[-> H]|[H1 H2]].
  - left. split; [done|]. intros j Hj. destruct (decide (j = i)) as [->|]; [done|]. apply H. lia.
  - right. split; [lia|done].
Qed.

(** *** Structures that lie in their sector *)
Lemma get_struct_eq start per size index s : 0 <= index -> 0 < per ->
  exists b s', get_struct start per size index s = Done b s' /\ disk s' = disk s
    /\ forall x, 0 <= size * (index mod per) + x < 512 -> b x = disk s (start + index / per) (size * (index mod per) + x).
Proof.
  intros Hi Hp. destruct (read_sata_eq (start + Z.quot index per) s) as (s' & E & D & B & _).
  eexists _, s'. split; [unfold get_struct; erewrite bind_eq; [|exact E]; erewrite bind_eq; [|apply gets_eq]; done|].
  split; [done|]. intros x Hx. rewrite Z.quot_div_nonneg in B by lia. rewrite Z.rem_mod_nonneg by lia. by apply B.
Qed.
Lemma put_struct_eq start per size index b s : 0 <= index -> 0 < per -> 0 <= size -> size * (index mod per) + size <= 512 ->
  exists s', put_struct start per size index b s = Done () s'
    /\ forall m i, 0 <= i < 512 -> disk s' m i =
         if (m =? start + index / per) && bool_decide (size * (index mod per) <= i < size * (index mod per) + size)
         then b (i - size * (index mod per)) else disk s m i.
Proof.
  intros Hi Hp Hs Hfit. unfold put_struct. rewrite Z.quot_div_nonneg, Z.rem_mod_nonneg by lia.
  set (n := start + index / per). set (off := size * (index mod per)) in *.
  assert (0 <= off) as Ho by (pose proof (Z.mod_pos_bound index per); unfold off; nia).
  destruct (read_sata_eq n s) as (s1 & E1 & D1 & B1 & _). destruct (buf_write_eq b off size s1) as (s2 & E2 & D2 & B2).
  destruct (write_sata_eq n s2) as (s3 & E3 & _ & D3). exists s3.
  split; [by erewrite bind_eq; [|exact E1]; erewrite bind_eq; [|exact E2]|].
  intros m i Hi'. rewrite D3 by done. destruct (Z.eqb_spec m n) as [->|]; cbn [andb]; [|by rewrite D2, D1].
  rewrite B2. case_bool_decide; [rewrite blit_in by lia; f_equal; lia|]. rewrite blit_out by lia. by apply B1.
Qed.
