(* ===== verification/SataProofs.v ===== *)
(** What is written to a file of [SataFs] is what is read back, and nothing else
    changes. *)
From S2P Require Import Prelude CString SataFs.

(** ** Files on the disk *)
(** The inode of a file, as it lies in its sector. *)
Definition inode_off (ino : Z) : Z := sizeof_inode * (ino mod 4).
Definition inode_on (dk : Z -> memory) (ino : Z) : memory :=
  fun x => dk (INODE_START_INDEX + ino / 4) (inode_off ino + x).
(** The byte at position [x] of a file with inode [b]. *)
Definition byte_of (dk : Z -> memory) (b : memory) (x : Z) : Z := dk (DATA_START_INDEX + i_data b (x / 512)) (x mod 512).

(** The blocks of an inode are marked as used in the bitmap, each once. *)
Record blocks_ok (bm : memory) (b : memory) : Prop := {
  b_count : 0 <= block_count b <= 15;
  b_used : forall k, 0 <= k < block_count b -> 0 <= i_data b k < 512 /\ bm (i_data b k) <> 0;
  b_once : forall k k', 0 <= k < block_count b -> 0 <= k' < block_count b -> i_data b k = i_data b k' -> k = k'
}.
(** A file: its inode lies within one sector ([sizeof_inode] does not divide a
    sector: every fourth inode crosses the end), its length is inside its last
    block. *)
Record file_ok (dk : Z -> memory) (ino : Z) : Prop := {
  f_range : 0 <= ino < 40;
  f_fits : ino mod 4 <> 3;
  f_blocks : blocks_ok (dk DATA_BITMAP_START_INDEX) (inode_on dk ino);
  f_len : 0 <= file_len (inode_on dk ino) < 512 * block_count (inode_on dk ino) \/ (file_len (inode_on dk ino) = 0 /\ block_count (inode_on dk ino) = 0)
}.

Lemma inode_off_bound ino : 0 <= ino -> ino mod 4 <> 3 -> 0 <= inode_off ino /\ inode_off ino + sizeof_inode <= 512.
Proof. intros. unfold inode_off, sizeof_inode. pose proof (Z.mod_pos_bound ino 4). lia. Qed.

Lemma get_inode_eq ino s : 0 <= ino -> ino mod 4 <> 3 -> exists b s', get_inode ino s = Done b s' /\ disk s' = disk s
  /\ forall x, 0 <= x < sizeof_inode -> b x = inode_on (disk s) ino x.
Proof.
  intros Hi Hf. destruct (get_struct_eq INODE_START_INDEX 4 sizeof_inode ino s) as (b & s' & E & D & B); [lia..|].
  exists b, s'. split; [exact E|]. split; [done|]. intros x Hx. apply B. destruct (inode_off_bound ino Hi Hf). unfold inode_off in *. lia.
Qed.

Lemma write_inode_eq ino b s : 0 <= ino -> ino mod 4 <> 3 -> exists s', write_inode ino b s = Done () s'
  /\ forall m i, 0 <= i < 512 -> disk s' m i =
       if (m =? INODE_START_INDEX + ino / 4) && bool_decide (inode_off ino <= i < inode_off ino + sizeof_inode)
       then b (i - inode_off ino) else disk s m i.
Proof. intros Hi Hf. destruct (inode_off_bound ino Hi Hf). by apply put_struct_eq. Qed.

(** Reading and writing leave the sectors of other inodes and of data apart. *)
Lemma block_of_eq b k (s : fsys) : 0 <= k < 15 -> block_of b k s = Done (i_data b k) s.
Proof. intros. unfold block_of. by rewrite (proj2 (andb_true_iff _ _)) by (rewrite Z.leb_le, Z.ltb_lt; lia). Qed.

Lemma data_sector d : 0 <= d < 512 -> u32 (DATA_START_INDEX + d) = DATA_START_INDEX + d.
Proof. intros. unfold u32, wrap, DATA_START_INDEX. apply Z.mod_small. lia. Qed.

Lemma get_data_eq d buf ptr off n s : 0 <= d < 512 -> 0 <= off -> 0 <= n -> off + n <= 512 ->
  exists buf' s', get_data d buf ptr off n s = Done buf' s' /\ disk s' = disk s
    /\ forall x, buf' x = if bool_decide (ptr <= x < ptr + n) then disk s (DATA_START_INDEX + d) (off + (x - ptr)) else buf x.
Proof.
  intros Hd Ho Hn Hon. unfold get_data. rewrite data_sector by done.
  destruct (read_sata_eq (DATA_START_INDEX + d) s) as (s' & E & D & B & _). eexists _, s'.
  split; [erewrite bind_eq; [|exact E]; erewrite bind_eq; [|apply gets_eq]; by rewrite (proj2 (Z.ltb_ge n 0)) by lia|].
  split; [done|]. intros x. case_bool_decide; [rewrite blit_in by lia; apply B; lia|by rewrite blit_out by lia].
Qed.

Lemma write_data_eq d buf ptr off n s : 0 <= d < 512 -> 0 <= off -> 0 <= n -> off + n <= 512 ->
  exists s', write_data d buf ptr off n s = Done () s'
    /\ forall m i, 0 <= i < 512 -> disk s' m i =
         if (m =? DATA_START_INDEX + d) && bool_decide (off <= i < off + n) then buf (ptr + (i - off)) else disk s m i.
Proof.
  intros Hd Ho Hn Hon. unfold write_data. rewrite data_sector by done. set (m := DATA_START_INDEX + d).
  destruct (read_sata_eq m s) as (s1 & E1 & D1 & B1 & _).
  destruct (buf_write_eq (fun x => buf (ptr + x)) off n s1) as (s2 & E2 & D2 & B2). destruct (write_sata_eq m s2) as (s3 & E3 & _ & D3).
  exists s3. split; [erewrite bind_eq; [|exact E1]; rewrite (proj2 (Z.ltb_ge n 0)) by lia; by erewrite bind_eq; [|exact E2]|].
  intros m' i Hi. rewrite D3 by done. destruct (Z.eqb_spec m' m) as [->|]; cbn [andb]; [|by rewrite D2, D1].
  rewrite B2. case_bool_decide; [rewrite blit_in by lia; f_equal; lia|rewrite blit_out by lia; by apply B1].
Qed.

(** ** Transfer *)
Section transfer.
(** The inode; the client's data from position [pos] of the file on. *)
Context (b : memory) (data : memory) (pos : Z).
Hypothesis Hpos : 0 <= pos.

(** [buf] holds the file from [pos] up to [e]. *)
Definition has_read (dk : Z -> memory) (buf0 buf : memory) (e : Z) : Prop :=
  forall x, buf x = if bool_decide (0 <= x < e - pos) then byte_of dk b (pos + x) else buf0 x.

Lemma span x k o n : 0 <= o -> o + n <= 512 -> 512 * k + o <= x < 512 * k + o + n -> x / 512 = k /\ x mod 512 = x - 512 * k.
Proof.
  intros Ho Hn Hx. split; [symmetry; apply (Z.div_unique x 512 k (x - 512 * k)); lia|].
  symmetry. apply (Z.mod_unique x 512 k (x - 512 * k)); lia.
Qed.

Lemma read_span s buf0 buf k o n : has_read (disk s) buf0 buf (512 * k + o) -> 0 <= i_data b k < 512 -> 0 <= o -> 0 <= n -> o + n <= 512 ->
  pos <= 512 * k + o ->
  exists buf' s', get_data (i_data b k) buf (512 * k + o - pos) o n s = Done buf' s' /\ disk s' = disk s
    /\ has_read (disk s) buf0 buf' (512 * k + o + n).
Proof.
  intros Hr Hd Ho Hn Hon Hp. destruct (get_data_eq (i_data b k) buf (512 * k + o - pos) o n s Hd Ho Hn Hon) as (buf' & s' & E & D & B).
  exists buf', s'. split; [done|]. split; [done|]. intros x. rewrite B, Hr.
  destruct (decide (512 * k + o - pos <= x < 512 * k + o - pos + n)) as [Hx|Hx].
  - rewrite bool_decide_true, (bool_decide_true (0 <= x < _)) by lia. unfold byte_of.
    destruct (span (pos + x) k o n) as [-> ->]; [lia..|]. f_equal. lia.
  - rewrite bool_decide_false by done. destruct (decide (0 <= x < 512 * k + o - pos)).
    + by rewrite !bool_decide_true by lia.
    + by rewrite !bool_decide_false by lia.
Qed.

Lemma get_blocks_ok n : forall k s buf0 buf, has_read (disk s) buf0 buf (512 * k) -> 0 <= k -> k + Z.of_nat n <= 15 ->
  (forall j, k <= j < k + Z.of_nat n -> 0 <= i_data b j < 512) -> pos <= 512 * k ->
  exists buf' s', get_blocks n b k buf (512 * k - pos) s = Done (buf', 512 * (k + Z.of_nat n) - pos) s' /\ disk s' = disk s
    /\ has_read (disk s) buf0 buf' (512 * (k + Z.of_nat n)).
Proof.
  induction n as [|n IH]; intros k s buf0 buf Hr Hk Hn Hd Hp.
  - exists buf, s. rewrite Z.add_0_r. done.
  - cbn [get_blocks]. erewrite bind_eq; [|apply block_of_eq; lia].
    destruct (read_span s buf0 buf k 0 512) as (buf1 & s1 & E1 & D1 & R1); [by rewrite Z.add_0_r|apply Hd; lia|lia..|].
    rewrite Z.add_0_r in E1, R1. erewrite bind_eq; [|exact E1].
    destruct (IH (k + 1) s1 buf0 buf1) as (buf' & s' & E' & D' & R'); try lia.
    { rewrite D1. by replace (512 * (k + 1)) with (512 * k + 512) by lia. }
    { intros j Hj. apply Hd. lia. }
    exists buf', s'. replace (512 * k - pos + BLOCK_SIZE) with (512 * (k + 1) - pos) by (unfold BLOCK_SIZE; lia).
    rewrite E'. split; [do 2 f_equal; lia|]. split; [congruence|]. rewrite D1 in R'.
    by replace (k + Z.of_nat (S n)) with (k + 1 + Z.of_nat n) by lia.
Qed.

(** The file holds the data from [pos] up to [e]; all other bytes of this file's
    blocks and all other sectors are as before. *)
Definition has_written (dk0 dk : Z -> memory) (e : Z) : Prop :=
  (forall x, 0 <= x < 512 * block_count b -> byte_of dk b x = if bool_decide (pos <= x < e) then data (x - pos) else byte_of dk0 b x)
  /\ (forall m i, 0 <= i < 512 -> (forall k, 0 <= k < block_count b -> m <> DATA_START_INDEX + i_data b k) -> dk m i = dk0 m i).

Lemma write_span s bm dk0 k o n : blocks_ok bm b -> has_written dk0 (disk s) (512 * k + o) -> 0 <= k < block_count b ->
  0 <= o -> 0 <= n -> o + n <= 512 -> pos <= 512 * k + o ->
  exists s', write_data (i_data b k) data (512 * k + o - pos) o n s = Done () s' /\ has_written dk0 (disk s') (512 * k + o + n).
Proof.
  intros Hb [W1 W2] Hk Ho Hn Hon Hp. destruct (b_used _ _ Hb k Hk) as [Hd _].
  destruct (write_data_eq (i_data b k) data (512 * k + o - pos) o n s Hd Ho Hn Hon) as (s' & E & D).
  exists s'. split; [done|]. split.
  - intros x Hx. pose proof (Z.div_mod x 512 ltac:(lia)) as Edm. pose proof (Z.mod_pos_bound x 512 ltac:(lia)) as Em.
    assert (0 <= x / 512 < block_count b) as Hq by lia.
    unfold byte_of at 1. rewrite D by done. destruct (decide (x / 512 = k)) as [Hxk|Hne].
    + rewrite Hxk, Z.eqb_refl. cbn [andb]. destruct (decide (o <= x mod 512 < o + n)).
      * rewrite !bool_decide_true by lia. f_equal. lia.
      * rewrite bool_decide_false by done. rewrite <- Hxk. fold (byte_of (disk s) b x). rewrite W1 by done.
        destruct (decide (pos <= x < 512 * k + o)); [rewrite !bool_decide_true by lia|rewrite !bool_decide_false by lia]; done.
    + destruct (Z.eqb_spec (DATA_START_INDEX + i_data b (x / 512)) (DATA_START_INDEX + i_data b k)) as [Eq|_].
      { destruct Hne. apply (b_once _ _ Hb); [done|done|lia]. }
      cbn [andb]. change (byte_of (disk s) b x = if bool_decide (pos <= x < 512 * k + o + n) then data (x - pos) else byte_of dk0 b x).
      rewrite W1 by done.
      destruct (decide (x < 512 * k)); [|rewrite !bool_decide_false by lia; done].
      destruct (decide (pos <= x)); [rewrite !bool_decide_true by lia|rewrite !bool_decide_false by lia]; done.
  - intros m i Hi Hm. rewrite D by done. rewrite (proj2 (Z.eqb_neq m _)) by (by apply Hm). by apply W2.
Qed.

Lemma write_blocks_ok bm dk0 n : blocks_ok bm b -> forall k s, has_written dk0 (disk s) (512 * k) -> 0 <= k ->
  k + Z.of_nat n <= block_count b -> pos <= 512 * k ->
  exists s', write_blocks n b k data (512 * k - pos) s = Done (512 * (k + Z.of_nat n) - pos) s'
    /\ has_written dk0 (disk s') (512 * (k + Z.of_nat n)).
Proof.
  intros Hb. pose proof (b_count _ _ Hb). induction n as [|n IH]; intros k s Hw Hk Hn Hp.
  - exists s. by rewrite Z.add_0_r.
  - cbn [write_blocks]. erewrite bind_eq; [|apply block_of_eq; lia].
    destruct (write_span s bm dk0 k 0 512) as (s1 & E1 & W1); [done|by rewrite Z.add_0_r|lia..|].
    rewrite Z.add_0_r in E1, W1. erewrite bind_eq; [|exact E1].
    destruct (IH (k + 1) s1) as (s' & E' & W'); try lia.
    { by replace (512 * (k + 1)) with (512 * k + 512) by lia. }
    exists s'. replace (512 * k - pos + BLOCK_SIZE) with (512 * (k + 1) - pos) by (unfold BLOCK_SIZE; lia).
    rewrite E'. replace (k + Z.of_nat (S n)) with (k + 1 + Z.of_nat n) by lia. done.
Qed.
End transfer.

(** ** Reading *)
Lemma byte_of_ext dk b b' x : (forall i, 0 <= i < sizeof_inode -> b i = b' i) -> 0 <= x < 512 * 15 -> byte_of dk b x = byte_of dk b' x.
Proof.
  intros Hb Hx. unfold byte_of. rewrite (data_ext b b' Hb); [done|]. pose proof (Z.div_mod x 512). pose proof (Z.mod_pos_bound x 512). lia.
Qed.

(** The file position cut into block and offset. *)
Lemma cut x : 0 <= x -> Z.quot x BLOCK_SIZE = x / 512 /\ Z.rem x BLOCK_SIZE = x mod 512 /\ x = 512 * (x / 512) + x mod 512
  /\ 0 <= x mod 512 < 512 /\ 0 <= x / 512.
Proof.
  intros Hx. unfold BLOCK_SIZE. rewrite Z.quot_div_nonneg, Z.rem_mod_nonneg by lia. pose proof (Z.mod_pos_bound x 512).
  pose proof (Z.div_mod x 512). pose proof (Z.div_pos x 512). lia.
Qed.

Lemma has_read_start b pos dk buf : has_read b pos dk buf buf pos.
Proof. intros x. by rewrite bool_decide_false by lia. Qed.

Lemma read_ok s ino pos buf count : file_ok (disk s) ino -> 0 <= pos <= file_len (inode_on (disk s) ino) -> 0 <= count ->
  let n := Z.min count (file_len (inode_on (disk s) ino) - pos) in
  exists buf' s', read_sata_wrapper (mkFile ino pos) buf count s = Done (n, mkFile ino (pos + n), buf') s' /\ disk s' = disk s
    /\ forall x, buf' x = if bool_decide (0 <= x < n) then byte_of (disk s) (inode_on (disk s) ino) (pos + x) else buf x.
Proof.
  intros [Hr Hf Hb Hl] Hp Hc. destruct (get_inode_eq ino s) as (b & s1 & E1 & D1 & B1); [lia|done|].
  rewrite <- (fl_ext b (inode_on (disk s) ino) B1) in *. rewrite <- (bc_ext b (inode_on (disk s) ino) B1) in Hl.
  pose proof (b_count _ _ Hb) as Hbc. rewrite <- (bc_ext b (inode_on (disk s) ino) B1) in Hbc. intros n.
  assert (forall k, 0 <= k < block_count b -> 0 <= i_data b k < 512) as Hd.
  { intros k Hk. rewrite (data_ext b (inode_on (disk s) ino) B1) by lia. apply (b_used _ _ Hb).
    by rewrite <- (bc_ext b (inode_on (disk s) ino) B1). }
  unfold read_sata_wrapper. cbn [f_inode f_pos]. erewrite bind_eq; [|exact E1].
  destruct (Z.eqb_spec pos (file_len b)) as [Ep|Ep].
  { exists buf, s1. replace n with 0 by lia. rewrite Z.add_0_r. split; [done|]. split; [done|]. intros x. by rewrite bool_decide_false by lia. }
  replace (if file_len b <=? pos + count then file_len b - pos else count) with n
    by (destruct (Z.leb_spec (file_len b) (pos + count)); lia).
  destruct (cut pos) as (-> & -> & Ecut & Hm & Hq); [lia|]. destruct (cut (pos + n)) as (-> & -> & Ecut' & Hm' & Hq'); [lia|].
  set (k := pos / 512) in *. set (o := pos mod 512) in *. set (k' := (pos + n) / 512) in *. set (o' := (pos + n) mod 512) in *.
  erewrite bind_eq; [|apply block_of_eq; lia].
  assert (forall buf' s', disk s' = disk s -> has_read b pos (disk s1) buf buf' (pos + n) ->
    disk s' = disk s /\ forall x, buf' x = if bool_decide (0 <= x < n) then byte_of (disk s) (inode_on (disk s) ino) (pos + x) else buf x) as Hdone.
  { intros buf' s' Hs Hread. split; [done|]. intros x. rewrite (Hread x), D1. replace (pos + n - pos) with n by lia. case_bool_decide; [|done].
    apply byte_of_ext; [exact B1|lia]. }
  pose proof (has_read_start b pos (disk s1) buf) as R0. rewrite Ecut in R0 at 2.
  destruct (Z.eqb_spec k k') as [Ek|Ek].
  - destruct (read_span b pos s1 buf buf k o n) as (buf' & s2 & E2 & D2 & R2); [exact R0|apply Hd; lia|lia..|].
    rewrite <- Ecut, Z.sub_diag in E2. erewrite bind_eq; [|exact E2]. exists buf', s2. split; [done|].
    apply Hdone; [congruence|]. by rewrite <- Ecut in R2.
  - assert (k < k') as Hkk by lia. unfold BLOCK_SIZE.
    destruct (read_span b pos s1 buf buf k o (512 - o)) as (buf2 & s2 & E2 & D2 & R2); [exact R0|apply Hd; lia|lia..|].
    rewrite <- Ecut, Z.sub_diag in E2. erewrite bind_eq; [|exact E2].
    replace (512 * k + o + (512 - o)) with (512 * (k + 1)) in R2 by lia. rewrite <- D2 in R2.
    destruct (get_blocks_ok b pos (Z.to_nat (k' - 1 - k)) (k + 1) s2 buf buf2) as (buf3 & s3 & E3 & D3 & R3); [exact R2|lia|lia| |lia|].
    { intros j Hj. apply Hd. lia. }
    replace (512 * (k + 1) - pos) with (512 - o) in E3 by lia. erewrite bind_eq; [|exact E3]. cbv beta iota.
    replace (k + 1 + Z.of_nat (Z.to_nat (k' - 1 - k))) with k' in * by lia.
    erewrite bind_eq; [|apply block_of_eq; lia]. rewrite <- D3 in R3.
    destruct (read_span b pos s3 buf buf3 k' 0 o') as (buf4 & s4 & E4 & D4 & R4); [by rewrite Z.add_0_r|apply Hd; lia|lia..|].
    rewrite Z.add_0_r in E4, R4. erewrite bind_eq; [|exact E4]. exists buf4, s4. split; [done|].
    apply Hdone; [congruence|]. rewrite Ecut'. by rewrite D3, D2 in R4.
Qed.

(** ** Growing a file *)
(** [n] data blocks are free. *)
Definition free_blocks (dk : Z -> memory) (n : nat) : Prop :=
  exists l, NoDup l /\ length l = n /\ forall d, d ∈ l -> 0 <= d < 512 /\ dk DATA_BITMAP_START_INDEX d = 0.

Lemma free_blocks_use dk dk' n d : free_blocks dk (S n) -> (forall i, 0 <= i < 512 -> i <> d -> dk' DATA_BITMAP_START_INDEX i = dk DATA_BITMAP_START_INDEX i) ->
  free_blocks dk' n.
Proof.
  intros (l & Hnd & Hl & Hf) Hs. destruct (decide (d ∈ l)) as [Hin|Hin].
  - apply list_elem_of_split in Hin as (l1 & l2 & ->). exists (l1 ++ l2). apply NoDup_app in Hnd as (N1 & N2 & [N3 N4]%NoDup_cons).
    split; [apply NoDup_app; split_and!; [done|set_solver|done]|]. split; [rewrite length_app in *; cbn in Hl; lia|].
    intros i Hi. destruct (Hf i) as [? E]; [set_solver|]. split; [done|]. rewrite Hs; [done|done|]. intros ->.
    apply elem_of_app in Hi as [Hi|Hi]; [apply (N2 d); set_solver|done].
  - destruct l as [|x l]; [done|]. apply NoDup_cons in Hnd as [_ Hnd]. exists l. split; [done|]. split; [cbn in Hl; lia|].
    intros i Hi. destruct (Hf i) as [? E]; [set_solver|]. split; [done|]. rewrite Hs; [done|done|]. intros ->. set_solver.
Qed.

Lemma free_blocks_some dk n : free_blocks dk (S n) -> exists d, 0 <= d < 512 /\ dk DATA_BITMAP_START_INDEX d = 0.
Proof. intros (l & _ & Hl & Hf). destruct l as [|d l]; [done|]. exists d. apply Hf. by left. Qed.

Lemma alloc_blocks_ok n : forall b s, blocks_ok (disk s DATA_BITMAP_START_INDEX) b -> free_blocks (disk s) n -> block_count b + Z.of_nat n <= 15 ->
  exists b' s', alloc_blocks n b s = Done (inr b') s' /\ blocks_ok (disk s' DATA_BITMAP_START_INDEX) b'
    /\ block_count b' = block_count b + Z.of_nat n /\ file_len b' = file_len b
    /\ (forall k, 0 <= k < block_count b -> i_data b' k = i_data b k)
    /\ (forall k, block_count b <= k < block_count b' -> disk s DATA_BITMAP_START_INDEX (i_data b' k) = 0)
    /\ (forall m i, 0 <= i < 512 -> m <> DATA_BITMAP_START_INDEX -> disk s' m i = disk s m i)
    /\ (forall i, 0 <= i < 512 -> disk s DATA_BITMAP_START_INDEX i <> 0 -> disk s' DATA_BITMAP_START_INDEX i <> 0).
Proof.
  induction n as [|n IH]; intros b s Hb Hf Hn; cbn [alloc_blocks].
  { exists b, s. split_and!; [done|done|lia|done|done|lia|done|done]. }
  destruct (free_blocks_some _ _ Hf) as (d0 & Hd0 & Ed0). destruct (read_bitmap_eq DATA_BITMAP_START_INDEX s) as (bm & s1 & E1 & D1 & B1).
  assert (0 <= first_zero 512 bm 0 < 512 /\ bm (first_zero 512 bm 0) = 0) as [Hd Ed].
  { destruct (first_zero_ok 512 bm 0) as [[_ H]|H]; [|exact H]. destruct (H d0); [lia|]. by rewrite B1. }
  erewrite bind_eq; [|unfold get_free_data, read_data_bitmap; by erewrite bind_eq; [|exact E1]].
  set (d := first_zero 512 bm 0) in *. rewrite B1 in Ed by done. clearbody d.
  destruct (set_bitmap_eq DATA_BITMAP_START_INDEX d s1 Hd) as (s2 & E2 & D2). erewrite bind_eq; [|exact E2].
  rewrite (proj2 (Z.eqb_neq d (-1))) by lia. pose proof (b_count _ _ Hb) as Hbc. set (k := block_count b) in *.
  rewrite (proj2 (andb_true_iff _ _)) by (rewrite Z.leb_le, Z.ltb_lt; lia).
  set (b1 := set_i_data (set_block_count b (k + 1)) k d).
  assert (block_count b1 = k + 1) as Ebc by (unfold b1; rewrite bc_set_data, bc_set by lia; done).
  assert (file_len b1 = file_len b) as Efl by (unfold b1; rewrite fl_set_data, fl_set_bc by lia; done).
  assert (i_data b1 k = d) as Ek by (unfold b1; rewrite data_set by lia; done).
  assert (forall j, 0 <= j < k -> i_data b1 j = i_data b j) as Ej by (intros j Hj; unfold b1; rewrite data_set_ne, data_set_bc by lia; done).
  assert (forall m i, 0 <= i < 512 -> disk s2 m i = if (m =? DATA_BITMAP_START_INDEX) && (i =? d) then 1 else disk s m i) as D2'
    by (intros m i Hi; rewrite D2 by done; by rewrite D1).
  assert (blocks_ok (disk s2 DATA_BITMAP_START_INDEX) b1) as Hb1.
  { split; [lia|..].
    - rewrite Ebc. intros j Hj. destruct (decide (j = k)) as [->|].
      + rewrite Ek. split; [done|]. rewrite D2', !Z.eqb_refl by done. done.
      + rewrite Ej by lia. destruct (b_used _ _ Hb j) as [Hr Hu]; [lia|]. split; [done|]. rewrite D2' by done. by destruct (_ && _).
    - rewrite Ebc. intros j j' Hj Hj'. destruct (decide (j = k)) as [->|], (decide (j' = k)) as [->|]; rewrite ?Ek, ?Ej by lia; intros E; [done|..].
      + destruct (b_used _ _ Hb j') as [_ Hu]; [lia|]. by rewrite <- E in Hu.
      + destruct (b_used _ _ Hb j) as [_ Hu]; [lia|]. by rewrite E in Hu.
      + apply (b_once _ _ Hb); (done || lia). }
  destruct (IH b1 s2 Hb1) as (b' & s' & E' & Hb' & C' & L' & I' & N' & S' & U'); [|lia|].
  { apply (free_blocks_use (disk s) _ n d Hf). intros i Hi Hne. rewrite D2' by done. by rewrite (proj2 (Z.eqb_neq i d)), andb_false_r. }
  rewrite Ebc in C', I', N'. exists b', s'. split_and!; [done|done|lia|congruence|..].
  - intros j Hj. rewrite I' by lia. apply Ej. lia.
  - intros j Hj. destruct (decide (j = k)) as [->|]; [rewrite I', Ek by lia; done|].
    specialize (N' j ltac:(lia)). destruct (b_used _ _ Hb' j) as [Hr _]; [lia|]. rewrite D2' in N' by done.
    by destruct (i_data b' j =? d), (DATA_BITMAP_START_INDEX =? DATA_BITMAP_START_INDEX).
  - intros m i Hi Hm. rewrite S', D2' by done. by rewrite (proj2 (Z.eqb_neq m _)).
  - intros i Hi Hu. apply U'; [done|]. rewrite D2' by done. by destruct (_ && _).
Qed.

(** ** Writing *)
Lemma has_written_start b data pos dk : has_written b data pos dk dk pos.
Proof. split; [intros x _; by rewrite bool_decide_false by lia|done]. Qed.

(** The part of [write_sata_wrapper] that moves the data. *)
Definition store_data (b : memory) (pos : Z) (buf : memory) (count : Z) : M fsys () :=
  let first := pos / 512 in
  let last := (pos + count) / 512 in
  let off := pos mod 512 in
  d ← block_of b first;
  if first =? last then write_data d buf 0 off count
  else
    write_data d buf 0 off (BLOCK_SIZE - off);;
    buf_ptr ← write_blocks (Z.to_nat (last - 1 - first)) b (first + 1) buf (BLOCK_SIZE - off);
    d ← block_of b last;
    write_data d buf buf_ptr 0 ((pos + count) mod 512).

Lemma store_data_ok bm b pos buf count s : blocks_ok bm b -> 0 <= pos -> 0 <= count -> pos + count < 512 * block_count b ->
  exists s', store_data b pos buf count s = Done () s' /\ has_written b buf pos (disk s) (disk s') (pos + count).
Proof.
  intros Hb Hp Hc Hlt. pose proof (b_count _ _ Hb) as Hbc. unfold store_data.
  destruct (cut pos) as (_ & _ & Ecut & Hm & Hq); [lia|]. destruct (cut (pos + count)) as (_ & _ & Ecut' & Hm' & Hq'); [lia|].
  set (k := pos / 512) in *. set (o := pos mod 512) in *. set (k' := (pos + count) / 512) in *. set (o' := (pos + count) mod 512) in *.
  erewrite bind_eq; [|apply block_of_eq; lia].
  pose proof (has_written_start b buf pos (disk s)) as W0. rewrite Ecut in W0 at 2.
  destruct (Z.eqb_spec k k') as [Ek|Ek].
  - destruct (write_span b buf pos s bm (disk s) k o count) as (s1 & E1 & W1); [done|exact W0|lia..|].
    rewrite <- Ecut, Z.sub_diag in E1. exists s1. split; [exact E1|]. by rewrite <- Ecut in W1.
  - unfold BLOCK_SIZE. destruct (write_span b buf pos s bm (disk s) k o (512 - o)) as (s1 & E1 & W1); [done|exact W0|lia..|].
    rewrite <- Ecut, Z.sub_diag in E1. erewrite bind_eq; [|exact E1].
    replace (512 * k + o + (512 - o)) with (512 * (k + 1)) in W1 by lia.
    destruct (write_blocks_ok b buf pos bm (disk s) (Z.to_nat (k' - 1 - k)) Hb (k + 1) s1 W1) as (s2 & E2 & W2); [lia..|].
    replace (512 * (k + 1) - pos) with (512 - o) in E2 by lia. erewrite bind_eq; [|exact E2].
    replace (k + 1 + Z.of_nat (Z.to_nat (k' - 1 - k))) with k' in * by lia.
    erewrite bind_eq; [|apply block_of_eq; lia].
    destruct (write_span b buf pos s2 bm (disk s) k' 0 o') as (s3 & E3 & W3); [done|by rewrite Z.add_0_r|lia..|].
    rewrite Z.add_0_r in E3, W3. exists s3. split; [exact E3|]. by rewrite Ecut'.
Qed.

(** The inode is stored and nothing else. *)
Lemma inode_stored ino b s : 0 <= ino < 40 -> ino mod 4 <> 3 -> exists s', write_inode ino b s = Done () s'
  /\ (forall x, 0 <= x < sizeof_inode -> inode_on (disk s') ino x = b x)
  /\ (forall m i, 0 <= i < 512 -> m < INODE_START_INDEX \/ DATA_START_INDEX <= m -> disk s' m i = disk s m i)
  /\ (forall ino2 x, 0 <= ino2 -> ino2 mod 4 <> 3 -> ino2 <> ino -> 0 <= x < sizeof_inode -> inode_on (disk s') ino2 x = inode_on (disk s) ino2 x).
Proof.
  intros Hi Hf. destruct (write_inode_eq ino b s) as (s' & E & D); [lia|done|]. destruct (inode_off_bound ino) as [O1 O2]; [lia|done|].
  exists s'. split; [done|]. split_and!.
  - intros x Hx. unfold inode_on. rewrite D by (unfold sizeof_inode in *; lia). rewrite Z.eqb_refl, bool_decide_true by lia. cbn [andb]. f_equal. lia.
  - intros m i Hi' Hm. rewrite D by done. rewrite (proj2 (Z.eqb_neq m _)); [done|]. unfold INODE_START_INDEX, DATA_START_INDEX in *.
    pose proof (Z.div_le_upper_bound ino 4 10). pose proof (Z.div_pos ino 4). lia.
  - intros ino2 x H2 Hf2 Hne Hx. destruct (inode_off_bound ino2 H2 Hf2) as [O3 O4]. unfold inode_on at 1. rewrite D by (unfold sizeof_inode in *; lia).
    destruct (Z.eqb_spec (INODE_START_INDEX + ino2 / 4) (INODE_START_INDEX + ino / 4)) as [Eq|]; [|done]. cbn [andb].
    rewrite bool_decide_false; [done|]. unfold inode_off, sizeof_inode in *.
    pose proof (Z.div_mod ino 4). pose proof (Z.div_mod ino2 4). assert (ino mod 4 <> ino2 mod 4) by lia. lia.
Qed.

Definition apart (dk : Z -> memory) (ino ino2 : Z) : Prop :=
  forall k k', 0 <= k < block_count (inode_on dk ino) -> 0 <= k' < block_count (inode_on dk ino2) ->
  i_data (inode_on dk ino) k <> i_data (inode_on dk ino2) k'.
(** The same length, the same blocks, the same bytes. *)
Definition same_file (dk dk' : Z -> memory) (ino : Z) : Prop :=
  (forall x, 0 <= x < sizeof_inode -> inode_on dk' ino x = inode_on dk ino x)
  /\ forall x, 0 <= x < 512 * block_count (inode_on dk ino) -> byte_of dk' (inode_on dk' ino) x = byte_of dk (inode_on dk ino) x.

Lemma inode_same dk ino b : blocks_ok (dk DATA_BITMAP_START_INDEX) b -> (forall x, 0 <= x < sizeof_inode -> inode_on dk ino x = b x) ->
  block_count (inode_on dk ino) = block_count b /\ file_len (inode_on dk ino) = file_len b
  /\ forall k, 0 <= k < 15 -> i_data (inode_on dk ino) k = i_data b k.
Proof. intros _ Hx. split; [by apply bc_ext|]. split; [by apply fl_ext|]. intros k Hk. by apply data_ext. Qed.

Lemma blocks_ok_ext bm bm' b b' : blocks_ok bm b -> block_count b' = block_count b -> (forall k, 0 <= k < 15 -> i_data b' k = i_data b k) ->
  (forall i, 0 <= i < 512 -> bm i <> 0 -> bm' i <> 0) -> blocks_ok bm' b'.
Proof.
  intros [H1 H2 H3] Hc Hd Hm. split; rewrite Hc; [done|..].
  - intros k Hk. rewrite Hd by lia. destruct (H2 k Hk) as [? ?]. auto.
  - intros k k' Hk Hk'. rewrite !Hd by lia. by apply H3.
Qed.

Lemma div512 x n : 0 <= x < 512 * n -> 0 <= x / 512 < n.
Proof. intros. pose proof (Z.div_mod x 512). pose proof (Z.mod_pos_bound x 512). lia. Qed.

Section write.
Context (s : fsys) (ino pos count : Z) (buf : memory).
Hypothesis (Hfile : file_ok (disk s) ino) (Hpos : 0 <= pos) (Hcount : 0 <= count) (Hmax : pos + count < 512 * 15).
Let old := inode_on (disk s) ino.
Let need := Z.to_nat ((pos + count) / 512 + 1 - block_count old).
Hypothesis (Hfree : free_blocks (disk s) need).

(** What a write leaves behind. *)
Definition written (dk' : Z -> memory) : Prop :=
  file_ok dk' ino
  /\ file_len (inode_on dk' ino) = Z.max (file_len old) (pos + count)
  /\ (forall x, pos <= x < pos + count -> byte_of dk' (inode_on dk' ino) x = buf (x - pos))
  /\ (forall x, 0 <= x < 512 * block_count old -> ~ pos <= x < pos + count -> byte_of dk' (inode_on dk' ino) x = byte_of (disk s) old x)
  /\ (forall ino2, ino2 <> ino -> file_ok (disk s) ino2 -> apart (disk s) ino ino2 -> file_ok dk' ino2 /\ same_file (disk s) dk' ino2).

(** The blocks after growing. *)
Definition grown (b : memory) (dk : Z -> memory) : Prop :=
  blocks_ok (dk DATA_BITMAP_START_INDEX) b
  /\ block_count b = Z.max (block_count old) ((pos + count) / 512 + 1) /\ file_len b = file_len old
  /\ (forall k, 0 <= k < block_count old -> i_data b k = i_data old k)
  /\ (forall k, block_count old <= k < block_count b -> disk s DATA_BITMAP_START_INDEX (i_data b k) = 0)
  /\ (forall m i, 0 <= i < 512 -> m <> DATA_BITMAP_START_INDEX -> dk m i = disk s m i)
  /\ (forall i, 0 <= i < 512 -> disk s DATA_BITMAP_START_INDEX i <> 0 -> dk DATA_BITMAP_START_INDEX i <> 0).

Definition new_len (b : memory) : memory := if file_len b <=? pos + count then set_file_len b (pos + count) else b.

Lemma new_len_ok b : 0 <= file_len b -> block_count (new_len b) = block_count b /\ file_len (new_len b) = Z.max (file_len b) (pos + count)
  /\ forall k, 0 <= k -> i_data (new_len b) k = i_data b k.
Proof.
  intros Hl. unfold new_len. destruct (Z.leb_spec (file_len b) (pos + count)); [|split_and!; (done || lia)].
  rewrite bc_set_fl, fl_set by lia. split; [done|]. split; [lia|]. intros k Hk. by apply data_set_fl.
Qed.

(** What is on the disk when everything is done. *)
Lemma written_done b dk2 dk3 dk4 : grown b dk2 -> has_written b buf pos dk2 dk3 (pos + count) ->
  (forall x, 0 <= x < sizeof_inode -> inode_on dk4 ino x = new_len b x) ->
  (forall m i, 0 <= i < 512 -> m < INODE_START_INDEX \/ DATA_START_INDEX <= m -> dk4 m i = dk3 m i) ->
  (forall ino2 x, 0 <= ino2 -> ino2 mod 4 <> 3 -> ino2 <> ino -> 0 <= x < sizeof_inode -> inode_on dk4 ino2 x = inode_on dk3 ino2 x) ->
  written dk4.
Proof.
  intros (Gb & Gc & Gl & Gi & Gn & Gs & Gu) [W1 W2] I4 S4 O4. destruct Hfile as [Fr Ff Fb Fl]. fold old in Fb, Fl.
  pose proof (b_count _ _ Fb) as Fbc. pose proof (b_count _ _ Gb) as Gbc. destruct (new_len_ok b) as (Nc & Nl & Nd); [lia|].
  pose proof (bc_ext _ _ I4) as Ec. pose proof (fl_ext _ _ I4) as El. rewrite Nc in Ec. rewrite Nl, Gl in El.
  assert (forall k, 0 <= k < 15 -> i_data (inode_on dk4 ino) k = i_data b k) as Ed by (intros k Hk; rewrite (data_ext _ _ I4), Nd by lia; done).
  destruct (cut (pos + count)) as (_ & _ & Ecut & Hm & Hq); [lia|].
  assert (forall m i, 0 <= i < 512 -> m < DATA_START_INDEX -> m <> DATA_BITMAP_START_INDEX -> dk3 m i = disk s m i) as Hlow.
  { intros m i Hi Hm1 Hm2. rewrite W2 by (done || intros k Hk; pose proof (b_used _ _ Gb k Hk); lia). by apply Gs. }
  assert (forall i, 0 <= i < 512 -> dk4 DATA_BITMAP_START_INDEX i = dk2 DATA_BITMAP_START_INDEX i) as Hbm.
  { intros i Hi. rewrite S4 by (done || left; done). apply W2; [done|]. intros k Hk. pose proof (b_used _ _ Gb k Hk).
    unfold DATA_BITMAP_START_INDEX, DATA_START_INDEX. lia. }
  assert (forall x, 0 <= x < 512 * block_count b -> byte_of dk4 (inode_on dk4 ino) x = byte_of dk3 b x) as Hbytes.
  { intros x Hx. unfold byte_of. pose proof (div512 x (block_count b) Hx). rewrite Ed by lia. apply S4; [apply Z.mod_pos_bound; lia|].
    right. pose proof (b_used _ _ Gb (x / 512)). unfold DATA_START_INDEX. lia. }
  split_and!.
  - split; [done|done| |rewrite El, Ec, Gc; lia]. apply (blocks_ok_ext (dk2 DATA_BITMAP_START_INDEX) _ b); [done|by rewrite Ec|done|].
    intros i Hi. by rewrite Hbm.
  - done.
  - intros x Hx. rewrite Hbytes, W1 by lia. by rewrite bool_decide_true by lia.
  - intros x Hx Hn. rewrite Hbytes, W1, bool_decide_false by lia. unfold byte_of. pose proof (div512 x (block_count old) Hx). rewrite Gi by lia.
    apply Gs; [apply Z.mod_pos_bound; lia|]. destruct (b_used _ _ Fb (x / 512)) as [Hr _]; [lia|]. fold old in Hr.
    unfold DATA_START_INDEX, DATA_BITMAP_START_INDEX. lia.
  - intros ino2 Hne [F2r F2f F2b F2l] Hap.
    assert (forall x, 0 <= x < sizeof_inode -> inode_on dk4 ino2 x = inode_on (disk s) ino2 x) as I2.
    { intros x Hx. rewrite O4 by (done || lia). destruct (inode_off_bound ino2) as [? ?]; [lia|done|].
      apply Hlow; unfold sizeof_inode, INODE_START_INDEX, DATA_START_INDEX, DATA_BITMAP_START_INDEX in *;
        pose proof (Z.div_le_upper_bound ino2 4 10); pose proof (Z.div_pos ino2 4); lia. }
    pose proof (b_count _ _ F2b) as F2bc.
    assert (forall k, 0 <= k < block_count (inode_on (disk s) ino2) -> i_data (inode_on dk4 ino2) k = i_data (inode_on (disk s) ino2) k) as D2
      by (intros k Hk; apply (data_ext _ _ I2); lia).
    split; [split; try done|split; [done|]].
    + apply (blocks_ok_ext (disk s DATA_BITMAP_START_INDEX) _ (inode_on (disk s) ino2)); [done|by apply bc_ext|by intros; apply data_ext|].
      intros i Hi Hu. rewrite Hbm by done. by apply Gu.
    + by rewrite (bc_ext _ _ I2), (fl_ext _ _ I2).
    + intros x Hx. unfold byte_of. pose proof (div512 x _ Hx) as Hk. rewrite D2 by done. destruct (b_used _ _ F2b (x / 512) Hk) as [Hr Hu].
      assert (0 <= x mod 512 < 512) as Hmod by (apply Z.mod_pos_bound; lia).
      rewrite S4 by (done || right; unfold DATA_START_INDEX; lia). rewrite W2; [apply Gs; [done|]|done|].
      * unfold DATA_START_INDEX, DATA_BITMAP_START_INDEX. lia.
      * intros k Hk2 Heq. assert (i_data b k = i_data (inode_on (disk s) ino2) (x / 512)) as Hsame by lia.
        destruct (decide (k < block_count old)) as [Hold|Hnew].
        -- rewrite Gi in Hsame by lia. apply (Hap k (x / 512)); [fold old; lia|exact Hk|exact Hsame].
        -- destruct Hu. rewrite <- Hsame. apply Gn. lia.
Qed.

Lemma write_ok : exists s', write_sata_wrapper (mkFile ino pos) buf count s = Done (count, mkFile ino (pos + count)) s' /\ written (disk s').
Proof.
  destruct Hfile as [Fr Ff Fb Fl]. fold old in Fb, Fl. pose proof (b_count _ _ Fb) as Fbc.
  destruct (get_inode_eq ino s) as (c & s1 & E1 & D1 & C1); [lia|done|].
  destruct (cut (pos + count)) as (Q & R & Ecut & Hm & Hq); [lia|]. destruct (cut pos) as (Qp & Rp & _ & _ & Hqp); [lia|].
  pose proof (bc_ext c old C1) as Cc. pose proof (fl_ext c old C1) as Cl.
  assert (blocks_ok (disk s1 DATA_BITMAP_START_INDEX) c) as Hbc.
  { rewrite D1. apply (blocks_ok_ext (disk s DATA_BITMAP_START_INDEX) _ old); [done|done|by intros; apply data_ext|done]. }
  assert (free_blocks (disk s1) need) as Hfree1 by (by rewrite D1).
  assert (block_count c + Z.of_nat need <= 15) as Hroom by (rewrite Cc; unfold need; lia).
  destruct (alloc_blocks_ok need c s1 Hbc Hfree1 Hroom) as (b & s2 & E2 & Gb & Gc & Gl & Gi & Gn & Gs & Gu).
  assert (grown b (disk s2)) as Hg.
  { rewrite Cc in *. rewrite D1 in *. split_and!; [done|unfold need in Gc; lia|congruence| |done|done|done].
    intros k Hk. rewrite Gi by lia. apply data_ext; [done|lia]. }
  destruct (store_data_ok (disk s2 DATA_BITMAP_START_INDEX) b pos buf count s2 Gb Hpos Hcount) as (s3 & E3 & W3).
  { destruct Hg as (_ & -> & _). lia. }
  destruct (inode_stored ino (new_len b) s3 Fr Ff) as (s4 & E4 & I4 & S4 & O4).
  destruct (get_inode_eq ino s4) as (c' & s5 & E5 & D5 & _); [lia|done|]. exists s5. split.
  - unfold write_sata_wrapper. cbn [f_inode f_pos]. erewrite bind_eq; [|exact E1]. rewrite Q, R, Qp, Rp, Cc.
    replace (Z.to_nat ((pos + count) / 512 - (block_count old - 1))) with need by (unfold need; f_equal; lia).
    erewrite bind_eq; [|exact E2]. cbv beta iota. unfold store_data in E3. apply bind_Done in E3 as (d & s2' & Ed & E3).
    erewrite bind_eq; [|exact Ed]. erewrite bind_eq; [|exact E3]. erewrite bind_eq; [|exact E4]. by erewrite bind_eq; [|exact E5].
  - rewrite D5. by apply (written_done b (disk s2) (disk s3)).
Qed.
End write.

(** How many blocks a write needs. *)
Definition blocks_needed (dk : Z -> memory) (ino pos count : Z) : nat :=
  Z.to_nat ((pos + count) / 512 + 1 - block_count (inode_on dk ino)).

(** C20: [write_sata_wrapper] writes [count] bytes at the position of the file and moves
    the position behind them; the file then has the bytes there, its old bytes
    elsewhere and a length that includes both, and every other file that shares
    no block with it is the same as before.  There must be enough free blocks,
    and room in [i_data]. *)
Theorem sata_write_correct s ino pos count buf :
  file_ok (disk s) ino -> 0 <= pos -> 0 <= count -> pos + count < 512 * 15 ->
  free_blocks (disk s) (blocks_needed (disk s) ino pos count) ->
  exists s', write_sata_wrapper (mkFile ino pos) buf count s = Done (count, mkFile ino (pos + count)) s'
    /\ file_ok (disk s') ino
    /\ file_len (inode_on (disk s') ino) = Z.max (file_len (inode_on (disk s) ino)) (pos + count)
    /\ (forall x, pos <= x < pos + count -> byte_of (disk s') (inode_on (disk s') ino) x = buf (x - pos))
    /\ (forall x, 0 <= x < 512 * block_count (inode_on (disk s) ino) -> ~ pos <= x < pos + count ->
          byte_of (disk s') (inode_on (disk s') ino) x = byte_of (disk s) (inode_on (disk s) ino) x)
    /\ (forall ino2, ino2 <> ino -> file_ok (disk s) ino2 -> apart (disk s) ino ino2 ->
          file_ok (disk s') ino2 /\ same_file (disk s) (disk s') ino2).
Proof. intros Hf Hp Hc Hm Hfree. exact (write_ok s ino pos count buf Hf Hp Hc Hm Hfree). Qed.

(** C21: Writing to a file, going back with [my_lseek] and reading gives the bytes that
    were written. *)
Theorem sata_roundtrip s ino pos count buf buf2 :
  file_ok (disk s) ino -> 0 <= pos -> 0 <= count -> pos + count < 512 * 15 ->
  free_blocks (disk s) (blocks_needed (disk s) ino pos count) ->
  exists buf' s', ('(_, fd) ← write_sata_wrapper (mkFile ino pos) buf count; '(_, fd) ← my_lseek fd pos SEEK_SET;
      read_sata_wrapper fd buf2 count) s = Done (count, mkFile ino (pos + count), buf') s'
    /\ forall x, 0 <= x < count -> buf' x = buf x.
Proof.
  intros Hf Hp Hc Hm Hfree. destruct (write_ok s ino pos count buf Hf Hp Hc Hm Hfree) as (s1 & E1 & F1 & L1 & B1 & _ & _).
  destruct (read_ok s1 ino pos buf2 count F1) as (buf' & s2 & E2 & _ & R2); [lia|lia|].
  rewrite L1, Z.min_l in * by lia. exists buf', s2. split.
  - erewrite bind_eq; [|exact E1]. cbv beta iota. erewrite bind_eq; [|reflexivity]. cbv beta iota. cbn [f_inode].
    change (SEEK_SET =? SEEK_SET) with true. cbv iota.
    assert (i32 pos = pos) as -> by (unfold i32, swrap; rewrite Z.mod_small by lia; lia). exact E2.
  - intros x Hx. rewrite R2, bool_decide_true by lia. rewrite B1 by lia. f_equal. lia.
Qed.

(** [read_sata_wrapper] reads as many bytes as the file still has, at most
    [count], and changes nothing on the disk. *)
Theorem sata_read_correct s ino pos buf count :
  file_ok (disk s) ino -> 0 <= pos <= file_len (inode_on (disk s) ino) -> 0 <= count ->
  let n := Z.min count (file_len (inode_on (disk s) ino) - pos) in
  exists buf' s', read_sata_wrapper (mkFile ino pos) buf count s = Done (n, mkFile ino (pos + n), buf') s' /\ disk s' = disk s
    /\ forall x, buf' x = if bool_decide (0 <= x < n) then byte_of (disk s) (inode_on (disk s) ino) (pos + x) else buf x.
Proof. apply read_ok. Qed.

(** *** Mistakes *)
Definition ex_zero : fsys := mkFs (fun _ _ => 0) (fun _ => 0).
(** The end of the fourth inode of a sector is not in the sector: after another
    fourth inode is written it is lost. *)
Example inode_lost :
  match (write_inode 3 (fun _ => 1);; write_inode 7 (fun _ => 2);; get_inode 3) ex_zero with
  | Done b _ => b 79 = 1 /\ b 80 = 2
  | _ => False
  end.
Proof. split; reflexivity. Qed.
(** So is the name, at byte 256, in every second directory entry. *)
Example dentry_name_lost :
  match (write_dentry 1 (fun _ => 97);; write_dentry 3 (fun _ => 98);; get_dentry 1) ex_zero with
  | Done b _ => b 207 = 97 /\ b 256 = 98
  | _ => False
  end.
Proof. split; reflexivity. Qed.
(** On a full disk the bitmap is written at -1 before the result is looked at. *)
Example disk_full_faults : write_sata_wrapper (mkFile 0 0) (fun _ => 7) 5 (mkFs (fun n _ => if n =? 2 then 1 else 0) (fun _ => 0)) = Faulted.
Proof. vm_compute. done. Qed.

(** ** Witnesses *)
Lemma ex_zero_file : file_ok (disk ex_zero) 0.
Proof.
  assert (block_count (inode_on (disk ex_zero) 0) = 0) as E by reflexivity.
  split; [lia|done| |right; split; reflexivity]. split; rewrite ?E; lia.
Qed.
Lemma ex_zero_free : free_blocks (disk ex_zero) (blocks_needed (disk ex_zero) 0 0 5).
Proof.
  exists [0]. split; [apply NoDup_singleton|]. split; [reflexivity|]. intros d ->%list_elem_of_singleton. split; [lia|done].
Qed.

Lemma sata_write_correct_witness :
  exists s', write_sata_wrapper (mkFile 0 0) (fun x => 65 + x) 5 ex_zero = Done (5, mkFile 0 (0 + 5)) s'
    /\ file_ok (disk s') 0
    /\ file_len (inode_on (disk s') 0) = Z.max (file_len (inode_on (disk ex_zero) 0)) (0 + 5)
    /\ (forall x, 0 <= x < 0 + 5 -> byte_of (disk s') (inode_on (disk s') 0) x = 65 + (x - 0))
    /\ (forall x, 0 <= x < 512 * block_count (inode_on (disk ex_zero) 0) -> ~ 0 <= x < 0 + 5 ->
          byte_of (disk s') (inode_on (disk s') 0) x = byte_of (disk ex_zero) (inode_on (disk ex_zero) 0) x)
    /\ (forall ino2, ino2 <> 0 -> file_ok (disk ex_zero) ino2 -> apart (disk ex_zero) 0 ino2 ->
          file_ok (disk s') ino2 /\ same_file (disk ex_zero) (disk s') ino2).
Proof. apply (sata_write_correct ex_zero 0 0 5 (fun x => 65 + x)); [exact ex_zero_file|lia|lia|lia|exact ex_zero_free]. Defined.

Lemma sata_roundtrip_witness :
  exists buf' s', ('(_, fd) ← write_sata_wrapper (mkFile 0 0) (fun x => 65 + x) 5; '(_, fd) ← my_lseek fd 0 SEEK_SET;
      read_sata_wrapper fd (fun _ => 0) 5) ex_zero = Done (5, mkFile 0 (0 + 5), buf') s'
    /\ forall x, 0 <= x < 5 -> buf' x = 65 + x.
Proof.
  apply (sata_roundtrip ex_zero 0 0 5 (fun x => 65 + x) (fun _ => 0)); [exact ex_zero_file|lia|lia|lia|exact ex_zero_free].
Defined.

Lemma sata_read_correct_witness :
  let n := Z.min 9 (file_len (inode_on (disk ex_zero) 0) - 0) in
  exists buf' s', read_sata_wrapper (mkFile 0 0) (fun _ => 1) 9 ex_zero = Done (n, mkFile 0 (0 + n), buf') s' /\ disk s' = disk ex_zero
    /\ forall x, buf' x = if bool_decide (0 <= x < n) then byte_of (disk ex_zero) (inode_on (disk ex_zero) 0) (0 + x) else 1.
Proof.
  apply (sata_read_correct ex_zero 0 0 (fun _ => 1) 9); [exact ex_zero_file|split; [lia|vm_compute; discriminate]|lia].
Defined.
