(* ===== verification/Tarfs.v ===== *)
(** The read-only file system of the file server, on a tar archive in memory:
    [bin/fs/tarfs.c].

    The archive is a byte memory that [tarfs_init] changes in place.  The tables
    [tarfs_entry] and [tarfs_inode] are the lists of their elements in use; a
    pointer into a table is an index.  A string that was copied into an array of
    its own is the list of its characters; [strcmp] on such strings is equality.
    Going beyond the end of an array, and overflow of an [int], is [Faulted].  Strings of 512 characters and
    more are taken for unterminated. *)
From S2P Require Import Prelude CString.

Definition TAR_COUNT : nat := 200.
Definition EXTENT : nat := 512.
Definition SLASH : Z := 47.

Record dentry := mkDentry { d_parent : option nat; d_subdirs : list nat; d_iname : list Z; d_inode : nat }.
Record tinode := mkTinode { t_block_count : Z; t_file_len : Z; t_i_data : Z }.
Record super_block := mkSuper { file_system_name : list Z; free_block_count : Z; sb_block_size : Z; s_root : nat }.
Record tarfs := mkTarfs {
  archive : memory;
  tarfs_entry : list dentry;
  tarfs_inode : list tinode;
  super_blocks : list super_block;
}.
Definition set_archive (m : memory) (s : tarfs) : tarfs := mkTarfs m (tarfs_entry s) (tarfs_inode s) (super_blocks s).
Definition set_entries (l : list dentry) (s : tarfs) : tarfs := mkTarfs (archive s) l (tarfs_inode s) (super_blocks s).
Definition set_inodes (l : list tinode) (s : tarfs) : tarfs := mkTarfs (archive s) (tarfs_entry s) l (super_blocks s).
Definition set_supers (l : list super_block) (s : tarfs) : tarfs := mkTarfs (archive s) (tarfs_entry s) (tarfs_inode s) l.

(** ** Strings *)
Fixpoint oct_loop (fuel : nat) (oct_str ret_value : Z) (m : memory) : option Z :=
  match fuel with
  | O => None
  | S fuel =>
      if m oct_str =? 0 then Some ret_value
      else
        let v := 8 * ret_value + i8 (m oct_str) - 48 in
        if bool_decide (- 2 ^ 31 <= v < 2 ^ 31) then oct_loop fuel (oct_str + 1) v m else None
  end.
Definition oct_to_int (oct_str : Z) (m : memory) : option Z := oct_loop EXTENT oct_str 0 m.

(** [for (i = len - 1;i >= 0;--i) str[i + 1] = str[i]] *)
Fixpoint shift_right (n : nat) (str : Z) (m : memory) : memory :=
  match n with O => m | S i => shift_right i str (upd m (str + Z.of_nat i + 1) (m (str + Z.of_nat i))) end.
Definition change_format (ch str : Z) (m : memory) : option memory :=
  len ← strlen EXTENT str m;
  let m := upd (shift_right len str m) str ch in
  Some (if m (str + Z.of_nat len) =? SLASH then upd m (str + Z.of_nat len) 0 else upd m (str + Z.of_nat len + 1) 0).

(** The string at an address. *)
Fixpoint read_string (fuel : nat) (a : Z) (m : memory) : option (list Z) :=
  match fuel with
  | O => None
  | S fuel => if m a =? 0 then Some [] else s ← read_string fuel (a + 1) m; Some (m a :: s)
  end.

(** ** Looking up *)
Fixpoint index_of (f : list Z -> bool) (l : list dentry) (i : nat) : option nat :=
  match l with [] => None | e :: l => if f (d_iname e) then Some i else index_of f l (S i) end.
Definition get_file_index (fname : list Z) (s : tarfs) : option nat :=
  index_of (fun n => bool_decide (n = fname)) (tarfs_entry s) 0.

(** [for (i = len - 1;i >= 0;--i)] up to the slash. *)
Fixpoint last_slash (n : nat) (name : list Z) : option nat :=
  match n with
  | O => None
  | S i => match name !! i with Some c => if c =? SLASH then Some i else last_slash i name | None => None end
  end.
Definition parent_dir (name : list Z) : list Z :=
  match last_slash (length name) name with
  | None => []
  | Some O => [SLASH]
  | Some i => take i name
  end.
Definition get_parent (name : list Z) (s : tarfs) : option nat :=
  index_of (fun n => bool_decide (n = parent_dir name)) (tarfs_entry s) 0.

(** ** The tables *)
(** The first empty place of [d_subdirs], if there is one. *)
Definition add_subdir (i : nat) (e : dentry) : dentry :=
  if (length (d_subdirs e) <? 30)%nat then mkDentry (d_parent e) (d_subdirs e ++ [i]) (d_iname e) (d_inode e) else e.
(** The new entry is the next of the table; [strcpy] to 30 bytes. *)
Definition tarfs_node_init (parent : option nat) (iname : list Z) (inode : nat) : M tarfs () :=
  s ← get;
  let i := length (tarfs_entry s) in
  if (i <? TAR_COUNT)%nat && (length iname <? 30)%nat then
    put (set_entries (match parent with None => tarfs_entry s | Some p => alter (add_subdir i) p (tarfs_entry s) end
                      ++ [mkDentry parent [] iname inode]) s)
  else fault.
Definition inode_init (x : tinode) : M tarfs () :=
  s ← get; if (length (tarfs_inode s) <? TAR_COUNT)%nat then put (set_inodes (tarfs_inode s ++ [x]) s) else fault.

(** Offsets in [struct posix_header_ustar]. *)
Definition SIZE_AT : Z := 124.
Definition HEADER : Z := 512.
Fixpoint headers (fuel : nat) (header tarfs_end : Z) : M tarfs () :=
  match fuel with
  | O => fault
  | S fuel =>
      if header =? tarfs_end then mret ()
      else
        s ← get;
        n ← deref (strlen EXTENT header (archive s));
        if (n =? 0)%nat then mret ()
        else
          m ← deref (change_format SLASH header (archive s));
          modify (set_archive m);;
          cur_file_size ← deref (oct_to_int (header + SIZE_AT) m);
          let cur_block_count := if Z.rem cur_file_size 512 =? 0 then Z.quot cur_file_size 512 else Z.quot cur_file_size 512 + 1 in
          let i := length (tarfs_entry s) in
          inode_init (mkTinode cur_block_count cur_file_size (header + HEADER));;
          name ← deref (read_string EXTENT header m);
          s ← get;
          let cur_par := get_parent name s in
          tarfs_node_init cur_par name i;;
          headers fuel (header + HEADER * (cur_block_count + 1)) tarfs_end
  end.
(** [tarfs_start] and [tarfs_len] are the response of the archive service. *)
Definition tarfs_init (fuel : nat) (tarfs_start tarfs_len : Z) : M tarfs () :=
  modify (fun s => set_supers (super_blocks s ++ [mkSuper [116; 97; 114; 102; 115] 10000 512 0]) s);;
  modify (set_inodes []);; modify (set_entries []);;
  inode_init (mkTinode 1 0 0);;
  tarfs_node_init None [SLASH] 0;;
  headers fuel tarfs_start (tarfs_start + tarfs_len).

(** ** Files *)
Record tfile := mkTfile { tf_inode : nat; tf_pos : Z }.
Definition tarfs_open (pathname : list Z) : M tarfs (option tfile) :=
  s ← get;
  match get_file_index pathname s with
  | None => mret None
  | Some i => if (length pathname <? 200)%nat then mret (Some (mkTfile i 0)) else fault
  end.
(** The result, the file, and the bytes written to the front of the buffer. *)
Definition tarfs_read (fd : tfile) (count : Z) : M tarfs (Z * tfile * list Z) :=
  s ← get;
  inode ← deref (tarfs_inode s !! tf_inode fd);
  if tf_pos fd =? t_file_len inode then mret (0, fd, [])
  else if negb (bool_decide (- 2 ^ 31 <= tf_pos fd + count < 2 ^ 31)) then fault
  else
    let count := if t_file_len inode <=? tf_pos fd + count then t_file_len inode - tf_pos fd else count in
    let bytes := (fun i => archive s (t_i_data inode + (tf_pos fd + Z.of_nat i))) <$> seq 0 (Z.to_nat count) in
    mret (count, mkTfile (tf_inode fd) (tf_pos fd + count), bytes ++ [0]).

(** ** Directories *)
Record reader := mkReader { r_dentry : nat; r_offset : nat }.
Definition open_tarfs_dir (dir_path : list Z) : M tarfs (option reader) :=
  s ← get; mret ((fun i => mkReader i 0) <$> get_file_index dir_path s).
(** The entry read, by its index. *)
Definition read_tarfs_dir (r : reader) : M tarfs (option nat * reader) :=
  s ← get;
  e ← deref (tarfs_entry s !! r_dentry r);
  if (30 <=? r_offset r)%nat then fault
  else match d_subdirs e !! r_offset r with
       | None => mret (None, r)
       | Some i => mret (Some i, mkReader (r_dentry r) (S (r_offset r)))
       end.
(** [ls_tarfs]: the names printed. *)
Fixpoint ls_loop (fuel : nat) (r : reader) : M tarfs (list (list Z)) :=
  match fuel with
  | O => fault
  | S fuel =>
      '(o, r) ← read_tarfs_dir r;
      match o with
      | None => mret []
      | Some i => s ← get; e ← deref (tarfs_entry s !! i); l ← ls_loop fuel r; mret (d_iname e :: l)
      end
  end.
Definition ls_tarfs (path : list Z) : M tarfs (list (list Z)) :=
  o ← open_tarfs_dir path; r ← deref o; ls_loop 31 r.
