(* ===== verification/TarfsProofs.v ===== *)
(** The tar file system: [tarfs_init] turns an archive into a tree of entries, and
    opening, reading and listing give back what the archive holds. *)
From S2P Require Import Prelude CString Tarfs.

(** ** Archives *)
Definition octal_value (ds : list Z) : Z := foldl (fun v d => 8 * v + (d - 48)) 0 ds.
Definition octal_at (m : memory) (a n : Z) : Prop :=
  exists ds, string_at m a ds /\ (length ds < EXTENT)%nat /\ Forall (fun d => 48 <= d < 56) ds /\ octal_value ds = n /\ n < 2 ^ 31.
Definition blocks (len : nat) : Z := (Z.of_nat len + 511) / 512.
Definition next_header (h : Z) (data : list Z) : Z := h + HEADER * (blocks (length data) + 1).

(** From the header at [h] on, the members with these names and contents, up to an
    empty header or the end. *)
Fixpoint archive_at (m : memory) (h e : Z) (A : list (list Z * list Z)) : Prop :=
  match A with
  | [] => h = e \/ m h = 0
  | (name, data) :: A =>
      h <> e /\ name <> [] /\ (length name <= 28)%nat /\ string_at m h name /\ octal_at m (h + SIZE_AT) (Z.of_nat (length data))
      /\ bytes_at m (h + HEADER) data /\ archive_at m (next_header h data) e A
  end.
(** Where the contents lie. *)
Fixpoint data_at (h : Z) (A : list (list Z * list Z)) : list Z :=
  match A with [] => [] | (_, data) :: A => (h + HEADER) :: data_at (next_header h data) A end.

(** The name in the tree: absolute, without the slash of a directory. *)
Definition tar_name (name : list Z) : list Z :=
  SLASH :: if bool_decide (last name = Some SLASH) then take (length name - 1) name else name.

Lemma next_header_le h data : h + HEADER <= next_header h data.
Proof. unfold next_header, HEADER, blocks. pose proof (Z.div_pos (Z.of_nat (length data) + 511) 512 ltac:(lia) ltac:(lia)). lia. Qed.

Lemma data_in_member h data : h + HEADER + Z.of_nat (length data) <= next_header h data.
Proof.
  unfold next_header, HEADER, blocks. pose proof (Z.div_mod (Z.of_nat (length data) + 511) 512 ltac:(lia)).
  pose proof (Z.mod_pos_bound (Z.of_nat (length data) + 511) 512 ltac:(lia)). lia.
Qed.

Lemma archive_ext m m' A : forall h e, (forall x, h <= x -> m' x = m x) -> archive_at m h e A -> archive_at m' h e A.
Proof.
  induction A as [|[name data] A IH]; intros h e Hm; cbn [archive_at]; [rewrite Hm by lia; done|].
  intros (H1 & H2 & H3 & [H4 H4'] & (ds & [D1 D1'] & D2) & H6 & H7). pose proof (next_header_le h data) as Hn. unfold HEADER, SIZE_AT in *.
  split_and!; try done.
  - split; [|done]. eapply bytes_at_ext; [|exact H4]. intros i Hi. apply Hm. lia.
  - exists ds. split; [|done]. split; [|done]. eapply bytes_at_ext; [|exact D1]. intros i Hi. apply Hm. lia.
  - eapply bytes_at_ext; [|exact H6]. intros i Hi. apply Hm. lia.
  - apply IH; [|done]. intros x Hx. apply Hm. lia.
Qed.

(** ** Strings *)
Lemma read_string_spec m l : forall a fuel, string_at m a l -> (length l < fuel)%nat -> read_string fuel a m = Some l.
Proof.
  induction l as [|c l IH]; intros a [|fuel] Hs Hf; cbn [length] in Hf; try lia; cbn [read_string].
  - destruct Hs as [[Hs _] _]. by rewrite Hs.
  - apply string_at_cons in Hs as (Hc & Hb & Hs). rewrite (proj2 (Z.eqb_neq _ _)) by lia. rewrite (IH (a + 1)) by (done || lia). by rewrite Hc.
Qed.

Lemma shift_right_spec n a : forall m x,
  shift_right n a m x = if (a + 1 <=? x) && (x <? a + 1 + Z.of_nat n) then m (x - 1) else m x.
Proof.
  induction n as [|n IH]; intros m x; cbn [shift_right].
  - destruct (Z.leb_spec (a + 1) x), (Z.ltb_spec x (a + 1 + Z.of_nat 0)); cbn; (done || lia).
  - rewrite IH. unfold upd. destruct (Z.leb_spec (a + 1) x), (Z.ltb_spec x (a + 1 + Z.of_nat n)), (Z.ltb_spec x (a + 1 + Z.of_nat (S n)));
      cbn [andb]; try lia; repeat match goal with |- context [?u =? ?v] => destruct (Z.eqb_spec u v) end; try lia; f_equal; lia.
Qed.

Lemma tar_name_cases l : l <> [] -> exists l' c, l = l' ++ [c] /\ tar_name l = SLASH :: if decide (c = SLASH) then l' else l.
Proof.
  intros Hl. destruct (exists_last Hl) as (l' & c & ->). exists l', c. split; [done|]. unfold tar_name. rewrite last_snoc. f_equal.
  destruct (decide (c = SLASH)) as [->|Hc].
  - rewrite bool_decide_true by done. rewrite length_app. cbn [length]. replace (length l' + 1 - 1)%nat with (length l') by lia. apply take_app_length.
  - rewrite bool_decide_false by congruence. done.
Qed.

(** A slash, the characters, and a terminator put behind them. *)
Lemma terminated m a l : m a = SLASH -> (forall i c, l !! i = Some c -> m (a + 1 + Z.of_nat i) = c) -> Forall (fun c => 0 < c < 256) l ->
  string_at (upd m (a + 1 + Z.of_nat (length l)) 0) a (SLASH :: l).
Proof.
  intros Ha Hl Hz. split; [|by constructor]. apply bytes_at_intro. intros [|i] d Hi; cbn in Hi; unfold upd.
  - injection Hi as <-. rewrite Z.add_0_r, (proj2 (Z.eqb_neq _ _)) by lia. done.
  - replace (a + Z.of_nat (S i)) with (a + 1 + Z.of_nat i) by lia. apply lookup_app_Some in Hi as [Hi|[Hi1 Hi2]].
    + pose proof (lookup_lt_Some _ _ _ Hi). rewrite (proj2 (Z.eqb_neq _ _)) by lia. by apply Hl.
    + apply list_lookup_singleton_Some in Hi2 as [Hi2 <-]. by rewrite (proj2 (Z.eqb_eq _ _)) by lia.
Qed.

Lemma change_format_spec m a l : string_at m a l -> l <> [] -> (length l < EXTENT)%nat ->
  exists m', change_format SLASH a m = Some m' /\ string_at m' a (tar_name l)
    /\ forall x, ~ (a <= x < a + Z.of_nat (length l) + 2) -> m' x = m x.
Proof.
  intros Hs Hne Hlen. unfold change_format. rewrite (strlen_spec m l a EXTENT Hs Hlen). cbn [mbind option_bind].
  set (m1 := upd (shift_right (length l) a m) a SLASH). destruct Hs as [Hb Hz].
  assert (forall i c, l !! i = Some c -> m1 (a + 1 + Z.of_nat i) = c) as Hm1.
  { intros i c Hi. pose proof (lookup_lt_Some _ _ _ Hi). unfold m1, upd. rewrite (proj2 (Z.eqb_neq _ _)) by lia. rewrite shift_right_spec.
    rewrite (proj2 (Z.leb_le _ _)), (proj2 (Z.ltb_lt _ _)) by lia. cbn [andb]. replace (a + 1 + Z.of_nat i - 1) with (a + Z.of_nat i) by lia.
    apply (bytes_at_lookup m (l ++ [0])); [done|]. by apply lookup_app_l_Some. }
  assert (forall x, ~ (a <= x < a + Z.of_nat (length l) + 1) -> m1 x = m x) as Hout.
  { intros x Hx. unfold m1, upd. rewrite (proj2 (Z.eqb_neq _ _)) by lia. rewrite shift_right_spec.
    destruct (Z.leb_spec (a + 1) x), (Z.ltb_spec x (a + 1 + Z.of_nat (length l))); cbn; (done || lia). }
  assert (m1 a = SLASH) as Ha by (unfold m1, upd; by rewrite Z.eqb_refl).
  destruct (tar_name_cases l Hne) as (l' & c & El & ->). assert (m1 (a + Z.of_nat (length l)) = c) as Hlast.
  { replace (a + Z.of_nat (length l)) with (a + 1 + Z.of_nat (length l')) by (rewrite El, length_app; cbn; lia). apply Hm1.
    rewrite El. by apply list_lookup_middle. }
  assert (length l = length l' + 1)%nat as Ell by (rewrite El, length_app; done).
  rewrite Hlast. destruct (decide (c = SLASH)) as [->|Hc]; [rewrite Z.eqb_refl|rewrite (proj2 (Z.eqb_neq _ _)) by done];
    (eexists; split; [done|]; split; [|intros x Hx; unfold upd; rewrite (proj2 (Z.eqb_neq _ _)) by lia; apply Hout; lia]).
  - replace (a + Z.of_nat (length l)) with (a + 1 + Z.of_nat (length l')) by lia. apply terminated; [done| |rewrite El in Hz; by apply Forall_app in Hz as [? _]].
    intros i d Hi. apply Hm1. rewrite El. by apply lookup_app_l_Some.
  - replace (a + Z.of_nat (length l) + 1) with (a + 1 + Z.of_nat (length l)) by lia. by apply terminated.
Qed.

Lemma octal_value_bounds ds : forall v, 0 <= v -> Forall (fun d => 48 <= d < 56) ds -> v <= foldl (fun v d => 8 * v + (d - 48)) v ds.
Proof.
  induction ds as [|d ds IH]; intros v Hv Hd; cbn [foldl]; [lia|]. apply Forall_cons in Hd as [Hd Hds].
  etrans; [|apply IH; [lia|done]]. lia.
Qed.
Lemma oct_loop_spec m ds : forall a v fuel, string_at m a ds -> (length ds < fuel)%nat -> Forall (fun d => 48 <= d < 56) ds -> 0 <= v ->
  foldl (fun v d => 8 * v + (d - 48)) v ds < 2 ^ 31 -> oct_loop fuel a v m = Some (foldl (fun v d => 8 * v + (d - 48)) v ds).
Proof.
  induction ds as [|d ds IH]; intros a v [|fuel] Hs Hf Hd Hv Hlt; cbn [length foldl oct_loop] in *; try lia.
  - destruct Hs as [[Hs _] _]. by rewrite Hs.
  - apply string_at_cons in Hs as (Hc & Hb & Hs). apply Forall_cons in Hd as [Hd Hds]. rewrite Hc, (proj2 (Z.eqb_neq _ _)) by lia.
    replace (i8 d) with d by (unfold i8, swrap; rewrite Z.mod_small; lia). replace (8 * v + d - 48) with (8 * v + (d - 48)) by lia.
    pose proof (octal_value_bounds ds (8 * v + (d - 48)) ltac:(lia) Hds). rewrite bool_decide_true by lia. apply IH; (done || lia).
Qed.
Lemma oct_to_int_spec m a n : octal_at m a n -> oct_to_int a m = Some n.
Proof. intros (ds & Hs & Hl & Hd & <- & Hn). by apply oct_loop_spec. Qed.

Lemma block_count_eq (len : nat) :
  (if Z.rem (Z.of_nat len) 512 =? 0 then Z.quot (Z.of_nat len) 512 else Z.quot (Z.of_nat len) 512 + 1) = blocks len.
Proof.
  rewrite Z.rem_mod_nonneg, Z.quot_div_nonneg by lia. unfold blocks. set (n := Z.of_nat len).
  pose proof (Z.div_mod n 512 ltac:(lia)) as E. pose proof (Z.mod_pos_bound n 512 ltac:(lia)). destruct (Z.eqb_spec (n mod 512) 0).
  - apply (Z.div_unique_pos _ 512 _ 511); lia.
  - apply (Z.div_unique_pos _ 512 _ (n mod 512 - 1)); lia.
Qed.

(** ** The tree *)
(** The entry of a name, added to a table. *)
Definition add_member (es : list dentry) (name : list Z) : list dentry :=
  let i := length es in
  let p := index_of (fun n => bool_decide (n = parent_dir name)) es 0 in
  match p with None => es | Some p => alter (add_subdir i) p es end ++ [mkDentry p [] name i].
Definition root_entry : dentry := mkDentry None [] [SLASH] 0.
Definition tree_of (names : list (list Z)) : list dentry := foldl add_member [root_entry] names.

Lemma length_add es name : length (add_member es name) = S (length es).
Proof. unfold add_member. rewrite length_app. destruct (index_of _ es 0); rewrite ?length_alter; cbn; lia. Qed.
Lemma length_members names : forall es, length (foldl add_member es names) = (length es + length names)%nat.
Proof. induction names as [|n names IH]; intros es; cbn; [lia|]. rewrite IH, length_add. lia. Qed.

Definition inode_of (h : Z) (data : list Z) : tinode := mkTinode (blocks (length data)) (Z.of_nat (length data)) (h + HEADER).
Fixpoint inodes_of (h : Z) (A : list (list Z * list Z)) : list tinode :=
  match A with [] => [] | (_, data) :: A => inode_of h data :: inodes_of (next_header h data) A end.

Lemma tar_name_length l : l <> [] -> (length (tar_name l) <= S (length l))%nat.
Proof. intros _. unfold tar_name. cbn. case_bool_decide; [rewrite length_take|]; lia. Qed.

Lemma headers_spec A : forall h e fuel s, archive_at (archive s) h e A -> (length A < fuel)%nat ->
  length (tarfs_inode s) = length (tarfs_entry s) -> (length (tarfs_entry s) + length A <= TAR_COUNT)%nat ->
  exists s', headers fuel h e s = Done () s'
    /\ tarfs_entry s' = foldl add_member (tarfs_entry s) (tar_name <$> A.*1)
    /\ tarfs_inode s' = tarfs_inode s ++ inodes_of h A
    /\ (forall x, x < h -> archive s' x = archive s x)
    /\ forall i data a, A.*2 !! i = Some data -> data_at h A !! i = Some a -> bytes_at (archive s') a data.
Proof.
  induction A as [|[name data] A IH]; intros h e [|fuel] s Ha Hf Hlen Hmax; cbn [length] in Hf; try lia; cbn [headers].
  - cbn [archive_at] in Ha. exists s. split; [|by rewrite app_nil_r]. destruct (Z.eqb_spec h e) as [|Hne]; [done|]. destruct Ha as [|Ha]; [done|].
    erewrite bind_eq; [|apply get_eq]. erewrite bind_eq; [|apply deref_eq; apply (strlen_spec _ []); [by split; [|constructor]|unfold EXTENT; cbn; lia]]. done.
  - destruct Ha as (Hne & Hn0 & Hn28 & Hs & Ho & Hd & Ha). rewrite (proj2 (Z.eqb_neq _ _)) by done. unfold EXTENT, HEADER, SIZE_AT in *.
    pose proof (next_header_le h data) as Hnext. unfold HEADER in Hnext.
    erewrite bind_eq; [|apply get_eq]. erewrite bind_eq; [|apply deref_eq; apply (strlen_spec _ name); [done|unfold EXTENT; lia]].
    destruct (Nat.eqb_spec (length name) 0) as [E0|_]; [by destruct name|].
    destruct (change_format_spec (archive s) h name Hs Hn0 ltac:(unfold EXTENT; lia)) as (m & Em & Hsm & Hout).
    erewrite bind_eq; [|by apply deref_eq]. erewrite bind_eq; [|apply modify_eq].
    assert (octal_at m (h + 124) (Z.of_nat (length data))) as Ho'.
    { destruct Ho as (ds & Hds & D2). exists ds. split; [|done]. eapply string_at_ext; [|exact Hds]. intros x Hx. apply Hout. lia. }
    erewrite bind_eq; [|apply deref_eq; by apply oct_to_int_spec]. cbv zeta. rewrite block_count_eq.
    erewrite bind_eq; [|unfold inode_init; erewrite bind_eq; [|apply get_eq]; cbn [tarfs_inode set_archive];
      rewrite (proj2 (Nat.ltb_lt _ _)) by (cbn in Hmax; lia); reflexivity].
    erewrite bind_eq; [|apply deref_eq; apply (read_string_spec m (tar_name name)); [done|unfold EXTENT; pose proof (tar_name_length name Hn0); lia]].
    erewrite bind_eq; [|apply get_eq].
    erewrite bind_eq; [|unfold tarfs_node_init; erewrite bind_eq; [|apply get_eq]; cbn [tarfs_entry set_archive set_inodes];
      rewrite (proj2 (Nat.ltb_lt (length (tarfs_entry s)) TAR_COUNT)) by (cbn in Hmax; lia);
      rewrite (proj2 (Nat.ltb_lt (length (tar_name name)) 30)) by (pose proof (tar_name_length name Hn0); lia); reflexivity].
    match goal with |- context [headers fuel ?n e ?x] => set (s1 := x); change n with (next_header h data) end.
    assert (tarfs_entry s1 = add_member (tarfs_entry s) (tar_name name)) as He1 by done.
    assert (archive s1 = m) as Hm1 by done. assert (tarfs_inode s1 = tarfs_inode s ++ [inode_of h data]) as Hi1 by done.
    destruct (IH (next_header h data) e fuel s1) as (s' & E & He & Hi & Hlow & Hb).
    { rewrite Hm1. eapply archive_ext; [|exact Ha]. intros x Hx. apply Hout. lia. }
    { lia. }
    { rewrite He1, Hi1, length_app, length_add. cbn. lia. }
    { rewrite He1, length_add. cbn in Hmax. lia. }
    exists s'. split; [exact E|]. split; [by rewrite He, He1|]. split; [by rewrite Hi, Hi1, <- app_assoc|].
    split; [intros x Hx; rewrite Hlow, Hm1 by lia; apply Hout; lia|].
    intros [|i] d a Hd' Ha'; cbn in Hd', Ha'; [|by eapply Hb]. injection Hd' as ->. injection Ha' as <-.
    eapply bytes_at_ext; [|exact Hd]. intros i Hi'. pose proof (data_in_member h d). rewrite Hlow, Hm1 by (unfold HEADER in *; lia). apply Hout. lia.
Qed.

(** *** The shape of the tree *)
Definition child_of (es : list dentry) (p i : nat) : bool :=
  match es !! i with Some e => bool_decide (d_parent e = Some p) | None => false end.
Definition children (es : list dentry) (p : nat) : list nat := filter (fun i => child_of es p i = true) (seq 0 (length es)).
(** The first entry with a name, among those before [i]. *)
Definition first_with (es : list dentry) (name : list Z) (i : nat) : option nat :=
  index_of (fun n => bool_decide (n = name)) (take i es) 0.
(** Each entry hangs below the first entry with the name of its directory, if that
    comes before it, and lists its first 30 children in order. *)
Definition tree_ok (es : list dentry) : Prop :=
  forall i e, es !! i = Some e ->
    d_inode e = i
    /\ d_parent e = (if (i =? 0)%nat then None else first_with es (parent_dir (d_iname e)) i)
    /\ d_subdirs e = take 30 (children es i).

Lemma index_of_ext f l l' : forall k, d_iname <$> l = d_iname <$> l' -> index_of f l k = index_of f l' k.
Proof.
  revert l'. induction l as [|e l IH]; intros [|e' l'] k E; try discriminate E; [done|]. cbn in *. injection E as E1 E2.
  rewrite E1. destruct (f (d_iname e')); [done|]. by apply IH.
Qed.
Lemma index_of_Some f l : forall k i, index_of f l k = Some i -> (k <= i < k + length l)%nat
  /\ exists e, l !! (i - k)%nat = Some e /\ f (d_iname e) = true.
Proof.
  induction l as [|e l IH]; intros k i; cbn [index_of length]; [done|]. destruct (f (d_iname e)) eqn:Ef.
  - intros [= <-]. split; [lia|]. exists e. by rewrite Nat.sub_diag.
  - intros H. destruct (IH (S k) i H) as (Hi & e' & He & Hf). split; [lia|]. exists e'. split; [|done].
    replace (i - k)%nat with (S (i - S k)) by lia. done.
Qed.
Lemma first_with_lt es name i p : (i <= length es)%nat -> first_with es name i = Some p -> (p < i)%nat.
Proof. intros Hi H. apply index_of_Some in H as [H _]. rewrite length_take in H. lia. Qed.
Lemma first_with_ext es es' name i : d_iname <$> take i es = d_iname <$> take i es' -> first_with es name i = first_with es' name i.
Proof. apply index_of_ext. Qed.

Lemma add_subdir_keeps i e : d_parent (add_subdir i e) = d_parent e /\ d_iname (add_subdir i e) = d_iname e /\ d_inode (add_subdir i e) = d_inode e.
Proof. unfold add_subdir. by destruct (_ <? _)%nat. Qed.

Lemma filter_same {A} (P Q : A -> bool) (l : list A) : (forall x, x ∈ l -> P x = Q x) ->
  filter (fun x => P x = true) l = filter (fun x => Q x = true) l.
Proof.
  induction l as [|x l IH]; intros H; [done|]. rewrite !filter_cons, (H x) by constructor.
  rewrite IH; [done|]. intros y Hy. apply H. by constructor.
Qed.
Lemma filter_none {A} (P : A -> bool) (l : list A) : (forall x, x ∈ l -> P x = true -> False) -> filter (fun x => P x = true) l = [].
Proof.
  induction l as [|x l IH]; intros H; [done|]. rewrite filter_cons, decide_False; [apply IH; intros y Hy; apply H; by constructor|].
  intros Hx. by apply (H x); [constructor|].
Qed.

Section add.
Context (es : list dentry) (name : list Z).
Let n := length es.
Let p := index_of (fun x => bool_decide (x = parent_dir name)) es 0.
Let new := mkDentry p [] name n.

Lemma add_lookup_old i e : es !! i = Some e ->
  add_member es name !! i = Some (if decide (p = Some i) then add_subdir n e else e).
Proof.
  intros Hi. pose proof (lookup_lt_Some _ _ _ Hi). unfold add_member. fold p. destruct p as [q|].
  - rewrite lookup_app_l by (by rewrite length_alter). destruct (decide (q = i)) as [->|Hq].
    + rewrite list_lookup_alter_eq, Hi. by rewrite decide_True.
    + rewrite list_lookup_alter_ne, Hi by done. by rewrite decide_False by congruence.
  - rewrite lookup_app_l by done. by rewrite decide_False.
Qed.
Lemma add_lookup_new : add_member es name !! n = Some new.
Proof.
  unfold add_member. fold p n new. destruct p as [q|].
  - rewrite lookup_app_r; rewrite length_alter; [|done]. unfold n. by rewrite Nat.sub_diag.
  - rewrite lookup_app_r by done. unfold n. by rewrite Nat.sub_diag.
Qed.
Lemma add_names : d_iname <$> add_member es name = (d_iname <$> es) ++ [name].
Proof.
  unfold add_member. fold p. rewrite fmap_app. f_equal. destruct p as [q|]; [|done].
  apply list_eq. intros i. rewrite !list_lookup_fmap. destruct (decide (q = i)) as [->|Hq].
  - rewrite list_lookup_alter_eq. destruct (es !! i) as [e|]; [|done]. cbn. by destruct (add_subdir_keeps (length es) e) as (_ & -> & _).
  - by rewrite list_lookup_alter_ne.
Qed.
Lemma add_first_with x i : (i <= n)%nat -> first_with (add_member es name) x i = first_with es x i.
Proof.
  intros Hi. apply first_with_ext. rewrite !fmap_take, add_names. apply take_app_le. by rewrite length_fmap.
Qed.
Lemma add_child_old q i : (i < n)%nat -> child_of (add_member es name) q i = child_of es q i.
Proof.
  intros Hi. unfold child_of. destruct (lookup_lt_is_Some_2 es i Hi) as [e He]. rewrite (add_lookup_old i e He), He.
  case_decide; [|done]. by destruct (add_subdir_keeps n e) as (-> & _).
Qed.
Lemma add_children q : children (add_member es name) q = children es q ++ if decide (p = Some q) then [n] else [].
Proof.
  unfold children. rewrite length_add. fold n. rewrite seq_S, filter_app. f_equal.
  - apply filter_same. intros i Hi%elem_of_seq. by rewrite add_child_old by lia.
  - cbn [Nat.add filter list_filter]. unfold child_of. rewrite add_lookup_new. cbn [d_parent new].
    repeat case_decide; try done; by rewrite bool_decide_eq_true in *.
Qed.
Lemma add_parent_eq : p = first_with (add_member es name) (parent_dir name) n.
Proof. rewrite add_first_with by done. unfold first_with, n. by rewrite firstn_all. Qed.

Hypothesis ok : tree_ok es.
Lemma parent_below i e q : es !! i = Some e -> d_parent e = Some q -> (q < i)%nat.
Proof.
  intros Hi Hq. destruct (ok i e Hi) as (_ & Hp & _). rewrite Hp in Hq. destruct (i =? 0)%nat; [done|].
  apply first_with_lt in Hq; [done|]. apply lookup_lt_Some in Hi. lia.
Qed.
Lemma no_children q : (n <= q)%nat -> children es q = [].
Proof.
  intros Hq. unfold children. apply filter_none. intros i Hi Hc. apply elem_of_seq in Hi. unfold child_of in Hc.
  destruct (es !! i) as [e|] eqn:He; [|done]. apply bool_decide_eq_true in Hc. pose proof (parent_below i e q He Hc). unfold n in Hq. lia.
Qed.
Lemma add_tree_ok : es <> [] -> tree_ok (add_member es name).
Proof.
  intros Hne i e' Hi. assert (n <> 0)%nat by (unfold n; by destruct es). pose proof (lookup_lt_Some _ _ _ Hi) as Hlt. rewrite length_add in Hlt. fold n in Hlt.
  destruct (decide (i = n)) as [->|Hin].
  - rewrite add_lookup_new in Hi. injection Hi as <-. cbn [d_inode d_parent d_iname d_subdirs new]. rewrite (proj2 (Nat.eqb_neq n 0)) by done.
    split_and!; [done|apply add_parent_eq|]. rewrite add_children, no_children by done. rewrite decide_False; [done|].
    intros Hp. pose proof add_parent_eq as E. rewrite Hp in E. symmetry in E. apply first_with_lt in E; [lia|rewrite length_add; fold n; lia].
  - destruct (lookup_lt_is_Some_2 es i ltac:(fold n; lia)) as [e He]. rewrite (add_lookup_old i e He) in Hi. injection Hi as <-.
    destruct (ok i e He) as (H1 & H2 & H3). rewrite add_first_with, add_children by lia.
    destruct (decide (p = Some i)) as [Hp|Hp]; [|by rewrite app_nil_r].
    destruct (add_subdir_keeps n e) as (-> & -> & ->). split_and!; [done..|]. unfold add_subdir. rewrite H3, length_take.
    destruct (Nat.ltb_spec (30 `min` length (children es i)) 30) as [Hl|Hl].
    + cbn [d_subdirs]. rewrite !take_ge; [done|rewrite length_app; cbn; lia|lia].
    + rewrite H3. symmetry. apply take_app_le. lia.
Qed.
End add.

Lemma members_tree_ok names : forall es, tree_ok es -> es <> [] ->
  tree_ok (foldl add_member es names) /\ d_iname <$> foldl add_member es names = (d_iname <$> es) ++ names.
Proof.
  induction names as [|x names IH]; intros es Hok Hne; cbn [foldl]; [by rewrite app_nil_r|].
  destruct (IH (add_member es x)) as [H1 H2]; [by apply add_tree_ok|unfold add_member; by destruct (match _ with None => _ | Some _ => _ end)|].
  split; [done|]. by rewrite H2, add_names, <- app_assoc.
Qed.
Lemma root_tree_ok : tree_ok [root_entry].
Proof. by intros [|[|i]] e; [intros [= <-]|..]. Qed.

(** ** The mounted archive *)
Definition entry_names (A : list (list Z * list Z)) : list (list Z) := [SLASH] :: (tar_name <$> A.*1).
Record holds (A : list (list Z * list Z)) (s : tarfs) : Prop := {
  h_names : d_iname <$> tarfs_entry s = entry_names A;
  h_tree : tree_ok (tarfs_entry s);
  h_root : tarfs_inode s !! 0%nat = Some (mkTinode 1 0 0);
  h_short : Forall (fun n => (length n < 30)%nat /\ Forall (fun c => 0 < c < 256) n) (entry_names A);
  h_data : forall i name data, A !! i = Some (name, data) -> exists x, tarfs_inode s !! S i = Some x
             /\ t_file_len x = Z.of_nat (length data) /\ t_block_count x = blocks (length data) /\ bytes_at (archive s) (t_i_data x) data;
}.

Lemma inodes_lookup A : forall h i name data, A !! i = Some (name, data) ->
  exists a, data_at h A !! i = Some a /\ inodes_of h A !! i = Some (mkTinode (blocks (length data)) (Z.of_nat (length data)) a).
Proof.
  induction A as [|[name' data'] A IH]; intros h [|i] name data Hi; try discriminate Hi; cbn [data_at inodes_of]; [|by eapply IH].
  injection Hi as -> ->. by eexists.
Qed.

Lemma members_short A : forall h e m, archive_at m h e A ->
  Forall (fun n => (length n < 30)%nat /\ Forall (fun c => 0 < c < 256) n) (tar_name <$> A.*1).
Proof.
  induction A as [|[name data] A IH]; intros h e m Ha; cbn; constructor; destruct Ha as (_ & Hn & Hl & [_ Hz] & _ & _ & Ha); [|by eapply IH].
  split; [pose proof (tar_name_length name Hn); lia|]. constructor; [done|]. case_bool_decide; [by apply Forall_take|done].
Qed.

Lemma init_holds A start len fuel s :
  archive_at (archive s) start (start + len) A -> (length A < TAR_COUNT)%nat -> (length A < fuel)%nat ->
  exists s', tarfs_init fuel start len s = Done () s' /\ holds A s'.
Proof.
  intros Ha Hmax Hf. unfold tarfs_init. do 3 (erewrite bind_eq; [|apply modify_eq]).
  erewrite bind_eq; [|reflexivity]. erewrite bind_eq; [|unfold tarfs_node_init; erewrite bind_eq; [|apply get_eq]; reflexivity].
  match goal with |- context [headers fuel _ _ ?x] => set (s1 := x) end.
  destruct (headers_spec A start (start + len) fuel s1 Ha Hf eq_refl) as (s' & E & He & Hi & _ & Hd).
  { cbn [length s1 set_inodes set_entries tarfs_entry app]. cbn. lia. }
  exists s'. split; [exact E|]. change (tarfs_entry s1) with [root_entry] in He. change (tarfs_inode s1) with [mkTinode 1 0 0] in Hi.
  destruct (members_tree_ok (tar_name <$> A.*1) [root_entry] root_tree_ok ltac:(done)) as [H1 H2]. split.
  - by rewrite He, H2.
  - by rewrite He.
  - by rewrite Hi.
  - constructor; [split; [cbn; lia|by repeat constructor]|by eapply members_short].
  - intros i name data Hl. destruct (inodes_lookup A start i name data Hl) as (a & Ea & Ei). exists (mkTinode (blocks (length data)) (Z.of_nat (length data)) a).
    split; [by rewrite Hi|]. split; [done|]. split; [done|]. apply (Hd i); [|done]. by rewrite list_lookup_fmap, Hl.
Qed.

(** [tarfs_init] on an archive of at most 199 members with names of at most 28
    characters ends, and has a root and an entry for each member, in order, with
    the absolute name, below the entry of its directory and in that entry's list,
    and inodes with the length, the number of blocks and the bytes. *)
Theorem tarfs_init_correct A start len fuel s :
  archive_at (archive s) start (start + len) A -> (length A < TAR_COUNT)%nat -> (length A < fuel)%nat ->
  exists s', tarfs_init fuel start len s = Done () s' /\ holds A s'.
Proof. apply init_holds. Qed.

(** *** Reading a file *)
(** A program that reads a file to its end, [count] bytes at a time. *)
Fixpoint read_all (fuel : nat) (fd : tfile) (count : Z) : M tarfs (list Z) :=
  match fuel with
  | O => fault
  | S fuel =>
      '(n, fd, bytes) ← tarfs_read fd count;
      if n =? 0 then mret [] else l ← read_all fuel fd count; mret (take (Z.to_nat n) bytes ++ l)
  end.
Definition cat_file (fuel : nat) (path : list Z) (count : Z) : M tarfs (option (list Z)) :=
  o ← tarfs_open path;
  match o with None => mret None | Some fd => l ← read_all fuel fd count; mret (Some l) end.

Lemma index_of_name l names name i : d_iname <$> l = names -> NoDup names -> names !! i = Some name ->
  index_of (fun n => bool_decide (n = name)) l 0 = Some i.
Proof.
  intros <- Hnd Hi. replace i with (0 + i)%nat by done. generalize 0%nat as k. revert i Hi Hnd. induction l as [|e l IH]; intros [|i] Hi Hnd k; try done; cbn in *.
  - injection Hi as ->. rewrite bool_decide_true by done. f_equal. lia.
  - apply NoDup_cons in Hnd as [Hn Hnd]. rewrite bool_decide_false; [rewrite (IH i Hi Hnd); f_equal; lia|].
    intros Heq. apply Hn. rewrite Heq. by eapply list_elem_of_lookup_2.
Qed.

Lemma bytes_chunk m l : forall a, bytes_at m a l -> (fun i => m (a + Z.of_nat i)) <$> seq 0 (length l) = l.
Proof.
  intros a Hb. apply list_eq. intros i. rewrite list_lookup_fmap. destruct (l !! i) as [c|] eqn:Hi.
  - rewrite lookup_seq_lt by (by eapply lookup_lt_Some). cbn. f_equal. by eapply bytes_at_lookup.
  - rewrite lookup_seq_ge; [done|by apply lookup_ge_None].
Qed.

Lemma tarfs_read_spec s fd x data c : tarfs_inode s !! tf_inode fd = Some x -> t_file_len x = Z.of_nat (length data) ->
  bytes_at (archive s) (t_i_data x) data -> 1 <= c -> Z.of_nat (length data) + c < 2 ^ 31 -> forall pos, tf_pos fd = Z.of_nat pos -> (pos <= length data)%nat ->
  tarfs_read fd c s = if decide (pos = length data) then Done (0, fd, []) s else
    let chunk := take (Z.to_nat c) (drop pos data) in
    Done (Z.of_nat (length chunk), mkTfile (tf_inode fd) (Z.of_nat (pos + length chunk)), chunk ++ [0]) s.
Proof.
  intros Hx Hl Hb Hc Hc' pos Hp Hle. unfold tarfs_read. erewrite bind_eq; [|apply get_eq]. erewrite bind_eq; [|by apply deref_eq]. rewrite Hl, Hp.
  destruct (Z.eqb_spec (Z.of_nat pos) (Z.of_nat (length data))) as [Ee|Ee], (decide (pos = length data)) as [Ed|Ed]; try lia; [done|].
  rewrite bool_decide_true by lia. cbn [negb]. cbv zeta.
  set (chunk := take (Z.to_nat c) (drop pos data)). assert (length chunk = Z.to_nat c `min` (length data - pos))%nat as Hlen by (unfold chunk; by rewrite length_take, length_drop).
  replace (if Z.of_nat (length data) <=? Z.of_nat pos + c then Z.of_nat (length data) - Z.of_nat pos else c) with (Z.of_nat (length chunk))
    by (rewrite Hlen; destruct (Z.leb_spec (Z.of_nat (length data)) (Z.of_nat pos + c)); lia).
  rewrite Nat2Z.id, Nat2Z.inj_add. do 2 f_equal. f_equal. rewrite <- (bytes_chunk (archive s) chunk (t_i_data x + Z.of_nat pos)) at 2.
  - apply list_fmap_ext. intros i y _. f_equal. lia.
  - rewrite <- (take_drop pos data) in Hb. apply bytes_at_app in Hb as [_ Hb]. rewrite length_take_le in Hb by done.
    rewrite <- (take_drop (Z.to_nat c) (drop pos data)) in Hb. by apply bytes_at_app in Hb as [Hb _].
Qed.

Lemma read_all_spec s x data c i : tarfs_inode s !! i = Some x -> t_file_len x = Z.of_nat (length data) ->
  bytes_at (archive s) (t_i_data x) data -> 1 <= c -> Z.of_nat (length data) + c < 2 ^ 31 -> forall fuel pos, (pos <= length data)%nat -> (length data - pos < fuel)%nat ->
  read_all fuel (mkTfile i (Z.of_nat pos)) c s = Done (drop pos data) s.
Proof.
  intros Hx Hl Hb Hc Hc' fuel. induction fuel as [|fuel IH]; intros pos Hp Hf; [lia|]. cbn [read_all].
  set (chunk := take (Z.to_nat c) (drop pos data)).
  pose proof (tarfs_read_spec s (mkTfile i (Z.of_nat pos)) x data c Hx Hl Hb Hc Hc' pos eq_refl Hp) as E. fold chunk in E. destruct (decide (pos = length data)) as [->|Hne].
  - erewrite bind_eq; [|exact E]. by rewrite drop_all.
  - assert (length chunk = Z.to_nat c `min` (length data - pos))%nat as Hlen by (unfold chunk; by rewrite length_take, length_drop).
    erewrite bind_eq; [|exact E]. cbv beta iota zeta. rewrite (proj2 (Z.eqb_neq _ _)) by lia. cbn [tf_inode].
    erewrite bind_eq; [|apply IH; lia]. unfold mret, M_ret. f_equal. rewrite Nat2Z.id, take_app_length.
    rewrite <- (take_drop (Z.to_nat c) (drop pos data)). f_equal. rewrite drop_drop.
    destruct (decide (Z.to_nat c <= length data - pos)%nat); [f_equal; lia|]. by rewrite !drop_ge by lia.
Qed.

(** After [tarfs_init] on an archive with members of different names, opening a
    member by its absolute name and reading it to the end, any number of bytes at
    a time, gives back the contents the member has in the archive. *)
Theorem tarfs_reads_back A start len fuel s i name data count :
  archive_at (archive s) start (start + len) A -> (length A < TAR_COUNT)%nat -> (length A < fuel)%nat ->
  NoDup (entry_names A) -> A !! i = Some (name, data) -> (length data < fuel)%nat -> 1 <= count -> Z.of_nat (length data) + count < 2 ^ 31 ->
  exists s', tarfs_init fuel start len s = Done () s' /\ cat_file fuel (tar_name name) count s' = Done (Some data) s'.
Proof.
  intros Ha Hmax Hf Hnd Hi Hfd Hc Hc'. destruct (init_holds A start len fuel s Ha Hmax Hf) as (s' & E & H). exists s'. split; [exact E|].
  destruct (h_data _ _ H i name data Hi) as (x & Hx & Hl & _ & Hb). unfold cat_file, tarfs_open, get_file_index.
  assert (entry_names A !! S i = Some (tar_name name)) as Hname
    by (change ((tar_name <$> A.*1) !! i = Some (tar_name name)); by rewrite !list_lookup_fmap, Hi).
  erewrite bind_eq; [|erewrite bind_eq; [|apply get_eq]; rewrite (index_of_name _ _ _ _ (h_names _ _ H) Hnd Hname);
    rewrite (proj2 (Nat.ltb_lt _ _)) by (destruct (Forall_lookup_1 _ _ _ _ (h_short _ _ H) Hname); cbv beta in *; lia); reflexivity].
  cbv beta iota. erewrite bind_eq; [|by apply (read_all_spec s' x data count (S i) Hx Hl Hb Hc Hc' fuel 0%nat); lia]. done.
Qed.

(** *** Listing a directory *)
Lemma child_names A s q path : holds A s -> NoDup (entry_names A) -> entry_names A !! q = Some path ->
  (forall i n, entry_names A !! S i = Some n -> parent_dir n = path -> (q <= i)%nat) ->
  forall i n, entry_names A !! S i = Some n -> child_of (tarfs_entry s) q (S i) = bool_decide (parent_dir n = path).
Proof.
  intros H Hnd Hq Hord i n Hi. pose proof (h_names _ _ H) as Hnames. rewrite <- Hnames, list_lookup_fmap in Hi. unfold child_of.
  destruct (tarfs_entry s !! S i) as [e|] eqn:He; [|done]. injection Hi as Hn. destruct (h_tree _ _ H _ e He) as (_ & -> & _). cbn [Nat.eqb].
  apply bool_decide_ext. rewrite Hn. unfold first_with. pose proof (lookup_lt_Some _ _ _ He). split.
  - intros Hf. apply index_of_Some in Hf as (Hlt & e' & He' & Hb). rewrite Nat.sub_0_r in He'. rewrite lookup_take_lt in He' by (rewrite length_take in Hlt; lia).
    apply bool_decide_eq_true in Hb. rewrite <- Hnames, list_lookup_fmap, He' in Hq. cbn in Hq. congruence.
  - intros Hp. assert (q <= i)%nat by (apply (Hord i n); [|done]; by rewrite <- Hnames, list_lookup_fmap, He, <- Hn).
    rewrite Hp. eapply index_of_name; [done| |].
    + rewrite fmap_take, Hnames. eapply sublist_NoDup; [done|]. apply sublist_take.
    + rewrite fmap_take, Hnames. rewrite lookup_take_lt by lia. done.
Qed.

Lemma filter_seq {B} (nm : nat -> B) (P : nat -> bool) (Q : B -> bool) (l : list B) : forall k,
  (forall i x, l !! i = Some x -> nm (k + i)%nat = x /\ P (k + i)%nat = Q x) ->
  nm <$> filter (fun i => P i = true) (seq k (length l)) = filter (fun x => Q x = true) l.
Proof.
  induction l as [|x l IH]; intros k H; [done|]. cbn [length seq]. destruct (H 0%nat x eq_refl) as [H1 H2]. rewrite Nat.add_0_r in H1, H2.
  assert (forall i y, l !! i = Some y -> nm (S k + i)%nat = y /\ P (S k + i)%nat = Q y) as H'
    by (intros i y Hi; rewrite Nat.add_succ_comm; by apply (H (S i) y)).
  rewrite !filter_cons, H2. destruct (decide (Q x = true)); [rewrite fmap_cons, H1; f_equal|]; by apply IH.
Qed.

Definition name_of (s : tarfs) (i : nat) : list Z := default [] (d_iname <$> tarfs_entry s !! i).
Definition members_of (path : list Z) (A : list (list Z * list Z)) : list (list Z) :=
  filter (fun n => bool_decide (parent_dir n = path) = true) (tar_name <$> A.*1).

Lemma children_names A s q path : holds A s -> NoDup (entry_names A) -> entry_names A !! q = Some path ->
  (forall i n, entry_names A !! S i = Some n -> parent_dir n = path -> (q <= i)%nat) ->
  name_of s <$> children (tarfs_entry s) q = members_of path A.
Proof.
  intros H Hnd Hq Hord. pose proof (h_names _ _ H) as Hnames. unfold children.
  replace (length (tarfs_entry s)) with (S (length (tar_name <$> A.*1)))
    by (rewrite <- (length_fmap d_iname (tarfs_entry s)), Hnames; done).
  cbn [seq]. rewrite filter_cons, decide_False.
  - apply filter_seq. intros i n Hi. change (entry_names A !! S i = Some n) in Hi. split; [|by eapply child_names].
    rewrite <- Hnames, list_lookup_fmap in Hi. unfold name_of. cbn [Nat.add]. by rewrite Hi.
  - unfold child_of. destruct (tarfs_entry s !! 0%nat) as [e|] eqn:He; [|done]. destruct (h_tree _ _ H _ e He) as (_ & -> & _). done.
Qed.

Lemma ls_loop_spec s q e : tarfs_entry s !! q = Some e -> (length (d_subdirs e) < 30)%nat ->
  Forall (fun i => is_Some (tarfs_entry s !! i)) (d_subdirs e) ->
  forall fuel o, (o <= length (d_subdirs e))%nat -> (length (d_subdirs e) - o < fuel)%nat ->
  ls_loop fuel (mkReader q o) s = Done (name_of s <$> drop o (d_subdirs e)) s.
Proof.
  intros He Hlen Hall fuel. induction fuel as [|fuel IH]; intros o Ho Hf; [lia|]. cbn [ls_loop].
  destruct (d_subdirs e !! o) as [i|] eqn:Hi.
  - erewrite bind_eq; [|unfold read_tarfs_dir; erewrite bind_eq; [|apply get_eq]; erewrite bind_eq; [|by apply deref_eq];
      cbn [r_offset]; rewrite (proj2 (Nat.leb_gt 30 o)) by lia; rewrite Hi; reflexivity].
    cbv beta iota. pose proof (lookup_lt_Some _ _ _ Hi). pose proof (Forall_lookup_1 _ _ _ _ Hall Hi) as [e' He'].
    erewrite bind_eq; [|apply get_eq]. erewrite bind_eq; [|by apply deref_eq]. cbn [r_dentry]. erewrite bind_eq; [|apply IH; lia].
    rewrite (drop_S _ _ _ Hi), fmap_cons. unfold name_of at 2. by rewrite He'.
  - erewrite bind_eq; [|unfold read_tarfs_dir; erewrite bind_eq; [|apply get_eq]; erewrite bind_eq; [|by apply deref_eq];
      cbn [r_offset]; rewrite (proj2 (Nat.leb_gt 30 o)) by lia; rewrite Hi; reflexivity].
    cbv beta iota. apply lookup_ge_None in Hi. by rewrite drop_ge.
Qed.

Lemma dir_entry A s q path : holds A s -> NoDup (entry_names A) -> entry_names A !! q = Some path ->
  (forall i n, entry_names A !! S i = Some n -> parent_dir n = path -> (q <= i)%nat) -> (length (members_of path A) < 30)%nat ->
  exists e, tarfs_entry s !! q = Some e /\ (length (d_subdirs e) < 30)%nat
    /\ Forall (fun i => is_Some (tarfs_entry s !! i)) (d_subdirs e) /\ name_of s <$> d_subdirs e = members_of path A.
Proof.
  intros H Hnd Hq Hord Hlen. pose proof (children_names A s q path H Hnd Hq Hord) as Hc. pose proof (h_names _ _ H) as Hnames.
  rewrite <- Hc, length_fmap in Hlen. pose proof Hq as Hq'. rewrite <- Hnames, list_lookup_fmap in Hq'.
  destruct (tarfs_entry s !! q) as [e|] eqn:He; [|done]. destruct (h_tree _ _ H _ e He) as (_ & _ & Hs). rewrite take_ge in Hs by lia.
  exists e. rewrite Hs. split_and!; [done|done| |done].
  apply Forall_forall. intros i Hi. unfold children in Hi. apply list_elem_of_filter in Hi as [_ Hi]. apply elem_of_seq in Hi. apply lookup_lt_is_Some_2. lia.
Qed.

Lemma ls_holds A s q path : holds A s -> NoDup (entry_names A) -> entry_names A !! q = Some path ->
  (forall i n, entry_names A !! S i = Some n -> parent_dir n = path -> (q <= i)%nat) -> (length (members_of path A) < 30)%nat ->
  ls_tarfs path s = Done (members_of path A) s.
Proof.
  intros H Hnd Hq Hord Hlen. destruct (dir_entry A s q path H Hnd Hq Hord Hlen) as (e & He & Hl & Hall & Hn).
  unfold ls_tarfs, open_tarfs_dir. erewrite bind_eq; [|erewrite bind_eq; [|apply get_eq]; unfold get_file_index;
    rewrite (index_of_name _ _ _ _ (h_names _ _ H) Hnd Hq); reflexivity]. erewrite bind_eq; [|by apply deref_eq].
  rewrite <- Hn. apply (ls_loop_spec s q e He Hl Hall); lia.
Qed.

(** After [tarfs_init], listing a directory that comes before its members in the
    archive and has fewer than 30 of them prints their names, in the order of the
    archive, and nothing else. *)
Theorem ls_tarfs_correct A start len fuel s q path :
  archive_at (archive s) start (start + len) A -> (length A < TAR_COUNT)%nat -> (length A < fuel)%nat ->
  NoDup (entry_names A) -> entry_names A !! q = Some path ->
  (forall i n, entry_names A !! S i = Some n -> parent_dir n = path -> (q <= i)%nat) -> (length (members_of path A) < 30)%nat ->
  exists s', tarfs_init fuel start len s = Done () s' /\ ls_tarfs path s' = Done (members_of path A) s'.
Proof.
  intros Ha Hmax Hf Hnd Hq Hord Hlen. destruct (init_holds A start len fuel s Ha Hmax Hf) as (s' & E & H).
  exists s'. split; [done|]. by apply (ls_holds A s' q).
Qed.

(** ** An archive of a directory and a file *)
Definition write_all (a : Z) (l : list Z) (m : memory) : memory :=
  fun x => match (if x <? a then None else l !! Z.to_nat (x - a)) with Some c => c | None => m x end.
Definition two_members : list (list Z * list Z) := [([100; 47], []); ([100; 47; 97], [104; 105; 33])].
Definition two_image : memory :=
  write_all 0 [100; 47; 0] (write_all 124 [48; 0] (write_all 512 [100; 47; 97; 0] (write_all 636 [51; 0] (write_all 1024 [104; 105; 33] (fun _ => 0))))).
Definition two_state : tarfs := mkTarfs two_image [] [] [].

Lemma two_archive : archive_at two_image 0 (0 + 10240) two_members.
Proof.
  cbn [archive_at two_members length]. split_and!; try done; try lia; try (by split; [|repeat constructor]); try (by right).
  - exists [48]. split_and!; try done; [by split; [|repeat constructor]|unfold EXTENT; cbn; lia|by repeat constructor].
  - exists [51]. split_and!; try done; [by split; [|repeat constructor]|unfold EXTENT; cbn; lia|by repeat constructor].
Qed.
Lemma two_names : NoDup (entry_names two_members).
Proof. by apply (bool_decide_unpack _). Qed.

Lemma tarfs_init_correct_witness : archive_at two_image 0 (0 + 10240) two_members /\
  exists s', tarfs_init 10 0 10240 two_state = Done () s' /\ holds two_members s'.
Proof. split; [exact two_archive|]. apply (tarfs_init_correct two_members); [exact two_archive|cbn; unfold TAR_COUNT; lia|cbn; lia]. Defined.
Lemma tarfs_reads_back_witness : exists s', tarfs_init 10 0 10240 two_state = Done () s'
  /\ cat_file 10 [47; 100; 47; 97] 2 s' = Done (Some [104; 105; 33]) s'.
Proof.
  apply (tarfs_reads_back two_members 0 10240 10 two_state 1 [100; 47; 97]);
    [exact two_archive|cbn; unfold TAR_COUNT; lia|cbn; lia|exact two_names|reflexivity|cbn; lia|lia|cbn; lia].
Defined.
Lemma ls_tarfs_correct_witness : exists s', tarfs_init 10 0 10240 two_state = Done () s' /\ ls_tarfs [47; 100] s' = Done [[47; 100; 47; 97]] s'.
Proof.
  apply (ls_tarfs_correct two_members 0 10240 10 two_state 1 [47; 100]);
    [exact two_archive|cbn; unfold TAR_COUNT; lia|cbn; lia|exact two_names|reflexivity| |vm_compute; lia].
  intros [|[|i]] n Hi Hp; cbn in Hi; [|lia|done]. injection Hi as <-. vm_compute in Hp. done.
Defined.

(** ** Limits *)
(** A directory with 30 members is full; a listing runs past the end of its list. *)
Definition full_directory : tarfs := mkTarfs (fun _ => 0) (tree_of ((fun i => [SLASH; Z.of_nat i + 65]) <$> seq 0 30)) [] [].
Example full_listing_faults : ls_tarfs [SLASH] full_directory = Faulted.
Proof. vm_compute. reflexivity. Qed.
(** The next member is in the table but in no list. *)
Example member_31_lost : let es := add_member (tarfs_entry full_directory) [SLASH; 98] in
  (d_parent <$> es !! 31%nat, d_subdirs <$> es !! 0%nat) = (Some (Some 0%nat), Some (seq 1 30)).
Proof. vm_compute. reflexivity. Qed.
(** A member before its directory has no parent. *)
Example orphan : d_parent <$> (tree_of [[47; 100; 47; 97]; [47; 100]] !! 1%nat) = Some None.
Proof. reflexivity. Qed.
