(* ===== verification/SataDir.v ===== *)
(** Names and directories of the disk file system: the rest of [bin/fs/fs.c].

    A [struct dentry] is a function from offsets to bytes, as in [SataFs]; a name
    that a caller passes is the list of its characters.  [junk] is what fresh
    memory of [malloc] holds; accesses outside of an object are [Faulted].  The
    messages that are printed, and [common_buf] itself being mapped, are left out;
    [checkAllBuses] and [probe_port] only find the disk. *)
From S2P Require Import Prelude CString SataFs Tarfs.

Definition O_CREAT : Z := 0x40.
Definition TOTAL_BLOCK_COUNT : nat := 44.

(** ** [struct dentry] of [include/vfs.h] *)
Definition D_INAME : Z := 256.
Definition d_subdir (b : memory) (k : Z) : Z := get_le 8 b (16 + 8 * k).
Definition set_d_subdir (b : memory) (k v : Z) : memory := put_le 8 b (16 + 8 * k) v.
Definition dentry_id (b : memory) : Z := i32 (get_le 4 b 288).
Definition set_d_parent (b : memory) (v : Z) : memory := put_le 8 b 8 v.
Definition set_dentry_id (b : memory) (v : Z) : memory := put_le 4 b 288 v.
Definition set_d_inode (b : memory) (v : Z) : memory := put_le 8 b 296 v.

(** [strcmp] of the bytes from [off] on with a name: whether it is 0. *)
Fixpoint same_name (b : memory) (off : Z) (name : list Z) : option bool :=
  if sizeof_dentry <=? off then None
  else match name with
       | [] => Some (b off =? 0)
       | c :: name => if b off =? c then same_name b (off + 1) name else Some false
       end.
(** [strcpy] to [d_iname], 30 bytes. *)
Fixpoint put_name (b : memory) (off : Z) (name : list Z) : memory :=
  match name with [] => upd b off 0 | c :: name => put_name (upd b off c) (off + 1) name end.
Definition set_iname (b : memory) (name : list Z) : M fsys memory :=
  if (length name <? 30)%nat then mret (put_name b D_INAME name) else fault.

(** ** Searching *)
(** The first used entry of [bitmap] from [i] on that has the name. *)
Fixpoint search (visit : Z -> M fsys memory) (n : nat) (bitmap : memory) (i : Z) (name : list Z) : M fsys (option (Z * memory)) :=
  match n with
  | O => mret None
  | S n =>
      if bitmap i =? 0 then search visit n bitmap (i + 1) name
      else
        d ← visit i;
        same ← deref (same_name d D_INAME name);
        if (same : bool) then mret (Some (i, d)) else search visit n bitmap (i + 1) name
  end.

(** [parent_dir] is an array of 200. *)
Definition sata_get_parent (cur_dentry_name : list Z) : M fsys Z :=
  if (200 <=? length (parent_dir cur_dentry_name))%nat then fault
  else
    inode_bitmap ← read_inode_bitmap;
    o ← search get_dentry 512 inode_bitmap 0 (parent_dir cur_dentry_name);
    mret (match o with Some (_, d) => dentry_id d | None => -1 end).

(** ** Creating *)
Fixpoint clear_subdirs (n : nat) (b : memory) (i : Z) : memory :=
  match n with O => b | S n => clear_subdirs n (set_d_subdir b i 0) (i + 1) end.
(** One structure is allocated; that of an odd number is behind its end. *)
Definition build_dentry (junk : memory) (inode_id dentry_id d_parent : Z) (d_iname : list Z) : M fsys () :=
  set_dentry_bitmap dentry_id;;
  read_sata (DENTRY_START_INDEX + Z.quot dentry_id 2);;
  if negb (Z.rem dentry_id 2 =? 0) then fault
  else
    b ← set_iname (clear_subdirs 24 (set_d_parent junk (u64 d_parent)) 0) d_iname;
    write_dentry dentry_id (set_dentry_id (set_d_inode b inode_id) dentry_id).

(** The first of the [n] children from the [i]-th on that is not used. *)
Fixpoint add_child (n : nat) (b : memory) (i inode_id : Z) : memory :=
  match n with O => b | S n => if d_subdir b i =? 0 then set_d_subdir b i inode_id else add_child n b (i + 1) inode_id end.

Definition sata_open (junk : memory) (pathname : list Z) (flags : Z) : M fsys (option file) :=
  if (200 <=? length pathname)%nat then fault
  else
    inode_bitmap ← read_inode_bitmap;
    o ← search (fun i => get_inode i;; get_dentry i) 512 inode_bitmap 0 pathname;
    match o with
    | Some (i, _) => mret (Some (mkFile i 0))
    | None =>
        if flags =? O_CREAT then
          parent_dentry_id ← sata_get_parent pathname;
          if parent_dentry_id =? -1 then mret None
          else
            inode_id ← get_free_inode;
            dentry_id ← get_free_dentry;
            if (inode_id =? -1) || (dentry_id =? -1) then mret None
            else
              build_inode inode_id flags;;
              build_dentry junk inode_id dentry_id parent_dentry_id pathname;;
              parent_dentry ← get_dentry parent_dentry_id;
              write_dentry parent_dentry_id (add_child 24 parent_dentry 0 inode_id);;
              mret (Some (mkFile inode_id 0))
        else mret None
    end.

(** ** Directories *)
Record sreader := mkSreader { sr_dentry : Z; sr_offset : Z }.
Definition open_sata_dir (path : list Z) : M fsys (option sreader) :=
  dentry_bitmap ← read_dentry_bitmap;
  o ← search get_dentry 512 dentry_bitmap 0 path;
  mret (match o with Some (i, _) => Some (mkSreader i 0) | None => None end).
Definition read_sata_dir (r : sreader) : M fsys (option memory * sreader) :=
  cur_dentry ← get_dentry (sr_dentry r);
  if (sr_offset r <? 0) || (30 <=? sr_offset r) then fault
  else if d_subdir cur_dentry (sr_offset r) =? 0 then mret (None, r)
  else
    d ← get_dentry (i32 (d_subdir cur_dentry (sr_offset r)));
    mret (Some d, mkSreader (sr_dentry r) (sr_offset r + 1)).
Fixpoint ls_sata_loop (fuel : nat) (r : sreader) : M fsys (list memory) :=
  match fuel with
  | O => fault
  | S fuel =>
      '(o, r) ← read_sata_dir r;
      match o with None => mret [] | Some d => l ← ls_sata_loop fuel r; mret (d :: l) end
  end.
Definition ls_sata_fs (path : list Z) : M fsys (list memory) :=
  o ← open_sata_dir path; r ← deref o; ls_sata_loop 31 r.

(** The directory above both file systems; the entries are fresh structures. *)
Definition open_root_dir : sreader := mkSreader 0x123456 0.
Definition read_root_dir (junk : memory) (r : sreader) : option memory * sreader :=
  if sr_offset r =? 2 then (None, r)
  else
    let d := if sr_offset r =? 0 then put_name junk D_INAME (chars "/tarfs")
             else if sr_offset r =? 1 then put_name junk D_INAME (chars "/sata") else junk in
    (Some d, mkSreader (sr_dentry r) (sr_offset r + 1)).

(** ** Formatting *)
Fixpoint clear_disk (n : nat) (i : Z) : M fsys () :=
  match n with O => mret () | S n => write_sata i;; clear_disk n (i + 1) end.
Definition init_fs (junk : memory) : M fsys () :=
  modify (fun s => mkFs (disk s) (fun x => if (0 <=? x) && (x <? 4096) then 0 else common_buf s x));;
  clear_disk TOTAL_BLOCK_COUNT 0;;
  build_inode 0 0;;
  build_dentry junk 0 0 (-1) (chars "/").

(** ** Strings *)
Lemma put_name_out name : forall b off x, ~ off <= x <= off + Z.of_nat (length name) -> put_name b off name x = b x.
Proof.
  induction name as [|c name IH]; intros b off x Hx; cbn [put_name length] in *; [|rewrite IH by lia]; unfold upd; by rewrite (proj2 (Z.eqb_neq _ _)) by lia.
Qed.
Lemma put_name_at name : forall b off, Forall (fun c => 0 < c < 256) name -> string_at (put_name b off name) off name.
Proof.
  induction name as [|c name IH]; intros b off Hz; cbn [put_name].
  - split; [|done]. split; [|done]. unfold upd. by rewrite Z.eqb_refl.
  - apply Forall_cons in Hz as [Hc Hz]. apply string_at_cons. split_and!; [|lia|lia|by apply IH].
    rewrite put_name_out by lia. unfold upd. by rewrite Z.eqb_refl.
Qed.
