(* ===== verification/SataDirProofs.v ===== *)
(** The disk after formatting: an empty root directory, and nothing else. *)
From S2P Require Import Prelude CString SataFs Tarfs SataDir.

(** ** Names *)
Lemma same_name_ext b b' name : forall off, (forall x, off <= x < sizeof_dentry -> b x = b' x) -> same_name b off name = same_name b' off name.
Proof.
  induction name as [|c name IH]; intros off H; cbn [same_name]; destruct (Z.leb_spec sizeof_dentry off); try done; rewrite (H off) by lia; [done|].
  destruct (b' off =? c); [|done]. apply IH. intros x Hx. apply H. lia.
Qed.
(** Comparing a stored name with another one. *)
Lemma same_name_spec b l : forall off name, string_at b off l -> Forall (fun c => 0 < c < 256) name -> off + Z.of_nat (length l) < sizeof_dentry ->
  same_name b off name = Some (bool_decide (l = name)).
Proof.
  induction l as [|c l IH]; intros off name Hs Hz Hlen; cbn [length] in Hlen.
  - destruct Hs as [[H0 _] _]. destruct name as [|d name]; cbn [same_name]; rewrite (proj2 (Z.leb_gt sizeof_dentry off)) by lia; rewrite H0; [done|].
    apply Forall_cons in Hz as [Hd _]. by rewrite (proj2 (Z.eqb_neq 0 d)) by lia.
  - apply string_at_cons in Hs as (Hc & Hb & Hs). destruct name as [|d name]; cbn [same_name]; rewrite (proj2 (Z.leb_gt sizeof_dentry off)) by lia; rewrite Hc.
    + by rewrite (proj2 (Z.eqb_neq c 0)) by lia.
    + apply Forall_cons in Hz as [Hd Hz]. destruct (Z.eqb_spec c d) as [->|Hne].
      * rewrite (IH (off + 1) name Hs Hz) by lia. f_equal. apply bool_decide_ext. naive_solver.
      * f_equal. symmetry. apply bool_decide_eq_false. congruence.
Qed.
Lemma search_none visit n bitmap name s : forall i, (forall j, i <= j < i + Z.of_nat n -> bitmap j = 0) -> search visit n bitmap i name s = Done None s.
Proof.
  induction n as [|n IH]; intros i H; [done|]. cbn [search]. rewrite (H i) by lia. cbn [Z.eqb]. apply IH. intros j Hj. apply H. lia.
Qed.

(** ** Formatting *)
Lemma clear_disk_spec n : forall i s, (forall x, 0 <= x < 512 -> common_buf s x = 0) -> exists s', clear_disk n i s = Done () s'
  /\ common_buf s' = common_buf s
  /\ forall m x, 0 <= x < 512 -> disk s' m x = if bool_decide (i <= m < i + Z.of_nat n) then 0 else disk s m x.
Proof.
  induction n as [|n IH]; intros i s Hz; cbn [clear_disk].
  - exists s. split_and!; [done|done|]. intros m x Hx. by rewrite bool_decide_false by lia.
  - destruct (write_sata_eq i s) as (s1 & E1 & C1 & D1). erewrite bind_eq; [|exact E1].
    destruct (IH (i + 1) s1 ltac:(by rewrite C1)) as (s2 & E2 & C2 & D2). exists s2. split_and!; [done|by rewrite C2|].
    intros m x Hx. rewrite D2, D1 by done. destruct (Z.eqb_spec m i) as [->|Hm].
    + rewrite (bool_decide_true (i <= i < _)) by lia. case_bool_decide; [done|by apply Hz].
    + repeat case_bool_decide; (done || lia).
Qed.

Definition root_bytes (junk : memory) : memory :=
  set_dentry_id (set_d_inode (put_name (clear_subdirs 24 (set_d_parent junk (u64 (-1))) 0) D_INAME (chars "/")) 0) 0.

(** The disk with only the root. *)
Record formatted (junk : memory) (s : fsys) : Prop := {
  f_inodes : forall i, 0 <= i < 512 -> disk s INODE_BITMAP_START_INDEX i = if i =? 0 then 1 else 0;
  f_dentries : forall i, 0 <= i < 512 -> disk s DENTRY_BITMAP_START_INDEX i = if i =? 0 then 1 else 0;
  f_root : forall x, 0 <= x < sizeof_dentry -> disk s DENTRY_START_INDEX x = root_bytes junk x;
}.

Lemma build_inode_0 s : exists s', build_inode 0 0 s = Done () s'
  /\ forall m x, 0 <= x < 512 -> m <> INODE_START_INDEX -> disk s' m x = if (m =? INODE_BITMAP_START_INDEX) && (x =? 0) then 1 else disk s m x.
Proof.
  destruct (set_bitmap_eq INODE_BITMAP_START_INDEX 0 s ltac:(lia)) as (s1 & E1 & D1).
  destruct (read_sata_eq INODE_START_INDEX s1) as (s2 & E2 & D2 & _).
  set (inode := set_flags (clear_i_data 13 (set_block_count (set_file_len (set_inode_id (fun x => common_buf s2 (sizeof_inode * Z.rem 0 4 + x)) 0) 0) 0) 0) 0).
  destruct (buf_write_eq inode (sizeof_inode * Z.rem 0 4) sizeof_inode s2) as (s3 & E3 & D3 & _).
  destruct (write_sata_eq INODE_START_INDEX s3) as (s4 & E4 & _ & D4).
  exists s4. split.
  - unfold build_inode, set_inode_bitmap. erewrite bind_eq; [|exact E1]. cbv zeta. change (INODE_START_INDEX + Z.quot 0 4) with INODE_START_INDEX.
    erewrite bind_eq; [|exact E2]. erewrite bind_eq; [|apply gets_eq]. erewrite bind_eq; [|exact E3]. exact E4.
  - intros m x Hx Hm. rewrite D4, (proj2 (Z.eqb_neq m _)) by done. by rewrite D3, D2, D1.
Qed.
Lemma build_dentry_0 junk s : exists s', build_dentry junk 0 0 (-1) (chars "/") s = Done () s'
  /\ (forall x, 0 <= x < sizeof_dentry -> disk s' DENTRY_START_INDEX x = root_bytes junk x)
  /\ forall m x, 0 <= x < 512 -> m <> DENTRY_START_INDEX -> disk s' m x = if (m =? DENTRY_BITMAP_START_INDEX) && (x =? 0) then 1 else disk s m x.
Proof.
  destruct (set_bitmap_eq DENTRY_BITMAP_START_INDEX 0 s ltac:(lia)) as (s1 & E1 & D1).
  destruct (read_sata_eq DENTRY_START_INDEX s1) as (s2 & E2 & D2 & _).
  destruct (put_struct_eq DENTRY_START_INDEX 2 sizeof_dentry 0 (root_bytes junk) s2) as (s3 & E3 & D3); [lia|lia|by vm_compute|by vm_compute|].
  exists s3. split_and!.
  - unfold build_dentry, set_dentry_bitmap. erewrite bind_eq; [|exact E1]. change (DENTRY_START_INDEX + Z.quot 0 2) with DENTRY_START_INDEX.
    erewrite bind_eq; [|exact E2]. change (negb (Z.rem 0 2 =? 0)) with false. cbv iota. erewrite bind_eq; [|reflexivity]. exact E3.
  - intros x Hx. unfold sizeof_dentry in *. rewrite D3 by lia. change (304 * (0 mod 2)) with 0. rewrite bool_decide_true by lia. by rewrite Z.sub_0_r.
  - intros m x Hx Hm. rewrite D3, D2, D1 by done. change (DENTRY_START_INDEX + 0 / 2) with DENTRY_START_INDEX. by rewrite (proj2 (Z.eqb_neq m DENTRY_START_INDEX)).
Qed.

Lemma init_fs_spec junk s : exists s', init_fs junk s = Done () s' /\ formatted junk s'.
Proof.
  unfold init_fs. erewrite bind_eq; [|apply modify_eq]. set (s0 := mkFs _ _).
  destruct (clear_disk_spec TOTAL_BLOCK_COUNT 0 s0) as (s1 & E1 & _ & D1).
  { intros x Hx. cbn. rewrite (proj2 (Z.leb_le 0 x)), (proj2 (Z.ltb_lt x 4096)) by lia. done. }
  destruct (build_inode_0 s1) as (s2 & E2 & D2). destruct (build_dentry_0 junk s2) as (s3 & E3 & R3 & D3).
  exists s3. split; [erewrite bind_eq; [|exact E1]; erewrite bind_eq; [exact E3|exact E2]|].
  split; [| |done]; intros i Hi; rewrite D3, D2, D1 by done; by destruct (i =? 0).
Qed.

(** ** Looking up on a formatted disk *)
Section formatted.
Context (junk : memory).

Lemma get_dentry_root s : formatted junk s -> exists b s', get_dentry 0 s = Done b s' /\ formatted junk s'
  /\ forall x, 0 <= x < sizeof_dentry -> b x = root_bytes junk x.
Proof.
  intros F. destruct (get_struct_eq DENTRY_START_INDEX 2 sizeof_dentry 0 s) as (b & s' & E & D & B); [lia|lia|]. exists b, s'.
  split; [exact E|]. split; [by destruct F; split; rewrite D|]. intros x Hx. unfold sizeof_dentry in *. change (304 * (0 mod 2)) with 0 in B.
  rewrite (B x) by lia. apply (f_root _ _ F). done.
Qed.
Lemma get_inode_any s i : 0 <= i -> formatted junk s -> exists b s', get_inode i s = Done b s' /\ formatted junk s'.
Proof.
  intros Hi F. destruct (get_struct_eq INODE_START_INDEX 4 sizeof_inode i s) as (b & s' & E & D & _); [done|lia|]. exists b, s'.
  split; [exact E|]. by destruct F; split; rewrite D.
Qed.
Lemma root_name name : Forall (fun c => 0 < c < 256) name -> same_name (root_bytes junk) D_INAME name = Some (bool_decide (chars "/" = name)).
Proof.
  intros Hz. apply same_name_spec; [|done|by vm_compute]. eapply string_at_ext; [|apply put_name_at; by repeat constructor].
  intros x Hx. unfold root_bytes, set_dentry_id, set_d_inode. change (length (chars "/")) with 1%nat in Hx. unfold D_INAME in *. by rewrite !put_le_out by lia.
Qed.
Lemma root_no_child : d_subdir (root_bytes junk) 0 = 0.
Proof.
  unfold d_subdir, root_bytes, set_dentry_id, set_d_inode. change (16 + 8 * 0) with 16. rewrite !get_put_le_ne by lia.
  erewrite get_le_ext; [|intros x Hx; apply put_name_out; change (length (chars "/")) with 1%nat; unfold D_INAME; lia].
  generalize (set_d_parent junk (u64 (-1))). intros b. unfold clear_subdirs, set_d_subdir.
  do 23 (rewrite get_put_le_ne by lia). by rewrite get_put_le.
Qed.

(** Only number 0 is used. *)
Lemma search_root visit n bitmap name s b s' : (n < 512)%nat -> Forall (fun c => 0 < c < 256) name ->
  (forall i, 0 <= i < 512 -> bitmap i = if i =? 0 then 1 else 0) -> visit 0 s = Done b s' -> (forall x, 0 <= x < sizeof_dentry -> b x = root_bytes junk x) ->
  search visit (S n) bitmap 0 name s = Done (if bool_decide (chars "/" = name) then Some (0, b) else None) s'.
Proof.
  intros Hn Hz Hbm Hv Hb. cbn [search]. rewrite (Hbm 0) by lia. cbn [Z.eqb]. erewrite bind_eq; [|exact Hv].
  erewrite bind_eq; [|apply deref_eq; erewrite same_name_ext; [by apply root_name|intros x Hx; apply Hb; unfold D_INAME in *; lia]].
  case_bool_decide; [done|]. apply search_none. intros j Hj. rewrite Hbm by lia. by rewrite (proj2 (Z.eqb_neq j 0)) by lia.
Qed.
Lemma read_bitmap_root sector s : formatted junk s -> sector = INODE_BITMAP_START_INDEX \/ sector = DENTRY_BITMAP_START_INDEX ->
  exists bm s', read_bitmap sector s = Done bm s' /\ formatted junk s' /\ forall i, 0 <= i < 512 -> bm i = if i =? 0 then 1 else 0.
Proof.
  intros F Hs. destruct (read_bitmap_eq sector s) as (bm & s' & E & D & B). exists bm, s'. split; [done|].
  split; [by destruct F; split; rewrite D|]. intros i Hi. rewrite B by done. destruct Hs as [-> | ->]; [by apply (f_inodes _ _ F)|by apply (f_dentries _ _ F)].
Qed.

Lemma sata_open_root s path flags fresh : formatted junk s -> (length path < 200)%nat -> Forall (fun c => 0 < c < 256) path -> flags <> O_CREAT ->
  exists s', sata_open fresh path flags s = Done (if bool_decide (chars "/" = path) then Some (mkFile 0 0) else None) s' /\ formatted junk s'.
Proof.
  intros F Hlen Hz Hf. destruct (read_bitmap_root INODE_BITMAP_START_INDEX s F ltac:(by left)) as (bm & s1 & E1 & F1 & B1).
  destruct (get_inode_any s1 0 ltac:(lia) F1) as (x & s2 & E2 & F2). destruct (get_dentry_root s2 F2) as (b & s3 & E3 & F3 & B3). exists s3. split; [|done].
  unfold sata_open. rewrite (proj2 (Nat.leb_gt 200 _)) by done. erewrite bind_eq; [|exact E1].
  erewrite bind_eq; [|eapply (search_root _ 511 bm path s1 b s3 ltac:(lia) Hz B1); [erewrite bind_eq; [exact E3|exact E2]|done]].
  case_bool_decide; [done|]. by rewrite (proj2 (Z.eqb_neq flags _)).
Qed.
Lemma open_sata_dir_root s path : formatted junk s -> Forall (fun c => 0 < c < 256) path ->
  exists s', open_sata_dir path s = Done (if bool_decide (chars "/" = path) then Some (mkSreader 0 0) else None) s' /\ formatted junk s'.
Proof.
  intros F Hz. destruct (read_bitmap_root DENTRY_BITMAP_START_INDEX s F ltac:(by right)) as (bm & s1 & E1 & F1 & B1).
  destruct (get_dentry_root s1 F1) as (b & s2 & E2 & F2 & B2). exists s2. split; [|done].
  unfold open_sata_dir. erewrite bind_eq; [|exact E1]. erewrite bind_eq; [|by apply (search_root _ 511 bm path s1 b s2 ltac:(lia) Hz B1)]. by case_bool_decide.
Qed.
Lemma ls_sata_root s : formatted junk s -> exists s', ls_sata_fs (chars "/") s = Done [] s'.
Proof.
  intros F. destruct (open_sata_dir_root s (chars "/") F ltac:(by repeat constructor)) as (s1 & E1 & F1).
  destruct (get_dentry_root s1 F1) as (b & s2 & E2 & F2 & B2). exists s2. unfold ls_sata_fs. erewrite bind_eq; [|exact E1].
  erewrite bind_eq; [|by apply deref_eq]. cbn [ls_sata_loop].
  assert (d_subdir b 0 = 0) as Hd.
  { etrans; [|apply root_no_child]. unfold d_subdir. apply get_le_ext. intros x Hx. apply B2. unfold sizeof_dentry. lia. }
  erewrite bind_eq; [|unfold read_sata_dir; erewrite bind_eq; [|exact E2]; cbn [sr_offset]; change ((0 <? 0) || (30 <=? 0)) with false; cbv iota;
    rewrite Hd; reflexivity].
  done.
Qed.
End formatted.

(** [init_fs] makes, from any disk, a file system with an empty root: the root
    can be opened as a file and as a directory, its listing is empty, and no other
    path can be opened unless it is to be created. *)
Theorem init_fs_correct junk s : exists s', init_fs junk s = Done () s'
  /\ (forall path flags fresh, (length path < 200)%nat -> Forall (fun c => 0 < c < 256) path -> flags <> O_CREAT ->
        exists s2, sata_open fresh path flags s' = Done (if bool_decide (chars "/" = path) then Some (mkFile 0 0) else None) s2)
  /\ (forall path, Forall (fun c => 0 < c < 256) path ->
        exists s2, open_sata_dir path s' = Done (if bool_decide (chars "/" = path) then Some (mkSreader 0 0) else None) s2)
  /\ exists s2, ls_sata_fs (chars "/") s' = Done [] s2.
Proof.
  destruct (init_fs_spec junk s) as (s' & E & F). exists s'. split_and!; [done|..].
  - intros path flags fresh Hl Hz Hf. destruct (sata_open_root junk s' path flags fresh F Hl Hz Hf) as (s2 & E2 & _). by exists s2.
  - intros path Hz. destruct (open_sata_dir_root junk s' path F Hz) as (s2 & E2 & _). by exists s2.
  - by apply (ls_sata_root junk).
Qed.

(** The first file that is created has the number 1: its entry is written behind the
    structure that was allocated for it. *)
Example create_faults : (init_fs (fun _ => 0);; sata_open (fun _ => 0) (chars "/a") O_CREAT) (mkFs (fun _ _ => 0) (fun _ => 0)) = Faulted.
Proof. vm_compute. reflexivity. Qed.
