(* ===== verification/Vfs.v ===== *)
(** The file server, [bin/fs/vfs.c]: both file systems behind one port.

    An open file or directory is an element of [objs], a pointer to it its number
    counted from 1; [malloc] is taken to succeed.  [handle_to_fd] is the table of
    512 such pointers, [all_fds] the list of the connections, the latest first.  A
    message is the list of its bytes; a response is an object of [a_size] bytes of
    which the first [a_len] are sent.  [junk] is what fresh memory holds, [addr]
    where the tables of the tar file system lie.  NULL pointers, accesses outside
    an object, and using a directory as a file are [Faulted]. *)
From S2P Require Import Prelude CString Ioreq SataFs Tarfs SataDir.

Inductive vobj := TarFile (f : tfile) | SataFile (f : file) | TarDir (r : reader) | SataReader (r : sreader) | RootDir (r : sreader).
Inductive action := Answer (cookie a_len a_size : Z) (a_obj : memory) | Close (fd : Z).
Record server := mkServer {
  tar : tarfs;
  sata : fsys;
  objs : list vobj;
  handle_to_fd : list Z;
  all_fds : list Z;
  sent : list action;
}.
Definition set_tar (t : tarfs) (s : server) : server := mkServer t (sata s) (objs s) (handle_to_fd s) (all_fds s) (sent s).
Definition set_sata (d : fsys) (s : server) : server := mkServer (tar s) d (objs s) (handle_to_fd s) (all_fds s) (sent s).
Definition set_objs (o : list vobj) (s : server) : server := mkServer (tar s) (sata s) o (handle_to_fd s) (all_fds s) (sent s).
Definition set_handles (h : list Z) (s : server) : server := mkServer (tar s) (sata s) (objs s) h (all_fds s) (sent s).
Definition set_fds (l : list Z) (s : server) : server := mkServer (tar s) (sata s) (objs s) (handle_to_fd s) l (sent s).
Definition set_sent (l : list action) (s : server) : server := mkServer (tar s) (sata s) (objs s) (handle_to_fd s) (all_fds s) l.
Definition send (a : action) : M server () := modify (fun s => set_sent (sent s ++ [a]) s).

Definition on_tar {A} (m : M tarfs A) : M server A := fun s =>
  match m (tar s) with Done a t => Done a (set_tar t s) | Panicked msg => Panicked msg | Faulted => Faulted end.
Definition on_sata {A} (m : M fsys A) : M server A := fun s =>
  match m (sata s) with Done a t => Done a (set_sata t s) | Panicked msg => Panicked msg | Faulted => Faulted end.

(** ** Paths *)
Definition root : list Z := chars "/".
Definition tarfs_path : list Z := chars "/tarfs".
Definition sata_path : list Z := chars "/sata".
(** [strncmp] with a name of that length is 0. *)
Definition has_prefix (p str : list Z) : bool := bool_decide (take (length p) str = p).
Definition get_fs_index (str : list Z) : Z :=
  if has_prefix tarfs_path str then 0 else if has_prefix sata_path str then 1 else if bool_decide (str = root) then 2 else -1.
Definition str_shift (str : list Z) (pos : nat) : list Z := drop pos str.
Definition parse_path (pathname : list Z) : list Z :=
  let pathname := if has_prefix tarfs_path pathname then str_shift pathname 6
                  else if has_prefix sata_path pathname then str_shift pathname 5 else pathname in
  if (length pathname =? 0)%nat then root else pathname.

(** ** Objects *)
Definition new_obj (o : vobj) : M server Z :=
  s ← get; put (set_objs (objs s ++ [o]) s);; mret (Z.of_nat (length (objs s)) + 1).
Definition obj_at (p : Z) : M server vobj := s ← get; if p <=? 0 then fault else deref (objs s !! Z.to_nat (p - 1)).
Definition set_obj (p : Z) (o : vobj) : M server () := modify (fun s => set_objs (<[Z.to_nat (p - 1) := o]> (objs s)) s).

Section vfs.
Context (junk : memory) (sb_at entry_at inode_at : nat -> Z).

(** The bytes of an entry of the tar file system, [dentry_id] being 0. *)
Fixpoint put_ptrs (b : memory) (off : Z) (l : list nat) : memory :=
  match l with [] => b | i :: l => put_ptrs (put_le 8 b off (entry_at i)) (off + 8) l end.
Definition entry_bytes (e : dentry) : memory :=
  let b := put_le 8 (fun _ => 0) 0 (sb_at 0) in
  let b := put_le 8 b 8 (match d_parent e with Some p => entry_at p | None => 0 end) in
  put_le 8 (put_name (put_ptrs b 16 (d_subdirs e)) D_INAME (d_iname e)) 296 (inode_at (d_inode e)).

Definition my_open (pathname : list Z) (flags : Z) : M server Z :=
  let fs_type := get_fs_index pathname in
  let pathname := parse_path pathname in
  if fs_type =? 0 then fd ← on_tar (tarfs_open pathname); match fd with Some f => new_obj (TarFile f) | None => mret 0 end
  else if fs_type =? 1 then fd ← on_sata (sata_open junk pathname flags); match fd with Some f => new_obj (SataFile f) | None => mret 0 end
  else mret 0.
Definition my_opendir (name : list Z) : M server Z :=
  let fs_type := get_fs_index name in
  let name := parse_path name in
  if fs_type =? 0 then r ← on_tar (open_tarfs_dir name); match r with Some r => new_obj (TarDir r) | None => mret 0 end
  else if fs_type =? 1 then r ← on_sata (open_sata_dir name); match r with Some r => new_obj (SataReader r) | None => mret 0 end
  else if fs_type =? 2 then new_obj (RootDir open_root_dir)
  else mret 0.

(** The result, and [room] bytes of memory after reading into it. *)
Definition my_read (fd_int : Z) (buf : memory) (room count : Z) : M server (Z * memory) :=
  fd ← obj_at fd_int;
  match fd with
  | TarFile f =>
      '(n, f, bytes) ← on_tar (tarfs_read f (i32 count));
      if room <? Z.of_nat (length bytes) then fault
      else set_obj fd_int (TarFile f);; mret (n, fun x => if x <? 0 then buf x else default (buf x) (bytes !! Z.to_nat x))
  | SataFile f =>
      '(n, f, buf) ← on_sata (read_sata_wrapper f buf (i32 count));
      if room <? n then fault else set_obj fd_int (SataFile f);; mret (n, buf)
  | _ => fault
  end.
(** [buf] is the message from its text on. *)
Definition my_write (fd_int : Z) (buf : list Z) (count : Z) : M server Z :=
  fd ← obj_at fd_int;
  match fd with
  | TarFile _ => mret (- EBADF)
  | SataFile f =>
      if Z.of_nat (length buf) <? i32 count then fault
      else '(n, f) ← on_sata (write_sata_wrapper f (fun x => default 0 (buf !! Z.to_nat x)) (i32 count)); set_obj fd_int (SataFile f);; mret n
  | _ => fault
  end.
Definition my_readdir (dentry_reader : Z) : M server (option memory) :=
  r ← obj_at dentry_reader;
  match r with
  | TarDir r =>
      '(o, r) ← on_tar (read_tarfs_dir r);
      set_obj dentry_reader (TarDir r);;
      match o with
      | None => mret None
      | Some i => s ← get; e ← deref (tarfs_entry (tar s) !! i); mret (Some (entry_bytes e))
      end
  | SataReader r => '(o, r) ← on_sata (read_sata_dir r); set_obj dentry_reader (SataReader r);; mret o
  | RootDir r => let '(o, r) := read_root_dir junk r in set_obj dentry_reader (RootDir r);; mret o
  | _ => fault
  end.
Definition vfs_lseek (fd_int offset whence : Z) : M server Z :=
  fd ← obj_at fd_int;
  match fd with
  | TarFile f =>
      s ← get;
      inode ← deref (tarfs_inode (tar s) !! tf_inode f);
      let pos := i32 (if whence =? SEEK_SET then offset else if whence =? SEEK_CUR then tf_pos f + offset
                      else if whence =? SEEK_END then t_file_len inode + offset else tf_pos f) in
      set_obj fd_int (TarFile (mkTfile (tf_inode f) pos));; mret pos
  | SataFile f => '(pos, f) ← on_sata (my_lseek f offset whence); set_obj fd_int (SataFile f);; mret pos
  | _ => fault
  end.

(** ** Requests *)
Record vfs_request := mkVreq { q_cookie : Z; q_buf : option (list Z) }.
Definition table (handle : Z) : M server Z :=
  s ← get; if handle <? 0 then fault else deref (handle_to_fd s !! Z.to_nat handle).
Definition set_table (handle v : Z) : M server () :=
  table handle;; modify (fun s => set_handles (<[Z.to_nat handle := v]> (handle_to_fd s)) s).
Definition close_handle (fd : Z) : M server () :=
  send (Close fd);; set_table fd 0;; modify (fun s => set_fds (filter (fun h => h <> fd) (all_fds s)) s).

(** [struct io_res res] on the stack, with only [err] set. *)
Definition respond_err (cookie err : Z) : M server () := send (Answer cookie sizeof_io_res sizeof_io_res (put_le 4 junk 0 err)).
Definition respond_io (cookie err len : Z) : M server () := send (Answer cookie sizeof_io_res sizeof_io_res (io_res junk err len)).

Definition handle_open (handle cookie : Z) (open : M server Z) : M server () :=
  old ← table handle;
  if negb (old =? 0) then respond_err cookie EINVAL;; close_handle handle
  else
    cur_fd ← open;
    if cur_fd =? 0 then respond_err cookie ENOENT;; close_handle handle
    else respond_err cookie 0;; set_table handle cur_fd.

Definition handle_read (handle cookie len : Z) : M server () :=
  fd_int ← table handle;
  let size := u64 (sizeof_io_res + len + 1) in
  '(ret, buf) ← my_read fd_int (fun x => junk (x + sizeof_io_res)) (size - sizeof_io_res) len;
  let '(rlen, err) := if ret <? 0 then (0, - ret) else (ret, 0) in
  send (Answer cookie (sizeof_io_res + rlen + 1) size
    (io_res (fun x => if x <? sizeof_io_res then junk x else buf (x - sizeof_io_res)) err rlen)).
Definition handle_write (handle cookie len : Z) (text : list Z) : M server () :=
  fd_int ← table handle;
  ret ← my_write fd_int text len;
  if ret <? 0 then respond_io cookie (- ret) 0 else respond_io cookie 0 ret.
Definition handle_readdir (handle cookie : Z) : M server () :=
  fd ← table handle;
  ret ← my_readdir fd;
  let size := sizeof_io_res + sizeof_dentry + 1 in
  let obj := match ret with
             | Some d => io_res (fun x => if (sizeof_io_res <=? x) && (x <? sizeof_io_res + sizeof_dentry) then d (x - sizeof_io_res) else junk x) 0 sizeof_dentry
             | None => io_res junk 0 0
             end in
  send (Answer cookie size size obj).
Definition handle_lseek (handle cookie offset whence : Z) : M server () :=
  fd_int ← table handle; vfs_lseek fd_int offset whence;; respond_io cookie 0 0.

(** A request on a connection. *)
Definition handle_request (handle : Z) (q : vfs_request) : M server () :=
  match q_buf q with
  | None | Some [] => close_handle handle
  | Some msg =>
      type ← deref (field 4 msg 0);
      if type =? IO_OPEN then
        flags ← deref (field 4 msg 4); path ← deref (text_of (drop 16 msg));
        handle_open handle (q_cookie q) (my_open path (i32 flags))
      else if type =? IO_OPENDIR then
        path ← deref (text_of (drop 16 msg)); handle_open handle (q_cookie q) (my_opendir path)
      else if type =? IO_READ then len ← deref (field 8 msg 8); handle_read handle (q_cookie q) len
      else if type =? IO_WRITE then len ← deref (field 8 msg 8); handle_write handle (q_cookie q) len (drop 16 msg)
      else if type =? IO_READDIR then handle_readdir handle (q_cookie q)
      else if type =? IO_LSEEK then
        len ← deref (field 8 msg 8); flags ← deref (field 4 msg 4);
        handle_lseek handle (q_cookie q) (i64 len) (i32 flags)
      else mret ()
  end.

(** [list_for_each_safe(&all_fds, ...)]: [ready] are the requests that wait. *)
Fixpoint serve_each (fds : list Z) (ready : Z -> option vfs_request) : M server () :=
  match fds with
  | [] => mret ()
  | h :: fds => (match ready h with Some q => handle_request h q | None => mret () end);; serve_each fds ready
  end.
(** The body of the main loop; [conn] is the handle of a new connection. *)
Definition serve (conn : option Z) (ready : Z -> option vfs_request) : M server () :=
  (match conn with Some h => modify (fun s => set_fds (h :: all_fds s) s) | None => mret () end);;
  s ← get;
  serve_each (all_fds s) ready.

(** The start of [main]. *)
Definition server_init (fuel : nat) (tarfs_start tarfs_len : Z) : M server () :=
  on_sata (init_fs junk);;
  on_tar (tarfs_init fuel tarfs_start tarfs_len);;
  modify (set_handles (replicate 512 0));;
  modify (set_fds []).
End vfs.
