(* ===== verification/VfsProofs.v ===== *)
(** The file server refines a table of open files and directories: what its
    clients see of the tar file system is the archive. *)
From S2P Require Import Prelude CString Ioreq SataFs Tarfs TarfsProofs SataDir Vfs.

(** ** The abstract server *)
(** What a connection stands for: nothing yet, the contents of a file and a
    position in it, or the names of a directory that are still to be read. *)
Inductive ahandle := Fresh | AFile (data : list Z) (pos : nat) | ADir (names : list (list Z)).
Inductive areq := AOpen (path : list Z) | AOpendir (path : list Z) | ARead (n : Z) | AWrite | AReaddir | ASeek (pos : nat) | AClose.
(** [RData room bytes]: the bytes, in a block with [room] for them. *)
Inductive areply := RStatus (err : Z) | RData (room : Z) (bytes : list Z) | RWrite (err : Z) | RSeek | REntry (name : list Z) | REnd | RClosed.
Record aserver := mkAserver { order : list Z; st : Z -> ahandle }.

(** The tree of an archive. *)
Definition files (A : list (list Z * list Z)) : list (list Z * list Z) := ([SLASH], []) :: ((fun m => (tar_name m.1, m.2)) <$> A).
Definition afile (A : list (list Z * list Z)) (path : list Z) : option (list Z) :=
  if has_prefix tarfs_path path then (fun r => r.2.2) <$> list_find (fun f => f.1 = parse_path path) (files A) else None.
Definition adir (A : list (list Z * list Z)) (path : list Z) : option (list (list Z)) :=
  if has_prefix tarfs_path path then
    if bool_decide (parse_path path ∈ entry_names A) then Some (members_of (parse_path path) A) else None
  else if bool_decide (path = root) then Some [tarfs_path; sata_path] else None.

Definition astep (A : list (list Z * list Z)) (r : areq) (a : ahandle) : option ahandle * list areply :=
  match r, a with
  | AClose, _ => (None, [])
  | AOpen path, Fresh => match afile A path with Some data => (Some (AFile data 0), [RStatus 0]) | None => (None, [RStatus ENOENT]) end
  | AOpendir path, Fresh => match adir A path with Some names => (Some (ADir names), [RStatus 0]) | None => (None, [RStatus ENOENT]) end
  | AOpen _, _ | AOpendir _, _ => (None, [RStatus EINVAL])
  | ARead n, AFile data pos => let chunk := take (Z.to_nat n) (drop pos data) in (Some (AFile data (pos + length chunk)), [RData n chunk])
  | AWrite, AFile data pos => (Some (AFile data pos), [RWrite EBADF])
  | ASeek pos, AFile data _ => (Some (AFile data pos), [RSeek])
  | AReaddir, ADir (name :: names) => (Some (ADir names), [REntry name])
  | AReaddir, ADir [] => (Some (ADir []), [REnd])
  | _, _ => (Some a, [])
  end.
(** Requests that a client may make of what the connection stands for. *)
Definition allowed (r : areq) (a : ahandle) : Prop :=
  match r, a with
  | AOpen path, _ | AOpendir path, _ => (length path < 200)%nat /\ has_prefix sata_path path = false
  | ARead n, AFile data _ => 1 <= n /\ Z.of_nat (length data) + n < 2 ^ 31
  | AWrite, AFile _ _ => True
  | ASeek pos, AFile data _ => (pos <= length data)%nat /\ Z.of_nat (length data) < 2 ^ 31
  | AReaddir, ADir _ => True
  | AClose, _ => True
  | _, _ => False
  end.

Definition with_handle (h : Z) (o : option ahandle) (a : aserver) : aserver :=
  match o with
  | Some x => mkAserver (order a) (fun k => if k =? h then x else st a k)
  | None => mkAserver (filter (fun k => k <> h) (order a)) (fun k => if k =? h then Fresh else st a k)
  end.
Definition closed (o : option ahandle) : list areply := match o with None => [RClosed] | Some _ => [] end.
(** What is sent to whom: the cookie, the connection and the reply. *)
Definition arequest (A : list (list Z * list Z)) (h c : Z) (r : areq) (a : aserver) : aserver * list (Z * Z * areply) :=
  let '(o, l) := astep A r (st a h) in (with_handle h o a, pair (c, h) <$> l ++ closed o).
Fixpoint aserve_each (A : list (list Z * list Z)) (fds : list Z) (ready : Z -> option (Z * areq)) (a : aserver) : aserver * list (Z * Z * areply) :=
  match fds with
  | [] => (a, [])
  | h :: fds =>
      let '(a, l) := match ready h with Some (c, r) => arequest A h c r a | None => (a, []) end in
      let '(a, l') := aserve_each A fds ready a in (a, l ++ l')
  end.
Definition aconnect (conn : option Z) (a : aserver) : aserver :=
  match conn with Some h => mkAserver (h :: order a) (st a) | None => a end.
Definition aserve (A : list (list Z * list Z)) (conn : option Z) (ready : Z -> option (Z * areq)) (a : aserver) : aserver * list (Z * Z * areply) :=
  let a := aconnect conn a in aserve_each A (order a) ready a.

(** ** What stands for what *)
Definition encodes (q : vfs_request) (r : areq) : Prop :=
  match r with
  | AClose => q_buf q = None \/ q_buf q = Some []
  | _ => exists msg, q_buf q = Some msg /\ msg <> [] /\
      match r with
      | AOpen path => field 4 msg 0 = Some IO_OPEN /\ is_Some (field 4 msg 4) /\ text_of (drop 16 msg) = Some path
      | AOpendir path => field 4 msg 0 = Some IO_OPENDIR /\ text_of (drop 16 msg) = Some path
      | ARead n => field 4 msg 0 = Some IO_READ /\ field 8 msg 8 = Some n
      | AWrite => field 4 msg 0 = Some IO_WRITE /\ is_Some (field 8 msg 8)
      | AReaddir => field 4 msg 0 = Some IO_READDIR
      | ASeek pos => field 4 msg 0 = Some IO_LSEEK /\ field 8 msg 8 = Some (Z.of_nat pos) /\ field 4 msg 4 = Some SEEK_SET
      | AClose => False
      end
  end.

(** The action that carries a reply; [c] is the cookie of the request, [h] its connection. *)
Definition carries (c h : Z) (x : areply) (act : action) : Prop :=
  match x, act with
  | RClosed, Close fd => fd = h
  | RStatus err, Answer cookie len size obj => cookie = c /\ len = 16 /\ size = 16 /\ err_of obj = err
  | RWrite err, Answer cookie len size obj => cookie = c /\ len = 16 /\ size = 16 /\ err_of obj = err /\ len_of obj = 0
  | RSeek, Answer cookie len size obj => cookie = c /\ len = 16 /\ size = 16 /\ err_of obj = 0 /\ len_of obj = 0
  | RData room bytes, Answer cookie len size obj =>
      cookie = c /\ len = 16 + Z.of_nat (length bytes) + 1 /\ len <= size /\ size = 16 + room + 1 /\ err_of obj = 0 /\ len_of obj = Z.of_nat (length bytes) /\ bytes_at obj 16 bytes
  | REntry name, Answer cookie len size obj =>
      cookie = c /\ len = 321 /\ size = 321 /\ err_of obj = 0 /\ len_of obj = 304 /\ string_at obj (16 + D_INAME) name /\ (length name < 30)%nat
  | REnd, Answer cookie len size obj => cookie = c /\ len = 321 /\ size = 321 /\ err_of obj = 0 /\ len_of obj = 0
  | _, _ => False
  end.

Section rep.
Context (A : list (list Z * list Z)).

Definition dir_rep (t : tarfs) (o : vobj) (names : list (list Z)) : Prop :=
  (exists q off e, o = TarDir (mkReader q off) /\ tarfs_entry t !! q = Some e /\ (length (d_subdirs e) < 30)%nat
     /\ Forall (fun i => is_Some (tarfs_entry t !! i)) (d_subdirs e) /\ (off <= length (d_subdirs e))%nat
     /\ names = name_of t <$> drop off (d_subdirs e))
  \/ (exists off, o = RootDir (mkSreader 0x123456 (Z.of_nat off)) /\ (off <= 2)%nat /\ names = drop off [tarfs_path; sata_path]).
Definition obj_rep (t : tarfs) (objs : list vobj) (p : Z) (a : ahandle) : Prop :=
  match a with
  | Fresh => p = 0
  | AFile data pos => 0 < p /\ (pos <= length data)%nat /\ exists i x, objs !! Z.to_nat (p - 1) = Some (TarFile (mkTfile i (Z.of_nat pos)))
      /\ tarfs_inode t !! i = Some x /\ t_file_len x = Z.of_nat (length data) /\ bytes_at (archive t) (t_i_data x) data
  | ADir names => 0 < p /\ exists o, objs !! Z.to_nat (p - 1) = Some o /\ dir_rep t o names
  end.
Record rep (a : aserver) (s : server) : Prop := {
  r_holds : holds A (tar s);
  r_order : all_fds s = order a;
  r_range : Forall (fun h => 0 <= h < 512) (order a);
  r_len : length (handle_to_fd s) = 512%nat;
  r_tab : forall h p, 0 <= h < 512 -> handle_to_fd s !! Z.to_nat h = Some p -> obj_rep (tar s) (objs s) p (st a h);
  r_inj : forall h h' p, 0 <= h < 512 -> 0 <= h' < 512 -> handle_to_fd s !! Z.to_nat h = Some p -> handle_to_fd s !! Z.to_nat h' = Some p -> p <> 0 -> h = h';
}.

(** Archives whose directories can be listed. *)
Definition listable : Prop :=
  NoDup (entry_names A) /\ forall q path, entry_names A !! q = Some path ->
    (forall i n, entry_names A !! S i = Some n -> parent_dir n = path -> (q <= i)%nat) /\ (length (members_of path A) < 30)%nat.
End rep.

(** ** Looking up *)
Lemma files_names A : (fun f => f.1) <$> files A = entry_names A.
Proof. unfold files, entry_names. cbn. f_equal. rewrite <- !list_fmap_compose. done. Qed.
Lemma index_of_find {B} (l : list dentry) name (fs : list (list Z * B)) : d_iname <$> l = (fun f => f.1) <$> fs -> forall k,
  index_of (fun n => bool_decide (n = name)) l k = (fun r => (k + r.1)%nat) <$> list_find (fun f => f.1 = name) fs.
Proof.
  revert fs. induction l as [|e l IH]; intros [|[n b] fs] E k; try discriminate E; [done|]. injection E as E1 E2. cbn. rewrite E1.
  destruct (decide (n = name)) as [->|Hn].
  - rewrite bool_decide_true by done. cbn. f_equal. lia.
  - rewrite bool_decide_false by done. rewrite (IH fs E2). destruct (list_find _ fs) as [[i x]|]; [|done]. cbn. f_equal. lia.
Qed.

(** ** Objects and handles *)
Lemma on_tar_eq {B} (m : M tarfs B) x s : m (tar s) = Done x (tar s) -> on_tar m s = Done x s.
Proof. intros E. unfold on_tar. rewrite E. by destruct s. Qed.
Lemma obj_at_eq p o s : 0 < p -> objs s !! Z.to_nat (p - 1) = Some o -> obj_at p s = Done o s.
Proof. intros Hp Ho. unfold obj_at. erewrite bind_eq; [|apply get_eq]. rewrite (proj2 (Z.leb_gt p 0)) by lia. by apply deref_eq. Qed.
Lemma table_eq h p s : 0 <= h -> handle_to_fd s !! Z.to_nat h = Some p -> table h s = Done p s.
Proof. intros Hh Hp. unfold table. erewrite bind_eq; [|apply get_eq]. rewrite (proj2 (Z.ltb_ge h 0)) by lia. by apply deref_eq. Qed.
Lemma set_table_eq h p v s : 0 <= h -> handle_to_fd s !! Z.to_nat h = Some p ->
  set_table h v s = Done () (set_handles (<[Z.to_nat h := v]> (handle_to_fd s)) s).
Proof. intros Hh Hp. unfold set_table. erewrite bind_eq; [|by eapply table_eq]. done. Qed.

Section keep.
Context (A : list (list Z * list Z)).
Lemma obj_rep_ext t objs objs' p a : (0 < p -> objs' !! Z.to_nat (p - 1) = objs !! Z.to_nat (p - 1)) ->
  obj_rep t objs p a -> obj_rep t objs' p a.
Proof.
  intros H. destruct a as [|data pos|names]; [done|..]; cbn; intros (Hp & Hr); rewrite H by done; done.
Qed.
Lemma obj_rep_pos t objs p a : obj_rep t objs p a -> p <> 0 -> 0 < p /\ (Z.to_nat (p - 1) < length objs)%nat.
Proof.
  destruct a as [|data pos|names]; cbn; [done|intros (Hp & _ & i & x & Ho & _) _|intros (Hp & o & Ho & _) _];
    (split; [done|]; by eapply lookup_lt_Some).
Qed.
Lemma rep_handle a s h : rep A a s -> 0 <= h < 512 ->
  exists p, handle_to_fd s !! Z.to_nat h = Some p /\ obj_rep (tar s) (objs s) p (st a h) /\ table h s = Done p s.
Proof.
  intros R Hh. destruct (lookup_lt_is_Some_2 (handle_to_fd s) (Z.to_nat h) ltac:(rewrite (r_len _ _ _ R); lia)) as [p Hp].
  exists p. split; [done|]. split; [by eapply r_tab|]. apply table_eq; [lia|done].
Qed.
Lemma rep_sent a s l : rep A a s -> rep A a (set_sent l s).
Proof. by intros []. Qed.
Lemma rep_handle_eq a s h : rep A a s -> rep A (with_handle h (Some (st a h)) a) s.
Proof. intros []. split; try done. intros k p Hk Hp. cbn. destruct (Z.eqb_spec k h) as [->|]; auto. Qed.

Lemma rep_update a s h p o x : rep A a s -> 0 <= h < 512 -> handle_to_fd s !! Z.to_nat h = Some p -> p <> 0 ->
  obj_rep (tar s) (<[Z.to_nat (p - 1) := o]> (objs s)) p x ->
  rep A (with_handle h (Some x) a) (set_objs (<[Z.to_nat (p - 1) := o]> (objs s)) s).
Proof.
  intros R Hh Hp Hp0 Hx. pose proof R as []. split; try done. intros k q Hk Hq. cbn in Hq |- *.
  destruct (Z.eqb_spec k h) as [->|Hkh]; [by simplify_eq|]. eapply obj_rep_ext; [|by eapply r_tab0]. intros Hq0.
  rewrite list_lookup_insert_ne; [done|]. intros Heq. apply Hkh. destruct (obj_rep_pos _ _ _ _ (r_tab0 _ _ Hh Hp) Hp0).
  apply (r_inj0 k h q); [done|done|done| |lia]. rewrite Hp. f_equal. lia.
Qed.
Lemma rep_open a s h o x : rep A a s -> 0 <= h < 512 -> handle_to_fd s !! Z.to_nat h = Some 0 ->
  obj_rep (tar s) (objs s ++ [o]) (Z.of_nat (length (objs s)) + 1) x ->
  rep A (with_handle h (Some x) a) (set_handles (<[Z.to_nat h := Z.of_nat (length (objs s)) + 1]> (handle_to_fd s)) (set_objs (objs s ++ [o]) s)).
Proof.
  intros R Hh Hp Hx. pose proof R as []. split; try done; cbn.
  - by rewrite length_insert.
  - intros k q Hk Hq. destruct (Z.eqb_spec k h) as [->|Hkh].
    + rewrite list_lookup_insert_eq in Hq by lia. by simplify_eq.
    + rewrite list_lookup_insert_ne in Hq by lia. eapply obj_rep_ext; [|by eapply r_tab0]. intros Hq0.
      apply lookup_app_l. destruct (obj_rep_pos _ _ _ _ (r_tab0 _ _ Hk Hq)); lia.
  - assert (forall k q, 0 <= k < 512 -> handle_to_fd s !! Z.to_nat k = Some q -> q <= Z.of_nat (length (objs s))) as Hle.
    { intros k q Hk Hq. destruct (decide (q = 0)); [lia|]. destruct (obj_rep_pos _ _ _ _ (r_tab0 _ _ Hk Hq)); lia. }
    intros k k' q Hk Hk' Hq Hq' Hq0. destruct (decide (k = h)) as [->|Hkh], (decide (k' = h)) as [->|Hkh']; [done|..].
    + rewrite list_lookup_insert_eq in Hq by lia. rewrite list_lookup_insert_ne in Hq' by lia. simplify_eq. pose proof (Hle _ _ Hk' Hq'). lia.
    + rewrite list_lookup_insert_eq in Hq' by lia. rewrite list_lookup_insert_ne in Hq by lia. simplify_eq. pose proof (Hle _ _ Hk Hq). lia.
    + rewrite list_lookup_insert_ne in Hq by lia. rewrite list_lookup_insert_ne in Hq' by lia. by eapply r_inj0.
Qed.
Lemma rep_close a s h : rep A a s -> 0 <= h < 512 ->
  exists s', close_handle h s = Done () s' /\ rep A (with_handle h None a) s' /\ sent s' = sent s ++ [Close h].
Proof.
  intros R Hh. destruct (rep_handle a s h R Hh) as (p & Hp & _). eexists. split; [|split].
  - unfold close_handle. erewrite bind_eq; [|apply modify_eq]. erewrite bind_eq; [|eapply set_table_eq; [lia|exact Hp]]. reflexivity.
  - pose proof R as []. split; try done; cbn.
    + by rewrite r_order0.
    + apply Forall_forall. intros k Hk. apply list_elem_of_filter in Hk as [_ Hk]. rewrite Forall_forall in r_range0. by apply r_range0.
    + by rewrite length_insert.
    + intros k q Hk Hq. destruct (Z.eqb_spec k h) as [->|Hkh].
      * rewrite list_lookup_insert_eq in Hq by lia. by simplify_eq.
      * rewrite list_lookup_insert_ne in Hq by lia. by apply r_tab0.
    + intros k k' q Hk Hk' Hq Hq' Hq0. destruct (decide (k = h)) as [->|Hkh]; [rewrite list_lookup_insert_eq in Hq by lia; congruence|].
      destruct (decide (k' = h)) as [->|Hkh']; [rewrite list_lookup_insert_eq in Hq' by lia; congruence|].
      rewrite list_lookup_insert_ne in Hq by lia. rewrite list_lookup_insert_ne in Hq' by lia. by eapply r_inj0.
  - done.
Qed.
End keep.

(** ** One request *)
Section ops.
Context (A : list (list Z * list Z)) (HA : listable A) (junk : memory) (sb_at entry_at inode_at : nat -> Z).

(** The server goes on with the connection [h] standing for [o], after [l]. *)
Definition does (a : aserver) (s : server) (h c : Z) (m : M server ()) (o : option ahandle) (l : list areply) : Prop :=
  exists s' acts, m s = Done () s' /\ rep A (with_handle h o a) s' /\ sent s' = sent s ++ acts /\ Forall2 (carries c h) (l ++ closed o) acts.

Lemma send_eq x s : send x s = Done () (set_sent (sent s ++ [x]) s).
Proof. done. Qed.
Lemma carries_status c h err : 0 <= err < 2 ^ 31 -> carries c h (RStatus err) (Answer c sizeof_io_res sizeof_io_res (put_le 4 junk 0 err)).
Proof. intros He. split_and!; [done..|by apply err_set]. Qed.

Lemma does_refuse a s h c err : rep A a s -> 0 <= h < 512 -> 0 <= err < 2 ^ 31 ->
  does a s h c (respond_err junk c err;; close_handle h) None [RStatus err].
Proof.
  intros R Hh He. set (x := Answer c sizeof_io_res sizeof_io_res (put_le 4 junk 0 err)).
  destruct (rep_close A a (set_sent (sent s ++ [x]) s) h (rep_sent A a s _ R) Hh) as (s' & E & R' & S'). exists s', [x; Close h].
  split; [unfold respond_err; erewrite bind_eq; [exact E|apply send_eq]|]. split; [done|].
  split; [rewrite S'; cbn; by rewrite <- app_assoc|]. constructor; [by apply carries_status|]. by constructor.
Qed.

Lemma does_close a s h c : rep A a s -> 0 <= h < 512 -> does a s h c (close_handle h) None [].
Proof.
  intros R Hh. destruct (rep_close A a s h R Hh) as (s' & E & R' & S'). exists s', [Close h]. split_and!; [done..|]. by constructor.
Qed.

(** What an opening function has to do. *)
Definition opens (s : server) (m : M server Z) (o : option ahandle) : Prop :=
  match o with
  | None => m s = Done 0 s
  | Some x => exists v, m s = Done (Z.of_nat (length (objs s)) + 1) (set_objs (objs s ++ [v]) s)
                /\ obj_rep (tar s) (objs s ++ [v]) (Z.of_nat (length (objs s)) + 1) x
  end.

Lemma handle_open_spec a s h c m x : rep A a s -> 0 <= h < 512 -> opens s m x ->
  does a s h c (handle_open junk h c m) (match st a h with Fresh => x | _ => None end)
    [RStatus (match st a h with Fresh => match x with Some _ => 0 | None => ENOENT end | _ => EINVAL end)].
Proof.
  intros R Hh Hm. destruct (rep_handle A a s h R Hh) as (p & Hp & Ho & Ht). unfold does, handle_open.
  setoid_rewrite (bind_eq _ _ _ _ _ Ht). destruct (Z.eqb_spec p 0) as [->|Hp0]; cbn [negb].
  - assert (st a h = Fresh) as -> by (destruct (st a h); [done|..]; cbn in Ho; lia). destruct x as [x|].
    + destruct Hm as (v & Em & Hv). setoid_rewrite (bind_eq _ _ _ _ _ Em). rewrite (proj2 (Z.eqb_neq _ 0)) by lia.
      set (y := Answer c sizeof_io_res sizeof_io_res (put_le 4 junk 0 0)). exists (set_sent (sent s ++ [y])
        (set_handles (<[Z.to_nat h := Z.of_nat (length (objs s)) + 1]> (handle_to_fd s)) (set_objs (objs s ++ [v]) s))), [y].
      split; [unfold respond_err; erewrite bind_eq; [|apply send_eq]; eapply set_table_eq; [lia|exact Hp]|].
      split; [apply rep_sent; by apply rep_open|]. split; [done|]. constructor; [by apply carries_status|constructor].
    + setoid_rewrite (bind_eq _ _ _ _ _ Hm). rewrite Z.eqb_refl. by apply does_refuse.
  - destruct (st a h); [by cbn in Ho|by apply does_refuse..].
Qed.

(** *** Opening *)
Lemma tarfs_find s path : holds A (tar s) ->
  get_file_index path (tar s) = (fun r => r.1) <$> list_find (fun f => f.1 = path) (files A).
Proof. intros H. unfold get_file_index. apply (index_of_find (tarfs_entry (tar s)) path (files A)). by rewrite (h_names _ _ H), files_names. Qed.

Lemma files_data s i name data : holds A (tar s) -> files A !! i = Some (name, data) -> exists x, tarfs_inode (tar s) !! i = Some x
  /\ t_file_len x = Z.of_nat (length data) /\ bytes_at (archive (tar s)) (t_i_data x) data.
Proof.
  intros H. destruct i as [|i]; cbn.
  - intros [= <- <-]. exists (mkTinode 1 0 0). by rewrite (h_root _ _ H).
  - intros Hi. change (((fun m => (tar_name m.1, m.2)) <$> A) !! i = Some (name, data)) in Hi. rewrite list_lookup_fmap in Hi.
    destruct (A !! i) as [[n d]|] eqn:HAi; [|done]. injection Hi as <- <-. destruct (h_data _ _ H i n d HAi) as (x & Hx & Hl & _ & Hb). by exists x.
Qed.

Lemma fs_index_prefix path : has_prefix sata_path path = false ->
  get_fs_index path = if has_prefix tarfs_path path then 0 else if bool_decide (path = root) then 2 else -1.
Proof. intros H. unfold get_fs_index. rewrite H. done. Qed.
Lemma parse_path_length path : (length path < 200)%nat -> (length (parse_path path) < 200)%nat.
Proof.
  intros H. unfold parse_path, str_shift. assert (length root = 1%nat) as Hr by done.
  destruct (has_prefix tarfs_path path), (has_prefix sata_path path); destruct (_ =? 0)%nat; rewrite ?length_drop; lia.
Qed.

Lemma my_open_spec a s path flags : rep A a s -> (length path < 200)%nat -> has_prefix sata_path path = false ->
  opens s (my_open junk path flags) (match afile A path with Some data => Some (AFile data 0) | None => None end).
Proof.
  intros R Hlen Hs. pose proof (r_holds _ _ _ R) as H. unfold my_open. rewrite (fs_index_prefix path Hs). unfold afile.
  destruct (has_prefix tarfs_path path).
  - cbn [Z.eqb]. pose proof (tarfs_find s (parse_path path) H) as Hf.
    destruct (list_find _ (files A)) as [[i [n data]]|] eqn:Hfind; cbn in Hf |- *.
    + apply list_find_Some in Hfind as (Hi & Hn & _). cbn in Hn. destruct (files_data s i n data H Hi) as (x & Hx & Hl & Hb).
      eexists. split.
      * erewrite bind_eq; [|apply on_tar_eq; unfold tarfs_open; erewrite bind_eq; [|apply get_eq]; rewrite Hf;
          rewrite (proj2 (Nat.ltb_lt _ _)) by (by apply parse_path_length); reflexivity]. reflexivity.
      * cbn. split; [lia|]. split; [lia|]. exists i, x. replace (Z.to_nat (Z.of_nat (length (objs s)) + 1 - 1)) with (length (objs s)) by lia.
        split; [by apply list_lookup_middle|]. done.
    + erewrite bind_eq; [|apply on_tar_eq; unfold tarfs_open; erewrite bind_eq; [|apply get_eq]; rewrite Hf; reflexivity]. done.
  - by case_bool_decide.
Qed.

Lemma my_opendir_spec a s path : rep A a s -> has_prefix sata_path path = false ->
  opens s (my_opendir path) (match adir A path with Some names => Some (ADir names) | None => None end).
Proof.
  intros R Hs. pose proof (r_holds _ _ _ R) as H. unfold my_opendir. rewrite (fs_index_prefix path Hs). unfold adir.
  destruct (has_prefix tarfs_path path).
  - cbn [Z.eqb]. case_bool_decide as Hin.
    + apply list_elem_of_lookup_1 in Hin as [q Hq]. destruct (proj2 HA q _ Hq) as [Hord Hlen].
      destruct (dir_entry A (tar s) q _ H (proj1 HA) Hq Hord Hlen) as (e & He & Hl & Hall & Hn). eexists. split.
      * erewrite bind_eq; [|apply on_tar_eq; unfold open_tarfs_dir; erewrite bind_eq; [|apply get_eq]; unfold get_file_index;
          rewrite (index_of_name _ _ _ _ (h_names _ _ H) (proj1 HA) Hq); reflexivity]. reflexivity.
      * cbn. split; [lia|]. replace (Z.to_nat (Z.of_nat (length (objs s)) + 1 - 1)) with (length (objs s)) by lia. eexists.
        split; [by apply list_lookup_middle|]. left. exists q, 0%nat, e. split_and!; (done || lia).
    + assert (get_file_index (parse_path path) (tar s) = None) as Hf.
      { rewrite (tarfs_find s _ H). destruct (list_find _ (files A)) as [[i f]|] eqn:E; [|done]. exfalso. apply Hin.
        apply list_find_Some in E as (Hi & Hf & _). rewrite <- Hf, <- files_names. apply list_elem_of_fmap. exists f. split; [done|]. by eapply list_elem_of_lookup_2. }
      unfold opens. erewrite bind_eq; [|apply on_tar_eq; unfold open_tarfs_dir; erewrite bind_eq; [|apply get_eq]; rewrite Hf; reflexivity]. done.
  - case_bool_decide as Hr; [|done]. cbn [Z.eqb]. eexists. split; [reflexivity|]. cbn. split; [lia|].
    replace (Z.to_nat (Z.of_nat (length (objs s)) + 1 - 1)) with (length (objs s)) by lia. eexists. split; [by apply list_lookup_middle|].
    right. exists 0%nat. split; [done|]. split; [lia|done].
Qed.

(** *** Using a file *)
Lemma my_read_spec a s h p data pos buf room n : rep A a s -> 0 <= h < 512 -> handle_to_fd s !! Z.to_nat h = Some p ->
  obj_rep (tar s) (objs s) p (AFile data pos) -> 1 <= n -> Z.of_nat (length data) + n < 2 ^ 31 -> n < room ->
  let chunk := take (Z.to_nat n) (drop pos data) in
  exists s' buf', my_read p buf room n s = Done (Z.of_nat (length chunk), buf') s' /\ bytes_at buf' 0 chunk
    /\ rep A (with_handle h (Some (AFile data (pos + length chunk))) a) s' /\ sent s' = sent s.
Proof.
  intros R Hh Hp (Hp0 & Hpos & i & x & Ho & Hx & Hl & Hb) Hn Hn2 Hroom chunk. unfold my_read. rewrite (i32_small n) by lia.
  pose proof (tarfs_read_spec (tar s) (mkTfile i (Z.of_nat pos)) x data n Hx Hl Hb Hn Hn2 pos eq_refl Hpos) as E. fold chunk in E. cbn [tf_inode] in E.
  assert (length chunk = Z.to_nat n `min` (length data - pos))%nat as Hc by (unfold chunk; by rewrite length_take, length_drop).
  set (o := TarFile (mkTfile i (Z.of_nat (pos + length chunk)))). exists (set_objs (<[Z.to_nat (p - 1) := o]> (objs s)) s).
  assert (exists bytes, tarfs_read (mkTfile i (Z.of_nat pos)) n (tar s) = Done (Z.of_nat (length chunk), mkTfile i (Z.of_nat (pos + length chunk)), bytes) (tar s)
    /\ (length bytes <= S (length chunk))%nat /\ forall k b, chunk !! k = Some b -> bytes !! k = Some b) as (bytes & Er & Hlb & Hbytes).
  { rewrite E. destruct (decide (pos = length data)) as [Hd|Hd].
    - assert (chunk = []) as -> by (unfold chunk; by rewrite drop_ge, take_nil by lia). exists []. rewrite Nat.add_0_r. split; [done|]. split; [cbn; lia|done].
    - exists (chunk ++ [0]). split; [done|]. split; [rewrite length_app; cbn; lia|]. intros k b Hk. by apply lookup_app_l_Some. }
  eexists. split_and!.
  - erewrite bind_eq; [|by apply obj_at_eq]. cbv beta iota. erewrite bind_eq; [|by apply on_tar_eq]. cbv beta iota.
    rewrite (proj2 (Z.ltb_ge room _)) by lia. erewrite bind_eq; [|reflexivity]. reflexivity.
  - apply bytes_at_intro. intros k b Hk. rewrite Z.add_0_l, (proj2 (Z.ltb_ge _ 0)) by lia. rewrite Nat2Z.id. by rewrite (Hbytes _ _ Hk).
  - apply rep_update; try done; [lia|]. split; [done|]. split; [rewrite Hc; lia|]. exists i, x.
    rewrite list_lookup_insert_eq by (by eapply lookup_lt_Some). done.
  - done.
Qed.

Lemma does_send a s s' h c m (n : M server ()) x l act : rep A (with_handle h (Some x) a) s' -> sent s' = sent s -> m s = n s' ->
  n s' = Done () (set_sent (sent s' ++ [act]) s') -> carries c h l act -> does a s h c m (Some x) [l].
Proof.
  intros R Hs Em En Hc. exists (set_sent (sent s' ++ [act]) s'), [act]. split; [by rewrite Em|]. split; [by apply rep_sent|].
  split; [cbn; by rewrite Hs|]. by constructor.
Qed.

Lemma handle_read_spec a s h c data pos n : rep A a s -> 0 <= h < 512 -> st a h = AFile data pos -> 1 <= n -> Z.of_nat (length data) + n < 2 ^ 31 ->
  let chunk := take (Z.to_nat n) (drop pos data) in
  does a s h c (handle_read junk h c n) (Some (AFile data (pos + length chunk))) [RData n chunk].
Proof.
  intros R Hh Hst Hn Hn2 chunk. destruct (rep_handle A a s h R Hh) as (p & Hp & Ho & Ht). rewrite Hst in Ho.
  assert (u64 (sizeof_io_res + n + 1) = n + 17) as Hsize by (unfold u64, wrap, sizeof_io_res; rewrite Z.mod_small; lia).
  destruct (my_read_spec a s h p data pos (fun x => junk (x + sizeof_io_res)) (n + 17 - sizeof_io_res) n R Hh Hp Ho Hn Hn2 ltac:(unfold sizeof_io_res; lia))
    as (s' & buf' & E & Hb & R' & S'). fold chunk in E, Hb, R'.
  assert (length chunk <= Z.to_nat n)%nat as Hc by (unfold chunk; rewrite length_take; lia).
  eapply (does_send a s s' h c _ (send _)); [done|done| |apply send_eq|].
  - unfold handle_read. erewrite bind_eq; [|exact Ht]. cbv zeta. rewrite Hsize. erewrite bind_eq; [|exact E]. cbv beta iota.
    rewrite (proj2 (Z.ltb_ge _ 0)) by lia. reflexivity.
  - unfold sizeof_io_res. split_and!; [done|lia|lia|lia|by apply err_io|apply len_io; lia|]. eapply bytes_at_ext; [|exact Hb]. intros k Hk. cbv beta.
    rewrite io_text by lia. rewrite (proj2 (Z.ltb_ge _ 16)) by lia. f_equal. lia.
Qed.

Lemma handle_write_spec a s h c data pos len text : rep A a s -> 0 <= h < 512 -> st a h = AFile data pos ->
  does a s h c (handle_write junk h c len text) (Some (AFile data pos)) [RWrite EBADF].
Proof.
  intros R Hh Hst. destruct (rep_handle A a s h R Hh) as (p & Hp & Ho & Ht). pose proof (rep_handle_eq A a s h R) as R'. rewrite Hst in Ho, R'.
  destruct Ho as (Hp0 & _ & i & x & Ho & _). eapply (does_send a s s h c _ (send _)); [done|done| |apply send_eq|].
  - unfold handle_write. erewrite bind_eq; [|exact Ht]. erewrite bind_eq; [|unfold my_write; erewrite bind_eq; [|by apply obj_at_eq]; reflexivity]. reflexivity.
  - split_and!; [done..|by apply err_io|by apply len_io].
Qed.

Lemma handle_lseek_spec a s h c data pos to : rep A a s -> 0 <= h < 512 -> st a h = AFile data pos -> (to <= length data)%nat -> Z.of_nat (length data) < 2 ^ 31 ->
  does a s h c (handle_lseek junk h c (Z.of_nat to) SEEK_SET) (Some (AFile data to)) [RSeek].
Proof.
  intros R Hh Hst Hto Hlt. destruct (rep_handle A a s h R Hh) as (p & Hp & Ho & Ht). rewrite Hst in Ho.
  destruct Ho as (Hp0 & Hpos & i & x & Ho & Hx & Hl & Hb). set (o := TarFile (mkTfile i (Z.of_nat to))).
  eapply (does_send a s (set_objs (<[Z.to_nat (p - 1) := o]> (objs s)) s) h c _ (send _)); [|done| |apply send_eq|].
  - apply rep_update; try done; [lia|]. split; [done|]. split; [done|]. exists i, x. rewrite list_lookup_insert_eq by (by eapply lookup_lt_Some). done.
  - unfold handle_lseek. erewrite bind_eq; [|exact Ht]. erewrite bind_eq; [reflexivity|]. unfold vfs_lseek. erewrite bind_eq; [|by apply obj_at_eq].
    cbv beta iota. erewrite bind_eq; [|apply get_eq]. erewrite bind_eq; [|by apply deref_eq]. cbn [SEEK_SET Z.eqb tf_inode]. cbv zeta. rewrite i32_small by lia. reflexivity.
  - split_and!; [done..|by apply err_io|by apply len_io].
Qed.

(** *** Reading a directory *)
Lemma put_ptrs_out l : forall b off x, ~ off <= x < off + 8 * Z.of_nat (length l) -> put_ptrs entry_at b off l x = b x.
Proof.
  induction l as [|i l IH]; intros b off x Hx; cbn [put_ptrs length] in *; [done|]. rewrite IH by lia. apply put_le_out. lia.
Qed.
Lemma entry_name e : (length (d_iname e) < 30)%nat -> Forall (fun c => 0 < c < 256) (d_iname e) ->
  string_at (entry_bytes sb_at entry_at inode_at e) D_INAME (d_iname e).
Proof.
  intros Hl Hz. unfold entry_bytes. eapply string_at_ext; [|by apply put_name_at]. intros x Hx. apply put_le_out. unfold D_INAME in *. lia.
Qed.
Lemma entry_short s i e : holds A (tar s) -> tarfs_entry (tar s) !! i = Some e -> (length (d_iname e) < 30)%nat /\ Forall (fun c => 0 < c < 256) (d_iname e).
Proof.
  intros H He. apply (Forall_lookup_1 _ _ i _ (h_short _ _ H)). by rewrite <- (h_names _ _ H), list_lookup_fmap, He.
Qed.

Definition read_name (o : option memory) (names : list (list Z)) : Prop :=
  match names with
  | [] => o = None
  | name :: _ => exists d, o = Some d /\ string_at d D_INAME name /\ (length name < 30)%nat
  end.

Lemma readdir_tar s q off e p : holds A (tar s) -> 0 < p -> objs s !! Z.to_nat (p - 1) = Some (TarDir (mkReader q off)) ->
  tarfs_entry (tar s) !! q = Some e -> (length (d_subdirs e) < 30)%nat -> Forall (fun i => is_Some (tarfs_entry (tar s) !! i)) (d_subdirs e) ->
  (off <= length (d_subdirs e))%nat ->
  exists o off', my_readdir junk sb_at entry_at inode_at p s = Done o (set_objs (<[Z.to_nat (p - 1) := TarDir (mkReader q off')]> (objs s)) s)
    /\ (off' <= length (d_subdirs e))%nat
    /\ drop off' (d_subdirs e) = tail (drop off (d_subdirs e)) /\ read_name o (name_of (tar s) <$> drop off (d_subdirs e)).
Proof.
  intros H Hp Ho He Hl Hall Hoff. unfold my_readdir.
  assert (read_tarfs_dir (mkReader q off) (tar s) = Done (d_subdirs e !! off, mkReader q (match d_subdirs e !! off with Some _ => S off | None => off end)) (tar s)) as Er.
  { unfold read_tarfs_dir. erewrite bind_eq; [|apply get_eq]. erewrite bind_eq; [|by apply deref_eq]. cbn [r_offset r_dentry].
    rewrite (proj2 (Nat.leb_gt 30 off)) by lia. by destruct (d_subdirs e !! off). }
  destruct (d_subdirs e !! off) as [i|] eqn:Hi.
  - pose proof (lookup_lt_Some _ _ _ Hi). destruct (Forall_lookup_1 _ _ _ _ Hall Hi) as [e' He']. destruct (entry_short s i e' H He') as [Hs Hz].
    exists (Some (entry_bytes sb_at entry_at inode_at e')), (S off). split_and!.
    + erewrite bind_eq; [|by apply obj_at_eq]. cbv beta iota. erewrite bind_eq; [|apply on_tar_eq; exact Er]. cbv beta iota. erewrite bind_eq; [|reflexivity].
      cbv beta iota. erewrite bind_eq; [|apply get_eq]. erewrite bind_eq; [|by apply deref_eq]. reflexivity.
    + lia.
    + by rewrite (drop_S _ _ _ Hi).
    + rewrite (drop_S _ _ _ Hi). eexists. split; [done|]. unfold name_of. rewrite He'. split; [by apply entry_name|done].
  - apply lookup_ge_None in Hi. exists None, off. split_and!.
    + erewrite bind_eq; [|by apply obj_at_eq]. cbv beta iota. erewrite bind_eq; [|apply on_tar_eq; exact Er]. cbv beta iota. erewrite bind_eq; [|reflexivity]. reflexivity.
    + done.
    + by rewrite !drop_ge by lia.
    + by rewrite drop_ge by lia.
Qed.

Lemma readdir_root s off p : 0 < p -> objs s !! Z.to_nat (p - 1) = Some (RootDir (mkSreader 0x123456 (Z.of_nat off))) -> (off <= 2)%nat ->
  exists o off', my_readdir junk sb_at entry_at inode_at p s = Done o (set_objs (<[Z.to_nat (p - 1) := RootDir (mkSreader 0x123456 (Z.of_nat off'))]> (objs s)) s)
    /\ (off' <= 2)%nat /\ drop off' [tarfs_path; sata_path] = tail (drop off [tarfs_path; sata_path]) /\ read_name o (drop off [tarfs_path; sata_path]).
Proof.
  intros Hp Ho Hoff. unfold my_readdir. setoid_rewrite (bind_eq _ _ _ _ _ (obj_at_eq _ _ _ Hp Ho)).
  destruct off as [|[|[|off]]]; [| | |lia].
  - eexists _, 1%nat. split; [reflexivity|]. split; [lia|]. split; [done|]. eexists. split; [done|]. split; [|cbn; lia]. apply put_name_at. by repeat constructor.
  - eexists _, 2%nat. split; [reflexivity|]. split; [lia|]. split; [done|]. eexists. split; [done|]. split; [|cbn; lia]. apply put_name_at. by repeat constructor.
  - eexists _, 2%nat. split; [reflexivity|]. split; [lia|]. done.
Qed.

Lemma my_readdir_spec a s h p names : rep A a s -> 0 <= h < 512 -> handle_to_fd s !! Z.to_nat h = Some p -> obj_rep (tar s) (objs s) p (ADir names) ->
  exists o s', my_readdir junk sb_at entry_at inode_at p s = Done o s' /\ rep A (with_handle h (Some (ADir (tail names))) a) s' /\ sent s' = sent s /\ read_name o names.
Proof.
  intros R Hh Hp (Hp0 & v & Ho & [(q & off & e & -> & He & Hl & Hall & Hoff & ->)|(off & -> & Hoff & ->)]).
  - destruct (readdir_tar s q off e p (r_holds _ _ _ R) Hp0 Ho He Hl Hall Hoff) as (o & off' & E & Hoff' & Hd & Hr).
    eexists o, _. split; [exact E|]. split; [|done]. apply rep_update; try done; [lia|]. split; [done|]. eexists.
    split; [rewrite list_lookup_insert_eq by (by eapply lookup_lt_Some); done|]. left. exists q, off', e. split_and!; first [done | by rewrite Hd, fmap_tail].
  - destruct (readdir_root s off p Hp0 Ho Hoff) as (o & off' & E & Hoff' & Hd & Hr).
    eexists o, _. split; [exact E|]. split; [|done]. apply rep_update; try done; [lia|]. split; [done|]. eexists.
    split; [rewrite list_lookup_insert_eq by (by eapply lookup_lt_Some); done|]. right. exists off'. split_and!; first [done | by rewrite Hd].
Qed.

Lemma handle_readdir_spec a s h c names : rep A a s -> 0 <= h < 512 -> st a h = ADir names ->
  does a s h c (handle_readdir junk sb_at entry_at inode_at h c) (Some (ADir (tail names))) [match names with [] => REnd | name :: _ => REntry name end].
Proof.
  intros R Hh Hst. destruct (rep_handle A a s h R Hh) as (p & Hp & Ho & Ht). rewrite Hst in Ho.
  destruct (my_readdir_spec a s h p names R Hh Hp Ho) as (o & s' & E & R' & S' & Hr).
  eapply (does_send a s s' h c _ (send _)); [done|done| |apply send_eq|].
  - unfold handle_readdir. erewrite bind_eq; [|exact Ht]. erewrite bind_eq; [|exact E]. reflexivity.
  - destruct names as [|name names]; cbn in Hr; [subst o|destruct Hr as (d & -> & Hd & Hl)].
    + split_and!; [done..|by apply err_io|by apply len_io].
    + split_and!; [done..|by apply err_io|by apply len_io| |done]. unfold sizeof_io_res, sizeof_dentry, D_INAME in *. destruct Hd as [Hb Hz]. split; [|done].
      eapply bytes_at_ext; [|exact Hb]. intros k Hk. rewrite length_app in Hk. cbn in Hk. rewrite io_text by lia. cbv beta.
      rewrite (proj2 (Z.leb_le _ _)), (proj2 (Z.ltb_lt _ _)) by lia. cbn [andb]. f_equal. lia.
Qed.

(** *** The main loop *)
Lemma handle_request_spec a s h q r : rep A a s -> 0 <= h < 512 -> encodes q r -> allowed r (st a h) ->
  does a s h (q_cookie q) (handle_request junk sb_at entry_at inode_at h q) (astep A r (st a h)).1 (astep A r (st a h)).2.
Proof.
  intros R Hh Hq Hr. destruct r as [path|path|n| | |to|].
  1-6: destruct Hq as (msg & Eq & Hne & Hq); unfold handle_request; rewrite Eq; destruct msg as [|b msg]; [done|].
  - destruct Hq as (Ht & [flags Hf] & Hp). destruct Hr as [Hlen Hs]. rewrite Ht, Hf, Hp.
    pose proof (handle_open_spec a s h (q_cookie q) _ _ R Hh (my_open_spec a s path (i32 flags) R Hlen Hs)) as D.
    cbn [astep]. destruct (st a h); [by destruct (afile A path)|exact D|exact D].
  - destruct Hq as (Ht & Hp). destruct Hr as [Hlen Hs]. rewrite Ht, Hp.
    pose proof (handle_open_spec a s h (q_cookie q) _ _ R Hh (my_opendir_spec a s path R Hs)) as D.
    cbn [astep]. destruct (st a h); [by destruct (adir A path)|exact D|exact D].
  - destruct Hq as (Ht & Hn). destruct (st a h) as [|data pos|names] eqn:Hst; [done| |done]. destruct Hr as [Hn1 Hn2]. rewrite Ht, Hn.
    exact (handle_read_spec a s h (q_cookie q) data pos n R Hh Hst Hn1 Hn2).
  - destruct Hq as (Ht & [len Hl]). destruct (st a h) as [|data pos|names] eqn:Hst; [done| |done]. rewrite Ht, Hl.
    exact (handle_write_spec a s h (q_cookie q) data pos len _ R Hh Hst).
  - destruct (st a h) as [|data pos|names] eqn:Hst; [done|done|]. rewrite Hq.
    pose proof (handle_readdir_spec a s h (q_cookie q) names R Hh Hst) as D. by destruct names.
  - destruct Hq as (Ht & Hl & Hw). destruct (st a h) as [|data pos|names] eqn:Hst; [done| |done]. destruct Hr as [Hto Hlt]. rewrite Ht, Hl, Hw.
    pose proof (handle_lseek_spec a s h (q_cookie q) data pos to R Hh Hst Hto Hlt) as D.
    assert (i64 (Z.of_nat to) = Z.of_nat to) as E by (unfold i64, swrap; rewrite Z.mod_small; lia). rewrite <- E in D. exact D.
  - unfold handle_request. assert (match q_buf q with None | Some [] => True | _ => False end) by (by destruct Hq as [-> | ->]).
    pose proof (does_close a s h (q_cookie q) R Hh) as D. destruct (q_buf q) as [[|b msg]|]; done.
Qed.

Definition carries3 (x : Z * Z * areply) (act : action) : Prop := carries x.1.1 x.1.2 x.2 act.
(** The request that waits on a connection, concrete and abstract. *)
Definition same_request (a : ahandle) (q : option vfs_request) (r : option (Z * areq)) : Prop :=
  match q, r with
  | Some q, Some (c, r) => q_cookie q = c /\ encodes q r /\ allowed r a
  | None, None => True
  | _, _ => False
  end.

Lemma st_other h k c r a : k <> h -> st (arequest A h c r a).1 k = st a k.
Proof. intros Hk. unfold arequest. destruct (astep A r (st a h)) as [[x|] l]; cbn; by rewrite (proj2 (Z.eqb_neq k h)). Qed.

Lemma serve_each_spec ready aready fds : forall a s, rep A a s -> NoDup fds -> Forall (fun h => 0 <= h < 512) fds ->
  Forall (fun h => same_request (st a h) (ready h) (aready h)) fds ->
  exists s' acts, serve_each junk sb_at entry_at inode_at fds ready s = Done () s' /\ rep A (aserve_each A fds aready a).1 s'
    /\ sent s' = sent s ++ acts /\ Forall2 carries3 (aserve_each A fds aready a).2 acts.
Proof.
  induction fds as [|h fds IH]; intros a s R Hnd Hrange Hreq; cbn [serve_each aserve_each].
  - exists s, []. split_and!; [done|done|by rewrite app_nil_r|constructor].
  - apply NoDup_cons in Hnd as [Hh Hnd]. apply Forall_cons in Hrange as [Hr Hrange]. apply Forall_cons in Hreq as [Hq Hreq].
    destruct (ready h) as [q|] eqn:Eq, (aready h) as [[c r]|] eqn:Er; try done.
    + destruct Hq as (<- & He & Ha). destruct (handle_request_spec a s h q r R Hr He Ha) as (s1 & acts1 & E1 & R1 & S1 & C1).
      destruct (arequest A h (q_cookie q) r a) as [a1 l1] eqn:Ea. assert (a1 = (arequest A h (q_cookie q) r a).1) as Ea1 by (by rewrite Ea).
      destruct (IH a1 s1) as (s2 & acts2 & E2 & R2 & S2 & C2).
      { subst a1. unfold arequest. by destruct (astep A r (st a h)). }
      { done. } { done. }
      { rewrite Forall_forall in *. intros k Hk. rewrite Ea1, st_other by (intros ->; done). by apply Hreq. }
      destruct (aserve_each A fds aready a1) as [a2 l2] eqn:Ea2. exists s2, (acts1 ++ acts2). split_and!.
      * by erewrite bind_eq; [|exact E1].
      * done.
      * by rewrite S2, S1, app_assoc.
      * apply Forall2_app; [|done]. unfold arequest in Ea. destruct (astep A r (st a h)) as [o l]. injection Ea as _ <-.
        apply Forall2_fmap_l. exact C1.
    + destruct (IH a s R Hnd Hrange Hreq) as (s2 & acts2 & E2 & R2 & S2 & C2). destruct (aserve_each A fds aready a) as [a2 l2] eqn:Ea2.
      exists s2, acts2. split_and!; [exact E2|done..].
Qed.
End ops.

(** ** Runs of the server *)
Record round := mkRound { conn : option Z; ready : Z -> option vfs_request; aready : Z -> option (Z * areq) }.
Fixpoint arun (A : list (list Z * list Z)) (rds : list round) (a : aserver) : aserver * list (Z * Z * areply) :=
  match rds with
  | [] => (a, [])
  | rd :: rds => let '(a, l) := aserve A (conn rd) (aready rd) a in let '(a, l') := arun A rds a in (a, l ++ l')
  end.
(** A new connection has a new handle; the clients only make requests they may make. *)
Definition ok_round (a : aserver) (rd : round) : Prop :=
  match conn rd with Some h => 0 <= h < 512 /\ (h ∈ order a -> False) | None => True end
  /\ forall h, h ∈ order (aconnect (conn rd) a) -> same_request (st a h) (ready rd h) (aready rd h).
Fixpoint ok_rounds (A : list (list Z * list Z)) (a : aserver) (rds : list round) : Prop :=
  match rds with [] => True | rd :: rds => ok_round a rd /\ ok_rounds A (aserve A (conn rd) (aready rd) a).1 rds end.
Definition no_connection : aserver := mkAserver [] (fun _ => Fresh).

Section run.
Context (junk : memory) (sb_at entry_at inode_at : nat -> Z).
Fixpoint run (rds : list round) : M server () :=
  match rds with [] => mret () | rd :: rds => serve junk sb_at entry_at inode_at (conn rd) (ready rd);; run rds end.

Lemma order_request A h c r a : order (arequest A h c r a).1 = order a \/ order (arequest A h c r a).1 = filter (fun k => k <> h) (order a).
Proof. unfold arequest. destruct (astep A r (st a h)) as [[x|] l]; cbn; auto. Qed.
Lemma nodup_each A fds ready : forall a, NoDup (order a) -> NoDup (order (aserve_each A fds ready a).1).
Proof.
  induction fds as [|h fds IH]; intros a Hnd; [done|]. cbn [aserve_each]. destruct (ready h) as [[c r]|].
  - assert (NoDup (order (arequest A h c r a).1)) as Hn by (destruct (order_request A h c r a) as [-> | ->]; [done|by apply NoDup_filter]).
    destruct (arequest A h c r a) as [a1 l1]. specialize (IH a1 Hn). by destruct (aserve_each A fds ready a1).
  - specialize (IH a Hnd). by destruct (aserve_each A fds ready a).
Qed.
Lemma nodup_serve A c ready a : NoDup (order (aconnect c a)) -> NoDup (order (aserve A c ready a).1).
Proof. apply nodup_each. Qed.
Lemma nodup_connect a rd : NoDup (order a) -> ok_round a rd -> NoDup (order (aconnect (conn rd) a)).
Proof. intros Hnd [Hc _]. destruct (conn rd) as [h|]; [|done]. cbn. destruct Hc as [_ Hc]. constructor; [intros Hin; by apply Hc|done]. Qed.

Lemma serve_spec A a s rd : listable A -> rep A a s -> NoDup (order a) -> ok_round a rd ->
  exists s' acts, serve junk sb_at entry_at inode_at (conn rd) (ready rd) s = Done () s' /\ rep A (aserve A (conn rd) (aready rd) a).1 s'
    /\ sent s' = sent s ++ acts /\ Forall2 carries3 (aserve A (conn rd) (aready rd) a).2 acts.
Proof.
  intros HA R Hnd Hok. pose proof (nodup_connect a rd Hnd Hok) as Hnd'. destruct Hok as [Hc Hreq].
  set (s1 := match conn rd with Some h => set_fds (h :: all_fds s) s | None => s end). assert (rep A (aconnect (conn rd) a) s1) as R1.
  { unfold s1, aconnect. destruct (conn rd) as [h|]; [|done]. destruct R. split; try done; cbn; [by rewrite r_order0|]. constructor; [by destruct Hc|done]. }
  assert (sent s1 = sent s) as S1 by (unfold s1; by destruct (conn rd)). unfold serve, aserve.
  destruct (serve_each_spec A HA junk sb_at entry_at inode_at (ready rd) (aready rd) (order (aconnect (conn rd) a)) (aconnect (conn rd) a) s1 R1 Hnd' (r_range _ _ _ R1))
    as (s2 & acts & E & R2 & S2 & C2).
  { apply Forall_forall. intros h Hh. replace (st (aconnect (conn rd) a) h) with (st a h) by (by destruct (conn rd)). by apply Hreq. }
  exists s2, acts. split_and!; [|done|by rewrite S2, S1|done]. erewrite (bind_eq _ _ s () s1); [|unfold s1; by destruct (conn rd)].
  erewrite bind_eq; [|apply get_eq]. by rewrite (r_order _ _ _ R1).
Qed.

Lemma run_spec A rds : listable A -> forall a s, rep A a s -> NoDup (order a) -> ok_rounds A a rds ->
  exists s' acts, run rds s = Done () s' /\ rep A (arun A rds a).1 s' /\ sent s' = sent s ++ acts /\ Forall2 carries3 (arun A rds a).2 acts.
Proof.
  intros HA. induction rds as [|rd rds IH]; intros a s R Hnd Hok; cbn [run arun].
  - exists s, []. split_and!; [done|done|by rewrite app_nil_r|constructor].
  - destruct Hok as [Hok Hoks]. destruct (serve_spec A a s rd HA R Hnd Hok) as (s1 & acts1 & E1 & R1 & S1 & C1).
    pose proof (nodup_serve A (conn rd) (aready rd) a (nodup_connect a rd Hnd Hok)) as Hnd1.
    destruct (aserve A (conn rd) (aready rd) a) as [a1 l1]. destruct (IH a1 s1 R1 Hnd1 Hoks) as (s2 & acts2 & E2 & R2 & S2 & C2).
    destruct (arun A rds a1) as [a2 l2]. exists s2, (acts1 ++ acts2).
    split_and!; [by erewrite bind_eq; [|exact E1]|done|by rewrite S2, S1, app_assoc|by apply Forall2_app].
Qed.

(** *** The start *)
Lemma clear_disk_done n : forall i s, exists s', clear_disk n i s = Done () s'.
Proof. induction n as [|n IH]; intros i s; cbn [clear_disk]; [by eexists|]. erewrite bind_eq; [|apply modify_eq]. apply IH. Qed.
Lemma init_fs_done s : exists s', init_fs junk s = Done () s'.
Proof.
  unfold init_fs. erewrite bind_eq; [|apply modify_eq]. destruct (clear_disk_done TOTAL_BLOCK_COUNT 0 (mkFs (disk s) (fun x => if (0 <=? x) && (x <? 4096) then 0 else common_buf s x))) as [s1 E1].
  erewrite bind_eq; [|exact E1]. unfold build_inode, set_inode_bitmap.
  destruct (set_bitmap_eq INODE_BITMAP_START_INDEX 0 s1 ltac:(lia)) as (s2 & E2 & _).
  erewrite bind_eq; [|erewrite bind_eq; [|exact E2]; reflexivity]. unfold build_dentry, set_dentry_bitmap.
  match goal with |- context [(_ ≫= _) ?x] => destruct (set_bitmap_eq DENTRY_BITMAP_START_INDEX 0 x ltac:(lia)) as (s3 & E3 & _) end.
  erewrite bind_eq; [|exact E3]. by eexists.
Qed.

Lemma rep_start A t d o l : holds A t -> rep A no_connection (mkServer t d o (replicate 512 0) [] l).
Proof.
  intros H. split; cbn [tar all_fds handle_to_fd objs]; [done|done|constructor|apply length_replicate|..].
  - intros h p _ Hp. by apply lookup_replicate in Hp as [-> _].
  - intros h h' p _ _ Hp _ Hp0. by apply lookup_replicate in Hp as [-> _].
Qed.
Lemma server_init_spec A start len fuel s : archive_at (archive (tar s)) start (start + len) A -> (length A < TAR_COUNT)%nat -> (length A < fuel)%nat ->
  exists s', server_init junk fuel start len s = Done () s' /\ rep A no_connection s' /\ sent s' = sent s.
Proof.
  intros Ha Hmax Hf. destruct (init_fs_done (sata s)) as [d Ed]. destruct (init_holds A start len fuel (tar s) Ha Hmax Hf) as (t & Et & H).
  exists (mkServer t d (objs s) (replicate 512 0) [] (sent s)). split.
  - unfold server_init. erewrite bind_eq; [|unfold on_sata; by rewrite Ed]. erewrite bind_eq; [|unfold on_tar; cbn [tar set_sata]; by rewrite Et]. reflexivity.
  - split; [|done]. by apply rep_start.
Qed.

End run.

(** ** Two clients *)
(** One opens [/tarfs/d/a], the other [/tarfs/d]; they read in turns; the first
    closes, the second asks for a file that is not there on a new connection. *)
Definition on_handle {B} (h : Z) (x : B) (k : Z) : option B := if k =? h then Some x else None.
Definition msg (type flags len : Z) (text : list Z) : vfs_request :=
  mkVreq 9 (Some ([type; 0; 0; 0; flags; 0; 0; 0; len; 0; 0; 0; 0; 0; 0; 0] ++ text)).
Definition ask (c : option Z) (h : Z) (q : vfs_request) (r : areq) : round := mkRound c (on_handle h q) (on_handle h (9, r)).
Definition two_clients : list round :=
  [ask (Some 5) 5 (msg 2 0 0 (chars "/tarfs/d/a" ++ [0])) (AOpen (chars "/tarfs/d/a"));
   ask (Some 6) 6 (msg 3 0 0 (chars "/tarfs/d" ++ [0])) (AOpendir (chars "/tarfs/d"));
   ask None 5 (msg 0 0 2 []) (ARead 2);
   ask None 6 (msg 4 0 0 []) AReaddir;
   ask None 5 (msg 0 0 2 []) (ARead 2);
   ask None 5 (mkVreq 9 None) AClose;
   ask (Some 7) 7 (msg 2 0 0 (chars "/tarfs/b" ++ [0])) (AOpen (chars "/tarfs/b"))].

Lemma two_listable : listable two_members.
Proof.
  split; [exact two_names|]. intros [|[|[|q]]] path Hq; try discriminate Hq; injection Hq as <-; (split; [|vm_compute; lia]);
    intros [|[|i]] n Hi Hp; try discriminate Hi; injection Hi as <-; vm_compute in Hp; (discriminate Hp || lia).
Qed.
Ltac asks h :=
  split; [cbn; try (split; [lia|intros Hin; repeat (apply elem_of_cons in Hin as [Hin|Hin]; [lia|]); by apply elem_of_nil in Hin]); done|];
  let k := fresh in let Hk := fresh in intros k Hk; unfold ask, on_handle, same_request; cbn [ready aready];
  destruct (Z.eqb_spec k h) as [->|]; [|done].

Lemma two_clients_ok : ok_rounds two_members no_connection two_clients.
Proof.
  unfold two_clients. cbn [ok_rounds]. split_and!; try done.
  - asks 5. split; [done|]. split; [eexists; split_and!; (done || by eexists)|]. split; [cbn; lia|done].
  - asks 6. split; [done|]. split; [eexists; split_and!; (done || by eexists)|]. split; [cbn; lia|done].
  - asks 5. split; [done|]. split; [eexists; split_and!; (done || by eexists)|]. by vm_compute.
  - asks 6. split; [done|]. split; [eexists; split_and!; (done || by eexists)|]. done.
  - asks 5. split; [done|]. split; [eexists; split_and!; (done || by eexists)|]. by vm_compute.
  - asks 5. split; [done|]. split; [by left|done].
  - asks 7. split; [done|]. split; [eexists; split_and!; (done || by eexists)|]. split; [cbn; lia|done].
Qed.
Example two_clients_see : (fun x => (x.1.2, x.2)) <$> (arun two_members two_clients no_connection).2 =
  [(5, RStatus 0); (6, RStatus 0); (5, RData 2 (chars "hi")); (6, REntry (chars "/d/a")); (5, RData 2 (chars "!")); (5, RClosed);
   (7, RStatus ENOENT); (7, RClosed)].
Proof. vm_compute. reflexivity. Qed.

Definition two_server : server := mkServer two_state (mkFs (fun _ _ => 0) (fun _ => 0)) [] [] [] [].
