(* ===== verification/Rw.v ===== *)
(** The file calls of the C library, [libc/rw.c]: a program's side of the file
    protocol.

    The system calls they use are the operations of the class [Ports].  A buffer
    that a program passes is the list of its bytes; what can be read at [res.buf]
    of a response is the list of the bytes that are mapped there.  Reading beyond
    them, and writing beyond a block of [malloc], is [Faulted].  Releasing memory
    ([free], [munmap]) is left out, and [malloc] and [sendpage] succeed.
    [stack_flags] and [stack_len] are fields of a request that are not
    initialised. *)
From S2P Require Import Prelude CString Ioreq.

(** [wait_on] takes the descriptors of its two sets, [get_response] returns its
    result and the mapped bytes. *)
Class Ports (S : Type) := {
  port_connect : Z -> Z -> M S Z;
  wait_on : list Z -> list Z -> M S Z;
  request : Z -> list Z -> M S Z;
  get_response : Z -> M S (Z * list Z)
}.

Record client (S : Type) := mkClient { kernel : S; errno : Z; cwd : list Z }.
Arguments mkClient {S}.
Arguments kernel {S}.
Arguments errno {S}.
Arguments cwd {S}.

Record dirent := mkDirent { d_ino : Z; d_name : list Z }.

Section rw.
Context {S : Type} `{Ports S} (stack_flags stack_len : Z).

Definition sys {A} (m : M S A) : M (client S) A := fun s =>
  match m (kernel s) with Done a k => Done a (mkClient k (errno s) (cwd s)) | Panicked msg => Panicked msg | Faulted => Faulted end.
Definition set_errno (e : Z) : M (client S) () := modify (fun s => mkClient (kernel s) e (cwd s)).
(** [fd_zero] and one [fd_set_set]. *)
Definition one_fd (fd : Z) : list Z := if (0 <=? fd) && (fd <? 512) then [fd] else [].

(** The parts of [read], [write] and [readdir] that send a message and wait for the
    answer; their errors are not looked at. *)
Definition exchange (fd : Z) (msg : list Z) : M (client S) (list Z) :=
  cookie ← sys (request fd msg);
  sys (wait_on (one_fd cookie) []);;
  '(_, buf) ← sys (get_response cookie);
  mret buf.

(** The result and the bytes that are stored. *)
Definition read (fd len : Z) : M (client S) (Z * list Z) :=
  sys (wait_on [] (one_fd fd));;
  buf ← exchange fd (io_req IO_READ stack_flags len);
  err ← deref (int_field buf 0);
  rlen ← deref (field 8 buf 8);
  if negb (err =? 0) then set_errno err;; mret (-1, [])
  else if Z.of_nat (length buf) <? sizeof_io_res + len then fault
  else mret (i64 rlen, take (Z.to_nat len) (drop 16 buf)).

Definition write (fd : Z) (buf : list Z) : M (client S) Z :=
  sys (wait_on [] (one_fd fd));;
  buf ← exchange fd (io_req IO_WRITE stack_flags (Z.of_nat (length buf)) ++ buf);
  err ← deref (int_field buf 0);
  rlen ← deref (field 8 buf 8);
  if negb (err =? 0) then set_errno err;; mret (-1)
  else mret (i64 rlen).

(** The path that is sent: [open] allocates room for [__cwd] and [path], but not for
    the slash between them; the last character of an empty [__cwd] is in front of
    it. *)
Definition open_path (path : list Z) : M (client S) (list Z) :=
  match path with
  | c :: _ =>
      if c =? 47 then mret path
      else s ← get; c ← deref (last (cwd s)); if c =? 47 then mret (cwd s ++ path) else fault
  | [] => s ← get; c ← deref (last (cwd s)); if c =? 47 then mret (cwd s ++ path) else fault
  end.
Definition opendir_path (path : list Z) : M (client S) (list Z) :=
  match path with
  | c :: _ => if c =? 47 then mret path else s ← get; mret (cwd s ++ path)
  | [] => s ← get; mret (cwd s)
  end.

(** [open] and [opendir] after the path is known: the handle, or what is negative. *)
Definition open_handle (type flags : Z) (path : list Z) : M (client S) Z :=
  handle ← sys (port_connect 6 0);
  if handle <? 0 then mret handle
  else
    ret ← sys (wait_on [] (one_fd handle));
    if ret <? 0 then mret ret
    else
      cookie ← sys (request handle (io_req type flags (Z.of_nat (length path)) ++ path ++ [0]));
      if cookie <? 0 then mret cookie
      else
        ret ← sys (wait_on (one_fd cookie) []);
        if ret <? 0 then mret ret
        else
          '(ret, buf) ← sys (get_response cookie);
          if ret <? 0 then mret ret
          else
            tmp ← deref (int_field buf 0);
            if negb (tmp =? 0) then set_errno tmp;; mret (-1) else mret handle.
Definition open (path : list Z) (flags : Z) : M (client S) Z := path ← open_path path; open_handle IO_OPEN flags path.
(** The handle, or [None] for NULL. *)
Definition opendir (path : list Z) : M (client S) (option Z) :=
  path ← opendir_path path; h ← open_handle IO_OPENDIR 0 path; mret (if h <? 0 then None else Some h).

Definition readdir (fd : Z) : M (client S) (option dirent) :=
  sys (wait_on [] (one_fd fd));;
  buf ← exchange fd (io_req IO_READDIR stack_flags stack_len);
  err ← deref (int_field buf 0);
  if negb (err =? 0) then set_errno err;; mret None
  else
    rlen ← deref (field 8 buf 8);
    if rlen =? 0 then mret None
    else
      id ← deref (int_field buf 304);
      name ← deref (text_of (drop 272 buf));
      if (255 <? Z.of_nat (length name)) then fault else mret (Some (mkDirent id name)).
End rw.
