(* ===== verification/RwProofs.v ===== *)
(** What programs get from the file calls: proved against the promise of a file
    service, which the file server keeps. *)
From S2P Require Import Prelude CString Ioreq SataFs Tarfs TarfsProofs SataDir Vfs VfsProofs Rw.

(** ** The promise *)
(** What a program finds in the bytes mapped at [res.buf]; a read has
    room for what was asked for. *)
Definition answers (x : areply) (buf : list Z) : Prop :=
  match x with
  | RStatus err | RWrite err => int_field buf 0 = Some err /\ is_Some (field 8 buf 8)
  | RSeek => int_field buf 0 = Some 0
  | RData room bytes => int_field buf 0 = Some 0 /\ field 8 buf 8 = Some (Z.of_nat (length bytes)) /\ take (length bytes) (drop 16 buf) = bytes
      /\ 16 + room <= Z.of_nat (length buf)
  | REntry name => int_field buf 0 = Some 0 /\ field 8 buf 8 = Some 304 /\ is_Some (int_field buf 304) /\ text_of (drop 272 buf) = Some name
      /\ (length name < 30)%nat
  | REnd => int_field buf 0 = Some 0 /\ field 8 buf 8 = Some 0
  | RClosed => False
  end.
(** Reads that fit a page with the header of the response and that of its block. *)
Definition in_page (r : areq) : Prop := match r with ARead n => n <= 4055 | _ => True end.

(** A service for the tree of [A] behind ports; [inv] relates its state to the table
    of its connections. *)
Class FileService (A : list (list Z * list Z)) {S} `{Ports S} (inv : S -> aserver -> Prop) : Prop := {
  fs_connect s a : inv s a -> (length (order a) < 512)%nat -> exists h s', port_connect 6 0 s = Done h s' /\ 0 <= h < 512 /\ (h ∈ order a -> False)
    /\ inv s' (aconnect (Some h) a);
  fs_ready s a h : inv s a -> h ∈ order a -> exists n, wait_on [] [h] s = Done n s /\ 0 <= n;
  fs_request s a h msg r : inv s a -> h ∈ order a -> encodes (mkVreq 0 (Some msg)) r -> r <> AClose -> allowed r (st a h) -> in_page r ->
    exists c s1 n s2 s3 buf, Rw.request h msg s = Done c s1 /\ 0 <= c < 512 /\ wait_on [c] [] s1 = Done n s2 /\ 0 <= n
      /\ get_response c s2 = Done (0, buf) s3 /\ inv s3 (with_handle h (astep A r (st a h)).1 a)
      /\ match (astep A r (st a h)).2 with [x] => answers x buf | _ => True end;
  fs_range s a h : inv s a -> h ∈ order a -> 0 <= h < 512;
  fs_fresh s a h : inv s a -> (h ∈ order a -> False) -> st a h = Fresh;
}.

(** ** Programs *)
Section programs.
Context {S : Type} `{Ports S} (sf sl : Z).
(** Reads an open file to its end. *)
Fixpoint read_to_end (fuel : nat) (fd count : Z) : M (client S) (list Z) :=
  match fuel with
  | O => fault
  | Datatypes.S fuel =>
      '(n, bytes) ← read sf fd count;
      if n <=? 0 then mret [] else l ← read_to_end fuel fd count; mret (take (Z.to_nat n) bytes ++ l)
  end.
Definition cat (fuel : nat) (path : list Z) (flags count : Z) : M (client S) (option (list Z)) :=
  fd ← open path flags; if fd <? 0 then mret None else l ← read_to_end fuel fd count; mret (Some l).
Fixpoint readdir_to_end (fuel : nat) (fd : Z) : M (client S) (list (list Z)) :=
  match fuel with
  | O => fault
  | Datatypes.S fuel =>
      o ← readdir sf sl fd;
      match o with None => mret [] | Some d => l ← readdir_to_end fuel fd; mret (d_name d :: l) end
  end.
Definition ls (fuel : nat) (path : list Z) : M (client S) (option (list (list Z))) :=
  o ← opendir path; match o with None => mret None | Some fd => l ← readdir_to_end fuel fd; mret (Some l) end.
End programs.

Lemma encodes_req type flags len text r : 0 <= type < 2 ^ 32 ->
  match r with
  | AOpen path => type = IO_OPEN /\ exists rest, text = path ++ 0 :: rest
  | AOpendir path => type = IO_OPENDIR /\ exists rest, text = path ++ 0 :: rest
  | ARead n => type = IO_READ /\ len = n /\ 0 <= n < 2 ^ 64
  | AWrite => type = IO_WRITE
  | AReaddir => type = IO_READDIR
  | _ => False
  end ->
  match r with AOpen path | AOpendir path => Forall (fun c => 0 < c < 256) path | _ => True end ->
  encodes (mkVreq 0 (Some (io_req type flags len ++ text))) r.
Proof.
  intros Ht Hr Hz. assert (io_req type flags len ++ text <> []) as Hne.
  { intros E. apply (f_equal length) in E. rewrite length_app, length_io_req in E. cbn in E. lia. }
  destruct r as [path|path|n| | |to|]; try done; eexists; (split; [reflexivity|]; split; [done|]); rewrite ?req_type, ?req_flags, ?req_text, ?req_len by done.
  - destruct Hr as [-> [rest ->]]. split_and!; [done|by eexists|by apply text_of_string].
  - destruct Hr as [-> [rest ->]]. split_and!; [done|by apply text_of_string].
  - destruct Hr as (-> & -> & Hn). unfold u64, wrap. by rewrite Z.mod_small.
  - subst. split; [done|by eexists].
  - by subst.
Qed.

Section client.
Context (A : list (list Z * list Z)) {S : Type} `{Ports S} (inv : S -> aserver -> Prop) `{!FileService A inv} (sf sl : Z).

Lemma sys_eq {B} (m : M S B) x k' (cl : client S) : m (kernel cl) = Done x k' -> sys m cl = Done x (mkClient k' (errno cl) (cwd cl)).
Proof. intros E. unfold sys. by rewrite E. Qed.
Lemma one_fd_eq h : 0 <= h < 512 -> one_fd h = [h].
Proof. intros Hh. unfold one_fd. by rewrite (proj2 (Z.leb_le 0 h)), (proj2 (Z.ltb_lt h 512)) by lia. Qed.

Lemma exchange_spec cl a h msg r : inv (kernel cl) a -> h ∈ order a -> encodes (mkVreq 0 (Some msg)) r -> r <> AClose -> allowed r (st a h) -> in_page r ->
  exists buf k, exchange h msg cl = Done buf (mkClient k (errno cl) (cwd cl)) /\ inv k (with_handle h (astep A r (st a h)).1 a)
    /\ match (astep A r (st a h)).2 with [x] => answers x buf | _ => True end.
Proof.
  intros Hi Hh He Hr Ha Hp. destruct (fs_request _ _ _ _ _ Hi Hh He Hr Ha Hp) as (c & s1 & n & s2 & s3 & buf & E1 & Hc & E2 & Hn & E3 & Hi3 & Hx).
  exists buf, s3. split; [|done]. unfold exchange. erewrite bind_eq; [|by apply sys_eq]. rewrite one_fd_eq by done.
  erewrite bind_eq; [|by apply sys_eq]. by erewrite bind_eq; [|by apply sys_eq].
Qed.
Lemma ready_eq cl a h : inv (kernel cl) a -> h ∈ order a -> exists n, sys (wait_on [] (one_fd h)) cl = Done n cl /\ 0 <= n.
Proof.
  intros Hi Hh. rewrite (one_fd_eq h) by (by eapply fs_range). destruct (fs_ready _ _ _ Hi Hh) as (n & E & Hn). exists n. split; [|done].
  erewrite sys_eq; [|exact E]. by destruct cl.
Qed.

Lemma read_spec cl a h data pos n : inv (kernel cl) a -> h ∈ order a -> st a h = AFile data pos -> 1 <= n <= 4055 -> Z.of_nat (length data) + n < 2 ^ 31 ->
  let chunk := take (Z.to_nat n) (drop pos data) in
  exists k bytes, read sf h n cl = Done (Z.of_nat (length chunk), bytes) (mkClient k (errno cl) (cwd cl)) /\ take (length chunk) bytes = chunk
    /\ inv k (with_handle h (Some (AFile data (pos + length chunk))) a).
Proof.
  intros Hi Hh Hst Hn Hlt chunk. destruct (ready_eq cl a h Hi Hh) as (w & Ew & _).
  destruct (exchange_spec cl a h (io_req IO_READ sf n ++ []) (ARead n) Hi Hh) as (buf & k & E & Hk & Hx).
  { by apply encodes_req; [unfold IO_READ; lia|split_and!; (done || lia)|done]. }
  { done. }
  { rewrite Hst. cbn. lia. }
  { cbn. lia. }
  rewrite Hst in Hk, Hx. cbn in Hk, Hx. fold chunk in Hk, Hx. rewrite app_nil_r in E. destruct Hx as (He & Hl & Hb & Hlen).
  assert (length chunk <= Z.to_nat n)%nat as Hc by (unfold chunk; rewrite length_take; lia).
  exists k, (take (Z.to_nat n) (drop 16 buf)). split_and!; [|by rewrite take_take, Nat.min_l by lia|done].
  unfold read. erewrite bind_eq; [|exact Ew]. erewrite bind_eq; [|exact E]. rewrite He, Hl. erewrite bind_eq; [|by apply deref_eq].
  erewrite bind_eq; [|by apply deref_eq]. cbn [Z.eqb negb]. rewrite (proj2 (Z.ltb_ge _ _)) by (unfold sizeof_io_res; lia).
  unfold i64, swrap. rewrite Z.mod_small by lia. unfold mret, M_ret. do 2 f_equal. lia.
Qed.

Lemma read_to_end_spec data n fuel : 1 <= n <= 4055 -> Z.of_nat (length data) + n < 2 ^ 31 -> forall cl a h pos,
  inv (kernel cl) a -> h ∈ order a -> st a h = AFile data pos -> (pos <= length data)%nat -> (length data - pos < fuel)%nat ->
  exists k, read_to_end sf fuel h n cl = Done (drop pos data) (mkClient k (errno cl) (cwd cl)).
Proof.
  intros Hn Hlt. induction fuel as [|fuel IH]; intros cl a h pos Hi Hh Hst Hp Hf; [lia|]. cbn [read_to_end].
  destruct (read_spec cl a h data pos n Hi Hh Hst Hn Hlt) as (k & bytes & E & Hb & Hk). set (chunk := take (Z.to_nat n) (drop pos data)) in *.
  assert (length chunk = Z.to_nat n `min` (length data - pos))%nat as Hc by (unfold chunk; by rewrite length_take, length_drop).
  erewrite bind_eq; [|exact E]. cbv beta iota. destruct (Z.leb_spec (Z.of_nat (length chunk)) 0) as [Hz|Hz].
  - exists k. by rewrite drop_ge by lia.
  - destruct (IH (mkClient k (errno cl) (cwd cl)) (with_handle h (Some (AFile data (pos + length chunk))) a) h (pos + length chunk)%nat) as (k2 & E2);
      [done|done|cbn; by rewrite Z.eqb_refl|lia|lia|].
    exists k2. erewrite bind_eq; [|exact E2]. rewrite Nat2Z.id, Hb. unfold mret, M_ret. f_equal. cbn [errno cwd].
    rewrite <- (take_drop (Z.to_nat n) (drop pos data)). fold chunk. f_equal. rewrite drop_drop.
    destruct (decide (Z.to_nat n <= length data - pos)%nat); [f_equal; lia|]. by rewrite !drop_ge by lia.
Qed.

(** *** Opening *)
Lemma open_handle_spec cl a type flags path r : inv (kernel cl) a -> (length (order a) < 512)%nat -> Forall (fun c => 0 < c < 256) path ->
  (length path < 200)%nat -> has_prefix sata_path path = false -> (type = IO_OPEN /\ r = AOpen path \/ type = IO_OPENDIR /\ r = AOpendir path) ->
  exists h k, inv k (with_handle h (astep A r Fresh).1 (aconnect (Some h) a)) /\ 0 <= h /\
    match (astep A r Fresh).2 with
    | [RStatus e] => open_handle type flags path cl =
        if e =? 0 then Done h (mkClient k (errno cl) (cwd cl)) else Done (-1) (mkClient k e (cwd cl))
    | _ => True
    end.
Proof.
  intros Hi Hn Hz Hlen Hs Hr. destruct (fs_connect _ _ Hi Hn) as (h & k1 & E1 & Hh & Hin & Hi1). set (a1 := aconnect (Some h) a) in *.
  assert (st a1 h = Fresh) as Hst by exact (fs_fresh _ _ _ Hi Hin). assert (h ∈ order a1) as Hh1 by constructor. set (cl1 := mkClient k1 (errno cl) (cwd cl)).
  destruct (ready_eq cl1 a1 h Hi1 Hh1) as (w & Ew & Hw).
  destruct (fs_request k1 a1 h (io_req type flags (Z.of_nat (length path)) ++ path ++ [0]) r Hi1 Hh1) as (c & s1 & n & s2 & s3 & buf & E2 & Hc & E3 & Hn3 & E4 & Hi4 & Hx).
  { apply encodes_req; [destruct Hr as [[-> _]|[-> _]]; unfold IO_OPEN, IO_OPENDIR; lia|..]; destruct Hr as [[-> ->]|[-> ->]]; try done; (split; [done|by eexists]). }
  { by destruct Hr as [[_ ->]|[_ ->]]. }
  { rewrite Hst. by destruct Hr as [[_ ->]|[_ ->]]. }
  { by destruct Hr as [[_ ->]|[_ ->]]. }
  rewrite Hst in Hi4, Hx. exists h, s3. split; [exact Hi4|]. split; [lia|]. destruct (astep A r Fresh).2 as [|[e| | | | | |] [|]]; try done.
  destruct Hx as [He _]. unfold open_handle. erewrite bind_eq; [|by apply sys_eq]. rewrite (proj2 (Z.ltb_ge h 0)) by lia.
  erewrite bind_eq; [|exact Ew]. rewrite (proj2 (Z.ltb_ge w 0)) by lia. erewrite bind_eq; [|by apply sys_eq]. rewrite (proj2 (Z.ltb_ge c 0)), (one_fd_eq c) by lia.
  erewrite bind_eq; [|by apply sys_eq]. rewrite (proj2 (Z.ltb_ge n 0)) by lia. erewrite bind_eq; [|by apply sys_eq]. cbv beta iota. cbn [Z.ltb Z.compare].
  rewrite He. erewrite bind_eq; [|by apply deref_eq]. by destruct (Z.eqb_spec e 0).
Qed.

Lemma open_found cl a type flags path r x : inv (kernel cl) a -> (length (order a) < 512)%nat -> Forall (fun c => 0 < c < 256) path ->
  (length path < 200)%nat -> has_prefix sata_path path = false -> (type = IO_OPEN /\ r = AOpen path \/ type = IO_OPENDIR /\ r = AOpendir path) ->
  astep A r Fresh = (Some x, [RStatus 0]) ->
  exists h k a', open_handle type flags path cl = Done h (mkClient k (errno cl) (cwd cl)) /\ 0 <= h /\ inv k a' /\ h ∈ order a' /\ st a' h = x.
Proof.
  intros Hi Hn Hz Hlen Hs Hr Hx. destruct (open_handle_spec cl a type flags path r Hi Hn Hz Hlen Hs Hr) as (h & k & Hk & Hh & E).
  rewrite Hx in Hk, E. exists h, k, (with_handle h (Some x) (aconnect (Some h) a)). split_and!; [exact E|done|done|by constructor|cbn; by rewrite Z.eqb_refl].
Qed.
Lemma open_missing cl a type flags path r : inv (kernel cl) a -> (length (order a) < 512)%nat -> Forall (fun c => 0 < c < 256) path ->
  (length path < 200)%nat -> has_prefix sata_path path = false -> (type = IO_OPEN /\ r = AOpen path \/ type = IO_OPENDIR /\ r = AOpendir path) ->
  astep A r Fresh = (None, [RStatus ENOENT]) ->
  exists k, open_handle type flags path cl = Done (-1) (mkClient k ENOENT (cwd cl)).
Proof.
  intros Hi Hn Hz Hlen Hs Hr Hx. destruct (open_handle_spec cl a type flags path r Hi Hn Hz Hlen Hs Hr) as (h & k & Hk & Hh & E).
  rewrite Hx in E. by exists k.
Qed.

Lemma cat_spec cl a fuel path flags n : inv (kernel cl) a -> (length (order a) < 512)%nat -> head path = Some 47 -> Forall (fun c => 0 < c < 256) path ->
  (length path < 200)%nat -> has_prefix sata_path path = false -> 1 <= n <= 4055 ->
  match afile A path with
  | Some data => Z.of_nat (length data) + n < 2 ^ 31 -> (length data < fuel)%nat ->
      exists k, cat sf fuel path flags n cl = Done (Some data) (mkClient k (errno cl) (cwd cl))
  | None => exists k, cat sf fuel path flags n cl = Done None (mkClient k ENOENT (cwd cl))
  end.
Proof.
  intros Hi Hn Hp Hz Hlen Hs Hc. assert (open path flags cl = open_handle IO_OPEN flags path cl) as Eo.
  { unfold open. erewrite bind_eq; [done|]. destruct path as [|c path]; [done|]. by injection Hp as ->. }
  destruct (afile A path) as [data|] eqn:Ha.
  - intros Hlt Hf. destruct (open_found cl a IO_OPEN flags path (AOpen path) (AFile data 0) Hi Hn Hz Hlen Hs ltac:(by left)) as (h & k & a' & E & Hh & Hk & Hin & Hst).
    { cbn. by rewrite Ha. }
    destruct (read_to_end_spec data n fuel Hc Hlt (mkClient k (errno cl) (cwd cl)) a' h 0 Hk Hin Hst ltac:(lia) ltac:(lia)) as (k2 & E2).
    exists k2. unfold cat. rewrite <- Eo in E. erewrite bind_eq; [|exact E]. rewrite (proj2 (Z.ltb_ge h 0)) by lia. by erewrite bind_eq; [|exact E2].
  - destruct (open_missing cl a IO_OPEN flags path (AOpen path) Hi Hn Hz Hlen Hs ltac:(by left)) as (k & E).
    { cbn. by rewrite Ha. }
    exists k. unfold cat. rewrite <- Eo in E. by erewrite bind_eq; [|exact E].
Qed.

(** *** Listing *)
Lemma readdir_spec cl a h names : inv (kernel cl) a -> h ∈ order a -> st a h = ADir names ->
  exists k o, readdir sf sl h cl = Done o (mkClient k (errno cl) (cwd cl)) /\ inv k (with_handle h (Some (ADir (tail names))) a)
    /\ d_name <$> o = head names.
Proof.
  intros Hi Hh Hst. destruct (ready_eq cl a h Hi Hh) as (w & Ew & _).
  destruct (exchange_spec cl a h (io_req IO_READDIR sf sl ++ []) AReaddir Hi Hh) as (buf & k & E & Hk & Hx).
  { apply encodes_req; [unfold IO_READDIR; lia|done|done]. }
  { done. } { by rewrite Hst. } { done. }
  rewrite Hst in Hk, Hx. rewrite app_nil_r in E. unfold readdir.
  destruct names as [|name names]; cbn in Hk, Hx.
  - destruct Hx as (He & Hl). exists k, None. split; [|done]. erewrite bind_eq; [|exact Ew]. erewrite bind_eq; [|exact E].
    erewrite bind_eq; [|by apply deref_eq]. cbn [Z.eqb negb]. by erewrite bind_eq; [|by apply deref_eq].
  - destruct Hx as (He & Hl & [id Hid] & Hname & Hshort). exists k, (Some (mkDirent id name)). split; [|done].
    erewrite bind_eq; [|exact Ew]. erewrite bind_eq; [|exact E]. erewrite bind_eq; [|by apply deref_eq]. cbn [Z.eqb negb].
    erewrite bind_eq; [|by apply deref_eq]. cbn [Z.eqb]. erewrite bind_eq; [|by apply deref_eq]. erewrite bind_eq; [|by apply deref_eq].
    by rewrite (proj2 (Z.ltb_ge 255 _)) by lia.
Qed.
Lemma readdir_to_end_spec fuel : forall names cl a h, inv (kernel cl) a -> h ∈ order a -> st a h = ADir names -> (length names < fuel)%nat ->
  exists k, readdir_to_end sf sl fuel h cl = Done names (mkClient k (errno cl) (cwd cl)).
Proof.
  induction fuel as [|fuel IH]; intros names cl a h Hi Hh Hst Hf; [lia|]. cbn [readdir_to_end].
  destruct (readdir_spec cl a h names Hi Hh Hst) as (k & o & E & Hk & Ho). erewrite bind_eq; [|exact E].
  destruct names as [|name names], o as [[id x]|]; try discriminate Ho; [by exists k|]. injection Ho as ->.
  destruct (IH names (mkClient k (errno cl) (cwd cl)) (with_handle h (Some (ADir names)) a) h Hk Hh ltac:(cbn; by rewrite Z.eqb_refl) ltac:(cbn in Hf; lia)) as (k2 & E2).
  exists k2. by erewrite bind_eq; [|exact E2].
Qed.
Lemma ls_spec cl a fuel path : inv (kernel cl) a -> (length (order a) < 512)%nat -> head path = Some 47 -> Forall (fun c => 0 < c < 256) path ->
  (length path < 200)%nat -> has_prefix sata_path path = false ->
  match adir A path with
  | Some names => (length names < fuel)%nat -> exists k, ls sf sl fuel path cl = Done (Some names) (mkClient k (errno cl) (cwd cl))
  | None => exists k, ls sf sl fuel path cl = Done None (mkClient k ENOENT (cwd cl))
  end.
Proof.
  intros Hi Hn Hp Hz Hlen Hs. assert (opendir_path path cl = Done path cl) as Eo.
  { destruct path as [|c path]; [done|]. by injection Hp as ->. }
  destruct (adir A path) as [names|] eqn:Ha.
  - intros Hf. destruct (open_found cl a IO_OPENDIR 0 path (AOpendir path) (ADir names) Hi Hn Hz Hlen Hs ltac:(by right)) as (h & k & a' & E & Hh & Hk & Hin & Hst).
    { cbn. by rewrite Ha. }
    destruct (readdir_to_end_spec fuel names (mkClient k (errno cl) (cwd cl)) a' h Hk Hin Hst Hf) as (k2 & E2). exists k2. unfold ls.
    erewrite bind_eq; [|unfold opendir; erewrite bind_eq; [|exact Eo]; erewrite bind_eq; [|exact E]; rewrite (proj2 (Z.ltb_ge h 0)) by lia; reflexivity].
    cbv beta iota. by erewrite bind_eq; [|exact E2].
  - destruct (open_missing cl a IO_OPENDIR 0 path (AOpendir path) Hi Hn Hz Hlen Hs ltac:(by right)) as (k & E).
    { cbn. by rewrite Ha. }
    exists k. unfold ls. by erewrite bind_eq; [|unfold opendir; erewrite bind_eq; [|exact Eo]; erewrite bind_eq; [|exact E]; reflexivity].
Qed.
End client.

(** ** The file server keeps the promise *)
(** One program and the server: a connection takes the lowest free handle, a request
    is served at once.  What is mapped at [res.buf] is at least the message; a block
    of up to 4072 bytes lies inside one page, and is mapped as a whole. *)
Definition free_handle (l : list Z) : Z := default 0 (head (filter (fun h => h ∉ l) (seqZ 0 512))).
Definition last_answer (l : list action) : option (Z * Z * memory) :=
  last (omap (fun x => match x with Answer _ len size obj => Some (len, size, obj) | Close _ => None end) l).
Definition mapped (x : Z * Z * memory) : list Z :=
  (fun i => x.2 (Z.of_nat i)) <$> seq 0 (Z.to_nat (if x.1.2 <=? 4072 then x.1.2 else x.1.1)).

Section world.
Context (A : list (list Z * list Z)) (HA : listable A) (junk : memory) (sb_at entry_at inode_at : nat -> Z).
#[local] Instance server_ports : Ports server := {
  port_connect n len := if n =? 6 then s ← get; serve junk sb_at entry_at inode_at (Some (free_handle (all_fds s))) (fun _ => None);; mret (free_handle (all_fds s)) else mret (-1);
  wait_on _ _ := mret 1;
  Rw.request h msg := serve junk sb_at entry_at inode_at None (on_handle h (mkVreq 0 (Some msg)));; mret 0;
  get_response c := s ← get; mret (match last_answer (sent s) with Some x => (0, mapped x) | None => (-1, []) end)
}.
Lemma server_connect s : port_connect 6 0 s =
  (serve junk sb_at entry_at inode_at (Some (free_handle (all_fds s))) (fun _ => None);; mret (free_handle (all_fds s))) s.
Proof. done. Qed.
Lemma server_request h msg s : Rw.request h msg s = (serve junk sb_at entry_at inode_at None (on_handle h (mkVreq 0 (Some msg)));; mret 0) s.
Proof. done. Qed.
Lemma server_response c s : get_response c s = Done (match last_answer (sent s) with Some x => (0, mapped x) | None => (-1, []) end) s.
Proof. done. Qed.
Definition served (s : server) (a : aserver) : Prop := rep A a s /\ NoDup (order a) /\ forall h, (h ∈ order a -> False) -> st a h = Fresh.

Lemma free_handle_spec l : NoDup l -> (length l < 512)%nat -> 0 <= free_handle l < 512 /\ (free_handle l ∈ l -> False).
Proof.
  intros Hnd Hl. unfold free_handle. destruct (filter (fun h => h ∉ l) (seqZ 0 512)) as [|h t] eqn:E.
  - exfalso. assert (seqZ 0 512 ⊆+ l) as Hsub.
    { apply NoDup_submseteq; [apply NoDup_seqZ|]. intros x Hx. destruct (decide (x ∈ l)) as [|Hn]; [done|]. exfalso.
      assert (x ∈ filter (fun h => h ∉ l) (seqZ 0 512)) as Hf by (by apply list_elem_of_filter). rewrite E in Hf. by apply elem_of_nil in Hf. }
    apply submseteq_length in Hsub. rewrite length_seqZ in Hsub. lia.
  - cbn. assert (h ∈ filter (fun h => h ∉ l) (seqZ 0 512)) as Hf by (rewrite E; constructor).
    apply list_elem_of_filter in Hf as [Hn Hs]. apply elem_of_seqZ in Hs. split; [lia|done].
Qed.

Lemma aserve_idle fds a : aserve_each A fds (fun _ => None) a = (a, []).
Proof. induction fds as [|h fds IH]; cbn; [done|by rewrite IH]. Qed.
Lemma aserve_other fds h x a : h ∉ fds -> aserve_each A fds (on_handle h x) a = (a, []).
Proof.
  induction fds as [|k fds IH]; intros Hh; cbn; [done|]. apply not_elem_of_cons in Hh as [Hk Hh]. unfold on_handle at 1.
  rewrite (proj2 (Z.eqb_neq k h)) by done. by rewrite IH.
Qed.
Lemma aserve_one fds h c r a : NoDup fds -> h ∈ fds -> aserve_each A fds (on_handle h (c, r)) a = arequest A h c r a.
Proof.
  induction fds as [|k fds IH]; intros Hnd Hh; [by apply elem_of_nil in Hh|]. apply NoDup_cons in Hnd as [Hk Hnd]. cbn. unfold on_handle at 1.
  destruct (Z.eqb_spec k h) as [->|Hkh].
  - destruct (arequest A h c r a) as [a1 l1]. by rewrite aserve_other, app_nil_r.
  - apply elem_of_cons in Hh as [Hh|Hh]; [congruence|]. rewrite IH by done. by destruct (arequest A h c r a).
Qed.

Lemma field_mem n obj k off : (off + n <= k)%nat -> field n ((fun i => obj (Z.of_nat i)) <$> seq 0 k) off = Some (get_le n obj (Z.of_nat off)).
Proof.
  intros Hk. unfold field. rewrite length_fmap, length_seq, (proj2 (Nat.leb_le _ _)) by lia. f_equal. apply get_le_ext. intros x Hx.
  rewrite list_lookup_fmap, lookup_seq_lt by lia. cbn. f_equal. lia.
Qed.
Lemma bytes_mem obj a l k : bytes_at obj (Z.of_nat a) l -> (a + length l <= k)%nat -> exists rest,
  drop a ((fun i => obj (Z.of_nat i)) <$> seq 0 k) = l ++ rest.
Proof.
  intros Hb Hk. exists ((fun i => obj (Z.of_nat i)) <$> seq (a + length l) (k - a - length l)).
  rewrite <- fmap_drop, drop_seq. replace (k - a)%nat with (length l + (k - a - length l))%nat at 1 by lia. rewrite seq_app, fmap_app. f_equal.
  apply list_eq. intros i. rewrite list_lookup_fmap. destruct (l !! i) as [c|] eqn:Hi.
  - rewrite lookup_seq_lt by (by eapply lookup_lt_Some). cbn. f_equal. rewrite <- (bytes_at_lookup _ _ _ _ _ Hb Hi). f_equal. lia.
  - rewrite lookup_seq_ge; [done|by apply lookup_ge_None].
Qed.

(** What is sent is what the program finds. *)
Definition fits (x : areply) : Prop := match x with RData room _ => 0 <= room <= 4055 | _ => True end.
Lemma answers_mapped c h x act : carries c h x act -> fits x -> x <> RClosed ->
  exists len size obj, act = Answer c len size obj /\ answers x (mapped (len, size, obj)).
Proof.
  intros Hc Hf Hx. destruct act as [cookie len size obj|fd]; [|by destruct x]. exists len, size, obj.
  assert (cookie = c) as -> by (destruct x; cbn in Hc; naive_solver). split; [done|].
  assert (forall k, (4 <= k)%nat -> int_field ((fun i => obj (Z.of_nat i)) <$> seq 0 k) 0 = Some (err_of obj)) as Herr
    by (intros k Hk; unfold int_field; rewrite field_mem by lia; done).
  assert (forall k, (16 <= k)%nat -> field 8 ((fun i => obj (Z.of_nat i)) <$> seq 0 k) 8 = Some (len_of obj)) as Hlen
    by (intros k Hk; rewrite field_mem by lia; done).
  unfold mapped; cbn [fst snd]. destruct x as [err|room bytes|err| |name| |]; cbv beta iota delta [carries] in Hc; [| | | | | |done];
    [destruct Hc as (_ & -> & -> & He)|destruct Hc as (_ & -> & Hle & -> & He & Hl & Hb)|destruct Hc as (_ & -> & -> & He & Hl)
    |destruct Hc as (_ & -> & -> & He & Hl)|destruct Hc as (_ & -> & -> & He & Hl & [Hb Hz] & Hs)|destruct Hc as (_ & -> & -> & He & Hl)];
    rewrite (proj2 (Z.leb_le _ 4072)) by (cbn in Hf; lia); unfold answers; rewrite Herr, He by lia; rewrite ?Hlen by lia.
  - split; [done|by eexists].
  - cbn in Hf. rewrite Hl. destruct (bytes_mem obj 16 bytes (Z.to_nat (16 + room + 1)) Hb ltac:(lia)) as [rest ->].
    rewrite take_app_length, length_fmap, length_seq. split_and!; (done || lia).
  - split; [done|by eexists].
  - done.
  - rewrite Hl. destruct (bytes_mem obj 272 (name ++ [0]) (Z.to_nat 321) Hb ltac:(rewrite length_app; cbn; lia)) as [rest ->].
    split_and!; [done|done|unfold int_field; rewrite field_mem by lia; by eexists| |done]. rewrite <- app_assoc. by apply text_of_string.
  - by rewrite Hl.
Qed.

Lemma last_answer_app l x acts c h closed : Forall2 (carries c h) (x :: closed) acts -> Forall (fun y => y = RClosed) closed -> fits x -> x <> RClosed ->
  exists y, last_answer (l ++ acts) = Some y /\ answers x (mapped y).
Proof.
  intros Hc Hcl Hf Hx. apply Forall2_cons_inv_l in Hc as (act & acts' & Hact & Hrest & ->).
  destruct (answers_mapped c h x act Hact Hf Hx) as (len & size & obj & -> & Ha). exists (len, size, obj). split; [|done].
  unfold last_answer. rewrite omap_app. cbn. replace (omap _ acts') with (@nil (Z * Z * memory)); [by rewrite last_snoc|].
  clear -Hrest Hcl. induction Hrest as [|y act ys acts Hy _ IH]; [done|]. apply Forall_cons in Hcl as [-> Hcl]. destruct act; [done|]. cbn. by apply IH.
Qed.

Lemma served_with s a h o : rep A (with_handle h o a) s -> NoDup (order a) -> (forall k, (k ∈ order a -> False) -> st a k = Fresh) ->
  h ∈ order a -> served s (with_handle h o a).
Proof.
  intros R Hnd Hfr Hh.
  split; [done|]. destruct o as [x|]; cbn; (split; [first [done|by apply NoDup_filter]|]); intros k Hk.
  - destruct (Z.eqb_spec k h) as [->|]; [done|by apply Hfr].
  - destruct (Z.eqb_spec k h) as [->|]; [done|]. apply Hfr. intros Hin. apply Hk. by apply list_elem_of_filter.
Qed.

Lemma serve_round s a rd : served s a -> ok_round a rd ->
  exists s' acts, serve junk sb_at entry_at inode_at (conn rd) (ready rd) s = Done () s' /\ rep A (aserve A (conn rd) (aready rd) a).1 s'
    /\ sent s' = sent s ++ acts /\ Forall2 carries3 (aserve A (conn rd) (aready rd) a).2 acts.
Proof. intros (R & Hnd & _) Hok. by apply serve_spec. Qed.

Lemma astep_fits r a : in_page r -> allowed r a -> r <> AClose ->
  exists x, (astep A r a).2 = [x] /\ fits x /\ x <> RClosed /\ Forall (fun y => y = RClosed) (closed (astep A r a).1).
Proof.
  intros Hp Ha Hr. assert (forall o, Forall (fun y => y = RClosed) (closed o)) as Hc by (intros [x|]; by repeat constructor).
  destruct r as [path|path|n| | |to|], a as [|data pos|names]; cbn in Ha; try done; cbn [astep].
  all: try (eexists; split; [reflexivity|]; split; [cbn; cbn in Hp; (done || lia)|]; by split).
  - destruct (afile A path); (eexists; split; [reflexivity|]; split; [done|]; by split).
  - destruct (adir A path); (eexists; split; [reflexivity|]; split; [done|]; by split).
  - destruct names; (eexists; split; [reflexivity|]; split; [done|]; by split).
Qed.

#[local] Instance server_service : FileService A served.
Proof.
  split.
  - intros s a Hs Hl. pose proof Hs as (R & Hnd & Hfr). destruct (free_handle_spec (order a) Hnd Hl) as [Hh Hin].
    destruct (serve_round s a (mkRound (Some (free_handle (order a))) (fun _ => None) (fun _ => None)) Hs) as (s' & acts & E & R' & _).
    { split; [by split|]. done. }
    exists (free_handle (order a)), s'. split.
    + etrans; [apply (server_connect s)|]. rewrite (r_order _ _ _ R). by erewrite bind_eq; [|exact E].
    + split; [done|]. split; [done|]. cbn [conn aready] in R'. unfold aserve in R'. rewrite aserve_idle in R'. split; [exact R'|].
      split; [constructor; [intros Hx; by apply Hin|done]|]. intros k Hk. apply Hfr. intros Hk2. apply Hk. by constructor.
  - intros s a h _ _. exists 1. split; [done|lia].
  - intros s a h msg r Hs Hh He Hr Ha Hp. pose proof Hs as (R & Hnd & Hfr).
    destruct (serve_round s a (mkRound None (on_handle h (mkVreq 0 (Some msg))) (on_handle h (0, r))) Hs) as (s' & acts & E & R' & S' & C').
    { split; [done|]. intros k Hk. unfold on_handle. cbn. destruct (Z.eqb_spec k h) as [->|]; done. }
    cbn [conn aready] in R', C'. unfold aserve in R', C'. cbn [aconnect] in R', C'. rewrite aserve_one in R', C' by done. unfold arequest in R', C'.
    destruct (astep_fits r (st a h) Hp Ha Hr) as (x & Ex & Hf & Hx & Hcl). destruct (astep A r (st a h)) as [o l]. cbn [fst snd] in Ex, R', C'. subst l.
    rewrite Forall2_fmap_l in C'. destruct (last_answer_app (sent s) x acts 0 h (closed o) C' Hcl Hf Hx) as (y & Ey & Hy).
    exists 0, s', 1, s', s', (mapped y). split_and!; [etrans; [apply server_request|]; by erewrite bind_eq; [|exact E]|lia|lia|done|lia| | |exact Hy].
    + etrans; [apply (server_response 0 s')|]. by rewrite S', Ey.
    + by apply (served_with s' a h o).
  - intros s a h (R & _) Hh. pose proof (r_range _ _ _ R) as Hr. rewrite Forall_forall in Hr. by apply Hr.
  - intros s a h (_ & _ & Hfr). apply Hfr.
Qed.
End world.

(** *** From the archive to the program *)
(** C26: A program that opens a path below [/tarfs] and reads to the end, [n] bytes
    at a time, through the C library, the messages and the file server, gets the
    contents that the file has in the archive; for a path that is not in the
    archive [open] fails with ENOENT. *)
Theorem cat_correct A junk sb_at entry_at inode_at start len fuel s sf path flags n e w :
  archive_at (archive (tar s)) start (start + len) A -> (length A < TAR_COUNT)%nat -> (length A < fuel)%nat -> listable A ->
  head path = Some 47 -> Forall (fun c => 0 < c < 256) path -> (length path < 200)%nat -> has_prefix sata_path path = false -> 1 <= n <= 4055 ->
  exists s1, server_init junk fuel start len s = Done () s1 /\
  match afile A path with
  | Some data => Z.of_nat (length data) + n < 2 ^ 31 -> (length data < fuel)%nat ->
      exists s2, cat (H := server_ports junk sb_at entry_at inode_at) sf fuel path flags n (mkClient s1 e w) = Done (Some data) (mkClient s2 e w)
  | None => exists s2, cat (H := server_ports junk sb_at entry_at inode_at) sf fuel path flags n (mkClient s1 e w) = Done None (mkClient s2 ENOENT w)
  end.
Proof.
  intros Ha Hmax Hf HA Hp Hz Hlen Hs Hn. destruct (server_init_spec junk A start len fuel s Ha Hmax Hf) as (s1 & E1 & R1 & _). exists s1. split; [done|].
  apply (cat_spec A (served A) (FileService0 := server_service A HA junk sb_at entry_at inode_at) sf (mkClient s1 e w) no_connection); try done; [|cbn; lia].
  split; [done|]. split; [constructor|done].
Qed.

(** C27: A program that opens a directory below [/tarfs], or [/] itself, and reads
    its entries to the end gets the names of its members, in the order of the
    archive; for a path that is not there [opendir] fails with ENOENT. *)
Theorem ls_correct A junk sb_at entry_at inode_at start len fuel s sf sl path e w :
  archive_at (archive (tar s)) start (start + len) A -> (length A < TAR_COUNT)%nat -> (length A < fuel)%nat -> listable A ->
  head path = Some 47 -> Forall (fun c => 0 < c < 256) path -> (length path < 200)%nat -> has_prefix sata_path path = false ->
  exists s1, server_init junk fuel start len s = Done () s1 /\
  match adir A path with
  | Some names => (length names < fuel)%nat ->
      exists s2, ls (H := server_ports junk sb_at entry_at inode_at) sf sl fuel path (mkClient s1 e w) = Done (Some names) (mkClient s2 e w)
  | None => exists s2, ls (H := server_ports junk sb_at entry_at inode_at) sf sl fuel path (mkClient s1 e w) = Done None (mkClient s2 ENOENT w)
  end.
Proof.
  intros Ha Hmax Hf HA Hp Hz Hlen Hs. destruct (server_init_spec junk A start len fuel s Ha Hmax Hf) as (s1 & E1 & R1 & _). exists s1. split; [done|].
  apply (ls_spec A (served A) (FileService0 := server_service A HA junk sb_at entry_at inode_at) sf sl (mkClient s1 e w) no_connection); try done; [|cbn; lia].
  split; [done|]. split; [constructor|done].
Qed.

(** ** Witnesses *)
Lemma cat_correct_witness : exists s1, server_init (fun _ => 0) 10 0 10240 two_server = Done () s1 /\
  exists s2, cat (H := server_ports (fun _ => 0) (fun _ => 0) (fun i => Z.of_nat i) (fun i => Z.of_nat i)) 7 10 (chars "/tarfs/d/a") 0 2 (mkClient s1 0 (chars "/"))
    = Done (Some (chars "hi!")) (mkClient s2 0 (chars "/")).
Proof.
  destruct (cat_correct two_members (fun _ => 0) (fun _ => 0) (fun i => Z.of_nat i) (fun i => Z.of_nat i) 0 10240 10 two_server 7 (chars "/tarfs/d/a") 0 2 0 (chars "/"))
    as (s1 & E & H); [exact two_archive|cbn; unfold TAR_COUNT; lia|cbn; lia|exact two_listable|done|by repeat constructor|cbn; lia|done|lia|].
  exists s1. split; [exact E|]. apply H; [by vm_compute|by vm_compute; lia].
Defined.
Lemma ls_correct_witness : exists s1, server_init (fun _ => 0) 10 0 10240 two_server = Done () s1 /\
  exists s2, ls (H := server_ports (fun _ => 0) (fun _ => 0) (fun i => Z.of_nat i) (fun i => Z.of_nat i)) 7 7 10 (chars "/tarfs/d") (mkClient s1 0 (chars "/"))
    = Done (Some [chars "/d/a"]) (mkClient s2 0 (chars "/")).
Proof.
  destruct (ls_correct two_members (fun _ => 0) (fun _ => 0) (fun i => Z.of_nat i) (fun i => Z.of_nat i) 0 10240 10 two_server 7 7 (chars "/tarfs/d") 0 (chars "/"))
    as (s1 & E & H); [exact two_archive|cbn; unfold TAR_COUNT; lia|cbn; lia|exact two_listable|done|by repeat constructor|cbn; lia|done|].
  exists s1. split; [exact E|]. apply H. vm_compute. lia.
Defined.

(** ** What goes wrong *)
(** A relative path and a directory without a slash at its end: the block is one
    byte too short. *)
Example open_relative_faults (k : server) : open (H := server_ports (fun _ => 0) (fun _ => 0) Z.of_nat Z.of_nat) (chars "a") 0 (mkClient k 0 (chars "/tarfs")) = Faulted.
Proof. reflexivity. Qed.
(** [opendir] puts no slash between them. *)
Example opendir_relative (k : server) : opendir_path (chars "d") (mkClient k 0 (chars "/tarfs")) = Done (chars "/tarfsd") (mkClient k 0 (chars "/tarfs")).
Proof. reflexivity. Qed.
