(* ===== verification/Cwd.v ===== *)
(** The working directory of a program, [libc/getcwd.c].

    [__cwd] and [__cwd_new] are arrays of 4096 bytes at two addresses; writing
    outside them, or reading in front of [__cwd_new], is [Faulted].  A string of
    5000 characters or more is taken for unterminated. *)
From S2P Require Import Prelude CString Ioreq.

Definition PATH_MAX : Z := 4096.
Definition FUEL : nat := 5000.
Definition ERANGE : Z := 34.
Definition ENAMETOOLONG : Z := 36.
Definition DOT : Z := 46.
Definition SLASH_ : Z := 47.

Record process := mkProcess { mem : memory; p_errno : Z }.

Section cwd.
(** The addresses of [__cwd] and [__cwd_new]. *)
Context (cwd cwd_new : Z).

Definition get_byte (p : Z) : M process Z := gets (fun s => mem s p).
Definition on_mem (f : memory -> memory) : M process () := modify (fun s => mkProcess (f (mem s)) (p_errno s)).
Definition fail_with (e : Z) : M process Z := modify (fun s => mkProcess (mem s) e);; mret (-1).
(** The bytes from [p] to [q] are inside the array at [a]. *)
Definition inside (a p q : Z) : bool := (a <=? p) && (q <? a + PATH_MAX).
Definition put_new (p v : Z) : M process () := if inside cwd_new p p then on_mem (fun m => upd m p v) else fault.
Definition length_of (p : Z) : M process Z := s ← get; n ← deref (strlen FUEL p (mem s)); mret (Z.of_nat n).
(** [strcpy] to the array at [a]. *)
Definition strcpy_to (a src : Z) : M process () :=
  n ← length_of src;
  if n <? PATH_MAX then s ← get; m ← deref (strcpy FUEL a src (mem s)); on_mem (fun _ => m) else fault.

(** [buf] is 0 for NULL, or an array of [size] bytes; [new] is what [malloc] returns. *)
Definition getcwd (new buf size : Z) : M process Z :=
  if buf =? 0 then s ← get; m ← deref (strdup FUEL new cwd (mem s)); on_mem (fun _ => m);; mret new
  else if size =? 0 then fail_with EINVAL;; mret 0
  else
    n ← length_of cwd;
    if size <? n then fail_with ERANGE;; mret 0
    else if size <? n + 1 then fault
    else s ← get; m ← deref (strcpy FUEL buf cwd (mem s)); on_mem (fun _ => m);; mret buf.

(** The last slash before [cwd_end]. *)
Fixpoint back_to_slash (fuel : nat) (cwd_end : Z) : M process Z :=
  match fuel with
  | O => fault
  | S fuel =>
      if cwd_end <? cwd_new then mret cwd_end
      else c ← get_byte cwd_end; if c =? SLASH_ then mret cwd_end else back_to_slash fuel (cwd_end - 1)
  end.
(** The end of the name at [next_path]. *)
Fixpoint next_slash (fuel : nat) (next_path : Z) : M process Z :=
  match fuel with
  | O => fault
  | S fuel => c ← get_byte next_path; if (c =? 0) || (c =? SLASH_) then mret next_path else next_slash fuel (next_path + 1)
  end.

(** One component [..]; [None] is the return with ENOENT. *)
Definition go_up (cwd_end : Z) : M process (option Z) :=
  if cwd_end =? cwd_new then fail_with ENOENT;; mret None
  else
    cwd_end ← back_to_slash FUEL cwd_end;
    if negb (cwd_end =? cwd_new) then put_new cwd_end 0;; mret (Some (cwd_end - 1))
    else put_new (cwd_end + 1) 0;; mret (Some cwd_end).
(** A name from [path] to [next_path]. *)
Definition go_down (cwd_end path next_path : Z) : M process (option Z) :=
  let n := next_path - path in
  if cwd_new + PATH_MAX <? cwd_end + n + 1 then fail_with ENAMETOOLONG;; mret None
  else
    cwd_end ← (if negb (cwd_end =? cwd_new) then put_new (cwd_end + 1) SLASH_;; mret (cwd_end + 1) else mret cwd_end);
    let cwd_end := cwd_end + 1 in
    if inside cwd_new cwd_end (cwd_end + n) then
      on_mem (strncpy cwd_end path (Z.to_nat n));;
      put_new (cwd_end + n) 0;;
      mret (Some (cwd_end + n - 1))
    else fault.

(** The loop over the components of [path]: true for the end of the loop, false for a return of -1. *)
Fixpoint chdir_loop (fuel : nat) (path cwd_end : Z) : M process bool :=
  match fuel with
  | O => fault
  | S fuel =>
      c0 ← get_byte path; c1 ← get_byte (path + 1); c2 ← get_byte (path + 2);
      if c0 =? 0 then mret true
      else if (c0 =? DOT) && (c1 =? DOT) && ((c2 =? SLASH_) || (c2 =? 0)) then
        o ← go_up cwd_end;
        match o with
        | None => mret false
        | Some cwd_end => if negb (c2 =? 0) then chdir_loop fuel (path + 3) cwd_end else mret true
        end
      else
        next_path ← next_slash FUEL path;
        o ← go_down cwd_end path next_path;
        match o with
        | None => mret false
        | Some cwd_end => c ← get_byte next_path; if negb (c =? 0) then chdir_loop fuel (next_path + 1) cwd_end else mret true
        end
  end.

Definition chdir (path : Z) : M process Z :=
  strcpy_to cwd_new cwd;;
  c ← get_byte path;
  if c =? SLASH_ then
    n ← length_of path;
    if n <? PATH_MAX then on_mem (strncpy cwd path (Z.to_nat PATH_MAX));; mret 0 else fault
  else
    n ← length_of cwd;
    if n =? 0 then fault
    else
      let cwd_end := cwd_new + n - 1 in
      c ← get_byte cwd_end;
      let cwd_end := if (c =? SLASH_) && negb (cwd_end =? cwd_new) then cwd_end - 1 else cwd_end in
      ok ← chdir_loop FUEL path cwd_end;
      if ok : bool then strcpy_to cwd cwd_new;; mret 0 else mret (-1).
End cwd.
