(* ===== verification/CwdProofs.v ===== *)
(** [chdir] follows a path component by component. *)
From S2P Require Import Prelude CString Ioreq Cwd.

(** ** Paths *)
Definition dotdot : list Z := [DOT; DOT].
(** The text of a working directory, and of a relative path. *)
Definition render (cs : list (list Z)) : list Z := match cs with [] => [SLASH_] | _ => cs ≫= (fun c => SLASH_ :: c) end.
Fixpoint relative (ps : list (list Z)) (slash : bool) : list Z :=
  match ps with
  | [] => []
  | [p] => p ++ if slash then [SLASH_] else []
  | p :: ps => p ++ SLASH_ :: relative ps slash
  end.
Definition name_ok (p : list Z) : Prop := p <> [] /\ Forall (fun c => 0 < c < 256 /\ c <> SLASH_) p.
(** Where a path leads; [None] above the root. *)
Fixpoint walk (cs ps : list (list Z)) : option (list (list Z)) :=
  match ps with
  | [] => Some cs
  | p :: ps =>
      if bool_decide (p = dotdot) then match cs with [] => None | _ => walk (removelast cs) ps end
      else walk (cs ++ [p]) ps
  end.
Definition names_ok (cs : list (list Z)) : Prop := Forall (fun c => name_ok c /\ c <> dotdot) cs.

Example walk_1 : walk [[97]] [[98]; dotdot; dotdot; [99]] = Some [[99]].
Proof. reflexivity. Qed.

Lemma render_app cs c : render (cs ++ [c]) = (match cs with [] => [] | _ => render cs end) ++ SLASH_ :: c.
Proof. destruct cs as [|d cs]; cbn; [by rewrite app_nil_r|]. rewrite bind_app. cbn. rewrite app_nil_r, app_assoc. by list_norm. Qed.
Lemma render_nonempty cs : (1 <= length (render cs))%nat.
Proof. destruct cs; cbn; lia. Qed.
Lemma bytes_ok_render cs : Forall name_ok cs -> Forall (fun c => 0 < c < 256) (render cs).
Proof.
  intros H. assert (Forall (fun c => 0 < c < 256) (cs ≫= (fun c => SLASH_ :: c))) as Hb.
  { induction H as [|c cs [_ Hc] _ IH]; cbn; [done|]. constructor; [done|]. apply Forall_app. split; [|done]. eapply Forall_impl; [exact Hc|]. by intros ? []. }
  destruct cs; [by repeat constructor|done].
Qed.
Lemma relative_cons p ps slash : exists t, relative (p :: ps) slash = p ++ t /\ (t = [] /\ ps = [] \/ t = SLASH_ :: relative ps slash).
Proof.
  destruct ps as [|q ps]; cbn.
  - destruct slash; eexists; (split; [done|]); [by right|by left].
  - eexists. split; [done|]. by right.
Qed.
Lemma relative_ok ps slash : Forall name_ok ps -> Forall (fun c => 0 < c < 256) (relative ps slash).
Proof.
  induction ps as [|p ps IH]; intros H; [done|]. apply Forall_cons in H as [[_ Hp] H]. destruct (relative_cons p ps slash) as (t & -> & Ht).
  apply Forall_app. split; [eapply Forall_impl; [exact Hp|]; by intros ? []|]. destruct Ht as [[-> _]| ->]; [done|]. constructor; [done|by apply IH].
Qed.
Lemma relative_count ps slash : Forall name_ok ps -> (length ps <= length (relative ps slash))%nat.
Proof.
  induction ps as [|p ps IH]; intros H; [cbn; lia|]. apply Forall_cons in H as [[Hp _] H]. destruct (relative_cons p ps slash) as (t & -> & Ht).
  rewrite length_app. destruct p; [done|]. destruct Ht as [[-> ->]| ->]; cbn; [lia|]. specialize (IH H). lia.
Qed.

(** ** Memory *)
Lemma strncpy_spec l : forall dest src m, bytes_at m src l -> Forall (fun c => 0 < c < 256) l ->
  dest + Z.of_nat (length l) < src \/ src + Z.of_nat (length l) <= dest ->
  let m' := strncpy dest src (length l) m in
  bytes_at m' dest (l ++ [0]) /\ forall x, ~ (dest <= x <= dest + Z.of_nat (length l)) -> m' x = m x.
Proof.
  induction l as [|c l IH]; intros dest src m Hb Hz Hd; cbn [strncpy length app].
  - split; [split; [unfold upd; by rewrite Z.eqb_refl|done]|]. intros x Hx. unfold upd. by rewrite (proj2 (Z.eqb_neq x dest)) by (cbn in Hx; lia).
  - destruct Hb as [Hc Hb]. apply Forall_cons in Hz as [Hcz Hz]. cbn [length] in Hd.
    assert (upd m dest c src = c) as Eu by (unfold upd; by rewrite (proj2 (Z.eqb_neq src dest)) by lia).
    rewrite Hc, Eu, (proj2 (Z.eqb_neq c 0)) by lia.
    destruct (IH (dest + 1) (src + 1) (upd m dest c)) as [H1 H2]; [|done|lia|].
    { eapply bytes_at_ext; [|exact Hb]. intros i Hi. unfold upd. by rewrite (proj2 (Z.eqb_neq _ dest)) by lia. }
    split.
    + split; [|exact H1]. rewrite H2 by lia. unfold upd. by rewrite Z.eqb_refl.
    + intros x Hx. rewrite H2 by lia. unfold upd. by rewrite (proj2 (Z.eqb_neq x dest)) by lia.
Qed.

Section memory.
Context (cwd cwd_new : Z).
Definition at_ (a : Z) (x : Z) : Prop := a <= x < a + PATH_MAX.
(** The array of the new directory may have changed, nothing else. *)
Definition keeps (m m' : memory) : Prop := forall x, ~ at_ cwd_new x -> m' x = m x.

Lemma put_new_eq p v s : at_ cwd_new p -> put_new cwd_new p v s = Done () (mkProcess (upd (mem s) p v) (p_errno s)).
Proof.
  intros Hp. unfold put_new, inside. unfold at_ in Hp. by rewrite (proj2 (Z.leb_le _ _)), (proj2 (Z.ltb_lt _ _)) by lia.
Qed.
Lemma back_spec c q s : forall fuel, bytes_at (mem s) q (SLASH_ :: c) -> Forall (fun c => 0 < c < 256 /\ c <> SLASH_) c -> cwd_new <= q ->
  (length c < fuel)%nat -> back_to_slash cwd_new fuel (q + Z.of_nat (length c)) s = Done q s.
Proof.
  induction c as [|d c IH] using rev_ind; intros [|fuel] Hb Hc Hq Hf; try (cbn in Hf; lia); cbn [back_to_slash].
  - rewrite Z.add_0_r, (proj2 (Z.ltb_ge q cwd_new)) by lia. destruct Hb as [Hb _]. erewrite bind_eq; [|apply gets_eq]. by rewrite Hb.
  - rewrite length_app in *. cbn [length] in *. rewrite (proj2 (Z.ltb_ge _ cwd_new)) by lia. erewrite bind_eq; [|apply gets_eq].
    apply Forall_app in Hc as [Hc Hd]. apply Forall_cons in Hd as [[_ Hd] _].
    assert (mem s (q + Z.of_nat (length c + 1)) = d) as ->.
    { apply (bytes_at_lookup _ (SLASH_ :: c ++ [d])); [done|]. rewrite Nat.add_comm. cbn. by apply list_lookup_middle. }
    rewrite (proj2 (Z.eqb_neq d SLASH_)) by done. replace (q + Z.of_nat (length c + 1) - 1) with (q + Z.of_nat (length c)) by lia.
    apply IH; [|done|done|lia]. change (SLASH_ :: c ++ [d]) with ((SLASH_ :: c) ++ [d]) in Hb. by apply bytes_at_app in Hb as [Hb _].
Qed.
Lemma next_slash_spec p d s : forall path fuel, bytes_at (mem s) path (p ++ [d]) -> Forall (fun c => 0 < c < 256 /\ c <> SLASH_) p -> d = 0 \/ d = SLASH_ ->
  (length p < fuel)%nat -> next_slash fuel path s = Done (path + Z.of_nat (length p)) s.
Proof.
  induction p as [|c p IH]; intros path [|fuel] Hb Hp Hd Hf; try (cbn in Hf; lia); cbn [next_slash app]; destruct Hb as [Hc Hb]; (erewrite bind_eq; [|apply gets_eq]); rewrite Hc.
  - replace ((d =? 0) || (d =? SLASH_)) with true by (by destruct Hd as [-> | ->]). cbn. by rewrite Z.add_0_r.
  - apply Forall_cons in Hp as [[Hc0 Hcs] Hp]. rewrite (proj2 (Z.eqb_neq c 0)), (proj2 (Z.eqb_neq c SLASH_)) by lia. cbn [orb].
    rewrite (IH (path + 1) fuel Hb Hp Hd) by (cbn in Hf; lia). cbn [length]. f_equal. lia.
Qed.

(** Where [cwd_end] points when the array holds a directory. *)
Definition end_of (cs : list (list Z)) : Z := cwd_new + Z.of_nat (length (render cs)) - 1.

Lemma go_up_spec cs c s : string_at (mem s) cwd_new (render (cs ++ [c])) -> Forall name_ok (cs ++ [c]) -> (length (render (cs ++ [c])) < 4096)%nat ->
  exists m', go_up cwd_new (end_of (cs ++ [c])) s = Done (Some (end_of cs)) (mkProcess m' (p_errno s)) /\ string_at m' cwd_new (render cs) /\ keeps (mem s) m'.
Proof.
  intros [Hs _] Hok Hlen. pose proof Hok as Hok'. apply Forall_app in Hok' as [Hcs Hc]. apply Forall_cons in Hc as [[Hc0 Hc] _].
  pose proof (bytes_ok_render cs Hcs) as Hz. set (pre := match cs with [] => [] | _ => render cs end). rewrite (render_app cs c) in *. fold pre in Hs, Hlen.
  unfold end_of. rewrite render_app. fold pre. rewrite length_app in *. cbn [length] in *.
  assert (1 <= length c)%nat by (destruct c; [done|cbn; lia]). set (q := cwd_new + Z.of_nat (length pre)).
  rewrite <- app_assoc in Hs. apply bytes_at_app in Hs as [Hpre Hs]. change ((SLASH_ :: c) ++ [0]) with (SLASH_ :: c ++ [0]) in Hs.
  assert (bytes_at (mem s) q (SLASH_ :: c)) as Hq by (rewrite app_comm_cons in Hs; by apply bytes_at_app in Hs as [Hs _]).
  assert (cwd_new + Z.of_nat (length pre + S (length c)) - 1 = q + Z.of_nat (length c)) as -> by (unfold q; lia).
  unfold go_up. rewrite (proj2 (Z.eqb_neq _ cwd_new)) by (unfold q; lia).
  setoid_rewrite (bind_eq _ _ _ _ _ (back_spec c q s FUEL Hq Hc ltac:(unfold q; lia) ltac:(unfold FUEL; lia))).
  destruct cs as [|d cs].
  - subst pre q. cbn [length] in *. rewrite Z.add_0_r, Z.eqb_refl in *. cbn [negb]. eexists. split.
    + erewrite bind_eq; [|apply put_new_eq; unfold at_, PATH_MAX; lia]. cbn. do 3 f_equal. lia.
    + split.
      * split; [|by repeat constructor]. cbn. unfold upd. rewrite (proj2 (Z.eqb_neq cwd_new _)), Z.eqb_refl by lia. by destruct Hq as [-> _].
      * intros x Hx. unfold upd. rewrite (proj2 (Z.eqb_neq x _)); [done|]. unfold at_, PATH_MAX in Hx. lia.
  - assert (1 <= length pre)%nat by apply (render_nonempty (d :: cs)). rewrite (proj2 (Z.eqb_neq q cwd_new)) by (unfold q; lia). cbn [negb]. eexists. split.
    + erewrite bind_eq; [|apply put_new_eq; unfold at_, PATH_MAX, q; lia]. reflexivity.
    + split.
      * split; [|done]. change (render (d :: cs)) with pre. apply bytes_at_app. split.
        -- eapply bytes_at_ext; [|exact Hpre]. intros i Hi. unfold upd. by rewrite (proj2 (Z.eqb_neq _ q)) by (unfold q; lia).
        -- split; [|done]. unfold upd. fold q. by rewrite Z.eqb_refl.
      * intros x Hx. unfold upd. rewrite (proj2 (Z.eqb_neq x _)); [done|]. unfold at_, PATH_MAX, q in *. lia.
Qed.

Definition parent (cs : list (list Z)) : list Z := match cs with [] => [] | _ => render cs end.
(** After the slash in front of a new name is there. *)
Lemma slash_spec cs s : Forall name_ok cs -> string_at (mem s) cwd_new (render cs) -> (length (render cs) + 1 < 4096)%nat ->
  exists m, (if negb (end_of cs =? cwd_new) then put_new cwd_new (end_of cs + 1) SLASH_;; mret (end_of cs + 1) else mret (end_of cs)) s
      = Done (cwd_new + Z.of_nat (length (parent cs))) (mkProcess m (p_errno s))
    /\ bytes_at m cwd_new (parent cs ++ [SLASH_]) /\ keeps (mem s) m.
Proof.
  intros Hok [Hs _] Hlen. destruct cs as [|d cs].
  - exists (mem s). rewrite (proj2 (Z.eqb_eq (end_of []) cwd_new)) by (unfold end_of; cbn; lia). cbn [negb]. split; [|split; [|done]].
    + destruct s. unfold mret, M_ret, end_of. cbn. f_equal. lia.
    + by destruct Hs as [Hs _].
  - pose proof (render_nonempty cs). unfold parent. set (r := render (d :: cs)) in *. unfold end_of. fold r.
    assert (2 <= length r)%nat as H2 by (apply Forall_cons in Hok as [[Hd _] _]; unfold r; cbn; rewrite length_app; destruct d; [done|cbn; lia]).
    eexists. rewrite (proj2 (Z.eqb_neq _ cwd_new)) by lia. cbn [negb]. split; [|split].
    + erewrite bind_eq; [|apply put_new_eq; unfold at_, PATH_MAX; lia]. unfold mret, M_ret. f_equal. lia.
    + apply bytes_at_app in Hs as [Hs _]. apply bytes_at_app. split.
      * eapply bytes_at_ext; [|exact Hs]. intros i Hi. unfold upd. by rewrite (proj2 (Z.eqb_neq _ _)) by lia.
      * split; [|done]. unfold upd. by rewrite (proj2 (Z.eqb_eq _ _)) by lia.
    + intros x Hx. unfold upd. rewrite (proj2 (Z.eqb_neq x _)); [done|]. unfold at_, PATH_MAX in Hx. lia.
Qed.

Lemma go_down_spec cs p path s : Forall name_ok (cs ++ [p]) -> string_at (mem s) cwd_new (render cs) -> bytes_at (mem s) path p ->
  path + Z.of_nat (length p) < cwd_new \/ cwd_new + PATH_MAX <= path -> (length (render cs) + 1 + length p < 4096)%nat ->
  exists m', go_down cwd_new (end_of cs) path (path + Z.of_nat (length p)) s = Done (Some (end_of (cs ++ [p]))) (mkProcess m' (p_errno s))
    /\ string_at m' cwd_new (render (cs ++ [p])) /\ keeps (mem s) m'.
Proof.
  intros Hok Hs Hp Hd Hlen. pose proof Hok as Hok'. apply Forall_app in Hok' as [Hcs Hpn]. apply Forall_cons in Hpn as [[Hp0 Hpz] _].
  destruct (slash_spec cs s Hcs Hs ltac:(lia)) as (m1 & E1 & B1 & K1). set (q := cwd_new + Z.of_nat (length (parent cs))) in *.
  assert (length (parent cs) <= length (render cs))%nat as Hpre by (destruct cs; cbn; lia). pose proof (render_nonempty cs) as Hr.
  assert (1 <= length p)%nat by (destruct p; [done|cbn; lia]). unfold PATH_MAX in Hd.
  assert (bytes_at m1 path p) as Hp1 by (eapply bytes_at_ext; [|exact Hp]; intros i Hi; apply K1; unfold at_, PATH_MAX; lia).
  destruct (strncpy_spec p (q + 1) path m1 Hp1) as [B2 K2]; [eapply Forall_impl; [exact Hpz|]; by intros ? []|unfold q; lia|].
  set (m2 := strncpy (q + 1) path (length p) m1) in *. exists (upd m2 (q + 1 + Z.of_nat (length p)) 0). split; [|split; [split|]].
  - unfold go_down. rewrite (proj2 (Z.ltb_ge _ _)) by (unfold end_of, PATH_MAX; lia). erewrite bind_eq; [|exact E1]. cbv zeta.
    replace (path + Z.of_nat (length p) - path) with (Z.of_nat (length p)) by lia.
    unfold inside. rewrite (proj2 (Z.leb_le _ _)), (proj2 (Z.ltb_lt _ _)) by (unfold q, PATH_MAX; lia). cbn [andb]. rewrite Nat2Z.id.
    erewrite bind_eq; [|apply modify_eq]. erewrite bind_eq; [|apply put_new_eq; unfold at_, PATH_MAX, q; lia]. unfold mret, M_ret, end_of. rewrite render_app.
    fold (parent cs). rewrite length_app. cbn [length]. f_equal. f_equal. unfold q. lia.
  - rewrite render_app. fold (parent cs). rewrite <- app_assoc. change ((SLASH_ :: p) ++ [0]) with ([SLASH_] ++ p ++ [0]). rewrite app_assoc. apply bytes_at_app.
    rewrite length_app. cbn [length]. replace (cwd_new + Z.of_nat (length (parent cs) + 1)) with (q + 1) by (unfold q; lia). split.
    + eapply bytes_at_ext; [|exact B1]. intros i Hi. rewrite length_app in Hi. cbn [length] in Hi. unfold upd.
      rewrite (proj2 (Z.eqb_neq _ _)) by (unfold q; lia). apply K2. unfold q. lia.
    + apply bytes_at_app in B2 as [B2 B3]. apply bytes_at_app. split.
      * eapply bytes_at_ext; [|exact B2]. intros i Hi. unfold upd. by rewrite (proj2 (Z.eqb_neq _ _)) by lia.
      * split; [|done]. unfold upd. by rewrite Z.eqb_refl.
  - by apply bytes_ok_render.
  - intros x Hx. unfold upd. rewrite (proj2 (Z.eqb_neq x _)) by (unfold at_, PATH_MAX, q in *; lia). rewrite K2 by (unfold at_, PATH_MAX, q in *; lia). by apply K1.
Qed.

Lemma dots_spec m path p d : name_ok p -> bytes_at m path (p ++ [d]) -> d = 0 \/ d = SLASH_ ->
  (m path =? DOT) && (m (path + 1) =? DOT) && ((m (path + 2) =? SLASH_) || (m (path + 2) =? 0)) = bool_decide (p = dotdot) /\ (m path =? 0) = false.
Proof.
  intros [Hp0 Hp] Hb Hd. destruct p as [|a p]; [done|]. apply Forall_cons in Hp as [[Ha0 Ha] Hp]. destruct Hb as [Ea Hb]. rewrite Ea, (proj2 (Z.eqb_neq a 0)) by lia.
  split; [|done]. symmetry. destruct p as [|b p].
  - destruct Hb as [Eb _]. rewrite Eb, bool_decide_false by done. replace (d =? DOT) with false by (by destruct Hd as [-> | ->]). by rewrite andb_false_r.
  - apply Forall_cons in Hp as [[Hb0 Hbs] Hp]. destruct Hb as [Eb Hb]. rewrite Eb. replace (path + 1 + 1) with (path + 2) in Hb by lia. destruct p as [|c p].
    + destruct Hb as [Ed _]. rewrite Ed. replace ((d =? SLASH_) || (d =? 0)) with true by (by destruct Hd as [-> | ->]). rewrite andb_true_r.
      destruct (Z.eqb_spec a DOT) as [->|Ha2], (Z.eqb_spec b DOT) as [->|Hb2]; cbn [andb]; [by rewrite bool_decide_true|..];
        rewrite bool_decide_false; (done || (unfold dotdot; congruence)).
    + apply Forall_cons in Hp as [[Hc0 Hcs] _]. destruct Hb as [Ec _]. rewrite Ec, (proj2 (Z.eqb_neq c 0)), (proj2 (Z.eqb_neq c SLASH_)) by lia.
      rewrite andb_false_r. by rewrite bool_decide_false.
Qed.

Definition loop_result (o : option (list (list Z))) (m : memory) (e : Z) : outcome process bool :=
  match o with Some _ => Done true (mkProcess m e) | None => Done false (mkProcess m ENOENT) end.
(** The loop follows the components that are left. *)
Lemma chdir_loop_spec slash ps : forall fuel cs path s, Forall name_ok cs -> Forall name_ok ps -> string_at (mem s) path (relative ps slash) ->
  string_at (mem s) cwd_new (render cs) -> path + Z.of_nat (length (relative ps slash)) < cwd_new \/ cwd_new + PATH_MAX <= path ->
  (length (render cs) + length (relative ps slash) + 1 < 4096)%nat -> (length ps < fuel)%nat ->
  exists m', chdir_loop cwd_new fuel path (end_of cs) s = loop_result (walk cs ps) m' (p_errno s) /\ keeps (mem s) m'
    /\ forall cs', walk cs ps = Some cs' -> string_at m' cwd_new (render cs').
Proof.
  induction ps as [|p ps IH]; intros [|fuel] cs path s Hcs Hps Hpath Hnew Hd Hlen Hf; try (cbn in Hf; lia); cbn [chdir_loop walk].
  - exists (mem s). destruct Hpath as [[H0 _] _]. do 3 (erewrite bind_eq; [|apply gets_eq]). rewrite H0. cbn [Z.eqb]. split; [by destruct s|].
    split; [done|]. by intros cs' [= <-].
  - apply Forall_cons in Hps as [Hp Hps]. destruct (relative_cons p ps slash) as (t & Et & Ht). rewrite Et in *. rewrite length_app in *.
    destruct Hpath as [Hb Hz]. rewrite <- app_assoc in Hb. set (d := default 0 (head t)).
    assert (d = 0 \/ d = SLASH_) as Hd0 by (unfold d; destruct Ht as [[-> _]| ->]; [by left|by right]).
    assert (bytes_at (mem s) path (p ++ [d])) as Hpd.
    { apply bytes_at_app in Hb as [Hb1 Hb2]. apply bytes_at_app. split; [done|]. unfold d. destruct Ht as [[-> _]| ->]; [done|]. by destruct Hb2 as [Hb2 _]. }
    destruct (dots_spec (mem s) path p d Hp Hpd Hd0) as [Edots E0].
    do 3 (setoid_rewrite (bind_eq (get_byte _) _ s _ _ eq_refl)). rewrite E0, Edots.
    (* the rest of the path is still there when only the new directory changed *)
    assert (forall m', keeps (mem s) m' -> m' (path + Z.of_nat (length p)) = d /\
      (d <> 0 -> string_at m' (path + Z.of_nat (length p) + 1) (relative ps slash))) as Hrest.
    { intros m' K. apply bytes_at_app in Hpd as [_ [Hpd _]]. split; [rewrite K by (unfold at_; lia); done|]. intros Hdn.
      destruct Ht as [[-> _]| ->]; [done|]. apply bytes_at_app in Hb as [_ [_ Hb]]. apply Forall_app in Hz as [_ Hz]. apply Forall_cons in Hz as [_ Hz].
      split; [|done]. eapply bytes_at_ext; [|exact Hb]. intros i Hi. rewrite length_app in Hi. cbn [length] in *. apply K. unfold at_. lia. }
    assert (d <> 0 -> t = SLASH_ :: relative ps slash) as Htd by (unfold d; destruct Ht as [[-> _]| ->]; done).
    assert (d = 0 -> ps = []) as Htn by (unfold d; destruct Ht as [[_ ->]| ->]; done).
    case_bool_decide as Hdots.
    + subst p. change (length dotdot) with 2%nat in *. assert (mem s (path + 2) = d) as -> by (destruct Hpd as (_ & _ & Hpd & _); by replace (path + 1 + 1) with (path + 2) in Hpd by lia).
      destruct cs as [|c cs _] using rev_ind.
      * exists (mem s). split; [|done]. erewrite bind_eq; [|unfold go_up, end_of; cbn [render length]; rewrite (proj2 (Z.eqb_eq _ cwd_new)) by lia; reflexivity]. done.
      * destruct (go_up_spec cs c s Hnew Hcs ltac:(lia)) as (m1 & E1 & S1 & K1). destruct (cs ++ [c]) as [|x l] eqn:Ecs; [by destruct cs|]. rewrite <- Ecs in *.
        rewrite removelast_last. apply Forall_app in Hcs as [Hcs Hc].
        assert (length (render cs) <= length (render (cs ++ [c])))%nat as Hle by (rewrite render_app, length_app; destruct cs; cbn; lia).
        setoid_rewrite (bind_eq _ _ _ _ _ E1). destruct (Hrest m1 K1) as [_ Hr]. destruct (Z.eqb_spec d 0) as [Hd1|Hd1]; cbn [negb].
        -- exists m1. rewrite (Htn Hd1). split; [done|]. split; [done|]. by intros cs' [= <-].
        -- rewrite (Htd Hd1) in *. cbn [length] in *.
           destruct (IH fuel cs (path + 3) (mkProcess m1 (p_errno s)) Hcs Hps) as (m2 & R2 & K2 & W2); cbn [mem p_errno]; try done; try lia.
           { specialize (Hr Hd1). by replace (path + Z.of_nat 2 + 1) with (path + 3) in Hr by lia. }
           exists m2. split; [exact R2|]. split; [|done]. intros y Hy. by rewrite K2, K1.
    + assert (length p < 5000)%nat as Hpl by lia.
      setoid_rewrite (bind_eq _ _ _ _ _ (next_slash_spec p d s path FUEL Hpd (proj2 Hp) Hd0 Hpl)).
      destruct (go_down_spec cs p path s) as (m1 & E1 & S1 & K1); [by apply Forall_app; split; [|constructor]|done|by apply bytes_at_app in Hb as [Hb _]|lia|lia|].
      setoid_rewrite (bind_eq _ _ _ _ _ E1). destruct (Hrest m1 K1) as [Ed Hr].
      setoid_rewrite (bind_eq (get_byte (path + Z.of_nat (length p))) _ (mkProcess m1 (p_errno s)) _ _ eq_refl). cbn [mem]. rewrite Ed.
      destruct (Z.eqb_spec d 0) as [Hd1|Hd1]; cbn [negb].
      * exists m1. rewrite (Htn Hd1). split; [done|]. split; [done|]. by intros cs' [= <-].
      * rewrite (Htd Hd1) in *. cbn [length] in *. assert (length (render (cs ++ [p])) <= length (render cs) + 1 + length p)%nat as Hle
          by (rewrite render_app, length_app; cbn [length]; destruct cs; cbn; lia).
        destruct (IH fuel (cs ++ [p]) (path + Z.of_nat (length p) + 1) (mkProcess m1 (p_errno s))) as (m2 & R2 & K2 & W2); cbn [mem p_errno]; try done; try lia.
        { by apply Forall_app; split; [|constructor]. }
        { by apply Hr. }
        exists m2. split; [exact R2|]. split; [|done]. intros y Hy. by rewrite K2, K1.
Qed.
End memory.

Lemma first_char m path ps slash : Forall name_ok ps -> string_at m path (relative ps slash) -> (m path =? SLASH_) = false.
Proof.
  intros Hps [Hb _]. destruct ps as [|p ps]; [by destruct Hb as [-> _]|]. apply Forall_cons in Hps as [[Hp0 Hp] _].
  destruct (relative_cons p ps slash) as (t & E & _). rewrite E in Hb. destruct p as [|c p]; [done|]. destruct Hb as [-> _].
  apply Forall_cons in Hp as [[_ Hc] _]. by apply Z.eqb_neq.
Qed.
Lemma last_char cwd_new m cs : Forall name_ok cs -> string_at m cwd_new (render cs) ->
  (if (m (end_of cwd_new cs) =? SLASH_) && negb (end_of cwd_new cs =? cwd_new) then end_of cwd_new cs - 1 else end_of cwd_new cs) = end_of cwd_new cs.
Proof.
  intros Hcs [Hb _]. destruct cs as [|c cs _] using rev_ind.
  - rewrite (proj2 (Z.eqb_eq (end_of cwd_new []) cwd_new)) by (unfold end_of; cbn; lia). by rewrite andb_false_r.
  - apply Forall_app in Hcs as [_ Hc]. apply Forall_cons in Hc as [[Hc0 Hc] _]. destruct (exists_last Hc0) as (c' & d & ->).
    apply Forall_app in Hc as [_ Hd]. apply Forall_cons in Hd as [[_ Hd] _].
    assert (m (end_of cwd_new (cs ++ [c' ++ [d]])) = d) as ->; [|by rewrite (proj2 (Z.eqb_neq d SLASH_))].
    unfold end_of. rewrite render_app in *. fold (parent cs) in *. rewrite <- app_assoc in Hb.
    set (l := parent cs ++ SLASH_ :: c') in *. replace (parent cs ++ (SLASH_ :: c' ++ [d]) ++ [0]) with (l ++ d :: [0]) in Hb by (unfold l; by list_norm).
    replace (cwd_new + Z.of_nat (length (parent cs ++ SLASH_ :: c' ++ [d])) - 1) with (cwd_new + Z.of_nat (length l))
      by (unfold l; rewrite !length_app; cbn [length]; rewrite length_app; cbn [length]; lia).
    eapply bytes_at_lookup; [exact Hb|]. by apply list_lookup_middle.
Qed.
Lemma render_app_le cs p : (length (render cs) <= length (render (cs ++ [p])) <= length (render cs) + 1 + length p)%nat.
Proof. rewrite render_app, length_app. cbn [length]. destruct cs as [|d cs]; [cbn|]; lia. Qed.
Lemma walk_length ps slash : forall cs cs', walk cs ps = Some cs' ->
  (length (render cs') <= length (render cs) + length (relative ps slash) + match ps with [] => 0 | _ => 1 end)%nat.
Proof.
  induction ps as [|p ps IH]; intros cs cs'; cbn [walk]; [intros [= <-]; cbn; lia|]. intros Hw.
  destruct (relative_cons p ps slash) as (t & -> & Ht). rewrite length_app.
  assert (forall cs1, walk cs1 ps = Some cs' -> (length (render cs1) <= length (render cs) + 1 + length p)%nat ->
    (length (render cs') <= length (render cs) + (length p + length t) + 1)%nat) as Hstep.
  { intros cs1 Hw1 Hle. specialize (IH cs1 cs' Hw1). destruct Ht as [[-> ->]| ->]; cbn [length relative] in *; [lia|].
    assert (match ps with [] => 0 | _ => 1 end <= 1)%nat by (destruct ps; cbn; lia). lia. }
  case_bool_decide as Hd; [|apply (Hstep _ Hw); apply render_app_le].
  destruct cs as [|c cs _] using rev_ind; [done|]. apply (Hstep cs).
  - destruct (cs ++ [c]) as [|x l] eqn:E; [by destruct cs|]. by rewrite <- E, removelast_last in Hw.
  - pose proof (render_app_le cs c). lia.
Qed.

Section chdir.
Context (cwd cwd_new : Z).

Lemma strcpy_to_spec a src l s : string_at (mem s) src l -> (length l < 4096)%nat ->
  exists m', strcpy_to a src s = Done () (mkProcess m' (p_errno s)) /\ string_at m' a l /\ forall x, ~ at_ a x -> m' x = mem s x.
Proof.
  intros Hs Hl. destruct (strcpy_spec (mem s) l a src FUEL Hs ltac:(unfold FUEL; lia)) as [E Hs']. eexists. split; [|split; [done|]].
  - unfold strcpy_to, length_of. erewrite bind_eq; [|erewrite bind_eq; [|apply get_eq]; erewrite bind_eq; [|apply deref_eq; apply (strlen_spec _ l); [done|unfold FUEL; lia]]; reflexivity].
    rewrite (proj2 (Z.ltb_lt _ PATH_MAX)) by (unfold PATH_MAX; lia). erewrite bind_eq; [|apply get_eq]. by erewrite bind_eq; [|by apply deref_eq].
  - intros x Hx. rewrite memcpy_spec. unfold at_, PATH_MAX in Hx.
    destruct (Z.leb_spec a x), (Z.ltb_spec x (a + Z.of_nat (S (length l)))); cbn [andb]; (done || lia).
Qed.

(** C28: [chdir] with a relative path goes where its components lead from the
    directory in [__cwd]: a name goes down, [..] up, also several times and with a
    slash at the end; it fails with ENOENT, and leaves [__cwd] as it is, exactly
    when a [..] would leave the root.  It changes nothing but the two arrays. *)
Theorem chdir_correct cs ps slash path s :
  cwd + PATH_MAX <= cwd_new \/ cwd_new + PATH_MAX <= cwd ->
  (forall x, path <= x <= path + Z.of_nat (length (relative ps slash)) -> ~ at_ cwd_new x) ->
  Forall name_ok cs -> Forall name_ok ps -> string_at (mem s) cwd (render cs) -> string_at (mem s) path (relative ps slash) ->
  (length (render cs) + length (relative ps slash) + 1 < 4096)%nat ->
  exists m', chdir cwd cwd_new path s = match walk cs ps with Some _ => Done 0 (mkProcess m' (p_errno s)) | None => Done (-1) (mkProcess m' ENOENT) end
    /\ string_at m' cwd (render (default cs (walk cs ps))) /\ forall x, ~ at_ cwd x -> ~ at_ cwd_new x -> m' x = mem s x.
Proof.
  intros Hdis Hpath Hcs Hps Hs Hp Hlen. pose proof (render_nonempty cs) as Hr.
  destruct (strcpy_to_spec cwd_new cwd (render cs) s Hs ltac:(lia)) as (m1 & E1 & S1 & K1).
  assert (string_at m1 path (relative ps slash)) as Hp1 by (eapply string_at_ext; [|exact Hp]; intros x Hx; apply K1; by apply Hpath).
  assert (string_at m1 cwd (render cs)) as Hs1 by (eapply string_at_ext; [|exact Hs]; intros x Hx; apply K1; unfold at_, PATH_MAX in *; lia).
  assert (path + Z.of_nat (length (relative ps slash)) < cwd_new \/ cwd_new + PATH_MAX <= path) as Hd.
  { destruct (decide (path + Z.of_nat (length (relative ps slash)) < cwd_new)); [by left|]. right.
    destruct (decide (cwd_new + PATH_MAX <= path)); [done|]. exfalso. apply (Hpath (Z.max path cwd_new)); unfold at_, PATH_MAX in *; lia. }
  pose proof (relative_count ps slash Hps) as Hcount.
  destruct (chdir_loop_spec cwd_new slash ps FUEL cs path (mkProcess m1 (p_errno s)) Hcs Hps Hp1 S1 Hd Hlen ltac:(unfold FUEL; lia)) as (m2 & E2 & K2 & W2).
  cbn [mem p_errno] in *. assert (string_at m2 cwd (render cs)) as Hs2
    by (eapply string_at_ext; [|exact Hs1]; intros x Hx; apply K2; unfold at_, PATH_MAX in *; lia).
  assert (forall k : M process Z, (strcpy_to cwd_new cwd;; k) s = k (mkProcess m1 (p_errno s))) as Hk by (intros k; by erewrite bind_eq; [|exact E1]).
  assert (chdir cwd cwd_new path s = (ok ← chdir_loop cwd_new FUEL path (end_of cwd_new cs); if ok : bool then strcpy_to cwd cwd_new;; mret 0 else mret (-1)) (mkProcess m1 (p_errno s))) as ->.
  { unfold chdir. rewrite Hk. erewrite bind_eq; [|apply gets_eq]. cbn [mem]. rewrite (first_char m1 path ps slash Hps Hp1).
    erewrite bind_eq; [|unfold length_of; erewrite bind_eq; [|apply get_eq]; erewrite bind_eq; [|apply deref_eq; apply (strlen_spec _ (render cs)); [done|unfold FUEL; lia]]; reflexivity].
    rewrite (proj2 (Z.eqb_neq _ 0)) by lia. cbv zeta. erewrite bind_eq; [|apply gets_eq]. cbn [mem]. fold (end_of cwd_new cs).
    by rewrite (last_char cwd_new m1 cs Hcs S1). }
  unfold loop_result in E2. destruct (walk cs ps) as [cs'|] eqn:Hw.
  - destruct (strcpy_to_spec cwd cwd_new (render cs') (mkProcess m2 (p_errno s)) (W2 cs' eq_refl)) as (m3 & E3 & S3 & K3); [pose proof (walk_length ps slash cs cs' Hw); assert (match ps with [] => 0 | _ => 1 end <= 1)%nat by (destruct ps; cbn; lia); lia|].
    exists m3. split; [erewrite bind_eq; [|exact E2]; cbv iota; by erewrite bind_eq; [|exact E3]|]. split; [done|].
    intros x Hx Hx'. cbn [mem] in K3. by rewrite K3, K2, K1.
  - exists m2. split; [by erewrite bind_eq; [|exact E2]|]. split; [done|]. intros x Hx Hx'. by rewrite K2, K1.
Qed.
End chdir.

(** ** Examples *)
Definition place (a : Z) (l : list Z) (m : memory) : memory :=
  fun x => match (if x <? a then None else l !! Z.to_nat (x - a)) with Some c => c | None => m x end.
(** [/a] at 0, and the path [../b/c/] at 10000. *)
Definition ex_paths : memory := place 0 [47; 97] (place 10000 [46; 46; 47; 98; 47; 99; 47] (fun _ => 0)).
Lemma chdir_correct_witness : exists m', chdir 0 5000 10000 (mkProcess ex_paths 0) = Done 0 (mkProcess m' 0)
  /\ string_at m' 0 [47; 98; 47; 99] /\ forall x, ~ at_ 0 x -> ~ at_ 5000 x -> m' x = ex_paths x.
Proof.
  apply (chdir_correct 0 5000 [[97]] [dotdot; [98]; [99]] true 10000 (mkProcess ex_paths 0));
    [unfold PATH_MAX; lia|intros x Hx; unfold at_, PATH_MAX; cbn in Hx; lia| | | | |cbn; lia]; repeat constructor; done.
Defined.

(** [getcwd] accepts a buffer of exactly the length of the directory, which has no
    room for the terminator. *)
Example getcwd_full : getcwd 0 20000 30000 2 (mkProcess ex_paths 0) = Faulted.
Proof. vm_compute. reflexivity. Qed.
(** A path that starts with a slash is taken as it is. *)
Definition ex_absolute : memory := place 0 [47; 97] (place 10000 [47; 98; 47; 46; 46] (fun _ => 0)).
Example chdir_absolute : match chdir 0 5000 10000 (mkProcess ex_absolute 0) with
  | Done r s => r = 0 /\ (fun i => mem s (Z.of_nat i)) <$> seq 0 6 = [47; 98; 47; 46; 46; 0] | _ => False end.
Proof. vm_compute. split; reflexivity. Qed.
