(* ===== verification/PageTable.v ===== *)
(** The page tables: [sys/mm/paging.c] and [sys/mm/page_table.c].

    [phys] are the 8-byte words of physical memory by address, [cr3] the address of
    the table of the top level, [free_pages] the pages that [get_phys_page] (or
    [get_phys_page_early]) is going to return.  The kernel reaches its tables
    through the entry 256 of the top table, which points to that table; [mmu] is
    what the processor makes of an address, and an access that it does not
    translate is [Faulted].  The memory that [ptable_get_entry_4k] and
    [walk_user_page_table] use is mapped at [KERN_VMBASE].  [invlpg], and what is
    printed, have no effect here. *)
From S2P Require Import Prelude Bits.

Record pt := mkPt { phys : Z -> Z; cr3 : Z; free_pages : list Z }.

(** ** The processor *)
(** [x & BIT(n)] as a condition. *)
Definition has (n : Z) (x : Z) : bool := Z.testbit x n.
Definition canonical (va : Z) : bool := ((0 <=? va) && (va <? 2 ^ 47)) || ((2 ^ 64 - 2 ^ 47 <=? va) && (va <? 2 ^ 64)).
(** The walk from the table [t] of level [k], [n] levels of which are left: the
    physical address, the entry it is from and the level of that entry. *)
Fixpoint mmu (m : Z -> Z) (n : nat) (k t va : Z) : option (Z * Z * Z) :=
  match n with
  | O => None
  | S n =>
      let e := m (t + 8 * pt_index va k) in
      if negb (has 0 e) then None
      else if k =? 3 then Some (pte_get_base e + va mod 2 ^ 12, e, k)
      else if has 7 e then
        if k =? 0 then None
        else let size := 2 ^ (39 - 9 * k) in Some (pte_get_base e - pte_get_base e mod size + va mod size, e, k)
      else mmu m n (k + 1) (pte_get_base e) va
  end.
Definition translate (s : pt) (va : Z) : option Z :=
  if canonical va then (fun r => r.1.1) <$> mmu (phys s) 4 0 (cr3 s) va else None.

Definition load (va : Z) : M pt Z := s ← get; p ← deref (translate s va); mret (phys s p).
Definition set_phys (m : Z -> Z) (s : pt) : pt := mkPt m (cr3 s) (free_pages s).
Definition upd_word (m : Z -> Z) (p v : Z) : Z -> Z := fun x => if x =? p then v else m x.
Definition store (va v : Z) : M pt () := s ← get; p ← deref (translate s va); put (set_phys (upd_word (phys s) p v) s).
(** [memset(pte, 0, 0x1000)], [n] words from [va] on. *)
Fixpoint clear_words (n : nat) (va : Z) : M pt () :=
  match n with O => mret () | S n => store va 0;; clear_words n (va + 8) end.
Definition gpp : M pt Z :=
  s ← get; match free_pages s with p :: l => put (mkPt (phys s) (cr3 s) l);; mret p | [] => fault end.

(** ** Mapping *)
(** [n] levels from the [i]-th on; false is the return of NULL. *)
Fixpoint checked_loop (n : nat) (i vaddr flags : Z) (create : bool) : M pt bool :=
  match n with
  | O => mret true
  | S n =>
      let pte := get_pte_addr vaddr i in
      e ← load pte;
      if negb (has 0 e) then
        if negb create then mret false
        else
          p ← gpp;
          store pte (Z.lor (pte_set_flags (pte_set_base 0 p 0) flags) (Z.lor PTE_P PTE_W));;
          clear_words 512 (Z.land (get_pte_addr vaddr (i + 1)) (u64 (Z.lnot 0xfff)));;
          checked_loop n (i + 1) vaddr flags create
      else if negb (i =? 3) && has 7 e then panic "Xx"
      else checked_loop n (i + 1) vaddr flags create
  end.
Definition get_pte_addr_checked (vaddr pgsize flags : Z) (create : bool) : M pt (option Z) :=
  ok ← checked_loop (Z.to_nat (3 - pgsize)) 0 vaddr flags create;
  mret (if ok : bool then Some (get_pte_addr vaddr (3 - pgsize)) else None).

Definition map_page (addr vaddr pgsize flags : Z) : M pt () :=
  o ← get_pte_addr_checked vaddr pgsize flags true;
  pte ← deref o;
  e ← load pte;
  if has 0 e then panic "mapping an already mapped page"
  else store pte (Z.lor (pte_set_flags (pte_set_base 0 addr pgsize) flags) PTE_P).
Definition map_4k_early (addr vaddr : Z) : M pt () := map_page addr vaddr 0 PTE_W.

Definition unmap (vaddr : Z) : M pt () :=
  o ← get_pte_addr_checked vaddr 0 0 false;
  match o with None => mret () | Some pte => store pte 0 end.

(** [for (i=0; i<len; i+=size)] *)
Fixpoint map_range_loop (n : nat) (addr vaddr size pgsize flags : Z) : M pt () :=
  match n with
  | O => mret ()
  | S n => map_page addr vaddr pgsize flags;; map_range_loop n (addr + size) (vaddr + size) size pgsize flags
  end.
(** [i] is an [int]: [i+=size] overflows when it would pass [2^31 - 1], which is [fault]. *)
Definition map_range (addr vaddr len pgsize flags : Z) : M pt () :=
  let size := PAGE_SIZE * 2 ^ (9 * pgsize) in
  if negb (len mod size =? 0) || negb (addr mod size =? 0) || negb (vaddr mod size =? 0) then panic "Invalid args in map_range"
  else
    map_range_loop (Z.to_nat (Z.min len (2 ^ 31) / size)) addr vaddr size pgsize flags;;
    if 2 ^ 31 <=? len then fault else mret ().

(** ** Tables that are not in use *)
(** A pointer to physical memory. *)
Definition word_at (p : Z) : M pt Z := gets (fun s => phys s (p - KERN_VMBASE)).
Fixpoint entry_loop (n : nat) (i table_base vaddr : Z) : M pt (option Z) :=
  match n with
  | O => mret (Some (table_base + 8 * pt_index vaddr 3))
  | S n =>
      pte ← word_at (table_base + 8 * pt_index vaddr i);
      if negb (has 0 pte) then mret None
      else entry_loop n (i + 1) (pte_get_base pte + KERN_VMBASE) vaddr
  end.
Definition ptable_get_entry_4k (pml4 vaddr : Z) : M pt (option Z) :=
  if has 63 vaddr then panic "Trying to lookup kernel address in user space page table"
  else entry_loop 3 0 pml4 vaddr.
Definition unmap_maybe_current (is_current : bool) (pml4 vaddr : Z) : M pt () :=
  if is_current then unmap vaddr
  else
    o ← ptable_get_entry_4k pml4 vaddr;
    match o with Some pte => modify (fun s => set_phys (upd_word (phys s) (pte - KERN_VMBASE) 0) s) | None => mret () end.

(** The calls of [fn], a table and the entry that points to it (0 for NULL); [n] is
    [3 - depth]. *)
Section walk.
Context (fn : Z -> Z -> M pt ()).
Fixpoint walk_entries (next : Z -> Z -> M pt ()) (top : nat) (pt_ : Z) : M pt () :=
  match top with
  | O => mret ()
  | S top =>
      e ← word_at pt_;
      (if has 7 e then panic "Huge page in user space"
       else if has 0 e then next (KERN_VMBASE + pte_get_base e) pt_ else mret ());;
      walk_entries next top (pt_ + 8)
  end.
Fixpoint walk_page_table (n : nat) (pt_ pte : Z) (top : nat) : M pt () :=
  match n with
  | O => mret ()
  | S n => walk_entries (fun next_level pte => walk_page_table n next_level pte 512) top pt_
  end;;
  fn pt_ pte.
Definition walk_user_page_table (pml4 : Z) : M pt () := walk_page_table 3 pml4 0 256.
End walk.

(** ** The first tables *)
(** [memory_init] up to the load of [cr3]: three pages behind the kernel.  The
    addresses are those of the linker's symbols; the tables are written at
    [physoffset] below their addresses. *)
Definition clear_page (m : Z -> Z) (p : Z) : Z -> Z := fun x => if (p <=? x) && (x <? p + 4096) then 0 else m x.
Definition early_tables (kernend kernbase physbase physoffset : Z) (m : Z -> Z) : (Z -> Z) * Z * Z :=
  let endaddr := Z.land (kernend + 0x1000) (u64 (Z.lnot 0xfff)) in
  let rw e := Z.lor e (Z.lor PTE_P PTE_W) in
  let pml4 := endaddr - physoffset in
  let m := clear_page m pml4 in
  let endaddr := endaddr + 0x1000 in
  let m := upd_word m (pml4 + 8 * pt_index kernbase 0) (rw (pte_set_base 0 (endaddr - physoffset) 0)) in
  let pdp := endaddr - physoffset in
  let endaddr := endaddr + 0x1000 in
  let m := clear_page m pdp in
  let m := upd_word m (pdp + 8 * pt_index kernbase 1) (rw (pte_set_base 0 (endaddr - physoffset) 0)) in
  let pd := endaddr - physoffset in
  let endaddr := endaddr + 0x1000 in
  let m := clear_page m pd in
  let m := upd_word m (pd + 8 * pt_index kernbase 2) (rw (pte_set_base 0 physbase 1)) in
  let m := upd_word m (pd + 8 * (pt_index kernbase 2 + 1)) (rw (pte_set_base 0 (physbase + 0x200000) 1)) in
  let m := upd_word m (pml4 + 8 * 256) (rw (pte_set_base 0 pml4 0)) in
  (m, pml4, endaddr).

(** [memory_init] up to the call of [page_allocator_init].  [get_phys_page_early]
    hands out the pages from [endaddr] on, [count] of them here; the result are the
    arguments of that call: the first page that is left and their number, the memory
    map and the reserved range. *)
Fixpoint early_loop (n : nat) (i : Z) : M pt () :=
  match n with O => mret () | S n => map_4k_early i (i + KERN_VMBASE);; early_loop n (i + 0x1000) end.
Definition map_low (smap : list (Z * Z * Z)) : M pt (list (Z * Z * Z)) :=
  match smap with
  | [] => fault
  | (base, length, type) :: rest =>
      if base =? 0 then
        let aligned := Z.land length (u64 (Z.lnot 0xfff)) in
        let top := if 0x9f000 <? length then 0x9f000 else aligned in
        early_loop (Z.to_nat (top / 0x1000)) 0;;
        mret (if top <? aligned then (top, length - top, type) :: rest else rest)
      else mret smap
  end.
Definition endaddr_now (physend count : Z) : M pt Z := gets (fun s => physend + 0x1000 * (count - Z.of_nat (length (free_pages s)))).
Definition memory_init (kernend kernbase physbase physoffset count : Z) (smap : list (Z * Z * Z)) (m : Z -> Z) : outcome pt (Z * Z * list (Z * Z * Z) * (Z * Z)) :=
  let '(m, pml4, endaddr) := early_tables kernend kernbase physbase physoffset m in
  let physend := endaddr - physoffset in
  (early_loop 16 physend;;
   smap ← map_low smap;
   end_ ← endaddr_now physend count;
   let extra_page := end_ + KERN_VMBASE in
   let npage := i32 (Z.shiftr (u64 (physend + 0x10000 + KERN_VMBASE - extra_page)) 12) in
   let rm_base := Z.land physbase (u64 (Z.lnot 0xfff)) in
   mret (extra_page, npage, smap, (rm_base, physend + 0x10000 - rm_base)))
  (mkPt m pml4 ((fun i => physend + 0x1000 * i) <$> seqZ 0 count)).
