(* ===== verification/PageTableProofs.v ===== *)
(** The page tables as a map from addresses to frames: the entry of the top table
    that points to itself gives access to every table, [map_page] adds one page to
    the map, [unmap] takes one away, and neither changes any other address. *)
From S2P Require Import Prelude Bits PageTable.

(** ** Indices *)
Lemma index_range va k : 0 <= pt_index va k < 512.
Proof. unfold pt_index. change 0x1ff with (Z.ones 9). rewrite Z.land_ones by lia. apply Z.mod_pos_bound. lia. Qed.
(** The addresses agree in the first [n] indices. *)
Definition agree (n : Z) (va va' : Z) : Prop := forall k, 0 <= k < n -> pt_index va k = pt_index va' k.
#[export] Instance agree_dec n va va' : Decision (agree n va va').
Proof.
  refine (cast_if (decide (Forall (fun k => pt_index va k = pt_index va' k) (seqZ 0 n)))).
  - abstract (rewrite Forall_seqZ in *; intros k Hk; auto with lia).
  - abstract (intros H; apply n0; rewrite Forall_seqZ; intros k Hk; apply H; lia).
Defined.

(** ** Walks *)
(** The table that is reached from [t] after [n] levels. *)
Fixpoint follow (m : Z -> Z) (n : nat) (k t va : Z) : option Z :=
  match n with
  | O => Some t
  | S n => let e := m (t + 8 * pt_index va k) in if has 0 e && negb (has 7 e) then follow m n (k + 1) (pte_get_base e) va else None
  end.

Lemma follow_app m a b va : forall k t, follow m (a + b) k t va = t' ← follow m a k t va; follow m b (k + Z.of_nat a) t' va.
Proof.
  induction a as [|a IH]; intros k t; cbn [Nat.add follow]; [cbn; by rewrite Z.add_0_r|]. case_match; [|done].
  rewrite IH. destruct (follow m a (k + 1) _ va); [|done]. cbn. f_equal. lia.
Qed.
Lemma follow_shift m n va va' : forall k k' t, (forall j, 0 <= j < Z.of_nat n -> pt_index va (k + j) = pt_index va' (k' + j)) ->
  follow m n k t va = follow m n k' t va'.
Proof.
  induction n as [|n IH]; intros k k' t H; cbn [follow]; [done|]. pose proof (H 0 ltac:(lia)) as H0. rewrite !Z.add_0_r in H0. rewrite H0.
  case_match; [|done]. apply IH. intros j Hj. replace (k + 1 + j) with (k + (j + 1)) by lia. replace (k' + 1 + j) with (k' + (j + 1)) by lia. apply H. lia.
Qed.
Lemma follow_agree m n t va va' : agree (Z.of_nat n) va va' -> follow m n 0 t va = follow m n 0 t va'.
Proof. intros H. apply follow_shift. intros j Hj. rewrite Z.add_0_l. by apply H. Qed.
Lemma follow_mmu m a b va : forall k t t', follow m a k t va = Some t' -> k + Z.of_nat a <= 3 -> mmu m (a + b) k t va = mmu m b (k + Z.of_nat a) t' va.
Proof.
  induction a as [|a IH]; intros k t t'; cbn [follow Nat.add]; [intros [= ->] _; by rewrite Z.add_0_r|].
  destruct (has 0 _) eqn:H0; [|done]. destruct (has 7 _) eqn:H7; [done|]. cbn [negb andb]. intros Hf Hk. cbn [mmu]. rewrite H0, H7. cbn [negb].
  rewrite (proj2 (Z.eqb_neq k 3)) by lia. rewrite (IH _ _ _ Hf) by lia. f_equal. lia.
Qed.

Lemma mmu_agree m n va va' : forall k t, agree (k + Z.of_nat n) va va' -> 0 <= k -> k + Z.of_nat n <= 4 ->
  mmu m n k t va = None -> mmu m n k t va' = None.
Proof.
  induction n as [|n IH]; intros k t H Hk Hn; cbn [mmu]; [done|]. rewrite <- (H k) by lia.
  destruct (has 0 _); cbn [negb]; [|done]. destruct (k =? 3); [done|]. destruct (has 7 _); [by destruct (k =? 0)|]. apply IH; [|lia|lia].
  intros j Hj. apply H. lia.
Qed.
(** Writing words that the walk does not read. *)
Lemma follow_ext m m' n va : forall k t,
  (forall j tj, (j < n)%nat -> follow m j k t va = Some tj -> m' (tj + 8 * pt_index va (k + Z.of_nat j)) = m (tj + 8 * pt_index va (k + Z.of_nat j))) ->
  follow m' n k t va = follow m n k t va.
Proof.
  induction n as [|n IH]; intros k t H; cbn [follow]; [done|]. pose proof (H 0%nat t ltac:(lia) eq_refl) as H0. rewrite Z.add_0_r in H0. rewrite H0.
  destruct (has 0 _ && negb (has 7 _)) eqn:E; [|done]. apply IH.
  intros j tj Hj Hf. replace (k + 1 + Z.of_nat j) with (k + Z.of_nat (S j)) by lia. apply H; [lia|]. cbn [follow]. by rewrite E.
Qed.
Lemma mmu_ext m m' n va : forall k t,
  (forall j tj, (j < n)%nat -> follow m j k t va = Some tj -> m' (tj + 8 * pt_index va (k + Z.of_nat j)) = m (tj + 8 * pt_index va (k + Z.of_nat j))) ->
  mmu m' n k t va = mmu m n k t va.
Proof.
  induction n as [|n IH]; intros k t H; cbn [mmu]; [done|]. pose proof (H 0%nat t ltac:(lia) eq_refl) as H0. rewrite Z.add_0_r in H0. rewrite H0.
  destruct (has 0 _) eqn:E0; cbn [negb]; [|done]. destruct (k =? 3); [done|]. destruct (has 7 _) eqn:E7; [done|]. apply IH.
  intros j tj Hj Hf. replace (k + 1 + Z.of_nat j) with (k + Z.of_nat (S j)) by lia. apply H; [lia|]. cbn [follow]. by rewrite E0, E7.
Qed.
Lemma upd_word_ne m p v x : x <> p -> upd_word m p v x = m x.
Proof. intros H. unfold upd_word. by rewrite (proj2 (Z.eqb_neq x p)). Qed.

(** ** Tables that make sense *)
Definition frame_ok (p : Z) : Prop := 0 <= p < 2 ^ 52 /\ p mod 4096 = 0.
(** An address that does not go through the entry for the tables. *)
Definition plain (va : Z) : Prop := pt_index va 0 <> 256.
(** The table at level [n] for an address. *)
Notation table s n va := (follow (phys s) n 0 (cr3 s) va).
Record wf (s : pt) : Prop := {
  w_cr3 : cr3 s mod 4096 = 0;
  w_self : let e := phys s (cr3 s + 8 * 256) in has 0 e = true /\ has 7 e = false /\ pte_get_base e = cr3 s;
  w_top : forall i, 0 <= i < 512 -> has 0 (phys s (cr3 s + 8 * i)) = true -> has 7 (phys s (cr3 s + 8 * i)) = false;
  w_tree : forall n n' va va' t, (n <= 3)%nat -> (n' <= 3)%nat -> plain va -> plain va' -> table s n va = Some t -> table s n' va' = Some t ->
             n = n' /\ agree (Z.of_nat n) va va';
  w_free : NoDup (free_pages s) /\ Forall (fun g => frame_ok g /\ forall n va, (n <= 3)%nat -> plain va -> table s n va <> Some g) (free_pages s);
}.

Lemma base_aligned e : pte_get_base e mod 4096 = 0.
Proof.
  unfold pte_get_base. change 4096 with (2 ^ 12). rewrite <- Z.land_ones by lia. apply Z.bits_inj'. intros i Hi.
  rewrite Z.land_spec, Z.land_spec, PTE_BASE_MASK_testbit, Z.testbit_ones_nonneg, Z.testbit_0_l by lia.
  destruct (Z.leb_spec 12 i), (Z.ltb_spec i 12); try lia; by rewrite ?andb_false_r.
Qed.
Lemma table_aligned s n va t : wf s -> table s n va = Some t -> t mod 4096 = 0.
Proof.
  intros W. destruct n as [|n]; [intros [= <-]; apply (w_cr3 _ W)|]. replace (S n) with (n + 1)%nat by lia. rewrite follow_app.
  destruct (table s n va) as [t'|]; [|done]. cbn. case_match; [|done]. intros [= <-]. apply base_aligned.
Qed.
(** Words of different tables are different. *)
Lemma word_inj t t' i i' : t mod 4096 = 0 -> t' mod 4096 = 0 -> 0 <= i < 512 -> 0 <= i' < 512 -> t + 8 * i = t' + 8 * i' -> t = t' /\ i = i'.
Proof. intros. assert (t = t'); [|lia]. Z.div_mod_to_equations. lia. Qed.

(** ** The entry for the tables *)
Lemma page_bits va va' i : va / 4096 = va' / 4096 -> 12 <= i -> Z.testbit va i = Z.testbit va' i.
Proof.
  intros H Hi. change 4096 with (2 ^ 12) in H. rewrite <- !Z.shiftr_div_pow2 in H by lia.
  replace i with (i - 12 + 12) by lia. rewrite <- !Z.shiftr_spec by lia. by rewrite H.
Qed.
Lemma index_page va va' k : va / 4096 = va' / 4096 -> 0 <= k <= 3 -> pt_index va k = pt_index va' k.
Proof.
  intros H Hk. apply Z.bits_inj'. intros i Hi. rewrite !pt_index_testbit by lia. f_equal. apply page_bits; [done|lia].
Qed.
Lemma canonical_page va va' : va / 4096 = va' / 4096 -> canonical va = canonical va'.
Proof.
  intros H. unfold canonical. apply eq_true_iff_eq. rewrite !orb_true_iff, !andb_true_iff, !Z.leb_le, !Z.ltb_lt. Z.div_mod_to_equations. lia.
Qed.
Lemma get_pte_addr_bound va l : 0 <= get_pte_addr va l.
Proof.
  unfold get_pte_addr. apply Z.lor_nonneg. split; [|done]. apply Z.lor_nonneg. split.
  - induction (Z.to_nat (4 - l)) as [|n IH]; [done|]. cbn [self_prefix]. apply Z.lor_nonneg. split; [done|]. apply wrap_bound. lia.
  - apply Z.land_nonneg. right. by vm_compute.
Qed.
Lemma get_pte_addr_u64 va l : u64 (get_pte_addr va l) = get_pte_addr va l.
Proof.
  apply Z.bits_inj'. intros i Hi. unfold u64. rewrite wrap_testbit by lia. destruct (Z.ltb_spec i 64); [done|].
  symmetry. unfold get_pte_addr. rewrite !Z.lor_spec, Z.land_spec. rewrite !orb_false_iff, andb_false_iff. split_and!.
  - induction (Z.to_nat (4 - l)) as [|n IH]; cbn [self_prefix]; [apply Z.testbit_0_l|]. rewrite Z.lor_spec, IH. apply is_u64_high_bit; [apply u64_bound|lia].
  - right. apply is_u64_high_bit; [apply u64_bound|lia].
  - apply is_u64_high_bit; [by vm_compute|lia].
Qed.
Lemma get_pte_addr_canonical va l : 0 <= l <= 3 -> canonical (get_pte_addr va l) = true.
Proof.
  intros Hl. set (a := get_pte_addr va l). assert (0 <= a < 2 ^ 64) as Ha by (subst a; rewrite <- get_pte_addr_u64; apply wrap_bound; lia).
  assert (Z.shiftr a 47 = Z.ones 17) as E.
  { apply Z.bits_inj'. intros i Hi. rewrite Z.shiftr_spec, Z.testbit_ones_nonneg by lia. destruct (Z.ltb_spec i 17) as [Hc|Hc].
    - subst a. rewrite get_pte_addr_testbit by lia. destruct (decide (i = 0)) as [->|]; [|rewrite (proj2 (Z.leb_le 48 _)) by lia; by rewrite orb_true_r].
      by level_cases l.
    - apply is_u64_high_bit; [done|lia]. }
  rewrite Z.shiftr_div_pow2 in E by lia. change (Z.ones 17) with 131071 in E. unfold canonical. apply orb_true_iff. right.
  rewrite andb_true_iff, Z.leb_le, Z.ltb_lt. change (2 ^ 47) with 140737488355328 in *. Z.div_mod_to_equations. lia.
Qed.

(** The walk of an address of an entry: the top table as often as [4 - l], and then
    the tables of the address. *)
Lemma follow_self s a n : wf s -> (forall k, 0 <= k < Z.of_nat n -> pt_index a k = 256) -> table s n a = Some (cr3 s).
Proof.
  intros W. induction n as [|n IH]; intros H; [done|]. replace (S n) with (n + 1)%nat by lia. rewrite follow_app, IH by (intros; apply H; lia).
  cbn [mbind option_bind follow]. rewrite H by lia. rewrite ?Z.add_0_l. destruct (w_self _ W) as (E1 & E2 & E3). by rewrite E1, E2, E3.
Qed.
Lemma table_entry s va l j : wf s -> 0 <= l <= 3 -> (j <= 4)%nat ->
  table s j (get_pte_addr va l) = if (j <=? 4 - Z.to_nat l)%nat then Some (cr3 s) else table s (j - (4 - Z.to_nat l)) va.
Proof.
  intros W Hl Hj. destruct (get_pte_addr_path va l) as (H1 & H2 & _); [done|]. destruct (Nat.leb_spec j (4 - Z.to_nat l)).
  - apply follow_self; [done|]. intros k Hk. apply H1. lia.
  - replace j with ((4 - Z.to_nat l) + (j - (4 - Z.to_nat l)))%nat at 1 by lia. rewrite follow_app, follow_self; [|done|intros k Hk; apply H1; lia].
    cbn [mbind option_bind]. apply follow_shift. intros i Hi. rewrite H2 by lia. f_equal. lia.
Qed.
Lemma mmu_follow m t va t' : follow m 4 0 t va = Some t' -> exists e, mmu m 4 0 t va = Some (t' + va mod 4096, e, 3).
Proof.
  intros H. cbn [follow] in H. cbn [mmu]. repeat match goal with H : (if ?b then _ else None) = Some _ |- _ => destruct b eqn:?; [|done] end.
  repeat match goal with H : (_ && _) = true |- _ => apply andb_true_iff in H as [? ?%negb_true_iff] end.
  repeat match goal with H : has _ _ = _ |- _ => rewrite H; clear H end. cbn -[Z.pow]. eexists. do 3 f_equal. by injection H as ->.
Qed.
Lemma translate_entry s va l t r : wf s -> 0 <= l <= 3 -> table s (Z.to_nat l) va = Some t -> 0 <= r < 4096 ->
  translate s (get_pte_addr va l - get_pte_addr va l mod 4096 + r) = Some (t + r).
Proof.
  intros W Hl Ht Hr. set (a := get_pte_addr va l). set (a' := a - a mod 4096 + r).
  assert (a' / 4096 = a / 4096) as Hp by (subst a'; Z.div_mod_to_equations; lia). assert (a' mod 4096 = r) as Hm by (subst a'; Z.div_mod_to_equations; lia).
  unfold translate. rewrite (canonical_page _ _ Hp). subst a. rewrite get_pte_addr_canonical by done.
  destruct (mmu_follow (phys s) (cr3 s) a' t) as (e & ->).
  - rewrite (follow_agree _ _ _ _ (get_pte_addr va l)) by (intros k Hk; apply index_page; [done|lia]). rewrite table_entry by (done || lia).
    destruct (Nat.leb_spec 4 (4 - Z.to_nat l)).
    + assert (l = 0) as -> by lia. by rewrite <- Ht.
    + rewrite <- Ht. f_equal. lia.
  - cbn. by rewrite Hm.
Qed.
Lemma translate_pte s va l t : wf s -> 0 <= l <= 3 -> table s (Z.to_nat l) va = Some t -> translate s (get_pte_addr va l) = Some (t + 8 * pt_index va l).
Proof.
  intros W Hl Ht. destruct (get_pte_addr_path va l) as (_ & _ & H3); [done|]. pose proof (index_range va l).
  pose proof (translate_entry s va l t (8 * pt_index va l) W Hl Ht ltac:(lia)) as E. change 0xfff with (Z.ones 12) in H3. rewrite Z.land_ones in H3 by lia.
  change (2 ^ 12) with 4096 in H3. rewrite <- H3 in E at 1. by replace (get_pte_addr va l - get_pte_addr va l mod 4096 + get_pte_addr va l mod 4096) with (get_pte_addr va l) in E by lia.
Qed.

(** ** A new table *)
Lemma table_at_eq s n va k : (n <= 4)%nat -> 0 <= k < 4096 -> va / 4096 = (va - va mod 4096 + k) / 4096 -> table s n (va - va mod 4096 + k) = table s n va.
Proof. intros Hn Hk H. apply follow_agree. intros j Hj. symmetry. apply index_page; [done|lia]. Qed.
Fixpoint clr (m : Z -> Z) (n : nat) (p : Z) : Z -> Z := match n with O => m | S n => clr (upd_word m p 0) n (p + 8) end.
Lemma clr_eq n : forall m p x, clr m n p x = if (p <=? x) && (x <? p + 8 * Z.of_nat n) && ((x - p) mod 8 =? 0) then 0 else m x.
Proof.
  induction n as [|n IH]; intros m p x; cbn [clr]; [destruct (Z.leb_spec p x), (Z.ltb_spec x (p + 8 * Z.of_nat 0)); cbn; done || lia|].
  rewrite IH. unfold upd_word. replace ((x - (p + 8)) mod 8) with ((x - p) mod 8) by (Z.div_mod_to_equations; lia).
  destruct (Z.eqb_spec ((x - p) mod 8) 0) as [E|E]; rewrite ?andb_false_r, ?andb_true_r; destruct (Z.eqb_spec x p) as [->|].
  - transitivity 0; [by destruct (_ && _)|]. by rewrite Z.leb_refl, (proj2 (Z.ltb_lt p (p + 8 * Z.of_nat (S n)))) by lia.
  - assert (p <= x < p + 8 -> False) by (Z.div_mod_to_equations; lia).
    destruct (Z.leb_spec (p + 8) x), (Z.leb_spec p x), (Z.ltb_spec x (p + 8 + 8 * Z.of_nat n)), (Z.ltb_spec x (p + 8 * Z.of_nat (S n))); cbn; done || lia.
  - by rewrite Z.sub_diag in E.
  - done.
Qed.
(** The words of [g] can be cleared through the entry [a] of a table that [g] is
    the last one of. *)
Definition clearable (m : Z -> Z) (c g a : Z) : Prop :=
  follow m 4 0 c a = Some g /\ g mod 4096 = 0 /\ forall j t, (j < 4)%nat -> follow m j 0 c a = Some t -> t mod 4096 = 0 /\ t <> g.
Lemma clearable_upd m c g a i v : clearable m c g a -> 0 <= i < 512 -> clearable (upd_word m (g + 8 * i) v) c g a.
Proof.
  intros (H4 & Hg & H) Hi. assert (forall n, (n <= 4)%nat -> follow (upd_word m (g + 8 * i) v) n 0 c a = follow m n 0 c a) as E.
  { intros n Hn. apply follow_ext. intros j tj Hj Hf. apply upd_word_ne. intros E. destruct (H j tj) as [Ha Hne]; [lia|done|].
    apply word_inj in E as [-> _]; [done|done|done|apply index_range|done]. }
  split_and!; [by rewrite E by lia|done|]. intros j t Hj. rewrite E by lia. by apply H.
Qed.
Lemma clear_words_ok n : forall s a g k, canonical a = true -> a mod 4096 = 0 -> clearable (phys s) (cr3 s) g a -> 0 <= k -> k + Z.of_nat n <= 512 ->
  clear_words n (a + 8 * k) s = Done () (set_phys (clr (phys s) n (g + 8 * k)) s).
Proof.
  induction n as [|n IH]; intros s a g k Hc Ha Hcl Hk Hn; cbn [clear_words clr]; [by destruct s|].
  assert ((a + 8 * k) / 4096 = a / 4096) as Hp by (Z.div_mod_to_equations; lia).
  assert (translate s (a + 8 * k) = Some (g + 8 * k)) as Ht.
  { unfold translate. rewrite (canonical_page _ _ Hp), Hc. destruct Hcl as (H4 & _ & _).
    rewrite (follow_agree _ 4 _ _ (a + 8 * k)) in H4 by (intros j Hj; symmetry; apply index_page; [done|lia]).
    apply mmu_follow in H4 as (e & ->). cbn. f_equal. Z.div_mod_to_equations. lia. }
  assert (store (a + 8 * k) 0 s = Done () (set_phys (upd_word (phys s) (g + 8 * k) 0) s)) as Hst.
  { unfold store. rewrite (bind_eq _ _ _ _ _ (get_eq s)), (bind_eq _ _ _ _ _ (deref_eq _ _ s Ht)). done. }
  rewrite (bind_eq _ _ _ _ _ Hst). replace (a + 8 * k + 8) with (a + 8 * (k + 1)) by lia. rewrite (IH _ a g) by (done || lia || by apply clearable_upd; [|lia]).
  cbn. unfold set_phys. cbn. do 3 f_equal. lia.
Qed.

Lemma load_pte s va l t : wf s -> 0 <= l <= 3 -> table s (Z.to_nat l) va = Some t ->
  load (get_pte_addr va l) s = Done (phys s (t + 8 * pt_index va l)) s.
Proof. intros. unfold load. rewrite (bind_eq _ _ _ _ _ (get_eq s)), (bind_eq _ _ _ _ _ (deref_eq _ _ s (translate_pte _ _ _ _ H H0 H1))). done. Qed.
Lemma store_pte s va l t v : wf s -> 0 <= l <= 3 -> table s (Z.to_nat l) va = Some t ->
  store (get_pte_addr va l) v s = Done () (set_phys (upd_word (phys s) (t + 8 * pt_index va l) v) s).
Proof. intros. unfold store. rewrite (bind_eq _ _ _ _ _ (get_eq s)), (bind_eq _ _ _ _ _ (deref_eq _ _ s (translate_pte _ _ _ _ H H0 H1))). done. Qed.

Lemma mmu_absent s n va t : (n <= 3)%nat -> table s n va = Some t -> has 0 (phys s (t + 8 * pt_index va (Z.of_nat n))) = false ->
  mmu (phys s) 4 0 (cr3 s) va = None /\ forall k, (n < k)%nat -> table s k va = None.
Proof.
  intros Hn Ht H. split.
  - replace 4%nat with (n + (4 - n))%nat by lia. rewrite (follow_mmu _ _ _ _ _ _ _ Ht) by lia. rewrite Z.add_0_l.
    destruct (4 - n)%nat eqn:E; [lia|]. cbn [mmu]. by rewrite H.
  - intros k Hk. replace k with (n + S (k - S n))%nat by lia. rewrite follow_app, Ht. cbn [mbind option_bind follow]. rewrite Z.add_0_l. by rewrite H.
Qed.

Section create.
Context (s : pt) (va : Z) (i : nat) (t g : Z) (l : list Z) (e : Z).
Context (W : wf s) (Hva : plain va) (Hi : (i <= 2)%nat) (Ht : table s i va = Some t).
Context (Habs : has 0 (phys s (t + 8 * pt_index va (Z.of_nat i))) = false) (Hfree : free_pages s = g :: l).
Context (He0 : has 0 e = true) (He7 : has 7 e = false) (Heb : pte_get_base e = g).
Let w := t + 8 * pt_index va (Z.of_nat i).
Let m1 := upd_word (phys s) w e.
Let m2 := clr m1 512 g.
Let s2 := mkPt m2 (cr3 s) l.

Lemma new_frame : frame_ok g.
Proof. destruct (w_free _ W) as [_ H]. rewrite Hfree in H. apply Forall_cons_1 in H as [[H _] _]. done. Qed.
Lemma new_fresh n va' : (n <= 3)%nat -> plain va' -> table s n va' <> Some g.
Proof. destruct (w_free _ W) as [_ H]. rewrite Hfree in H. apply Forall_cons_1 in H as [[_ H] _]. apply H. Qed.
Lemma m2_old t' k : t' mod 4096 = 0 -> t' <> g -> 0 <= k < 512 -> t' + 8 * k <> w -> m2 (t' + 8 * k) = phys s (t' + 8 * k).
Proof.
  intros Hm Hg Hk Hw. unfold m2. rewrite clr_eq. destruct new_frame as [_ Hgm]. unfold m1. rewrite upd_word_ne by done.
  destruct (Z.leb_spec g (t' + 8 * k)), (Z.ltb_spec (t' + 8 * k) (g + 8 * Z.of_nat 512)); cbn [andb]; try done.
  exfalso. apply Hg. Z.div_mod_to_equations. lia.
Qed.
Lemma m2_g k : 0 <= k < 512 -> m2 (g + 8 * k) = 0.
Proof.
  intros Hk. unfold m2. rewrite clr_eq, (proj2 (Z.leb_le g _)), (proj2 (Z.ltb_lt _ (g + _))) by lia.
  replace ((g + 8 * k - g) mod 8) with 0; [done|]. Z.div_mod_to_equations. lia.
Qed.
Lemma m2_w : m2 w = e.
Proof.
  assert (w mod 8 = 0 /\ w / 4096 = t / 4096 /\ t <> g) as (H1 & H2 & H3).
  { pose proof (table_aligned _ _ _ _ W Ht). pose proof (index_range va (Z.of_nat i)). split_and!; [unfold w; Z.div_mod_to_equations; lia..|].
    intros Et. apply (new_fresh i va); [lia|done|]. by rewrite Ht, Et. }
  unfold m2. rewrite clr_eq. unfold m1. pose proof (table_aligned _ _ _ _ W Ht). destruct new_frame as [_ Hgm].
  destruct (Z.leb_spec g w), (Z.ltb_spec w (g + 8 * Z.of_nat 512)); cbn [andb]; [|unfold upd_word; by rewrite Z.eqb_refl..].
  exfalso. apply H3. Z.div_mod_to_equations. lia.
Qed.
(** The words of other walks are as before. *)
Lemma m2_path va' n : plain va' -> (n <= 4)%nat -> ~ ((i < n)%nat /\ agree (Z.of_nat (S i)) va va') ->
  forall j tj, (j < n)%nat -> table s j va' = Some tj -> m2 (tj + 8 * pt_index va' (0 + Z.of_nat j)) = phys s (tj + 8 * pt_index va' (0 + Z.of_nat j)).
Proof.
  intros Hp Hn Hna j tj Hj Hf. rewrite Z.add_0_l. apply m2_old; [by eapply table_aligned|intros ->; apply (new_fresh j va'); [lia|done..]|apply index_range|].
  intros E. unfold w in E. apply word_inj in E as [-> E]; [|by eapply table_aligned| |apply index_range..]; [|by eapply (table_aligned s i va)].
  destruct (w_tree _ W j i va' va t) as [-> Ha]; try done; [lia..|]. apply Hna. split; [done|]. intros k Hk.
  destruct (decide (k = Z.of_nat i)) as [->|]; [done|]. symmetry. apply Ha. lia.
Qed.
Lemma create_table va' n : plain va' -> (n <= 4)%nat ->
  table s2 n va' = if decide (n = S i /\ agree (Z.of_nat (S i)) va va') then Some g else table s n va'.
Proof.
  intros Hp Hn. cbn [phys cr3 s2]. destruct (decide ((i < n)%nat /\ agree (Z.of_nat (S i)) va va')) as [[Hin Ha]|Hna].
  - assert (table s i va' = Some t) as Ht' by (rewrite <- Ht; symmetry; apply follow_agree; intros k Hk; apply Ha; lia).
    assert (follow m2 i 0 (cr3 s) va' = Some t) as Hi2 by (rewrite <- Ht'; apply follow_ext, m2_path; [done|lia|lia]).
    assert (pt_index va' (Z.of_nat i) = pt_index va (Z.of_nat i)) as Ei by (symmetry; apply Ha; lia).
    destruct (mmu_absent s i va' t) as [_ Hno]; [lia|done|by rewrite Ei|]. rewrite Hno by done.
    replace n with (i + S (n - S i))%nat by lia. rewrite follow_app, Hi2. cbn [mbind option_bind follow]. rewrite Z.add_0_l, Ei. fold w. rewrite m2_w, He0, He7, Heb.
    cbn [negb andb]. destruct (n - S i)%nat as [|d] eqn:E.
    + rewrite decide_True; [done|]. split; [lia|done].
    + rewrite decide_False by lia. cbn [follow]. rewrite m2_g by apply index_range. done.
  - rewrite decide_False by (intros [-> ?]; apply Hna; split; [lia|done]). apply follow_ext. by apply m2_path.
Qed.
Lemma create_mmu va' : plain va' -> mmu m2 4 0 (cr3 s) va' = mmu (phys s) 4 0 (cr3 s) va'.
Proof.
  intros Hp. destruct (decide (agree (Z.of_nat (S i)) va va')) as [Ha|Hna]; [|apply mmu_ext; apply m2_path; [done|lia|tauto]].
  assert (table s i va' = Some t) as Ht' by (rewrite <- Ht; symmetry; apply follow_agree; intros k Hk; apply Ha; lia).
  destruct (mmu_absent s i va' t) as [-> _]; [lia|done|rewrite <- (Ha (Z.of_nat i)) by lia; done|].
  pose proof (create_table va' (S i) Hp ltac:(lia)) as H. rewrite decide_True in H by done.
  apply (mmu_absent s2 (S i) va' g); [lia|done|]. cbn. by rewrite m2_g by apply index_range.
Qed.
Lemma cr3_word k : 0 <= k < 512 -> cr3 s + 8 * k = w -> i = 0%nat /\ k = pt_index va 0.
Proof.
  intros Hk E. pose proof (table_aligned _ _ _ _ W Ht). apply word_inj in E as [Ec Ek]; [|apply (w_cr3 _ W)|done|done|apply index_range].
  destruct (w_tree _ W 0 i va va t) as [E0 _]; try done; [lia|lia|by rewrite <- Ec|]. split; [done|]. by rewrite Ek, <- E0.
Qed.
(** The entry through which the new table is cleared. *)
Lemma create_clearable a : a / 4096 = get_pte_addr va (Z.of_nat (S i)) / 4096 -> clearable m1 (cr3 s) g a.
Proof.
  intros Ha. assert (forall k, 0 <= k <= 3 -> pt_index a k = pt_index (get_pte_addr va (Z.of_nat (S i))) k) as Hidx by (intros k Hk; by apply index_page).
  destruct (get_pte_addr_path va (Z.of_nat (S i))) as (H1 & H2 & _); [lia|].
  assert (forall j, (j <= 3)%nat -> table s j a = if (j <=? 3 - i)%nat then Some (cr3 s) else table s (j - (3 - i)) va) as Htab.
  { intros j Hj. rewrite (follow_agree _ _ _ _ (get_pte_addr va (Z.of_nat (S i)))) by (intros k Hk; apply Hidx; lia).
    rewrite table_entry by (done || lia). by replace (4 - Z.to_nat (Z.of_nat (S i)))%nat with (3 - i)%nat by lia. }
  assert (forall j tj, (j < 3)%nat -> table s j a = Some tj -> m1 (tj + 8 * pt_index a (0 + Z.of_nat j)) = phys s (tj + 8 * pt_index a (0 + Z.of_nat j))) as Hw.
  { intros j tj Hj Hf. apply upd_word_ne. rewrite Z.add_0_l, Hidx by lia. destruct (decide (j < 3 - i)%nat) as [Hlt|Hge].
    - rewrite Htab in Hf by lia. rewrite (proj2 (Nat.leb_le j (3 - i))) in Hf by lia. injection Hf as <-. rewrite H1 by lia. intros E.
      apply cr3_word in E as [_ E]; [|lia]. by apply Hva.
    - rewrite H2 by lia. assert (table s (j - (3 - i)) va = Some tj) as Hf'.
      { rewrite Htab in Hf by lia. destruct (Nat.leb_spec j (3 - i)); [|done]. by replace (j - (3 - i))%nat with 0%nat by lia. }
      intros E. apply word_inj in E as [-> _]; [|by eapply table_aligned|by eapply (table_aligned s i va)|apply index_range..].
      destruct (w_tree _ W (j - (3 - i)) i va va t) as [? _]; try done; lia. }
  assert (forall j, (j <= 3)%nat -> follow m1 j 0 (cr3 s) a = table s j a) as Hm1 by (intros j Hj; apply follow_ext; intros j' tj Hj' Hf; apply Hw; [lia|done]).
  split_and!; [|apply new_frame|].
  - replace 4%nat with (3 + 1)%nat by lia. rewrite follow_app, Hm1, Htab by lia.
    assert ((if (3 <=? 3 - i)%nat then Some (cr3 s) else table s (3 - (3 - i)) va) = Some t) as ->.
    { rewrite <- Ht. destruct (Nat.leb_spec 3 (3 - i)); [by replace i with 0%nat by lia|f_equal; lia]. }
    cbn [mbind option_bind follow]. rewrite Hidx, H2 by lia. replace (0 + Z.of_nat 3 - (4 - Z.of_nat (S i))) with (Z.of_nat i) by lia. fold w.
    unfold m1, upd_word. rewrite Z.eqb_refl, He0, He7, Heb. done.
  - intros j tj Hj. rewrite Hm1, Htab by lia. intros Hf. assert (exists n, (n <= 3)%nat /\ table s n va = Some tj) as (n & Hn & Hf').
    { destruct (Nat.leb_spec j (3 - i)); [exists 0%nat|exists (j - (3 - i))%nat]; (split; [lia|done]). }
    split; [by eapply table_aligned|]. intros ->. by apply new_fresh in Hf'.
Qed.
Lemma create_wf : wf s2.
Proof.
  pose proof (table_aligned _ _ _ _ W Ht) as Hta.
  assert (cr3 s <> g) as Hcg by (intros Ec; apply (new_fresh 0 va); [lia|done|]; cbn; by rewrite Ec).
  constructor; cbn [phys cr3 free_pages s2].
  - apply (w_cr3 _ W).
  - rewrite m2_old; [apply (w_self _ W)|apply (w_cr3 _ W)|done|lia|]. intros E. destruct (cr3_word 256) as [_ E']; [lia|done|]. by apply Hva.
  - intros k Hk. destruct (decide (cr3 s + 8 * k = w)) as [->|Hne]; [by rewrite m2_w|].
    rewrite m2_old; [by apply (w_top _ W)|apply (w_cr3 _ W)|done..].
  - intros n n' va1 va2 t' Hn Hn' Hp Hp'. change (table s2 n va1 = Some t' -> table s2 n' va2 = Some t' -> n = n' /\ agree (Z.of_nat n) va1 va2).
    rewrite !create_table by (done || lia). destruct (decide _) as [[-> H1]|_], (decide _) as [[-> H2]|_].
    + intros _ _. split; [done|]. intros k Hk. rewrite <- (H1 k), <- (H2 k) by lia. done.
    + intros [= <-] H. by apply new_fresh in H.
    + intros H [= <-]. by apply new_fresh in H.
    + by apply (w_tree _ W).
  - destruct (w_free _ W) as [Hnd Hfr]. rewrite Hfree in Hnd, Hfr. apply NoDup_cons in Hnd as [Hg Hnd]. apply Forall_cons_1 in Hfr as [_ Hfr].
    split; [done|]. rewrite Forall_forall in Hfr |- *. intros g' Hg'. destruct (Hfr g' Hg') as [H1 H2]. split; [done|].
    intros n va' Hn Hp. change (table s2 n va' <> Some g'). rewrite create_table by (done || lia). destruct (decide _); [by intros [= ->]|]. by apply H2.
Qed.
End create.

(** ** The entries that are written *)
Definition entry (addr pgsize flags c : Z) : Z := Z.lor (pte_set_flags (pte_set_base 0 addr pgsize) flags) c.
Lemma entry_base addr pgsize flags c : 0 <= addr < 2 ^ 52 -> 0 <= pgsize <= 2 -> 0 <= c < 4096 ->
  pte_get_base (entry addr pgsize flags c) = addr - addr mod 2 ^ pte_low_bits pgsize.
Proof.
  intros Ha Hp Hc. unfold entry, pte_set_flags. rewrite !base_lor_small by (done || (change 0xfff with (Z.ones 12); rewrite Z.land_ones by lia; by apply Z.mod_pos_bound)).
  by apply pte_base_roundtrip.
Qed.
Lemma entry_low addr pgsize flags c i : 0 <= pgsize <= 2 -> 0 <= i < 12 ->
  Z.testbit (entry addr pgsize flags c) i = Z.testbit flags i || (negb (pgsize =? 0) && (i =? 7)) || Z.testbit c i.
Proof.
  intros Hp Hi. unfold entry, pte_set_flags. change 0xfff with (Z.ones 12). rewrite !Z.lor_spec, land_ones_testbit, pte_set_base_testbit by lia.
  rewrite (proj2 (Z.ltb_lt i 12)) by lia. rewrite Z.testbit_0_l, andb_true_r, andb_false_r by lia.
  rewrite (proj2 (Z.leb_gt _ i)) by (unfold pte_low_bits; case_ifs; lia). cbn [andb orb]. f_equal. apply orb_comm.
Qed.

(** ** The loop over the levels *)
Definition flags_ok (flags : Z) : Prop := has 7 flags = false.
(** What the loop leaves of an address space: tables may have been added. *)
Record extends (s s' : pt) (used : nat) : Prop := {
  x_wf : wf s';
  x_cr3 : cr3 s' = cr3 s;
  x_free : exists j, (j <= used)%nat /\ free_pages s' = drop j (free_pages s);
  x_mmu : forall va, plain va -> mmu (phys s') 4 0 (cr3 s') va = mmu (phys s) 4 0 (cr3 s) va;
  x_table : forall n va t, (n <= 3)%nat -> plain va -> table s n va = Some t -> table s' n va = Some t;
}.
Lemma extends_refl s u : wf s -> extends s s u.
Proof. intros W. constructor; try done. exists 0%nat. split; [lia|done]. Qed.
Lemma extends_trans s s1 s2 u v : extends s s1 u -> extends s1 s2 v -> extends s s2 (u + v).
Proof.
  intros [W1 C1 (j1 & J1 & F1) M1 T1] [W2 C2 (j2 & J2 & F2) M2 T2]. constructor; [done|congruence| | |].
  - exists (j1 + j2)%nat. split; [lia|]. by rewrite F2, F1, drop_drop.
  - intros va Hp. by rewrite M2, M1.
  - intros n va t Hn Hp H. apply T2; [done|done|]. by apply T1.
Qed.

Lemma wf_tail s g l : wf s -> free_pages s = g :: l -> wf (mkPt (phys s) (cr3 s) l).
Proof.
  intros [W1 W2 W3 W4 [Hn Hf]] E. rewrite E in Hn, Hf. constructor; try done. apply NoDup_cons in Hn as [_ Hn]. apply Forall_cons_1 in Hf as [_ Hf]. done.
Qed.
Lemma create_step n s va flags i t g l : wf s -> plain va -> flags_ok flags -> (i <= 2)%nat -> table s i va = Some t ->
  has 0 (phys s (t + 8 * pt_index va (Z.of_nat i))) = false -> free_pages s = g :: l ->
  exists s2, checked_loop (S n) (Z.of_nat i) va flags true s = checked_loop n (Z.of_nat (S i)) va flags true s2 /\ extends s s2 1 /\ table s2 (S i) va = Some g /\
    forall k va', plain va' -> (S i < k <= 4)%nat -> table s2 k va' = table s k va'.
Proof.
  intros W Hp Hfl Hi Ht Habs Hfree. set (e := entry g 0 flags (Z.lor PTE_P PTE_W)).
  assert (has 0 e = true /\ has 7 e = false /\ pte_get_base e = g) as (He0 & He7 & Heb).
  { destruct (new_frame s g l W Hfree) as [Hg Hm]. unfold has, e. rewrite !entry_low, entry_base by (done || lia).
    unfold flags_ok, has in Hfl. rewrite Hfl.
    split_and!; [by rewrite orb_true_r|done|]. change (2 ^ pte_low_bits 0) with 4096. lia. }
  set (s1 := set_phys (upd_word (phys s) (t + 8 * pt_index va (Z.of_nat i)) e) (mkPt (phys s) (cr3 s) l)).
  set (s2 := mkPt (clr (phys s1) 512 g) (cr3 s) l). exists s2.
  pose proof (create_table s va i t g l e W Hp Hi Ht Habs Hfree He0 He7 Heb) as Htab. fold s1 s2 in Htab.
  assert (extends s s2 1) as Hx.
  { constructor.
    - by apply (create_wf s va i t g l e).
    - done.
    - exists 1%nat. rewrite Hfree. split; [lia|done].
    - intros va' Hp'. by apply (create_mmu s va i t g l e).
    - intros n' va' t' Hn' Hp' H. change (table s2 n' va' = Some t'). rewrite Htab by (done || lia). case_decide as E; [|done]. destruct E as [-> Ha].
      assert (table s i va' = Some t) as Ht' by (rewrite <- Ht; symmetry; apply follow_agree; intros k Hk; apply Ha; lia).
      destruct (mmu_absent s i va' t) as [_ Hno]; [lia|done|by rewrite <- (Ha (Z.of_nat i)) by lia|]. rewrite Hno in H by lia. done. }
  split_and!; [|done| |].
  - cbn [checked_loop]. rewrite (bind_eq _ _ _ _ _ (load_pte s va (Z.of_nat i) t W ltac:(lia) ltac:(by rewrite Nat2Z.id))). rewrite Habs. cbn [negb].
    assert (gpp s = Done g (mkPt (phys s) (cr3 s) l)) as Hgpp by (unfold gpp; rewrite (bind_eq _ _ _ _ _ (get_eq s)), Hfree; done).
    rewrite (bind_eq _ _ _ _ _ Hgpp).
    assert (wf (mkPt (phys s) (cr3 s) l)) as W' by (by apply wf_tail with (g := g)).
    rewrite (bind_eq _ _ _ _ _ (store_pte (mkPt (phys s) (cr3 s) l) va (Z.of_nat i) t _ W' ltac:(lia) ltac:(by rewrite Nat2Z.id))). fold (entry g 0 flags (Z.lor PTE_P PTE_W)). fold e.
    change (set_phys _ _) with s1. replace (Z.of_nat i + 1) with (Z.of_nat (S i)) by lia. set (a := get_pte_addr va (Z.of_nat (S i))).
    change 0xfff with (Z.ones 12). assert (is_u64 a) as Hu by (unfold a; rewrite <- get_pte_addr_u64; apply u64_bound).
    rewrite (land_not_ones a 12 Hu), (ldiff_ones a 12) by lia. replace (a - a mod 2 ^ 12) with (a - a mod 4096 + 8 * 0) by (change (2 ^ 12) with 4096; lia).
    assert ((a - a mod 4096) / 4096 = a / 4096) as Ha by (Z.div_mod_to_equations; lia).
    assert (clear_words 512 (a - a mod 4096 + 8 * 0) s1 = Done () s2) as Hcl.
    { rewrite (clear_words_ok 512 s1 _ g 0); [by rewrite Z.mul_0_r, Z.add_0_r| | | |lia|lia].
      - rewrite (canonical_page _ _ Ha). apply get_pte_addr_canonical. lia.
      - Z.div_mod_to_equations. lia.
      - by apply (create_clearable s va i t g l e). }
    by rewrite (bind_eq _ _ _ _ _ Hcl).
  - rewrite Htab by (done || lia). by rewrite decide_True.
  - intros k va' Hp' Hk. rewrite Htab by (done || lia). by rewrite decide_False by lia.
Qed.

(** A present entry is a page of its own or points to a table. *)
Lemma present_entry s i va t : wf s -> (i <= 2)%nat -> table s i va = Some t -> let e := phys s (t + 8 * pt_index va (Z.of_nat i)) in has 0 e = true ->
  if has 7 e then is_Some (mmu (phys s) 4 0 (cr3 s) va) else table s (S i) va = Some (pte_get_base e).
Proof.
  intros W Hi Ht e H0. destruct (has 7 e) eqn:H7.
  - replace 4%nat with (i + (4 - i))%nat by lia. rewrite (follow_mmu _ _ _ _ _ _ _ Ht) by lia. rewrite Z.add_0_l.
    destruct (4 - i)%nat eqn:E; [lia|]. cbn [mmu]. fold e. rewrite H0, H7, (proj2 (Z.eqb_neq _ 3)) by lia. cbn [negb].
    destruct (Z.eqb_spec (Z.of_nat i) 0); [|by eexists]. replace i with 0%nat in * by lia. injection Ht as <-.
    unfold e in H7. rewrite (w_top _ W) in H7; [done|apply index_range|done].
  - replace (S i) with (i + 1)%nat by lia. rewrite follow_app, Ht. cbn [mbind option_bind follow]. rewrite Z.add_0_l. fold e. by rewrite H0, H7.
Qed.

Lemma checked_create va flags n : forall s i t, wf s -> plain va -> flags_ok flags -> table s i va = Some t -> (i + n <= 3)%nat -> (n <= length (free_pages s))%nat ->
  (checked_loop n (Z.of_nat i) va flags true s = Panicked "Xx" /\ is_Some (mmu (phys s) 4 0 (cr3 s) va)) \/
  exists s' t', checked_loop n (Z.of_nat i) va flags true s = Done true s' /\ extends s s' n /\ table s' (i + n) va = Some t' /\
    forall k, (i + n < k <= 4)%nat -> table s' k va = table s k va.
Proof.
  induction n as [|n IH]; intros s i t W Hp Hfl Ht Hn Hlen.
  { right. exists s, t. split_and!; [done|by apply extends_refl|by rewrite Nat.add_0_r|done]. }
  destruct (has 0 (phys s (t + 8 * pt_index va (Z.of_nat i)))) eqn:H0.
  - assert (checked_loop (S n) (Z.of_nat i) va flags true s = if has 7 (phys s (t + 8 * pt_index va (Z.of_nat i))) then Panicked "Xx" else checked_loop n (Z.of_nat (S i)) va flags true s) as ->.
    { cbn [checked_loop]. rewrite (bind_eq _ _ _ _ _ (load_pte s va (Z.of_nat i) t W ltac:(lia) ltac:(by rewrite Nat2Z.id))), H0, (proj2 (Z.eqb_neq _ 3)) by lia.
      cbn [negb andb]. replace (Z.of_nat i + 1) with (Z.of_nat (S i)) by lia. by destruct (has 7 _). }
    pose proof (present_entry s i va t W ltac:(lia) Ht H0) as Hpe. cbv zeta in Hpe. destruct (has 7 _); [by left|].
    destruct (IH s (S i) _ W Hp Hfl Hpe ltac:(lia) ltac:(lia)) as [?|(s' & t' & H1 & H2 & H3 & H4)]; [by left|right]. exists s', t'.
    replace (i + S n)%nat with (S i + n)%nat by lia. split_and!; try done. by apply (extends_trans s s s' 1 n); [apply extends_refl|].
  - destruct (free_pages s) as [|g l] eqn:Hfree; [cbn in Hlen; lia|].
    destruct (create_step n s va flags i t g l W Hp Hfl ltac:(lia) Ht H0 Hfree) as (s2 & -> & Hx & Ht2 & Hk).
    assert (length (free_pages s2) >= length l)%nat as Hl2.
    { destruct (x_free _ _ _ Hx) as (j & Hj & ->). rewrite Hfree, length_drop. cbn. lia. }
    destruct (IH s2 (S i) g (x_wf _ _ _ Hx) Hp Hfl Ht2 ltac:(lia) ltac:(cbn in Hlen; lia)) as [[? H]|(s' & t' & H1 & H2 & H3 & H4)].
    + left. split; [done|]. by rewrite (x_mmu _ _ _ Hx) in H.
    + right. exists s', t'. replace (i + S n)%nat with (S i + n)%nat by lia. split_and!; try done.
      * by apply (extends_trans s s2 s' 1 n).
      * intros k Hk'. rewrite H4 by lia. apply Hk; [done|lia].
Qed.

(** ** Writing the entry of a page *)
Definition leaf (e level va : Z) : option (Z * Z * Z) :=
  let size := 2 ^ (39 - 9 * level) in if has 0 e then Some (pte_get_base e - pte_get_base e mod size + va mod size, e, level) else None.
Section leaf.
Context (s : pt) (va : Z) (i : nat) (t e : Z).
Context (W : wf s) (Hva : plain va) (Hi : (1 <= i <= 3)%nat) (Ht : table s i va = Some t).
Context (Hleaf : i = 3%nat \/ has 7 e = true /\ has 0 (phys s (t + 8 * pt_index va (Z.of_nat i))) = false).
Let w := t + 8 * pt_index va (Z.of_nat i).
Let s' := set_phys (upd_word (phys s) w e) s.

Lemma leaf_path va' n : plain va' -> (n <= 4)%nat -> ~ ((i < n)%nat /\ agree (Z.of_nat (S i)) va va') ->
  forall j tj, (j < n)%nat -> table s j va' = Some tj -> phys s' (tj + 8 * pt_index va' (0 + Z.of_nat j)) = phys s (tj + 8 * pt_index va' (0 + Z.of_nat j)).
Proof.
  intros Hp Hn Hna j tj Hj Hf. rewrite Z.add_0_l. apply upd_word_ne. intros E.
  apply word_inj in E as [-> E]; [|by eapply table_aligned|by eapply (table_aligned s i va)|apply index_range..].
  destruct (w_tree _ W j i va' va t) as [-> Ha]; try done; [lia..|]. apply Hna. split; [done|]. intros k Hk.
  destruct (decide (k = Z.of_nat i)) as [->|]; [done|]. symmetry. apply Ha. lia.
Qed.
Lemma leaf_at va' : plain va' -> agree (Z.of_nat (S i)) va va' -> table s i va' = Some t /\ table s' i va' = Some t /\ pt_index va' (Z.of_nat i) = pt_index va (Z.of_nat i).
Proof.
  intros Hp Ha. assert (table s i va' = Some t) as H by (rewrite <- Ht; symmetry; apply follow_agree; intros k Hk; apply Ha; lia).
  split_and!; [done| |symmetry; apply Ha; lia]. rewrite <- H. apply follow_ext, leaf_path; [done|lia|lia].
Qed.
Lemma leaf_table va' n : plain va' -> (n <= 3)%nat -> table s' n va' = table s n va'.
Proof.
  intros Hp Hn. destruct (decide ((i < n)%nat /\ agree (Z.of_nat (S i)) va va')) as [[Hin Ha]|Hna]; [|apply follow_ext, leaf_path; [done|lia|done]].
  destruct Hleaf as [->|[H7 H0]]; [lia|]. destruct (leaf_at va' Hp Ha) as (H1 & H2 & H3).
  destruct (mmu_absent s i va' t) as [_ Hno]; [lia|done|by rewrite H3|]. rewrite Hno by done.
  replace n with (i + S (n - S i))%nat by lia. rewrite follow_app, H2. cbn [mbind option_bind follow]. rewrite Z.add_0_l, H3. fold w.
  unfold s', set_phys, upd_word. cbn [phys]. by rewrite Z.eqb_refl, H7, andb_false_r.
Qed.
Lemma leaf_mmu va' : plain va' -> mmu (phys s') 4 0 (cr3 s') va' = if decide (agree (Z.of_nat (S i)) va va') then leaf e (Z.of_nat i) va' else mmu (phys s) 4 0 (cr3 s) va'.
Proof.
  intros Hp. destruct (decide _) as [Ha|Hna]; [|apply mmu_ext, leaf_path; [done|lia|tauto]].
  destruct (leaf_at va' Hp Ha) as (H1 & H2 & H3). replace 4%nat with (i + S (3 - i))%nat by lia. rewrite (follow_mmu _ _ _ _ _ _ _ H2) by lia. rewrite Z.add_0_l.
  cbn [mmu]. rewrite H3. fold w. unfold s', set_phys, upd_word. cbn [phys]. rewrite Z.eqb_refl. unfold leaf. destruct (has 0 e); cbn [negb]; [|done].
  destruct (Z.eqb_spec (Z.of_nat i) 3) as [->|].
  - change (2 ^ (39 - 9 * 3)) with 4096. change (2 ^ 12) with 4096. by rewrite base_aligned, Z.sub_0_r.
  - destruct Hleaf as [->|[-> _]]; [done|]. by rewrite (proj2 (Z.eqb_neq _ 0)) by lia.
Qed.
Lemma leaf_wf : wf s'.
Proof.
  assert (forall k, 0 <= k < 512 -> phys s' (cr3 s + 8 * k) = phys s (cr3 s + 8 * k)) as Hc.
  { intros k Hk. apply upd_word_ne. intros E. apply word_inj in E as [Ec _]; [|apply (w_cr3 _ W)|by eapply table_aligned|done|apply index_range].
    destruct (w_tree _ W 0 i va va t) as [E0 _]; try done; [lia|lia|by rewrite <- Ec|]. lia. }
  constructor.
  - apply (w_cr3 _ W).
  - change (cr3 s') with (cr3 s). rewrite Hc by lia. apply (w_self _ W).
  - change (cr3 s') with (cr3 s). intros k Hk. rewrite Hc by done. by apply (w_top _ W).
  - intros n n' va1 va2 t' Hn Hn' Hp Hp'. rewrite !leaf_table by done. by apply (w_tree _ W).
  - destruct (w_free _ W) as [Hnd Hfr]. split; [done|]. eapply Forall_impl; [exact Hfr|]. intros g' [H1 H2]. split; [done|].
    intros n va' Hn Hp. rewrite leaf_table by done. by apply H2.
Qed.
End leaf.

(** ** The operations *)
(** What an address is mapped to: the physical address, the entry and its level. *)
Definition mapping (s : pt) (va : Z) : option (Z * Z * Z) := mmu (phys s) 4 0 (cr3 s) va.
(** The range of the page of level [n] around an address is in use, by a page or by
    a table of smaller pages. *)
Definition occupied (s : pt) (n : nat) (va : Z) : bool := bool_decide (is_Some (mapping s va)) || bool_decide (is_Some (table s (S n) va)).

Lemma checked_addr va pgsize flags create s ok s' : checked_loop (Z.to_nat (3 - pgsize)) 0 va flags create s = Done ok s' ->
  get_pte_addr_checked va pgsize flags create s = Done (if ok : bool then Some (get_pte_addr va (3 - pgsize)) else None) s'.
Proof. intros H. unfold get_pte_addr_checked. by rewrite (bind_eq _ _ _ _ _ H). Qed.

Lemma occupied_entry s n va t : wf s -> (1 <= n <= 3)%nat -> table s n va = Some t -> occupied s n va = has 0 (phys s (t + 8 * pt_index va (Z.of_nat n))).
Proof.
  intros W Hn Ht. unfold occupied, mapping. set (e := phys s _). destruct (has 0 e) eqn:E0.
  - apply orb_true_iff. rewrite !bool_decide_eq_true. destruct (decide (n = 3%nat)) as [->|Hn3].
    + left. replace 4%nat with (3 + 1)%nat by lia. rewrite (follow_mmu _ _ _ _ _ _ _ Ht), Z.add_0_l by lia. cbn [mmu]. fold e. rewrite E0. by eexists.
    + pose proof (present_entry s n va t W ltac:(lia) Ht E0) as Hp. cbv zeta in Hp. fold e in Hp. destruct (has 7 e); [by left|]. right. rewrite Hp. by eexists.
  - destruct (mmu_absent s n va t) as [-> Hno]; [lia|done|done|]. by rewrite Hno by lia.
Qed.
Lemma bind_panic {A B} (m : M pt A) (f : A -> M pt B) s msg : m s = Panicked msg -> (m ≫= f) s = Panicked msg.
Proof. unfold mbind, M_bind. by intros ->. Qed.
Lemma checked_panic va pgsize flags create s msg : checked_loop (Z.to_nat (3 - pgsize)) 0 va flags create s = Panicked msg ->
  get_pte_addr_checked va pgsize flags create s = Panicked msg.
Proof. intros H. unfold get_pte_addr_checked. by rewrite (bind_panic _ _ _ _ H). Qed.

(** C29: [map_page] adds the page of [vaddr], or panics if there is one already. *)
Theorem map_page_correct (s : pt) (addr vaddr pgsize flags : Z) (W : wf s) (Hva : plain vaddr) (Haddr : 0 <= addr < 2 ^ 52)
  (Hsize : 0 <= pgsize <= 2) (Hflags : has 7 flags = false) (Hfree : (Z.to_nat (3 - pgsize) <= length (free_pages s))%nat) :
  let n := Z.to_nat (3 - pgsize) in
  if occupied s n vaddr then exists msg, map_page addr vaddr pgsize flags s = Panicked msg
  else exists s', map_page addr vaddr pgsize flags s = Done () s' /\ wf s' /\ cr3 s' = cr3 s /\
    (exists j, (j <= n)%nat /\ free_pages s' = drop j (free_pages s)) /\
    forall va, plain va -> mapping s' va =
      if decide (agree (Z.of_nat (S n)) vaddr va)
      then let size := 2 ^ (12 + 9 * pgsize) in Some (addr - addr mod size + va mod size, entry addr pgsize flags PTE_P, 3 - pgsize)
      else mapping s va.
Proof.
  intros n. destruct (checked_create vaddr flags n s 0 (cr3 s) W Hva Hflags eq_refl ltac:(lia) Hfree) as [[H Hm]|(s1 & t & H & Hx & Ht & Hk)].
  { unfold occupied. rewrite (bool_decide_eq_true_2 _ Hm). exists "Xx". unfold map_page. by rewrite (bind_panic _ _ _ _ (checked_panic _ _ _ _ _ _ H)). }
  pose proof (checked_addr vaddr pgsize flags true s true s1 H) as Hc. pose proof (x_wf _ _ _ Hx) as W1.
  assert (Z.of_nat n = 3 - pgsize) as En by lia. assert (1 <= n <= 3)%nat as Hn by lia. cbn [Nat.add] in Ht, Hk.
  set (e0 := phys s1 (t + 8 * pt_index vaddr (3 - pgsize))).
  assert (occupied s n vaddr = has 0 e0) as ->.
  { unfold e0. rewrite <- En, <- (occupied_entry s1 n vaddr t) by done. unfold occupied, mapping. by rewrite (x_mmu _ _ _ Hx vaddr Hva), (Hk (S n)) by lia. }
  assert (load (get_pte_addr vaddr (3 - pgsize)) s1 = Done e0 s1) as Hl by (apply load_pte; [done|lia|by rewrite <- En, Nat2Z.id]).
  unfold map_page. rewrite (bind_eq _ _ _ _ _ Hc). cbn [deref]. rewrite (bind_eq _ _ _ _ _ (mret_eq _ s1)), (bind_eq _ _ _ _ _ Hl).
  destruct (has 0 e0) eqn:E0; [by eexists|]. fold (entry addr pgsize flags PTE_P). set (e := entry addr pgsize flags PTE_P).
  assert (has 0 e = true /\ (n = 3%nat \/ has 7 e = true)) as [He0 He7].
  { unfold has, e. rewrite !entry_low by lia. split; [by rewrite orb_true_r|]. destruct (Z.eqb_spec pgsize 0); [left; lia|right]. by rewrite orb_true_r. }
  assert (n = 3%nat \/ has 7 e = true /\ has 0 (phys s1 (t + 8 * pt_index vaddr (Z.of_nat n))) = false) as Hleaf by (rewrite En; tauto).
  eexists. split; [apply store_pte; [done|lia|by rewrite <- En, Nat2Z.id]|]. rewrite <- En. split_and!.
  - by apply leaf_wf.
  - apply (x_cr3 _ _ _ Hx).
  - apply (x_free _ _ _ Hx).
  - intros va Hp. unfold mapping. rewrite leaf_mmu by done. rewrite (x_mmu _ _ _ Hx va Hp). destruct (decide _); [|done]. unfold leaf. rewrite He0.
    subst e. rewrite entry_base by (done || lia). assert (2 ^ pte_low_bits pgsize = 2 ^ (12 + 9 * pgsize)) as ->.
    { assert (pgsize = 0 \/ pgsize = 1 \/ pgsize = 2) as [->|[->| ->]] by lia; done. }
    replace (39 - 9 * Z.of_nat n) with (12 + 9 * pgsize) by lia. do 3 f_equal. assert (0 < 2 ^ (12 + 9 * pgsize)) by (apply Z.pow_pos_nonneg; lia).
    rewrite (Zminus_mod addr), Z.mod_mod, Z.sub_diag, Z.mod_0_l by lia. lia.
Qed.

Lemma checked_find va flags n : forall s i t, wf s -> table s i va = Some t -> (i + n <= 3)%nat ->
  (checked_loop n (Z.of_nat i) va flags false s = Panicked "Xx" /\ exists p e k, mapping s va = Some (p, e, k) /\ k < 3) \/
  (checked_loop n (Z.of_nat i) va flags false s = Done false s /\ exists j tj, (j < 3)%nat /\ table s j va = Some tj /\ has 0 (phys s (tj + 8 * pt_index va (Z.of_nat j))) = false) \/
  (checked_loop n (Z.of_nat i) va flags false s = Done true s /\ is_Some (table s (i + n) va)).
Proof.
  induction n as [|n IH]; intros s i t W Ht Hn; [right; right; split; [done|rewrite Nat.add_0_r; by eexists]|].
  cbn [checked_loop]. rewrite (bind_eq _ _ _ _ _ (load_pte s va (Z.of_nat i) t W ltac:(lia) ltac:(by rewrite Nat2Z.id))), (proj2 (Z.eqb_neq _ 3)) by lia.
  destruct (has 0 (phys s (t + 8 * pt_index va (Z.of_nat i)))) eqn:H0; cbn [negb andb].
  - pose proof (present_entry s i va t W ltac:(lia) Ht H0) as Hpe. cbv zeta in Hpe. destruct (has 7 (phys s _)) eqn:H7.
    + left. split; [done|]. destruct Hpe as [[[p e] k] Hm]. exists p, e, k. split; [done|]. pose proof Hm as Hm'.
      replace 4%nat with (i + S (3 - i))%nat in Hm by lia. rewrite (follow_mmu _ _ _ _ _ _ _ Ht), Z.add_0_l in Hm by lia.
      cbn [mmu] in Hm. rewrite H0, H7, (proj2 (Z.eqb_neq _ 3)) in Hm by lia. cbn [negb] in Hm. destruct (Z.eqb_spec (Z.of_nat i) 0); [done|].
      injection Hm as _ _ <-. lia.
    + replace (Z.of_nat i + 1) with (Z.of_nat (S i)) by lia. replace (i + S n)%nat with (S i + n)%nat by lia. by eapply IH; [|exact Hpe|lia].
  - right. left. split; [done|]. exists i, t. split; [lia|done].
Qed.

(** [unmap] takes the page of [vaddr] away, or panics if it is a large one. *)
Theorem unmap_correct (s : pt) (vaddr : Z) (W : wf s) (Hva : plain vaddr) :
  if match mapping s vaddr with Some (_, _, level) => level <? 3 | None => false end then exists msg, unmap vaddr s = Panicked msg
  else exists s', unmap vaddr s = Done () s' /\ wf s' /\ cr3 s' = cr3 s /\ free_pages s' = free_pages s /\
    forall va, plain va -> mapping s' va = if decide (agree 4 vaddr va) then None else mapping s va.
Proof.
  unfold unmap. destruct (checked_find vaddr 0 3 s 0 (cr3 s) W eq_refl ltac:(lia)) as [[H (p & e & k & -> & Hk)]|[(H & j & t & Hj & Ht & H0)|[H [t Ht]]]].
  - rewrite (proj2 (Z.ltb_lt k 3)) by done. exists "Xx". by rewrite (bind_panic _ _ _ _ (checked_panic vaddr 0 _ _ _ _ H)).
  - destruct (mmu_absent s j vaddr t) as [Hm _]; [lia|done|done|]. unfold mapping at 1. rewrite Hm. exists s. split_and!; try done.
    + by rewrite (bind_eq _ _ _ _ _ (checked_addr vaddr 0 _ _ _ _ _ H)).
    + intros va Hp. destruct (decide _) as [Ha|_]; [|done]. apply (mmu_absent s j va t); [lia|rewrite <- Ht; symmetry; apply follow_agree; intros k Hk; apply Ha; lia|].
      by rewrite <- (Ha (Z.of_nat j)) by lia.
  - assert (match mapping s vaddr with Some (_, _, level) => level <? 3 | None => false end = false) as ->.
    { unfold mapping. replace 4%nat with (3 + 1)%nat by lia. rewrite (follow_mmu _ _ _ _ _ _ _ Ht), Z.add_0_l by lia. cbn [mmu]. by destruct (has 0 _). }
    rewrite (bind_eq _ _ _ _ _ (checked_addr vaddr 0 _ _ _ _ _ H)). eexists. split; [apply (store_pte s vaddr 3 t); [done|lia|done]|].
    assert (3%nat = 3%nat \/ has 7 0 = true /\ has 0 (phys s (t + 8 * pt_index vaddr (Z.of_nat 3))) = false) as Hleaf by (by left).
    split_and!; [apply (leaf_wf s vaddr 3 t 0 W Hva ltac:(lia) Ht Hleaf)|done|done|].
    intros va Hp. unfold mapping. by apply (leaf_mmu s vaddr 3 t 0 W Hva ltac:(lia) Ht Hleaf).
Qed.

(** ** Tables by their physical addresses *)
Lemma entry_loop_follow s vaddr n : forall i t t', 0 <= i -> i + Z.of_nat n = 3 -> follow (phys s) n i t vaddr = Some t' ->
  entry_loop n i (t + KERN_VMBASE) vaddr s = Done (Some (t' + KERN_VMBASE + 8 * pt_index vaddr 3)) s.
Proof.
  induction n as [|n IH]; intros i t t' Hi Hn H; cbn [entry_loop follow] in *; [by injection H as ->|].
  unfold word_at. rewrite (bind_eq _ _ _ _ _ (gets_eq _ s)). replace (t + KERN_VMBASE + 8 * pt_index vaddr i - KERN_VMBASE) with (t + 8 * pt_index vaddr i) by lia.
  destruct (has 0 _); [|done]. destruct (has 7 _); [done|]. cbn [negb andb] in *. apply IH; [lia|lia|done].
Qed.
Lemma entry_loop_absent s vaddr n : forall i t, 0 <= i -> i + Z.of_nat n = 3 -> mmu (phys s) (S n) i t vaddr = None -> follow (phys s) n i t vaddr = None ->
  (i = 0 -> has 0 (phys s (t + 8 * pt_index vaddr 0)) = true -> has 7 (phys s (t + 8 * pt_index vaddr 0)) = false) -> entry_loop n i (t + KERN_VMBASE) vaddr s = Done None s.
Proof.
  induction n as [|n IH]; intros i t Hi Hn Hm Hf H7; [done|]. cbn [entry_loop follow mmu] in *. rewrite (proj2 (Z.eqb_neq i 3)) in Hm by lia.
  unfold word_at. rewrite (bind_eq _ _ _ _ _ (gets_eq _ s)). replace (t + KERN_VMBASE + 8 * pt_index vaddr i - KERN_VMBASE) with (t + 8 * pt_index vaddr i) by lia.
  destruct (has 0 (phys s (t + 8 * pt_index vaddr i))) eqn:H0; cbn [negb andb] in *; [|done].
  destruct (has 7 (phys s (t + 8 * pt_index vaddr i))) eqn:E7; cbn [negb] in *.
  - destruct (Z.eqb_spec i 0) as [->|]; [|done]. by rewrite H7 in E7.
  - apply IH; [lia|lia|done|done|lia].
Qed.

(** [unmap_maybe_current] takes the page of [vaddr] out of tables that are not in use. *)
Theorem unmap_other_correct (s : pt) (pml4 vaddr : Z) (W : wf (mkPt (phys s) pml4 (free_pages s))) (Hva : 0 <= vaddr < 2 ^ 47)
  (Hlarge : match mmu (phys s) 4 0 pml4 vaddr with Some (_, _, level) => level <? 3 | None => false end = false) :
  exists s', unmap_maybe_current false (pml4 + KERN_VMBASE) vaddr s = Done () s' /\ wf (mkPt (phys s') pml4 (free_pages s')) /\ cr3 s' = cr3 s /\
    forall va, plain va -> mmu (phys s') 4 0 pml4 va = if decide (agree 4 vaddr va) then None else mmu (phys s) 4 0 pml4 va.
Proof.
  set (s0 := mkPt (phys s) pml4 (free_pages s)) in W. assert (plain vaddr) as Hp.
  { unfold plain. intros E. assert (Z.testbit (pt_index vaddr 0) 8 = true) as Hb by (by rewrite E).
    rewrite pt_index_testbit in Hb by lia. cbn in Hb. rewrite <- (wrap_small 47 vaddr) in Hb by done. rewrite wrap_testbit in Hb by lia. done. }
  assert (has 63 vaddr = false) as H63 by (unfold has; rewrite <- (wrap_small 47 vaddr) by done; by rewrite wrap_testbit by lia).
  unfold unmap_maybe_current, ptable_get_entry_4k. rewrite H63. destruct (table s0 3 vaddr) as [t|] eqn:Ht.
  - rewrite (bind_eq _ _ _ _ _ (entry_loop_follow s vaddr 3 0 pml4 t ltac:(lia) ltac:(lia) Ht)).
    replace (t + KERN_VMBASE + 8 * pt_index vaddr 3 - KERN_VMBASE) with (t + 8 * pt_index vaddr 3) by lia. eexists. split; [apply modify_eq|].
    assert (3%nat = 3%nat \/ has 7 0 = true /\ has 0 (phys s0 (t + 8 * pt_index vaddr (Z.of_nat 3))) = false) as Hleaf by (by left).
    split_and!; [apply (leaf_wf s0 vaddr 3 t 0 W Hp ltac:(lia) Ht Hleaf)|done|].
    intros va Hva'. by apply (leaf_mmu s0 vaddr 3 t 0 W Hp ltac:(lia) Ht Hleaf).
  - assert (mmu (phys s) 4 0 pml4 vaddr = None) as Hm.
    { destruct (checked_find vaddr 0 3 s0 0 pml4 W eq_refl ltac:(lia)) as [[_ (p & e & k & Hm & Hk)]|[(_ & j & tj & Hj & Hf & H0)|[_ [t Ht']]]].
      - change (mmu (phys s) 4 0 pml4 vaddr = Some (p, e, k)) in Hm. rewrite Hm in Hlarge. apply Z.ltb_ge in Hlarge. lia.
      - by apply (mmu_absent s0 j vaddr tj); [lia|..].
      - change (table s0 3 vaddr = Some t) in Ht'. congruence. }
    assert (has 0 (phys s (pml4 + 8 * pt_index vaddr 0)) = true -> has 7 (phys s (pml4 + 8 * pt_index vaddr 0)) = false) as H7 by (apply (w_top _ W), index_range).
    assert (entry_loop 3 0 (pml4 + KERN_VMBASE) vaddr s = Done None s) as He by (by apply entry_loop_absent).
    rewrite (bind_eq _ _ _ _ _ He). exists s. split_and!; [done|done|done|]. intros va Hva'. destruct (decide _) as [Ha|_]; [|done].
    by apply (mmu_agree _ 4 vaddr va 0 pml4).
Qed.

(** ** The first tables *)
(** Three tables in pages that follow each other, as [memory_init] sets them up. *)
Section early.
Context (m : Z -> Z) (p base0 base1 : Z).
Context (Hp : p mod 4096 = 0) (Hpos : 0 <= p < 2 ^ 51).
Definition present (e base level : Z) : Prop := has 0 e = true /\ has 7 e = (level =? 1) /\ pte_get_base e = base.
Context (Htop : forall k, 0 <= k < 512 ->
  if k =? 511 then present (m (p + 8 * k)) (p + 4096) 0 else if k =? 256 then present (m (p + 8 * k)) p 0 else has 0 (m (p + 8 * k)) = false).
Context (Hpdp : forall k, 0 <= k < 512 -> if k =? 510 then present (m (p + 4096 + 8 * k)) (p + 8192) 0 else has 0 (m (p + 4096 + 8 * k)) = false).
Context (Hpd : forall k, 0 <= k < 512 -> if k =? 1 then present (m (p + 8192 + 8 * k)) base0 1 else
  if k =? 2 then present (m (p + 8192 + 8 * k)) base1 1 else has 0 (m (p + 8192 + 8 * k)) = false).

Lemma early_follow va n : plain va -> (1 <= n <= 3)%nat -> follow m n 0 p va =
  if (n =? 1)%nat && (pt_index va 0 =? 511) then Some (p + 4096) else if (n =? 2)%nat && (pt_index va 0 =? 511) && (pt_index va 1 =? 510) then Some (p + 8192) else None.
Proof.
  intros Hv Hn. pose proof (Htop _ (index_range va 0)) as H0. pose proof (Hpdp _ (index_range va 1)) as H1. pose proof (Hpd _ (index_range va 2)) as H2.
  assert (n = 1%nat \/ n = 2%nat \/ n = 3%nat) as Hn' by lia. clear Hn.
  destruct (Z.eqb_spec (pt_index va 0) 511) as [E0|E0].
  - rewrite E0 in H0. destruct H0 as (A1 & A2 & A3). destruct (Z.eqb_spec (pt_index va 1) 510) as [E1|E1].
    + rewrite E1 in H1. destruct H1 as (B1 & B2 & B3).
      destruct Hn' as [->|[->| ->]]; cbn [follow]; change (0 + 1) with 1; change (1 + 1) with 2; rewrite E0, A1, A2, A3; cbn [negb andb Z.eqb Nat.eqb]; [done| |];
        rewrite E1, B1, B2, B3; cbn [negb andb Z.eqb Nat.eqb]; [done|].
      destruct (Z.eqb_spec (pt_index va 2) 1) as [E2|]; [destruct H2 as (_ & -> & _); by rewrite andb_false_r|].
      destruct (Z.eqb_spec (pt_index va 2) 2) as [E2|]; [destruct H2 as (_ & -> & _); by rewrite andb_false_r|]. by rewrite H2.
    + destruct Hn' as [->|[->| ->]]; cbn [follow]; change (0 + 1) with 1; rewrite E0, A1, A2, A3; cbn [negb andb Z.eqb Nat.eqb]; rewrite ?H1; done.
  - rewrite (proj2 (Z.eqb_neq _ 256) Hv) in H0. destruct Hn' as [->|[->| ->]]; cbn [follow]; rewrite H0; done.
Qed.
Lemma early_mmu va : plain va -> (fun r => r.1.1) <$> mmu m 4 0 p va =
  if (pt_index va 0 =? 511) && (pt_index va 1 =? 510) && ((pt_index va 2 =? 1) || (pt_index va 2 =? 2))
  then let b := if pt_index va 2 =? 1 then base0 else base1 in Some (b - b mod 2 ^ 21 + va mod 2 ^ 21) else None.
Proof.
  intros Hv. pose proof (Htop _ (index_range va 0)) as H0. pose proof (Hpdp _ (index_range va 1)) as H1. pose proof (Hpd _ (index_range va 2)) as H2.
  cbn [mmu]. change (0 + 1) with 1. change (1 + 1) with 2.
  destruct (Z.eqb_spec (pt_index va 0) 511) as [->|Hne]; [destruct H0 as (-> & -> & ->)|rewrite (proj2 (Z.eqb_neq _ 256) Hv) in H0; rewrite H0; done].
  destruct (Z.eqb_spec (pt_index va 1) 510) as [->|Hne]; [destruct H1 as (-> & -> & ->)|rewrite H1; done].
  destruct (Z.eqb_spec (pt_index va 2) 1) as [->|]; [by destruct H2 as (-> & -> & ->)|].
  destruct (Z.eqb_spec (pt_index va 2) 2) as [->|]; [by destruct H2 as (-> & -> & ->)|]. by rewrite H2.
Qed.
Lemma early_wf l : NoDup l -> Forall (fun g => frame_ok g /\ p + 12288 <= g) l -> wf (mkPt m p l).
Proof.
  intros Hnd Hl. constructor; cbn [phys cr3 free_pages].
  - done.
  - pose proof (Htop 256 ltac:(lia)) as (-> & -> & ->). done.
  - intros k Hk. specialize (Htop k Hk). destruct (k =? 511); [by destruct Htop as (_ & -> & _)|]. destruct (k =? 256); [by destruct Htop as (_ & -> & _)|]. by rewrite Htop.
  - assert (forall n va t, (n <= 3)%nat -> plain va -> follow m n 0 p va = Some t -> t = p + 4096 * Z.of_nat n /\ (n <= 2)%nat /\
      ((1 <= n)%nat -> pt_index va 0 = 511) /\ ((2 <= n)%nat -> pt_index va 1 = 510)) as Ht.
    { intros n va t Hn Hv. destruct (decide (n = 0%nat)) as [->|]; [cbn; intros [= <-]; split_and!; lia|]. rewrite early_follow by (done || lia).
      destruct (Nat.eqb_spec n 1), (Nat.eqb_spec n 2), (Z.eqb_spec (pt_index va 0) 511), (Z.eqb_spec (pt_index va 1) 510); cbn [andb]; try done; intros [= <-]; split_and!; lia. }
    clear Htop Hpdp Hpd. intros n n' va va' t Hn Hn' Hv Hv' H1 H2.
    apply Ht in H1 as (E1 & L1 & I1 & J1); [|done|done]. apply Ht in H2 as (E2 & L2 & I2 & J2); [|done|done]. clear Ht.
    assert (n = n') as <- by lia. split; [done|]. intros k Hk. assert (k = 0 \/ k = 1) as [->| ->] by lia; [by rewrite I1, I2 by lia|by rewrite J1, J2 by lia].
  - split; [done|]. eapply Forall_impl; [exact Hl|]. intros g [Hg Hge]. split; [done|]. intros n va Hn Hv.
    destruct (decide (n = 0%nat)) as [->|]; [cbn; intros [= <-]; lia|]. rewrite early_follow by (done || lia). repeat case_match; try done; intros [= <-]; lia.
Qed.
End early.

Lemma present_of base level c : 0 <= base < 2 ^ 52 -> 0 <= level <= 1 -> base mod 2 ^ pte_low_bits level = 0 -> c = Z.lor PTE_P PTE_W -> present (Z.lor (pte_set_base 0 base level) c) base level.
Proof.
  intros Hb Hl Hm ->. assert (Z.lor (pte_set_base 0 base level) (Z.lor PTE_P PTE_W) = entry base level 0 (Z.lor PTE_P PTE_W)) as -> by (unfold entry, pte_set_flags; by rewrite Z.land_0_l, Z.lor_0_r).
  unfold present, has. rewrite !entry_low, entry_base by (done || lia). split_and!; [by rewrite orb_true_r| |lia].
  rewrite Z.testbit_0_l by lia. assert (level = 0 \/ level = 1) as [->| ->] by lia; done.
Qed.
Lemma present_0 base : 0 <= base < 2 ^ 52 -> base mod 4096 = 0 -> present (Z.lor (pte_set_base 0 base 0) (Z.lor PTE_P PTE_W)) base 0.
Proof. intros. by apply present_of. Qed.
(** The symbols of [linker.script]. *)
Definition physbase : Z := 0x200000.
Definition physoffset : Z := 0xffffffff80000000.
Definition kernbase : Z := physoffset + physbase.

Ltac word_cases := unfold upd_word, clear_page; repeat match goal with
  | |- context [?a =? ?b] => destruct (Z.eqb_spec a b); try lia
  | |- context [?a <=? ?b] => destruct (Z.leb_spec a b); try lia
  | |- context [?a <? ?b] => destruct (Z.ltb_spec a b); try lia end; cbn [andb]; try done.

(** The addresses of the image by their indices. *)
Lemma kern_index va : canonical va = true ->
  (pt_index va 0 =? 511) && (pt_index va 1 =? 510) && ((pt_index va 2 =? 1) || (pt_index va 2 =? 2)) = (0xffffffff80200000 <=? va) && (va <? 0xffffffff80600000) /\
  (0xffffffff80200000 <= va < 0xffffffff80600000 -> va - 0xffffffff80000000 = (if pt_index va 2 =? 1 then 0x200000 else 0x400000) + va mod 0x200000).
Proof.
  intros Hc. apply orb_true_iff in Hc. rewrite !andb_true_iff, !Z.leb_le, !Z.ltb_lt in Hc.
  set (q := va / 0x200000). assert (va = 0x200000 * q + va mod 0x200000 /\ 0 <= va mod 0x200000 < 0x200000) as [Hq Hr].
  { subst q. split; [apply Z.div_mod; lia|apply Z.mod_pos_bound; lia]. }
  assert (pt_index va 0 = q / 262144 mod 512 /\ pt_index va 1 = q / 512 mod 512 /\ pt_index va 2 = q mod 512) as (-> & -> & ->).
  { unfold pt_index, q. change 0x1ff with (Z.ones 9). rewrite !Z.land_ones, !Z.shiftr_div_pow2, !Z.div_div by lia. done. }
  change (2 ^ 47) with 140737488355328 in Hc. change (2 ^ 64) with 18446744073709551616 in Hc. clearbody q. generalize dependent (va mod 2097152). intros r -> Hr.
  assert (0 <= q < 67108864 \/ 8796025913344 <= q < 8796093022208) as Hq by lia. clear Hc.
  assert (q / 262144 mod 512 = 511 /\ q / 512 mod 512 = 510 /\ (q mod 512 = 1 \/ q mod 512 = 2) <-> q = 8796093021185 \/ q = 8796093021186) as E.
  { Z.div_mod_to_equations. lia. }
  split.
  - apply eq_true_iff_eq. rewrite !andb_true_iff, orb_true_iff, !Z.eqb_eq, Z.leb_le, Z.ltb_lt. lia.
  - intros H. assert (q = 8796093021185 \/ q = 8796093021186) as [-> | ->] by lia; [change (8796093021185 mod 512 =? 1) with true|change (8796093021186 mod 512 =? 1) with false]; lia.
Qed.

Lemma early_tables_words kernend m : kernbase <= kernend < kernbase + 0x400000 ->
  exists m' p, early_tables kernend kernbase physbase physoffset m = (m', p, p + 12288 + physoffset) /\ p mod 4096 = 0 /\ physbase <= p <= physbase + 0x401000 /\
    (forall k, 0 <= k < 512 -> if k =? 511 then present (m' (p + 8 * k)) (p + 4096) 0 else if k =? 256 then present (m' (p + 8 * k)) p 0 else has 0 (m' (p + 8 * k)) = false) /\
    (forall k, 0 <= k < 512 -> if k =? 510 then present (m' (p + 4096 + 8 * k)) (p + 8192) 0 else has 0 (m' (p + 4096 + 8 * k)) = false) /\
    (forall k, 0 <= k < 512 -> if k =? 1 then present (m' (p + 8192 + 8 * k)) physbase 1 else
       if k =? 2 then present (m' (p + 8192 + 8 * k)) (physbase + 0x200000) 1 else has 0 (m' (p + 8192 + 8 * k)) = false).
Proof.
  intros Hk. unfold early_tables. cbv zeta. change (pt_index kernbase 0) with 511. change (pt_index kernbase 1) with 510. change (pt_index kernbase 2) with 1.
  assert (Z.land (kernend + 4096) (u64 (Z.lnot 4095)) = kernend + 4096 - (kernend + 4096) mod 4096) as ->.
  { change 4095 with (Z.ones 12). unfold kernbase, physoffset, physbase in Hk. rewrite land_not_ones, ldiff_ones by (unfold is_u64; lia). done. }
  set (p := kernend + 4096 - (kernend + 4096) mod 4096 - physoffset).
  assert (p mod 4096 = 0 /\ physbase <= p <= physbase + 0x401000) as [Hp Hb] by (subst p; unfold kernbase, physoffset, physbase in *; Z.div_mod_to_equations; lia).
  replace (kernend + 4096 - (kernend + 4096) mod 4096 + 4096 - physoffset) with (p + 4096) by lia.
  replace (kernend + 4096 - (kernend + 4096) mod 4096 + 4096 + 4096 - physoffset) with (p + 8192) by lia.
  replace (kernend + 4096 - (kernend + 4096) mod 4096 + 4096 + 4096 + 4096) with (p + 12288 + physoffset) by lia. clearbody p. unfold physbase in Hb.
  set (rw := fun e => Z.lor e (Z.lor PTE_P PTE_W)). set (m' := upd_word _ (p + 8 * 256) _). exists m', p. split; [done|]. split; [done|]. split; [unfold physbase; lia|]. subst m'. split_and!; intros k Hk'.
  - destruct (Z.eqb_spec k 511) as [->|]; [|destruct (Z.eqb_spec k 256) as [->|]]; word_cases; apply present_0; Z.div_mod_to_equations; lia.
  - destruct (Z.eqb_spec k 510) as [->|]; word_cases; apply present_0; Z.div_mod_to_equations; lia.
  - destruct (Z.eqb_spec k 1) as [->|]; [|destruct (Z.eqb_spec k 2) as [->|]]; word_cases; by apply present_of.
Qed.

Lemma early_translate m p l va :
  (forall k, 0 <= k < 512 -> if k =? 511 then present (m (p + 8 * k)) (p + 4096) 0 else if k =? 256 then present (m (p + 8 * k)) p 0 else has 0 (m (p + 8 * k)) = false) ->
  (forall k, 0 <= k < 512 -> if k =? 510 then present (m (p + 4096 + 8 * k)) (p + 8192) 0 else has 0 (m (p + 4096 + 8 * k)) = false) ->
  (forall k, 0 <= k < 512 -> if k =? 1 then present (m (p + 8192 + 8 * k)) physbase 1 else
       if k =? 2 then present (m (p + 8192 + 8 * k)) (physbase + 0x200000) 1 else has 0 (m (p + 8192 + 8 * k)) = false) ->
  canonical va = true -> plain va -> translate (mkPt m p l) va = if (kernbase <=? va) && (va <? kernbase + 0x400000) then Some (va - physoffset) else None.
Proof.
  intros Htop Hpdp Hpd Hc Hv. unfold translate. cbn [phys cr3]. rewrite Hc, (early_mmu _ _ _ _ Htop Hpdp Hpd va Hv).
  destruct (kern_index va Hc) as [-> E]. change kernbase with 0xffffffff80200000. change (0xffffffff80200000 + 0x400000) with 0xffffffff80600000.
  destruct (_ && _) eqn:Hin; [|done]. apply andb_true_iff in Hin as [H1%Z.leb_le H2%Z.ltb_lt]. change physoffset with 0xffffffff80000000. rewrite E by lia.
  change (2 ^ 21) with 0x200000. f_equal. destruct (pt_index va 2 =? 1); cbn [Z.add]; reflexivity.
Qed.

(** The first tables give access to themselves, and map the 4 MB of the kernel's image
    and nothing else. *)
Theorem early_tables_correct (kernend : Z) (m : Z -> Z) (Hk : kernbase <= kernend < kernbase + 0x400000) :
  let '(m', pml4, endaddr) := early_tables kernend kernbase physbase physoffset m in
  (forall l, NoDup l -> Forall (fun g => frame_ok g /\ endaddr - physoffset <= g) l -> wf (mkPt m' pml4 l)) /\
  forall va l, canonical va = true -> plain va ->
    translate (mkPt m' pml4 l) va = if (kernbase <=? va) && (va <? kernbase + 0x400000) then Some (va - physoffset) else None.
Proof.
  destruct (early_tables_words kernend m Hk) as (m' & p & -> & Hp & Hpos & Htop & Hpdp & Hpd).
  unfold physbase in Hpos. split; [intros l Hnd Hl; eapply early_wf; try done; eapply Forall_impl; [exact Hl|]; intros g [? ?]; split; [done|lia]|].
  intros va l Hc Hv. by apply early_translate.
Qed.
Lemma early_tables_correct_witness : kernbase <= kernbase + 0x34567 /\
  translate (let '(m', pml4, _) := early_tables (kernbase + 0x34567) kernbase physbase physoffset (fun _ => 0xffff) in mkPt m' pml4 []) (kernbase + 0x1234) = Some 0x201234.
Proof.
  split; [by vm_compute|]. assert (kernbase <= kernbase + 0x34567 < kernbase + 0x400000) as H by (split; by vm_compute).
  pose proof (early_tables_correct (kernbase + 0x34567) (fun _ => 0xffff) H) as E. destruct (early_tables _ _ _ _ _) as [[m' pml4] e].
  destruct E as [_ E]. apply (E (kernbase + 0x1234) []); by vm_compute.
Defined.

(** The state after [memory_init] loaded its tables, with free pages behind them. *)
Definition boot (l : list Z) : pt := let '(m', pml4, _) := early_tables (kernbase + 0x34567) kernbase physbase physoffset (fun _ => 0xffff) in mkPt m' pml4 l.
Definition boot_pages : list Z := [0x240000; 0x250000; 0x260000; 0x270000].
Lemma boot_wf : wf (boot boot_pages).
Proof.
  unfold boot. assert (kernbase <= kernbase + 0x34567 < kernbase + 0x400000) as H by (split; by vm_compute).
  assert ((early_tables (kernbase + 0x34567) kernbase physbase physoffset (fun _ => 0xffff)).1.2 = 0x235000) as Ep by (by vm_compute).
  destruct (early_tables_words (kernbase + 0x34567) (fun _ => 0xffff) H) as (m' & p & E & Hp & Hpos & Htop & Hpdp & Hpd). rewrite E in Ep |- *. cbn in Ep. subst p.
  eapply early_wf; try done; [unfold boot_pages; repeat constructor; set_solver|]. unfold boot_pages, frame_ok. repeat apply Forall_cons_2; try apply Forall_nil_2; (split; [split; [lia|done]|lia]).
Qed.
Lemma map_page_correct_witness : wf (boot boot_pages) /\ exists s', map_page 0xb8000 0xffff8080000b8000 0 PTE_W (boot boot_pages) = Done () s' /\
  (fun r => r.1.1) <$> mapping s' 0xffff8080000b8123 = Some 0xb8123.
Proof.
  split; [exact boot_wf|]. assert (plain 0xffff8080000b8000) as Hv by (by vm_compute).
  pose proof (map_page_correct (boot boot_pages) 0xb8000 0xffff8080000b8000 0 PTE_W boot_wf Hv ltac:(done) ltac:(done) eq_refl ltac:(vm_compute; lia)) as H.
  cbv zeta in H. assert (occupied (boot boot_pages) (Z.to_nat (3 - 0)) 0xffff8080000b8000 = false) as Ho by (by vm_compute). rewrite Ho in H.
  destruct H as (s' & H & _ & _ & _ & Hm). exists s'. split; [exact H|]. rewrite Hm by (by vm_compute). rewrite decide_True; [reflexivity|].
  intros k Hk. assert (k = 0 \/ k = 1 \/ k = 2 \/ k = 3) as [->|[->|[->| ->]]] by lia; reflexivity.
Defined.
Lemma unmap_correct_witness : wf (boot boot_pages) /\ exists s', unmap 0xffff8080000b8000 (boot boot_pages) = Done () s' /\ mapping s' 0xffff8080000b8123 = None.
Proof.
  split; [exact boot_wf|]. assert (plain 0xffff8080000b8000) as Hv by (by vm_compute). pose proof (unmap_correct (boot boot_pages) 0xffff8080000b8000 boot_wf Hv) as H.
  assert (mapping (boot boot_pages) 0xffff8080000b8000 = None) as E by (by vm_compute). rewrite E in H. destruct H as (s' & H & _ & _ & _ & Hm). exists s'. split; [exact H|].
  rewrite Hm by (by vm_compute). destruct (decide _); [done|]. by vm_compute.
Defined.
Lemma unmap_other_correct_witness : wf (boot boot_pages) /\ exists s', unmap_maybe_current false (0x235000 + KERN_VMBASE) 0x400000 (boot boot_pages) = Done () s' /\ mmu (phys s') 4 0 0x235000 0x400123 = None.
Proof.
  split; [exact boot_wf|]. assert (wf (mkPt (phys (boot boot_pages)) 0x235000 (free_pages (boot boot_pages)))) as W by exact boot_wf.
  destruct (unmap_other_correct (boot boot_pages) 0x235000 0x400000 W ltac:(done)) as (s' & H & _ & _ & Hm); [by vm_compute|]. exists s'. split; [exact H|].
  rewrite Hm by (by vm_compute). destruct (decide _); [done|]. by vm_compute.
Defined.
(** Twice the same page, and a small page in a large one. *)
Example map_twice : match (map_page 0xb8000 0xffff8080000b8000 0 PTE_W;; map_page 0xb9000 0xffff8080000b8000 0 PTE_W) (boot boot_pages) with Panicked msg => msg = "mapping an already mapped page" | _ => False end.
Proof. by vm_compute. Qed.
Example map_in_large : map_page 0xb8000 (kernbase + 0x3000) 0 PTE_W (boot boot_pages) = Panicked "Xx".
Proof. by vm_compute. Qed.

(** ** Ranges *)
Lemma agree_page va va' : canonical va = true -> canonical va' = true -> agree 4 va va' <-> va / 4096 = va' / 4096.
Proof.
  intros Hc Hc'. split; [|intros H k Hk; apply index_page; [done|lia]]. intros Ha.
  pose proof (Ha 0 ltac:(lia)) as H0. pose proof (Ha 1 ltac:(lia)) as H1. pose proof (Ha 2 ltac:(lia)) as H2. pose proof (Ha 3 ltac:(lia)) as H3. clear Ha.
  unfold pt_index in *. change 0x1ff with (Z.ones 9) in *. rewrite !Z.land_ones, !Z.shiftr_div_pow2 in * by lia.
  unfold canonical in *. rewrite !orb_true_iff, !andb_true_iff, !Z.leb_le, !Z.ltb_lt in *.
  change (2 ^ 47) with (4096 * 34359738368) in *. change (2 ^ 64) with (4096 * 4503599627370496) in *.
  change (2 ^ (39 - 0 * 9)) with (4096 * (512 * (512 * 512))) in *. change (2 ^ (39 - 1 * 9)) with (4096 * (512 * 512)) in *.
  change (2 ^ (39 - 2 * 9)) with (4096 * 512) in *. change (2 ^ (39 - 3 * 9)) with 4096 in *. change (2 ^ 9) with 512 in *.
  rewrite <- !Z.div_div in * by lia.
  assert (forall x, (0 <= x < 4096 * 34359738368 \/ 4096 * 4503599627370496 - 4096 * 34359738368 <= x < 4096 * 4503599627370496) ->
    0 <= x / 4096 < 34359738368 \/ 4503599627370496 - 34359738368 <= x / 4096 < 4503599627370496) as Hq by (intros x Hx; Z.div_mod_to_equations; lia).
  apply Hq in Hc, Hc'. clear Hq. generalize dependent (va / 4096). generalize dependent (va' / 4096). intros q' Hq' q Hq H3 H2 H1 H0.
  Z.div_mod_to_equations. lia.
Qed.
Lemma occupied_mapping s va : occupied s 3 va = bool_decide (is_Some (mapping s va)).
Proof.
  unfold occupied. destruct (table s 4 va) as [t|] eqn:Ht; [|by rewrite orb_false_r]. apply mmu_follow in Ht as (e & He). unfold mapping. by rewrite He.
Qed.

(** How many pages a loop takes for its tables: none where the table of the page is
    there already, and at most three for every 2 MB that it enters. *)
Lemma checked_present va flags n : forall s i t, wf s -> table s i va = Some t -> (i + n <= 3)%nat -> is_Some (table s (i + n) va) ->
  checked_loop n (Z.of_nat i) va flags true s = Done true s.
Proof.
  induction n as [|n IH]; intros s i t W Ht Hn Hs; [done|].
  assert (exists u, table s (S i) va = Some u) as [u Hu].
  { destruct Hs as [x Hs]. revert Hs. replace (i + S n)%nat with (S i + n)%nat by lia. rewrite follow_app.
    destruct (follow _ (S i) 0 (cr3 s) va) as [u|] eqn:E; [by exists u|done]. }
  pose proof Hu as Hu'. replace (S i) with (i + 1)%nat in Hu' by lia. rewrite follow_app, Ht in Hu'. cbn [mbind option_bind follow] in Hu'. rewrite Z.add_0_l in Hu'.
  cbn [checked_loop]. rewrite (bind_eq _ _ _ _ _ (load_pte s va (Z.of_nat i) t W ltac:(lia) ltac:(by rewrite Nat2Z.id))), (proj2 (Z.eqb_neq _ 3)) by lia.
  destruct (has 0 (phys s _)); [|done]. destruct (has 7 (phys s _)); [done|]. cbn [negb andb].
  replace (Z.of_nat i + 1) with (Z.of_nat (S i)) by lia. apply (IH s (S i) u); [done|done|lia|]. by replace (S i + n)%nat with (i + S n)%nat by lia.
Qed.
Lemma map_page_in_table s s' addr vaddr flags : wf s -> is_Some (table s 3 vaddr) -> map_page addr vaddr 0 flags s = Done () s' -> free_pages s' = free_pages s.
Proof.
  intros W Ht. pose proof (checked_addr vaddr 0 flags true s true s (checked_present vaddr flags 3 s 0 (cr3 s) W eq_refl ltac:(lia) Ht)) as Hc.
  unfold map_page. rewrite (bind_eq _ _ _ _ _ Hc). cbn [deref]. rewrite (bind_eq _ _ _ _ _ (mret_eq _ s)). destruct Ht as [t Ht]. change (3 - 0) with 3.
  rewrite (bind_eq _ _ _ _ _ (load_pte s vaddr 3 t W ltac:(lia) Ht)). destruct (has 0 _); [done|].
  rewrite (store_pte s vaddr 3 t) by (done || lia). by intros [= <-].
Qed.
Lemma mmu_last_table m t va p e : mmu m 4 0 t va = Some (p, e, 3) -> is_Some (follow m 3 0 t va).
Proof.
  cbn [mmu follow]. change (0 + 1) with 1. change (1 + 1) with 2. change (2 + 1) with 3. cbn [Z.eqb].
  do 3 (destruct (has 0 (m _)); [cbn [negb andb]|done]; destruct (has 7 (m _)); [done|]; cbn [negb andb]). by eexists.
Qed.
Definition tables_for (s : pt) (vaddr len : Z) : Z := (if table s 3 vaddr then 0 else 3) + 3 * ((vaddr + len) / 2 ^ 21 - vaddr / 2 ^ 21).
Lemma table_block s va va' : va / 2 ^ 21 = va' / 2 ^ 21 -> table s 3 va = table s 3 va'.
Proof.
  intros E. apply follow_agree. intros k Hk. unfold pt_index. change 0x1ff with (Z.ones 9). rewrite !Z.land_ones, !Z.shiftr_div_pow2 by lia. f_equal.
  replace (39 - k * 9) with (21 + (2 - k) * 9) by lia. by rewrite Z.pow_add_r, <- !Z.div_div, E by lia.
Qed.
Lemma tables_step s s1 vaddr len : 4096 <= len -> vaddr mod 4096 = 0 -> is_Some (table s1 3 vaddr) ->
  (if table s 3 vaddr then 0 else 3) + tables_for s1 (vaddr + 4096) (len - 4096) <= tables_for s vaddr len.
Proof.
  intros Hl Hv Hs. unfold tables_for. replace (vaddr + 4096 + (len - 4096)) with (vaddr + len) by lia.
  destruct (Z.eq_dec (vaddr / 2 ^ 21) ((vaddr + 4096) / 2 ^ 21)) as [E|E].
  - rewrite <- (table_block s1 _ _ E). destruct Hs as [t ->]. rewrite <- E. destruct (table s 3 vaddr); lia.
  - assert (vaddr / 2 ^ 21 < (vaddr + 4096) / 2 ^ 21) by (pose proof (Z.div_le_mono vaddr (vaddr + 4096) (2 ^ 21)); lia). destruct (table s 3 vaddr), (table s1 3 (vaddr + 4096)); lia.
Qed.
(** A loop of [map_page] over pages that are free. *)
Definition range_mapped (s s' : pt) (addr vaddr len : Z) : Prop := forall va, plain va -> canonical va = true ->
  translate s' va = if (vaddr <=? va) && (va <? vaddr + len) then Some (addr + (va - vaddr)) else translate s va.
Lemma map_loop flags n : has 7 flags = false -> forall s addr vaddr len, wf s -> addr mod 4096 = 0 -> vaddr mod 4096 = 0 ->
  0 <= addr /\ addr + len <= 2 ^ 52 -> len = 4096 * Z.of_nat n -> (3 * n <= length (free_pages s))%nat ->
  (forall va, vaddr <= va < vaddr + len -> canonical va = true /\ plain va /\ mapping s va = None) ->
  exists s', map_range_loop n addr vaddr 4096 0 flags s = Done () s' /\ wf s' /\ range_mapped s s' addr vaddr len /\
    exists j, (j <= 3 * n)%nat /\ Z.of_nat j <= tables_for s vaddr len /\ free_pages s' = drop j (free_pages s).
Proof.
  intros Hflags. induction n as [|n IH]; intros s addr vaddr len W Haddr Hvaddr Hbound El Hf Hrange.
  { exists s. split_and!; [done|done| |exists 0%nat; split_and!; [lia|unfold tables_for; replace (vaddr + len) with vaddr by lia; destruct (table s 3 vaddr); lia|done]]. intros va _ _. by destruct (Z.leb_spec vaddr va), (Z.ltb_spec va (vaddr + len)); try lia. }
  destruct (Hrange vaddr ltac:(lia)) as (Hc & Hp & Hm). pose proof (map_page_correct s addr vaddr 0 flags W Hp ltac:(lia) ltac:(lia) Hflags) as Hmap. cbv zeta in Hmap.
  change (Z.to_nat (3 - 0)) with 3%nat in Hmap. specialize (Hmap ltac:(lia)). rewrite occupied_mapping, Hm in Hmap. rewrite bool_decide_eq_false_2 in Hmap by (by intros [? ?]).
  destruct Hmap as (s1 & H1 & W1 & _ & Hfree' & Hm1). assert (is_Some (table s1 3 vaddr)) as Ht1 by (eapply mmu_last_table; fold (mapping s1 vaddr); by rewrite Hm1, decide_True by done).
  assert (exists j, (j <= 3)%nat /\ Z.of_nat j <= (if table s 3 vaddr then 0 else 3) /\ free_pages s1 = drop j (free_pages s)) as (j & Hj & Hjc & Hfree).
  { destruct (table s 3 vaddr) eqn:E; [exists 0%nat; split_and!; [lia|lia|]; by rewrite (map_page_in_table s s1 addr vaddr flags) by (done || by rewrite E)|].
    destruct Hfree' as (j & ? & ?). exists j. split_and!; [done|lia|done]. }
  clear Hfree'. cbn [map_range_loop]. rewrite (bind_eq _ _ _ _ _ H1).
  assert (forall va, plain va -> canonical va = true -> mapping s1 va = if va / 4096 =? vaddr / 4096 then Some (addr + va mod 4096, entry addr 0 flags PTE_P, 3) else mapping s va) as Hm1'.
  { intros va Hp' Hc'. rewrite Hm1 by done. change (2 ^ (12 + 9 * 0)) with 4096. rewrite Haddr, Z.sub_0_r. change (Z.of_nat 4) with 4.
    destruct (Z.eqb_spec (va / 4096) (vaddr / 4096)) as [E|E], (decide _) as [Ha|Ha]; try done; exfalso.
    - apply Ha. by apply agree_page.
    - apply agree_page in Ha; [|done|done]. congruence. }
  destruct (IH s1 (addr + 4096) (vaddr + 4096) (len - 4096)) as (s' & H' & W' & Ht' & (j' & Hj' & Hjc' & Hfree')); try done.
  - Z.div_mod_to_equations. lia.
  - Z.div_mod_to_equations. lia.
  - lia.
  - lia.
  - rewrite Hfree, length_drop. lia.
  - intros va Hva. destruct (Hrange va ltac:(lia)) as (Hc' & Hp' & Hn). split_and!; [done|done|]. rewrite Hm1' by done.
    destruct (Z.eqb_spec (va / 4096) (vaddr / 4096)) as [E|]; [|done]. exfalso. Z.div_mod_to_equations. lia.
  - exists s'. split_and!; [done|done| |exists (j + j')%nat; split_and!; [lia|pose proof (tables_step s s1 vaddr len ltac:(lia) Hvaddr Ht1); lia|by rewrite Hfree', Hfree, drop_drop]]. intros va Hp' Hc'. rewrite Ht' by done. unfold translate at 1 2. rewrite Hc'. fold (mapping s1 va) (mapping s va). rewrite Hm1' by done.
    destruct (Z.eqb_spec (va / 4096) (vaddr / 4096)) as [E|E].
    + assert (vaddr <= va < vaddr + 4096 /\ va mod 4096 = va - vaddr) as [Hv Em] by (Z.div_mod_to_equations; lia).
      rewrite (proj2 (Z.leb_gt (vaddr + 4096) va)), (proj2 (Z.leb_le vaddr va)), (proj2 (Z.ltb_lt va (vaddr + len))) by lia. cbn. by rewrite Em.
    + assert (va < vaddr \/ vaddr + 4096 <= va) as [Hv|Hv] by (Z.div_mod_to_equations; lia).
      * by rewrite (proj2 (Z.leb_gt (vaddr + 4096) va)), (proj2 (Z.leb_gt vaddr va)) by lia.
      * rewrite (proj2 (Z.leb_le (vaddr + 4096) va)), (proj2 (Z.leb_le vaddr va)) by lia. replace (vaddr + 4096 + (len - 4096)) with (vaddr + len) by lia.
        cbn [andb]. destruct (va <? vaddr + len); [f_equal; lia|done].
Qed.
(** [map_range] of pages of 4 KB maps the range to consecutive frames. *)
Theorem map_range_correct (s : pt) (addr vaddr len flags : Z) (W : wf s) (Haddr : addr mod 4096 = 0) (Hvaddr : vaddr mod 4096 = 0) (Hlen : len mod 4096 = 0)
  (Hbound : 0 <= addr /\ addr + len <= 2 ^ 52 /\ 0 <= len < 2 ^ 31) (Hflags : has 7 flags = false) (Hfree : 3 * (len / 4096) <= Z.of_nat (length (free_pages s)))
  (Hrange : forall va, vaddr <= va < vaddr + len -> canonical va = true /\ plain va /\ mapping s va = None) :
  exists s', map_range addr vaddr len 0 flags s = Done () s' /\ wf s' /\ range_mapped s s' addr vaddr len.
Proof.
  unfold map_range. change (PAGE_SIZE * 2 ^ (9 * 0)) with 4096. rewrite Haddr, Hvaddr, Hlen. cbn [Z.eqb negb orb]. rewrite Z.min_l, (proj2 (Z.leb_gt (2 ^ 31) len)) by lia.
  destruct (map_loop flags (Z.to_nat (len / 4096)) Hflags s addr vaddr len) as (s' & H & W' & Ht & _); try done; [lia|Z.div_mod_to_equations; lia|lia|].
  exists s'. by rewrite (bind_eq _ _ _ _ _ H).
Qed.
Lemma map_range_correct_witness : wf (boot boot_pages) /\ exists s', map_range 0xb8000 0xffff8080000b8000 0x1000 0 PTE_W (boot boot_pages) = Done () s' /\ translate s' 0xffff8080000b8fff = Some 0xb8fff.
Proof.
  split; [exact boot_wf|]. destruct (map_range_correct (boot boot_pages) 0xb8000 0xffff8080000b8000 0x1000 PTE_W boot_wf) as (s' & H & _ & Ht); try reflexivity; [by vm_compute|by vm_compute| |].
  - intros va Hva. assert (va / 4096 = 0xffff8080000b8000 / 4096) as E by (Z.div_mod_to_equations; lia). split_and!.
    + by rewrite (canonical_page _ _ E).
    + unfold plain. by rewrite (index_page _ _ 0 E).
    + apply (mmu_agree _ 4 0xffff8080000b8000); [intros k Hk; symmetry; apply index_page; [done|lia]|lia|lia|by vm_compute].
  - exists s'. split; [exact H|]. by rewrite Ht by (by vm_compute).
Defined.

(** ** The memory when the allocator starts *)
Lemma early_loop_range n : forall i, early_loop n i = map_range_loop n i (i + KERN_VMBASE) 4096 0 PTE_W.
Proof.
  induction n as [|n IH]; intros i; [done|]. cbn [early_loop map_range_loop]. rewrite IH. by replace (i + KERN_VMBASE + 4096) with (i + 4096 + KERN_VMBASE) by lia.
Qed.
Lemma linear_plain x : 0 <= x < 2 ^ 39 -> canonical (x + KERN_VMBASE) = true /\ plain (x + KERN_VMBASE).
Proof.
  intros Hx. split.
  - unfold canonical. apply orb_true_iff. right. apply andb_true_iff. rewrite Z.leb_le, Z.ltb_lt. unfold KERN_VMBASE. lia.
  - unfold plain, pt_index. change 0x1ff with (Z.ones 9). rewrite Z.land_ones, Z.shiftr_div_pow2 by lia. change (2 ^ (39 - 0 * 9)) with 549755813888. change (2 ^ 9) with 512.
    unfold KERN_VMBASE. Z.div_mod_to_equations. lia.
Qed.
Lemma translate_mapping s va : canonical va = true -> translate s va = None -> mapping s va = None.
Proof. unfold translate, mapping. intros ->. by destruct (mmu _ _ _ _ _). Qed.
(** The pages below [top] that are mapped. *)
Definition low_top (base length : Z) : Z := if base =? 0 then if 0x9f000 <? length then 0x9f000 else length - length mod 4096 else 0.
Definition early_range (physend top x : Z) : bool := (physend <=? x) && (x <? physend + 0x10000) || (0 <=? x) && (x <? top).

Lemma early_loop_ok n s i : wf s -> i mod 4096 = 0 -> 0 <= i -> i + 4096 * Z.of_nat n <= 2 ^ 39 -> (3 * n <= length (free_pages s))%nat ->
  (forall x, i <= x < i + 4096 * Z.of_nat n -> translate s (x + KERN_VMBASE) = None) ->
  exists s', early_loop n i s = Done () s' /\ wf s' /\ range_mapped s s' i (i + KERN_VMBASE) (4096 * Z.of_nat n) /\
    exists j, (j <= 3 * n)%nat /\ Z.of_nat j <= 3 + 3 * ((i + 4096 * Z.of_nat n) / 2 ^ 21 - i / 2 ^ 21) /\ free_pages s' = drop j (free_pages s).
Proof.
  intros W Hi H0 Hb Hf Hn. rewrite early_loop_range.
  destruct (map_loop PTE_W n eq_refl s i (i + KERN_VMBASE) (4096 * Z.of_nat n)) as (s' & H' & W' & R' & j & Hj & Hc & F'); try done; [|lia| |].
  - unfold KERN_VMBASE. Z.div_mod_to_equations. lia.
  - intros va Hva. destruct (linear_plain (va - KERN_VMBASE)) as [Hc Hp]; [lia|]. rewrite Z.sub_add in Hc, Hp. split_and!; [done|done|].
    apply translate_mapping; [done|]. replace va with (va - KERN_VMBASE + KERN_VMBASE) by lia. apply Hn. lia.
  - exists s'. split_and!; [done|done|done|]. exists j. split_and!; [done| |done]. revert Hc. unfold tables_for.
    assert (forall x, (x + KERN_VMBASE) / 2 ^ 21 = x / 2 ^ 21 + KERN_VMBASE / 2 ^ 21) as Hd by (intros x; apply (Z.div_add x (KERN_VMBASE / 2 ^ 21) (2 ^ 21)); lia).
    replace (i + KERN_VMBASE + 4096 * Z.of_nat n) with (i + 4096 * Z.of_nat n + KERN_VMBASE) by lia. rewrite !Hd. destruct (table s 3 _); lia.
Qed.

Lemma map_low_ok s base len type rest : wf s -> is_u64 len -> (477 <= length (free_pages s))%nat ->
  (forall x, 0 <= x < 0x9f000 -> translate s (x + KERN_VMBASE) = None) ->
  exists smap s' j, map_low ((base, len, type) :: rest) s = Done smap s' /\ wf s' /\ range_mapped s s' 0 (0 + KERN_VMBASE) (low_top base len) /\ (j <= 3)%nat /\
    free_pages s' = drop j (free_pages s).
Proof.
  intros W Hlen Hf Hn. unfold map_low, low_top. destruct (base =? 0).
  - assert (Z.land len (u64 (Z.lnot 0xfff)) = len - len mod 4096) as -> by (change 0xfff with (Z.ones 12); rewrite land_not_ones, ldiff_ones by (done || lia); done).
    set (top := if 0x9f000 <? len then 0x9f000 else len - len mod 4096).
    assert (0 <= top <= 0x9f000 /\ top mod 4096 = 0) as [Ht Ht'].
    { subst top. unfold is_u64 in Hlen. destruct (Z.ltb_spec 0x9f000 len); [done|]. Z.div_mod_to_equations. lia. }
    assert (top = 4096 * Z.of_nat (Z.to_nat (top / 4096))) as Et by (Z.div_mod_to_equations; lia).
    destruct (early_loop_ok (Z.to_nat (top / 4096)) s 0 W eq_refl ltac:(lia) ltac:(lia) ltac:(lia)) as (s' & H & W' & R & j & Hj & Hc & F); [intros x Hx; apply Hn; lia|].
    rewrite <- Et in R, Hc. rewrite (Z.div_small (0 + top)), Z.div_small in Hc by lia. eexists _, s', j. split; [by rewrite (bind_eq _ _ _ _ _ H)|]. split_and!; [done|done|lia|done].
  - eexists _, s, 0%nat. split_and!; [done|done| |lia|done]. intros va _ _. destruct (Z.leb_spec (0 + KERN_VMBASE) va), (Z.ltb_spec va (0 + KERN_VMBASE + 0)); try lia; done.
Qed.

(** C30: What the kernel can reach when [page_allocator_init] is called: its image, the 64 KB
    behind the first tables and the low memory, each where it expects it.  The
    allocator is given the rest of the 64 KB: at least seven pages, whose number is
    passed exactly, and none of them is a table of the address space. *)
Theorem memory_init_correct (kernend count base len type : Z) (rest : list (Z * Z * Z)) (m : Z -> Z)
  (Hk : kernbase <= kernend < kernbase + 0x400000) (Hcount : 525 < count < 2 ^ 32) (Hlen : is_u64 len) :
  let physend := (early_tables kernend kernbase physbase physoffset m).2 - physoffset in
  exists extra smap s', memory_init kernend kernbase physbase physoffset count ((base, len, type) :: rest) m =
      Done (extra + KERN_VMBASE, i32 (Z.shiftr (u64 (physend + 0x10000 - extra)) 12), smap, (physbase, physend + 0x10000 - physbase)) s' /\
    wf s' /\ (let npage := (physend + 0x10000 - extra) / 4096 in
      7 <= npage <= 16 /\ i32 (Z.shiftr (u64 (physend + 0x10000 - extra)) 12) = npage /\ physend <= extra /\
      forall i, 0 <= i < npage -> forall n va, (n <= 3)%nat -> plain va -> table s' n va <> Some (extra + 4096 * i)) /\
    forall va, plain va -> canonical va = true -> translate s' va =
      if (kernbase <=? va) && (va <? kernbase + 0x400000) then Some (va - physoffset)
      else if early_range physend (low_top base len) (va - KERN_VMBASE) then Some (va - KERN_VMBASE) else None.
Proof.
  pose proof (early_tables_words kernend m Hk) as (m' & p & E & Hp & Hpos & Htop & Hpdp & Hpd).
  unfold memory_init. rewrite E. cbn [snd]. replace (p + 12288 + physoffset - physoffset) with (p + 12288) by lia.
  set (pages := (fun i => p + 12288 + 0x1000 * i) <$> seqZ 0 count). set (s0 := mkPt m' p pages).
  assert (length pages = Z.to_nat count) as Lp by (unfold pages; by rewrite length_fmap, length_seqZ).
  assert (wf s0) as W0.
  { unfold physbase in Hpos. eapply early_wf; try done.
    - apply NoDup_fmap_2; [intros x y Hxy; lia|apply NoDup_seqZ].
    - apply Forall_fmap, Forall_forall. intros i [Hi1 Hi2]%elem_of_seqZ. unfold frame_ok. cbn. split; [split; [lia|Z.div_mod_to_equations; lia]|lia]. }
  assert (forall va, canonical va = true -> plain va -> translate s0 va = if (kernbase <=? va) && (va <? kernbase + 0x400000) then Some (va - physoffset) else None) as T0.
  { intros va Hc Hv. by apply early_translate. }
  set (end1 := p + 12288). assert (0x203000 <= end1 <= 0x604000 /\ end1 mod 4096 = 0) as [Hend Hend'] by (unfold physbase in Hpos; subst end1; split; [lia|Z.div_mod_to_equations; lia]).
  assert (forall x, 0 <= x < 2 ^ 31 -> translate s0 (x + KERN_VMBASE) = None) as N0.
  { intros x Hx. destruct (linear_plain x) as [Hc Hv]; [lia|]. rewrite T0 by done. rewrite (proj2 (Z.leb_gt kernbase _)); [done|]. unfold kernbase, physoffset, physbase, KERN_VMBASE. lia. }
  destruct (early_loop_ok 16 s0 end1 W0 Hend' ltac:(lia) ltac:(lia)) as (s1 & H1 & W1 & R1 & j1 & J1 & C1 & F1); [cbn [free_pages s0]; rewrite Lp; lia|intros x Hx; apply N0; lia|].
  assert (exists smap s2 j2, map_low ((base, len, type) :: rest) s1 = Done smap s2 /\ wf s2 /\ range_mapped s1 s2 0 (0 + KERN_VMBASE) (low_top base len) /\ (j2 <= 3)%nat /\ free_pages s2 = drop j2 (free_pages s1))
    as (smap & s2 & j2 & H2 & W2 & R2 & J2 & F2).
  { destruct (map_low_ok s1 base len type rest W1) as (smap & s2 & j2 & H2 & W2 & R2 & J2 & F2); [done|rewrite F1; cbn [free_pages s0]; rewrite length_drop, Lp; lia| |by exists smap, s2, j2].
    intros x Hx. destruct (linear_plain x) as [Hc Hv]; [lia|]. rewrite R1 by done. rewrite (proj2 (Z.leb_gt (end1 + KERN_VMBASE) _)) by lia. apply N0. lia. }
  set (extra := end1 + 4096 * Z.of_nat (j1 + j2)). exists extra, smap, s2.
  assert (free_pages s2 = drop (j1 + j2) pages) as F by (rewrite F2, F1, drop_drop; done).
  assert ((end1 + 4096 * Z.of_nat 16) / 2 ^ 21 - end1 / 2 ^ 21 <= 1) as Hblk.
  { assert ((end1 + 4096 * Z.of_nat 16) / 2 ^ 21 <= (end1 + 1 * 2 ^ 21) / 2 ^ 21) by (apply Z.div_le_mono; lia). rewrite Z.div_add in H by lia. lia. }
  assert (end1 + 0x10000 - extra = 4096 * (16 - Z.of_nat (j1 + j2))) as En by (subst extra; lia).
  split; [|split; [done|split]].
  - rewrite (bind_eq _ _ _ _ _ H1), (bind_eq _ _ _ _ _ H2). unfold endaddr_now. rewrite (bind_eq _ _ _ _ _ (gets_eq _ s2)), F, length_drop, Lp.
    replace (end1 + 4096 * (count - Z.of_nat (Z.to_nat count - (j1 + j2)))) with extra by (subst extra; lia).
    cbv zeta. unfold mret, M_ret.
    replace (end1 + 65536 + KERN_VMBASE - (extra + KERN_VMBASE)) with (end1 + 65536 - extra) by lia. done.
  - cbv zeta. rewrite En, (Z.mul_comm 4096), Z.div_mul by lia. split_and!; [lia|lia| |subst extra; lia|].
    + assert (exists a, 16 - Z.of_nat (j1 + j2) = a /\ 7 <= a <= 16) as (a & -> & Ha) by (eexists; split; [done|lia]).
      assert (a = 7 \/ a = 8 \/ a = 9 \/ a = 10 \/ a = 11 \/ a = 12 \/ a = 13 \/ a = 14 \/ a = 15 \/ a = 16) by lia. repeat destruct H as [->|H]; subst; done.
    + intros i Hi. destruct (w_free _ W2) as [_ Hfr]. rewrite F in Hfr. eapply Forall_lookup_1 in Hfr as [_ Hfr]; [exact Hfr|].
      rewrite lookup_drop. unfold pages. rewrite list_lookup_fmap, (lookup_seqZ_lt 0 count (j1 + j2 + Z.to_nat i)) by lia. cbn. f_equal. subst extra end1. lia.
  - intros va Hv Hc. rewrite R2, R1, T0 by done. unfold early_range.
    assert (0 <= low_top base len <= 0x9f000) as Htop'.
    { unfold low_top. destruct (base =? 0); [|lia]. unfold is_u64 in Hlen. destruct (Z.ltb_spec 0x9f000 len); [lia|]. Z.div_mod_to_equations. lia. }
    assert (KERN_VMBASE + 0x1000000 < kernbase) by done. generalize dependent (low_top base len). intros top _ Ht.
    destruct (Z.leb_spec kernbase va), (Z.ltb_spec va (kernbase + 0x400000)), (Z.leb_spec (0 + KERN_VMBASE) va), (Z.ltb_spec va (0 + KERN_VMBASE + top)),
      (Z.leb_spec (end1 + KERN_VMBASE) va), (Z.ltb_spec va (end1 + KERN_VMBASE + 4096 * Z.of_nat 16)), (Z.leb_spec end1 (va - KERN_VMBASE)),
      (Z.ltb_spec (va - KERN_VMBASE) (end1 + 0x10000)), (Z.leb_spec 0 (va - KERN_VMBASE)), (Z.ltb_spec (va - KERN_VMBASE) top); try lia; cbn [andb orb]; try done; f_equal; lia.
Qed.
Lemma memory_init_correct_witness : kernbase <= kernbase + 0x34567 /\ exists r s', memory_init (kernbase + 0x34567) kernbase physbase physoffset 600 [(0, 0x9fc00, 1); (0x100000, 0x7f00000, 1)] (fun _ => 0xffff) = Done r s' /\
  translate s' (KERN_VMBASE + 0x9e123) = Some 0x9e123 /\ translate s' (KERN_VMBASE + 0xb8000) = None.
Proof.
  split; [by vm_compute|]. assert (kernbase <= kernbase + 0x34567 < kernbase + 0x400000) as Hk by (split; by vm_compute).
  destruct (memory_init_correct (kernbase + 0x34567) 600 0 0x9fc00 1 [(0x100000, 0x7f00000, 1)] (fun _ => 0xffff) Hk ltac:(done) ltac:(done)) as (extra & smap & s' & H & _ & _ & Ht).
  eexists _, s'. split; [exact H|]. assert ((early_tables (kernbase + 0x34567) kernbase physbase physoffset (fun _ => 0xffff)).2 = physoffset + 0x238000) as E by (by vm_compute).
  rewrite E in Ht. split; (rewrite Ht; [reflexivity|by vm_compute..]).
Defined.
