(* ===== verification/PageFree.v ===== *)
(** The end of the page tables of an address space: [walk_user_page_table] with
    [free_page_table] of [sys/mm/aspace.c], the part of [destroy_as] that gives the
    tables back.  The other part is [Aspace.destroy_as]. *)
From S2P Require Import Prelude Bits PageTable PageTableProofs.

Section free.
(** What [drop_page] writes into a page that it takes: the link to the next free one. *)
Context (link : pt -> Z).
(** [drop_page] of [sys/mm/get_page.c]; [pg] is a pointer. *)
Definition drop_page (pg : Z) : M pt () :=
  if negb (Z.land pg 0xfff =? 0) then panic "Dropping invalid page"
  else modify (fun s => mkPt (upd_word (phys s) (pg - KERN_VMBASE) (link s)) (cr3 s) (pg - KERN_VMBASE :: free_pages s)).
(** [free_page_table]; [pte] is 0 for NULL. *)
Definition free_page_table (pt_base pte : Z) : M pt () :=
  drop_page pt_base;;
  if pte =? 0 then mret () else modify (fun s => set_phys (upd_word (phys s) (pte - KERN_VMBASE) 0) s).
Definition destroy_tables (pml4 : Z) : M pt () := walk_user_page_table free_page_table pml4.

(** ** The tables that the walk visits *)
(** Those below [t], [n] levels deep, and [t] itself, in the order of the visits. *)
Fixpoint tabs (m : Z -> Z) (n : nat) (t : Z) (top : nat) : list Z :=
  match n with
  | O => []
  | S n => seqZ 0 (Z.of_nat top) ≫= fun i => let e := m (t + 8 * i) in if has 0 e then tabs m n (pte_get_base e) 512 else []
  end ++ [t].
Definition below (m : Z -> Z) (n : nat) (t i : Z) : list Z := let e := m (t + 8 * i) in if has 0 e then tabs m n (pte_get_base e) 512 else [].
(** No entry has the bit of a large page. *)
Fixpoint small (m : Z -> Z) (n : nat) (t : Z) (top : nat) : bool :=
  match n with
  | O => true
  | S n => forallb (fun i => let e := m (t + 8 * i) in if has 7 e then false else if has 0 e then small m n (pte_get_base e) 512 else true) (seqZ 0 (Z.of_nat top))
  end.
Lemma small_entry m n t top i : small m (S n) t top = true -> 0 <= i < Z.of_nat top ->
  has 7 (m (t + 8 * i)) = false /\ (has 0 (m (t + 8 * i)) = true -> small m n (pte_get_base (m (t + 8 * i))) 512 = true).
Proof.
  cbn [small]. rewrite forallb_forall. intros H Hi. specialize (H i). cbv zeta in H. rewrite <- list_elem_of_In, elem_of_seqZ in H.
  specialize (H ltac:(lia)). destruct (has 7 _); [done|]. split; [done|]. intros H0. by rewrite H0 in H.
Qed.
Definition holds (m : Z -> Z) (s : pt) (l : list Z) : Prop := forall y i, y ∈ l -> 0 <= i < 512 -> phys s (y + 8 * i) = m (y + 8 * i).
Definition apart (l : list Z) (x : Z) : Prop := forall y, y ∈ l -> ~ y <= x < y + 4096.

Lemma tabs_aligned m n : forall t top y, t mod 4096 = 0 -> y ∈ tabs m n t top -> y mod 4096 = 0.
Proof.
  induction n as [|n IH]; intros t top y Ht; cbn [tabs].
  - by intros ->%list_elem_of_singleton.
  - rewrite elem_of_app, list_elem_of_bind, list_elem_of_singleton. intros [(i & Hy & _)| ->]; [|done].
    cbv zeta in Hy. destruct (has 0 _); [|by apply elem_of_nil in Hy]. eapply IH; [|exact Hy]. apply base_aligned.
Qed.
Lemma below_aligned m n t i y : y ∈ below m n t i -> y mod 4096 = 0.
Proof. unfold below. cbv zeta. destruct (has 0 (m (t + 8 * i))); [|by intros ?%elem_of_nil]. apply tabs_aligned, base_aligned. Qed.
Lemma apart_word l z k : z mod 4096 = 0 -> 0 <= k < 512 -> (forall y, y ∈ l -> y mod 4096 = 0 /\ y <> z) -> apart l (z + 8 * k).
Proof. intros Hz Hk Hl y Hy Hin. destruct (Hl y Hy) as [Ha Hne]. apply Hne. Z.div_mod_to_equations. lia. Qed.

(** What the walk from [t] does. *)
Definition walked (m : Z -> Z) (l : list Z) (pte : Z) (s s' : pt) : Prop :=
  cr3 s' = cr3 s /\ free_pages s' = rev l ++ free_pages s /\ (forall x, apart l x -> pte = 0 \/ x <> pte - KERN_VMBASE -> phys s' x = phys s x).

Lemma leave_ok t pte s : t mod 4096 = 0 -> exists s', free_page_table (t + KERN_VMBASE) pte s = Done () s' /\ cr3 s' = cr3 s /\
  free_pages s' = t :: free_pages s /\ forall x, ~ t <= x < t + 4096 -> pte = 0 \/ x <> pte - KERN_VMBASE -> phys s' x = phys s x.
Proof.
  intros Ht. unfold free_page_table, drop_page. change 0xfff with (Z.ones 12). rewrite Z.land_ones by lia.
  replace ((t + KERN_VMBASE) mod 2 ^ 12) with 0 by (change (2 ^ 12) with 4096; unfold KERN_VMBASE; Z.div_mod_to_equations; lia).
  cbn [Z.eqb negb]. rewrite (bind_eq _ _ _ _ _ (modify_eq _ _)). rewrite Z.add_simpl_r. destruct (Z.eqb_spec pte 0) as [->|Hp].
  - eexists. split; [reflexivity|]. split_and!; [done..|]. intros x Hx _. cbn. by rewrite upd_word_ne by lia.
  - eexists. split; [reflexivity|]. split_and!; [done..|]. intros x Hx [?|Hne]; [done|]. cbn. by rewrite !upd_word_ne by lia.
Qed.

Section entries.
Context (m : Z -> Z) (n : nat) (t : Z) (Ht : t mod 4096 = 0).
Context (IH : forall t' pte s, t' mod 4096 = 0 -> small m n t' 512 = true -> NoDup (tabs m n t' 512) -> holds m s (tabs m n t' 512) ->
  exists s', walk_page_table free_page_table n (t' + KERN_VMBASE) pte 512 s = Done () s' /\ walked m (tabs m n t' 512) pte s s').

Lemma entries_ok cnt : forall i s, 0 <= i -> i + Z.of_nat cnt <= 512 ->
  (forall k, i <= k < i + Z.of_nat cnt -> has 7 (m (t + 8 * k)) = false /\ (has 0 (m (t + 8 * k)) = true -> small m n (pte_get_base (m (t + 8 * k))) 512 = true)) ->
  let l := seqZ i (Z.of_nat cnt) ≫= below m n t in NoDup l -> t ∉ l -> holds m s l -> (forall k, i <= k < 512 -> phys s (t + 8 * k) = m (t + 8 * k)) ->
  exists s', walk_entries (fun next pte => walk_page_table free_page_table n next pte 512) cnt (t + KERN_VMBASE + 8 * i) s = Done () s' /\
    cr3 s' = cr3 s /\ free_pages s' = rev l ++ free_pages s /\ forall x, apart l x -> ~ t <= x < t + 4096 -> phys s' x = phys s x.
Proof.
  induction cnt as [|cnt IHc]; intros i s Hi Hc Hs l Hnd Htl Hm Hw; subst l; [by exists s|].
  rewrite (seqZ_cons i) in * by lia. replace (Z.pred (Z.of_nat (S cnt))) with (Z.of_nat cnt) in * by lia. cbn [mbind list_bind] in *.
  fold (mbind (M := list) (below m n t)) in *. set (l1 := below m n t i) in *. set (l2 := seqZ (Z.succ i) (Z.of_nat cnt) ≫= below m n t) in *.
  apply NoDup_app in Hnd as (N1 & N12 & N2). apply not_elem_of_app in Htl as [T1 T2].
  assert (forall y, y ∈ l2 -> y ∈ l1 ++ l2) as I2 by (intros y Hy; apply elem_of_app; by right).
  destruct (Hs i ltac:(lia)) as [H7 Hsm].
  set (e := m (t + 8 * i)) in *.
  assert (exists s1, (if has 0 e then walk_page_table free_page_table n (KERN_VMBASE + pte_get_base e) (t + KERN_VMBASE + 8 * i) 512 else mret ()) s = Done () s1 /\ cr3 s1 = cr3 s /\ free_pages s1 = rev l1 ++ free_pages s /\ forall x, apart l1 x -> x <> t + 8 * i -> phys s1 x = phys s x)
    as (s1 & E1 & C1 & F1 & P1).
  { unfold l1, below in N1 |- *. fold e in N1 |- *. cbv zeta in N1 |- *. destruct (has 0 e) eqn:H0; [|exists s; by split_and!].
    destruct (IH (pte_get_base e) (t + KERN_VMBASE + 8 * i) s) as (s1 & E & C & F & P); [apply base_aligned|by apply Hsm|done| |].
    - intros y k Hy. apply Hm. apply elem_of_app. left. unfold l1, below. fold e. cbv zeta. by rewrite H0.
    - exists s1. rewrite Z.add_comm. split_and!; try done. intros x Hx Hne. apply P; [done|]. right. lia. }
  assert (forall y, y ∈ l1 -> y mod 4096 = 0) as A1.
  { apply below_aligned. }
  assert (forall y, y ∈ l2 -> y mod 4096 = 0) as A2.
  { intros y (k & Hy & _)%list_elem_of_bind. by eapply below_aligned. }
  destruct (IHc (Z.succ i) s1) as (s' & E' & C' & F' & P'); [lia|lia| |exact N2|exact T2| | |].
  - intros k Hk. apply Hs. lia.
  - intros y k Hy Hk. rewrite P1; [apply Hm; [by apply I2|done]| |].
    + apply apart_word; [by apply A2|done|]. intros z Hz. split; [by apply A1|]. intros ->. by apply (N12 y).
    + intros Heq. apply word_inj in Heq as [-> _]; [by apply T2|by apply A2|done|done|lia].
  - intros k Hk. rewrite P1; [apply Hw; lia| |lia]. apply apart_word; [done|lia|]. intros z Hz. split; [by apply A1|]. by intros ->.
  - exists s'. split_and!.
    + cbn [walk_entries]. unfold word_at at 1. rewrite (bind_eq _ _ _ _ _ (gets_eq _ s)). replace (t + KERN_VMBASE + 8 * i - KERN_VMBASE) with (t + 8 * i) by lia.
      rewrite Hw by lia. fold e. rewrite H7, (bind_eq _ _ _ _ _ E1). by replace (t + KERN_VMBASE + 8 * i + 8) with (t + KERN_VMBASE + 8 * Z.succ i) by lia.
    + congruence.
    + rewrite F', F1, rev_app_distr, <- (assoc_L app). done.
    + intros x Hx Hout. rewrite P', P1; [done|..].
      * intros y Hy. apply Hx, elem_of_app. by left.
      * intros ->. apply Hout. lia.
      * intros y Hy. by apply Hx, I2.
      * done.
Qed.
End entries.

Lemma walk_ok m n : forall t top pte s, t mod 4096 = 0 -> (top <= 512)%nat -> small m n t top = true -> NoDup (tabs m n t top) -> holds m s (tabs m n t top) ->
  exists s', walk_page_table free_page_table n (t + KERN_VMBASE) pte top s = Done () s' /\ walked m (tabs m n t top) pte s s'.
Proof.
  induction n as [|n IH]; intros t top pte s Ht Htop Hs Hnd Hm.
  { destruct (leave_ok t pte s Ht) as (s' & E & C & F & P). exists s'. split; [exact E|]. split_and!; [done..|]. intros x Hx Hne. apply P; [|done]. apply Hx. by left. }
  set (l := seqZ 0 (Z.of_nat top) ≫= below m n t). change (tabs m (S n) t top) with (l ++ [t]) in *.
  apply NoDup_app in Hnd as (Nl & Nt & _).
  assert (t ∉ l) as Htl by (intros Hin; apply (Nt t Hin); by left).
  destruct (entries_ok m n t Ht (fun t' pte s' Ht' => IH t' 512%nat pte s' Ht' ltac:(lia)) top 0 s) as (s1 & E1 & C1 & F1 & P1).
  - lia.
  - lia.
  - intros k Hk. by apply (small_entry m n t top k).
  - exact Nl.
  - exact Htl.
  - intros y i Hy. apply Hm, elem_of_app. by left.
  - intros k Hk. apply Hm; [apply elem_of_app; right; by left|lia].
  - destruct (leave_ok t pte s1 Ht) as (s2 & E2 & C2 & F2 & P2). exists s2. split.
    { cbn [walk_page_table]. rewrite Z.mul_0_r, Z.add_0_r in E1. by rewrite (bind_eq _ _ _ _ _ E1). }
    split_and!; [congruence|by rewrite F2, F1, rev_app_distr|]. intros x Hx Hne.
    assert (~ t <= x < t + 4096) as Hxt by (apply Hx, elem_of_app; right; by left).
    rewrite P2, P1; [done| |done|done|done]. intros y Hy. apply Hx, elem_of_app. by left.
Qed.
End free.

(** ** Which tables these are *)
(** An address with given indices. *)
Lemma address_of (i : Z -> Z) : (forall k, 0 <= k < 3 -> 0 <= i k < 512) -> exists va, 0 <= va < i 0 * 2 ^ 39 + 2 ^ 39 /\ i 0 * 2 ^ 39 <= va /\ forall k, 0 <= k < 3 -> pt_index va k = i k.
Proof.
  intros Hi. pose proof (Hi 0 ltac:(lia)). pose proof (Hi 1 ltac:(lia)). pose proof (Hi 2 ltac:(lia)).
  exists (i 0 * 2 ^ 39 + i 1 * 2 ^ 30 + i 2 * 2 ^ 21). change (2 ^ 39) with 549755813888. change (2 ^ 30) with 1073741824. change (2 ^ 21) with 2097152.
  split; [lia|]. split; [lia|]. intros k Hk. unfold pt_index. change 0x1ff with (Z.ones 9). rewrite Z.land_ones, Z.shiftr_div_pow2 by lia. change (2 ^ 9) with 512.
  assert (k = 0 \/ k = 1 \/ k = 2) as [->|[->| ->]] by lia.
  - change (2 ^ (39 - 0 * 9)) with 549755813888. rewrite <- (Z.div_unique _ 549755813888 (i 0) (i 1 * 1073741824 + i 2 * 2097152)) by lia. by rewrite Z.mod_small by lia.
  - change (2 ^ (39 - 1 * 9)) with 1073741824. rewrite <- (Z.div_unique _ 1073741824 (i 0 * 512 + i 1) (i 2 * 2097152)) by lia. rewrite Z.add_comm, Z.mod_add by lia. by apply Z.mod_small.
  - change (2 ^ (39 - 2 * 9)) with 2097152. rewrite <- (Z.div_unique _ 2097152 ((i 0 * 512 + i 1) * 512 + i 2) 0) by lia. rewrite Z.add_comm, Z.mod_add by lia. by apply Z.mod_small.
Qed.

Definition user (va : Z) : Prop := 0 <= va < 2 ^ 47.
Lemma user_index va : user va -> pt_index va 0 < 256.
Proof.
  intros Hv. unfold user in Hv. unfold pt_index. change 0x1ff with (Z.ones 9). rewrite Z.land_ones, Z.shiftr_div_pow2 by lia.
  change (2 ^ 47) with (256 * 549755813888) in Hv. change (2 ^ (39 - 0 * 9)) with 549755813888. rewrite Z.mod_small; Z.div_mod_to_equations; lia.
Qed.
Lemma user_plain va : user va -> plain va.
Proof. intros Hv%user_index. unfold plain. lia. Qed.

Section reach.
Context (s : pt) (W : wf s).
(** No page of the user's half is a large one. *)
Definition no_large : Prop := forall n va t, (n <= 2)%nat -> user va -> table s n va = Some t -> has 7 (phys s (t + 8 * pt_index va (Z.of_nat n))) = false.
Context (Hno : no_large).
Definition top_of (d : nat) : nat := if (d =? 0)%nat then 256 else 512.

(** The address of the [i]-th entry of the table at level [d] for [va]. *)
Lemma entry_address d va i : (d <= 2)%nat -> user va -> 0 <= i < Z.of_nat (top_of d) ->
  exists va', user va' /\ agree (Z.of_nat d) va va' /\ pt_index va' (Z.of_nat d) = i.
Proof.
  intros Hd Hv Hi. pose proof (user_index va Hv) as H0. assert (i < 512) as Hi' by (unfold top_of in Hi; destruct (d =? 0)%nat; lia).
  destruct (address_of (fun k => if k <? Z.of_nat d then pt_index va k else if k =? Z.of_nat d then i else 0)) as (va' & Hb & Hb' & Hx).
  { intros k Hk. pose proof (index_range va k). destruct (k <? _); [done|]. destruct (k =? _); lia. }
  exists va'. split_and!.
  - pose proof (index_range va 0). unfold user. change (2 ^ 47) with (256 * 2 ^ 39).
    destruct (Z.ltb_spec 0 (Z.of_nat d)); [lia|]. destruct (Z.eqb_spec 0 (Z.of_nat d)) as [E|]; [|lia].
    assert (d = 0%nat) as -> by lia. unfold top_of in Hi. cbn in Hi. lia.
  - intros k Hk. rewrite Hx by lia. by rewrite (proj2 (Z.ltb_lt k (Z.of_nat d))) by lia.
  - rewrite Hx by lia. by rewrite Z.ltb_irrefl, Z.eqb_refl.
Qed.
Lemma table_next d va t : (d <= 2)%nat -> user va -> table s d va = Some t ->
  table s (S d) va = let e := phys s (t + 8 * pt_index va (Z.of_nat d)) in if has 0 e then Some (pte_get_base e) else None.
Proof.
  intros Hd Hv Ht. pose proof (Hno d va t Hd Hv Ht) as H7. replace (S d) with (d + 1)%nat by lia. rewrite follow_app, Ht. cbn [mbind option_bind follow].
  rewrite Z.add_0_l, H7. by rewrite andb_true_r.
Qed.

Lemma reach_in n : forall d va t y, (d + n = 3)%nat -> user va -> table s d va = Some t -> y ∈ tabs (phys s) n t (top_of d) <->
  exists j va', (d <= j <= 3)%nat /\ user va' /\ agree (Z.of_nat d) va va' /\ table s j va' = Some y.
Proof.
  induction n as [|n IH]; intros d va t y Hd Hv Ht.
  { cbn [tabs app]. rewrite list_elem_of_singleton. split.
    - intros ->. exists d, va. split_and!; try done; lia.
    - intros (j & va' & Hj & _ & Ha & Hy). assert (j = d) as -> by lia. rewrite <- (follow_agree _ _ _ _ _ Ha), Ht in Hy. congruence. }
  cbn [tabs]. rewrite elem_of_app, list_elem_of_bind, list_elem_of_singleton. split.
  - intros [(i & Hy & Hi)| ->]; [|exists d, va; split_and!; try done; lia]. apply elem_of_seqZ in Hi. rewrite Z.add_0_l in Hi.
    destruct (entry_address d va i ltac:(lia) Hv Hi) as (va' & Hv' & Ha & Hx).
    assert (table s d va' = Some t) as Ht' by (rewrite <- Ht; symmetry; by apply follow_agree).
    pose proof (table_next d va' t ltac:(lia) Hv' Ht') as Hn. cbv zeta in Hn, Hy. rewrite Hx in Hn. destruct (has 0 _); [|by apply elem_of_nil in Hy].
    apply (IH (S d) va') in Hy as (j & vb & Hj & Hvb & Hab & Hyb); [|lia|done|done]. exists j, vb. split_and!; try done; [lia..|].
    intros k Hk. rewrite Ha by lia. apply Hab. lia.
  - intros (j & va' & Hj & Hv' & Ha & Hy). assert (table s d va' = Some t) as Ht' by (rewrite <- Ht; symmetry; by apply follow_agree).
    destruct (decide (j = d)) as [->|Hne]; [right; congruence|left]. exists (pt_index va' (Z.of_nat d)). split.
    + cbv zeta. pose proof (table_next d va' t ltac:(lia) Hv' Ht') as Hn. cbv zeta in Hn. destruct (has 0 _).
      * change 512%nat with (top_of (S d)). apply (IH (S d) va'); [lia|done|done|]. exists j, va'. split_and!; try done; lia.
      * exfalso. replace j with (S d + (j - S d))%nat in Hy by lia. by rewrite follow_app, Hn in Hy.
    + apply elem_of_seqZ. rewrite Z.add_0_l. pose proof (index_range va' (Z.of_nat d)). unfold top_of. destruct (Nat.eqb_spec d 0) as [->|]; [|lia].
      pose proof (user_index va' Hv'). change (Z.of_nat 0) with 0 in *. lia.
Qed.
Lemma reach_nodup n : forall d va t, (d + n = 3)%nat -> user va -> table s d va = Some t -> NoDup (tabs (phys s) n t (top_of d)).
Proof.
  induction n as [|n IH]; intros d va t Hd Hv Ht; [apply NoDup_singleton|]. cbn [tabs].
  assert (forall i y, 0 <= i < Z.of_nat (top_of d) -> y ∈ below (phys s) n t i ->
    exists j va', (d < j <= 3)%nat /\ user va' /\ agree (Z.of_nat d) va va' /\ pt_index va' (Z.of_nat d) = i /\ table s j va' = Some y) as Hin.
  { intros i y Hi Hy. destruct (entry_address d va i ltac:(lia) Hv Hi) as (va' & Hv' & Ha & Hx).
    assert (table s d va' = Some t) as Ht' by (rewrite <- Ht; symmetry; by apply follow_agree).
    pose proof (table_next d va' t ltac:(lia) Hv' Ht') as Hn. unfold below in Hy. cbv zeta in Hn, Hy. rewrite Hx in Hn. destruct (has 0 _); [|by apply elem_of_nil in Hy].
    destruct (proj1 (reach_in n (S d) va' _ y ltac:(lia) Hv' Hn) Hy) as (j & vb & Hj & Hvb & Hab & Hyb). exists j, vb. split_and!; try done; [lia..| |].
    - intros k Hk. rewrite Ha by lia. apply Hab. lia.
    - rewrite <- Hab by lia. done. }
  apply NoDup_app. split_and!.
  - apply NoDup_bind; [|intros i Hi|apply NoDup_seqZ].
    + intros i1 i2 y [H1 H1']%elem_of_seqZ [H2 H2']%elem_of_seqZ Hy1 Hy2.
      destruct (Hin i1 y ltac:(lia) Hy1) as (j1 & v1 & Hj1 & Hu1 & _ & X1 & T1). destruct (Hin i2 y ltac:(lia) Hy2) as (j2 & v2 & Hj2 & Hu2 & _ & X2 & T2).
      destruct (w_tree _ W j1 j2 v1 v2 y) as [_ Ha]; try done; [lia..|by apply user_plain|by apply user_plain|]. rewrite <- X1, <- X2. apply Ha. lia.
    + apply elem_of_seqZ in Hi. destruct (entry_address d va i ltac:(lia) Hv ltac:(lia)) as (va' & Hv' & Ha & Hx).
      assert (table s d va' = Some t) as Ht' by (rewrite <- Ht; symmetry; by apply follow_agree).
      pose proof (table_next d va' t ltac:(lia) Hv' Ht') as Hn. cbv zeta in Hn |- *. rewrite Hx in Hn. destruct (has 0 _); [|constructor].
      change 512%nat with (top_of (S d)). by apply (IH (S d) va'); [lia|..].
  - intros y (i & Hy & Hi)%list_elem_of_bind ->%list_elem_of_singleton. apply elem_of_seqZ in Hi.
    destruct (Hin i t ltac:(lia) Hy) as (j & v & Hj & Hu & _ & _ & T).
    destruct (w_tree _ W d j va v t) as [? _]; try done; [lia..|by apply user_plain|by apply user_plain|lia].
  - apply NoDup_singleton.
Qed.
End reach.

Lemma small_no_large s : small (phys s) 3 (cr3 s) 256 = true -> no_large s.
Proof.
  intros Hs n va t Hn Hv Ht. pose proof (user_index va Hv). pose proof (index_range va 0). pose proof (index_range va 1). pose proof (index_range va 2).
  assert (n = 0 \/ n = 1 \/ n = 2)%nat as [->|[->| ->]] by lia; cbn [follow] in Ht; change (0 + 1) with 1 in *; change (1 + 1) with 2 in *.
  - injection Ht as <-. apply (small_entry _ 2 _ 256 (pt_index va 0)); [done|lia].
  - destruct (has 0 (phys s (cr3 s + _))) eqn:E0; [|done]. destruct (has 7 _); [done|]. injection Ht as <-.
    apply (small_entry _ 1 _ 512 (pt_index va 1)); [|lia]. apply (small_entry _ 2 _ 256 (pt_index va 0)); [done|lia|exact E0].
  - destruct (has 0 (phys s (cr3 s + _))) eqn:E0; [|done]. destruct (has 7 (phys s (cr3 s + _))); [done|]. cbn [negb andb] in Ht.
    destruct (has 0 _) eqn:E1 in Ht; [|done]. destruct (has 7 _) in Ht; [done|]. injection Ht as <-.
    apply (small_entry _ 0 _ 512 (pt_index va 2)); [|lia]. apply (small_entry _ 1 _ 512 (pt_index va 1)); [|lia|exact E1]. apply (small_entry _ 2 _ 256 (pt_index va 0)); [done|lia|exact E0].
Qed.

(** C40: [walk_user_page_table] with [free_page_table] gives the allocator every
    page table of the user's half of an address space, the top one included: each
    of them once, nothing else, and no other page of memory is written to.  [map_page] makes
    no large pages in the user's half for the kernel's callers; with one the walk panics,
    hence the condition. *)
Theorem destroy_tables_correct (link : pt -> Z) (s : pt) (pml4 : Z) (W : wf (mkPt (phys s) pml4 (free_pages s))) (Hs : small (phys s) 3 pml4 256 = true) :
  exists s' l, destroy_tables link (pml4 + KERN_VMBASE) s = Done () s' /\ cr3 s' = cr3 s /\ free_pages s' = l ++ free_pages s /\ NoDup l /\
    (forall t, t ∈ l <-> exists n va, (n <= 3)%nat /\ user va /\ follow (phys s) n 0 pml4 va = Some t) /\
    (forall x, (forall t, t ∈ l -> ~ t <= x < t + 4096) -> phys s' x = phys s x).
Proof.
  set (s0 := mkPt (phys s) pml4 (free_pages s)) in *. pose proof (small_no_large s0 Hs) as Hno. assert (user 0) as H0 by done.
  pose proof (reach_in s0 Hno 3 0 0 pml4) as Hin. pose proof (reach_nodup s0 W Hno 3 0 0 pml4 eq_refl H0 eq_refl) as Hnd. change (top_of 0) with 256%nat in *.
  destruct (walk_ok link (phys s) 3 pml4 256 0 s) as (s' & E & C & F & P); [apply (w_cr3 _ W)|lia|done|done|done|].
  exists s', (rev (tabs (phys s) 3 pml4 256)). split_and!; [exact E|done|done| | |].
  - by rewrite <- Permutation_rev.
  - intros t. rewrite <- Permutation_rev. change (phys s) with (phys s0). rewrite (Hin t) by done. split; [intros (j & va & Hj & Hv & _ & Ht)|intros (j & va & Hj & Hv & Ht)]; exists j, va; split_and!; try done; try lia. intros k Hk. lia.
  - intros x Hx. apply P; [|by left]. intros y Hy. apply Hx. by rewrite <- Permutation_rev.
Qed.

(** A page at 4 MB in the tables of [boot], and what its address space gives back. *)
Definition final (o : outcome pt ()) (s : pt) : pt := match o with Done _ s => s | _ => s end.
Definition ex_mapped : pt := final (map_page 0xb8000 0x400000 0 PTE_W (boot boot_pages)) (boot []).
Lemma destroy_tables_correct_witness : wf ex_mapped /\ exists s' l, destroy_tables (fun _ => 0) (0x235000 + KERN_VMBASE) ex_mapped = Done () s' /\
  free_pages s' = l ++ [0x270000] /\ 0x235000 ∈ l /\ 0x240000 ∈ l /\ 0x250000 ∈ l /\ 0x260000 ∈ l.
Proof.
  assert (wf ex_mapped) as W.
  { assert (plain 0x400000) as Hv by (by vm_compute).
    pose proof (map_page_correct (boot boot_pages) 0xb8000 0x400000 0 PTE_W boot_wf Hv ltac:(done) ltac:(done) eq_refl ltac:(vm_compute; lia)) as H.
    cbv zeta in H. assert (occupied (boot boot_pages) (Z.to_nat (3 - 0)) 0x400000 = false) as Ho by (by vm_compute). rewrite Ho in H.
    destruct H as (s' & H & W' & _). unfold ex_mapped. rewrite H. exact W'. }
  assert (cr3 ex_mapped = 0x235000) as Ec by (by vm_compute).
  destruct (destroy_tables_correct (fun _ => 0) ex_mapped 0x235000) as (s' & l & E & _ & F & _ & Hl & _).
  - rewrite <- Ec. by destruct ex_mapped.
  - by vm_compute.
  - assert (free_pages ex_mapped = [0x270000]) as Ef by (by vm_compute). rewrite Ef in F.
    assert (forall va, va = 0 \/ va = 0x400000 -> user va) as Hu by (unfold user; lia).
    split; [exact W|]. exists s', l. split; [exact E|]. split; [exact F|]. split; [|split; [|split]]; apply Hl.
    + exists 0%nat, 0. split; [lia|]. split; [apply Hu; by left|vm_compute; reflexivity].
    + exists 1%nat, 0x400000. split; [lia|]. split; [apply Hu; by right|vm_compute; reflexivity].
    + exists 2%nat, 0x400000. split; [lia|]. split; [apply Hu; by right|vm_compute; reflexivity].
    + exists 3%nat, 0x400000. split; [lia|]. split; [apply Hu; by right|vm_compute; reflexivity].
Defined.
