(* ===== verification/Exec.v ===== *)
(** Starting a program: the ELF images of [libc/elf/elf.c], [execvm] of [libc/exec.c],
    and what the new program does first, [crt/crt1.c].

    [own] is the memory of the process that calls [execvm], [image] that of the
    address space it makes, [areas] the begin and length of what is mapped there.
    Of the kernel the file uses the system call [sendpage], with what
    [VmaProofs.insert_vma_to_vaddr_correct] and the snapshots of [address_space_assign_page]
    promise: an area at a given address is refused if it is not aligned, outside the user
    addresses or overlapping; the pages that are sent are read there as they are here;
    pages that were never written read as zero.  Where an area goes whose
    address is not given is the kernel's choice, [picks] (negative for a failure).
    An [elf_info] is the address of the image, and its allocation succeeds. *)
From S2P Require Import Prelude Bits CString.

Record world := mkWorld {
  own : memory;
  image : memory;
  areas : list (Z * Z);
  picks : list Z;
  exec_errno : Z;
  tasks : list (Z * Z);  (** [rsp] and [rcx] of the tasks that were made *)
}.
Definition set_own (m : memory) (w : world) : world := mkWorld m (image w) (areas w) (picks w) (exec_errno w) (tasks w).
Definition set_err (e : Z) (w : world) : world := mkWorld (own w) (image w) (areas w) (picks w) e (tasks w).

(** ** The system calls *)
Definition zero (m : memory) (a len : Z) : memory := fun x => if (a <=? x) && (x <? a + len) then 0 else m x.
Definition move (m from : memory) (src dst len : Z) : memory := fun x => if (dst <=? x) && (x <? dst + len) then from (src + (x - dst)) else m x.
Definition overlap (b len : Z) (r : Z * Z) : bool := (b <? r.1 + r.2) && (r.1 <? b + len).
Definition pick : M world Z :=
  w ← get; match picks w with p :: l => put (mkWorld (own w) (image w) (areas w) l (exec_errno w) (tasks w));; mret p | [] => fault end.
Definition map_area (b len : Z) (m : memory) : M world () :=
  modify (fun w => mkWorld (own w) m ((b, len) :: areas w) (picks w) (exec_errno w) (tasks w)).
Definition ENOMEM : Z := 12.
(** [sendpage(0, 0, 0, len)]: pages for the process itself; 0 is NULL. *)
Definition sendpage_own (len : Z) : M world Z :=
  p ← pick; if p <? 0 then modify (set_err ENOMEM);; mret 0 else modify (fun w => set_own (zero (own w) p len) w);; mret p.
(** [sendpage(as, src, dst, len)] of pages of the process; [dst] 0 is anywhere.  [src]
    is what [sendpage_own] returned and [len] a number of pages, which the kernel checks. *)
Definition sendpage_to (src dst len : Z) : M world Z :=
  if dst =? 0 then
    p ← pick;
    if p <? 0 then modify (set_err ENOMEM);; mret 0
    else w ← get; map_area p len (move (image w) (own w) src p len);; mret p
  else
    w ← get;
    if negb (dst mod 4096 =? 0) || (dst <? USER_BASE) || (USER_TOP <? dst) || existsb (overlap dst len) (areas w)
    then modify (set_err ENOMEM);; mret 0
    else map_area dst len (move (image w) (own w) src dst len);; mret dst.
(** [sendpage(as, 0, 0, len)]: new pages. *)
Definition sendpage_any (len : Z) : M world Z :=
  p ← pick; if p <? 0 then modify (set_err ENOMEM);; mret 0 else w ← get; map_area p len (zero (image w) p len);; mret p.
Definition as_new : M world () := modify (fun w => mkWorld (own w) (fun _ => 0) [] (picks w) (exec_errno w) (tasks w)).
Definition new_task (rsp rcx : Z) : M world Z :=
  modify (fun w => mkWorld (own w) (image w) (areas w) (picks w) (exec_errno w) ((rsp, rcx) :: tasks w));; mret 0.

(** ** ELF images *)
Definition ENOEXEC : Z := 8.
Definition E2BIG : Z := 7.
Definition u16_at (m : memory) (a : Z) : Z := get_le 2 m a.
Definition u32_at (m : memory) (a : Z) : Z := get_le 4 m a.
Definition u64_at (m : memory) (a : Z) : Z := get_le 8 m a.
Definition elf_magic : list Z := [0x7f; 0x45; 0x4c; 0x46].
(** The comparison with [elf_magic]; true for a usable image. *)
Definition elf_load (addr : Z) : M world bool :=
  gets (fun w => bool_decide ((own w) <$> [addr; addr + 1; addr + 2; addr + 3] = elf_magic) && (own w (addr + 4) =? 2) && (own w (addr + 5) =? 1)).
(** The fields of a program header. *)
Record phdr := mkPhdr { p_type : Z; p_offset : Z; p_vaddr : Z; p_filesz : Z; p_memsz : Z }.
Definition read_phdr (m : memory) (a : Z) : phdr := mkPhdr (u32_at m a) (u64_at m (a + 8)) (u64_at m (a + 16)) (u64_at m (a + 32)) (u64_at m (a + 40)).
Section foreach.
Context (fn : phdr -> M world Z).
Fixpoint foreach_loop (n : nat) (table : Z) : M world Z :=
  match n with
  | O => mret 0
  | S n => m ← gets own; ret ← fn (read_phdr m table); if negb (ret =? 0) then mret ret else foreach_loop n (table + 56)
  end.
Definition elf_foreach_ph (base : Z) : M world Z :=
  m ← gets own; foreach_loop (Z.to_nat (u16_at m (base + 56))) (base + u64_at m (base + 32)).
End foreach.
(** [elf_find_section]: the index of the section, its address in the image and its header. *)
Fixpoint section_loop (n : nat) (fuel : nat) (m : memory) (name strt table : Z) : option (option Z) :=
  match n with
  | O => Some None
  | S n => c ← strcmp fuel name (strt + u32_at m table) m; if c =? 0 then Some (Some table) else section_loop n fuel m name strt (table + 64)
  end.
Definition elf_find_section (fuel : nat) (m : memory) (base name : Z) : option (option (Z * Z)) :=
  let hdr_table := base + u64_at m (base + 40) in
  let strt := base + u64_at m (hdr_table + 64 * u16_at m (base + 62) + 24) in
  match section_loop (Z.to_nat (u16_at m (base + 60))) fuel m name strt hdr_table with
  | Some r => Some (match r with Some h => Some (base + u64_at m (h + 24), h) | None => None end)
  | None => None
  end.

(** ** execvm *)
Definition mapper (base : Z) (ph : phdr) : M world Z :=
  if p_type ph =? 2 then mret ENOEXEC
  else if p_type ph =? 3 then mret ENOEXEC
  else if negb (p_type ph =? 1) then mret 0
  else
    let begin := p_vaddr ph in
    let abegin := ALIGN begin 12 in
    let aend := ALIGN_UP (u64 (begin + p_memsz ph)) 12 in
    page ← sendpage_own (u64 (aend - abegin));
    if page =? 0 then fault
    else
      modify (fun w => set_own (memcpy (page + (begin - abegin)) (base + p_offset ph) (Z.to_nat (p_filesz ph)) (own w)) w);;
      ret ← sendpage_to page abegin (u64 (aend - abegin));
      if ret <? 0 then gets exec_errno else mret 0.

Section exec.
Context (fuel : nat) (cwd : list Z).
(** The lengths of the strings of an array and their number. *)
Fixpoint sizes (l : list Z) : M world Z :=
  match l with [] => mret 0 | a :: l => m ← gets own; n ← deref (strlen fuel a m); r ← sizes l; mret (Z.of_nat n + 1 + r) end.
(** [strcpy(dataptr, l[i]); dataptr += strlen(l[i])+1]; the new [dataptr]. *)
Fixpoint put_strings (l : list Z) (dataptr : Z) : M world Z :=
  match l with
  | [] => mret dataptr
  | a :: l =>
      m ← gets own;
      m' ← deref (strcpy fuel dataptr a m);
      modify (set_own m');;
      n ← deref (strlen fuel a m');
      put_strings l (dataptr + Z.of_nat n + 1)
  end.
Fixpoint put_list (a : Z) (l : list Z) (m : memory) : memory := match l with [] => m | c :: l => put_list (a + 1) l (upd m a c) end.
(** [__cwd] is the string [cwd]; [argv] and [envp] are the pointers of the arrays in front of NULL. *)
Definition execvm (base : Z) (argv envp : list Z) : M world Z :=
  as_new;;
  ei ← elf_load base;
  if negb ei then modify (set_err ENOEXEC);; mret (-1)
  else
    ret ← elf_foreach_ph (mapper base) base;
    if negb (ret =? 0) then modify (set_err E2BIG);; mret (-1)
    else
      envsz ← sizes envp;
      argvsz ← sizes argv;
      let size := Z.of_nat (length cwd) + 1 + envsz + argvsz + 2 + 8 in
      page ← sendpage_own (ALIGN_UP size 12);
      if page =? 0 then fault
      else
        let dataptr := page + 4096 - size + 8 in
        modify (fun w => set_own (put_list dataptr (cwd ++ [0]) (own w)) w);;
        dataptr ← put_strings argv (dataptr + Z.of_nat (length cwd) + 1);
        modify (fun w => set_own (upd (own w) dataptr 0) w);;
        dataptr ← put_strings envp (dataptr + 1);
        modify (fun w => set_own (upd (own w) dataptr 0) w);;
        modify (fun w => set_own (put_le 8 (own w) (page + 4096 - size) (Z.of_nat (length argv))) w);;
        stack ← sendpage_any 0x100000;
        page ← sendpage_to page (stack + 0x100000) (ALIGN_UP size 12);
        e_entry ← gets (fun w => u64_at (own w) (base + 24));
        new_task (page + 4096 - size) e_entry.
End exec.

(** ** The new program *)
(** What [_start] and [__real_start] do with the memory of the program; the locals of
    [__real_start] are taken to be in registers.  [cwd_addr] is the address of
    [__cwd].  The result: [argc], [argv], the [envp] that [main] gets, and [environ]. *)
Section start.
Context (fuel : nat) (cwd_addr : Z).
Definition set_ptr (m : memory) (a v : Z) : memory := put_le 8 m a v.
Fixpoint start_argv (n : nat) (argv rsp : Z) (m : memory) : option (memory * Z) :=
  match n with
  | O => Some (m, rsp)
  | S n => let m := set_ptr m argv rsp in len ← strlen fuel rsp m; start_argv n (argv + 8) (rsp + Z.of_nat len + 1) m
  end.
Fixpoint start_envp (n : nat) (envp rsp : Z) (m : memory) : option (memory * Z) :=
  match n with
  | O => None
  | S n => if m rsp =? 0 then Some (m, envp) else
      let m := set_ptr m envp rsp in len ← strlen fuel rsp m; start_envp n (envp - 8) (rsp + Z.of_nat len + 1) m
  end.
Definition real_start (argc rsp : Z) (m : memory) : option (memory * (Z * Z * Z * Z)) :=
  m ← (if negb (m rsp =? 0) then strcpy fuel cwd_addr rsp m else Some m);
  len ← strlen fuel rsp m;
  let rsp := rsp + Z.of_nat len + 1 in
  let argv := rsp - 8 * argc - 8 in
  '(m, rsp) ← start_argv (Z.to_nat argc) argv rsp m;
  let m := set_ptr m (argv + 8 * argc) 0 in
  let envp := argv - 8 in
  let m := set_ptr m envp 0 in
  '(m, envp) ← start_envp fuel (envp - 8) rsp m;
  Some (m, (argc, argv, envp, envp + 8)).
Definition start (rsp : Z) (m : memory) : option (memory * (Z * Z * Z * Z)) := real_start (i32 (u64_at m rsp)) (rsp + 8) m.
End start.
