(* ===== verification/ExecProofs.v ===== *)
(** [execvm] starts a program that finds its image where its headers say, its working
    directory and its arguments, and no environment. *)
From S2P Require Import Prelude Bits CString Exec.

(** ** Strings one after the other *)
Definition blob (ls : list (list Z)) : list Z := concat ((fun l => l ++ [0]) <$> ls).
Definition chars_ok (l : list Z) : Prop := Forall (fun c => 0 < c < 256) l.
Lemma blob_cons l ls : blob (l :: ls) = l ++ 0 :: blob ls.
Proof. unfold blob. cbn. by rewrite <- app_assoc. Qed.
Lemma bytes_string m a l r : bytes_at m a (l ++ 0 :: r) -> chars_ok l -> string_at m a l /\ bytes_at m (a + Z.of_nat (length l) + 1) r.
Proof.
  intros H Hl. apply bytes_at_app in H as [H1 [H2 H3]]. split; [|done]. split; [|done]. apply bytes_at_app. split; [done|]. by split.
Qed.
(** The address of a string. *)
Definition nth_addr (a : Z) (ls : list (list Z)) (i : nat) : Z := a + Z.of_nat (length (blob (take i ls))).
Lemma nth_addr_S a l ls i : nth_addr a (l :: ls) (S i) = nth_addr (a + Z.of_nat (length l) + 1) ls i.
Proof. unfold nth_addr. cbn [take]. rewrite blob_cons, length_app. cbn. lia. Qed.
Lemma nth_addr_range a ls : forall i, a <= nth_addr a ls i <= a + Z.of_nat (length (blob ls)).
Proof.
  intros i. unfold nth_addr. split; [lia|]. rewrite <- (take_drop i ls) at 2. unfold blob. rewrite fmap_app, concat_app, length_app. lia.
Qed.
Lemma blob_lookup m ls : forall a r, bytes_at m a (blob ls ++ r) -> Forall chars_ok ls -> forall i l, ls !! i = Some l -> string_at m (nth_addr a ls i) l.
Proof.
  induction ls as [|l ls IH]; intros a r H Hl i l' Hi; [done|]. rewrite blob_cons, <- app_assoc in H. apply Forall_cons_1 in Hl as [Hc Hl]. cbn [app] in H.
  apply bytes_string in H as [H1 H2]; [|done]. destruct i as [|i]; cbn in Hi.
  - injection Hi as <-. unfold nth_addr. cbn. by rewrite Z.add_0_r.
  - rewrite nth_addr_S. by eapply IH.
Qed.

(** ** The start of a program *)
Lemma start_argv_ok fuel avs : forall argv rsp m r, bytes_at m rsp (blob avs ++ r) -> Forall chars_ok avs -> Forall (fun l => (length l < fuel)%nat) avs ->
  argv + 8 * Z.of_nat (length avs) <= rsp -> 0 <= rsp -> rsp + Z.of_nat (length (blob avs)) < 2 ^ 64 ->
  exists m', start_argv fuel (length avs) argv rsp m = Some (m', rsp + Z.of_nat (length (blob avs))) /\
    (forall x, ~ argv <= x < argv + 8 * Z.of_nat (length avs) -> m' x = m x) /\
    forall i, (i < length avs)%nat -> get_le 8 m' (argv + 8 * Z.of_nat i) = nth_addr rsp avs i.
Proof.
  induction avs as [|l avs IH]; intros argv rsp m r H Hc Hf Ha H0 Hb.
  { exists m. split_and!; [cbn; by rewrite Z.add_0_r|done|cbn; lia]. }
  rewrite blob_cons, length_app in Hb. cbn [length] in *. rewrite blob_cons, <- app_assoc in H. cbn [app] in H. apply Forall_cons_1 in Hc as [Hc Hcs]. apply Forall_cons_1 in Hf as [Hf Hfs].
  assert (bytes_at (set_ptr m argv rsp) rsp (l ++ 0 :: blob avs ++ r)) as H'.
  { eapply bytes_at_ext; [|exact H]. intros i Hi. apply put_le_out. lia. }
  apply bytes_string in H' as [Hs Hr]; [|done]. cbn [start_argv]. rewrite (strlen_spec _ l) by done. cbn [mbind option_bind].
  destruct (IH (argv + 8) (rsp + Z.of_nat (length l) + 1) (set_ptr m argv rsp) r Hr Hcs Hfs) as (m' & -> & Hout & Hp); [lia..|]. exists m'. split_and!.
  - do 2 f_equal. rewrite blob_cons, length_app. cbn [length]. lia.
  - intros x Hx. rewrite Hout by lia. apply put_le_out. lia.
  - intros i Hi. destruct i as [|i].
    + rewrite (get_le_ext 8 m' (set_ptr m argv rsp)) by (intros x Hx; apply Hout; lia). unfold set_ptr. rewrite Z.add_0_r, get_put_le.
      unfold nth_addr. cbn. rewrite Z.add_0_r. apply Z.mod_small. change (256 ^ 8) with (2 ^ 64). lia.
    + rewrite nth_addr_S, <- Hp by lia. f_equal. lia.
Qed.

(** What [_start] leaves when the stack is as [execvm] makes it: [argv] with the
    strings and NULL, the working directory, and an empty [environ], whatever
    follows the arguments. *)
Definition started (m : memory) (cwd_addr : Z) (cwd : list Z) (avs : list (list Z)) (r : Z * Z * Z * Z) : Prop :=
  let '(argc, argv, envp, environ) := r in
  argc = Z.of_nat (length avs) /\ string_at m cwd_addr cwd /\
  (forall i l, avs !! i = Some l -> string_at m (get_le 8 m (argv + 8 * Z.of_nat i)) l) /\ get_le 8 m (argv + 8 * argc) = 0 /\
  get_le 8 m environ = 0 /\ envp = environ - 8.
Definition stack_layout (m : memory) (rsp : Z) (cwd : list Z) (avs evs : list (list Z)) : Prop :=
  get_le 8 m rsp = Z.of_nat (length avs) /\ bytes_at m (rsp + 8) (cwd ++ 0 :: blob avs ++ 0 :: blob evs ++ [0]).
Lemma start_ok fuel cwd_addr m rsp cwd avs evs : stack_layout m rsp cwd avs evs -> chars_ok cwd -> cwd <> [] -> Forall chars_ok avs ->
  Forall (fun l => (length l < fuel)%nat) (cwd :: avs) -> Z.of_nat (length avs) < 2 ^ 31 -> 0 <= rsp -> rsp + 10 + Z.of_nat (length cwd + length (blob avs)) < 2 ^ 64 ->
  (cwd_addr + Z.of_nat (length cwd) < rsp - 8 * Z.of_nat (length avs) - 16 \/ rsp + 10 + Z.of_nat (length cwd + length (blob avs)) <= cwd_addr) ->
  exists m' r, start fuel cwd_addr rsp m = Some (m', r) /\ started m' cwd_addr cwd avs r.
Proof.
  intros [Hargc Hb] Hcc Hne Hca Hf Hn H0 Htop Hcwd. apply Forall_cons_1 in Hf as [Hfc Hfa].
  destruct (bytes_string _ _ _ _ Hb Hcc) as [Hs _]. unfold start, u64_at. rewrite Hargc. replace (i32 (Z.of_nat (length avs))) with (Z.of_nat (length avs)) by (rewrite i32_small by lia; done).
  unfold real_start. assert (m (rsp + 8) <> 0) as Hnz.
  { destruct cwd as [|c cwd]; [done|]. apply string_at_cons in Hs as (-> & Hc & _). lia. }
  rewrite (proj2 (Z.eqb_neq _ 0) Hnz). cbn [negb]. destruct (strcpy_spec m cwd cwd_addr (rsp + 8) fuel Hs Hfc) as [-> Hcpy]. cbn [mbind option_bind].
  set (m1 := memcpy cwd_addr (rsp + 8) (S (length cwd)) m) in *.
  assert (forall x, rsp <= x < rsp + 10 + Z.of_nat (length cwd + length (blob avs)) -> m1 x = m x) as Hm1.
  { intros x Hx. subst m1. rewrite memcpy_spec. destruct (Z.leb_spec cwd_addr x), (Z.ltb_spec x (cwd_addr + Z.of_nat (S (length cwd)))); cbn [andb]; try done; lia. }
  assert (bytes_at m1 (rsp + 8) (cwd ++ 0 :: blob avs ++ [0])) as Hb1.
  { eapply (bytes_at_ext m _ _ (rsp + 8)); [|].
    - intros i Hi. apply Hm1. rewrite !length_app in Hi. cbn [length] in Hi. rewrite length_app in Hi. cbn [length] in Hi. lia.
    - apply bytes_at_app in Hb as [Hb1 [Hb2 Hb3]]. apply bytes_at_app. split; [done|]. split; [done|]. apply bytes_at_app in Hb3 as [Hb3 [Hb4 _]]. apply bytes_at_app. by repeat split. }
  destruct (bytes_string _ _ _ _ Hb1 Hcc) as [Hs1 Hr1]. rewrite (strlen_spec _ cwd) by done. cbn [mbind option_bind].
  set (rsp1 := rsp + 8 + Z.of_nat (length cwd) + 1) in *. rewrite Nat2Z.id. set (argv := rsp1 - 8 * Z.of_nat (length avs) - 8).
  destruct (start_argv_ok fuel avs argv rsp1 m1 [0] Hr1 Hca Hfa) as (m2 & -> & Hout & Hp); [lia..|]. cbn [mbind option_bind].
  set (m3 := set_ptr (set_ptr m2 (argv + 8 * Z.of_nat (length avs)) 0) (argv - 8) 0).
  assert (forall x, ~ argv - 8 <= x < rsp1 -> m3 x = m1 x) as Hout3.
  { intros x Hx. subst m3. unfold set_ptr. rewrite !put_le_out by lia. apply Hout. lia. }
  assert (m3 (rsp1 + Z.of_nat (length (blob avs))) = 0) as Hz.
  { rewrite Hout3 by lia. apply bytes_at_app in Hr1 as [_ [Hr1 _]]. done. }
  destruct fuel as [|fuel]; [lia|]. cbn [start_envp]. rewrite Hz. cbn [Z.eqb]. cbn [mbind option_bind]. eexists m3, _. split; [done|]. unfold started. split_and!.
  - done.
  - eapply string_at_ext; [|exact Hcpy]. intros x Hx. apply Hout3. lia.
  - intros i l Hi. pose proof (lookup_lt_Some _ _ _ Hi) as Hlt. assert (get_le 8 m3 (argv + 8 * Z.of_nat i) = nth_addr rsp1 avs i) as ->.
    { rewrite <- Hp by done. apply get_le_ext. intros x Hx. subst m3. unfold set_ptr. by rewrite !put_le_out by lia. }
    pose proof (blob_lookup m1 avs rsp1 [0] Hr1 Hca i l Hi) as Hsl. eapply string_at_ext; [|exact Hsl]. intros x Hx. apply Hout3.
    pose proof (nth_addr_range rsp1 avs i). lia.
  - subst m3. unfold set_ptr. rewrite get_put_le_ne by lia. by rewrite get_put_le.
  - replace (argv - 8 - 8 + 8) with (argv - 8) by lia. subst m3. unfold set_ptr. by rewrite get_put_le.
  - lia.
Qed.

(** ** The segments *)
Definition pbegin (ph : phdr) : Z := p_vaddr ph - p_vaddr ph mod 4096.
Definition pend (ph : phdr) : Z := p_vaddr ph + p_memsz ph + 4095 - (p_vaddr ph + p_memsz ph + 4095) mod 4096.
Definition area_of (ph : phdr) : Z * Z := (pbegin ph, pend ph - pbegin ph).
Definition inside (r : Z * Z) (x : Z) : Prop := r.1 <= x < r.1 + r.2.
(** A byte of a segment: from the file, or zero. *)
Definition seg_byte (m : memory) (base : Z) (ph : phdr) (x : Z) : Z :=
  if (p_vaddr ph <=? x) && (x <? p_vaddr ph + p_filesz ph) then m (base + p_offset ph + (x - p_vaddr ph)) else 0.

(** What is read while the program is loaded lies in [lo, hi), which the pages that
    the kernel hands out do not touch. *)
Section load.
Context (m0 : memory) (base lo hi : Z).
Definition same (m : memory) : Prop := forall x, lo <= x < hi -> m x = m0 x.
Definition apart (a len : Z) : Prop := 0 < a /\ (a + len <= lo \/ hi <= a).
Record seg_ok (ph : phdr) : Prop := {
  so_begin : USER_BASE <= pbegin ph;
  so_end : p_vaddr ph + p_memsz ph <= USER_TOP;
  so_size : 0 <= p_filesz ph <= p_memsz ph /\ 0 < p_memsz ph;
  so_file : lo <= base + p_offset ph /\ base + p_offset ph + p_filesz ph <= hi;
}.
Lemma seg_aligned ph : seg_ok ph -> ALIGN (p_vaddr ph) 12 = pbegin ph /\ ALIGN_UP (u64 (p_vaddr ph + p_memsz ph)) 12 = pend ph /\ u64 (pend ph - pbegin ph) = pend ph - pbegin ph /\
  pbegin ph <= p_vaddr ph /\ p_vaddr ph + p_memsz ph <= pend ph /\ pbegin ph mod 4096 = 0 /\ 0 <= p_vaddr ph.
Proof.
  intros [H1 H2 [H3 H4] _]. unfold pbegin, pend, USER_BASE, USER_TOP in *.
  assert (0 <= p_vaddr ph) by (pose proof (Z.mod_pos_bound (p_vaddr ph) 4096); lia).
  rewrite ALIGN_eq by (unfold is_u64; lia). rewrite (u64_small (p_vaddr ph + _)) by (unfold is_u64; lia).
  rewrite ALIGN_UP_eq by (unfold is_u64; lia). change (2 ^ 12) with 4096. replace (p_vaddr ph + p_memsz ph + 4096 - 1) with (p_vaddr ph + p_memsz ph + 4095) by lia.
  split; [done|]. split; [done|]. assert (pbegin ph <= pend ph < 2 ^ 64 /\ 0 <= pbegin ph) as Hb by (unfold pbegin, pend; Z.div_mod_to_equations; lia).
  split; [apply u64_small; unfold is_u64, pbegin, pend in *; lia|]. Z.div_mod_to_equations. lia.
Qed.

Lemma mapper_ok ph w p rest : seg_ok ph -> p_type ph = 1 -> same (own w) -> picks w = p :: rest -> apart p (pend ph - pbegin ph) ->
  existsb (overlap (pbegin ph) (pend ph - pbegin ph)) (areas w) = false ->
  exists m img, mapper base ph w = Done 0 (mkWorld m img (area_of ph :: areas w) rest (exec_errno w) (tasks w)) /\ same m /\
    (forall x, inside (area_of ph) x -> img x = seg_byte m0 base ph x) /\ forall x, ~ inside (area_of ph) x -> img x = image w x.
Proof.
  intros Hs Ht Hm Hp [Hp0 Hap] Hov. destruct (seg_aligned ph Hs) as (E1 & E2 & E3 & Hb1 & Hb2 & Hb3 & Hb4). destruct Hs as [S1 S2 [S3 S4] S5].
  unfold mapper. rewrite Ht. cbn [Z.eqb Pos.eqb negb]. rewrite E1, E2, E3. set (len := pend ph - pbegin ph) in *.
  set (w1 := mkWorld (zero (own w) p len) (image w) (areas w) rest (exec_errno w) (tasks w)).
  assert (sendpage_own len w = Done p w1) as ->%(bind_eq _ _ _ _ _) .
  { unfold sendpage_own, pick. unfold mbind, M_bind, get. rewrite Hp. cbn. rewrite (proj2 (Z.ltb_ge p 0)) by lia. done. }
  rewrite (proj2 (Z.eqb_neq p 0)) by lia. set (m1 := memcpy (p + (p_vaddr ph - pbegin ph)) (base + p_offset ph) (Z.to_nat (p_filesz ph)) (own w1)).
  rewrite (bind_eq _ _ _ _ _ (modify_eq _ w1)). set (w2 := set_own m1 w1).
  set (w3 := mkWorld m1 (move (image w) m1 p (pbegin ph) len) (area_of ph :: areas w) rest (exec_errno w) (tasks w)).
  assert (sendpage_to p (pbegin ph) len w2 = Done (pbegin ph) w3) as Hsend.
  { unfold sendpage_to. rewrite (proj2 (Z.eqb_neq (pbegin ph) 0)) by (unfold USER_BASE in S1; lia). rewrite (bind_eq _ _ _ _ _ (get_eq w2)). rewrite Hb3. cbn [Z.eqb negb]. rewrite (proj2 (Z.ltb_ge _ USER_BASE)) by done.
    rewrite (proj2 (Z.ltb_ge USER_TOP _)) by lia. cbn [orb]. change (areas w2) with (areas w). rewrite Hov. done. }
  rewrite (bind_eq _ _ _ _ _ Hsend). rewrite (proj2 (Z.ltb_ge (pbegin ph) 0)) by (unfold USER_BASE in S1; lia).
  assert (forall x, m1 x = if (p + (p_vaddr ph - pbegin ph) <=? x) && (x <? p + (p_vaddr ph - pbegin ph) + p_filesz ph)
    then m0 (base + p_offset ph + (x - (p + (p_vaddr ph - pbegin ph)))) else zero (own w) p len x) as Em1.
  { intros x. subst m1. rewrite memcpy_spec, Z2Nat.id by lia. destruct (Z.leb_spec (p + (p_vaddr ph - pbegin ph)) x), (Z.ltb_spec x (p + (p_vaddr ph - pbegin ph) + p_filesz ph)); cbn [andb]; try done.
    cbn [own w1]. unfold zero. set (y := base + p_offset ph + _). assert (lo <= y < hi) as Hy by (subst y; lia).
    rewrite (Hm y Hy). destruct (Z.leb_spec p y), (Z.ltb_spec y (p + len)); cbn [andb]; try done. lia. }
  eexists m1, _. split; [done|]. split_and!.
  - intros x Hx. rewrite Em1. destruct (Z.leb_spec (p + (p_vaddr ph - pbegin ph)) x), (Z.ltb_spec x (p + (p_vaddr ph - pbegin ph) + p_filesz ph)); cbn [andb]; try lia.
    all: unfold zero; destruct (Z.leb_spec p x), (Z.ltb_spec x (p + len)); cbn [andb]; try lia; by apply Hm.
  - intros x [Hx1 Hx2]. cbn [area_of fst snd] in Hx1, Hx2. fold len in Hx2. unfold move. rewrite (proj2 (Z.leb_le _ x)), (proj2 (Z.ltb_lt x _)) by lia. cbn [andb]. rewrite Em1. unfold seg_byte, zero.
    destruct (Z.leb_spec (p_vaddr ph) x), (Z.leb_spec (p + (p_vaddr ph - pbegin ph)) (p + (x - pbegin ph))), (Z.ltb_spec x (p_vaddr ph + p_filesz ph)),
      (Z.ltb_spec (p + (x - pbegin ph)) (p + (p_vaddr ph - pbegin ph) + p_filesz ph)); cbn [andb]; try lia; [f_equal; lia|..];
      rewrite (proj2 (Z.leb_le p _)), (proj2 (Z.ltb_lt _ (p + len))) by lia; done.
  - intros x Hx. unfold move. destruct (Z.leb_spec (pbegin ph) x), (Z.ltb_spec x (pbegin ph + len)); cbn [andb]; try done. exfalso. apply Hx. by split.
Qed.

Lemma overlap_out b len l r x : existsb (overlap b len) l = false -> r ∈ l -> inside r x -> ~ inside (b, len) x.
Proof.
  intros H Hr [H1 H2] [H3 H4]. cbn [fst snd] in *. assert (existsb (overlap b len) l = true); [|congruence].
  apply existsb_exists. exists r. split; [by apply list_elem_of_In|]. unfold overlap. apply andb_true_iff. rewrite !Z.ltb_lt. lia.
Qed.
(** The headers one after the other; [ps] are the pages for the segments. *)
Fixpoint loadable (phs : list phdr) (l : list (Z * Z)) (ps : list Z) : Prop :=
  match phs with
  | [] => ps = []
  | ph :: phs =>
      p_type ph <> 2 /\ p_type ph <> 3 /\
      if p_type ph =? 1 then
        seg_ok ph /\ existsb (overlap (pbegin ph) (pend ph - pbegin ph)) l = false /\
        match ps with p :: ps => apart p (pend ph - pbegin ph) /\ loadable phs (area_of ph :: l) ps | [] => False end
      else loadable phs l ps
  end.
Definition areas_after (phs : list phdr) (l : list (Z * Z)) : list (Z * Z) := rev (area_of <$> filter (fun ph => p_type ph = 1) phs) ++ l.
Definition phdr_list (n : nat) (table : Z) : list phdr := (fun i => read_phdr m0 (table + 56 * Z.of_nat i)) <$> seq 0 n.
Lemma read_phdr_same m a : same m -> lo <= a -> a + 56 <= hi -> read_phdr m a = read_phdr m0 a.
Proof.
  intros Hm H1 H2. unfold read_phdr, u32_at, u64_at. f_equal; apply get_le_ext; intros x Hx; apply Hm; lia.
Qed.
Lemma phdr_list_S n table : phdr_list (S n) table = read_phdr m0 table :: phdr_list n (table + 56).
Proof.
  unfold phdr_list. cbn [seq fmap list_fmap]. f_equal; [f_equal; lia|]. rewrite <- fmap_S_seq, <- list_fmap_compose. apply list_fmap_ext. intros i x _. cbn. f_equal. lia.
Qed.
Lemma foreach_ok n : forall table ps rest w, lo <= table -> table + 56 * Z.of_nat n <= hi -> same (own w) -> picks w = ps ++ rest ->
  loadable (phdr_list n table) (areas w) ps ->
  exists m img, foreach_loop (mapper base) n table w = Done 0 (mkWorld m img (areas_after (phdr_list n table) (areas w)) rest (exec_errno w) (tasks w)) /\ same m /\
    (forall ph, ph ∈ phdr_list n table -> p_type ph = 1 -> forall x, inside (area_of ph) x -> img x = seg_byte m0 base ph x) /\
    forall r x, r ∈ areas w -> inside r x -> img x = image w x.
Proof.
  induction n as [|n IH]; intros table ps rest w Hlo Hhi Hm Hp Hl.
  { cbn in Hl. subst ps. exists (own w), (image w). split_and!; [by destruct w; cbn in *; subst|done|by intros ph ?%elem_of_nil|done]. }
  rewrite phdr_list_S in Hl |- *. set (ph := read_phdr m0 table) in *. cbn [loadable] in Hl. destruct Hl as (H2 & H3 & Hl).
  cbn [foreach_loop]. rewrite (bind_eq _ _ _ _ _ (gets_eq own w)). rewrite read_phdr_same by (done || lia). fold ph.
  destruct (Z.eqb_spec (p_type ph) 1) as [H1|H1].
  - destruct Hl as (Hs & Hov & Hl). destruct ps as [|p ps]; [done|]. destruct Hl as [Hap Hl].
    destruct (mapper_ok ph w p (ps ++ rest) Hs H1 Hm Hp Hap Hov) as (m & img & Hmap & Hm' & Hin & Hout). rewrite (bind_eq _ _ _ _ _ Hmap). cbn [Z.eqb negb].
    destruct (IH (table + 56) ps rest (mkWorld m img (area_of ph :: areas w) (ps ++ rest) (exec_errno w) (tasks w))) as (m' & img' & -> & Hm'' & Hin' & Hout'); try done; [lia|lia|].
    exists m', img'. cbn [areas exec_errno tasks image] in *. split_and!.
    + do 2 f_equal. unfold areas_after. rewrite filter_cons_True by done. cbn. by rewrite <- app_assoc.
    + done.
    + intros ph' [->|Hph]%elem_of_cons H1' x Hx; [|by apply Hin']. rewrite (Hout' (area_of ph)) by (done || left). by apply Hin.
    + intros r x Hr Hx. rewrite (Hout' r) by (done || by right). apply Hout. exact (overlap_out _ _ _ _ _ Hov Hr Hx).
  - assert (mapper base ph w = Done 0 w) as Hmap.
    { unfold mapper. by rewrite (proj2 (Z.eqb_neq _ 2) H2), (proj2 (Z.eqb_neq _ 3) H3), (proj2 (Z.eqb_neq _ 1) H1). }
    rewrite (bind_eq _ _ _ _ _ Hmap). cbn [Z.eqb negb]. destruct (IH (table + 56) ps rest w) as (m' & img' & -> & Hm'' & Hin' & Hout'); try done; [lia|lia|].
    exists m', img'. split_and!; [|done| |done].
    + unfold areas_after. by rewrite filter_cons_False by done.
    + intros ph' [->|Hph]%elem_of_cons H1' x Hx; [done|by apply Hin'].
Qed.

(** ** The strings *)
Section strings.
Context (fuel : nat).
Definition text (m : memory) (a : Z) (l : list Z) : Prop := string_at m a l /\ (length l < fuel)%nat /\ lo <= a /\ a + Z.of_nat (length l) < hi.
Lemma text_same m a l : text m0 a l -> same m -> text m a l.
Proof. intros (H1 & H2 & H3 & H4) Hm. split_and!; try done. eapply string_at_ext; [|exact H1]. intros x Hx. apply Hm. lia. Qed.
Lemma sizes_ok l strs : forall w, Forall2 (text m0) l strs -> same (own w) -> sizes fuel l w = Done (Z.of_nat (length (blob strs))) w.
Proof.
  revert l. induction strs as [|s strs IH]; intros l w H Hm; inversion H as [|a ? l' ? Ht Hl]; subst; [done|]. cbn [sizes].
  rewrite (bind_eq _ _ _ _ _ (gets_eq own w)). destruct (text_same _ _ _ Ht Hm) as (H1 & H2 & _). rewrite (bind_eq _ _ _ _ _ (deref_eq _ _ w (strlen_spec _ _ _ _ H1 H2))).
  rewrite (bind_eq _ _ _ _ _ (IH l' w Hl Hm)). unfold mret, M_ret. f_equal. rewrite blob_cons, length_app. cbn [length]. lia.
Qed.
Lemma put_strings_ok l strs : forall w d, Forall2 (text m0) l strs -> same (own w) -> (d + Z.of_nat (length (blob strs)) <= lo \/ hi <= d) ->
  exists m, put_strings fuel l d w = Done (d + Z.of_nat (length (blob strs))) (set_own m w) /\ bytes_at m d (blob strs) /\
    forall x, ~ d <= x < d + Z.of_nat (length (blob strs)) -> m x = own w x.
Proof.
  revert l. induction strs as [|s strs IH]; intros l w d H Hm Hd; inversion H as [|a ? l' ? Ht Hl]; subst.
  { exists (own w). split_and!; [cbn; rewrite Z.add_0_r; by destruct w|done|done]. }
  cbn [put_strings]. rewrite blob_cons, length_app in Hd |- *. cbn [length] in *.
  rewrite (bind_eq _ _ _ _ _ (gets_eq own w)). destruct (text_same _ _ _ Ht Hm) as (H1 & H2 & H3 & H4).
  destruct (strcpy_spec (own w) s d a fuel H1 H2) as [E Hs]. rewrite (bind_eq _ _ _ _ _ (deref_eq _ _ w E)).
  set (m1 := memcpy d a (S (length s)) (own w)) in *. rewrite (bind_eq _ _ _ _ _ (modify_eq _ w)).
  assert (forall x, ~ d <= x < d + Z.of_nat (S (length s)) -> m1 x = own w x) as Hm1.
  { intros x Hx. subst m1. rewrite memcpy_spec. destruct (Z.leb_spec d x), (Z.ltb_spec x (d + Z.of_nat (S (length s)))); cbn [andb]; try done; lia. }
  assert (string_at m1 a s) as Hs1 by (eapply string_at_ext; [|exact H1]; intros x Hx; apply Hm1; lia).
  rewrite (bind_eq _ _ _ _ _ (deref_eq _ _ (set_own m1 w) (strlen_spec _ _ _ _ Hs1 H2))).
  destruct (IH l' (set_own m1 w) (d + Z.of_nat (length s) + 1) Hl) as (m & -> & Hb & Hout).
  - intros x Hx. cbn. rewrite Hm1 by lia. by apply Hm.
  - lia.
  - exists m. split_and!.
    + f_equal. lia.
    + apply bytes_at_app. cbn [bytes_at]. destruct Hs as [Hs _]. apply bytes_at_app in Hs as [Hs2 [Hs3 _]]. split; [|split].
      * eapply bytes_at_ext; [|exact Hs2]. intros i Hi. apply Hout. lia.
      * rewrite Hout by lia. done.
      * by replace (d + Z.of_nat (length s) + 1) with (d + Z.of_nat (length s) + 1) by lia.
    + intros x Hx. cbn in Hout. rewrite Hout by lia. apply Hm1. lia.
Qed.
End strings.
End load.

(** ** [execvm] *)
Lemma put_bytes_out l : forall a m x, ~ a <= x < a + Z.of_nat (length l) -> put_list a l m x = m x.
Proof.
  induction l as [|c l IH]; intros a m x Hx; [done|]. cbn [put_list length] in *. rewrite IH by lia. unfold upd. by rewrite (proj2 (Z.eqb_neq x a)) by lia.
Qed.
Lemma put_bytes_at l : forall a m, bytes_at (put_list a l m) a l.
Proof.
  induction l as [|c l IH]; intros a m; [done|]. cbn [put_list bytes_at]. split; [|apply IH]. rewrite put_bytes_out by lia. unfold upd. by rewrite Z.eqb_refl.
Qed.
Lemma align_page_up size : 0 < size <= 4096 -> ALIGN_UP size 12 = 4096.
Proof.
  intros H. rewrite ALIGN_UP_eq by (unfold is_u64; lia). change (2 ^ 12) with 4096. Z.div_mod_to_equations. lia.
Qed.

Lemma blob_length ls : (length ls <= length (blob ls))%nat.
Proof. induction ls as [|l ls IH]; [done|]. rewrite blob_cons, length_app. cbn [length]. lia. Qed.
Lemma overlap_sub b len b' len' l : existsb (overlap b len) l = false -> b <= b' -> b' + len' <= b + len -> existsb (overlap b' len') l = false.
Proof.
  intros H H1 H2. apply not_true_is_false. intros (r & Hr & Ho)%existsb_exists. assert (existsb (overlap b len) l = true); [|congruence].
  apply existsb_exists. exists r. split; [done|]. unfold overlap in *. apply andb_true_iff in Ho as [Ho1%Z.ltb_lt Ho2%Z.ltb_lt]. apply andb_true_iff. rewrite !Z.ltb_lt. lia.
Qed.
Lemma get_le_shift k m m' : forall a a', (forall i, 0 <= i < Z.of_nat k -> m (a + i) = m' (a' + i)) -> get_le k m a = get_le k m' a'.
Proof.
  induction k as [|k IH]; intros a a' H; [done|]. cbn [get_le]. pose proof (H 0 ltac:(lia)) as H0. rewrite !Z.add_0_r in H0. rewrite H0. do 2 f_equal.
  apply IH. intros i Hi. rewrite <- !Z.add_assoc. apply H. lia.
Qed.
Lemma elem_of_reverse_rev {A} (x : A) l : x ∈ l -> x ∈ rev l.
Proof. rewrite !list_elem_of_In. apply in_rev. Qed.

Section execvm.
Context (m0 : memory) (base lo hi : Z) (fuel : nat) (cwd : list Z) (argv envp : list Z) (avs evs : list (list Z)).
Let n := Z.to_nat (u16_at m0 (base + 56)).
Let table := base + u64_at m0 (base + 32).
(** An image and arguments that [execvm] can start. *)
Record program : Prop := {
  pr_elf : (m0 <$> [base; base + 1; base + 2; base + 3] = elf_magic) /\ m0 (base + 4) = 2 /\ m0 (base + 5) = 1;
  pr_header : lo <= base /\ base + 64 <= hi;
  pr_table : lo <= table /\ table + 56 * Z.of_nat n <= hi;
  pr_argv : Forall2 (text lo hi fuel m0) argv avs;
  pr_envp : Forall2 (text lo hi fuel m0) envp evs;
  pr_cwd : chars_ok cwd /\ cwd <> [] /\ (length cwd < fuel)%nat;
  pr_size : Z.of_nat (length cwd + length (blob avs) + length (blob evs)) + 11 <= 4096;
}.
(** Addresses that the kernel may choose. *)
Record choices (ps : list Z) (page stack : Z) : Prop := {
  ch_segs : loadable base lo hi (phdr_list m0 n table) [] ps;
  ch_page : apart lo hi page 4096;
  ch_stack : 0 < stack /\ stack mod 4096 = 0 /\ USER_BASE <= stack /\ stack + 0x101000 <= USER_TOP;
  ch_free : existsb (overlap stack 0x101000) (areas_after (phdr_list m0 n table) []) = false;
}.
Definition stack_size : Z := Z.of_nat (length cwd) + 1 + Z.of_nat (length (blob evs)) + Z.of_nat (length (blob avs)) + 2 + 8.

Lemma execvm_ok (P : program) (ps : list Z) (page stack : Z) (rest : list Z) (w : world) (C : choices ps page stack) :
  own w = m0 -> picks w = ps ++ page :: stack :: rest ->
  exists w', execvm fuel cwd base argv envp w = Done 0 w' /\
    let rsp := stack + 0x100000 + 4096 - stack_size in
    tasks w' = (rsp, u64_at m0 (base + 24)) :: tasks w /\
    (forall ph, ph ∈ phdr_list m0 n table -> p_type ph = 1 -> forall x, inside (area_of ph) x -> image w' x = seg_byte m0 base ph x) /\
    stack_layout (image w') rsp cwd avs evs.
Proof.
  intros Hown Hpicks. destruct P as [(E1 & E2 & E3) [H1 H2] [T1 T2] Ha He (Hc1 & Hc2 & Hc3) Hsz]. destruct C as [Hl [Hp1 Hp2] (S1 & S2 & S3 & S4) Hfree].
  unfold execvm. set (w1 := mkWorld m0 (fun _ => 0) [] (picks w) (exec_errno w) (tasks w)).
  assert (as_new w = Done () w1) as ->%(bind_eq _ _ _ _ _) by (unfold as_new; rewrite modify_eq, Hown; done).
  assert (elf_load base w1 = Done true w1) as ->%(bind_eq _ _ _ _ _) by (unfold elf_load, gets; cbn [own w1]; rewrite E1, E2, E3; done).
  cbn [negb]. destruct (foreach_ok m0 base lo hi n table ps (page :: stack :: rest) w1 T1 T2) as (m1 & img & Hload & Hm1 & Hin & _); [by intros x _|done|done|].
  assert (elf_foreach_ph (mapper base) base w1 = Done 0 (mkWorld m1 img (areas_after (phdr_list m0 n table) []) (page :: stack :: rest) (exec_errno w) (tasks w))) as ->%(bind_eq _ _ _ _ _).
  { unfold elf_foreach_ph. rewrite (bind_eq _ _ _ _ _ (gets_eq own w1)). exact Hload. }
  cbn [Z.eqb negb]. set (ars := areas_after (phdr_list m0 n table) []) in *. set (w2 := mkWorld m1 img ars _ _ _).
  rewrite (bind_eq _ _ _ _ _ (sizes_ok m0 lo hi fuel envp evs w2 He Hm1)), (bind_eq _ _ _ _ _ (sizes_ok m0 lo hi fuel argv avs w2 Ha Hm1)).
  fold stack_size. assert (0 < stack_size <= 4096) as Hss by (unfold stack_size; lia). rewrite align_page_up by done.
  set (w3 := mkWorld (zero m1 page 4096) img ars (stack :: rest) (exec_errno w) (tasks w)).
  assert (sendpage_own 4096 w2 = Done page w3) as ->%(bind_eq _ _ _ _ _).
  { unfold sendpage_own, pick, mbind, M_bind, get. cbn. by rewrite (proj2 (Z.ltb_ge page 0)) by lia. }
  rewrite (proj2 (Z.eqb_neq page 0)) by lia. set (top := page + 4096 - stack_size). set (d := top + 8).
  replace (page + 4096 - stack_size + 8) with d by lia. rewrite (bind_eq _ _ _ _ _ (modify_eq _ w3)). set (m3 := put_list d (cwd ++ [0]) (own w3)).
  set (d1 := d + Z.of_nat (length cwd) + 1). set (d2 := d1 + Z.of_nat (length (blob avs))). set (d3 := d2 + 1 + Z.of_nat (length (blob evs))).
  assert (d3 + 1 = page + 4096 /\ page <= top) as [Hd3 Htop] by (unfold d3, d2, d1, d, top, stack_size in *; lia).
  assert (forall x, ~ page <= x < page + 4096 -> m3 x = m1 x) as Hm3.
  { intros x Hx. subst m3. rewrite put_bytes_out by (rewrite length_app; cbn [length]; lia). cbn [own w3]. unfold zero.
    destruct (Z.leb_spec page x), (Z.ltb_spec x (page + 4096)); cbn [andb]; try done; lia. }
  assert (same m0 lo hi m3) as Hs3 by (intros x Hx; rewrite Hm3 by lia; by apply Hm1).
  destruct (put_strings_ok m0 lo hi fuel argv avs (set_own m3 w3) d1 Ha Hs3) as (m4 & Hput4 & Hb4 & Hm4); [lia|].
  rewrite (bind_eq _ _ _ _ _ Hput4). fold d2. cbn [own set_own] in Hm4. rewrite (bind_eq _ _ _ _ _ (modify_eq _ _)). set (m5 := upd m4 d2 0).
  assert (same m0 lo hi m5) as Hs5.
  { intros x Hx. subst m5. unfold upd. rewrite (proj2 (Z.eqb_neq x d2)) by lia. rewrite Hm4 by lia. by apply Hs3. }
  destruct (put_strings_ok m0 lo hi fuel envp evs (set_own m5 (set_own m4 (set_own m3 w3))) (d2 + 1) He Hs5) as (m6 & Hput6 & Hb6 & Hm6); [lia|].
  change (set_own (upd (own (set_own m4 (set_own m3 w3))) d2 0) (set_own m4 (set_own m3 w3))) with (set_own m5 (set_own m4 (set_own m3 w3))).
  rewrite (bind_eq _ _ _ _ _ Hput6). fold d3. cbn [own set_own] in Hm6. rewrite !(bind_eq _ _ _ _ _ (modify_eq _ _)). cbn [own set_own image areas picks exec_errno tasks w3].
  set (m7 := put_le 8 (upd m6 d3 0) top (Z.of_nat (length argv))).
  assert (length argv = length avs) as Hlen by (by eapply Forall2_length).
  assert (forall x, ~ (d2 + 1 <= x < d3 + 1 \/ top <= x < top + 8) -> m7 x = m5 x) as Hm7.
  { intros x Hx. subst m7. rewrite put_le_out by lia. unfold upd. rewrite (proj2 (Z.eqb_neq x d3)) by lia. apply Hm6. lia. }
  assert (bytes_at m7 d (cwd ++ 0 :: blob avs ++ 0 :: blob evs ++ [0])) as Hb7.
  { replace (cwd ++ 0 :: blob avs ++ 0 :: blob evs ++ [0]) with ((cwd ++ [0]) ++ blob avs ++ 0 :: blob evs ++ [0]) by (by rewrite <- app_assoc).
    apply bytes_at_app. split; [|replace (d + Z.of_nat (length (cwd ++ [0]))) with d1 by (rewrite length_app; cbn [length]; lia); apply bytes_at_app; fold d2; split; [|split; [|apply bytes_at_app; split; [|split; [|done]]]]].
    - eapply (bytes_at_ext m3 _ _ d); [|apply put_bytes_at]. intros i Hi. rewrite length_app in Hi. cbn [length] in Hi. rewrite Hm7 by lia. subst m5. unfold upd.
      rewrite (proj2 (Z.eqb_neq _ d2)) by lia. apply Hm4. lia.
    - eapply (bytes_at_ext m4 _ _ d1); [|exact Hb4]. intros i Hi. rewrite Hm7 by lia. subst m5. unfold upd. by rewrite (proj2 (Z.eqb_neq _ d2)) by lia.
    - rewrite Hm7 by lia. subst m5. unfold upd. by rewrite Z.eqb_refl.
    - eapply (bytes_at_ext m6 _ _ (d2 + 1)); [|exact Hb6]. intros i Hi. subst m7. rewrite put_le_out by lia. unfold upd. by rewrite (proj2 (Z.eqb_neq _ d3)) by lia.
    - fold d3. subst m7. rewrite put_le_out by lia. unfold upd. by rewrite Z.eqb_refl. }
  assert (get_le 8 m7 top = Z.of_nat (length avs)) as Hargc.
  { subst m7. rewrite get_put_le, Hlen. apply Z.mod_small. change (256 ^ 8) with (2 ^ 64). pose proof (blob_length avs). lia. }
  assert (same m0 lo hi m7) as Hs7 by (intros x Hx; rewrite Hm7 by lia; by apply Hs5).
  clearbody m7. set (w7 := mkWorld m7 img ars (stack :: rest) (exec_errno w) (tasks w)).
  match goal with |- context [set_own m7 ?x] => change (set_own m7 x) with w7 end.
  set (w8 := mkWorld m7 (zero img stack 0x100000) ((stack, 0x100000) :: ars) rest (exec_errno w) (tasks w)).
  assert (sendpage_any 0x100000 w7 = Done stack w8) as ->%(bind_eq _ _ _ _ _).
  { unfold sendpage_any, pick, mbind, M_bind, get. cbn. by rewrite (proj2 (Z.ltb_ge stack 0)) by lia. }
  set (w9 := mkWorld m7 (move (zero img stack 0x100000) m7 page (stack + 0x100000) 4096) ((stack + 0x100000, 4096) :: (stack, 0x100000) :: ars) rest (exec_errno w) (tasks w)).
  assert (sendpage_to page (stack + 0x100000) 4096 w8 = Done (stack + 0x100000) w9) as ->%(bind_eq _ _ _ _ _).
  { unfold sendpage_to. rewrite (proj2 (Z.eqb_neq (stack + 0x100000) 0)) by lia. rewrite (bind_eq _ _ _ _ _ (get_eq w8)). replace ((stack + 0x100000) mod 4096) with 0 by (Z.div_mod_to_equations; lia). cbn [Z.eqb negb].
    rewrite (proj2 (Z.ltb_ge _ USER_BASE)), (proj2 (Z.ltb_ge USER_TOP _)) by lia. cbn [orb areas w8 existsb].
    rewrite (overlap_sub stack 0x101000 (stack + 0x100000) 4096 ars) by (done || lia). unfold overlap. cbn [fst snd]. rewrite Z.ltb_irrefl. done. }
  rewrite (bind_eq _ _ _ _ _ (gets_eq _ w9)). assert (u64_at (own w9) (base + 24) = u64_at m0 (base + 24)) as ->.
  { apply get_le_ext. intros x Hx. apply Hs7. lia. }
  unfold new_task. rewrite (bind_eq _ _ _ _ _ (modify_eq _ w9)). eexists. split; [reflexivity|]. cbv zeta. cbn [tasks image w9]. split_and!.
  - do 3 f_equal.
  - intros ph Hph H1ph x Hx. rewrite <- (Hin ph Hph H1ph x Hx). assert (area_of ph ∈ ars) as Har.
    { unfold ars, areas_after. rewrite app_nil_r. apply elem_of_reverse_rev. apply list_elem_of_fmap. exists ph. split; [done|]. by apply list_elem_of_filter. }
    pose proof (overlap_out _ _ _ _ _ Hfree Har Hx) as Hno. unfold inside in Hno. cbn [fst snd] in Hno. unfold move, zero.
    destruct (Z.leb_spec (stack + 0x100000) x), (Z.ltb_spec x (stack + 0x100000 + 4096)), (Z.leb_spec stack x), (Z.ltb_spec x (stack + 0x100000)); cbn [andb]; try done; lia.
  - assert (forall i, 0 <= i < stack_size -> move (zero img stack 0x100000) m7 page (stack + 0x100000) 4096 (stack + 0x100000 + 4096 - stack_size + i) = m7 (top + i)) as Hmv.
    { intros i Hi. unfold move. rewrite (proj2 (Z.leb_le _ _)), (proj2 (Z.ltb_lt _ _)) by lia. cbn [andb]. f_equal. lia. }
    split.
    + rewrite <- Hargc. apply get_le_shift. intros i Hi. apply Hmv. unfold stack_size. lia.
    + eapply (bytes_at_ext m7 _ _ d); [|exact Hb7]. intros i Hi. rewrite <- Z.add_assoc. rewrite Hmv; [unfold d; f_equal; lia|].
      rewrite !length_app in Hi. cbn [length] in Hi. rewrite !length_app in Hi. cbn [length] in Hi. rewrite length_app in Hi. cbn [length] in Hi. unfold stack_size. lia.
Qed.

(** C31: A program that is started finds its segments in its memory, and [main] gets its
    arguments and the working directory; the strings of [envp] are behind an empty
    string, where [__real_start] stops: [environ] is empty. *)
Theorem exec_starts (P : program) (ps : list Z) (page stack : Z) (rest : list Z) (w : world) (C : choices ps page stack)
  (cwd_addr : Z) (ph : phdr) (Hph : ph ∈ phdr_list m0 n table /\ p_type ph = 1 /\ inside (area_of ph) cwd_addr /\ inside (area_of ph) (cwd_addr + Z.of_nat (length cwd)))
  (Hown : own w = m0) (Hpicks : picks w = ps ++ page :: stack :: rest) :
  exists w' rsp m r, execvm fuel cwd base argv envp w = Done 0 w' /\ tasks w' = (rsp, u64_at m0 (base + 24)) :: tasks w /\
    (forall ph', ph' ∈ phdr_list m0 n table -> p_type ph' = 1 -> forall x, inside (area_of ph') x -> image w' x = seg_byte m0 base ph' x) /\
    start fuel cwd_addr rsp (image w') = Some (m, r) /\ started m cwd_addr cwd avs r.
Proof.
  destruct (execvm_ok P ps page stack rest w C Hown Hpicks) as (w' & E & Ht & Hseg & Hlay). cbv zeta in *. set (rsp := stack + 0x100000 + 4096 - stack_size) in *.
  destruct P as [_ _ _ Ha _ (Hc1 & Hc2 & Hc3) Hsz]. destruct C as [_ _ (S1 & S2 & S3 & S4) Hfree]. pose proof (blob_length avs).
  destruct Hph as (H1 & H2 & H3 & H4). assert (area_of ph ∈ areas_after (phdr_list m0 n table) []) as Har.
  { unfold areas_after. rewrite app_nil_r. apply elem_of_reverse_rev. apply list_elem_of_fmap. exists ph. split; [done|]. by apply list_elem_of_filter. }
  pose proof (overlap_out _ _ _ _ _ Hfree Har H3) as N3. pose proof (overlap_out _ _ _ _ _ Hfree Har H4) as N4. unfold inside in N3, N4. cbn [fst snd] in N3, N4.
  destruct (start_ok fuel cwd_addr (image w') rsp cwd avs evs Hlay Hc1 Hc2) as (m & r & Hst & Hsd).
  - eapply Forall2_Forall_r; [exact Ha|]. apply Forall_true. intros a l [[_ Hl] _]. exact Hl.
  - constructor; [done|]. eapply Forall2_Forall_r; [exact Ha|]. apply Forall_true. intros a l (_ & Hl & _). exact Hl.
  - lia.
  - unfold rsp, stack_size, USER_BASE in *. lia.
  - unfold rsp, stack_size, USER_TOP in *. lia.
  - unfold rsp, stack_size. assert (~ (cwd_addr < stack /\ stack + 0x101000 <= cwd_addr + Z.of_nat (length cwd))) by lia. lia.
  - by exists w', rsp, m, r.
Qed.
End execvm.

(** ** A small image *)
Definition set_le (l : list (nat * Z * Z)) (m : memory) : memory := fold_left (fun m '(k, a, v) => put_le k m a v) l m.
(** One segment of 4 bytes at 0x400078, 0x100 bytes in memory; behind the image the strings "ls" and "A=1". *)
Definition tiny : memory :=
  put_list 0x500080 [108; 115; 0; 65; 61; 49; 0]
    (set_le [(8%nat, 0x500018, 0x400078); (8%nat, 0x500020, 64); (2%nat, 0x500038, 1);
             (4%nat, 0x500040, 1); (8%nat, 0x500048, 120); (8%nat, 0x500050, 0x400078); (8%nat, 0x500060, 4); (8%nat, 0x500068, 0x100)]
      (put_list 0x500000 [0x7f; 0x45; 0x4c; 0x46; 2; 1] (put_list 0x500078 [0x90; 0x90; 0xc3; 0xcc] (fun _ => 0)))).
Definition tiny_phdr : phdr := mkPhdr 1 120 0x400078 4 0x100.
Lemma tiny_phdrs : phdr_list tiny (Z.to_nat (u16_at tiny (0x500000 + 56))) (0x500000 + u64_at tiny (0x500000 + 32)) = [tiny_phdr].
Proof. vm_compute. reflexivity. Qed.
Ltac text := split_and!; [split; [by vm_compute|by repeat constructor]|cbn; lia|lia|cbn; lia].
Lemma tiny_program : program tiny 0x500000 0x500000 0x501000 5 [47] [0x500080] [0x500083] [[108; 115]] [[65; 61; 49]].
Proof.
  constructor.
  - by vm_compute.
  - lia.
  - by vm_compute.
  - constructor; [text|constructor].
  - constructor; [text|constructor].
  - split_and!; [by repeat constructor|done|cbn; lia].
  - cbn. lia.
Qed.
Lemma tiny_choices : choices tiny 0x500000 0x500000 0x501000 [0x600000] 0x700000 0x10000000.
Proof.
  constructor.
  - rewrite tiny_phdrs. cbn -[USER_BASE USER_TOP]. split_and!; [done|done| |done| |done].
    + constructor; try by vm_compute.
    + split; [by vm_compute|right; by vm_compute].
  - unfold apart. lia.
  - split_and!; by vm_compute.
  - rewrite tiny_phdrs. by vm_compute.
Qed.
Lemma exec_starts_witness :
  program tiny 0x500000 0x500000 0x501000 5 [47] [0x500080] [0x500083] [[108; 115]] [[65; 61; 49]] /\
  exists w' rsp m r, execvm 5 [47] 0x500000 [0x500080] [0x500083] (mkWorld tiny (fun _ => 0) [] [0x600000; 0x700000; 0x10000000] 0 []) = Done 0 w' /\
    image w' 0x40007a = 0xc3 /\ start 5 0x400100 rsp (image w') = Some (m, r) /\ started m 0x400100 [47] [[108; 115]] r.
Proof.
  split; [exact tiny_program|].
  destruct (exec_starts tiny 0x500000 0x500000 0x501000 5 [47] [0x500080] [0x500083] [[108; 115]] [[65; 61; 49]] tiny_program [0x600000] 0x700000 0x10000000 []
    (mkWorld tiny (fun _ => 0) [] [0x600000; 0x700000; 0x10000000] 0 []) tiny_choices 0x400100 tiny_phdr) as (w' & rsp & m & r & H1 & _ & H2 & H3 & H4).
  - rewrite tiny_phdrs. split_and!; [by apply list_elem_of_singleton|done|by vm_compute|by vm_compute].
  - done.
  - done.
  - exists w', rsp, m, r. split; [exact H1|]. split; [|split; [exact H3|exact H4]]. clear H1 H3 H4. rewrite tiny_phdrs in H2.
    assert (inside (area_of tiny_phdr) 0x40007a) as Hin by (split; by vm_compute).
    rewrite (H2 tiny_phdr (proj2 (list_elem_of_singleton _ _) eq_refl) eq_refl 0x40007a Hin). vm_compute. reflexivity.
Defined.

(** ** What goes wrong *)
(** A segment in the page of another one is refused by the kernel, but the result of
    [sendpage] is NULL then and not negative: [mapper] succeeds and the segment is missing. *)
Example shared_page :
  match mapper 0x500000 tiny_phdr (mkWorld tiny (fun _ => 0) [(0x400000, 4096)] [0x600000] 0 []) with
  | Done r w' => (r, image w' 0x40007a, exec_errno w') = (0, 0, ENOMEM)
  | _ => False
  end.
Proof. vm_compute. reflexivity. Qed.
(** Anything but an ELF image is refused; the address space that was made stays. *)
Lemma not_elf fuel cwd base argv envp w : own w base <> 0x7f ->
  exists w', execvm fuel cwd base argv envp w = Done (-1) w' /\ exec_errno w' = ENOEXEC /\ tasks w' = tasks w.
Proof.
  intros H. unfold execvm, as_new. rewrite (bind_eq _ _ _ _ _ (modify_eq _ w)). unfold elf_load. rewrite (bind_eq _ _ _ _ _ (gets_eq _ _)). cbn [own].
  rewrite bool_decide_eq_false_2; [cbn [negb andb]; by eexists|]. intros [= E _ _ _]. done.
Qed.
