(* ===== verification/ScanfProofs.v ===== *)
(** What [printf] prints for a format, [scanf] reads with the same format, where the
    text lets it see the end of each field. *)
From S2P Require Import Prelude CString Printf Scanf.

(** The state that looks at the first character of a text. *)
Definition look (l : list Z) (s : scan) : scan := match l with c :: l => with_ra (i8 c) l s | [] => s end.
Definition stored (o : list out) (s : scan) : scan := mkScan (ra s) (inp s) (eof s) (scan_errno s) (vals s ++ o).
Lemma stored_look o l s : stored o (look l s) = look l (stored o s).
Proof. by destruct l. Qed.
Lemma look_look l l' s : l <> [] -> look l (look l' s) = look l s.
Proof. by destruct l, l'. Qed.
Lemma next_look c l s : l <> [] -> next_char (look (c :: l) s) = Done true (look l s).
Proof. by destruct l. Qed.
Lemma skip_look l s : l <> [] -> isspace (i8 (hd 0 l)) = false -> skip (look l s) = Done true (look l s).
Proof. destruct l as [|c l]; [done|]. intros _ H. cbn in H. unfold skip, mbind, M_bind, get. cbn [look with_ra ra inp]. destruct l; cbn [skip_space]; by rewrite H. Qed.
Lemma skip_spaces_look c l s : l <> [] -> isspace (i8 c) = true -> isspace (i8 (hd 0 l)) = false -> skip (look (c :: l) s) = Done true (look l s).
Proof.
  destruct l as [|c' l]; [done|]. intros _ H H'. cbn in H'. unfold skip, mbind, M_bind, get. cbn [look with_ra ra inp skip_space]. rewrite H.
  destruct l; cbn [skip_space]; by rewrite H'.
Qed.
Lemma u8_i8 c : byte c -> u8 (i8 c) = c.
Proof.
  intros [H1 H2]. unfold u8, i8, swrap, wrap. change (2 ^ (8 - 1)) with 128. change (2 ^ 8) with 256. Z.div_mod_to_equations. lia.
Qed.
Lemma take_word_look w : forall c l acc, Forall (fun c => byte c /\ isspace (i8 c) = false) (c :: w) -> l <> [] -> isspace (i8 (hd 0 l)) = true ->
  take_word (i8 c) (w ++ l) acc = (true, i8 (hd 0 l), tl l, acc ++ c :: w).
Proof.
  induction w as [|c' w IH]; intros c l acc [[Hb Hs] Hw]%Forall_cons_1 Hl Hl'.
  - destruct l as [|c' l]; [done|]. cbn in Hl'. cbn [app take_word]. rewrite Hs, u8_i8 by done. destruct l; cbn [take_word hd tl]; by rewrite Hl'.
  - cbn [app take_word]. rewrite Hs, u8_i8 by done. rewrite (IH c' l (acc ++ [c]) Hw Hl Hl'). by rewrite <- app_assoc.
Qed.

(** ** Numbers *)
Lemma i8_small c : 0 <= c < 128 -> i8 c = c.
Proof. intros H. unfold i8, swrap. change (2 ^ (8 - 1)) with 128. change (2 ^ 8) with 256. rewrite Z.mod_small; lia. Qed.
Definition of_digits (base acc : Z) (l : list Z) : Z := foldl (fun acc c => acc * base + digit_value c) acc l.
Lemma digit_facts base d : base = 10 \/ base = 16 -> 0 <= d < base ->
  i8 (digit d) = digit d /\ lower base (digit d) = digit d /\ is_digit base (digit d) = true /\ digit_value (digit d) = d /\
  (if 97 <=? digit d then digit d - 97 + 10 else digit d - 48) = d /\ isspace (digit d) = false.
Proof.
  intros Hb Hd. assert (In d (seqZ 0 16)) as Hin by (apply list_elem_of_In, elem_of_seqZ; lia).
  destruct Hb as [-> | ->]; cbn in Hin; repeat (destruct Hin as [<-|Hin]; [first [lia|by vm_compute]|]); done.
Qed.
Lemma of_digits_mono base l : 0 <= base -> forall acc, 1 <= base -> 0 <= acc -> Forall (fun c => 0 <= digit_value c) l -> acc <= of_digits base acc l.
Proof.
  intros Hb0. induction l as [|c l IH]; intros acc Hb Ha H; [cbn; lia|]. apply Forall_cons_1 in H as [Hc H]. cbn. fold (of_digits base (acc * base + digit_value c) l).
  specialize (IH (acc * base + digit_value c) Hb ltac:(nia) H). nia.
Qed.
Definition digits_of (base : Z) (l : list Z) : Prop := Forall (fun c => exists d, 0 <= d < base /\ c = digit d) l.
Lemma digits_value base l : base = 10 \/ base = 16 -> digits_of base l -> Forall (fun c => 0 <= digit_value c) l.
Proof. intros Hb H. eapply Forall_impl; [exact H|]. intros c (d & Hd & ->). rewrite digit_value_digit by lia. lia. Qed.

(** The digits of a number are read up to the first other character. *)
Lemma take_number_look base l w : base = 10 \/ base = 16 -> l <> [] -> is_digit base (i8 (hd 0 l)) = false -> lower base (i8 (hd 0 l)) = i8 (hd 0 l) ->
  forall acc, digits_of base w -> 0 <= acc -> of_digits base acc w < 2 ^ 31 ->
  take_number base (i8 (hd 0 (w ++ l))) (tl (w ++ l)) acc = (true, i8 (hd 0 l), tl l, of_digits base acc w).
Proof.
  intros Hb Hl Hd Hlow. induction w as [|c w IH]; intros acc Hw Ha Hlt.
  - cbn [app of_digits foldl]. destruct l as [|c [|c' l]]; [done|..]; cbn [hd tl take_number] in *; rewrite Hlow, Hd; done.
  - apply Forall_cons_1 in Hw as [(d & Hdd & ->) Hw]. destruct (digit_facts base d Hb Hdd) as (E1 & E2 & E3 & E4 & E5 & _). cbn [app hd tl]. rewrite E1.
    cbn [of_digits foldl] in Hlt |- *. rewrite E4 in *. fold (of_digits base (acc * base + d) w) in *.
    pose proof (of_digits_mono base w ltac:(lia) (acc * base + d) ltac:(lia) ltac:(nia) (digits_value _ _ Hb Hw)) as Hmono.
    specialize (IH (acc * base + d) Hw ltac:(nia) Hlt).
    assert (exists c l', w ++ l = c :: l') as (c' & l' & E) by (destruct w; [destruct l; [done|]|]; cbn; eauto). rewrite E in IH |- *. cbn [hd tl] in IH.
    cbn [take_number]. rewrite E2, E3. cbn [negb]. rewrite (i32_small (acc * base)) by nia.
    replace (if 97 <=? digit d then acc * base + (digit d - 97 + 10) else acc * base + (digit d - 48)) with (acc * base + d) by (destruct (97 <=? digit d); lia).
    by rewrite i32_small by nia.
Qed.
(** The text of a number that is not negative. *)
Lemma number_text_digits x base sign : base = 10 \/ base = 16 -> 0 <= x < 2 ^ 31 ->
  (x = 0 /\ number_text x base 0 sign = [48]) \/
  exists d w, number_text x base 0 sign = digit d :: w /\ 0 < d < base /\ digits_of base (digit d :: w) /\ of_digits base 0 (digit d :: w) = x.
Proof.
  intros Hb Hx. unfold number_text. assert (u64 (if sign then if 0 <? x then x else - x else x) = x) as ->.
  { destruct sign; [destruct (Z.ltb_spec 0 x)|]; rewrite u64_small by (unfold is_u64; lia); lia. }
  assert (2 <= base <= 16) as Hb' by lia. assert (0 <= x < base ^ Z.of_nat 64) as Hx'.
  { split; [lia|]. change (Z.of_nat 64) with 64. pose proof (Z.pow_le_mono_l 2 base 64). lia. }
  destruct (numeral_correct 64 base x Hb' Hx') as (V & L & D). rewrite <- numeral_length. destruct (numeral 64 base x) as [|c w] eqn:En.
  - left. cbn in V. cbn. split; [lia|done].
  - right. rewrite (proj2 (Z.eqb_neq _ 0)) by (cbn [length]; lia). rewrite (proj2 (Z.ltb_ge x 0)) by lia. cbn [andb app].
    rewrite Z2Nat.nonpos by lia. cbn [replicate app]. pose proof D as D'. apply Forall_cons_1 in D' as [(d & Hd & ->) _].
    exists d, w. split_and!; try done; try lia. assert (d <> 0); [|lia]. intros ->. by apply (L (digit 0) w).
Qed.

(** ** The format *)
Lemma ra_look l s : l <> [] -> ra (look l s) = i8 (hd 0 l) /\ inp (look l s) = tl l.
Proof. by destruct l. Qed.
Lemma with_look l l' s : l <> [] -> with_ra (i8 (hd 0 l)) (tl l) (look l' s) = look l s.
Proof. by destruct l, l'. Qed.
Lemma with_with l c l' s : l <> [] -> with_ra (i8 (hd 0 l)) (tl l) (with_ra c l' s) = look l s.
Proof. by destruct l. Qed.
Lemma store_eq o s : store_arg o s = Done () (stored [o] s).
Proof. done. Qed.
Lemma put_eq (s s' : scan) : put s s' = Done () s.
Proof. done. Qed.
Lemma stored_app o o' s : stored o' (stored o s) = stored (o ++ o') s.
Proof. unfold stored. cbn. by rewrite <- app_assoc. Qed.
Lemma hd_follows (t : list Z) nc rest : hd 0 (t ++ nc :: rest) = hd nc t.
Proof. by destruct t. Qed.
Lemma tail_ne {A} (t : list A) c r : t ++ c :: r <> [].
Proof. by destruct t. Qed.
#[local] Hint Resolve tail_ne : core.

(** The end of a conversion of numbers, in front of the digits [w]. *)
Lemma take_step base x l s f n w : base = 10 \/ base = 16 -> 0 <= x < 2 ^ 31 -> l <> [] ->
  is_digit base (i8 (hd 0 l)) = false -> lower base (i8 (hd 0 l)) = i8 (hd 0 l) -> digits_of base w -> of_digits base 0 w = x ->
  (s ← get;
   let '(b, c, l, x) := take_number base (ra s) (inp s) 0 in
   put (with_ra c l s);; store_arg (Num x);;
   if b : bool then scanf_loop f (n + 1) else at_eof;; mret (n + 1)) (look (w ++ l) s) = scanf_loop f (n + 1) (look l (stored [Num x] s)).
Proof.
  intros Hb Hx Hl Hd Hlow Hw Hv. rewrite (bind_eq _ _ _ _ _ (get_eq _)). destruct (ra_look (w ++ l) s) as [-> ->]; [by destruct w|].
  rewrite take_number_look by (done || lia). rewrite Hv, (bind_eq _ _ _ _ _ (put_eq _ _)), (bind_eq _ _ _ _ _ (store_eq _ _)), with_look by done. by rewrite stored_look.
Qed.
(** [0x] is only skipped when the number is 0. *)
Lemma prefix_look base d w l s : base = 10 \/ base = 16 -> 0 < d < base -> prefix (look ((digit d :: w) ++ l) s) = Done true (look ((digit d :: w) ++ l) s).
Proof.
  intros Hb Hd. unfold prefix. rewrite (bind_eq _ _ _ _ _ (get_eq _)). cbn [app look ra with_ra]. destruct (digit_facts base d Hb ltac:(lia)) as (-> & _).
  rewrite (proj2 (Z.eqb_neq (digit d) 48)); [done|]. unfold digit. destruct (Z.ltb_spec d 10); lia.
Qed.
Lemma prefix_zero l s : l <> [] -> i8 (hd 0 l) <> 120 -> prefix (look (48 :: l) s) = Done true (look l s).
Proof.
  intros Hl H. unfold prefix. rewrite (bind_eq _ _ _ _ _ (get_eq _)). change (ra (look (48 :: l) s) =? 48) with true. cbv iota.
  rewrite (bind_eq _ _ _ _ _ (next_look 48 l s Hl)). cbn [negb]. rewrite (bind_eq _ _ _ _ _ (get_eq _)). destruct (ra_look l s Hl) as [-> _]. by rewrite (proj2 (Z.eqb_neq _ 120) H).
Qed.
Lemma digit_space base d : base = 10 \/ base = 16 -> 0 <= d < base -> isspace (i8 (digit d)) = false.
Proof. intros Hb Hd. by destruct (digit_facts base d Hb Hd) as (-> & _ & _ & _ & _ & ->). Qed.
Lemma scanf_loop_reads str nc rest f v t o : byte nc -> prints_and_reads str nc f v t o ->
  forall s n, scanf_loop f n (look (t ++ nc :: rest) s) = Done (n + Z.of_nat (length o)) (stored o (look (nc :: rest) s)).
Proof.
  intros Hnc. induction 1 as [|c f v t o Hc Hs Hp _ IH|c f v t o Hc Hs Hf _ IH|f v t o _ IH|x f v t o Hx (Hd & Hl & _) _ IH|x f v t o Hx (Hd & Hl & Hn) _ IH|p l f v t o Hp Hstr Hne Hall Hf _ IH|c f v t o Hc _ IH]; intros s n.
  - cbn [scanf_loop app length]. unfold stored. cbn. rewrite app_nil_r, Z.add_0_r. done.
  - cbn [scanf_loop app]. rewrite Hs, (proj2 (Z.eqb_neq c 37) Hp). rewrite (bind_eq _ _ _ _ _ (get_eq _)). cbn [look ra with_ra]. rewrite Z.eqb_refl. cbn [negb].
    rewrite (bind_eq _ _ _ _ _ (next_look c (t ++ nc :: rest) s ltac:(auto))). apply IH.
  - cbn [scanf_loop app]. rewrite Hs. rewrite (bind_eq _ _ _ _ _ (skip_spaces_look c (t ++ nc :: rest) s ltac:(auto) Hs ltac:(by rewrite hd_follows))). apply IH.
  - cbn [scanf_loop app]. change (isspace (i8 37)) with false. cbn [Z.eqb Pos.eqb]. rewrite (bind_eq _ _ _ _ _ (get_eq _)). cbn [look ra with_ra]. change (i8 37 =? 37) with true. cbn [negb].
    rewrite (bind_eq _ _ _ _ _ (next_look 37 (t ++ nc :: rest) s ltac:(auto))). apply IH.
  - cbn [scanf_loop]. change (isspace (i8 37)) with false. cbn [Z.eqb Pos.eqb orb]. rewrite <- app_assoc. unfold follows in Hd, Hl. rewrite <- (hd_follows t nc rest) in Hd, Hl.
    assert (exists d w, number_text x 10 0 true = digit d :: w /\ 0 <= d < 10 /\ digits_of 10 (digit d :: w) /\ of_digits 10 0 (digit d :: w) = x) as (d & w & -> & H0 & Hw & Hv).
    { destruct (number_text_digits x 10 true) as [[-> ->]|(d & w & -> & ? & ? & ?)]; [by left|done| |exists d, w; split_and!; done || lia].
      exists 0, []. split_and!; try done. constructor; [by exists 0|constructor]. }
    rewrite (bind_eq _ _ _ _ _ (skip_look ((digit d :: w) ++ t ++ nc :: rest) s ltac:(done) (digit_space 10 d (or_introl eq_refl) H0))). cbn [negb]. rewrite (bind_eq _ _ _ _ _ (mret_eq _ _)). cbn [negb].
    rewrite (take_step 10 x) by (auto || lia). rewrite IH. f_equal; [cbn [length]; lia|]. by rewrite <- !stored_look, stored_app.
  - cbn [scanf_loop]. change (isspace (i8 37)) with false. cbn [Z.eqb Pos.eqb orb]. rewrite <- app_assoc. unfold follows in Hd, Hl, Hn. rewrite <- (hd_follows t nc rest) in Hd, Hl, Hn.
    assert (exists d w0 w, number_text x 16 0 false = digit d :: w0 /\ 0 <= d < 16 /\ digits_of 16 w /\ of_digits 16 0 w = x /\
      prefix (look ((digit d :: w0) ++ t ++ nc :: rest) s) = Done true (look (w ++ t ++ nc :: rest) s)) as (d & w0 & w & -> & H0 & Hw & Hv & Hpre).
    { destruct (number_text_digits x 16 false) as [[-> ->]|(d & w & -> & ? & ? & ?)]; [by right|done| |].
      - exists 0, [], []. split_and!; try done; [constructor|]. cbn [app]. apply prefix_zero; [auto|by apply Hn].
      - exists d, w, (digit d :: w). split_and!; try done; [lia|lia|]. apply (prefix_look 16); [by right|lia]. }
    rewrite (bind_eq _ _ _ _ _ (skip_look ((digit d :: w0) ++ t ++ nc :: rest) s ltac:(done) (digit_space 16 d (or_intror eq_refl) H0))). cbn [negb]. rewrite (bind_eq _ _ _ _ _ Hpre). cbn [negb].
    rewrite (take_step 16 x) by (auto || lia). rewrite IH. f_equal; [cbn [length]; lia|]. by rewrite <- !stored_look, stored_app.
  - cbn [scanf_loop]. change (isspace (i8 37)) with false. cbn [Z.eqb Pos.eqb]. destruct l as [|c l]; [done|]. pose proof Hall as [[Hb Hs] _]%Forall_cons_1. rewrite <- app_assoc.
    rewrite (bind_eq _ _ _ _ _ (skip_look ((c :: l) ++ t ++ nc :: rest) s ltac:(done) Hs)). cbn [negb]. rewrite (bind_eq _ _ _ _ _ (get_eq _)). cbn [look ra inp with_ra app].
    rewrite (take_word_look l c (t ++ nc :: rest) []) by (auto || by rewrite hd_follows). cbn [app]. rewrite (bind_eq _ _ _ _ _ (put_eq _ _)), (bind_eq _ _ _ _ _ (store_eq _ _)).
    rewrite (with_with (t ++ nc :: rest)), stored_look by auto. rewrite IH. f_equal; [cbn [length]; lia|]. by rewrite <- !stored_look, stored_app.
  - cbn [scanf_loop app]. change (isspace (i8 37)) with false. cbn [Z.eqb Pos.eqb orb]. rewrite (bind_eq _ _ _ _ _ (get_eq _)). cbn [look ra with_ra].
    rewrite u8_i8 by done. rewrite (bind_eq _ _ _ _ _ (store_eq _ _)). change (with_ra (i8 c) (t ++ nc :: rest) s) with (look (c :: t ++ nc :: rest) s). rewrite stored_look.
    rewrite (bind_eq _ _ _ _ _ (next_look c (t ++ nc :: rest) _ ltac:(auto))). cbn [negb]. rewrite IH. f_equal; [cbn [length]; lia|]. by rewrite <- !stored_look, stored_app.
Qed.
Lemma render_text str nc f v t o : prints_and_reads str nc f v t o -> render false str f v = Some t.
Proof.
  assert (forall x, 0 <= x < 2 ^ 31 -> va_int x = x) as Hint by (intros x Hx; apply i32_small; lia).
  induction 1 as [|c f v t o _ _ Hp _ IH|c f v t o Hb Hs _ _ IH|f v t o _ IH|x f v t o Hx _ _ IH|x f v t o Hx _ _ IH|p l f v t o Hp Hstr _ _ _ _ IH|c f v t o Hc _ IH]; cbn [render].
  - done.
  - by rewrite (proj2 (Z.eqb_neq c 37) Hp), IH.
  - destruct (Z.eqb_spec c 37) as [->|]; [done|]. by rewrite IH.
  - cbn [Z.eqb Pos.eqb andb]. by rewrite IH.
  - cbn [Z.eqb Pos.eqb]. cbn [mbind option_bind]. by rewrite IH, Hint.
  - cbn [Z.eqb Pos.eqb]. cbn [mbind option_bind]. by rewrite IH, Hint.
  - cbn [Z.eqb Pos.eqb andb]. rewrite (proj2 (Z.eqb_neq p 0) Hp), Hstr. cbn [mbind option_bind]. by rewrite IH.
  - cbn [Z.eqb Pos.eqb andb]. cbn [mbind option_bind]. rewrite IH. assert (u8 c = c) as ->; [|done]. destruct Hc. unfold u8, wrap. apply Z.mod_small. change (2 ^ 8) with 256. lia.
Qed.

(** C32: [scanf] on what [printf] printed for the same format stores the arguments,
    counts them and stops behind the text, looking at the next character.  That is so
    for the formats and arguments of [prints_and_reads]: the numbers of %d and %x are at
    least 0 and below 2^31, the strings of %s are not empty and contain no blank, and
    every field and blank is followed by something that ends it.  Negative numbers are not read
    back ([no_sign]). *)
Theorem scanf_reads_printf (str : Z -> option (list Z)) (nc : Z) (fmt args text rest : list Z) (outs : list out) (s : scan)
  (Hfmt : prints_and_reads str nc fmt args text outs) (Hnc : byte nc)
  (Hstart : ra s = 0 /\ inp s = text ++ nc :: rest \/ ra s <> 0 /\ s = look (text ++ nc :: rest) s) :
  render false str fmt args = Some text /\
  exists s', scanf fmt s = Done (Z.of_nat (length outs)) s' /\ vals s' = vals s ++ outs /\ ra s' = i8 nc /\ inp s' = rest.
Proof.
  split; [by eapply render_text|]. exists (stored outs (look (nc :: rest) s)). split; [|done]. unfold scanf. rewrite (bind_eq _ _ _ _ _ (get_eq s)).
  destruct Hstart as [[H0 Hi]|[Hne Hs]].
  - rewrite H0. change (0 =? 0) with true. cbv iota. assert (next_char s = Done true (look (text ++ nc :: rest) s)) as Hn.
    { unfold next_char. rewrite (bind_eq _ _ _ _ _ (get_eq s)), Hi. destruct text; done. }
    rewrite (bind_eq _ _ _ _ _ Hn). cbn [negb]. by rewrite (scanf_loop_reads str nc rest fmt args text outs Hnc Hfmt).
  - rewrite (proj2 (Z.eqb_neq _ 0) Hne). pose proof (scanf_loop_reads str nc rest fmt args text outs Hnc Hfmt s 0) as E. by rewrite <- Hs in E.
Qed.
(** "%d, %s" on 42 and the string "ab", with a newline behind. *)
Lemma scanf_reads_printf_witness : byte 10 /\
  exists s', scanf [37; 100; 44; 32; 37; 115] (mkScan 0 [52; 50; 44; 32; 97; 98; 10; 120] 0 0 []) = Done 2 s' /\ vals s' = [Num 42; Str [97; 98]].
Proof.
  split; [done|]. assert (prints_and_reads ex_str 10 [37; 100; 44; 32; 37; 115] [42; 10] [52; 50; 44; 32; 97; 98] [Num 42; Str [97; 98]]) as H.
  { change [52; 50; 44; 32; 97; 98] with (number_text 42 10 0 true ++ [44; 32; 97; 98]). constructor; [done|by repeat split|].
    constructor; [done|done|done|]. constructor; [done|done|done|]. change [97; 98] with ([97; 98] ++ []) at 1. constructor; try done; [|constructor].
    repeat constructor. }
  destruct (scanf_reads_printf ex_str 10 _ _ _ [120] _ (mkScan 0 [52; 50; 44; 32; 97; 98; 10; 120] 0 0 []) H) as (_ & s' & H1 & H2 & _); [done|left; done|].
  exists s'. split; [exact H1|exact H2].
Defined.

(** ** What goes wrong *)
Definition on (l : list Z) : scan := mkScan 0 l 0 0 [].
(** No digit at all counts as a number, 0. *)
Example no_digits : match scanf [37; 100] (on [97; 10]) with Done n s => (n, vals s) = (1, [Num 0]) | _ => False end.
Proof. reflexivity. Qed.
(** A minus sign is not read: what [printf] prints for a negative number is 0. *)
Example no_sign : match scanf [37; 100] (on [45; 53; 10]) with Done n s => (n, vals s) = (1, [Num 0]) | _ => False end.
Proof. reflexivity. Qed.
(** At the end of the file [errq] forgets what was read before. *)
Example lost_count : match scanf [37; 100; 44] (on [53; 44]) with Done n s => (n, vals s) = (0, [Num 5]) | _ => False end.
Proof. reflexivity. Qed.
(** The letter behind a hexadecimal number is changed to a lower case one. *)
Example lower_case : match scanf [37; 120; 90] (on [49; 90; 10]) with Done n s => (n, ra s) = (1, 122) | _ => False end.
Proof. reflexivity. Qed.
(** [0] at the end of the file is not a hexadecimal number. *)
Example zero_at_end : match scanf [37; 120] (on [48]) with Done n s => n = 0 | _ => False end.
Proof. reflexivity. Qed.
