(* ===== verification/Env.v ===== *)
(** The environment of a program: [libc/env.c].

    [strs] are the strings in memory by their addresses, [slots] the words of the
    array that [environ] points to, [fresh] the addresses that [malloc] and [strdup] are going to
    return.  [strdup] and [free] of the name in [putenv] cancel out and are left out. *)
From S2P Require Import Prelude CString.

Record env := mkEnv { strs : gmap Z (list Z); slots : list Z; env_size : Z; nenv : Z; env_inited : bool; fresh : list Z }.
Definition EQ : Z := 61.
Definition string_of (a : Z) : M env (list Z) := s ← get; deref (strs s !! a).
Definition strdup_ (a : Z) : M env Z :=
  l ← string_of a; s ← get;
  match fresh s with [] => fault | b :: r => put (mkEnv (<[b := l]> (strs s)) (slots s) (env_size s) (nenv s) (env_inited s) r);; mret b end.
Fixpoint dup_all (l : list Z) : M env (list Z) := match l with [] => mret [] | a :: l => b ← strdup_ a; r ← dup_all l; mret (b :: r) end.
(** [while ( *tmp++) n++;] *)
Fixpoint count_slots (l : list Z) : option nat := match l with [] => None | a :: l => if a =? 0 then Some O else n ← count_slots l; Some (S n) end.
Definition env_init : M env () :=
  s ← get;
  n ← deref (count_slots (slots s));
  l ← dup_all (take n (slots s));
  modify (fun s => mkEnv (strs s) (l ++ [0]) (Z.of_nat n + 1) (Z.of_nat n) true (fresh s)).

(** [strncmp( *tmp, name, len) == 0] and [( *tmp)[len] == '=']. *)
Definition is_var (name e : list Z) : bool := bool_decide (take (length name) e = name) && bool_decide (e !! length name = Some EQ).
Fixpoint getenv_loop (name l : list Z) : M env (option Z) :=
  match l with
  | [] => fault
  | a :: l =>
      if a =? 0 then mret None
      else e ← string_of a; if is_var name e then mret (Some (a + Z.of_nat (length name) + 1)) else getenv_loop name l
  end.
Definition init_once : M env () := s ← get; if env_inited s then mret () else env_init.
(** The address of the value. *)
Definition getenv (name : list Z) : M env (option Z) := init_once;; s ← get; getenv_loop name (slots s).

Fixpoint name_part (l : list Z) : option (list Z) := match l with [] => None | c :: l => if c =? EQ then Some [] else r ← name_part l; Some (c :: r) end.
(** The place of [old]; NULL ends the search. *)
Fixpoint find_slot (old : Z) (l : list Z) : option (option nat) :=
  match l with [] => None | a :: l => if a =? 0 then Some None else if a =? old then Some (Some O) else match find_slot old l with Some r => Some (S <$> r) | None => None end end.
Definition put_environ (i p : Z) : M env () :=
  s ← get;
  if (0 <=? i) && (i <? Z.of_nat (length (slots s))) then put (mkEnv (strs s) (<[Z.to_nat i := p]> (slots s)) (env_size s) (nenv s) (env_inited s) (fresh s)) else fault.
Definition free_string (a : Z) : M env () := modify (fun s => mkEnv (delete a (strs s)) (slots s) (env_size s) (nenv s) (env_inited s) (fresh s)).
Definition grow : M env () :=
  modify (fun s => mkEnv (strs s) (take (Z.to_nat (nenv s)) (slots s) ++ replicate (Z.to_nat (env_size s * 2 - nenv s)) 0) (env_size s * 2) (nenv s) (env_inited s) (fresh s)).
Definition putenv (p : Z) : M env Z :=
  init_once;;
  tp ← string_of p;
  name ← deref (name_part tp);
  r ← getenv name;
  let old := match r with Some a => a | None => 0 end - (Z.of_nat (length name) + 1) in
  s ← get;
  i ← deref (find_slot old (slots s));
  match i with
  | Some i => free_string old;; put_environ (Z.of_nat i) p;; mret 0
  | None =>
      (if env_size s <? nenv s + 2 then grow else mret ());;
      put_environ (nenv s) p;;
      modify (fun s => mkEnv (strs s) (slots s) (env_size s) (nenv s + 1) (env_inited s) (fresh s));;
      mret 0
  end.

(** ** Variables *)
(** The value of a variable in a list of strings. *)
Fixpoint var (es : list (list Z)) (name : list Z) : option (list Z) :=
  match es with [] => None | e :: es => if is_var name e then Some (drop (S (length name)) e) else var es name end.
Definition strings_of (m : gmap Z (list Z)) (addrs : list Z) (es : list (list Z)) : Prop := Forall2 (fun a e => 0 < a /\ m !! a = Some e) addrs es.
(** The array of [env_init]: the strings, and NULL in the rest. *)
Definition env_ok (s : env) (addrs : list Z) (es : list (list Z)) : Prop :=
  env_inited s = true /\ nenv s = Z.of_nat (length addrs) /\ env_size s = Z.of_nat (length (slots s)) /\ NoDup addrs /\
  strings_of (strs s) addrs es /\ exists k, slots s = addrs ++ 0 :: replicate k 0.
(** The array of the start of the program, with room for copies. *)
Definition env_raw (s : env) (es : list (list Z)) : Prop :=
  env_inited s = false /\ exists addrs l r1 r2, slots s = addrs ++ 0 :: l /\ strings_of (strs s) addrs es /\ fresh s = r1 ++ r2 /\ length r1 = length addrs /\
    NoDup r1 /\ Forall (fun b => 0 < b /\ strs s !! b = None) r1.

Lemma is_var_iff name e : EQ ∉ name -> is_var name e = true <-> exists v, e = name ++ EQ :: v.
Proof.
  intros Hn. unfold is_var. rewrite andb_true_iff, !bool_decide_eq_true. split.
  - intros [H1 H2]. exists (drop (S (length name)) e). rewrite <- (drop_S _ _ _ H2). rewrite <- H1 at 1. by rewrite take_drop.
  - intros [v ->]. by rewrite take_app_length, list_lookup_middle.
Qed.
Lemma eq_unique n1 n2 v1 v2 : EQ ∉ n1 -> EQ ∉ n2 -> n1 ++ EQ :: v1 = n2 ++ EQ :: v2 -> n1 = n2 /\ v1 = v2.
Proof.
  revert n2. induction n1 as [|c n1 IH]; intros [|c' n2] H1 H2 E; cbn in E.
  - by injection E as ->.
  - injection E as E1 E2. exfalso. apply H2. rewrite <- E1. left.
  - injection E as E1 E2. exfalso. apply H1. rewrite E1. left.
  - injection E as -> E. apply not_elem_of_cons in H1 as [_ H1], H2 as [_ H2]. destruct (IH n2 H1 H2 E) as [-> ->]. done.
Qed.
(** A string is the setting of one variable. *)
Lemma is_var_other x name v : EQ ∉ x -> EQ ∉ name -> x <> name -> is_var x (name ++ EQ :: v) = false.
Proof. intros Hx Hn Hne. apply not_true_is_false. intros [w E]%is_var_iff; [|done]. by apply eq_unique in E as [? _]. Qed.
Lemma is_var_self name v : EQ ∉ name -> is_var name (name ++ EQ :: v) = true.
Proof. intros H. apply is_var_iff; [done|by eexists]. Qed.
Lemma drop_value name v : drop (S (length name)) (name ++ EQ :: v) = v.
Proof. by induction name. Qed.
Lemma var_skip es1 es2 x : var es1 x = None -> var (es1 ++ es2) x = var es2 x.
Proof. induction es1 as [|e es1 IH]; [done|]. cbn. by destruct (is_var x e). Qed.
Lemma var_app es e x : var (es ++ [e]) x = match var es x with Some v => Some v | None => if is_var x e then Some (drop (S (length x)) e) else None end.
Proof. induction es as [|e0 es IH]; [done|]. cbn. by destruct (is_var x e0). Qed.
Lemma var_replace es1 e0 e es2 x name v v0 : EQ ∉ name -> EQ ∉ x -> e0 = name ++ EQ :: v0 -> e = name ++ EQ :: v -> var es1 name = None ->
  var (es1 ++ e :: es2) x = if decide (x = name) then Some v else var (es1 ++ e0 :: es2) x.
Proof.
  intros Hn Hx -> -> H. induction es1 as [|e1 es1 IH]; cbn in *.
  - destruct (decide (x = name)) as [->|]; [|by rewrite !is_var_other]. rewrite is_var_self by done. f_equal.
    apply drop_value.
  - destruct (is_var x e1) eqn:Ex; [|destruct (is_var name e1); [done|by apply IH]]. destruct (decide (x = name)) as [->|]; [|done]. by rewrite Ex in H.
Qed.

(** ** The operations *)
Lemma string_of_eq s a e : strs s !! a = Some e -> string_of a s = Done e s.
Proof. intros H. unfold string_of. rewrite (bind_eq _ _ _ _ _ (get_eq s)). by apply deref_eq. Qed.
Lemma strings_lookup m addrs es i a : strings_of m addrs es -> addrs !! i = Some a -> exists e, es !! i = Some e /\ 0 < a /\ m !! a = Some e.
Proof. intros H Hi. destruct (Forall2_lookup_l _ _ _ _ _ H Hi) as (e & He & H0 & Hm). by exists e. Qed.

(** The first string that sets the variable, by its place. *)
Definition first_var (es : list (list Z)) (name : list Z) (i : nat) (e : list Z) : Prop := es !! i = Some e /\ is_var name e = true /\ var (take i es) name = None.
Lemma getenv_loop_ok s name l es : forall addrs, strings_of (strs s) addrs es ->
  (getenv_loop name (addrs ++ 0 :: l) s = Done None s /\ var es name = None) \/
  exists i a e, getenv_loop name (addrs ++ 0 :: l) s = Done (Some (a + Z.of_nat (length name) + 1)) s /\ addrs !! i = Some a /\ first_var es name i e.
Proof.
  induction es as [|e es IH]; intros addrs H; inversion H as [|a ? addrs' ? [Ha Hs] Hr]; subst; [by left|].
  cbn [app getenv_loop var]. rewrite (proj2 (Z.eqb_neq a 0)), (bind_eq _ _ _ _ _ (string_of_eq _ _ _ Hs)) by lia. destruct (is_var name e) eqn:Ev.
  - right. by exists 0%nat, a, e.
  - destruct (IH addrs' Hr) as [[E V]|(i & a' & e' & E & Hi & H1 & H2 & H3)]; [by left|right]. exists (S i), a', e'. split_and!; [done|done|]. split_and!; [done|done|]. cbn. by rewrite Ev.
Qed.
Lemma name_part_app name v : EQ ∉ name -> name_part (name ++ EQ :: v) = Some name.
Proof.
  induction name as [|c name IH]; intros H; [done|]. apply not_elem_of_cons in H as [Hc H]. cbn [app name_part]. rewrite (proj2 (Z.eqb_neq c EQ)) by congruence. by rewrite IH.
Qed.
Lemma find_slot_at addrs l i a : NoDup addrs -> Forall (fun a => 0 < a) addrs -> addrs !! i = Some a -> find_slot a (addrs ++ 0 :: l) = Some (Some i).
Proof.
  revert i. induction addrs as [|b addrs IH]; intros i Hn Hp Hi; [done|]. apply NoDup_cons in Hn as [Hb Hn]. apply Forall_cons_1 in Hp as [Hb0 Hp].
  cbn [app find_slot]. rewrite (proj2 (Z.eqb_neq b 0)) by lia. destruct i as [|i]; cbn in Hi.
  - injection Hi as ->. by rewrite Z.eqb_refl.
  - rewrite (proj2 (Z.eqb_neq b a)); [by rewrite (IH i)|]. intros ->. apply Hb. by eapply list_elem_of_lookup_2.
Qed.
Lemma find_slot_not addrs l a : a ∉ addrs -> Forall (fun a => 0 < a) addrs -> find_slot a (addrs ++ 0 :: l) = Some None.
Proof.
  induction addrs as [|b addrs IH]; intros Hn Hp; [done|]. apply not_elem_of_cons in Hn as [Hb Hn]. apply Forall_cons_1 in Hp as [Hb0 Hp].
  cbn [app find_slot]. by rewrite (proj2 (Z.eqb_neq b 0)), (proj2 (Z.eqb_neq b a)), IH by (done || lia || congruence).
Qed.
Lemma strings_pos m addrs es : strings_of m addrs es -> Forall (fun a => 0 < a) addrs.
Proof. intros H. eapply Forall2_Forall_l; [exact H|]. apply Forall_true. by intros e a [? _]. Qed.

(** [env_init] *)
Lemma count_slots_app addrs l : Forall (fun a => 0 < a) addrs -> count_slots (addrs ++ 0 :: l) = Some (length addrs).
Proof. induction 1 as [|a addrs Ha _ IH]; [done|]. cbn [app count_slots length]. by rewrite (proj2 (Z.eqb_neq a 0)), IH by lia. Qed.
Lemma dup_all_ok addrs : forall s es r1 r2, strings_of (strs s) addrs es -> fresh s = r1 ++ r2 -> length r1 = length addrs -> NoDup r1 ->
  Forall (fun b => 0 < b /\ strs s !! b = None) r1 ->
  exists m, dup_all addrs s = Done r1 (mkEnv m (slots s) (env_size s) (nenv s) (env_inited s) r2) /\ strings_of m r1 es /\
    forall a e, strs s !! a = Some e -> m !! a = Some e.
Proof.
  induction addrs as [|a addrs IH]; intros s es r1 r2 Hs Hf Hl Hn Hr; inversion Hs as [|? e ? es' [Ha He] Hs']; subst.
  { destruct r1; [|done]. exists (strs s). split_and!; [destruct s; cbn in *; by subst|constructor|done]. }
  destruct r1 as [|b r1]; [done|]. apply NoDup_cons in Hn as [Hb Hn]. apply Forall_cons_1 in Hr as [[Hb0 Hbn] Hr]. cbn in Hl, Hf.
  set (s1 := mkEnv (<[b := e]> (strs s)) (slots s) (env_size s) (nenv s) (env_inited s) (r1 ++ r2)).
  assert (strdup_ a s = Done b s1) as Hd.
  { unfold strdup_. rewrite (bind_eq _ _ _ _ _ (string_of_eq _ _ _ He)), (bind_eq _ _ _ _ _ (get_eq s)), Hf. done. }
  destruct (IH s1 es' r1 r2) as (m & E & Hm & Hk); [|done|lia|done| |].
  - eapply Forall2_impl; [exact Hs'|]. intros a' e' [H1 H2]. split; [done|]. cbn. rewrite lookup_insert_ne; [done|]. intros ->. congruence.
  - apply Forall_forall. intros b' Hb'. rewrite Forall_forall in Hr. destruct (Hr b' Hb'). split; [done|]. cbn. rewrite lookup_insert_ne; [done|]. by intros ->.
  - exists m. cbn [dup_all]. rewrite (bind_eq _ _ _ _ _ Hd), (bind_eq _ _ _ _ _ E). split_and!; [done| |].
    + constructor; [|done]. split; [done|]. apply Hk. cbn. by rewrite lookup_insert_eq.
    + intros a' e' H'. apply Hk. cbn. rewrite lookup_insert_ne; [done|]. intros ->. congruence.
Qed.
(** The strings of the environment, before and after [env_init]. *)
Definition env_is (s : env) (es : list (list Z)) : Prop := (exists addrs, env_ok s addrs es) \/ env_raw s es.
Lemma init_once_ok s es : env_is s es -> exists addrs s', init_once s = Done () s' /\ env_ok s' addrs es /\ (env_inited s = true -> s' = s) /\
  forall p e, strs s !! p = Some e -> strs s' !! p = Some e /\ (env_inited s = false -> p ∉ addrs).
Proof.
  intros [[addrs H]|(Hi & addrs & l & r1 & r2 & Hs & Hst & Hf & Hl & Hn & Hr)].
  - pose proof H as (Hi & _). exists addrs, s. unfold init_once. rewrite (bind_eq _ _ _ _ _ (get_eq s)), Hi. split_and!; [done..|]. intros p e Hp. by split.
  - destruct (dup_all_ok addrs s es r1 r2 Hst Hf Hl Hn Hr) as (m & E & Hm & Hk). exists r1.
    exists (mkEnv m (r1 ++ [0]) (Z.of_nat (length addrs) + 1) (Z.of_nat (length addrs)) true r2).
    unfold init_once, env_init. rewrite (bind_eq _ _ _ _ _ (get_eq s)), Hi, (bind_eq _ _ _ _ _ (get_eq s)), Hs.
    rewrite (bind_eq _ _ _ _ _ (deref_eq _ _ s (count_slots_app addrs l (strings_pos _ _ _ Hst)))), take_app_length, (bind_eq _ _ _ _ _ E). split_and!; [done| |done|].
    + unfold env_ok. cbn. rewrite length_app. cbn [length]. split_and!; [done|lia|lia|done|done|by exists 0%nat].
    + intros p e Hp. split; [by apply Hk|]. intros _ Hin. rewrite Forall_forall in Hr. destruct (Hr p Hin). congruence.
Qed.

Lemma put_environ_eq s i p : (i < length (slots s))%nat -> put_environ (Z.of_nat i) p s = Done () (mkEnv (strs s) (<[i := p]> (slots s)) (env_size s) (nenv s) (env_inited s) (fresh s)).
Proof.
  intros H. unfold put_environ. rewrite (bind_eq _ _ _ _ _ (get_eq s)), (proj2 (Z.leb_le 0 _)), (proj2 (Z.ltb_lt _ _)) by lia. cbn [andb]. by rewrite Nat2Z.id.
Qed.
(** The two ends of [putenv]. *)
Lemma put_replace s addrs es p name v i a e : env_ok s addrs es -> EQ ∉ name -> strs s !! p = Some (name ++ EQ :: v) -> 0 < p -> p ∉ addrs ->
  addrs !! i = Some a -> first_var es name i e ->
  exists s' es', (free_string a;; put_environ (Z.of_nat i) p;; mret 0) s = Done 0 s' /\ env_ok s' (<[i := p]> addrs) es' /\
    forall x, EQ ∉ x -> var es' x = if decide (x = name) then Some v else var es x.
Proof.
  intros (H1 & H2 & H3 & H4 & H5 & k & H6) Hn Hp Hp0 Hpa Hi (He & Hv & Hno). pose proof (lookup_lt_Some _ _ _ Hi) as Hlt.
  exists (mkEnv (delete a (strs s)) (<[i := p]> (slots s)) (env_size s) (nenv s) (env_inited s) (fresh s)), (<[i := name ++ EQ :: v]> es). split_and!.
  - unfold free_string. rewrite (bind_eq _ _ _ _ _ (modify_eq _ s)). set (s1 := mkEnv (delete a (strs s)) (slots s) _ _ _ _).
    assert (i < length (slots s1))%nat as Hs1 by (cbn; rewrite H6, length_app; lia). by rewrite (bind_eq _ _ _ _ _ (put_environ_eq s1 i p Hs1)).
  - unfold env_ok. cbn. rewrite !length_insert. split_and!; try done.
    + apply NoDup_alt. intros j1 j2 b. rewrite !list_lookup_insert. repeat case_decide; intros; simplify_eq; try lia; try (exfalso; apply Hpa; by eapply list_elem_of_lookup_2).
      eapply NoDup_lookup; [exact H4|done..].
    + pose proof (Forall2_length _ _ _ H5). apply Forall2_same_length_lookup. split; [by rewrite !length_insert|]. intros j b e'.
      rewrite !list_lookup_insert. repeat case_decide; intros; simplify_eq; try lia.
      * split; [done|]. rewrite lookup_delete_ne; [done|]. intros <-. apply Hpa. by eapply list_elem_of_lookup_2.
      * destruct (strings_lookup _ _ _ j b H5) as (e'' & ? & ? & ?); [done|]. simplify_eq. split; [done|]. rewrite lookup_delete_ne; [done|]. intros <-.
        assert (j = i) by (eapply NoDup_lookup; done). lia.
    + exists k. rewrite H6. by rewrite insert_app_l.
  - intros x Hx. apply is_var_iff in Hv as [v0 Hv]; [|done]. pose proof (lookup_lt_Some _ _ _ He) as Hle. rewrite insert_take_drop by done.
    replace (var es x) with (var (take i es ++ e :: drop (S i) es) x) by (by rewrite take_drop_middle). by eapply var_replace.
Qed.
Lemma put_append s addrs es p name v : env_ok s addrs es -> EQ ∉ name -> strs s !! p = Some (name ++ EQ :: v) -> 0 < p -> p ∉ addrs -> var es name = None ->
  exists s', ((if env_size s <? nenv s + 2 then grow else mret ());; put_environ (nenv s) p;;
      modify (fun s => mkEnv (strs s) (slots s) (env_size s) (nenv s + 1) (env_inited s) (fresh s));; mret 0) s = Done 0 s' /\ env_ok s' (addrs ++ [p]) (es ++ [name ++ EQ :: v]).
Proof.
  intros (H1 & H2 & H3 & H4 & H5 & k & H6) Hn Hp Hp0 Hpa Hno.
  assert (exists s1 k', (if env_size s <? nenv s + 2 then grow else mret ()) s = Done () s1 /\ strs s1 = strs s /\ slots s1 = addrs ++ 0 :: 0 :: replicate k' 0 /\
    env_size s1 = Z.of_nat (length (slots s1)) /\ nenv s1 = nenv s /\ env_inited s1 = true) as (s1 & k' & E0 & E1 & E2 & E3 & E4 & E5).
  { rewrite H6, length_app in H3. cbn [length] in H3. rewrite length_replicate in H3. destruct k as [|k].
    - rewrite (proj2 (Z.ltb_lt _ _)) by (cbn in H3; lia). eexists _, (length addrs). unfold grow. rewrite modify_eq. split; [done|]. cbn. rewrite H6, H2.
      replace (Z.to_nat (env_size s * 2 - Z.of_nat (length addrs))) with (S (S (length addrs))) by (cbn in H3; lia). rewrite Nat2Z.id, take_app_length. split_and!; try done.
      rewrite length_app. cbn [length replicate]. rewrite length_replicate. cbn in H3. lia.
    - rewrite (proj2 (Z.ltb_ge _ _)) by lia. exists s, k. split_and!; try done. rewrite H6, length_app. cbn [length]. rewrite length_replicate. lia. }
  rewrite (bind_eq _ _ _ _ _ E0), H2. assert (length addrs < length (slots s1))%nat as Hl by (rewrite E2, length_app; cbn [length]; lia).
  rewrite (bind_eq _ _ _ _ _ (put_environ_eq s1 _ p Hl)), (bind_eq _ _ _ _ _ (modify_eq _ _)). eexists. split; [reflexivity|].
  unfold env_ok. cbn. rewrite length_insert, length_app, E4, H2. cbn [length]. split_and!; [done|lia|done| | |].
  - apply NoDup_app. split_and!; [done| |apply NoDup_singleton]. intros b Hb ->%list_elem_of_singleton. done.
  - rewrite E1. apply Forall2_app; [done|]. by repeat constructor.
  - exists k'. rewrite E2, insert_app_r_alt, Nat.sub_diag by lia. cbn. by rewrite <- app_assoc.
Qed.

(** C33: [putenv] sets one variable and changes no other one, whether it was set before or
    not and whether the array is full or not; [getenv] finds its value. *)
Theorem putenv_getenv (s : env) (es : list (list Z)) (p : Z) (name v : list Z) (Henv : env_is s es) (Hname : EQ ∉ name) (Hp : strs s !! p = Some (name ++ EQ :: v) /\ 0 < p)
  (Hnew : env_inited s = true -> p ∉ slots s) :
  exists s' es', putenv p s = Done 0 s' /\ env_is s' es' /\ (forall x, EQ ∉ x -> var es' x = if decide (x = name) then Some v else var es x) /\
    exists a, getenv name s' = Done (Some (a + Z.of_nat (length name) + 1)) s' /\ strs s' !! a = Some (name ++ EQ :: v).
Proof.
  destruct Hp as [Hp Hp0]. destruct (init_once_ok s es Henv) as (addrs & s1 & Hinit & Hok & Hsame & Hkeep). destruct (Hkeep _ _ Hp) as [Hp1 Hfresh].
  assert (p ∉ addrs) as Hpa.
  { destruct (env_inited s) eqn:Hi; [|by apply Hfresh]. rewrite (Hsame eq_refl) in Hok. destruct Hok as (_ & _ & _ & _ & _ & k & Hs). rewrite Hs in Hnew. intros H. apply Hnew; [done|]. apply elem_of_app. by left. }
  pose proof Hok as (I1 & I2 & I3 & I4 & I5 & k & I6). pose proof (strings_pos _ _ _ I5) as Hpos.
  assert (forall s, env_inited s = true -> init_once s = Done () s) as Hio by (intros s0 H0; unfold init_once; by rewrite (bind_eq _ _ _ _ _ (get_eq s0)), H0).
  assert (exists s' addrs' es', putenv p s = Done 0 s' /\ env_ok s' addrs' es' /\ forall x, EQ ∉ x -> var es' x = if decide (x = name) then Some v else var es x)
    as (s' & addrs' & es' & E & Hok' & Hvar).
  { unfold putenv, getenv. rewrite (bind_eq _ _ _ _ _ Hinit), (bind_eq _ _ _ _ _ (string_of_eq _ _ _ Hp1)), (bind_eq _ _ _ _ _ (deref_eq _ _ s1 (name_part_app name v Hname))).
    destruct (getenv_loop_ok s1 name (replicate k 0) es addrs I5) as [[Hg Hno]|(i & a & e & Hg & Hi & Hf)]; rewrite <- I6 in Hg.
    - assert ((init_once;; s ← get; getenv_loop name (slots s)) s1 = Done None s1) as Hget by (by rewrite (bind_eq _ _ _ _ _ (Hio s1 I1)), (bind_eq _ _ _ _ _ (get_eq s1))).
      rewrite (bind_eq _ _ _ _ _ Hget), (bind_eq _ _ _ _ _ (get_eq s1)), I6.
      assert (0 - (Z.of_nat (length name) + 1) ∉ addrs) as Hnot by (intros H; rewrite Forall_forall in Hpos; specialize (Hpos _ H); lia).
      rewrite (bind_eq _ _ _ _ _ (deref_eq _ _ s1 (find_slot_not addrs (replicate k 0) _ Hnot Hpos))).
      destruct (put_append s1 addrs es p name v Hok Hname Hp1 Hp0 Hpa Hno) as (s' & E & Hok'). exists s', (addrs ++ [p]), (es ++ [name ++ EQ :: v]). split_and!; [done|done|].
      intros x Hx. rewrite var_app. destruct (decide (x = name)) as [->|Hne].
      + rewrite Hno, is_var_self by done. f_equal. apply drop_value.
      + rewrite is_var_other by done. by destruct (var es x).
    - assert ((init_once;; s ← get; getenv_loop name (slots s)) s1 = Done (Some (a + Z.of_nat (length name) + 1)) s1) as Hget by (by rewrite (bind_eq _ _ _ _ _ (Hio s1 I1)), (bind_eq _ _ _ _ _ (get_eq s1))).
      rewrite (bind_eq _ _ _ _ _ Hget), (bind_eq _ _ _ _ _ (get_eq s1)), I6. replace (a + Z.of_nat (length name) + 1 - (Z.of_nat (length name) + 1)) with a by lia.
      rewrite (bind_eq _ _ _ _ _ (deref_eq _ _ s1 (find_slot_at addrs (replicate k 0) i a I4 Hpos Hi))).
      destruct (put_replace s1 addrs es p name v i a e Hok Hname Hp1 Hp0 Hpa Hi Hf) as (s' & es' & E & Hok' & Hvar). by exists s', (<[i := p]> addrs), es'. }
  exists s', es'. split_and!; [done|left; by exists addrs'|done|]. pose proof Hok' as (J1 & _ & _ & _ & J5 & k' & J6). unfold getenv. rewrite (bind_eq _ _ _ _ _ (Hio s' J1)), (bind_eq _ _ _ _ _ (get_eq s')), J6.
  destruct (getenv_loop_ok s' name (replicate k' 0) es' addrs' J5) as [[_ Hno]|(i & a & e & -> & Hi & He & Hv & Hpre)].
  { rewrite (Hvar name Hname), decide_True in Hno by done. done. }
  exists a. split; [done|]. destruct (strings_lookup _ _ _ i a J5 Hi) as (e' & He' & _ & ->). replace e' with e by congruence. clear e' He'.
  pose proof (Hvar name Hname) as Hval. rewrite decide_True in Hval by done. rewrite <- (take_drop_middle es' i e He), var_skip in Hval by done.
  cbn [var] in Hval. rewrite Hv in Hval. apply is_var_iff in Hv as [w ->]; [|done]. rewrite drop_value in Hval. congruence.
Qed.
(** A program that starts with "A=1" sets A to 2 and B to 3. *)
Definition start_env : env := mkEnv {[ 100 := [65; 61; 49]; 200 := [65; 61; 50]; 300 := [66; 61; 51] ]} [100; 0] 0 (-1) false [500; 600].
Lemma putenv_getenv_witness : env_is start_env [[65; 61; 49]] /\ exists s', putenv 300 start_env = Done 0 s' /\ exists a, getenv [66] s' = Done (Some (a + 2)) s' /\ strs s' !! a = Some [66; 61; 51].
Proof.
  assert (env_is start_env [[65; 61; 49]]) as H.
  { right. split; [done|]. exists [100], [], [500], [600]. split_and!; try done; [by repeat constructor|apply NoDup_singleton|by repeat constructor]. }
  split; [exact H|]. assert (EQ ∉ [66]) as Hn by (by intros ?%list_elem_of_singleton).
  destruct (putenv_getenv start_env [[65; 61; 49]] 300 [66] [51] H Hn) as (s' & es' & H1 & _ & _ & a & H2 & H3); [split; [reflexivity|done]|done|].
  exists s'. split; [exact H1|]. exists a. split; [rewrite H2; do 2 f_equal; cbn; lia|exact H3].
Defined.
Example set_twice : match (putenv 200;; putenv 300;; getenv [65]) start_env with Done r s => (r, slots s) = (Some 202, [200; 300; 0; 0]) | _ => False end.
Proof. reflexivity. Qed.
(** A string without an equals sign writes to NULL. *)
Example no_equals : putenv 400 (mkEnv {[ 400 := [65] ]} [0] 1 0 true []) = Faulted.
Proof. reflexivity. Qed.
