(* ===== verification/BitField.v ===== *)
(** Bit fields of structures: reading field [lo, lo+n) of a number and replacing it. *)
From S2P Require Import Prelude.

(** A field of [n] bits from bit [lo] on. *)
Definition get_bits (lo n x : Z) : Z := Z.land (Z.shiftr x lo) (Z.ones n).
Definition set_bits (lo n x v : Z) : Z :=
  Z.lor (Z.land x (Z.lnot (Z.shiftl (Z.ones n) lo))) (Z.shiftl (Z.land v (Z.ones n)) lo).

Lemma get_bits_testbit lo n x i : 0 <= lo -> 0 <= n -> 0 <= i -> Z.testbit (get_bits lo n x) i = (i <? n) && Z.testbit x (i + lo).
Proof.
  intros Hl Hn Hi. unfold get_bits. rewrite Z.land_spec, Z.shiftr_spec, Z.testbit_ones_nonneg by done. by rewrite andb_comm.
Qed.
Lemma set_bits_testbit lo n x v i : 0 <= lo -> 0 <= n -> 0 <= i ->
  Z.testbit (set_bits lo n x v) i = if (lo <=? i) && (i <? lo + n) then Z.testbit v (i - lo) else Z.testbit x i.
Proof.
  intros Hl Hn Hi. unfold set_bits. rewrite Z.lor_spec, Z.land_spec, Z.lnot_spec, !Z.shiftl_spec by done.
  destruct (Z.leb_spec lo i); [|rewrite !(Z.testbit_neg_r _ (i - lo)) by lia; cbn; by rewrite andb_true_r, orb_false_r].
  rewrite Z.land_spec, !Z.testbit_ones_nonneg by lia.
  destruct (Z.ltb_spec (i - lo) n), (Z.ltb_spec i (lo + n)); try lia; cbn.
  - by rewrite andb_false_r, andb_true_r.
  - by rewrite andb_true_r, andb_false_r, orb_false_r.
Qed.
Lemma get_set_bits lo n x v : 0 <= lo -> 0 <= n -> get_bits lo n (set_bits lo n x v) = v mod 2 ^ n.
Proof.
  intros Hl Hn. apply Z.bits_inj'. intros i Hi. rewrite get_bits_testbit, set_bits_testbit by lia.
  rewrite Z.testbit_mod_pow2 by done. destruct (Z.ltb_spec i n); [|done]. cbn.
  destruct (Z.leb_spec lo (i + lo)), (Z.ltb_spec (i + lo) (lo + n)); try lia. cbn. f_equal. lia.
Qed.
Lemma get_set_bits_ne lo n lo' n' x v : 0 <= lo -> 0 <= n -> 0 <= lo' -> 0 <= n' -> lo' + n' <= lo \/ lo + n <= lo' ->
  get_bits lo' n' (set_bits lo n x v) = get_bits lo' n' x.
Proof.
  intros. apply Z.bits_inj'. intros i Hi. rewrite !get_bits_testbit, set_bits_testbit by lia.
  destruct (Z.ltb_spec i n'); [|done]. cbn. destruct (Z.leb_spec lo (i + lo')), (Z.ltb_spec (i + lo') (lo + n)); try done; lia.
Qed.
Lemma bits_bound w x : 0 <= w -> (forall i, w <= i -> Z.testbit x i = false) -> 0 <= x < 2 ^ w.
Proof.
  intros Hw Hx. replace x with (wrap w x); [by apply wrap_bound|]. apply Z.bits_inj'. intros i Hi. rewrite wrap_testbit by done.
  destruct (Z.ltb_spec i w); [done|]. cbn. by rewrite Hx.
Qed.
Lemma bits_high w x i : 0 <= x < 2 ^ w -> 0 <= w <= i -> Z.testbit x i = false.
Proof. intros Hx Hi. rewrite <- (Z.mod_small x (2 ^ w)), Z.testbit_mod_pow2 by lia. by destruct (Z.ltb_spec i w); [lia|]. Qed.
Lemma set_bits_bound w lo n x v : 0 <= lo -> 0 <= n -> lo + n <= w -> 0 <= x < 2 ^ w -> 0 <= set_bits lo n x v < 2 ^ w.
Proof.
  intros Hl Hn Hw Hx. apply bits_bound; [lia|]. intros i Hi. rewrite set_bits_testbit by lia.
  destruct (Z.leb_spec lo i), (Z.ltb_spec i (lo + n)); cbn; try lia; apply (bits_high w); lia.
Qed.
