(* ===== verification/Ahci.v ===== *)
(** The disk driver of the file server: [bin/fs/ahci.c] with the structures of
    [bin/fs/ahci.h].

    The host controller is a parameter: the class [Hba] has the effect of reading and
    of writing one of its registers, and [HbaLaws] what the AHCI specification says
    about the registers the driver uses, about one port.  A register is named by its
    offset from [abar] (so a [HBA_PORT *] is the offset of the port).  The controller
    shares physical memory with the driver; [page_of] is where the pages of the driver
    are in it, which is what the system call [get_physical] returns.  [pages] are the pages that
    [sendpage] is going to return.  The loops that wait for the controller, and the
    one over the region table, have fuel. *)
From S2P Require Import Prelude CString Bits BitField.

(** ** Memory and controller *)
Record world (D : Type) := mkWorld { hw : D; ram : memory; sectors : Z -> memory }.
Arguments mkWorld {D} _ _ _.
Arguments hw {D} _.
Arguments ram {D} _.
Arguments sectors {D} _.

Class Hba := {
  dev : Type;
  reg_read : Z -> world dev -> Z * world dev;
  reg_write : Z -> Z -> world dev -> world dev }.

Record machine `{Hba} := mkMachine { wd : world dev; pages : list Z }.
Arguments mkMachine {_} _ _.
Arguments wd {_} _.
Arguments pages {_} _.

Definition AHCI_DEV_NULL : Z := 0.
Definition AHCI_DEV_SATA : Z := 1.
Definition AHCI_DEV_SATAPI : Z := 4.
Definition AHCI_DEV_SEMB : Z := 2.
Definition AHCI_DEV_PM : Z := 3.

(** The registers of the controller and of a port. *)
Definition R_CAP : Z := 0.
Definition R_PI : Z := 0xc.
Definition PORTS : Z := 0x100.
Definition P_CLB : Z := 0.
Definition P_CLBU : Z := 4.
Definition P_FB : Z := 8.
Definition P_FBU : Z := 0xc.
Definition P_IS : Z := 0x10.
Definition P_CMD : Z := 0x18.
Definition P_TFD : Z := 0x20.
Definition P_SIG : Z := 0x24.
Definition P_SSTS : Z := 0x28.
Definition P_SACT : Z := 0x34.
Definition P_CI : Z := 0x38.

(** [struct port_data] *)
Record port_data := mkPortData { pd_clb : Z; pd_fb : Z; pd_ctba : list Z; pd_port : Z }.

Section driver.
Context `{Hba} (page_of : Z -> Z).

Definition physical (va : Z) : Z := page_of (ALIGN va 12).
(** Where the byte at [va] of the driver is. *)
Definition pa (va : Z) : Z := page_of (ALIGN va 12) + va mod 4096.

Definition rd (r : Z) : M machine Z := fun m => let '(v, w) := reg_read r (wd m) in Done v (mkMachine w (pages m)).
Definition wr (r v : Z) : M machine () := modify (fun m => mkMachine (reg_write r v (wd m)) (pages m)).
Definition set_ram (f : memory) (m : machine) : machine := mkMachine (mkWorld (hw (wd m)) f (sectors (wd m))) (pages m).
(** A field of [n] bytes, which is on one page. *)
Definition ld (n : nat) (va : Z) : M machine Z := gets (fun m => get_le n (ram (wd m)) (pa va)).
Definition st (n : nat) (va v : Z) : M machine () := modify (fun m => set_ram (put_le n (ram (wd m)) (pa va) v) m).
(** [memset(va, 0, n)] *)
Fixpoint clear (n : nat) (va : Z) : M machine () :=
  match n with O => mret () | S n => st 1 va 0;; clear n (va + 1) end.
Definition sendpage : M machine Z :=
  m ← get; match pages m with [] => fault | p :: l => put (mkMachine (wd m) l);; mret p end.

(** ** Ports *)
Definition get_type (port : Z) : M machine Z :=
  ssts ← rd (port + P_SSTS);
  let ssts := i32 ssts in
  let ipm := Z.land (Z.shiftr ssts 8) 0x0f in
  let det := Z.land ssts 0x0f in
  if negb (det =? 3) then mret AHCI_DEV_NULL
  else if negb (ipm =? 1) then mret AHCI_DEV_NULL
  else
    sig ← rd (port + P_SIG);
    mret (if sig =? 0xeb140101 then AHCI_DEV_SATAPI else if sig =? 0xc33c0101 then AHCI_DEV_SEMB
          else if sig =? 0x96690101 then AHCI_DEV_PM else AHCI_DEV_SATA).

(** [while (port->cmd & HBA_PxCMD_CR);] *)
Fixpoint wait_cr (fuel : nat) (port : Z) : M machine () :=
  match fuel with
  | O => fault
  | S fuel => c ← rd (port + P_CMD); if Z.testbit c 15 then wait_cr fuel port else mret ()
  end.
Definition start_cmd (fuel : nat) (port : Z) : M machine () :=
  wait_cr fuel port;;
  c ← rd (port + P_CMD); wr (port + P_CMD) (Z.lor c (2 ^ 4));;
  c ← rd (port + P_CMD); wr (port + P_CMD) (Z.lor c (2 ^ 0)).

Fixpoint wait_stopped (fuel : nat) (port : Z) : M machine () :=
  match fuel with
  | O => fault
  | S fuel =>
      c ← rd (port + P_CMD);
      if Z.testbit c 14 then wait_stopped fuel port
      else
        c ← rd (port + P_CMD);
        if Z.testbit c 15 then wait_stopped fuel port else mret ()
  end.
Definition stop_cmd (fuel : nat) (port : Z) : M machine () :=
  c ← rd (port + P_CMD); wr (port + P_CMD) (Z.land c (u32 (Z.lnot (2 ^ 0))));;
  c ← rd (port + P_CMD); wr (port + P_CMD) (Z.land c (u32 (Z.lnot (2 ^ 4))));;
  wait_stopped fuel port.

(** The command header [h]: [prdtl] at 2, [ctba] at 8. *)
Fixpoint rebase_slots (n : nat) (h : Z) : M machine (list Z) :=
  match n with
  | O => mret []
  | S n =>
      st 2 (h + 2) 8;;
      b ← sendpage;
      clear 4096 b;;
      st 4 (h + 8) (physical b);;
      st 4 (h + 12) 0;;
      l ← rebase_slots n (h + 32);
      mret (b :: l)
  end.
Definition port_rebase (fuel : nat) (port : Z) : M machine port_data :=
  stop_cmd fuel port;;
  clb ← sendpage;
  clear 4096 clb;;
  wr (port + P_CLB) (u32 (physical clb));;
  wr (port + P_CLBU) 0;;
  fb ← sendpage;
  clear 4096 fb;;
  wr (port + P_FB) (u32 (physical fb));;
  wr (port + P_FBU) 0;;
  ctba ← rebase_slots 32 clb;
  start_cmd fuel port;;
  mret (mkPortData clb fb ctba port).

(** The port that is rebased is always the first one. *)
Fixpoint probe_loop (n : nat) (fuel : nat) (pi i : Z) (pdtable : Z -> option port_data) : M machine (Z -> option port_data) :=
  match n with
  | O => mret pdtable
  | S n =>
      pdtable ←
        (if Z.testbit pi 0 then
           dt ← get_type (PORTS + 0x80 * i);
           if dt =? AHCI_DEV_SATA then
             pd ← port_rebase fuel PORTS;
             mret (fun k => if k =? i then Some pd else pdtable k)
           else mret pdtable
         else mret pdtable);
      probe_loop n fuel (Z.shiftr pi 1) (i + 1) pdtable
  end.
(** What [malloc] returned for the table is not initialised: [None]. *)
Definition probe_port (fuel : nat) : M machine (Z -> option port_data) :=
  pi ← rd R_PI;
  probe_loop 32 fuel (i32 pi) 0 (fun _ => None).

(** ** Commands *)
Fixpoint free_slot (n : nat) (slots i : Z) : Z :=
  match n with O => -1 | S n => if negb (Z.testbit slots 0) then i else free_slot n (Z.shiftr slots 1) (i + 1) end.
Definition find_cmdslot (port : Z) : M machine Z :=
  sact ← rd (port + P_SACT);
  ci ← rd (port + P_CI);
  cap ← rd R_CAP;
  let cmdslots := Z.shiftr (Z.land cap 0x0f00) 8 in
  mret (free_slot (Z.to_nat cmdslots) (Z.lor sact ci) 0).

(** [cfl], [w] and [prdtl] of the header. *)
Definition set_header (h w count : Z) : M machine () :=
  b ← ld 1 h; st 1 h (set_bits 0 5 b 5);;
  b ← ld 1 h; st 1 h (set_bits 6 1 b w);;
  st 2 (h + 2) (u16 (Z.shiftr (u32 (count - 1)) 4) + 1).

Definition prdt_entry (tbl i : Z) : Z := tbl + 0x80 + 16 * i.
Definition set_dba (tbl i buf_phys : Z) : M machine () :=
  st 4 (prdt_entry tbl i) (Z.land buf_phys 0xffffffff);;
  st 4 (prdt_entry tbl i + 4) (Z.land (Z.shiftr buf_phys 32) 0xffffffff).
Definition set_dbc (tbl i v : Z) : M machine () :=
  x ← ld 4 (prdt_entry tbl i + 12); st 4 (prdt_entry tbl i + 12) (set_bits 0 22 x v).
Definition set_i (tbl i : Z) : M machine () :=
  x ← ld 4 (prdt_entry tbl i + 12); st 4 (prdt_entry tbl i + 12) (set_bits 31 1 x 1).

(** [i] and [count] after the loop; [buf_phys] does not advance. *)
Fixpoint read_prdt (fuel : nat) (h tbl buf_phys i count : Z) : M machine (Z * Z) :=
  match fuel with
  | O => fault
  | S fuel =>
      prdtl ← ld 2 (h + 2);
      if i <? prdtl - 1 then
        set_dba tbl i buf_phys;;
        set_dbc tbl i (8 * 1024);;
        set_i tbl i;;
        read_prdt fuel h tbl buf_phys (i + 1) (u32 (count - 16))
      else mret (i, count)
  end.
Fixpoint write_prdt (fuel : nat) (h tbl buf_phys i count : Z) : M machine (Z * Z) :=
  match fuel with
  | O => fault
  | S fuel =>
      prdtl ← ld 2 (h + 2);
      if i <? prdtl - 1 then
        set_dba tbl i buf_phys;;
        set_dbc tbl i (8 * 1024 - 1);;
        write_prdt fuel h tbl buf_phys (i + 1) (u32 (count - 16))
      else mret (i, count)
  end.

Definition set_fis (tbl command startl starth count : Z) : M machine () :=
  st 1 tbl 0x27;;
  b ← ld 1 (tbl + 1); st 1 (tbl + 1) (set_bits 7 1 b 1);;
  st 1 (tbl + 2) command;;
  st 1 (tbl + 4) (u8 startl);;
  st 1 (tbl + 5) (u8 (Z.shiftr startl 8));;
  st 1 (tbl + 6) (u8 (Z.shiftr startl 16));;
  st 1 (tbl + 7) (2 ^ 6);;
  st 1 (tbl + 8) (u8 (Z.shiftr startl 24));;
  st 1 (tbl + 9) (u8 starth);;
  st 1 (tbl + 10) (u8 (Z.shiftr starth 8));;
  st 1 (tbl + 12) (Z.land count 0xff);;
  st 1 (tbl + 13) (u8 (Z.shiftr count 8)).

(** The value of [spin]. *)
Fixpoint wait_tfd (fuel : nat) (port spin : Z) : M machine Z :=
  match fuel with
  | O => fault
  | S fuel =>
      t ← rd (port + P_TFD);
      if negb (Z.land t (Z.lor 0x80 0x08) =? 0) && (spin <? 1000000) then wait_tfd fuel port (spin + 1) else mret spin
  end.
Definition TFES (x : Z) : bool := Z.testbit x 30.
(** Whether the loop is left without an error. *)
Fixpoint wait_ci (fuel : nat) (port slot : Z) : M machine bool :=
  match fuel with
  | O => fault
  | S fuel =>
      ci ← rd (port + P_CI);
      if Z.land ci (Z.shiftl 1 slot) =? 0 then mret true
      else
        stat ← rd (port + P_IS);
        if TFES stat then mret false else wait_ci fuel port slot
  end.
(** From the first waiting loop to the end. *)
Definition issue (fuel : nat) (port slot : Z) : M machine Z :=
  spin ← wait_tfd fuel port 0;
  if spin =? 1000000 then mret 0
  else
    wr (port + P_CI) (Z.shiftl 1 slot);;
    ok ← wait_ci fuel port slot;
    if negb ok then mret 0
    else
      stat ← rd (port + P_IS);
      mret (if TFES stat then 0 else 1).

Definition ctba_of (pdata : port_data) (slot : Z) : M machine Z :=
  if slot <? 0 then fault else deref (pd_ctba pdata !! Z.to_nat slot).

Definition read_sata (fuel : nat) (pdata : port_data) (startl starth count buf : Z) : M machine Z :=
  wr (pd_port pdata + P_IS) (u32 (-1));;
  slot ← find_cmdslot (pd_port pdata);
  let buf_phys := physical buf in
  if slot =? -1 then mret 0
  else
    let h := pd_clb pdata + 32 * slot in
    set_header h 0 count;;
    tbl ← ctba_of pdata slot;
    p ← read_prdt fuel h tbl buf_phys 0 count;
    let '(i, count) := p in
    set_dba tbl i buf_phys;;
    set_dbc tbl i (u32 (Z.shiftl count 9));;
    set_i tbl i;;
    set_fis tbl 0x25 startl starth count;;
    issue fuel (pd_port pdata) slot.

Definition write_sata (fuel : nat) (pdata : port_data) (startl starth count buf : Z) : M machine Z :=
  wr (pd_port pdata + P_IS) (u32 (-1));;
  slot ← find_cmdslot (pd_port pdata);
  let buf_phys := physical buf in
  let h := pd_clb pdata + 32 * slot in
  set_header h 1 count;;
  tbl ← ctba_of pdata slot;
  prdtl ← ld 2 (h + 2);
  clear (Z.to_nat (0x90 + (prdtl - 1) * 16)) tbl;;
  p ← write_prdt fuel h tbl buf_phys 0 count;
  let '(i, count) := p in
  set_dba tbl i buf_phys;;
  set_dbc tbl i (u32 (u32 (Z.shiftl count 9) - 1));;
  set_fis tbl 0x35 startl starth count;;
  issue fuel (pd_port pdata) slot.
End driver.

(** ** Finding the controller *)
(** The registers of the PCI bus, used through the port service: the state is the
    address register 0xcf8, [config] what 0xcfc reads for a value of it. *)
Section pci.
Context (config : Z -> Z).

Definition outl (port val : Z) : M Z () := if port =? 0xcf8 then put val else mret ().
Definition inl (port : Z) : M Z Z := a ← get; mret (if port =? 0xcfc then u32 (config a) else 0xffffffff).

Definition pciConfigReadWord (bus slot func offset : Z) : M Z Z :=
  let address := u32 (Z.lor (Z.lor (Z.lor (Z.lor (Z.shiftl bus 16) (Z.shiftl slot 11)) (Z.shiftl func 8)) (Z.land offset 0xfc)) 0x80000000) in
  outl 0xcf8 address;;
  x ← inl 0xcfc;
  mret (if offset =? 0x24 then x else u16 (Z.land (Z.shiftr x (Z.land offset 2 * 8)) 0xffff)).
Definition getVendorID (bus slot : Z) : M Z Z := x ← pciConfigReadWord bus slot 0 0; mret (u16 x).
Definition getDeviceID (bus slot : Z) : M Z Z := x ← pciConfigReadWord bus slot 0 2; mret (u16 x).
Definition checkDevice (bus device : Z) : M Z Z :=
  vendorID ← getVendorID bus device;
  if vendorID =? 0xffff then mret 0
  else
    deviceID ← getDeviceID bus device;
    if (vendorID =? 0x8086) && (deviceID =? 0x2922) then pciConfigReadWord bus device 0 0x24 else mret 0.
Fixpoint check_bus (n : nat) (bus device : Z) : M Z Z :=
  match n with
  | O => mret 0
  | S n => bar5 ← checkDevice bus device; if negb (bar5 =? 0) then mret bar5 else check_bus n bus (device + 1)
  end.
Fixpoint check_buses (n : nat) (bus : Z) : M Z Z :=
  match n with
  | O => mret 0
  | S n => bar5 ← check_bus 32 bus 0; if negb (bar5 =? 0) then mret bar5 else check_buses n (bus + 1)
  end.
Definition checkAllBuses : M Z Z := check_buses 256 0.
End pci.

(** ** What the controller does *)
(** A command as the controller finds it in memory: direction, first sector, number
    of sectors and the regions, of which the controller knows address and length. *)
Record command := mkCommand { c_write : bool; c_lba : Z; c_count : Z; c_regions : list (Z * Z) }.

Definition header_of (clb slot : Z) : Z := clb + 32 * slot.
Definition region_of (f : memory) (tbl : Z) (i : nat) : Z * Z :=
  let e := tbl + 0x80 + 16 * Z.of_nat i in (get_le 8 f e, get_bits 0 22 (get_le 4 f (e + 12)) + 1).
Definition decode (f : memory) (clb slot : Z) : option command :=
  let h := header_of clb slot in
  let tbl := get_le 8 f (h + 8) in
  let w := Z.testbit (f h) 6 in
  if (get_bits 0 6 (f h) =? 5) && (f (h + 1) =? 0) && (f tbl =? 0x27) && (f (tbl + 1) =? 0x80)
     && (f (tbl + 2) =? if w then 0x35 else 0x25) && Z.testbit (f (tbl + 7)) 6 then
    Some (mkCommand w (get_le 3 f (tbl + 4) + 2 ^ 24 * get_le 3 f (tbl + 8)) (get_le 2 f (tbl + 12))
            (region_of f tbl <$> seq 0 (Z.to_nat (get_le 2 f (h + 2)))))
  else None.

Definition room (l : list (Z * Z)) : Z := foldr (fun r n => r.2 + n) 0 l.
(** The regions have room for the sectors. *)
Definition complete (c : command) : Prop := 1 <= c_count c /\ 512 * c_count c <= room (c_regions c).
(** What the specification of the controller asks of a command besides: every region
    starts at an even address and has an even number of bytes. *)
Definition documented (c : command) : Prop := complete c /\ Forall (fun r => Z.even r.1 && Z.even r.2) (c_regions c).

#[export] Instance complete_dec c : Decision (complete c).
Proof. unfold complete. apply _. Defined.

Definition sector_byte (s : Z -> memory) (lba k : Z) : Z := s (lba + k / 512) (k mod 512).
(** The sectors go to the regions, from the byte [k] on, [left] bytes. *)
Fixpoint scatter (s : Z -> memory) (lba : Z) (l : list (Z * Z)) (k left : Z) (f : memory) : memory :=
  match l with
  | [] => f
  | (a, n) :: l =>
      let n := Z.min n left in
      scatter s lba l (k + n) (left - n) (fun x => if (a <=? x) && (x <? a + n) then sector_byte s lba (k + (x - a)) else f x)
  end.
(** The byte [k] of the regions. *)
Fixpoint gather (f : memory) (l : list (Z * Z)) (k : Z) : Z :=
  match l with [] => 0 | (a, n) :: l => if k <? n then f (a + k) else gather f l (k - n) end.
(** Memory and disk after the command; the header gets the number of bytes. *)
Definition execute (c : command) (clb slot : Z) (f : memory) (s : Z -> memory) : memory * (Z -> memory) :=
  let done f := put_le 4 f (header_of clb slot + 4) (512 * c_count c) in
  if c_write c then
    (done f, fun i x => if (c_lba c <=? i) && (i <? c_lba c + c_count c) && (0 <=? x) && (x <? 512)
                        then gather f (c_regions c) (512 * (i - c_lba c) + x) else s i x)
  else (done (scatter s (c_lba c) (c_regions c) 0 (512 * c_count c) f), s).

(** Equal up to the area where the controller puts the messages of the device. *)
Definition but_fis (fb : Z) (f g : memory) : Prop := forall x, ~ fb <= x < fb + 256 -> f x = g x.

(** Equal up to ST and FRE, the bits 0 and 4 of the register [cmd]. *)
Definition same_but (v v' : Z) : Prop := forall i, 0 <= i < 32 -> i <> 0 -> i <> 4 -> Z.testbit v' i = Z.testbit v i.

(** What the AHCI specification promises about one port of a controller in AHCI mode,
    by the states of the controller as far as the port goes.
    - [off fre]: ST and CR are clear, [fre] is the bit FRE.
    - [stopping a (clb, clbu, fb, fbu)]: ST, FRE and CR are clear, FR stays set for [a]
      more reads of [cmd]; the contents of the address registers.
    - [armed]: the same with FR clear and FRE set.  In these three states there is a
      device that is not busy.
    - [idle clb fb n]: started with these addresses, no command, no error, busy for [n]
      more reads of [tfd].
    - [busy clb fb slot n o]: the command of [slot] ends after [n] more reads of [ci];
      [o] is what it leaves in memory and on the disk, [None] if it fails.
    A port that is running cannot be stopped by these laws the way [stop_cmd] does it:
    the specification asks to wait for CR to be clear before FRE is cleared.
    [accepts] are the commands that the controller carries out, or reports as failed
    ([may_fail]); those that meet the specification are, about others it says nothing. *)
Class HbaLaws `{Hba} (port : Z) := {
  idle : Z -> Z -> nat -> dev -> Prop;
  busy : Z -> Z -> Z -> nat -> option (memory * (Z -> memory)) -> dev -> Prop;
  off : bool -> dev -> Prop;
  stopping : nat -> Z * Z * Z * Z -> dev -> Prop;
  armed : Z * Z * Z * Z -> dev -> Prop;
  accepts : command -> Prop;
  may_fail : command -> Prop;
  static : Z -> Z;
  accepts_documented c : documented c -> accepts c;
  static_read r w : r = R_CAP \/ r = R_PI \/ (exists i, 0 <= i < 32 /\ (r = PORTS + 0x80 * i + P_SSTS \/ r = PORTS + 0x80 * i + P_SIG)) ->
    reg_read r w = (static r, w);
  idle_clear clb fb n d f s : idle clb fb n d ->
    exists d', reg_write (port + P_IS) (2 ^ 32 - 1) (mkWorld d f s) = mkWorld d' f s /\ idle clb fb n d';
  idle_slots clb fb n d f s r : idle clb fb n d -> r = port + P_SACT \/ r = port + P_CI ->
    exists d', reg_read r (mkWorld d f s) = (0, mkWorld d' f s) /\ idle clb fb n d';
  idle_status clb fb n d f s : idle clb fb n d ->
    exists v d', reg_read (port + P_IS) (mkWorld d f s) = (v, mkWorld d' f s) /\ TFES v = false /\ idle clb fb n d';
  idle_tfd clb fb n d f s : idle clb fb n d ->
    exists v d', reg_read (port + P_TFD) (mkWorld d f s) = (v, mkWorld d' f s) /\
      (Z.land v (Z.lor 0x80 0x08) = 0 <-> n = O) /\ idle clb fb (pred n) d';
  idle_issue clb fb d f s slot c : idle clb fb O d -> 0 <= slot < 32 -> decode f clb slot = Some c -> complete c -> accepts c ->
    exists d' n o, reg_write (port + P_CI) (Z.shiftl 1 slot) (mkWorld d f s) = mkWorld d' f s /\ busy clb fb slot n o d' /\
      match o with
      | Some (f', s') => but_fis fb f' (execute c clb slot f s).1 /\ s' = (execute c clb slot f s).2
      | None => may_fail c
      end;
  busy_ci clb fb slot n o w : busy clb fb slot n o (hw w) ->
    exists v w', reg_read (port + P_CI) w = (v, w') /\
      match n, o with
      | S n, _ => Z.testbit v slot = true /\ busy clb fb slot n o (hw w')
      | O, Some (f', s') => Z.testbit v slot = false /\ ram w' = f' /\ sectors w' = s' /\ exists k, idle clb fb k (hw w')
      | O, None => Z.testbit v slot = true /\ busy clb fb slot O None (hw w')
      end;
  busy_status clb fb slot n o w : busy clb fb slot n o (hw w) ->
    exists v w', reg_read (port + P_IS) w = (v, w') /\ (TFES v = true <-> n = O /\ o = None) /\ busy clb fb slot n o (hw w');
  off_change fre d f s : off fre d ->
    exists v d1, reg_read (port + P_CMD) (mkWorld d f s) = (v, mkWorld d1 f s) /\ Z.testbit v 0 = false /\ Z.testbit v 4 = fre /\
      forall v', same_but v v' -> Z.testbit v' 0 = false ->
        exists d2, reg_write (port + P_CMD) v' (mkWorld d1 f s) = mkWorld d2 f s /\
          (Z.testbit v' 4 = fre -> off fre d2) /\ (Z.testbit v' 4 = false -> exists a g, stopping a g d2);
  stopping_read a g d f s : stopping a g d ->
    exists v d', reg_read (port + P_CMD) (mkWorld d f s) = (v, mkWorld d' f s) /\ stopping (pred a) g d' /\
      (Z.testbit v 14 = true <-> a <> O) /\ Z.testbit v 15 = false;
  stopped_address r v clb clbu fb fbu d f s : stopping O (clb, clbu, fb, fbu) d ->
    r = P_CLB /\ v mod 1024 = 0 \/ r = P_FB /\ v mod 256 = 0 \/ (r = P_CLBU \/ r = P_FBU) /\ v = 0 ->
    exists d', reg_write (port + r) v (mkWorld d f s) = mkWorld d' f s /\
      stopping O (if r =? P_CLB then v else clb, if r =? P_CLBU then v else clbu, if r =? P_FB then v else fb, if r =? P_FBU then v else fbu) d';
  stopped_arm g d f s : stopping O g d ->
    exists v d1, reg_read (port + P_CMD) (mkWorld d f s) = (v, mkWorld d1 f s) /\ Z.testbit v 0 = false /\
      forall v', same_but v v' -> Z.testbit v' 0 = false -> Z.testbit v' 4 = true ->
        exists d2, reg_write (port + P_CMD) v' (mkWorld d1 f s) = mkWorld d2 f s /\ armed g d2;
  armed_start clb clbu fb fbu d f s : armed (clb, clbu, fb, fbu) d -> clb mod 1024 = 0 -> fb mod 256 = 0 ->
    exists v d1, reg_read (port + P_CMD) (mkWorld d f s) = (v, mkWorld d1 f s) /\ Z.testbit v 4 = true /\
      forall v', same_but v v' -> Z.testbit v' 0 = true -> Z.testbit v' 4 = true ->
        exists d2 f' n, reg_write (port + P_CMD) v' (mkWorld d1 f s) = mkWorld d2 f' s /\
          but_fis (fb + 2 ^ 32 * fbu) f' f /\ idle (clb + 2 ^ 32 * clbu) (fb + 2 ^ 32 * fbu) n d2 }.
