(* ===== verification/AhciSim.v ===== *)
(** A host controller that follows the specification [Ahci.HbaLaws], to show that the
    specification can be met: one disk, every command ends after two reads of [ci], and
    the port is busy for one read of [tfd] after it. *)
From S2P Require Import Prelude BitField CString Ahci.

Inductive sim :=
| SLive (st fre : bool)
| SStopped (g : Z * Z * Z * Z) (fre : bool)
| SIdle (clb fb : Z) (n : nat)
| SBusy (clb fb slot : Z) (n : nat) (f : memory) (s : Z -> memory).

(** The registers that do not change: one slot; one port, with a disk. *)
Definition sim_static (r : Z) : Z :=
  if r =? R_CAP then 0x100 else if r =? R_PI then 1
  else if r =? PORTS + P_SSTS then 0x103 else if r =? PORTS + P_SIG then 0x101 else 0.

Definition bit_if (n : Z) (b : bool) : Z := if b then 2 ^ n else 0.
Definition sim_cmd (d : sim) : Z :=
  match d with
  | SLive st fre => Z.lor (bit_if 0 st) (bit_if 4 fre)
  | SStopped _ fre => bit_if 4 fre
  | _ => 17
  end.
Definition sim_set_cmd (v : Z) (d : sim) : sim :=
  let st := Z.testbit v 0 in
  let fre := Z.testbit v 4 in
  match d with
  | SStopped (clb, clbu, fb, fbu) armed =>
      if st && fre && armed then SIdle (clb + 2 ^ 32 * clbu) (fb + 2 ^ 32 * fbu) 1
      else if st then SLive st fre else SStopped (clb, clbu, fb, fbu) fre
  | SBusy _ _ _ _ _ _ => d
  | _ => if st || fre then SLive st fre else SStopped (0, 0, 0, 0) false
  end.

Definition sim_read (r : Z) (w : world sim) : Z * world sim :=
  let '(mkWorld d f s) := w in
  if r =? PORTS + P_CMD then (sim_cmd d, w)
  else if r =? PORTS + P_TFD then
    match d with SIdle clb fb (S n) => (0x80, mkWorld (SIdle clb fb n) f s) | _ => (0, w) end
  else if r =? PORTS + P_CI then
    match d with
    | SBusy clb fb slot (S n) f' s' => (2 ^ slot, mkWorld (SBusy clb fb slot n f' s') f s)
    | SBusy clb fb slot O f' s' => (0, mkWorld (SIdle clb fb 1) f' s')
    | _ => (0, w)
    end
  else (sim_static r, w).

Definition sim_write (r v : Z) (w : world sim) : world sim :=
  let '(mkWorld d f s) := w in
  if r =? PORTS + P_CMD then mkWorld (sim_set_cmd v d) f s
  else match d with
  | SStopped (clb, clbu, fb, fbu) fre =>
      if r =? PORTS + P_CLB then mkWorld (SStopped (v, clbu, fb, fbu) fre) f s
      else if r =? PORTS + P_CLBU then mkWorld (SStopped (clb, v, fb, fbu) fre) f s
      else if r =? PORTS + P_FB then mkWorld (SStopped (clb, clbu, v, fbu) fre) f s
      else if r =? PORTS + P_FBU then mkWorld (SStopped (clb, clbu, fb, v) fre) f s
      else w
  | SIdle clb fb O =>
      if r =? PORTS + P_CI then
        let slot := Z.log2 v in
        match decode f clb slot with
        | Some c =>
            if decide (complete c) then
              mkWorld (SBusy clb fb slot 2 (execute c clb slot f s).1 (execute c clb slot f s).2) f s
            else w
        | None => w
        end
      else w
  | _ => w
  end.

#[export] Instance sim_hba : Hba := {| dev := sim; reg_read := sim_read; reg_write := sim_write |}.

Definition sim_off (fre : bool) (d : sim) : Prop := d = SLive false fre \/ exists g, d = SStopped g fre.

(** It also carries out commands with regions of an odd size. *)
#[export] Program Instance sim_laws : HbaLaws PORTS := {|
  idle := fun clb fb n d => d = SIdle clb fb n /\ (n <= 1)%nat;
  busy := fun clb fb slot n o d => exists f s, o = Some (f, s) /\ d = SBusy clb fb slot n f s /\ 0 <= slot;
  off := sim_off;
  stopping := fun a g d => a = O /\ exists fre, d = SStopped g fre;
  armed := fun g d => d = SStopped g true;
  accepts := complete;
  may_fail := fun _ => False;
  static := sim_static |}.
Next Obligation. by intros c [? _]. Qed.
Next Obligation.
  intros r [d f s] Hr. cbn [reg_read sim_hba]. unfold sim_read.
  destruct (Z.eqb_spec r (PORTS + P_CMD)) as [->|_]; [exfalso|].
  { unfold PORTS, P_CMD, R_CAP, R_PI, P_SSTS, P_SIG in Hr. destruct Hr as [?|[?|(i & Hi & [?|?])]]; lia. }
  destruct (Z.eqb_spec r (PORTS + P_TFD)) as [->|_]; [exfalso|].
  { unfold PORTS, P_TFD, R_CAP, R_PI, P_SSTS, P_SIG in Hr. destruct Hr as [?|[?|(i & Hi & [?|?])]]; lia. }
  destruct (Z.eqb_spec r (PORTS + P_CI)) as [->|_]; [exfalso|done].
  unfold PORTS, P_CI, R_CAP, R_PI, P_SSTS, P_SIG in Hr. destruct Hr as [?|[?|(i & Hi & [?|?])]]; lia.
Qed.
Next Obligation. intros clb fb n d f s [-> Hn]. exists (SIdle clb fb n). split; [by destruct n|done]. Qed.
Next Obligation. intros clb fb n d f s r [-> Hn] [-> | ->]; exists (SIdle clb fb n); by split. Qed.
Next Obligation. intros clb fb n d f s [-> Hn]. exists 0, (SIdle clb fb n). by split_and!. Qed.
Next Obligation.
  intros clb fb n d f s [-> Hn]. destruct n as [|n]; [exists 0, (SIdle clb fb O)|exists 0x80, (SIdle clb fb n)]; split_and!; try done. cbn. lia.
Qed.
Next Obligation.
  intros clb fb d f s slot c [-> _] Hs Hc Hok _. cbn [reg_write sim_hba]. unfold sim_write.
  rewrite Z.shiftl_1_l, Z.log2_pow2 by lia. cbn [Z.eqb]. change (PORTS + P_CI =? PORTS + P_CMD) with false. rewrite Z.eqb_refl, Hc.
  destruct (decide (complete c)) as [_|]; [|done].
  eexists _, 2%nat, (Some _). split; [reflexivity|]. split; [eexists _, _; split; [reflexivity|split; [reflexivity|lia]]|].
  by destruct (execute c clb slot f s).
Qed.
Next Obligation.
  intros clb fb slot n o [d f s] (f' & s' & -> & Hd & Hs). cbn [hw] in Hd. subst d. cbn [reg_read sim_hba]. unfold sim_read.
  change (PORTS + P_CI =? PORTS + P_CMD) with false. change (PORTS + P_CI =? PORTS + P_TFD) with false. rewrite Z.eqb_refl.
  destruct n as [|n].
  - eexists _, _. split; [reflexivity|]. split; [apply Z.bits_0|]. split_and!; [done|done|exists 1%nat; by split].
  - eexists _, _. split; [reflexivity|]. split; [|by exists f', s']. by apply Z.pow2_bits_true.
Qed.
Next Obligation.
  intros clb fb slot n o [d f s] (f' & s' & -> & Hd & Hs). cbn [hw] in Hd. subst d. eexists 0, _. split; [reflexivity|].
  split; [|by exists f', s']. split; [done|]. by intros [_ ?].
Qed.
Next Obligation.
  intros fre d f s Hd. exists (sim_cmd d), d. split; [reflexivity|]. destruct Hd as [-> | (g & ->)]; cbn [sim_cmd].
  - split; [by destruct fre|]. split; [by destruct fre|]. intros v' _ H0. exists (sim_set_cmd v' (SLive false fre)). split; [reflexivity|].
    cbn [sim_set_cmd]. rewrite H0. cbn [orb]. split.
    + intros ->. destruct fre; [by left|by right; exists (0, 0, 0, 0)].
    + intros ->. exists O, (0, 0, 0, 0). split; [done|]. by exists false.
  - split; [by destruct fre|]. split; [by destruct fre|]. intros v' _ H0. exists (sim_set_cmd v' (SStopped g fre)). split; [reflexivity|].
    destruct g as [[[g0 g1] g2] g3]. cbn [sim_set_cmd]. rewrite H0. cbn [andb]. split.
    + intros ->. right. by exists (g0, g1, g2, g3).
    + intros ->. exists O, (g0, g1, g2, g3). split; [done|]. by exists false.
Qed.
Next Obligation.
  intros a g d f s (-> & fre & ->). exists (sim_cmd (SStopped g fre)), (SStopped g fre). split; [reflexivity|].
  split; [by split; [|exists fre]|]. by destruct fre.
Qed.
Next Obligation.
  intros r v clb clbu fb fbu d f s (_ & fre & ->) Hr.
  destruct Hr as [[-> _] | [[-> _] | [[-> | ->] _]]]; eexists; (split; [reflexivity|]); (split; [done|]); by exists fre.
Qed.
Next Obligation.
  intros g d f s (_ & fre & ->). exists (sim_cmd (SStopped g fre)), (SStopped g fre). split; [reflexivity|]. split; [by destruct fre|].
  intros v' _ H0 H4. exists (SStopped g true). split; [|done].
  cbn [reg_write sim_hba]. unfold sim_write, sim_set_cmd. rewrite H4, H0, Z.eqb_refl. by destruct g as [[[? ?] ?] ?].
Qed.
Next Obligation.
  intros clb clbu fb fbu d f s -> _ _. exists 16, (SStopped (clb, clbu, fb, fbu) true). split; [reflexivity|]. split; [reflexivity|].
  intros v' _ H0 H4. exists (SIdle (clb + 2 ^ 32 * clbu) (fb + 2 ^ 32 * fbu) 1), f, 1%nat.
  split; [|done]. cbn [reg_write sim_hba]. unfold sim_write, sim_set_cmd. by rewrite H4, H0, Z.eqb_refl.
Qed.
