(* ===== verification/AhciProofs.v ===== *)
(** Theorems about the disk driver ([Ahci]): the commands it puts together mean what
    its caller asked for, so that a sector is read and written as the block layer of
    the file system ([SataFs]) takes it to be. *)
From S2P Require Import Prelude CString Bits BitField SataFs Ahci AhciSim.

(** ** Bit fields *)
(** The two bytes of a header and a command that the driver only changes in part. *)
Lemma header_byte b w : 0 <= b < 256 -> Z.testbit b 5 = false -> 0 <= w < 2 ->
  let b' := set_bits 6 1 (set_bits 0 5 b 5) w in
  0 <= b' < 256 /\ get_bits 0 6 b' = 5 /\ Z.testbit b' 6 = (w =? 1).
Proof.
  intros Hb H5 Hw. cbv zeta. change 256 with (2 ^ 8) in *. split; [by repeat (apply set_bits_bound; try lia)|]. split.
  - apply Z.bits_inj'. intros i Hi. rewrite get_bits_testbit, !set_bits_testbit, Z.add_0_r, Z.sub_0_r by lia.
    destruct (Z.ltb_spec i 6); cbn [andb].
    + destruct (Z.leb_spec 6 i); [lia|]. destruct (Z.leb_spec 0 i); [|lia]. destruct (Z.ltb_spec i (0 + 5)); [done|].
      cbn [andb].
      assert (i = 5) as -> by lia. by rewrite H5.
    + symmetry. apply (bits_high 3); lia.
  - rewrite set_bits_testbit by lia. cbn. assert (w = 0 \/ w = 1) as [-> | ->] by lia; done.
Qed.
Lemma fis_byte b : 0 <= b < 256 -> get_bits 0 7 b = 0 -> set_bits 7 1 b 1 = 0x80.
Proof.
  intros Hb H0. apply Z.bits_inj'. intros i Hi. rewrite set_bits_testbit by lia.
  destruct (Z.leb_spec 7 i), (Z.ltb_spec i (7 + 1)); cbn; try lia.
  - by assert (i = 7) as -> by lia.
  - rewrite (bits_high 8) by lia. symmetry. apply (bits_high 8); lia.
  - transitivity (Z.testbit (get_bits 0 7 b) i).
    + rewrite get_bits_testbit, Z.add_0_r by lia. destruct (Z.ltb_spec i 7); [done|lia].
    + rewrite H0, Z.bits_0. symmetry.
      assert (i = 0 \/ i = 1 \/ i = 2 \/ i = 3 \/ i = 4 \/ i = 5 \/ i = 6) as Hc by lia.
      by destruct Hc as [-> | [-> | [-> | [-> | [-> | [-> | ->]]]]]].
Qed.

(** ** Memory of the driver *)
Definition page_addr (p : Z) : Prop := is_u64 p /\ p mod 4096 = 0.

Lemma get_le_1 f a : get_le 1 f a = f a.
Proof. cbn. lia. Qed.
Lemma get_put_same n f a v : 0 <= v < 256 ^ Z.of_nat n -> get_le n (put_le n f a v) a = v.
Proof. intros Hv. rewrite get_put_le. by apply Z.mod_small. Qed.
Lemma put_1 f a v : 0 <= v < 256 -> put_le 1 f a v a = v.
Proof. intros Hv. cbn. unfold upd. rewrite Z.eqb_refl. by apply Z.mod_small. Qed.

Section memory.
Context `{!Hba} (page_of : Z -> Z).
Implicit Types m : machine.
Local Notation at_ m := (ram (wd m)).

Lemma pa_eq va p o : va = p + o -> page_addr p -> 0 <= o < 4096 -> pa page_of va = page_of p + o.
Proof.
  intros -> [Hp Ha] Ho. unfold pa.
  assert (is_u64 (p + o)) as Hu.
  { unfold is_u64 in *. pose proof (Z.div_mod p 4096 ltac:(lia)). rewrite Ha in *. change (2 ^ 64) with (4096 * 2 ^ 52) in *. nia. }
  assert ((p + o) mod 4096 = o) as Hm.
  { rewrite Z.add_mod, Ha, Z.add_0_l, !(Z.mod_small o) by lia. done. }
  rewrite ALIGN_eq by (done || lia). change (2 ^ 12) with 4096. rewrite Hm. f_equal. f_equal. lia.
Qed.
Lemma physical_eq p : page_addr p -> physical page_of p = page_of p.
Proof. intros [Hp Ha]. unfold physical. rewrite ALIGN_eq by (done || lia). change (2 ^ 12) with 4096. f_equal. lia. Qed.

Lemma ld_eq n va p o m : va = p + o -> page_addr p -> 0 <= o < 4096 -> ld page_of n va m = Done (get_le n (at_ m) (page_of p + o)) m.
Proof. intros Hv Hp Ho. unfold ld. by rewrite gets_eq, (pa_eq va p o). Qed.
Lemma st_eq n va p o v m : va = p + o -> page_addr p -> 0 <= o < 4096 ->
  st page_of n va v m = Done () (set_ram (put_le n (at_ m) (page_of p + o) v) m).
Proof. intros Hv Hp Ho. unfold st. by rewrite modify_eq, (pa_eq va p o). Qed.

(** [wrote a n f g]: only the [n] bytes at [a] changed. *)
Definition only (a n : Z) (f g : memory) : Prop := forall x, ~ a <= x < a + n -> g x = f x.
Lemma only_le a n f g k b : only a n f g -> b + Z.of_nat k <= a \/ a + n <= b -> get_le k g b = get_le k f b.
Proof. intros Ho Hb. apply get_le_ext. intros x Hx. apply Ho. lia. Qed.
Lemma only_put n f a v : only a (Z.of_nat n) f (put_le n f a v).
Proof. intros x Hx. apply put_le_out. lia. Qed.
Lemma only_weaken a n b k f g : only a n f g -> b <= a -> a + n <= b + k -> only b k f g.
Proof. intros Ho H1 H2 x Hx. apply Ho. lia. Qed.
Lemma only_trans a n f g h : only a n f g -> only a n g h -> only a n f h.
Proof. intros H1 H2 x Hx. by rewrite H2, H1. Qed.
Lemma only_refl a n f : only a n f f.
Proof. done. Qed.

Lemma clear_spec n p o m : page_addr p -> 0 <= o -> o + Z.of_nat n <= 4096 ->
  exists f, clear page_of n (p + o) m = Done () (set_ram f m) /\ only (page_of p + o) (Z.of_nat n) (at_ m) f /\
    forall x, page_of p + o <= x < page_of p + o + Z.of_nat n -> f x = 0.
Proof.
  revert o m. induction n as [|n IH]; intros o m Hp Ho Hn; cbn [clear].
  - exists (at_ m). split; [by destruct m as [[]]|]. split; [done|]. intros x Hx. lia.
  - erewrite bind_eq; [|apply (st_eq 1 _ p o); (done || lia)].
    replace (p + o + 1) with (p + (o + 1)) by lia.
    destruct (IH (o + 1) (set_ram (put_le 1 (at_ m) (page_of p + o) 0) m)) as (f & -> & Hf & H0); [done|lia..|].
    exists f. split; [done|]. split.
    + intros x Hx. rewrite Hf by lia. apply put_le_out. lia.
    + intros x Hx. destruct (decide (x = page_of p + o)) as [->|]; [|apply H0; lia].
      rewrite Hf by lia. by apply put_1.
Qed.

Lemma set_header_spec p o w count m : page_addr p -> 0 <= o -> o + 32 <= 4096 -> 0 <= w < 2 -> 0 <= count - 1 < 2 ^ 19 ->
  let a := page_of p + o in
  0 <= at_ m a < 256 -> Z.testbit (at_ m a) 5 = false ->
  exists f, set_header page_of (p + o) w count m = Done () (set_ram f m) /\
    0 <= f a < 256 /\ get_bits 0 6 (f a) = 5 /\ Z.testbit (f a) 6 = (w =? 1) /\ f (a + 1) = at_ m (a + 1) /\
    get_le 2 f (a + 2) = (count - 1) / 16 + 1 /\ only a 4 (at_ m) f.
Proof.
  intros Hp Ho1 Ho2 Hw Hc a Hb H5. unfold set_header.
  erewrite bind_eq; [|apply (ld_eq 1 _ p o); (done || lia)].
  erewrite bind_eq; [|apply (st_eq 1 _ p o); (done || lia)].
  erewrite bind_eq; [|apply (ld_eq 1 _ p o); (done || lia)].
  erewrite bind_eq; [|apply (st_eq 1 _ p o); (done || lia)].
  rewrite (st_eq 2 _ p (o + 2)) by (done || lia). fold a. rewrite !get_le_1. cbn [ram wd set_ram].
  destruct (header_byte _ w Hb H5 Hw) as (B1 & B2 & B3).
  assert (0 <= set_bits 0 5 (at_ m a) 5 < 256) as B0 by (apply (set_bits_bound 8); lia).
  replace (page_of p + (o + 2)) with (a + 2) by lia. rewrite put_1 by done.
  assert (u16 (Z.shiftr (u32 (count - 1)) 4) + 1 = (count - 1) / 16 + 1) as E.
  { unfold u32. rewrite wrap_small by lia. rewrite Z.shiftr_div_pow2 by lia. change (2 ^ 4) with 16. unfold u16. rewrite wrap_small; [done|].
    split; [apply Z.div_pos; lia|]. apply Z.div_lt_upper_bound; lia. }
  rewrite E. assert (0 <= (count - 1) / 16 < 2 ^ 15) as Hq by (split; [apply Z.div_pos; lia|apply Z.div_lt_upper_bound; lia]).
  eexists. split; [reflexivity|]. rewrite !(put_le_out 2 _ (a + 2) _ a), !(put_le_out 2 _ (a + 2) _ (a + 1)) by lia.
  rewrite (put_1 _ a) by done. split_and!; try lia; try done.
  - by rewrite !put_le_out by lia.
  - apply get_put_same. change (256 ^ Z.of_nat 2) with (2 ^ 16). lia.
  - intros x Hx. by rewrite !put_le_out by lia.
Qed.

Definition entry_at (p i : Z) : Z := page_of p + 0x80 + 16 * i.
Lemma get_le_add n k f a : get_le (n + k) f a = get_le n f a + 256 ^ Z.of_nat n * get_le k f (a + Z.of_nat n).
Proof.
  revert a. induction n as [|n IH]; intros a; cbn [get_le Nat.add]; [rewrite Z.add_0_r; cbn; lia|].
  rewrite IH, Nat2Z.inj_succ, Z.pow_succ_r by lia. replace (a + 1 + Z.of_nat n) with (a + Z.succ (Z.of_nat n)) by lia. lia.
Qed.
Lemma get_bits_mod lo n w x : 0 <= lo -> 0 <= n -> lo + n <= w -> get_bits lo n (x mod 2 ^ w) = get_bits lo n x.
Proof.
  intros. apply Z.bits_inj'. intros i Hi. rewrite !get_bits_testbit, Z.testbit_mod_pow2 by lia.
  destruct (Z.ltb_spec i n); [|done]. by destruct (Z.ltb_spec (i + lo) w); [|lia].
Qed.

Lemma set_dba_spec p i bp m : page_addr p -> 0 <= i -> 0x80 + 16 * i + 16 <= 4096 -> 0 <= bp < 2 ^ 64 ->
  exists f, set_dba page_of p i bp m = Done () (set_ram f m) /\ get_le 8 f (entry_at p i) = bp /\ only (entry_at p i) 8 (at_ m) f.
Proof.
  intros Hp Hi1 Hi2 Hbp. unfold set_dba, prdt_entry.
  erewrite bind_eq; [|apply (st_eq 4 _ p (0x80 + 16 * i)); (done || lia)].
  rewrite (st_eq 4 _ p (0x80 + 16 * i + 4)) by (done || lia).
  replace (page_of p + (0x80 + 16 * i)) with (entry_at p i) by (unfold entry_at; lia).
  replace (page_of p + (0x80 + 16 * i + 4)) with (entry_at p i + 4) by (unfold entry_at; lia).
  eexists. split; [reflexivity|]. cbn [ram wd set_ram]. split.
  - rewrite (get_le_add 4 4), get_put_le_ne, !get_put_le by (cbn; lia). change (256 ^ Z.of_nat 4) with (2 ^ 32).
    change 0xffffffff with (Z.ones 32). rewrite !Z.land_ones, !Z.mod_mod, Z.shiftr_div_pow2 by lia.
    rewrite (Z.mod_small (bp / 2 ^ 32)); [pose proof (Z.div_mod bp (2 ^ 32) ltac:(lia)); lia|].
    split; [apply Z.div_pos; lia|apply Z.div_lt_upper_bound; lia].
  - intros x Hx. by rewrite !put_le_out by lia.
Qed.
Lemma set_dbc_spec p i v m : page_addr p -> 0 <= i -> 0x80 + 16 * i + 16 <= 4096 ->
  exists f, set_dbc page_of p i v m = Done () (set_ram f m) /\
    get_bits 0 22 (get_le 4 f (entry_at p i + 12)) = v mod 2 ^ 22 /\ only (entry_at p i + 12) 4 (at_ m) f.
Proof.
  intros Hp Hi1 Hi2. unfold set_dbc, prdt_entry.
  erewrite bind_eq; [|apply (ld_eq 4 _ p (0x80 + 16 * i + 12)); (done || lia)].
  rewrite (st_eq 4 _ p (0x80 + 16 * i + 12)) by (done || lia).
  replace (page_of p + (0x80 + 16 * i + 12)) with (entry_at p i + 12) by (unfold entry_at; lia).
  eexists. split; [reflexivity|]. split; [|exact (only_put 4 _ _ _)].
  rewrite get_put_le. change (256 ^ Z.of_nat 4) with (2 ^ 32). by rewrite get_bits_mod, get_set_bits by lia.
Qed.
Lemma set_i_spec p i m : page_addr p -> 0 <= i -> 0x80 + 16 * i + 16 <= 4096 ->
  exists f, set_i page_of p i m = Done () (set_ram f m) /\
    get_bits 0 22 (get_le 4 f (entry_at p i + 12)) = get_bits 0 22 (get_le 4 (at_ m) (entry_at p i + 12)) /\
    only (entry_at p i + 12) 4 (at_ m) f.
Proof.
  intros Hp Hi1 Hi2. unfold set_i, prdt_entry.
  erewrite bind_eq; [|apply (ld_eq 4 _ p (0x80 + 16 * i + 12)); (done || lia)].
  rewrite (st_eq 4 _ p (0x80 + 16 * i + 12)) by (done || lia).
  replace (page_of p + (0x80 + 16 * i + 12)) with (entry_at p i + 12) by (unfold entry_at; lia).
  eexists. split; [reflexivity|]. split; [|exact (only_put 4 _ _ _)].
  rewrite get_put_le. change (256 ^ Z.of_nat 4) with (2 ^ 32). by rewrite get_bits_mod, get_set_bits_ne by lia.
Qed.

Lemma four_bytes x : 0 <= x < 2 ^ 32 ->
  x = u8 x + 256 * (u8 (Z.shiftr x 8) + 256 * u8 (Z.shiftr x 16)) + 2 ^ 24 * u8 (Z.shiftr x 24).
Proof.
  intros Hx. rewrite !Z.shiftr_div_pow2 by lia. unfold u8, wrap. change (2 ^ 8) with 256.
  assert (x / 2 ^ 16 = x / 256 / 256) as -> by (rewrite Z.div_div by lia; done).
  assert (x / 2 ^ 24 = x / 256 / 256 / 256) as -> by (rewrite !Z.div_div by lia; done).
  assert (0 <= x / 256 / 256 / 256 < 256) as Hq.
  { rewrite !Z.div_div by lia. split; [apply Z.div_pos; lia|apply Z.div_lt_upper_bound; lia]. }
  rewrite (Z.mod_small (x / 256 / 256 / 256)) by done.
  pose proof (Z.div_mod x 256 ltac:(lia)). pose proof (Z.div_mod (x / 256) 256 ltac:(lia)).
  pose proof (Z.div_mod (x / 256 / 256) 256 ltac:(lia)). lia.
Qed.

Lemma two_bytes x : 0 <= x < 2 ^ 16 -> x = u8 x + 256 * u8 (Z.shiftr x 8).
Proof.
  intros Hx. rewrite Z.shiftr_div_pow2 by lia. unfold u8, wrap. change (2 ^ 8) with 256.
  rewrite (Z.mod_small (x / 256)) by (split; [apply Z.div_pos; lia|apply Z.div_lt_upper_bound; lia]).
  pose proof (Z.div_mod x 256 ltac:(lia)). lia.
Qed.

(** The value of one byte after stores to others. *)
Ltac byte f := unfold f; repeat (rewrite put_le_out by lia); apply put_1; first [lia | done].

Lemma set_fis_spec p command startl starth count m : page_addr p -> 0 <= command < 256 -> 0 <= startl < 2 ^ 32 -> 0 <= starth < 2 ^ 16 ->
  0 <= count < 2 ^ 16 -> let a := page_of p in
  0 <= at_ m (a + 1) < 256 -> get_bits 0 7 (at_ m (a + 1)) = 0 ->
  exists f, set_fis page_of p command startl starth count m = Done () (set_ram f m) /\
    f a = 0x27 /\ f (a + 1) = 0x80 /\ f (a + 2) = command /\ f (a + 7) = 0x40 /\
    get_le 3 f (a + 4) + 2 ^ 24 * get_le 3 f (a + 8) = startl + 2 ^ 32 * starth /\ get_le 2 f (a + 12) = count /\ only a 14 (at_ m) f.
Proof.
  intros Hp Hc Hl Hh Hn a Hb H7. unfold set_fis.
  erewrite bind_eq; [|apply (st_eq 1 _ p 0); (done || lia)].
  erewrite bind_eq; [|apply (ld_eq 1 _ p 1); (done || lia)].
  do 10 (erewrite bind_eq; [|match goal with |- st _ _ (_ + ?o) _ _ = _ => apply (st_eq 1 _ p o); (done || lia) end]).
  rewrite (st_eq 1 _ p 13) by (done || lia). fold a. rewrite get_le_1. cbn [ram wd set_ram].
  rewrite (put_le_out 1 _ (a + 0) _ (a + 1)) by lia. rewrite (fis_byte _ Hb H7). rewrite Z.add_0_r.
  assert (forall x, 0 <= u8 x < 256) as U by (intros x; by apply (wrap_bound 8)).
  assert (Z.land count 0xff = u8 count) as -> by (change 0xff with (Z.ones 8); by rewrite Z.land_ones).
  eexists. split; [reflexivity|]. match goal with |- ?g a = _ /\ _ => set (f := g) end.
  assert (f (a + 4) = u8 startl) as E4 by byte f.
  assert (f (a + 5) = u8 (Z.shiftr startl 8)) as E5 by byte f.
  assert (f (a + 6) = u8 (Z.shiftr startl 16)) as E6 by byte f.
  assert (f (a + 8) = u8 (Z.shiftr startl 24)) as E8 by byte f.
  assert (f (a + 9) = u8 starth) as E9 by byte f.
  assert (f (a + 10) = u8 (Z.shiftr starth 8)) as E10 by byte f.
  assert (f (a + 12) = u8 count) as E12 by byte f.
  assert (f (a + 13) = u8 (Z.shiftr count 8)) as E13 by byte f.
  cbn [get_le]. replace (a + 4 + 1) with (a + 5) by lia. replace (a + 5 + 1) with (a + 6) by lia.
  replace (a + 8 + 1) with (a + 9) by lia. replace (a + 9 + 1) with (a + 10) by lia. replace (a + 12 + 1) with (a + 13) by lia.
  rewrite E4, E5, E6, E8, E9, E10, E12, E13. split_and!.
  1-4: byte f.
  - pose proof (four_bytes startl Hl). pose proof (two_bytes starth Hh). lia.
  - pose proof (two_bytes count Hn). lia.
  - intros x Hx. unfold f. by rewrite !put_le_out by lia.
Qed.

(** ** Pages that are apart *)
Definition apart (l : list Z) : Prop :=
  Forall (fun p => page_addr p /\ 0 <= page_of p < 2 ^ 32 /\ page_of p mod 4096 = 0) l /\ NoDup (page_of <$> l).

Lemma apart_in l i p : apart l -> l !! i = Some p -> page_addr p /\ 0 <= page_of p < 2 ^ 32 /\ page_of p mod 4096 = 0.
Proof. intros [Hl _] Hi. by eapply (Forall_lookup_1 _ _ _ _ Hl). Qed.
Lemma aligned_apart a b : a mod 4096 = 0 -> b mod 4096 = 0 -> a <> b -> a + 4096 <= b \/ b + 4096 <= a.
Proof.
  intros Ha Hb Hne. pose proof (Z.div_mod a 4096 ltac:(lia)). pose proof (Z.div_mod b 4096 ltac:(lia)).
  assert (a / 4096 <> b / 4096) by congruence. lia.
Qed.
Lemma apart_two l i j p q : apart l -> l !! i = Some p -> l !! j = Some q -> i <> j ->
  page_of p + 4096 <= page_of q \/ page_of q + 4096 <= page_of p.
Proof.
  intros Hl Hi Hj Hne. destruct (apart_in l i p Hl Hi) as (_ & _ & Hp). destruct (apart_in l j q Hl Hj) as (_ & _ & Hq).
  apply aligned_apart; [done..|]. intros E. apply Hne. destruct Hl as [_ Hn].
  eapply (NoDup_lookup _ _ _ (page_of p) Hn); by rewrite list_lookup_fmap, ?Hi, ?Hj; cbn; congruence.
Qed.

(** The slot [s] of the command list at [a] with its table at [t]: what a command
    leaves as it is. *)
Record slot_ok (f : memory) (a t s : Z) : Prop := {
  so_byte : 0 <= f (a + 32 * s) < 256;
  so_atapi : Z.testbit (f (a + 32 * s)) 5 = false;
  so_flags : f (a + 32 * s + 1) = 0;
  so_table : get_le 8 f (a + 32 * s + 8) = t;
  so_fis : 0 <= f (t + 1) < 256;
  so_pmport : get_bits 0 7 (f (t + 1)) = 0 }.

Definition owned (pd : port_data) : list Z := pd_clb pd :: pd_fb pd :: pd_ctba pd.
Definition slots_ok (pd : port_data) (f : memory) : Prop :=
  forall s t, pd_ctba pd !! s = Some t -> slot_ok f (page_of (pd_clb pd)) (page_of t) (Z.of_nat s).
(** Where the command in slot 0 and the controller write. *)
Definition outside (pd : port_data) (t b : Z) (x : Z) : Prop :=
  ~ page_of b <= x < page_of b + 4096 /\ ~ page_of (pd_fb pd) <= x < page_of (pd_fb pd) + 4096 /\
  ~ page_of t <= x < page_of t + 4096 /\ ~ page_of (pd_clb pd) <= x < page_of (pd_clb pd) + 32.

Lemma slot_ok_ext f g a t s :
  (forall x, a + 32 * s <= x < a + 32 * s + 2 \/ a + 32 * s + 8 <= x < a + 32 * s + 16 \/ x = t + 1 -> g x = f x) ->
  slot_ok f a t s -> slot_ok g a t s.
Proof.
  intros Hg [H1 H2 H3 H4 H5 H6]. split; rewrite ?Hg by lia; try done.
  rewrite <- H4. apply get_le_ext. intros x Hx. apply Hg. lia.
Qed.
Lemma slots_frame pd b t f g : apart (b :: owned pd) -> length (pd_ctba pd) = 32%nat -> pd_ctba pd !! O = Some t -> slots_ok pd f ->
  (forall x, outside pd t b x -> g x = f x) -> slot_ok g (page_of (pd_clb pd)) (page_of t) 0 -> slots_ok pd g.
Proof.
  intros Ha Hn Ht Hf Hg H0 s t' Hs. destruct s as [|s]; [by replace t' with t by congruence|].
  eapply slot_ok_ext; [|by apply Hf]. intros x Hx. apply Hg. pose proof (lookup_lt_Some _ _ _ Hs).
  pose proof (apart_two _ O 1 _ _ Ha eq_refl eq_refl ltac:(done)).
  pose proof (apart_two _ 1 2 _ _ Ha eq_refl eq_refl ltac:(done)).
  pose proof (apart_two _ 1 3 (pd_clb pd) t Ha eq_refl Ht ltac:(done)).
  pose proof (apart_two _ O (S (S (S (S s)))) b t' Ha eq_refl Hs ltac:(done)).
  pose proof (apart_two _ 2 (S (S (S (S s)))) (pd_fb pd) t' Ha eq_refl Hs ltac:(done)).
  pose proof (apart_two _ 3 (S (S (S (S s)))) t t' Ha Ht Hs ltac:(done)).
  pose proof (apart_two _ 1 (S (S (S (S s)))) (pd_clb pd) t' Ha eq_refl Hs ltac:(done)).
  unfold outside. lia.
Qed.

(** ** The command in memory *)
Lemma decode_one f a t w command lba count bp n :
  get_bits 0 6 (f a) = 5 -> Z.testbit (f a) 6 = w -> f (a + 1) = 0 -> get_le 2 f (a + 2) = 1 -> get_le 8 f (a + 8) = t ->
  f t = 0x27 -> f (t + 1) = 0x80 -> f (t + 2) = command -> command = (if w then 0x35 else 0x25) -> f (t + 7) = 0x40 ->
  get_le 3 f (t + 4) + 2 ^ 24 * get_le 3 f (t + 8) = lba -> get_le 2 f (t + 12) = count ->
  get_le 8 f (t + 0x80) = bp -> get_bits 0 22 (get_le 4 f (t + 0x80 + 12)) = n ->
  decode f a 0 = Some (mkCommand w lba count [(bp, n + 1)]).
Proof.
  intros H1 H2 H3 H4 H5 H6 H7 H8 H9 H10 H11 H12 H13 H14. unfold decode, header_of. rewrite Z.mul_0_r, Z.add_0_r.
  rewrite H1, H2, H3, H4, H5, H6, H7, H8, H10, H11, H12, <- H9, Z.eqb_refl. cbn [andb Z.eqb Pos.eqb].
  change (Z.testbit 64 6) with true. change (Z.to_nat 1) with 1%nat. cbn [seq fmap list_fmap]. unfold region_of.
  rewrite Z.mul_0_r, Z.add_0_r, H13, H14. by rewrite Z.eqb_refl.
Qed.
End memory.

(** ** Waiting for the controller *)
Section controller.
Context `{!Hba} (page_of : Z -> Z) (port : Z) `{!HbaLaws port}.
Implicit Types m : machine.

Lemma rd_eq r m v w : reg_read r (wd m) = (v, w) -> rd r m = Done v (mkMachine w (pages m)).
Proof. intros E. unfold rd. by rewrite E. Qed.
Lemma wr_eq r v m w : reg_write r v (wd m) = w -> wr r v m = Done () (mkMachine w (pages m)).
Proof. intros E. unfold wr. by rewrite modify_eq, E. Qed.

(** The bit that [wait_ci] tests. *)
Lemma slot_bit v slot : 0 <= slot -> (Z.land v (Z.shiftl 1 slot) =? 0) = negb (Z.testbit v slot).
Proof.
  intros Hs. rewrite Z.shiftl_1_l. destruct (Z.testbit v slot) eqn:E; cbn.
  - apply Z.eqb_neq. intros H0. assert (Z.testbit (Z.land v (2 ^ slot)) slot = true) as Ht.
    { rewrite Z.land_spec, E, Z.pow2_bits_true by done. done. }
    rewrite H0, Z.bits_0 in Ht. done.
  - apply Z.eqb_eq. apply Z.bits_inj'. intros i Hi. rewrite Z.land_spec, Z.bits_0, Z.pow2_bits_eqb by done.
    destruct (Z.eqb_spec slot i) as [<-|]; [by rewrite E|by rewrite andb_false_r].
Qed.

Lemma wait_tfd_spec n : forall clb fb spin m, spin <= 1000000 -> idle clb fb n (hw (wd m)) ->
  exists d, (spin + Z.of_nat n <= 1000000 -> idle clb fb O d) /\ forall fuel, (n < fuel)%nat ->
    wait_tfd fuel port spin m = Done (Z.min (spin + Z.of_nat n) 1000000) (mkMachine (mkWorld d (ram (wd m)) (sectors (wd m))) (pages m)).
Proof.
  induction n as [|n IH]; intros clb fb spin [[d f s] l] Hsp Hi; cbn [wd hw] in Hi;
    destruct (idle_tfd clb fb _ d f s Hi) as (v & d' & E & Hv & Hi').
  - exists d'. split; [done|]. intros [|fuel] Hf; [lia|]. cbn [wait_tfd].
    rewrite (bind_eq _ _ _ _ _ (rd_eq _ (mkMachine (mkWorld d f s) l) v _ E)). rewrite (proj2 Hv eq_refl), Z.eqb_refl. cbn [negb andb].
    rewrite mret_eq. f_equal. lia.
  - destruct (decide (spin < 1000000)) as [Hlt|Hge].
    + destruct (IH clb fb (spin + 1) (mkMachine (mkWorld d' f s) l)) as (d2 & Hd & E2); [lia|done|].
      exists d2. split; [intros; apply Hd; lia|]. intros [|fuel] Hf; [lia|]. cbn [wait_tfd].
      rewrite (bind_eq _ _ _ _ _ (rd_eq _ (mkMachine (mkWorld d f s) l) v _ E)).
      destruct (Z.eqb_spec (Z.land v (Z.lor 0x80 0x08)) 0) as [H0|_]; [by apply Hv in H0|].
      destruct (Z.ltb_spec spin 1000000); [|lia]. cbn [negb andb pages]. rewrite E2 by lia. f_equal. lia.
    + exists d'. split; [lia|]. intros [|fuel] Hf; [lia|]. cbn [wait_tfd].
      rewrite (bind_eq _ _ _ _ _ (rd_eq _ (mkMachine (mkWorld d f s) l) v _ E)).
      destruct (Z.ltb_spec spin 1000000); [lia|]. rewrite andb_false_r, mret_eq. f_equal. lia.
Qed.

Lemma wait_ci_spec n : forall clb fb slot o m, 0 <= slot -> busy clb fb slot n o (hw (wd m)) ->
  exists w, match o with Some (f, s) => ram w = f /\ sectors w = s /\ exists k, idle clb fb k (hw w) | None => True end /\
    forall fuel, (n < fuel)%nat ->
    wait_ci fuel port slot m = Done (match o with Some _ => true | None => false end) (mkMachine w (pages m)).
Proof.
  induction n as [|n IH]; intros clb fb slot o m Hs Hb; destruct (busy_ci _ _ _ _ _ _ Hb) as (v & w & E & Hw).
  - destruct o as [[f s]|].
    + destruct Hw as [Hv Hw]. exists w. split; [done|]. intros [|fuel] Hf; [lia|]. cbn [wait_ci].
      by rewrite (bind_eq _ _ _ _ _ (rd_eq _ m v w E)), slot_bit, Hv by done.
    + destruct Hw as [Hv Hw]. destruct (busy_status _ _ _ _ _ _ Hw) as (v' & w' & E' & Hv' & _).
      exists w'. split; [done|]. intros [|fuel] Hf; [lia|]. cbn [wait_ci].
      rewrite (bind_eq _ _ _ _ _ (rd_eq _ m v w E)), slot_bit, Hv by done. cbn [negb].
      rewrite (bind_eq _ _ _ _ _ (rd_eq _ (mkMachine w (pages m)) v' w' E')). by rewrite (proj2 Hv') by done.
  - destruct Hw as [Hv Hw]. destruct (busy_status _ _ _ _ _ _ Hw) as (v' & w' & E' & Hv' & Hw').
    assert (forall fuel, wait_ci (S fuel) port slot m =
      (if TFES v' then mret false else wait_ci fuel port slot) (mkMachine w' (pages m))) as Es.
    { intros fuel. cbn [wait_ci]. rewrite (bind_eq _ _ _ _ _ (rd_eq _ m v w E)), slot_bit, Hv by done. cbn [negb].
      by rewrite (bind_eq _ _ _ _ _ (rd_eq _ (mkMachine w (pages m)) v' w' E')). }
    destruct (TFES v').
    + destruct (proj1 Hv' eq_refl) as [-> ->]. exists w'. split; [done|]. intros [|fuel] Hf; [lia|]. by rewrite Es.
    + destruct (IH clb fb slot o (mkMachine w' (pages m)) Hs Hw') as (w2 & H2 & E2).
      exists w2. split; [done|]. intros [|fuel] Hf; [lia|]. rewrite Es. apply E2. lia.
Qed.

(** A command is issued and carried out, or fails; or the port stays busy. *)
Lemma issue_spec clb fb n slot c m : idle clb fb n (hw (wd m)) -> 0 <= slot < 32 -> decode (ram (wd m)) clb slot = Some c -> complete c -> accepts c ->
  let e := execute c clb slot (ram (wd m)) (sectors (wd m)) in
  exists fuel0 r w, (forall fuel, (fuel0 <= fuel)%nat -> issue fuel port slot m = Done r (mkMachine w (pages m))) /\
    ((r = 0 /\ (may_fail c \/ 1000000 <= Z.of_nat n)) \/
     (r = 1 /\ but_fis fb (ram w) e.1 /\ sectors w = e.2 /\ exists k, idle clb fb k (hw w))).
Proof.
  intros Hi Hs Hc Hok Hacc e. destruct (wait_tfd_spec n clb fb 0 m) as (d & Hd & Et); [lia|done|].
  destruct (decide (1000000 <= Z.of_nat n)) as [Hhung|Hn].
  { exists (S n), 0. eexists. split; [|left; auto]. intros fuel Hf. unfold issue. rewrite (bind_eq _ _ _ _ _ (Et fuel Hf)).
    replace (Z.min _ _) with 1000000 by lia. reflexivity. }
  destruct (idle_issue clb fb d (ram (wd m)) (sectors (wd m)) slot c) as (d1 & k & o & Ew & Hb & Ho); [apply Hd; lia|done..|].
  set (m1 := mkMachine (mkWorld d1 (ram (wd m)) (sectors (wd m))) (pages m)).
  destruct (wait_ci_spec k clb fb slot o m1) as (w & Hw & Ec); [lia|done|].
  assert (forall fuel, (S n + S k <= fuel)%nat -> issue fuel port slot m =
    (if negb (match o with Some _ => true | None => false end) then mret 0
     else stat ← rd (port + P_IS); mret (if TFES stat then 0 else 1)) (mkMachine w (pages m))) as E.
  { intros fuel Hf. unfold issue. rewrite (bind_eq _ _ _ _ _ (Et fuel ltac:(lia))).
    destruct (Z.eqb_spec (Z.min (0 + Z.of_nat n) 1000000) 1000000); [lia|].
    rewrite (bind_eq _ _ _ _ _ (wr_eq _ _ (mkMachine (mkWorld d (ram (wd m)) (sectors (wd m))) (pages m)) _ Ew)).
    rewrite (bind_eq _ _ _ _ _ (Ec fuel ltac:(lia))). done. }
  destruct o as [[f' s']|].
  - destruct Hw as (Hf & Hs' & k2 & Hk), Ho as [Hb1 Hs1]. destruct w as [d2 f2 s2]. cbn [ram sectors hw] in Hf, Hs', Hk. subst f2 s2.
    destruct (idle_status clb fb k2 d2 f' s' Hk) as (v & d3 & Ev & Hv & Hk').
    exists (S n + S k)%nat, 1, (mkWorld d3 f' s'). split; [|right; split_and!; [done|exact Hb1|exact Hs1|by exists k2]].
    intros fuel Hf. rewrite E by done. cbn [negb]. rewrite (bind_eq _ _ _ _ _ (rd_eq _ (mkMachine _ _) _ _ Ev)), Hv. reflexivity.
  - exists (S n + S k)%nat, 0. eexists. split; [|left; auto]. intros fuel Hf. by rewrite E.
Qed.

Lemma find_cmdslot_idle clb fb n m : idle clb fb n (hw (wd m)) -> 0 < Z.shiftr (Z.land (static R_CAP) 0x0f00) 8 ->
  exists d, find_cmdslot port m = Done 0 (mkMachine (mkWorld d (ram (wd m)) (sectors (wd m))) (pages m)) /\ idle clb fb n d.
Proof.
  destruct m as [[d f s] l]. cbn [wd hw ram sectors pages]. intros Hi Hc. unfold find_cmdslot.
  destruct (idle_slots clb fb n d f s (port + P_SACT) Hi) as (d1 & E1 & H1); [auto|].
  destruct (idle_slots clb fb n d1 f s (port + P_CI) H1) as (d2 & E2 & H2); [auto|].
  rewrite (bind_eq _ _ _ _ _ (rd_eq _ (mkMachine _ _) _ _ E1)), (bind_eq _ _ _ _ _ (rd_eq _ (mkMachine _ _) _ _ E2)).
  rewrite (bind_eq _ _ _ _ _ (rd_eq _ (mkMachine _ _) _ _ (static_read R_CAP _ (or_introl eq_refl)))).
  exists d2. split; [|done]. rewrite mret_eq. f_equal. destruct (Z.to_nat _) eqn:En; [lia|]. done.
Qed.
End controller.

(** ** Reading and writing sectors *)
Section commands.
Context `{!Hba} (page_of : Z -> Z) (port : Z) `{!HbaLaws port}.
Implicit Types m : machine.
Implicit Types pd : port_data.
Local Notation at_ m := (ram (wd m)).

Record port_ok (pd : port_data) (m : machine) : Prop := {
  po_port : pd_port pd = port;
  po_slots : length (pd_ctba pd) = 32%nat;
  po_apart : apart page_of (owned pd);
  po_idle : exists n, idle (page_of (pd_clb pd)) (page_of (pd_fb pd)) n (hw (wd m));
  po_memory : slots_ok page_of pd (at_ m) }.

(** The header is filled in first, the table afterwards. *)
Lemma filled P T f0 f1 f w command lba count bp n :
  P + 4096 <= T \/ T + 4096 <= P -> slot_ok f0 P T 0 -> only P 4 f0 f1 -> only T 4096 f1 f ->
  0 <= f1 P < 256 -> get_bits 0 6 (f1 P) = 5 -> Z.testbit (f1 P) 6 = w -> f1 (P + 1) = f0 (P + 1) -> get_le 2 f1 (P + 2) = 1 ->
  f T = 0x27 -> f (T + 1) = 0x80 -> f (T + 2) = command -> command = (if w then 0x35 else 0x25) -> f (T + 7) = 0x40 ->
  get_le 3 f (T + 4) + 2 ^ 24 * get_le 3 f (T + 8) = lba -> get_le 2 f (T + 12) = count ->
  get_le 8 f (T + 0x80) = bp -> get_bits 0 22 (get_le 4 f (T + 0x80 + 12)) = n ->
  decode f P 0 = Some (mkCommand w lba count [(bp, n + 1)]) /\ slot_ok f P T 0.
Proof.
  intros Hd [S1 S2 S3 S4 S5 S6] O1 O2 H1 H2 H3 Hp1 H4 H5 H6 H7 H8 H9 H10 H11 H12 H13. rewrite !Z.mul_0_r, !Z.add_0_r in *.
  assert (f P = f1 P) as E0 by (apply O2; lia). assert (f (P + 1) = f0 (P + 1)) as E1 by (rewrite O2 by lia; done).
  assert (get_le 8 f (P + 8) = T) as E8.
  { rewrite (only_le T 4096 f1 f) by (done || lia). rewrite (only_le P 4 f0 f1) by (done || lia). done. }
  split.
  - apply (decode_one f P T w command); rewrite ?E0, ?E1; try done.
    rewrite (only_le T 4096 f1 f) by (done || lia). done.
  - split; rewrite ?Z.mul_0_r, ?Z.add_0_r, ?E0, ?E1; try done.
    + change 5 with (5 + 0). assert (Z.testbit (get_bits 0 6 (f1 P)) 5 = false) as Hb by (by rewrite H2).
      rewrite get_bits_testbit in Hb by lia. done.
    + rewrite H6. lia.
    + by rewrite H6.
Qed.

(** One region is enough for 16 sectors. *)
Lemma one_region fuel h t bp count m : page_addr h -> get_le 2 (at_ m) (page_of h + 2) = 0 + 1 ->
  read_prdt page_of (S fuel) h t bp 0 count m = Done (0, count) m.
Proof. intros Hp E. cbn [read_prdt]. rewrite (bind_eq _ _ _ _ _ (ld_eq page_of 2 _ h 2 m eq_refl Hp ltac:(lia))), E. done. Qed.

Lemma read_fill pd t startl starth count bp m : port_ok pd m -> pd_ctba pd !! O = Some t ->
  1 <= count <= 16 -> 0 <= startl < 2 ^ 32 -> 0 <= starth < 2 ^ 16 -> 0 <= bp < 2 ^ 64 ->
  let h := pd_clb pd + 32 * 0 in
  exists f, (forall fuel, (1 <= fuel)%nat ->
      (set_header page_of h 0 count;;
       tbl ← ctba_of pd 0;
       p ← read_prdt page_of fuel h tbl bp 0 count;
       let '(i, count) := p in
       set_dba page_of tbl i bp;;
       set_dbc page_of tbl i (u32 (Z.shiftl count 9));;
       set_i page_of tbl i;;
       set_fis page_of tbl 0x25 startl starth count;;
       issue fuel (pd_port pd) 0) m = issue fuel port 0 (set_ram f m)) /\
    decode f (page_of (pd_clb pd)) 0 = Some (mkCommand false (startl + 2 ^ 32 * starth) count [(bp, 512 * count + 1)]) /\
    slot_ok f (page_of (pd_clb pd)) (page_of t) 0 /\
    forall x, ~ page_of t <= x < page_of t + 4096 -> ~ page_of (pd_clb pd) <= x < page_of (pd_clb pd) + 32 -> f x = at_ m x.
Proof.
  intros [Hport Hlen Ha _ Hs] Ht Hc Hl Hh Hbp h.
  pose proof (apart_two _ _ O 2 _ _ Ha eq_refl Ht ltac:(done)) as Hd.
  destruct (apart_in _ _ O _ Ha eq_refl) as (Hpc & _ & _). destruct (apart_in _ _ 2 _ Ha Ht) as (Hpt & Hbt & _).
  pose proof (Hs O t Ht) as Hslot. cbn [Z.of_nat] in Hslot.
  pose proof Hslot as [S1 S2 S3 S4 S5 S6]. rewrite !Z.mul_0_r, !Z.add_0_r in S1, S2.
  destruct (set_header_spec page_of (pd_clb pd) 0 0 count m) as (f1 & E1 & B1 & B2 & B3 & B4 & B5 & O1); try (done || lia).
  { by rewrite Z.add_0_r. } { by rewrite Z.add_0_r. } rewrite Z.add_0_r in *.
  rewrite Z.div_small in B5 by lia.
  destruct (set_dba_spec page_of t 0 bp (set_ram f1 m)) as (f2 & E2 & V2 & O2); [done|lia..|].
  destruct (set_dbc_spec page_of t 0 (u32 (Z.shiftl count 9)) (set_ram f2 m)) as (f3 & E3 & V3 & O3); [done|lia..|].
  destruct (set_i_spec page_of t 0 (set_ram f3 m)) as (f4 & E4 & V4 & O4); [done|lia..|].
  unfold entry_at in *. cbn [ram wd set_ram] in *. rewrite Z.mul_0_r, Z.add_0_r in *.
  assert (f4 (page_of t + 1) = at_ m (page_of t + 1)) as Hb1 by (rewrite O4, O3, O2, O1 by lia; done).
  destruct (set_fis_spec page_of t 0x25 startl starth count (set_ram f4 m)) as (f & E5 & W1 & W2 & W3 & W4 & W5 & W6 & O5); try (done || lia).
  { cbn [ram wd set_ram]. by rewrite Hb1. } { cbn [ram wd set_ram]. by rewrite Hb1. }
  cbn [ram wd set_ram] in *. exists f. split.
  - intros [|fuel] Hf; [lia|]. unfold h. rewrite Z.mul_0_r, (Z.add_0_r (pd_clb pd)).
    rewrite (bind_eq _ _ _ _ _ E1). unfold ctba_of. cbn [Z.ltb Z.compare]. change (Z.to_nat 0) with O.
        rewrite (bind_eq _ _ _ _ _ (deref_eq _ _ _ Ht)), (bind_eq _ _ _ _ _ (one_region _ _ _ _ _ (set_ram f1 m) Hpc B5)).
    rewrite (bind_eq _ _ _ _ _ E2), (bind_eq _ _ _ _ _ E3), (bind_eq _ _ _ _ _ E4), (bind_eq _ _ _ _ _ E5), Hport. done.
  - assert (u32 (Z.shiftl count 9) mod 2 ^ 22 = 512 * count) as En.
    { rewrite Z.shiftl_mul_pow2 by lia. change (2 ^ 9) with 512. unfold u32. rewrite wrap_small, Z.mod_small by lia. lia. }
    destruct (filled (page_of (pd_clb pd)) (page_of t) (at_ m) f1 f false 0x25 (startl + 2 ^ 32 * starth) count bp (512 * count))
      as [D1 D2]; try done.
    + intros x Hx. rewrite O5, O4, O3, O2 by lia. done.
    + rewrite (only_le _ _ _ _ _ _ O5), (only_le _ _ _ _ _ _ O4), (only_le _ _ _ _ _ _ O3) by lia. done.
    + rewrite (only_le _ _ _ _ _ _ O5) by lia. by rewrite V4, V3.
    + split; [exact D1|]. split; [exact D2|]. intros x Hx1 Hx2. rewrite O5, O4, O3, O2, O1 by lia. done.
Qed.

Lemma one_region_w fuel h t bp count m : page_addr h -> get_le 2 (at_ m) (page_of h + 2) = 0 + 1 ->
  write_prdt page_of (S fuel) h t bp 0 count m = Done (0, count) m.
Proof. intros Hp E. cbn [write_prdt]. rewrite (bind_eq _ _ _ _ _ (ld_eq page_of 2 _ h 2 m eq_refl Hp ltac:(lia))), E. done. Qed.

Lemma write_fill pd t startl starth count bp m : port_ok pd m -> pd_ctba pd !! O = Some t ->
  1 <= count <= 16 -> 0 <= startl < 2 ^ 32 -> 0 <= starth < 2 ^ 16 -> 0 <= bp < 2 ^ 64 ->
  let h := pd_clb pd + 32 * 0 in
  exists f, (forall fuel, (1 <= fuel)%nat ->
      (set_header page_of h 1 count;;
       tbl ← ctba_of pd 0;
       prdtl ← ld page_of 2 (h + 2);
       clear page_of (Z.to_nat (0x90 + (prdtl - 1) * 16)) tbl;;
       p ← write_prdt page_of fuel h tbl bp 0 count;
       let '(i, count) := p in
       set_dba page_of tbl i bp;;
       set_dbc page_of tbl i (u32 (u32 (Z.shiftl count 9) - 1));;
       set_fis page_of tbl 0x35 startl starth count;;
       issue fuel (pd_port pd) 0) m = issue fuel port 0 (set_ram f m)) /\
    decode f (page_of (pd_clb pd)) 0 = Some (mkCommand true (startl + 2 ^ 32 * starth) count [(bp, 512 * count)]) /\
    slot_ok f (page_of (pd_clb pd)) (page_of t) 0 /\
    forall x, ~ page_of t <= x < page_of t + 4096 -> ~ page_of (pd_clb pd) <= x < page_of (pd_clb pd) + 32 -> f x = at_ m x.
Proof.
  intros [Hport Hlen Ha _ Hs] Ht Hc Hl Hh Hbp h.
  pose proof (apart_two _ _ O 2 _ _ Ha eq_refl Ht ltac:(done)) as Hd.
  destruct (apart_in _ _ O _ Ha eq_refl) as (Hpc & _ & _). destruct (apart_in _ _ 2 _ Ha Ht) as (Hpt & Hbt & _).
  pose proof (Hs O t Ht) as Hslot. cbn [Z.of_nat] in Hslot.
  pose proof Hslot as [S1 S2 S3 S4 S5 S6]. rewrite !Z.mul_0_r, !Z.add_0_r in S1, S2.
  destruct (set_header_spec page_of (pd_clb pd) 0 1 count m) as (f1 & E1 & B1 & B2 & B3 & B4 & B5 & O1); try (done || lia).
  { by rewrite Z.add_0_r. } { by rewrite Z.add_0_r. } rewrite Z.add_0_r in *.
  rewrite Z.div_small in B5 by lia.
  destruct (clear_spec page_of (Z.to_nat 0x90) t 0 (set_ram f1 m)) as (f0 & E0 & O0 & Z0); [done|lia..|]. rewrite !Z.add_0_r in *.
  destruct (set_dba_spec page_of t 0 bp (set_ram f0 m)) as (f2 & E2 & V2 & O2); [done|lia..|].
  destruct (set_dbc_spec page_of t 0 (u32 (u32 (Z.shiftl count 9) - 1)) (set_ram f2 m)) as (f4 & E3 & V3 & O3); [done|lia..|].
  unfold entry_at in *. cbn [ram wd set_ram] in *. rewrite Z.mul_0_r, Z.add_0_r in *.
  assert (f4 (page_of t + 1) = 0) as Hb1 by (rewrite O3, O2 by lia; apply Z0; lia).
  destruct (set_fis_spec page_of t 0x35 startl starth count (set_ram f4 m)) as (f & E5 & W1 & W2 & W3 & W4 & W5 & W6 & O5); try (done || lia).
  { cbn [ram wd set_ram]. rewrite Hb1. lia. } { cbn [ram wd set_ram]. by rewrite Hb1. }
  cbn [ram wd set_ram] in *. exists f. split.
  - intros [|fuel] Hf; [lia|]. unfold h. rewrite Z.mul_0_r, (Z.add_0_r (pd_clb pd)).
    rewrite (bind_eq _ _ _ _ _ E1). unfold ctba_of. cbn [Z.ltb Z.compare]. change (Z.to_nat 0) with O.
    rewrite (bind_eq _ _ _ _ _ (deref_eq _ _ _ Ht)).
    rewrite (bind_eq _ _ _ _ _ (ld_eq page_of 2 _ (pd_clb pd) 2 (set_ram f1 m) eq_refl Hpc ltac:(lia))).
    cbn [ram wd set_ram]. rewrite B5. change (0x90 + (0 + 1 - 1) * 16) with 0x90.
    rewrite (bind_eq _ _ _ _ _ E0), (bind_eq _ _ _ _ _ (one_region_w _ _ _ _ _ (set_ram f0 m) Hpc ltac:(cbn [ram wd set_ram]; rewrite <- B5; apply (only_le _ _ _ _ _ _ O0); lia))).
    rewrite (bind_eq _ _ _ _ _ E2), (bind_eq _ _ _ _ _ E3), (bind_eq _ _ _ _ _ E5), Hport. done.
  - assert (u32 (u32 (Z.shiftl count 9) - 1) mod 2 ^ 22 = 512 * count - 1) as En.
    { rewrite Z.shiftl_mul_pow2 by lia. change (2 ^ 9) with 512. unfold u32. rewrite !wrap_small, Z.mod_small by (rewrite ?wrap_small; lia). lia. }
    destruct (filled (page_of (pd_clb pd)) (page_of t) (at_ m) f1 f true 0x35 (startl + 2 ^ 32 * starth) count bp (512 * count - 1))
      as [D1 D2]; try done.
    + intros x Hx. rewrite O5, O3, O2, O0 by lia. done.
    + rewrite (only_le _ _ _ _ _ _ O5), (only_le _ _ _ _ _ _ O3) by lia. done.
    + rewrite (only_le _ _ _ _ _ _ O5) by lia. by rewrite V3.
    + split; [rewrite D1; repeat f_equal; lia|]. split; [exact D2|]. intros x Hx1 Hx2. rewrite O5, O3, O2, O0, O1 by lia. done.
Qed.

Definition untouched (pd : port_data) (x : Z) : Prop := forall p, p ∈ owned pd -> ~ page_of p <= x < page_of p + 4096.
(** The port does not become ready within the reads that the driver spends on it. *)
Definition stuck (pd : port_data) (m : machine) : Prop :=
  exists n, 1000000 <= Z.of_nat n /\ idle (page_of (pd_clb pd)) (page_of (pd_fb pd)) n (hw (wd m)).
Definition lba_of (startl starth : Z) : Z := startl + 2 ^ 32 * starth.
(** The commands that the two functions give to the controller.  The region of a read
    is one byte longer than the sectors. *)
Definition read_command (startl starth count b : Z) : command := mkCommand false (lba_of startl starth) count [(page_of b, 512 * count + 1)].
Definition write_command (startl starth count b : Z) : command := mkCommand true (lba_of startl starth) count [(page_of b, 512 * count)].
Lemma even_page b : page_of b mod 4096 = 0 -> Z.even (page_of b) = true.
Proof. intros Hb. pose proof (Z.div_mod (page_of b) 4096 ltac:(lia)) as E. rewrite E, Hb, Z.add_0_r, Z.even_mul. done. Qed.
Lemma write_documented startl starth count b : 1 <= count -> page_of b mod 4096 = 0 -> documented (write_command startl starth count b).
Proof.
  intros Hc Hb. split; [split; cbn; lia|]. apply Forall_singleton. cbn [fst snd]. rewrite even_page by done. rewrite Z.even_mul. done.
Qed.
Lemma read_undocumented startl starth count b : ~ documented (read_command startl starth count b).
Proof. intros [_ H0]. cbn [c_regions read_command] in H0. rewrite Forall_singleton in H0. cbn [fst snd] in H0. rewrite Z.even_add, Z.even_mul in H0. by rewrite andb_comm in H0. Qed.

Lemma untouched_outside pd t b x : pd_ctba pd !! O = Some t -> untouched pd x -> ~ page_of b <= x < page_of b + 4096 -> outside page_of pd t b x.
Proof.
  intros Ht Hx Hb. pose proof (Hx (pd_clb pd) ltac:(unfold owned; set_solver)).
  pose proof (Hx (pd_fb pd) ltac:(unfold owned; set_solver)).
  pose proof (Hx t ltac:(unfold owned; apply list_elem_of_further, list_elem_of_further; by eapply list_elem_of_lookup_2)).
  unfold outside. lia.
Qed.

(** What a command leaves in memory: nothing else than the data changes outside the
    structures, and those are ready for the next one. *)
Lemma carried_out pd b t c f g m n : port_ok pd m -> apart page_of (b :: owned pd) -> pd_ctba pd !! O = Some t ->
  slot_ok f (page_of (pd_clb pd)) (page_of t) 0 ->
  (forall x, ~ page_of t <= x < page_of t + 4096 -> ~ page_of (pd_clb pd) <= x < page_of (pd_clb pd) + 32 -> f x = at_ m x) ->
  (forall x, ~ page_of b <= x < page_of b + n -> c x = f x) -> n <= 4096 ->
  but_fis (page_of (pd_fb pd)) g (put_le 4 c (header_of (page_of (pd_clb pd)) 0 + 4) (n)) ->
  slots_ok page_of pd g /\ (forall x, page_of b <= x < page_of b + 4096 -> g x = c x) /\
  (forall x, untouched pd x -> g x = c x) /\ (forall x, outside page_of pd t b x -> g x = at_ m x).
Proof.
  intros [Hport Hlen Ha _ Hs] Hb Ht Hf0 Hf Hc Hn Hg. unfold header_of in Hg. rewrite Z.mul_0_r, Z.add_0_r in Hg.
  pose proof (apart_two _ _ O 1 _ _ Hb eq_refl eq_refl ltac:(done)) as D1.
  pose proof (apart_two _ _ O 2 _ _ Hb eq_refl eq_refl ltac:(done)) as D2.
  pose proof (apart_two _ _ O 3 _ _ Hb eq_refl Ht ltac:(done)) as D3.
  pose proof (apart_two _ _ 1 2 _ _ Hb eq_refl eq_refl ltac:(done)) as D4.
  pose proof (apart_two _ _ 1 3 _ _ Hb eq_refl Ht ltac:(done)) as D5.
  pose proof (apart_two _ _ 2 3 _ _ Hb eq_refl Ht ltac:(done)) as D6.
  assert (forall x, outside page_of pd t b x -> g x = at_ m x) as Ho.
  { intros x (O1 & O2 & O3 & O4). rewrite Hg, put_le_out, Hc, Hf by lia. done. }
  split_and!.
  - apply (slots_frame page_of pd b t (at_ m) g); try done. eapply slot_ok_ext; [|exact Hf0]. intros x Hx.
    rewrite Hg, put_le_out, Hc by lia. done.
  - intros x Hx. rewrite Hg, put_le_out by lia. done.
  - intros x Hx. pose proof (Hx (pd_clb pd) ltac:(unfold owned; set_solver)). pose proof (Hx (pd_fb pd) ltac:(unfold owned; set_solver)).
    rewrite Hg, put_le_out by lia. done.
  - exact Ho.
Qed.

(** Up to the free slot both functions do the same. *)
Lemma command_start pd m : port_ok pd m -> 0 < Z.shiftr (Z.land (static R_CAP) 0x0f00) 8 ->
  exists d n, wr (pd_port pd + P_IS) (u32 (-1)) m = Done () (mkMachine (mkWorld d (at_ m) (sectors (wd m))) (pages m)) /\
  exists d', find_cmdslot (pd_port pd) (mkMachine (mkWorld d (at_ m) (sectors (wd m))) (pages m)) =
      Done 0 (mkMachine (mkWorld d' (at_ m) (sectors (wd m))) (pages m)) /\
    idle (page_of (pd_clb pd)) (page_of (pd_fb pd)) n d' /\ idle (page_of (pd_clb pd)) (page_of (pd_fb pd)) n (hw (wd m)).
Proof.
  intros [Hport Hlen Ha [n Hi] Hs] Hcap. rewrite Hport. destruct m as [[d0 f s] l]. cbn [wd hw ram sectors pages] in *.
  destruct (idle_clear _ _ n d0 f s Hi) as (d & E & Hd). exists d, n. split; [by apply wr_eq|].
  destruct (find_cmdslot_idle port _ _ n (mkMachine (mkWorld d f s) l) Hd Hcap) as (d' & E' & Hd'). by exists d'.
Qed.

Lemma untouched_same pd t (f g : memory) x : pd_ctba pd !! O = Some t ->
  (forall x, ~ page_of t <= x < page_of t + 4096 -> ~ page_of (pd_clb pd) <= x < page_of (pd_clb pd) + 32 -> f x = g x) ->
  untouched pd x -> f x = g x.
Proof.
  intros Ht Hf Hx. pose proof (Hx (pd_clb pd) ltac:(unfold owned; set_solver)). apply Hf; [|lia].
  apply Hx. unfold owned. apply list_elem_of_further, list_elem_of_further. by eapply list_elem_of_lookup_2.
Qed.

(** [read_sata] of up to 8 sectors into a page: the controller finds in memory the
    command to read these sectors to this page, with a region of an odd size
    ([read_undocumented]); if it takes that and has carried it out the function returns 1, the page holds the sectors, the rest of memory is as it was
    and the port can take the next command.  Otherwise the function returns 0. *)
Lemma read_sata_ok pd b startl starth count m : port_ok pd m -> apart page_of (b :: owned pd) ->
  0 < Z.shiftr (Z.land (static R_CAP) 0x0f00) 8 -> 1 <= count <= 8 -> 0 <= startl < 2 ^ 32 -> 0 <= starth < 2 ^ 16 ->
  accepts (read_command startl starth count b) ->
  exists fuel0 r m', (forall fuel, (fuel0 <= fuel)%nat -> read_sata page_of fuel pd startl starth count b m = Done r m') /\
    pages m' = pages m /\
    ((r = 0 /\ (may_fail (read_command startl starth count b) \/ stuck pd m)) \/
     (r = 1 /\ port_ok pd m' /\ sectors (wd m') = sectors (wd m) /\
      (forall k, 0 <= k < 512 * count -> at_ m' (page_of b + k) = sector_byte (sectors (wd m)) (lba_of startl starth) k) /\
      (forall x, untouched pd x -> ~ page_of b <= x < page_of b + 512 * count -> at_ m' x = at_ m x))).
Proof.
  intros Hok Hb Hcap Hc Hl Hh Hacc. destruct (apart_in _ _ O _ Hb eq_refl) as (Hpb & Hbb & _).
  assert (exists t, pd_ctba pd !! O = Some t) as [t Ht] by (apply lookup_lt_is_Some; rewrite (po_slots _ _ Hok); lia).
  destruct (command_start pd m Hok Hcap) as (d & n & E1 & d' & E2 & Hi & Hi0).
  set (m1 := mkMachine (mkWorld d' (at_ m) (sectors (wd m))) (pages m)).
  assert (port_ok pd m1) as Hok1 by (destruct Hok; split; try done; by exists n).
  destruct (read_fill pd t startl starth count (page_of b) m1 Hok1 Ht ltac:(lia) Hl Hh ltac:(lia)) as (f & Ef & Hdec & Hs0 & Hf).
  destruct (issue_spec port _ _ n 0 _ (set_ram f m1) Hi ltac:(lia) Hdec ltac:(split; cbn; lia) Hacc) as (fuel0 & r & w & Ei & Hr).
  exists (S fuel0), r, (mkMachine w (pages m)). split; [|split; [done|]].
  { intros fuel Hfuel. unfold read_sata. rewrite (bind_eq _ _ _ _ _ E1), (bind_eq _ _ _ _ _ E2). cbn [Z.eqb].
    rewrite physical_eq by done. rewrite Ef, Ei by lia. done. }
  destruct Hr as [(-> & [Hm|Hn])|(-> & Hg & Hsec & Hk)]; [left; auto|left; split; [done|right; by exists n]|right].
  unfold execute in Hg, Hsec. cbn [c_write c_lba c_count c_regions scatter fst snd] in Hg, Hsec. rewrite Z.min_r in Hg by lia.
  match type of Hg with but_fis _ _ (put_le _ ?e _ _) => set (c := e) in Hg end.
  destruct (carried_out pd b t c f (ram w) m (512 * count) Hok Hb Ht Hs0 Hf) as (G1 & G2 & G3 & G4); [|lia|exact Hg|].
  { intros x Hx. unfold c. cbn. destruct (Z.leb_spec (page_of b) x), (Z.ltb_spec x (page_of b + 512 * count)); try done; lia. }
  split; [done|]. split; [by destruct Hok; split|]. split; [done|]. split.
  - intros k Hkk. cbn [wd]. rewrite G2 by lia. unfold c.
    destruct (Z.leb_spec (page_of b) (page_of b + k)), (Z.ltb_spec (page_of b + k) (page_of b + 512 * count)); try lia. cbn [andb].
    by replace (0 + (page_of b + k - page_of b)) with k by lia.
  - intros x Hx Hxb. cbn [wd]. rewrite G3 by done. unfold c.
    destruct (Z.leb_spec (page_of b) x), (Z.ltb_spec x (page_of b + 512 * count)); try lia; cbn [andb];
      by apply (untouched_same pd t).
Qed.

(** [write_sata] of up to 8 sectors from a page: when the controller has carried
    out the command the function returns 1, these sectors and no others hold the
    bytes of the page, and memory is as it was. *)
Lemma write_sata_ok pd b startl starth count m : port_ok pd m -> apart page_of (b :: owned pd) ->
  0 < Z.shiftr (Z.land (static R_CAP) 0x0f00) 8 -> 1 <= count <= 8 -> 0 <= startl < 2 ^ 32 -> 0 <= starth < 2 ^ 16 ->
  exists fuel0 r m', (forall fuel, (fuel0 <= fuel)%nat -> write_sata page_of fuel pd startl starth count b m = Done r m') /\
    pages m' = pages m /\
    ((r = 0 /\ (may_fail (write_command startl starth count b) \/ stuck pd m)) \/
     (r = 1 /\ port_ok pd m' /\ (forall x, untouched pd x -> at_ m' x = at_ m x) /\
      (forall i x, 0 <= x < 512 -> sectors (wd m') i x =
        if (lba_of startl starth <=? i) && (i <? lba_of startl starth + count)
        then at_ m (page_of b + 512 * (i - lba_of startl starth) + x) else sectors (wd m) i x))).
Proof.
  intros Hok Hb Hcap Hc Hl Hh. destruct (apart_in _ _ O _ Hb eq_refl) as (Hpb & Hbb & Hmb).
  assert (exists t, pd_ctba pd !! O = Some t) as [t Ht] by (apply lookup_lt_is_Some; rewrite (po_slots _ _ Hok); lia).
  destruct (command_start pd m Hok Hcap) as (d & n & E1 & d' & E2 & Hi & Hi0).
  set (m1 := mkMachine (mkWorld d' (at_ m) (sectors (wd m))) (pages m)).
  assert (port_ok pd m1) as Hok1 by (destruct Hok; split; try done; by exists n).
  destruct (write_fill pd t startl starth count (page_of b) m1 Hok1 Ht ltac:(lia) Hl Hh ltac:(lia)) as (f & Ef & Hdec & Hs0 & Hf).
  destruct (issue_spec port _ _ n 0 _ (set_ram f m1) Hi ltac:(lia) Hdec ltac:(split; cbn; lia)
    (accepts_documented _ (write_documented startl starth count b ltac:(lia) Hmb))) as (fuel0 & r & w & Ei & Hr).
  exists (S fuel0), r, (mkMachine w (pages m)). split; [|split; [done|]].
  { intros fuel Hfuel. unfold write_sata. rewrite (bind_eq _ _ _ _ _ E1), (bind_eq _ _ _ _ _ E2).
    rewrite physical_eq by done. rewrite Ef, Ei by lia. done. }
  destruct Hr as [(-> & [Hm|Hn])|(-> & Hg & Hsec & Hk)]; [left; auto|left; split; [done|right; by exists n]|right].
  unfold execute in Hg, Hsec. cbn [c_write c_lba c_count c_regions gather fst snd] in Hg, Hsec.
  destruct (carried_out pd b t f f (ram w) m (512 * count) Hok Hb Ht Hs0 Hf) as (G1 & G2 & G3 & G4); [done|lia|exact Hg|].
  split; [done|]. split; [by destruct Hok; split|]. split.
  - intros x Hx. cbn [wd]. rewrite G3 by done. by apply (untouched_same pd t).
  - intros i x Hx. cbn [wd]. rewrite Hsec. cbn. fold (lba_of startl starth).
    destruct (Z.leb_spec (lba_of startl starth) i), (Z.ltb_spec i (lba_of startl starth + count)); try done.
    destruct (Z.leb_spec 0 x), (Z.ltb_spec x 512); try lia. cbn [andb].
    destruct (Z.ltb_spec (512 * (i - lba_of startl starth) + x) (512 * count)); [|lia].
    rewrite Z.add_assoc. apply Hf.
    + pose proof (apart_two _ _ O 3 _ _ Hb eq_refl Ht ltac:(done)). lia.
    + pose proof (apart_two _ _ O 1 _ _ Hb eq_refl eq_refl ltac:(done)). lia.
Qed.
End commands.

(** ** Starting a port *)
Section start.
Context `{!Hba} (page_of : Z -> Z) (port : Z) `{!HbaLaws port}.
Implicit Types m : machine.
Local Notation at_ m := (ram (wd m)).

Definition with_hw (d : dev) (m : machine) : machine := mkMachine (mkWorld d (at_ m) (sectors (wd m))) (pages m).
Lemma rd_hw r m v d : reg_read r (mkWorld (hw (wd m)) (at_ m) (sectors (wd m))) = (v, mkWorld d (at_ m) (sectors (wd m))) ->
  rd r m = Done v (with_hw d m).
Proof. intros E. apply rd_eq. by destruct m as [[]]. Qed.
Lemma wr_hw r v m d : reg_write r v (mkWorld (hw (wd m)) (at_ m) (sectors (wd m))) = mkWorld d (at_ m) (sectors (wd m)) ->
  wr r v m = Done () (with_hw d m).
Proof. intros E. apply wr_eq. by destruct m as [[]]. Qed.

Lemma wait_stopped_spec n : forall a g m, (a <= n)%nat -> stopping a g (hw (wd m)) ->
  exists d, stopping O g d /\ forall fuel, (n < fuel)%nat -> wait_stopped fuel port m = Done () (with_hw d m).
Proof.
  induction n as [|n IH]; intros a g m Hn Hs; destruct (stopping_read a g _ (at_ m) (sectors (wd m)) Hs) as (v & d & E & Hd & H14 & _);
    apply rd_hw in E.
  - assert (a = O) as -> by lia. cbn [pred] in Hd.
    destruct (stopping_read O g d (at_ m) (sectors (wd m)) Hd) as (v2 & d2 & E2 & Hd2 & _ & H15). apply (rd_hw _ (with_hw d m)) in E2.
    exists d2. split; [done|]. intros [|fuel] Hf; [lia|]. cbn [wait_stopped]. rewrite (bind_eq _ _ _ _ _ E).
    destruct (Z.testbit v 14); [by destruct (proj1 H14 eq_refl)|]. by rewrite (bind_eq _ _ _ _ _ E2), H15.
  - destruct (Z.testbit v 14) eqn:E14.
    + assert (a <> O) by (by apply H14). destruct (IH (pred a) g (with_hw d m)) as (d' & Hd' & Ew); [lia|done|].
      exists d'. split; [done|]. intros [|fuel] Hf; [lia|]. cbn [wait_stopped]. rewrite (bind_eq _ _ _ _ _ E), E14. apply Ew. lia.
    + assert (a = O) as -> by (destruct a; [done|]; by discriminate (proj2 H14)). cbn [pred] in Hd.
      destruct (stopping_read O g d (at_ m) (sectors (wd m)) Hd) as (v2 & d2 & E2 & Hd2 & _ & H15). apply (rd_hw _ (with_hw d m)) in E2.
      exists d2. split; [done|]. intros [|fuel] Hf; [lia|]. cbn [wait_stopped]. by rewrite (bind_eq _ _ _ _ _ E), E14, (bind_eq _ _ _ _ _ E2), H15.
Qed.

(** What the driver does to the register leaves the other bits. *)
Lemma clear_same v n : n = 0 \/ n = 4 -> same_but v (Z.land v (u32 (Z.lnot (2 ^ n)))).
Proof.
  intros Hn i Hi H0 H4. rewrite Z.land_spec. unfold u32, wrap. rewrite Z.mod_pow2_bits_low, Z.lnot_spec, Z.pow2_bits_eqb by lia.
  destruct (Z.eqb_spec n i); [lia|]. apply andb_true_r.
Qed.
Lemma set_same v n : n = 0 \/ n = 4 -> same_but v (Z.lor v (2 ^ n)).
Proof.
  intros Hn i Hi H0 H4. rewrite Z.lor_spec, Z.pow2_bits_eqb by lia. destruct (Z.eqb_spec n i); [lia|]. apply orb_false_r.
Qed.

Lemma stop_cmd_spec fre m : off fre (hw (wd m)) ->
  exists fuel0 d g, stopping O g d /\ forall fuel, (fuel0 <= fuel)%nat -> stop_cmd fuel port m = Done () (with_hw d m).
Proof.
  intros Hl. destruct (off_change fre _ (at_ m) (sectors (wd m)) Hl) as (v1 & d1 & E1 & V0 & V4 & H1). apply rd_hw in E1.
  destruct (H1 (Z.land v1 (u32 (Z.lnot (2 ^ 0))))) as (d2 & E2 & H2 & _).
  { apply clear_same. auto. } { rewrite Z.land_spec, V0. done. } apply (wr_hw _ _ (with_hw d1 m)) in E2.
  assert (off fre d2) as H2' by (apply H2; rewrite Z.land_spec, V4; apply andb_true_r).
  destruct (off_change fre _ (at_ m) (sectors (wd m)) H2') as (v3 & d3 & E3 & V30 & V34 & H3). apply (rd_hw _ (with_hw d2 m)) in E3.
  destruct (H3 (Z.land v3 (u32 (Z.lnot (2 ^ 4))))) as (d4 & E4 & _ & H4).
  { apply clear_same. auto. } { rewrite Z.land_spec, V30. done. } apply (wr_hw _ _ (with_hw d3 m)) in E4.
  destruct H4 as (x & g & H4); [rewrite Z.land_spec; change (Z.testbit (u32 (Z.lnot (2 ^ 4))) 4) with false; by rewrite andb_false_r|].
  destruct (wait_stopped_spec x x g (with_hw d4 m)) as (d & Hd & Ew); [lia|done|].
  exists (S x), d, g. split; [done|]. intros fuel Hf. unfold stop_cmd.
  rewrite (bind_eq _ _ _ _ _ E1), (bind_eq _ _ _ _ _ E2), (bind_eq _ _ _ _ _ E3), (bind_eq _ _ _ _ _ E4). by apply Ew.
Qed.

Lemma start_cmd_spec clb clbu fb fbu m : stopping O (clb, clbu, fb, fbu) (hw (wd m)) -> clb mod 1024 = 0 -> fb mod 256 = 0 ->
  exists d f n, but_fis (fb + 2 ^ 32 * fbu) f (at_ m) /\ idle (clb + 2 ^ 32 * clbu) (fb + 2 ^ 32 * fbu) n d /\
    forall fuel, (1 <= fuel)%nat -> start_cmd fuel port m = Done () (mkMachine (mkWorld d f (sectors (wd m))) (pages m)).
Proof.
  intros Hs Hc Hb. destruct (stopping_read O _ _ (at_ m) (sectors (wd m)) Hs) as (v1 & d1 & E1 & H1 & _ & H15). apply rd_hw in E1.
  destruct (stopped_arm _ d1 (at_ m) (sectors (wd m)) H1) as (v2 & d2 & E2 & H20 & H2). apply (rd_hw _ (with_hw d1 m)) in E2.
  destruct (H2 (Z.lor v2 (2 ^ 4))) as (d3 & E3 & H3); [apply set_same; auto|by rewrite Z.lor_spec, H20|rewrite Z.lor_spec; apply orb_true_r|].
  apply (wr_hw _ _ (with_hw d2 m)) in E3.
  destruct (armed_start clb clbu fb fbu d3 (at_ m) (sectors (wd m)) H3 Hc Hb) as (v4 & d4 & E4 & H44 & H4). apply (rd_hw _ (with_hw d3 m)) in E4.
  destruct (H4 (Z.lor v4 (2 ^ 0))) as (d & f & n & E5 & Hf & Hn); [apply set_same; auto|rewrite Z.lor_spec; apply orb_true_r|by rewrite Z.lor_spec, H44|].
  exists d, f, n. split; [done|]. split; [done|]. intros [|fuel] Hfu; [lia|]. unfold start_cmd.
  assert (wait_cr (S fuel) port m = Done () (with_hw d1 m)) as Ew by (cbn [wait_cr]; by rewrite (bind_eq _ _ _ _ _ E1), H15).
  rewrite (bind_eq _ _ _ _ _ Ew), (bind_eq _ _ _ _ _ E2), (bind_eq _ _ _ _ _ E3), (bind_eq _ _ _ _ _ E4).
  apply (wr_eq _ _ (with_hw d4 m)). exact E5.
Qed.

Lemma sendpage_eq m p l : pages m = p :: l -> sendpage m = Done p (mkMachine (wd m) l).
Proof. intros E. unfold sendpage. rewrite (bind_eq _ _ _ _ _ (get_eq m)), E. done. Qed.
Definition with_mem (f : memory) (l : list Z) (m : machine) : machine := mkMachine (mkWorld (hw (wd m)) f (sectors (wd m))) l.

(** A fresh page, cleared. *)
Lemma fresh_page p l m : pages m = p :: l -> page_addr p ->
  exists f, (forall A (k : Z -> M machine A), (p ← sendpage; clear page_of 4096 p;; k p) m = k p (with_mem f l m)) /\
    only (page_of p) 4096 (at_ m) f /\ forall x, page_of p <= x < page_of p + 4096 -> f x = 0.
Proof.
  intros Hl Hp. destruct (clear_spec page_of 4096 p 0 (mkMachine (wd m) l)) as (f & E & Hf & H0); [done|lia..|].
  rewrite !Z.add_0_r in *. exists f. split; [|split; [exact Hf|exact H0]]. intros A k.
  rewrite (bind_eq _ _ _ _ _ (sendpage_eq m p l Hl)), (bind_eq _ _ _ _ _ E). done.
Qed.

Lemma apart_tail p l : apart page_of (p :: l) -> apart page_of l.
Proof. intros [H1 H2]. cbn in H2. apply NoDup_cons in H2 as [_ H2]. inversion H1. by split. Qed.
Lemma apart_drop p q l : apart page_of (p :: q :: l) -> apart page_of (p :: l).
Proof.
  intros [H1 H2]. inversion H1 as [|?? Hp H3]. inversion H3. split; [by constructor|]. cbn in *.
  apply NoDup_cons in H2 as [N1 N2]. apply NoDup_cons in N2 as [_ N3]. apply NoDup_cons. split; [|done].
  intros Hin. apply N1. by apply list_elem_of_further.
Qed.

(** A header with 8 regions and its table at [t], all other fields 0. *)
Definition header_for (f : memory) (h t : Z) : Prop :=
  get_le 2 f (h + 2) = 8 /\ get_le 8 f (h + 8) = t /\ forall k, 0 <= k < 32 -> ~ 2 <= k < 4 -> ~ 8 <= k < 16 -> f (h + k) = 0.
Definition zeros_at (f : memory) (a b : Z) : Prop := forall x, a <= x < b -> f x = 0.

Lemma header_for_ext f g h t : (forall x, h <= x < h + 32 -> g x = f x) -> header_for f h t -> header_for g h t.
Proof.
  intros E (H1 & H2 & H3). split; [|split; [|intros k Hk; rewrite E by lia; auto]].
  - rewrite <- H1. apply get_le_ext. intros x Hx. apply E. lia.
  - rewrite <- H2. apply get_le_ext. intros x Hx. apply E. lia.
Qed.
Lemma header_slot f a t s : header_for f (a + 32 * s) t -> zeros_at f t (t + 4096) -> slot_ok f a t s.
Proof.
  intros (H1 & H2 & H3) Hz. pose proof (H3 0 ltac:(lia) ltac:(lia) ltac:(lia)) as B0. rewrite Z.add_0_r in B0.
  pose proof (H3 1 ltac:(lia) ltac:(lia) ltac:(lia)) as B1. assert (f (t + 1) = 0) as Bt by (apply Hz; lia).
  split; rewrite ?B0, ?B1, ?Bt; done.
Qed.
(** What the stores of one turn make of a header that was 0. *)
Lemma header_stores f g h t : 0 <= t < 2 ^ 32 -> zeros_at f h (h + 32) -> (forall x, h <= x < h + 32 -> g x = put_le 2 f (h + 2) 8 x) ->
  header_for (put_le 4 (put_le 4 g (h + 8) t) (h + 12) 0) h t.
Proof.
  intros Ht Hz Hg. split; [|split].
  - rewrite !get_put_le_ne by lia. rewrite (get_le_ext 2 g (put_le 2 f (h + 2) 8)) by (intros x Hx; apply Hg; lia). by apply get_put_same.
  - rewrite (get_le_add 4 4). replace (h + 8 + Z.of_nat 4) with (h + 12) by lia.
    rewrite get_put_le_ne, !get_put_le by lia. change (256 ^ Z.of_nat 4) with (2 ^ 32). rewrite !Z.mod_small by lia. lia.
  - intros k Hk H2 H8. rewrite !put_le_out, Hg, put_le_out by lia. apply Hz. lia.
Qed.

Lemma rebase_slots_spec n : forall c s l rest m, pages m = l ++ rest -> length l = n -> (s + n <= 32)%nat -> apart page_of (c :: l) ->
  zeros_at (at_ m) (page_of c + 32 * Z.of_nat s) (page_of c + 32 * Z.of_nat (s + n)) ->
  exists f, rebase_slots page_of n (c + 32 * Z.of_nat s) m = Done l (with_mem f rest m) /\
    (forall i t, l !! i = Some t -> header_for f (page_of c + 32 * Z.of_nat (s + i)) (page_of t) /\ zeros_at f (page_of t) (page_of t + 4096)) /\
    (forall x, ~ page_of c + 32 * Z.of_nat s <= x < page_of c + 32 * Z.of_nat (s + n) ->
       (forall p, p ∈ l -> ~ page_of p <= x < page_of p + 4096) -> f x = at_ m x).
Proof.
  induction n as [|n IH]; intros c s l rest m Hl Hn Hs Ha H0.
  { destruct l; [|done]. exists (at_ m). split; [|split; [done|done]]. cbn [app] in Hl. rewrite <- Hl. by destruct m as [[]]. }
  destruct l as [|t l]; [done|]. cbn [rebase_slots].
  destruct (apart_in _ _ O _ Ha eq_refl) as (Hpc & _ & _). destruct (apart_in _ _ 1 _ Ha eq_refl) as (Hpt & Hbt & _).
  pose proof (apart_two _ _ O 1 _ _ Ha eq_refl eq_refl ltac:(done)) as Hct.
  set (h := c + 32 * Z.of_nat s). set (o := 32 * Z.of_nat s) in *.
  assert (0 <= o <= 31 * 32) as Ho by (unfold o; lia).
  assert (page_of c + 32 * Z.of_nat (s + S n) = page_of c + o + 32 + 32 * Z.of_nat n) as Eo by (unfold o; lia). rewrite Eo in *.
  rewrite (bind_eq _ _ _ _ _ (st_eq page_of 2 (h + 2) c (o + 2) 8 m ltac:(unfold h, o; lia) Hpc ltac:(lia))).
  set (m1 := set_ram (put_le 2 (at_ m) (page_of c + (o + 2)) 8) m).
  destruct (fresh_page t (l ++ rest) m1 Hl Hpt) as (f1 & E1 & O1 & Z1). rewrite E1.
  rewrite (bind_eq _ _ _ _ _ (st_eq page_of 4 (h + 8) c (o + 8) _ _ ltac:(unfold h, o; lia) Hpc ltac:(lia))).
  rewrite (bind_eq _ _ _ _ _ (st_eq page_of 4 (h + 12) c (o + 12) _ _ ltac:(unfold h, o; lia) Hpc ltac:(lia))).
  rewrite physical_eq by done. cbn [ram wd set_ram with_mem].
  set (f2 := put_le 4 (put_le 4 f1 (page_of c + (o + 8)) (page_of t)) (page_of c + (o + 12)) 0).
  assert (forall x, ~ page_of c + o <= x < page_of c + o + 32 -> ~ page_of t <= x < page_of t + 4096 -> f2 x = at_ m x) as O2.
  { intros x Hx Ht. unfold f2. rewrite !put_le_out, O1 by lia. unfold m1. cbn [ram wd set_ram]. by rewrite put_le_out by lia. }
  assert (header_for f2 (page_of c + o) (page_of t)) as Hh.
  { unfold f2. rewrite !Z.add_assoc. apply (header_stores (at_ m)); [lia|intros x Hx; apply H0; lia|].
    intros x Hx. rewrite O1 by lia. unfold m1. cbn [ram wd set_ram]. by rewrite Z.add_assoc. }
  assert (zeros_at f2 (page_of t) (page_of t + 4096)) as Hz by (intros x Hx; unfold f2; rewrite !put_le_out by lia; by apply Z1).
  destruct (IH c (S s) l rest (with_mem f2 (l ++ rest) m)) as (f & E & Hok & Hf).
  { done. } { by injection Hn. } { lia. } { by eapply apart_drop. }
  { intros x Hx. cbn [ram wd with_mem]. rewrite O2 by lia. apply H0. lia. }
  replace (h + 32) with (c + 32 * Z.of_nat (S s)) by (unfold h; lia).
  change (set_ram f2 (set_ram _ (with_mem f1 (l ++ rest) m1))) with (with_mem f2 (l ++ rest) m).
  rewrite (bind_eq _ _ _ _ _ E). exists f. split; [done|]. cbn [ram wd with_mem] in Hf. split.
  - intros [|i] t' Hi; cbn in Hi; [|replace (s + S i)%nat with (S s + i)%nat by lia; by apply Hok].
    injection Hi as <-. rewrite Nat.add_0_r. fold o.
    assert (forall x p, page_of c + o <= x < page_of c + o + 32 \/ page_of t <= x < page_of t + 4096 -> p ∈ l -> ~ page_of p <= x < page_of p + 4096) as Hout.
    { intros x p Hx Hp. apply list_elem_of_lookup in Hp as [j Hj].
      pose proof (apart_two _ _ 1 (S (S j)) t p Ha eq_refl Hj ltac:(done)). pose proof (apart_two _ _ O (S (S j)) c p Ha eq_refl Hj ltac:(done)). lia. }
    split.
    + eapply header_for_ext; [|exact Hh]. intros x Hx. apply Hf; [lia|]. intros p Hp. apply (Hout x p); auto.
    + intros x Hx. rewrite Hf; [by apply Hz|lia|]. intros p Hp. apply (Hout x p); auto.
  - intros x Hx Hp. rewrite Hf, O2; [done|lia| |lia|].
    + apply Hp. by left.
    + intros p Hin. apply Hp. by right.
Qed.

Lemma address_spec r v g0 g1 g2 g3 m : stopping O (g0, g1, g2, g3) (hw (wd m)) ->
  r = P_CLB /\ v mod 1024 = 0 \/ r = P_FB /\ v mod 256 = 0 \/ (r = P_CLBU \/ r = P_FBU) /\ v = 0 ->
  exists d, wr (port + r) v m = Done () (with_hw d m) /\
    stopping O (if r =? P_CLB then v else g0, if r =? P_CLBU then v else g1, if r =? P_FB then v else g2, if r =? P_FBU then v else g3) d.
Proof.
  intros Hs Hr. destruct (stopped_address r v g0 g1 g2 g3 _ (at_ m) (sectors (wd m)) Hs Hr) as (d & E & Hd).
  exists d. split; [by apply wr_hw|exact Hd].
Qed.

(** The pages of a port that was just set up: 32 headers with their tables, the rest
    of the page with the list 0; the area for messages 0 but for what the controller
    writes there; the tables 0. *)
Record fresh_port (pd : port_data) (f : memory) : Prop := {
  fr_header : forall s t, pd_ctba pd !! s = Some t -> header_for f (page_of (pd_clb pd) + 32 * Z.of_nat s) (page_of t);
  fr_list : zeros_at f (page_of (pd_clb pd) + 1024) (page_of (pd_clb pd) + 4096);
  fr_messages : zeros_at f (page_of (pd_fb pd) + 256) (page_of (pd_fb pd) + 4096);
  fr_table : forall s t, pd_ctba pd !! s = Some t -> zeros_at f (page_of t) (page_of t + 4096) }.
Lemma fresh_slots pd f : fresh_port pd f -> slots_ok page_of pd f.
Proof. intros [Hh _ _ Hz] s t Ht. apply header_slot; eauto. Qed.

Lemma page_multiple k q p : 4096 = k * q -> 0 < q -> 0 <= p < 2 ^ 32 -> p mod 4096 = 0 -> u32 p mod q = 0.
Proof.
  intros E Hq Hp H0. unfold u32. rewrite wrap_small by lia. apply Z.mod_divide; [lia|]. apply Z.mod_divide in H0; [|lia].
  eapply Z.divide_trans; [|exact H0]. by exists k.
Qed.

(** [port_rebase] on a port that is not running takes FRE away, gives the port a
    cleared command list, an area for messages and 32 cleared command tables on pages
    of their own, and starts it: the port is ready for commands, the rest of memory
    and the disk are as they were. *)
Lemma port_rebase_ok fre clb fb l rest m : off fre (hw (wd m)) -> pages m = clb :: fb :: l ++ rest -> length l = 32%nat ->
  apart page_of (clb :: fb :: l) ->
  let pd := mkPortData clb fb l port in
  exists fuel0 m', (forall fuel, (fuel0 <= fuel)%nat -> port_rebase page_of fuel port m = Done pd m') /\
    port_ok page_of port pd m' /\ fresh_port pd (at_ m') /\ pages m' = rest /\ sectors (wd m') = sectors (wd m) /\
    (forall x, untouched page_of pd x -> at_ m' x = at_ m x).
Proof.
  intros Hl Hp Hn Ha pd. destruct (apart_in _ _ O _ Ha eq_refl) as (Hpc & Hbc & Hmc). destruct (apart_in _ _ 1 _ Ha eq_refl) as (Hpf & Hbf & Hmf).
  pose proof (apart_two _ _ O 1 _ _ Ha eq_refl eq_refl ltac:(done)) as Hcf.
  pose proof (page_multiple 4 1024 (page_of clb) eq_refl ltac:(lia) Hbc Hmc) as Uc. pose proof (page_multiple 16 256 (page_of fb) eq_refl ltac:(lia) Hbf Hmf) as Uf.
  destruct (stop_cmd_spec fre m Hl) as (fuel0 & d0 & [[[g0 g1] g2] g3] & Hd0 & E0).
  destruct (fresh_page clb (fb :: l ++ rest) (with_hw d0 m) Hp Hpc) as (f1 & E1 & O1 & Z1).
  destruct (address_spec P_CLB (u32 (page_of clb)) g0 g1 g2 g3 (with_mem f1 (fb :: l ++ rest) (with_hw d0 m)) Hd0) as (d1 & E2 & Hd1); [auto|].
  destruct (address_spec P_CLBU 0 (u32 (page_of clb)) g1 g2 g3 (with_hw d1 (with_mem f1 (fb :: l ++ rest) m)) Hd1) as (d2 & E3 & Hd2); [auto|].
  destruct (fresh_page fb (l ++ rest) (with_hw d2 (with_mem f1 (fb :: l ++ rest) m)) eq_refl Hpf) as (f2 & E4 & O2 & Z2).
  destruct (address_spec P_FB (u32 (page_of fb)) (u32 (page_of clb)) 0 g2 g3 (with_hw d2 (with_mem f2 (l ++ rest) m)) Hd2) as (d3 & E5 & Hd3); [auto|].
  destruct (address_spec P_FBU 0 (u32 (page_of clb)) 0 (u32 (page_of fb)) g3 (with_hw d3 (with_mem f2 (l ++ rest) m)) Hd3) as (d4 & E6 & Hd4); [auto 10|].
  cbn [at_ ram wd with_hw with_mem] in O1, O2, Z1, Z2.
  destruct (rebase_slots_spec 32 clb O l rest (with_hw d4 (with_mem f2 (l ++ rest) m)) eq_refl Hn ltac:(lia)) as (f3 & E7 & Hs & O3).
  { by apply apart_drop in Ha. }
  { intros x Hx. cbn. rewrite O2 by lia. apply Z1. lia. }
  change (32 * Z.of_nat 0) with 0 in E7. rewrite Z.add_0_r in E7. cbn [Nat.add] in Hs, O3. cbn [ram wd with_hw with_mem] in O3.
  destruct (start_cmd_spec (u32 (page_of clb)) 0 (u32 (page_of fb)) 0 (with_hw d4 (with_mem f3 rest m)) Hd4 Uc Uf) as (d5 & f4 & n & O4 & Hi & E8).
  assert (u32 (page_of clb) = page_of clb) as Ec by (apply wrap_small; lia).
  assert (u32 (page_of fb) = page_of fb) as Ef by (apply wrap_small; lia).
  rewrite Ef, Z.mul_0_r, Z.add_0_r in O4. rewrite Ec, Ef, Z.mul_0_r, !Z.add_0_r in Hi. cbn [ram wd with_hw with_mem] in O4.
  assert (fresh_port pd f4) as Hfresh.
  { assert (forall t, t ∈ l -> (page_of fb + 4096 <= page_of t \/ page_of t + 4096 <= page_of fb) /\ (page_of clb + 4096 <= page_of t \/ page_of t + 4096 <= page_of clb)) as Hap.
    { intros t Ht. apply list_elem_of_lookup in Ht as [s Ht]. split; [apply (apart_two _ _ 1 (S (S s)) fb t Ha eq_refl Ht ltac:(done))|apply (apart_two _ _ O (S (S s)) clb t Ha eq_refl Ht ltac:(done))]. }
    split; cbn [pd_clb pd_fb pd_ctba pd].
    - intros s t Ht. pose proof (lookup_lt_Some _ _ _ Ht). eapply header_for_ext; [|by apply Hs]. intros x Hx. apply O4. lia.
    - intros x Hx. rewrite O4, O3 by (lia || (intros p Hin; pose proof (Hap p Hin); lia)). rewrite O2 by lia. apply Z1. lia.
    - intros x Hx. rewrite O4, O3 by (lia || (intros p Hin; pose proof (Hap p Hin); lia)). apply Z2. lia.
    - intros s t Ht x Hx. pose proof (Hap t (list_elem_of_lookup_2 _ _ _ Ht)). rewrite O4 by lia. by apply (Hs s t Ht). }
  exists (S fuel0), (mkMachine (mkWorld d5 f4 (sectors (wd m))) rest). split; [|split; [|split; [exact Hfresh|split; [done|split; [done|]]]]].
  - intros fuel Hf. unfold port_rebase. rewrite (bind_eq _ _ _ _ _ (E0 fuel ltac:(lia))), E1, physical_eq by done.
    rewrite (bind_eq _ _ _ _ _ E2), (bind_eq _ _ _ _ _ E3), E4, physical_eq by done.
    rewrite (bind_eq _ _ _ _ _ E5), (bind_eq _ _ _ _ _ E6), (bind_eq _ _ _ _ _ E7), (bind_eq _ _ _ _ _ (E8 fuel ltac:(lia))). done.
  - split; [done|exact Hn|exact Ha|exists n; exact Hi|]. by apply fresh_slots.
  - intros x Hx. pose proof (Hx clb ltac:(unfold owned; cbn; by left)). pose proof (Hx fb ltac:(unfold owned; cbn; right; by left)).
    cbn [ram wd]. rewrite O4, O3, O2, O1 by (lia || (intros p Hin; apply Hx; unfold owned; cbn; right; by right)). done.
Qed.
End start.

(** ** The block layer of the file system *)
Section blocks.
Context `{!Hba} (page_of : Z -> Z) (port : Z) `{!HbaLaws port}.
Implicit Types m : machine.
Local Notation at_ m := (ram (wd m)).

(** What the file system does with the disk and its buffer. *)
Inductive block_op := Read (startl : Z) | Write (startl : Z) | Fill (src : memory) (d n : Z).
(** Which of these the controller carries out: a write as long as it reports no error,
    a read if it also takes the odd region of [read_command]. *)
Definition block_op_ok (b : Z) (o : block_op) : Prop :=
  match o with
  | Read i => 0 <= i < 2 ^ 32 /\ accepts (read_command page_of i 0 1 b) /\ ~ may_fail (read_command page_of i 0 1 b)
  | Write i => 0 <= i < 2 ^ 32 /\ ~ may_fail (write_command page_of i 0 1 b)
  | Fill _ d n => 0 <= d /\ d + n <= 4096
  end.
Definition fs_op (o : block_op) : M fsys () :=
  match o with Read i => SataFs.read_sata i | Write i => SataFs.write_sata i | Fill src d n => buf_write src d n end.
Definition driver_op (fuel : nat) (pd : port_data) (b : Z) (o : block_op) : M machine () :=
  match o with
  | Read i => read_sata page_of fuel pd i 0 1 b;; mret ()
  | Write i => write_sata page_of fuel pd i 0 1 b;; mret ()
  | Fill src d n => modify (fun m => set_ram (copy_block (at_ m) src (page_of b + d) 0 n) m)
  end.

Record represents (pd : port_data) (b : Z) (m : machine) (s : fsys) : Prop := {
  rp_port : port_ok page_of port pd m;
  rp_disk : forall i x, 0 <= x < 512 -> 0 <= i < 2 ^ 32 -> sectors (wd m) i x = disk s i x;
  rp_buf : forall x, 0 <= x < 4096 -> at_ m (page_of b + x) = common_buf s x }.

Lemma buffer_untouched pd b x : apart page_of (b :: owned pd) -> page_of b <= x < page_of b + 4096 -> untouched page_of pd x.
Proof.
  intros Ha Hx p Hp. apply list_elem_of_lookup in Hp as [j Hj].
  pose proof (apart_two _ _ O (S j) b p Ha eq_refl Hj ltac:(done)). lia.
Qed.
Lemma port_ok_ram pd b m f : apart page_of (b :: owned pd) -> port_ok page_of port pd m -> length (pd_ctba pd) = 32%nat ->
  (forall x, ~ page_of b <= x < page_of b + 4096 -> f x = at_ m x) -> port_ok page_of port pd (set_ram f m).
Proof.
  intros Hb [Hport Hlen Ha Hi Hs] _ Hf. split; try done. intros s t Ht. eapply slot_ok_ext; [|by apply Hs]. intros x Hx.
  cbn [ram wd set_ram]. apply Hf. pose proof (lookup_lt_Some _ _ _ Ht).
  pose proof (apart_two _ _ O (S (S (S s))) b t Hb eq_refl Ht ltac:(done)). pose proof (apart_two _ _ O 1 b _ Hb eq_refl eq_refl ltac:(done)). lia.
Qed.

Context (prompt : forall clb fb n d, idle clb fb n d -> Z.of_nat n < 1000000).
Context (has_slots : 0 < Z.shiftr (Z.land (static R_CAP) 0x0f00) 8).

Lemma not_stuck pd m : ~ stuck page_of port pd m.
Proof. intros (n & Hn & Hi). apply prompt in Hi. lia. Qed.

Lemma driver_op_refines pd b o m s : apart page_of (b :: owned pd) -> represents pd b m s -> block_op_ok b o ->
  exists fuel0 m' s', (forall fuel, (fuel0 <= fuel)%nat -> driver_op fuel pd b o m = Done () m') /\ fs_op o s = Done () s' /\ represents pd b m' s'.
Proof.
  intros Ha [Hok Hd Hbuf] Ho. destruct o as [i|i|src d n]; cbn [block_op_ok] in Ho.
  - destruct Ho as (Ho & Hacc & Hno).
    destruct (read_sata_ok page_of port pd b i 0 1 m Hok Ha has_slots ltac:(lia) Ho ltac:(lia) Hacc) as (fuel0 & r & m' & E & _ & Hr).
    destruct Hr as [(_ & [Hm|Hs])|(_ & Hok' & Hsec & Hdata & Hrest)]; [by apply Hno in Hm|by apply not_stuck in Hs|].
    exists fuel0, m'. eexists. split; [intros fuel Hf; cbn [driver_op]; by rewrite (bind_eq _ _ _ _ _ (E fuel Hf))|]. split; [reflexivity|].
    split; [done|intros; cbn [disk]; rewrite Hsec; by apply Hd|]. intros x Hx. cbn [common_buf]. unfold copy_block, BLOCK_SIZE.
    destruct (Z.leb_spec 0 x), (Z.ltb_spec x (0 + 512)); try lia; cbn [andb].
    + rewrite Hdata by lia. unfold sector_byte, lba_of. rewrite Z.div_small, Z.mod_small by lia.
      rewrite Z.mul_0_r, !Z.add_0_r, Hd by lia. f_equal. lia.
    + rewrite Hrest; [by apply Hbuf| |lia]. apply (buffer_untouched pd b); [done|lia].
  - destruct Ho as (Ho & Hno). destruct (write_sata_ok page_of port pd b i 0 1 m Hok Ha has_slots ltac:(lia) Ho ltac:(lia)) as (fuel0 & r & m' & E & _ & Hr).
    destruct Hr as [(_ & [Hm|Hs])|(_ & Hok' & Hrest & Hsec)]; [by apply Hno in Hm|by apply not_stuck in Hs|].
    exists fuel0, m'. eexists. split; [intros fuel Hf; cbn [driver_op]; by rewrite (bind_eq _ _ _ _ _ (E fuel Hf))|]. split; [reflexivity|].
    split; [done| |intros x Hx; cbn [common_buf]; rewrite Hrest; [by apply Hbuf|apply (buffer_untouched pd b); [done|lia]]].
    intros j x Hx Hj. cbn [disk]. rewrite Hsec by done. unfold lba_of. rewrite Z.mul_0_r, Z.add_0_r.
    destruct (Z.leb_spec i j), (Z.ltb_spec j (i + 1)), (Z.eqb_spec j i); try lia; cbn [andb]; try by apply Hd.
    subst j. unfold copy_block, BLOCK_SIZE. destruct (Z.leb_spec 0 x), (Z.ltb_spec x (0 + 512)); try lia. cbn [andb].
    replace (page_of b + 512 * (i - i) + x) with (page_of b + x) by lia. rewrite Hbuf by lia. f_equal. lia.
  - exists O. eexists _, _. split; [intros; reflexivity|]. split; [reflexivity|]. split; [|done|].
    + apply (port_ok_ram pd b); [done|done|by apply Hok|]. intros x Hx. unfold copy_block.
      destruct (Z.leb_spec (page_of b + d) x), (Z.ltb_spec x (page_of b + d + n)); try done. lia.
    + intros x Hx. cbn [ram wd set_ram common_buf]. unfold copy_block.
      destruct (Z.leb_spec (page_of b + d) (page_of b + x)), (Z.ltb_spec (page_of b + x) (page_of b + d + n)), (Z.leb_spec d x), (Z.ltb_spec x (d + n));
        try lia; cbn [andb]; try (by apply Hbuf). f_equal. lia.
Qed.
End blocks.

(** C34: the driver implements the disk of the file system.  The controller follows its
    specification ([HbaLaws]), never keeps the driver waiting for a million reads of its
    status and has something in the four bits that the driver takes for its number of
    slots; the buffer and the pages of the port are different pages.  Then any sequence
    of sector writes that it reports no error for, of sector reads that it reports no
    error for and whose odd region (which the specification does not allow) it takes,
    and of changes of the common buffer does through the driver what it does in the
    model of the block layer ([SataFs]). *)
Theorem block_layer_refined `{!Hba} page_of port `{!HbaLaws port} pd b ops m s :
  (forall clb fb n d, idle clb fb n d -> Z.of_nat n < 1000000) ->
  0 < Z.shiftr (Z.land (static R_CAP) 0x0f00) 8 ->
  apart page_of (b :: owned pd) -> represents page_of port pd b m s -> Forall (block_op_ok page_of port b) ops ->
  exists fuel0 m' s', (forall fuel, (fuel0 <= fuel)%nat -> forM_ ops (driver_op page_of fuel pd b) m = Done () m') /\
    forM_ ops fs_op s = Done () s' /\ represents page_of port pd b m' s'.
Proof.
  intros Hpr Hslots Ha Hr Hops. revert m s Hr. induction Hops as [|o ops Ho _ IH]; intros m s Hr.
  { exists O, m, s. by split_and!. }
  destruct (driver_op_refines page_of port Hpr Hslots pd b o m s Ha Hr Ho) as (f1 & m1 & s1 & E1 & E2 & Hr1).
  destruct (IH m1 s1 Hr1) as (f2 & m2 & s2 & E3 & E4 & Hr2). exists (f1 + f2)%nat, m2, s2. cbn [forM_]. split_and!; [|by rewrite (bind_eq _ _ _ _ _ E2)|done].
  intros fuel Hf. rewrite (bind_eq _ _ _ _ _ (E1 fuel ltac:(lia))). apply E3. lia.
Qed.

(** ** Finding the disks *)
Section probe.
Context `{!Hba} (page_of : Z -> Z) `{!HbaLaws PORTS}.
Implicit Types m : machine.
Local Notation at_ m := (ram (wd m)).

(** Port [i] is implemented and has a disk. *)
Definition device_at (i : Z) : bool :=
  let ssts := i32 (static (PORTS + 0x80 * i + P_SSTS)) in
  let sig := static (PORTS + 0x80 * i + P_SIG) in
  (Z.land ssts 0x0f =? 3) && (Z.land (Z.shiftr ssts 8) 0x0f =? 1)
  && negb ((sig =? 0xeb140101) || (sig =? 0xc33c0101) || (sig =? 0x96690101)).
Definition disk_at (i : Z) : bool := Z.testbit (i32 (static R_PI)) i && device_at i.

Lemma static_eq r m : r = R_CAP \/ r = R_PI \/ (exists i, 0 <= i < 32 /\ (r = PORTS + 0x80 * i + P_SSTS \/ r = PORTS + 0x80 * i + P_SIG)) ->
  rd r m = Done (static r) m.
Proof. intros Hr. rewrite (rd_eq r m _ _ (static_read r (wd m) Hr)). by destruct m. Qed.

Lemma get_type_spec i m : 0 <= i < 32 ->
  exists t, get_type (PORTS + 0x80 * i) m = Done t m /\ (t =? AHCI_DEV_SATA) = device_at i.
Proof.
  intros Hi. unfold get_type. rewrite (bind_eq _ _ _ _ _ (static_eq (PORTS + 0x80 * i + P_SSTS) m ltac:(right; right; exists i; auto))).
  unfold device_at. destruct (Z.eqb_spec (Z.land (i32 (static (PORTS + 0x80 * i + P_SSTS))) 15) 3); [|by eexists].
  destruct (Z.eqb_spec (Z.land (Z.shiftr (i32 (static (PORTS + 0x80 * i + P_SSTS))) 8) 15) 1); [|by eexists].
  cbn [negb andb]. rewrite (bind_eq _ _ _ _ _ (static_eq (PORTS + 0x80 * i + P_SIG) m ltac:(right; right; exists i; auto))).
  eexists. split; [reflexivity|]. by repeat case_match.
Qed.

(** One turn of the loop: nothing without a disk; with one, at whatever port, the first
    port is stopped, given other pages and started ([probe_disk]).  When a disk at
    another port follows one at the first, this is done to a port that is running, for
    which the specification promises nothing. *)
Lemma probe_none n fuel i tbl m : 0 <= i -> i + Z.of_nat n <= 32 -> (forall j, i <= j < i + Z.of_nat n -> disk_at j = false) ->
  probe_loop page_of n fuel (Z.shiftr (i32 (static R_PI)) i) i tbl m = Done tbl m.
Proof.
  revert i. induction n as [|n IH]; intros i Hi Hn Hd; [done|]. cbn [probe_loop].
  pose proof (Hd i ltac:(lia)) as Hd0. unfold disk_at in Hd0. rewrite Z.shiftr_spec, Z.add_0_l by lia.
  assert (probe_loop page_of n fuel (Z.shiftr (Z.shiftr (i32 (static R_PI)) i) 1) (i + 1) tbl m = Done tbl m) as E.
  { rewrite Z.shiftr_shiftr by lia. rewrite IH by (lia || (intros; apply Hd; lia)). done. }
  destruct (Z.testbit (i32 (static R_PI)) i); [|by rewrite <- E].
  destruct (get_type_spec i m ltac:(lia)) as (t & Et & Ht). cbn [andb] in Hd0. rewrite Hd0 in Ht.
  assert ((dt ← get_type (PORTS + 0x80 * i); if dt =? AHCI_DEV_SATA then pd ← port_rebase page_of fuel PORTS; mret (fun k => if k =? i then Some pd else tbl k) else mret tbl) m = Done tbl m) as E2.
  { by rewrite (bind_eq _ _ _ _ _ Et), Ht. }
  by rewrite (bind_eq _ _ _ _ _ E2).
Qed.
Lemma probe_disk n fuel i tbl m pd m' : 0 <= i < 32 -> disk_at i = true -> port_rebase page_of fuel PORTS m = Done pd m' ->
  probe_loop page_of (S n) fuel (Z.shiftr (i32 (static R_PI)) i) i tbl m =
  probe_loop page_of n fuel (Z.shiftr (i32 (static R_PI)) (i + 1)) (i + 1) (fun k => if k =? i then Some pd else tbl k) m'.
Proof.
  intros Hi Hd E. apply andb_true_iff in Hd as [H1 H2]. cbn [probe_loop]. rewrite Z.shiftr_spec, Z.add_0_l, H1 by lia.
  destruct (get_type_spec i m Hi) as (t & Et & Ht). rewrite H2 in Ht.
  assert ((dt ← get_type (PORTS + 0x80 * i); if dt =? AHCI_DEV_SATA then pd ← port_rebase page_of fuel PORTS; mret (fun k => if k =? i then Some pd else tbl k) else mret tbl) m
    = Done (fun k => if k =? i then Some pd else tbl k) m') as E2.
  { by rewrite (bind_eq _ _ _ _ _ Et), Ht, (bind_eq _ _ _ _ _ E). }
  rewrite (bind_eq _ _ _ _ _ E2), Z.shiftr_shiftr by lia. done.
Qed.

(** C35: when the first port is the only one with a disk and is not running, with its
    device not busy, [probe_port] finds it.  Entry 0 of the table is the port, started
    with the pages [clb] and [fb] and ready for commands; the command list has 32
    headers that are 0 but for the number of regions and the tables, each on its page,
    and what is left of these pages is 0, as are the tables and what the controller
    leaves of the page for messages.  The other entries are not set; the rest of memory
    and the disk are as they were. *)
Theorem probe_port_correct fre clb fb l rest m : off fre (hw (wd m)) -> pages m = clb :: fb :: l ++ rest -> length l = 32%nat ->
  apart page_of (clb :: fb :: l) -> disk_at 0 = true -> (forall i, 1 <= i < 32 -> disk_at i = false) ->
  let pd := mkPortData clb fb l PORTS in
  exists fuel0 tbl m', (forall fuel, (fuel0 <= fuel)%nat -> probe_port page_of fuel m = Done tbl m') /\
    tbl 0 = Some pd /\ (forall i, i <> 0 -> tbl i = None) /\
    port_ok page_of PORTS pd m' /\ fresh_port page_of pd (at_ m') /\ pages m' = rest /\ sectors (wd m') = sectors (wd m) /\
    (forall x, untouched page_of pd x -> at_ m' x = at_ m x).
Proof.
  intros Hl Hp Hn Ha H0 H1 pd. destruct (port_rebase_ok page_of PORTS fre clb fb l rest m Hl Hp Hn Ha) as (fuel0 & m' & E & Hok).
  exists fuel0, (fun k => if k =? 0 then Some pd else None), m'. split; [|split; [done|split; [intros i Hi; by destruct (Z.eqb_spec i 0)|exact Hok]]].
  intros fuel Hf. unfold probe_port. rewrite (bind_eq _ _ _ _ _ (static_eq R_PI m ltac:(auto))).
  rewrite <- (Z.shiftr_0_r (i32 (static R_PI))), (probe_disk 31 fuel 0 _ m pd m' ltac:(lia) H0 (E fuel Hf)).
  apply probe_none; [lia|lia|]. intros j Hj. apply H1. lia.
Qed.
End probe.

(** ** Finding the controller *)
Section bus.
Context (config : Z -> Z).

Definition config_addr (bus device reg : Z) : Z := 0x80000000 + 65536 * bus + 2048 * device + reg.
(** BAR 5 of a device that is the controller. *)
Definition ahci_bar (bus device : Z) : option Z :=
  let id := u32 (config (config_addr bus device 0)) in
  let bar := u32 (config (config_addr bus device 0x24)) in
  if (id mod 2 ^ 16 =? 0x8086) && (id / 2 ^ 16 =? 0x2922) && negb (bar =? 0) then Some bar else None.

Lemma lor_add n a b : 0 <= n -> b mod 2 ^ n = 0 -> 0 <= a < 2 ^ n -> Z.lor b a = b + a.
Proof.
  intros Hn Hb Ha. rewrite <- Z.add_lor_land. replace (Z.land b a) with 0; [lia|]. symmetry. apply Z.bits_inj'. intros i Hi.
  rewrite Z.land_spec, Z.bits_0. destruct (Z.ltb_spec i n).
  - assert (Z.testbit (b mod 2 ^ n) i = false) as E by (rewrite Hb; apply Z.bits_0).
    rewrite Z.testbit_mod_pow2 in E by lia. destruct (Z.ltb_spec i n); [|lia]. cbn in E. by rewrite E.
  - rewrite (bits_high n a) by lia. apply andb_false_r.
Qed.
Lemma config_word bus device reg : 0 <= bus < 256 -> 0 <= device < 32 -> 0 <= reg < 256 ->
  u32 (Z.lor (Z.lor (Z.lor (Z.lor (Z.shiftl bus 16) (Z.shiftl device 11)) (Z.shiftl 0 8)) reg) 0x80000000) = config_addr bus device reg.
Proof.
  intros Hb Hd Hr. rewrite Z.shiftl_0_l, Z.lor_0_r, !Z.shiftl_mul_pow2 by lia. change (2 ^ 16) with 65536. change (2 ^ 11) with 2048.
  rewrite (lor_add 16 (device * 2048) (bus * 65536)) by (try lia; by apply Z.mod_mul).
  rewrite (lor_add 11 reg (bus * 65536 + device * 2048)) by (try lia; replace (bus * 65536 + device * 2048) with ((bus * 32 + device) * 2 ^ 11) by lia; by apply Z.mod_mul).
  rewrite Z.lor_comm, (lor_add 31) by (done || lia). unfold u32, config_addr. rewrite wrap_small by lia. lia.
Qed.
Lemma config_read bus device offset a : 0 <= bus < 256 -> 0 <= device < 32 -> 0 <= Z.land offset 0xfc < 256 ->
  pciConfigReadWord config bus device 0 offset a =
  Done (if offset =? 0x24 then u32 (config (config_addr bus device (Z.land offset 0xfc)))
        else u16 (Z.land (Z.shiftr (u32 (config (config_addr bus device (Z.land offset 0xfc)))) (Z.land offset 2 * 8)) 0xffff))
    (config_addr bus device (Z.land offset 0xfc)).
Proof.
  intros Hb Hd Ho. unfold pciConfigReadWord. by rewrite config_word.
Qed.

Lemma checkDevice_spec bus device a : 0 <= bus < 256 -> 0 <= device < 32 ->
  exists a', checkDevice config bus device a = Done (default 0 (ahci_bar bus device)) a'.
Proof.
  intros Hb Hd. unfold checkDevice, getVendorID, getDeviceID, ahci_bar.
  set (id := u32 (config (config_addr bus device 0))). set (bar := u32 (config (config_addr bus device 36))).
  assert (0 <= id < 2 ^ 32) as Hid by (by apply wrap_bound).
  assert (forall x, u16 (u16 (Z.land x 0xffff)) = x mod 2 ^ 16) as E.
  { intros x. change 0xffff with (Z.ones 16). rewrite Z.land_ones by lia. unfold u16, wrap. by rewrite !Z.mod_mod by lia. }
  erewrite bind_eq; [|erewrite bind_eq; [|apply config_read; first [lia | done]]; reflexivity]. cbn [Z.eqb].
  change (Z.land 0 0xfc) with 0. change (Z.land 0 2 * 8) with 0. rewrite Z.shiftr_0_r, E. fold id.
  destruct (Z.eqb_spec (id mod 2 ^ 16) 0xffff) as [Ef|_].
  { rewrite Ef. cbn. eexists. reflexivity. }
  erewrite bind_eq; [|erewrite bind_eq; [|apply config_read; first [lia | done]]; reflexivity]. cbn [Z.eqb Pos.eqb].
  change (Z.land 2 0xfc) with 0. change (Z.land 2 2 * 8) with 16. rewrite E, Z.shiftr_div_pow2 by lia. fold id.
  rewrite (Z.mod_small (id / 2 ^ 16)) by (split; [apply Z.div_pos; lia|apply Z.div_lt_upper_bound; lia]).
  destruct ((id mod 2 ^ 16 =? 0x8086) && (id / 2 ^ 16 =? 0x2922)) eqn:Ed; [|by eexists].
  rewrite config_read by first [lia | done]. change (Z.land 0x24 0xfc) with 0x24. cbn [Z.eqb Pos.eqb andb]. fold bar. eexists.
  destruct (Z.eqb_spec bar 0) as [->|]; reflexivity.
Qed.

Lemma ahci_bar_nonzero bus device x : ahci_bar bus device = Some x -> x <> 0.
Proof.
  unfold ahci_bar. intros Hx. case_match eqn:E; [|done]. injection Hx as <-. apply andb_true_iff in E as [_ E].
  by destruct (Z.eqb_spec (u32 (config (config_addr bus device 36))) 0).
Qed.
Lemma check_bus_spec n bus device a : 0 <= bus < 256 -> 0 <= device -> device + Z.of_nat n <= 32 ->
  exists a', check_bus config n bus device a = Done (default 0 (head (omap (ahci_bar bus) (seqZ device (Z.of_nat n))))) a'.
Proof.
  revert device a. induction n as [|n IH]; intros device a Hb Hd Hn; [by eexists|]. cbn [check_bus].
  rewrite (seqZ_cons device) by lia. cbn [omap list_omap]. replace (Z.pred (Z.of_nat (S n))) with (Z.of_nat n) by lia. rewrite <- Z.add_1_r.
  destruct (checkDevice_spec bus device a Hb ltac:(lia)) as (a1 & E). rewrite (bind_eq _ _ _ _ _ E).
  destruct (ahci_bar bus device) as [x|] eqn:Ex.
  - change (default 0 (Some x)) with x. apply ahci_bar_nonzero in Ex. destruct (Z.eqb_spec x 0); [done|]. eexists. reflexivity.
  - apply IH; lia.
Qed.

(** All devices in the order of bus and device number. *)
Definition pci_devices : list (Z * Z) := bus ← seqZ 0 256; device ← seqZ 0 32; [(bus, device)].
Lemma check_buses_spec n bus a : 0 <= bus -> bus + Z.of_nat n <= 256 ->
  exists a', check_buses config n bus a =
    Done (default 0 (head (omap (fun p => ahci_bar p.1 p.2) (bus ← seqZ bus (Z.of_nat n); device ← seqZ 0 32; [(bus, device)])))) a'.
Proof.
  revert bus a. induction n as [|n IH]; intros bus a Hb Hn; [by eexists|]. cbn [check_buses].
  rewrite (seqZ_cons bus) by lia. rewrite bind_cons, omap_app. replace (Z.pred (Z.of_nat (S n))) with (Z.of_nat n) by lia. rewrite <- Z.add_1_r.
  destruct (check_bus_spec 32 bus 0 a ltac:(lia) ltac:(lia) ltac:(lia)) as (a1 & E). rewrite (bind_eq _ _ _ _ _ E).
  change (Z.of_nat 32) with 32.
  assert (omap (fun p => ahci_bar p.1 p.2) (device ← seqZ 0 32; [(bus, device)]) = omap (ahci_bar bus) (seqZ 0 32)) as ->.
  { generalize (seqZ 0 32). intros l. induction l as [|x l IHl]; [done|]. cbn. cbn in IHl. by rewrite IHl. }
  destruct (omap (ahci_bar bus) (seqZ 0 32)) as [|x l] eqn:Ex; [apply IH; lia|].
  change (default 0 (head (x :: l))) with x.
  assert (x <> 0) as Hx.
  { assert (x ∈ omap (ahci_bar bus) (seqZ 0 32)) as Hin by (rewrite Ex; by left). apply list_elem_of_omap in Hin as (d & _ & Hd).
    by apply ahci_bar_nonzero in Hd. }
  destruct (Z.eqb_spec x 0); [done|]. eexists. reflexivity.
Qed.

(** [checkAllBuses] returns BAR 5 of the first AHCI controller, by bus and device
    number, that has one; 0 if there is none. *)
Theorem checkAllBuses_correct a :
  exists a', checkAllBuses config a = Done (default 0 (head (omap (fun p => ahci_bar p.1 p.2) pci_devices))) a'.
Proof. apply (check_buses_spec 256 0 a); lia. Qed.
End bus.

(** ** Witnesses, on the controller of [AhciSim] *)
Definition sim_clb : Z := 0x100000.
Definition sim_fb : Z := 0x101000.
Definition sim_tables : list Z := (fun i => 0x102000 + 4096 * i) <$> seqZ 0 32.
Definition sim_buf : Z := 0x80000.
Definition sim_start : machine :=
  mkMachine (mkWorld (SLive false false) (fun _ => 7) (fun i x => (i + x) mod 256)) (sim_clb :: sim_fb :: sim_tables ++ []).
Definition same_page (p : Z) : Z := p.

Lemma sim_apart : apart same_page (sim_buf :: sim_clb :: sim_fb :: sim_tables).
Proof.
  unfold apart, page_addr, is_u64. split; apply (bool_decide_eq_true_1 _); vm_compute; reflexivity.
Qed.
Lemma sim_one_disk i : 1 <= i < 32 -> disk_at i = false.
Proof.
  intros Hi. unfold disk_at. change (i32 (static R_PI)) with (2 ^ 0). by rewrite Z.pow2_bits_false by lia.
Qed.

Lemma probe_port_correct_witness : exists fuel tbl m', probe_port same_page fuel sim_start = Done tbl m' /\
  tbl 0 = Some (mkPortData sim_clb sim_fb sim_tables PORTS) /\ tbl 1 = None /\ fresh_port same_page (mkPortData sim_clb sim_fb sim_tables PORTS) (ram (wd m')).
Proof.
  destruct (@probe_port_correct sim_hba same_page sim_laws false sim_clb sim_fb sim_tables [] sim_start (or_introl eq_refl) eq_refl eq_refl
    (apart_tail same_page _ _ sim_apart) eq_refl sim_one_disk) as (fuel & tbl & m' & E & H0 & H1 & _ & Hf & _).
  exists fuel, tbl, m'. split; [apply E; apply Nat.le_refl|]. split; [exact H0|]. split; [|exact Hf]. apply H1. discriminate.
Defined.

Definition sim_ops : list block_op := [Fill (fun x => x mod 256) 0 512; Write 5; Read 7; Read 5].
Lemma block_layer_refined_witness : exists pd m s fuel m' s', represents same_page PORTS pd sim_buf m s /\
  forM_ sim_ops (driver_op same_page fuel pd sim_buf) m = Done () m' /\ forM_ sim_ops fs_op s = Done () s' /\
  represents same_page PORTS pd sim_buf m' s'.
Proof.
  destruct (@port_rebase_ok sim_hba same_page PORTS sim_laws false sim_clb sim_fb sim_tables [] sim_start (or_introl eq_refl) eq_refl eq_refl
    (apart_tail same_page _ _ sim_apart)) as (fuel0 & m & _ & Hok & _).
  set (pd := mkPortData sim_clb sim_fb sim_tables PORTS) in *.
  set (s := mkFs (sectors (wd m)) (fun x => ram (wd m) (sim_buf + x))).
  assert (represents same_page PORTS pd sim_buf m s) as Hr by (split; [exact Hok|reflexivity|reflexivity]).
  destruct (block_layer_refined same_page PORTS pd sim_buf sim_ops m s) as (fuel & m' & s' & E1 & E2 & Hr').
  - intros clb fb n d [_ Hn]. lia.
  - reflexivity.
  - exact sim_apart.
  - exact Hr.
  - unfold sim_ops. repeat apply Forall_cons_2; [split; lia|split; [lia|intros []]|split; [lia|split; [split; cbn; lia|intros []]]|split; [lia|split; [split; cbn; lia|intros []]]|apply Forall_nil_2].
  - exists pd, m, s, fuel, m', s'. split; [exact Hr|]. split; [apply E1; apply Nat.le_refl|]. split; [exact E2|exact Hr'].
Defined.

(** A port that is ready, with what [decode] needs of slot 0. *)
Definition sim_ready : machine :=
  mkMachine (mkWorld (SIdle sim_clb sim_fb 1) (put_le 8 (fun _ => 0) (sim_clb + 8) 0x102000) (fun i x => 100 + i)) [].
(** 17 sectors are asked for: the count in the command is what the loop over the
    regions left of it, and [read_sata] returns 1 after reading one sector. *)
Example read_17 :
  match read_sata same_page 5 (mkPortData sim_clb sim_fb sim_tables PORTS) 5 0 17 sim_buf sim_ready with
  | Done r m => Some (r, c_count <$> decode (ram (wd m)) sim_clb 0, ram (wd m) (sim_buf + 511), ram (wd m) (sim_buf + 512))
  | _ => None
  end = Some (1, Some 1, 105, 0).
Proof. vm_compute. reflexivity. Qed.
(** All slots taken: [read_sata] returns 0, [write_sata] goes on with slot -1. *)
Lemma free_slot_none n x i : (forall k, 0 <= k < Z.of_nat n -> Z.testbit x k = true) -> free_slot n x i = -1.
Proof.
  revert x i. induction n as [|n IH]; intros x i Hx; [done|]. cbn [free_slot]. rewrite (Hx 0) by lia. cbn [negb]. apply IH.
  intros k Hk. rewrite Z.shiftr_spec by lia. apply Hx. lia.
Qed.
Lemma free_slot_first n x i k : 0 <= k < Z.of_nat n -> Z.testbit x k = false -> (forall j, 0 <= j < k -> Z.testbit x j = true) ->
  free_slot n x i = i + k.
Proof.
  revert x i k. induction n as [|n IH]; intros x i k Hk Hx Hj; [lia|]. cbn [free_slot]. destruct (decide (k = 0)) as [->|].
  - rewrite Hx. cbn. lia.
  - rewrite (Hj 0) by lia. cbn [negb]. rewrite (IH _ _ (k - 1)); [lia|lia| |].
    + rewrite Z.shiftr_spec by lia. by replace (k - 1 + 1) with k by lia.
    + intros j Hj'. rewrite Z.shiftr_spec by lia. apply Hj. lia.
Qed.
Lemma write_no_slot `{!Hba} page_of fuel pd startl starth count b m r m' : (forall m r m', find_cmdslot (pd_port pd) m = Done r m' -> r = -1) ->
  write_sata page_of fuel pd startl starth count b m <> Done r m'.
Proof.
  intros Hslot E. unfold write_sata in E. apply bind_Done in E as (? & m1 & _ & E). apply bind_Done in E as (slot & m2 & Es & E).
  rewrite (Hslot _ _ _ Es) in E. apply bind_Done in E as (? & m3 & _ & E). by apply bind_Done in E as (? & m4 & Et & _).
Qed.
