(* ===== verification/Entry.v ===== *)
(** Entering the kernel: the table of system calls ([syscalls_init] of
    [sys/main.c]), the call of its functions and the return to the program
    ([sys/entry.s]), and the handlers of exceptions ([sys/gp.c] and the stubs of
    [sys/entry.s]).

    The saved registers are arguments here: a system call gets the four words that
    the stub passes on, a handler gets the frame that the processor has pushed. *)
From S2P Require Import Prelude Bits Irq Binradix Alloc MmState PageMan Aspace FdTable Copy Kernel Sched Port Uport Services.

(** ** The table *)
(** The functions that [SYSCALL] declares. *)
Inductive sysfn : Type :=
| sys_open_port | sys_get_response | sys_request | sys_port_connect | sys_asnew | sys_sendpage | sys_exit
| sys_get_thread_info | sys_create_task | sys_asdestroy | sys_close | sys_pop_request | sys_respond | sys_wait_on
| sys_wait_on_port | sys_munmap | sys_dup0 | sys_get_physical | sys_getpid | sys_getppid.
#[export] Instance sysfn_eq_dec : EqDecision sysfn.
Proof. solve_decision. Defined.

(** The constants [NR_...] of [include/uapi/syscall.h]. *)
Definition NR (f : sysfn) : Z :=
  match f with
  | sys_open_port => 0 | sys_get_response => 1 | sys_request => 2 | sys_port_connect => 3 | sys_asnew => 4
  | sys_sendpage => 5 | sys_exit => 6 | sys_get_thread_info => 7 | sys_create_task => 8 | sys_asdestroy => 9
  | sys_close => 10 | sys_pop_request => 11 | sys_respond => 12 | sys_wait_on => 13 | sys_wait_on_port => 14
  | sys_munmap => 15 | sys_dup0 => 16 | sys_get_physical => 17 | sys_getpid => 18 | sys_getppid => 19
  end.

Record syscall_metadata := mkMeta { ptr : sysfn; syscall_nr : Z }.
(** What [SYSCALL] puts into the section of metadata. *)
Definition SYSCALL (f : sysfn) : syscall_metadata := mkMeta f (NR f).

Definition syscall_table0 : list (option sysfn) := replicate 512 None.

(** [syscalls_init] over the metadata, in the order in which the linker left it;
    the state is [syscall_table]. *)
Definition syscalls_init (meta : list syscall_metadata) : M (list (option sysfn)) () :=
  forM_ meta (fun m =>
    if 512 <=? syscall_nr m then panic "Syscall number too big"
    else modify (<[Z.to_nat (syscall_nr m) := Some (ptr m)]>)).

Section entry.
Context {R : Type} `{!RadixMap R id}.
Context (zjunk : Z) (junk : request) (hw_in : Z -> Z -> K R Z) (hw_out : Z -> Z -> Z -> K R ()).
Context (tar_start tar_end physoffset : Z).
Notation Kn := (K R).
Notation rops := (kernel_rops zjunk hw_in hw_out tar_start tar_end physoffset).

(** The functions; [int] parameters are the low halves of their registers.  [None]:
    the task has gone to sleep or is gone, another one is running. *)
Definition returns (m : Kn Z) : Kn (option Z) := r ← m; mret (Some r).
Definition on_astable (f : fdtable id -> M (mm R) (Z * fdtable id)) : Kn Z :=
  x ← get_current;
  '(r, t) ← mm_lift (f (t_astable x));
  x ← get_current;
  put_current (with_astable t x);;
  mret r.

Definition syscall (f : sysfn) (a1 a2 a3 a4 : Z) : Kn (option Z) :=
  match f with
  | sys_open_port => returns (open_port junk (i32 a1))
  | sys_get_response => returns (get_response rops (i32 a1) a2)
  | sys_request => returns (Port.sys_request junk rops (i32 a1) a2 a3)
  | sys_port_connect => returns (port_connect junk (kernel_connect zjunk) (i32 a1) a2 a3)
  | sys_asnew => returns (on_astable (fun t => asnew zjunk t (i32 a1)))
  | sys_sendpage => returns (x ← get_current; mm_lift (sendpage (t_astable x) (i32 a1) a2 a3 a4))
  | sys_exit => Sched.sys_exit zjunk (i32 a1);; mret None
  | sys_get_thread_info => returns (get_thread_info a1)
  | sys_create_task => returns (create_task zjunk junk rops (i32 a1) a2 (i32 a3))
  | sys_asdestroy => returns (on_astable (fun t => asdestroy zjunk t (i32 a1)))
  | sys_close => returns (close rops (i32 a1))
  | sys_pop_request => returns (pop_request zjunk junk (i32 a1) a2)
  | sys_respond => returns (respond zjunk (i32 a1) a2 a3)
  | sys_wait_on => wait_on zjunk rops a1 a2 (i32 a3)
  | sys_wait_on_port => wait_on_port zjunk (i32 a1)
  | sys_munmap => returns (mm_lift (munmap zjunk a1 a2))
  | sys_dup0 => returns (dup0 junk rops (i32 a1) (i32 a2))
  | sys_get_physical => returns (mm_lift (get_physical a1))
  | sys_getpid => returns getpid
  | sys_getppid => returns getppid
  end.

(** [syscall_entry] and [syscall_return]: the number indexes the table unchecked,
    a NULL entry stops the processor, and so does a return with interrupts
    disabled.  A call that sleeps or exits does not come back here: another task
    goes on from its own [schedule()]. *)
Definition ret_panic : string := "Return from syscall with interrupt disabled".
Definition syscall_return (r : Z) : Kn (option Z) :=
  n ← gets irq; if negb (n =? 0) then panic ret_panic else mret (Some r).
Definition syscall_entry (table : list (option sysfn)) (nr a1 a2 a3 a4 : Z) : Kn (option Z) :=
  o ← deref (table !! Z.to_nat nr);
  match o with
  | None => panic "Non existent syscall"
  | Some f =>
      r ← syscall f a1 a2 a3 a4;
      match r with Some v => syscall_return v | None => mret None end
  end.

(** ** Interrupts and exceptions *)
(** The macro [interrupt_entry]: the handler, then a call of [int_reschedule] when
    bit 0 of its result is set. *)
Definition interrupt_entry (handler : Kn Z) : Kn () :=
  r ← handler; if Z.testbit r 0 then int_reschedule zjunk else mret ().

(** The three handlers read the word behind the one that [rsp] points to. *)
Definition fault_handler (msg : string) (rsp : list Z) : Kn Z :=
  saved_rip ← deref (rsp !! 1%nat);
  if i64 saved_rip <? 0 then panic msg
  else kill_current 2;; mret 1.
Definition gp_handler : list Z -> Kn Z := fault_handler "GP in kernel".
Definition ud_handler : list Z -> Kn Z := fault_handler "UD in kernel".
Definition de_handler : list Z -> Kn Z := fault_handler "DE in kernel".

Definition gp_entry (rsp : list Z) : Kn () := interrupt_entry (gp_handler rsp).
Definition ud_entry (rsp : list Z) : Kn () := interrupt_entry (ud_handler rsp).
Definition de_entry (rsp : list Z) : Kn () := interrupt_entry (de_handler rsp).
Definition int_entry (t : int_tables) (call : Z -> Z -> Kn Z) (vector : Z) : Kn () :=
  interrupt_entry (int_handler t call vector).

(** [page_fault_entry] sets the nesting counter itself. *)
Definition page_fault_entry (err cr2 : Z) : Kn () :=
  modify (set_irq 1);;
  '(r, killed) ← mm_lift (page_fault_handler err cr2);
  match killed with Some code => kill_current code | None => mret () end;;
  modify (set_irq 0);;
  if Z.testbit r 0 then int_reschedule zjunk else mret ().
End entry.

(** What the processor pushes for an exception in long mode: the error code, for
    those that have one, then the interrupted context. *)
Record context := mkCtx { c_rip : Z; c_cs : Z; c_rflags : Z; c_rsp : Z; c_ss : Z }.
Definition frame_words (c : context) : list Z := [c_rip c; c_cs c; c_rflags c; c_rsp c; c_ss c].
Definition frame_error (err : Z) (c : context) : list Z := err :: frame_words c.
