(* ===== verification/IrqMm.v ===== *)
(** The nesting counter across the memory manager: what every operation of
    [sys/mm/] does to [interrupt_disabled].

    [irq_shift 0 m]: when [m] returns, the counter is what it was.  Two operations
    do not keep that: [insert_vma_to_any] leaves the counter one too high when it
    fails, and so do the operations that use it; [irq_to] says which results they
    return then. *)
From S2P Require Import Prelude Bits Irq Binradix Alloc MmState PageMan Aspace FdTable Copy.

(** [irq_to Q m]: when [m] returns [a], the counter has moved by a [d] with [Q a d]. *)
Definition irq_to {S} `{!HasIrq S} {A} (Q : A -> Z -> Prop) (m : M S A) : Prop :=
  forall s a s', 0 <= irq s -> m s = Done a s' -> 0 <= irq s' /\ Q a (irq s' - irq s).

Section irq_to.
Context {S : Type} `{!HasIrq S}.

Lemma to_shift {A} d (Q : A -> Z -> Prop) (m : M S A) : irq_shift d m -> (forall a, Q a d) -> irq_to Q m.
Proof. intros Hm HQ s a s' Hs E. destruct (Hm s a s' Hs E) as [-> ?]. split; [lia|]. by replace (irq s + d - irq s) with d by lia. Qed.

Lemma to_bind {A B} (R : A -> Z -> Prop) (Q : B -> Z -> Prop) (m : M S A) (f : A -> M S B) :
  irq_to R m -> (forall a d, R a d -> irq_to (fun b d' => Q b (d + d')) (f a)) -> irq_to Q (m ≫= f).
Proof.
  intros Hm Hf s b s' Hs (a & s1 & E1 & E2)%bind_Done. destruct (Hm s a s1 Hs E1) as [H1 HR].
  destruct (Hf a _ HR s1 b s' H1 E2) as [H2 HQ]. split; [done|].
  by replace (irq s' - irq s) with (irq s1 - irq s + (irq s' - irq s1)) by lia.
Qed.

Lemma to_weaken {A} (Q Q' : A -> Z -> Prop) (m : M S A) :
  irq_to Q m -> (forall a d, Q a d -> Q' a d) -> irq_to Q' m.
Proof. intros Hm HQ s a s' Hs E. destruct (Hm s a s' Hs E). eauto. Qed.

(** The first action of a sequence keeps the counter, raises it, lowers it. *)
Lemma to_bind0 {A B} (Q : B -> Z -> Prop) (m : M S A) (f : A -> M S B) :
  irq_shift 0 m -> (forall a, irq_to Q (f a)) -> irq_to Q (m ≫= f).
Proof.
  intros Hm Hf. apply (to_bind (fun _ d => d = 0)); [by apply (to_shift 0)|]. intros a d ->.
  apply (to_weaken Q); [apply Hf|done].
Qed.
Lemma to_disable {B} (Q : B -> Z -> Prop) (f : () -> M S B) :
  irq_to (fun b d => Q b (1 + d)) (f ()) -> irq_to Q (disable_interrupts ≫= f).
Proof.
  intros Hf. apply (to_bind (fun _ d => d = 1)); [apply (to_shift 1); [apply shift_disable|done]|].
  by intros [] d ->.
Qed.
Lemma to_enable {B} (Q : B -> Z -> Prop) (f : () -> M S B) :
  irq_to (fun b d => Q b (-1 + d)) (f ()) -> irq_to Q (enable_interrupts ≫= f).
Proof.
  intros Hf. apply (to_bind (fun _ d => d = -1)); [apply (to_shift (-1)); [apply shift_enable|done]|].
  by intros [] d ->.
Qed.
Lemma to_ret {A} (Q : A -> Z -> Prop) (a : A) : Q a 0 -> irq_to Q (mret a : M S A).
Proof. intros HQ s b s' Hs [= <- <-]. split; [done|]. by rewrite Z.sub_diag. Qed.
Lemma to_panic {A} (Q : A -> Z -> Prop) msg : irq_to Q (panic msg : M S A).
Proof. intros s b s' Hs. discriminate. Qed.
Lemma to_fault {A} (Q : A -> Z -> Prop) : irq_to Q (fault : M S A).
Proof. intros s b s' Hs. discriminate. Qed.

Lemma shift_locked {A} (m : M S A) : irq_shift 0 m -> irq_shift 0 (locked m).
Proof.
  intros Hm. unfold locked. apply shift_bind_disable. intros _. apply shift_bind0; [done|]. intros a.
  apply shift_bind_enable. intros _. eapply shift_eq; [apply shift_ret|lia].
Qed.
End irq_to.

#[export] Hint Resolve shift_locked : irqdb.

(** Accessors are unfolded, everything else has its lemma in [irqdb]. *)
Ltac irq_mm_unfold :=
  unfold owner_del, owner_add, sibling_del, sibling_add, vma_find_by_vaddr, get_allocated_page, vma_replace in *;
  unfold get_pool, put_pool, get_pg, put_pg, get_pe, put_pe, get_as, put_as, new_id, memset_phys, memcpy_phys,
    read_bytes, write_bytes, page_ptr in *.
Ltac irq_auto := irq_mm_unfold; irq_solve.

(** ** The page allocator *)
Section alloc.
Notation Al := (M mem).
Lemma irq_obj_pool_free r o : irq_shift 0 (obj_pool_free r o).
Proof. unfold obj_pool_free. irq_auto. all: destruct r; reflexivity. Qed.
#[local] Hint Resolve irq_obj_pool_free : irqdb.
Lemma irq_get_phys_page_locked : irq_shift 0 get_phys_page_locked.
Proof. unfold get_phys_page_locked. irq_auto. Qed.
#[local] Hint Resolve irq_get_phys_page_locked : irqdb.
Lemma irq_get_phys_page : irq_shift 0 get_phys_page.
Proof. apply shift_locked, irq_get_phys_page_locked. Qed.
Lemma irq_alloc_get_page : irq_shift 0 Alloc.get_page.
Proof. unfold Alloc.get_page. irq_auto. Qed.
Lemma irq_alloc_drop_page pg : irq_shift 0 (Alloc.drop_page pg).
Proof. unfold Alloc.drop_page. irq_auto. Qed.
End alloc.

(** ** Pages, address spaces and copying *)
Section mm.
Context {R : Type} `{!RadixMap R id}.
Context (junk : Z).
Notation Mm := (M (mm R)).

Lemma irq_lift {A} d (m : M mem A) : irq_shift d m -> irq_shift d (lift (R := R) m).
Proof.
  intros Hm s a s' Hs. unfold lift. destruct (m (alloc s)) as [b al| |] eqn:E; [|done..].
  intros [= <- <-]. by apply (Hm (alloc s) b al).
Qed.
Lemma irq_get_page : irq_shift 0 (get_page (R := R)).
Proof. apply irq_lift, irq_alloc_get_page. Qed.
Lemma irq_drop_page pg : irq_shift 0 (drop_page (R := R) pg).
Proof. apply irq_lift, irq_alloc_drop_page. Qed.
#[local] Hint Resolve irq_get_page irq_drop_page : irqdb.

Lemma irq_get_pte a vaddr : irq_shift 0 (get_pte (R := R) a vaddr).
Proof. unfold get_pte. irq_auto. Qed.
Lemma irq_set_pte a vaddr e : irq_shift 0 (set_pte (R := R) a vaddr e).
Proof. unfold set_pte. irq_auto. Qed.
Lemma irq_clear_pte a vaddr : irq_shift 0 (clear_pte (R := R) a vaddr).
Proof. unfold clear_pte. irq_auto. Qed.
#[local] Hint Resolve irq_get_pte irq_set_pte irq_clear_pte : irqdb.
Lemma irq_unmap vaddr : irq_shift 0 (unmap (R := R) vaddr).
Proof. unfold unmap. irq_auto. Qed.
Lemma irq_map_page addr vaddr pgsize flags : irq_shift 0 (map_page (R := R) addr vaddr pgsize flags).
Proof. unfold map_page. irq_auto. Qed.
#[local] Hint Resolve irq_unmap irq_map_page : irqdb.
Lemma irq_unmap_maybe_current a vaddr : irq_shift 0 (unmap_maybe_current (R := R) a vaddr).
Proof. unfold unmap_maybe_current. irq_auto. Qed.
#[local] Hint Resolve irq_unmap_maybe_current : irqdb.

Lemma irq_manage_phys_page_locked addr : irq_shift 0 (manage_phys_page_locked (R := R) addr).
Proof. unfold manage_phys_page_locked. irq_auto. Qed.
#[local] Hint Resolve irq_manage_phys_page_locked : irqdb.
Lemma irq_manage_phys_page addr : irq_shift 0 (manage_phys_page (R := R) addr).
Proof. unfold manage_phys_page. irq_auto. Qed.
#[local] Hint Resolve irq_manage_phys_page : irqdb.
Lemma irq_manage_page addr : irq_shift 0 (manage_page (R := R) addr).
Proof. unfold manage_page. irq_auto. Qed.
Lemma irq_page_unref i hw : irq_shift 0 (page_unref (R := R) i hw).
Proof. unfold page_unref. irq_auto. Qed.
Lemma irq_restore_write check l : irq_shift 0 (restore_write (R := R) check l).
Proof. unfold restore_write. irq_auto. Qed.
#[local] Hint Resolve irq_manage_page irq_page_unref irq_restore_write : irqdb.
Lemma irq_page_entry_unref pe : irq_shift 0 (page_entry_unref (R := R) pe).
Proof. unfold page_entry_unref. irq_auto. Qed.
Lemma irq_share_page i : irq_shift 0 (share_page (R := R) i).
Proof. unfold share_page. irq_auto. Qed.
Lemma irq_move_owner o n i : irq_shift 0 (move_owner (R := R) o n i).
Proof. unfold move_owner. irq_auto. Qed.
Lemma irq_page_entry_new a vaddr p flags : irq_shift 0 (page_entry_new (R := R) a vaddr p flags).
Proof. unfold page_entry_new. irq_auto. Qed.
#[local] Hint Resolve irq_page_entry_unref irq_share_page irq_move_owner irq_page_entry_new : irqdb.

Lemma irq_unassign_page pe : irq_shift 0 (unassign_page (R := R) pe).
Proof. unfold unassign_page. irq_auto. Qed.
#[local] Hint Resolve irq_unassign_page : irqdb.
Lemma irq_aspace_add_vma a v : irq_shift 0 (aspace_add_vma (R := R) a v).
Proof. unfold aspace_add_vma. irq_auto. Qed.
Lemma irq_aspace_new flags : irq_shift 0 (aspace_new (R := R) flags).
Proof. unfold aspace_new. irq_auto. Qed.
Lemma irq_address_space_map vaddr : irq_shift 0 (address_space_map (R := R) vaddr).
Proof. unfold address_space_map. irq_auto. Qed.
Lemma irq_assign_no_check a p vaddr v flags :
  irq_shift 0 (address_space_assign_page_no_addr_check (R := R) a p vaddr v flags).
Proof. unfold address_space_assign_page_no_addr_check. irq_auto. Qed.
#[local] Hint Resolve irq_aspace_add_vma irq_aspace_new irq_address_space_map irq_assign_no_check : irqdb.
Lemma irq_assign_page_with_vma a v p vaddr flags :
  irq_shift 0 (address_space_assign_page_with_vma (R := R) a v p vaddr flags).
Proof. unfold address_space_assign_page_with_vma. irq_auto. Qed.
Lemma irq_find_locked a vaddr : irq_shift 0 (locked (vma_find_by_vaddr (R := R) a vaddr)).
Proof. apply shift_locked. irq_auto. Qed.
#[local] Hint Resolve irq_assign_page_with_vma irq_find_locked : irqdb.
Lemma irq_assign_page a p vaddr flags : irq_shift 0 (address_space_assign_page (R := R) a p vaddr flags).
Proof. unfold address_space_assign_page. unfold get_allocated_page. irq_solve. Qed.
Lemma irq_assign_addr_with_vma a v addr vaddr flags :
  irq_shift 0 (address_space_assign_addr_with_vma (R := R) a v addr vaddr flags).
Proof. unfold address_space_assign_addr_with_vma. irq_auto. Qed.
#[local] Hint Resolve irq_assign_page irq_assign_addr_with_vma : irqdb.

Lemma irq_insert_vma_to_vaddr a vaddr len flags :
  irq_shift 0 (insert_vma_to_vaddr (R := R) a vaddr len flags).
Proof.
  unfold insert_vma_to_vaddr. apply shift_bind0; [apply shift_locked; irq_auto|]. intros v. irq_auto.
Qed.
#[local] Hint Resolve irq_insert_vma_to_vaddr : irqdb.

(** A failure that leaves interrupts disabled. *)
Definition leaks_when {A} (bad : A -> Prop) (a : A) (d : Z) : Prop := d = 0 \/ d = 1 /\ bad a.

Lemma irq_insert_vma_to_any a len flags :
  irq_to (leaks_when (fun r => r = inl (-1))) (insert_vma_to_any (R := R) a len flags).
Proof.
  unfold insert_vma_to_any. apply to_disable. apply to_bind0; [irq_auto|]. intros sp.
  destruct (find_hole (vma sp) (low_addr sp) len) as [[now_addr pre] post].
  destruct (_ && _); [apply to_ret; by right|].
  apply to_bind0; [irq_auto|]. intros v. apply to_bind0; [irq_auto|]. intros _.
  apply to_enable, to_ret. by left.
Qed.

Lemma irq_remove_loop a l : forall base len, irq_shift 0 (remove_loop (R := R) junk a l base len).
Proof.
  induction l as [|now next IH]; intros base len; simpl; [apply shift_ret|].
  destruct (_ <=? base); [apply IH|]. destruct (_ <=? vma_begin now); [apply shift_ret|].
  destruct (_ && _).
  { apply shift_bind0; [irq_auto|]. intros _. apply shift_bind0; [irq_auto|]. intros _. apply IH. }
  destruct (_ && _); [irq_auto|].
  apply shift_bind0; [irq_auto|]. intros _. apply shift_bind0; [irq_auto|]. intros _. apply IH.
Qed.
#[local] Hint Resolve irq_remove_loop : irqdb.
Lemma irq_remove_vma_range a base len : irq_shift 0 (remove_vma_range (R := R) junk a base len).
Proof. unfold remove_vma_range. irq_auto. Qed.
#[local] Hint Resolve irq_remove_vma_range : irqdb.
Lemma irq_destroy_as a : irq_shift 0 (destroy_as (R := R) junk a).
Proof. unfold destroy_as. irq_auto. Qed.
Lemma irq_validate_range base len : irq_shift 0 (validate_range (R := R) base len).
Proof. unfold validate_range. irq_auto. Qed.
#[local] Hint Resolve irq_destroy_as irq_validate_range : irqdb.

Lemma irq_copied_page src off n : irq_shift 0 (copied_page (R := R) src off n).
Proof. unfold copied_page. irq_auto. Qed.
Lemma irq_snap_pages n : forall i, irq_shift 0 (snap_pages (R := R) junk i n).
Proof. induction n as [|n IH]; intros i; simpl; [apply shift_ret|]. irq_mm_unfold. repeat (apply IH || irq_step). Qed.
#[local] Hint Resolve irq_copied_page irq_snap_pages : irqdb.
Lemma irq_map_from_user buf len : irq_shift 0 (map_from_user (R := R) junk buf len).
Proof. unfold map_from_user. irq_auto. Qed.
Lemma irq_map_list a v l : forall vaddr, irq_shift 0 (map_list (R := R) a v l vaddr).
Proof.
  induction l as [|pl l IH]; intros vaddr; simpl; [apply shift_ret|].
  apply shift_bind0; [irq_auto|]. intros _. apply IH.
Qed.
Lemma irq_page_list_free plh : irq_shift 0 (page_list_free (R := R) plh).
Proof. unfold page_list_free. irq_auto. Qed.
#[local] Hint Resolve irq_map_from_user irq_map_list irq_page_list_free : irqdb.

Lemma irq_map_to_user plh vaddr :
  irq_to (leaks_when (fun r => r = u64 (- ENOMEM))) (map_to_user (R := R) plh vaddr).
Proof.
  unfold map_to_user, map_to_user_as. apply to_bind0; [irq_auto|]. intros c.
  destruct (negb _); [apply to_panic|].
  apply (to_bind (leaks_when (fun r => exists e, r = inl e))).
  - destruct (negb _).
    + apply (to_shift 0); [irq_auto|by left].
    + eapply to_weaken; [apply irq_insert_vma_to_any|]. intros r d [->|[-> ->]]; [by left|right; eauto].
  - intros [e|v] d Hd.
    + apply to_ret. rewrite Z.add_0_r. by destruct Hd as [->|[-> _]]; [left|right].
    + destruct Hd as [->|[_ [e [=]]]]. apply to_bind0; [irq_auto|]. intros _. apply to_ret. by left.
Qed.

Lemma lookup_Done {S A} (g : S -> option A) s a s' :
  (o ← gets g; deref o : M S A) s = Done a s' -> g s = Some a /\ s' = s.
Proof.
  intros (o & s1 & [= <- <-] & E)%bind_Done. destruct (g s) as [x|]; [|done].
  change (Done x s = Done a s') in E. by simplify_eq.
Qed.

(** [unshare_page] disables interrupts twice for a page without snapshots; its
    callers test for that. *)
Lemma irq_unshare_if pe {A} (f : () -> Mm A) :
  (forall u, irq_shift 0 (f u)) ->
  irq_shift 0 (e ← get_pe pe; p ← get_pg (pe_p e);
               (if 0 <? snap_count p then unshare_page pe else mret ()) ≫= f).
Proof.
  intros Hf s b s' Hs (e & s1 & Ee & E)%bind_Done. apply bind_Done in E as (p & s2 & Ep & E).
  apply (lookup_Done (fun s => entries s !! pe)) in Ee as Hpe. destruct Hpe as [_ ->].
  apply (lookup_Done (fun s => pgs s !! pe_p e)) in Ep as [Hp ->].
  apply bind_Done in E as ([] & s3 & E3 & E). revert b s' E. cut (irq s3 = irq s).
  { intros Hi b s' E. destruct (Hf () s3 b s') as [H1 H2]; [by rewrite Hi|done|]. split; [by rewrite H1, Hi|done]. }
  destruct (Z.ltb_spec 0 (snap_count p)) as [Hsc|]; [|by injection E3 as ->].
  unfold unshare_page in E3. apply bind_Done in E3 as (e' & s4 & Ee' & E3). rewrite Ee in Ee'. injection Ee' as <- <-.
  apply bind_Done in E3 as (c & s4 & [= <- <-] & E3). destruct (bool_decide _); [done|].
  apply bind_Done in E3 as ([] & s4 & Ed & E3). rewrite disable_eq in Ed. injection Ed as <-.
  destruct (flag PF_HARDWARE _); [done|].
  apply bind_Done in E3 as (p' & s4 & Ep' & E3).
  apply (lookup_Done (fun s => pgs s !! pe_p e)) in Ep' as [Hp' ->]. change (pgs s !! pe_p e = Some p') in Hp'. rewrite Hp in Hp'. injection Hp' as <-.
  destruct (Z.eqb_spec (snap_count p) 0); [lia|].
  match type of E3 with ?m _ = _ => assert (irq_shift (-1) m) as Hm end.
  { destruct (_ && _); irq_auto. }
  apply Hm in E3 as [Hi _]; [change (irq s3 = irq s + 1 + -1) in Hi; lia|change (0 <= irq s + 1); lia].
Qed.

Lemma irq_writable_page aaddr : irq_shift 0 (writable_page (R := R) aaddr).
Proof.
  unfold writable_page. apply shift_bind0; [apply shift_gets|]. intros c.
  apply shift_bind0; [irq_auto|]. intros [pe|]; [|irq_auto].
  apply irq_unshare_if. intros _. irq_auto.
Qed.
Lemma irq_read_user_page aaddr off n : irq_shift 0 (read_user_page (R := R) aaddr off n).
Proof. unfold read_user_page. irq_auto. Qed.
#[local] Hint Resolve irq_writable_page irq_read_user_page : irqdb.
Lemma irq_copy_to_user_simple src buf : irq_shift 0 (copy_to_user_simple (R := R) src buf).
Proof. unfold copy_to_user_simple. cbv zeta. irq_auto. Qed.
Lemma irq_copy_from_user_simple src len : irq_shift 0 (copy_from_user_simple (R := R) src len).
Proof. unfold copy_from_user_simple. cbv zeta. irq_auto. Qed.

Lemma irq_as_snapshot a : irq_shift 0 (as_snapshot (R := R) a).
Proof. unfold as_snapshot. irq_auto. Qed.
#[local] Hint Resolve irq_as_snapshot : irqdb.
Lemma irq_asnew t flags : irq_shift 0 (asnew (R := R) junk t flags).
Proof. unfold asnew. irq_auto. Qed.
Lemma irq_asdestroy t a : irq_shift 0 (asdestroy (R := R) junk t a).
Proof. unfold asdestroy. irq_auto. Qed.
Lemma irq_send_pages a n : forall vaddr dst, irq_shift 0 (send_pages (R := R) a vaddr dst n).
Proof. induction n as [|n IH]; intros; simpl; [apply shift_ret|]. repeat (apply IH || irq_mm_unfold; irq_step || eauto with irqdb). Qed.
#[local] Hint Resolve irq_send_pages : irqdb.
Lemma irq_munmap base len : irq_shift 0 (munmap (R := R) junk base len).
Proof. unfold munmap. irq_auto. Qed.
Lemma irq_get_physical vaddr : irq_shift 0 (get_physical (R := R) vaddr).
Proof. unfold get_physical. cbv zeta. irq_auto. Qed.

Lemma irq_sendpage t a vaddr dst len :
  irq_to (leaks_when (fun r => r = - ENOMEM)) (sendpage (R := R) t a vaddr dst len).
Proof.
  unfold sendpage. apply to_disable.
  destruct (_ || _); [apply to_enable, to_ret; by left|].
  apply to_bind0; [apply shift_deref|]. intros [i|]; [|apply to_enable, to_ret; by left].
  destruct (_ || _); [apply to_enable, to_ret; by left|].
  apply to_bind0; [irq_auto|]. intros []; [apply to_enable, to_ret; by left|].
  apply (to_bind (leaks_when (fun r => exists e, r = inl e))).
  - destruct (negb _).
    + apply (to_shift 0); [irq_auto|by left].
    + eapply to_weaken; [apply irq_insert_vma_to_any|]. intros r d [->|[-> ->]]; [by left|right; eauto].
  - intros [e|v] d Hd.
    + apply to_enable, to_ret. destruct Hd as [->|[-> _]]; [by left|by right].
    + destruct Hd as [->|[_ [e [=]]]]. apply to_bind0; [irq_auto|]. intros _. apply to_enable, to_ret. by left.
Qed.

(** [address_space_assign_addr_range] leaves interrupts disabled on every error; its
    errors are negative. *)
Lemma to_assign_addr_with_vma a v addr vaddr flags :
  irq_to (fun r d => r <= 0 /\ d = 0) (address_space_assign_addr_with_vma (R := R) a v addr vaddr flags).
Proof.
  unfold address_space_assign_addr_with_vma. destruct (negb _); [by apply to_ret|].
  destruct (negb _); [by apply to_ret|]. repeat (apply to_bind0; [irq_auto|intros ?]). by apply to_ret.
Qed.
Lemma irq_assign_loop a l : forall addr vaddr i offset n,
  irq_to (fun r d => r = 0 /\ d = -1 \/ r < 0 /\ d = 0) (assign_loop (R := R) a l addr vaddr i offset n).
Proof.
  intros addr vaddr i offset n. revert l i offset. induction n as [|n IH]; intros l i offset; simpl.
  { apply to_enable, to_ret. by left. }
  apply to_bind0; [apply shift_deref|]. intros v. destruct (if _ : bool then _ else _) as [l' off].
  apply to_bind0; [apply shift_deref|]. intros w. eapply to_bind; [apply to_assign_addr_with_vma|].
  intros r d [Hr ->]. destruct (Z.eqb_spec r 0); simpl; [apply IH|apply to_ret; right; lia].
Qed.
Lemma range_check_neg l : forall tmp_len r, range_check l tmp_len = Some r -> r <= 0.
Proof.
  induction l as [|v l IH]; intros tmp_len r; [done|]. cbn [range_check].
  destruct l as [|w l]; case_ifs; try done; try (intros [= <-]; lia). apply IH.
Qed.
Lemma irq_assign_addr_range a addr vaddr len :
  irq_to (fun r d => r = 0 /\ d = 0 \/ r < 0 /\ 0 <= d) (address_space_assign_addr_range (R := R) a addr vaddr len).
Proof.
  unfold address_space_assign_addr_range. destruct (_ || _); [apply to_ret; by right|].
  apply to_disable. apply to_bind0; [irq_auto|]. intros sp. cbv zeta.
  destruct (vmas_from (vma sp) vaddr) as [|v l]; [apply to_ret; by right|].
  destruct (range_check (v :: l) len) as [r|] eqn:Er; [|apply to_fault].
  apply (to_bind (fun r' d => r' = r /\ d = 0)); [by apply to_ret|]. intros ? d [-> ->].
  apply range_check_neg in Er. destruct (Z.eqb_spec r 0); simpl; [|apply to_ret; right; lia].
  eapply to_weaken; [apply irq_assign_loop|]. intros b d [[-> ->]|[? ->]]; [by left|right; lia].
Qed.
End mm.

#[export] Hint Resolve irq_obj_pool_free irq_get_phys_page irq_get_page irq_drop_page irq_get_pte irq_set_pte
  irq_clear_pte irq_unmap irq_map_page irq_manage_phys_page irq_manage_page irq_page_unref irq_restore_write
  irq_page_entry_unref irq_share_page irq_unassign_page irq_aspace_add_vma irq_aspace_new irq_address_space_map
  irq_assign_page_with_vma irq_find_locked irq_assign_page irq_assign_addr_with_vma irq_insert_vma_to_vaddr
  irq_remove_vma_range irq_destroy_as irq_validate_range irq_map_from_user irq_page_list_free
  irq_copy_to_user_simple irq_copy_from_user_simple irq_asnew irq_asdestroy irq_munmap irq_get_physical : irqdb.
