(* ===== verification/IrqKernel.v ===== *)
(** The nesting counter across a system call: no system call returns to its program
    with interrupts disabled, except for those that fail to find room in an
    address space. *)
From S2P Require Import Prelude Bits Irq Binradix Alloc MmState PageMan Aspace FdTable Copy Kernel Sched Port Uport Services Entry IrqMm.

Ltac irq_k_unfold :=
  unfold put_req, get_req, get_uport, get_ureq, get_cookie, get_msg, put_obj, get_obj, Kernel.ptr,
    cur_slot, set_cur_slot, lookup_fd, lookup_fd_strict, new_request, insert_fd, new_obj, free_obj, req_unlink, file_pool,
    put_current, get_current in *;
  unfold cur_slot, set_cur_slot, get_obj, get_task, put_task, new_obj, get_current, put_current, runq_add, runq_add_tail, port_at, put_current, get_current in *;
  unfold get_task, put_task in *.
Ltac irq_k := irq_k_unfold; irq_solve.

Section kernel.
Context {R : Type} `{!RadixMap R id}.
Context (zjunk : Z) (junk : request).
Notation Kn := (K R).

Lemma irq_mm_lift {A} d (m : M (mm R) A) : irq_shift d m -> irq_shift d (mm_lift m).
Proof.
  intros Hm k a k' Hk. unfold mm_lift. destruct (m (k_mm k)) as [b s| |] eqn:E; [|done..].
  intros [= <- <-]. by apply (Hm (k_mm k) b s).
Qed.
Lemma to_mm_lift {A} Q (m : M (mm R) A) : irq_to Q m -> irq_to Q (mm_lift m).
Proof.
  intros Hm k a k' Hk. unfold mm_lift. destruct (m (k_mm k)) as [b s| |] eqn:E; [|done..].
  intros [= <- <-]. by apply (Hm (k_mm k) b s).
Qed.
#[local] Hint Resolve irq_mm_lift : irqdb.
#[local] Hint Extern 1 (irq_shift _ (gets current_as)) => apply shift_gets : irqdb.

Lemma irq_wake_up t : irq_shift 0 (wake_up (R := R) t).
Proof. unfold wake_up. irq_k. Qed.
Lemma irq_set_task_state st : irq_shift 0 (set_task_state (R := R) st).
Proof. unfold set_task_state. irq_k. Qed.
#[local] Hint Resolve irq_wake_up irq_set_task_state : irqdb.

(** ** Tasks *)
Lemma irq_kill_process t : irq_shift 0 (kill_process (R := R) zjunk t).
Proof. unfold kill_process, pool_destroy. irq_k. Qed.
#[local] Hint Resolve irq_kill_process : irqdb.
Lemma irq_schedule : irq_shift 0 (schedule (R := R) zjunk).
Proof. unfold schedule, after_switch, switch_to, pick_next. irq_k. Qed.
#[local] Hint Resolve irq_schedule : irqdb.
Lemma irq_kill_current code : irq_shift 0 (kill_current (R := R) code).
Proof. unfold kill_current. irq_k. Qed.
#[local] Hint Resolve irq_kill_current : irqdb.
Lemma irq_sys_exit code : irq_shift 0 (Sched.sys_exit (R := R) zjunk code).
Proof. unfold Sched.sys_exit. irq_k. Qed.
Lemma irq_getpid : irq_shift 0 (getpid (R := R)).
Proof. unfold getpid. irq_k. Qed.
Lemma irq_getppid : irq_shift 0 (getppid (R := R)).
Proof. unfold getppid. irq_k. Qed.
Lemma irq_get_thread_info buf : irq_shift 0 (get_thread_info (R := R) buf).
Proof. unfold get_thread_info. irq_k. Qed.

(** ** Messages *)
Lemma irq_msg_unlink m : irq_shift 0 (msg_unlink (R := R) m).
Proof. unfold msg_unlink. irq_k. Qed.
Lemma irq_free_plh o : irq_shift 0 (free_plh (R := R) o).
Proof. unfold free_plh. apply irq_mm_lift. irq_solve. Qed.
Lemma irq_establish b s c : irq_shift 0 (establish (R := R) b s c).
Proof. unfold establish. irq_k. Qed.
Lemma irq_take_buffer len buf : irq_shift 0 (take_buffer (R := R) zjunk len buf).
Proof. unfold take_buffer. irq_k. Qed.
Lemma irq_incoming_top r : irq_shift 0 (incoming_top (R := R) r).
Proof. unfold incoming_top. irq_k. Qed.
Lemma irq_close_client c : irq_shift 0 (close_client (R := R) c).
Proof. unfold close_client. irq_k. Qed.
Lemma irq_register_port n p : irq_shift 0 (register_port (R := R) n p).
Proof. unfold register_port. irq_k. Qed.
Lemma irq_deregister_port n : irq_shift 0 (deregister_port (R := R) n).
Proof. unfold deregister_port. irq_k. Qed.
#[local] Hint Resolve irq_msg_unlink irq_free_plh irq_establish irq_take_buffer irq_incoming_top irq_close_client
  irq_register_port irq_deregister_port : irqdb.

(** A failure of [map_to_user] is taken for an address when the offset of the first
    byte in its page is 12 or more: nothing is known about the result. *)
Lemma irq_map_plh o : irq_to (leaks_when (fun _ => True)) (map_plh (R := R) o).
Proof.
  unfold map_plh. destruct o as [plh|]; [|apply to_ret; by left].
  eapply to_bind; [apply irq_map_to_user|]. intros v d Hd. cbv zeta.
  destruct (_ <? 0); apply to_ret; rewrite Z.add_0_r; by destruct Hd as [->|[-> _]]; [left|right].
Qed.

(** ** User ports *)
Lemma irq_wait_on_port n : irq_shift 0 (wait_on_port (R := R) zjunk n).
Proof. unfold wait_on_port, wait_on_port_check. irq_k. Qed.
Lemma irq_open_port n : irq_shift 0 (open_port (R := R) junk n).
Proof. unfold open_port. irq_k. Qed.
Lemma irq_respond fd len buf : irq_shift 0 (respond (R := R) zjunk fd len buf).
Proof. unfold respond. irq_k. Qed.
Lemma irq_uport_connect n req len buf : irq_shift 0 (uport_connect (R := R) zjunk n req len buf).
Proof. unfold uport_connect, uport_at. irq_k. Qed.
Lemma irq_uport_request req reqc len buf : irq_shift 0 (uport_request (R := R) zjunk req reqc len buf).
Proof. unfold uport_request. irq_k. Qed.
Lemma irq_uport_dup old new : irq_shift 0 (uport_dup (R := R) old new).
Proof. unfold uport_dup. irq_k. Qed.
Lemma irq_uport_user_close req : irq_shift 0 (uport_user_close (R := R) req).
Proof. unfold uport_user_close. irq_k. Qed.
Lemma irq_uport_user_available req rw : irq_shift 0 (uport_user_available (R := R) req rw).
Proof. unfold uport_user_available. irq_k. Qed.
Lemma irq_uport_server_available req rw : irq_shift 0 (uport_server_available (R := R) req rw).
Proof. unfold uport_server_available. irq_k. Qed.
Lemma irq_uport_server_close req : irq_shift 0 (uport_server_close (R := R) req).
Proof. unfold uport_server_close. irq_k. Qed.

Lemma irq_uport_get_response req :
  irq_to (leaks_when (fun r => r.1 = - ENOMEM)) (uport_get_response (R := R) req).
Proof.
  unfold uport_get_response. apply to_bind0; [irq_k|]. intros r.
  destruct (negb _); [apply to_ret; by left|]. destruct (decide _); [apply to_ret; by left|].
  destruct (decide _); [apply to_ret; by left|].
  apply to_bind0; [irq_k|]. intros p. apply to_bind0; [irq_k|]. intros ck.
  destruct (ck_response ck) as [| |plh]; [apply to_ret; by left|apply to_fault|].
  eapply to_bind; [apply to_mm_lift, irq_map_to_user|]. intros v d Hd.
  destruct (Z.ltb_spec (i64 v) 0) as [|Hn].
  - apply to_ret. rewrite Z.add_0_r. by destruct Hd as [->|[-> _]]; [left|right].
  - destruct Hd as [->|[-> ->]]; [|by vm_compute in Hn].
    apply (to_shift 0); [irq_k|by left].
Qed.

(** ** The ports of the kernel *)
Context (hw_in : Z -> Z -> Kn Z) (hw_out : Z -> Z -> Z -> Kn ()).
Context (tar_start tar_end physoffset : Z).
Context (Hin : forall p n, irq_shift 0 (hw_in p n)) (Hout : forall p n x, irq_shift 0 (hw_out p n x)).
#[local] Hint Resolve Hin Hout : irqdb.

Lemma irq_int_wait_add n req : irq_shift 0 (int_wait_add (R := R) n req).
Proof. unfold int_wait_add. irq_k. Qed.
Lemma irq_dint d : irq_shift 0 (dint (R := R) d).
Proof. unfold dint. irq_k. Qed.
#[local] Hint Resolve irq_int_wait_add irq_dint : irqdb.
Lemma irq_int_port_connect n req len buf : irq_shift 0 (int_port_connect (R := R) n req len buf).
Proof. unfold int_port_connect. irq_k. Qed.
Lemma irq_int_port_available req rw : irq_shift 0 (int_port_available (R := R) req rw).
Proof. unfold int_port_available. irq_k. Qed.
Lemma irq_int_port_dup old new : irq_shift 0 (int_port_dup (R := R) old new).
Proof. unfold int_port_dup. irq_k. Qed.
Lemma irq_portio_connect n req len buf : irq_shift 0 (portio_connect (R := R) n req len buf).
Proof. unfold portio_connect. irq_k. Qed.
Lemma irq_portio_request r reqc len buf : irq_shift 0 (portio_request hw_in hw_out r reqc len buf).
Proof. unfold portio_request. irq_k. Qed.
Lemma irq_portio_get_response req : irq_shift 0 (portio_get_response (R := R) zjunk req).
Proof. unfold portio_get_response. irq_k. Qed.
Lemma irq_mem_port_get_response req : irq_shift 0 (mem_port_get_response (R := R) zjunk req).
Proof. unfold mem_port_get_response. irq_k. Qed.
Lemma irq_mem_port_close req : irq_shift 0 (mem_port_close (R := R) req).
Proof. unfold mem_port_close. irq_k. Qed.
Lemma irq_insert_range base len : irq_shift 0 (insert_range (R := R) base len).
Proof. unfold insert_range. irq_k. Qed.
#[local] Hint Resolve irq_insert_range : irqdb.

Lemma irq_mem_port_request reqc len buf :
  irq_to (leaks_when (fun r => r = - ENOMEM)) (mem_port_request (R := R) reqc len buf).
Proof.
  unfold mem_port_request. destruct (negb _); [apply to_ret; by left|].
  destruct (buf =? 0); [apply to_ret; by left|]. apply to_disable.
  apply to_bind0; [irq_k|]. intros [ret l]. destruct (negb _); [apply to_enable, to_ret; by left|]. cbv zeta.
  destruct (negb _); [apply to_enable, to_ret; by left|].
  apply to_bind0; [irq_k|]. intros a.
  apply (to_bind (leaks_when (fun r => exists e, r = inl e))).
  { apply to_mm_lift. destruct (negb _).
    - apply (to_shift 0); [irq_solve|by left].
    - eapply to_weaken; [apply irq_insert_vma_to_any|]. intros r d [->|[-> ->]]; [by left|right; eauto]. }
  intros [e|v] d Hd.
  { apply to_enable, to_ret. destruct Hd as [->|[-> _]]; [by left|by right]. }
  destruct Hd as [->|[_ [e [=]]]]. apply to_bind0; [irq_k|]. intros r.
  destruct (r <? 0).
  { apply to_bind0; [apply irq_mm_lift; irq_auto|]. intros _. apply to_enable, to_ret. by left. }
  eapply to_bind; [apply to_mm_lift, irq_assign_addr_range|]. intros b d Hb.
  destruct (Z.ltb_spec b 0); [apply to_panic|]. destruct Hb as [[-> ->]|[? _]]; [|lia].
  apply to_bind0; [irq_k|]. intros q. apply to_bind0; [irq_k|]. intros _. apply to_enable, to_ret. by left.
Qed.

Lemma irq_show_pages a n : forall paddr vaddr, irq_shift 0 (show_pages (R := R) a paddr vaddr n).
Proof.
  induction n as [|n IH]; intros; simpl; [apply shift_ret|]. unfold show_page, page_ptr.
  repeat (apply IH || irq_step || eauto with irqdb).
Qed.
Lemma irq_show_partial a src off n vaddr : irq_shift 0 (show_partial (R := R) physoffset a src off n vaddr).
Proof. unfold show_partial. irq_auto. Qed.
#[local] Hint Resolve irq_show_pages irq_show_partial : irqdb.

(** The two services that map pages at a free address dereference a failure. *)
Lemma irq_vma_any a len flags {A} (f : vm_area -> M (mm R) A) :
  (forall v, irq_shift 0 (f v)) -> irq_shift 0 (r ← insert_vma_to_any a len flags; v ← vma_ptr r; f v).
Proof.
  intros Hf s b s' Hs (r & s1 & E1 & E)%bind_Done. apply bind_Done in E as (v & s2 & E2 & E).
  destruct (irq_insert_vma_to_any a len flags s r s1 Hs E1) as [H1 [Hd|[_ ->]]]; [|done].
  destruct r as [e|w]; [done|]. injection E2 as -> <-. destruct (Hf v s1 b s' H1 E). lia.
Qed.
Lemma irq_bda_get_response r : irq_shift 0 (bda_port_get_response (R := R) r).
Proof.
  unfold bda_port_get_response. apply irq_mm_lift. cbv zeta. apply shift_bind0; [apply shift_gets|]. intros a.
  apply irq_vma_any. intros v. irq_solve.
Qed.
Lemma irq_tarfs_get_response r :
  irq_shift 0 (tarfs_port_get_response (R := R) tar_start tar_end physoffset r).
Proof.
  unfold tarfs_port_get_response. apply irq_mm_lift. cbv zeta. apply shift_bind0; [apply shift_gets|]. intros a.
  apply irq_vma_any. intros v. irq_solve.
Qed.

(** ** The tables of operations *)
Notation rops := (kernel_rops zjunk hw_in hw_out tar_start tar_end physoffset).

Lemma irq_op_request o f : op_request (rops o) = Some f ->
  forall r rc len buf, irq_to (leaks_when (fun v => v = - ENOMEM)) (f r rc len buf).
Proof.
  intros Ho r rc len buf. destruct o; simplify_eq/=.
  - apply (to_shift 0); [apply irq_uport_request|by left].
  - apply (to_shift 0); [apply irq_portio_request|by left].
  - apply irq_mem_port_request.
Qed.
Lemma irq_op_get_response o f : op_get_response (rops o) = Some f ->
  forall r, irq_to (leaks_when (fun v => v.1 = - ENOMEM)) (f r).
Proof.
  intros Ho r. destruct o; simplify_eq/=; [apply irq_uport_get_response|..]; (apply (to_shift 0); [|by left]).
  - apply irq_portio_get_response.
  - apply irq_mem_port_get_response.
  - apply irq_bda_get_response.
  - apply irq_tarfs_get_response.
Qed.
Lemma irq_op_drop o f : op_drop (rops o) = Some f -> forall r, irq_shift 0 (f r).
Proof.
  intros Ho r. destruct o; simplify_eq/=.
  - apply irq_uport_server_close.
  - apply irq_uport_user_close.
  - unfold int_port_drop. irq_k.
  - apply irq_mem_port_close.
Qed.
Lemma irq_op_dup o f : op_dup (rops o) = Some f -> forall r n, irq_shift 0 (f r n).
Proof. intros Ho r n. destruct o; simplify_eq/=; [apply irq_uport_dup|apply irq_int_port_dup]. Qed.
Lemma irq_op_available o f : op_available (rops o) = Some f -> forall r rw, irq_shift 0 (f r rw).
Proof.
  intros Ho r rw. destruct o; simplify_eq/=;
    [apply irq_uport_server_available|apply irq_uport_user_available|apply irq_int_port_available].
Qed.
Lemma irq_connect p n req len buf :
  irq_to (leaks_when (fun v => v = - ENOMEM)) (kernel_connect (R := R) zjunk p n req len buf).
Proof.
  destruct p; simpl.
  - apply (to_shift 0); [apply irq_uport_connect|by left].
  - apply (to_shift 0); [apply irq_int_port_connect|by left].
  - apply (to_shift 0); [apply irq_portio_connect|by left].
  - apply irq_mem_port_request.
  - apply (to_shift 0); [unfold bda_port_connect; irq_k|by left].
  - apply (to_shift 0); [unfold tarfs_port_connect; irq_k|by left].
Qed.

(** ** The system calls that go through the tables *)
Lemma irq_copy_fds t file : forall i, irq_shift 0 (copy_fds junk rops t file i).
Proof.
  induction file as [|[old|] file IH]; intros i; simpl; [apply shift_ret| |apply IH].
  apply shift_bind0; [irq_k|]. intros req. apply shift_bind0; [|intros _; apply IH].
  destruct (decide _); [apply shift_ret|]. apply shift_bind0; [apply shift_deref|]. intros o.
  destruct (op_dup (rops o)) as [dup|] eqn:Ed; [|apply shift_ret].
  apply shift_bind0; [irq_k|]. intros nr. apply shift_bind0; [by eapply irq_op_dup|]. intros r. irq_k.
Qed.
Lemma irq_create_task a buf flags : irq_shift 0 (create_task zjunk junk rops a buf flags).
Proof. unfold create_task, available_task_slot, new_process. pose proof irq_copy_fds. irq_k. Qed.
Lemma irq_close fd : irq_shift 0 (close rops fd).
Proof.
  unfold close. apply shift_bind0; [irq_k|]. intros [r|]; [|apply shift_ret].
  apply shift_bind0; [irq_k|]. intros req. apply shift_bind0; [irq_k|]. intros _.
  apply shift_bind0; [apply shift_deref|]. intros o. apply shift_bind0; [|intros _; irq_k].
  destruct (op_drop (rops o)) eqn:Ed; [by eapply irq_op_drop|apply shift_ret].
Qed.
Lemma irq_dup0 fd fd2 : irq_shift 0 (dup0 junk rops fd fd2).
Proof.
  unfold dup0. apply shift_bind0; [irq_k|]. intros [r|]; [|apply shift_ret].
  destruct (_ && _); [apply shift_ret|]. apply shift_bind0; [irq_k|]. intros []; [apply shift_ret|].
  do 4 (apply shift_bind0; [irq_k|intros ?]). destruct (_ <? 0); [irq_k|].
  apply shift_bind0; [apply shift_deref|]. intros op. apply shift_bind0; [|intros ?; irq_k].
  destruct (op_dup (rops op)) eqn:Ed; [by eapply irq_op_dup|apply shift_ret].
Qed.

Lemma irq_fds_check_loop rw n : forall fds i, irq_shift 0 (fds_check_loop rops rw fds i n).
Proof.
  induction n as [|n IH]; intros fds i; simpl; [apply shift_ret|].
  destruct (_ <=? i); [apply shift_ret|]. destruct (negb _); [apply IH|].
  apply shift_bind0; [irq_k|]. intros [r|]; [|apply shift_ret]. apply shift_bind0; [irq_k|]. intros req.
  apply shift_bind0; [apply shift_deref|]. intros o.
  destruct (op_available (rops o)) as [av|] eqn:Ea; [|apply shift_ret].
  apply shift_bind0; [by eapply irq_op_available|]. intros b.
  do 3 (apply shift_bind0; [irq_k|intros ?]). apply IH.
Qed.
Lemma irq_clear_waited fds n : forall i, irq_shift 0 (clear_waited (R := R) fds i n).
Proof.
  induction n as [|n IH]; intros i; simpl; [apply shift_ret|]. apply shift_bind0; [irq_k|]. intros _. apply IH.
Qed.
#[local] Hint Resolve irq_fds_check_loop irq_clear_waited : irqdb.
Lemma irq_wait_on_finish rbuf wbuf rf wf ret r2 w2 :
  irq_shift (-1) (wait_on_finish (R := R) rbuf wbuf rf wf ret r2 w2).
Proof. unfold wait_on_finish. irq_k. Qed.
Lemma irq_wait_on_check rbuf wbuf rf wf : irq_shift (-1) (wait_on_check zjunk rops rbuf wbuf rf wf).
Proof.
  assert (forall ret r2 w2, irq_shift (-1)
    (set_task_state TASK_RUNNING;; r ← wait_on_finish (R := R) rbuf wbuf rf wf ret r2 w2; mret (Some r))) as Hf.
  { intros. apply shift_bind0; [irq_k|]. intros _. apply (shift_bind (-1)); [apply irq_wait_on_finish|].
    intros r. apply shift_ret. }
  unfold wait_on_check, fds_check. apply shift_bind0; [irq_k|]. intros [ret r2]. destruct (negb _); [apply Hf|].
  apply shift_bind0; [irq_k|]. intros [ret2 w2]. destruct (_ || _); [apply Hf|]. irq_k.
Qed.
Lemma irq_wait_on rbuf wbuf timeout : irq_shift 0 (wait_on zjunk rops rbuf wbuf timeout).
Proof. pose proof irq_wait_on_check. unfold wait_on, read_fds. irq_k. Qed.

Lemma to_port_connect n len buf :
  irq_to (leaks_when (fun r => r = - ENOMEM)) (port_connect junk (kernel_connect zjunk) n len buf).
Proof.
  unfold port_connect. apply to_bind0; [irq_k|]. intros [p|]; [|apply to_ret; by left].
  apply to_disable. apply to_bind0; [irq_k|]. intros []; [apply to_enable, to_ret; by left|].
  do 3 (apply to_bind0; [irq_k|intros ?]).
  destruct (_ <? 0); [apply to_bind0; [irq_k|]; intros _; apply to_enable, to_ret; by left|].
  apply to_enable. eapply to_bind; [apply irq_connect|]. intros r d Hd.
  destruct Hd as [->|[-> ->]].
  - apply (to_shift 0); [irq_k|by left].
  - simpl. do 2 (apply to_bind0; [irq_k|intros ?]). apply to_ret. by right.
Qed.
Lemma to_request rd len buf :
  irq_to (leaks_when (fun r => r = - ENOMEM)) (Port.sys_request junk rops rd len buf).
Proof.
  unfold Port.sys_request. apply to_disable. apply to_bind0; [irq_k|].
  intros [ri|]; [|apply to_enable, to_ret; by left]. apply to_bind0; [irq_k|]. intros req.
  destruct (decide _); [|apply to_enable, to_ret; by left]. apply to_bind0; [apply shift_deref|]. intros o.
  destruct (op_request (rops o)) as [op|] eqn:Eop; [|apply to_enable, to_ret; by left].
  apply to_bind0; [irq_k|]. intros []; [apply to_enable, to_ret; by left|].
  do 3 (apply to_bind0; [irq_k|intros ?]).
  destruct (_ <? 0); [apply to_bind0; [irq_k|]; intros _; apply to_enable, to_ret; by left|].
  eapply to_bind; [by eapply irq_op_request|]. intros r d Hd.
  destruct Hd as [->|[-> ->]].
  - destruct (negb _); [do 2 (apply to_bind0; [irq_k|intros ?])|]; apply to_enable, to_ret; by left.
  - simpl. do 2 (apply to_bind0; [irq_k|intros ?]). apply to_enable, to_ret. by right.
Qed.
Lemma to_get_response cookie res :
  irq_to (leaks_when (fun r => r = - ENOMEM)) (get_response rops cookie res).
Proof.
  unfold get_response. apply to_disable. apply to_bind0; [irq_k|]. intros v.
  destruct (negb _); [apply to_enable, to_ret; by left|]. apply to_bind0; [irq_k|].
  intros [ri|]; [|apply to_enable, to_ret; by left]. apply to_bind0; [irq_k|]. intros req.
  apply to_bind0; [apply shift_deref|]. intros o.
  destruct (op_get_response (rops o)) as [op|] eqn:Eop; [|apply to_enable, to_ret; by left].
  eapply to_bind; [by eapply irq_op_get_response|]. intros [ret [len buf]] d Hd.
  destruct Hd as [->|[-> Hr]]; simpl in *.
  - destruct (negb _); [apply to_enable, to_ret; by left|].
    do 3 (apply to_bind0; [irq_k|intros ?]). apply to_enable, to_ret. by left.
  - subst ret. apply to_enable, to_ret. by right.
Qed.

(** *** [pop_request] *)
(** Code that only looks at the state. *)
Definition reads {A} (m : Kn A) : Prop := frame (fun k => k) m.
Lemma reads_gets {A} (f : kernel R -> A) : reads (gets f).
Proof. intros k b k' [= _ <-]. done. Qed.
Lemma reads_eq {A} (m : Kn A) k a k' : reads m -> m k = Done a k' -> k' = k.
Proof. intros Hm E. exact (Hm _ _ _ E). Qed.
Ltac reads_solve :=
  repeat first [apply frame_bind; [|intros ?]|apply frame_ret|apply reads_gets|apply frame_deref|apply frame_fault|case_match].

(** The pages of the oldest message on connection or port [rd], when it brings some. *)
Definition oldest_pages (rd : Z) : Kn (option page_list_head) :=
  o ← lookup_fd rd;
  match o with
  | None => mret None
  | Some ri =>
      req ← get_req ri;
      top ← incoming_top req;
      match top with inl _ => mret None | inr m => msg ← get_msg m; mret (ms_plh msg) end
  end.
(** Those pages find no room in the caller's address space. *)
Definition pop_no_room (rd : Z) k : Prop :=
  exists plh k1 s, oldest_pages rd k = Done (Some plh) k1 /\ map_to_user plh 0 (k_mm k1) = Done (u64 (- ENOMEM)) s.

Lemma reads_lookup_fd rd : reads (lookup_fd (R := R) rd).
Proof. unfold lookup_fd, cur_slot, get_current, get_task. reads_solve. Qed.
Lemma reads_get_req i : reads (get_req (R := R) i).
Proof. unfold get_req, get_obj. reads_solve. Qed.
Lemma reads_incoming_top q : reads (incoming_top (R := R) q).
Proof. unfold incoming_top, get_uport, get_ureq, get_obj, Kernel.ptr. reads_solve. Qed.

(** A message found after an object and a descriptor have been added was there before. *)
Lemma msg_before m (k : kernel R) i k1 r fd k2 g k3 :
  new_obj (current k) (OReq r) k = Done i k1 -> insert_fd i k1 = Done fd k2 -> get_msg m k2 = Done g k3 ->
  k3 = k2 /\ k_mm k2 = k_mm k /\ irq k2 = irq k /\ get_msg m k = Done g k.
Proof.
  intros E1 E2 E3. unfold new_obj, get_task in E1. apply bind_Done in E1 as (x & k0 & E0 & E1).
  apply bind_Done in E0 as (o & k0' & [= <- <-] & E0). apply (reads_eq _ _ _ _ (frame_deref _ _)) in E0 as ->. injection E1 as <- <-.
  unfold insert_fd in E2. apply bind_Done in E2 as (y & k5 & E4 & E2).
  assert (reads (get_current (R := R))) as Hc by (unfold get_current, get_task; reads_solve). apply (reads_eq _ _ _ _ Hc) in E4 as ->.
  destruct (fdtable_insert _ _) as [fd' fds]. injection E2 as <- <-.
  unfold get_msg, get_obj in E3 |- *. apply bind_Done in E3 as ([pool o] & k4 & E4 & E3).
  apply bind_Done in E4 as (oo & k4' & [= <- <-] & E4). cbn [k_heap set_tasks set_heap set_knext] in E4.
  destruct (decide (m = k_next k)) as [->|Hne].
  - rewrite lookup_insert_eq in E4. by injection E4 as <- <- <-.
  - rewrite lookup_insert_ne in E4 by done. destruct (k_heap k !! m) as [p0|] eqn:Em; [|done].
    injection E4 as -> <-. destruct o; try done. injection E3 as <- <-. split_and!; try done.
    unfold gets, mbind, M_bind. by rewrite Em.
Qed.

Lemma pop_request_irq rd buf k r k' : 0 <= irq k -> pop_request zjunk junk rd buf k = Done r k' ->
  0 <= irq k' /\ (irq k' = irq k \/ irq k' = irq k + 1 /\ pop_no_room rd (set_irq (irq k + 1) k)).
Proof.
  intros Hk E. unfold pop_request in E. apply bind_Done in E as ([] & k0 & E0 & E).
  rewrite disable_eq in E0. injection E0 as <-. set (k0 := set_irq (irq k + 1) k) in *.
  assert (irq k0 = irq k + 1) as Hk0 by apply irq_set_irq.
  assert (forall (f : Kn Z) x, irq_shift (-1) f -> 0 <= irq x -> f x = Done r k' -> irq k' = irq x - 1 /\ 0 <= irq k') as Hend.
  { intros f x Hf Hx Ef. destruct (Hf _ _ _ Hx Ef). lia. }
  assert (forall f : Kn Z, irq_shift (-1) f -> f k0 = Done r k' ->
    0 <= irq k' /\ (irq k' = irq k \/ irq k' = irq k + 1 /\ pop_no_room rd k0)) as Hbr.
  { intros f Hf Ef. destruct (Hend f k0 Hf ltac:(lia) Ef). lia. }
  apply bind_Done in E as (o & k1 & E1 & E). pose proof (reads_eq _ _ _ _ (reads_lookup_fd rd) E1) as Ek. subst k1.
  destruct o as [ri|]; [|by apply Hbr in E; [|irq_k]].
  apply bind_Done in E as (req & k1 & E2 & E). pose proof (reads_eq _ _ _ _ (reads_get_req ri) E2) as Ek. subst k1.
  destruct (negb _); [by apply Hbr in E; [|irq_k]|].
  apply bind_Done in E as (top & k1 & E3 & E). pose proof (reads_eq _ _ _ _ (reads_incoming_top req) E3) as Ek. subst k1.
  destruct top as [[e|]|m]; [by apply Hbr in E; [|irq_k]|by apply Hbr in E; [|irq_k]|].
  apply bind_Done in E as (c & k1 & [= <- <-] & E). apply bind_Done in E as (i & k1 & E4 & E).
  apply bind_Done in E as (fd & k2 & E5 & E).
  destruct (fd <? 0).
  - assert (irq k2 = irq k0) as Hk2.
    { assert (irq_shift 0 (new_obj (R := R) (current k0) (OReq junk))) as H1 by irq_k.
      assert (irq_shift 0 (insert_fd (R := R) i)) as H2 by irq_k.
      destruct (H1 k0 i k1 ltac:(lia) E4) as [Ha Hb]. destruct (H2 k1 fd k2 Hb E5). lia. }
    apply Hend in E; [|irq_k|lia]. lia.
  - apply bind_Done in E as (g & k3 & E6 & E). destruct (msg_before m k0 i k1 junk fd k2 g k3 E4 E5 E6) as (-> & Hmm & Hi & Eg).
    apply bind_Done in E as (mapped & k4 & E7 & E).
    assert (irq_shift (-1) (match mapped with
              | inl e => enable_interrupts;; mret e
              | inr (vaddr, len) =>
                  creq ← get_req (ms_client g);
                  ctask ← get_task (rq_owner creq);
                  r ← mm_lift (copy_to_user_simple (enc_urequest len vaddr (t_pid ctask)) buf);
                  if negb (r =? 0) then
                    a ← mm_lift (gets current_as);
                    mm_lift (remove_vma_range zjunk a vaddr len);;
                    enable_interrupts;; mret (- EFAULT)
                  else
                    msg_unlink m;;
                    free_plh (ms_plh g);;
                    free_obj (rq_owner creq) m;;
                    establish (bool_decide (rq_type req = REQ_PORT)) i (ms_client g);;
                    enable_interrupts;;
                    mret fd
              end : Kn Z)) as Hrest by (destruct mapped as [e|[vaddr len]]; irq_k).
    unfold mm_lift in E7. destruct (map_plh (ms_plh g) (k_mm k2)) as [x s| |] eqn:Emap; [|done..]. injection E7 as <- <-.
    assert (irq s = irq k0 \/ irq s = irq k0 + 1 /\ pop_no_room rd k0) as Hs.
    { rewrite Hmm in Emap. unfold map_plh in Emap. destruct (ms_plh g) as [plh|] eqn:Eplh; [|injection Emap as _ <-; by left].
      apply bind_Done in Emap as (v & s1 & E8 & E9).
      destruct (irq_map_to_user plh 0 (k_mm k0) v s1) as [_ Hd]; [change (0 <= irq k0); lia|exact E8|].
      assert (s = s1) as -> by (by destruct (_ <? 0); injection E9 as _ ->).
      change (irq (k_mm k0)) with (irq k0) in Hd. destruct Hd as [Hd|[Hd ->]]; [left; lia|right; split; [lia|]].
      exists plh, k0, s1. split; [|done]. unfold oldest_pages.
      rewrite (bind_eq _ _ _ _ _ E1), (bind_eq _ _ _ _ _ E2), (bind_eq _ _ _ _ _ E3), (bind_eq _ _ _ _ _ Eg). by rewrite Eplh. }
    destruct (Hend _ (set_mm s k2) Hrest ltac:(change (0 <= irq s); lia) E) as [H1 H2].
    change (irq (set_mm s k2)) with (irq s) in H1. split; [done|]. destruct Hs as [?|[? ?]]; [left; lia|right; split; [lia|done]].
Qed.

(** ** All of them *)
(** When a system call may leave interrupts disabled: it has looked for room in an
    address space and found none.  All but [pop_request] say so by their result. *)
Definition may_leak (k : kernel R) (f : sysfn) (a1 : Z) (r : option Z) : Prop :=
  match f with
  | sys_sendpage | sys_request | sys_port_connect | sys_get_response => r = Some (- ENOMEM)
  | sys_pop_request => pop_no_room (i32 a1) (set_irq (irq k + 1) k)
  | _ => False
  end.

Lemma to_returns Q (m : Kn Z) : irq_to (fun r => Q (Some r)) m -> irq_to Q (returns m).
Proof.
  intros Hm. unfold returns. eapply to_bind; [exact Hm|]. intros r d Hd. apply to_ret. by rewrite Z.add_0_r.
Qed.
Lemma irq_on_astable f : (forall t, irq_shift 0 (f t)) -> irq_shift 0 (on_astable (R := R) f).
Proof. intros Hf. unfold on_astable. irq_k. Qed.

Lemma syscall_irq f a1 a2 a3 a4 k r k' : 0 <= irq k ->
  syscall zjunk junk hw_in hw_out tar_start tar_end physoffset f a1 a2 a3 a4 k = Done r k' ->
  0 <= irq k' /\ leaks_when (fun r => is_Some r /\ may_leak k f a1 r) r (irq k' - irq k).
Proof.
  intros Hk.
  assert (forall m : Kn Z, irq_shift 0 m -> returns m k = Done r k' ->
    0 <= irq k' /\ leaks_when (fun r => is_Some r /\ may_leak k f a1 r) r (irq k' - irq k)) as Hr.
  { intros m Hm E. apply (to_returns (leaks_when (fun _ => False))) in E; [|apply (to_shift 0); [done|by left]|done].
    destruct E as [? [?|[? []]]]. split; [done|by left]. }
  assert (forall m : Kn Z, irq_to (leaks_when (fun r => r = - ENOMEM)) m -> returns m k = Done r k' ->
    0 <= irq k' /\ leaks_when (fun r => is_Some r /\ r = Some (- ENOMEM)) r (irq k' - irq k)) as Hw.
  { intros m Hm E. apply (to_returns (leaks_when (fun r => is_Some r /\ r = Some (- ENOMEM)))) in E; [done| |done].
    eapply to_weaken; [exact Hm|]. intros x d [?|[? ->]]; [by left|right]. eauto. }
  assert (forall m : Kn (option Z), irq_shift 0 m -> m k = Done r k' ->
    0 <= irq k' /\ leaks_when (fun r => is_Some r /\ may_leak k f a1 r) r (irq k' - irq k)) as Ho.
  { intros m Hm E. destruct (Hm _ _ _ Hk E). split; [done|]. left. lia. }
  destruct f; cbn [syscall].
  - apply Hr, irq_open_port.
  - apply Hw, to_get_response.
  - apply Hw, to_request.
  - apply Hw, to_port_connect.
  - apply Hr, irq_on_astable. intros t. apply irq_asnew.
  - apply Hw. apply to_bind0; [irq_k|]. intros x. apply to_mm_lift, irq_sendpage.
  - apply Ho. apply shift_bind0; [apply irq_sys_exit|]. intros _. apply shift_ret.
  - apply Hr, irq_get_thread_info.
  - apply Hr, irq_create_task.
  - apply Hr, irq_on_astable. intros t. apply irq_asdestroy.
  - apply Hr, irq_close.
  - intros (x & k1 & E & [= <- <-])%bind_Done. destruct (pop_request_irq _ _ _ _ _ Hk E) as [? [H|[H ?]]];
      (split; [done|]); [left|right; split]; [lia..|eauto].
  - apply Hr, irq_respond.
  - apply Ho, irq_wait_on.
  - apply Ho, irq_wait_on_port.
  - apply Hr, irq_mm_lift, irq_munmap.
  - apply Hr, irq_dup0.
  - apply Hr, irq_mm_lift, irq_get_physical.
  - apply Hr, irq_getpid.
  - apply Hr, irq_getppid.
Qed.
End kernel.
