(* ===== verification/EntryProofs.v ===== *)
(** The table of system calls is complete, and a system call returns to its program
    with interrupts enabled; what the exception handlers do. *)
From S2P Require Import Prelude Bits Irq Binradix Alloc MmState PageMan Aspace FdTable Copy VmaProofs Kernel Sched Port Uport Services SchedProofs Entry IrqMm IrqKernel.

Lemma NR_inj f g : NR f = NR g -> f = g.
Proof. by destruct f, g. Qed.
Lemma NR_bound f : 0 <= NR f < 20.
Proof. by destruct f. Qed.

(** [syscalls_init] from any table: the entries of the list are set, the others are
    what they were. *)
Lemma syscalls_init_spec l : forall t, length t = 512%nat ->
  exists t', syscalls_init (SYSCALL <$> l) t = Done () t' /\ length t' = 512%nat
    /\ (forall f, f ∈ l -> t' !! Z.to_nat (NR f) = Some (Some f))
    /\ (forall n, (forall f, f ∈ l -> Z.to_nat (NR f) <> n) -> t' !! n = t !! n).
Proof.
  induction l as [|g l IH]; intros t Ht.
  { exists t. split_and!; try done. intros f Hf. by apply elem_of_nil in Hf. }
  pose proof (NR_bound g) as Hg.
  assert (length (<[Z.to_nat (NR g) := Some g]> t) = 512%nat) as Ht1 by by rewrite length_insert.
  destruct (IH _ Ht1) as (t' & E & Hl & Hin & Hout). exists t'. split_and!; [|done|..].
  - unfold syscalls_init in *. cbn. unfold mbind, M_bind.
    destruct (Z.leb_spec 512 (NR g)); [lia|]. unfold modify. exact E.
  - intros f Hf. destruct (decide (f ∈ l)) as [Hfl|Hfl]; [by apply Hin|].
    apply elem_of_cons in Hf as [->|?]; [|done]. rewrite Hout.
    + apply list_lookup_insert_eq. lia.
    + intros f Hf E'. pose proof (NR_bound f). assert (f = g) as -> by (apply NR_inj; lia). done.
  - intros n Hn. rewrite Hout by set_solver. apply list_lookup_insert_ne. intros E'. apply (Hn g); [set_solver|lia].
Qed.

Section entry.
Context {R : Type} `{!RadixMap R id}.
Context (zjunk : Z) (junk : request) (hw_in : Z -> Z -> K R Z) (hw_out : Z -> Z -> Z -> K R ()).
Context (tar_start tar_end physoffset : Z).
Implicit Types k : kernel R.
Notation syscall := (syscall zjunk junk hw_in hw_out tar_start tar_end physoffset).
Notation syscall_entry := (syscall_entry zjunk junk hw_in hw_out tar_start tar_end physoffset).

(** C36: whatever order the linker gives the metadata, [syscalls_init] fills the table,
    and a system call entered through it with interrupts enabled returns what its
    function returns, with interrupts enabled; one that sleeps or exits hands the
    processor to another task with interrupts enabled.  [syscall_return] stops the
    machine only for a call that leaves them disabled, off by exactly one, and that is
    one that looked for room in an address space and found none: [sendpage],
    [request], [port_connect] and [get_response] have the result -ENOMEM then, and for
    [pop_request] it is [map_to_user] that fails on the pages of the oldest message. *)
Theorem syscall_entry_correct l f a1 a2 a3 a4 k r k' :
  f ∈ l -> (forall p n, irq_shift 0 (hw_in p n)) -> (forall p n x, irq_shift 0 (hw_out p n x)) ->
  irq k = 0 -> syscall f a1 a2 a3 a4 k = Done r k' ->
  exists table, syscalls_init (SYSCALL <$> l) syscall_table0 = Done () table
    /\ (irq k' = 0 /\ syscall_entry table (NR f) a1 a2 a3 a4 k = Done r k'
        \/ irq k' = 1 /\ may_leak k f a1 r /\ syscall_entry table (NR f) a1 a2 a3 a4 k = Panicked ret_panic).
Proof.
  intros Hf Hin Hout Hk E. destruct (syscalls_init_spec l syscall_table0) as (t & Et & _ & Ht & _); [done|].
  exists t. split; [done|].
  destruct (syscall_irq zjunk junk hw_in hw_out tar_start tar_end physoffset Hin Hout f a1 a2 a3 a4 k r k') as [_ Hd];
    [by rewrite Hk|done|].
  unfold Entry.syscall_entry. rewrite (Ht f Hf), (bind_eq _ _ _ _ _ (deref_eq _ _ k eq_refl)), (bind_eq _ _ _ _ _ E).
  rewrite Hk, Z.sub_0_r in Hd. destruct Hd as [Hd|[Hd [[v ->] Hl]]].
  - left. split; [done|]. destruct r as [v|]; [|done]. unfold syscall_return, gets, mbind, M_bind. by rewrite Hd.
  - right. split; [done|]. split; [done|]. unfold syscall_return, gets, mbind, M_bind. by rewrite Hd.
Qed.

(** A number without a function halts the machine, one beyond the table is used as
    an index all the same. *)
Lemma syscall_unknown l nr a1 a2 a3 a4 k :
  0 <= nr -> (forall f, f ∈ l -> NR f <> nr) ->
  exists table, syscalls_init (SYSCALL <$> l) syscall_table0 = Done () table
    /\ syscall_entry table nr a1 a2 a3 a4 k = if nr <? 512 then Panicked "Non existent syscall" else Faulted.
Proof.
  intros Hnr Hl. destruct (syscalls_init_spec l syscall_table0) as (t & Et & Hlen & _ & Ht); [done|].
  exists t. split; [done|]. unfold Entry.syscall_entry. unfold mbind, M_bind.
  rewrite Ht by (intros f Hf E; pose proof (NR_bound f); apply (Hl f Hf); lia).
  destruct (Z.ltb_spec nr 512).
  - unfold syscall_table0. by rewrite lookup_replicate_2 by lia.
  - by rewrite lookup_ge_None_2 by (change (length syscall_table0) with 512%nat; lia).
Qed.

(** A general protection fault in user space: the task is dead, with exit code 2, and
    the scheduler is called; in the kernel: a panic. *)
Lemma gp_handler_correct err c k x :
  k_tasks k !! current k = Some x ->
  gp_handler (frame_error err c) k =
    if i64 (c_rip c) <? 0 then Panicked "GP in kernel"
    else Done 1 (set_tasks (<[current k := mkTask TASK_ZOMBIE (t_fds x) (t_astable x) (t_as x) (t_pid x) (t_parent x)
                   (t_children x) (t_priority x) 2 (t_ti x)]> (k_tasks k)) k).
Proof.
  intros Hx. unfold gp_handler, fault_handler, mbind, M_bind. cbn. case_ifs; [done|].
  unfold kill_current, mbind, M_bind. by rewrite (get_current_eq k x).
Qed.

(** The other two exceptions push no error code: their handlers take the code segment
    for the address, and a fault in the kernel kills the task that happens to run. *)
Lemma ud_handler_reads_cs c k x :
  k_tasks k !! current k = Some x -> 0 <= c_cs c < 2 ^ 16 ->
  exists k', ud_handler (frame_words c) k = Done 1 k' /\ state_of k' (current k) = Some TASK_ZOMBIE.
Proof.
  intros Hx Hcs. unfold ud_handler, fault_handler, mbind, M_bind. cbn.
  unfold i64, swrap. rewrite Z.mod_small by lia. destruct (Z.ltb_spec (c_cs c + 2 ^ (64 - 1) - 2 ^ (64 - 1)) 0); [lia|].
  unfold kill_current, mbind, M_bind. rewrite (get_current_eq k x) by done. eexists. split; [reflexivity|].
  unfold state_of. cbn. by rewrite lookup_insert_eq.
Qed.
End entry.

(** ** Witness *)
Definition all_sysfn : list sysfn :=
  [sys_getppid; sys_getpid; sys_get_physical; sys_dup0; sys_munmap; sys_wait_on_port; sys_wait_on; sys_respond;
   sys_pop_request; sys_close; sys_asdestroy; sys_create_task; sys_get_thread_info; sys_exit; sys_sendpage; sys_asnew;
   sys_port_connect; sys_request; sys_get_response; sys_open_port].
Definition ex_junk : request := mkReq REQ_COOKIE REQ_SERVER 1 None DNull 0.
Definition no_in (_ _ : Z) : K (gmap Z id) Z := mret 255.
Definition no_out (_ _ _ : Z) : K (gmap Z id) () := mret ().

Lemma syscall_entry_correct_witness :
  exists table, syscalls_init (SYSCALL <$> all_sysfn) syscall_table0 = Done () table
    /\ (irq ex_kernel = 0 /\ syscall_entry 0 ex_junk no_in no_out 0 0 0 table 18 0 0 0 0 ex_kernel = Done (Some 1) ex_kernel
        \/ irq ex_kernel = 1 /\ may_leak ex_kernel sys_getpid 0 (Some 1)
           /\ syscall_entry 0 ex_junk no_in no_out 0 0 0 table 18 0 0 0 0 ex_kernel = Panicked ret_panic).
Proof.
  apply (syscall_entry_correct 0 ex_junk no_in no_out 0 0 0 all_sysfn sys_getpid 0 0 0 0 ex_kernel (Some 1) ex_kernel).
  - unfold all_sysfn. set_solver.
  - intros p n. apply shift_ret.
  - intros p n x. apply shift_ret.
  - reflexivity.
  - reflexivity.
Defined.

(** A program that asks for more memory than its address space has room for halts the
    machine. *)
Definition ex_greedy : kernel (gmap Z id) :=
  set_tasks (<[2%positive := with_astable (set_slot fdtable_new 0 (Some 1%positive)) (ex_task TASK_RUNNING 1)]>
               (k_tasks ex_kernel)) ex_kernel.
Example sendpage_halts :
  syscall_entry 0 ex_junk no_in no_out 0 0 0 (replicate 5 None ++ [Some sys_sendpage]) 5 0 0 0 USER_TOP ex_greedy
    = Panicked ret_panic.
Proof. vm_compute. reflexivity. Qed.
