(* ===== verification/Released.v ===== *)
(** Giving pages back: which frames the page operations of [sys/mm/page_man.c] and
    [sys/mm/aspace.c] return to the allocator of [sys/mm/get_page.c]. *)
From S2P Require Import Prelude Bits Irq Binradix Alloc MmState PageMan Aspace MmInv MmOps.

Section released.
Context {R : Type} `{!RadixMap R id}.
Implicit Types s : mm R.

(** Between [s] and [s'] the allocator got back exactly the frames of the pages that
    are no longer managed, those of hardware ([hwp]) excepted. *)
Record released (hwp : gset id) s s' : Prop := {
  rl_frames : same_frames s s';
  rl_free : forall x, x ∈ free_pages (alloc s') <-> x ∈ free_pages (alloc s)
    \/ exists i p, pgs s !! i = Some p /\ pgs s' !! i = None /\ i ∉ hwp /\ x = phys_to_virt (phys_addr p);
}.
Lemma released_trans hwp s1 s2 s3 : released hwp s1 s2 -> released hwp s2 s3 -> released hwp s1 s3.
Proof.
  intros [F1 E1] [F2 E2]. constructor.
  - intros x p3 H3. destruct (F2 x p3 H3) as (p2 & H2 & A2). destruct (F1 x p2 H2) as (p1 & H1 & A1). exists p1. split; [done|congruence].
  - intros x. rewrite E2, E1. split.
    + intros [[?|(i & p & Hp & Hn & Hi & ->)]|(i & p & Hp & Hn & Hi & ->)]; [by left| |]; right.
      * exists i, p. split_and!; try done. destruct (pgs s3 !! i) as [p3|] eqn:E; [|done]. destruct (F2 i p3 E) as (p2 & ? & _). congruence.
      * destruct (F1 i p Hp) as (p1 & Hp1 & ->). eauto 10.
    + intros [?|(i & p & Hp & Hn & Hi & ->)]; [by left; left|]. destruct (pgs s2 !! i) as [p2|] eqn:E; [|left; right; eauto 10].
      right. exists i, p2. destruct (F1 i p2 E) as (p1 & ? & ->). split_and!; try done. congruence.
Qed.

(** Steps that neither manage nor release a page, and keep the entries. *)
Definition quiet s s' : Prop :=
  free_pages (alloc s') = free_pages (alloc s) /\ entries s' = entries s /\ forall i, phys_addr <$> pgs s' !! i = phys_addr <$> pgs s !! i.
Lemma quiet_released hwp s s' : quiet s s' -> released hwp s s'.
Proof.
  intros (E1 & _ & E2). constructor.
  - intros i p H. specialize (E2 i). rewrite H in E2. destruct (pgs s !! i) as [q|]; [|done]. exists q. split; [done|]. by injection E2.
  - intros x. rewrite E1. split; [by left|]. intros [?|(i & p & H & Hn & _)]; [done|]. specialize (E2 i). by rewrite H, Hn in E2.
Qed.
Lemma released_refl hwp s : released hwp s s.
Proof. by apply quiet_released. Qed.

Definition quietly {A} (m : M (mm R) A) : Prop := forall s r s', m s = Done r s' -> quiet s s'.
Lemma quiet_trans s1 s2 s3 : quiet s1 s2 -> quiet s2 s3 -> quiet s1 s3.
Proof. intros (? & ? & H1) (? & ? & H2). split_and!; [congruence..|]. intros i. by rewrite H2. Qed.
Lemma quiet_bind {A B} (m : M (mm R) A) (f : A -> M (mm R) B) : quietly m -> (forall a, quietly (f a)) -> quietly (m ≫= f).
Proof. intros Hm Hf s r s' (a & s1 & E1 & E2)%bind_Done. eapply quiet_trans; [by eapply Hm|by eapply Hf]. Qed.
Lemma quiet_mret {A} (a : A) : quietly (mret a).
Proof. by intros s r s' [= _ <-]. Qed.
Lemma quiet_gets {A} (f : mm R -> A) : quietly (gets f).
Proof. by intros s r s' [= _ <-]. Qed.
Lemma quiet_deref {A} (o : option A) : quietly (deref o).
Proof. destruct o; [apply quiet_mret|done]. Qed.
Lemma quiet_panic {A} msg : quietly (panic (A := A) msg).
Proof. done. Qed.
Lemma quiet_disable : quietly disable_interrupts.
Proof. intros s r s'. rewrite disable_eq. by intros [= _ <-]. Qed.
Lemma quiet_enable : quietly enable_interrupts.
Proof. intros s r s'. unfold enable_interrupts. destruct (_ =? 0); [done|]. by intros [= _ <-]. Qed.
Lemma quiet_put_as a sp : quietly (put_as a sp).
Proof. by intros s r s' [= _ <-]. Qed.
(** Writing back a page that was read, with its frame as it was. *)
Lemma put_quiet s i p q : pgs s !! i = Some p -> phys_addr q = phys_addr p -> quiet s (set_pgs (<[i := q]> (pgs s)) s).
Proof.
  intros Hp Hq. split_and!; [done..|]. intros j. cbn.
  destruct (decide (j = i)) as [->|]; [by rewrite lookup_insert_eq, Hp; cbn; rewrite Hq|by rewrite lookup_insert_ne].
Qed.
Lemma get_pg_Done i s p s' : get_pg i s = Done p s' -> s' = s /\ pgs s !! i = Some p.
Proof. intros (o & s1 & [= <- <-] & E)%bind_Done. destruct (pgs s !! i); [|done]. by injection E as <- <-. Qed.
Lemma quiet_update {A} i f (k : page -> M (mm R) A) : (forall p, phys_addr (f p) = phys_addr p) -> (forall p, quietly (k p)) ->
  quietly (p ← get_pg i; put_pg i (f p);; k p).
Proof.
  intros Hf Hk s r s' (p & s1 & (-> & Hp)%get_pg_Done & (? & s2 & E2 & E)%bind_Done)%bind_Done. injection E2 as _ <-.
  eapply quiet_trans; [by apply (put_quiet s i p (f p))|by eapply Hk].
Qed.
Lemma quiet_forM {A} (l : list A) (f : A -> M (mm R) ()) : (forall x, quietly (f x)) -> quietly (forM_ l f).
Proof. intros Hf. induction l as [|x l IH]; [apply quiet_mret|]. cbn [forM_]. by apply quiet_bind. Qed.
Lemma quiet_get_pg i : quietly (get_pg i).
Proof. by intros s r s' (-> & _)%get_pg_Done. Qed.
Lemma get_pe_Done i s e s' : get_pe i s = Done e s' -> s' = s /\ entries s !! i = Some e.
Proof. intros (o & s1 & [= <- <-] & E)%bind_Done. destruct (entries s !! i); [|done]. by injection E as <- <-. Qed.
Lemma quiet_get_pe i : quietly (get_pe i).
Proof. by intros s r s' (-> & _)%get_pe_Done. Qed.
Lemma quiet_get_as i : quietly (get_as i).
Proof. apply quiet_bind; [apply quiet_gets|apply quiet_deref]. Qed.
Ltac quiet := repeat (apply quiet_bind || match goal with |- forall _, _ => intros ? end || apply quiet_mret || apply quiet_gets || apply quiet_deref || apply quiet_panic
  || apply quiet_disable || apply quiet_enable || apply quiet_put_as || apply quiet_get_pg || apply quiet_get_pe || apply quiet_get_as || apply quiet_forM || case_match).
Lemma quiet_get_pte a v : quietly (get_pte a v).
Proof. unfold get_pte. quiet. Qed.
Lemma quiet_set_pte a v e : quietly (set_pte a v e).
Proof. unfold set_pte. quiet. Qed.
Lemma quiet_restore check l : quietly (restore_write check l).
Proof. unfold restore_write. quiet; by (apply quiet_get_pte || apply quiet_set_pte). Qed.
Lemma quiet_unmap a v : quietly (unmap_maybe_current a v).
Proof. unfold unmap_maybe_current, unmap, clear_pte. quiet; apply quiet_get_pte. Qed.
Lemma quiet_owner_del i pe : quietly (owner_del i pe).
Proof. intros s r s' (p & s1 & (-> & Hp)%get_pg_Done & [= _ <-])%bind_Done. by apply (put_quiet s i p). Qed.
Lemma quiet_sibling_del a pe : quietly (sibling_del a pe).
Proof. unfold sibling_del. quiet. Qed.
Lemma quiet_sibling_add a v pe : quietly (sibling_add a v pe).
Proof. unfold sibling_add. quiet. Qed.

(** *** [page_unref]: the one that gives pages back *)
Lemma page_unref_released hwp i hw s r s' : hw = bool_decide (i ∈ hwp) -> page_unref i hw s = Done r s' ->
  released hwp s s' /\ entries s' = entries s.
Proof.
  intros -> (p & s1 & (-> & Hp)%get_pg_Done & (? & s2 & E2 & E)%bind_Done)%bind_Done. injection E2 as _ <-. cbn [ref_count with_ref phys_addr] in E.
  set (s2 := set_pgs _ s) in E. assert (quiet s s2) as Q by by apply (put_quiet s i p).
  destruct (_ =? 0); [|injection E as _ <-; split; [by apply quiet_released|done]].
  apply bind_Done in E as (s20 & s3 & E3 & E). injection E3 as <- <-.
  apply bind_Done in E as (yr & s3 & E3 & E). destruct (r_delete (phys_pages s2) (phys_addr p)) as [[y r']|]; [|done]. injection E3 as <- <-.
  apply bind_Done in E as ([] & s3 & E3 & E). injection E3 as <-. apply bind_Done in E as ([] & s4 & E4 & E).
  apply bind_Done in E as ([] & s5 & E5 & E). injection E5 as <-. injection E as _ <-.
  assert (entries s4 = entries s /\ pgs s4 = pgs s2 /\ forall g, g ∈ free_pages (alloc s4) <-> g ∈ free_pages (alloc s) \/ i ∉ hwp /\ g = phys_to_virt (phys_addr p)) as (He & Hg & Hf).
  { revert E4. case_bool_decide as Hi; cbn [negb].
    - intros [= <-]. split_and!; [done..|]. intros g. cbn. naive_solver.
    - unfold drop_page, lift, Alloc.drop_page. rewrite (bind_eq _ _ _ _ _ (disable_eq _)). destruct (negb _); [done|].
      rewrite (bind_eq _ _ _ _ _ (modify_eq _ _)). unfold enable_interrupts. destruct (_ =? 0); [done|]. intros [= <-].
      split_and!; [done..|]. intros g. cbn. rewrite elem_of_cons. naive_solver. }
  split; [|done]. constructor.
  - intros j q H. cbn in H. rewrite Hg in H. apply lookup_delete_Some in H as [Hj H]. cbn in H. rewrite lookup_insert_ne in H by done. eauto.
  - intros g. cbn. rewrite Hf, Hg. split.
    + intros [?|[Hi ->]]; [by left|right]. exists i, p. split_and!; [done|apply lookup_delete_eq|done|done].
    + intros [?|(j & q & Hq & Hn & Hj & ->)]; [by left|right]. destruct (decide (j = i)) as [->|Hne]; [by simplify_eq|].
      rewrite lookup_delete_ne in Hn by done. cbn in Hn. rewrite lookup_insert_ne in Hn by done. congruence.
Qed.
Lemma page_entry_unref_released hwp pe e s r s' : entries s !! pe = Some e -> flag PF_HARDWARE (pe_flags e) = bool_decide (pe_p e ∈ hwp) ->
  page_entry_unref pe s = Done r s' -> released hwp s s' /\ entries s' = entries s.
Proof.
  intros He Hhw (? & s1 & E1 & (x & s2 & (-> & Hx)%get_pe_Done & (? & s3 & E3 & (? & s4 & E4 & E)%bind_Done)%bind_Done)%bind_Done)%bind_Done.
  apply quiet_disable in E1. pose proof (proj1 (proj2 E1)) as Ee. assert (x = e) as -> by congruence.
  assert (quiet s1 s3) as Q3.
  { revert E3. destruct (flag PF_SNAPSHOT (pe_flags e)); [|apply quiet_mret]. clear. revert s1 s3.
    intros s1 s3. eapply (quiet_update (pe_p e) (fun p => with_snap (u64 (snap_count p - 1)) p)); [done|]. intros p. case_match; [apply quiet_restore|apply quiet_mret]. }
  apply (page_unref_released hwp) in E4 as [R4 He4]; [|done]. apply quiet_enable in E.
  split; [|destruct E as (_ & -> & _); rewrite He4; destruct Q3 as (_ & -> & _); done].
  eapply released_trans; [eapply quiet_released, quiet_trans; [exact E1|exact Q3]|]. eapply released_trans; [exact R4|by apply quiet_released].
Qed.
Lemma unassign_page_released hwp pe e s r s' : entries s !! pe = Some e -> flag PF_HARDWARE (pe_flags e) = bool_decide (pe_p e ∈ hwp) ->
  unassign_page pe s = Done r s' -> released hwp s s'.
Proof.
  intros He Hhw (? & s1 & E1%quiet_disable & (x & s2 & (-> & Hx)%get_pe_Done & E)%bind_Done)%bind_Done.
  pose proof (proj1 (proj2 E1)) as Ee. assert (x = e) as -> by congruence.
  apply bind_Done in E as (sp & s3 & E3%quiet_get_as & E). apply bind_Done in E as ([y r'] & s4 & E4%quiet_deref & E).
  apply bind_Done in E as (? & s5 & E5%quiet_put_as & E). apply bind_Done in E as (? & s6 & E6%quiet_owner_del & E).
  apply bind_Done in E as (? & s7 & E7%quiet_sibling_del & E). apply bind_Done in E as (? & s8 & E8%quiet_enable & E).
  apply bind_Done in E as (? & s9 & E9%quiet_unmap & E). apply bind_Done in E as (? & s10 & E10 & E). injection E as _ <-.
  assert (quiet s s9) as Q by (repeat (eapply quiet_trans; [eassumption|]); by split_and!).
  assert (entries s9 !! pe = Some e) as He9 by (destruct Q as (_ & -> & _); done).
  apply (page_entry_unref_released hwp pe e) in E10 as [R10 _]; [|done..].
  eapply released_trans; [by apply quiet_released, Q|]. destruct R10 as [F G]. by constructor.
Qed.
End released.
