(* ===== verification/Munmap.v ===== *)
(** Removing a range from an address space: [remove_vma_range] of
    [sys/mm/aspace.c], with [munmap] and the destruction of an address space built
    on it. *)
From S2P Require Import Prelude Bits Irq Binradix Alloc MmState PageMan Aspace FdTable Copy VmaProofs MmInv MmOps Cow Fault Snapshot Released.

Section munmap.
Context {R : Type} `{!RadixMap R id}.
Context (junk : Z).
Implicit Types s : mm R.

(** ** Areas and the pages on their lists *)
(** The list of [v] holds the entries of the address space inside [v], each once. *)
Definition listed s (a : id) (v : vm_area) : Prop :=
  NoDup (vma_pages v)
  /\ forall pe, pe ∈ vma_pages v <-> exists e, entries s !! pe = Some e /\ pe_as e = a /\ v_covers (pe_vaddr e) v.

Record areas_ok s (a : id) (sp : address_space R) : Prop := {
  ao_as : as_ok s a sp;
  ao_ids : NoDup (vma_id <$> vma sp);
  ao_new : forall v, v ∈ vma sp -> (vma_id v < next_id s)%positive;
  ao_listed : forall v, v ∈ vma sp -> listed s a v;
  ao_all : forall pe e, entries s !! pe = Some e -> pe_as e = a -> Exists (v_covers (pe_vaddr e)) (vma sp);
}.

(** What the removal keeps: everything but the areas, entries and tables of [a]. *)
Record calm hwp ext (a : id) s s' : Prop := {
  c_ok : mm_ok hwp ext s';
  c_keeps : keeps s s';
  c_phys : phys s' = phys s;
  c_frames : same_frames s s';
  c_free : released hwp s s';
  c_dom : forall b, is_Some (spaces s' !! b) <-> is_Some (spaces s !! b);
  c_layout : forall b, b <> a -> layout s' b = layout s b;
}.
Lemma calm_refl hwp ext a s : mm_ok hwp ext s -> calm hwp ext a s s.
Proof. intros HI. constructor; try done; [|apply released_refl]. intros x p Hp. eauto. Qed.
Lemma calm_trans hwp ext a s1 s2 s3 : calm hwp ext a s1 s2 -> calm hwp ext a s2 s3 -> calm hwp ext a s1 s3.
Proof.
  intros [H1 K1 P1 F1 R1 D1 L1] [H2 K2 P2 F2 R2 D2 L2]. constructor; [done|by eapply keeps_trans|congruence|..].
  - intros x p Hp. destruct (F2 x p Hp) as (q & Hq & E). destruct (F1 x q Hq) as (q' & Hq' & E'). exists q'. split; [done|congruence].
  - by eapply released_trans.
  - intros b. by rewrite D2, D1.
  - intros b Hb. by rewrite L2, L1.
Qed.

(** ** Changing the area list alone *)
Lemma calm_set_areas hwp ext a s sp l :
  mm_ok hwp ext s -> spaces s !! a = Some sp ->
  calm hwp ext a s (set_spaces (<[a := with_vma l sp]> (spaces s)) s).
Proof.
  intros HI Hsp. constructor; [by apply inv_set_areas|done|done| | | |].
  - intros x p Hp. eauto.
  - by apply quiet_released.
  - intros b. cbn. destruct (decide (b = a)) as [->|]; [rewrite lookup_insert_eq; split; eauto|by rewrite lookup_insert_ne].
  - intros b Hb. unfold layout. cbn. by rewrite lookup_insert_ne.
Qed.

Lemma calm_new_id hwp ext a s : mm_ok hwp ext s -> calm hwp ext a s (set_next (Pos.succ (next_id s)) s).
Proof. intros HI. constructor; try done; [apply inv_next_id; [lia|done]| |by apply quiet_released]. intros x p Hp. eauto. Qed.

Lemma vma_replace_eq s a sp v0 v pre l next :
  spaces s !! a = Some sp -> vma sp = pre ++ v0 :: next -> vma_id v0 = vma_id v -> NoDup (vma_id <$> vma sp) ->
  vma_replace a (vma_id v) l s = Done () (set_spaces (<[a := with_vma (pre ++ l ++ next) sp]> (spaces s)) s).
Proof.
  intros Hsp Hv Hid Hnd. unfold vma_replace. kstep (get_as_eq _ a sp). rewrite put_as_eq. do 4 f_equal.
  rewrite Hv in Hnd |- *. rewrite fmap_app, fmap_cons in Hnd. apply NoDup_app in Hnd as (_ & Hpre & Hnd).
  apply NoDup_cons in Hnd as [Hnext _].
  assert (forall k, vma_id v ∉ (vma_id <$> k) ->
    flat_map (fun x => if decide (vma_id x = vma_id v) then l else [x]) k = k) as Hid'.
  { induction k as [|x k IH]; [done|]. rewrite fmap_cons, not_elem_of_cons. intros [H1 H2]. simpl.
    rewrite decide_False by done. simpl. by rewrite IH. }
  rewrite flat_map_app. simpl. rewrite decide_True by done. rewrite !Hid'; [done|by rewrite <- Hid|].
  intros Hin. apply (Hpre _ Hin). rewrite <- Hid. set_solver.
Qed.

(** ** One entry *)
Inductive act := Keep | Drop | Move.
#[local] Instance act_dec : EqDecision act.
Proof. solve_decision. Defined.

(** What the loops over a page list do with the entry at an address. *)
Definition treat (a n : id) (f : Z -> act) (pe : id) : M (mm R) () :=
  e ← get_pe pe;
  match f (pe_vaddr e) with
  | Keep => mret ()
  | Drop => unassign_page pe
  | Move => sibling_del a pe;; sibling_add a n pe
  end.
Definition treated (n : id) (x : act) (pe : id) (v : vm_area) : list id :=
  match x with
  | Keep => vma_pages v
  | Drop => filter (fun o => o <> pe) (vma_pages v)
  | Move => (if decide (vma_id v = n) then [pe] else []) ++ filter (fun o => o <> pe) (vma_pages v)
  end.

Lemma treat_ok hwp ext a n f s sp pe e :
  mm_ok hwp ext s -> spaces s !! a = Some sp -> entries s !! pe = Some e -> pe_as e = a ->
  exists s' sp', treat a n f pe s = Done () s' /\ calm hwp ext a s s' /\ next_id s' = next_id s
    /\ entries s' = (if decide (f (pe_vaddr e) = Drop) then delete pe (entries s) else entries s)
    /\ spaces s' !! a = Some sp' /\ low_addr sp' = low_addr sp /\ high_addr sp' = high_addr sp
    /\ vma sp' = (fun v => with_pages (treated n (f (pe_vaddr e)) pe v) v) <$> vma sp.
Proof.
  intros HI Hsp He Ha. unfold treat. kstep (get_pe_eq s pe e). destruct (f (pe_vaddr e)) eqn:Ef; cbn [treated].
  - exists s, sp. rewrite decide_False by done. split_and!; try done; [by apply calm_refl|].
    rewrite <- (list_fmap_id (vma sp)) at 1. apply list_fmap_ext. by intros i [] _.
  - destruct (i_haspage _ _ _ _ _ _ _ _ _ _ _ HI pe e He) as [p Hp]; [set_solver|].
    destruct (unassign_page_ok hwp ext s pe e p sp HI He Hp) as (s' & r' & E & HI' & K & F1 & F2 & F3 & F4 & F5 & F6 & F7);
      [by rewrite Ha|]. rewrite Ha in F6.
    assert (exists sp', spaces s' !! a = Some sp' /\ with_ptes ∅ sp' = with_ptes ∅ (with_vma (drop_sibling pe (vma sp)) (with_map r' sp)))
      as (sp' & Hsp' & Heq).
    { assert (strip (spaces s') !! a = Some (with_ptes ∅ (with_vma (drop_sibling pe (vma sp)) (with_map r' sp)))) as Hst
        by (by rewrite F6, lookup_insert_eq).
      unfold strip in Hst. rewrite lookup_fmap in Hst. apply fmap_Some in Hst as (sp' & H1 & H2). eauto. }
    exists s', sp'. rewrite decide_True by done. split; [done|]. split.
    { constructor; try done.
      - intros x q Hq. rewrite F7 in Hq. destruct (_ =? 1).
        + apply lookup_delete_Some in Hq as [_ Hq]. eauto.
        + apply lookup_insert_Some in Hq as [[<- <-]|[_ Hq]]; eauto.
      - eapply (unassign_page_released hwp pe e); [done| |exact E]. by apply (inv_hw _ _ _ _ _ _ HI pe e).
      - intros b. rewrite <- strip_is_Some, F6. apply strip_insert_is_Some. by eexists.
      - intros b Hb. rewrite !layout_strip, F6. by rewrite lookup_insert_ne. }
    split_and!; try done; [by apply (f_equal low_addr) in Heq|by apply (f_equal high_addr) in Heq|].
    by apply (f_equal vma) in Heq.
  - unfold sibling_del, sibling_add.
    erewrite bind_eq; [|kstep (get_as_eq _ a sp); apply put_as_eq].
    set (sp1 := with_vma (drop_sibling pe (vma sp)) sp).
    set (s1 := set_spaces (<[a := sp1]> (spaces s)) s).
    assert (spaces s1 !! a = Some sp1) as Hsp1 by apply lookup_insert_eq.
    kstep (get_as_eq s1 a sp1). rewrite put_as_eq.
    set (sp2 := with_vma _ sp1). exists (set_spaces (<[a := sp2]> (spaces s1)) s1), sp2.
    rewrite decide_False by done. split; [reflexivity|]. split.
    { eapply calm_trans; [apply (calm_set_areas hwp ext a s sp); done|].
      apply (calm_set_areas hwp ext a s1 sp1); [|done]. by apply inv_set_areas. }
    split_and!; try done; [apply lookup_insert_eq|].
    cbn. unfold drop_sibling. rewrite <- list_fmap_compose. apply list_fmap_ext. intros i v _. cbn.
    by case_decide.
Qed.

Lemma treated_in n x pe v : NoDup (vma_pages v) ->
  NoDup (treated n x pe v)
  /\ forall o, o ∈ treated n x pe v <-> (o <> pe /\ o ∈ vma_pages v)
       \/ o = pe /\ (x = Keep /\ pe ∈ vma_pages v \/ x = Move /\ vma_id v = n).
Proof.
  intros Hnd. destruct x; cbn [treated].
  - split; [done|]. intros o. destruct (decide (o = pe)) as [->|]; naive_solver.
  - split; [by apply NoDup_filter|]. intros o. rewrite list_elem_of_filter. naive_solver.
  - split.
    + apply NoDup_app. split; [case_decide; [apply NoDup_singleton|constructor]|]. split; [|by apply NoDup_filter].
      intros o Ho Hf. apply list_elem_of_filter in Hf as [Hf _]. case_decide; [|by apply elem_of_nil in Ho].
      by apply list_elem_of_singleton in Ho.
    + intros o. rewrite elem_of_app, list_elem_of_filter. case_decide as Hd.
      * rewrite list_elem_of_singleton. naive_solver.
      * rewrite elem_of_nil. naive_solver.
Qed.

(** ** All entries of a list *)
(** The entries, and the page lists [G], after the loop over [l]. *)
Definition dropped (f : Z -> act) (l : list id) (E : gmap id page_entry) (pe : id) : option page_entry :=
  e ← E !! pe; if decide (pe ∈ l /\ f (pe_vaddr e) = Drop) then None else Some e.
Definition sorted_out (n : id) (f : Z -> act) (l : list id) (E : gmap id page_entry) (G : vm_area -> list id) : Prop :=
  forall v, NoDup (vma_pages v) -> NoDup (G v) /\ forall pe, pe ∈ G v <-> (pe ∉ l /\ pe ∈ vma_pages v)
    \/ pe ∈ l /\ exists e, E !! pe = Some e
         /\ (f (pe_vaddr e) = Keep /\ pe ∈ vma_pages v \/ f (pe_vaddr e) = Move /\ vma_id v = n).

Lemma treat_all hwp ext a n f body :
  (forall s pe e, entries s !! pe = Some e -> body pe s = treat a n f pe s) ->
  forall l s sp, mm_ok hwp ext s -> spaces s !! a = Some sp -> NoDup l ->
  (forall pe, pe ∈ l -> exists e, entries s !! pe = Some e /\ pe_as e = a) ->
  exists s' sp' G, forM_ l body s = Done () s' /\ calm hwp ext a s s' /\ next_id s' = next_id s
    /\ (forall pe, entries s' !! pe = dropped f l (entries s) pe)
    /\ spaces s' !! a = Some sp' /\ low_addr sp' = low_addr sp /\ high_addr sp' = high_addr sp
    /\ vma sp' = (fun v => with_pages (G v) v) <$> vma sp /\ sorted_out n f l (entries s) G.
Proof.
  intros Hb. induction l as [|pe l IH]; intros s sp HI Hsp Hnd Hl.
  { exists s, sp, vma_pages. split_and!; try done; [by apply calm_refl|..].
    - intros pe. unfold dropped. destruct (entries s !! pe) as [e|]; [|done]. cbn. rewrite decide_False; [done|].
      intros [H _]. by apply elem_of_nil in H.
    - rewrite <- (list_fmap_id (vma sp)) at 1. apply list_fmap_ext. by intros i [] _.
    - intros v Hv. split; [done|]. intros pe. rewrite elem_of_nil. naive_solver. }
  apply NoDup_cons in Hnd as [Hpe Hnd]. destruct (Hl pe ltac:(set_solver)) as (e & He & Ha).
  destruct (treat_ok hwp ext a n f s sp pe e HI Hsp He Ha) as (s1 & sp1 & E1 & C1 & N1 & En1 & Hsp1 & L1 & H1 & V1).
  assert (forall o, o <> pe -> entries s1 !! o = entries s !! o) as Hne.
  { intros o Ho. rewrite En1. case_decide; [by rewrite lookup_delete_ne|done]. }
  destruct (IH s1 sp1) as (s2 & sp2 & G & E2 & C2 & N2 & En2 & Hsp2 & L2 & H2 & V2 & HG); [apply C1|done|done|..].
  { intros o Ho. rewrite Hne by (intros ->; done). apply Hl. set_solver. }
  exists s2, sp2, (fun v => G (with_pages (treated n (f (pe_vaddr e)) pe v) v)).
  split; [cbn [forM_]; erewrite bind_eq; [exact E2|]; by rewrite (Hb s pe e)|].
  split; [by eapply calm_trans|]. split; [congruence|]. split.
  { intros o. rewrite En2. unfold dropped. destruct (decide (o = pe)) as [->|Ho].
    - rewrite En1, He. cbn. case_decide as Hd.
      + rewrite lookup_delete_eq. cbn. rewrite decide_True; [done|]. split; [set_solver|done].
      + rewrite He. cbn. rewrite !decide_False; [done|naive_solver|naive_solver].
    - rewrite Hne by done. destruct (entries s !! o) as [e'|]; [|done]. cbn.
      apply decide_ext. set_solver. }
  split; [done|]. split; [congruence|]. split; [congruence|]. split.
  { rewrite V2, V1, <- list_fmap_compose. apply list_fmap_ext. intros i [] _. done. }
  intros v Hv. destruct (treated_in n (f (pe_vaddr e)) pe v Hv) as [Hnd1 Hin1].
  destruct (HG (with_pages (treated n (f (pe_vaddr e)) pe v) v) Hnd1) as [Hnd2 Hin2]. split; [done|]. cbn [vma_pages vma_id with_pages] in Hin2.
  intros o. rewrite Hin2, Hin1, elem_of_cons. destruct (decide (o = pe)) as [->|Ho].
  - split.
    + intros [[_ [[? _]|[_ Hk]]]|[? _]]; [done| |done]. right. split; [by left|]. exists e. by split.
    + intros [[Hno _]|[_ (e' & He' & Hk)]]; [tauto|]. left. split; [done|]. right. split; [done|].
      rewrite He in He'. by injection He' as <-.
  - rewrite (Hne o Ho). set_solver.
Qed.

(** ** One area *)
Lemma vmas_ok_app lo l1 l2 : vmas_ok lo (l1 ++ l2) -> vmas_ok lo l1
  /\ (forall v w, v ∈ l1 -> w ∈ l2 -> v_end v <= vma_begin w) /\ exists lo', lo <= lo' /\ vmas_ok lo' l2.
Proof.
  revert lo. induction l1 as [|x l1 IH]; intros lo Hok; cbn [app] in *.
  { split_and!; [done|intros v w Hv; by apply elem_of_nil in Hv|by exists lo]. }
  destruct Hok as (H1 & H2 & H3 & H4). destruct (IH _ H4) as (Ha & Hb & lo' & Hlo & Hc). split_and!.
  - done.
  - intros v w [->|Hv]%elem_of_cons Hw; [|by apply Hb].
    assert (forall lo l, vmas_ok lo l -> w ∈ l -> lo <= vma_begin w) as Hin.
    { clear. intros lo l. revert lo. induction l as [|y l IH]; intros lo Hok Hw; [by apply elem_of_nil in Hw|].
      destruct Hok as (H1 & H2 & _ & H4). apply elem_of_cons in Hw as [->|Hw]; [done|].
      pose proof (IH _ H4 Hw). unfold v_end in *. lia. }
    pose proof (Hin _ _ Hc Hw). lia.
  - exists lo'. split; [unfold v_end in *; lia|done].
Qed.

Lemma covers_shape v w x : shape v = shape w -> v_covers x v <-> v_covers x w.
Proof. unfold shape, v_covers, v_end. intros E. injection E as _ _ _ -> ->. done. Qed.
Lemma vmas_ok_shape l : forall lo l', shape <$> l = shape <$> l' -> vmas_ok lo l -> vmas_ok lo l'.
Proof.
  induction l as [|v l IH]; intros lo [|v' l'] E; [done|discriminate|discriminate|]. injection E as E1 E2 E3 E4 E5 E.
  cbn. unfold v_end. rewrite E4, E5. intros (? & ? & ? & ?). split_and!; try done. by apply IH.
Qed.
Lemma ids_shape (l l' : list vm_area) : shape <$> l = shape <$> l' -> vma_id <$> l = vma_id <$> l'.
Proof.
  revert l'. induction l as [|v l IH]; intros [|v' l'] E; [done|discriminate|discriminate|].
  injection E as E1 E2 E3 E4 E5 E. cbn. f_equal; [done|by apply IH].
Qed.

(** The areas beside [now] cover nothing that [now] covers. *)
Lemma disjoint_areas lo pre now next w x : 0 <= lo -> vmas_ok lo (pre ++ now :: next) -> w ∈ pre ++ next ->
  v_covers x w -> v_covers x now -> False.
Proof.
  intros Hlo Hok Hw H1 H2. destruct (vmas_ok_app _ _ _ Hok) as (_ & Hb & lo' & Hlo' & Hc).
  apply elem_of_app in Hw as [Hw|Hw].
  - specialize (Hb w now Hw ltac:(set_solver)). unfold v_covers in *. lia.
  - destruct (vmas_ok_app lo' [now] next Hc) as (_ & Hd & _). specialize (Hd now w ltac:(set_solver) Hw).
    unfold v_covers in *. lia.
Qed.

Definition kept_entries (P : page_entry -> Prop) `{!forall e, Decision (P e)} (E : gmap id page_entry) (pe : id) :
  option page_entry := e ← E !! pe; if decide (P e) then None else Some e.

(** Two lookups of the same entry. *)
Ltac same_entry :=
  repeat match goal with
  | H1 : entries ?s !! ?pe = Some ?x, H2 : entries ?s !! ?pe = Some ?y |- _ =>
      tryif constr_eq x y then fail else (assert (y = x) as -> by congruence)
  end.

Section step.
Context (hwp : gset id) (ext : id -> Z) (a : id) (s : mm R) (sp : address_space R).
Context (pre next : list vm_area) (now0 now : vm_area) (n : id) (f : Z -> act) (body : id -> M (mm R) ()).
Context (repl : list vm_area).
Context (HI : mm_ok hwp ext s) (Hao : areas_ok s a sp) (Hvma : vma sp = pre ++ now0 :: next).
Context (Hsh : shape now0 = shape now) (Hnow : listed s a now).
Context (Hbody : forall s pe e, entries s !! pe = Some e -> body pe s = treat a n f pe s).
Context (Hvok : vmas_ok (low_addr sp) (pre ++ repl ++ next)) (Hids : NoDup (vma_id <$> (pre ++ repl ++ next))).
Context (Hnew : forall v, v ∈ repl -> (vma_id v < next_id s)%positive).
Context (Hn : forall v, v ∈ pre ++ next -> vma_id v <> n).
Context (Hrepl : forall r, r ∈ repl ->
  vma_id r <> n /\ vma_pages r = vma_pages now /\ (forall x, v_covers x r <-> v_covers x now /\ f x = Keep)
  \/ vma_id r = n /\ vma_pages r = [] /\ (forall x, v_covers x r <-> v_covers x now /\ f x = Move)).
Context (Hcov : forall x, v_covers x now -> f x = Drop \/ Exists (v_covers x) repl).

Definition hit (e : page_entry) : Prop := pe_as e = a /\ v_covers (pe_vaddr e) now /\ f (pe_vaddr e) = Drop.
#[local] Instance hit_dec e : Decision (hit e).
Proof. unfold hit, v_covers. apply _. Defined.

Lemma beside_disjoint w x : w ∈ pre ++ next -> v_covers x w -> v_covers x now -> False.
Proof.
  intros Hw H1 H2. destruct (ao_as _ _ _ Hao) as (_ & Hlo & Hv). rewrite Hvma in Hv.
  apply (disjoint_areas (low_addr sp) pre now0 next w x Hlo Hv Hw H1). by apply (covers_shape now0 now).
Qed.
Lemma beside_in w : w ∈ pre ++ next -> w ∈ vma sp.
Proof. rewrite Hvma. set_solver. Qed.

Lemma now_entries pe : pe ∈ vma_pages now -> exists e, entries s !! pe = Some e /\ pe_as e = a /\ v_covers (pe_vaddr e) now.
Proof. apply Hnow. Qed.

Lemma sorted_dropped pe : dropped f (vma_pages now) (entries s) pe = kept_entries hit (entries s) pe.
Proof.
  unfold dropped, kept_entries. destruct (entries s !! pe) as [e|] eqn:He; [|done]. cbn. apply decide_ext. unfold hit.
  destruct Hnow as [_ Hin]. rewrite Hin. split.
  - intros [(e' & He' & Ha & Hc) Hf]. same_entry. done.
  - intros (Ha & Hc & Hf). split; [|done]. eauto.
Qed.

(** The page lists after the loop are those of the areas after the step. *)
Lemma sorted_listed G s' v :
  sorted_out n f (vma_pages now) (entries s) G -> (forall pe, entries s' !! pe = kept_entries hit (entries s) pe) ->
  v ∈ pre ++ repl ++ next -> listed s' a (with_pages (G v) v).
Proof.
  intros HG HE Hv. pose proof (proj1 Hnow) as Hnd0.
  assert (forall pe e, entries s' !! pe = Some e <-> entries s !! pe = Some e /\ ~ hit e) as HE'.
  { intros pe e. rewrite HE. unfold kept_entries. destruct (entries s !! pe) as [e'|]; [|naive_solver]. cbn.
    case_decide; naive_solver. }
  assert (NoDup (vma_pages v)) as Hndv.
  { rewrite !elem_of_app in Hv. destruct Hv as [Hv|[Hv|Hv]].
    - apply (ao_listed _ _ _ Hao v), beside_in. set_solver.
    - destruct (Hrepl v Hv) as [(_ & -> & _)|(_ & -> & _)]; [done|constructor].
    - apply (ao_listed _ _ _ Hao v), beside_in. set_solver. }
  destruct (HG v Hndv) as [Hnd Hin]. split; [done|]. intros pe. cbn [vma_pages with_pages]. rewrite Hin.
  setoid_rewrite (covers_shape (with_pages (G v) v) v); [|done]. setoid_rewrite HE'.
  assert (v ∈ pre ++ next \/ v ∈ repl) as [Hb|Hr] by set_solver.
  - assert (vma_id v <> n) as Hvn by by apply Hn.
    destruct (ao_listed _ _ _ Hao v (beside_in v Hb)) as [_ Hl]. rewrite Hl. split.
    + intros [[Hpe (e & He & Ha & Hc)]|[Hpe (e & He & [[_ Hk]|[_ ?]])]]; [| |done].
      * exists e. split_and!; try done. intros (_ & Hc' & _). by eapply beside_disjoint.
      * exfalso. apply Hnow in Hpe as (e2 & He2 & _ & Hc2). apply Hl in Hk as (e3 & He3 & _ & Hc3). same_entry.
        by eapply beside_disjoint.
    + intros (e & (He & Hh) & Ha & Hc). left. split; [|eauto].
      intros Hpe. apply Hnow in Hpe as (e2 & He2 & _ & Hc2). same_entry. by eapply beside_disjoint.
  - destruct (Hrepl v Hr) as [(Hvn & Hpg & Hc)|(Hvn & Hpg & Hc)]; rewrite Hpg; setoid_rewrite Hc.
    + split.
      * intros [[? ?]|[Hpe (e & He & [[Hk _]|[_ ?]])]]; [done| |done]. apply Hnow in Hpe as (e2 & He2 & Ha & Hc2). same_entry.
        exists e2. split_and!; try done. intros (_ & _ & Hd). congruence.
      * intros (e & (He & _) & Ha & Hcn & Hk). right.
        assert (pe ∈ vma_pages now) as Hpe by (apply Hnow; eauto). split; [done|]. exists e. split; [done|]. left. done.
    + split.
      * intros [[_ Hx]|[Hpe (e & He & [[_ Hx]|[Hk _]])]]; [by apply elem_of_nil in Hx..|].
        apply Hnow in Hpe as (e2 & He2 & Ha & Hc2). same_entry.
        exists e2. split_and!; try done. intros (_ & _ & Hd). congruence.
      * intros (e & (He & _) & Ha & Hcn & Hk). right. split; [apply Hnow; eauto|]. exists e. split; [done|]. by right.
Qed.

Lemma area_step :
  exists s' sp', (vma_replace a (vma_id now) repl;; forM_ (vma_pages now) body) s = Done () s'
    /\ calm hwp ext a s s' /\ next_id s' = next_id s /\ areas_ok s' a sp'
    /\ (exists repl' next' pre', vma sp' = pre' ++ repl' ++ next' /\ shape <$> pre' = shape <$> pre
          /\ shape <$> repl' = shape <$> repl /\ shape <$> next' = shape <$> next)
    /\ low_addr sp' = low_addr sp /\ high_addr sp' = high_addr sp
    /\ (forall pe, entries s' !! pe = kept_entries hit (entries s) pe).
Proof.
  destruct (ao_as _ _ _ Hao) as (Hsp & Hlo & _). set (l := pre ++ repl ++ next).
  set (s1 := set_spaces (<[a := with_vma l sp]> (spaces s)) s).
  pose proof (calm_set_areas hwp ext a s sp l HI Hsp) as C1. fold s1 in C1.
  destruct (treat_all hwp ext a n f body Hbody (vma_pages now) s1 (with_vma l sp)) as
    (s2 & sp2 & G & E2 & C2 & N2 & En2 & Hsp2 & L2 & H2 & V2 & HG); [apply C1|apply lookup_insert_eq|apply Hnow|..].
  { intros pe Hpe. destruct (now_entries pe Hpe) as (e & He & Ha & _). by exists e. }
  change (entries s1) with (entries s) in *. cbn [vma with_vma] in V2.
  assert (forall pe, entries s2 !! pe = kept_entries hit (entries s) pe) as HE by (intros pe; by rewrite En2, sorted_dropped).
  assert (shape <$> vma sp2 = shape <$> l) as Hshape.
  { rewrite V2. by apply shape_map. }
  exists s2, sp2. split; [|split; [by eapply calm_trans|split; [done|]]].
  { erewrite bind_eq; [exact E2|]. apply (vma_replace_eq s a sp now0 now pre repl next); try done.
    - injection Hsh. done.
    - apply Hao. }
  split; [|split_and!; try done].
  - constructor.
    + split; [done|]. rewrite L2. split; [done|]. by apply (vmas_ok_shape l).
    + by rewrite (ids_shape _ _ Hshape).
    + rewrite V2. intros v (w & -> & Hw)%list_elem_of_fmap. cbn. rewrite N2. cbn. unfold l in Hw.
      rewrite !elem_of_app in Hw. destruct Hw as [Hw|[Hw|Hw]]; [|by apply Hnew|];
        apply (ao_new _ _ _ Hao), beside_in; set_solver.
    + rewrite V2. intros v (w & -> & Hw)%list_elem_of_fmap. by apply sorted_listed.
    + intros pe e He Ha. rewrite HE in He. unfold kept_entries in He.
      destruct (entries s !! pe) as [e'|] eqn:Ee; [|done]. cbn in He. case_decide as Hh; [done|]. injection He as ->.
      apply Exists_exists. pose proof (ao_all _ _ _ Hao pe e Ee Ha) as (v & Hv & Hc)%Exists_exists.
      assert (exists w, w ∈ l /\ v_covers (pe_vaddr e) w) as (w & Hw & Hcw).
      { rewrite Hvma in Hv. apply elem_of_app in Hv as [Hv|Hv]; [exists v; unfold l; set_solver|].
        apply elem_of_cons in Hv as [->|Hv]; [|exists v; unfold l; set_solver].
        apply (covers_shape now0 now) in Hc; [|done]. destruct (Hcov _ Hc) as [Hd|Hr].
        - by destruct Hh.
        - apply Exists_exists in Hr as (w & Hw & ?). exists w. unfold l. set_solver. }
      exists (with_pages (G w) w). split; [rewrite V2; apply list_elem_of_fmap; eauto|by apply (covers_shape _ w)].
  - exists ((fun v => with_pages (G v) v) <$> repl), ((fun v => with_pages (G v) v) <$> next), ((fun v => with_pages (G v) v) <$> pre).
    rewrite V2. unfold l. rewrite !fmap_app. split; [done|]. by split_and!; apply shape_map.
Qed.
End step.

Lemma seq_Done {A} (m1 m2 : M (mm R) ()) (k : () -> M (mm R) A) s s1 :
  (m1;; m2) s = Done () s1 -> (m1;; (m2 ≫= k)) s = k () s1.
Proof. unfold mbind, M_bind. destruct (m1 s) as [? s0| |]; [|done..]. by intros ->. Qed.

(** ** All areas *)
(** What [remove_vma_range] leaves of a list of areas; [n] names the new one. *)
Fixpoint cut (n : id) (base rend : Z) (l : list vm_area) : list vm_area :=
  match l with
  | [] => []
  | v :: l =>
      if v_end v <=? base then v :: cut n base rend l
      else if rend <=? vma_begin v then v :: l
      else if (base <=? vma_begin v) && (v_end v <=? rend) then cut n base rend l
      else if (vma_begin v <? base) && (rend <? v_end v) then
        with_bounds (vma_begin v) (base - vma_begin v) v :: mkVma n junk junk rend (v_end v - rend) [] :: l
      else (if vma_begin v <? base then with_bounds (vma_begin v) (base - vma_begin v) v
            else with_bounds rend (v_end v - rend) v) :: cut n base rend l
  end.

Lemma vmas_ok_replace pre now next repl : forall lo, vmas_ok lo (pre ++ now :: next) ->
  (forall lo', lo' <= vma_begin now -> vmas_ok (v_end now) next -> vmas_ok lo' (repl ++ next)) ->
  vmas_ok lo (pre ++ repl ++ next).
Proof.
  induction pre as [|v pre IH]; intros lo Hok Hr; cbn [app] in *.
  - destruct Hok as (? & _ & _ & ?). by apply Hr.
  - destruct Hok as (? & ? & ? & ?). cbn. split_and!; try done. by apply IH.
Qed.

Lemma kept_ext P Q `{!forall e, Decision (P e)} `{!forall e, Decision (Q e)} (E : gmap id page_entry) pe :
  (forall e, E !! pe = Some e -> P e <-> Q e) -> kept_entries P E pe = kept_entries Q E pe.
Proof.
  intros Hx. unfold kept_entries. destruct (E !! pe) as [e|]; [|done]. cbn. apply decide_ext. by apply Hx.
Qed.
Lemma kept_kept P Q `{!forall e, Decision (P e)} `{!forall e, Decision (Q e)} (E E' : gmap id page_entry) pe :
  (forall pe, E' !! pe = kept_entries P E pe) ->
  kept_entries Q E' pe = kept_entries (fun e => P e \/ Q e) E pe.
Proof.
  intros Hx. unfold kept_entries at 1. rewrite Hx. unfold kept_entries. destruct (E !! pe) as [e|]; [|done]. cbn.
  destruct (decide (P e)); cbn; [rewrite decide_True by tauto; done|]. apply decide_ext. tauto.
Qed.
Lemma kept_none P `{!forall e, Decision (P e)} (E : gmap id page_entry) pe :
  (forall e, E !! pe = Some e -> ~ P e) -> E !! pe = kept_entries P E pe.
Proof.
  intros Hx. unfold kept_entries. destruct (E !! pe) as [e|]; [|done]. cbn. rewrite decide_False; [done|]. by apply Hx.
Qed.

(** Areas that the change does not touch stay listed. *)
Lemma listed_kept P `{!forall e, Decision (P e)} s s' a v :
  (forall pe, entries s' !! pe = kept_entries P (entries s) pe) ->
  (forall e, pe_as e = a -> v_covers (pe_vaddr e) v -> ~ P e) -> listed s a v -> listed s' a v.
Proof.
  intros HE HP [Hnd Hin]. split; [done|]. intros pe. rewrite Hin. unfold kept_entries in HE. split; intros (e & He & Ha & Hc).
  - exists e. split; [|done]. rewrite HE, He. cbn. rewrite decide_False; [done|by apply HP].
  - exists e. split; [|done]. rewrite HE in He. destruct (entries s !! pe) as [e'|]; [|done]. cbn in He. by case_decide.
Qed.

Section loop.
Context (hwp : gset id) (ext : id -> Z) (a : id) (base len : Z).
Context (Hb : 0 <= base) (Hl : 0 <= len) (Hr : base + len < 2 ^ 64).
Notation rend := (base + len).

Definition hit_by (l : list vm_area) (e : page_entry) : Prop :=
  pe_as e = a /\ base <= pe_vaddr e < rend /\ Exists (v_covers (pe_vaddr e)) l.
#[local] Instance covers_dec x v : Decision (v_covers x v).
Proof. unfold v_covers. apply _. Defined.
#[local] Instance hit_by_dec l e : Decision (hit_by l e).
Proof. unfold hit_by. apply _. Defined.

(** What the loop over [l] achieves, the areas before it being [pre]. *)
Definition removed (l pre : list vm_area) s (sp : address_space R) s' : Prop :=
  exists sp', calm hwp ext a s s' /\ areas_ok s' a sp' /\ low_addr sp' = low_addr sp /\ high_addr sp' = high_addr sp
    /\ shape <$> vma sp' = (shape <$> pre) ++ (shape <$> cut (next_id s) base rend l)
    /\ forall pe, entries s' !! pe = kept_entries (hit_by l) (entries s) pe.

Lemma areas_ids s sp pre now0 now next repl :
  areas_ok s a sp -> vma sp = pre ++ now0 :: next -> shape now0 = shape now ->
  (vma_id <$> repl = [] \/ vma_id <$> repl = [vma_id now] \/ exists n, vma_id <$> repl = [vma_id now; n] /\ forall v, v ∈ vma sp -> vma_id v <> n) ->
  NoDup (vma_id <$> (pre ++ repl ++ next)).
Proof.
  intros Hao Hv Hsh Hr'. assert (vma_id now0 = vma_id now) as Hid by (by injection Hsh).
  pose proof (ao_ids _ _ _ Hao) as Hnd. rewrite Hv in Hnd. rewrite !fmap_app, fmap_cons, Hid in *.
  apply NoDup_app in Hnd as (N1 & N2 & N3). apply NoDup_cons in N3 as [N4 N5].
  destruct Hr' as [->|[->|(n & -> & Hn)]].
  - apply NoDup_app. split_and!; [done|set_solver|done].
  - apply NoDup_app. split_and!; [done|set_solver|]. cbn. by apply NoDup_cons.
  - assert (n ∉ vma_id <$> (pre ++ now0 :: next)) as Hnn.
    { rewrite <- Hv. intros (v & -> & Hin)%list_elem_of_fmap. by apply (Hn v). }
    rewrite fmap_app, fmap_cons, Hid in Hnn. apply NoDup_app. cbn. split_and!; [done|set_solver|].
    apply NoDup_cons. split; [set_solver|]. apply NoDup_cons. split; [set_solver|done].
Qed.

Lemma areas_vok s sp pre now0 now next repl :
  areas_ok s a sp -> vma sp = pre ++ now0 :: next -> shape now0 = shape now ->
  (forall lo', lo' <= vma_begin now -> vmas_ok (v_end now) next -> vmas_ok lo' (repl ++ next)) ->
  0 <= vma_begin now /\ 0 <= vma_length now /\ v_end now < 2 ^ 64 /\ vmas_ok (low_addr sp) (pre ++ repl ++ next).
Proof.
  intros Hao Hv Hsh Hrep. destruct (ao_as _ _ _ Hao) as (_ & Hlo & Hok). rewrite Hv in Hok.
  assert (vma_begin now0 = vma_begin now /\ vma_length now0 = vma_length now) as [E1 E2] by (by injection Hsh).
  assert (v_end now0 = v_end now) as E3 by (unfold v_end; congruence).
  destruct (vmas_ok_in (low_addr sp) _ now0 Hlo Hok) as (H1 & H2 & H3 & _); [set_solver|].
  rewrite E1, E2, E3 in *. split_and!; [lia|done..|].
  apply (vmas_ok_replace pre now0 next repl _ Hok). by rewrite E1, E3.
Qed.

(** The step for one area that meets the range. *)
Definition stepped s (sp : address_space R) pre now next repl s' sp' : Prop :=
  calm hwp ext a s s' /\ next_id s' = next_id s /\ areas_ok s' a sp'
  /\ (exists repl' next' pre', vma sp' = pre' ++ repl' ++ next' /\ shape <$> pre' = shape <$> pre
        /\ shape <$> repl' = shape <$> repl /\ shape <$> next' = shape <$> next)
  /\ low_addr sp' = low_addr sp /\ high_addr sp' = high_addr sp
  /\ forall pe, entries s' !! pe = kept_entries (hit_by [now]) (entries s) pe.

Section cases.
Context (s : mm R) (sp : address_space R) (pre next : list vm_area) (now0 now : vm_area).
Context (HI : mm_ok hwp ext s) (Hao : areas_ok s a sp) (Hvma : vma sp = pre ++ now0 :: next).
Context (Hsh : shape now0 = shape now) (Hnow : listed s a now).

Lemma hit_once f e : (forall x, v_covers x now -> f x = Drop <-> base <= x < rend) ->
  hit a now f e <-> hit_by [now] e.
Proof.
  intros Hf. unfold hit, hit_by. rewrite Exists_cons, Exists_nil. split.
  - intros (H1 & H2 & H3). apply Hf in H3; [|done]. tauto.
  - intros (H1 & H2 & [H3|[]]). split_and!; try done. by apply Hf.
Qed.

Lemma fresh_id v : v ∈ vma sp -> vma_id v <> next_id s.
Proof. intros Hv E. pose proof (ao_new _ _ _ Hao v Hv). lia. Qed.
Lemma now_id : (vma_id now < next_id s)%positive.
Proof. assert (vma_id now0 = vma_id now) as <- by (by injection Hsh). apply (ao_new _ _ _ Hao). rewrite Hvma. set_solver. Qed.
Lemma beside_id v : v ∈ pre ++ next -> vma_id v <> next_id s.
Proof. intros Hv. apply fresh_id. rewrite Hvma. set_solver. Qed.

Lemma now_bounds : 0 <= vma_begin now /\ 0 <= vma_length now /\ v_end now < 2 ^ 64.
Proof.
  destruct (ao_as _ _ _ Hao) as (_ & Hlo0 & Hv). rewrite Hvma in Hv.
  destruct (vmas_ok_in _ _ now0 Hlo0 Hv) as (? & ? & ? & _); [set_solver|].
  assert (vma_begin now0 = vma_begin now /\ vma_length now0 = vma_length now) as [E1 E2] by (by injection Hsh).
  unfold v_end in *. rewrite <- E1, <- E2. split; [lia|done].
Qed.
Lemma step_vok repl :
  (forall lo', lo' <= vma_begin now -> vmas_ok (v_end now) next -> vmas_ok lo' (repl ++ next)) ->
  vmas_ok (low_addr sp) (pre ++ repl ++ next).
Proof. intros Hr'. by apply (areas_vok s sp pre now0 now next repl Hao Hvma Hsh). Qed.

(** Inside the range: the area and its pages go. *)
Lemma whole_step :
  base <= vma_begin now -> v_end now <= rend ->
  exists s' sp', (vma_replace a (vma_id now) [];; forM_ (vma_pages now) unassign_page) s = Done () s'
    /\ stepped s sp pre now next [] s' sp'.
Proof.
  intros H1 H2. pose proof now_bounds as Hnb.
  pose proof (step_vok [] ltac:(intros lo' Hlo Hn; apply (vmas_ok_le (v_end now)); [unfold v_end in *; lia|done])) as Hok.
  destruct (area_step hwp ext a s sp pre next now0 now (next_id s) (fun _ => Drop) unassign_page [] HI Hao Hvma Hsh Hnow)
    as (s' & sp' & E & C & N & A & V & L & H & En); try done.
  - intros s0 pe e He. unfold treat. by kstep (get_pe_eq s0 pe e).
  - eapply areas_ids; [done|done|done|by left].
  - intros v Hv. by apply elem_of_nil in Hv.
  - apply beside_id.
  - intros v Hv. by apply elem_of_nil in Hv.
  - by left.
  - exists s', sp'. split; [done|]. split_and!; try done.
    intros pe. rewrite En. apply kept_ext. intros e He. apply hit_once. intros x Hx. unfold v_covers in Hx. split; [lia|done].
Qed.

(** Across one end of the range: the area keeps the rest. *)
Definition trimmed : vm_area :=
  if vma_begin now <? base then with_bounds (vma_begin now) (u64 (base - vma_begin now)) now
  else with_bounds rend (u64 (v_end now - rend)) now.
Lemma trim_step :
  base < v_end now -> vma_begin now < rend -> ~ (base <= vma_begin now /\ v_end now <= rend) ->
  ~ (vma_begin now < base /\ rend < v_end now) ->
  exists s' sp', (vma_replace a (vma_id now) [trimmed];; forM_ (vma_pages now) (fun pei =>
      e ← get_pe pei; if (pe_vaddr e <? base) || (rend <=? pe_vaddr e) then mret () else unassign_page pei)) s = Done () s'
    /\ stepped s sp pre now next [trimmed] s' sp'.
Proof.
  intros H1 H2 H3 H4. pose proof now_bounds as (B1 & B2 & B3).
  set (f := fun x => if (x <? base) || (rend <=? x) then Keep else Drop).
  assert (forall x, f x = Keep <-> ~ (base <= x < rend)) as Hf.
  { intros x. unfold f. destruct (Z.ltb_spec x base), (Z.leb_spec rend x); cbn; split; (done || lia). }
  assert (forall x, f x = Drop <-> base <= x < rend) as Hfd.
  { intros x. unfold f. destruct (Z.ltb_spec x base), (Z.leb_spec rend x); cbn; split; (done || lia). }
  assert (vma_begin now <= vma_begin trimmed /\ 0 <= vma_length trimmed /\ v_end trimmed <= v_end now
    /\ forall x, v_covers x trimmed <-> v_covers x now /\ ~ (base <= x < rend)) as (T1 & T2 & T3 & T4).
  { unfold trimmed, v_covers, v_end in *. destruct (Z.ltb_spec (vma_begin now) base); cbn;
      rewrite u64_small by (unfold is_u64; lia); split_and!; lia. }
  pose proof (step_vok [trimmed] ltac:(intros lo' Hlo Hn; cbn; split_and!; [lia|done|lia|by apply (vmas_ok_le (v_end now))])) as Hok.
  assert (vma_id trimmed = vma_id now /\ vma_pages trimmed = vma_pages now) as [I1 I2] by (unfold trimmed; by case_ifs).
  edestruct (area_step hwp ext a s sp pre next now0 now (next_id s) f) with (repl := [trimmed])
    as (s' & sp' & E & C & N & A & V & L & H & En); [exact HI|exact Hao|exact Hvma|exact Hsh|exact Hnow|..].
  8: { exists s', sp'. split; [exact E|]. split_and!; try done.
       intros pe. rewrite En. apply kept_ext. intros e He. apply hit_once. intros x _. apply Hfd. }
  - intros s0 pe e He. unfold treat. kstep (get_pe_eq s0 pe e). kstep (get_pe_eq s0 pe e). unfold f.
    by destruct ((pe_vaddr e <? base) || (rend <=? pe_vaddr e)).
  - exact Hok.
  - eapply areas_ids; [done|done|done|right; left]. cbn. by rewrite I1.
  - intros v ->%list_elem_of_singleton. rewrite I1. apply now_id.
  - apply beside_id.
  - intros v ->%list_elem_of_singleton. left. rewrite I1. split_and!; [pose proof now_id; lia|done|].
    intros x. by rewrite T4, Hf.
  - intros x Hx. rewrite Hfd, Exists_cons, T4. destruct (decide (base <= x < rend)); tauto.
Qed.

(** Around the range: the area keeps the part below, a new one gets the part above. *)
Definition lower_part : vm_area := with_bounds (vma_begin now) (u64 (base - vma_begin now)) now.
Definition upper_part (n : id) : vm_area := mkVma n junk junk rend (u64 (v_end now - rend)) [].
Definition split_body (n : id) (pei : id) : M (mm R) () :=
  e ← get_pe pei;
  if rend <=? pe_vaddr e then sibling_del a pei;; sibling_add a n pei
  else if base <=? pe_vaddr e then unassign_page pei else mret ().

Lemma areas_next : areas_ok (set_next (Pos.succ (next_id s)) s) a sp.
Proof.
  destruct Hao as [A1 A2 A3 A4 A5]. constructor; try done. intros v Hv. specialize (A3 v Hv). cbn. lia.
Qed.

Lemma split_step :
  vma_begin now < base -> rend < v_end now ->
  exists s' sp', (n ← new_id; vma_replace a (vma_id now) [lower_part; upper_part n];; forM_ (vma_pages now) (split_body n)) s = Done () s'
    /\ stepped (set_next (Pos.succ (next_id s)) s) sp pre now next [lower_part; upper_part (next_id s)] s' sp'.
Proof.
  intros H1 H2. pose proof now_bounds as (B1 & B2 & B3). set (n := next_id s). set (s1 := set_next (Pos.succ n) s).
  set (f := fun x => if rend <=? x then Move else if base <=? x then Drop else Keep).
  assert (forall x, (f x = Keep <-> x < base) /\ (f x = Drop <-> base <= x < rend) /\ (f x = Move <-> rend <= x)) as Hf.
  { intros x. unfold f. destruct (Z.ltb_spec x base), (Z.leb_spec rend x), (Z.leb_spec base x); cbn; split_and!; split; (done || lia). }
  pose proof (step_vok [lower_part; upper_part n]
    ltac:(intros lo' Hlo Hn; unfold lower_part, upper_part, v_end in *; cbn; unfold v_end; cbn;
          rewrite !u64_small by (unfold is_u64; lia); split_and!; try lia;
          by apply (vmas_ok_le (vma_begin now + vma_length now)); [lia|])) as Hok.
  rewrite (bind_eq _ _ s n s1) by done.
  edestruct (area_step hwp ext a s1 sp pre next now0 now n f) with (repl := [lower_part; upper_part n])
    as (s' & sp' & E & C & N & A & V & L & H & En); [by apply inv_next_id; [lia|]|apply areas_next|exact Hvma|exact Hsh|exact Hnow|..].
  8: { exists s', sp'. split; [exact E|]. split_and!; try done.
       intros pe. rewrite En. apply kept_ext. intros e He. apply hit_once. intros x _. apply Hf. }
  - intros s0 pe e He. unfold treat, split_body. kstep (get_pe_eq s0 pe e). kstep (get_pe_eq s0 pe e). unfold f.
    destruct (rend <=? pe_vaddr e); [done|]. by destruct (base <=? pe_vaddr e).
  - exact Hok.
  - eapply areas_ids; [done|done|done|right; right]. exists n. split; [done|]. apply fresh_id.
  - intros v [->| ->%list_elem_of_singleton]%elem_of_cons; cbn; [pose proof now_id; unfold n; lia|lia].
  - apply beside_id.
  - intros v [->| ->%list_elem_of_singleton]%elem_of_cons; [left|right]; cbn; split_and!; try done.
    + pose proof now_id. unfold n. lia.
    + intros x. destruct (Hf x) as (-> & _ & _). unfold v_covers, lower_part, v_end in *. cbn. rewrite u64_small by (unfold is_u64; lia). lia.
    + intros x. destruct (Hf x) as (_ & _ & ->). unfold v_covers, upper_part, v_end in *. cbn. rewrite u64_small by (unfold is_u64; lia). lia.
  - intros x Hx. destruct (Hf x) as (_ & -> & _). rewrite !Exists_cons. unfold v_covers, lower_part, upper_part, v_end in *. cbn.
    rewrite !u64_small by (unfold is_u64; lia). lia.
Qed.
End cases.

Lemma removed_after l now pre pre1 repl next s sp s1 sp1 s' :
  stepped s sp pre now next repl s1 sp1 -> shape <$> next = shape <$> l ->
  shape <$> pre1 = (shape <$> pre) ++ (shape <$> repl) ->
  cut (next_id s) base rend (now :: l) = repl ++ cut (next_id s) base rend l ->
  removed l pre1 s1 sp1 s' -> removed (now :: l) pre s sp s'.
Proof.
  intros (C1 & N1 & _ & _ & L1 & H1 & E1) Hnext Hpre Hcut (sp2 & C2 & A2 & L2 & H2 & V2 & E2).
  exists sp2. split; [by eapply calm_trans|]. split; [done|]. split; [congruence|]. split; [congruence|]. split.
  - rewrite V2, Hpre, Hcut, N1, fmap_app. by rewrite app_assoc.
  - intros pe. rewrite E2. rewrite (kept_kept _ _ _ _ pe E1). apply kept_ext. intros e He. unfold hit_by. rewrite !Exists_cons, Exists_nil. tauto.
Qed.

Lemma remove_loop_ok l : forall s sp pre l',
  mm_ok hwp ext s -> areas_ok s a sp -> vma sp = pre ++ l' -> shape <$> l' = shape <$> l ->
  (forall v, v ∈ l -> listed s a v) ->
  exists s', remove_loop junk a l base len s = Done () s' /\ removed l pre s sp s'.
Proof.
  induction l as [|now l IH]; intros s sp pre l' HI Hao Hvma Hsh Hlist.
  { destruct l' as [|]; [|discriminate]. exists s. split; [done|]. exists sp. split; [by apply calm_refl|].
    rewrite Hvma, fmap_app. split_and!; try done. intros pe. apply kept_none. intros e He (_ & _ & Hn). by apply Exists_nil in Hn. }
  destruct l' as [|now0 next]; [discriminate|]. rewrite !fmap_cons in Hsh. injection Hsh as S1 S2 S3 S4 S5 Hnext.
  assert (shape now0 = shape now) as Hsh by (unfold shape; congruence).
  assert (listed s a now) as Hnow by (apply Hlist; set_solver).
  destruct (now_bounds s sp pre next now0 now HI Hao Hvma Hsh Hnow) as (B1 & B2 & B3).
  assert (vma_end now = v_end now) as Hend by (unfold vma_end; apply u64_small; unfold is_u64, v_end in *; lia).
  destruct (ao_as _ _ _ Hao) as (_ & Hlo0 & Hvok).
  assert (forall v, v ∈ l -> v_end now <= vma_begin v) as Hafter.
  { rewrite Hvma in Hvok. destruct (vmas_ok_app _ _ _ Hvok) as (_ & _ & lo' & Hlo' & Hc).
    apply (vmas_ok_shape _ lo' (now :: l)) in Hc; [|by rewrite !fmap_cons, Hsh, Hnext].
    destruct (vmas_ok_app lo' [now] l Hc) as (_ & Hd & _). intros v Hv. apply Hd; [set_solver|done]. }
  cbn [remove_loop cut]. rewrite Hend, (u64_small (base + len)) by (unfold is_u64; lia).
  destruct (Z.leb_spec (v_end now) base) as [Hc1|Hc1].
  { destruct (IH s sp (pre ++ [now0]) next HI Hao) as (s' & E & sp' & C & A & L & H & V & En).
    - by rewrite Hvma, <- app_assoc.
    - done.
    - intros v Hv. apply Hlist. set_solver.
    - exists s'. split; [done|]. exists sp'. split_and!; try done.
      + rewrite V. cbn [cut]. destruct (Z.leb_spec (v_end now) base); [|lia].
        by rewrite fmap_app, fmap_cons, <- app_assoc, !fmap_cons, fmap_nil, Hsh.
      + intros pe. rewrite En. apply kept_ext. intros e _. unfold hit_by, v_covers. rewrite !Exists_cons. split; [tauto|].
        intros (H1 & H2 & [Hx|Hx]); [lia|done]. }
  destruct (Z.leb_spec rend (vma_begin now)) as [Hc2|Hc2].
  { exists s. split; [done|]. exists sp. split; [by apply calm_refl|]. split_and!; try done.
    - cbn [cut]. destruct (Z.leb_spec (v_end now) base); [lia|]. destruct (Z.leb_spec rend (vma_begin now)); [|lia].
      by rewrite Hvma, fmap_app, !fmap_cons, Hsh, Hnext.
    - intros pe. apply kept_none. intros e He (_ & Hx & (v & Hv & Hc)%Exists_exists).
      apply elem_of_cons in Hv as [->|Hv]; [|specialize (Hafter v Hv)]; unfold v_covers, v_end in *; lia. }
  assert (forall s1, (forall pe, entries s1 !! pe = kept_entries (hit_by [now]) (entries s) pe) ->
    forall v, v ∈ l -> listed s1 a v) as Hl1.
  { intros s1 En v Hv. apply (listed_kept _ s s1 a v En); [|apply Hlist; set_solver]. intros e _ Hc (_ & _ & [Hn|Hn]%Exists_cons);
      [|by apply Exists_nil in Hn]. specialize (Hafter v Hv). unfold v_covers, v_end in *. lia. }
  destruct (decide (base <= vma_begin now /\ v_end now <= rend)) as [[Hc3 Hc4]|Hc34].
  { rewrite (proj2 (Z.leb_le _ _) Hc3), (proj2 (Z.leb_le _ _) Hc4). cbn [andb].
    destruct (whole_step s sp pre next now0 now HI Hao Hvma Hsh Hnow Hc3 Hc4) as (s1 & sp1 & E1 & St).
    pose proof St as (C1 & _ & A1 & (r1 & n1 & p1 & V1 & P1 & R1 & X1) & _ & _ & En1).
    destruct r1; [|discriminate]. cbn [app] in V1.
    destruct (IH s1 sp1 p1 n1) as (s' & E & Hrem); [apply C1|done|done|congruence|by apply Hl1|].
    exists s'. split; [by rewrite (seq_Done _ _ _ _ _ E1)|].
    eapply (removed_after l now pre p1 [] next); [exact St|done|by rewrite P1, fmap_nil, app_nil_r| |exact Hrem].
    cbn [cut app]. rewrite (proj2 (Z.leb_gt _ _) Hc1), (proj2 (Z.leb_gt _ _) Hc2), (proj2 (Z.leb_le _ _) Hc3), (proj2 (Z.leb_le _ _) Hc4). done. }
  assert ((base <=? vma_begin now) && (v_end now <=? rend) = false) as -> by (destruct (Z.leb_spec base (vma_begin now)), (Z.leb_spec (v_end now) rend); done || lia).
  destruct (decide (vma_begin now < base /\ rend < v_end now)) as [[Hc5 Hc6]|Hc56].
  { rewrite (proj2 (Z.ltb_lt _ _) Hc5), (proj2 (Z.ltb_lt _ _) Hc6). cbn [andb].
    destruct (split_step s sp pre next now0 now HI Hao Hvma Hsh Hnow Hc5 Hc6) as (s1 & sp1 & E1 & St).
    destruct St as (C1 & _ & A1 & (r1 & n1 & p1 & V1 & P1 & R1 & X1) & L1 & H1 & En1).
    exists s1. split.
    { rewrite <- E1. reflexivity. }
    exists sp1. split; [eapply calm_trans; [by apply calm_new_id|done]|]. split_and!; try done.
    - cbn [cut]. rewrite (proj2 (Z.leb_gt _ _) Hc1), (proj2 (Z.leb_gt _ _) Hc2).
      destruct (Z.leb_spec base (vma_begin now)); [lia|]. cbn [andb].
      rewrite (proj2 (Z.ltb_lt _ _) Hc5), (proj2 (Z.ltb_lt _ _) Hc6). cbn [andb].
      rewrite V1, !fmap_app, P1, R1, X1, Hnext. f_equal. unfold lower_part, upper_part, v_end in *. cbn.
      by rewrite !u64_small by (unfold is_u64; lia).
    - intros pe. rewrite En1. apply kept_ext. intros e _. unfold hit_by. rewrite !Exists_cons, Exists_nil. split; [tauto|].
      intros (H2 & H3 & [H4|(v & Hv & Hc)%Exists_exists]); [tauto|]. specialize (Hafter v Hv). unfold v_covers in Hc. lia. }
  assert ((vma_begin now <? base) && (rend <? v_end now) = false) as Hf56
    by (destruct (Z.ltb_spec (vma_begin now) base), (Z.ltb_spec rend (v_end now)); done || lia).
  rewrite Hf56.
  destruct (trim_step s sp pre next now0 now HI Hao Hvma Hsh Hnow Hc1 Hc2 Hc34 Hc56) as (s1 & sp1 & E1 & St).
  pose proof St as (C1 & _ & A1 & (r1 & n1 & p1 & V1 & P1 & R1 & X1) & _ & _ & En1).
  destruct (IH s1 sp1 (p1 ++ r1) n1) as (s' & E & Hrem); [apply C1|done|by rewrite <- app_assoc|congruence|by apply Hl1|].
  exists s'. split; [rewrite <- E; exact (seq_Done _ _ (fun _ => remove_loop junk a l base len) _ _ E1)|].
  eapply (removed_after l now pre (p1 ++ r1) [trimmed now] next); [exact St|done|by rewrite fmap_app, P1, R1| |exact Hrem].
  cbn [cut app]. rewrite (proj2 (Z.leb_gt _ _) Hc1), (proj2 (Z.leb_gt _ _) Hc2).
  destruct (Z.leb_spec base (vma_begin now)), (Z.leb_spec (v_end now) rend); cbn [andb]; try lia;
    rewrite ?Hf56; unfold trimmed, v_end in *; case_ifs; bool_to_prop; try lia; rewrite u64_small by (unfold is_u64; lia); done.
Qed.
End loop.

(** ** What the removal does *)
Lemma cut_covers n base rend x : base <= rend -> forall lo l, 0 <= lo -> vmas_ok lo l ->
  Exists (v_covers x) (cut n base rend l) <-> Exists (v_covers x) l /\ ~ (base <= x < rend).
Proof.
  intros Hbr lo l. revert lo. induction l as [|v l IH]; intros lo Hlo Hok; cbn [cut].
  { rewrite Exists_nil. tauto. }
  destruct (vmas_ok_tail _ _ _ Hlo Hok) as [Hlo' Hok']. specialize (IH _ Hlo' Hok').
  assert (Exists (v_covers x) l -> v_end v <= x) as Hafter.
  { intros (w & Hw & Hc)%Exists_exists. destruct (vmas_ok_in _ _ w Hlo' Hok' Hw) as (? & _). unfold v_covers in Hc. lia. }
  destruct Hok as (B1 & B2 & B3 & _).
  destruct (Z.leb_spec (v_end v) base) as [H1|H1].
  { rewrite !Exists_cons, IH. unfold v_covers. split; [|tauto]. intros [?|?]; [split; [tauto|lia]|tauto]. }
  destruct (Z.leb_spec rend (vma_begin v)) as [H2|H2].
  { split; [|tauto]. intros Hc. split; [done|]. apply Exists_cons in Hc as [Hc|Hc]; [unfold v_covers in Hc; lia|].
    specialize (Hafter Hc). unfold v_end in *. lia. }
  destruct (Z.leb_spec base (vma_begin v)) as [H3|H3], (Z.leb_spec (v_end v) rend) as [H4|H4],
    (Z.ltb_spec (vma_begin v) base), (Z.ltb_spec rend (v_end v)); try lia; cbn [andb];
    rewrite ?Exists_cons, ?IH; unfold v_covers, v_end in *; cbn [vma_begin vma_length with_bounds].
  - split; [intros (? & ?); tauto|]. intros [[?|?] ?]; [lia|tauto].
  - split; [intros [?|(? & ?)]; [split; [left|]; lia|tauto]|]. intros [[?|?] ?]; [left; lia|tauto].
  - split; [intros [?|(? & ?)]; [split; [left|]; lia|tauto]|]. intros [[?|?] ?]; [left; lia|tauto].
  - split; [intros [?|[?|?]]; [split; [left|]; lia|split; [left|]; lia|]|intros [[?|?] ?]; [lia|tauto]].
    specialize (Hafter ltac:(assumption)). split; [tauto|lia].
Qed.

(** Every area that is left lies in one that was there, with its flags, except for the
    upper part of an area that was cut in two: its flags are whatever the object held. *)
Lemma cut_inside n base rend v' : base <= rend -> forall lo l, 0 <= lo -> vmas_ok lo l -> v' ∈ cut n base rend l ->
  exists v, v ∈ l /\ vma_begin v <= vma_begin v' /\ v_end v' <= v_end v
    /\ (vma_flags v' = vma_flags v \/ vma_begin v < base /\ rend < v_end v /\ vma_begin v' = rend /\ vma_flags v' = junk).
Proof.
  intros Hbr lo l. revert lo. induction l as [|v l IH]; intros lo Hlo Hok; cbn [cut].
  { intros Hv. by apply elem_of_nil in Hv. }
  destruct (vmas_ok_tail _ _ _ Hlo Hok) as [Hlo' Hok']. destruct Hok as (B1 & B2 & B3 & _).
  assert (v' ∈ cut n base rend l -> exists w, w ∈ v :: l /\ vma_begin w <= vma_begin v' /\ v_end v' <= v_end w
    /\ (vma_flags v' = vma_flags w \/ vma_begin w < base /\ rend < v_end w /\ vma_begin v' = rend /\ vma_flags v' = junk)) as Hrec.
  { intros Hv. destruct (IH _ Hlo' Hok' Hv) as (w & Hw & ?). exists w. split; [set_solver|done]. }
  assert (v' ∈ v :: l -> exists w, w ∈ v :: l /\ vma_begin w <= vma_begin v' /\ v_end v' <= v_end w
    /\ (vma_flags v' = vma_flags w \/ vma_begin w < base /\ rend < v_end w /\ vma_begin v' = rend /\ vma_flags v' = junk)) as Hself.
  { intros Hv. exists v'. split; [done|]. split_and!; [lia|lia|by left]. }
  destruct (Z.leb_spec (v_end v) base) as [H1|H1].
  { intros [->|Hv]%elem_of_cons; [apply Hself; set_solver|by apply Hrec]. }
  destruct (Z.leb_spec rend (vma_begin v)) as [H2|H2]; [exact Hself|].
  destruct (_ && _); [exact Hrec|].
  assert (forall b k, vma_begin v <= b -> b + k <= v_end v -> v' = with_bounds b k v -> exists w, w ∈ v :: l
    /\ vma_begin w <= vma_begin v' /\ v_end v' <= v_end w
    /\ (vma_flags v' = vma_flags w \/ vma_begin w < base /\ rend < v_end w /\ vma_begin v' = rend /\ vma_flags v' = junk)) as Hpart.
  { intros b k Hbk Hk ->. exists v. unfold v_end in *. cbn. split_and!; [set_solver|lia|lia|by left]. }
  destruct (Z.ltb_spec (vma_begin v) base), (Z.ltb_spec rend (v_end v)); cbn [andb]; intros Hv; apply elem_of_cons in Hv as [Hv|Hv];
    try (by apply Hrec); try (eapply Hpart; [| |exact Hv]; unfold v_end in *; lia).
  apply elem_of_cons in Hv as [->|Hv]; [|apply Hself; set_solver].
  exists v. unfold v_end in *. cbn. split_and!; [set_solver|lia|lia|right; split_and!; (done || lia)].
Qed.

Lemma exists_shape (P : vm_area -> Prop) l l' : (forall v w, shape v = shape w -> P v -> P w) ->
  shape <$> l = shape <$> l' -> Exists P l -> Exists P l'.
Proof.
  intros HP E (v & Hv & Hp)%Exists_exists. assert (shape v ∈ shape <$> l') as Hin by (rewrite <- E; by apply list_elem_of_fmap_2).
  apply list_elem_of_fmap in Hin as (w & Hw & ?). apply Exists_exists. exists w. split; [done|]. by apply (HP v).
Qed.

(** The range [base, base+len) is gone from address space [a], and nothing else. *)
Record unmapped hwp ext (a : id) (base len : Z) s (sp : address_space R) s' (sp' : address_space R) : Prop := {
  un_ok : mm_ok hwp ext s';
  un_areas : areas_ok s' a sp';
  un_keeps : keeps s s';
  un_dom : forall b, is_Some (spaces s' !! b) <-> is_Some (spaces s !! b);
  un_bounds : low_addr sp' = low_addr sp /\ high_addr sp' = high_addr sp;
  un_shape : shape <$> vma sp' = shape <$> cut (next_id s) base (base + len) (vma sp);
  un_covers : forall x, Exists (v_covers x) (vma sp') <-> Exists (v_covers x) (vma sp) /\ ~ (base <= x < base + len);
  un_inside : forall v', v' ∈ vma sp' -> exists v, v ∈ vma sp /\ vma_begin v <= vma_begin v' /\ v_end v' <= v_end v
    /\ (vma_flags v' = vma_flags v
        \/ vma_begin v < base /\ base + len < v_end v /\ vma_begin v' = base + len /\ vma_flags v' = junk);
  un_layout : forall b, b <> a -> layout s' b = layout s b;
  un_view : forall b w, view s' b w = if decide (b = a /\ base <= w < base + len) then None else view s b w;
  un_mapped : forall w, base <= w < base + len -> mapped s' a w = None;
  un_byte : forall b w k, ~ (b = a /\ base <= w < base + len) -> byte s' b w k = byte s b w k;
  un_kept : forall i, is_Some (pgs s' !! i) -> 0 < ext i \/ exists b w f, view s' b w = Some (i, f);
  un_released : released hwp s s';
  un_freed : forall i p, pgs s !! i = Some p -> i ∉ hwp -> ext i <= 0 -> (forall b w f, view s' b w <> Some (i, f)) ->
    phys_to_virt (phys_addr p) ∈ free_pages (alloc s');
}.

(** The entry that shows a page. *)
Lemma view_entries hwp ext s b w x : mm_ok hwp ext s -> view s b w = Some x <->
  exists pe e, entries s !! pe = Some e /\ pe_as e = b /\ pe_vaddr e = w /\ x = (pe_p e, pe_flags e).
Proof.
  intros HI. split.
  - intros Hv. destruct (view_entry _ _ _ _ _ s b w x HI Hv) as (sp & pe & e & _ & _ & ? & ? & ? & ? & _). eauto 10.
  - intros (pe & e & He & Ha & Hw & ->). destruct (i_entry _ _ _ _ _ _ _ _ _ _ _ HI pe e He) as (_ & _ & [[r t] Hc]).
    destruct (cores_Some _ _ _ _ Hc) as (sp & Hsp & E). rewrite Ha in *. unfold view. rewrite Hsp. cbn. injection E as Er _. rewrite Er.
    rewrite (proj2 (i_in_map _ _ _ _ _ _ _ _ _ _ _ HI b r t w pe Hc)) by (split; [set_solver|eauto]). cbn. by rewrite He.
Qed.

Lemma page_shown hwp ext s i p : mm_ok hwp ext s -> pgs s !! i = Some p -> 0 < ext i \/ exists b w f, view s b w = Some (i, f).
Proof.
  intros HI Hp. destruct (i_page _ _ _ _ _ _ _ _ _ _ _ HI i p Hp) as (_ & _ & _ & Hrc & Hpos & _).
  destruct (owner p) as [|pe l] eqn:Eo; [left; cbn in Hrc; lia|]. right.
  assert (pe ∈ owner p) as Hin by (rewrite Eo; set_solver).
  destruct (inv_owner_entry _ _ _ _ _ _ HI i p pe Hp Hin) as (e & He & Hi & _).
  exists (pe_as e), (pe_vaddr e), (pe_flags e). apply (view_entries hwp ext); [done|]. exists pe, e. by rewrite Hi.
Qed.

Lemma remove_vma_range_ok hwp ext s a sp base len :
  mm_ok hwp ext s -> areas_ok s a sp -> base mod 4096 = 0 -> len mod 4096 = 0 -> 0 <= base -> 0 <= len ->
  base + len < 2 ^ 64 ->
  exists s' sp', remove_vma_range junk a base len s = Done () s' /\ unmapped hwp ext a base len s sp s' sp'.
Proof.
  intros HI Hao Hbm Hlm Hb Hl Hr. destruct (ao_as _ _ _ Hao) as (Hsp & Hlo & Hok).
  unfold remove_vma_range.
  assert (forall x, x mod 4096 = 0 -> IS_ALIGNED x PAGE_SIZE_BIT = true) as Hal.
  { intros x Hx. apply IS_ALIGNED_iff; [unfold PAGE_SIZE_BIT; lia|]. exact Hx. }
  rewrite !Hal by done. cbn [negb orb]. rewrite (bind_eq _ _ s sp s) by (by apply get_as_eq).
  destruct (remove_loop_ok hwp ext a base len Hb Hl Hr (vma sp) s sp [] (vma sp) HI Hao) as
    (s' & E & sp' & [C1 C2 C3 C4 C7 C5 C6] & A & L & H & V & En); [done|done|by apply Hao|].
  exists s', sp'. split; [done|]. rewrite fmap_nil in V. cbn [app] in V.
  assert (forall b w, view s' b w = if decide (b = a /\ base <= w < base + len) then None else view s b w) as Hview.
  { intros b w. apply option_eq. intros x. rewrite (view_entries hwp ext s' b w x C1).
    assert (forall pe e, entries s' !! pe = Some e <-> entries s !! pe = Some e /\ ~ (pe_as e = a /\ base <= pe_vaddr e < base + len)) as HE.
    { intros pe e. rewrite En. unfold kept_entries. destruct (entries s !! pe) as [e'|] eqn:Ee; cbn; [|naive_solver].
      case_decide as Hd; unfold hit_by in Hd.
      - split; [done|]. intros [[= ->] Hn]. destruct Hn. tauto.
      - split; [|by intros [-> _]]. intros [= ->]. split; [done|]. intros [Ha Hx]. apply Hd. split_and!; try done; try lia.
        by apply (ao_all _ _ _ Hao pe e Ee). }
    setoid_rewrite HE. case_decide as Hd.
    - split; [|done]. intros (pe & e & (_ & Hn) & <- & <- & _). tauto.
    - rewrite (view_entries hwp ext s b w x HI). split.
      + intros (pe & e & (He & _) & ? & ? & ?). eauto 10.
      + intros (pe & e & He & <- & <- & ->). exists pe, e. split_and!; try done. }
  constructor; try done.
  - intros x. rewrite <- (cut_covers (next_id s) base (base + len) x ltac:(lia) _ _ Hlo Hok).
    split; apply exists_shape; try done; intros v w Hs Hc; by apply (covers_shape v w).
  - intros v' Hv'. assert (shape v' ∈ shape <$> cut (next_id s) base (base + len) (vma sp)) as Hin
      by (rewrite <- V; by apply list_elem_of_fmap_2).
    apply list_elem_of_fmap in Hin as (v'' & Hs & Hin).
    destruct (cut_inside (next_id s) base (base + len) v'' ltac:(lia) _ _ Hlo Hok Hin) as (v & Hv & H1 & H2 & H3).
    unfold shape in Hs. injection Hs as _ S2 _ S4 S5. exists v. unfold v_end in *. rewrite S2, S4, S5. done.
  - intros w Hw. apply (unshown_unmapped hwp ext s'); [done|]. rewrite Hview. by rewrite decide_True.
  - intros b w k Hn. apply (byte_view hwp ext hwp ext); try done. rewrite Hview. by rewrite decide_False.
  - intros i [p Hp]. by apply (page_shown hwp ext s' i p).
  - intros i p Hp Hi He Hno. apply (rl_free _ _ _ C7). right. exists i, p. split_and!; try done.
    destruct (pgs s' !! i) as [p'|] eqn:Hp'; [|done]. destruct (page_shown hwp ext s' i p' C1 Hp') as [?|(b & w & f & Hv)]; [lia|by destruct (Hno b w f)].
Qed.

(** [munmap] of the current address space. *)
Lemma munmap_ok hwp ext s sp base len :
  mm_ok hwp ext s -> areas_ok s (current_as s) sp -> 0 <= base -> 0 <= len -> base + len < 2 ^ 64 ->
  exists r s', munmap junk base len s = Done r s' /\
    (if bool_decide (base mod 4096 = 0 /\ len mod 4096 = 0)
     then r = 0 /\ exists sp', unmapped hwp ext (current_as s) base len s sp s' sp' else r = - EINVAL /\ s' = s).
Proof.
  intros HI Hao Hb Hl Hr. unfold munmap.
  assert (forall x, IS_ALIGNED x PAGE_SIZE_BIT = bool_decide (x mod 4096 = 0)) as Hal.
  { intros x. pose proof (IS_ALIGNED_iff x PAGE_SIZE_BIT ltac:(unfold PAGE_SIZE_BIT; lia)) as Hx.
    change (2 ^ PAGE_SIZE_BIT) with 4096 in Hx. apply Bool.eq_true_iff_eq. by rewrite Hx, bool_decide_eq_true. }
  rewrite !Hal. destruct (decide (base mod 4096 = 0)) as [Eb|Eb].
  2: { exists (- EINVAL), s. rewrite (bool_decide_eq_false_2 (base mod 4096 = 0)) by done. cbn. split; [done|].
       by rewrite bool_decide_eq_false_2 by tauto. }
  destruct (decide (len mod 4096 = 0)) as [El|El].
  2: { exists (- EINVAL), s. rewrite (bool_decide_eq_false_2 (len mod 4096 = 0)) by done. cbn [negb]. rewrite orb_true_r.
       split; [done|]. by rewrite bool_decide_eq_false_2 by tauto. }
  destruct (remove_vma_range_ok hwp ext s _ sp base len HI Hao Eb El Hb Hl Hr) as (s' & sp' & E & U).
  exists 0, s'. rewrite !bool_decide_eq_true_2 by done. cbn [negb orb]. split; [|split; [done|by exists sp']].
  kstep gets_eq. by rewrite (bind_eq _ _ _ () s').
Qed.

(** ** Destroying an address space *)
(** Every area meets the user range and stays inside it. *)
Definition inside_user (sp : address_space R) : Prop :=
  0 <= low_addr sp /\ low_addr sp mod 4096 = 0 /\ high_addr sp mod 4096 = 0 /\ high_addr sp < 2 ^ 64
  /\ low_addr sp <= high_addr sp
  /\ forall v, v ∈ vma sp -> low_addr sp < v_end v /\ vma_begin v < high_addr sp /\ v_end v <= high_addr sp.

Record destroyed hwp ext (a : id) s s' : Prop := {
  de_ok : mm_ok hwp ext s';
  de_keeps : keeps s s';
  de_empty : exists sp', spaces s' !! a = Some sp' /\ vma sp' = [] /\ ptes sp' = ∅;
  de_dom : forall b, is_Some (spaces s' !! b) <-> is_Some (spaces s !! b);
  de_layout : forall b, b <> a -> layout s' b = layout s b;
  de_view : forall b w, view s' b w = if decide (b = a) then None else view s b w;
  de_byte : forall b w k, b <> a -> byte s' b w k = byte s b w k;
  de_kept : forall i, is_Some (pgs s' !! i) -> 0 < ext i \/ exists b w f, view s' b w = Some (i, f);
  de_released : released hwp s s';
  de_freed : forall i p, pgs s !! i = Some p -> i ∉ hwp -> ext i <= 0 -> (forall b w f, view s' b w <> Some (i, f)) ->
    phys_to_virt (phys_addr p) ∈ free_pages (alloc s');
}.

Lemma cut_nothing n base rend lo l : base <= lo -> vmas_ok lo l ->
  (forall v, v ∈ l -> base < v_end v /\ vma_begin v < rend /\ v_end v <= rend) -> cut n base rend l = [].
Proof.
  revert lo. induction l as [|v l IH]; intros lo Hlo Hok Hin; [done|]. cbn [cut].
  destruct (Hin v ltac:(set_solver)) as (H1 & H2 & H3). destruct Hok as (B1 & B2 & _ & Hok).
  destruct (Z.leb_spec (v_end v) base), (Z.leb_spec rend (vma_begin v)), (Z.leb_spec base (vma_begin v)),
    (Z.leb_spec (v_end v) rend); try lia. cbn [andb].
  apply (IH (v_end v)); [unfold v_end in *; lia|done|]. intros w Hw. apply Hin. set_solver.
Qed.

Lemma destroy_as_ok hwp ext s a sp :
  mm_ok hwp ext s -> areas_ok s a sp -> inside_user sp ->
  exists s', destroy_as junk a s = Done () s' /\ destroyed hwp ext a s s'.
Proof.
  intros HI Hao (H0 & Hlm & Hhm & Hh & Hlh & Hin). destruct (ao_as _ _ _ Hao) as (Hsp & Hlo & Hok).
  set (lo := low_addr sp) in *. set (hi := high_addr sp) in *.
  assert (lo + (hi - lo) = hi) as Erend by lia.
  destruct (remove_vma_range_ok hwp ext s a sp lo (hi - lo) HI Hao) as (s' & sp' & E & U); try lia.
  { rewrite Zminus_mod, Hlm, Hhm. done. }
  destruct U as [U1 U2 U3 Ud U4 Us U5 U6 U7 U8 U9 U10 U11 U12 U13]. rewrite Erend in *. destruct (ao_as _ _ _ U2) as (Hsp' & _).
  rewrite (cut_nothing (next_id s) lo hi lo (vma sp)) in Us by (done || lia).
  assert (vma sp' = []) as Hnil by (destruct (vma sp'); [done|discriminate]).
  assert (forall w, view s' a w = None) as Hno.
  { intros w. destruct (view s' a w) as [x|] eqn:Ev; [|done]. exfalso.
    apply (view_entries hwp ext s' a w x U1) in Ev as (pe & e & He & Ha & Hw & _).
    pose proof (ao_all _ _ _ U2 pe e He Ha) as Hex. rewrite Hnil in Hex. by apply Exists_nil in Hex. }
  assert (ptes sp' = ∅) as Hpt.
  { apply map_eq. intros w. rewrite lookup_empty. pose proof (unshown_unmapped hwp ext s' a w U1 (Hno w)) as Hm.
    unfold mapped in Hm. by rewrite Hsp' in Hm. }
  exists s'. split.
  { unfold destroy_as. rewrite (bind_eq _ _ s sp s) by (by apply get_as_eq). fold lo hi.
    rewrite u64_small by (unfold is_u64; lia). rewrite (bind_eq _ _ s () s') by done.
    rewrite (bind_eq _ _ s' sp' s') by (by apply get_as_eq). rewrite Hnil, put_as_eq. f_equal.
    rewrite <- Hpt, with_ptes_id, insert_id by done. by destruct s'. }
  assert (forall b w, view s' b w = if decide (b = a) then None else view s b w) as Hview.
  { intros b w. case_decide as Hd; [subst b; apply Hno|]. rewrite U8. by rewrite decide_False by tauto. }
  constructor; try done; [eauto|].
  intros b w k Hb. apply U10. tauto.
Qed.
End munmap.
