(* ===== verification/Areas.v ===== *)
(** The page lists of areas stay exact: inserting areas and assigning pages keep
    [Munmap.areas_ok], on which removing a range relies. *)
From S2P Require Import Prelude Bits Irq Binradix Alloc MmState PageMan Aspace FdTable Copy VmaProofs MmInv MmOps Cow Fault Snapshot Munmap.

Section areas.
Context {R : Type} `{!RadixMap R id}.
Implicit Types s : mm R.

(** An address space that nothing has been assigned to. *)
Lemma areas_empty s a sp :
  as_ok s a sp -> vma sp = [] -> (forall pe e, entries s !! pe = Some e -> pe_as e <> a) -> areas_ok s a sp.
Proof.
  intros Hok Hv Hno. constructor; [done|rewrite Hv; constructor|rewrite Hv..|].
  - intros v Hin. by apply elem_of_nil in Hin.
  - intros v Hin. by apply elem_of_nil in Hin.
  - intros pe e He Ha. by destruct (Hno pe e He).
Qed.

(** Two areas of a sorted list do not overlap. *)
Lemma vmas_ok_disjoint lo l v w l' x : 0 <= lo -> vmas_ok lo l -> l ≡ₚ v :: l' -> w ∈ l' ->
  v_covers x v -> v_covers x w -> False.
Proof.
  intros Hlo Hok Hp Hw Hcv Hcw. assert (v ∈ l) as Hv by (rewrite Hp; set_solver).
  apply list_elem_of_split in Hv as (pre & next & ->).
  assert (pre ++ next ≡ₚ l') as Hp' by (apply (Permutation_cons_inv (a := v)); rewrite <- Hp; apply Permutation_middle).
  apply (disjoint_areas lo pre v next w x Hlo Hok); [by rewrite Hp'|done|done].
Qed.

(** A new area without pages. *)
Lemma areas_add s a sp v l :
  areas_ok s a sp -> vmas_ok (low_addr sp) l -> l ≡ₚ v :: vma sp -> vma_pages v = [] ->
  (vma_id v < next_id s)%positive -> (forall w, w ∈ vma sp -> vma_id w <> vma_id v) ->
  areas_ok (set_spaces (<[a := with_vma l sp]> (spaces s)) s) a (with_vma l sp).
Proof.
  intros Hao Hok Hp Hpg Hid Hids. destruct (ao_as _ _ _ Hao) as (E & Hlow & Hvm).
  assert (forall w, w ∈ l -> w = v \/ w ∈ vma sp) as Hin by (intros w; rewrite Hp; apply elem_of_cons).
  constructor; cbn [vma with_vma low_addr].
  - split; [cbn; apply lookup_insert_eq|]. done.
  - rewrite Hp. apply NoDup_cons. split; [|apply Hao]. intros (w & Ew & Hw)%list_elem_of_fmap. by destruct (Hids w Hw).
  - intros w [->|Hw]%Hin; [done|by apply (ao_new _ _ _ Hao)].
  - intros w [->|Hw]%Hin; [|by apply (ao_listed _ _ _ Hao)].
    split; [rewrite Hpg; constructor|]. intros pe. rewrite Hpg, elem_of_nil. split; [done|].
    intros (e & He & Ha & Hc). pose proof (ao_all _ _ _ Hao pe e He Ha) as (w & Hw & Hcw)%Exists_exists.
    by apply (vmas_ok_disjoint (low_addr sp) l v w (vma sp) (pe_vaddr e)).
  - intros pe e He Ha. pose proof (ao_all _ _ _ Hao pe e He Ha) as (w & Hw & Hcw)%Exists_exists. apply Exists_exists.
    exists w. split; [rewrite Hp; set_solver|done].
Qed.

Lemma insert_areas s a sp vaddr len flags :
  areas_ok s a sp -> 0 <= irq s -> 0 <= vaddr -> 0 <= len -> vaddr + len < 2 ^ 64 ->
  exists r s' sp', insert_vma_to_vaddr a vaddr len flags s = Done r s' /\ areas_ok s' a sp'.
Proof.
  intros Hao Hi Hv Hl Hu. destruct (ao_as _ _ _ Hao) as (E & Hlow & Hvm).
  unfold insert_vma_to_vaddr. unfold mbind at 1, M_bind at 1. rewrite mm_new_id_locked by done.
  rewrite land_fff by done. set (s1 := set_next (Pos.succ (next_id s)) s).
  assert (areas_ok s1 a sp) as Hao1 by by apply areas_next.
  destruct (Z.eqb_spec (vaddr mod 4096) 0) as [Ha|Ha]; cbn [negb]; [|by eexists (inl (-2)), s1, sp].
  unfold mbind at 1, M_bind at 1. rewrite (vma_get_as_eq s1 a sp) by done.
  destruct (Z.ltb_spec vaddr (low_addr sp)); [by eexists (inl (-3)), s1, sp|].
  destruct (high_addr sp <? vaddr); [by eexists (inl (-3)), s1, sp|]. cbn [orb].
  unfold mbind, M_bind. set (v := mkVma (next_id s) flags 0 vaddr len []).
  rewrite (aspace_add_vma_eq s1 a sp) by (done || apply Hao1).
  pose proof (add_vma_spec (low_addr sp) v (vma sp) Hlow Hvm) as Hadd.
  destruct (add_vma v (vma sp)) as [l|]; [|by eexists (inl (-1)), s1, sp].
  destruct Hadd as [Hl1 Hl2]; [simpl; unfold v_end; simpl; lia|].
  eexists (inr v), _, (with_vma l sp). split; [reflexivity|].
  apply (areas_add s1 a sp v l); try done; [cbn; lia|]. intros w Hw. cbn. pose proof (ao_new _ _ _ Hao w Hw). lia.
Qed.

(** An entry that goes. *)
Lemma drop_areas s s' a sp sp' pe :
  areas_ok s a sp -> entries s' = delete pe (entries s) -> next_id s' = next_id s -> spaces s' !! a = Some sp' ->
  low_addr sp' = low_addr sp -> vma sp' = drop_sibling pe (vma sp) -> areas_ok s' a sp'.
Proof.
  intros Hao HE Hn Hsp Hlo Hv. destruct (ao_as _ _ _ Hao) as (_ & Hlow & Hvm).
  assert (shape <$> vma sp' = shape <$> vma sp) as Hsh by (rewrite Hv; apply shape_drop). constructor.
  - split; [done|]. rewrite Hlo. split; [done|]. by apply (vmas_ok_shape (vma sp)).
  - rewrite (ids_shape _ _ Hsh). apply Hao.
  - rewrite Hv, Hn. intros v (w & -> & Hw)%list_elem_of_fmap. by apply (ao_new _ _ _ Hao w).
  - rewrite Hv. intros v (w & -> & Hw)%list_elem_of_fmap. destruct (ao_listed _ _ _ Hao w Hw) as [Hnd Hin].
    split; [by apply NoDup_filter|]. intros o. cbn [vma_pages with_pages]. rewrite list_elem_of_filter, Hin, HE.
    setoid_rewrite lookup_delete_Some. split.
    + intros (Ho & e & He & ?). exists e. split; [split; [congruence|done]|done].
    + intros (e & (Ho & He) & ?). split; [congruence|eauto].
  - intros o e He Ha. rewrite HE in He. apply lookup_delete_Some in He as [_ He].
    apply (exists_shape _ (vma sp)); [intros v w Hs; by apply covers_shape|done|by apply (ao_all _ _ _ Hao o e)].
Qed.

(** An entry that comes. *)
Lemma add_areas s s' a sp sp' i vaddr v flags w :
  areas_ok s a sp -> entries s !! next_id s = None -> entries s' = <[next_id s := mkEntry i a vaddr flags]> (entries s) ->
  next_id s' = Pos.succ (next_id s) -> spaces s' !! a = Some sp' -> low_addr sp' = low_addr sp ->
  vma sp' = add_sibling v (next_id s) (vma sp) -> w ∈ vma sp -> vma_id w = v -> v_covers vaddr w -> areas_ok s' a sp'.
Proof.
  intros Hao Hfresh HE Hn Hsp Hlo Hv Hw Hwv Hcw. destruct (ao_as _ _ _ Hao) as (_ & Hlow & Hvm).
  assert (shape <$> vma sp' = shape <$> vma sp) as Hsh by (rewrite Hv; apply shape_add).
  assert (forall x, x ∈ vma sp -> v_covers vaddr x <-> vma_id x = v) as Honly.
  { intros x Hx. apply list_elem_of_lookup in Hx as [k Hk]. apply list_elem_of_lookup in Hw as [j Hj].
    destruct (decide (k = j)) as [->|Hne]; [rewrite Hk in Hj; by injection Hj as ->|]. split.
    - intros Hcx. exfalso. apply list_elem_of_split_length in Hj as (l1 & l2 & Hl & Hlen).
      apply (disjoint_areas (low_addr sp) l1 w l2 x vaddr Hlow); [by rewrite <- Hl| |done|done].
      rewrite Hl in Hk. apply elem_of_app. destruct (decide (k < length l1)%nat).
      + left. rewrite lookup_app_l in Hk by done. by apply list_elem_of_lookup_2 in Hk.
      + right. rewrite lookup_app_r in Hk by lia. destruct (k - length l1)%nat eqn:Ek; [lia|]. simpl in Hk. by apply list_elem_of_lookup_2 in Hk.
    - intros Hid. exfalso. apply Hne. apply (NoDup_lookup (vma_id <$> vma sp) k j v); [apply Hao|..];
        rewrite list_lookup_fmap; [by rewrite Hk; cbn; rewrite Hid|by rewrite Hj; cbn; rewrite Hwv]. }
  constructor.
  - split; [done|]. rewrite Hlo. split; [done|]. by apply (vmas_ok_shape (vma sp)).
  - rewrite (ids_shape _ _ Hsh). apply Hao.
  - rewrite Hv, Hn. intros x (y & -> & Hy)%list_elem_of_fmap. pose proof (ao_new _ _ _ Hao y Hy). case_decide; cbn; lia.
  - rewrite Hv. intros x (y & -> & Hy)%list_elem_of_fmap. destruct (ao_listed _ _ _ Hao y Hy) as [Hnd Hin].
    assert (next_id s ∉ vma_pages y) as Hnew by (intros Hx; apply Hin in Hx as (e & He & _); congruence).
    specialize (Honly y Hy). unfold listed. rewrite HE. split; [case_decide; cbn; [by apply NoDup_cons|done]|].
    assert (forall o, (exists e, <[next_id s := mkEntry i a vaddr flags]> (entries s) !! o = Some e /\ pe_as e = a /\ v_covers (pe_vaddr e) y)
      <-> (o = next_id s /\ vma_id y = v) \/ o ∈ vma_pages y) as Hall.
    { intros o. rewrite Hin. destruct (decide (o = next_id s)) as [->|Ho].
      - rewrite lookup_insert_eq, <- Honly. split.
        + intros (e & [= <-] & _ & Hc). by left.
        + intros [[_ Hc]|(e & He & _)]; [eauto|congruence].
      - rewrite lookup_insert_ne by done. split; [by right|by intros [[? _]|?]]. }
    intros o. case_decide as Hd; cbn [vma_pages with_pages]; unfold v_covers, v_end in *; cbn [vma_begin vma_length with_pages];
      rewrite Hall; [rewrite elem_of_cons|]; tauto.
  - intros o e He Ha. apply (exists_shape _ (vma sp)); [intros x y Hs; by apply covers_shape|done|].
    rewrite HE in He. apply lookup_insert_Some in He as [[<- <-]|[_ He]]; [apply Exists_exists; by exists w|by apply (ao_all _ _ _ Hao o e)].
Qed.

Lemma areas_irq s a sp n : areas_ok (set_irq n s) a sp <-> areas_ok s a sp.
Proof. split; intros [A1 A2 A3 A4 A5]; by constructor. Qed.

(** Assigning a page inside an area, whatever was at the address before. *)
Lemma assign_areas hwp ext s a i vaddr flags p sp w :
  mm_ok hwp ext s -> areas_ok s a sp -> pgs s !! i = Some p -> user_page vaddr ->
  kind_ok hwp (mkEntry i a vaddr flags) -> ref_count p + 1 < 2 ^ 64 -> (view s a vaddr = None \/ 1 <= ext i) ->
  w ∈ vma sp -> v_covers vaddr w ->
  exists s' sp', address_space_assign_page_no_addr_check a i vaddr (vma_id w) flags s = Done () s'
    /\ mm_ok hwp ext s' /\ areas_ok s' a sp' /\ shape <$> vma sp' = shape <$> vma sp.
Proof.
  intros HI Hao Hp Hu Hk Hr Hroom Hw Hc. destruct (ao_as _ _ _ Hao) as (Hsp & Hlow & Hvm).
  destruct (assign_room hwp ext s a i vaddr p sp HI Hp Hsp Hu Hroom)
    as (s1 & p1 & sp1 & E1 & HI1 & K1 & F1 & Hsp1 & Hno1 & Hp1 & Ha1 & Hr1 & Hv1 & Hdom1 & Hlay1 & Hfr1 & Hal1).
  assert (areas_ok s1 a sp1 /\ shape <$> vma sp1 = shape <$> vma sp) as [Hao1 Hsh1].
  { set (s0 := set_irq (irq s + 1) s) in *.
    assert (mm_ok hwp ext s0) as HI0 by (apply inv_set_irq; [pose proof (inv_irq _ _ _ _ _ _ HI); lia|done]).
    rewrite (bind_eq _ _ _ _ _ (get_allocated_eq _ _ _ _ _ s0 a sp vaddr HI0 Hsp Hu)) in E1.
    destruct (r_map (vaddr_map sp) !! vaddr) as [pe|] eqn:Epe.
    - pose proof (proj1 (i_in_map _ _ _ _ _ _ _ _ _ _ _ HI a _ _ vaddr pe (cores_lookup _ _ _ Hsp)) Epe)
        as (_ & e & He & Hea & Hev).
      destruct (treat_ok hwp ext a xH (fun _ => Drop) s0 sp pe e HI0 Hsp He Hea) as (s2 & sp2 & E2 & C2 & N2 & En2 & Hsp2 & L2 & H2 & V2).
      unfold treat in E2. rewrite (bind_eq _ _ _ _ _ (get_pe_eq s0 pe e He)), E1 in E2. injection E2 as <-.
      change (spaces s1 !! a = Some sp2) in Hsp2. rewrite Hsp1 in Hsp2. injection Hsp2 as <-.
      split; [|rewrite V2; by apply shape_map].
      apply (areas_irq s1 a sp1 (irq s1 + 1)). apply (drop_areas s0 _ a sp sp1 pe); [by apply areas_irq|done..].
    - assert (view s a vaddr = None) as Hnv by (unfold view; rewrite Hsp; cbn; by rewrite Epe).
      destruct (Hal1 Hnv) as (-> & -> & ->). done. }
  destruct (assign_tail_ok hwp ext s1 a i vaddr (vma_id w) flags p1 sp1) as (s2 & E2 & HI2 & Has); try done; [lia|].
  destruct Has as (K2 & A2 & M2 & F2 & F3 & F4 & F5 & r' & _ & _ & F6).
  assert (Z.land flags (Z.lor PF_SHARED PF_SNAPSHOT) =? Z.lor PF_SHARED PF_SNAPSHOT = false
    /\ Z.land flags (Z.lor PF_HARDWARE PF_SNAPSHOT) =? Z.lor PF_HARDWARE PF_SNAPSHOT = false) as [C1 C2].
  { unfold kind_ok in Hk. cbn in Hk. case_decide; [by rewrite Hk|]. by destruct Hk as [-> | ->]. }
  assert (exists sp2, spaces s2 !! a = Some sp2 /\ low_addr sp2 = low_addr sp1
    /\ vma sp2 = add_sibling (vma_id w) (next_id s1) (vma sp1)) as (sp2 & Hsp2 & L2 & V2).
  { assert (is_Some (strip (spaces s2) !! a)) as Hs by (rewrite F6, lookup_insert_eq; by eexists).
    apply (strip_is_Some (spaces s2)) in Hs as [sp2 Hsp2]. exists sp2. split; [done|].
    assert (strip (spaces s2) !! a = Some (with_ptes ∅ sp2)) as Hst by (unfold strip; by rewrite lookup_fmap, Hsp2).
    rewrite F6, lookup_insert_eq in Hst. split; [apply (f_equal (fmap low_addr)) in Hst; cbn in Hst; congruence|].
    apply (f_equal (fmap vma)) in Hst; cbn in Hst; congruence. }
  assert (exists w1, w1 ∈ vma sp1 /\ shape w1 = shape w) as (w1 & Hw1 & Hsw).
  { assert (shape w ∈ shape <$> vma sp1) as Hin by (rewrite Hsh1; by apply list_elem_of_fmap_2).
    apply list_elem_of_fmap in Hin as (w1 & ? & ?). eauto. }
  exists s2, sp2. split; [|split; [done|split]].
  - unfold address_space_assign_page_no_addr_check. rewrite C1, C2. kstep disable_eq.
    revert E1. unfold mbind, M_bind. destruct (get_allocated_page a vaddr (set_irq (irq s + 1) s)) as [o s0| |]; [|done..].
    intros E1. rewrite E1. exact E2.
  - apply (add_areas s1 s2 a sp1 sp2 i vaddr (vma_id w) flags w1); try done.
    + apply (i_next _ _ _ _ _ _ _ _ _ _ _ HI1). lia.
    + by injection Hsw.
    + by apply (covers_shape w1 w).
  - rewrite V2, <- Hsh1. apply shape_add.
Qed.
End areas.
