(* ===== verification/MunmapProps.v ===== *)
(** What unmapping promises: [munmap], a mapping undone, the end of an address
    space, and a program that brings the kernel down by exiting. *)
From S2P Require Import Prelude Bits Irq Binradix Alloc MmState PageMan Aspace FdTable Copy VmaProofs MmInv MmOps Cow Fault Snapshot MmProps Munmap Areas.

Section props.
Context {R : Type} `{!RadixMap R id}.
Context (junk : Z).
Implicit Types s : mm R.

(** An access outside every area ends the program with code 1. *)
Lemma fault_outside hwp ext s a sp err x :
  mm_ok hwp ext s -> areas_ok s a sp -> current_as s = a -> GET_BIT err 2 <> 0 ->
  (forall v, v ∈ vma sp -> ~ v_covers x v) ->
  exists s', page_fault_handler err x s = Done (1, Some 1) s'.
Proof.
  intros HI Hao <- Herr Hno. destruct (ao_as _ _ _ Hao) as (Hsp & Hlo & Hok).
  unfold page_fault_handler. destruct (Z.eqb_spec (GET_BIT err 2) 0); [done|]. kstep disable_eq. kstep gets_eq.
  exists (set_irq (irq s + 1) s). erewrite bind_eq; [|unfold vma_find_by_vaddr; kstep get_as_eq; apply mret_eq].
  pose proof (find_vma_spec (low_addr sp) (vma sp) x Hlo Hok) as Hf.
  destruct (find_vma (vma sp) x) as [v|]; [|done]. destruct Hf as [Hin Hc]. by destruct (Hno v Hin).
Qed.

(** C37: [munmap base len] of the running program takes exactly the addresses
    of the range out of its areas and out of what it can see, page tables
    included.  An area inside the range goes, one that crosses an end is trimmed,
    one that contains the range is split in two; the upper part of such a split has
    the flags that the memory of the new object happened to hold, the others keep
    theirs.  The frames of the pages that are then neither shown anywhere nor held
    are on the free list of the allocator ([un_freed]), and nothing else was put
    there ([un_released]).  A later access in the range ends the program; every
    other address of every address space shows what it showed, byte for byte.  A
    range that is not made of whole pages is refused with -EINVAL and nothing
    changes. *)
Theorem munmap_correct hwp ext s sp base len :
  mm_ok hwp ext s -> areas_ok s (current_as s) sp -> 0 <= base -> 0 <= len -> base + len < 2 ^ 64 ->
  exists r s', munmap junk base len s = Done r s' /\
    (if bool_decide (base mod 4096 = 0 /\ len mod 4096 = 0)
     then r = 0 /\ exists sp', unmapped junk hwp ext (current_as s) base len s sp s' sp'
       /\ forall err x, base <= x < base + len -> GET_BIT err 2 <> 0 ->
            exists s'', page_fault_handler err x s' = Done (1, Some 1) s''
     else r = - EINVAL /\ s' = s).
Proof.
  intros HI Hao Hb Hl Hr. destruct (munmap_ok junk hwp ext s sp base len HI Hao Hb Hl Hr) as (r & s' & E & H).
  exists r, s'. split; [done|]. case_bool_decide; [|done]. destruct H as (-> & sp' & U). split; [done|].
  exists sp'. split; [done|]. intros err x Hx Herr.
  apply (fault_outside hwp ext s' (current_as s) sp'); try done; [apply U..| |].
  - apply (un_keeps _ _ _ _ _ _ _ _ _ _ U).
  - intros v Hv Hc. destruct (proj1 (un_covers _ _ _ _ _ _ _ _ _ _ U x)) as [_ Hn]; [apply Exists_exists; eauto|done].
Qed.

(** [cut] looks at the bounds only. *)
Lemma cut_shape n base rend : forall l l', shape <$> l = shape <$> l' ->
  shape <$> cut junk n base rend l = shape <$> cut junk n base rend l'.
Proof.
  induction l as [|v l IH]; intros [|w l'] Hs; try done.
  rewrite !fmap_cons in Hs. injection Hs as Hid Hfl Hps Hbg Hln Hl.
  cbn [cut]. unfold v_end. specialize (IH l' Hl). destruct v, w. cbn in *. subst.
  repeat case_match; cbn; by rewrite ?Hl, ?IH.
Qed.

(** Cutting a new area out again. *)
Lemma cut_added n v : forall l lo l', 0 <= lo -> vmas_ok lo l -> lo <= vma_begin v -> 0 < vma_length v ->
  v_end v < 2 ^ 64 -> add_vma v l = Some l' -> cut junk n (vma_begin v) (v_end v) l' = l.
Proof.
  induction l as [|w l IH]; intros lo l' Hlo Hok Hb Hl Hr; cbn [add_vma].
  - intros [= <-]. cbn [cut]. unfold v_end in *.
    destruct (Z.leb_spec (vma_begin v + vma_length v) (vma_begin v)); [lia|]. destruct (Z.leb_spec (vma_begin v + vma_length v) (vma_begin v)); [lia|].
    rewrite !Z.leb_refl. done.
  - rewrite (vmas_ok_end lo l w) by done.
    rewrite (vmas_ok_end (vma_begin v) [] v) by (split; [lia|split; [lia|split; [done|done]]] || lia).
    destruct (vmas_ok_tail _ _ _ Hlo Hok) as [Hlo' Hok'].
    assert (forall l0, cut junk n (vma_begin v) (v_end v) (v :: l0) = cut junk n (vma_begin v) (v_end v) l0) as Hv.
    { intros l0. cbn [cut]. unfold v_end in *. destruct (Z.leb_spec (vma_begin v + vma_length v) (vma_begin v)); [lia|].
      rewrite !Z.leb_refl. done. }
    destruct (Z.leb_spec (v_end v) (vma_begin w)) as [H1|H1].
    + intros [= <-]. rewrite Hv. cbn [cut]. destruct Hok as (? & ? & ? & _).
      destruct (Z.leb_spec (v_end w) (vma_begin v)); [unfold v_end in *; lia|]. by destruct (Z.leb_spec (v_end v) (vma_begin w)); [|lia].
    + destruct ((vma_begin v <? v_end w) && (vma_begin w <? v_end v)) eqn:Eo; [done|].
      destruct (add_vma v l) as [l1|] eqn:E1; [|done]. cbn. intros [= <-].
      assert (v_end w <= vma_begin v) by (destruct (Z.ltb_spec (vma_begin v) (v_end w)); [|lia]; destruct (Z.ltb_spec (vma_begin w) (v_end v)); [done|lia]).
      cbn [cut]. destruct (Z.leb_spec (v_end w) (vma_begin v)); [|lia]. f_equal. by apply (IH (v_end w)).
Qed.

(** What a successful insertion does to the list. *)
Lemma insert_list s a sp vaddr len flags v s1 :
  areas_ok s a sp -> 0 <= irq s -> 0 <= vaddr -> insert_vma_to_vaddr a vaddr len flags s = Done (inr v) s1 ->
  vaddr mod 4096 = 0 /\ low_addr sp <= vaddr /\ v = mkVma (next_id s) flags 0 vaddr len []
  /\ exists l, add_vma v (vma sp) = Some l /\ spaces s1 !! a = Some (with_vma l sp).
Proof.
  intros Hao Hi Hv. destruct (ao_as _ _ _ Hao) as (E & Hlow & Hvm).
  unfold insert_vma_to_vaddr. unfold mbind at 1, M_bind at 1. rewrite mm_new_id_locked by done.
  rewrite land_fff by done. set (s0 := set_next (Pos.succ (next_id s)) s).
  destruct (Z.eqb_spec (vaddr mod 4096) 0) as [Ha|Ha]; cbn [negb]; [|done].
  unfold mbind at 1, M_bind at 1. rewrite (vma_get_as_eq s0 a sp) by done.
  destruct (Z.ltb_spec vaddr (low_addr sp)); [done|]. destruct (high_addr sp <? vaddr); [done|]. cbn [orb].
  unfold mbind, M_bind. set (w := mkVma (next_id s) flags 0 vaddr len []).
  rewrite (aspace_add_vma_eq s0 a sp) by done. destruct (add_vma w (vma sp)) as [l|] eqn:El; [|done].
  intros [= <- <-]. split_and!; try done. exists l. split; [done|]. cbn. by rewrite lookup_insert_eq.
Qed.

(** C38: mapping and unmapping undo each other: after [insert_vma_to_vaddr] has made
    an area and whatever pages were put in it, [remove_vma_range] of the same
    bounds leaves the areas that were there before, with the same bounds and
    flags, and nothing visible in the range. *)
Theorem map_unmap hwp ext s a sp vaddr len flags v s1 s2 sp2 :
  mm_ok hwp ext s -> areas_ok s a sp -> 0 <= vaddr -> 0 < len -> len mod 4096 = 0 -> vaddr + len < 2 ^ 64 ->
  insert_vma_to_vaddr a vaddr len flags s = Done (inr v) s1 ->
  mm_ok hwp ext s2 -> areas_ok s2 a sp2 -> layout s2 a = layout s1 a ->
  exists s3 sp3, remove_vma_range junk a vaddr len s2 = Done () s3 /\ mm_ok hwp ext s3 /\ areas_ok s3 a sp3
    /\ shape <$> vma sp3 = shape <$> vma sp
    /\ (forall w, vaddr <= w < vaddr + len -> view s3 a w = None /\ mapped s3 a w = None)
    /\ forall b w, ~ (b = a /\ vaddr <= w < vaddr + len) -> view s3 b w = view s2 b w.
Proof.
  intros HI Hao Hv Hl Hlm Hr E1 HI2 Hao2 Hly.
  destruct (insert_list s a sp vaddr len flags v s1 Hao) as (Ha & Hlov & -> & l & El & Hspl); [|done..|].
  { pose proof (inv_irq _ _ _ _ _ _ HI). lia. }
  assert (shape <$> vma sp2 = shape <$> l) as Hsh.
  { destruct (ao_as _ _ _ Hao2) as (Hsp2 & _). unfold layout in Hly. rewrite Hsp2, Hspl in Hly. by injection Hly. }
  destruct (remove_vma_range_ok junk hwp ext s2 a sp2 vaddr len) as (s3 & sp3 & E3 & U); try (done || lia).
  exists s3, sp3. split; [done|]. split; [apply U|]. split; [apply U|]. destruct (ao_as _ _ _ Hao) as (_ & Hlo & Hok). split_and!.
  - rewrite (un_shape _ _ _ _ _ _ _ _ _ _ U), (cut_shape _ _ _ _ l) by done. f_equal.
    apply (cut_added (next_id s2) (mkVma (next_id s) flags 0 vaddr len []) (vma sp) (low_addr sp) l); done.
  - intros w Hw. split; [|by apply (un_mapped _ _ _ _ _ _ _ _ _ _ U)].
    rewrite (un_view _ _ _ _ _ _ _ _ _ _ U). by rewrite decide_True.
  - intros b w Hn. rewrite (un_view _ _ _ _ _ _ _ _ _ _ U). by rewrite decide_False.
Qed.

(** C39: [destroy_as] of an address space whose areas all lie inside the user range
    ([inside_user]; with an area outside it or empty at its top the kernel panics)
    leaves no area and nothing mapped or visible in it.  The frames of the pages that
    are then neither shown anywhere nor held are on the free list of the allocator, and
    nothing else was put there; every other address space shows what it showed, byte
    for byte.  The page tables themselves are not part of this model: that the walk
    gives each of them back is [PageFree.destroy_tables_correct]. *)
Theorem destroy_as_correct hwp ext s a sp :
  mm_ok hwp ext s -> areas_ok s a sp -> inside_user sp ->
  exists s', destroy_as junk a s = Done () s' /\ destroyed hwp ext a s s'.
Proof. apply destroy_as_ok. Qed.
End props.

(** ** Witnesses *)
Lemma ex_parent_areas : areas_ok ex_shown 1 ex_parent.
Proof.
  constructor.
  - split; [done|]. split; [done|]. by repeat split.
  - cbn. repeat constructor; set_solver.
  - cbn. intros v Hv. assert (v = mkVma 5 VMA_RW 0 0x400000 0x2000 [11%positive] \/ v = mkVma 6 0 0 0x500000 0x1000 []) as [-> | ->]
      by set_solver; by vm_compute.
  - intros v Hv. assert (v = mkVma 5 VMA_RW 0 0x400000 0x2000 [11%positive] \/ v = mkVma 6 0 0 0x500000 0x1000 []) as [-> | ->]
      by (cbn in Hv; set_solver).
    + split; [repeat constructor; set_solver|]. intros pe. cbn. rewrite list_elem_of_singleton. split.
      * intros ->. exists ex_entry. split_and!; by vm_compute.
      * intros (e & He & _). change (entries ex_shown) with ({[11%positive := ex_entry]} : gmap id page_entry) in He.
        by apply lookup_singleton_Some in He as [-> _].
    + split; [constructor|]. intros pe. cbn. rewrite elem_of_nil. split; [done|].
      intros (e & He & _ & Hc). change (entries ex_shown) with ({[11%positive := ex_entry]} : gmap id page_entry) in He.
      apply lookup_singleton_Some in He as [_ <-]. unfold v_covers in Hc. cbn in Hc. lia.
  - intros pe e He _. change (entries ex_shown) with ({[11%positive := ex_entry]} : gmap id page_entry) in He.
    apply lookup_singleton_Some in He as [_ <-]. apply Exists_cons_hd. by vm_compute.
Qed.


Lemma ex_parent_inside : inside_user ex_parent.
Proof.
  unfold inside_user. cbn. split_and!; try done. intros v Hv.
  assert (v = mkVma 5 VMA_RW 0 0x400000 0x2000 [11%positive] \/ v = mkVma 6 0 0 0x500000 0x1000 []) as [-> | ->]
    by set_solver; by vm_compute.
Qed.

Lemma munmap_correct_witness :
  exists r s', munmap 0 0x400000 0x1000 ex_shown = Done r s' /\
    (if bool_decide (0x400000 mod 4096 = 0 /\ 0x1000 mod 4096 = 0)
     then r = 0 /\ exists sp', unmapped 0 ∅ ex_ext (current_as ex_shown) 0x400000 0x1000 ex_shown ex_parent s' sp'
       /\ forall err x, 0x400000 <= x < 0x400000 + 0x1000 -> GET_BIT err 2 <> 0 ->
            exists s'', page_fault_handler err x s' = Done (1, Some 1) s''
     else r = - EINVAL /\ s' = ex_shown).
Proof.
  apply (munmap_correct 0 ∅ ex_ext ex_shown ex_parent 0x400000 0x1000 (proj1 ex_shown_ok) ex_parent_areas); by vm_compute.
Defined.

Lemma destroy_as_correct_witness :
  exists s', destroy_as 0 1 ex_shown = Done () s' /\ destroyed ∅ ex_ext 1 ex_shown s'.
Proof. exact (destroy_as_correct 0 ∅ ex_ext ex_shown 1 ex_parent (proj1 ex_shown_ok) ex_parent_areas ex_parent_inside). Defined.

(** The areas of [ex_shown] with one more at 0x600000. *)
Definition ex_more : mm (gmap Z id) :=
  match insert_vma_to_vaddr 1 0x600000 0x3000 VMA_RW ex_shown with Done _ s => s | _ => ex_shown end.
Definition ex_wider : address_space (gmap Z id) :=
  with_vma (vma ex_parent ++ [mkVma 12 VMA_RW 0 0x600000 0x3000 []]) ex_parent.

Lemma ex_more_ok : mm_ok ∅ ex_ext ex_more /\ areas_ok ex_more 1 ex_wider.
Proof.
  set (s0 := set_next 13 ex_shown).
  assert (ex_more = set_spaces (<[1%positive := ex_wider]> (spaces s0)) s0) as -> by by vm_compute.
  assert (areas_ok s0 1 ex_parent) as Hao0 by apply (areas_next 1 ex_shown ex_parent ex_parent_areas).
  split.
  - apply (c_ok ∅ ex_ext 1 s0). apply (calm_set_areas ∅ ex_ext 1 s0 ex_parent); [|done].
    apply (c_ok ∅ ex_ext 1 ex_shown). apply calm_new_id, ex_shown_ok.
  - apply (areas_add s0 1 ex_parent (mkVma 12 VMA_RW 0 0x600000 0x3000 []) (vma ex_wider)); try done.
    + cbn. apply Permutation_sym, Permutation_cons_append.
    + intros w Hw. assert (vma_id w = 5%positive \/ vma_id w = 6%positive) as [-> | ->] by (cbn in Hw; set_solver); done.
Qed.

Lemma ex_more_made :
  insert_vma_to_vaddr 1 0x600000 0x3000 VMA_RW ex_shown = Done (inr (mkVma 12 VMA_RW 0 0x600000 0x3000 [])) ex_more.
Proof. by vm_compute. Qed.

Lemma map_unmap_witness :
  exists s3 sp3, remove_vma_range 0 1 0x600000 0x3000 ex_more = Done () s3 /\ mm_ok ∅ ex_ext s3 /\ areas_ok s3 1 sp3
    /\ shape <$> vma sp3 = shape <$> vma ex_parent
    /\ (forall w, 0x600000 <= w < 0x600000 + 0x3000 -> view s3 1 w = None /\ mapped s3 1 w = None)
    /\ forall b w, ~ (b = 1%positive /\ 0x600000 <= w < 0x600000 + 0x3000) -> view s3 b w = view ex_more b w.
Proof.
  apply (map_unmap 0 ∅ ex_ext ex_shown 1 ex_parent 0x600000 0x3000 VMA_RW (mkVma 12 VMA_RW 0 0x600000 0x3000 [])
    ex_more ex_more ex_wider (proj1 ex_shown_ok) ex_parent_areas);
    [done..|exact ex_more_made|apply ex_more_ok|apply ex_more_ok|reflexivity].
Defined.

(** A program that asks [sendpage] for nothing at the very top of its addresses
    and then exits brings the kernel down: [remove_vma_range] leaves the empty
    area there, and [destroy_as] panics. *)
Example empty_area_panics :
  match insert_vma_to_vaddr 1 USER_TOP 0 VMA_RW ex_shown with
  | Done (inr v) s => vma_begin v = USER_TOP /\ destroy_as 0 1 s = Panicked "Not all vma removed"
  | _ => False
  end.
Proof. by vm_compute. Qed.
