(* ===== verification/Exit.v ===== *)
(** The end of a task: [sys_exit] of [sys/sched.c], through [kill_current],
    [schedule], [after_switch] and [kill_process]. *)
From S2P Require Import Prelude Bits Irq Binradix Alloc MmState PageMan Aspace FdTable Copy VmaProofs MmInv MmOps Cow Fault Snapshot MmProps Munmap Areas MunmapProps Kernel Sched Port Uport Services SchedProofs UportProofs.

Section exit.
Context {R : Type} `{!RadixMap R id}.
Context (junk : Z).
Implicit Types k : kernel R.

(** *** The children *)
Definition orphaned (l : list id) (c : id) (z : task) : task := if decide (c ∈ l) then with_parent None z else z.

Lemma orphan_loop l : forall k, (forall c, c ∈ l -> is_Some (k_tasks k !! c)) ->
  exists T, forM_ l (fun child => y ← get_task child; put_task child (with_parent None y)) k = Done () (set_tasks T k)
    /\ forall c, T !! c = orphaned l c <$> k_tasks k !! c.
Proof.
  induction l as [|c l IH]; intros k Hl.
  - exists (k_tasks k). split; [by destruct k|]. intros c. unfold orphaned. destruct (k_tasks k !! c); [|done].
    cbn. by rewrite decide_False by set_solver.
  - destruct (Hl c ltac:(set_solver)) as [y Hy].
    destruct (IH (set_tasks (<[c := with_parent None y]> (k_tasks k)) k)) as (T & E & HT).
    { intros d Hd. cbn. destruct (decide (d = c)) as [->|]; [rewrite lookup_insert_eq; eauto|].
      rewrite lookup_insert_ne by done. apply Hl. set_solver. }
    exists T. split.
    + cbn [forM_]. unfold mbind at 1, M_bind at 1. unfold mbind at 1, M_bind at 1. rewrite (get_task_eq _ _ y) by done.
      unfold put_task at 1, modify at 1. exact E.
    + intros d. rewrite HT. cbn. unfold orphaned. destruct (decide (d = c)) as [->|Hd].
      * rewrite lookup_insert_eq, Hy. cbn. f_equal. destruct (decide (c ∈ c :: l)); [by case_decide|set_solver].
      * rewrite lookup_insert_ne by done. destruct (decide (d ∈ l)), (decide (d ∈ c :: l)); try done; set_solver.
Qed.

(** *** The address space *)
Lemma destroyed_irq hwp ext a s s' n : 0 <= n -> destroyed hwp ext a s s' -> destroyed hwp ext a (set_irq n s) (set_irq n s').
Proof.
  intros Hn [D1 (K1 & K2 & K3) D3 D4 D5 D6 D7 D8 [] D10]. constructor; try done. by apply inv_set_irq.
Qed.

(** *** The dead task *)
Record killed k (t : id) (x : task) (hwp : gset id) ext (a : id) k' : Prop := {
  kd_as : destroyed hwp ext a (k_mm k) (k_mm k');
  kd_heap : k_heap k' = filter (fun o => o.2.1 <> t) (k_heap k);
  kd_self : k_tasks k' !! t = match t_parent x with None => None | Some _ => Some (with_children [] x) end;
  kd_tasks : forall c, c <> t -> k_tasks k' !! c = orphaned (t_children x) c <$> k_tasks k !! c;
  kd_pids : pids k' = match t_parent x with None => delete (t_pid x) (pids k) | Some _ => pids k end;
  kd_rest : current k' = current k /\ idle_task k' = idle_task k /\ runq k' = runq k /\ to_kill k' = to_kill k
    /\ port k' = port k /\ uport_tab k' = uport_tab k /\ port_wait_list k' = port_wait_list k
    /\ int_wait_list k' = int_wait_list k;
}.

Lemma kill_process_ok hwp ext k t x a sp :
  t <> current k -> k_tasks k !! t = Some x -> t_as x = Some a ->
  (forall c, c ∈ t_children x -> c <> t /\ is_Some (k_tasks k !! c)) ->
  mm_ok hwp ext (k_mm k) -> areas_ok (k_mm k) a sp -> inside_user sp ->
  exists k', kill_process junk t k = Done () k' /\ killed k t x hwp ext a k'.
Proof.
  intros Hc Hx Ha Hch HI Hao Hin. destruct (destroy_as_ok junk hwp ext (k_mm k) a sp HI Hao Hin) as (m & Em & D).
  unfold kill_process. rewrite (bind_eq _ _ _ _ _ (gets_eq _ _)), decide_False by done.
  rewrite (bind_eq _ _ _ _ _ (get_task_eq _ _ _ Hx)), (bind_eq _ _ _ _ _ (deref_eq _ _ _ Ha)).
  rewrite (bind_eq _ _ k () (set_mm m k)) by (unfold mm_lift; by rewrite Em).
  set (k1 := set_heap (filter (fun o => o.2.1 <> t) (k_heap k)) (set_mm m k)).
  rewrite (bind_eq _ _ (set_mm m k) () k1) by done.
  destruct (orphan_loop (t_children x) k1) as (T & E & HT); [intros c Hin'; by apply Hch|].
  rewrite (bind_eq _ _ _ _ _ E). rewrite (bind_eq _ _ _ () (set_tasks (<[t := with_children [] x]> T) (set_tasks T k1))) by done.
  destruct (t_parent x) as [p|] eqn:Ep; (eexists; split; [reflexivity|]); constructor; try rewrite Ep; cbn; try done.
  - by rewrite lookup_insert_eq.
  - intros c Hne. rewrite lookup_insert_ne by done. apply HT.
  - by rewrite lookup_delete_eq.
  - intros c Hne. rewrite lookup_delete_ne, lookup_insert_ne by done. apply HT.
Qed.

(** *** [sys_exit] *)
(** A task that may exit: it runs, it is not the idle task, its address space is
    well formed and its children are tasks. *)
Record can_exit k (x : task) hwp ext (a : id) (sp : address_space R) : Prop := {
  ce_ok : sched_ok k;
  ce_task : k_tasks k !! current k = Some x;
  ce_run : t_state x = TASK_RUNNING;
  ce_idle : current k <> idle_task k;
  ce_as : t_as x = Some a;
  ce_children : forall c, c ∈ t_children x -> c <> current k /\ is_Some (k_tasks k !! c);
  ce_mm : mm_ok hwp ext (k_mm k);
  ce_areas : areas_ok (k_mm k) a sp;
  ce_inside : inside_user sp;
}.

(** The task that runs next, and the run queue then. *)
Definition next_of k : id * list id := match runq k with n :: l => (n, l) | [] => (idle_task k, []) end.
Definition with_exit (code : Z) (x : task) : task :=
  mkTask TASK_ZOMBIE (t_fds x) (t_astable x) (t_as x) (t_pid x) (t_parent x) (t_children x) (t_priority x) code (t_ti x).

(** The task [t] is gone from [k]. *)
Record exited k (x : task) (code : Z) hwp ext (a : id) k' : Prop := {
  ex_sched : sched_ok k';
  ex_next : current k' = (next_of k).1 /\ runq k' = (next_of k).2;
  ex_mm : exists y, k_tasks k !! (next_of k).1 = Some y /\ destroyed hwp ext a (switch_mm y (k_mm k)) (k_mm k');
  ex_objects : k_heap k' = filter (fun o => o.2.1 <> current k) (k_heap k);
  ex_self : k_tasks k' !! current k = match t_parent x with None => None
    | Some _ => Some (with_children [] (with_exit code x)) end;
  ex_tasks : forall c, c <> current k -> k_tasks k' !! c =
    (fun z => orphaned (t_children x) c (if decide (c = (next_of k).1) then with_state TASK_RUNNING z else z)) <$> k_tasks k !! c;
  ex_pids : pids k' = match t_parent x with None => delete (t_pid x) (pids k) | Some _ => pids k end;
}.

Lemma next_state k x hwp ext a sp : can_exit k x hwp ext a sp ->
  state_of k (next_of k).1 = Some TASK_RUNNABLE /\ (next_of k).1 <> current k /\ (next_of k).1 ∉ (next_of k).2
  /\ NoDup (next_of k).2 /\ (forall t, t ∈ runq k <-> t ∈ (next_of k).2 \/ (t = (next_of k).1 /\ runq k <> [])).
Proof.
  intros [Hok Hx Hr Hid Has Hch HI Hao Hin]. destruct Hok as [_ _ Hnd Hrq _ [_ Hc] Hidle _].
  unfold next_of. destruct (runq k) as [|n l]; cbn.
  - split_and!; try done; try set_solver; try constructor.
  - apply NoDup_cons in Hnd as [? ?]. split_and!; try done; try set_solver.
Qed.

(** The state in which [after_switch] runs: the next task is current, the dead one is
    to be killed. *)
Lemma exit_until_switch code k x hwp ext a sp : can_exit k x hwp ext a sp ->
  exists y k', k_tasks k !! (next_of k).1 = Some y /\ sys_exit junk code k = after_switch junk k'
    /\ k_tasks k' = <[current k := with_exit code x]> (k_tasks k) /\ k_heap k' = k_heap k
    /\ k_mm k' = set_irq 1 (switch_mm y (k_mm k)) /\ current k' = (next_of k).1 /\ runq k' = (next_of k).2
    /\ to_kill k' = Some (current k) /\ pids k' = pids k /\ idle_task k' = idle_task k
    /\ port_wait_list k' = port_wait_list k.
Proof.
  intros Hce. destruct (next_state k x hwp ext a sp Hce) as (Hst & Hne & _).
  destruct Hce as [Hok Hx Hr Hid Has Hch HI Hao Hin]. destruct Hok as [Hi Hk _ _ _ _ _ _].
  apply state_of_task in Hst as (y & Hy & Hyst).
  set (k0 := set_tasks (<[current k := with_exit code x]> (k_tasks k)) k).
  assert (kill_current code k = Done () k0) as E0.
  { unfold kill_current. rewrite (bind_eq _ _ _ _ _ (get_current_eq k x Hx)). done. }
  set (k2 := set_runq (next_of k).2 (set_irq 1 k0)).
  assert (k_tasks (set_irq 1 k0) !! current (set_irq 1 k0) = Some (with_exit code x)) as H1 by apply lookup_insert_eq.
  assert (pick_next (set_irq 1 k0) = Done (next_of k).1 k2) as Ep.
  { unfold pick_next. rewrite (bind_eq _ _ _ _ _ (get_eq _)). unfold k2, next_of. cbn [runq set_irq kernel_irq set_mm].
    change (runq k0) with (runq k). by destruct k as [? ? ? ? ? ? []]. }
  set (k3 := set_to_kill (Some (current k)) k2).
  assert (k_tasks k3 !! (next_of k).1 = Some y) as Hy3 by (cbn; by rewrite lookup_insert_ne).
  exists y, (set_current (next_of k).1 (set_mm (switch_mm y (k_mm k3)) k3)). split; [done|]. split.
  - unfold sys_exit. rewrite (bind_eq _ _ _ _ _ E0). unfold schedule. rewrite (bind_eq _ _ _ _ _ (get_eq _)).
    change (irq k0) with (irq k). change (to_kill k0) with (to_kill k). rewrite Hi, Hk. cbn [Z.eqb negb].
    rewrite (bind_eq _ _ _ _ _ (disable_eq _)). change (irq k0) with (irq k). rewrite Hi. change (0 + 1) with 1.
    rewrite (bind_eq _ _ _ _ _ (get_current_eq _ _ H1)). cbn [t_state with_exit]. rewrite decide_False by done.
    rewrite (bind_eq _ _ _ _ _ (mret_eq _ _)), (bind_eq _ _ _ _ _ Ep).
    rewrite (bind_eq _ _ _ _ _ (get_current_eq k2 _ H1)). cbn [t_state with_exit]. rewrite decide_True by done.
    rewrite (bind_eq _ _ k2 () k3) by done.
    rewrite (bind_eq _ _ k3 () (set_current (next_of k).1 (set_mm (switch_mm y (k_mm k3)) k3))); [done|].
    unfold switch_to. rewrite (bind_eq _ _ _ _ _ (get_task_eq _ _ _ Hy3)). unfold switch_mm. by destruct (t_as y), k.
  - unfold switch_mm. destruct (t_as y); done.
Qed.

Lemma switch_mm_ok hwp ext s a sp y :
  mm_ok hwp ext s -> areas_ok s a sp ->
  mm_ok hwp ext (set_irq 1 (switch_mm y s)) /\ areas_ok (set_irq 1 (switch_mm y s)) a sp.
Proof.
  intros HI Hao. split; [apply inv_set_irq; [lia|]; unfold switch_mm; by destruct (t_as y)|].
  apply areas_irq. unfold switch_mm. destruct (t_as y); [|done]. destruct Hao as [A1 A2 A3 A4 A5]. by constructor.
Qed.

Lemma exit_ok code k x hwp ext a sp : can_exit k x hwp ext a sp ->
  exists k', sys_exit junk code k = Done () k' /\ exited k x code hwp ext a k'.
Proof.
  intros Hce. destruct (next_state k x hwp ext a sp Hce) as (Hst & Hne & Hnl & Hnd & Hq).
  destruct (exit_until_switch code k x hwp ext a sp Hce) as (y & k1 & Hy & -> & T1 & H1 & M1 & C1 & R1 & K1 & P1 & I1 & W1).
  destruct Hce as [Hok Hx Hr Hid Has Hch HI Hao Hin]. set (n := (next_of k).1) in *.
  destruct (switch_mm_ok hwp ext (k_mm k) a sp y HI Hao) as [HI1 Hao1].
  set (k2 := set_tasks (<[n := with_state TASK_RUNNING y]> (k_tasks k1)) k1).
  assert (forall c, k_tasks k2 !! c = if decide (c = n) then Some (with_state TASK_RUNNING y)
    else if decide (c = current k) then Some (with_exit code x) else k_tasks k !! c) as HT2.
  { intros c. cbn. destruct (decide (c = n)) as [->|]; [by rewrite lookup_insert_eq|]. rewrite lookup_insert_ne, T1 by done.
    destruct (decide (c = current k)) as [->|]; [by rewrite lookup_insert_eq|by rewrite lookup_insert_ne]. }
  destruct (kill_process_ok hwp ext k2 (current k) (with_exit code x) a sp) as (k3 & E3 & D); try done.
  { cbn. by rewrite C1. }
  { rewrite HT2, decide_False, decide_True by done. done. }
  { intros c Hc. destruct (Hch c Hc) as [? ?]. split; [done|]. rewrite HT2. repeat case_decide; eauto. }
  { cbn. by rewrite M1. }
  { cbn. by rewrite M1. }
  destruct D as [D1 D2 D3 D4 D5 (D6 & D7 & D8 & D9 & _ & _ & D12 & _)]. cbn in D1, D2, D6, D7, D8, D12.
  assert (irq k3 = 1) as Hirq.
  { change (irq (k_mm k3) = 1). pose proof (de_keeps _ _ _ _ _ D1) as (_ & _ & Hi). rewrite Hi, M1. apply irq_set_irq. }
  exists (set_irq 0 (set_to_kill None k3)). split.
  { unfold after_switch. rewrite (bind_eq _ _ k1 () k2).
    - rewrite (bind_eq _ _ _ _ _ (gets_eq _ _)). change (to_kill k2) with (to_kill k1). rewrite K1.
      rewrite (bind_eq _ _ k2 () (set_to_kill None k3)); [|by rewrite (bind_eq _ _ _ _ _ E3)].
      rewrite enable_eq by (change (irq k3 <> 0); lia). change (irq (set_to_kill None k3)) with (irq k3). by rewrite Hirq.
    - unfold set_task_state. rewrite (bind_eq _ _ k1 y k1); [|apply get_current_eq; rewrite C1, T1; by rewrite lookup_insert_ne].
      unfold put_current. rewrite (bind_eq _ _ _ _ _ (gets_eq _ _)). by rewrite C1. }
  assert (forall c, c <> current k -> k_tasks k3 !! c =
    (fun z => orphaned (t_children x) c (if decide (c = n) then with_state TASK_RUNNING z else z)) <$> k_tasks k !! c) as HT3.
  { intros c Hc. rewrite D4, HT2 by done. cbn [t_children with_exit]. case_decide as Hd.
    - subst c. by rewrite Hy.
    - rewrite decide_False by done. done. }
  assert (forall c, state_of k3 c = if decide (c = current k) then (if t_parent x then Some TASK_ZOMBIE else None)
    else if decide (c = n) then Some TASK_RUNNING else state_of k c) as HS.
  { intros c. unfold state_of. case_decide as Hd.
    - subst c. rewrite D3. cbn [t_parent with_exit]. by destruct (t_parent x).
    - rewrite HT3 by done. unfold orphaned. destruct (decide (c = n)) as [->|].
      + rewrite Hy. cbn. by case_decide.
      + destruct (k_tasks k !! c); [|done]. cbn. by case_decide. }
  assert (state_of k (current k) = Some TASK_RUNNING) as Hcur by (unfold state_of; rewrite Hx; cbn; by rewrite Hr).
  constructor; try done.
  - pose proof Hok as [O1 O2 O3 O4 O5 O6 O7 O8].
    assert (forall c, c ∈ (next_of k).2 -> state_of k3 c = Some TASK_RUNNABLE) as Hrest.
    { intros c Hc. pose proof (O4 c (proj2 (Hq c) (or_introl Hc))) as Hs. rewrite HS.
      rewrite decide_False by congruence. rewrite decide_False; [done|]. intros ->. done. }
    assert (idle_task k3 = idle_task k /\ runq k3 = (next_of k).2 /\ current k3 = n) as (Ei & Er & Ec) by (split_and!; congruence).
    constructor; change (state_of (set_irq 0 (set_to_kill None k3))) with (state_of k3); cbn; rewrite ?Ei, ?Er, ?Ec; try done.
    + intros t Ht. rewrite HS in Ht. destruct (decide (t = current k)) as [->|]; [by destruct (t_parent x)|].
      destruct (decide (t = n)); [done|]. destruct (O5 t Ht) as [Hin'| ->]; [|by right]. apply Hq in Hin' as [?|[? _]]; [by left|done].
    + rewrite HS. rewrite decide_False, decide_True by done. eauto.
    + rewrite HS. rewrite decide_False by done. case_decide; [by right|]. left. by destruct O7 as [?|[_ ?]].
    + intros m l t Hl Ht. rewrite D12, W1 in Hl. pose proof (O8 m l t Hl Ht) as Hw. rewrite HS.
      rewrite decide_False by (intros ->; rewrite Hcur in Hw; discriminate).
      by rewrite decide_False by (intros ->; rewrite Hst in Hw; discriminate).
  - split; [exact (eq_trans D6 C1)|exact (eq_trans D8 R1)].
  - exists y. split; [done|]. cbn. rewrite M1 in D1. apply (destroyed_irq _ _ _ _ _ 0) in D1; [|lia].
    assert (set_irq 0 (set_irq 1 (switch_mm y (k_mm k))) = switch_mm y (k_mm k)) as E; [|by rewrite E in D1].
    rewrite set_irq_twice. assert (irq (switch_mm y (k_mm k)) = 0) as Ei.
    { pose proof (so_irq _ Hok). unfold switch_mm. by destruct (t_as y). }
    rewrite <- Ei. apply set_irq_irq.
  - cbn. by rewrite D2, H1.
  - cbn. rewrite D5, <- P1. done.
Qed.

(** [sys_exit code] of the running task does not return to it: the next task of
    the run queue runs, or the idle task, with interrupts enabled and the run queue
    consistent; the address space of the dead task is gone, with every page nobody
    else shows, and no byte of any other address space has changed; its objects are
    gone, its children have no parent; without a parent it is gone with its process
    id, else it stays with its exit code. *)
Theorem sys_exit_correct code k x hwp ext a sp : can_exit k x hwp ext a sp ->
  exists k', sys_exit junk code k = Done () k' /\ exited k x code hwp ext a k'.
Proof. apply exit_ok. Qed.
End exit.

(** ** Witness: task 3 of the connection of [UportProofs] exits with its address space 1,
    a child and a message that its server has not taken *)
Definition ex_x : task := mkTask TASK_RUNNING fdtable_new fdtable_new (Some 1%positive) 3 None [4%positive] 0 0 [].
Definition ex_y : task := mkTask TASK_RUNNABLE ex_fds fdtable_new (Some 2%positive) 2 None [] 0 0 [].
Definition ex_child : task := mkTask TASK_WAITING fdtable_new fdtable_new (Some 2%positive) 4 (Some 3%positive) [] 0 0 [].
Definition ex_idle : task := mkTask TASK_RUNNABLE fdtable_new fdtable_new None 0 None [] (-21) 0 [].
Definition ex_dying : kernel (gmap Z id) :=
  mkK ex_shown {[1%positive := ex_idle; 2%positive := ex_y; 3%positive := ex_x; 4%positive := ex_child]} ex_heap 30 3 1
    [2%positive] None {[0 := 1%positive; 2 := 2%positive; 3 := 3%positive; 4 := 4%positive]} ∅ ∅ ∅ ∅ [].

Lemma ex_dying_ok : can_exit ex_dying ex_x ∅ ex_ext 1 ex_parent.
Proof.
  assert (forall t y, k_tasks ex_dying !! t = Some y ->
    (t = 1%positive /\ y = ex_idle) \/ (t = 2%positive /\ y = ex_y) \/ (t = 3%positive /\ y = ex_x)
      \/ (t = 4%positive /\ y = ex_child)) as Hall.
  { intros t y Hy. cbn in Hy. rewrite !lookup_insert_Some, lookup_singleton_Some in Hy. naive_solver. }
  constructor; [|reflexivity|reflexivity|done|reflexivity| |apply ex_shown_ok|apply ex_parent_areas|apply ex_parent_inside].
  - constructor; try done.
    + repeat constructor. set_solver.
    + intros t Ht. change (t ∈ [2%positive]) in Ht. apply list_elem_of_singleton in Ht as ->. done.
    + intros t (y & Hy & Hst)%state_of_task. destruct (Hall t y Hy) as [[-> _]|[[-> _]|[[_ ->]|[_ ->]]]]; try done; [by right|].
      left. cbn. set_solver.
    + split; [by eexists|]. cbn. set_solver.
    + by left.
  - intros c Hc. change (c ∈ [4%positive]) in Hc. apply list_elem_of_singleton in Hc as ->. split; [done|by eexists].
Qed.

Lemma sys_exit_correct_witness :
  exists k', sys_exit 0 7 ex_dying = Done () k' /\ exited ex_dying ex_x 7 ∅ ex_ext 1 k'.
Proof. exact (sys_exit_correct 0 7 ex_dying ex_x ∅ ex_ext 1 ex_parent ex_dying_ok). Defined.

(** Its server still has the message in its queue: [pop_request] follows a pointer
    into the pages of the dead task's pool. *)
Example exit_dangles :
  match sys_exit 0 7 ex_dying with
  | Done _ k => current k = 2%positive /\ k_heap k !! 24%positive = None
      /\ k_heap k !! 21%positive = Some (2%positive, OUreq (mkUreq [22%positive] [24%positive]))
      /\ pop_request 0 ex_conn 0 0x400100 k = Faulted
  | _ => False
  end.
Proof. by vm_compute. Qed.
