(* ===== verification/Boot.v ===== *)
(** Setting the processor and its devices up: segment and interrupt descriptors
    ([sys/gdt.c], [sys/idt.c]), the interrupt controllers ([sys/i8259.c],
    [sys/apic.c]), the timer ([sys/timer.c]) and the beginning of [start]
    ([sys/main.c]).

    The linker's addresses are parameters.  A descriptor of 16 bytes is one number
    of 128 bits. *)
From S2P Require Import Prelude Bits BitField Irq Kernel Services.

(** ** The state *)
(** [tss], and its bytes; the structure is packed. *)
Record tss_t := mkTss { reserved0 : Z; rsp : list Z; ist : list Z; reserved2 : Z; reserved3 : Z; iobase : Z }.
Definition tss0 : tss_t := mkTss 0 (replicate 3 0) (replicate 8 0) 0 0 0.
Definition sizeof_tss : Z := 104.
Definition tss_bytes (t : tss_t) : list Z :=
  le_bytes 4 (reserved0 t) ++ concat (le_bytes 8 <$> rsp t) ++ concat (le_bytes 8 <$> ist t)
  ++ le_bytes 8 (reserved2 t) ++ le_bytes 2 (reserved3 t) ++ le_bytes 2 (iobase t).

(** What the boot code sets: memory, the registers that point to it, model-specific
    registers, the nesting counter (interrupts are enabled while it is 0), the tables
    of handlers; and what it wrote to ports. *)
Record machine := mkMachine {
  gdt : list Z;
  idt : list Z;
  tss : tss_t;
  gdtr : Z * Z;
  idtr : Z * Z;
  tr : Z;
  msr : gmap Z Z;
  interrupt_disabled : Z;
  tables : int_tables;
  port_out : list (Z * Z);
}.
Definition set_gdt (g : list Z) (m : machine) : machine :=
  mkMachine g (idt m) (tss m) (gdtr m) (idtr m) (tr m) (msr m) (interrupt_disabled m) (tables m) (port_out m).
Definition set_idt (i : list Z) (m : machine) : machine :=
  mkMachine (gdt m) i (tss m) (gdtr m) (idtr m) (tr m) (msr m) (interrupt_disabled m) (tables m) (port_out m).
Definition set_tss (t : tss_t) (m : machine) : machine :=
  mkMachine (gdt m) (idt m) t (gdtr m) (idtr m) (tr m) (msr m) (interrupt_disabled m) (tables m) (port_out m).
Definition set_regs (g i : Z * Z) (t : Z) (r : gmap Z Z) (m : machine) : machine :=
  mkMachine (gdt m) (idt m) (tss m) g i t r (interrupt_disabled m) (tables m) (port_out m).
Definition set_off (n : Z) (m : machine) : machine :=
  mkMachine (gdt m) (idt m) (tss m) (gdtr m) (idtr m) (tr m) (msr m) n (tables m) (port_out m).
Definition set_tables (t : int_tables) (m : machine) : machine :=
  mkMachine (gdt m) (idt m) (tss m) (gdtr m) (idtr m) (tr m) (msr m) (interrupt_disabled m) t (port_out m).
Definition set_out (o : list (Z * Z)) (m : machine) : machine :=
  mkMachine (gdt m) (idt m) (tss m) (gdtr m) (idtr m) (tr m) (msr m) (interrupt_disabled m) (tables m) o.

Definition wrmsr (r v : Z) : M machine () :=
  modify (fun m => set_regs (gdtr m) (idtr m) (tr m) (<[r := u64 v]> (msr m)) m).
Definition rdmsr (r : Z) : M machine Z := gets (fun m => default 0 (msr m !! r)).
(** [boot_outb]: [outb] on the machine; [io_wait] writes to port 0x80. *)
Definition boot_outb (port d : Z) : M machine () := modify (fun m => set_out (port_out m ++ [(port, u8 d)]) m).
Definition io_wait : M machine () := boot_outb 0x80 0.
Definition on_tables {A} (f : M int_tables A) : M machine A := fun m =>
  match f (tables m) with
  | Done a t => Done a (set_tables t m)
  | Panicked s => Panicked s
  | Faulted => Faulted
  end.

#[export] Program Instance machine_irq : HasIrq machine := {
  irq := interrupt_disabled;
  set_irq := set_off;
}.
Solve Obligations with (intros; try done; destruct s; done).

(** ** [sys/gdt.c] *)
Definition KERN_CS : Z := 1.
Definition KERN_DS : Z := 2.
Definition GDT_CS : Z := 0x00180000000000.
Definition GDT_DS : Z := 0x00100000000000.
Definition DPL0 : Z := 0x00000000000000.
Definition DPL3 : Z := 0x00600000000000.
Definition GDT_P : Z := 0x00800000000000.
Definition GDT_L : Z := 0x20000000000000.
Definition GDT_W : Z := 0x00020000000000.
Definition lors (l : list Z) : Z := foldr Z.lor 0 l.
Definition MAX_GDT : nat := 32.
Definition gdt0 : list Z :=
  [0; lors [GDT_CS; GDT_P; DPL0; GDT_L]; lors [GDT_DS; GDT_P; GDT_W; DPL0]; 0; lors [GDT_DS; GDT_P; GDT_W; DPL3];
   lors [GDT_CS; GDT_P; DPL3; GDT_L]; 0; 0] ++ replicate (MAX_GDT - 8) 0.
Definition idt0 : list Z := replicate 512 0.
Definition machine0 : machine := mkMachine gdt0 idt0 tss0 (0, 0) (0, 0) 0 ∅ 1 no_handlers [].

(** Two words of a table as one number, and back. *)
Definition pair_at (t : list Z) (i : nat) : option Z := lo ← t !! i; hi ← t !! S i; Some (lo + 2 ^ 64 * hi).
Definition put_pair (i : nat) (d : Z) (t : list Z) : list Z := <[S i := Z.shiftr d 64]> (<[i := u64 d]> t).

Section boot.
Context (gdt_addr idt_addr tss_addr istack estack syscall_entry int_entry gp_entry ud_entry de_entry : Z).

Definition MSR_STAR : Z := 0xc0000081.
Definition MSR_LSTAR : Z := 0xc0000082.
Definition MSR_SFMASK : Z := 0xc0000084.
Definition reload_gdt : M machine () :=
  modify (fun m => set_regs (8 * Z.of_nat MAX_GDT, gdt_addr) (idtr m) (tr m) (msr m) m);;
  wrmsr MSR_STAR (Z.lor (Z.shiftl 0x1b 48) (Z.shiftl (KERN_CS * 8) 32));;
  wrmsr MSR_LSTAR syscall_entry;;
  wrmsr MSR_SFMASK 0xffffffff.

(** [struct sys_segment_descriptor], by the positions of its fields. *)
Definition tss_desc (d : Z) : Z :=
  let d := set_bits 0 16 d sizeof_tss in
  let d := set_bits 16 24 d (Z.land tss_addr 0xffffff) in
  let d := set_bits 40 5 d 9 in
  let d := set_bits 45 2 d 0 in
  let d := set_bits 47 1 d 1 in
  let d := set_bits 48 4 d 0 in
  let d := set_bits 55 1 d 0 in
  set_bits 56 40 d (Z.shiftr tss_addr 24).
Definition STACK_SIZE : Z := 4096.
Definition setup_tss : M machine () :=
  m ← get;
  d ← deref (pair_at (gdt m) 6);
  modify (set_gdt (put_pair 6 (tss_desc d) (gdt m)));;
  modify (fun m => let t := tss m in
    set_tss (mkTss (reserved0 t) (<[0%nat := u64 (istack + STACK_SIZE)]> (rsp t))
      (<[1%nat := u64 (estack + STACK_SIZE)]> (<[0%nat := 0]> (ist t))) (reserved2 t) (reserved3 t) (iobase t)) m);;
  modify (fun m => set_regs (gdtr m) (idtr m) 48 (msr m) m).

(** ** [sys/idt.c] *)
(** [struct igate] *)
Definition igate (addr type ist : Z) : Z :=
  let d := set_bits 0 16 0 (Z.land addr 0xffff) in
  let d := set_bits 16 16 d (KERN_CS * 8) in
  let d := set_bits 32 3 d ist in
  let d := set_bits 35 5 d 0 in
  let d := set_bits 40 4 d type in
  let d := set_bits 44 1 d 0 in
  let d := set_bits 45 2 d 0 in
  let d := set_bits 47 1 d 1 in
  let d := set_bits 48 48 d (Z.shiftr addr 16) in
  set_bits 96 32 d 0.
(** Behind the end of [idt] is other memory. *)
Definition register_handler (index addr type ist : Z) : M machine () :=
  if negb (type =? 0xE) && negb (type =? 0xF) then mret ()
  else if 256 <=? index then fault
  else modify (fun m => set_idt (put_pair (Z.to_nat (index * 2)) (igate addr type ist) (idt m)) m).

(** The interrupt flag is read after [cli]. *)
Fixpoint register_irqs (n : nat) (i : Z) : M machine () :=
  match n with
  | O => mret ()
  | S n => register_handler i (u64 (int_entry + (i - 32) * 2 * 8)) 0xE 0;; register_irqs n (i + 1)
  end.
Definition idt_init : M machine () :=
  register_irqs 224 32;;
  modify (fun m => set_regs (gdtr m) (8 * 512, idt_addr) (tr m) (msr m) m);;
  let rflags := 0 in
  modify (set_off (if negb (GET_BIT rflags 9 =? 0) then 0 else 1)).

(** ** Interrupt controllers, timer *)
Definition MASTER : Z := 0x20.
Definition SLAVE : Z := 0xA0.
Definition _i8259_eoi (irq : Z) : M machine () :=
  when (8 <=? irq) (io_wait;; boot_outb SLAVE 0x20);;
  io_wait;;
  boot_outb MASTER 0x20.
Definition i8259_int_eoi (v : Z) : M machine Z := _i8259_eoi (u8 (v - 32));; mret 0.
(** The number that stands for [i8259_int_eoi] in the tables, and that of [pit_handler]. *)
Definition eoi_fn : Z := 1.
Definition pit_fn : Z := 2.
Fixpoint register_eois (n : nat) (i : Z) : M machine () :=
  match n with
  | O => mret ()
  | S n => on_tables (int_register_eoi i eoi_fn);; register_eois n (i + 1)
  end.
Definition i8259_init : M machine () := register_eois 16 32.

Definition MSR_APIC_BASE : Z := 0x1b.
Definition apic_init : M machine () :=
  apicr ← rdmsr MSR_APIC_BASE;
  when (Z.land apicr (Z.shiftl 1 11) =? 0) (wrmsr MSR_APIC_BASE (Z.lor apicr (Z.shiftl 1 11))).

Definition timer_init : M machine () :=
  disable_interrupts;;
  boot_outb 0x43 0x36;;
  boot_outb 0x40 0xAE;;
  boot_outb 0x40 0x71;;
  on_tables (int_register_handler 32 pit_fn);;
  enable_interrupts.

(** The beginning of [start], without [serial_init] and [syscalls_init]. *)
Definition start_cpu : M machine () :=
  reload_gdt;;
  setup_tss;;
  i8259_init;;
  apic_init;;
  idt_init;;
  register_handler 0xd gp_entry 0xe 1;;
  register_handler 0x6 ud_entry 0xe 1;;
  register_handler 0x0 de_entry 0xe 1.
End boot.
