(* ===== verification/BootProofs.v ===== *)
(** What the boot code leaves in the processor's tables: every vector leads to its
    stub, system calls switch between the right segments, and what is missing. *)
From S2P Require Import Prelude Bits BitField Irq Kernel Services Boot.

(** ** Descriptors as the processor reads them *)
Record gate := mkGate { g_offset : Z; g_selector : Z; g_ist : Z; g_type : Z; g_dpl : Z; g_present : bool }.
Definition decode_gate (d : Z) : gate :=
  mkGate (get_bits 0 16 d + 2 ^ 16 * get_bits 48 48 d) (get_bits 16 16 d) (get_bits 32 3 d) (get_bits 40 4 d)
    (get_bits 45 2 d) (get_bits 47 1 d =? 1).
Definition gate_at (m : machine) (v : Z) : option gate := decode_gate <$> pair_at (idt m) (Z.to_nat (v * 2)).

Record segment := mkSegment { s_code : bool; s_dpl : Z; s_present : bool; s_long : bool }.
Definition decode_segment (d : Z) : segment :=
  mkSegment (get_bits 43 2 d =? 3) (get_bits 45 2 d) (get_bits 47 1 d =? 1) (get_bits 53 1 d =? 1).
Definition segment_at (m : machine) (sel : Z) : option segment := decode_segment <$> gdt m !! Z.to_nat (sel / 8).
(** The selectors that SYSCALL and the 64-bit SYSRET load, with the stack's behind. *)
Definition syscall_cs (star : Z) : Z := 4 * (get_bits 32 16 star / 4).
Definition sysret_cs (star : Z) : Z := Z.lor (get_bits 48 16 star + 16) 3.
Definition sysret_ss (star : Z) : Z := Z.lor (get_bits 48 16 star + 8) 3.

Record system_segment := mkSystem { y_base : Z; y_limit : Z; y_type : Z; y_present : bool }.
Definition decode_system (d : Z) : system_segment :=
  mkSystem (get_bits 16 24 d + 2 ^ 24 * get_bits 56 40 d) (get_bits 0 16 d + 2 ^ 16 * get_bits 48 4 d) (get_bits 40 5 d)
    (get_bits 47 1 d =? 1).

(** Whether a program may use a port: the bit of the port in the bitmap that begins
    at [iobase], which the limit of the segment must cover together with the byte
    behind it. *)
Definition io_permitted (t : tss_t) (limit port : Z) : bool :=
  let i := iobase t + port / 8 in
  (i + 1 <=? limit) && match tss_bytes t !! Z.to_nat i with Some b => negb (Z.testbit b (port mod 8)) | None => false end.

(** ** Pairs of words *)
Lemma pair_at_put i d t : (S i < length t)%nat -> 0 <= d < 2 ^ 128 -> pair_at (put_pair i d t) i = Some d.
Proof.
  intros Hi Hd. unfold pair_at, put_pair.
  assert (<[S i := Z.shiftr d 64]> (<[i := u64 d]> t) !! i = Some (u64 d)) as ->.
  { rewrite list_lookup_insert_ne by lia. apply list_lookup_insert_eq. lia. }
  assert (<[S i := Z.shiftr d 64]> (<[i := u64 d]> t) !! S i = Some (Z.shiftr d 64)) as H2.
  { apply list_lookup_insert_eq. rewrite length_insert. lia. }
  cbn -[lookup]. rewrite H2. cbn. f_equal. unfold u64, wrap.
  rewrite Z.shiftr_div_pow2 by lia. pose proof (Z.div_mod d (2 ^ 64) ltac:(lia)). lia.
Qed.
Lemma pair_at_put_ne i j d t : j <> i -> j <> S i -> S j <> i -> pair_at (put_pair i d t) j = pair_at t j.
Proof. intros. unfold pair_at, put_pair. by rewrite !list_lookup_insert_ne by lia. Qed.
Lemma length_put_pair i d t : length (put_pair i d t) = length t.
Proof. unfold put_pair. by rewrite !length_insert. Qed.

(** Reading one field of a number that others have been set in. *)
Ltac read_field := repeat rewrite get_set_bits_ne by lia; rewrite get_set_bits by lia.

Lemma igate_bound a t i : 0 <= igate a t i < 2 ^ 128.
Proof. unfold igate. cbv zeta. repeat apply set_bits_bound; lia. Qed.
Lemma split_addr a k n : 0 <= k -> 0 <= n -> 0 <= a < 2 ^ (k + n) -> Z.land a (Z.ones k) mod 2 ^ k + 2 ^ k * (Z.shiftr a k mod 2 ^ n) = a.
Proof.
  intros Hk Hn Ha. rewrite Z.land_ones by done. rewrite Z.mod_mod by lia. rewrite Z.shiftr_div_pow2 by done.
  rewrite Z.pow_add_r in Ha by done.
  rewrite (Z.mod_small (a / 2 ^ k)); [pose proof (Z.div_mod a (2 ^ k) ltac:(lia)); lia|].
  split; [apply Z.div_pos; lia|apply Z.div_lt_upper_bound; lia].
Qed.
Lemma igate_decode a t i : 0 <= a < 2 ^ 64 -> 0 <= t < 16 -> 0 <= i < 8 ->
  decode_gate (igate a t i) = mkGate a (KERN_CS * 8) i t 0 true.
Proof.
  intros Ha Ht Hi. unfold decode_gate, igate. cbv zeta. f_equal.
  - etransitivity; [|apply (split_addr a 16 48); lia]. f_equal; [by read_field|]. f_equal. by read_field.
  - by read_field.
  - read_field. by rewrite Z.mod_small by lia.
  - read_field. by rewrite Z.mod_small by lia.
  - by read_field.
  - by read_field.
Qed.

(** [register_handler] sets one gate. *)
Lemma register_handler_ok index addr type ist m :
  length (idt m) = 512%nat -> 0 <= index < 256 -> 0 <= addr < 2 ^ 64 -> 0 <= ist < 8 ->
  exists i', register_handler index addr type ist m = Done () (set_idt i' m)
    /\ length i' = 512%nat
    /\ forall v, 0 <= v -> gate_at (set_idt i' m) v = if decide (v = index /\ (type = 0xE \/ type = 0xF))
         then Some (mkGate addr (KERN_CS * 8) ist type 0 true) else gate_at m v.
Proof.
  intros Hl Hx Ha Hi. unfold register_handler.
  destruct (Z.eqb_spec type 0xE) as [Et|Et], (Z.eqb_spec type 0xF) as [Et'|Et']; cbn [negb andb].
  4: { exists (idt m). split; [by destruct m|]. split; [done|]. intros v _. rewrite decide_False by lia. by destruct m. }
  all: destruct (Z.leb_spec 256 index); [lia|]; eexists; (split; [reflexivity|]); (split; [by rewrite length_put_pair|]);
    intros v Hv; unfold gate_at; cbn [idt set_idt]; case_decide as Hd;
    [destruct Hd as [-> _]; rewrite pair_at_put by (try lia; apply igate_bound); cbn; by rewrite igate_decode by lia
    |rewrite pair_at_put_ne by lia; done].
Qed.

(** ** The tables after the boot code *)
Section boot.
Context (gdt_addr idt_addr tss_addr istack estack syscall_entry int_entry gp_entry ud_entry de_entry : Z).
Notation register_irqs := (register_irqs int_entry).
Notation start_cpu :=
  (start_cpu gdt_addr idt_addr tss_addr istack estack syscall_entry int_entry gp_entry ud_entry de_entry).

(** The stub of vector [v]: 16 bytes each ([.align 16] in [sys/entry.s]). *)
Definition stub (v : Z) : Z := int_entry + 16 * (v - 32).

Lemma register_irqs_ok n : forall i m, length (idt m) = 512%nat -> 32 <= i -> i + Z.of_nat n <= 256 ->
  0 <= int_entry -> int_entry + 16 * 224 <= 2 ^ 64 ->
  exists i', register_irqs n i m = Done () (set_idt i' m) /\ length i' = 512%nat
    /\ forall v, 0 <= v -> gate_at (set_idt i' m) v = if decide (i <= v < i + Z.of_nat n)
         then Some (mkGate (stub v) (KERN_CS * 8) 0 0xE 0 true) else gate_at m v.
Proof.
  induction n as [|n IH]; intros i m Hl Hi Hn H0 H1.
  - exists (idt m). split; [by destruct m|]. split; [done|]. intros v _. rewrite decide_False by lia. by destruct m.
  - assert (u64 (int_entry + (i - 32) * 2 * 8) = stub i) as Es by (unfold stub; rewrite u64_small; [lia|unfold is_u64; lia]).
    destruct (register_handler_ok i (stub i) 0xE 0 m) as (i1 & E1 & L1 & G1); try (done || lia); [unfold stub; lia|].
    destruct (IH (i + 1) (set_idt i1 m)) as (i2 & E2 & L2 & G2); try (done || lia).
    exists i2. split; [|split; [done|]].
    + cbn [Boot.register_irqs]. rewrite Es. rewrite (bind_eq _ _ _ _ _ E1). exact E2.
    + intros v Hv. change (set_idt i2 m) with (set_idt i2 (set_idt i1 m)). rewrite G2, G1 by done.
      destruct (decide (i + 1 <= v < i + 1 + Z.of_nat n)), (decide (i <= v < i + Z.of_nat (S n))); try done; try lia.
      * rewrite decide_True by (split; [lia|by left]). by replace v with i by lia.
      * by rewrite decide_False by lia.
Qed.

Definition tss_after : tss_t :=
  mkTss 0 [u64 (istack + STACK_SIZE); 0; 0] [0; u64 (estack + STACK_SIZE); 0; 0; 0; 0; 0; 0] 0 0 0.

Definition eois : list (option Z) := replicate 32 None ++ replicate 16 (Some eoi_fn) ++ replicate 208 None.
Lemma i8259_init_ok m : tables m = no_handlers -> i8259_init m = Done () (set_tables (mkTables (replicate 224 None) eois) m).
Proof. intros E. destruct m. cbn in E. subst. by vm_compute. Qed.

Definition star_value : Z := 0x1b000800000000.
Lemma reload_gdt_ok m : exists r, reload_gdt gdt_addr syscall_entry m = Done () (set_regs (256, gdt_addr) (idtr m) (tr m) r m)
  /\ r !! MSR_STAR = Some star_value /\ r !! MSR_LSTAR = Some (u64 syscall_entry) /\ r !! MSR_SFMASK = Some 0xffffffff
  /\ r !! MSR_APIC_BASE = msr m !! MSR_APIC_BASE.
Proof.
  eexists. split; [reflexivity|]. cbn [msr set_regs]. unfold MSR_STAR, MSR_LSTAR, MSR_SFMASK, MSR_APIC_BASE. split_and!.
  - rewrite !lookup_insert_ne by done. by rewrite lookup_insert_eq.
  - rewrite lookup_insert_ne by done. by rewrite lookup_insert_eq.
  - by rewrite lookup_insert_eq.
  - by rewrite !lookup_insert_ne by done.
Qed.

Lemma setup_tss_ok m : gdt m = gdt0 -> tss m = tss0 ->
  setup_tss tss_addr istack estack m = Done ()
    (set_regs (gdtr m) (idtr m) 48 (msr m) (set_tss tss_after (set_gdt (put_pair 6 (tss_desc tss_addr 0) gdt0) m))).
Proof.
  intros Eg Et. unfold setup_tss. rewrite (bind_eq _ _ _ _ _ (get_eq _)), Eg.
  rewrite (bind_eq _ _ m 0 m) by (by vm_compute). destruct m. cbn in *. by subst.
Qed.

Lemma apic_init_ok m : exists r, apic_init m = Done () (set_regs (gdtr m) (idtr m) (tr m) r m)
  /\ (forall x, x <> MSR_APIC_BASE -> r !! x = msr m !! x).
Proof.
  unfold apic_init, rdmsr. rewrite (bind_eq _ _ _ _ _ (gets_eq _ _)). unfold when. destruct (Z.land _ _ =? 0).
  - eexists. split; [reflexivity|]. intros x Hx. by rewrite lookup_insert_ne.
  - exists (msr m). split; [by destruct m|done].
Qed.

(** The state before [idt_init]. *)
Record before_idt (m : machine) : Prop := {
  bi_idt : idt m = idt0;
  bi_gdt : gdt m = put_pair 6 (tss_desc tss_addr 0) gdt0;
  bi_tss : tss m = tss_after /\ tr m = 48;
  bi_gdtr : gdtr m = (256, gdt_addr);
  bi_msr : msr m !! MSR_STAR = Some star_value /\ msr m !! MSR_LSTAR = Some (u64 syscall_entry)
    /\ msr m !! MSR_SFMASK = Some 0xffffffff;
  bi_tables : tables m = mkTables (replicate 224 None) eois;
}.
Lemma before_idt_ok {A} (k : M machine A) : exists m, before_idt m /\
  (reload_gdt gdt_addr syscall_entry;; setup_tss tss_addr istack estack;; i8259_init;; apic_init;; k) machine0 = k m.
Proof.
  destruct (reload_gdt_ok machine0) as (r1 & E1 & S1 & S2 & S3 & _). set (m1 := set_regs (256, gdt_addr) _ _ r1 machine0) in E1.
  pose proof (setup_tss_ok m1 eq_refl eq_refl) as E2. set (m2 := set_regs _ _ 48 _ _) in E2.
  pose proof (i8259_init_ok m2 eq_refl) as E3. set (m3 := set_tables _ m2) in E3.
  destruct (apic_init_ok m3) as (r4 & E4 & R4). eexists. split.
  2: { by rewrite (bind_eq _ _ _ _ _ E1), (bind_eq _ _ _ _ _ E2), (bind_eq _ _ _ _ _ E3), (bind_eq _ _ _ _ _ E4). }
  constructor; [reflexivity|reflexivity|split; reflexivity|reflexivity| |reflexivity].
  cbn [msr set_regs]. rewrite !R4 by discriminate. split_and!; assumption.
Qed.

Lemma tss_desc_decode : 0 <= tss_addr < 2 ^ 64 ->
  0 <= tss_desc tss_addr 0 < 2 ^ 128 /\ decode_system (tss_desc tss_addr 0) = mkSystem tss_addr 104 9 true.
Proof.
  intros Ht. split; [unfold tss_desc; cbv zeta; repeat apply set_bits_bound; lia|].
  unfold decode_system, tss_desc. cbv zeta. f_equal.
  - etransitivity; [|apply (split_addr tss_addr 24 40); lia]. f_equal; [by read_field|]. f_equal. by read_field.
  - transitivity (104 + 2 ^ 16 * 0); [|done]. f_equal; [by read_field|]. f_equal. by read_field.
  - by read_field.
  - by read_field.
Qed.

(** No vector has a gate before [idt_init]. *)
Definition no_gate : gate := mkGate 0 0 0 0 0 false.
Lemma gate_idt0 m v : idt m = idt0 -> 0 <= v < 256 -> gate_at m v = Some no_gate.
Proof.
  intros E Hv. unfold gate_at, pair_at. rewrite E. unfold idt0.
  rewrite lookup_replicate_2 by lia. cbn [mbind option_bind]. rewrite lookup_replicate_2 by lia. by vm_compute.
Qed.

Definition exception_gate (v : Z) : gate :=
  if decide (v = 0) then mkGate de_entry 8 1 0xE 0 true
  else if decide (v = 6) then mkGate ud_entry 8 1 0xE 0 true
  else if decide (v = 0xd) then mkGate gp_entry 8 1 0xE 0 true
  else no_gate.

Lemma idt_part_ok m : length (idt m) = 512%nat -> (forall v, 0 <= v < 256 -> gate_at m v = Some no_gate) ->
  0 <= int_entry -> int_entry + 16 * 224 <= 2 ^ 64 -> 0 <= gp_entry < 2 ^ 64 -> 0 <= ud_entry < 2 ^ 64 -> 0 <= de_entry < 2 ^ 64 ->
  exists i', (idt_init idt_addr int_entry;; register_handler 0xd gp_entry 0xe 1;; register_handler 0x6 ud_entry 0xe 1;;
    register_handler 0x0 de_entry 0xe 1) m
    = Done () (set_idt i' (set_off 1 (set_regs (gdtr m) (4096, idt_addr) (tr m) (msr m) m)))
  /\ forall v, 0 <= v < 256 -> gate_at (set_idt i' m) v
       = Some (if decide (32 <= v) then mkGate (stub v) 8 0 0xE 0 true else exception_gate v).
Proof.
  intros Hl Hno H0 H1 Hg Hu Hd.
  destruct (register_irqs_ok 224 32 m) as (i1 & E1 & L1 & G1); try (done || lia).
  set (m1 := set_off 1 (set_regs (gdtr m) (4096, idt_addr) (tr m) (msr m) (set_idt i1 m))).
  destruct (register_handler_ok 0xd gp_entry 0xe 1 m1) as (i2 & E2 & L2 & G2); try (done || lia).
  destruct (register_handler_ok 0x6 ud_entry 0xe 1 (set_idt i2 m1)) as (i3 & E3 & L3 & G3); try (done || lia).
  destruct (register_handler_ok 0x0 de_entry 0xe 1 (set_idt i3 m1)) as (i4 & E4 & L4 & G4); try (done || lia).
  exists i4. split.
  - rewrite (bind_eq _ _ m () m1); [|unfold idt_init; by rewrite (bind_eq _ _ _ _ _ E1)].
    rewrite (bind_eq _ _ _ _ _ E2). change (set_idt i3 m1) with (set_idt i3 (set_idt i2 m1)) in E4.
    by rewrite (bind_eq _ _ _ _ _ E3).
  - intros v Hv. change (gate_at (set_idt i4 m) v) with (gate_at (set_idt i4 (set_idt i3 m1)) v).
    rewrite G4 by lia. change (gate_at (set_idt i3 m1) v) with (gate_at (set_idt i3 (set_idt i2 m1)) v). rewrite G3 by lia.
    rewrite G2 by lia. change (gate_at m1 v) with (gate_at (set_idt i1 m) v). rewrite G1, Hno by lia.
    unfold exception_gate. change (KERN_CS * 8) with 8.
    repeat case_decide; try done; try lia.
Qed.

(** After the boot code of [start] every interrupt vector from 32 on leads to its
    stub, an invalid opcode, a division by zero and a protection fault to their
    handlers on the exception stack, and no gate can be called by a program; the
    selectors that SYSCALL and SYSRET load are the kernel's and the user's 64-bit
    code and their stacks; system calls enter at [syscall_entry] with every flag
    cleared; the task register points to [tss]; the controller is acknowledged for
    vectors 32 to 47, and interrupts are off. *)
Theorem start_cpu_correct :
  0 <= int_entry -> int_entry + 16 * 224 <= 2 ^ 64 -> 0 <= gp_entry < 2 ^ 64 -> 0 <= ud_entry < 2 ^ 64 ->
  0 <= de_entry < 2 ^ 64 -> 0 <= tss_addr < 2 ^ 64 ->
  exists m star, start_cpu machine0 = Done () m
    /\ (forall v, 0 <= v < 256 -> gate_at m v
         = Some (if decide (32 <= v) then mkGate (stub v) 8 0 0xE 0 true else exception_gate v))
    /\ msr m !! MSR_STAR = Some star
    /\ segment_at m (syscall_cs star) = Some (mkSegment true 0 true true)
    /\ segment_at m (syscall_cs star + 8) = Some (mkSegment false 0 true false)
    /\ segment_at m (sysret_cs star) = Some (mkSegment true 3 true true)
    /\ segment_at m (sysret_ss star) = Some (mkSegment false 3 true false)
    /\ msr m !! MSR_LSTAR = Some (u64 syscall_entry) /\ msr m !! MSR_SFMASK = Some 0xffffffff
    /\ decode_system <$> pair_at (gdt m) (Z.to_nat (tr m / 8)) = Some (mkSystem tss_addr 104 9 true) /\ tss m = tss_after
    /\ (forall v, 0 <= v < 256 -> eoitable (tables m) !! Z.to_nat v = Some (if decide (32 <= v < 48) then Some eoi_fn else None))
    /\ interrupt_disabled m = 1.
Proof.
  intros H0 H1 Hg Hu Hd Ht. unfold Boot.start_cpu.
  destruct (before_idt_ok (idt_init idt_addr int_entry;; register_handler 0xd gp_entry 0xe 1;;
    register_handler 0x6 ud_entry 0xe 1;; register_handler 0x0 de_entry 0xe 1)) as (m & [B1 B2 [B3 B3'] B4 (B5 & B6 & B7) B8] & ->).
  destruct (idt_part_ok m) as (i & -> & G); try (done || lia); [by rewrite B1|intros; by apply gate_idt0|].
  destruct (tss_desc_decode Ht) as [Hb Hdec].
  eexists _, star_value. split; [reflexivity|]. unfold segment_at. cbn [msr gdt tr tss tables set_idt set_off set_regs interrupt_disabled].
  rewrite B2, B3, B3', B5, B6, B7, B8. split; [exact G|]. split_and!; try reflexivity.
  - change (Z.to_nat (48 / 8)) with 6%nat. rewrite pair_at_put by (done || (cbn; lia)). cbn. by rewrite Hdec.
  - cbn [eoitable]. intros v Hv. unfold eois. case_decide.
    + rewrite lookup_app_r by (rewrite length_replicate; lia). rewrite lookup_app_l by (rewrite !length_replicate; lia).
      apply lookup_replicate_2. rewrite length_replicate. lia.
    + destruct (Z.ltb_spec v 32).
      * rewrite lookup_app_l by (rewrite length_replicate; lia). apply lookup_replicate_2. lia.
      * rewrite !lookup_app_r by (rewrite !length_replicate; lia). rewrite !length_replicate. apply lookup_replicate_2. lia.
Qed.

(** The bitmap of ports begins at offset 0 of [tss], which [setup_tss] leaves in
    [iobase]: programs may use the ports whose bits are in the unused fields, those
    of the keyboard controller (0x60, 0x64) and the clock among them. *)
Lemma user_ports_open port : 96 <= port < 224 -> io_permitted tss_after 104 port = true.
Proof.
  intros Hp. unfold io_permitted. cbn [iobase tss_after]. rewrite Z.add_0_l.
  assert (12 <= port / 8 < 28) as Hi by (split; [apply Z.div_le_lower_bound|apply Z.div_lt_upper_bound]; lia).
  destruct (Z.leb_spec (port / 8 + 1) 104); [|lia]. cbn [andb].
  assert (forall n, (12 <= n < 28)%nat -> tss_bytes tss_after !! n = Some 0) as Hn.
  { intros n Hn. do 28 (destruct n as [|n]; [try lia; reflexivity|]). lia. }
  rewrite Hn by lia. by rewrite Z.testbit_0_l.
Qed.
End boot.

Lemma start_cpu_correct_witness :
  exists m star, start_cpu 0xffffffff80210000 0xffffffff80211000 0xffffffff80212000 0xffffffff80213000 0xffffffff80214000
      0xffffffff80200100 0xffffffff80200200 0xffffffff80201000 0xffffffff80201010 0xffffffff80201020 machine0 = Done () m
    /\ (forall v, 0 <= v < 256 -> gate_at m v
         = Some (if decide (32 <= v) then mkGate (stub 0xffffffff80200200 v) 8 0 0xE 0 true
                 else exception_gate 0xffffffff80201000 0xffffffff80201010 0xffffffff80201020 v))
    /\ msr m !! MSR_STAR = Some star
    /\ segment_at m (syscall_cs star) = Some (mkSegment true 0 true true)
    /\ segment_at m (syscall_cs star + 8) = Some (mkSegment false 0 true false)
    /\ segment_at m (sysret_cs star) = Some (mkSegment true 3 true true)
    /\ segment_at m (sysret_ss star) = Some (mkSegment false 3 true false)
    /\ msr m !! MSR_LSTAR = Some (u64 0xffffffff80200100) /\ msr m !! MSR_SFMASK = Some 0xffffffff
    /\ decode_system <$> pair_at (gdt m) (Z.to_nat (tr m / 8)) = Some (mkSystem 0xffffffff80212000 104 9 true)
    /\ tss m = tss_after 0xffffffff80213000 0xffffffff80214000
    /\ (forall v, 0 <= v < 256 -> eoitable (tables m) !! Z.to_nat v = Some (if decide (32 <= v < 48) then Some eoi_fn else None))
    /\ interrupt_disabled m = 1.
Proof. apply start_cpu_correct; lia. Defined.

(** A breakpoint has no gate, and neither have the faults that follow from that: the
    processor resets when a program executes INT3. *)
Example breakpoint_resets gp ud de : exception_gate gp ud de 3 = no_gate /\ exception_gate gp ud de 11 = no_gate
  /\ exception_gate gp ud de 8 = no_gate.
Proof. done. Qed.

(** *** The interrupt controllers and the timer *)
(** An acknowledgement goes to the second controller exactly for its lines. *)
Lemma i8259_int_eoi_ok v m : 32 <= v < 48 -> i8259_int_eoi v m =
  Done 0 (set_out (port_out m ++ (if 40 <=? v then [(0x80, 0); (0xA0, 0x20)] else []) ++ [(0x80, 0); (0x20, 0x20)]) m).
Proof.
  intros Hv. unfold i8259_int_eoi, _i8259_eoi. assert (u8 (v - 32) = v - 32) as -> by (unfold u8, wrap; rewrite Z.mod_small; lia).
  destruct (Z.leb_spec 8 (v - 32)), (Z.leb_spec 40 v); try lia; unfold when, io_wait, boot_outb, modify, mbind, M_bind, mret, M_ret;
    destruct m; cbn; by rewrite <- !app_assoc.
Qed.

(** [timer_init] keeps the nesting counter and sets the divisor to 29102: 41 ticks a
    second of a clock of 1193182 Hz, not the 65535 of the comment. *)
Lemma timer_init_ok m : tables m = mkTables (replicate 224 None) eois -> 0 <= interrupt_disabled m ->
  timer_init m = Done () (set_tables (mkTables (Some pit_fn :: replicate 223 None) eois)
    (set_out (port_out m ++ [(0x43, 0x36); (0x40, 0xAE); (0x40, 0x71)]) m)).
Proof.
  intros Et Hi. unfold timer_init. rewrite (bind_eq _ _ _ _ _ (disable_eq _)).
  set (m1 := set_irq _ m). set (m2 := set_out (port_out m ++ [(0x43, 0x36); (0x40, 0xAE); (0x40, 0x71)]) m1).
  transitivity ((on_tables (int_register_handler 32 pit_fn);; enable_interrupts) m2).
  { unfold boot_outb, modify, mbind, M_bind. destruct m; cbn. by rewrite <- !app_assoc. }
  rewrite (bind_eq _ _ m2 0 (set_tables (mkTables (Some pit_fn :: replicate 223 None) eois) m2)).
  2: { unfold on_tables. change (tables m2) with (tables m). by rewrite Et. }
  rewrite enable_eq by (cbn; lia). replace (irq (set_tables (mkTables (Some pit_fn :: replicate 223 None) eois) m2) - 1) with (interrupt_disabled m) by (cbn; lia).
  by destruct m.
Qed.
Example timer_rate : 1193182 / (0xAE + 256 * 0x71) = 41.
Proof. done. Qed.
